(* ===== verification/_CoqProject ===== *)
-Q . S2P
Prelude.v
GoStrings.v
Encoding.v
Regex.v
Models.v
Validation.v
Limits.v
Revocation.v
AuthCache.v
RateLimit.v
GrantStore.v
QueryStore.v
Crypto.v
Accounts.v
ApiKeys.v
AccountSafety.v
AccountTheorems.v
Servers.v
Dial.v
ConnCheck.v
MongoWire.v
TNS.v
Dump.v
PgText.v
PgSession.v
ProxyAuth.v
Recorder.v
MySqlSession.v
MongoBson.v
MongoSession.v
MongoUpstream.v
MySqlUpstream.v
LoginTracker.v
Endpoints.v
ApiBase.v
ApiAuth.v
ApiUsers.v
ApiDevice.v
ApiGroups.v
ApiGrants.v
ApiRoutes.v
ApiSafety.v
ApiAdmins.v
ApiSessions.v
ApiOAuth.v
ApiSlack.v
ApiObserve.v
ApiServers.v
OracleValues.v
OracleTtc.v
OracleRows.v
OracleSession.v
O5Logon.v
OracleAuth.v
OracleAuthLaws.v
OracleLogin.v
OracleUpstream.v
PgScram.v
PgUpstream.v
Configuration.v
SlackNotify.v
Listeners.v
Lifecycle.v
