(* ===== verification/Prelude.v ===== *)
(** * dbbat: a database access proxy, modelled and verified

    dbbat sits between database clients and servers.  Clients authenticate to
    it, it looks up an access grant (who, which database, from when to when, with
    which controls and quotas), connects upstream with stored credentials, relays
    the wire protocol, refuses what the grant does not allow, records every query
    with its rows and bytes, and stops sessions whose grant is used up, expired
    or revoked.  Grants come from definitions and requests that an administrator
    (or a policy) approves.  The program is Go, under [src/internal/].

    ** Files

    - [Prelude.v]: Go outcomes ([res]: value, error, panic), machine integers,
      byte codecs, slices, reading from a stream, tactics and hint databases.
    - [GoStrings.v], [Encoding.v], [Regex.v]: what the code uses of [strings],
      [strconv], [encoding/base64] and [regexp], the matcher proved against a
      semantics of patterns.
    - [Models.v]: the rows and predicates of [store/models.go].
    - [Validation.v]: [proxy/shared/validation.go], the statement and command
      checks every proxy calls.
    - [Limits.v]: [proxy/shared/limits.go], [byte_counter.go], [appname.go]: the
      limit guard and its watchdog, byte counters, upstream names.
    - [Revocation.v]: [cache/revocation.go], the registry that tells live
      sessions of a revocation, with an abstract specification.
    - [AuthCache.v]: [cache/auth.go], cached password verdicts.
    - [RateLimit.v]: [api/ratelimit.go], sliding windows per user and address.
    - [GrantStore.v]: [store/grants.go], [grant_definitions.go],
      [grant_requests.go], [connections.go]: the tables as finite maps, every
      operation with its statements, transactions and failures.
    - [QueryStore.v]: [store/queries.go]: the query log and paged rows.
    - [Crypto.v]: [internal/crypto]: password hashes, AES-GCM with associated
      data, Oracle verifiers.
    - [Accounts.v], [ApiKeys.v]: [store/users.go], [user_identities.go],
      [user_groups.go], [mongo_scram.go], [audit.go], [api_keys.go],
      [oauth_states.go], [device_auth.go]; [AccountSafety.v] is their invariant
      and step relation, [AccountTheorems.v] the theorems on histories.
    - [Servers.v]: [store/servers.go] and the storage-database guard of
      [store.go]; [Dial.v]: [proxy/shared/dial.go], SSH tunnels; [ConnCheck.v]:
      [proxy/conncheck], checks that a server can be reached and logged in to.
    - [MongoWire.v]: [proxy/mongodb/wire.go]: framing, OP_MSG, compression.
    - [TNS.v]: [proxy/oracle/tns.go]: Oracle packets.
    - [Dump.v]: [internal/dump]: recorded sessions.
    - [PgText.v], [PgSession.v]: [proxy/postgresql/intercept.go],
      [session.go], [auth.go]: statements and values as text; the session as a
      state machine whose steps are the messages of the two relay loops.
    - [ProxyAuth.v]: [proxy/postgresql/auth.go], [proxy/mysql/auth.go],
      [cachingsha2.go]: who is let in, over the stores.
    - [Recorder.v]: the bookkeeping the MySQL and MongoDB proxies share.
    - [MySqlSession.v]: [proxy/mysql/intercept.go], [result.go], [session.go].
    - [MongoBson.v], [MongoSession.v]: [proxy/mongodb]: documents;
      authentication, the pumps, capture, cursors.
    - [PgScram.v], [PgUpstream.v]: [proxy/postgresql/upstream_scram.go],
      [upstream_tls.go], [upstream.go]: the proxy as a client of the real server;
      [MongoUpstream.v], [MySqlUpstream.v]: the same of the other two.
    - [LoginTracker.v], [Endpoints.v]: the failed-login tracker of
      [api/middleware.go]; [store/global_parameters.go], [api/connection_url.go].
    - [ApiBase.v]: the middleware chain and the monad [H] of handlers over
      [ApiState]; [ApiAuth.v], [ApiUsers.v], [ApiDevice.v], [ApiGroups.v],
      [ApiGrants.v]: the handlers of [internal/api], file by file; [ApiRoutes.v]:
      the route table, one [route] constructor per endpoint; [ApiSafety.v],
      [ApiAdmins.v], [ApiSessions.v]: what holds of every request, of
      administrators and of credentials; [ApiOAuth.v]: [api/oauth.go] and
      [auth/slack/provider.go], logins through a provider; [ApiSlack.v]:
      [slack_interactions.go], [slack_socketmode.go], decisions by a click;
      [ApiObserve.v]: [observability.go], sessions, queries and dumps;
      [ApiServers.v]: [api/servers.go], [servers_connectivity.go], a second route
      table and what holds of every kind of request.
    - [OracleValues.v], [OracleTtc.v], [OracleRows.v]: [proxy/oracle/types.go],
      [ttc.go], [ttc_decode.go], [describe.go], [ttc_oer.go]: values, statements
      and results in TTC messages; [OracleSession.v]: [intercept.go] and the relay
      half of [session.go].
    - [O5Logon.v]: [o5logon.go], [upstream_auth_crypto.go]; [OracleAuth.v],
      [OracleAuthLaws.v]: [ttc_auth.go], [phase1_forward.go], [phase2_forward.go],
      the messages of [upstream_auth_client.go], and their laws; [OracleLogin.v]:
      [connect_descriptor.go], [markers.go] and the login half of [session.go];
      [OracleUpstream.v]: [relay_preauth.go], [auth_svr_response.go], the rest of
      [upstream_auth_client.go] and the composition [run].
    - [Configuration.v]: [internal/config/config.go] and the flags of [main.go].
    - [SlackNotify.v]: [notify/slack.go], the messages about grant requests, and
      the events of [api/grant_requests.go] they are made of.
    - [Listeners.v]: [server.go] and [tls.go] of the four proxies: the accept loops,
      their session goroutines and their shutdown as schedules of events, and the
      loading of certificates and keys.
    - [Lifecycle.v]: the [Run] functions of the four sessions with their deferred
      calls, and the peek at the first byte of a MongoDB client.

    The validator, the limit guard and the revocation registry are used by the
    sessions: [PgSession] calls [Validation] and [Limits]; [Revocation] states
    its last theorem about the [Limits] guard of a registered session.
    [QueryStore] extends the database of [GrantStore], whose usage counters it
    feeds.  [ProxyAuth] composes [Accounts], [ApiKeys], [Servers], [GrantStore],
    [AuthCache], [Crypto] and [Revocation]; [MongoSession] adds SCRAM to it.
    [Dial] runs on the tables [Servers] keeps consistent; [ConnCheck] dials with it and
    [ApiServers] runs [ConnCheck] on the state of the API.  [Recorder] writes
    through [QueryStore] and [GrantStore].  The API handlers run the operations of
    [Accounts], [ApiKeys], [GrantStore], [Servers] and [Endpoints] on one state;
    a handler is [H A], which goes on with a value or ends with a response, and
    [steps], [keeps] and [triple] are its reasoning rules.  A login of an Oracle
    client runs [OracleLogin] between the two halves of [OracleUpstream]: relay
    and phase 1 before it, phase 2 and the AUTH OK after it.

    ** How the code is represented

    Pure functions are functions.  A stateful component is a record and each of
    its methods a function on it; goroutines and sequences of calls are step
    relations closed under [rtc], or runs over lists of events.  Errors are
    values of one inductive type per component; a run-time panic is the outcome
    [Panic].  Time is an argument (nanoseconds), as are generated keys and the
    outcome of each SQL statement, so nothing is hidden in the environment.
    Integers are [Z], wrapped where the width can matter.  A mutex-protected
    method is one atomic step.

    Code outside the repository is a parameter with its documented laws: the
    password verifier, a collision-free digest and the iteration order of maps
    ([AuthCache]); Argon2id, AES-GCM and the hash functions ([Crypto]); the text
    of UUIDs ([Models]); BSON ([Validation], [MongoBson]); SCRAM ([Accounts],
    [MongoSession]); RSA ([ProxyAuth]); SSH keys ([Dial]); DEFLATE ([MongoWire]);
    JSON and base64 of cursors and headers ([QueryStore], [Dump]); float and JSON
    text ([PgText], [MySqlSession]); the AES block and MD5 ([O5Logon]); SHA-256,
    HMAC and PBKDF2 ([PgScram]); the login libraries
    ([ConnCheck]); URL parsing and case mapping ([Servers]); accents and the case of
    names ([ApiOAuth]); the Slack library ([ApiSlack]); the SCRAM
    client and the MySQL client ([MongoUpstream], [MySqlUpstream]); koanf
    ([Configuration]).  Each has a concrete instance with which the witnesses run.

    ** Fuel

    Recursion that is not structural takes fuel: parsers the length of their
    input plus one ([MongoWire.parse_sections], [read_docs]), since each round
    consumes a byte; readers of dumps and pages one more than the packets or
    rows there are; walks along bastion references one more than there are
    servers ([Servers], [Dial]).  The Oracle parsers count down the bytes left, of
    which each round takes one; redirects count the four connections the code
    allows; the upstream exchange of MongoDB counts the bytes of the stream.  The theorems that exclude [Panic] or state the result show
    that this is enough.

    ** What is proved

    - Statements: what a read-only grant, the MySQL pattern table and the MongoDB
      classification refuse; that only admitted statements leave a PostgreSQL
      session in any interleaving.
    - Limits: quotas, expiry and revocation trip and stay tripped, the watchdog
      reports once, a revoked session is stopped, a used-up grant refuses the
      next command.
    - Store: approval is atomic and final and makes one grant with the
      definition's terms; a revoked grant is never active again; lookups are
      exact; pages cover all rows; the log feeds the quota counters.
    - Accounts: the tables stay consistent; a key works from creation to
      revocation or expiry; verifiers and salts; device codes.
    - Authentication: a client of the PostgreSQL, MySQL and MongoDB proxies that is
      let in is authorised by live rows and proven by what its own messages carry;
      PostgreSQL accepts the credentials MySQL and MongoDB's PLAIN accept; the
      caching_sha2_password exchange recovers the password.
    - Servers: chains of bastions end, the walks along them terminate on any
      table, pinned host keys are enforced.
    - Accounting: a session's counters equal its records, which, for MySQL and
      MongoDB, add up to the wire traffic; a query that runs alone is recorded
      exactly.
    - Life of a session: what a session acquired is given back on every way out but
      one, and a shutdown leaves rows open; listeners fail closed without their
      TLS material, and count the sessions they started.
    - Cache and limiter: bounded, sound, exact.
    - Wire formats: no panics, parsers accept exactly their grammar, relayed
      bytes are the inspected bytes, round trips of frames, replies, compressed
      frames, packets and dumps.
    - Connectivity checks: a report is a true account of the dials and the login that
      were made, as far as quoted texts do not imitate the dialer's; checking
      changes no row and no pinned key.
    - API: a request without the admin role changes nothing but what belongs to
      the caller; API keys mint no credentials and decide nothing; requests move
      the tables only by store operations; served one after the other, requests
      leave an administrator; password guesses are bounded in time, by nine and the
      number of requests in flight; tokens and
      device keys work from issue to use; without the admin role servers are seen in
      summary only and sessions only if they are the caller's; the secrets given
      for a server reach the secret columns of its row and nothing else; an OAuth
      login is for the user the provider vouches for and spends its state; a click in
      Slack is signed, by an administrator, and decides as the web API does; the buttons
      of a message stand for decisions on its own request and go when it is decided.
    - Oracle: only admitted statements are forwarded by the routes that check
      them, and one route does not; quotas hold up to one statement; a row stream
      and a number read back; a challenge lets a client with the password prove it;
      a client that is let in is authorised by live rows and proved one of its keys
      or sent no password at all, which is let pass; the login is withheld
      from the upstream and the stored credentials are spent for an admitted client
      only; the confirmation the client checks is valid under its key.
    - Upstream: the SCRAM client and a server that knows the password accept each
      other; no credential leaves on a channel weaker than the configured mode; a
      read-only session is set read-only before the client is told that it is
      ready, and is told exactly what the upstream said.
    - Configuration: the key survives a restart, the flags win, base URLs and redirect
      rules have their normal form.
    - Deviations, each proved on the model: packets and statements that make the
      PostgreSQL proxy panic, pipelined executions that escape the log, large
      TNS packets that are cut, statements that pass the controls, a cache key
      that survives a password change, an Oracle login without a password,
      upstreams that skip their proof, an account opened by an e-mail address,
      sessions that a shutdown or a late revocation misses.

    ** What is not modelled

    Sockets, logging, HTTP parsing and JSON of the API, the web front end,
    migrations and process start. *)

From Stdlib Require Import ZArith Lia List Bool String Ascii.
From stdpp Require Import base list gmap strings.

Open Scope Z_scope.

(** ** Go outcomes

    A fallible Go function returns [(value, error)]; a slice expression or an
    allocation out of range panics.  [res E A] keeps the three outcomes apart. *)
Inductive res (E A : Type) : Type :=
| Ok (a : A)
| Err (e : E)
| Panic.
Arguments Ok {E A} a.
Arguments Err {E A} e.
Arguments Panic {E A}.

Declare Scope go_scope.
Delimit Scope go_scope with go.

Definition rbind {E A B : Type} (m : res E A) (k : A -> res E B) : res E B :=
  match m with
  | Ok a => k a
  | Err e => Err e
  | Panic => Panic
  end.

Notation "'let!' x ':=' m 'in' k" := (rbind m (fun x => k))
  (at level 10, x name, m at level 100, k at level 200) : go_scope.
Notation "'let!' ' p ':=' m 'in' k" := (rbind m (fun x => match x with p => k end))
  (at level 10, p pattern, m at level 100, k at level 200) : go_scope.
(** [if c { return err }] *)
Notation "'guard!' c 'else' e 'in' k" := (if c then k else Err e)
  (at level 10, c at level 100, e at level 100, k at level 200) : go_scope.

Open Scope go_scope.

(** Split every boolean connective and comparison in the context. *)
Ltac bools :=
  repeat match goal with
  | H : (_ && _)%bool = true |- _ => apply andb_true_iff in H; destruct H
  | H : (_ && _)%bool = false |- _ => apply andb_false_iff in H
  | H : (_ || _)%bool = false |- _ => apply orb_false_iff in H; destruct H
  | H : (_ || _)%bool = true |- _ => apply orb_true_iff in H
  | H : negb _ = true |- _ => apply negb_true_iff in H
  | H : negb _ = false |- _ => apply negb_false_iff in H
  | H : Z.ltb _ _ = true |- _ => apply Z.ltb_lt in H
  | H : Z.ltb _ _ = false |- _ => apply Z.ltb_ge in H
  | H : Z.leb _ _ = true |- _ => apply Z.leb_le in H
  | H : Z.leb _ _ = false |- _ => apply Z.leb_gt in H
  | H : Z.eqb _ _ = true |- _ => apply Z.eqb_eq in H
  | H : Z.eqb _ _ = false |- _ => apply Z.eqb_neq in H
  | H : String.eqb _ _ = true |- _ => apply String.eqb_eq in H
  | H : String.eqb _ _ = false |- _ => apply String.eqb_neq in H
  end.

Ltac blia := bools; lia.

Definition is_ok {E A} (r : res E A) : bool := match r with Ok _ => true | _ => false end.

Lemma rbind_Ok {E A B} (m : res E A) (k : A -> res E B) b :
  rbind m k = Ok b <-> exists a, m = Ok a /\ k a = Ok b.
Proof.
  destruct m; simpl; split; try (intros (?&?&?); congruence); try congruence.
  eauto.
Qed.

Lemma rbind_not_Panic {E A B} (m : res E A) (k : A -> res E B) :
  m <> Panic -> (forall a, m = Ok a -> k a <> Panic) -> rbind m k <> Panic.
Proof. destruct m; simpl; intros; try congruence; eauto. Qed.

(** ** Machine integers *)

Definition u8 (z : Z) : Z := z mod 2 ^ 8.
Definition u16 (z : Z) : Z := z mod 2 ^ 16.
Definition u32 (z : Z) : Z := z mod 2 ^ 32.
Definition u64 (z : Z) : Z := z mod 2 ^ 64.

(** Two's-complement reinterpretation of the low [w] bits. *)
Definition sint (w z : Z) : Z := (z + 2 ^ (w - 1)) mod 2 ^ w - 2 ^ (w - 1).
Definition i32 (z : Z) : Z := sint 32 z.
Definition i64 (z : Z) : Z := sint 64 z.

Lemma sint_small w z : 0 < w -> - 2 ^ (w - 1) <= z < 2 ^ (w - 1) -> sint w z = z.
Proof.
  intros Hw Hz. unfold sint.
  assert (2 ^ w = 2 * 2 ^ (w - 1)) as E
    by (rewrite <- Z.pow_succ_r by lia; f_equal; lia).
  rewrite Z.mod_small; lia.
Qed.

Lemma sint_bound w z : 0 < w -> - 2 ^ (w - 1) <= sint w z < 2 ^ (w - 1).
Proof.
  intros Hw. unfold sint.
  assert (2 ^ w = 2 * 2 ^ (w - 1)) as E
    by (rewrite <- Z.pow_succ_r by lia; f_equal; lia).
  pose proof (Z.mod_pos_bound (z + 2 ^ (w - 1)) (2 ^ w)). lia.
Qed.

Lemma sint_mod w z : 0 < w -> sint w (z mod 2 ^ w) = sint w z.
Proof. intros. unfold sint. by rewrite Zplus_mod_idemp_l. Qed.

Lemma mod_sint w z : 0 < w -> (sint w z) mod 2 ^ w = z mod 2 ^ w.
Proof.
  intros. unfold sint. rewrite Zminus_mod_idemp_l. f_equal. lia.
Qed.

(** ** Bytes and their codecs *)

Abbreviation bytes := (list Z).
Definition is_byte (b : Z) : Prop := 0 <= b < 256.
Definition wf_bytes (bs : bytes) : Prop := Forall is_byte bs.

Lemma wf_bytes_check bs : forallb (fun b => (0 <=? b) && (b <? 256)) bs = true -> wf_bytes bs.
Proof.
  intros H. apply Forall_forall. intros b Hb. apply list_elem_of_In in Hb.
  rewrite forallb_forall in H. specialize (H b Hb). bools. by split.
Qed.

Definition zlen {A} (l : list A) : Z := Z.of_nat (length l).

(** [binary.LittleEndian.UintN] of a byte slice and [PutUintN] of [n] bytes. *)
Fixpoint le_get (bs : bytes) : Z :=
  match bs with
  | [] => 0
  | b :: bs => b + 256 * le_get bs
  end.

Fixpoint le_put (n : nat) (v : Z) : bytes :=
  match n with
  | O => []
  | S n => v mod 256 :: le_put n (v / 256)
  end.

(** The [binary.BigEndian] pair. *)
Definition be_get (bs : bytes) : Z := le_get (rev bs).
Definition be_put (n : nat) (v : Z) : bytes := rev (le_put n v).

Lemma length_le_put n v : length (le_put n v) = n.
Proof. revert v; induction n; simpl; auto. Qed.

Lemma length_be_put n v : length (be_put n v) = n.
Proof. unfold be_put. by rewrite length_rev, length_le_put. Qed.

Lemma wf_le_put n v : wf_bytes (le_put n v).
Proof.
  revert v; induction n as [|n IH]; intros v; simpl; constructor; [|apply IH].
  unfold is_byte. pose proof (Z.mod_pos_bound v 256). lia.
Qed.

Lemma wf_be_put n v : wf_bytes (be_put n v).
Proof. apply Forall_rev, wf_le_put. Qed.

Lemma le_get_put n v : le_get (le_put n v) = v mod 256 ^ Z.of_nat n.
Proof.
  revert v; induction n as [|n IH]; intros v; cbn [le_get le_put].
  - by rewrite Z.mod_1_r.
  - rewrite IH, Nat2Z.inj_succ, Z.pow_succ_r by lia.
    rewrite Z.rem_mul_r by (try apply Z.pow_pos_nonneg; lia). lia.
Qed.

Lemma be_get_put n v : be_get (be_put n v) = v mod 256 ^ Z.of_nat n.
Proof. unfold be_get, be_put. by rewrite rev_involutive, le_get_put. Qed.

Lemma le_put_get bs : wf_bytes bs -> le_put (length bs) (le_get bs) = bs.
Proof.
  induction 1 as [|b bs Hb _ IH]; cbn [le_put le_get length]; [done|].
  unfold is_byte in Hb. f_equal.
  - rewrite Z.mul_comm, Z_mod_plus_full, Z.mod_small; lia.
  - rewrite Z.mul_comm, Z_div_plus_full, Z.div_small by lia. by rewrite Z.add_0_l.
Qed.

Lemma be_put_get bs : wf_bytes bs -> be_put (length bs) (be_get bs) = bs.
Proof.
  intros. unfold be_put, be_get. rewrite <- (length_rev bs), le_put_get.
  - apply rev_involutive.
  - by apply Forall_rev.
Qed.

Lemma le_get_bound bs : wf_bytes bs -> 0 <= le_get bs < 256 ^ zlen bs.
Proof.
  unfold zlen. induction 1 as [|b bs Hb _ IH]; cbn [le_get length]; [lia|].
  unfold is_byte in Hb. rewrite Nat2Z.inj_succ, Z.pow_succ_r by lia. lia.
Qed.

Lemma be_get_bound bs : wf_bytes bs -> 0 <= be_get bs < 256 ^ zlen bs.
Proof.
  intros H. unfold be_get, zlen. rewrite <- (length_rev bs).
  by apply le_get_bound, Forall_rev.
Qed.

(** ** Slices *)

(** [s[lo:hi]] on a slice whose capacity is its length; [None] is the panic. *)
Definition slice {A} (lo hi : Z) (l : list A) : option (list A) :=
  if (0 <=? lo) && (lo <=? hi) && (hi <=? zlen l)
  then Some (take (Z.to_nat (hi - lo)) (drop (Z.to_nat lo) l)) else None.

Lemma slice_Some {A} lo hi (l s : list A) :
  slice lo hi l = Some s ->
  0 <= lo /\ lo <= hi /\ hi <= zlen l /\ zlen s = hi - lo.
Proof.
  unfold slice, zlen. destruct (_ && _) eqn:E; [|done]. intros [= <-].
  rewrite length_take, length_drop. lia.
Qed.

(** ** Reading from a connection

    A connection (or a file) that is being read is the list of the bytes it
    still has to give.  [io.ReadFull] either fills the buffer or fails:
    [io.EOF] when not one byte could be read, [io.ErrUnexpectedEOF] after a
    short read. *)
Inductive io_error := EOF | UnexpectedEOF.

Definition read_full (n : Z) (s : bytes) : res io_error (bytes * bytes) :=
  if n <? 0 then Panic
  else if n <=? zlen s then Ok (take (Z.to_nat n) s, drop (Z.to_nat n) s)
  else if zlen s =? 0 then Err EOF else Err UnexpectedEOF.

Lemma read_full_Ok n s a r :
  read_full n s = Ok (a, r) <-> 0 <= n /\ s = a ++ r /\ zlen a = n.
Proof.
  unfold read_full, zlen. split.
  - destruct (n <? 0) eqn:E1; [done|]. destruct (n <=? _) eqn:E2.
    + intros [= <- <-]. rewrite take_drop, length_take. split_and!; [lia|done|lia].
    + by destruct (_ =? 0).
  - intros (Hn & -> & Hl). rewrite length_app.
    destruct (n <? 0) eqn:E1; [blia|]. destruct (n <=? _) eqn:E2; [|blia].
    rewrite take_app_length', drop_app_length' by lia. done.
Qed.

Lemma read_full_app n a r : zlen a = n -> read_full n (a ++ r) = Ok (a, r).
Proof. intros <-. apply read_full_Ok. split_and!; [unfold zlen; lia|done|done]. Qed.

Lemma read_full_not_Panic n s : 0 <= n -> read_full n s <> Panic.
Proof. unfold read_full. intros. repeat case_match; try done. lia. Qed.

(** ** Lengths *)

Lemma zlen_app {A} (l1 l2 : list A) : zlen (l1 ++ l2) = zlen l1 + zlen l2.
Proof. unfold zlen. rewrite length_app. lia. Qed.
Lemma zlen_cons {A} (x : A) l : zlen (x :: l) = 1 + zlen l.
Proof. unfold zlen. simpl. lia. Qed.
Lemma zlen_nil {A} : zlen ([] : list A) = 0.
Proof. done. Qed.
Lemma zlen_nonneg {A} (l : list A) : 0 <= zlen l.
Proof. unfold zlen. lia. Qed.
Lemma zlen_le_put n v : zlen (le_put n v) = Z.of_nat n.
Proof. unfold zlen. by rewrite length_le_put. Qed.
Lemma zlen_be_put n v : zlen (be_put n v) = Z.of_nat n.
Proof. unfold zlen. by rewrite length_be_put. Qed.

(** [l[lo:hi]] *)
Definition sl {E A} (lo hi : Z) (l : list A) : res E (list A) :=
  match slice lo hi l with Some s => Ok s | None => Panic end.

Lemma sl_Ok {E A} lo hi (l s : list A) :
  sl lo hi l = Ok (E := E) s <-> exists p q, l = p ++ s ++ q /\ zlen p = lo /\ zlen s = hi - lo.
Proof.
  unfold sl, slice. split.
  - destruct (_ && _) eqn:Ec; [|done]. bools. intros [= <-].
    exists (take (Z.to_nat lo) l), (drop (Z.to_nat (hi - lo)) (drop (Z.to_nat lo) l)).
    rewrite take_drop, take_drop. unfold zlen in *. rewrite !length_take, length_drop. split_and!; [done|lia|lia].
  - intros (p & q & -> & <- & Hs). unfold zlen in *. rewrite !length_app.
    replace (_ && _) with true by (symmetry; rewrite !andb_true_iff, !Z.leb_le; lia).
    rewrite Nat2Z.id, drop_app_length, <- Hs, Nat2Z.id, take_app_length. done.
Qed.

Lemma sl_mid {E A} lo hi (p s q : list A) : zlen p = lo -> zlen s = hi - lo -> sl lo hi (p ++ s ++ q) = Ok (E := E) s.
Proof. intros. apply sl_Ok. eauto. Qed.

Lemma sl_head {E A} hi (s q : list A) : zlen s = hi -> sl 0 hi (s ++ q) = Ok (E := E) s.
Proof. intros. apply (sl_mid 0 hi [] s q); [done|lia]. Qed.

Lemma sl_tail {E A} lo hi (p s : list A) : zlen p = lo -> hi = zlen (p ++ s) -> sl lo hi (p ++ s) = Ok (E := E) s.
Proof. intros <- ->. rewrite <- (app_nil_r s) at 2. apply sl_mid; [done|]. rewrite zlen_app. lia. Qed.

Lemma sl_in {E A} lo hi (l : list A) :
  0 <= lo <= hi -> hi <= zlen l ->
  exists p s q, sl lo hi l = Ok (E := E) s /\ l = p ++ s ++ q /\ zlen p = lo /\ zlen s = hi - lo.
Proof.
  intros H1 H2. destruct (sl (E := E) lo hi l) as [s| |] eqn:Ec.
  - destruct (proj1 (sl_Ok _ _ _ _) Ec) as (p & q & ?). eauto 10.
  - unfold sl  in Ec. by destruct (slice _ _ _).
  - unfold sl, slice  in Ec. destruct (_ && _) eqn:Eb; [done|].
    exfalso. rewrite (proj2 (Z.leb_le 0 lo)), (proj2 (Z.leb_le lo hi)), (proj2 (Z.leb_le hi _)) in Eb by lia. done.
Qed.

Lemma split_at {A} n (l : list A) : 0 <= n <= zlen l -> exists a b, l = a ++ b /\ zlen a = n.
Proof.
  intros H. exists (take (Z.to_nat n) l), (drop (Z.to_nat n) l). rewrite take_drop.
  split; [done|]. unfold zlen in *. rewrite length_take. lia.
Qed.

Lemma wf_app (l1 l2 : bytes) : wf_bytes (l1 ++ l2) <-> wf_bytes l1 /\ wf_bytes l2.
Proof. apply Forall_app. Qed.

(** ** Automation *)

Create HintDb go discriminated.
Create Rewrite HintDb zlen.
#[export] Hint Rewrite @zlen_app @zlen_cons @zlen_nil zlen_le_put zlen_be_put
  @length_app @length_take @length_drop length_le_put length_be_put : zlen.
#[export] Hint Resolve zlen_nonneg wf_le_put wf_be_put length_le_put length_be_put : go.

(** Simplify lengths, then linear arithmetic. *)
Ltac len := unfold zlen in *; autorewrite with zlen in *; simpl in *; lia.

(** Walk through the monadic steps of a successful run. *)
Ltac ok_steps :=
  repeat match goal with
  | H : rbind _ _ = Ok _ |- _ =>
      let a := fresh "a" in let H1 := fresh "Hstep" in
      apply rbind_Ok in H; destruct H as (a & H1 & H)
  | H : Ok _ = Ok _ |- _ => injection H as H
  | H : Err _ = Ok _ |- _ => discriminate H
  | H : Panic = Ok _ |- _ => discriminate H
  end.
