(* ===== verification/GoStrings.v ===== *)
(** * The parts of Go's [strings] package the proxies use

    A Go string is a byte sequence, here [String.string] whose [ascii] are the
    bytes.  [TrimSpace] and [ToUpper] are Unicode-aware in Go: white space
    includes fifteen multi-byte runes, and two lower-case runes outside ASCII
    have an upper-case form inside it (U+0131 gives [I], U+017F gives [S]).
    Both facts are kept.  The other non-ASCII runes map to non-ASCII runes;
    they are left alone, which no comparison with an ASCII keyword can see. *)

From Stdlib Require Import ZArith Lia List Bool String Ascii.
From stdpp Require Import base list strings.
From S2P Require Import Prelude.

Open Scope string_scope.
Open Scope Z_scope.

#[global] Arguments String.append : simpl nomatch.

Definition code (c : ascii) : Z := Z.of_nat (nat_of_ascii c).
Definition chr (z : Z) : ascii := ascii_of_nat (Z.to_nat z).
Definition slen (s : string) : Z := Z.of_nat (String.length s).

(** [strings.HasPrefix], [strings.Contains], [strings.Index]. *)
Fixpoint HasPrefix (s p : string) : bool :=
  match p, s with
  | EmptyString, _ => true
  | String b p, String a s => Ascii.eqb a b && HasPrefix s p
  | String _ _, EmptyString => false
  end.

Fixpoint Contains (s p : string) : bool :=
  HasPrefix s p ||
  match s with
  | EmptyString => false
  | String _ s => Contains s p
  end.

(** [unicode.IsSpace], on the UTF-8 encoding of one rune. *)
Definition is_space1 (c : ascii) : bool :=
  let z := code c in ((9 <=? z) && (z <=? 13)) || (z =? 32).

Definition is_space2 (c d : ascii) : bool :=           (* U+0085, U+00A0 *)
  (code c =? 194) && ((code d =? 133) || (code d =? 160)).

Definition is_space3 (c d e : ascii) : bool :=
  let c := code c in let d := code d in let e := code e in
  ((c =? 225) && (d =? 154) && (e =? 128))                        (* U+1680 *)
  || ((c =? 226) && (d =? 128)
      && (((128 <=? e) && (e <=? 138))                    (* U+2000..U+200A *)
          || (e =? 168) || (e =? 169) || (e =? 175)))    (* U+2028, 2029, 202F *)
  || ((c =? 226) && (d =? 129) && (e =? 159))                     (* U+205F *)
  || ((c =? 227) && (d =? 128) && (e =? 128)).                    (* U+3000 *)

Fixpoint TrimLeftSpace (s : string) : string :=
  match s with
  | EmptyString => EmptyString
  | String c r =>
      if is_space1 c then TrimLeftSpace r
      else match r with
           | EmptyString => s
           | String d r1 =>
               if is_space2 c d then TrimLeftSpace r1
               else match r1 with
                    | EmptyString => s
                    | String e r2 => if is_space3 c d e then TrimLeftSpace r2 else s
                    end
           end
  end.

(** The longest all-space suffix is the first one, from the left, that
    [TrimLeftSpace] empties. *)
Fixpoint TrimRightSpace (s : string) : string :=
  match s with
  | EmptyString => EmptyString
  | String c r =>
      if String.eqb (TrimLeftSpace s) "" then EmptyString else String c (TrimRightSpace r)
  end.

Definition TrimSpace (s : string) : string := TrimRightSpace (TrimLeftSpace s).

Definition upper1 (c : ascii) : ascii :=
  let z := code c in if (97 <=? z) && (z <=? 122) then chr (z - 32) else c.

Fixpoint ToUpper (s : string) : string :=
  match s with
  | EmptyString => EmptyString
  | String c r =>
      match r with
      | String d r1 =>
          if (code c =? 196) && (code d =? 177) then String "I" (ToUpper r1)
          else if (code c =? 197) && (code d =? 191) then String "S" (ToUpper r1)
          else String (upper1 c) (ToUpper r)
      | EmptyString => String (upper1 c) EmptyString
      end
  end.

(** ** Facts about [++] on strings *)

Lemma sapp_nil_r s : s ++ "" = s.
Proof. induction s; cbn [String.append]; congruence. Qed.

Lemma sapp_assoc s1 s2 s3 : (s1 ++ s2) ++ s3 = s1 ++ (s2 ++ s3).
Proof. induction s1; cbn [String.append]; congruence. Qed.

Lemma slen_app s1 s2 : slen (s1 ++ s2) = slen s1 + slen s2.
Proof. unfold slen. induction s1; cbn [String.append String.length]; lia. Qed.

Lemma slen_cons c s : slen (String c s) = 1 + slen s.
Proof. unfold slen. cbn [String.length]. lia. Qed.

Lemma HasPrefix_app s p : HasPrefix s p = true <-> exists r, s = p ++ r.
Proof.
  revert s; induction p as [|b p IH]; intros s; cbn [HasPrefix String.append].
  - split; [intros _; by exists s|by destruct s].
  - destruct s as [|a s]; [split; [done|by intros [? ?]]|].
    cbn [HasPrefix String.append]. rewrite andb_true_iff, Ascii.eqb_eq, IH. split.
    + intros [-> [r ->]]. by exists r.
    + intros [r [= -> ->]]. eauto.
Qed.

Lemma HasPrefix_self p r : HasPrefix (p ++ r) p = true.
Proof. apply HasPrefix_app. eauto. Qed.

Lemma Contains_app s p : Contains s p = true <-> exists l r, s = l ++ p ++ r.
Proof.
  induction s as [|c s IH]; cbn [Contains]; rewrite orb_true_iff, HasPrefix_app.
  - split.
    + intros [[r Hr]|?]; [|done]. exists "", r. done.
    + intros (l & r & Hl). left. destruct l; [|done]. eauto.
  - rewrite IH. split.
    + intros [[r Hr]|(l & r & ->)]; [by exists "", r|]. by exists (String c l), r.
    + intros (l & r & Hl). destruct l as [|a l]; [left; eauto|].
      right. injection Hl as -> ->. eauto.
Qed.

(** ** ASCII text *)

Definition is_ascii1 (c : ascii) : bool := code c <? 128.

Fixpoint all_chars (P : ascii -> bool) (s : string) : bool :=
  match s with
  | EmptyString => true
  | String c s => P c && all_chars P s
  end.

Lemma all_chars_app P s1 s2 : all_chars P (s1 ++ s2) = all_chars P s1 && all_chars P s2.
Proof. induction s1; cbn [String.append all_chars]; rewrite ?IHs1, ?andb_assoc; done. Qed.

Lemma length_substring : forall (s : string) n, (n <= String.length s)%nat -> String.length (String.substring 0 n s) = n.
Proof.
  induction s as [|c s IH]; intros [|n] H; cbn [String.length String.substring] in *; [done|lia|done|]. f_equal. apply IH. lia.
Qed.
Lemma all_chars_substring P : forall n s, all_chars P s = true -> all_chars P (String.substring 0 n s) = true.
Proof. induction n as [|n IH]; intros [|c s] H; try done. cbn in *. apply andb_true_iff in H as [-> H]. by apply IH. Qed.

(** [w] is written in ASCII letters whose upper-case form is [kw]. *)
Definition same_word (w kw : string) : bool :=
  all_chars is_ascii1 w && String.eqb (ToUpper w) kw.

Lemma upper_ascii_cons c s :
  is_ascii1 c = true -> ToUpper (String c s) = String (upper1 c) (ToUpper s).
Proof.
  unfold is_ascii1. intros H. cbn [ToUpper]. destruct s as [|d r]; [done|].
  destruct (code c =? 196) eqn:E1; [blia|].
  destruct (code c =? 197) eqn:E2; [blia|]. done.
Qed.

Lemma ToUpper_ascii_app w r :
  all_chars is_ascii1 w = true -> ToUpper (w ++ r) = ToUpper w ++ ToUpper r.
Proof.
  induction w as [|c w IH]; cbn [all_chars String.append]; intros H; [done|].
  bools. rewrite !upper_ascii_cons, IH by done. done.
Qed.

Lemma space_not_ascii_2 c d : is_ascii1 c = true -> is_space2 c d = false.
Proof.
  unfold is_ascii1, is_space2. intros. destruct (code c =? 194) eqn:?; [blia|done].
Qed.

Lemma space_not_ascii_3 c d e : is_ascii1 c = true -> is_space3 c d e = false.
Proof.
  unfold is_ascii1, is_space3. intros H. bools.
  rewrite (proj2 (Z.eqb_neq (code c) 225)), (proj2 (Z.eqb_neq (code c) 226)),
    (proj2 (Z.eqb_neq (code c) 227)) by lia. done.
Qed.

Lemma TrimLeftSpace_stop c r :
  is_ascii1 c = true -> is_space1 c = false -> TrimLeftSpace (String c r) = String c r.
Proof.
  intros Ha Hs. cbn [TrimLeftSpace]. rewrite Hs.
  destruct r as [|d r1]; [done|]. rewrite space_not_ascii_2 by done.
  destruct r1 as [|e r2]; [done|]. by rewrite space_not_ascii_3.
Qed.

(** Leading ASCII white space is dropped. *)
Lemma TrimLeftSpace_ws ws r :
  all_chars is_space1 ws = true -> TrimLeftSpace (ws ++ r) = TrimLeftSpace r.
Proof.
  induction ws as [|c ws IH]; cbn [all_chars String.append]; intros H; [done|].
  bools. cbn [TrimLeftSpace].
  match goal with H : is_space1 c = true |- _ => rewrite H end. by apply IH.
Qed.

Definition is_word_char (c : ascii) : bool := is_ascii1 c && negb (is_space1 c).

(** Trimming on the right never reaches into a word of plain characters. *)
Lemma TrimRightSpace_word w r :
  all_chars is_word_char w = true -> TrimRightSpace (w ++ r) = w ++ TrimRightSpace r.
Proof.
  induction w as [|c w IH]; cbn [all_chars String.append]; intros H; [done|].
  unfold is_word_char in H at 1. bools.
  change (TrimRightSpace (String c (w ++ r))) with
    (if String.eqb (TrimLeftSpace (String c (w ++ r))) "" then EmptyString
     else String c (TrimRightSpace (w ++ r))).
  rewrite TrimLeftSpace_stop by done. cbn. by rewrite IH.
Qed.

Lemma TrimSpace_word ws w r :
  all_chars is_space1 ws = true -> all_chars is_word_char w = true -> w <> "" ->
  TrimSpace (ws ++ w ++ r) = w ++ TrimRightSpace r.
Proof.
  intros Hws Hw Hne. unfold TrimSpace. rewrite TrimLeftSpace_ws by done.
  destruct w as [|c w]; [done|]. pose proof Hw as Hw'.
  cbn [all_chars] in Hw. unfold is_word_char in Hw at 1. bools.
  cbn [String.append]. rewrite TrimLeftSpace_stop by done.
  exact (TrimRightSpace_word (String c w) r Hw').
Qed.

(** A keyword, in any letter case, after any leading white space and before
    any tail, is what the keyword tests of the proxies see first. *)
Lemma upper_trim_keyword ws w kw r :
  all_chars is_space1 ws = true -> same_word w kw = true ->
  all_chars is_word_char w = true -> w <> "" ->
  HasPrefix (ToUpper (TrimSpace (ws ++ w ++ r))) kw = true.
Proof.
  intros Hws Hk Hw Hne. unfold same_word in Hk. bools. subst kw.
  rewrite TrimSpace_word, ToUpper_ascii_app by done. apply HasPrefix_self.
Qed.

Example trim_ex : TrimSpace (String (chr 10) "  drop table t ") = "drop table t".
Proof. reflexivity. Qed.
Example upper_ex : ToUpper "insert into T" = "INSERT INTO T".
Proof. reflexivity. Qed.
