(* ===== verification/Encoding.v ===== *)
(** * Numbers, bytes and base64 as text

    The conversions of the Go standard library that several components share:
    [strconv.FormatInt]/[ParseInt], [strings.Fields]/[Split],
    [encoding/base64] in its padded and raw forms, [encoding/hex], and the
    integer verbs of [fmt.Sscanf]; with their round trips. *)

From Stdlib Require Import ZArith Lia List Bool String Ascii.
From stdpp Require Import base list strings.
From S2P Require Import Prelude GoStrings.

Open Scope string_scope.
Open Scope Z_scope.

(** ** Numbers and bytes as text *)

Definition bytes_str (b : bytes) : string := string_of_list_ascii (map chr b).

Definition digit (d : Z) : ascii := chr (48 + d).

(** Decimal digits of a non-negative number; [fuel] bounds their number. *)
Fixpoint digits (fuel : nat) (n : Z) (acc : string) : string :=
  match fuel with
  | O => acc
  | S fuel =>
      let acc := String (digit (n mod 10)) acc in
      if n / 10 =? 0 then acc else digits fuel (n / 10) acc
  end.

(** [strconv.FormatInt(n, 10)] of a 64-bit integer. *)
Definition FormatInt (n : Z) : string := if n <? 0 then "-" ++ digits 20 (- n) "" else digits 20 n "".

(** [strconv.ParseInt(s, 10, 64)]; [None] is any of its errors. *)
Fixpoint parse_digits (s : string) (acc : Z) : option Z :=
  match s with
  | EmptyString => Some acc
  | String c s =>
      let z := code c in
      if (48 <=? z) && (z <=? 57) then parse_digits s (10 * acc + (z - 48)) else None
  end.

Definition ParseInt (s : string) : option Z :=
  let '(neg, body) :=
    match s with
    | String "-" r => (true, r)
    | String "+" r => (false, r)
    | _ => (false, s)
    end in
  match body with
  | EmptyString => None
  | _ =>
      match parse_digits body 0 with
      | Some n =>
          let n := if neg then - n else n in
          if (- 2 ^ 63 <=? n) && (n <? 2 ^ 63) then Some n else None
      | None => None
      end
  end.

(** [strings.Fields]: the maximal runs without white space. *)
Fixpoint fields_loop (fuel : nat) (cur s : string) : list string :=
  let flush rest := if String.eqb cur "" then rest else cur :: rest in
  match fuel with
  | O => flush []
  | S fuel =>
      match s with
      | EmptyString => flush []
      | String c r =>
          let t := TrimLeftSpace s in
          if Nat.eqb (String.length t) (String.length s)
          then fields_loop fuel (cur ++ String c "") r
          else flush (fields_loop fuel "" t)
      end
  end.
Definition Fields (s : string) : list string := fields_loop (S (String.length s)) "" s.

(** [base64.StdEncoding.EncodeToString] *)
Definition b64_char (v : Z) : ascii :=
  if v <? 26 then chr (65 + v)
  else if v <? 52 then chr (97 + (v - 26))
  else if v <? 62 then chr (48 + (v - 52))
  else if v =? 62 then "+"%char else "/"%char.

Fixpoint b64 (b : bytes) : string :=
  match b with
  | [] => ""
  | [x] => String (b64_char (Z.shiftr x 2)) (String (b64_char (Z.shiftl (Z.land x 3) 4)) "==")
  | [x; y] =>
      String (b64_char (Z.shiftr x 2))
        (String (b64_char (Z.lor (Z.shiftl (Z.land x 3) 4) (Z.shiftr y 4)))
           (String (b64_char (Z.shiftl (Z.land y 15) 2)) "="))
  | x :: y :: z :: b =>
      String (b64_char (Z.shiftr x 2))
        (String (b64_char (Z.lor (Z.shiftl (Z.land x 3) 4) (Z.shiftr y 4)))
           (String (b64_char (Z.lor (Z.shiftl (Z.land y 15) 2) (Z.shiftr z 6)))
              (String (b64_char (Z.land z 63)) (b64 b))))
  end.

(** [strings.Split(s, sep)] for a one-byte separator. *)
Fixpoint split_on (sep : ascii) (cur s : string) : list string :=
  match s with
  | EmptyString => [cur]
  | String c s => if Ascii.eqb c sep then cur :: split_on sep "" s else split_on sep (cur ++ String c "") s
  end.
Definition Split (s : string) (sep : ascii) : list string := split_on sep "" s.

(** [[]byte(s)] *)
Definition str_bytes (s : string) : bytes := map code (list_ascii_of_string s).

(** [base64.RawStdEncoding]: no padding. *)
Fixpoint raw_b64 (b : bytes) : string :=
  match b with
  | [] => ""
  | [x] => String (b64_char (Z.shiftr x 2)) (String (b64_char (Z.shiftl (Z.land x 3) 4)) "")
  | [x; y] =>
      String (b64_char (Z.shiftr x 2))
        (String (b64_char (Z.lor (Z.shiftl (Z.land x 3) 4) (Z.shiftr y 4)))
           (String (b64_char (Z.shiftl (Z.land y 15) 2)) ""))
  | x :: y :: z :: b =>
      String (b64_char (Z.shiftr x 2))
        (String (b64_char (Z.lor (Z.shiftl (Z.land x 3) 4) (Z.shiftr y 4)))
           (String (b64_char (Z.lor (Z.shiftl (Z.land y 15) 2) (Z.shiftr z 6)))
              (String (b64_char (Z.land z 63)) (raw_b64 b))))
  end.

Definition b64_val (c : ascii) : option Z :=
  let z := code c in
  if (65 <=? z) && (z <=? 90) then Some (z - 65)
  else if (97 <=? z) && (z <=? 122) then Some (z - 97 + 26)
  else if (48 <=? z) && (z <=? 57) then Some (z - 48 + 52)
  else if z =? 43 then Some 62 else if z =? 47 then Some 63 else None.

(** The 6-bit values of a text; line breaks are skipped, any other character
    outside the alphabet is an error. *)
Fixpoint b64_vals (s : string) : option (list Z) :=
  match s with
  | EmptyString => Some []
  | String c s =>
      if (code c =? 10) || (code c =? 13) then b64_vals s
      else match b64_val c, b64_vals s with
           | Some v, Some vs => Some (v :: vs)
           | _, _ => None
           end
  end.

(** Four values make three bytes; the last group may have three or two values,
    whose spare low bits are ignored. *)
Fixpoint b64_unpack (vs : list Z) : option bytes :=
  let quantum v0 v1 v2 v3 :=
    Z.lor (Z.lor (Z.lor (Z.shiftl v0 18) (Z.shiftl v1 12)) (Z.shiftl v2 6)) v3 in
  match vs with
  | [] => Some []
  | [_] => None
  | [v0; v1] => Some [u8 (Z.shiftr (quantum v0 v1 0 0) 16)]
  | [v0; v1; v2] =>
      let v := quantum v0 v1 v2 0 in Some [u8 (Z.shiftr v 16); u8 (Z.shiftr v 8)]
  | v0 :: v1 :: v2 :: v3 :: vs =>
      let v := quantum v0 v1 v2 v3 in
      match b64_unpack vs with
      | Some b => Some (u8 (Z.shiftr v 16) :: u8 (Z.shiftr v 8) :: u8 v :: b)
      | None => None
      end
  end.

(** [base64.RawStdEncoding.DecodeString] *)
Definition raw_b64_decode (s : string) : option bytes :=
  match b64_vals s with Some vs => b64_unpack vs | None => None end.

(** ** [fmt.Sscanf] with literals and [%d] *)

(** [SkipSpace] of a scan whose format has no newline: a newline is an error. *)
Fixpoint skip_space (s : string) : option string :=
  match s with
  | EmptyString => Some EmptyString
  | String c r =>
      if code c =? 10 then None
      else if is_space1 c then skip_space r
      else match r with
           | EmptyString => Some s
           | String d r1 =>
               if is_space2 c d then skip_space r1
               else match r1 with
                    | EmptyString => Some s
                    | String e r2 => if is_space3 c d e then skip_space r2 else Some s
                    end
           end
  end.

Definition is_digit (c : ascii) : bool := let z := code c in (48 <=? z) && (z <=? 57).

(** The longest run of digits, and what follows it. *)
Fixpoint take_digits (s : string) : string * string :=
  match s with
  | EmptyString => ("", "")
  | String c r => if is_digit c then let '(d, t) := take_digits r in (String c d, t) else ("", s)
  end.

(** [%d] into an unsigned integer of [w] bits. *)
Definition scan_uint (w : Z) (s : string) : option (Z * string) :=
  match skip_space s with
  | None => None
  | Some s =>
      match take_digits s with
      | ("", _) => None
      | (d, r) =>
          match parse_digits d 0 with
          | Some n => if n <? 2 ^ w then Some (n, r) else None
          | None => None
          end
      end
  end.

(** [%d] into a signed integer of [w] bits. *)
Definition scan_int (w : Z) (s : string) : option (Z * string) :=
  match skip_space s with
  | None => None
  | Some s =>
      let '(neg, s) := match s with
                       | String "-" r => (true, r)
                       | String "+" r => (false, r)
                       | _ => (false, s)
                       end in
      match take_digits s with
      | ("", _) => None
      | (d, r) =>
          match parse_digits d 0 with
          | Some n =>
              let n := if neg then - n else n in
              if (- 2 ^ (w - 1) <=? n) && (n <? 2 ^ (w - 1)) then Some (n, r) else None
          | None => None
          end
      end
  end.

(** A literal of the format must be there as it is. *)
Fixpoint scan_lit (lit s : string) : option string :=
  match lit, s with
  | EmptyString, _ => Some s
  | String a lit, String b s => if Ascii.eqb a b then scan_lit lit s else None
  | String _ _, EmptyString => None
  end.

(** ** Round trips *)

Lemma code_bound c : 0 <= code c < 256.
Proof. unfold code. pose proof (nat_ascii_bounded c). lia. Qed.

Lemma code_chr z : 0 <= z < 256 -> code (chr z) = z.
Proof. intros H. unfold code, chr. rewrite nat_ascii_embedding by lia. lia. Qed.

Lemma chr_code c : chr (code c) = c.
Proof. unfold code, chr. rewrite Nat2Z.id. apply ascii_nat_embedding. Qed.

Lemma bytes_str_bytes s : bytes_str (str_bytes s) = s.
Proof.
  unfold bytes_str, str_bytes. rewrite map_map, (map_ext _ (fun c => c)); [|apply chr_code].
  rewrite map_id. apply string_of_list_ascii_of_string.
Qed.

Lemma str_bytes_str b : wf_bytes b -> str_bytes (bytes_str b) = b.
Proof.
  intros H. unfold bytes_str, str_bytes. rewrite list_ascii_of_string_of_list_ascii, map_map.
  induction H as [|x b Hx _ IH]; cbn [map]; [done|]. by rewrite IH, code_chr.
Qed.

Lemma str_bytes_wf s : wf_bytes (str_bytes s).
Proof.
  unfold wf_bytes, str_bytes. apply Forall_forall. intros z Hz.
  apply list_elem_of_In, in_map_iff in Hz as (c & <- & _). apply code_bound.
Qed.

Lemma str_bytes_inj s1 s2 : str_bytes s1 = str_bytes s2 -> s1 = s2.
Proof. intros H. rewrite <- (bytes_str_bytes s1), H. apply bytes_str_bytes. Qed.

Lemma str_bytes_app s1 s2 : str_bytes (s1 ++ s2) = (str_bytes s1 ++ str_bytes s2)%list.
Proof. unfold str_bytes. induction s1 as [|c s1 IH]; cbn; [done|]. by rewrite IH. Qed.

Lemma zlen_str_bytes s : zlen (str_bytes s) = slen s.
Proof. unfold str_bytes, zlen, slen. rewrite length_map. f_equal. induction s; cbn; congruence. Qed.

(** *** Decimal *)

Lemma code_digit d : 0 <= d < 10 -> code (digit d) = 48 + d.
Proof. intros H. unfold digit. apply code_chr. lia. Qed.

Lemma digit_is_digit d : 0 <= d < 10 -> is_digit (digit d) = true.
Proof. intros H. unfold is_digit. rewrite code_digit by lia. blia. Qed.

Lemma digits_all fuel n acc :
  0 <= n -> all_chars is_digit acc = true -> all_chars is_digit (digits fuel n acc) = true.
Proof.
  revert n acc. induction fuel as [|fuel IH]; intros n acc Hn Ha; cbn [digits]; [done|].
  assert (Hd : all_chars is_digit (String (digit (n mod 10)) acc) = true).
  { cbn [all_chars]. rewrite digit_is_digit, Ha; [done|]. apply Z.mod_pos_bound; lia. }
  destruct (n / 10 =? 0); [done|]. apply IH; [apply Z.div_pos; lia|done].
Qed.

(** Reading back the digits of [n] continues with [n] as the number read so far. *)
Lemma parse_digits_digits fuel n acc v :
  0 <= n < 10 ^ Z.of_nat fuel ->
  exists k, parse_digits (digits fuel n acc) v = parse_digits acc (v * 10 ^ k + n) /\ 0 <= k.
Proof.
  revert n acc v. induction fuel as [|fuel IH]; intros n acc v Hn.
  { exists 0. cbn in *. split; [f_equal; lia|lia]. }
  assert (H10 : 10 ^ Z.of_nat (S fuel) = 10 * 10 ^ Z.of_nat fuel)
    by (rewrite Nat2Z.inj_succ, Z.pow_succ_r; lia).
  cbn [digits]. pose proof (Z.mod_pos_bound n 10 ltac:(lia)) as Hm.
  pose proof (Z.div_mod n 10 ltac:(lia)) as Hdm.
  assert (Hstep : forall w, parse_digits (String (digit (n mod 10)) acc) w
                            = parse_digits acc (10 * w + n mod 10)).
  { intros w. cbn [parse_digits]. rewrite code_digit by lia.
    replace (_ && _) with true by (symmetry; blia). f_equal. lia. }
  destruct (Z.eqb_spec (n / 10) 0) as [Hz|Hz].
  - exists 1. rewrite Hstep. split; [f_equal; lia|lia].
  - destruct (IH (n / 10) (String (digit (n mod 10)) acc) v) as (k & Hk & Hk0); [lia|].
    exists (k + 1). rewrite Hk, Hstep. split; [|lia]. f_equal. rewrite Z.pow_add_r by lia. lia.
Qed.

Lemma digits_nonempty fuel n acc : exists c r, digits (S fuel) n acc = String c r.
Proof.
  revert n acc. induction fuel as [|fuel IH]; intros n acc.
  - cbn. destruct (n / 10 =? 0); eauto.
  - cbn [digits]. destruct (n / 10 =? 0); [eauto|]. apply IH.
Qed.

Lemma FormatInt_nonneg n : 0 <= n -> FormatInt n = digits 20 n "".
Proof. intros H. unfold FormatInt. by replace (n <? 0) with false by (symmetry; blia). Qed.

Lemma parse_FormatInt n : 0 <= n < 10 ^ 20 -> parse_digits (FormatInt n) 0 = Some n.
Proof.
  intros H. rewrite FormatInt_nonneg by lia.
  destruct (parse_digits_digits 20 n "" 0 H) as (k & -> & _). done.
Qed.

Lemma FormatInt_digits n : 0 <= n -> all_chars is_digit (FormatInt n) = true.
Proof. intros H. rewrite FormatInt_nonneg by lia. by apply digits_all. Qed.

Lemma take_digits_app d r :
  all_chars is_digit d = true ->
  match r with EmptyString => true | String c _ => negb (is_digit c) end = true ->
  take_digits (d ++ r) = (d, r).
Proof.
  intros Hd Hr. induction d as [|c d IH]; cbn [String.append take_digits].
  - destruct r as [|c r]; cbn; [done|]. by destruct (is_digit c).
  - cbn [all_chars] in Hd. apply andb_true_iff in Hd as [Hc Hd]. by rewrite Hc, (IH Hd).
Qed.

Lemma digit_not_space c r : is_digit c = true -> skip_space (String c r) = Some (String c r).
Proof.
  unfold is_digit. intros H. cbn [skip_space].
  assert (Ha : is_ascii1 c = true) by (unfold is_ascii1; blia).
  replace (code c =? 10) with false by (symmetry; blia).
  replace (is_space1 c) with false by (symmetry; unfold is_space1; blia).
  destruct r as [|d r]; [done|]. rewrite space_not_ascii_2 by done.
  destruct r as [|e r]; [done|]. by rewrite space_not_ascii_3.
Qed.

Lemma FormatInt_head n : 0 <= n -> exists c r, FormatInt n = String c r /\ is_digit c = true.
Proof.
  intros H. pose proof (FormatInt_digits n H) as Hd. rewrite FormatInt_nonneg in * by lia.
  destruct (digits_nonempty 19 n "") as (c & r & E). rewrite E in *. cbn [all_chars] in Hd.
  exists c, r. split; [done|]. by apply andb_true_iff in Hd as [? _].
Qed.

(** What follows a scanned number must not look like more digits. *)
Definition not_digit_next (r : string) : bool :=
  match r with EmptyString => true | String c _ => negb (is_digit c) end.

Lemma scan_uint_FormatInt w n r :
  0 <= n < 10 ^ 20 -> n < 2 ^ w -> not_digit_next r = true ->
  scan_uint w (FormatInt n ++ r) = Some (n, r).
Proof.
  intros Hn Hw Hr. destruct (FormatInt_head n) as (c & t & E & Hc); [lia|].
  pose proof (take_digits_app (FormatInt n) r (FormatInt_digits n ltac:(lia)) Hr) as Ht.
  pose proof (parse_FormatInt n Hn) as Hp. unfold scan_uint. rewrite E in *.
  cbn [String.append] in *. rewrite digit_not_space by done. rewrite Ht, Hp.
  by replace (n <? 2 ^ w) with true by (symmetry; blia).
Qed.

Lemma scan_int_FormatInt w n r :
  0 <= n < 10 ^ 20 -> n < 2 ^ (w - 1) -> not_digit_next r = true ->
  scan_int w (FormatInt n ++ r) = Some (n, r).
Proof.
  intros Hn Hw Hr. destruct (FormatInt_head n) as (c & t & E & Hc); [lia|].
  pose proof (take_digits_app (FormatInt n) r (FormatInt_digits n ltac:(lia)) Hr) as Ht.
  pose proof (parse_FormatInt n Hn) as Hp. unfold scan_int. rewrite E in *.
  cbn [String.append] in *. rewrite digit_not_space by done.
  assert (Hsign : forall (X : Type) (a b d : X),
    match String c (t ++ r) with String "-" _ => a | String "+" _ => b | _ => d end = d).
  { intros X a b d. unfold is_digit in Hc. destruct c as [[][][][][][][][]]; try done; vm_compute in Hc; done. }
  cbn [String.append] in *. rewrite Hsign, Ht, Hp.
  by replace (_ && _) with true by (symmetry; blia).
Qed.

Lemma scan_lit_app lit r : scan_lit lit (lit ++ r) = Some r.
Proof. induction lit as [|c lit IH]; cbn; [done|]. by rewrite Ascii.eqb_refl. Qed.

Lemma split_on_app sep cur a r :
  all_chars (fun c => negb (Ascii.eqb c sep)) a = true ->
  split_on sep cur (a ++ String sep r) = (cur ++ a) :: split_on sep "" r.
Proof.
  revert cur. induction a as [|c a IH]; intros cur Ha; cbn [String.append split_on all_chars] in *.
  - by rewrite Ascii.eqb_refl, sapp_nil_r.
  - apply andb_true_iff in Ha as [Hc Ha]. apply negb_true_iff in Hc. rewrite Hc, (IH _ Ha).
    by rewrite sapp_assoc.
Qed.

Lemma split_on_end sep cur a :
  all_chars (fun c => negb (Ascii.eqb c sep)) a = true -> split_on sep cur a = [cur ++ a].
Proof.
  revert cur. induction a as [|c a IH]; intros cur Ha; cbn [split_on all_chars] in *.
  - by rewrite sapp_nil_r.
  - apply andb_true_iff in Ha as [Hc Ha]. apply negb_true_iff in Hc. rewrite Hc, (IH _ Ha).
    by rewrite sapp_assoc.
Qed.

Lemma all_chars_imp (P Q : ascii -> bool) s :
  (forall c, P c = true -> Q c = true) -> all_chars P s = true -> all_chars Q s = true.
Proof.
  intros H. induction s as [|c s IH]; cbn; [done|]. rewrite !andb_true_iff. naive_solver.
Qed.

(** *** Base64 *)

Lemma b64_val_char v : 0 <= v < 64 -> b64_val (b64_char v) = Some v.
Proof.
  intros H.
  assert (Hc : forallb (fun v => match b64_val (b64_char v) with Some w => w =? v | None => false end)
                 (seqZ 0 64) = true) by reflexivity.
  rewrite forallb_forall in Hc. specialize (Hc v). rewrite <- list_elem_of_In, elem_of_seqZ in Hc.
  specialize (Hc ltac:(lia)). destruct (b64_val _); [f_equal; blia|done].
Qed.

(** The alphabet holds neither line breaks nor the separators of stored hashes. *)
Definition b64_plain (c : ascii) : bool :=
  negb (code c =? 10) && negb (code c =? 13) && negb (Ascii.eqb c "$") && negb (Ascii.eqb c ",") && negb (Ascii.eqb c "=").

Lemma b64_char_plain v : 0 <= v < 64 -> b64_plain (b64_char v) = true.
Proof.
  intros H. assert (Hc : forallb (fun v => b64_plain (b64_char v)) (seqZ 0 64) = true) by reflexivity.
  rewrite forallb_forall in Hc. apply Hc, list_elem_of_In, elem_of_seqZ. lia.
Qed.

Lemma b64_vals_char v s : 0 <= v < 64 ->
  b64_vals (String (b64_char v) s) = match b64_vals s with Some vs => Some (v :: vs) | None => None end.
Proof.
  intros H. cbn [b64_vals]. pose proof (b64_char_plain v H) as Hp. unfold b64_plain in Hp.
  replace (_ || _) with false by (symmetry; blia). by rewrite b64_val_char.
Qed.

Lemma lor_shiftl_add a b n : 0 <= n -> 0 <= b < 2 ^ n -> Z.lor (Z.shiftl a n) b = a * 2 ^ n + b.
Proof.
  intros Hn Hb. rewrite <- Z.shiftl_mul_pow2 by lia.
  assert (Hd : Z.land (Z.shiftl a n) b = 0).
  { apply Z.bits_inj'. intros i Hi. rewrite Z.land_spec, Z.bits_0.
    destruct (Z.ltb_spec i n); [by rewrite Z.shiftl_spec_low by lia|].
    rewrite <- (Z.mod_small b (2 ^ n)) by lia. rewrite Z.mod_pow2_bits_high by lia.
    by rewrite andb_false_r. }
  rewrite <- Z.lxor_lor by done. symmetry. by apply Z.add_nocarry_lxor.
Qed.

(** Induction three bytes at a time. *)
Lemma triple_ind {A} (P : list A -> Prop) :
  P [] -> (forall x, P [x]) -> (forall x y, P [x; y]) ->
  (forall x y z l, P l -> P (x :: y :: z :: l)) -> forall l, P l.
Proof.
  intros H0 H1 H2 H3. fix go 1. intros [|x [|y [|z l]]]; [done|apply H1|apply H2|apply H3, go].
Qed.

(** The four values of three bytes, and back. *)
Lemma b64_pieces x y z : is_byte x -> is_byte y -> is_byte z ->
  let v0 := Z.shiftr x 2 in
  let v1 := Z.lor (Z.shiftl (Z.land x 3) 4) (Z.shiftr y 4) in
  let v2 := Z.lor (Z.shiftl (Z.land y 15) 2) (Z.shiftr z 6) in
  let v3 := Z.land z 63 in
  (0 <= v0 < 64 /\ 0 <= v1 < 64 /\ 0 <= v2 < 64 /\ 0 <= v3 < 64) /\
  Z.lor (Z.lor (Z.lor (Z.shiftl v0 18) (Z.shiftl v1 12)) (Z.shiftl v2 6)) v3 = x * 65536 + y * 256 + z.
Proof.
  unfold is_byte. intros Hx Hy Hz. cbn zeta.
  rewrite !Z.shiftr_div_pow2 by lia.
  change (Z.land x 3) with (Z.land x (Z.ones 2)). change (Z.land y 15) with (Z.land y (Z.ones 4)).
  change (Z.land z 63) with (Z.land z (Z.ones 6)).
  rewrite !Z.land_ones by lia.
  assert (Hy4 : 0 <= y / 2 ^ 4 < 2 ^ 4) by (split; [apply Z.div_pos|apply Z.div_lt_upper_bound]; lia).
  assert (Hz6 : 0 <= z / 2 ^ 6 < 2 ^ 2) by (split; [apply Z.div_pos|apply Z.div_lt_upper_bound]; lia).
  assert (Hx2 : 0 <= x / 2 ^ 2 < 64) by (split; [apply Z.div_pos|apply Z.div_lt_upper_bound]; lia).
  rewrite !(lor_shiftl_add (x mod 2 ^ 2) (y / 2 ^ 4) 4), !(lor_shiftl_add (y mod 2 ^ 4) (z / 2 ^ 6) 2) by lia.
  set (v1 := x mod 2 ^ 2 * 2 ^ 4 + y / 2 ^ 4). set (v2 := y mod 2 ^ 4 * 2 ^ 2 + z / 2 ^ 6).
  set (v0 := x / 2 ^ 2) in *. set (v3 := z mod 2 ^ 6).
  assert (H1 : 0 <= v1 < 64) by (pose proof (Z.mod_pos_bound x (2 ^ 2)); lia).
  assert (H2 : 0 <= v2 < 64) by (pose proof (Z.mod_pos_bound y (2 ^ 4)); lia).
  assert (H3 : 0 <= v3 < 64) by (pose proof (Z.mod_pos_bound z (2 ^ 6)); lia).
  split; [done|].
  change 18 with (6 + 12). rewrite <- (Z.shiftl_shiftl v0 6 12), <- Z.shiftl_lor by lia.
  rewrite (lor_shiftl_add v0 v1 6) by lia.
  change 12 with (6 + 6). rewrite <- (Z.shiftl_shiftl _ 6 6), <- Z.shiftl_lor by lia.
  rewrite (lor_shiftl_add _ v2 6), (lor_shiftl_add _ v3 6) by lia.
  subst v0 v1 v2 v3. pose proof (Z.div_mod x (2 ^ 2)). pose proof (Z.div_mod y (2 ^ 4)).
  pose proof (Z.div_mod z (2 ^ 6)). lia.
Qed.

Lemma quantum_bytes x y z : is_byte x -> is_byte y -> is_byte z ->
  let v := x * 65536 + y * 256 + z in
  u8 (Z.shiftr v 16) = x /\ u8 (Z.shiftr v 8) = y /\ u8 v = z.
Proof.
  unfold is_byte, u8. intros. cbn zeta. rewrite !Z.shiftr_div_pow2 by lia.
  repeat split; Z.to_euclidean_division_equations; lia.
Qed.

Lemma raw_b64_decode_encode b : wf_bytes b -> raw_b64_decode (raw_b64 b) = Some b.
Proof.
  unfold raw_b64_decode. intros Hw.
  enough (exists vs, b64_vals (raw_b64 b) = Some vs /\ b64_unpack vs = Some b) as (vs & -> & H) by done.
  assert (H0 : is_byte 0) by (unfold is_byte; lia).
  revert Hw. induction b as [|x|x y|x y z b IH] using triple_ind; intros Hw.
  - by exists [].
  - apply Forall_cons in Hw as [Hx _].
    destruct (b64_pieces x 0 0 Hx H0 H0) as ((? & Hv1 & _) & E). change (Z.shiftr 0 4) with 0 in *.
    change (Z.lor (Z.shiftl (Z.land 0 15) 2) (Z.shiftr 0 6)) with 0 in E. change (Z.land 0 63) with 0 in E.
    rewrite (Z.lor_0_r (Z.shiftl (Z.land x 3) 4)) in *.
    cbn [raw_b64]. rewrite !b64_vals_char by lia. cbn [b64_vals].
    eexists. split; [done|]. cbn [b64_unpack]. rewrite E.
    by destruct (quantum_bytes x 0 0 Hx H0 H0) as (-> & _).
  - apply Forall_cons in Hw as [Hx Hw]. apply Forall_cons in Hw as [Hy _].
    destruct (b64_pieces x y 0 Hx Hy H0) as ((? & ? & Hv2 & _) & E). change (Z.shiftr 0 6) with 0 in *.
    change (Z.land 0 63) with 0 in E. rewrite (Z.lor_0_r (Z.shiftl (Z.land y 15) 2)) in *.
    cbn [raw_b64]. rewrite !b64_vals_char by lia. cbn [b64_vals].
    eexists. split; [done|]. cbn [b64_unpack]. rewrite E.
    by destruct (quantum_bytes x y 0 Hx Hy H0) as (-> & -> & _).
  - apply Forall_cons in Hw as [Hx Hw]. apply Forall_cons in Hw as [Hy Hw]. apply Forall_cons in Hw as [Hz Hw].
    destruct (b64_pieces x y z Hx Hy Hz) as ((? & ? & ? & ?) & E). destruct (IH Hw) as (vs & Ev & Eu).
    cbn [raw_b64]. rewrite !b64_vals_char by lia. rewrite Ev. eexists. split; [done|].
    cbn [b64_unpack]. rewrite E, Eu. by destruct (quantum_bytes x y z Hx Hy Hz) as (-> & -> & ->).
Qed.

Lemma raw_b64_plain b : wf_bytes b -> all_chars b64_plain (raw_b64 b) = true.
Proof.
  assert (H0 : is_byte 0) by (unfold is_byte; lia).
  induction b as [|x|x y|x y z b IH] using triple_ind; intros Hw; [done| | |].
  - apply Forall_cons in Hw as [Hx _].
    destruct (b64_pieces x 0 0 Hx H0 H0) as ((? & Hv1 & _) & _). change (Z.shiftr 0 4) with 0 in *.
    rewrite Z.lor_0_r in Hv1. cbn [raw_b64 all_chars]. by rewrite !b64_char_plain.
  - apply Forall_cons in Hw as [Hx Hw]. apply Forall_cons in Hw as [Hy _].
    destruct (b64_pieces x y 0 Hx Hy H0) as ((? & ? & Hv2 & _) & _). change (Z.shiftr 0 6) with 0 in *.
    rewrite Z.lor_0_r in Hv2. cbn [raw_b64 all_chars]. by rewrite !b64_char_plain.
  - apply Forall_cons in Hw as [Hx Hw]. apply Forall_cons in Hw as [Hy Hw]. apply Forall_cons in Hw as [Hz Hw].
    destruct (b64_pieces x y z Hx Hy Hz) as ((? & ? & ? & ?) & _).
    cbn [raw_b64 all_chars]. by rewrite !b64_char_plain, IH.
Qed.

(** *** Exclusive or of two byte strings *)

Lemma lxor_byte a b : is_byte a -> is_byte b -> is_byte (Z.lxor a b).
Proof.
  unfold is_byte. intros Ha Hb. assert (0 <= Z.lxor a b) by (apply Z.lxor_nonneg; lia). split; [done|].
  destruct (Z.eq_dec (Z.lxor a b) 0) as [->|Hne]; [lia|]. apply (Z.log2_lt_pow2 _ 8); [lia|].
  eapply Z.le_lt_trans; [apply Z.log2_lxor; lia|].
  apply Z.max_lub_lt; (destruct (Z.eq_dec a 0), (Z.eq_dec b 0); subst; try (cbn; lia); apply Z.log2_lt_pow2; lia).
Qed.

Lemma wf_zip_lxor a b : wf_bytes a -> wf_bytes b -> wf_bytes (zip_with Z.lxor a b).
Proof. intros Ha. revert b. induction Ha; intros [|y b] Hb; cbn; try constructor; inversion Hb; subst; [by apply lxor_byte|by apply IHHa]. Qed.

Lemma zip_lxor_cancel a b : length a = length b -> zip_with Z.lxor (zip_with Z.lxor a b) b = a.
Proof.
  revert b. induction a as [|x a IH]; intros [|y b] Hl; cbn in *; try lia; [done|].
  rewrite Z.lxor_assoc, Z.lxor_nilpotent, Z.lxor_0_r. f_equal. apply IH. lia.
Qed.
