(* ===== verification/Regex.v ===== *)
(** * The regular expressions of the proxies

    The blocked-pattern tables of the proxies are Go [regexp] values built from
    case-insensitive literals, [\s+], [\s*], [\b], optional groups and
    alternations.  [regex] has exactly these constructors, [run] is the matcher
    that the tables evaluate, and [rmatch] is the meaning it is checked against.

    Text is matched byte by byte.  The patterns contain only ASCII literals,
    ASCII classes and the two non-ASCII runes case folding adds (U+212A for [k],
    U+017F for [s]), so matching bytes and matching runes agree. *)

From Stdlib Require Import ZArith Lia List Bool String Ascii.
From stdpp Require Import base list strings.
From S2P Require Import Prelude GoStrings.

Open Scope string_scope.
Open Scope Z_scope.

Inductive regex :=
| Eps
| Cls (P : ascii -> bool)
| StarC (P : ascii -> bool)
| WordB
| Seq (r1 r2 : regex)
| Alt (r1 r2 : regex).

(** A position: the byte before it, if any, and the text after it. *)
Abbreviation pos := (option ascii * string)%type.

(** Perl's [\w] class in RE2, the one [\b] tests. *)
Definition is_re_word (c : ascii) : bool :=
  let z := code c in
  ((48 <=? z) && (z <=? 57)) || ((65 <=? z) && (z <=? 90))
  || ((97 <=? z) && (z <=? 122)) || (z =? 95).

(** [\s] is tab, newline, form feed, carriage return and space. *)
Definition is_re_space (c : ascii) : bool :=
  let z := code c in (z =? 9) || (z =? 10) || (z =? 12) || (z =? 13) || (z =? 32).

Definition word_at (o : option ascii) : bool :=
  match o with Some c => is_re_word c | None => false end.

Definition next_char (s : string) : option ascii :=
  match s with EmptyString => None | String c _ => Some c end.

Definition at_boundary (st : pos) : bool :=
  xorb (word_at (fst st)) (word_at (next_char (snd st))).

(** ** The matcher: every position a match starting here can end at *)

Fixpoint run_star (P : ascii -> bool) (p : option ascii) (s : string) : list pos :=
  (p, s) :: match s with
            | String c s' => if P c then run_star P (Some c) s' else []
            | EmptyString => []
            end.

Fixpoint run (r : regex) (st : pos) : list pos :=
  match r with
  | Eps => [st]
  | Cls P => match snd st with
             | String c s => if P c then [(Some c, s)] else []
             | EmptyString => []
             end
  | StarC P => run_star P (fst st) (snd st)
  | WordB => if at_boundary st then [st] else []
  | Seq r1 r2 => flat_map (run r2) (run r1 st)
  | Alt r1 r2 => (run r1 st ++ run r2 st)%list
  end.

Fixpoint search (r : regex) (p : option ascii) (s : string) : bool :=
  match run r (p, s) with
  | _ :: _ => true
  | [] => match s with
          | String c s' => search r (Some c) s'
          | EmptyString => false
          end
  end.

(** [Regexp.MatchString] *)
Definition MatchString (r : regex) (s : string) : bool := search r None s.

(** ** The meaning of a pattern *)

Inductive rmatch : regex -> pos -> pos -> Prop :=
| m_eps st : rmatch Eps st st
| m_cls P p c s : P c = true -> rmatch (Cls P) (p, String c s) (Some c, s)
| m_star0 P st : rmatch (StarC P) st st
| m_star1 P p c s st : P c = true -> rmatch (StarC P) (Some c, s) st ->
    rmatch (StarC P) (p, String c s) st
| m_word st : at_boundary st = true -> rmatch WordB st st
| m_seq r1 r2 s1 s2 s3 : rmatch r1 s1 s2 -> rmatch r2 s2 s3 -> rmatch (Seq r1 r2) s1 s3
| m_alt_l r1 r2 s1 s2 : rmatch r1 s1 s2 -> rmatch (Alt r1 r2) s1 s2
| m_alt_r r1 r2 s1 s2 : rmatch r2 s1 s2 -> rmatch (Alt r1 r2) s1 s2.

Create HintDb regex discriminated.
#[export] Hint Constructors rmatch : regex.

Lemma run_star_sound P s p st : In st (run_star P p s) -> rmatch (StarC P) (p, s) st.
Proof.
  revert p; induction s as [|c s IH]; intros p [<-|H]; eauto with regex.
  - by destruct H.
  - destruct (P c) eqn:E; [|by destruct H]. eauto with regex.
Qed.

Lemma run_star_complete P st0 st :
  rmatch (StarC P) st0 st -> In st (run_star P (fst st0) (snd st0)).
Proof.
  remember (StarC P) as r eqn:Er. induction 1; try discriminate; injection Er as ->.
  - destruct st as [p [|c s]]; by left.
  - simpl. rewrite H. right. by apply IHrmatch.
Qed.

Lemma run_correct r st st' : In st' (run r st) <-> rmatch r st st'.
Proof.
  revert st st'; induction r as [| | | |r1 IH1 r2 IH2|r1 IH1 r2 IH2]; intros st st'; cbn [run].
  - split; [intros [<-|[]]; constructor|inversion 1; by left].
  - destruct st as [p [|c s]]; cbn [snd]; [split; [done|inversion 1]|].
    destruct (P c) eqn:E.
    + split; [intros [<-|[]]; by constructor|inversion 1; by left].
    + split; [done|inversion 1; congruence].
  - split; [destruct st; apply run_star_sound|apply run_star_complete].
  - destruct (at_boundary st) eqn:E.
    + split; [intros [<-|[]]; by constructor|inversion 1; by left].
    + split; [done|inversion 1; congruence].
  - rewrite in_flat_map. split.
    + intros (st1 & H1%IH1 & H2%IH2). eauto with regex.
    + inversion 1; subst. eexists. rewrite IH1, IH2. eauto.
  - rewrite in_app_iff, IH1, IH2. split; [intros [?|?]; eauto with regex|].
    inversion 1; subst; eauto.
Qed.

(** The byte before the text that follows [l], when [p] precedes [l]. *)
Fixpoint last_of (p : option ascii) (l : string) : option ascii :=
  match l with
  | EmptyString => p
  | String c l => last_of (Some c) l
  end.

Lemma last_of_app p l1 l2 : last_of p (l1 ++ l2) = last_of (last_of p l1) l2.
Proof. revert p; induction l1; intros; simpl; auto. Qed.

Lemma search_correct r s p :
  search r p s = true <->
  exists l t st, s = l ++ t /\ rmatch r (last_of p l, t) st.
Proof.
  revert p; induction s as [|c s IH]; intros p; cbn [search].
  all: destruct (run r (p, _)) as [|st0 sts] eqn:E.
  - split; [done|]. intros (l & t & st & Hs & Hm).
    destruct l; [|done]. simpl in *. subst t.
    apply run_correct in Hm. by rewrite E in Hm.
  - split; [|done]. intros _. exists "", "", st0. split; [done|].
    apply run_correct. cbn [last_of]. rewrite E. by left.
  - rewrite IH. split.
    + intros (l & t & st & -> & Hm). by exists (String c l), t, st.
    + intros (l & t & st & Hs & Hm). destruct l as [|a l]; simpl in *.
      * subst t. apply run_correct in Hm. by rewrite E in Hm.
      * injection Hs as -> ->. eauto.
  - split; [|done]. intros _. exists "", (String c s), st0. split; [done|].
    apply run_correct. cbn [last_of]. rewrite E. by left.
Qed.

(** ** The pattern vocabulary of the source *)

Definition fold1 (a b : ascii) : bool := Ascii.eqb (upper1 a) (upper1 b).

Fixpoint raw (s : string) : regex :=
  match s with
  | EmptyString => Eps
  | String c s => Seq (Cls (Ascii.eqb c)) (raw s)
  end.

(** One case-insensitive ASCII character, with the runes it folds with. *)
Definition ci1 (c : ascii) : regex :=
  let plain := Cls (fold1 c) in
  if fold1 c "s" then Alt plain (raw (String (chr 197) (String (chr 191) "")))
  else if fold1 c "k" then Alt plain (raw (String (chr 226) (String (chr 132) (String (chr 170) ""))))
  else plain.

Fixpoint ci (s : string) : regex :=
  match s with
  | EmptyString => Eps
  | String c s => Seq (ci1 c) (ci s)
  end.

Definition spaces : regex := Seq (Cls is_re_space) (StarC is_re_space).   (* \s+ *)
Definition spaces0 : regex := StarC is_re_space.                           (* \s* *)
Definition opt (r : regex) : regex := Alt r Eps.                           (* (?:r)? *)

Fixpoint seqs (rs : list regex) : regex :=
  match rs with
  | [] => Eps
  | r :: rs => Seq r (seqs rs)
  end.

Fixpoint fold_word (w kw : string) : bool :=
  match w, kw with
  | EmptyString, EmptyString => true
  | String a w, String b kw => fold1 b a && fold_word w kw
  | _, _ => false
  end.

Lemma rmatch_ci w kw p r :
  fold_word w kw = true -> rmatch (ci kw) (p, w ++ r) (last_of p w, r).
Proof.
  revert w p; induction kw as [|b kw IH]; intros [|a w] p; cbn [fold_word]; intros H;
    try done; cbn [ci String.append last_of]; [constructor|].
  bools. econstructor; [|by apply IH].
  unfold ci1. repeat case_match; eauto with regex.
Qed.

Lemma rmatch_star ws P p r :
  all_chars P ws = true -> rmatch (StarC P) (p, ws ++ r) (last_of p ws, r).
Proof.
  revert p; induction ws as [|c ws IH]; intros p; cbn [all_chars String.append last_of];
    intros H; [constructor|]. bools. eauto with regex.
Qed.

Definition ws1 (ws : string) : bool := negb (String.eqb ws "") && all_chars is_re_space ws.

Lemma rmatch_spaces ws p r :
  ws1 ws = true -> rmatch spaces (p, ws ++ r) (last_of p ws, r).
Proof.
  unfold ws1. intros H. bools. destruct ws as [|c ws]; [done|].
  cbn [all_chars] in *. bools. cbn [String.append last_of].
  econstructor; [by constructor|by apply rmatch_star].
Qed.

(** A word boundary: text that starts (or ends) with a non-word byte. *)
Definition starts_plain (s : string) : bool := negb (word_at (next_char s)).
Definition ends_plain (s : string) : bool := negb (word_at (last_of None s)).

Lemma rmatch_boundary p s : word_at p <> word_at (next_char s) -> rmatch WordB (p, s) (p, s).
Proof.
  intros H. constructor. unfold at_boundary. simpl.
  destruct (word_at p), (word_at (next_char s)); done.
Qed.
