(* ===== verification/Models.v ===== *)
(** * The data model of the store ([internal/store/models.go])

    Rows of the dbbat database as records, with the predicates the rest of the
    program asks of them.  A UUID is an [N] ([uuid.Nil] is 0); a [time.Time] is
    the number of nanoseconds since the zero time, so [IsZero] is [= 0]; a
    nullable column is an [option]. *)

From Stdlib Require Import ZArith Lia List Bool String Ascii.
From stdpp Require Import base list strings.
From S2P Require Import Prelude GoStrings.

Open Scope string_scope.
Open Scope Z_scope.

Abbreviation uuid := N.
Definition Nil : uuid := 0%N.

(** [uuid.UUID.String]: the canonical text of an identifier. *)
Class UUIDText := {
  uuid_String : uuid -> string;
  uuid_String_inj : forall u v, uuid_String u = uuid_String v -> u = v
}.

Abbreviation time := Z.
Definition IsZero (t : time) : bool := t =? 0.
(** [t.Before(u)], [t.After(u)] *)
Definition Before (t u : time) : bool := t <? u.
Definition After (t u : time) : bool := u <? t.
Definition Second : Z := 1000000000.
Definition Minute : Z := 60 * Second.

Definition RoleAdmin := "admin".
Definition RoleViewer := "viewer".
Definition RoleConnector := "connector".

Definition ControlReadOnly := "read_only".
Definition ControlBlockCopy := "block_copy".
Definition ControlBlockDDL := "block_ddl".
Definition ValidControls : list string := [ControlReadOnly; ControlBlockCopy; ControlBlockDDL].

(** The [for range] membership loops of the Go code. *)
Fixpoint contains_str (l : list string) (x : string) : bool :=
  match l with
  | [] => false
  | y :: l => if String.eqb y x then true else contains_str l x
  end.

Fixpoint contains_uid (l : list uuid) (x : uuid) : bool :=
  match l with
  | [] => false
  | y :: l => if N.eqb y x then true else contains_uid l x
  end.

Lemma contains_str_spec l x : contains_str l x = true <-> In x l.
Proof.
  induction l as [|y l IH]; simpl; [done|].
  destruct (String.eqb_spec y x) as [->|Hne]; [tauto|]. rewrite IH. naive_solver.
Qed.

Lemma contains_uid_spec l x : contains_uid l x = true <-> In x l.
Proof.
  induction l as [|y l IH]; simpl; [done|].
  destruct (N.eqb_spec y x) as [->|Hne]; [tauto|]. rewrite IH. naive_solver.
Qed.

Record MongoSCRAMCreds := {
  ms_Salt : bytes;
  ms_Iterations : Z;
  ms_StoredKey : bytes;
  ms_ServerKey : bytes
}.

Record MongoUserData := { mu_SCRAMSHA256 : option MongoSCRAMCreds }.

Record OracleUserData := {
  ou_Salt6949 : bytes;
  ou_Salt18453 : bytes
}.

Record UserProtocolData := {
  up_Oracle : option OracleUserData;
  up_MongoDB : option MongoUserData
}.

Record User := {
  u_UID : uuid;
  u_Username : string;
  u_PasswordHash : string;
  u_Roles : list string;
  u_RateLimitExempt : bool;
  u_PasswordChangedAt : option time;
  u_CreatedAt : time;
  u_UpdatedAt : time;
  u_DeletedAt : option time;
  u_ProtocolData : option UserProtocolData
}.

Definition User_OracleData (u : User) : option OracleUserData :=
  match u_ProtocolData u with None => None | Some p => up_Oracle p end.
Definition User_MongoData (u : User) : option MongoUserData :=
  match u_ProtocolData u with None => None | Some p => up_MongoDB p end.
Definition User_MongoSCRAMCredentials (u : User) : option MongoSCRAMCreds :=
  match User_MongoData u with None => None | Some d => mu_SCRAMSHA256 d end.

Definition HasChangedPassword (u : User) : bool :=
  match u_PasswordChangedAt u with Some _ => true | None => false end.
Definition HasRole (u : User) (role : string) : bool := contains_str (u_Roles u) role.
Definition IsAdmin (u : User) : bool := HasRole u RoleAdmin.
Definition IsViewer (u : User) : bool := HasRole u RoleViewer.
Definition IsConnector (u : User) : bool := HasRole u RoleConnector.

Definition ProtocolPostgreSQL := "postgresql".
Definition ProtocolOracle := "oracle".
Definition ProtocolMySQL := "mysql".
Definition ProtocolMariaDB := "mariadb".
Definition ProtocolMongoDB := "mongodb".
Definition ProtocolSSH := "ssh".

Definition IsMySQLFamily (protocol : string) : bool :=
  String.eqb protocol ProtocolMySQL || String.eqb protocol ProtocolMariaDB.

Record MongoDatabaseData := { md_AuthSource : string }.

Record SSHServerData := {
  ssh_PrivateKeyEncrypted : bytes;
  ssh_PassphraseEncrypted : bytes;
  ssh_KnownHostKey : string;
  ssh_PrivateKey : string;
  ssh_Passphrase : string
}.

Record ServerProtocolData := {
  sp_MongoDB : option MongoDatabaseData;
  sp_SSH : option SSHServerData
}.

Record Server := {
  d_UID : uuid;
  d_Name : string;
  d_Description : string;
  d_Host : string;
  d_Port : Z;
  d_DatabaseName : string;
  d_Username : string;
  d_Password : string;
  d_PasswordEncrypted : bytes;
  d_SSLMode : string;
  d_Protocol : string;
  d_OracleServiceName : option string;
  d_ViaUID : option uuid;
  d_ProtocolData : option ServerProtocolData;
  d_Listable : bool;
  d_CreatedBy : option uuid;
  d_CreatedAt : time;
  d_UpdatedAt : time;
  d_DeletedAt : option time
}.

Definition Server_MongoData (db : Server) : option MongoDatabaseData :=
  match d_ProtocolData db with None => None | Some p => sp_MongoDB p end.
Definition Server_SSHData (db : Server) : option SSHServerData :=
  match d_ProtocolData db with None => None | Some p => sp_SSH p end.
Definition IsSSH (db : Server) : bool := String.eqb (d_Protocol db) ProtocolSSH.

Record Connection := {
  c_UID : uuid;
  c_UserID : uuid;
  c_DatabaseID : uuid;
  c_SourceIP : string;
  c_ConnectedAt : time;
  c_LastActivityAt : time;
  c_DisconnectedAt : option time;
  c_Queries : Z;
  c_BytesTransferred : Z
}.

Record QueryParameters := {
  qp_Values : list string;
  qp_Raw : list string;
  qp_FormatCodes : list Z;
  qp_TypeOIDs : list Z
}.

(** [DurationMs] is held in thousandths: the column is numeric(10,3). *)
Record Query := {
  q_UID : uuid;
  q_ConnectionID : uuid;
  q_SQLText : string;
  q_Parameters : option QueryParameters;
  q_ExecutedAt : time;
  q_DurationMs : option Z;
  q_RowsAffected : option Z;
  q_Error : option string;
  q_CopyFormat : option string;
  q_CopyDirection : option string
}.

Record QueryRow := {
  qr_RowNumber : Z;
  qr_RowData : string;
  qr_RowSizeBytes : Z
}.

Record AccessGrant := {
  g_UID : uuid;
  g_UserID : uuid;
  g_DatabaseID : uuid;
  g_Controls : list string;
  g_GrantedBy : uuid;
  g_StartsAt : time;
  g_ExpiresAt : time;
  g_RevokedAt : option time;
  g_RevokedBy : option uuid;
  g_MaxQueryCounts : option Z;
  g_MaxBytesTransferred : option Z;
  g_CreatedAt : time;
  g_QueryCount : Z;
  g_BytesTransferred : Z
}.

Definition HasControl (g : AccessGrant) (control : string) : bool :=
  contains_str (g_Controls g) control.
Definition IsReadOnly (g : AccessGrant) : bool := HasControl g ControlReadOnly.
Definition ShouldBlockCopy (g : AccessGrant) : bool := HasControl g ControlBlockCopy.
Definition ShouldBlockDDL (g : AccessGrant) : bool := HasControl g ControlBlockDDL.

Record GrantDefinition := {
  gd_UID : uuid;
  gd_Name : string;
  gd_Description : string;
  gd_DurationSeconds : Z;
  gd_Controls : list string;
  gd_MaxQueryCounts : option Z;
  gd_MaxBytesTransferred : option Z;
  gd_AutoApprove : bool;
  gd_GroupUIDs : list uuid;
  gd_DatabaseUIDs : list uuid;
  gd_IsActive : bool;
  gd_CreatedBy : uuid;
  gd_CreatedAt : time
}.

Definition AppliesToGroups (d : GrantDefinition) (userGroupUIDs : list uuid) : bool :=
  match gd_GroupUIDs d with
  | [] => true
  | scope => existsb (fun scoped => contains_uid userGroupUIDs scoped) scope
  end.

Definition AppliesToDatabase (d : GrantDefinition) (databaseUID : uuid) : bool :=
  match gd_DatabaseUIDs d with
  | [] => true
  | scope => contains_uid scope databaseUID
  end.

Definition AppliesTo (d : GrantDefinition) (userGroupUIDs : list uuid) (databaseUID : uuid) : bool :=
  AppliesToGroups d userGroupUIDs && AppliesToDatabase d databaseUID.

Inductive GrantRequestStatus :=
| GrantRequestPending
| GrantRequestApproved
| GrantRequestDenied
| GrantRequestCancelled
| GrantRequestExpired.

#[export] Instance status_eq_dec : EqDecision GrantRequestStatus.
Proof. solve_decision. Defined.

Record GrantRequest := {
  gr_UID : uuid;
  gr_UserID : uuid;
  gr_GrantDefinitionID : uuid;
  gr_DatabaseID : uuid;
  gr_Justification : string;
  gr_Status : GrantRequestStatus;
  gr_RequestedAt : time;
  gr_DecidedAt : option time;
  gr_DecidedBy : option uuid;
  gr_DecisionReason : option string;
  gr_ResultingGrantID : option uuid;
  gr_SlackChannel : option string;
  gr_SlackMessageTS : option string
}.

Definition KeyTypeAPI := "api".
Definition KeyTypeWeb := "web".

Record OracleAPIKeyData := {
  ok_Salt6949 : bytes;
  ok_Verifier6949 : bytes;
  ok_Salt18453 : bytes;
  ok_Verifier18453 : bytes;
  ok_UserSalt : bool
}.

Record ProtocolData := { pd_Oracle : option OracleAPIKeyData }.

Record APIKey := {
  k_ID : uuid;
  k_UserID : uuid;
  k_Name : string;
  k_KeyHash : string;
  k_KeyPrefix : string;
  k_KeyType : string;
  k_ExpiresAt : option time;
  k_LastUsedAt : option time;
  k_RequestCount : Z;
  k_CreatedAt : time;
  k_RevokedAt : option time;
  k_RevokedBy : option uuid;
  k_ProtocolData : option ProtocolData
}.

Definition APIKey_OracleData (k : APIKey) : option OracleAPIKeyData :=
  match k_ProtocolData k with None => None | Some p => pd_Oracle p end.

(** [now] is the value [time.Now()] returns in the call. *)
Definition IsExpired (now : time) (k : APIKey) : bool :=
  match k_ExpiresAt k with
  | None => false
  | Some e => After now e
  end.
Definition IsRevoked (k : APIKey) : bool :=
  match k_RevokedAt k with Some _ => true | None => false end.
Definition IsValid (now : time) (k : APIKey) : bool := negb (IsExpired now k) && negb (IsRevoked k).
Definition IsWebSession (k : APIKey) : bool := String.eqb (k_KeyType k) KeyTypeWeb.

(** ** Scopes *)

Lemma AppliesToGroups_spec d gs :
  AppliesToGroups d gs = true <->
  gd_GroupUIDs d = [] \/ exists g, In g (gd_GroupUIDs d) /\ In g gs.
Proof.
  unfold AppliesToGroups. destruct (gd_GroupUIDs d) as [|x l] eqn:E.
  - split; [by left|done].
  - rewrite existsb_exists. setoid_rewrite contains_uid_spec.
    split; [naive_solver|]. intros [?|?]; [done|naive_solver].
Qed.

Lemma AppliesToDatabase_spec d db :
  AppliesToDatabase d db = true <-> gd_DatabaseUIDs d = [] \/ In db (gd_DatabaseUIDs d).
Proof.
  unfold AppliesToDatabase. destruct (gd_DatabaseUIDs d) as [|x l] eqn:E.
  - split; [by left|done].
  - rewrite contains_uid_spec. split; [by right|]. by intros [?|?].
Qed.

(** A sample grant, used by the worked examples of the other files. *)
Definition sample_grant (controls : list string) : AccessGrant :=
  {| g_UID := 7%N; g_UserID := 1%N; g_DatabaseID := 2%N; g_Controls := controls;
     g_GrantedBy := 3%N; g_StartsAt := 100; g_ExpiresAt := 1000; g_RevokedAt := None;
     g_RevokedBy := None; g_MaxQueryCounts := None; g_MaxBytesTransferred := Some 500;
     g_CreatedAt := 90; g_QueryCount := 0; g_BytesTransferred := 0 |}.
