(* ===== verification/Validation.v ===== *)
(** * Query and command validation ([internal/proxy/shared/validation.go])

    The keyword tests and blocked-pattern tables every SQL proxy applies before
    a statement leaves for the upstream server, and the MongoDB command
    allowlist. *)

From Stdlib Require Import ZArith Lia List Bool String Ascii.
From stdpp Require Import base list strings.
From S2P Require Import Prelude GoStrings Regex Models.

Open Scope string_scope.
Open Scope Z_scope.

Inductive verror :=
| ErrReadOnlyViolation
| ErrDDLBlocked
| ErrPasswordChangeBlocked
| ErrOraclePatternBlocked
| ErrMySQLPatternBlocked
| ErrMongoReadOnly
| ErrMongoDDLBlocked
| ErrMongoCommandBlocked
| ErrMongoUnknownCommand
| ErrMongoDatabaseBlocked.

(** ** SQL *)

Definition writeKeywords : list string :=
  ["INSERT"; "UPDATE"; "DELETE"; "DROP"; "TRUNCATE";
   "CREATE"; "ALTER"; "GRANT"; "REVOKE"; "MERGE"; "REPLACE"].

Definition ddlKeywords : list string := ["CREATE"; "ALTER"; "DROP"; "TRUNCATE"].

Definition oracleBlockedPatterns : list regex :=
  [ seqs [ci "ALTER"; spaces; ci "SYSTEM"];
    seqs [ci "CREATE"; spaces; ci "DATABASE"; spaces; ci "LINK"];
    ci "DBMS_SCHEDULER"; ci "DBMS_JOB"; ci "UTL_HTTP"; ci "UTL_TCP"; ci "UTL_FILE"; ci "DBMS_PIPE" ].

Definition re_load_data : regex :=
  seqs [WordB; ci "LOAD"; spaces; ci "DATA"; spaces; opt (seqs [ci "LOCAL"; spaces]); ci "INFILE"; WordB].
Definition re_into_file : regex :=
  seqs [WordB; ci "INTO"; spaces; Alt (ci "OUT") (ci "DUMP"); ci "FILE"; WordB].
Definition re_set_global : regex := seqs [WordB; ci "SET"; spaces; ci "GLOBAL"; WordB].
Definition re_set_password : regex := seqs [WordB; ci "SET"; spaces; ci "PASSWORD"; WordB].
Definition mysqlBlockedPatterns : list regex :=
  [re_load_data; re_into_file; re_set_global; re_set_password].

Definition IsWriteQuery (sql : string) : bool :=
  let upper := ToUpper (TrimSpace sql) in existsb (HasPrefix upper) writeKeywords.

Definition IsDDLQuery (sql : string) : bool :=
  let upper := ToUpper (TrimSpace sql) in existsb (HasPrefix upper) ddlKeywords.

Definition IsPasswordChangeQuery (sql : string) : bool :=
  let upper := ToUpper (TrimSpace sql) in
  (HasPrefix upper "ALTER USER" || HasPrefix upper "ALTER ROLE") && Contains upper "PASSWORD".

(** [None] is the nil error. *)
Definition ValidateQuery (sql : string) (grant : AccessGrant) : option verror :=
  if IsPasswordChangeQuery sql then Some ErrPasswordChangeBlocked
  else if IsReadOnly grant && IsWriteQuery sql then Some ErrReadOnlyViolation
  else if ShouldBlockDDL grant && IsDDLQuery sql then Some ErrDDLBlocked
  else None.

Definition ValidateOracleQuery (sql : string) (grant : AccessGrant) : option verror :=
  match ValidateQuery sql grant with
  | Some e => Some e
  | None => if existsb (fun p => MatchString p sql) oracleBlockedPatterns
            then Some ErrOraclePatternBlocked else None
  end.

Definition ValidateMySQLQuery (sql : string) (grant : AccessGrant) : option verror :=
  match ValidateQuery sql grant with
  | Some e => Some e
  | None => if existsb (fun p => MatchString p sql) mysqlBlockedPatterns
            then Some ErrMySQLPatternBlocked else None
  end.

(** ** MongoDB *)

Inductive mongoCmdClass :=
| classUnknown | classRead | classWrite | classDDL | classDiagnostic | classBlocked
| classListDatabases.

Definition mongoReadCommands : list string :=
  ["find"; "aggregate"; "count"; "distinct"; "getMore"; "killCursors"; "listCollections";
   "listIndexes"; "explain"; "dbStats"; "collStats"].
Definition mongoWriteCommands : list string :=
  ["insert"; "update"; "delete"; "findAndModify"; "findandmodify"; "bulkWrite"].
Definition mongoDDLCommands : list string :=
  ["create"; "drop"; "dropDatabase"; "createIndexes"; "dropIndexes"; "collMod";
   "renameCollection"; "convertToCapped"].
Definition mongoDiagnosticCommands : list string :=
  ["hello"; "isMaster"; "ismaster"; "ping"; "buildInfo"; "buildinfo"; "whatsmyuri";
   "connectionStatus"; "getParameter"; "getLog"; "hostInfo"; "atlasVersion"; "endSessions";
   "saslStart"; "saslContinue"].
Definition mongoBlockedCommands : list string :=
  ["createUser"; "updateUser"; "dropUser"; "dropAllUsersFromDatabase"; "grantRolesToUser";
   "revokeRolesFromUser"; "createRole"; "updateRole"; "dropRole"; "shutdown";
   "replSetReconfig"; "replSetStepDown"; "setParameter"; "setFeatureCompatibilityVersion";
   "eval"; "fsync"; "compact"].

(** What the [bson] package reports of a command body: the stages of its
    [pipeline] array, when the field is an array that decodes.  A stage is
    [None] when it is not a document or its elements do not decode, otherwise
    the keys of its elements. *)
Class BSON (raw : Type) := {
  pipeline_stages : raw -> option (list (option (list string)))
}.

Section Mongo.
Context {raw : Type} {bson : BSON raw}.

Definition aggregatePipelineWrites (body : raw) : bool :=
  match pipeline_stages body with
  | None => false
  | Some stages =>
      existsb (fun stage =>
        match stage with
        | None => false
        | Some keys => existsb (fun k => String.eqb k "$out" || String.eqb k "$merge") keys
        end) stages
  end.

Definition classifyMongoCommand (cmd : string) (body : raw) : mongoCmdClass :=
  if contains_str mongoBlockedCommands cmd then classBlocked
  else if String.eqb cmd "listDatabases" then classListDatabases
  else if contains_str mongoDiagnosticCommands cmd then classDiagnostic
  else if contains_str mongoDDLCommands cmd then classDDL
  else if contains_str mongoWriteCommands cmd then classWrite
  else if contains_str mongoReadCommands cmd then
    if String.eqb cmd "aggregate" && aggregatePipelineWrites body then classWrite else classRead
  else classUnknown.

Definition is_diagnostic (c : mongoCmdClass) : bool :=
  match c with classDiagnostic => true | _ => false end.

Definition mongoDatabaseAllowed (dbName : string) (class : mongoCmdClass) (db : option Server) : bool :=
  if String.eqb dbName "" then true
  else if String.eqb dbName "admin" then is_diagnostic class
  else if String.eqb dbName "$external" then false
  else if String.eqb dbName "local" || String.eqb dbName "config" then false
  else match db with
       | None => false
       | Some db => String.eqb dbName (d_DatabaseName db) || String.eqb dbName (d_Name db)
       end.

Definition ValidateMongoCommand (cmd dbName : string) (body : raw) (db : option Server)
    (grant : AccessGrant) : option verror :=
  let class := classifyMongoCommand cmd body in
  let policy :=
    if mongoDatabaseAllowed dbName class db then None else Some ErrMongoDatabaseBlocked in
  match class with
  | classBlocked => Some ErrMongoCommandBlocked
  | classListDatabases => None
  | classUnknown => Some ErrMongoUnknownCommand
  | classDDL =>
      if IsReadOnly grant then Some ErrMongoReadOnly
      else if ShouldBlockDDL grant then Some ErrMongoDDLBlocked
      else policy
  | classWrite => if IsReadOnly grant then Some ErrMongoReadOnly else policy
  | classRead | classDiagnostic => policy
  end.

End Mongo.

(** ** Keyword tests see through case and leading white space *)

Definition is_upper (c : ascii) : bool := (65 <=? code c) && (code c <=? 90).

Lemma upper1_letter c : is_upper (upper1 c) = true -> is_space1 c = false.
Proof.
  unfold is_upper, is_space1, upper1. intros H.
  destruct ((97 <=? code c) && (code c <=? 122)) eqn:E; bools.
  - rewrite (proj2 (Z.leb_gt (code c) 13)), andb_false_r by lia. simpl. apply Z.eqb_neq. lia.
  - rewrite (proj2 (Z.leb_gt (code c) 13)), andb_false_r by lia. simpl. apply Z.eqb_neq. lia.
Qed.

Lemma same_word_plain w kw :
  same_word w kw = true -> all_chars is_upper kw = true -> all_chars is_word_char w = true.
Proof.
  unfold same_word. intros H Hu. bools. subst kw.
  induction w as [|c w IH]; [done|]. cbn [all_chars] in *. bools.
  rewrite upper_ascii_cons in Hu by done. cbn [all_chars] in Hu. bools.
  rewrite IH by done. unfold is_word_char. rewrite upper1_letter, H by done. done.
Qed.

Lemma same_word_nonempty w kw : same_word w kw = true -> kw <> "" -> w <> "".
Proof. unfold same_word. intros H Hne ->. bools. by subst kw. Qed.

Definition plain_keyword (kw : string) : Prop := all_chars is_upper kw = true /\ kw <> "".

Lemma keyword_seen ws w kw r :
  all_chars is_space1 ws = true -> same_word w kw = true -> plain_keyword kw ->
  HasPrefix (ToUpper (TrimSpace (ws ++ w ++ r))) kw = true.
Proof.
  intros Hws Hw [Hu Hne]. apply upper_trim_keyword; eauto using same_word_plain, same_word_nonempty.
Qed.

Lemma writeKeywords_plain : Forall plain_keyword writeKeywords.
Proof. repeat constructor; done. Qed.

Lemma ddlKeywords_plain : Forall plain_keyword ddlKeywords.
Proof. repeat constructor; done. Qed.

Lemma IsWriteQuery_keyword ws w kw r :
  all_chars is_space1 ws = true -> same_word w kw = true -> In kw writeKeywords ->
  IsWriteQuery (ws ++ w ++ r) = true.
Proof.
  intros Hws Hw Hin. apply existsb_exists. exists kw. split; [done|].
  apply keyword_seen; try done.
  by apply (proj1 (List.Forall_forall _ _) writeKeywords_plain).
Qed.

Lemma IsDDLQuery_keyword ws w kw r :
  all_chars is_space1 ws = true -> same_word w kw = true -> In kw ddlKeywords ->
  IsDDLQuery (ws ++ w ++ r) = true.
Proof.
  intros Hws Hw Hin. apply existsb_exists. exists kw. split; [done|].
  apply keyword_seen; try done.
  by apply (proj1 (List.Forall_forall _ _) ddlKeywords_plain).
Qed.

(** The three SQL validators, as one function of the protocol. *)
Inductive sql_proxy := ProxyPG | ProxyOracle | ProxyMySQL.

Definition Validate (p : sql_proxy) : string -> AccessGrant -> option verror :=
  match p with
  | ProxyPG => ValidateQuery
  | ProxyOracle => ValidateOracleQuery
  | ProxyMySQL => ValidateMySQLQuery
  end.

Lemma Validate_base p sql g : Validate p sql g = None -> ValidateQuery sql g = None.
Proof.
  destruct p; simpl; unfold ValidateOracleQuery, ValidateMySQLQuery;
    destruct (ValidateQuery sql g); done.
Qed.

Lemma ValidateQuery_None sql g :
  ValidateQuery sql g = None <->
  IsPasswordChangeQuery sql = false
  /\ (IsReadOnly g = true -> IsWriteQuery sql = false)
  /\ (ShouldBlockDDL g = true -> IsDDLQuery sql = false).
Proof.
  unfold ValidateQuery.
  destruct (IsPasswordChangeQuery sql), (IsReadOnly g), (IsWriteQuery sql), (ShouldBlockDDL g),
    (IsDDLQuery sql); simpl; naive_solver.
Qed.

(** C1. Under a read-only grant the validator of each SQL proxy (PostgreSQL's, MySQL's,
    Oracle's) refuses a text that starts, after any ASCII white space, with a write
    keyword in any letter case, whatever follows.  This is about the three
    validators; which statements the proxies hand to them is said by
    [pg_only_admitted_forwarded], [mysql_only_admitted_executed] and
    [oracle_only_admitted_forwarded]. *)
Theorem read_only_blocks_writes p ws w kw rest g :
  all_chars is_space1 ws = true -> same_word w kw = true -> In kw writeKeywords ->
  IsReadOnly g = true ->
  Validate p (ws ++ w ++ rest) g <> None.
Proof.
  intros Hws Hw Hin Hro H%Validate_base. apply ValidateQuery_None in H as (_ & H & _).
  by rewrite (IsWriteQuery_keyword ws w kw rest) in H by done; specialize (H Hro).
Qed.

Lemma read_only_blocks_writes_witness :
  Validate ProxyMySQL ("  " ++ "dElEtE" ++ " from t") (sample_grant [ControlReadOnly]) <> None.
Proof. apply (read_only_blocks_writes ProxyMySQL "  " "dElEtE" "DELETE" " from t"); vm_compute; auto. Defined.

(** Adding controls to a grant only ever refuses more: what the stricter
    grant admits, the laxer one admits too, on every SQL proxy. *)
Theorem controls_only_restrict p sql g g' :
  (forall c, In c (g_Controls g) -> In c (g_Controls g')) ->
  Validate p sql g' = None -> Validate p sql g = None.
Proof.
  intros Hsub Hg'. pose proof (Validate_base _ _ _ Hg') as Hb.
  assert (ValidateQuery sql g = None) as Hq.
  { apply ValidateQuery_None. apply ValidateQuery_None in Hb as (H1 & H2 & H3).
    split_and!; [done|intros Hc; apply H2|intros Hc; apply H3];
      apply contains_str_spec in Hc; apply contains_str_spec; auto. }
  revert Hg'. destruct p; simpl; unfold ValidateOracleQuery, ValidateMySQLQuery; rewrite ?Hq, ?Hb; done.
Qed.

Lemma controls_only_restrict_witness :
  Validate ProxyOracle "SELECT 1 FROM dual" (sample_grant []) = None.
Proof.
  apply (controls_only_restrict ProxyOracle "SELECT 1 FROM dual" (sample_grant [])
           (sample_grant [ControlReadOnly; ControlBlockDDL])); [intros c []|vm_compute; reflexivity].
Defined.

(** ** Blocked patterns *)

(** The operations the MySQL table names, as texts: keywords in any letter case
    with any white space between them. *)
Inductive mysql_attack : string -> Prop :=
| atk_load a b c s1 s2 :
    fold_word a "LOAD" = true -> fold_word b "DATA" = true -> fold_word c "INFILE" = true ->
    ws1 s1 = true -> ws1 s2 = true -> mysql_attack (a ++ s1 ++ b ++ s2 ++ c)
| atk_load_local a b l c s1 s2 s3 :
    fold_word a "LOAD" = true -> fold_word b "DATA" = true -> fold_word l "LOCAL" = true ->
    fold_word c "INFILE" = true -> ws1 s1 = true -> ws1 s2 = true -> ws1 s3 = true ->
    mysql_attack (a ++ s1 ++ b ++ s2 ++ l ++ s3 ++ c)
| atk_outfile a b s1 :
    fold_word a "INTO" = true -> fold_word b "OUTFILE" = true -> ws1 s1 = true ->
    mysql_attack (a ++ s1 ++ b)
| atk_dumpfile a b s1 :
    fold_word a "INTO" = true -> fold_word b "DUMPFILE" = true -> ws1 s1 = true ->
    mysql_attack (a ++ s1 ++ b)
| atk_set_global a b s1 :
    fold_word a "SET" = true -> fold_word b "GLOBAL" = true -> ws1 s1 = true ->
    mysql_attack (a ++ s1 ++ b)
| atk_set_password a b s1 :
    fold_word a "SET" = true -> fold_word b "PASSWORD" = true -> ws1 s1 = true ->
    mysql_attack (a ++ s1 ++ b).

Lemma fold1_word k x : fold1 k x = true -> is_upper k = true -> is_re_word x = true.
Proof.
  unfold fold1, is_upper, is_re_word. intros H Hk. apply Ascii.eqb_eq in H.
  assert (upper1 k = k) as E.
  { unfold upper1. rewrite (proj2 (Z.leb_gt 97 (code k))) by blia. done. }
  rewrite E in H. subst k. revert Hk. unfold upper1.
  destruct ((97 <=? code x) && (code x <=? 122)) eqn:Ex; intros Hk.
  - rewrite (orb_true_r (_ || _)). done.
  - rewrite Hk, (orb_true_r (_ && _)). done.
Qed.

Lemma fold_word_word w kw :
  fold_word w kw = true -> all_chars is_upper kw = true -> all_chars is_re_word w = true.
Proof.
  revert kw; induction w as [|a w IH]; intros [|b kw]; cbn [fold_word all_chars];
    intros H Hu; try done. bools. erewrite fold1_word by eauto. by eapply IH.
Qed.

Lemma word_at_last w p :
  all_chars is_re_word w = true -> w <> "" -> word_at (last_of p w) = true.
Proof.
  revert p; induction w as [|a w IH]; intros p; cbn [all_chars last_of]; intros H Hne; [done|].
  bools. destruct w as [|b w]; [done|]. by apply IH.
Qed.

Lemma boundary_before pre a kw r :
  ends_plain pre = true -> fold_word a kw = true -> all_chars is_upper kw = true -> kw <> "" ->
  rmatch WordB (last_of None pre, a ++ r) (last_of None pre, a ++ r).
Proof.
  unfold ends_plain. intros Hp Ha Hu Hne. bools. apply rmatch_boundary. rewrite Hp.
  pose proof (fold_word_word _ _ Ha Hu) as Hw. destruct a as [|x a]; [by destruct kw|].
  cbn [all_chars] in Hw. bools. cbn. congruence.
Qed.

Lemma boundary_after p a kw post :
  starts_plain post = true -> fold_word a kw = true -> all_chars is_upper kw = true -> kw <> "" ->
  rmatch WordB (last_of p a, post) (last_of p a, post).
Proof.
  unfold starts_plain. intros Hp Ha Hu Hne. bools. apply rmatch_boundary. rewrite Hp.
  pose proof (fold_word_word _ _ Ha Hu) as Hw.
  rewrite word_at_last; [done|done|]. intros ->. by destruct kw.
Qed.

Lemma MatchString_intro r pre t st : rmatch r (last_of None pre, t) st -> MatchString r (pre ++ t) = true.
Proof. intros. apply search_correct. eauto. Qed.

Lemma fold_word_app w kw1 kw2 :
  fold_word w (kw1 ++ kw2) = true ->
  exists w1 w2, w = w1 ++ w2 /\ fold_word w1 kw1 = true /\ fold_word w2 kw2 = true.
Proof.
  revert w; induction kw1 as [|b kw1 IH]; intros w H; [by exists "", w|].
  destruct w as [|a w]; [done|]. cbn [String.append fold_word] in H. bools.
  match goal with H : fold_word w _ = true |- _ => apply IH in H as (w1 & w2 & -> & H1 & H2) end.
  exists (String a w1), w2. cbn [fold_word]. rewrite H1, H. done.
Qed.

(** One token of a [seqs] pattern against the next piece of the text. *)
Ltac re_token :=
  eapply m_seq;
  [first [ apply rmatch_ci; eassumption
         | apply rmatch_spaces; eassumption
         | eapply boundary_before; [eassumption|eassumption|reflexivity|discriminate]
         | eapply boundary_after; [eassumption|eassumption|reflexivity|discriminate]
         | apply m_alt_r; apply m_eps ] | ].

Ltac re_tokens := cbn [seqs opt]; repeat re_token; apply m_eps.

Lemma mysql_attack_matches core pre post :
  mysql_attack core -> ends_plain pre = true -> starts_plain post = true ->
  existsb (fun p => MatchString p (pre ++ core ++ post)) mysqlBlockedPatterns = true.
Proof.
  intros Hatk Hpre Hpost. apply existsb_exists. unfold mysqlBlockedPatterns.
  destruct Hatk.
  - exists re_load_data. split; [simpl; tauto|]. rewrite !sapp_assoc.
    eapply MatchString_intro. unfold re_load_data. re_tokens.
  - exists re_load_data. split; [simpl; tauto|]. rewrite !sapp_assoc.
    eapply MatchString_intro. unfold re_load_data. cbn [seqs opt]. do 5 re_token.
    eapply m_seq; [apply m_alt_l; re_tokens|]. re_tokens.
  - exists re_into_file. split; [simpl; tauto|].
    match goal with H : fold_word b _ = true |- _ => rename H into Hb end.
    pose proof Hb as Hb'. apply (fold_word_app _ "OUT" "FILE") in Hb as (b1 & b2 & -> & Hb1 & Hb2).
    rewrite !sapp_assoc. eapply MatchString_intro. unfold re_into_file. cbn [seqs opt].
    do 3 re_token. eapply m_seq; [apply m_alt_l; by apply rmatch_ci|]. re_tokens.
  - exists re_into_file. split; [simpl; tauto|].
    match goal with H : fold_word b _ = true |- _ => rename H into Hb end.
    pose proof Hb as Hb'. apply (fold_word_app _ "DUMP" "FILE") in Hb as (b1 & b2 & -> & Hb1 & Hb2).
    rewrite !sapp_assoc. eapply MatchString_intro. unfold re_into_file. cbn [seqs opt].
    do 3 re_token. eapply m_seq; [apply m_alt_r; by apply rmatch_ci|]. re_tokens.
  - exists re_set_global. split; [simpl; tauto|]. rewrite !sapp_assoc.
    eapply MatchString_intro. unfold re_set_global. re_tokens.
  - exists re_set_password. split; [simpl; tauto|]. rewrite !sapp_assoc.
    eapply MatchString_intro. unfold re_set_password. re_tokens.
Qed.

(** File access and server-wide settings are out of reach on MySQL under
    every grant: a statement that contains [LOAD DATA [LOCAL] INFILE],
    [INTO OUTFILE], [INTO DUMPFILE], [SET GLOBAL] or [SET PASSWORD] as whole
    words, in any letter case, with any white space between the words and
    anywhere in the text, is refused. *)
Theorem mysql_attacks_refused core pre post g :
  mysql_attack core -> ends_plain pre = true -> starts_plain post = true ->
  ValidateMySQLQuery (pre ++ core ++ post) g <> None.
Proof.
  intros. unfold ValidateMySQLQuery. rewrite mysql_attack_matches by done.
  by destruct (ValidateQuery _ _).
Qed.

Lemma mysql_attacks_refused_witness :
  ValidateMySQLQuery ("SELECT 1; " ++ ("load" ++ " " ++ "Data" ++ "  " ++ "Local" ++ " " ++ "INFILE") ++ " 'x'")
    (sample_grant []) <> None.
Proof.
  apply (mysql_attacks_refused _ "SELECT 1; " " 'x'"); [|reflexivity|reflexivity].
  apply (atk_load_local "load" "Data" "Local" "INFILE" " " "  " " "); reflexivity.
Defined.

(** ** MongoDB: default deny *)

Section MongoProps.
Context {raw : Type} {bson : BSON raw}.
Implicit Types (cmd dbName : string) (body : raw) (g : AccessGrant).

(** A pipeline with a stage that writes. *)
Definition writing_pipeline body : Prop :=
  exists stages keys, pipeline_stages body = Some stages /\ In (Some keys) stages
    /\ (In "$out" keys \/ In "$merge" keys).

Lemma aggregatePipelineWrites_spec body :
  aggregatePipelineWrites body = true <-> writing_pipeline body.
Proof.
  unfold aggregatePipelineWrites, writing_pipeline.
  destruct (pipeline_stages body) as [stages|]; [|split; [done|by intros (?&?&?&?)]].
  rewrite existsb_exists. split.
  - intros ([keys|] & Hin & H); [|done]. apply existsb_exists in H as (k & Hk & H).
    exists stages, keys. split_and!; [done|done|].
    bools. destruct H as [H|H]; bools; subst; auto.
  - intros (st & keys & [= <-] & Hin & H). exists (Some keys). split; [done|].
    apply existsb_exists. destruct H as [H|H]; eexists; split; try exact H; done.
Qed.

(** The class a command is given, read back from the tables. *)
Definition class_spec (c : mongoCmdClass) cmd body : Prop :=
  match c with
  | classBlocked => In cmd mongoBlockedCommands
  | classListDatabases => cmd = "listDatabases"
  | classDiagnostic => In cmd mongoDiagnosticCommands
  | classDDL => In cmd mongoDDLCommands
  | classWrite => In cmd mongoWriteCommands \/ (cmd = "aggregate" /\ writing_pipeline body)
  | classRead => In cmd mongoReadCommands /\ ~ (cmd = "aggregate" /\ writing_pipeline body)
  | classUnknown =>
      ~ In cmd mongoBlockedCommands /\ cmd <> "listDatabases" /\ ~ In cmd mongoDiagnosticCommands
      /\ ~ In cmd mongoDDLCommands /\ ~ In cmd mongoWriteCommands /\ ~ In cmd mongoReadCommands
  end.

Lemma classify_sound cmd body : class_spec (classifyMongoCommand cmd body) cmd body.
Proof.
  unfold classifyMongoCommand.
  repeat match goal with
  | |- context [contains_str ?l cmd] =>
      let E := fresh "E" in destruct (contains_str l cmd) eqn:E;
      [apply contains_str_spec in E | rewrite <- not_true_iff_false, contains_str_spec in E]
  | |- context [String.eqb cmd ?x] =>
      let E := fresh "E" in destruct (String.eqb cmd x) eqn:E; bools
  | |- context [aggregatePipelineWrites body] =>
      let E := fresh "E" in destruct (aggregatePipelineWrites body) eqn:E;
      [apply aggregatePipelineWrites_spec in E
      |rewrite <- not_true_iff_false, aggregatePipelineWrites_spec in E]
  end; cbn [class_spec andb]; split_and?; tauto.
Qed.

(** Under a read-only grant only named read and diagnostic commands and
    [listDatabases] pass: no write, no DDL, no always-blocked command, nothing
    off the allowlist, and no aggregation whose pipeline writes. *)
Theorem mongo_read_only_safe cmd dbName body db g :
  IsReadOnly g = true ->
  ValidateMongoCommand cmd dbName body db g = None ->
  (In cmd mongoReadCommands \/ In cmd mongoDiagnosticCommands \/ cmd = "listDatabases")
  /\ ~ (cmd = "aggregate" /\ writing_pipeline body).
Proof.
  intros Hro. unfold ValidateMongoCommand. rewrite Hro.
  pose proof (classify_sound cmd body) as Hc.
  destruct (classifyMongoCommand cmd body); cbn [class_spec] in Hc; try done; intros _.
  - tauto.
  - split; [tauto|]. intros [-> _]. simpl in Hc. naive_solver.
  - split; [tauto|]. subst. naive_solver.
Qed.

(** A command that passes touches only the granted database: the [$db]
    it names is absent, or is [admin] for a diagnostic command, or is the name
    of the session's server or its upstream database - and never [local],
    [config] or [$external].  The one exception is [listDatabases], whose reply
    the proxy filters. *)
Theorem mongo_database_confined cmd dbName body db g :
  ValidateMongoCommand cmd dbName body db g = None -> cmd <> "listDatabases" ->
  dbName = ""
  \/ (dbName = "admin" /\ In cmd mongoDiagnosticCommands)
  \/ (~ In dbName ["admin"; "$external"; "local"; "config"]
      /\ exists d, db = Some d /\ (dbName = d_DatabaseName d \/ dbName = d_Name d)).
Proof.
  intros H Hne.
  assert (mongoDatabaseAllowed dbName (classifyMongoCommand cmd body) db = true) as Ha.
  { revert H. unfold ValidateMongoCommand. pose proof (classify_sound cmd body) as Hc.
    destruct (mongoDatabaseAllowed dbName _ db); [done|].
    destruct (classifyMongoCommand cmd body); cbn [class_spec] in Hc;
      repeat case_match; done. }
  revert Ha. unfold mongoDatabaseAllowed. pose proof (classify_sound cmd body) as Hc.
  destruct (String.eqb_spec dbName ""); [tauto|].
  destruct (String.eqb_spec dbName "admin").
  { destruct (classifyMongoCommand cmd body); try done. auto. }
  destruct (String.eqb_spec dbName "$external"); [done|].
  destruct (String.eqb_spec dbName "local"); [done|].
  destruct (String.eqb_spec dbName "config"); [done|].
  destruct db as [d|]; [|done]. simpl. intros Hd. bools. right. right.
  split; [naive_solver|]. exists d. split; [done|]. destruct Hd; bools; auto.
Qed.

End MongoProps.

(** A concrete body reader for the examples: the stages themselves. *)
#[local] Instance stages_bson : BSON (list (option (list string))) :=
  {| pipeline_stages := fun b => Some b |}.

Definition sample_server : Server :=
  {| d_UID := 2%N; d_Name := "prod"; d_Description := ""; d_Host := "db"; d_Port := 27017;
     d_DatabaseName := "shop"; d_Username := "ro"; d_Password := ""; d_PasswordEncrypted := [];
     d_SSLMode := ""; d_Protocol := ProtocolMongoDB; d_OracleServiceName := None; d_ViaUID := None;
     d_ProtocolData := None; d_Listable := true; d_CreatedBy := None; d_CreatedAt := 1;
     d_UpdatedAt := 1; d_DeletedAt := None |}.

Lemma mongo_read_only_safe_witness :
  (In "aggregate" mongoReadCommands \/ In "aggregate" mongoDiagnosticCommands
   \/ "aggregate" = "listDatabases")
  /\ ~ ("aggregate" = "aggregate" /\ writing_pipeline [Some ["$match"]; None]).
Proof.
  apply (mongo_read_only_safe "aggregate" "shop" [Some ["$match"]; None] (Some sample_server)
           (sample_grant [ControlReadOnly])); vm_compute; reflexivity.
Defined.

Lemma mongo_database_confined_witness :
  "shop" = ""
  \/ ("shop" = "admin" /\ In "find" mongoDiagnosticCommands)
  \/ (~ In "shop" ["admin"; "$external"; "local"; "config"]
      /\ exists d, Some sample_server = Some d /\ ("shop" = d_DatabaseName d \/ "shop" = d_Name d)).
Proof.
  apply (mongo_database_confined (raw := list (option (list string))) "find" "shop" []
           (Some sample_server) (sample_grant [])); [vm_compute; reflexivity|discriminate].
Defined.

(** ** A gap in the password-change test

    [IsPasswordChangeQuery] compares with a prefix that has exactly one space,
    so the same statement with two spaces, which PostgreSQL accepts, is not
    recognised. *)

(** [ALTER  USER joe PASSWORD 'x'] (two spaces) is admitted by every SQL
    validator under a grant without controls, while the same statement with one
    space is refused under every grant. *)
Theorem password_change_gap p g :
  g_Controls g = [] ->
  Validate p "ALTER  USER joe PASSWORD 'x'" g = None
  /\ (forall g', Validate p "ALTER USER joe PASSWORD 'x'" g' <> None).
Proof.
  intros Hg. assert (forall c, HasControl g c = false) as Hc
    by (intros; unfold HasControl; by rewrite Hg).
  split.
  - assert (ValidateQuery "ALTER  USER joe PASSWORD 'x'" g = None) as E.
    { apply ValidateQuery_None. unfold IsReadOnly, ShouldBlockDDL. rewrite !Hc. done. }
    destruct p; simpl; unfold ValidateOracleQuery, ValidateMySQLQuery; rewrite ?E; reflexivity.
  - intros g' H%Validate_base. apply ValidateQuery_None in H as (H & _). vm_compute in H. done.
Qed.

Lemma password_change_gap_witness :
  Validate ProxyMySQL "ALTER  USER joe PASSWORD 'x'" (sample_grant []) = None
  /\ (forall g', Validate ProxyMySQL "ALTER USER joe PASSWORD 'x'" g' <> None).
Proof. apply (password_change_gap ProxyMySQL (sample_grant [])); reflexivity. Defined.
