(* ===== verification/Limits.v ===== *)
(** * Mid-session limits ([internal/proxy/shared/limits.go], [byte_counter.go], [appname.go])

    [LimitGuard] decides, on the data path, whether a session may go on.  The
    counters, the revocation flag and the clock are shared with other
    goroutines: they are not fields of the guard but the [Live] environment a
    check reads them from, so a sequence of checks sees a sequence of
    environments. *)

From Stdlib Require Import ZArith Lia List Bool String Ascii.
From stdpp Require Import base list strings.
From S2P Require Import Prelude GoStrings Models.

Open Scope string_scope.
Open Scope Z_scope.

Inductive limit_error := ErrByteQuotaExceeded | ErrGrantExpired | ErrGrantRevoked.

Definition DefaultLimitPollInterval : Z := 250 * 1000000.

(** The atomics and the clock, as one instant shows them. *)
Record Live := {
  l_from : Z;
  l_to : Z;
  l_revoked : bool;
  l_now : time
}.

(** [lg_from], [lg_to], [lg_revoked] say whether the pointer is non-nil. *)
Record LimitGuard := {
  lg_from : bool;
  lg_to : bool;
  lg_baseBytes : Z;
  lg_maxBytes : option Z;
  lg_expiresAt : time;
  lg_revoked : bool
}.

Definition NewLimitGuard (grant : option AccessGrant) (from to : bool) : LimitGuard :=
  match grant with
  | None => {| lg_from := from; lg_to := to; lg_baseBytes := 0; lg_maxBytes := None;
               lg_expiresAt := 0; lg_revoked := false |}
  | Some g => {| lg_from := from; lg_to := to; lg_baseBytes := g_BytesTransferred g;
                 lg_maxBytes := g_MaxBytesTransferred g; lg_expiresAt := g_ExpiresAt g;
                 lg_revoked := false |}
  end.

Definition WithRevocation (g : option LimitGuard) (flag : bool) : option LimitGuard :=
  match g with
  | None => None
  | Some g => Some {| lg_from := lg_from g; lg_to := lg_to g; lg_baseBytes := lg_baseBytes g;
                      lg_maxBytes := lg_maxBytes g; lg_expiresAt := lg_expiresAt g;
                      lg_revoked := flag |}
  end.

Definition liveBytes (g : LimitGuard) (e : Live) : Z :=
  let total := if lg_from g then i64 (0 + l_from e) else 0 in
  if lg_to g then i64 (total + l_to e) else total.

Definition Check (g : option LimitGuard) (e : Live) : option limit_error :=
  match g with
  | None => None
  | Some g =>
      if lg_revoked g && l_revoked e then Some ErrGrantRevoked
      else if match lg_maxBytes g with
              | Some m => m <=? i64 (lg_baseBytes g + liveBytes g e)
              | None => false
              end then Some ErrByteQuotaExceeded
      else if negb (IsZero (lg_expiresAt g)) && negb (Before (l_now e) (lg_expiresAt g))
           then Some ErrGrantExpired
      else None
  end.

(** What the [select] of the poll loop can receive. *)
Inductive watch_event := CtxDone | Tick (e : Live).

(** The calls of [onViolation], and whether [Watch] has returned. *)
Record watch_result := { w_calls : list limit_error; w_returned : bool }.

Fixpoint watch_loop (g : LimitGuard) (evs : list watch_event) : watch_result :=
  match evs with
  | [] => {| w_calls := []; w_returned := false |}
  | CtxDone :: _ => {| w_calls := []; w_returned := true |}
  | Tick e :: evs =>
      match Check (Some g) e with
      | Some err => {| w_calls := [err]; w_returned := true |}
      | None => watch_loop g evs
      end
  end.

Definition watch_interval (interval : Z) : Z :=
  if interval <=? 0 then DefaultLimitPollInterval else interval.

(** [e0] is what the immediate check sees; [evs] are the events of the ticker
    armed with [watch_interval interval]. *)
Definition Watch (g : option LimitGuard) (e0 : Live) (evs : list watch_event) : watch_result :=
  match g with
  | None => {| w_calls := []; w_returned := true |}
  | Some g =>
      if match lg_maxBytes g with None => true | Some _ => false end
         && IsZero (lg_expiresAt g) && negb (lg_revoked g)
      then {| w_calls := []; w_returned := true |}
      else match Check (Some g) e0 with
           | Some err => {| w_calls := [err]; w_returned := true |}
           | None => watch_loop g evs
           end
  end.

(** ** Counted connections *)

(** One call of the wrapped [net.Conn]: the direction and the byte count it
    returned (the error does not matter to the counters). *)
Inductive conn_op := ConnRead (n : Z) | ConnWrite (n : Z).

(** [bytesRead] and [bytesWritten]; [None] is a nil counter. *)
Record CountingConn := { bytesRead : option Z; bytesWritten : option Z }.

Definition add_counter (c : option Z) (n : Z) : option Z :=
  if 0 <? n then option_map (fun v => i64 (v + n)) c else c.

Definition CountingConn_Read (c : CountingConn) (n : Z) : CountingConn :=
  {| bytesRead := add_counter (bytesRead c) n; bytesWritten := bytesWritten c |}.

Definition CountingConn_Write (c : CountingConn) (n : Z) : CountingConn :=
  {| bytesRead := bytesRead c; bytesWritten := add_counter (bytesWritten c) n |}.

Definition conn_step (c : CountingConn) (o : conn_op) : CountingConn :=
  match o with ConnRead n => CountingConn_Read c n | ConnWrite n => CountingConn_Write c n end.

(** ** Upstream names *)

(** [s[:n]]; [None] is the panic. *)
Definition str_to (n : Z) (s : string) : option string :=
  if (0 <=? n) && (n <=? slen s) then Some (String.substring 0 (Z.to_nat n) s) else None.

Definition truncateName (s : string) (maxLen : Z) : option string :=
  if maxLen <=? 0 then Some ""
  else if slen s <=? maxLen then Some s
  else str_to maxLen s.

Definition BuildUpstreamName (dbbatVersion username clientAppName : string) (maxLen : Z) : option string :=
  let base := "dbbat/" ++ dbbatVersion ++ " @" ++ username in
  let clientAppName := TrimSpace clientAppName in
  if String.eqb clientAppName "" then truncateName base maxLen
  else
    let sep := " for " in
    let full := base ++ sep ++ clientAppName in
    if slen full <=? maxLen then Some full
    else
      let avail := maxLen - slen base - slen sep in
      if avail <=? 0 then truncateName base maxLen
      else option_map (fun t => base ++ sep ++ t) (str_to avail clientAppName).

(** ** The guard *)

(** The counters are non-negative and the running total fits an [int64]. *)
Definition in_range (g : LimitGuard) (e : Live) : Prop :=
  0 <= l_from e /\ 0 <= l_to e /\ 0 <= lg_baseBytes g
  /\ lg_baseBytes g + l_from e + l_to e < 2 ^ 63.

(** The bytes this session has moved, as the guard counts them. *)
Definition moved (g : LimitGuard) (e : Live) : Z :=
  (if lg_from g then l_from e else 0) + (if lg_to g then l_to e else 0).

Lemma i64_small z : - 2 ^ 63 <= z < 2 ^ 63 -> i64 z = z.
Proof. intros. apply sint_small; lia. Qed.

Lemma running_total g e :
  in_range g e -> i64 (lg_baseBytes g + liveBytes g e) = lg_baseBytes g + moved g e.
Proof.
  unfold in_range, liveBytes, moved. intros (?&?&?&?).
  destruct (lg_from g), (lg_to g); rewrite ?(i64_small (0 + l_from e)) by lia;
    rewrite ?(i64_small (0 + l_from e + l_to e)), ?(i64_small (0 + l_to e)) by lia;
    rewrite i64_small by lia; lia.
Qed.

(** When a check lets the session go on. *)
Definition within_limits (g : LimitGuard) (e : Live) : Prop :=
  ~ (lg_revoked g = true /\ l_revoked e = true)
  /\ (forall m, lg_maxBytes g = Some m -> lg_baseBytes g + moved g e < m)
  /\ (lg_expiresAt g = 0 \/ l_now e < lg_expiresAt g).

Lemma Check_None g e : in_range g e -> Check (Some g) e = None <-> within_limits g e.
Proof.
  intros Hr. unfold Check, within_limits. rewrite running_total by done.
  unfold IsZero, Before.
  assert ((lg_revoked g && l_revoked e) = false <-> ~ (lg_revoked g = true /\ l_revoked e = true)) as HA
    by (rewrite andb_false_iff, <- !not_true_iff_false; destruct (lg_revoked g), (l_revoked e); intuition).
  rewrite <- HA. clear HA.
  destruct (lg_revoked g && l_revoked e); [intuition done|].
  destruct (lg_maxBytes g) as [m|]; [destruct (Z.leb_spec m (lg_baseBytes g + moved g e))|].
  - split; [done|]. intros (_ & Hm & _). specialize (Hm _ eq_refl). lia.
  - destruct (Z.eqb_spec (lg_expiresAt g) 0), (Z.ltb_spec (l_now e) (lg_expiresAt g)); simpl;
      naive_solver lia.
  - destruct (Z.eqb_spec (lg_expiresAt g) 0), (Z.ltb_spec (l_now e) (lg_expiresAt g)); simpl;
      naive_solver lia.
Qed.

(** A later instant: counters and clock only grow, revocation is permanent. *)
Definition later (e e' : Live) : Prop :=
  l_from e <= l_from e' /\ l_to e <= l_to e' /\ l_now e <= l_now e'
  /\ (l_revoked e = true -> l_revoked e' = true).

(** A tripped limit stays tripped: once [Check] refuses, every later check
    of the same session refuses too. *)
Theorem check_stays_tripped g e e' :
  in_range g e -> in_range g e' -> later e e' ->
  Check (Some g) e <> None -> Check (Some g) e' <> None.
Proof.
  intros Hr Hr' (?&?&?&Hv) Hne H'. apply Hne. apply Check_None; [done|].
  apply Check_None in H' as (Hc1 & Hc2 & Hc3); [|done].
  split_and!.
  - intros [? ?]. apply Hc1. auto.
  - intros m Hm. specialize (Hc2 m Hm). unfold moved in *. destruct (lg_from g), (lg_to g); lia.
  - lia.
Qed.

Definition sample_guard : LimitGuard :=
  NewLimitGuard (Some (sample_grant [])) true true.
Definition sample_live (f t n : Z) : Live :=
  {| l_from := f; l_to := t; l_revoked := false; l_now := n |}.

Lemma check_stays_tripped_witness : Check (Some sample_guard) (sample_live 300 250 600) <> None.
Proof.
  apply (check_stays_tripped sample_guard (sample_live 300 200 500) (sample_live 300 250 600));
    unfold in_range, later; simpl; try lia; try done.
Defined.

(** ** The watchdog *)

Lemma watch_loop_spec g evs :
  match w_calls (watch_loop g evs) with
  | [] => exists pre, Forall (fun e => Check (Some g) e = None) pre
            /\ (evs = map Tick pre \/ exists rest, evs = (map Tick pre ++ CtxDone :: rest)%list)
  | [err] => exists pre e rest, evs = (map Tick pre ++ Tick e :: rest)%list
            /\ Forall (fun e => Check (Some g) e = None) pre /\ Check (Some g) e = Some err
            /\ w_returned (watch_loop g evs) = true
  | _ => False
  end.
Proof.
  induction evs as [|[|e] evs IH]; cbn [watch_loop w_calls].
  - exists []. split; [constructor|by left].
  - exists []. split; [constructor|]. right. by exists evs.
  - destruct (Check (Some g) e) as [err|] eqn:E; cbn [w_calls].
    + by exists [], e, evs.
    + destruct (w_calls (watch_loop g evs)) as [|err [|? ?]]; [| |done].
      * destruct IH as (pre & Hp & [->|(rest & ->)]); exists (e :: pre);
          (split; [by constructor|]); [by left|right; by exists rest].
      * destruct IH as (pre & e' & rest & -> & Hp & He & Hr). exists (e :: pre), e', rest.
        split_and!; try done. by constructor.
Qed.

(** The watchdog reports a violation at most once, and it misses none: if
    a limit is crossed at some poll and the context was not cancelled before
    it, [onViolation] is called exactly once, with the reason the first
    violating poll found, and [Watch] returns. *)
Theorem watch_reports_first_violation g e0 pre e rest err :
  (lg_maxBytes g <> None \/ lg_expiresAt g <> 0 \/ lg_revoked g = true) ->
  Forall (fun e => Check (Some g) e = None) (e0 :: pre) -> Check (Some g) e = Some err ->
  Watch (Some g) e0 (map Tick pre ++ Tick e :: rest) = {| w_calls := [err]; w_returned := true |}.
Proof.
  intros Hsome Hpre He. unfold Watch, IsZero.
  destruct (_ && _) eqn:E.
  { bools. destruct (lg_maxBytes g); [done|]. naive_solver congruence. }
  inversion Hpre as [|? ? Hp0 Hp1]; subst. rewrite Hp0. clear Hpre Hp0 E.
  induction Hp1 as [|e' pre Hp _ IH]; cbn [map app watch_loop]; [by rewrite He|by rewrite Hp].
Qed.

Lemma watch_reports_first_violation_witness :
  Watch (Some sample_guard) (sample_live 0 0 500) [Tick (sample_live 10 0 700); Tick (sample_live 10 5 1000)]
  = {| w_calls := [ErrGrantExpired]; w_returned := true |}.
Proof.
  apply (watch_reports_first_violation sample_guard (sample_live 0 0 500)
           [sample_live 10 0 700] (sample_live 10 5 1000) [] ErrGrantExpired).
  - left. discriminate.
  - repeat constructor.
  - reflexivity.
Defined.

(** Whatever the events, [onViolation] runs at most once. *)
Lemma watch_at_most_once g e0 evs : (length (w_calls (Watch g e0 evs)) <= 1)%nat.
Proof.
  unfold Watch. destruct g as [g|]; [|simpl; lia].
  destruct (_ && _); [simpl; lia|]. destruct (Check _ _); [simpl; lia|].
  pose proof (watch_loop_spec g evs) as H.
  destruct (w_calls (watch_loop g evs)) as [|? [|? ?]]; simpl; [lia|lia|done].
Qed.

(** ** Counters *)

Definition op_bytes (o : conn_op) : Z := match o with ConnRead n => n | ConnWrite n => n end.
Definition read_bytes (o : conn_op) : Z := match o with ConnRead n => Z.max 0 n | _ => 0 end.
Definition write_bytes (o : conn_op) : Z := match o with ConnWrite n => Z.max 0 n | _ => 0 end.
Definition total (f : conn_op -> Z) (os : list conn_op) : Z := foldr (fun o s => f o + s) 0 os.

Lemma add_counter_Some v n :
  0 <= v -> v + Z.max 0 n < 2 ^ 63 -> add_counter (Some v) n = Some (v + Z.max 0 n).
Proof.
  intros. unfold add_counter. destruct (Z.ltb_spec 0 n); simpl.
  - rewrite i64_small; [|lia]. do 2 f_equal. lia.
  - do 2 f_equal. lia.
Qed.

Lemma total_nonneg f os : (forall o, 0 <= f o) -> 0 <= total f os.
Proof. intros Hf. induction os as [|o os IH]; simpl; [lia|]. specialize (Hf o). lia. Qed.

Lemma read_bytes_nonneg o : 0 <= read_bytes o.
Proof. destruct o; simpl; lia. Qed.
Lemma write_bytes_nonneg o : 0 <= write_bytes o.
Proof. destruct o; simpl; lia. Qed.

Lemma counters_exact os r w :
  0 <= r -> 0 <= w -> r + total read_bytes os < 2 ^ 63 -> w + total write_bytes os < 2 ^ 63 ->
  foldl conn_step {| bytesRead := Some r; bytesWritten := Some w |} os
  = {| bytesRead := Some (r + total read_bytes os); bytesWritten := Some (w + total write_bytes os) |}.
Proof.
  revert r w; induction os as [|o os IH]; intros r w Hr Hw H1 H2; cbn [foldl total foldr].
  - f_equal; f_equal; lia.
  - pose proof (total_nonneg _ os read_bytes_nonneg). pose proof (total_nonneg _ os write_bytes_nonneg).
    cbn [total foldr] in H1, H2. fold (total read_bytes os) (total write_bytes os) in *.
    destruct o as [n|n]; cbn [read_bytes write_bytes conn_step CountingConn_Read CountingConn_Write
      bytesRead bytesWritten] in *; unfold CountingConn_Read, CountingConn_Write;
      cbn [bytesRead bytesWritten]; rewrite add_counter_Some by lia; rewrite IH by lia;
      f_equal; f_equal; lia.
Qed.

(** C28. The byte quota is enforced on what crosses the wire: after any
    sequence of reads and writes on the client connection, the guard of an
    unrevoked session trips on the quota exactly when the grant's earlier
    usage plus the bytes of those calls reach [max_bytes_transferred]. *)
Theorem byte_quota_enforced grant m os c now :
  g_MaxBytesTransferred grant = Some m -> 0 <= g_BytesTransferred grant ->
  g_BytesTransferred grant + total read_bytes os + total write_bytes os < 2 ^ 63 ->
  c = foldl conn_step {| bytesRead := Some 0; bytesWritten := Some 0 |} os ->
  forall r w, bytesRead c = Some r -> bytesWritten c = Some w ->
  Check (Some (NewLimitGuard (Some grant) true true))
    {| l_from := r; l_to := w; l_revoked := false; l_now := now |} = Some ErrByteQuotaExceeded
  <-> m <= g_BytesTransferred grant + total read_bytes os + total write_bytes os.
Proof.
  intros Hm Hb Hlt -> r w.
  pose proof (total_nonneg _ os read_bytes_nonneg). pose proof (total_nonneg _ os write_bytes_nonneg).
  rewrite counters_exact by lia. cbn [bytesRead bytesWritten]. intros [= <-] [= <-].
  unfold Check. rewrite andb_false_r.
  rewrite running_total by (unfold in_range; simpl; lia).
  unfold moved. cbn [NewLimitGuard lg_maxBytes lg_baseBytes lg_from lg_to lg_expiresAt l_from l_to l_now].
  rewrite Hm. match goal with |- context [m <=? ?x] => destruct (Z.leb_spec m x) end.
  - split; [lia|done].
  - split; [|lia]. by destruct (_ && _).
Qed.

Lemma byte_quota_enforced_witness :
  Check (Some (NewLimitGuard (Some (sample_grant [])) true true))
    {| l_from := 100; l_to := 400; l_revoked := false; l_now := 500 |} = Some ErrByteQuotaExceeded
  <-> 500 <= 0 + total read_bytes [ConnRead 100; ConnWrite 400] + total write_bytes [ConnRead 100; ConnWrite 400].
Proof.
  apply (byte_quota_enforced (sample_grant []) 500 [ConnRead 100; ConnWrite 400]
           {| bytesRead := Some 100; bytesWritten := Some 400 |} 500); try reflexivity; simpl; lia.
Defined.

(** ** Upstream names *)

Lemma slen_substring n s :
  0 <= n <= slen s -> slen (String.substring 0 (Z.to_nat n) s) = n.
Proof.
  unfold slen. intros H. revert n H. induction s as [|c s IH]; intros n H; cbn [String.length] in H.
  - replace n with 0 by lia. reflexivity.
  - destruct (Z.to_nat n) as [|k] eqn:E; cbn [String.substring String.length]; [lia|].
    specialize (IH (n - 1)). replace (Z.to_nat (n - 1)) with k in IH by lia. lia.
Qed.

Lemma substring_prefix n s : exists r, s = String.substring 0 n s ++ r.
Proof.
  revert n; induction s as [|c s IH]; intros n; cbn [String.substring].
  - destruct n; by exists "".
  - destruct n as [|n]; [by exists (String c s)|]. destruct (IH n) as [r Hr]. exists r.
    cbn [String.append]. by rewrite <- Hr.
Qed.

Lemma truncateName_spec s maxLen :
  exists t, truncateName s maxLen = Some t /\ slen t <= Z.max 0 maxLen
    /\ (slen s <= maxLen -> t = s) /\ exists r, s = t ++ r.
Proof.
  unfold truncateName. destruct (Z.leb_spec maxLen 0).
  { exists "". split_and!; [done|unfold slen; simpl; lia| |by exists s].
    intros. destruct s; [done|]. unfold slen in *. simpl in *. lia. }
  destruct (Z.leb_spec (slen s) maxLen).
  { exists s. split_and!; [done|lia|done|]. exists "". by rewrite sapp_nil_r. }
  unfold str_to. rewrite (proj2 (Z.leb_le 0 maxLen)), (proj2 (Z.leb_le maxLen (slen s))) by lia.
  eexists. split_and!; [done|rewrite slen_substring; lia|lia|apply substring_prefix].
Qed.

(** The upstream application name is always produced (no slice is out of
    range) and never exceeds the protocol's limit; the attribution
    ["dbbat/<version> @<user>"] survives in full whenever it fits, so only the
    client's own name is cut; and nothing is cut when everything fits. *)
Theorem upstream_name_bounded version user app maxLen :
  let base := "dbbat/" ++ version ++ " @" ++ user in
  exists name, BuildUpstreamName version user app maxLen = Some name
    /\ slen name <= Z.max 0 maxLen
    /\ (slen base <= maxLen -> HasPrefix name base = true)
    /\ (TrimSpace app <> "" -> slen (base ++ " for " ++ TrimSpace app) <= maxLen ->
        name = base ++ " for " ++ TrimSpace app).
Proof.
  intros base. unfold BuildUpstreamName. fold base.
  destruct (truncateName_spec base maxLen) as (t & Ht & Hlen & Hfit & _).
  assert (slen base <= maxLen -> HasPrefix t base = true) as Hpre
    by (intros Hb; rewrite (Hfit Hb), <- (sapp_nil_r base) at 1; apply HasPrefix_self).
  destruct (String.eqb_spec (TrimSpace app) "") as [E|E].
  { exists t. split_and!; [done|done|done|]. by rewrite E. }
  destruct (Z.leb_spec (slen (base ++ " for " ++ TrimSpace app)) maxLen) as [Hf|Hf].
  { eexists. split_and!; [done|lia| |done]. intros _. apply HasPrefix_self. }
  rewrite !slen_app in Hf.
  destruct (Z.leb_spec (maxLen - slen base - slen " for ") 0) as [Ha|Ha].
  { exists t. split_and!; [done|done|done|]. rewrite !slen_app. lia. }
  unfold str_to. rewrite (proj2 (Z.leb_le 0 _)), (proj2 (Z.leb_le _ (slen (TrimSpace app)))) by lia.
  eexists. split_and!; [reflexivity| | |].
  - rewrite !slen_app, slen_substring by lia. lia.
  - intros _. apply HasPrefix_self.
  - rewrite !slen_app. lia.
Qed.
