(* ===== verification/Revocation.v ===== *)
(** * Grant revocation reaching live sessions ([internal/cache/revocation.go])

    A handle is a pointer to an atomic flag, so the model has a heap: [w_flags]
    maps each allocated handle to its flag and [w_next] is the next address.
    The registry itself maps a grant to the set of handles that rely on it;
    [None] is the nil registry the methods tolerate.

    [Abstract] says what the registry promises without its two-level map - who
    is live under which grant, and who has been told - and [registry_refines]
    proves the operations implement it. *)

From Stdlib Require Import ZArith Lia List Bool.
From stdpp Require Import base list gmap.
From S2P Require Import Prelude Models Limits.

Open Scope Z_scope.

Abbreviation handle := nat.

Record World := {
  w_flags : gmap handle bool;
  w_next : handle;
  w_sessions : option (gmap uuid (gset handle))
}.

(** The methods of [RevocationHandle]; [None] is the nil handle. *)
Definition Revoked (w : World) (h : option handle) : bool :=
  match h with
  | None => false
  | Some h => default false (w_flags w !! h)
  end.

Definition Flag (h : option handle) : option handle := h.

Definition NewRevocationRegistry : World :=
  {| w_flags := ∅; w_next := 0; w_sessions := Some ∅ |}.

(** [h := &RevocationHandle{}] *)
Definition new_handle (w : World) : World * handle :=
  ({| w_flags := <[w_next w := false]> (w_flags w); w_next := S (w_next w);
      w_sessions := w_sessions w |}, w_next w).

Definition set_sessions (w : World) (m : gmap uuid (gset handle)) : World :=
  {| w_flags := w_flags w; w_next := w_next w; w_sessions := Some m |}.

Definition Register (w : World) (grantUID : uuid) : World * handle :=
  let (w, h) := new_handle w in
  match w_sessions w with
  | None => (w, h)
  | Some m =>
      if N.eqb grantUID Nil then (w, h)
      else (set_sessions w (<[grantUID := {[h]} ∪ default ∅ (m !! grantUID)]> m), h)
  end.

Definition Deregister (w : World) (grantUID : uuid) (h : option handle) : World :=
  match w_sessions w, h with
  | Some m, Some h =>
      if N.eqb grantUID Nil then w
      else match m !! grantUID with
           | None => w
           | Some hs =>
               let hs := hs ∖ {[h]} in
               set_sessions w (if decide (size hs = 0%nat) then delete grantUID m
                               else <[grantUID := hs]> m)
           end
  | _, _ => w
  end.

(** [for h := range set { h.revoked.Store(true); n++ }] *)
Fixpoint revoke_loop (hs : list handle) (flags : gmap handle bool) (n : Z) : gmap handle bool * Z :=
  match hs with
  | [] => (flags, n)
  | h :: hs => revoke_loop hs (<[h := true]> flags) (n + 1)
  end.

Definition Revoke (w : World) (grantUID : uuid) : World * Z :=
  match w_sessions w with
  | None => (w, 0)
  | Some m =>
      if N.eqb grantUID Nil then (w, 0)
      else let (flags, n) := revoke_loop (elements (default ∅ (m !! grantUID))) (w_flags w) 0 in
           ({| w_flags := flags; w_next := w_next w; w_sessions := Some m |}, n)
  end.

(** ** Histories *)

Inductive op := OpRegister (g : uuid) | OpDeregister (g : uuid) (h : handle) | OpRevoke (g : uuid).
Inductive out := OutHandle (h : handle) | OutNone | OutCount (n : Z).

Definition step (w : World) (o : op) : World * out :=
  match o with
  | OpRegister g => let (w', h) := Register w g in (w', OutHandle h)
  | OpDeregister g h => (Deregister w g (Some h), OutNone)
  | OpRevoke g => let (w', n) := Revoke w g in (w', OutCount n)
  end.

Fixpoint exec (w : World) (os : list op) : World * list out :=
  match os with
  | [] => (w, [])
  | o :: os => let (w1, x) := step w o in let (w2, xs) := exec w1 os in (w2, x :: xs)
  end.

(** ** What the registry promises *)

Module Abstract.

Record Spec := {
  live : gmap handle uuid;      (* the grant each live session relies on *)
  told : gmap handle bool;      (* every handle ever issued, and its flag *)
  issued : handle
}.

Definition init : Spec := {| live := ∅; told := ∅; issued := 0 |}.

Definition live_under (s : Spec) (g : uuid) : gmap handle uuid :=
  filter (fun '(_, g') => g' = g) (live s).

Definition step (s : Spec) (o : op) : Spec * out :=
  match o with
  | OpRegister g =>
      ({| live := if decide (g = Nil) then live s else <[issued s := g]> (live s);
          told := <[issued s := false]> (told s); issued := S (issued s) |}, OutHandle (issued s))
  | OpDeregister g h =>
      ({| live := if decide (live s !! h = Some g) then delete h (live s) else live s;
          told := told s; issued := issued s |}, OutNone)
  | OpRevoke g =>
      ({| live := live s; told := ((fun _ => true) <$> live_under s g) ∪ told s; issued := issued s |},
       OutCount (Z.of_nat (size (live_under s g))))
  end.

Fixpoint exec (s : Spec) (os : list op) : Spec * list out :=
  match os with
  | [] => (s, [])
  | o :: os => let (s1, x) := step s o in let (s2, xs) := exec s1 os in (s2, x :: xs)
  end.

End Abstract.

(** ** Refinement *)

Definition members (m : gmap uuid (gset handle)) (g : uuid) : gset handle := default ∅ (m !! g).

Record refines (w : World) (s : Abstract.Spec) : Prop := {
  r_sessions : exists m, w_sessions w = Some m
    /\ (forall g h, h ∈ members m g <-> Abstract.live s !! h = Some g)
    /\ (forall g hs, m !! g = Some hs -> hs <> ∅);
  r_flags : w_flags w = Abstract.told s;
  r_next : w_next w = Abstract.issued s;
  r_nil : forall h, Abstract.live s !! h <> Some Nil;
  r_fresh : forall h, (Abstract.issued s <= h)%nat -> Abstract.live s !! h = None
}.

Lemma members_insert m g hs g' :
  members (<[g := hs]> m) g' = if decide (g = g') then hs else members m g'.
Proof. unfold members. rewrite lookup_insert. by case_decide. Qed.

Lemma members_delete m g g' :
  members (delete g m) g' = if decide (g = g') then ∅ else members m g'.
Proof. unfold members. rewrite lookup_delete. by case_decide. Qed.

Lemma revoke_loop_spec hs flags n :
  let '(flags', n') := revoke_loop hs flags n in
  n' = n + zlen hs /\ forall h, flags' !! h = if decide (h ∈ hs) then Some true else flags !! h.
Proof.
  revert flags n; induction hs as [|x hs IH]; intros flags n; cbn [revoke_loop].
  - split; [len|]. intros h. case_decide; [set_solver|done].
  - specialize (IH (<[x := true]> flags) (n + 1)).
    destruct (revoke_loop hs _ _) as [flags' n']. destruct IH as [-> IH]. split; [len|].
    intros h. rewrite IH, lookup_insert. repeat case_decide; subst; set_solver.
Qed.

Lemma live_under_lookup s g h :
  Abstract.live_under s g !! h = Some g <-> Abstract.live s !! h = Some g.
Proof. unfold Abstract.live_under. rewrite map_lookup_filter_Some. naive_solver. Qed.

Lemma live_under_None s g h :
  Abstract.live s !! h <> Some g -> Abstract.live_under s g !! h = None.
Proof.
  unfold Abstract.live_under. intros H. apply map_lookup_filter_None. right. naive_solver.
Qed.

Lemma register_refines w s g :
  refines w s ->
  (step w (OpRegister g)).2 = (Abstract.step s (OpRegister g)).2
  /\ refines (step w (OpRegister g)).1 (Abstract.step s (OpRegister g)).1.
Proof.
  intros [(m & Hm & Hmem & Hne) Hf Hn Hnil Hfr]. cbn [step].
  unfold Register, new_handle. cbn [w_sessions]. rewrite Hm, Hf, Hn.
  destruct (N.eqb_spec g Nil) as [->|Hg]; cbn; (split; [done|]).
  - rewrite decide_True by done. split; cbn; auto; [eauto|]. intros; apply Hfr; lia.
  - rewrite decide_False by done. split; cbn; auto.
    + eexists. split; [done|]. split.
      * intros g' h. rewrite members_insert, lookup_insert.
        destruct (decide (Abstract.issued s = h)) as [<-|Hh].
        -- case_decide; subst; [set_solver|].
           rewrite Hmem, Hfr by lia. naive_solver.
        -- rewrite <- Hmem. unfold members. case_decide; subst; set_solver.
      * intros g' hs. rewrite lookup_insert. case_decide; [intros [= <-]; set_solver|apply Hne].
    + intros h. rewrite lookup_insert. case_decide; [congruence|apply Hnil].
    + intros h Hh. rewrite lookup_insert_ne by lia. apply Hfr. lia.
Qed.

Lemma deregister_refines w s g h :
  refines w s ->
  (step w (OpDeregister g h)).2 = (Abstract.step s (OpDeregister g h)).2
  /\ refines (step w (OpDeregister g h)).1 (Abstract.step s (OpDeregister g h)).1.
Proof.
  intros [(m & Hm & Hmem & Hne) Hf Hn Hnil Hfr]. cbn [step Abstract.step fst snd]. split; [done|].
  unfold Deregister. rewrite Hm.
  assert (forall (live' := if decide (Abstract.live s !! h = Some g)
                           then delete h (Abstract.live s) else Abstract.live s) x g',
            live' !! x = Some g' <-> Abstract.live s !! x = Some g' /\ ~ (x = h /\ g' = g)) as Hlive.
  { intros live' x g'. unfold live'. case_decide as E; [rewrite lookup_delete; case_decide; naive_solver|].
    naive_solver. }
  assert (forall m', (forall g' x, x ∈ members m' g' <-> x ∈ members m g' /\ ~ (x = h /\ g' = g)) ->
            (forall g' hs, m' !! g' = Some hs -> hs <> ∅) ->
            refines (set_sessions w m') (Abstract.step s (OpDeregister g h)).1) as Hdone.
  { intros m' Hm' Hne'. split; cbn; auto.
    - eexists. split; [done|]. split; [|done]. intros g' x. rewrite Hlive, <- Hmem. apply Hm'.
    - intros x. pose proof (Hnil x). rewrite Hlive. tauto.
    - intros x Hx. specialize (Hfr x Hx). apply eq_None_not_Some. intros [g' E].
      apply Hlive in E. naive_solver. }
  destruct (N.eqb_spec g Nil) as [->|Hg]; [|destruct (m !! g) as [hs|] eqn:Eg].
  - specialize (Hdone m). unfold set_sessions in Hdone. rewrite <- Hm in Hdone.
    destruct w; apply Hdone; [|done]. intros g' x. split; [|tauto].
    intros Hx. split; [done|]. intros [-> ->]. apply Hmem in Hx. by apply Hnil in Hx.
  - clear Hlive. assert (members m g = hs) as Ehs by (unfold members; by rewrite Eg).
    destruct (decide (size (hs ∖ {[h]}) = 0%nat)) as [E|E]; apply Hdone.
    + intros g' x. rewrite members_delete. apply size_empty_inv in E.
      case_decide; subst; set_solver.
    + intros g' hs'. rewrite lookup_delete. case_decide; [done|apply Hne].
    + intros g' x. rewrite members_insert. case_decide; subst; set_solver.
    + intros g' hs'. rewrite lookup_insert. case_decide; [|apply Hne].
      intros [= <-] E'. apply E. rewrite E'. apply size_empty.
  - specialize (Hdone m). unfold set_sessions in Hdone. rewrite <- Hm in Hdone.
    destruct w; apply Hdone; [|done]. intros g' x. split; [|tauto]. intros Hx. split; [done|].
    intros [-> ->]. unfold members in Hx. rewrite Eg in Hx. set_solver.
Qed.

Lemma revoke_refines w s g :
  refines w s ->
  (step w (OpRevoke g)).2 = (Abstract.step s (OpRevoke g)).2
  /\ refines (step w (OpRevoke g)).1 (Abstract.step s (OpRevoke g)).1.
Proof.
  intros [(m & Hm & Hmem & Hne) Hf Hn Hnil Hfr]. cbn [step]. unfold Revoke. rewrite Hm.
  assert (dom (Abstract.live_under s g) = members m g) as Hdom.
  { apply set_eq. intros h. rewrite elem_of_dom, Hmem, <- live_under_lookup. split; [|by eexists].
    intros [g' Hg']. unfold Abstract.live_under in *. rewrite map_lookup_filter_Some in *. naive_solver. }
  pose proof (revoke_loop_spec (elements (members m g)) (w_flags w) 0) as Hloop.
  destruct (N.eqb_spec g Nil) as [->|Hg].
  { assert (Abstract.live_under s Nil = ∅) as E.
    { apply map_eq. intros h. rewrite lookup_empty. by apply live_under_None. }
    cbn. rewrite E, fmap_empty, (left_id_L ∅ (∪)), map_size_empty. split; [done|].
    split; cbn; eauto. }
  fold (members m g). destruct (revoke_loop _ _ _) as [flags' n]. destruct Hloop as [-> Hfl]. cbn. split.
  - f_equal. rewrite <- size_dom, Hdom. unfold size, set_size. simpl. unfold zlen. lia.
  - split; cbn; auto; [eauto|]. apply map_eq. intros h. rewrite Hfl, lookup_union, lookup_fmap, <- Hf.
    destruct (decide (h ∈ elements (members m g))) as [E|E]; rewrite elem_of_elements, Hmem in E.
    + apply live_under_lookup in E. rewrite E. by destruct (w_flags w !! h).
    + rewrite live_under_None by done. by destruct (w_flags w !! h).
Qed.

Lemma step_refines w s o :
  refines w s ->
  (step w o).2 = (Abstract.step s o).2 /\ refines (step w o).1 (Abstract.step s o).1.
Proof. destruct o; auto using register_refines, deregister_refines, revoke_refines. Qed.

Lemma init_refines : refines NewRevocationRegistry Abstract.init.
Proof.
  split; cbn; try done. exists ∅. split; [done|]. split; [|set_solver].
  intros g h. unfold members. rewrite !lookup_empty. set_solver.
Qed.

(** C29. The registry implements its contract: for every history of
    registrations, deregistrations and revocations from the empty registry, the
    handles and counts it returns are those of the abstract specification, and
    its two-level map still represents the specification's live sessions - each
    handle under exactly the grant it registered with, no empty set left
    behind. *)
Theorem registry_refines os :
  (exec NewRevocationRegistry os).2 = (Abstract.exec Abstract.init os).2
  /\ refines (exec NewRevocationRegistry os).1 (Abstract.exec Abstract.init os).1.
Proof.
  generalize init_refines. generalize NewRevocationRegistry, Abstract.init.
  induction os as [|o os IH]; intros w s Hr; cbn [exec Abstract.exec]; [done|].
  destruct (step_refines w s o Hr) as [Ho Hr'].
  destruct (step w o) as [w1 x], (Abstract.step s o) as [s1 x']. cbn in Ho, Hr'. subst x'.
  destruct (IH _ _ Hr') as [Ho' Hr''].
  destruct (exec w1 os), (Abstract.exec s1 os). cbn in *. by subst.
Qed.

(** The world after a history. *)
Definition run (w : World) (os : list op) : World := foldl (fun w o => (step w o).1) w os.
Definition arun (s : Abstract.Spec) (os : list op) : Abstract.Spec :=
  foldl (fun s o => (Abstract.step s o).1) s os.

Lemma run_refines w s os : refines w s -> refines (run w os) (arun s os).
Proof.
  revert w s; induction os as [|o os IH]; intros w s H; [done|]. apply IH.
  by apply (step_refines w s o).
Qed.

(** A handle that was issued and told stays told. *)
Lemma told_forever s o h :
  (h < Abstract.issued s)%nat -> Abstract.told s !! h = Some true ->
  Abstract.told (Abstract.step s o).1 !! h = Some true
  /\ (h < Abstract.issued (Abstract.step s o).1)%nat.
Proof.
  intros Hi Ht. destruct o as [g|g h'|g]; cbn; (split; [|lia]).
  - rewrite lookup_insert_ne by lia. done.
  - done.
  - rewrite lookup_union, lookup_fmap, Ht. by destruct (Abstract.live_under s g !! h).
Qed.

Lemma told_forever_run s os h :
  (h < Abstract.issued s)%nat -> Abstract.told s !! h = Some true ->
  Abstract.told (arun s os) !! h = Some true.
Proof.
  revert s; induction os as [|o os IH]; intros s Hi Ht; [done|].
  destruct (told_forever s o h Hi Ht). by apply IH.
Qed.

(** A session that does not deregister stays live under its grant. *)
Lemma live_run s os h g :
  (h < Abstract.issued s)%nat -> Abstract.live s !! h = Some g ->
  (forall g', ~ In (OpDeregister g' h) os) ->
  Abstract.live (arun s os) !! h = Some g /\ (h < Abstract.issued (arun s os))%nat.
Proof.
  revert s; induction os as [|o os IH]; intros s Hi Hl Hno; [done|].
  cbn [arun foldl]. apply IH; [| |intros g'; specialize (Hno g'); cbn in Hno; tauto].
  - destruct o; cbn; lia.
  - destruct o as [g1|g1 h1|g1]; cbn; [| |done].
    + case_decide; [done|]. by rewrite lookup_insert_ne by lia.
    + case_decide; [|done]. rewrite lookup_delete_ne; [done|]. intros ->.
      apply (Hno g1). by left.
Qed.

Lemma revoke_tells s g h :
  Abstract.live s !! h = Some g ->
  Abstract.told (Abstract.step s (OpRevoke g)).1 !! h = Some true.
Proof.
  intros Hl. cbn. rewrite lookup_union, lookup_fmap, (proj2 (live_under_lookup s g h) Hl).
  by destruct (Abstract.told s !! h).
Qed.

(** C30. Revocation reaches live sessions: a session registered under a grant
    at any point of any history, and not deregistered before the grant is
    revoked, is refused with [ErrGrantRevoked] by its limit guard at every
    instant afterwards, whatever else the registry does and whatever its byte
    and time limits say. *)
Theorem revocation_stops_session os1 g os2 os3 h guard f t now :
  g <> Nil ->
  h = w_next (run NewRevocationRegistry os1) ->
  (forall g', ~ In (OpDeregister g' h) os2) ->
  let w := run NewRevocationRegistry (os1 ++ OpRegister g :: os2 ++ OpRevoke g :: os3) in
  Check (WithRevocation (Some guard) true)
    {| l_from := f; l_to := t; l_revoked := Revoked w (Flag (Some h)); l_now := now |}
  = Some ErrGrantRevoked.
Proof.
  intros Hg Hh Hno w.
  pose proof (run_refines _ _ os1 init_refines) as R1.
  pose proof (run_refines _ _ (os1 ++ OpRegister g :: os2 ++ OpRevoke g :: os3) init_refines) as R.
  fold w in R. unfold Revoked, Flag. rewrite (r_flags _ _ R).
  rewrite (r_next _ _ R1) in Hh. revert Hh Hno. clear R R1 w.
  unfold arun. rewrite foldl_app. cbn [foldl]. rewrite foldl_app. cbn [foldl].
  fold (arun Abstract.init os1). set (s1 := arun Abstract.init os1). intros -> Hno.
  set (s2 := (Abstract.step s1 (OpRegister g)).1).
  assert (Abstract.live s2 !! Abstract.issued s1 = Some g) as Hl2
    by (cbn; rewrite decide_False by done; apply lookup_insert_eq).
  fold (arun s2 os2).
  destruct (live_run s2 os2 (Abstract.issued s1) g) as [Hl3 Hi3]; [cbn; lia|done|done|].
  rewrite (told_forever_run _ os3 (Abstract.issued s1)); [done|exact Hi3|].
  by apply revoke_tells.
Qed.

Lemma revocation_stops_session_witness :
  Check (WithRevocation (Some sample_guard) true)
    {| l_from := 0; l_to := 0;
       l_revoked := Revoked (run NewRevocationRegistry
         ([OpRegister 9] ++ OpRegister 7 :: [OpDeregister 9 0; OpRegister 7] ++ OpRevoke 7 :: [OpRegister 7])%N)
         (Flag (Some 1%nat)); l_now := 0 |} = Some ErrGrantRevoked.
Proof.
  apply (revocation_stops_session [OpRegister 9%N] 7%N [OpDeregister 9%N 0%nat; OpRegister 7%N] [OpRegister 7%N]).
  - discriminate.
  - reflexivity.
  - intros g' H. simpl in H. naive_solver.
Defined.
