(* ===== verification/AuthCache.v ===== *)
(** * The authentication cache ([internal/cache/auth.go])

    Verified passwords and API keys are remembered for [ttl] under a digest of
    the inputs.  Three things come from outside the file and are interfaces
    here: [PasswordVerifier] (what [crypto.VerifyPassword] answers), [Digest]
    (SHA-256 in hex) and [MapOrder] (the order in which Go happens to range
    over a map).  Every [time.Now] of a call is an argument of it. *)

From Stdlib Require Import ZArith Lia List Bool String Ascii.
From stdpp Require Import base list gmap strings fin_maps.
From S2P Require Import Prelude GoStrings Models.

Open Scope string_scope.
Open Scope Z_scope.

Class PasswordVerifier (E : Type) := {
  crypto_VerifyPassword : string -> string -> res E bool    (* stored hash, password *)
}.

Class Digest := { digest : string -> string }.

Record cacheEntry := { ce_valid : bool; ce_timestamp : time }.

Class MapOrder := {
  range : gmap string cacheEntry -> list (string * cacheEntry);
  range_perm : forall m, range m ≡ₚ map_to_list m
}.

Record AuthCacheConfig := { cfg_Enabled : bool; cfg_TTLSeconds : Z; cfg_MaxSize : Z }.

Record AuthCache := {
  entries : gmap string cacheEntry;
  ttl : Z;
  maxSize : Z;
  enabled : bool;
  hits : Z;
  misses : Z
}.

Definition NewAuthCache (cfg : AuthCacheConfig) : AuthCache :=
  {| entries := ∅; ttl := cfg_TTLSeconds cfg * Second; maxSize := cfg_MaxSize cfg;
     enabled := cfg_Enabled cfg; hits := 0; misses := 0 |}.

Definition with_entries (c : AuthCache) (m : gmap string cacheEntry) : AuthCache :=
  {| entries := m; ttl := ttl c; maxSize := maxSize c; enabled := enabled c;
     hits := hits c; misses := misses c |}.
Definition hit (c : AuthCache) : AuthCache :=
  {| entries := entries c; ttl := ttl c; maxSize := maxSize c; enabled := enabled c;
     hits := hits c + 1; misses := misses c |}.
Definition miss (c : AuthCache) : AuthCache :=
  {| entries := entries c; ttl := ttl c; maxSize := maxSize c; enabled := enabled c;
     hits := hits c; misses := misses c + 1 |}.

(** [hashPrefix[:32]] when the hash is longer than that. *)
Definition hashPrefix (storedHash : string) : string :=
  if 32 <? slen storedHash then String.substring 0 32 storedHash else storedHash.

Definition key_data (userID password storedHash : string) : string :=
  userID ++ ":" ++ password ++ ":" ++ hashPrefix storedHash.

(** The loop of [evictOldest], over the entries in the order they are visited. *)
Fixpoint oldest_loop (es : list (string * cacheEntry)) (oldestKey : string) (oldestTime : time) : string :=
  match es with
  | [] => oldestKey
  | (key, e) :: es =>
      if String.eqb oldestKey "" || Before (ce_timestamp e) oldestTime
      then oldest_loop es key (ce_timestamp e)
      else oldest_loop es oldestKey oldestTime
  end.

Section Cache.
Context {E : Type} {verifier : PasswordVerifier E} {dig : Digest} {order : MapOrder}.

Definition computeKey (userID password storedHash : string) : string :=
  digest (key_data userID password storedHash).
Definition computeKeyHash (plainKey : string) : string := digest plainKey.

Definition evictOldest (m : gmap string cacheEntry) : gmap string cacheEntry :=
  let k := oldest_loop (range m) "" 0 in
  if String.eqb k "" then m else delete k m.

Definition set (c : AuthCache) (key : string) (valid : bool) (now : time) : AuthCache :=
  let m := if maxSize c <=? Z.of_nat (size (entries c)) then evictOldest (entries c) else entries c in
  with_entries c (<[key := {| ce_valid := valid; ce_timestamp := now |}]> m).

(** The common body of [VerifyPassword] and [VerifyKey]: [now] is the time of
    the lookup, [now'] the time the result is stored. *)
Definition verify_cached (c : AuthCache) (cacheKey secret storedHash : string) (now now' : time) :
    AuthCache * res E bool :=
  let fresh :=
    let c := miss c in
    match crypto_VerifyPassword storedHash secret with
    | Ok valid => (set c cacheKey valid now', Ok valid)
    | Err e => (c, Err e)
    | Panic => (c, Panic)
    end in
  match entries c !! cacheKey with
  | Some e => if now - ce_timestamp e <? ttl c then (hit c, Ok (ce_valid e)) else fresh
  | None => fresh
  end.

Definition VerifyPassword (c : AuthCache) (userID password storedHash : string) (now now' : time) :
    AuthCache * res E bool :=
  if negb (enabled c) then (c, crypto_VerifyPassword storedHash password)
  else verify_cached c (computeKey userID password storedHash) password storedHash now now'.

Definition VerifyKey (c : AuthCache) (plainKey storedHash : string) (now now' : time) :
    AuthCache * res E bool :=
  if negb (enabled c) then (c, crypto_VerifyPassword storedHash plainKey)
  else verify_cached c (computeKeyHash plainKey) plainKey storedHash now now'.

Definition cleanup (c : AuthCache) (now : time) : AuthCache :=
  with_entries c (filter (fun '(_, e) => now - ce_timestamp e < ttl c) (entries c)).

Definition Stats (c : AuthCache) : Z * Z * Z := (hits c, misses c, Z.of_nat (size (entries c))).
Definition Clear (c : AuthCache) : AuthCache := with_entries c ∅.

(** ** Histories of calls *)

Inductive cache_op :=
| OpPassword (userID password storedHash : string) (now now' : time)
| OpKey (plainKey storedHash : string) (now now' : time)
| OpCleanup (now : time)
| OpClear.

Definition cache_step (c : AuthCache) (o : cache_op) : AuthCache :=
  match o with
  | OpPassword u p h n n' => (VerifyPassword c u p h n n').1
  | OpKey k h n n' => (VerifyKey c k h n n').1
  | OpCleanup n => cleanup c n
  | OpClear => Clear c
  end.

Definition cache_run (c : AuthCache) (os : list cache_op) : AuthCache := foldl cache_step c os.

(** ** Size *)

Lemma oldest_loop_In es k t :
  oldest_loop es k t = k \/ exists e, In (oldest_loop es k t, e) es.
Proof.
  revert k t; induction es as [|[k' e] es IH]; intros k t; cbn [oldest_loop]; [by left|].
  destruct (_ || _).
  - right. destruct (IH k' (ce_timestamp e)) as [->|[e' He']]; [exists e; by left|exists e'; by right].
  - destruct (IH k t) as [->|[e' He']]; [by left|right; exists e'; by right].
Qed.

Lemma oldest_loop_nonempty es :
  es <> [] -> Forall (fun p => p.1 <> "") es -> oldest_loop es "" 0 <> "".
Proof.
  destruct es as [|[k e] es]; [done|]. intros _ Hall. cbn. inversion Hall as [|? ? Hk Hes]; subst.
  cbn in Hk. destruct (oldest_loop_In es k (ce_timestamp e)) as [->|[e' He']]; [done|].
  by apply (proj1 (List.Forall_forall _ _) Hes) in He'.
Qed.

Definition keys_nonempty (m : gmap string cacheEntry) : Prop := m !! "" = None.

Lemma evictOldest_subseteq m : evictOldest m ⊆ m.
Proof. unfold evictOldest. destruct (String.eqb _ _); [done|apply delete_subseteq]. Qed.

Lemma evictOldest_size m :
  keys_nonempty m -> (size (evictOldest m) <= size m - 1)%nat.
Proof.
  intros Hk. unfold evictOldest.
  destruct (decide (m = ∅)) as [->|Hne].
  { assert (range ∅ = []) as ->
      by (apply Permutation_nil_r; rewrite range_perm, map_to_list_empty; done).
    simpl. rewrite map_size_empty. lia. }
  assert (forall k e, In (k, e) (range m) -> m !! k = Some e) as Hin.
  { intros k e H. apply elem_of_map_to_list. rewrite <- range_perm. by apply list_elem_of_In. }
  destruct (String.eqb_spec (oldest_loop (range m) "" 0) "") as [E1|E1].
  - exfalso. revert E1. apply oldest_loop_nonempty.
    + intros Hr. apply Hne. apply map_to_list_empty_iff.
      apply Permutation_nil_r. by rewrite <- range_perm, Hr.
    + apply List.Forall_forall. intros [k e] He. cbn. intros ->. apply Hin in He.
      unfold keys_nonempty in Hk. congruence.
  - destruct (oldest_loop_In (range m) "" 0) as [?|[e He]]; [done|].
    apply Hin in He. rewrite map_size_delete_Some by eauto. lia.
Qed.

Definition bounded (c : AuthCache) : Prop :=
  keys_nonempty (entries c) /\ Z.of_nat (size (entries c)) <= Z.max 1 (maxSize c).

Lemma set_bounded c key valid now : key <> "" -> bounded c -> bounded (set c key valid now).
Proof.
  intros Hkey [Hk Hs]. unfold set, bounded. cbn [with_entries entries maxSize].
  assert (forall m : gmap string cacheEntry, keys_nonempty m ->
            keys_nonempty (<[key := {| ce_valid := valid; ce_timestamp := now |}]> m)) as Hins
    by (unfold keys_nonempty; intros m ?; by rewrite lookup_insert_ne).
  assert (forall m : gmap string cacheEntry,
            (size (<[key := {| ce_valid := valid; ce_timestamp := now |}]> m) <= S (size m))%nat) as Hsz
    by (intros m; rewrite map_size_insert; unfold id; case_match; lia).
  destruct (Z.leb_spec (maxSize c) (Z.of_nat (size (entries c)))).
  - split.
    + apply Hins. unfold keys_nonempty in *. destruct (evictOldest (entries c) !! "") eqn:Ee; [|done].
      eapply lookup_weaken in Ee; [|apply evictOldest_subseteq]. congruence.
    + specialize (Hsz (evictOldest (entries c))). pose proof (evictOldest_size _ Hk). lia.
  - split; [auto|]. specialize (Hsz (entries c)). lia.
Qed.

Lemma verify_cached_bounded c k secret h now now' :
  k <> "" -> bounded c -> bounded (verify_cached c k secret h now now').1.
Proof.
  intros Hk Hb. unfold verify_cached.
  assert (bounded (hit c)) by exact Hb. assert (bounded (miss c)) by exact Hb.
  repeat case_match; simplify_eq; cbn [fst]; auto using set_bounded.
Qed.

Lemma cleanup_bounded c now : bounded c -> bounded (cleanup c now).
Proof.
  intros [Hk Hs]. unfold cleanup, bounded, keys_nonempty in *. cbn [with_entries entries maxSize].
  split; [apply map_lookup_filter_None; by left|].
  pose proof (map_size_filter (fun '(_, e) => now - ce_timestamp e < ttl c) (entries c)). lia.
Qed.
End Cache.

(** ** String facts the key layout relies on *)

Lemma sapp_inj_l a b x y : slen a = slen b -> a ++ x = b ++ y -> a = b /\ x = y.
Proof.
  unfold slen. revert b; induction a as [|c a IH]; intros [|d b]; cbn [String.length String.append];
    intros Hl He; try lia; [done|]. injection He as -> He.
  destruct (IH b) as [-> ->]; [lia|done|done].
Qed.

Lemma sapp_inj_r a b x y : slen x = slen y -> a ++ x = b ++ y -> a = b /\ x = y.
Proof.
  intros Hl He. apply sapp_inj_l; [|done].
  assert (slen (a ++ x) = slen (b ++ y)) as H by (by rewrite He). rewrite !slen_app in H. lia.
Qed.

Definition is_uuid_char (c : ascii) : bool :=
  let z := code c in ((48 <=? z) && (z <=? 57)) || ((97 <=? z) && (z <=? 102)) || (z =? 45).

(** The text form of a UUID, an Argon2 hash (never under 32 bytes), an API key. *)
Definition uid_ok (u : string) : bool := (slen u =? 36) && all_chars is_uuid_char u.
Definition hash_ok (h : string) : bool := 32 <=? slen h.
Definition key_ok (k : string) : bool := HasPrefix k "dbb_" || HasPrefix k "web_".

Lemma hashPrefix_len h : hash_ok h = true -> slen (hashPrefix h) = 32.
Proof.
  unfold hash_ok, hashPrefix. intros H. bools. destruct (Z.ltb_spec 32 (slen h)); [|lia].
  clear H. revert H0. unfold slen.
  do 32 (destruct h as [|? h]; cbn [String.length]; [lia|]).
  intros _. destruct h; reflexivity.
Qed.

Lemma key_data_inj u p h u' p' h' :
  uid_ok u = true -> uid_ok u' = true -> hash_ok h = true -> hash_ok h' = true ->
  key_data u p h = key_data u' p' h' -> u = u' /\ p = p' /\ hashPrefix h = hashPrefix h'.
Proof.
  unfold uid_ok. intros Hu Hu' Hh Hh' H. bools.
  apply sapp_inj_l in H as [-> H]; [|lia]. injection H as H.
  apply sapp_inj_r in H as [-> H]; [by injection H|].
  cbn [String.append]. rewrite !slen_cons, !hashPrefix_len; done.
Qed.

Lemma key_data_not_key u p h k :
  uid_ok u = true -> key_ok k = true -> key_data u p h <> k.
Proof.
  unfold uid_ok, key_ok. intros Hu Hk <-. bools.
  assert (exists a b c r, key_data u p h = String a (String b (String c (String "_" r)))) as (a & b & c & r & E).
  { destruct Hk as [Hk|Hk]; apply HasPrefix_app in Hk as [r ->]; by eexists _, _, _, _. }
  unfold key_data in E.
  do 4 (destruct u as [|? u]; [unfold slen in *; simpl in *; lia|]).
  cbn [String.append all_chars] in *. injection E as -> -> -> -> _. bools. done.
Qed.

Section CacheProps.
Context {E : Type} {verifier : PasswordVerifier E} {dig : Digest} {order : MapOrder}.

(** A SHA-256 digest in hex is never the empty string. *)
Hypothesis digest_nonempty : forall s, digest s <> "".

(** The cache never grows past its configured size: after any history of
    verifications, clean-ups and clears, whatever order Go visits the map in,
    it holds at most [max 1 maxSize] entries. *)
Theorem cache_size_bounded cfg os :
  Z.of_nat (size (entries (cache_run (NewAuthCache cfg) os))) <= Z.max 1 (cfg_MaxSize cfg).
Proof.
  assert (forall c, bounded c -> maxSize c = cfg_MaxSize cfg ->
            bounded (cache_run c os) /\ maxSize (cache_run c os) = cfg_MaxSize cfg) as H.
  { induction os as [|o os IH]; intros c Hb Hm; [done|]. cbn [cache_run foldl]. apply IH.
    - destruct o; cbn [cache_step]; unfold VerifyPassword, VerifyKey.
      + destruct (negb _); [done|]. apply verify_cached_bounded; [apply digest_nonempty|done].
      + destruct (negb _); [done|]. apply verify_cached_bounded; [apply digest_nonempty|done].
      + by apply cleanup_bounded.
      + split; cbn; [done|]. rewrite map_size_empty. lia.
    - rewrite <- Hm. destruct o; cbn [cache_step]; unfold VerifyPassword, VerifyKey, verify_cached;
        repeat case_match; simplify_eq; reflexivity. }
  destruct (H (NewAuthCache cfg)) as [[_ Hs] Hm]; [|done|by rewrite Hm in Hs].
  split; cbn; [done|]. rewrite map_size_empty. lia.
Qed.

(** SHA-256 without collisions. *)
Hypothesis digest_inj : forall s s', digest s = digest s' -> s = s'.

Definition op_ok (o : cache_op) : Prop :=
  match o with
  | OpPassword u _ h _ _ => uid_ok u = true /\ hash_ok h = true
  | OpKey k h _ _ => key_ok k = true
  | _ => True
  end.

(** Where an entry comes from: a call of the history that verified it. *)
Definition from_history (os : list cache_op) (k : string) (e : cacheEntry) : Prop :=
  (exists u p h n, In (OpPassword u p h n (ce_timestamp e)) os /\ k = computeKey u p h
     /\ crypto_VerifyPassword h p = Ok (ce_valid e))
  \/ (exists pk h n, In (OpKey pk h n (ce_timestamp e)) os /\ k = computeKeyHash pk
     /\ crypto_VerifyPassword h pk = Ok (ce_valid e)).

Definition traced (os : list cache_op) (c : AuthCache) : Prop :=
  forall k e, entries c !! k = Some e -> from_history os k e.

Lemma from_history_snoc os o k e : from_history os k e -> from_history (os ++ [o]) k e.
Proof.
  unfold from_history. setoid_rewrite in_app_iff. intros [(u&p&h&n&?&?&?)|(pk&h&n&?&?&?)].
  - left. exists u, p, h, n. auto.
  - right. exists pk, h, n. auto.
Qed.

Lemma traced_sub os c m o :
  traced os c -> m ⊆ entries c -> traced (os ++ [o]) (with_entries c m).
Proof. intros Ht Hm k e He. apply from_history_snoc, Ht. by eapply lookup_weaken. Qed.

Lemma set_traced os c k b now o :
  traced os c -> from_history (os ++ [o]) k {| ce_valid := b; ce_timestamp := now |} ->
  traced (os ++ [o]) (set c k b now).
Proof.
  intros Ht Hk k' e'. unfold set. cbn [with_entries entries]. rewrite lookup_insert.
  case_decide as Ek; [intros [= <-]; by subst|]. intros He. apply from_history_snoc, Ht.
  revert He. destruct (_ <=? _); [|done]. intros He. eapply lookup_weaken; [done|apply evictOldest_subseteq].
Qed.

Lemma verify_cached_traced os c k secret h now now' o :
  traced os c ->
  (forall b, crypto_VerifyPassword h secret = Ok b ->
     from_history (os ++ [o]) k {| ce_valid := b; ce_timestamp := now' |}) ->
  traced (os ++ [o]) (verify_cached c k secret h now now').1.
Proof.
  intros Ht Hk. assert (traced (os ++ [o]) c) as Ht' by (intros ? ? ?; by apply from_history_snoc, Ht).
  assert (traced os (miss c)) as Hm by exact Ht.
  unfold verify_cached. repeat case_match; simplify_eq; cbn [fst]; try exact Ht'; auto using set_traced.
Qed.

Lemma run_traced cfg os : traced os (cache_run (NewAuthCache cfg) os).
Proof.
  induction os as [|o os IH] using rev_ind; [intros k e He; cbn in He; by rewrite lookup_empty in He|].
  unfold cache_run. rewrite foldl_snoc. fold (cache_run (NewAuthCache cfg) os).
  set (c := cache_run _ _) in *. destruct o as [u p h n n'|pk h n n'|n|]; cbn [cache_step].
  - unfold VerifyPassword. destruct (negb _); [intros ? ? ?; by apply from_history_snoc, IH|].
    apply verify_cached_traced; [done|]. intros b Hb. left. exists u, p, h, n.
    rewrite in_app_iff. cbn. auto.
  - unfold VerifyKey. destruct (negb _); [intros ? ? ?; by apply from_history_snoc, IH|].
    apply verify_cached_traced; [done|]. intros b Hb. right. exists pk, h, n.
    rewrite in_app_iff. cbn. auto.
  - apply traced_sub; [done|apply map_filter_subseteq].
  - apply traced_sub; [done|apply map_empty_subseteq].
Qed.

(** A verdict is never invented: whatever [VerifyPassword] answers after
    any history is either what the hash says now, or what it said - for the
    same user, the same password and a stored hash with the same 32-byte
    prefix - less than [ttl] ago. *)
Theorem cached_verdict_sound cfg os u p h now now' b :
  Forall op_ok os -> uid_ok u = true -> hash_ok h = true ->
  (VerifyPassword (cache_run (NewAuthCache cfg) os) u p h now now').2 = Ok b ->
  crypto_VerifyPassword h p = Ok b
  \/ exists h' n n', In (OpPassword u p h' n n') os /\ hashPrefix h' = hashPrefix h
       /\ crypto_VerifyPassword h' p = Ok b
       /\ now - n' < ttl (cache_run (NewAuthCache cfg) os).
Proof.
  intros Hok Hu Hh. pose proof (run_traced cfg os) as Ht. set (c := cache_run _ _) in *.
  unfold VerifyPassword. destruct (negb _); cbn [snd]; [by left|]. unfold verify_cached.
  assert ((match crypto_VerifyPassword h p with
           | Ok valid => (set (miss c) (computeKey u p h) valid now', Ok valid)
           | Err e => (miss c, Err e) | Panic => (miss c, Panic) end).2 = Ok b ->
          crypto_VerifyPassword h p = Ok b) as Hfresh
    by (destruct (crypto_VerifyPassword h p); cbn; congruence).
  destruct (entries c !! computeKey u p h) as [e|] eqn:He; [|by left; apply Hfresh].
  destruct (Z.ltb_spec (now - ce_timestamp e) (ttl c)) as [Hlt|]; [|by left; apply Hfresh].
  cbn [snd]. intros [= <-]. right. rewrite List.Forall_forall in Hok.
  destruct (Ht _ _ He) as [(u' & p' & h' & n & Hin & Hk & Hv)|(pk & h' & n & Hin & Hk & Hv)].
  - specialize (Hok _ Hin) as [Hu' Hh']. apply digest_inj in Hk.
    apply key_data_inj in Hk as (-> & -> & Hpre); try done. eauto 10.
  - specialize (Hok _ Hin). apply digest_inj in Hk. by apply key_data_not_key in Hk.
Qed.

End CacheProps.

(** ** The hash prefix does not tell two hashes apart

    A stored hash starts [$argon2id$v=19$m=8192,t=1,p=4$], thirty bytes under
    the default parameters, so the 32-byte prefix in the cache key holds two
    characters of the salt (and none when the memory parameter has seven
    digits).  A password change therefore need not change the key. *)

(** When the hash of a changed password happens to share its first 32
    bytes with the old one, the old password keeps being accepted until the
    entry expires, whatever the new hash says. *)
Theorem stale_password_accepted {E : Type} {verifier : PasswordVerifier E} {dig : Digest}
    {order : MapOrder} cfg u p h1 h2 t0 t1 now now' :
  cfg_Enabled cfg = true -> crypto_VerifyPassword h1 p = Ok true ->
  hashPrefix h1 = hashPrefix h2 -> now - t1 < cfg_TTLSeconds cfg * Second ->
  (VerifyPassword (cache_run (NewAuthCache cfg) [OpPassword u p h1 t0 t1]) u p h2 now now').2 = Ok true.
Proof.
  intros Hen Hv Hp Ht.
  assert (computeKey u p h1 = computeKey u p h2) as Ek by (unfold computeKey, key_data; by rewrite Hp).
  cbn [cache_run foldl cache_step].
  unfold VerifyPassword at 2. cbn [NewAuthCache enabled]. rewrite Hen. cbn [negb].
  unfold verify_cached. cbn [NewAuthCache entries]. rewrite lookup_empty, Hv. cbn [fst].
  unfold VerifyPassword. cbn [set with_entries miss enabled NewAuthCache]. rewrite Hen. cbn [negb].
  unfold verify_cached, set. cbn [with_entries entries miss ttl NewAuthCache].
  rewrite Ek, lookup_insert_eq. cbn [ce_timestamp ce_valid].
  by rewrite (proj2 (Z.ltb_lt _ _) Ht).
Qed.

(** Concrete interfaces for the worked examples. *)
Module Toy.
Definition hash (salt password : string) : string :=
  "$argon2id$v=19$m=8192,t=1,p=4$" ++ salt ++ "$" ++ password.

#[export] Instance toy_verifier : PasswordVerifier unit :=
  {| crypto_VerifyPassword := fun h p => Ok (Contains h ("$" ++ p)) |}.
#[export] Instance toy_digest : Digest := {| digest := fun s => String "#" s |}.

#[export] Instance toy_order : MapOrder.
Proof. exists map_to_list. reflexivity. Defined.

Definition cfg := {| cfg_Enabled := true; cfg_TTLSeconds := 60; cfg_MaxSize := 1 |}.
Definition uid := "8c5e1f00-0000-4000-8000-00000000002a".

Lemma toy_nonempty s : digest s <> "".
Proof. discriminate. Qed.
Lemma toy_inj s s' : digest s = digest s' -> s = s'.
Proof. cbn. congruence. Qed.
End Toy.

Import Toy.

Lemma cache_size_bounded_witness :
  Z.of_nat (size (entries (cache_run (NewAuthCache cfg)
    [OpPassword uid "a" (hash "AAxyzw" "a") 1 2; OpPassword uid "b" (hash "AAxyzw" "a") 3 4]))) <= Z.max 1 1.
Proof.
  apply (cache_size_bounded toy_nonempty cfg
    [OpPassword uid "a" (hash "AAxyzw" "a") 1 2; OpPassword uid "b" (hash "AAxyzw" "a") 3 4]).
Defined.

Lemma cached_verdict_sound_witness :
  crypto_VerifyPassword (hash "AAxyzw" "a") "a" = Ok true
  \/ exists h' n n', In (OpPassword uid "a" h' n n') [OpPassword uid "a" (hash "AAxyzw" "a") 1 2]
       /\ hashPrefix h' = hashPrefix (hash "AAxyzw" "a")
       /\ crypto_VerifyPassword h' "a" = Ok true
       /\ 5 - n' < ttl (cache_run (NewAuthCache cfg) [OpPassword uid "a" (hash "AAxyzw" "a") 1 2]).
Proof.
  apply (cached_verdict_sound toy_inj cfg
    [OpPassword uid "a" (hash "AAxyzw" "a") 1 2] uid "a" (hash "AAxyzw" "a") 5 6 true).
  - repeat constructor.
  - reflexivity.
  - reflexivity.
  - vm_compute. reflexivity.
Defined.

Lemma stale_password_accepted_witness :
  (VerifyPassword (cache_run (NewAuthCache cfg) [OpPassword uid "old" (hash "AAxyzw" "old") 1 2])
     uid "old" (hash "AAklmn" "new") 3 4).2 = Ok true
  /\ crypto_VerifyPassword (hash "AAklmn" "new") "old" = Ok false.
Proof.
  split; [|vm_compute; reflexivity].
  apply (stale_password_accepted cfg uid "old" (hash "AAxyzw" "old") (hash "AAklmn" "new") 1 2 3 4);
    vm_compute; reflexivity.
Defined.
