(* ===== verification/RateLimit.v ===== *)
(** * The sliding-window rate limiter ([internal/api/ratelimit.go])

    [windows] maps a key (a user or an IP address) to the times of its admitted
    requests.  Each call runs under the window's mutex and is one step here,
    with the value of [time.Now] as an argument. *)

From Stdlib Require Import ZArith Lia List Bool String Ascii Sorting.Sorted.
From stdpp Require Import base list gmap strings.
From S2P Require Import Prelude GoStrings Models.

Open Scope string_scope.
Open Scope Z_scope.

Record RateLimitConfig := {
  rc_Enabled : bool;
  rc_RequestsPerMinute : Z;
  rc_RequestsPerMinuteAnon : Z;
  rc_Burst : Z
}.

Record RateLimiter := {
  rl_enabled : bool;
  requestsPerMinute : Z;
  requestsPerMinuteAnon : Z;
  burst : Z;
  windows : gmap string (list time)
}.

Definition NewRateLimiter (cfg : RateLimitConfig) : RateLimiter :=
  {| rl_enabled := rc_Enabled cfg; requestsPerMinute := rc_RequestsPerMinute cfg;
     requestsPerMinuteAnon := rc_RequestsPerMinuteAnon cfg; burst := rc_Burst cfg; windows := ∅ |}.

Definition set_windows (rl : RateLimiter) (m : gmap string (list time)) : RateLimiter :=
  {| rl_enabled := rl_enabled rl; requestsPerMinute := requestsPerMinute rl;
     requestsPerMinuteAnon := requestsPerMinuteAnon rl; burst := burst rl; windows := m |}.

(** One round of the clean-up goroutine. *)
Definition cleanup_keeps (now : time) (timestamps : list time) : bool :=
  match last timestamps with
  | None => false
  | Some t => negb (Minute <? now - t)
  end.

Definition cleanup (rl : RateLimiter) (now : time) : RateLimiter :=
  set_windows rl (filter (fun '(_, w) => cleanup_keeps now w = true) (windows rl)).

Definition getWindow (rl : RateLimiter) (key : string) : list time := default [] (windows rl !! key).

(** The [for] loop of [check]: [i] is the index of the head of [l], [len] the
    length of the whole slice, [validStart] the variable so far. *)
Fixpoint valid_start (windowStart : time) (len i : nat) (l : list time) (validStart : nat) : nat :=
  match l with
  | [] => validStart
  | ts :: l =>
      if After ts windowStart then i
      else valid_start windowStart len (S i) l (if Nat.eqb i (len - 1) then len else validStart)
  end.

(** Returns allowed, remaining, resetTime. *)
Definition check (rl : RateLimiter) (key : string) (limit : Z) (now : time) :
    RateLimiter * (bool * Z * time) :=
  let timestamps := getWindow rl key in
  let windowStart := now - Minute in
  let validStart := valid_start windowStart (length timestamps) 0 timestamps 0 in
  let timestamps := drop validStart timestamps in
  let effectiveLimit := limit + burst rl in
  let currentCount := zlen timestamps in
  let remaining := effectiveLimit - currentCount - 1 in
  let remaining := if remaining <? 0 then 0 else remaining in
  let resetTime := match timestamps with [] => now + Minute | t :: _ => t + Minute end in
  if effectiveLimit <=? currentCount
  then (set_windows rl (<[key := timestamps]> (windows rl)), (false, 0, resetTime))
  else (set_windows rl (<[key := (timestamps ++ [now])%list]> (windows rl)), (true, remaining, resetTime)).

(** ** The middlewares *)


(** The [X-RateLimit-*] headers. *)
Record rate_headers := { h_limit : Z; h_remaining : Z; h_reset : Z }.

Inductive mw_result :=
| Next (headers : option rate_headers)
| TooManyRequests (headers : rate_headers) (retryAfter : Z).

(** [t.Unix()]: the zero time is 62135596800 seconds before the epoch. *)
Definition Unix (t : time) : Z := t / Second - 62135596800.

Definition retry_after (resetTime now : time) : Z :=
  let s := Z.quot (resetTime - now) Second in if s <? 1 then 1 else s.

(** The tail the three middlewares share; [now'] is the instant of
    [time.Until]. *)
Definition apply_limit (rl : RateLimiter) (key : string) (limit : Z) (now now' : time) :
    RateLimiter * mw_result :=
  let '(rl, (allowed, remaining, resetTime)) := check rl key limit now in
  let headers := {| h_limit := limit; h_remaining := remaining; h_reset := Unix resetTime |} in
  if allowed then (rl, Next (Some headers))
  else (rl, TooManyRequests headers (retry_after resetTime now')).

Section Middleware.
Context {uuid_text : UUIDText}.

Definition user_key (u : User) : string := "user:" ++ uuid_String (u_UID u).
Definition ip_key (ip : string) : string := "ip:" ++ ip.

Definition Middleware (rl : RateLimiter) (user : option User) (ip : string) (now now' : time) :
    RateLimiter * mw_result :=
  if negb (rl_enabled rl) then (rl, Next None)
  else match user with
       | Some u => if u_RateLimitExempt u then (rl, Next None)
                   else apply_limit rl (user_key u) (requestsPerMinute rl) now now'
       | None => apply_limit rl (ip_key ip) (requestsPerMinuteAnon rl) now now'
       end.

Definition PostAuthMiddleware (rl : RateLimiter) (user : option User) (now now' : time) :
    RateLimiter * mw_result :=
  if negb (rl_enabled rl) then (rl, Next None)
  else match user with
       | None => (rl, Next None)
       | Some u => if u_RateLimitExempt u then (rl, Next None)
                   else apply_limit rl (user_key u) (requestsPerMinute rl) now now'
       end.

Definition PreAuthMiddleware (rl : RateLimiter) (ip : string) (now now' : time) :
    RateLimiter * mw_result :=
  if negb (rl_enabled rl) then (rl, Next None)
  else apply_limit rl (ip_key ip) (requestsPerMinuteAnon rl) now now'.

Definition GetStats (rl : RateLimiter) (userID : option uuid) (ip : string) (now : time) : Z * time :=
  let key := match userID with Some u => "user:" ++ uuid_String u | None => ip_key ip end in
  match windows rl !! key with
  | None => (0, now + Minute)
  | Some ts =>
      let valid := List.filter (fun t => After t (now - Minute)) ts in
      (zlen valid, match valid with [] => now + Minute | t :: _ => t + Minute end)
  end.

End Middleware.

(** ** Dropping expired timestamps *)

Fixpoint drop_expired (windowStart : time) (l : list time) : list time :=
  match l with
  | [] => []
  | t :: r => if After t windowStart then l else drop_expired windowStart r
  end.

Lemma valid_start_spec ws len i l acc :
  (i + length l = len)%nat -> (l = [] -> acc = len) ->
  exists k, valid_start ws len i l acc = (i + k)%nat /\ drop k l = drop_expired ws l.
Proof.
  revert i acc; induction l as [|t l IH]; intros i acc Hlen Hacc; cbn [valid_start drop_expired].
  - exists 0%nat. simpl in *. rewrite Hacc by done. split; [lia|done].
  - destruct (After t ws); [exists 0%nat; split; [lia|done]|].
    destruct (IH (S i) (if Nat.eqb i (len - 1) then len else acc)) as (k & Hk & Hd).
    + simpl in Hlen. lia.
    + intros ->. simpl in Hlen. by rewrite (proj2 (Nat.eqb_eq i (len - 1))) by lia.
    + exists (S k). rewrite Hk. split; [lia|done].
Qed.

Lemma check_window rl key now :
  let ts := getWindow rl key in
  drop (valid_start (now - Minute) (length ts) 0 ts 0) ts = drop_expired (now - Minute) ts.
Proof.
  cbn. generalize (getWindow rl key). intros ts. destruct ts as [|t r]; [done|].
  destruct (valid_start_spec (now - Minute) (length (t :: r)) 0 (t :: r) 0) as (k & Hk & Hd); [done|done|].
  rewrite Hk. exact Hd.
Qed.

Lemma drop_expired_suffix ws l :
  exists pre, l = (pre ++ drop_expired ws l)%list /\ Forall (fun t => t <= ws) pre.
Proof.
  induction l as [|t l (pre & Hl & Hp)]; cbn [drop_expired]; [by exists []|].
  unfold After. destruct (Z.ltb_spec ws t); [by exists []|].
  exists (t :: pre). split; [cbn; by rewrite <- Hl|by constructor].
Qed.

Lemma drop_expired_fresh ws l :
  StronglySorted Z.le l -> Forall (fun t => ws < t) (drop_expired ws l).
Proof.
  induction 1 as [|t l Hs IH Ht]; cbn [drop_expired]; [constructor|].
  unfold After. destruct (Z.ltb_spec ws t); [|done].
  constructor; [done|]. eapply List.Forall_impl; [|exact Ht]. cbn. lia.
Qed.

(** ** Histories *)

Inductive rl_event := EvCheck (key : string) (limit : Z) (now : time) | EvCleanup (now : time).

Definition ev_time (e : rl_event) : time := match e with EvCheck _ _ n => n | EvCleanup n => n end.

(** The limiter and the log of admitted requests, oldest first. *)
Abbreviation rl_state := (RateLimiter * list (string * time))%type.

Definition rl_step (s : rl_state) (e : rl_event) : rl_state :=
  match e with
  | EvCheck key limit now =>
      let '(rl, (allowed, _, _)) := check s.1 key limit now in
      (rl, if allowed : bool then (s.2 ++ [(key, now)])%list else s.2)
  | EvCleanup now => (cleanup s.1 now, s.2)
  end.

Definition rl_run (cfg : RateLimitConfig) (es : list rl_event) : rl_state :=
  foldl rl_step (NewRateLimiter cfg, []) es.

(** The admitted times of one key. *)
Definition admitted (key : string) (log : list (string * time)) : list time :=
  map snd (List.filter (fun p => String.eqb (p.1) key) log).

Definition in_window (t a : time) : bool := (t - Minute <? a) && (a <=? t).
Definition count_in (t : time) (l : list time) : Z := zlen (List.filter (in_window t) l).

(** A clock that does not run backwards. *)
Fixpoint ordered (T : time) (es : list rl_event) : Prop :=
  match es with
  | [] => True
  | e :: es => T <= ev_time e /\ ordered (ev_time e) es
  end.

(** The same limit at every check of a key, as the middlewares use it. *)
Definition uses_limit (lim : string -> Z) (e : rl_event) : Prop :=
  match e with EvCheck key limit _ => limit = lim key | EvCleanup _ => True end.

Lemma admitted_snoc key k t log :
  admitted key (log ++ [(k, t)]) = if String.eqb k key then (admitted key log ++ [t])%list else admitted key log.
Proof.
  unfold admitted. rewrite List.filter_app, map_app. cbn. destruct (String.eqb k key); cbn; [done|].
  by rewrite app_nil_r.
Qed.

Lemma count_in_app t l1 l2 : count_in t (l1 ++ l2) = count_in t l1 + count_in t l2.
Proof. unfold count_in. rewrite List.filter_app. len. Qed.

Lemma count_in_le_len t l : count_in t l <= zlen l.
Proof. unfold count_in, zlen. pose proof (List.filter_length_le (in_window t) l). lia. Qed.

Lemma count_in_expired t l b : Forall (fun a => a <= b) l -> b <= t - Minute -> count_in t l = 0.
Proof.
  intros Hl Hb. unfold count_in. induction Hl as [|a l Ha _ IH]; [done|]. cbn.
  unfold in_window at 1. rewrite (proj2 (Z.ltb_ge (t - Minute) a)) by lia. exact IH.
Qed.

Lemma count_in_all t l :
  Forall (fun a => t - Minute < a) l -> Forall (fun a => a <= t) l -> count_in t l = zlen l.
Proof.
  intros H1 H2. unfold count_in. induction H1 as [|a l Ha _ IH]; [done|].
  inversion H2; subst. cbn. unfold in_window at 1.
  rewrite (proj2 (Z.ltb_lt (t - Minute) a)), (proj2 (Z.leb_le a t)) by lia. cbn.
  rewrite !zlen_cons, IH by done. lia.
Qed.

(** A window holds the recent end of the admitted times of its key. *)
Definition tracks (w adm : list time) (T : time) : Prop :=
  exists old, adm = (old ++ w)%list /\ Forall (fun a => a <= T - Minute) old
    /\ StronglySorted Z.le adm /\ Forall (fun a => a <= T) adm.

Lemma StronglySorted_snoc l t :
  StronglySorted Z.le l -> Forall (fun a => a <= t) l -> StronglySorted Z.le (l ++ [t]).
Proof.
  induction 1 as [|a l Hs IH Ha]; intros Hf; cbn; [repeat constructor|].
  inversion Hf; subst. constructor; [auto|]. apply List.Forall_app. split; [done|by repeat constructor].
Qed.

Lemma StronglySorted_app_r l1 l2 : StronglySorted Z.le (l1 ++ l2) -> StronglySorted Z.le l2.
Proof. induction l1 as [|a l1 IH]; [done|]. inversion 1; auto. Qed.

Lemma Forall_le_trans l (a b : Z) : Forall (fun x => x <= a) l -> a <= b -> Forall (fun x => x <= b) l.
Proof. intros H ?. eapply List.Forall_impl; [|exact H]. cbn. lia. Qed.

Lemma tracks_later w adm T T' : tracks w adm T -> T <= T' -> tracks w adm T'.
Proof.
  intros (old & -> & Ho & Hs & Hf) HT. exists old. split_and!; try done; eapply Forall_le_trans; eauto; lia.
Qed.

Lemma tracks_expire w adm T : tracks w adm T -> tracks (drop_expired (T - Minute) w) adm T.
Proof.
  intros (old & -> & Ho & Hs & Hf). destruct (drop_expired_suffix (T - Minute) w) as (pre & Hw & Hp).
  exists (old ++ pre)%list. split_and!; [by rewrite <- app_assoc, <- Hw| |done|done].
  by apply List.Forall_app.
Qed.

Lemma tracks_admit w adm T : tracks w adm T -> tracks (w ++ [T]) (adm ++ [T]) T.
Proof.
  intros (old & -> & Ho & Hs & Hf). exists old. split_and!; [by rewrite app_assoc|done| |].
  - by apply StronglySorted_snoc.
  - apply List.Forall_app. split; [done|repeat constructor; lia].
Qed.

Lemma tracks_drop w adm T : tracks w adm T -> cleanup_keeps T w = false -> tracks [] adm T.
Proof.
  intros (old & -> & Ho & Hs & Hf) Hk. exists (old ++ w)%list. split_and!; [by rewrite app_nil_r| |done|done].
  apply List.Forall_app. split; [done|]. unfold cleanup_keeps in Hk.
  destruct w as [|a w _] using rev_ind; [constructor|]. rewrite last_snoc in Hk. bools.
  apply StronglySorted_app_r in Hs. apply List.Forall_app. split; [|repeat constructor; lia].
  clear - Hs Hk. induction w as [|b w IH]; [constructor|]. inversion Hs as [|? ? Hs' Hb]; subst.
  constructor; [|auto]. apply List.Forall_app in Hb as [_ Hb]. inversion Hb; subst. lia.
Qed.

(** After expiry the window is the admitted requests of the last minute. *)
Lemma tracks_count w adm T :
  tracks w adm T -> count_in T adm = zlen (drop_expired (T - Minute) w).
Proof.
  intros Ht%tracks_expire. pose proof Ht as (old & -> & Ho & Hs & Hf).
  apply List.Forall_app in Hf as [_ Hf]. apply StronglySorted_app_r in Hs.
  rewrite count_in_app, (count_in_expired _ _ _ Ho), count_in_all; [lia| |done|lia].
  assert (drop_expired (T - Minute) (drop_expired (T - Minute) w) = drop_expired (T - Minute) w) as E.
  { clear. induction w as [|t w IH]; [done|]. cbn [drop_expired]. destruct (After t _) eqn:E; [|done].
    cbn [drop_expired]. by rewrite E. }
  rewrite <- E. by apply drop_expired_fresh.
Qed.

(** The invariant of a history. *)
Definition good (s : rl_state) (T : time) : Prop :=
  forall key, tracks (getWindow s.1 key) (admitted key s.2) T.

Lemma getWindow_insert rl key w key' :
  getWindow (set_windows rl (<[key := w]> (windows rl))) key'
  = if String.eqb key key' then w else getWindow rl key'.
Proof.
  unfold getWindow. cbn [set_windows windows]. rewrite lookup_insert.
  destruct (String.eqb_spec key key'); case_decide; done.
Qed.

(** What [check] answers, in terms of the admitted requests. *)
Lemma check_spec rl log key limit now :
  tracks (getWindow rl key) (admitted key log) now ->
  (check rl key limit now).2.1.1 = (count_in now (admitted key log) <? limit + burst rl).
Proof.
  intros Ht. unfold check. rewrite check_window. rewrite (tracks_count _ _ _ Ht).
  destruct (Z.leb_spec (limit + burst rl) (zlen (drop_expired (now - Minute) (getWindow rl key)))); cbn;
    symmetry; [apply Z.ltb_ge|apply Z.ltb_lt]; lia.
Qed.

Lemma step_good s e T : good s T -> T <= ev_time e -> good (rl_step s e) (ev_time e).
Proof.
  intros Hg HT key. specialize (Hg key). apply (tracks_later _ _ _ (ev_time e)) in Hg; [|done].
  destruct s as [rl log], e as [k limit now|now]; cbn [rl_step fst snd ev_time] in *.
  - unfold check. rewrite check_window. destruct (_ <=? _); cbn [fst snd]; rewrite getWindow_insert.
    + destruct (String.eqb_spec k key); subst; [by apply tracks_expire|done].
    + rewrite admitted_snoc. destruct (String.eqb_spec k key); subst; [|done].
      by apply tracks_admit, tracks_expire.
  - unfold getWindow, cleanup in *. cbn [set_windows windows].
    destruct (windows rl !! key) as [w|] eqn:E.
    + destruct (cleanup_keeps now w) eqn:Ek.
      * rewrite (map_lookup_filter_Some_2 _ _ _ w); [done|done|done].
      * rewrite (map_lookup_filter_None_2); [by eapply tracks_drop|]. right. intros ? ?. cbn. congruence.
    + rewrite (map_lookup_filter_None_2); [done|by left].
Qed.

Definition last_time (T : time) (es : list rl_event) : time := foldl (fun _ e => ev_time e) T es.

Lemma step_burst s e : burst (rl_step s e).1 = burst s.1.
Proof.
  destruct e; cbn [rl_step]; [|done]. unfold check. destruct (_ <=? _); done.
Qed.

Lemma run_good s T es :
  good s T -> ordered T es ->
  good (foldl rl_step s es) (last_time T es) /\ burst (foldl rl_step s es).1 = burst s.1.
Proof.
  revert s T; induction es as [|e es IH]; intros s T Hg Ho; [done|]. destruct Ho as [HT Ho].
  cbn [foldl last_time]. destruct (IH (rl_step s e) (ev_time e)) as [H1 H2]; [by eapply step_good|done|].
  split; [exact H1|]. by rewrite H2, step_burst.
Qed.

Lemma init_good cfg T : good (NewRateLimiter cfg, []) T.
Proof. intros key. exists []. cbn. repeat constructor. Qed.

(** No instant sees more than the budget of one key. *)
Definition budget (b : Z) (adm : list time) : Prop := forall t, count_in t adm <= Z.max 0 b.

Lemma budget_admit adm T b w :
  tracks w adm T -> budget b adm -> count_in T adm < b -> budget b (adm ++ [T]).
Proof.
  intros Ht Hb Hc t. rewrite count_in_app. specialize (Hb t).
  destruct (Z.leb_spec T t) as [Hle|Hgt].
  - pose proof (tracks_count _ _ _ Ht) as Hcnt. apply tracks_expire in Ht.
    destruct Ht as (old & -> & Ho & _). rewrite count_in_app in Hb.
    rewrite count_in_app in Hcnt, Hc |- *. rewrite (count_in_expired t old _ Ho) by lia.
    pose proof (count_in_le_len t (drop_expired (T - Minute) w)).
    pose proof (count_in_le_len t [T]). rewrite (count_in_expired T old _ Ho) in * by lia.
    unfold zlen in *. simpl in *. lia.
  - assert (count_in t [T] = 0) as ->; [|lia]. unfold count_in. cbn. unfold in_window.
    rewrite (proj2 (Z.leb_gt T t)), andb_false_r by lia. done.
Qed.

Lemma step_budget lim s e T key :
  good s T -> T <= ev_time e -> uses_limit lim e ->
  budget (lim key + burst s.1) (admitted key s.2) ->
  budget (lim key + burst s.1) (admitted key (rl_step s e).2).
Proof.
  intros Hg HT Hu Hb. destruct s as [rl log], e as [k limit now|now]; cbn [rl_step fst snd] in *; [|done].
  pose proof (tracks_later _ _ _ now (Hg k) HT) as Ht. cbn [fst snd] in Ht.
  pose proof (check_spec rl log k limit now Ht) as Hc.
  destruct (check rl k limit now) as [rl' [[allowed r] rt]]. cbn [fst snd] in *. subst allowed.
  destruct (Z.ltb_spec (count_in now (admitted k log)) (limit + burst rl)); [|done].
  rewrite admitted_snoc. destruct (String.eqb_spec k key); [|done]. subst key.
  rewrite <- Hu. rewrite <- Hu in Hb. by eapply budget_admit.
Qed.

(** The limiter keeps its promise in every sliding minute: over any
    interleaving of requests of any keys and clean-up rounds, with a clock that
    does not run backwards, the requests of one key admitted in any minute
    [(t - 1min, t]] never exceed its limit plus the burst. *)
Theorem rate_limit_safe cfg lim T es key t :
  ordered T es -> Forall (uses_limit lim) es ->
  count_in t (admitted key (rl_run cfg es).2) <= Z.max 0 (lim key + rc_Burst cfg).
Proof.
  intros Ho Hu.
  assert (forall s T, good s T -> ordered T es -> budget (lim key + burst s.1) (admitted key s.2) ->
            budget (lim key + burst s.1) (admitted key (foldl rl_step s es).2)) as H.
  { clear T Ho. induction Hu as [|e es He Hes IH]; intros s T Hg Ho Hb; [done|].
    destruct Ho as [HT Ho]. cbn [foldl]. rewrite <- (step_burst s e). eapply IH; [|exact Ho|].
    - by eapply step_good.
    - rewrite step_burst. by eapply step_budget. }
  apply (H (NewRateLimiter cfg, []) T); [apply init_good|done|].
  intros t'. replace (count_in _ _) with 0 by reflexivity. lia.
Qed.

Definition sample_rl : RateLimitConfig :=
  {| rc_Enabled := true; rc_RequestsPerMinute := 1; rc_RequestsPerMinuteAnon := 1; rc_Burst := 1 |}.
Definition sample_events : list rl_event :=
  [EvCheck "ip:a" 1 (10 * Second); EvCheck "ip:b" 1 (11 * Second); EvCheck "ip:a" 1 (12 * Second);
   EvCheck "ip:a" 1 (13 * Second); EvCleanup (14 * Second); EvCheck "ip:a" 1 (71 * Second)].

Lemma rate_limit_safe_witness :
  count_in (72 * Second) (admitted "ip:a" (rl_run sample_rl sample_events).2) <= Z.max 0 (1 + 1).
Proof.
  apply (rate_limit_safe sample_rl (fun _ => 1) 0 sample_events "ip:a").
  - cbn. unfold Second. lia.
  - repeat constructor.
Defined.

(** And it refuses nothing else: after any such history, a request is
    admitted exactly when fewer than limit plus burst requests of its key were
    admitted in the last minute, and an admitted request is told how many more
    it may make. *)
Theorem rate_limit_exact cfg T es key limit now :
  ordered T es -> last_time T es <= now ->
  let '(_, (allowed, remaining, _)) := check (rl_run cfg es).1 key limit now in
  let used := count_in now (admitted key (rl_run cfg es).2) in
  allowed = (used <? limit + rc_Burst cfg)
  /\ remaining = (if allowed then limit + rc_Burst cfg - used - 1 else 0).
Proof.
  intros Ho Hn. destruct (run_good (NewRateLimiter cfg, []) T es (init_good cfg T) Ho) as [Hg Hb].
  fold (rl_run cfg es) in *. pose proof (tracks_later _ _ _ now (Hg key) Hn) as Ht.
  unfold check. rewrite check_window, Hb, (tracks_count _ _ _ Ht). cbn [fst burst NewRateLimiter].
  set (n := zlen _). destruct (Z.leb_spec (limit + rc_Burst cfg) n).
  - split; [symmetry; apply Z.ltb_ge; lia|done].
  - split; [symmetry; apply Z.ltb_lt; lia|]. destruct (Z.ltb_spec (limit + rc_Burst cfg - n - 1) 0); lia.
Qed.

Lemma rate_limit_exact_witness :
  let '(_, (allowed, remaining, _)) := check (rl_run sample_rl sample_events).1 "ip:a" 1 (80 * Second) in
  let used := count_in (80 * Second) (admitted "ip:a" (rl_run sample_rl sample_events).2) in
  allowed = (used <? 1 + 1) /\ remaining = (if allowed then 1 + 1 - used - 1 else 0).
Proof.
  apply (rate_limit_exact sample_rl 0 sample_events "ip:a" 1 (80 * Second)); cbn; unfold Second; lia.
Defined.
