(* ===== verification/GrantStore.v ===== *)
(** * Grants, definitions and requests in the database
    ([internal/store/grants.go], [grant_definitions.go], [grant_requests.go],
    [connections.go])

    A table is a finite map from its primary key.  An SQL statement may fail for
    reasons outside the model (a lost connection, a constraint on another
    table): every operation takes [sql : nat -> bool], which says whether its
    i-th statement succeeds.  The constraints that matter here - primary keys,
    [valid_time_window], the unique active definition name - are checked
    explicitly.  [uid] arguments are what [gen_random_uuid()] returned; [now]
    arguments are what [time.Now] or [NOW()] returned. *)

From Stdlib Require Import ZArith Lia List Bool String Ascii.
From stdpp Require Import base list gmap strings.
From S2P Require Import Prelude GoStrings Models.

Open Scope string_scope.
Open Scope Z_scope.

Inductive store_error :=
| ErrDB                          (* a wrapped driver error *)
| ErrGrantNotFound
| ErrNoActiveGrant
| ErrGrantAlreadyRevoked
| ErrConnectionNotFound
| ErrGrantDefinitionNotFound
| ErrGrantDefinitionDuplicate
| ErrGrantRequestNotFound
| ErrInvalidTransition
| ErrDefinitionInactive.

Record DB := {
  access_grants : gmap uuid AccessGrant;
  grant_definitions : gmap uuid GrantDefinition;
  grant_requests : gmap uuid GrantRequest;
  connections : gmap uuid Connection;
  queries : gmap uuid Query
}.

Definition set_grants (d : DB) m : DB :=
  {| access_grants := m; grant_definitions := grant_definitions d; grant_requests := grant_requests d;
     connections := connections d; queries := queries d |}.
Definition set_definitions (d : DB) m : DB :=
  {| access_grants := access_grants d; grant_definitions := m; grant_requests := grant_requests d;
     connections := connections d; queries := queries d |}.
Definition set_requests (d : DB) m : DB :=
  {| access_grants := access_grants d; grant_definitions := grant_definitions d; grant_requests := m;
     connections := connections d; queries := queries d |}.
Definition set_connections (d : DB) m : DB :=
  {| access_grants := access_grants d; grant_definitions := grant_definitions d;
     grant_requests := grant_requests d; connections := m; queries := queries d |}.

(** A result together with the database it leaves behind. *)
Abbreviation dbres A := (DB * res store_error A)%type.

(** [db.RunInTx]: the changes are kept only when the body returns nil and the
    COMMIT goes through. *)
Definition RunInTx {A} (commit : bool) (body : DB -> dbres A) (d : DB) : dbres A :=
  match body d with
  | (d', Ok a) => if commit then (d', Ok a) else (d, Err ErrDB)
  | (_, r) => (d, r)
  end.

(** ** Grants *)

Definition BuildGrantFromDefinition (def : GrantDefinition) (userID databaseID grantedBy : uuid)
    (now : time) : AccessGrant :=
  {| g_UID := Nil; g_UserID := userID; g_DatabaseID := databaseID; g_Controls := gd_Controls def;
     g_GrantedBy := grantedBy; g_StartsAt := now;
     g_ExpiresAt := now + i64 (gd_DurationSeconds def * Second);
     g_RevokedAt := None; g_RevokedBy := None;
     g_MaxQueryCounts := gd_MaxQueryCounts def; g_MaxBytesTransferred := gd_MaxBytesTransferred def;
     g_CreatedAt := 0; g_QueryCount := 0; g_BytesTransferred := 0 |}.

(** The row as the INSERT leaves it: key and, when unset, [created_at] come from
    the column defaults. *)
Definition inserted_grant (g : AccessGrant) (uid : uuid) (now : time) : AccessGrant :=
  {| g_UID := uid; g_UserID := g_UserID g; g_DatabaseID := g_DatabaseID g; g_Controls := g_Controls g;
     g_GrantedBy := g_GrantedBy g; g_StartsAt := g_StartsAt g; g_ExpiresAt := g_ExpiresAt g;
     g_RevokedAt := g_RevokedAt g; g_RevokedBy := g_RevokedBy g;
     g_MaxQueryCounts := g_MaxQueryCounts g; g_MaxBytesTransferred := g_MaxBytesTransferred g;
     g_CreatedAt := if IsZero (g_CreatedAt g) then now else g_CreatedAt g;
     g_QueryCount := 0; g_BytesTransferred := 0 |}.

(** INSERT INTO access_grants; [valid_time_window] is [starts_at < expires_at]. *)
Definition insert_grant (d : DB) (g : AccessGrant) (uid : uuid) (now : time) : dbres AccessGrant :=
  let g := inserted_grant g uid now in
  if (g_StartsAt g <? g_ExpiresAt g) && negb (bool_decide (is_Some (access_grants d !! uid)))
  then (set_grants d (<[uid := g]> (access_grants d)), Ok g)
  else (d, Err ErrDB).

Definition CreateGrant (sql : nat -> bool) (d : DB) (g : AccessGrant) (uid : uuid) (now : time) :
    dbres AccessGrant :=
  let result :=
    {| g_UID := Nil; g_UserID := g_UserID g; g_DatabaseID := g_DatabaseID g; g_Controls := g_Controls g;
       g_GrantedBy := g_GrantedBy g; g_StartsAt := g_StartsAt g; g_ExpiresAt := g_ExpiresAt g;
       g_RevokedAt := None; g_RevokedBy := None; g_MaxQueryCounts := g_MaxQueryCounts g;
       g_MaxBytesTransferred := g_MaxBytesTransferred g; g_CreatedAt := now;
       g_QueryCount := 0; g_BytesTransferred := 0 |} in
  if sql 0%nat then insert_grant d result uid now else (d, Err ErrDB).

(** [revoked_at IS NULL AND starts_at <= NOW() AND expires_at > NOW()] *)
Definition active_at (now : time) (g : AccessGrant) : bool :=
  match g_RevokedAt g with None => true | Some _ => false end
  && (g_StartsAt g <=? now) && (now <? g_ExpiresAt g).

(** [ORDER BY created_at DESC LIMIT 1] over the selected rows. *)
Fixpoint newest (best : option AccessGrant) (gs : list AccessGrant) : option AccessGrant :=
  match gs with
  | [] => best
  | g :: gs =>
      newest (match best with
              | Some b => if g_CreatedAt b <? g_CreatedAt g then Some g else best
              | None => Some g
              end) gs
  end.

Definition rows {V} (m : gmap uuid V) : list V := map snd (map_to_list m).

(** The effective window of a grant ends at its expiry or its revocation. *)
Definition window_end (g : AccessGrant) : time :=
  match g_RevokedAt g with
  | Some r => if Before r (g_ExpiresAt g) then r else g_ExpiresAt g
  | None => g_ExpiresAt g
  end.

Definition in_grant_window (g : AccessGrant) (t : time) : bool :=
  (g_StartsAt g <=? t) && (t <? window_end g).

Definition of_grant (g : AccessGrant) (c : Connection) : bool :=
  N.eqb (c_UserID c) (g_UserID g) && N.eqb (c_DatabaseID c) (g_DatabaseID g).

(** [COUNT] of the queries joined with their connection. *)
Definition grant_query_count (d : DB) (g : AccessGrant) : Z :=
  zlen (List.filter (fun q =>
    match connections d !! q_ConnectionID q with
    | Some c => of_grant g c && in_grant_window g (q_ExecutedAt q)
    | None => false
    end) (rows (queries d))).

Definition grant_bytes (d : DB) (g : AccessGrant) : Z :=
  foldr (fun c n => c_BytesTransferred c + n) 0
    (List.filter (fun c => of_grant g c && in_grant_window g (c_ConnectedAt c)) (rows (connections d))).

Definition with_counters (g : AccessGrant) (n b : Z) : AccessGrant :=
  {| g_UID := g_UID g; g_UserID := g_UserID g; g_DatabaseID := g_DatabaseID g; g_Controls := g_Controls g;
     g_GrantedBy := g_GrantedBy g; g_StartsAt := g_StartsAt g; g_ExpiresAt := g_ExpiresAt g;
     g_RevokedAt := g_RevokedAt g; g_RevokedBy := g_RevokedBy g;
     g_MaxQueryCounts := g_MaxQueryCounts g; g_MaxBytesTransferred := g_MaxBytesTransferred g;
     g_CreatedAt := g_CreatedAt g; g_QueryCount := n; g_BytesTransferred := b |}.

(** [i] is the number of the first of its two statements. *)
Definition populateGrantCounters (sql : nat -> bool) (i : nat) (d : DB) (g : AccessGrant) :
    res store_error AccessGrant :=
  guard! sql i else ErrDB in
  guard! sql (S i) else ErrDB in
  Ok (with_counters g (grant_query_count d g) (grant_bytes d g)).

Definition GetActiveGrant (sql : nat -> bool) (d : DB) (userID databaseID : uuid) (now : time) :
    res store_error AccessGrant :=
  guard! sql 0%nat else ErrDB in
  match newest None (List.filter (fun g =>
          N.eqb (g_UserID g) userID && N.eqb (g_DatabaseID g) databaseID && active_at now g)
          (rows (access_grants d))) with
  | None => Err ErrNoActiveGrant
  | Some g => populateGrantCounters sql 1 d g
  end.

Definition GetGrantByUID (sql : nat -> bool) (d : DB) (uid : uuid) : res store_error AccessGrant :=
  guard! sql 0%nat else ErrDB in
  match access_grants d !! uid with
  | None => Err ErrGrantNotFound
  | Some g => populateGrantCounters sql 1 d g
  end.

Definition revoked_grant (g : AccessGrant) (now : time) (by_ : uuid) : AccessGrant :=
  {| g_UID := g_UID g; g_UserID := g_UserID g; g_DatabaseID := g_DatabaseID g; g_Controls := g_Controls g;
     g_GrantedBy := g_GrantedBy g; g_StartsAt := g_StartsAt g; g_ExpiresAt := g_ExpiresAt g;
     g_RevokedAt := Some now; g_RevokedBy := Some by_;
     g_MaxQueryCounts := g_MaxQueryCounts g; g_MaxBytesTransferred := g_MaxBytesTransferred g;
     g_CreatedAt := g_CreatedAt g; g_QueryCount := g_QueryCount g; g_BytesTransferred := g_BytesTransferred g |}.

(** UPDATE ... WHERE uid = ? AND revoked_at IS NULL *)
Definition RevokeGrant (sql : nat -> bool) (d : DB) (uid revokedBy : uuid) (now : time) : dbres unit :=
  if sql 0%nat then
    match access_grants d !! uid with
    | Some g =>
        match g_RevokedAt g with
        | None => (set_grants d (<[uid := revoked_grant g now revokedBy]> (access_grants d)), Ok tt)
        | Some _ => (d, Err ErrGrantAlreadyRevoked)
        end
    | None => (d, Err ErrGrantAlreadyRevoked)
    end
  else (d, Err ErrDB).

Record GrantFilter := { gf_UserID : option uuid; gf_DatabaseID : option uuid; gf_ActiveOnly : bool }.

Definition opt_match (f : option uuid) (x : uuid) : bool :=
  match f with None => true | Some y => N.eqb x y end.

Definition grant_selected (f : GrantFilter) (now : time) (g : AccessGrant) : bool :=
  opt_match (gf_UserID f) (g_UserID g) && opt_match (gf_DatabaseID f) (g_DatabaseID g)
  && (if gf_ActiveOnly f then active_at now g else true).

(** [ORDER BY key DESC] *)
Section Order.
Context {A : Type} (key : A -> Z).

Fixpoint insert_desc (x : A) (l : list A) : list A :=
  match l with
  | [] => [x]
  | y :: r => if key y <? key x then x :: l else y :: insert_desc x r
  end.

Definition order_desc (l : list A) : list A := foldr insert_desc [] l.
End Order.

(** Two statements per row after the SELECT. *)
Fixpoint populate_all (sql : nat -> bool) (i : nat) (d : DB) (gs : list AccessGrant) :
    res store_error (list AccessGrant) :=
  match gs with
  | [] => Ok []
  | g :: gs =>
      let! g := populateGrantCounters sql i d g in
      let! gs := populate_all sql (i + 2) d gs in
      Ok (g :: gs)
  end.

Definition ListGrants (sql : nat -> bool) (d : DB) (f : GrantFilter) (now : time) :
    res store_error (list AccessGrant) :=
  guard! sql 0%nat else ErrDB in
  populate_all sql 1 d
    (order_desc g_CreatedAt (List.filter (grant_selected f now) (rows (access_grants d)))).

(** ** Definitions *)

Definition active_name_taken (d : DB) (name : string) : bool :=
  existsb (fun def => gd_IsActive def && String.eqb (gd_Name def) name) (rows (grant_definitions d)).

Definition CreateGrantDefinition (sql : nat -> bool) (d : DB) (def : GrantDefinition) (uid : uuid) (now : time) :
    dbres GrantDefinition :=
  let result :=
    {| gd_UID := uid; gd_Name := gd_Name def; gd_Description := gd_Description def;
       gd_DurationSeconds := gd_DurationSeconds def; gd_Controls := gd_Controls def;
       gd_MaxQueryCounts := gd_MaxQueryCounts def; gd_MaxBytesTransferred := gd_MaxBytesTransferred def;
       gd_AutoApprove := gd_AutoApprove def; gd_GroupUIDs := gd_GroupUIDs def;
       gd_DatabaseUIDs := gd_DatabaseUIDs def; gd_IsActive := true;
       gd_CreatedBy := gd_CreatedBy def; gd_CreatedAt := now |} in
  if negb (sql 0%nat) then (d, Err ErrDB)
  else if (gd_DurationSeconds def <=? 0) || bool_decide (is_Some (grant_definitions d !! uid)) then (d, Err ErrDB)
  else if active_name_taken d (gd_Name def) then (d, Err ErrGrantDefinitionDuplicate)
  else (set_definitions d (<[uid := result]> (grant_definitions d)), Ok result).

Definition GetGrantDefinition (sql : nat -> bool) (d : DB) (uid : uuid) : res store_error GrantDefinition :=
  guard! sql 0%nat else ErrDB in
  match grant_definitions d !! uid with
  | None => Err ErrGrantDefinitionNotFound
  | Some def => Ok def
  end.

Definition ListGrantDefinitions (sql : nat -> bool) (d : DB) (activeOnly : bool) :
    res store_error (list GrantDefinition) :=
  guard! sql 0%nat else ErrDB in
  Ok (order_desc gd_CreatedAt
        (List.filter (fun def => if activeOnly then gd_IsActive def else true) (rows (grant_definitions d)))).

Definition edited_definition (old def : GrantDefinition) : GrantDefinition :=
  {| gd_UID := gd_UID old; gd_Name := gd_Name def; gd_Description := gd_Description def;
     gd_DurationSeconds := gd_DurationSeconds def; gd_Controls := gd_Controls def;
     gd_MaxQueryCounts := gd_MaxQueryCounts def; gd_MaxBytesTransferred := gd_MaxBytesTransferred def;
     gd_AutoApprove := gd_AutoApprove def; gd_GroupUIDs := gd_GroupUIDs def;
     gd_DatabaseUIDs := gd_DatabaseUIDs def; gd_IsActive := gd_IsActive old;
     gd_CreatedBy := gd_CreatedBy old; gd_CreatedAt := gd_CreatedAt old |}.

(** Another active definition has the name an active [old] would be given. *)
Definition rename_conflict (d : DB) (old : GrantDefinition) (name : string) : bool :=
  gd_IsActive old
  && existsb (fun x => gd_IsActive x && String.eqb (gd_Name x) name && negb (N.eqb (gd_UID x) (gd_UID old)))
       (rows (grant_definitions d)).

Definition UpdateGrantDefinition (sql : nat -> bool) (d : DB) (def : GrantDefinition) : dbres unit :=
  if negb (sql 0%nat) then (d, Err ErrDB)
  else match grant_definitions d !! gd_UID def with
       | None => (d, Err ErrGrantDefinitionNotFound)
       | Some old =>
           if (gd_DurationSeconds def <=? 0) || rename_conflict d old (gd_Name def) then (d, Err ErrDB)
           else (set_definitions d (<[gd_UID def := edited_definition old def]> (grant_definitions d)), Ok tt)
       end.

Definition deactivated (def : GrantDefinition) : GrantDefinition :=
  {| gd_UID := gd_UID def; gd_Name := gd_Name def; gd_Description := gd_Description def;
     gd_DurationSeconds := gd_DurationSeconds def; gd_Controls := gd_Controls def;
     gd_MaxQueryCounts := gd_MaxQueryCounts def; gd_MaxBytesTransferred := gd_MaxBytesTransferred def;
     gd_AutoApprove := gd_AutoApprove def; gd_GroupUIDs := gd_GroupUIDs def;
     gd_DatabaseUIDs := gd_DatabaseUIDs def; gd_IsActive := false;
     gd_CreatedBy := gd_CreatedBy def; gd_CreatedAt := gd_CreatedAt def |}.

Definition DeactivateGrantDefinition (sql : nat -> bool) (d : DB) (uid : uuid) : dbres unit :=
  if negb (sql 0%nat) then (d, Err ErrDB)
  else match grant_definitions d !! uid with
       | None => (d, Err ErrGrantDefinitionNotFound)
       | Some def => (set_definitions d (<[uid := deactivated def]> (grant_definitions d)), Ok tt)
       end.

(** ** Requests *)

Definition CreateGrantRequest (sql : nat -> bool) (d : DB) (req : GrantRequest) (uid : uuid) (now : time) :
    dbres GrantRequest :=
  let result :=
    {| gr_UID := uid; gr_UserID := gr_UserID req; gr_GrantDefinitionID := gr_GrantDefinitionID req;
       gr_DatabaseID := gr_DatabaseID req; gr_Justification := gr_Justification req;
       gr_Status := GrantRequestPending; gr_RequestedAt := now; gr_DecidedAt := None;
       gr_DecidedBy := None; gr_DecisionReason := None; gr_ResultingGrantID := None;
       gr_SlackChannel := None; gr_SlackMessageTS := None |} in
  if negb (sql 0%nat) || bool_decide (is_Some (grant_requests d !! uid)) then (d, Err ErrDB)
  else (set_requests d (<[uid := result]> (grant_requests d)), Ok result).

Definition GetGrantRequest (sql : nat -> bool) (d : DB) (uid : uuid) : res store_error GrantRequest :=
  guard! sql 0%nat else ErrDB in
  match grant_requests d !! uid with
  | None => Err ErrGrantRequestNotFound
  | Some r => Ok r
  end.

Record GrantRequestFilter := {
  rf_UserID : option uuid;
  rf_Status : option GrantRequestStatus;
  rf_DatabaseID : option uuid;
  rf_Limit : Z;
  rf_Offset : Z
}.

Definition request_selected (f : GrantRequestFilter) (r : GrantRequest) : bool :=
  opt_match (rf_UserID f) (gr_UserID r) && opt_match (rf_DatabaseID f) (gr_DatabaseID r)
  && match rf_Status f with None => true | Some st => bool_decide (gr_Status r = st) end.

Definition paginate {A} (limit offset : Z) (l : list A) : list A :=
  let l := if 0 <? offset then drop (Z.to_nat offset) l else l in
  if 0 <? limit then take (Z.to_nat limit) l else l.

Definition ListGrantRequests (sql : nat -> bool) (d : DB) (f : GrantRequestFilter) :
    res store_error (list GrantRequest) :=
  guard! sql 0%nat else ErrDB in
  Ok (paginate (rf_Limit f) (rf_Offset f)
        (order_desc gr_RequestedAt (List.filter (request_selected f) (rows (grant_requests d))))).

Definition HasPendingRequest (sql : nat -> bool) (d : DB) (userID definitionID databaseID : uuid) :
    res store_error bool :=
  guard! sql 0%nat else ErrDB in
  Ok (0 <? zlen (List.filter (fun r =>
        N.eqb (gr_UserID r) userID && N.eqb (gr_GrantDefinitionID r) definitionID
        && N.eqb (gr_DatabaseID r) databaseID && bool_decide (gr_Status r = GrantRequestPending))
        (rows (grant_requests d)))).

Definition decided (req : GrantRequest) (st : GrantRequestStatus) (now : time) (by_ : option uuid)
    (reason : option string) (grant : option uuid) : GrantRequest :=
  {| gr_UID := gr_UID req; gr_UserID := gr_UserID req; gr_GrantDefinitionID := gr_GrantDefinitionID req;
     gr_DatabaseID := gr_DatabaseID req; gr_Justification := gr_Justification req;
     gr_Status := st; gr_RequestedAt := gr_RequestedAt req; gr_DecidedAt := Some now;
     gr_DecidedBy := by_; gr_DecisionReason := reason; gr_ResultingGrantID := grant;
     gr_SlackChannel := gr_SlackChannel req; gr_SlackMessageTS := gr_SlackMessageTS req |}.

(** The body of the transaction: select request, select definition, insert
    grant, update request.  [now1] and [now2] are its two clock readings,
    [gid] the key of the new grant. *)
Definition approve_body (sql : nat -> bool) (uid : uuid) (decidedBy : option uuid) (grantedBy gid : uuid)
    (now1 now2 : time) (d : DB) : dbres (AccessGrant * GrantRequest) :=
  if negb (sql 0%nat) then (d, Err ErrDB)
  else match grant_requests d !! uid with
  | None => (d, Err ErrGrantRequestNotFound)
  | Some req =>
      if negb (bool_decide (gr_Status req = GrantRequestPending)) then (d, Err ErrInvalidTransition)
      else if negb (sql 1%nat) then (d, Err ErrDB)
      else match grant_definitions d !! gr_GrantDefinitionID req with
      | None => (d, Err ErrDB)                   (* sql.ErrNoRows, wrapped *)
      | Some def =>
          if negb (gd_IsActive def) then (d, Err ErrDefinitionInactive)
          else if negb (sql 2%nat) then (d, Err ErrDB)
          else
            let newGrant := BuildGrantFromDefinition def (gr_UserID req) (gr_DatabaseID req) grantedBy now1 in
            match insert_grant d newGrant gid now1 with
            | (d1, Ok grant) =>
                let req' := decided req GrantRequestApproved now2 decidedBy (gr_DecisionReason req) (Some gid) in
                if negb (sql 3%nat) then (d1, Err ErrDB)
                else (set_requests d1 (<[uid := req']> (grant_requests d1)), Ok (grant, req'))
            | (d1, Err e) => (d1, Err e)
            | (d1, Panic) => (d1, Panic)
            end
      end
  end.

Definition approveGrantRequestTx sql (d : DB) (uid : uuid) (decidedBy : option uuid) (grantedBy gid : uuid)
    (now1 now2 : time) : dbres (AccessGrant * GrantRequest) :=
  RunInTx (sql 4%nat) (approve_body sql uid decidedBy grantedBy gid now1 now2) d.

Definition ApproveGrantRequest sql (d : DB) (uid decidedBy gid : uuid) (now1 now2 : time) :=
  approveGrantRequestTx sql d uid (Some decidedBy) decidedBy gid now1 now2.

Definition AutoApproveGrantRequest sql (d : DB) (uid requesterID gid : uuid) (now1 now2 : time) :=
  approveGrantRequestTx sql d uid None requesterID gid now1 now2.

Definition transition_body (sql : nat -> bool) (uid : uuid) (target : GrantRequestStatus)
    (decidedBy : option uuid) (reason : string) (now : time) (d : DB) : dbres GrantRequest :=
  if negb (sql 0%nat) then (d, Err ErrDB)
  else match grant_requests d !! uid with
  | None => (d, Err ErrGrantRequestNotFound)
  | Some req =>
      if negb (bool_decide (gr_Status req = GrantRequestPending)) then (d, Err ErrInvalidTransition)
      else
        let req' := decided req target now decidedBy
                      (if String.eqb reason "" then gr_DecisionReason req else Some reason)
                      (gr_ResultingGrantID req) in
        if negb (sql 1%nat) then (d, Err ErrDB)
        else (set_requests d (<[uid := req']> (grant_requests d)), Ok req')
  end.

Definition transition sql (d : DB) uid target decidedBy reason now : dbres GrantRequest :=
  RunInTx (sql 2%nat) (transition_body sql uid target decidedBy reason now) d.

Definition DenyGrantRequest sql (d : DB) (uid decidedBy : uuid) (reason : string) (now : time) :=
  transition sql d uid GrantRequestDenied (Some decidedBy) reason now.

Definition CancelGrantRequest sql (d : DB) (uid byUser : uuid) (now : time) :=
  transition sql d uid GrantRequestCancelled (Some byUser) "" now.

Definition with_slack (r : GrantRequest) (channel ts : string) : GrantRequest :=
  {| gr_UID := gr_UID r; gr_UserID := gr_UserID r; gr_GrantDefinitionID := gr_GrantDefinitionID r;
     gr_DatabaseID := gr_DatabaseID r; gr_Justification := gr_Justification r;
     gr_Status := gr_Status r; gr_RequestedAt := gr_RequestedAt r; gr_DecidedAt := gr_DecidedAt r;
     gr_DecidedBy := gr_DecidedBy r; gr_DecisionReason := gr_DecisionReason r;
     gr_ResultingGrantID := gr_ResultingGrantID r;
     gr_SlackChannel := Some channel; gr_SlackMessageTS := Some ts |}.

Definition SetGrantRequestSlackMessage (sql : nat -> bool) (d : DB) (uid : uuid) (channel ts : string) : dbres unit :=
  if sql 0%nat
  then (set_requests d (alter (fun r => with_slack r channel ts) uid (grant_requests d)), Ok tt)
  else (d, Err ErrDB).

(** ** Connections *)

Definition CreateConnection (sql : nat -> bool) (d : DB) (userID databaseID : uuid) (sourceIP : string)
    (uid : uuid) (now1 now2 : time) : dbres Connection :=
  let conn := {| c_UID := uid; c_UserID := userID; c_DatabaseID := databaseID; c_SourceIP := sourceIP;
                 c_ConnectedAt := now1; c_LastActivityAt := now2; c_DisconnectedAt := None;
                 c_Queries := 0; c_BytesTransferred := 0 |} in
  if negb (sql 0%nat) || bool_decide (is_Some (connections d !! uid)) then (d, Err ErrDB)
  else (set_connections d (<[uid := conn]> (connections d)), Ok conn).

Definition CloseConnection (sql : nat -> bool) (d : DB) (uid : uuid) (now : time) : dbres unit :=
  if negb (sql 0%nat) then (d, Err ErrDB)
  else match connections d !! uid with
       | Some c =>
           match c_DisconnectedAt c with
           | None =>
               let c' := {| c_UID := c_UID c; c_UserID := c_UserID c; c_DatabaseID := c_DatabaseID c;
                            c_SourceIP := c_SourceIP c; c_ConnectedAt := c_ConnectedAt c;
                            c_LastActivityAt := c_LastActivityAt c; c_DisconnectedAt := Some now;
                            c_Queries := c_Queries c; c_BytesTransferred := c_BytesTransferred c |} in
               (set_connections d (<[uid := c']> (connections d)), Ok tt)
           | Some _ => (d, Err ErrConnectionNotFound)
           end
       | None => (d, Err ErrConnectionNotFound)
       end.

(** [queries + n], [bytes_transferred + bytes], [last_activity_at = now]. *)
Definition bump (n bytes : Z) (now : time) (c : Connection) : Connection :=
  {| c_UID := c_UID c; c_UserID := c_UserID c; c_DatabaseID := c_DatabaseID c;
     c_SourceIP := c_SourceIP c; c_ConnectedAt := c_ConnectedAt c;
     c_LastActivityAt := now; c_DisconnectedAt := c_DisconnectedAt c;
     c_Queries := c_Queries c + n; c_BytesTransferred := c_BytesTransferred c + bytes |}.

Definition update_connection (sql : nat -> bool) (d : DB) (uid : uuid) (f : Connection -> Connection) : dbres unit :=
  if sql 0%nat then (set_connections d (alter f uid (connections d)), Ok tt) else (d, Err ErrDB).

Definition UpdateConnectionActivity sql (d : DB) uid now := update_connection sql d uid (bump 0 0 now).
Definition IncrementConnectionStats sql (d : DB) uid bytes now := update_connection sql d uid (bump 1 bytes now).
Definition IncrementConnectionBytes sql (d : DB) uid bytes now := update_connection sql d uid (bump 0 bytes now).

Definition GetConnectionByUID (sql : nat -> bool) (d : DB) (uid : uuid) : res store_error Connection :=
  guard! sql 0%nat else ErrDB in
  match connections d !! uid with None => Err ErrConnectionNotFound | Some c => Ok c end.

Record ConnectionFilter := {
  cf_UserID : option uuid;
  cf_DatabaseID : option uuid;
  cf_BeforeUID : option uuid;
  cf_Limit : Z;
  cf_Offset : Z
}.

Definition connection_selected (f : ConnectionFilter) (c : Connection) : bool :=
  opt_match (cf_UserID f) (c_UserID c) && opt_match (cf_DatabaseID f) (c_DatabaseID c)
  && match cf_BeforeUID f with None => true | Some u => N.ltb (c_UID c) u end.

Definition ListConnections (sql : nat -> bool) (d : DB) (f : ConnectionFilter) : res store_error (list Connection) :=
  guard! sql 0%nat else ErrDB in
  Ok (paginate (cf_Limit f) (cf_Offset f)
        (order_desc (fun c => Z.of_N (c_UID c)) (List.filter (connection_selected f) (rows (connections d))))).

(** ** One step of the database, and what never changes *)

Inductive db_step : DB -> DB -> Prop :=
| s_create_grant d sql g uid now : db_step d (CreateGrant sql d g uid now).1
| s_revoke_grant d sql uid by_ now : db_step d (RevokeGrant sql d uid by_ now).1
| s_create_definition d sql def uid now : db_step d (CreateGrantDefinition sql d def uid now).1
| s_update_definition d sql def : db_step d (UpdateGrantDefinition sql d def).1
| s_deactivate_definition d sql uid : db_step d (DeactivateGrantDefinition sql d uid).1
| s_create_request d sql req uid now : db_step d (CreateGrantRequest sql d req uid now).1
| s_approve d sql uid by_ gid n1 n2 : db_step d (ApproveGrantRequest sql d uid by_ gid n1 n2).1
| s_auto_approve d sql uid rid gid n1 n2 : db_step d (AutoApproveGrantRequest sql d uid rid gid n1 n2).1
| s_deny d sql uid by_ reason now : db_step d (DenyGrantRequest sql d uid by_ reason now).1
| s_cancel d sql uid by_ now : db_step d (CancelGrantRequest sql d uid by_ now).1
| s_slack d sql uid ch ts : db_step d (SetGrantRequestSlackMessage sql d uid ch ts).1
| s_create_connection d sql u b ip uid n1 n2 : db_step d (CreateConnection sql d u b ip uid n1 n2).1
| s_close_connection d sql uid now : db_step d (CloseConnection sql d uid now).1
| s_activity d sql uid now : db_step d (UpdateConnectionActivity sql d uid now).1
| s_stats d sql uid bytes now : db_step d (IncrementConnectionStats sql d uid bytes now).1
| s_bytes d sql uid bytes now : db_step d (IncrementConnectionBytes sql d uid bytes now).1.

Definition empty_db : DB :=
  {| access_grants := ∅; grant_definitions := ∅; grant_requests := ∅; connections := ∅; queries := ∅ |}.

(** The outcome of an approval, on every path. *)
Lemma approve_cases sql d uid by_ grantedBy gid n1 n2 :
  match approveGrantRequestTx sql d uid by_ grantedBy gid n1 n2 with
  | (d', Ok (g, req')) =>
      exists req def,
        grant_requests d !! uid = Some req /\ gr_Status req = GrantRequestPending
        /\ grant_definitions d !! gr_GrantDefinitionID req = Some def /\ gd_IsActive def = true
        /\ access_grants d !! gid = None
        /\ g = inserted_grant (BuildGrantFromDefinition def (gr_UserID req) (gr_DatabaseID req) grantedBy n1) gid n1
        /\ req' = decided req GrantRequestApproved n2 by_ (gr_DecisionReason req) (Some gid)
        /\ d' = set_requests (set_grants d (<[gid := g]> (access_grants d))) (<[uid := req']> (grant_requests d))
  | (d', _) => d' = d
  end.
Proof.
  unfold approveGrantRequestTx, RunInTx, approve_body.
  destruct (sql 0%nat); [|done]. cbn [negb].
  destruct (grant_requests d !! uid) as [req|] eqn:Er; [|done].
  destruct (bool_decide _) eqn:Es; [|done]. apply bool_decide_eq_true in Es. cbn [negb].
  destruct (sql 1%nat); [|done]. cbn [negb].
  destruct (grant_definitions d !! _) as [def|] eqn:Ed; [|done].
  destruct (gd_IsActive def) eqn:Ea; [|done]. cbn [negb].
  destruct (sql 2%nat); [|done]. cbn [negb]. unfold insert_grant.
  destruct (_ && _) eqn:Ei; [|done]. bools. apply bool_decide_eq_false, eq_None_not_Some in H0.
  destruct (sql 3%nat); [|done]. cbn [negb]. destruct (sql 4%nat); [|done]. exists req, def. split_and!; done.
Qed.

Lemma approve_no_panic sql d uid by_ grantedBy gid n1 n2 :
  (approveGrantRequestTx sql d uid by_ grantedBy gid n1 n2).2 <> Panic.
Proof.
  unfold approveGrantRequestTx, RunInTx, approve_body, insert_grant.
  repeat (case_match; simplify_eq; cbn [snd]; try done).
Qed.

Lemma transition_cases sql d uid target by_ reason now :
  match transition sql d uid target by_ reason now with
  | (d', Ok req') =>
      exists req rs,
        grant_requests d !! uid = Some req /\ gr_Status req = GrantRequestPending
        /\ req' = decided req target now by_ rs (gr_ResultingGrantID req)
        /\ d' = set_requests d (<[uid := req']> (grant_requests d))
  | (d', _) => d' = d
  end.
Proof.
  unfold transition, RunInTx, transition_body.
  destruct (sql 0%nat); [|done]. cbn [negb].
  destruct (grant_requests d !! uid) as [req|] eqn:Er; [|done].
  destruct (bool_decide _) eqn:Es; [|done]. apply bool_decide_eq_true in Es. cbn [negb].
  destruct (sql 1%nat); [|done]. cbn [negb]. destruct (sql 2%nat); [|done]. eexists req, _. split_and!; done.
Qed.

(** A grant keeps its terms for ever, and a revocation is final. *)
Record grant_evolves (g g' : AccessGrant) : Prop := {
  ge_uid : g_UID g' = g_UID g;
  ge_user : g_UserID g' = g_UserID g;
  ge_database : g_DatabaseID g' = g_DatabaseID g;
  ge_controls : g_Controls g' = g_Controls g;
  ge_starts : g_StartsAt g' = g_StartsAt g;
  ge_expires : g_ExpiresAt g' = g_ExpiresAt g;
  ge_max_queries : g_MaxQueryCounts g' = g_MaxQueryCounts g;
  ge_max_bytes : g_MaxBytesTransferred g' = g_MaxBytesTransferred g;
  ge_revoked : g_RevokedAt g <> None -> g_RevokedAt g' = g_RevokedAt g
}.

(** A request keeps its subject for ever, and a decision is final. *)
Record request_evolves (r r' : GrantRequest) : Prop := {
  re_user : gr_UserID r' = gr_UserID r;
  re_database : gr_DatabaseID r' = gr_DatabaseID r;
  re_definition : gr_GrantDefinitionID r' = gr_GrantDefinitionID r;
  re_decided : gr_Status r <> GrantRequestPending ->
    gr_Status r' = gr_Status r /\ gr_DecidedAt r' = gr_DecidedAt r /\ gr_DecidedBy r' = gr_DecidedBy r
    /\ gr_DecisionReason r' = gr_DecisionReason r /\ gr_ResultingGrantID r' = gr_ResultingGrantID r
}.

#[export] Instance grant_evolves_preorder : PreOrder grant_evolves.
Proof.
  split; [by intros g; split|]. intros g1 g2 g3 H1 H2. destruct H1 as [? ? ? ? ? ? ? ? Hr1], H2 as [? ? ? ? ? ? ? ? Hr2].
  split; try congruence. intros H. specialize (Hr1 H). rewrite <- Hr1. apply Hr2. congruence.
Qed.

#[export] Instance request_evolves_preorder : PreOrder request_evolves.
Proof.
  split; [by intros g; split|]. intros r1 r2 r3 H1 H2. destruct H1 as [? ? ? Hd1], H2 as [? ? ? Hd2].
  split; try congruence. intros H. destruct (Hd1 H) as (E&?&?&?&?).
  destruct Hd2 as (?&?&?&?&?); [congruence|]. split_and!; congruence.
Qed.

Definition map_evolves {V} (R : V -> V -> Prop) (m m' : gmap uuid V) : Prop :=
  forall k v, m !! k = Some v -> exists v', m' !! k = Some v' /\ R v v'.

#[export] Instance map_evolves_preorder {V} (R : V -> V -> Prop) `{!PreOrder R} : PreOrder (map_evolves R).
Proof.
  split.
  - intros m k v Hk. exists v. split; [done|reflexivity].
  - intros m1 m2 m3 H1 H2 k v Hk. destruct (H1 k v Hk) as (v' & Hk' & Hr).
    destruct (H2 k v' Hk') as (v'' & ? & ?). exists v''. split; [done|]. by etrans.
Qed.

Lemma map_evolves_insert {V} (R : V -> V -> Prop) `{!PreOrder R} (m : gmap uuid V) k v :
  (forall v0, m !! k = Some v0 -> R v0 v) -> map_evolves R m (<[k := v]> m).
Proof.
  intros Hk k' v' Hv. rewrite lookup_insert. case_decide as E.
  - subst. eauto.
  - exists v'. split; [done|reflexivity].
Qed.

Record evolves (d d' : DB) : Prop := {
  ev_grants : map_evolves grant_evolves (access_grants d) (access_grants d');
  ev_requests : map_evolves request_evolves (grant_requests d) (grant_requests d')
}.

#[export] Instance evolves_preorder : PreOrder evolves.
Proof.
  split; [by intros d; split; reflexivity|]. intros d1 d2 d3 [] []. split; by etrans.
Qed.

Lemma insert_grant_evolves d g uid now : evolves d (insert_grant d g uid now).1.
Proof.
  unfold insert_grant. destruct (_ && _) eqn:E; cbn [fst]; [|reflexivity]. bools.
  apply bool_decide_eq_false, eq_None_not_Some in H0.
  split; cbn; [|reflexivity]. apply map_evolves_insert; [apply _|]. congruence.
Qed.

Lemma approve_evolves sql d uid by_ gb gid n1 n2 :
  evolves d (approveGrantRequestTx sql d uid by_ gb gid n1 n2).1.
Proof.
  pose proof (approve_cases sql d uid by_ gb gid n1 n2) as H.
  destruct (approveGrantRequestTx _ _ _ _ _ _ _ _) as [d' [[g req']|e|]]; cbn [fst]; [|by subst..].
  destruct H as (req & def & Hr & Hs & _ & _ & Hg & _ & -> & ->). split; cbn.
  - apply map_evolves_insert; [apply _|]. congruence.
  - apply map_evolves_insert; [apply _|]. intros r. rewrite Hr. intros [= <-]. by split.
Qed.

Lemma transition_evolves sql d uid target by_ reason now :
  evolves d (transition sql d uid target by_ reason now).1.
Proof.
  pose proof (transition_cases sql d uid target by_ reason now) as H.
  destruct (transition _ _ _ _ _ _ _) as [d' [req'|e|]]; cbn [fst]; [|by subst..].
  destruct H as (req & rs & Hr & Hs & -> & ->). split; cbn; [reflexivity|].
  apply map_evolves_insert; [apply _|]. intros r. rewrite Hr. intros [= <-]. by split.
Qed.

Lemma db_step_evolves d d' : db_step d d' -> evolves d d'.
Proof.
  destruct 1; unfold ApproveGrantRequest, AutoApproveGrantRequest, DenyGrantRequest, CancelGrantRequest;
    auto using approve_evolves, transition_evolves.
  - unfold CreateGrant. destruct (sql 0%nat); [apply insert_grant_evolves|reflexivity].
  - unfold RevokeGrant. repeat case_match; try reflexivity. split; cbn; [|reflexivity].
    apply map_evolves_insert; [apply _|]. intros g0 Hg0. simplify_eq. split; first [done|congruence].
  - unfold CreateGrantDefinition. repeat case_match; try reflexivity. by split.
  - unfold UpdateGrantDefinition. repeat case_match; try reflexivity. by split.
  - unfold DeactivateGrantDefinition. repeat case_match; try reflexivity. by split.
  - unfold CreateGrantRequest. destruct (_ || _) eqn:E; [reflexivity|]. bools.
    apply bool_decide_eq_false, eq_None_not_Some in H0. split; cbn; [reflexivity|].
    apply map_evolves_insert; [apply _|]. congruence.
  - unfold SetGrantRequestSlackMessage. destruct (sql 0%nat); [|reflexivity]. split; cbn; [reflexivity|].
    intros k v Hk. rewrite lookup_alter. case_decide; subst; rewrite Hk; eexists; (split; [done|]); by split.
  - unfold CreateConnection. case_match; [reflexivity|]. by split.
  - unfold CloseConnection. repeat case_match; try reflexivity. by split.
  - unfold UpdateConnectionActivity, update_connection. case_match; [by split|reflexivity].
  - unfold IncrementConnectionStats, update_connection. case_match; [by split|reflexivity].
  - unfold IncrementConnectionBytes, update_connection. case_match; [by split|reflexivity].
Qed.

Lemma db_steps_evolve d d' : rtc db_step d d' -> evolves d d'.
Proof. induction 1; [reflexivity|]. etrans; [by apply db_step_evolves|done]. Qed.

(** ** The invariant of reachable databases *)

Definition request_ok (grants : gmap uuid AccessGrant) (r : GrantRequest) : Prop :=
  match gr_Status r with
  | GrantRequestApproved =>
      exists gid g, gr_ResultingGrantID r = Some gid /\ grants !! gid = Some g
        /\ g_UserID g = gr_UserID r /\ g_DatabaseID g = gr_DatabaseID r
  | _ => gr_ResultingGrantID r = None
  end.

Record wf (d : DB) : Prop := {
  wf_keys : forall k g, access_grants d !! k = Some g -> g_UID g = k;
  wf_requests : forall k r, grant_requests d !! k = Some r -> request_ok (access_grants d) r;
  wf_distinct : forall k1 k2 r1 r2 gid,
    grant_requests d !! k1 = Some r1 -> grant_requests d !! k2 = Some r2 ->
    gr_ResultingGrantID r1 = Some gid -> gr_ResultingGrantID r2 = Some gid -> k1 = k2
}.

Lemma request_ok_evolves m m' r : map_evolves grant_evolves m m' -> request_ok m r -> request_ok m' r.
Proof.
  unfold request_ok. intros Hm. destruct (gr_Status r); try done.
  intros (gid & g & H1 & H2 & H3 & H4). destruct (Hm _ _ H2) as (g' & Hg' & Hev).
  exists gid, g'. split_and!; [done|done|rewrite (ge_user _ _ Hev); done|rewrite (ge_database _ _ Hev); done].
Qed.

Lemma request_ok_grant m r gid :
  request_ok m r -> gr_ResultingGrantID r = Some gid -> is_Some (m !! gid).
Proof.
  unfold request_ok. intros Hr Hg. destruct (gr_Status r); try congruence.
  destruct Hr as (gid' & g & H1 & H2 & _). simplify_eq. eauto.
Qed.

Lemma wf_same d d' :
  wf d -> access_grants d' = access_grants d -> grant_requests d' = grant_requests d -> wf d'.
Proof. intros [] Hg Hr. split; rewrite ?Hg, ?Hr; eauto. Qed.

Lemma wf_grants d d' :
  wf d -> evolves d d' -> grant_requests d' = grant_requests d ->
  (forall k g, access_grants d' !! k = Some g -> g_UID g = k) -> wf d'.
Proof.
  intros [Hk Hr Hd] [Hg _] Heq Hk'. split; [done| |]; rewrite Heq; [|done].
  intros k r Hl. eapply request_ok_evolves; eauto.
Qed.

(** Replacing one request row that keeps (or gets a fresh) resulting grant. *)
Lemma wf_request d uid r' :
  wf d -> request_ok (access_grants d) r' ->
  (forall gid, gr_ResultingGrantID r' = Some gid ->
     forall k r, k <> uid -> grant_requests d !! k = Some r -> gr_ResultingGrantID r <> Some gid) ->
  wf (set_requests d (<[uid := r']> (grant_requests d))).
Proof.
  intros [Hk Hr Hd] Hok Hfresh. split; cbn; [done| |].
  - intros k r. rewrite lookup_insert. case_decide; [intros [= <-]; done|apply Hr].
  - intros k1 k2 r1 r2 gid. rewrite !lookup_insert.
    repeat case_decide; subst; try congruence; intros; simplify_eq; eauto.
    + exfalso. eapply Hfresh; eauto.
    + exfalso. eapply Hfresh; eauto.
Qed.

Lemma wf_insert_grant d g uid now : wf d -> wf (insert_grant d g uid now).1.
Proof.
  intros Hwf. pose proof (insert_grant_evolves d g uid now) as Hev. revert Hev.
  unfold insert_grant. destruct (_ && _); cbn [fst]; [|done].
  intros Hev. apply (wf_grants d); [done|done|done|]. cbn. intros k g'. rewrite lookup_insert.
  case_decide; [intros [= <-]; by subst|]. apply (wf_keys _ Hwf).
Qed.

Lemma wf_transition sql d uid target by_ reason now :
  target <> GrantRequestApproved -> wf d -> wf (transition sql d uid target by_ reason now).1.
Proof.
  intros Ht Hwf. pose proof (transition_cases sql d uid target by_ reason now) as H.
  destruct (transition _ _ _ _ _ _ _) as [d' [req'|e|]]; cbn [fst]; [|by subst..].
  destruct H as (req & rs & Hr & Hs & -> & ->).
  assert (gr_ResultingGrantID req = None) as En
    by (pose proof (wf_requests _ Hwf _ _ Hr) as H; unfold request_ok in H; by rewrite Hs in H).
  apply wf_request; [done| |].
  - unfold request_ok. cbn. destruct target; done.
  - cbn. congruence.
Qed.

Lemma wf_approve sql d uid by_ gb gid n1 n2 :
  wf d -> wf (approveGrantRequestTx sql d uid by_ gb gid n1 n2).1.
Proof.
  intros Hwf. pose proof (approve_cases sql d uid by_ gb gid n1 n2) as H.
  destruct (approveGrantRequestTx _ _ _ _ _ _ _ _) as [d' [[g req']|e|]]; cbn [fst]; [|by subst..].
  destruct H as (req & def & Hr & Hs & _ & _ & Hg & Eg & -> & ->).
  set (d1 := set_grants d (<[gid := g]> (access_grants d))).
  assert (wf d1) as Hwf1.
  { apply (wf_grants d); [done| |done|].
    - split; cbn; [|reflexivity]. apply map_evolves_insert; [apply _|]. congruence.
    - cbn. intros k g'. rewrite lookup_insert. case_decide; [intros [= <-]; by subst|]. apply (wf_keys _ Hwf). }
  apply (wf_request d1); [done| |].
  - exists gid, g. cbn. rewrite lookup_insert_eq. subst g. done.
  - cbn. intros gid' [= <-] k r _ Hk Hres.
    destruct (request_ok_grant _ _ _ (wf_requests _ Hwf _ _ Hk) Hres). congruence.
Qed.

Lemma wf_step d d' : db_step d d' -> wf d -> wf d'.
Proof.
  intros Hstep Hwf. pose proof (db_step_evolves _ _ Hstep) as Hev. revert Hev.
  destruct Hstep; unfold ApproveGrantRequest, AutoApproveGrantRequest, DenyGrantRequest, CancelGrantRequest;
    intros Hev; auto using wf_approve.
  - unfold CreateGrant. destruct (sql 0%nat); [by apply wf_insert_grant|done].
  - revert Hev. unfold RevokeGrant. repeat case_match; try done. intros Hev.
    apply (wf_grants d); [done|done|done|]. cbn. intros k g'. rewrite lookup_insert.
    case_decide; [|apply (wf_keys _ Hwf)]. intros [= <-]. subst. cbn. by apply (wf_keys _ Hwf).
  - unfold CreateGrantDefinition. repeat case_match; try done; by apply (wf_same d).
  - unfold UpdateGrantDefinition. repeat case_match; try done; by apply (wf_same d).
  - unfold DeactivateGrantDefinition. repeat case_match; try done; by apply (wf_same d).
  - unfold CreateGrantRequest. case_match; [done|]. by apply wf_request.
  - by apply wf_transition.
  - by apply wf_transition.
  - unfold SetGrantRequestSlackMessage. destruct (sql 0%nat); [|done]. cbn [fst].
    destruct (grant_requests d !! uid) as [r|] eqn:Er.
    + assert (alter (fun r => with_slack r ch ts) uid (grant_requests d)
              = <[uid := with_slack r ch ts]> (grant_requests d)) as ->.
      { apply map_eq. intros k. rewrite lookup_alter, lookup_insert. case_decide; subst; [|done]. by rewrite Er. }
      apply wf_request; [done|exact (wf_requests _ Hwf _ _ Er)|].
      intros gid Hg k r2 Hk Hr2 Hg2. apply Hk. by eapply (wf_distinct _ Hwf).
    + apply (wf_same d); [done|done|]. cbn. by apply alter_id; intros; simplify_eq.
  - unfold CreateConnection. case_match; [done|]. by apply (wf_same d).
  - unfold CloseConnection. repeat case_match; try done; by apply (wf_same d).
  - unfold UpdateConnectionActivity, update_connection. case_match; [by apply (wf_same d)|done].
  - unfold IncrementConnectionStats, update_connection. case_match; [by apply (wf_same d)|done].
  - unfold IncrementConnectionBytes, update_connection. case_match; [by apply (wf_same d)|done].
Qed.

Lemma wf_empty : wf empty_db.
Proof. split; cbn; intros *; rewrite lookup_empty; done. Qed.

Lemma wf_steps d d' : rtc db_step d d' -> wf d -> wf d'.
Proof. induction 1; eauto using wf_step. Qed.

(** ** Lemmas on selections *)

Lemma elem_rows {V} (m : gmap uuid V) (v : V) : In v (rows m) <-> exists k, m !! k = Some v.
Proof.
  unfold rows. rewrite in_map_iff. split.
  - intros ([k v'] & <- & H). exists k. by apply elem_of_map_to_list, list_elem_of_In.
  - intros [k H]. exists (k, v). split; [done|]. by apply list_elem_of_In, elem_of_map_to_list.
Qed.

Lemma newest_spec gs : forall best,
  match newest best gs with
  | Some g => (best = Some g \/ In g gs)
      /\ (forall b, best = Some b -> g_CreatedAt b <= g_CreatedAt g)
      /\ (forall x, In x gs -> g_CreatedAt x <= g_CreatedAt g)
  | None => best = None /\ gs = []
  end.
Proof.
  induction gs as [|g gs IH]; intros best; cbn [newest].
  { destruct best; [|done]. split_and!; [by left|intros; simplify_eq; lia|done]. }
  destruct best as [b|].
  - destruct (g_CreatedAt b <? g_CreatedAt g) eqn:E; bools.
    + specialize (IH (Some g)). destruct (newest _ gs) as [r|]; [|by destruct IH].
      destruct IH as (Hin & Hb & Hall). specialize (Hb g eq_refl).
      split_and!; [right; cbn; destruct Hin; [left; congruence|by right]|intros; simplify_eq; lia|].
      intros x [<-|Hx]; [lia|auto].
    + specialize (IH (Some b)). destruct (newest _ gs) as [r|]; [|by destruct IH].
      destruct IH as (Hin & Hb & Hall). specialize (Hb b eq_refl).
      split_and!; [destruct Hin; [by left|right; by right]|intros; simplify_eq; lia|].
      intros x [<-|Hx]; [lia|auto].
  - specialize (IH (Some g)). destruct (newest _ gs) as [r|]; [|by destruct IH].
    destruct IH as (Hin & Hb & Hall). specialize (Hb g eq_refl).
    split_and!; [right; cbn; destruct Hin; [left; congruence|by right]|done|].
    intros x [<-|Hx]; [lia|auto].
Qed.

(** What [GetActiveGrant] selects before it computes the counters. *)
Definition selects (userID databaseID : uuid) (now : time) (g : AccessGrant) : Prop :=
  g_UserID g = userID /\ g_DatabaseID g = databaseID /\ active_at now g = true.

Lemma in_selected d u b now g :
  In g (List.filter (fun g => N.eqb (g_UserID g) u && N.eqb (g_DatabaseID g) b && active_at now g)
          (rows (access_grants d)))
  <-> (exists k, access_grants d !! k = Some g) /\ selects u b now g.
Proof. rewrite filter_In, elem_rows, !andb_true_iff, !N.eqb_eq. unfold selects. tauto. Qed.

Lemma GetActiveGrant_Ok sql d u b now g :
  GetActiveGrant sql d u b now = Ok g ->
  exists k g0, access_grants d !! k = Some g0 /\ selects u b now g0
    /\ g = with_counters g0 (grant_query_count d g0) (grant_bytes d g0)
    /\ forall k' g', access_grants d !! k' = Some g' -> selects u b now g' -> g_CreatedAt g' <= g_CreatedAt g0.
Proof.
  unfold GetActiveGrant, populateGrantCounters. destruct (sql 0%nat); [|done].
  pose proof (newest_spec (List.filter (fun g => N.eqb (g_UserID g) u && N.eqb (g_DatabaseID g) b && active_at now g)
          (rows (access_grants d))) None) as H.
  destruct (newest _ _) as [g0|]; [|done]. destruct H as ([?|Hin] & _ & Hmax); [done|].
  apply in_selected in Hin as [[k Hk] Hs].
  destruct (sql 1%nat), (sql 2%nat); try done. intros [= <-]. exists k, g0. split_and!; try done.
  intros k' g' Hk' Hs'. apply Hmax, in_selected. eauto.
Qed.

Lemma RevokeGrant_Ok sql d uid by_ now d' :
  RevokeGrant sql d uid by_ now = (d', Ok tt) ->
  exists g, access_grants d' !! uid = Some g /\ g_RevokedAt g = Some now.
Proof.
  unfold RevokeGrant. repeat case_match; intros [= <-]. cbn. rewrite lookup_insert_eq. eauto.
Qed.

(** ** A small database for the witnesses *)

Definition all_ok : nat -> bool := fun _ => true.

Definition sample_definition : GrantDefinition :=
  {| gd_UID := 0%N; gd_Name := "read prod"; gd_Description := ""; gd_DurationSeconds := 3600;
     gd_Controls := ["read_only"]; gd_MaxQueryCounts := Some 100; gd_MaxBytesTransferred := None;
     gd_AutoApprove := false; gd_GroupUIDs := []; gd_DatabaseUIDs := []; gd_IsActive := false;
     gd_CreatedBy := 1%N; gd_CreatedAt := 0 |}.

Definition sample_request : GrantRequest :=
  {| gr_UID := 0%N; gr_UserID := 5%N; gr_GrantDefinitionID := 10%N; gr_DatabaseID := 6%N;
     gr_Justification := "on call"; gr_Status := GrantRequestPending; gr_RequestedAt := 0;
     gr_DecidedAt := None; gr_DecidedBy := None; gr_DecisionReason := None; gr_ResultingGrantID := None;
     gr_SlackChannel := None; gr_SlackMessageTS := None |}.

Definition sample_db0 : DB := (CreateGrantDefinition all_ok empty_db sample_definition 10%N 1).1.
Definition sample_db1 : DB := (CreateGrantRequest all_ok sample_db0 sample_request 20%N 2).1.
Definition sample_db2 : DB := (ApproveGrantRequest all_ok sample_db1 20%N 1%N 30%N 3 4).1.
Definition sample_db3 : DB := (RevokeGrant all_ok sample_db2 30%N 1%N 9).1.

Lemma sample_reach0 : rtc db_step empty_db sample_db0.
Proof. apply rtc_once, s_create_definition. Qed.

Lemma sample_reach1 : rtc db_step empty_db sample_db1.
Proof. eapply rtc_r; [apply sample_reach0|apply s_create_request]. Qed.

Lemma sample_reach2 : rtc db_step empty_db sample_db2.
Proof. eapply rtc_r; [apply sample_reach1|apply s_approve]. Qed.

(** ** Properties *)

(** Approving a request is all or nothing, whichever statement fails and
    whoever approves: on an error the database is exactly what it was; on
    success the request was pending and its definition active, exactly one new
    grant appears, for the requester and the requested database, with the
    definition's controls, quotas and duration counted from the approval, and
    the request is now approved and points at that grant. *)
Theorem approve_all_or_nothing sql d uid decidedBy grantedBy gid now1 now2 :
  match approveGrantRequestTx sql d uid decidedBy grantedBy gid now1 now2 with
  | (d', Ok (g, req')) =>
      exists req def,
        grant_requests d !! uid = Some req /\ gr_Status req = GrantRequestPending
        /\ grant_definitions d !! gr_GrantDefinitionID req = Some def /\ gd_IsActive def = true
        /\ access_grants d !! gid = None
        /\ access_grants d' = <[gid := g]> (access_grants d)
        /\ grant_requests d' = <[uid := req']> (grant_requests d)
        /\ grant_definitions d' = grant_definitions d /\ connections d' = connections d
        /\ g_UserID g = gr_UserID req /\ g_DatabaseID g = gr_DatabaseID req
        /\ g_Controls g = gd_Controls def /\ g_MaxQueryCounts g = gd_MaxQueryCounts def
        /\ g_MaxBytesTransferred g = gd_MaxBytesTransferred def /\ g_GrantedBy g = grantedBy
        /\ g_StartsAt g = now1 /\ g_ExpiresAt g = now1 + i64 (gd_DurationSeconds def * Second)
        /\ g_RevokedAt g = None
        /\ gr_Status req' = GrantRequestApproved /\ gr_ResultingGrantID req' = Some gid
        /\ gr_DecidedBy req' = decidedBy /\ gr_UserID req' = gr_UserID req
  | (d', Err _) => d' = d
  | (_, Panic) => False
  end.
Proof.
  pose proof (approve_cases sql d uid decidedBy grantedBy gid now1 now2) as H.
  pose proof (approve_no_panic sql d uid decidedBy grantedBy gid now1 now2) as Hp.
  destruct (approveGrantRequestTx _ _ _ _ _ _ _ _) as [d' [[g req']|e|]]; [|done..].
  destruct H as (req & def & Hr & Hs & Hd & Ha & Hg & -> & -> & ->). exists req, def. split_and!; done.
Qed.

(** C31. An approval that should go through does, and is stored.  A pending request on
    an active definition whose duration is positive and fits a [time.Duration] is
    approved, when the database executes the statements and the generated key is new:
    the tables gain exactly one grant, for the user and the database of the request,
    with the controls and limits of the definition, valid from now on for its
    duration; and the request, and nothing else, becomes approved, with who decided
    when and which grant came of it. *)
Theorem approve_succeeds sql d uid decidedBy grantedBy gid now1 now2 req def :
  (forall i, sql i = true) ->
  grant_requests d !! uid = Some req -> gr_Status req = GrantRequestPending ->
  grant_definitions d !! gr_GrantDefinitionID req = Some def -> gd_IsActive def = true ->
  0 < gd_DurationSeconds def <= 9223372036 ->
  access_grants d !! gid = None ->
  exists d' g req', approveGrantRequestTx sql d uid decidedBy grantedBy gid now1 now2 = (d', Ok (g, req'))
    /\ d' = set_requests (set_grants d (<[gid := g]> (access_grants d))) (<[uid := req']> (grant_requests d))
    /\ (g_UID g = gid /\ g_UserID g = gr_UserID req /\ g_DatabaseID g = gr_DatabaseID req /\ g_GrantedBy g = grantedBy
        /\ g_Controls g = gd_Controls def /\ g_MaxQueryCounts g = gd_MaxQueryCounts def
        /\ g_MaxBytesTransferred g = gd_MaxBytesTransferred def /\ g_RevokedAt g = None
        /\ g_StartsAt g = now1 /\ g_ExpiresAt g = now1 + gd_DurationSeconds def * Second)
    /\ (gr_Status req' = GrantRequestApproved /\ gr_ResultingGrantID req' = Some gid
        /\ gr_DecidedBy req' = decidedBy /\ gr_DecidedAt req' = Some now2
        /\ gr_UID req' = gr_UID req /\ gr_UserID req' = gr_UserID req /\ gr_DatabaseID req' = gr_DatabaseID req
        /\ gr_GrantDefinitionID req' = gr_GrantDefinitionID req).
Proof.
  intros Hsql Hr Hs Hd Ha Hdur Hg.
  unfold approveGrantRequestTx, RunInTx, approve_body. rewrite !Hsql, Hr, Hd, Ha. cbn [negb].
  rewrite bool_decide_eq_true_2 by done. cbn [negb]. unfold insert_grant.
  assert (i64 (gd_DurationSeconds def * Second) = gd_DurationSeconds def * Second) as Ei
    by (apply (sint_small 64); unfold Second; cbn; lia).
  rewrite bool_decide_eq_false_2 by (rewrite Hg; by intros []).
  replace (g_StartsAt _ <? _) with true; cbn [andb negb]; [|cbn; rewrite Ei; unfold Second; lia].
  eexists _, _, _. split; [done|]. cbn. rewrite Ei. split_and!; done.
Qed.

Lemma approve_succeeds_witness :
  exists d' g req', approveGrantRequestTx all_ok sample_db1 20%N None 5%N 30%N 3 4 = (d', Ok (g, req'))
    /\ access_grants d' !! 30%N = Some g /\ gr_Status req' = GrantRequestApproved
    /\ g_ExpiresAt g = 3 + 3600 * Second.
Proof.
  destruct (grant_requests sample_db1 !! 20%N) as [r|] eqn:Er; [|vm_compute in Er; discriminate].
  destruct (grant_definitions sample_db1 !! 10%N) as [def|] eqn:Ed; [|vm_compute in Ed; discriminate].
  assert (gr_Status r = GrantRequestPending /\ gr_GrantDefinitionID r = 10%N) as [Es Ei]
    by (vm_compute in Er; injection Er as <-; split; reflexivity).
  assert (gd_IsActive def = true /\ gd_DurationSeconds def = 3600) as [Ea Edur]
    by (vm_compute in Ed; injection Ed as <-; split; reflexivity).
  destruct (approve_succeeds all_ok sample_db1 20%N None 5%N 30%N 3 4 r def)
    as (d' & g & req' & H1 & -> & Hg & Hq); [reflexivity|exact Er|exact Es|rewrite Ei; exact Ed|exact Ea|rewrite Edur; lia|reflexivity|].
  eexists _, g, req'. split; [exact H1|]. split; [apply lookup_insert_eq|]. split; [apply Hq|].
  rewrite <- Edur. apply Hg.
Defined.

(** A decision on a request is final: once it is approved, denied or
    cancelled, no sequence of operations changes its status, who decided, when,
    why, or the grant it produced, nor whom and what it was for. *)
Theorem decided_is_final d d' uid r :
  rtc db_step d d' -> grant_requests d !! uid = Some r -> gr_Status r <> GrantRequestPending ->
  exists r', grant_requests d' !! uid = Some r'
    /\ gr_Status r' = gr_Status r /\ gr_DecidedAt r' = gr_DecidedAt r /\ gr_DecidedBy r' = gr_DecidedBy r
    /\ gr_DecisionReason r' = gr_DecisionReason r /\ gr_ResultingGrantID r' = gr_ResultingGrantID r
    /\ gr_UserID r' = gr_UserID r /\ gr_DatabaseID r' = gr_DatabaseID r
    /\ gr_GrantDefinitionID r' = gr_GrantDefinitionID r.
Proof.
  intros Hsteps Hr Hs. destruct (ev_requests _ _ (db_steps_evolve _ _ Hsteps) _ _ Hr) as (r' & Hr' & Hev).
  destruct Hev as [? ? ? Hdec]. destruct (Hdec Hs) as (?&?&?&?&?). exists r'. split_and!; done.
Qed.

Lemma decided_is_final_witness :
  exists r', grant_requests (DenyGrantRequest all_ok sample_db2 20%N 1%N "no" 8).1 !! 20%N = Some r'
    /\ gr_Status r' = GrantRequestApproved.
Proof.
  destruct (grant_requests sample_db2 !! 20%N) as [r|] eqn:Er; [|vm_compute in Er; discriminate].
  assert (gr_Status r = GrantRequestApproved) as Es by (vm_compute in Er; injection Er as <-; reflexivity).
  destruct (decided_is_final sample_db2 (DenyGrantRequest all_ok sample_db2 20%N 1%N "no" 8).1 20%N r
    (rtc_once _ _ (s_deny _ _ _ _ _ _)) Er) as (r' & Hr' & Hs' & _).
  { rewrite Es. discriminate. }
  exists r'. rewrite Hs'. exact (conj Hr' Es).
Defined.

(** In every database the system can reach from the empty one, each
    approved request owns a grant of its own: the grant exists, is for the same
    user and database as the request, and no other request points at it; a
    request that is not approved points at no grant. *)
Theorem approved_has_grant d uid r :
  rtc db_step empty_db d -> grant_requests d !! uid = Some r ->
  match gr_ResultingGrantID r with
  | Some gid => gr_Status r = GrantRequestApproved
      /\ (exists g, access_grants d !! gid = Some g /\ g_UID g = gid
            /\ g_UserID g = gr_UserID r /\ g_DatabaseID g = gr_DatabaseID r)
      /\ (forall uid' r', grant_requests d !! uid' = Some r' -> gr_ResultingGrantID r' = Some gid -> uid' = uid)
  | None => gr_Status r <> GrantRequestApproved
  end.
Proof.
  intros Hd Hr. pose proof (wf_steps _ _ Hd wf_empty) as [Hk Hq Hdist].
  pose proof (Hq _ _ Hr) as H. unfold request_ok in H.
  destruct (gr_Status r) eqn:Es; try (by rewrite H).
  destruct H as (gid & g & E & Hg & Hu & Hb). rewrite E. split; [done|]. split; [eauto 10|].
  intros uid' r' Hr' E'. by eapply Hdist.
Qed.

Lemma approved_has_grant_witness :
  exists g, access_grants sample_db2 !! 30%N = Some g /\ g_UserID g = 5%N /\ g_DatabaseID g = 6%N.
Proof.
  destruct (grant_requests sample_db2 !! 20%N) as [r|] eqn:Er; [|vm_compute in Er; discriminate].
  pose proof (approved_has_grant sample_db2 20%N r sample_reach2 Er) as H.
  vm_compute in Er. injection Er as <-. destruct H as (_ & (g & Hg & _ & Hu & Hb) & _).
  exists g. exact (conj Hg (conj Hu Hb)).
Defined.

(** A revoked grant is gone for good: after [RevokeGrant] succeeds,
    whatever happens next, no lookup at any time returns that grant as
    somebody's active grant. *)
Theorem revoked_never_active d sql uid by_ now d1 d2 sql' u b t g :
  rtc db_step empty_db d -> RevokeGrant sql d uid by_ now = (d1, Ok tt) -> rtc db_step d1 d2 ->
  GetActiveGrant sql' d2 u b t = Ok g -> g_UID g <> uid.
Proof.
  intros Hd Hrev Hsteps Hget Heq. destruct (RevokeGrant_Ok _ _ _ _ _ _ Hrev) as (g1 & Hg1 & Hr1).
  destruct (ev_grants _ _ (db_steps_evolve _ _ Hsteps) _ _ Hg1) as (g2 & Hg2 & Hev).
  assert (wf d2) as Hwf.
  { eapply wf_steps; [done|]. assert (d1 = (RevokeGrant sql d uid by_ now).1) as -> by by rewrite Hrev.
    eapply wf_step; [apply s_revoke_grant|]. eapply wf_steps; [done|apply wf_empty]. }
  destruct (GetActiveGrant_Ok _ _ _ _ _ _ Hget) as (k & g0 & Hk & (_ & _ & Hact) & -> & _).
  pose proof (wf_keys _ Hwf _ _ Hk) as Ek. cbn in Heq. assert (k = uid) as -> by congruence.
  unfold active_at in Hact. rewrite Hg2 in Hk. simplify_eq.
  rewrite (ge_revoked _ _ Hev) in Hact by congruence. by rewrite Hr1 in Hact.
Qed.

Lemma revoked_never_active_witness :
  exists g, GetActiveGrant all_ok (CreateGrant all_ok sample_db3 (sample_grant []) 31%N 50).1 1%N 2%N 200 = Ok g
    /\ g_UID g <> 30%N.
Proof.
  destruct (GetActiveGrant all_ok (CreateGrant all_ok sample_db3 (sample_grant []) 31%N 50).1 1%N 2%N 200)
    as [g|e|] eqn:Eg; [|vm_compute in Eg; discriminate..].
  exists g. split; [reflexivity|].
  apply (revoked_never_active sample_db2 all_ok 30%N 1%N 9 sample_db3
    (CreateGrant all_ok sample_db3 (sample_grant []) 31%N 50).1 all_ok 1%N 2%N 200 g);
    [apply sample_reach2|reflexivity|apply rtc_once, s_create_grant|exact Eg].
Defined.

(** C32. The active-grant lookup is exact when the statements run: it returns a
    grant of that user on that database that is started, unexpired and
    unrevoked, with its usage recomputed, and the newest of those; it answers
    [ErrNoActiveGrant] exactly when there is none. *)
Theorem active_grant_exact sql d userID databaseID now :
  (forall i, sql i = true) ->
  match GetActiveGrant sql d userID databaseID now with
  | Ok g => exists k g0, access_grants d !! k = Some g0 /\ selects userID databaseID now g0
      /\ g = with_counters g0 (grant_query_count d g0) (grant_bytes d g0)
      /\ forall k' g', access_grants d !! k' = Some g' -> selects userID databaseID now g' ->
           g_CreatedAt g' <= g_CreatedAt g0
  | Err e => e = ErrNoActiveGrant
      /\ forall k g, access_grants d !! k = Some g -> ~ selects userID databaseID now g
  | Panic => False
  end.
Proof.
  intros Hsql. destruct (GetActiveGrant sql d userID databaseID now) as [g|e|] eqn:E.
  - by apply GetActiveGrant_Ok with (sql := sql).
  - revert E. unfold GetActiveGrant, populateGrantCounters. rewrite !Hsql.
    destruct (newest _ _) as [g0|] eqn:En; [done|]. intros [= <-]. split; [done|].
    intros k g Hk Hs. pose proof (newest_spec (List.filter (fun g => N.eqb (g_UserID g) userID
      && N.eqb (g_DatabaseID g) databaseID && active_at now g) (rows (access_grants d))) None) as Hn.
    rewrite En in Hn. destruct Hn as [_ Hn].
    apply (in_nil (a := g)). rewrite <- Hn. apply in_selected. eauto.
  - revert E. unfold GetActiveGrant, populateGrantCounters. rewrite !Hsql. by destruct (newest _ _).
Qed.

Lemma active_grant_exact_witness :
  GetActiveGrant all_ok sample_db3 5%N 6%N 10 = Err ErrNoActiveGrant
  /\ forall k g, access_grants sample_db3 !! k = Some g -> ~ selects 5%N 6%N 10 g.
Proof.
  pose proof (active_grant_exact all_ok sample_db3 5%N 6%N 10 (fun _ => eq_refl)) as H.
  assert (GetActiveGrant all_ok sample_db3 5%N 6%N 10 = Err ErrNoActiveGrant) as E by reflexivity.
  rewrite E in H. exact (conj E (proj2 H)).
Defined.
