(* ===== verification/QueryStore.v ===== *)
(** * The query log and its stored result rows
    ([internal/store/queries.go])

    The [queries] table is the one of [GrantStore.DB] (quota counters are
    computed from it); captured rows live in [query_rows], a list in insertion
    order.  [ORDER BY row_number] is a stable sort: rows with the same number,
    which the proxies never write for one query, would come in insertion order.
    The page cursor is a JSON object in base64: a codec with its round trip as
    its law. *)

From Stdlib Require Import ZArith Lia List Bool String Ascii.
From stdpp Require Import base list gmap strings sorting.
From S2P Require Import Prelude GoStrings Models GrantStore.

Open Scope string_scope.
Open Scope Z_scope.

Definition MaxQueryRowsLimit : Z := 1000.
Definition MaxQueryRowsDataSize : Z := 1024 * 1024.
Definition DefaultQueryRowsLimit : Z := 100.

Record QueryRowModel := {
  rm_UID : uuid;
  rm_QueryID : uuid;
  rm_RowNumber : Z;
  rm_RowData : string;
  rm_RowSizeBytes : Z
}.

Record QueryRowsResult := {
  res_Rows : list QueryRow;
  res_NextCursor : string;
  res_HasMore : bool;
  res_TotalRows : Z
}.

Inductive query_error := ErrQueryDB | ErrQueryNotFound | ErrInvalidCursor.

(** [QueryRowsCursor] to and from its text: [json.Marshal] then
    [base64.StdEncoding] one way, the reverse the other. *)
Class CursorCodec := {
  encode_cursor : Z -> string;
  decode_cursor : string -> option Z;
  decode_encode : forall offset, decode_cursor (encode_cursor offset) = Some offset;
  encode_nonempty : forall offset, encode_cursor offset <> ""
}.

Record QDB := { qd_db : DB; query_rows : list QueryRowModel }.

Definition set_queries (d : DB) (m : gmap uuid Query) : DB :=
  {| access_grants := access_grants d; grant_definitions := grant_definitions d;
     grant_requests := grant_requests d; connections := connections d; queries := m |}.

Definition CreateQuery (sql : nat -> bool) (d : QDB) (query : Query) (uid : uuid) (now : time) :
    QDB * res query_error Query :=
  let result :=
    {| q_UID := uid; q_ConnectionID := q_ConnectionID query; q_SQLText := q_SQLText query;
       q_Parameters := q_Parameters query;
       q_ExecutedAt := if IsZero (q_ExecutedAt query) then now else q_ExecutedAt query;
       q_DurationMs := q_DurationMs query; q_RowsAffected := q_RowsAffected query;
       q_Error := q_Error query; q_CopyFormat := None; q_CopyDirection := None |} in
  if negb (sql 0%nat) || bool_decide (is_Some (queries (qd_db d) !! uid))
     || negb (bool_decide (is_Some (connections (qd_db d) !! q_ConnectionID query)))
  then (d, Err ErrQueryDB)
  else ({| qd_db := set_queries (qd_db d) (<[uid := result]> (queries (qd_db d))); query_rows := query_rows d |},
        Ok result).

(** One multi-row INSERT; [uids] are the generated keys, in order. *)
Definition StoreQueryRows (sql : nat -> bool) (d : QDB) (queryUID : uuid) (rows : list QueryRow)
    (uids : nat -> uuid) : QDB * res query_error unit :=
  if (zlen rows =? 0)%Z then (d, Ok tt)
  else
    let resultRows :=
      imap (fun i row => {| rm_UID := uids i; rm_QueryID := queryUID; rm_RowNumber := qr_RowNumber row;
                            rm_RowData := qr_RowData row; rm_RowSizeBytes := qr_RowSizeBytes row |}) rows in
    if negb (sql 0%nat) || negb (bool_decide (is_Some (queries (qd_db d) !! queryUID)))
    then (d, Err ErrQueryDB)
    else ({| qd_db := qd_db d; query_rows := (query_rows d ++ resultRows)%list |}, Ok tt).

(** Only the columns given are SET.  (With none given there is no statement to
    send; its only caller passes a duration.) *)
Definition completed (q : Query) (durationMs rowsAffected : option Z) (queryError : option string) : Query :=
  {| q_UID := q_UID q; q_ConnectionID := q_ConnectionID q; q_SQLText := q_SQLText q;
     q_Parameters := q_Parameters q; q_ExecutedAt := q_ExecutedAt q;
     q_DurationMs := match durationMs with Some x => Some x | None => q_DurationMs q end;
     q_RowsAffected := match rowsAffected with Some x => Some x | None => q_RowsAffected q end;
     q_Error := match queryError with Some x => Some x | None => q_Error q end;
     q_CopyFormat := q_CopyFormat q; q_CopyDirection := q_CopyDirection q |}.

Definition UpdateQueryCompletion (sql : nat -> bool) (d : QDB) (uid : uuid)
    (durationMs rowsAffected : option Z) (queryError : option string) : QDB * res query_error unit :=
  if sql 0%nat
  then ({| qd_db := set_queries (qd_db d)
             (alter (fun q => completed q durationMs rowsAffected queryError) uid (queries (qd_db d)));
           query_rows := query_rows d |}, Ok tt)
  else (d, Err ErrQueryDB).

Record QueryFilter := {
  qf_ConnectionID : option uuid;
  qf_UserID : option uuid;
  qf_DatabaseID : option uuid;
  qf_StartTime : option time;
  qf_EndTime : option time;
  qf_BeforeUID : option uuid;
  qf_Limit : Z;
  qf_Offset : Z
}.

(** A row of the join of [queries] with [connections]: the query and the two
    scan-only columns. *)
Abbreviation joined := (Query * (uuid * uuid))%type.

Definition join_connection (d : DB) (q : Query) : option joined :=
  match connections d !! q_ConnectionID q with
  | Some c => Some (q, (c_UserID c, c_DatabaseID c))
  | None => None
  end.

Definition opt_cond {A} (f : option A) (p : A -> bool) : bool :=
  match f with None => true | Some x => p x end.

Definition query_selected (f : QueryFilter) (j : joined) : bool :=
  let '(q, (u, b)) := j in
  opt_cond (qf_ConnectionID f) (fun x => N.eqb (q_ConnectionID q) x)
  && opt_cond (qf_UserID f) (fun x => N.eqb u x)
  && opt_cond (qf_DatabaseID f) (fun x => N.eqb b x)
  && opt_cond (qf_StartTime f) (fun t => t <=? q_ExecutedAt q)
  && opt_cond (qf_EndTime f) (fun t => q_ExecutedAt q <=? t)
  && opt_cond (qf_BeforeUID f) (fun x => N.ltb (q_UID q) x).

(** [ORDER BY q.uid DESC]; the listing leaves the COPY columns unset. *)
Definition listed (j : joined) : joined :=
  let '(q, k) := j in
  ({| q_UID := q_UID q; q_ConnectionID := q_ConnectionID q; q_SQLText := q_SQLText q;
      q_Parameters := q_Parameters q; q_ExecutedAt := q_ExecutedAt q; q_DurationMs := q_DurationMs q;
      q_RowsAffected := q_RowsAffected q; q_Error := q_Error q;
      q_CopyFormat := None; q_CopyDirection := None |}, k).

Definition ListQueries (sql : nat -> bool) (d : QDB) (f : QueryFilter) : res query_error (list joined) :=
  guard! sql 0%nat else ErrQueryDB in
  Ok (map listed (paginate (qf_Limit f) (qf_Offset f)
    (order_desc (fun j => Z.of_N (q_UID j.1))
      (List.filter (query_selected f) (omap (join_connection (qd_db d)) (rows (queries (qd_db d)))))))).

Definition GetQuery (sql : nat -> bool) (d : QDB) (uid : uuid) : res query_error Query :=
  guard! sql 0%nat else ErrQueryDB in
  match queries (qd_db d) !! uid with None => Err ErrQueryNotFound | Some q => Ok q end.

(** [WHERE query_id = ? ORDER BY row_number ASC] *)
Fixpoint insert_row (x : QueryRowModel) (l : list QueryRowModel) : list QueryRowModel :=
  match l with
  | [] => [x]
  | y :: r => if rm_RowNumber x <=? rm_RowNumber y then x :: l else y :: insert_row x r
  end.

Definition rows_of (d : QDB) (queryUID : uuid) : list QueryRowModel :=
  foldr insert_row [] (List.filter (fun r => N.eqb (rm_QueryID r) queryUID) (query_rows d)).

Definition to_row (r : QueryRowModel) : QueryRow :=
  {| qr_RowNumber := rm_RowNumber r; qr_RowData := rm_RowData r; qr_RowSizeBytes := rm_RowSizeBytes r |}.

Definition GetQueryWithRows (sql : nat -> bool) (d : QDB) (uid : uuid) : res query_error (Query * list QueryRow) :=
  guard! sql 0%nat else ErrQueryDB in
  match queries (qd_db d) !! uid with
  | None => Err ErrQueryNotFound
  | Some q =>
      guard! sql 1%nat else ErrQueryDB in
      Ok (q, map to_row (rows_of d uid))
  end.

Definition clamp_limit (limit : Z) : Z :=
  let limit := if limit <=? 0 then DefaultQueryRowsLimit else limit in
  if MaxQueryRowsLimit <? limit then MaxQueryRowsLimit else limit.

(** The loop over the fetched rows: [n] is both the index and the number of
    rows kept so far, [size] the bytes kept. *)
Fixpoint page_loop (limit n size : Z) (rs : list QueryRowModel) : list QueryRow * bool :=
  match rs with
  | [] => ([], false)
  | row :: rs =>
      if limit <=? n then ([], true)
      else
        let rowSize := slen (rm_RowData row) in
        if (MaxQueryRowsDataSize <? size + rowSize) && (0 <? n) then ([], true)
        else let '(kept, more) := page_loop limit (n + 1) (size + rowSize) rs in
             (to_row row :: kept, more)
  end.

Section Pages.
Context {CC : CursorCodec}.

Definition GetQueryRows (sql : nat -> bool) (d : QDB) (queryUID : uuid) (cursor : string) (limit : Z) :
    res query_error QueryRowsResult :=
  let limit := clamp_limit limit in
  let! offset :=
    (if String.eqb cursor "" then Ok 0
     else match decode_cursor cursor with None => Err ErrInvalidCursor | Some o => Ok o end) in
  guard! sql 0%nat else ErrQueryDB in
  guard! bool_decide (is_Some (queries (qd_db d) !! queryUID)) else ErrQueryNotFound in
  guard! sql 1%nat else ErrQueryDB in
  let totalRows := zlen (rows_of d queryUID) in
  guard! sql 2%nat else ErrQueryDB in
  let resultRows := paginate (limit + 1) offset (rows_of d queryUID) in
  let '(kept, hasMore) := page_loop limit 0 0 resultRows in
  Ok {| res_Rows := kept;
        res_NextCursor := if hasMore then encode_cursor (offset + zlen kept) else "";
        res_HasMore := hasMore;
        res_TotalRows := totalRows |}.

(** A client that follows the cursors until there is no more. *)
Fixpoint fetch_all (fuel : nat) (sql : nat -> bool) (d : QDB) (queryUID : uuid) (cursor : string) (limit : Z) :
    option (list QueryRow) :=
  match fuel with
  | O => None
  | S fuel =>
      match GetQueryRows sql d queryUID cursor limit with
      | Ok page =>
          if res_HasMore page
          then match fetch_all fuel sql d queryUID (res_NextCursor page) limit with
               | Some rest => Some (res_Rows page ++ rest)%list
               | None => None
               end
          else Some (res_Rows page)
      | _ => None
      end
  end.
End Pages.

(** ** Lemmas on one page *)

Definition data_size (rs : list QueryRow) : Z := foldr (fun r n => slen (qr_RowData r) + n) 0 rs.

Lemma clamp_limit_bound limit : 1 <= clamp_limit limit <= MaxQueryRowsLimit.
Proof. unfold clamp_limit, DefaultQueryRowsLimit, MaxQueryRowsLimit. repeat case_match; blia. Qed.

Lemma slen_nonneg s : 0 <= slen s.
Proof. unfold slen. lia. Qed.

Lemma data_size_nonneg rs : 0 <= data_size rs.
Proof. induction rs as [|r rs IH]; cbn [data_size foldr]; [lia|]. pose proof (slen_nonneg (qr_RowData r)). unfold data_size in IH. lia. Qed.

(** The kept rows are a prefix, cut only when something is left. *)
Lemma page_loop_prefix limit rs : forall n size kept more,
  page_loop limit n size rs = (kept, more) ->
  exists rest, map to_row rs = (kept ++ rest)%list /\ (more = true <-> rest <> []).
Proof.
  induction rs as [|r rs IH]; intros n size kept more; cbn [page_loop].
  - intros [= <- <-]. exists []. done.
  - destruct (limit <=? n); [intros [= <- <-]; by exists (map to_row (r :: rs))|].
    destruct (_ && _); [intros [= <- <-]; by exists (map to_row (r :: rs))|].
    destruct (page_loop _ _ _ rs) as [kept' more'] eqn:E. intros [= <- <-].
    destruct (IH _ _ _ _ E) as (rest & Hrest & Hmore). exists rest. cbn. by rewrite Hrest.
Qed.

Lemma page_loop_bounds limit rs : forall n size kept more,
  0 <= n -> page_loop limit n size rs = (kept, more) ->
  (n <= limit -> n + zlen kept <= limit)
  /\ (0 < n -> size <= MaxQueryRowsDataSize -> size + data_size kept <= MaxQueryRowsDataSize)
  /\ (0 < limit -> n = 0 -> rs <> [] -> kept <> []).
Proof.
  induction rs as [|r rs IH]; intros n size kept more Hn; cbn [page_loop].
  - intros [= <- <-]. unfold zlen. cbn. split_and!; [lia|lia|done].
  - destruct (limit <=? n) eqn:El; [intros [= <- <-]; unfold zlen; cbn; bools; split_and!; lia|].
    destruct (_ && _) eqn:Es; [intros [= <- <-]; unfold zlen; cbn; bools; split_and!; lia|].
    destruct (page_loop _ _ _ rs) as [kept' more'] eqn:E. intros [= <- <-].
    destruct (IH (n + 1) _ _ _ ltac:(lia) E) as (H1 & H2 & _). unfold zlen in *. cbn [length data_size foldr].
    fold (data_size kept'). cbn [to_row qr_RowData].
    apply andb_false_iff in Es. bools. split_and!; [lia| |done].
    intros Hn0 Hsz. destruct Es as [Es|Es]; bools; lia.
Qed.

Lemma page_size_bound limit rs kept more :
  page_loop limit 0 0 rs = (kept, more) ->
  data_size kept <= MaxQueryRowsDataSize \/ zlen kept = 1.
Proof.
  destruct rs as [|r rs]; cbn [page_loop]; [intros [= <- <-]; left; done|].
  destruct (limit <=? 0); [intros [= <- <-]; left; done|].
  rewrite andb_false_r. destruct (page_loop _ _ _ rs) as [kept' more'] eqn:E. intros [= <- <-].
  destruct (decide (slen (rm_RowData r) <= MaxQueryRowsDataSize)) as [Hsz|Hsz].
  - left. destruct (page_loop_bounds _ _ (0 + 1) _ _ _ ltac:(lia) E) as (_ & H2 & _).
    cbn [data_size foldr to_row qr_RowData]. fold (data_size kept'). apply H2; lia.
  - right. destruct kept' as [|x kept']; [done|]. exfalso.
    destruct rs as [|r' rs]; cbn [page_loop] in E; [by simplify_eq|].
    destruct (limit <=? 0 + 1); [by simplify_eq|]. revert E.
    replace (MaxQueryRowsDataSize <? _) with true by (pose proof (slen_nonneg (rm_RowData r')); symmetry; lia).
    cbn. done.
Qed.

Lemma paginate_drop {A} limit offset (l : list A) :
  0 <= offset -> 0 < limit -> paginate limit offset l = take (Z.to_nat limit) (drop (Z.to_nat offset) l).
Proof.
  intros Ho Hl. unfold paginate. rewrite (proj2 (Z.ltb_lt 0 limit)) by lia.
  destruct (0 <? offset) eqn:E; [done|]. bools. by replace offset with 0 by lia.
Qed.

Section PageLemmas.
Context {CC : CursorCodec}.
Variables (sql : nat -> bool) (d : QDB) (queryUID : uuid).
Hypothesis Hsql : forall i, sql i = true.
Hypothesis Hq : is_Some (queries (qd_db d) !! queryUID).

Let all := map to_row (rows_of d queryUID).

(** The page at an offset: the rows there, and a cursor to what is left. *)
Lemma page_at cursor offset limit :
  (if String.eqb cursor "" then Some 0 else decode_cursor cursor) = Some offset -> 0 <= offset ->
  exists page rest, GetQueryRows sql d queryUID cursor limit = Ok page
    /\ drop (Z.to_nat offset) all = (res_Rows page ++ rest)%list
    /\ (res_HasMore page = true <-> rest <> [])
    /\ (res_HasMore page = true -> res_Rows page <> []
         /\ res_NextCursor page = encode_cursor (offset + zlen (res_Rows page)))
    /\ (res_HasMore page = false -> res_NextCursor page = "")
    /\ zlen (res_Rows page) <= clamp_limit limit
    /\ (data_size (res_Rows page) <= MaxQueryRowsDataSize \/ zlen (res_Rows page) = 1)
    /\ res_TotalRows page = zlen all.
Proof.
  intros Hc Ho. pose proof (clamp_limit_bound limit) as Hl. unfold GetQueryRows.
  replace (if String.eqb cursor "" then Ok 0 else _) with (Ok (E := query_error) offset)
    by (destruct (String.eqb cursor ""); [congruence|]; by rewrite Hc).
  cbn [rbind]. rewrite !Hsql, bool_decide_eq_true_2 by done. rewrite paginate_drop by lia.
  set (rs := take _ _). destruct (page_loop (clamp_limit limit) 0 0 rs) as [kept more] eqn:E.
  destruct (page_loop_prefix _ _ _ _ _ _ E) as (rest & Hrest & Hmore).
  destruct (page_loop_bounds _ _ 0 _ _ _ ltac:(lia) E) as (H1 & _ & H3).
  eexists _, (rest ++ drop (Z.to_nat (clamp_limit limit + 1)) (drop (Z.to_nat offset) all))%list.
  split; [reflexivity|]. cbn [res_Rows res_HasMore res_NextCursor res_TotalRows].
  assert (kept ++ rest = take (Z.to_nat (clamp_limit limit + 1)) (drop (Z.to_nat offset) all))%list as Hsplit.
  { rewrite <- Hrest. unfold rs, all. by rewrite skipn_map, firstn_map. }
  split_and!.
  - rewrite app_assoc, Hsplit. by rewrite take_drop.
  - rewrite Hmore. split; [by destruct rest|]. intros Hne Hnil. subst rest. apply Hne. cbn.
    apply drop_ge. rewrite app_nil_r in Hsplit. apply (f_equal length) in Hsplit.
    rewrite length_take in Hsplit. unfold zlen in *. lia.
  - intros ->. split; [|done]. apply H3; [lia|lia|]. intros Hnil. rewrite Hnil in Hrest.
    destruct kept; [|done]. cbn in Hrest. by apply Hmore.
  - by intros ->.
  - specialize (H1 ltac:(lia)). lia.
  - exact (page_size_bound _ _ _ _ E).
  - unfold all, zlen. by rewrite length_map.
Qed.

Lemma fetch_from limit fuel : forall cursor offset,
  (if String.eqb cursor "" then Some 0 else decode_cursor cursor) = Some offset -> 0 <= offset ->
  (length (drop (Z.to_nat offset) all) < fuel)%nat ->
  fetch_all fuel sql d queryUID cursor limit = Some (drop (Z.to_nat offset) all).
Proof.
  induction fuel as [|fuel IH]; intros cursor offset Hc Ho Hf; [lia|].
  destruct (page_at cursor offset limit Hc Ho) as (page & rest & E & Hd & Hm & Hnext & _).
  cbn [fetch_all]. rewrite E. destruct (res_HasMore page).
  - destruct (Hnext eq_refl) as [Hne ->].
    assert (drop (Z.to_nat (offset + zlen (res_Rows page))) all = rest) as Hdrop.
    { rewrite <- (drop_app_length (res_Rows page) rest), <- Hd, drop_drop. f_equal. unfold zlen. lia. }
    rewrite (IH _ (offset + zlen (res_Rows page))); rewrite ?Hdrop; [by rewrite Hd| |unfold zlen; lia|].
    + destruct (String.eqb_spec (encode_cursor (offset + zlen (res_Rows page))) "") as [E0|_];
        [by apply encode_nonempty in E0|apply decode_encode].
    + rewrite Hd, length_app in Hf. destruct (res_Rows page); [done|]. cbn in Hf. lia.
  - rewrite Hd. destruct rest; [by rewrite app_nil_r|]. exfalso. by apply diff_false_true, Hm.
Qed.
End PageLemmas.

(** ** Lemmas on what is stored *)

(** Rows already in increasing order are left as they are. *)
Lemma sorted_rows_fixed l :
  StronglySorted (fun a b => rm_RowNumber a <= rm_RowNumber b) l -> foldr insert_row [] l = l.
Proof.
  induction 1 as [|x l Hl IH Hx]; cbn; [done|]. rewrite IH. destruct l as [|y l]; cbn; [done|].
  apply Forall_inv in Hx. by rewrite (proj2 (Z.leb_le _ _) Hx).
Qed.

Lemma rows_insert_new {V} (m : gmap uuid V) k v :
  m !! k = None -> rows (<[k := v]> m) ≡ₚ v :: rows m.
Proof. intros Hk. unfold rows. rewrite map_to_list_insert by done. done. Qed.

Lemma filter_length_perm {A} (p : A -> bool) (l1 l2 : list A) :
  l1 ≡ₚ l2 -> length (List.filter p l1) = length (List.filter p l2).
Proof. induction 1 as [|x l l' _ IH|x y l|]; cbn; repeat case_match; cbn; lia. Qed.

(** The rows of one [StoreQueryRows] call. *)
Definition stored (queryUID : uuid) (uids : nat -> uuid) (rows : list QueryRow) : list QueryRowModel :=
  imap (fun i row => {| rm_UID := uids i; rm_QueryID := queryUID; rm_RowNumber := qr_RowNumber row;
                        rm_RowData := qr_RowData row; rm_RowSizeBytes := qr_RowSizeBytes row |}) rows.

Lemma stored_cons queryUID uids row rows :
  exists u, stored queryUID uids (row :: rows)
    = {| rm_UID := u; rm_QueryID := queryUID; rm_RowNumber := qr_RowNumber row;
         rm_RowData := qr_RowData row; rm_RowSizeBytes := qr_RowSizeBytes row |}
      :: stored queryUID (fun i => uids (S i)) rows.
Proof. eexists. unfold stored. by rewrite imap_cons. Qed.

Lemma stored_rows queryUID rows : forall uids, map to_row (stored queryUID uids rows) = rows.
Proof.
  induction rows as [|[n dt sz] rows IH]; intros uids; [done|].
  destruct (stored_cons queryUID uids {| qr_RowNumber := n; qr_RowData := dt; qr_RowSizeBytes := sz |} rows)
    as [u ->]. cbn. by rewrite IH.
Qed.

Lemma stored_filter queryUID other rows : forall uids,
  List.filter (fun r => N.eqb (rm_QueryID r) other) (stored queryUID uids rows)
  = if N.eqb queryUID other then stored queryUID uids rows else [].
Proof.
  induction rows as [|r rows IH]; intros uids; [by destruct (N.eqb _ _)|].
  destruct (stored_cons queryUID uids r rows) as [u ->]. cbn. rewrite IH. by destruct (N.eqb _ _).
Qed.

Lemma stored_sorted queryUID rows : forall uids,
  StronglySorted (fun a b => qr_RowNumber a < qr_RowNumber b) rows ->
  StronglySorted (fun a b => rm_RowNumber a <= rm_RowNumber b) (stored queryUID uids rows).
Proof.
  induction rows as [|r rows IH]; intros uids Hs; [constructor|].
  destruct (stored_cons queryUID uids r rows) as [u ->]. apply StronglySorted_inv in Hs as [Hs Hr].
  constructor; [by apply IH|]. apply Forall_forall. intros x Hx. cbn.
  assert (to_row x ∈ rows) as Hin by (rewrite <- (stored_rows queryUID rows (fun i => uids (S i))); by apply list_elem_of_fmap_2).
  rewrite Forall_forall in Hr. specialize (Hr _ Hin). cbn in Hr. lia.
Qed.

Lemma insert_row_nonempty x l : insert_row x l <> [].
Proof. destruct l; cbn; [done|]. by case_match. Qed.

(** ** Properties *)

Section Properties.
Context {CC : CursorCodec}.

(** C37. Following the cursors visits every stored row of the query exactly
    once and in order, whatever page size is asked for: after at most one more
    request than there are rows, the client has exactly what
    [GetQueryWithRows] returns. *)
Theorem pages_cover_all (sql : nat -> bool) d queryUID limit q fuel :
  (forall i, sql i = true) -> queries (qd_db d) !! queryUID = Some q ->
  (length (rows_of d queryUID) < fuel)%nat ->
  exists all, GetQueryWithRows sql d queryUID = Ok (q, all)
    /\ fetch_all fuel sql d queryUID "" limit = Some all.
Proof.
  intros Hsql Hq Hf. exists (map to_row (rows_of d queryUID)). unfold GetQueryWithRows. rewrite !Hsql, Hq.
  split; [done|]. rewrite (fetch_from sql d queryUID Hsql (ex_intro _ q Hq) limit fuel "" 0); [done|done|lia|].
  cbn [Z.to_nat]. by rewrite drop_0, length_map.
Qed.

(** A page keeps its bounds: never more rows than asked for nor more than
    1000, at most 1 MiB of row data unless it is a single row, never empty when
    more is announced (so a client always advances), and the total it reports
    is the number of stored rows. *)
Theorem page_bounds (sql : nat -> bool) d queryUID limit cursor offset q :
  (forall i, sql i = true) -> queries (qd_db d) !! queryUID = Some q ->
  (if String.eqb cursor "" then Some 0 else decode_cursor cursor) = Some offset -> 0 <= offset ->
  exists page, GetQueryRows sql d queryUID cursor limit = Ok page
    /\ zlen (res_Rows page) <= MaxQueryRowsLimit
    /\ (0 < limit -> zlen (res_Rows page) <= limit)
    /\ (data_size (res_Rows page) <= MaxQueryRowsDataSize \/ zlen (res_Rows page) = 1)
    /\ (res_HasMore page = true -> res_Rows page <> [])
    /\ res_TotalRows page = zlen (rows_of d queryUID).
Proof.
  intros Hsql Hq Hc Ho.
  destruct (page_at sql d queryUID Hsql (ex_intro _ q Hq) cursor offset limit Hc Ho)
    as (page & rest & E & _ & _ & Hnext & _ & Hl & Hsz & Ht).
  pose proof (clamp_limit_bound limit) as Hb. exists page. split_and!; [done|lia| |done| |].
  - revert Hl. unfold clamp_limit, DefaultQueryRowsLimit, MaxQueryRowsLimit. repeat case_match; blia.
  - intros H. by destruct (Hnext H).
  - rewrite Ht. unfold zlen. by rewrite length_map.
Qed.
End Properties.

(** What is captured is what is shown: rows stored for a query that had
    none, numbered in increasing order, come back from [GetQueryWithRows]
    unchanged and in order, and rows of other queries are untouched. *)
Theorem stored_rows_roundtrip (sql : nat -> bool) d queryUID q rows uids d' other :
  (forall i, sql i = true) -> queries (qd_db d) !! queryUID = Some q ->
  rows_of d queryUID = [] -> StronglySorted (fun a b => qr_RowNumber a < qr_RowNumber b) rows ->
  other <> queryUID ->
  StoreQueryRows sql d queryUID rows uids = (d', Ok tt) ->
  GetQueryWithRows sql d' queryUID = Ok (q, rows)
  /\ GetQueryWithRows sql d' other = GetQueryWithRows sql d other.
Proof.
  intros Hsql Hq Hnone Hsort Hother. unfold StoreQueryRows. destruct (zlen rows =? 0) eqn:Ez.
  { apply Z.eqb_eq in Ez. destruct rows; [|unfold zlen in Ez; cbn in Ez; lia]. intros [= <-].
    unfold GetQueryWithRows. rewrite !Hsql, Hq, Hnone. done. }
  rewrite !Hsql, Hq. cbn [negb orb]. rewrite bool_decide_eq_true_2 by done. cbn [negb]. intros [= <-].
  unfold GetQueryWithRows. cbn [qd_db query_rows]. rewrite !Hsql, Hq. unfold rows_of in *. cbn [query_rows].
  fold (stored queryUID uids rows). rewrite !List.filter_app, !stored_filter, N.eqb_refl.
  rewrite (proj2 (N.eqb_neq queryUID other)) by done.
  assert (List.filter (fun r => N.eqb (rm_QueryID r) queryUID) (query_rows d) = []) as ->.
  { destruct (List.filter _ _); [done|]. cbn in Hnone. by apply insert_row_nonempty in Hnone. }
  rewrite app_nil_r, app_nil_l, sorted_rows_fixed by by apply stored_sorted.
  split; [|done]. by rewrite stored_rows.
Qed.

(** Quota accounting sees every logged query once: logging a query on a
    connection of the grant's user and database, executed inside the grant's
    window, raises the grant's recomputed query count by exactly one; a query of
    another user or database, or outside the window, leaves it unchanged. *)
Theorem logged_query_counted (sql : nat -> bool) d query uid now d' r g c :
  CreateQuery sql d query uid now = (d', Ok r) ->
  connections (qd_db d) !! q_ConnectionID query = Some c ->
  grant_query_count (qd_db d') g
  = grant_query_count (qd_db d) g
    + (if of_grant g c && in_grant_window g (q_ExecutedAt r) then 1 else 0).
Proof.
  unfold CreateQuery. destruct (_ || _) eqn:E; [done|]. bools.
  rename select (bool_decide (is_Some (queries _ !! _)) = false) into Hnew.
  apply bool_decide_eq_false, eq_None_not_Some in Hnew. intros [= <- <-] Hc.
  unfold grant_query_count, zlen. cbn [qd_db set_queries connections queries].
  rewrite (filter_length_perm _ _ _ (rows_insert_new _ _ _ Hnew)). cbn [List.filter q_ConnectionID].
  rewrite Hc. cbn [q_ExecutedAt]. destruct (of_grant g c && _); cbn [length]; lia.
Qed.

(** Whatever the caller recorded about a COPY is not written. *)
Lemma copy_details_lost (sql : nat -> bool) d query uid now d' r :
  CreateQuery sql d query uid now = (d', Ok r) ->
  q_CopyFormat r = None /\ q_CopyDirection r = None /\ queries (qd_db d') !! uid = Some r.
Proof.
  unfold CreateQuery. destruct (_ || _); [done|]. intros [= <- <-]. cbn. by rewrite lookup_insert_eq.
Qed.

(** ** A concrete codec and table for the witnesses *)
Module Toy.
Fixpoint enc_pos (p : positive) : string :=
  match p with xI p => "1" ++ enc_pos p | xO p => "0" ++ enc_pos p | xH => "." end.

Fixpoint dec_pos (s : string) : option positive :=
  match s with
  | String "1" s => match dec_pos s with Some p => Some (xI p) | None => None end
  | String "0" s => match dec_pos s with Some p => Some (xO p) | None => None end
  | String "." EmptyString => Some xH
  | _ => None
  end.

Definition enc (z : Z) : string :=
  match z with Z0 => "z" | Zpos p => "+" ++ enc_pos p | Zneg p => "-" ++ enc_pos p end.

Definition dec (s : string) : option Z :=
  match s with
  | String "z" EmptyString => Some Z0
  | String "+" s => match dec_pos s with Some p => Some (Zpos p) | None => None end
  | String "-" s => match dec_pos s with Some p => Some (Zneg p) | None => None end
  | _ => None
  end.

Lemma dec_enc_pos p : dec_pos (enc_pos p) = Some p.
Proof. induction p as [p IH|p IH|]; cbn; by rewrite ?IH. Qed.

Lemma dec_enc z : dec (enc z) = Some z.
Proof. destruct z; cbn; by rewrite ?dec_enc_pos. Qed.

Lemma enc_nonempty z : enc z <> "".
Proof. by destruct z. Qed.

#[local] Instance codec : CursorCodec :=
  {| encode_cursor := enc; decode_cursor := dec; decode_encode := dec_enc; encode_nonempty := enc_nonempty |}.

Definition conn : DB := (CreateConnection all_ok sample_db2 5%N 6%N "10.0.0.1" 40%N 5 5).1.
Definition query : Query :=
  {| q_UID := 0%N; q_ConnectionID := 40%N; q_SQLText := "SELECT 1"; q_Parameters := None;
     q_ExecutedAt := 7; q_DurationMs := None; q_RowsAffected := None; q_Error := None;
     q_CopyFormat := None; q_CopyDirection := None |}.
Definition qdb0 : QDB := (CreateQuery all_ok {| qd_db := conn; query_rows := [] |} query 50%N 8).1.
Definition row (n : Z) : QueryRow := {| qr_RowNumber := n; qr_RowData := "[1]"; qr_RowSizeBytes := 3 |}.
Definition qdb1 : QDB := (StoreQueryRows all_ok qdb0 50%N [row 1; row 2; row 3] (fun i => N.of_nat i)).1.

Lemma logged : exists q, queries (qd_db qdb1) !! 50%N = Some q /\ queries (qd_db qdb0) !! 50%N = Some q.
Proof. eexists. split; reflexivity. Qed.

Lemma pages_cover_all_witness :
  fetch_all 4 all_ok qdb1 50%N "" 2 = Some [row 1; row 2; row 3].
Proof.
  destruct logged as (q & Hq & _).
  destruct (pages_cover_all (CC := codec) all_ok qdb1 50%N 2 q 4 (fun _ => eq_refl) Hq) as (all & Hall & Hf).
  - change (length (rows_of qdb1 50%N)) with 3%nat. lia.
  - rewrite Hf. vm_compute in Hall. injection Hall as _ <-. reflexivity.
Defined.

Lemma page_bounds_witness :
  exists page, GetQueryRows all_ok qdb1 50%N (enc 1) 1 = Ok page /\ res_TotalRows page = 3.
Proof.
  destruct logged as (q & Hq & _).
  destruct (page_bounds (CC := codec) all_ok qdb1 50%N 1 (enc 1) 1 q (fun _ => eq_refl) Hq eq_refl ltac:(lia))
    as (page & E & _ & _ & _ & _ & Ht).
  exists page. split; [exact E|exact Ht].
Defined.

Lemma stored_rows_roundtrip_witness :
  exists q, GetQueryWithRows all_ok qdb1 50%N = Ok (q, [row 1; row 2; row 3]).
Proof.
  destruct logged as (q & _ & Hq). exists q.
  refine (proj1 (stored_rows_roundtrip all_ok qdb0 50%N q [row 1; row 2; row 3] (fun i => N.of_nat i) qdb1 51%N
    (fun _ => eq_refl) Hq eq_refl _ _ eq_refl)); [|discriminate].
  repeat constructor.
Defined.

Lemma logged_query_counted_witness :
  exists g, access_grants conn !! 30%N = Some g /\ grant_query_count (qd_db qdb0) g = 1.
Proof.
  destruct (access_grants conn !! 30%N) as [g|] eqn:Eg; [|vm_compute in Eg; discriminate].
  destruct (CreateQuery all_ok {| qd_db := conn; query_rows := [] |} query 50%N 8) as [d' [r|e|]] eqn:E;
    [|vm_compute in E; discriminate..].
  destruct (connections conn !! 40%N) as [c|] eqn:Ec; [|vm_compute in Ec; discriminate].
  exists g. split; [reflexivity|]. unfold qdb0. rewrite E. cbn [fst].
  rewrite (logged_query_counted all_ok {| qd_db := conn; query_rows := [] |} query 50%N 8 d' r g c E Ec).
  vm_compute in E. injection E as _ <-. vm_compute in Ec. injection Ec as <-. vm_compute in Eg. injection Eg as <-.
  reflexivity.
Defined.
End Toy.
