(* ===== verification/Crypto.v ===== *)
(** * Password hashes, encryption at rest and O5LOGON verifiers
    ([internal/crypto/hash.go], [encrypt.go], [o5logon.go])

    The primitives are interfaces with the laws their documentation gives:
    [Argon2] ([golang.org/x/crypto/argon2]), [AEAD] (AES-256-GCM, idealised: a
    ciphertext opens only under the key and the additional data it was sealed
    with) and [Hashes] (SHA-1, SHA-512, HMAC-SHA-512).  What [crypto/rand]
    produced is an argument, [None] when the read failed. *)

From Stdlib Require Import ZArith Lia List Bool String Ascii.
From stdpp Require Import base list strings.
From S2P Require Import Prelude GoStrings Encoding Models AuthCache.

Open Scope string_scope.
Open Scope Z_scope.

Inductive crypto_error :=
| ErrInvalidHashFormat
| ErrUnsupportedHashAlgo
| ErrParseVersion
| ErrParseParameters
| ErrDecodeSalt
| ErrDecodeHash
| ErrRand
| ErrInvalidKeySize (got : Z)
| ErrCiphertextTooShort
| ErrDecrypt.

(** ** The primitives *)

Class Argon2 := {
  (** password, salt, time, memory, threads, key length; [None] is a panic *)
  IDKey : bytes -> bytes -> Z -> Z -> Z -> Z -> option bytes;
  IDKey_defined : forall p s t m n len, 1 <= t -> 1 <= n -> 4 <= len -> exists k, IDKey p s t m n len = Some k;
  IDKey_length : forall p s t m n len k, IDKey p s t m n len = Some k -> zlen k = len;
  IDKey_wf : forall p s t m n len k, IDKey p s t m n len = Some k -> wf_bytes k
}.

Class AEAD := {
  (** key, nonce, text, additional data *)
  Seal : bytes -> bytes -> bytes -> bytes -> bytes;
  Open : bytes -> bytes -> bytes -> bytes -> option bytes;
  Open_Seal : forall k n p a, Open k n (Seal k n p a) a = Some p;
  Open_other : forall k n p a k' a', (k, a) <> (k', a') -> Open k' n (Seal k n p a) a' = None
}.

Class Hashes := {
  sha1 : bytes -> bytes;
  sha512 : bytes -> bytes;
  hmac_sha512 : bytes -> bytes -> bytes;                (* key, message *)
  sha1_length : forall m, zlen (sha1 m) = 20;
  sha512_length : forall m, zlen (sha512 m) = 64;
  hmac_length : forall k m, zlen (hmac_sha512 k m) = 64
}.

(** ** Password hashes *)

Definition DefaultArgon2Time : Z := 1.
Definition DefaultArgon2Memory : Z := 8 * 1024.
Definition DefaultArgon2Threads : Z := 4.
Definition argon2KeyLen : Z := 32.
Definition saltLength : Z := 16.
Definition argon2_Version : Z := 19.

Record HashParams := { hp_MemoryKB : Z; hp_Time : Z; hp_Threads : Z }.

Definition DefaultHashParams : HashParams :=
  {| hp_MemoryKB := DefaultArgon2Memory; hp_Time := DefaultArgon2Time; hp_Threads := DefaultArgon2Threads |}.

(** [subtle.ConstantTimeCompare(x, y) == 1] *)
Definition ConstantTimeCompare (x y : bytes) : bool := bool_decide (x = y).

Section Hash.
Context {A2 : Argon2}.

Definition HashPasswordWithParams (salt : option bytes) (password : string) (params : HashParams) :
    res crypto_error string :=
  match salt with
  | None => Err ErrRand
  | Some salt =>
      match IDKey (str_bytes password) salt (hp_Time params) (hp_MemoryKB params) (hp_Threads params) argon2KeyLen with
      | None => Panic
      | Some hash =>
          Ok ("$argon2id$v=" ++ FormatInt argon2_Version
              ++ "$m=" ++ FormatInt (hp_MemoryKB params)
              ++ ",t=" ++ FormatInt (hp_Time params)
              ++ ",p=" ++ FormatInt (hp_Threads params)
              ++ "$" ++ raw_b64 salt ++ "$" ++ raw_b64 hash)
      end
  end.

Definition HashPassword (salt : option bytes) (password : string) : res crypto_error string :=
  HashPasswordWithParams salt password DefaultHashParams.

(** [fmt.Sscanf(s, "v=%d", &version)] *)
Definition scan_version (s : string) : option Z :=
  match scan_lit "v=" s with
  | Some s => match scan_int 64 s with Some (v, _) => Some v | None => None end
  | None => None
  end.

(** [fmt.Sscanf(s, "m=%d,t=%d,p=%d", &memory, &time, &threads)] *)
Definition scan_params (s : string) : option (Z * Z * Z) :=
  match scan_lit "m=" s with
  | None => None
  | Some s =>
      match scan_uint 32 s with
      | None => None
      | Some (memory, s) =>
          match scan_lit ",t=" s with
          | None => None
          | Some s =>
              match scan_uint 32 s with
              | None => None
              | Some (time, s) =>
                  match scan_lit ",p=" s with
                  | None => None
                  | Some s =>
                      match scan_uint 8 s with
                      | None => None
                      | Some (threads, _) => Some (memory, time, threads)
                      end
                  end
              end
          end
      end
  end.

Definition VerifyPassword (encodedHash password : string) : res crypto_error bool :=
  match Split encodedHash "$" with
  | [_; p1; p2; p3; p4; p5] =>
      guard! String.eqb p1 "argon2id" else ErrUnsupportedHashAlgo in
      match scan_version p2 with
      | None => Err ErrParseVersion
      | Some _ =>
          match scan_params p3 with
          | None => Err ErrParseParameters
          | Some (memory, time, threads) =>
              match raw_b64_decode p4 with
              | None => Err ErrDecodeSalt
              | Some salt =>
                  match raw_b64_decode p5 with
                  | None => Err ErrDecodeHash
                  | Some expectedHash =>
                      match IDKey (str_bytes password) salt time memory threads (u32 (zlen expectedHash)) with
                      | None => Panic
                      | Some computedHash => Ok (ConstantTimeCompare computedHash expectedHash)
                      end
                  end
              end
          end
      end
  | _ => Err ErrInvalidHashFormat
  end.

(** The verifier the authentication cache sits in front of. *)
#[export] Instance argon2_verifier : PasswordVerifier crypto_error :=
  {| crypto_VerifyPassword := VerifyPassword |}.
End Hash.

(** ** Encryption at rest *)

Definition NonceSize : Z := 12.

Section Encryption.
Context {GCM : AEAD}.

Definition Encrypt (nonce : option bytes) (plaintext key aad : bytes) : res crypto_error bytes :=
  guard! zlen key =? 32 else ErrInvalidKeySize (zlen key) in
  match nonce with
  | None => Err ErrRand
  | Some nonce => Ok (nonce ++ Seal key nonce plaintext aad)%list
  end.

Definition Decrypt (ciphertext key aad : bytes) : res crypto_error bytes :=
  guard! zlen key =? 32 else ErrInvalidKeySize (zlen key) in
  guard! negb (zlen ciphertext <? NonceSize) else ErrCiphertextTooShort in
  let! nonce := sl 0 NonceSize ciphertext in
  let! text := sl NonceSize (zlen ciphertext) ciphertext in
  match Open key nonce text aad with
  | Some plaintext => Ok plaintext
  | None => Err ErrDecrypt
  end.
End Encryption.

Definition ServerAAD (databaseUID : string) : bytes := str_bytes ("database:" ++ databaseUID).
Definition APIKeyAAD (keyPrefix : string) : bytes := str_bytes ("apikey:" ++ keyPrefix).
Definition UserAAD (userUID : string) : bytes := str_bytes ("user:" ++ userUID).
Definition DeviceAuthAAD (requestUID : string) : bytes := str_bytes ("deviceauth:" ++ requestUID).

(** ** O5LOGON verifiers *)

Definition O5LogonSaltLength : Z := 10.
Definition O5LogonVerifierKeyLength : Z := 24.
Definition O5LogonPbkdf2SaltLength : Z := 16.
Definition O5LogonVerifier18453KeyLength : Z := 32.
Definition O5LogonPbkdf2VgenCount : Z := 4096.

(** [for j := 0; j < 64; j++ { a[j] ^= b[j] }] on two 64-byte digests. *)
Definition xor64 (a b : bytes) : bytes := zip_with Z.lxor a b.

Section O5Logon.
Context {H : Hashes}.

(** The loop [for i := 2; i <= turns; i++], [n] iterations of it. *)
Fixpoint speedy_loop (key : bytes) (n : nat) (firstHash tempHash : bytes) : bytes :=
  match n with
  | O => firstHash
  | S n =>
      let tempHash := hmac_sha512 key tempHash in
      speedy_loop key n (xor64 firstHash tempHash) tempHash
  end.

Definition pbkdf2SpeedyKey (buffer key : bytes) (turns : Z) : bytes :=
  let firstHash := hmac_sha512 key (buffer ++ [0; 0; 0; 1])%list in
  speedy_loop key (Z.to_nat (turns - 1)) firstHash firstHash.

Definition DeriveO5LogonVerifier18453Key (password : string) (salt : bytes) : bytes :=
  let message := (salt ++ str_bytes "AUTH_PBKDF2_SPEEDY_KEY")%list in
  let speedyKey := pbkdf2SpeedyKey message (str_bytes password) O5LogonPbkdf2VgenCount in
  let full := sha512 (speedyKey ++ salt)%list in
  take (Z.to_nat O5LogonVerifier18453KeyLength) full.

(** [key := make([]byte, 24); copy(key, hash)] *)
Definition DeriveO5LogonVerifierKey (password : string) (salt : bytes) : bytes :=
  let hash := sha1 (str_bytes password ++ salt)%list in
  let n := Z.to_nat O5LogonVerifierKeyLength in
  (take n hash ++ replicate (n - length hash) 0)%list.

Definition GenerateO5LogonVerifier (rnd : option bytes) (password : string) : res crypto_error (bytes * bytes) :=
  match rnd with
  | None => Err ErrRand
  | Some salt => Ok (salt, DeriveO5LogonVerifierKey password salt)
  end.

Definition GenerateO5LogonVerifier18453 (rnd : option bytes) (password : string) : res crypto_error (bytes * bytes) :=
  match rnd with
  | None => Err ErrRand
  | Some salt => Ok (salt, DeriveO5LogonVerifier18453Key password salt)
  end.

(** *** PBKDF2 as RFC 8018 writes it, for the first block *)

Fixpoint U (password salt : bytes) (i : nat) : bytes :=
  match i with
  | O => hmac_sha512 password (salt ++ be_put 4 1)%list
  | S i => hmac_sha512 password (U password salt i)
  end.

(** The xor of [U_1 .. U_c]. *)
Definition PBKDF2_F (password salt : bytes) (c : nat) : bytes :=
  foldr xor64 (replicate 64 0) (map (U password salt) (seq 0 c)).
End O5Logon.

(** * Theorems *)

Definition no_dollar (s : string) : bool := all_chars (fun c => negb (Ascii.eqb c "$")) s.

Lemma no_dollar_app s t : no_dollar (s ++ t) = no_dollar s && no_dollar t.
Proof. apply all_chars_app. Qed.

Lemma no_dollar_FormatInt n : 0 <= n -> no_dollar (FormatInt n) = true.
Proof.
  intros Hn. apply (all_chars_imp is_digit); [|by apply FormatInt_digits].
  intros c Hc. destruct (Ascii.eqb_spec c "$") as [->|]; done.
Qed.

Lemma no_dollar_b64 b : wf_bytes b -> no_dollar (raw_b64 b) = true.
Proof.
  intros Hb. apply (all_chars_imp b64_plain); [|by apply raw_b64_plain].
  intros c Hc. unfold b64_plain in Hc. rewrite !andb_true_iff in Hc. by destruct Hc as [[[_ ?] _] _].
Qed.

Section HashTheorems.
Context {A2 : Argon2}.

(** The parameters as [HashPasswordWithParams] prints them. *)
Definition params_text (p : HashParams) : string :=
  "m=" ++ FormatInt (hp_MemoryKB p) ++ ",t=" ++ FormatInt (hp_Time p) ++ ",p=" ++ FormatInt (hp_Threads p).

Definition valid_params (p : HashParams) : Prop :=
  0 <= hp_MemoryKB p < 2 ^ 32 /\ 1 <= hp_Time p < 2 ^ 32 /\ 1 <= hp_Threads p < 2 ^ 8.

Lemma scan_params_text p : valid_params p ->
  scan_params (params_text p) = Some (hp_MemoryKB p, hp_Time p, hp_Threads p).
Proof.
  intros (Hm & Ht & Hn). unfold scan_params, params_text.
  rewrite scan_lit_app, scan_uint_FormatInt; [|lia|lia|done].
  rewrite scan_lit_app, scan_uint_FormatInt; [|lia|lia|done].
  rewrite scan_lit_app. rewrite <- (sapp_nil_r (FormatInt (hp_Threads p))).
  by rewrite scan_uint_FormatInt; [|lia|lia|].
Qed.

Lemma split_encoded p salt hash : valid_params p -> wf_bytes salt -> wf_bytes hash ->
  Split ("$argon2id$v=" ++ FormatInt argon2_Version ++ "$m=" ++ FormatInt (hp_MemoryKB p)
         ++ ",t=" ++ FormatInt (hp_Time p) ++ ",p=" ++ FormatInt (hp_Threads p)
         ++ "$" ++ raw_b64 salt ++ "$" ++ raw_b64 hash) "$"
  = ["" ; "argon2id"; "v=19"; params_text p; raw_b64 salt; raw_b64 hash].
Proof.
  intros (Hm & Ht & Hn) Hs Hh.
  replace ("$argon2id$v=" ++ _) with
    (String "$" ("argon2id" ++ String "$" ("v=19" ++ String "$" (params_text p ++ String "$"
      (raw_b64 salt ++ String "$" (raw_b64 hash)))))).
  2:{ unfold params_text. rewrite !sapp_assoc. reflexivity. }
  unfold Split. change (split_on "$" "" (String "$" ?r)) with ("" :: split_on "$" "" r).
  rewrite !(split_on_app "$" "").
  - rewrite split_on_end; [done|]. by apply no_dollar_b64.
  - by apply no_dollar_b64.
  - change (no_dollar (params_text p) = true). unfold params_text.
    rewrite !no_dollar_app, !no_dollar_FormatInt by lia. done.
  - done.
  - done.
Qed.

(** The stored text of a hash. *)
Definition encoded (p : HashParams) (salt key : bytes) : string :=
  "$argon2id$v=" ++ FormatInt argon2_Version ++ "$m=" ++ FormatInt (hp_MemoryKB p)
  ++ ",t=" ++ FormatInt (hp_Time p) ++ ",p=" ++ FormatInt (hp_Threads p)
  ++ "$" ++ raw_b64 salt ++ "$" ++ raw_b64 key.

(** Argon2id of a candidate, with the parameters and the salt of a stored hash. *)
Definition derive (p : HashParams) (salt : bytes) (password : string) : option bytes :=
  IDKey (str_bytes password) salt (hp_Time p) (hp_MemoryKB p) (hp_Threads p) argon2KeyLen.

Lemma derive_defined p salt password : valid_params p -> exists k, derive p salt password = Some k.
Proof. intros (Hm & Ht & Hn). apply IDKey_defined; unfold argon2KeyLen; lia. Qed.

Lemma hash_encoded p salt password key :
  derive p salt password = Some key -> HashPasswordWithParams (Some salt) password p = Ok (encoded p salt key).
Proof. intros E. unfold HashPasswordWithParams, derive in *. by rewrite E. Qed.

Lemma verify_encoded p salt key candidate key' :
  valid_params p -> wf_bytes salt -> wf_bytes key -> zlen key = argon2KeyLen ->
  derive p salt candidate = Some key' ->
  VerifyPassword (encoded p salt key) candidate = Ok (bool_decide (key' = key)).
Proof.
  intros Hp Hs Hk Hl E'. unfold VerifyPassword, encoded. rewrite (split_encoded p salt key Hp Hs Hk).
  change (String.eqb "argon2id" "argon2id") with true. cbv iota.
  change (scan_version "v=19") with (Some 19). cbv iota.
  rewrite (scan_params_text p Hp), !raw_b64_decode_encode by done.
  rewrite Hl. change (u32 argon2KeyLen) with argon2KeyLen. unfold derive in E'. by rewrite E'.
Qed.

(** What [HashPassword] stored is verified by the password it came from. *)
Lemma hash_verifies salt password enc :
  wf_bytes salt -> HashPassword (Some salt) password = Ok enc -> VerifyPassword enc password = Ok true.
Proof.
  intros Hs E. assert (Hp : valid_params DefaultHashParams) by (repeat split; vm_compute; congruence).
  destruct (derive_defined DefaultHashParams salt password Hp) as (key & Ek).
  unfold HashPassword in E. rewrite (hash_encoded _ _ _ _ Ek) in E. injection E as <-.
  rewrite (verify_encoded _ _ _ _ key Hp Hs); [by rewrite bool_decide_eq_true_2| | |done].
  - by eapply IDKey_wf.
  - by eapply IDKey_length.
Qed.

(** A stored password hash answers exactly what Argon2id answers: hashing a
    password always succeeds with valid parameters, and verifying any candidate
    against the stored text never errs and accepts it exactly when Argon2id
    maps it, with the same salt and parameters, to the stored key. *)
Theorem password_hash_exact salt password params :
  wf_bytes salt -> valid_params params ->
  exists enc key,
    HashPasswordWithParams (Some salt) password params = Ok enc /\
    derive params salt password = Some key /\
    VerifyPassword enc password = Ok true /\
    forall candidate, exists key',
      derive params salt candidate = Some key' /\
      VerifyPassword enc candidate = Ok (bool_decide (key' = key)).
Proof.
  intros Hs Hp. destruct (derive_defined params salt password Hp) as (key & Ek).
  pose proof (IDKey_wf _ _ _ _ _ _ _ Ek) as Hk. pose proof (IDKey_length _ _ _ _ _ _ _ Ek) as Hl.
  exists (encoded params salt key), key. split; [by apply hash_encoded|]. split; [done|]. split.
  - rewrite (verify_encoded _ _ _ _ key) by done. by rewrite bool_decide_eq_true_2.
  - intros c. destruct (derive_defined params salt c Hp) as (key' & E'). exists key'. split; [done|].
    by apply verify_encoded.
Qed.
End HashTheorems.

(** A stand-in for Argon2id: the key is read off the password. *)
Definition pad_key (p : bytes) (len : Z) : bytes :=
  take (Z.to_nat len) (map u8 p ++ replicate (Z.to_nat len) 0)%list.

Lemma zlen_pad_key p len : 0 <= len -> zlen (pad_key p len) = len.
Proof.
  intros Hl. unfold zlen, pad_key. rewrite length_take, length_app, length_replicate. lia.
Qed.

Lemma wf_pad_key p len : wf_bytes (pad_key p len).
Proof.
  unfold pad_key, wf_bytes. apply Forall_take, Forall_app. split.
  - apply Forall_map, Forall_forall. intros x _. unfold is_byte, u8. cbn. apply Z.mod_pos_bound. lia.
  - apply Forall_replicate. unfold is_byte. lia.
Qed.

Definition toy_argon2 : Argon2.
Proof.
  refine {| IDKey p s t m n len := if 0 <=? len then Some (pad_key p len) else None |}.
  - intros. exists (pad_key p len). by replace (0 <=? len) with true by (symmetry; blia).
  - intros p s t m n len k. destruct (Z.leb_spec 0 len); [|done]. intros [= <-]. by apply zlen_pad_key.
  - intros p s t m n len k. destruct (Z.leb_spec 0 len); [|done]. intros [= <-]. apply wf_pad_key.
Defined.

Lemma password_hash_exact_witness :
  exists enc key,
    HashPasswordWithParams (A2 := toy_argon2) (Some [1; 2; 250]) "s3cret" DefaultHashParams = Ok enc /\
    VerifyPassword (A2 := toy_argon2) enc "s3cret" = Ok true /\
    derive (A2 := toy_argon2) DefaultHashParams [1; 2; 250] "s3cret" = Some key.
Proof.
  destruct (password_hash_exact (A2 := toy_argon2) [1; 2; 250] "s3cret" DefaultHashParams)
    as (enc & key & H1 & H2 & H3 & _).
  - exact (wf_bytes_check [1; 2; 250] eq_refl).
  - repeat split; vm_compute; congruence.
  - exists enc, key. done.
Defined.

(** Texts [VerifyPassword] refuses without looking at the password. *)
Lemma verify_errors {A2 : Argon2} p :
  VerifyPassword "plain" p = Err ErrInvalidHashFormat /\
  VerifyPassword "$2b$v=19$m=1,t=1,p=1$AA$AAAA" p = Err ErrUnsupportedHashAlgo /\
  VerifyPassword "$argon2id$19$m=1,t=1,p=1$AA$AAAA" p = Err ErrParseVersion /\
  VerifyPassword "$argon2id$v=19$m=1,t=1,p=256$AA$AAAA" p = Err ErrParseParameters /\
  VerifyPassword "$argon2id$v=19$m=1,t=1,p=1$A$AAAA" p = Err ErrDecodeSalt /\
  VerifyPassword "$argon2id$v=19$m=1,t=1,p=1$AA$A=AA" p = Err ErrDecodeHash.
Proof. repeat split; reflexivity. Qed.

(** ** Encryption *)

Section EncryptionTheorems.
Context {GCM : AEAD}.

Lemma encrypt_ok nonce p key aad :
  zlen key = 32 -> Encrypt (Some nonce) p key aad = Ok (nonce ++ Seal key nonce p aad)%list.
Proof. intros Hk. unfold Encrypt. by rewrite Hk. Qed.

(** [Decrypt] sees what [Open] answers on the two halves of the ciphertext. *)
Lemma decrypt_sealed nonce p key aad key' aad' :
  zlen nonce = NonceSize -> zlen key' = 32 ->
  Decrypt (nonce ++ Seal key nonce p aad) key' aad'
  = match Open key' nonce (Seal key nonce p aad) aad' with Some t => Ok t | None => Err ErrDecrypt end.
Proof.
  intros Hn Hk. unfold Decrypt. rewrite Hk. change (32 =? 32) with true. cbv iota.
  assert (Hl : NonceSize <= zlen (nonce ++ Seal key nonce p aad)%list)
    by (rewrite zlen_app, Hn; pose proof (zlen_nonneg (Seal key nonce p aad)); lia).
  replace (negb _) with true by (symmetry; blia).
  rewrite sl_head by done. cbn [rbind].
  by rewrite (sl_tail NonceSize _ nonce).
Qed.

(** What [Encrypt] produced decrypts to the plaintext under the same key and
    additional data, and under no other key or additional data. *)
Theorem encrypt_roundtrip nonce p key aad :
  zlen nonce = NonceSize -> zlen key = 32 ->
  exists c, Encrypt (Some nonce) p key aad = Ok c /\ Decrypt c key aad = Ok p /\
    forall key' aad', (key', aad') <> (key, aad) -> zlen key' = 32 -> Decrypt c key' aad' = Err ErrDecrypt.
Proof.
  intros Hn Hk. exists (nonce ++ Seal key nonce p aad)%list.
  split; [by apply encrypt_ok|]. split.
  - by rewrite decrypt_sealed, Open_Seal.
  - intros key' aad' Hne Hk'. rewrite decrypt_sealed by done. by rewrite Open_other by congruence.
Qed.
End EncryptionTheorems.

Lemma ServerAAD_inj u v : ServerAAD u = ServerAAD v -> u = v.
Proof. unfold ServerAAD. intros H%str_bytes_inj. by injection H. Qed.

Lemma UserAAD_inj u v : UserAAD u = UserAAD v -> u = v.
Proof. unfold UserAAD. intros H%str_bytes_inj. by injection H. Qed.

(** The four kinds of additional data never coincide: the first byte of the
    label differs, or the second. *)
Lemma AAD_disjoint a b :
  ServerAAD a <> APIKeyAAD b /\ ServerAAD a <> UserAAD b /\ ServerAAD a <> DeviceAuthAAD b /\
  APIKeyAAD a <> UserAAD b /\ APIKeyAAD a <> DeviceAuthAAD b /\ UserAAD a <> DeviceAuthAAD b.
Proof. repeat split; intros H%str_bytes_inj; discriminate. Qed.

(** A stand-in for AES-GCM that carries key and additional data in clear. *)
Definition toy_seal (k n p a : bytes) : bytes := (zlen k :: k ++ zlen a :: a ++ p)%list.
Definition toy_open (k n c a : bytes) : option bytes :=
  let h := (zlen k :: k ++ zlen a :: a)%list in
  if bool_decide (take (length h) c = h) then Some (drop (length h) c) else None.

Lemma len_prefixed_inj (k k' r r' : bytes) :
  (zlen k :: k ++ r = zlen k' :: k' ++ r')%list -> k = k' /\ r = r'.
Proof.
  intros H. injection H as Hl H. apply app_inj_1 in H; [done|]. unfold zlen in Hl. lia.
Qed.

Definition toy_aead : AEAD.
Proof.
  refine {| Seal := toy_seal; Open := toy_open |}.
  - intros k n p a. unfold toy_open, toy_seal.
    set (h := (zlen k :: k ++ zlen a :: a)%list).
    replace (zlen k :: k ++ zlen a :: a ++ p)%list with (h ++ p)%list
      by (subst h; cbn [app]; by rewrite <- app_assoc).
    rewrite take_app_length, drop_app_length. by rewrite bool_decide_eq_true_2.
  - intros k n p a k' a' Hne. unfold toy_open, toy_seal. case_bool_decide as E; [|done].
    exfalso. apply Hne. set (h := (zlen k' :: k' ++ zlen a' :: a')%list) in *.
    assert (E2 : (zlen k :: k ++ (zlen a :: a ++ p) = h ++ drop (length h) (zlen k :: k ++ (zlen a :: a ++ p)))%list)
      by (rewrite <- E at 1; by rewrite take_drop).
    set (r := drop _ _) in E2. subst h. cbn [app] in E2. rewrite <- app_assoc in E2. cbn [app] in E2.
    apply len_prefixed_inj in E2 as [-> E2]. by apply len_prefixed_inj in E2 as [-> _].
Defined.

Lemma encrypt_roundtrip_witness :
  exists c, Encrypt (GCM := toy_aead) (Some (repeat 7 12)) [1; 2; 3] (repeat 9 32) (ServerAAD "a") = Ok c /\
            Decrypt (GCM := toy_aead) c (repeat 9 32) (ServerAAD "a") = Ok [1; 2; 3] /\
            Decrypt (GCM := toy_aead) c (repeat 9 32) (ServerAAD "b") = Err ErrDecrypt.
Proof.
  destruct (encrypt_roundtrip (GCM := toy_aead) (repeat 7 12) [1; 2; 3] (repeat 9 32) (ServerAAD "a"))
    as (c & H1 & H2 & H3); [reflexivity|reflexivity|].
  exists c. split; [done|]. split; [done|]. apply H3; [|reflexivity].
  intros [= H]. 
Defined.

(** ** O5LOGON *)

Section O5LogonTheorems.
Context {H : Hashes}.

Lemma xor64_length a b : length a = length b -> length (xor64 a b) = length a.
Proof. intros E. unfold xor64. rewrite length_zip_with. lia. Qed.

Lemma xor64_assoc a b c : xor64 (xor64 a b) c = xor64 a (xor64 b c).
Proof.
  unfold xor64. revert b c. induction a as [|x a IH]; intros [|y b] [|z c]; cbn; try done.
  by rewrite IH, Z.lxor_assoc.
Qed.

Lemma xor64_zero a n : length a = n -> xor64 a (replicate n 0) = a.
Proof.
  unfold xor64. revert n. induction a as [|x a IH]; intros [|n] E; cbn in *; try lia; [done|].
  by rewrite Z.lxor_0_r, IH by lia.
Qed.

Lemma hmac_length_nat k m : length (hmac_sha512 k m) = 64%nat.
Proof. pose proof (hmac_length k m). unfold zlen in *. lia. Qed.

Lemma U_length p s i : length (U p s i) = 64%nat.
Proof. destruct i; apply hmac_length_nat. Qed.

Lemma speedy_loop_spec p s n i acc :
  length acc = 64%nat ->
  speedy_loop p n acc (U p s i) = xor64 acc (foldr xor64 (replicate 64 0) (map (U p s) (seq (S i) n))).
Proof.
  revert i acc. induction n as [|n IH]; intros i acc Ha; cbn [speedy_loop seq map foldr].
  - by rewrite xor64_zero.
  - change (hmac_sha512 p (U p s i)) with (U p s (S i)). rewrite IH.
    + by rewrite xor64_assoc.
    + rewrite xor64_length; [done|]. by rewrite U_length.
Qed.

(** The "speedy key" loop computes PBKDF2-HMAC-SHA-512 (RFC 8018) for the first
    block: the xor of all [turns] iterates, for every salt, password and
    positive number of turns. *)
Theorem speedy_key_is_pbkdf2 salt password turns :
  1 <= turns -> pbkdf2SpeedyKey salt password turns = PBKDF2_F password salt (Z.to_nat turns).
Proof.
  intros Ht. unfold pbkdf2SpeedyKey, PBKDF2_F.
  change (hmac_sha512 password (salt ++ [0; 0; 0; 1])%list) with (U password salt 0).
  rewrite (speedy_loop_spec password salt) by apply U_length.
  replace (Z.to_nat turns) with (S (Z.to_nat (turns - 1))) by lia. done.
Qed.

Lemma verifier_lengths password salt :
  zlen (DeriveO5LogonVerifierKey password salt) = 24 /\
  zlen (DeriveO5LogonVerifier18453Key password salt) = 32.
Proof.
  split.
  - unfold DeriveO5LogonVerifierKey. pose proof (sha1_length (str_bytes password ++ salt)%list) as E.
    unfold zlen in *. rewrite length_app, length_take, length_replicate.
    change (Z.to_nat O5LogonVerifierKeyLength) with 24%nat. lia.
  - unfold DeriveO5LogonVerifier18453Key. cbv zeta.
    match goal with |- context [sha512 ?m] => pose proof (sha512_length m) as E end.
    unfold zlen in *. rewrite length_take. change (Z.to_nat O5LogonVerifier18453KeyLength) with 32%nat. lia.
Qed.
End O5LogonTheorems.

Definition toy_hashes : Hashes.
Proof.
  refine {| sha1 m := pad_key m 20; sha512 m := pad_key m 64; hmac_sha512 k m := pad_key (m ++ k)%list 64 |};
    intros; by apply zlen_pad_key.
Defined.

Lemma speedy_key_is_pbkdf2_witness :
  pbkdf2SpeedyKey (H := toy_hashes) [3; 4] [5] 3 = PBKDF2_F (H := toy_hashes) [5] [3; 4] 3.
Proof. apply (speedy_key_is_pbkdf2 (H := toy_hashes) [3; 4] [5] 3). lia. Defined.
