(* ===== verification/Accounts.v ===== *)
(** * Users, identities, groups and the audit log in the store
    ([internal/store/users.go], [user_identities.go], [user_groups.go],
    [mongo_scram.go], [audit.go])

    Tables are finite maps from their primary keys, as in [GrantStore].  Rows of
    [users] and [user_identities] are deleted softly: [bun] adds
    [deleted_at IS NULL] to every SELECT, UPDATE and DELETE on those models.
    Every operation takes [sql : nat -> bool], the fate of its i-th statement;
    unique indexes and primary keys are checked explicitly.  The collation and
    [lower()] of the database server are the class [Collation]. *)

From Stdlib Require Import ZArith Lia List Bool String Ascii.
From stdpp Require Import base list gmap strings.
From S2P Require Import Prelude GoStrings Encoding Models AuthCache GrantStore Crypto.

Open Scope string_scope.
Open Scope Z_scope.
Set Warnings "-register-all".

Class Collation := {
  collate : string -> string -> bool;        (* a <= b in ORDER BY *)
  lower : string -> string
}.

Inductive acct_error :=
| ErrSQL                         (* a wrapped driver error *)
| ErrCrypto (e : crypto_error)   (* a wrapped error of the crypto package *)
| ErrRandom                      (* crypto/rand failed *)
| ErrScram                       (* the scram library refused the password *)
| ErrUserNotFound
| ErrUserNameConflict
| ErrIdentityNotFound
| ErrUserGroupNotFound
| ErrUserGroupDuplicate
| ErrAPIKeyNotFound
| ErrAPIKeyRevoked
| ErrAPIKeyExpired
| ErrAPIKeyTooShort
| ErrOAuthStateNotFound
| ErrDeviceAuthNotFound
| ErrDeviceAuthAlreadyResolved
| ErrDeviceAuthUserCodeTaken
| ErrDecodeMetadata.

Definition IdentityTypeSlack := "slack".

Record UserIdentity := {
  i_UID : uuid;
  i_UserID : uuid;
  i_Provider : string;
  i_ProviderID : string;
  i_Email : string;
  i_DisplayName : string;
  i_Metadata : string;
  i_CreatedAt : time;
  i_UpdatedAt : time;
  i_DeletedAt : option time
}.

Record UserGroup := {
  ug_UID : uuid;
  ug_Name : string;
  ug_Description : string;
  ug_CreatedBy : option uuid;
  ug_CreatedAt : time
}.

(** A JSON document, as a [jsonb] column holds it. *)
Inductive json :=
| JsonNull
| JsonBool (b : bool)
| JsonNum (z : Z)
| JsonStr (s : string)
| JsonArr (l : list json)
| JsonObj (fields : list (string * json)).

Record AuditLog := {
  al_UID : uuid;
  al_EventType : string;
  al_UserID : option uuid;
  al_PerformedBy : option uuid;
  al_Details : json;
  al_CreatedAt : time
}.

(** The JSON in [oauth_states.metadata] of a device authorization. *)
Record deviceAuthMetadata := {
  dm_ClientName : string;
  dm_UserCode : string;
  dm_Status : string;
  dm_UserID : option uuid;
  dm_EncryptedKey : bytes;
  dm_KeyPrefix : string
}.

(** [metadata] is NULL on the rows of a real OAuth login. *)
Record OAuthState := {
  os_UID : uuid;
  os_State : string;
  os_Provider : string;
  os_RedirectURL : string;
  os_Metadata : option deviceAuthMetadata;
  os_ExpiresAt : time;
  os_CreatedAt : time
}.

(** The tables, a membership being its (group, user) pair. *)
Record AcctDB := {
  users : gmap uuid User;
  user_identities : gmap uuid UserIdentity;
  user_groups : gmap uuid UserGroup;
  user_group_members : gset (uuid * uuid);
  audit_log : gmap uuid AuditLog;
  api_keys : gmap uuid APIKey;
  oauth_states : gmap uuid OAuthState
}.

Definition set_users (d : AcctDB) m : AcctDB :=
  {| users := m; user_identities := user_identities d; user_groups := user_groups d;
     user_group_members := user_group_members d; audit_log := audit_log d;
     api_keys := api_keys d; oauth_states := oauth_states d |}.
Definition set_identities (d : AcctDB) m : AcctDB :=
  {| users := users d; user_identities := m; user_groups := user_groups d;
     user_group_members := user_group_members d; audit_log := audit_log d;
     api_keys := api_keys d; oauth_states := oauth_states d |}.
Definition set_groups (d : AcctDB) m mem : AcctDB :=
  {| users := users d; user_identities := user_identities d; user_groups := m;
     user_group_members := mem; audit_log := audit_log d;
     api_keys := api_keys d; oauth_states := oauth_states d |}.
Definition set_audit (d : AcctDB) m : AcctDB :=
  {| users := users d; user_identities := user_identities d; user_groups := user_groups d;
     user_group_members := user_group_members d; audit_log := m;
     api_keys := api_keys d; oauth_states := oauth_states d |}.
Definition set_keys (d : AcctDB) m : AcctDB :=
  {| users := users d; user_identities := user_identities d; user_groups := user_groups d;
     user_group_members := user_group_members d; audit_log := audit_log d;
     api_keys := m; oauth_states := oauth_states d |}.
Definition set_states (d : AcctDB) m : AcctDB :=
  {| users := users d; user_identities := user_identities d; user_groups := user_groups d;
     user_group_members := user_group_members d; audit_log := audit_log d;
     api_keys := api_keys d; oauth_states := m |}.

(** A result together with the tables it leaves behind. *)
Abbreviation ares A := (AcctDB * res acct_error A)%type.

(** A transaction keeps its changes when the body succeeds and COMMIT goes through. *)
Definition in_tx {A} (commit : bool) (body : AcctDB -> ares A) (d : AcctDB) : ares A :=
  match body d with
  | (d', Ok a) => if commit then (d', Ok a) else (d, Err ErrSQL)
  | (_, r) => (d, r)
  end.

Definition is_none {A} (o : option A) : bool := match o with None => true | Some _ => false end.

(** [ORDER BY] with the comparison [le]: insertion sort. *)
Fixpoint insert_by {A} (le : A -> A -> bool) (x : A) (l : list A) : list A :=
  match l with
  | [] => [x]
  | y :: r => if le x y then x :: l else y :: insert_by le x r
  end.
Definition order_by {A} (le : A -> A -> bool) (l : list A) : list A := foldr (insert_by le) [] l.

(** ** Users *)

Definition live_user (u : User) : bool := is_none (u_DeletedAt u).

Definition user_with (u : User) (hash : string) (roles : list string) (changed : option time)
    (updated : time) (deleted : option time) (pd : option UserProtocolData) : User :=
  {| u_UID := u_UID u; u_Username := u_Username u; u_PasswordHash := hash; u_Roles := roles;
     u_RateLimitExempt := u_RateLimitExempt u; u_PasswordChangedAt := changed;
     u_CreatedAt := u_CreatedAt u; u_UpdatedAt := updated; u_DeletedAt := deleted;
     u_ProtocolData := pd |}.

(** [users_username_active_uq]: one live user per name. *)
Definition username_taken (d : AcctDB) (username : string) : bool :=
  existsb (fun u => live_user u && String.eqb (u_Username u) username) (rows (users d)).

Definition CreateUser (sql : nat -> bool) (d : AcctDB) (username passwordHash : string)
    (roles : list string) (uid : uuid) (now now' : time) : ares User :=
  let roles := match roles with [] => [RoleConnector] | _ => roles end in
  let user :=
    {| u_UID := uid; u_Username := username; u_PasswordHash := passwordHash; u_Roles := roles;
       u_RateLimitExempt := false; u_PasswordChangedAt := None; u_CreatedAt := now;
       u_UpdatedAt := now'; u_DeletedAt := None; u_ProtocolData := None |} in
  if negb (sql 0%nat) || bool_decide (is_Some (users d !! uid)) then (d, Err ErrSQL)
  else if username_taken d username then (d, Err ErrUserNameConflict)
  else (set_users d (<[uid := user]> (users d)), Ok user).

Definition GetUserByUsername (sql : nat -> bool) (d : AcctDB) (username : string) : res acct_error User :=
  guard! sql 0%nat else ErrSQL in
  match List.find (fun u => live_user u && String.eqb (u_Username u) username) (rows (users d)) with
  | None => Err ErrUserNotFound
  | Some u => Ok u
  end.

Definition live_user_at (d : AcctDB) (uid : uuid) : option User :=
  match users d !! uid with
  | Some u => if live_user u then Some u else None
  | None => None
  end.

Definition GetUserByUID (sql : nat -> bool) (d : AcctDB) (uid : uuid) : res acct_error User :=
  guard! sql 0%nat else ErrSQL in
  match live_user_at d uid with None => Err ErrUserNotFound | Some u => Ok u end.

Definition ListUsers {C : Collation} (sql : nat -> bool) (d : AcctDB) : res acct_error (list User) :=
  guard! sql 0%nat else ErrSQL in
  Ok (order_by (fun a b => collate (u_Username a) (u_Username b)) (List.filter live_user (rows (users d)))).

Definition CountAdmins (sql : nat -> bool) (d : AcctDB) : res acct_error Z :=
  guard! sql 0%nat else ErrSQL in
  Ok (zlen (List.filter (fun u => live_user u && contains_str (u_Roles u) RoleAdmin) (rows (users d)))).

(** [Roles == nil] leaves the roles alone. *)
Record UserUpdate := { uu_PasswordHash : option string; uu_Roles : option (list string) }.

Definition UpdateUser (sql : nat -> bool) (d : AcctDB) (uid : uuid) (updates : UserUpdate)
    (now now' : time) : ares unit :=
  if negb (sql 0%nat) then (d, Err ErrSQL)
  else match live_user_at d uid with
       | None => (d, Err ErrUserNotFound)
       | Some u =>
           let u' := user_with u (default (u_PasswordHash u) (uu_PasswordHash updates))
                       (default (u_Roles u) (uu_Roles updates))
                       (match uu_PasswordHash updates with Some _ => Some now' | None => u_PasswordChangedAt u end)
                       now (u_DeletedAt u) (u_ProtocolData u) in
           (set_users d (<[uid := u']> (users d)), Ok tt)
       end.

Definition live_identity (i : UserIdentity) : bool := is_none (i_DeletedAt i).

Definition deleted_identity (i : UserIdentity) (now : time) : UserIdentity :=
  {| i_UID := i_UID i; i_UserID := i_UserID i; i_Provider := i_Provider i; i_ProviderID := i_ProviderID i;
     i_Email := i_Email i; i_DisplayName := i_DisplayName i; i_Metadata := i_Metadata i;
     i_CreatedAt := i_CreatedAt i; i_UpdatedAt := i_UpdatedAt i; i_DeletedAt := Some now |}.

(** The body of the transaction: the identities first, then the user. *)
Definition delete_user_body (sql : nat -> bool) (uid : uuid) (now : time) (d : AcctDB) : ares unit :=
  if negb (sql 0%nat) then (d, Err ErrSQL)
  else
    let d1 := set_identities d
      ((fun i => if live_identity i && N.eqb (i_UserID i) uid then deleted_identity i now else i)
         <$> user_identities d) in
    if negb (sql 1%nat) then (d1, Err ErrSQL)
    else match live_user_at d1 uid with
         | None => (d1, Err ErrUserNotFound)
         | Some u =>
             let u' := user_with u (u_PasswordHash u) (u_Roles u) (u_PasswordChangedAt u) (u_UpdatedAt u)
                         (Some now) (u_ProtocolData u) in
             (set_users d1 (<[uid := u']> (users d1)), Ok tt)
         end.

Definition DeleteUser (sql : nat -> bool) (d : AcctDB) (uid : uuid) (now : time) : ares unit :=
  in_tx (sql 2%nat) (delete_user_body sql uid now) d.

Definition with_protocol (u : User) (pd : option UserProtocolData) (now : time) : User :=
  user_with u (u_PasswordHash u) (u_Roles u) (u_PasswordChangedAt u) now (u_DeletedAt u) pd.

(** The compare-and-set of [EnsureUserOracleSalts]: it writes only while the row
    has no Oracle material. *)
Definition salts_cas (d : AcctDB) (uid : uuid) (pd : UserProtocolData) (now : time) : AcctDB * Z :=
  match live_user_at d uid with
  | Some u =>
      if is_none (User_OracleData u)
      then (set_users d (<[uid := with_protocol u (Some pd) now]> (users d)), 1)
      else (d, 0)
  | None => (d, 0)
  end.

Definition salts_ready (o : option OracleUserData) : option OracleUserData :=
  match o with
  | Some s => if (0 <? zlen (ou_Salt6949 s)) && (0 <? zlen (ou_Salt18453 s)) then Some s else None
  | None => None
  end.

(** Statement 0 reads the row, statement 1 writes; in between another session may
    have run, so the second half is given the tables it finds. *)
Definition ensure_salts_read (sql : nat -> bool) (d : AcctDB) (uid : uuid) :
    res acct_error (User * option OracleUserData) :=
  let! user := GetUserByUID sql d uid in
  Ok (user, salts_ready (User_OracleData user)).

Definition ensure_salts_write (sql : nat -> bool) (d : AcctDB) (uid : uuid) (user : User)
    (salt6949 salt18453 : option bytes) (now : time) : ares OracleUserData :=
  match salt6949, salt18453 with
  | Some s1, Some s2 =>
      let pd := default {| up_Oracle := None; up_MongoDB := None |} (u_ProtocolData user) in
      let data := {| ou_Salt6949 := s1; ou_Salt18453 := s2 |} in
      let pd := {| up_Oracle := Some data; up_MongoDB := up_MongoDB pd |} in
      if negb (sql 1%nat) then (d, Err ErrSQL)
      else match salts_cas d uid pd now with
           | (d', 1) => (d', Ok data)
           | (d', _) =>
               (d', let! winner := GetUserByUID (fun i => sql (2 + i)%nat) d' uid in
                    match User_OracleData winner with Some o => Ok o | None => Err ErrUserNotFound end)
           end
  | _, _ => (d, Err ErrRandom)
  end.

Definition EnsureUserOracleSalts (sql : nat -> bool) (d : AcctDB) (uid : uuid)
    (salt6949 salt18453 : option bytes) (now : time) : ares OracleUserData :=
  match ensure_salts_read sql d uid with
  | Ok (_, Some data) => (d, Ok data)
  | Ok (user, None) => ensure_salts_write sql d uid user salt6949 salt18453 now
  | Err e => (d, Err e)
  | Panic => (d, Panic)
  end.

Definition EnsureDefaultAdmin (sql : nat -> bool) (d : AcctDB) (passwordHash : string) (uid : uuid)
    (now now' : time) : ares unit :=
  if negb (sql 0%nat) then (d, Err ErrSQL)
  else if 0 <? zlen (List.filter live_user (rows (users d))) then (d, Ok tt)
  else match CreateUser (fun i => sql (1 + i)%nat) d "admin" passwordHash [RoleAdmin; RoleConnector] uid now now' with
       | (d', Ok _) => (d', Ok tt)
       | (d', Err e) => (d', Err e)
       | (d', Panic) => (d', Panic)
       end.

(** ** Identities *)

Definition find_identity (d : AcctDB) (provider providerID : string) : option UserIdentity :=
  List.find (fun i => live_identity i && String.eqb (i_Provider i) provider && String.eqb (i_ProviderID i) providerID)
    (rows (user_identities d)).

(** Users and identities are joined on the row, the soft delete of the user being
    checked in the WHERE clause. *)
Definition ListAdminSlackUserIDs (sql : nat -> bool) (d : AcctDB) : res acct_error (list string) :=
  guard! sql 0%nat else ErrSQL in
  Ok (omap (fun i =>
        match users d !! i_UserID i with
        | Some u =>
            if live_identity i && String.eqb (i_Provider i) IdentityTypeSlack
               && contains_str (u_Roles u) RoleAdmin && live_user u
            then Some (i_ProviderID i) else None
        | None => None
        end) (rows (user_identities d))).

Definition GetIdentityByProviderID (sql : nat -> bool) (d : AcctDB) (provider providerID : string) :
    res acct_error UserIdentity :=
  guard! sql 0%nat else ErrSQL in
  match find_identity d provider providerID with None => Err ErrIdentityNotFound | Some i => Ok i end.

Definition GetUserByIdentity (sql : nat -> bool) (d : AcctDB) (provider providerID : string) : res acct_error User :=
  let! identity := GetIdentityByProviderID sql d provider providerID in
  GetUserByUID (fun i => sql (1 + i)%nat) d (i_UserID identity).

Definition live_identity_at (d : AcctDB) (uid : uuid) : option UserIdentity :=
  match user_identities d !! uid with
  | Some i => if live_identity i then Some i else None
  | None => None
  end.

Definition GetUserIdentity (sql : nat -> bool) (d : AcctDB) (uid : uuid) : res acct_error UserIdentity :=
  guard! sql 0%nat else ErrSQL in
  match live_identity_at d uid with None => Err ErrIdentityNotFound | Some i => Ok i end.

Definition GetUserIdentities (sql : nat -> bool) (d : AcctDB) (userID : uuid) : res acct_error (list UserIdentity) :=
  guard! sql 0%nat else ErrSQL in
  Ok (order_by (fun a b => i_CreatedAt a <=? i_CreatedAt b)
        (List.filter (fun i => live_identity i && N.eqb (i_UserID i) userID) (rows (user_identities d)))).

(** The foreign key and [idx_user_identities_provider_id] guard the INSERT. *)
Definition CreateUserIdentity (sql : nat -> bool) (d : AcctDB) (identity : UserIdentity) (uid : uuid)
    (now now' : time) : ares UserIdentity :=
  let i := {| i_UID := uid; i_UserID := i_UserID identity; i_Provider := i_Provider identity;
              i_ProviderID := i_ProviderID identity; i_Email := i_Email identity;
              i_DisplayName := i_DisplayName identity; i_Metadata := i_Metadata identity;
              i_CreatedAt := now; i_UpdatedAt := now'; i_DeletedAt := i_DeletedAt identity |} in
  if sql 0%nat && is_none (user_identities d !! uid) && negb (is_none (users d !! i_UserID i))
     && (negb (live_identity i) || is_none (find_identity d (i_Provider i) (i_ProviderID i)))
  then (set_identities d (<[uid := i]> (user_identities d)), Ok i)
  else (d, Err ErrSQL).

Definition DeleteUserIdentity (sql : nat -> bool) (d : AcctDB) (uid : uuid) (now : time) : ares unit :=
  if negb (sql 0%nat) then (d, Err ErrSQL)
  else match live_identity_at d uid with
       | None => (d, Err ErrIdentityNotFound)
       | Some i => (set_identities d (<[uid := deleted_identity i now]> (user_identities d)), Ok tt)
       end.

(** ** MongoDB verifiers *)

(** The stored credentials of [xdg-go/scram]: password, salt, iterations. *)
Class ScramKeys := { stored_credentials : string -> bytes -> Z -> option (bytes * bytes) }.

Definition MongoSCRAMIterations : Z := 15000.
Definition mongoSCRAMSaltLength : Z := 16.

(** One transaction under the row lock, merging into what the row holds. *)
Definition persistUserMongoVerifier (sql : nat -> bool) (d : AcctDB) (uid : uuid) (creds : MongoSCRAMCreds)
    (now : time) : ares unit :=
  if negb (sql 0%nat && sql 1%nat) then (d, Err ErrSQL)
  else match live_user_at d uid with
       | None => (d, Err ErrSQL)
       | Some u =>
           let pd := default {| up_Oracle := None; up_MongoDB := None |} (u_ProtocolData u) in
           let pd := {| up_Oracle := up_Oracle pd; up_MongoDB := Some {| mu_SCRAMSHA256 := Some creds |} |} in
           if sql 2%nat && sql 3%nat
           then (set_users d (<[uid := with_protocol u (Some pd) now]> (users d)), Ok tt)
           else (d, Err ErrSQL)
       end.

Section MongoVerifier.
Context {GCM : AEAD} {UT : UUIDText} {SK : ScramKeys}.

Definition deriveMongoSCRAM (password : string) (salt : bytes) (iters : Z) : res acct_error (bytes * bytes) :=
  match stored_credentials password salt iters with Some c => Ok c | None => Err ErrScram end.

(** [nonces]: the two nonces [crypto.Encrypt] draws. *)
Definition SetUserMongoVerifier (sql : nat -> bool) (d : AcctDB) (uid : uuid) (password : string)
    (encryptionKey : bytes) (rnd : option bytes) (nonces : option bytes * option bytes) (now : time) : ares unit :=
  match rnd with
  | None => (d, Err ErrRandom)
  | Some salt =>
      match deriveMongoSCRAM password salt MongoSCRAMIterations with
      | Ok (storedKey, serverKey) =>
          let aad := UserAAD (uuid_String uid) in
          match Encrypt nonces.1 storedKey encryptionKey aad, Encrypt nonces.2 serverKey encryptionKey aad with
          | Ok encStored, Ok encServer =>
              persistUserMongoVerifier sql d uid
                {| ms_Salt := salt; ms_Iterations := MongoSCRAMIterations;
                   ms_StoredKey := encStored; ms_ServerKey := encServer |} now
          | Err e, _ => (d, Err (ErrCrypto e))
          | _, Err e => (d, Err (ErrCrypto e))
          | _, _ => (d, Panic)
          end
      | Err e => (d, Err e)
      | Panic => (d, Panic)
      end
  end.
End MongoVerifier.

(** ** Groups *)

Section Groups.
Context {C : Collation}.

Definition group_name_taken (d : AcctDB) (but : option uuid) (name : string) : bool :=
  existsb (fun g => negb (bool_decide (Some (ug_UID g) = but)) && String.eqb (lower (ug_Name g)) (lower name))
    (rows (user_groups d)).

Definition CreateUserGroup (sql : nat -> bool) (d : AcctDB) (group : UserGroup) (uid : uuid) (now : time) :
    ares UserGroup :=
  let result := {| ug_UID := uid; ug_Name := ug_Name group; ug_Description := ug_Description group;
                   ug_CreatedBy := ug_CreatedBy group; ug_CreatedAt := now |} in
  if negb (sql 0%nat) || negb (is_none (user_groups d !! uid)) then (d, Err ErrSQL)
  else if group_name_taken d None (ug_Name group) then (d, Err ErrUserGroupDuplicate)
  else (set_groups d (<[uid := result]> (user_groups d)) (user_group_members d), Ok result).

Definition GetUserGroup (sql : nat -> bool) (d : AcctDB) (uid : uuid) : res acct_error UserGroup :=
  guard! sql 0%nat else ErrSQL in
  match user_groups d !! uid with None => Err ErrUserGroupNotFound | Some g => Ok g end.

Definition ListUserGroups (sql : nat -> bool) (d : AcctDB) : res acct_error (list UserGroup) :=
  guard! sql 0%nat else ErrSQL in
  Ok (order_by (fun a b => collate (ug_Name a) (ug_Name b)) (rows (user_groups d))).

Definition UpdateUserGroup (sql : nat -> bool) (d : AcctDB) (group : UserGroup) : ares unit :=
  if negb (sql 0%nat) then (d, Err ErrSQL)
  else match user_groups d !! ug_UID group with
       | None => (d, Err ErrUserGroupNotFound)
       | Some old =>
           if group_name_taken d (Some (ug_UID group)) (ug_Name group) then (d, Err ErrUserGroupDuplicate)
           else (set_groups d
                   (<[ug_UID group := {| ug_UID := ug_UID old; ug_Name := ug_Name group;
                        ug_Description := ug_Description group; ug_CreatedBy := ug_CreatedBy old;
                        ug_CreatedAt := ug_CreatedAt old |}]> (user_groups d))
                   (user_group_members d), Ok tt)
       end.

(** A hard delete: the memberships go by cascade. *)
Definition DeleteUserGroup (sql : nat -> bool) (d : AcctDB) (uid : uuid) : ares unit :=
  if negb (sql 0%nat) then (d, Err ErrSQL)
  else match user_groups d !! uid with
       | None => (d, Err ErrUserGroupNotFound)
       | Some _ => (set_groups d (delete uid (user_groups d))
                      (filter (fun m => m.1 <> uid) (user_group_members d)), Ok tt)
       end.
End Groups.

(** INSERT of one membership with both foreign keys, [ON CONFLICT DO NOTHING]. *)
Definition insert_member (ok : bool) (d : AcctDB) (groupUID userUID : uuid) : ares unit :=
  if ok && negb (is_none (user_groups d !! groupUID)) && negb (is_none (users d !! userUID))
  then (set_groups d (user_groups d) ({[ (groupUID, userUID) ]} ∪ user_group_members d), Ok tt)
  else (d, Err ErrSQL).

Definition AddUserToGroup (sql : nat -> bool) (d : AcctDB) (groupUID userUID : uuid) : ares unit :=
  insert_member (sql 0%nat) d groupUID userUID.

Definition RemoveUserFromGroup (sql : nat -> bool) (d : AcctDB) (groupUID userUID : uuid) : ares unit :=
  if sql 0%nat
  then (set_groups d (user_groups d) (user_group_members d ∖ {[ (groupUID, userUID) ]}), Ok tt)
  else (d, Err ErrSQL).

Definition members_of (d : AcctDB) (groupUID : uuid) : list uuid :=
  map snd (List.filter (fun m => N.eqb m.1 groupUID) (elements (user_group_members d))).
Definition groups_of (d : AcctDB) (userUID : uuid) : list uuid :=
  map fst (List.filter (fun m => N.eqb m.2 userUID) (elements (user_group_members d))).

Definition ListGroupMemberUIDs (sql : nat -> bool) (d : AcctDB) (groupUID : uuid) : res acct_error (list uuid) :=
  guard! sql 0%nat else ErrSQL in Ok (members_of d groupUID).

Definition ListGroupMembers {C : Collation} (sql : nat -> bool) (d : AcctDB) (groupUID : uuid) :
    res acct_error (list User) :=
  guard! sql 0%nat else ErrSQL in
  Ok (order_by (fun a b => collate (u_Username a) (u_Username b)) (omap (live_user_at d) (members_of d groupUID))).

Definition ListUserGroupUIDs (sql : nat -> bool) (d : AcctDB) (userUID : uuid) : res acct_error (list uuid) :=
  guard! sql 0%nat else ErrSQL in Ok (groups_of d userUID).

Definition ListGroupsForUser {C : Collation} (sql : nat -> bool) (d : AcctDB) (userUID : uuid) :
    res acct_error (list UserGroup) :=
  guard! sql 0%nat else ErrSQL in
  Ok (order_by (fun a b => collate (ug_Name a) (ug_Name b)) (omap (fun g => user_groups d !! g) (groups_of d userUID))).

(** The INSERT loop of the two [Set...] operations; [i] is the next statement. *)
Fixpoint insert_members (sql : nat -> bool) (i : nat) (d : AcctDB) (pairs : list (uuid * uuid)) : ares unit :=
  match pairs with
  | [] => (d, Ok tt)
  | (g, u) :: pairs =>
      match insert_member (sql i) d g u with
      | (d', Ok _) => insert_members sql (S i) d' pairs
      | r => r
      end
  end.

(** BEGIN, DELETE, the INSERTs, COMMIT. *)
Definition replace_members (sql : nat -> bool) (d : AcctDB) (kept : gset (uuid * uuid))
    (pairs : list (uuid * uuid)) : ares unit :=
  if negb (sql 0%nat) then (d, Err ErrSQL)
  else in_tx (sql (2 + length pairs)%nat)
         (fun d => if negb (sql 1%nat) then (d, Err ErrSQL)
                   else insert_members sql 2 (set_groups d (user_groups d) kept) pairs) d.

Definition SetGroupMembers (sql : nat -> bool) (d : AcctDB) (groupUID : uuid) (userUIDs : list uuid) : ares unit :=
  replace_members sql d (filter (fun m => m.1 <> groupUID) (user_group_members d))
    (map (fun u => (groupUID, u)) userUIDs).

Definition SetUserGroups (sql : nat -> bool) (d : AcctDB) (userUID : uuid) (groupUIDs : list uuid) : ares unit :=
  replace_members sql d (filter (fun m => m.2 <> userUID) (user_group_members d))
    (map (fun g => (g, userUID)) groupUIDs).

(** ** Audit log *)

(** [uid] is the UUIDv7 the process draws. *)
Definition LogAuditEvent (sql : nat -> bool) (d : AcctDB) (event : AuditLog) (uid : uuid) (now : time) : ares unit :=
  let e := {| al_UID := uid; al_EventType := al_EventType event; al_UserID := al_UserID event;
              al_PerformedBy := al_PerformedBy event; al_Details := al_Details event; al_CreatedAt := now |} in
  if sql 0%nat && is_none (audit_log d !! uid)
  then (set_audit d (<[uid := e]> (audit_log d)), Ok tt)
  else (d, Err ErrSQL).

Record AuditFilter := {
  af_EventType : option string;
  af_UserID : option uuid;
  af_PerformedBy : option uuid;
  af_StartTime : option time;
  af_EndTime : option time;
  af_BeforeUID : option uuid;
  af_Limit : Z;
  af_Offset : Z
}.

(** A comparison with a NULL column is not true. *)
Definition null_match (f : option uuid) (x : option uuid) : bool :=
  match f with
  | None => true
  | Some y => match x with Some x => N.eqb x y | None => false end
  end.

Definition audit_selected (f : AuditFilter) (e : AuditLog) : bool :=
  match af_EventType f with None => true | Some t => String.eqb (al_EventType e) t end
  && null_match (af_UserID f) (al_UserID e)
  && null_match (af_PerformedBy f) (al_PerformedBy e)
  && match af_StartTime f with None => true | Some t => t <=? al_CreatedAt e end
  && match af_EndTime f with None => true | Some t => al_CreatedAt e <=? t end
  && match af_BeforeUID f with None => true | Some u => N.ltb (al_UID e) u end.

Definition ListAuditEvents (sql : nat -> bool) (d : AcctDB) (f : AuditFilter) : res acct_error (list AuditLog) :=
  guard! sql 0%nat else ErrSQL in
  Ok (paginate (af_Limit f) (af_Offset f)
        (order_desc (fun e => Z.of_N (al_UID e)) (List.filter (audit_selected f) (rows (audit_log d))))).
