(* ===== verification/ApiKeys.v ===== *)
(** * API keys, web sessions, OAuth states and device authorization
    ([internal/store/api_keys.go], [oauth_states.go], [device_auth.go])

    On the tables of [Accounts].  A key is stored as an Argon2id hash under the
    unique prefix made of its first eight characters; [VerifyAPIKey] goes
    through the authentication cache when the store has one.  Operations that
    read and then write in two statements are composed of their two halves, so
    that interleavings of two sessions can be written down. *)

From Stdlib Require Import ZArith Lia List Bool String Ascii.
From stdpp Require Import base list gmap strings.
From S2P Require Import Prelude GoStrings Encoding Models AuthCache GrantStore Crypto Accounts.

Open Scope string_scope.
Open Scope Z_scope.

Definition APIKeyPrefix := "dbb_".
Definition WebKeyPrefix := "web_".
Definition APIKeyRandomLength : Z := 32.
Definition APIKeyPrefixLength : Z := 8.
Definition WebSessionMaxDuration : Z := 60 * Minute.

Definition charset := "abcdefghijklmnopqrstuvwxyz0123456789".

(** [charset[b % byte(len(charset))]] *)
Definition charset_at (b : Z) : ascii :=
  default zero (String.get (Z.to_nat (b mod slen charset)) charset).

Definition generateKey (keyPrefix : string) (rnd : option bytes) : res acct_error (string * string) :=
  match rnd with
  | None => Err ErrRandom
  | Some randomBytes =>
      let fullKey := keyPrefix ++ string_of_list_ascii (map charset_at randomBytes) in
      Ok (fullKey, String.substring 0 (Z.to_nat APIKeyPrefixLength) fullKey)
  end.

Definition generateAPIKey (rnd : option bytes) := generateKey APIKeyPrefix rnd.
Definition generateWebKey (rnd : option bytes) := generateKey WebKeyPrefix rnd.

(** INSERT INTO api_keys: primary key, [unique_key_prefix], the user's foreign
    key, [chk_key_type] and the width of the prefix column. *)
Definition insert_key (ok : bool) (d : AcctDB) (k : APIKey) : ares APIKey :=
  if ok && is_none (api_keys d !! k_ID k)
     && negb (existsb (fun k' => String.eqb (k_KeyPrefix k') (k_KeyPrefix k)) (rows (api_keys d)))
     && negb (is_none (users d !! k_UserID k))
  then (set_keys d (<[k_ID k := k]> (api_keys d)), Ok k)
  else (d, Err ErrSQL).

(** What the process draws while it creates a key. *)
Record key_rnd := {
  kr_key : option bytes;                       (* generateKey *)
  kr_hash_salt : option bytes;                 (* HashPassword *)
  kr_user_salts : option bytes * option bytes; (* EnsureUserOracleSalts *)
  kr_key_salts : option bytes * option bytes;  (* the per-key salts of the fallback *)
  kr_nonces : option bytes * option bytes      (* the two calls of Encrypt *)
}.

Definition with_oracle (k : APIKey) (o : OracleAPIKeyData) : APIKey :=
  {| k_ID := k_ID k; k_UserID := k_UserID k; k_Name := k_Name k; k_KeyHash := k_KeyHash k;
     k_KeyPrefix := k_KeyPrefix k; k_KeyType := k_KeyType k; k_ExpiresAt := k_ExpiresAt k;
     k_LastUsedAt := k_LastUsedAt k; k_RequestCount := k_RequestCount k; k_CreatedAt := k_CreatedAt k;
     k_RevokedAt := k_RevokedAt k; k_RevokedBy := k_RevokedBy k;
     k_ProtocolData := Some {| pd_Oracle := Some o |} |}.

Definition lift_crypto {A} (r : res crypto_error A) : res acct_error A :=
  match r with Ok a => Ok a | Err e => Err (ErrCrypto e) | Panic => Panic end.

Section Keys.
Context {A2 : Argon2} {GCM : AEAD} {HS : Hashes} {dig : Digest} {order : MapOrder}.

Definition storeO5LogonVerifiers (k : APIKey) (plainKey : string) (encryptionKey salt6949 salt18453 : bytes)
    (userSalt : bool) (nonces : option bytes * option bytes) : res acct_error APIKey :=
  let aad := APIKeyAAD (k_KeyPrefix k) in
  let verifierKey := DeriveO5LogonVerifierKey plainKey salt6949 in
  let! encVerifier := lift_crypto (Encrypt nonces.1 verifierKey encryptionKey aad) in
  let verifier18453 := DeriveO5LogonVerifier18453Key plainKey salt18453 in
  let! encVerifier18453 := lift_crypto (Encrypt nonces.2 verifier18453 encryptionKey aad) in
  Ok (with_oracle k {| ok_Salt6949 := salt6949; ok_Verifier6949 := encVerifier;
                       ok_Salt18453 := salt18453; ok_Verifier18453 := encVerifier18453;
                       ok_UserSalt := userSalt |}).

(** Fresh salts per key: the legacy scheme. *)
Definition computeO5LogonVerifier (k : APIKey) (plainKey : string) (encryptionKey : bytes) (r : key_rnd) :
    res acct_error APIKey :=
  let! ' (salt, _) := lift_crypto (GenerateO5LogonVerifier (kr_key_salts r).1 plainKey) in
  let! ' (salt18453, _) := lift_crypto (GenerateO5LogonVerifier18453 (kr_key_salts r).2 plainKey) in
  storeO5LogonVerifiers k plainKey encryptionKey salt salt18453 false (kr_nonces r).

Definition computeO5LogonVerifierWithSalts (k : APIKey) (plainKey : string) (encryptionKey salt6949 salt18453 : bytes)
    (nonces : option bytes * option bytes) : res acct_error APIKey :=
  storeO5LogonVerifiers k plainKey encryptionKey salt6949 salt18453 true nonces.

Definition attachO5LogonVerifiers (sql : nat -> bool) (d : AcctDB) (k : APIKey) (plainKey : string)
    (encryptionKey : bytes) (r : key_rnd) (now : time) : ares APIKey :=
  match EnsureUserOracleSalts sql d (k_UserID k) (kr_user_salts r).1 (kr_user_salts r).2 now with
  | (d', Ok salts) =>
      (d', computeO5LogonVerifierWithSalts k plainKey encryptionKey (ou_Salt6949 salts) (ou_Salt18453 salts) (kr_nonces r))
  | (d', Err _) => (d', computeO5LogonVerifier k plainKey encryptionKey r)
  | (d', Panic) => (d', Panic)
  end.

Definition new_key (id userID : uuid) (name hash prefix keyType : string) (expiresAt : option time) (now : time) : APIKey :=
  {| k_ID := id; k_UserID := userID; k_Name := name; k_KeyHash := hash; k_KeyPrefix := prefix;
     k_KeyType := keyType; k_ExpiresAt := expiresAt; k_LastUsedAt := None; k_RequestCount := 0;
     k_CreatedAt := now; k_RevokedAt := None; k_RevokedBy := None; k_ProtocolData := None |}.

(** The part [CreateAPIKey] and [CreateAPIKeyWithValue] share: verifiers when
    there is an encryption key, then the INSERT. *)
Definition finish_key (sql : nat -> bool) (d : AcctDB) (k : APIKey) (plainKey : string)
    (encryptionKey : option bytes) (r : key_rnd) (now : time) : ares APIKey :=
  let plain d := insert_key (sql 3%nat) d k in
  match encryptionKey with
  | Some (b :: ek) =>
      match attachO5LogonVerifiers sql d k plainKey (b :: ek) r now with
      | (d', Ok k') => insert_key (sql 3%nat) d' k'
      | (d', Err e) => (d', Err e)
      | (d', Panic) => (d', Panic)
      end
  | _ => plain d
  end.

Definition CreateAPIKey (sql : nat -> bool) (d : AcctDB) (userID : uuid) (name : string) (expiresAt : option time)
    (encryptionKey : option bytes) (id : uuid) (r : key_rnd) (now : time) : ares (APIKey * string) :=
  match (let! ' (plainKey, prefix) := generateAPIKey (kr_key r) in
         let! keyHash := lift_crypto (HashPassword (kr_hash_salt r) plainKey) in
         Ok (plainKey, prefix, keyHash)) with
  | Ok (plainKey, prefix, keyHash) =>
      match finish_key sql d (new_key id userID name keyHash prefix KeyTypeAPI expiresAt now) plainKey encryptionKey r now with
      | (d', Ok k) => (d', Ok (k, plainKey))
      | (d', Err e) => (d', Err e)
      | (d', Panic) => (d', Panic)
      end
  | Err e => (d, Err e)
  | Panic => (d, Panic)
  end.

Definition CreateAPIKeyWithValue (sql : nat -> bool) (d : AcctDB) (userID : uuid) (name plainKey : string)
    (expiresAt : option time) (encryptionKey : option bytes) (id : uuid) (r : key_rnd) (now : time) : ares APIKey :=
  if slen plainKey <? APIKeyPrefixLength then (d, Err ErrAPIKeyTooShort)
  else match lift_crypto (HashPassword (kr_hash_salt r) plainKey) with
       | Ok keyHash =>
           finish_key sql d
             (new_key id userID name keyHash (String.substring 0 (Z.to_nat APIKeyPrefixLength) plainKey)
                KeyTypeAPI expiresAt now) plainKey encryptionKey r now
       | Err e => (d, Err e)
       | Panic => (d, Panic)
       end.

Definition CreateWebSession (sql : nat -> bool) (d : AcctDB) (userID : uuid) (id : uuid) (r : key_rnd) (now now' : time) :
    ares (APIKey * string) :=
  match (let! ' (plainKey, prefix) := generateWebKey (kr_key r) in
         let! keyHash := lift_crypto (HashPassword (kr_hash_salt r) plainKey) in
         Ok (plainKey, prefix, keyHash)) with
  | Ok (plainKey, prefix, keyHash) =>
      let expiresAt := now + WebSessionMaxDuration in
      match insert_key (sql 0%nat) d (new_key id userID "Web Session" keyHash prefix KeyTypeWeb (Some expiresAt) now') with
      | (d', Ok k) => (d', Ok (k, plainKey))
      | (d', Err e) => (d', Err e)
      | (d', Panic) => (d', Panic)
      end
  | Err e => (d, Err e)
  | Panic => (d, Panic)
  end.

Definition GetAPIKeyByPrefix (sql : nat -> bool) (d : AcctDB) (prefix : string) : res acct_error APIKey :=
  guard! sql 0%nat else ErrSQL in
  match List.find (fun k => String.eqb (k_KeyPrefix k) prefix) (rows (api_keys d)) with
  | None => Err ErrAPIKeyNotFound
  | Some k => Ok k
  end.

Definition GetAPIKeyByID (sql : nat -> bool) (d : AcctDB) (id : uuid) : res acct_error APIKey :=
  guard! sql 0%nat else ErrSQL in
  match api_keys d !! id with None => Err ErrAPIKeyNotFound | Some k => Ok k end.

(** The hash check, through the cache when there is one. *)
Definition check_key (cache : option AuthCache) (plainKey keyHash : string) (now now' : time) :
    option AuthCache * res crypto_error bool :=
  match cache with
  | Some c => let '(c, r) := AuthCache.VerifyKey c plainKey keyHash now now' in (Some c, r)
  | None => (None, Crypto.VerifyPassword keyHash plainKey)
  end.

Definition VerifyAPIKey (sql : nat -> bool) (d : AcctDB) (cache : option AuthCache) (plainKey : string)
    (now now' now'' : time) : option AuthCache * res acct_error APIKey :=
  if slen plainKey <? APIKeyPrefixLength then (cache, Err ErrAPIKeyNotFound)
  else
    match GetAPIKeyByPrefix sql d (String.substring 0 (Z.to_nat APIKeyPrefixLength) plainKey) with
    | Ok k =>
        let '(cache, valid) := check_key cache plainKey (k_KeyHash k) now now' in
        (cache,
         match valid with
         | Ok true =>
             guard! negb (IsRevoked k) else ErrAPIKeyRevoked in
             guard! negb (IsExpired now'' k) else ErrAPIKeyExpired in
             Ok k
         | Panic => Panic
         | _ => Err ErrAPIKeyNotFound
         end)
    | Err e => (cache, Err e)
    | Panic => (cache, Panic)
    end.

Record APIKeyFilter := {
  kf_UserID : option uuid;
  kf_KeyType : option string;
  kf_IncludeAll : bool;
  kf_Limit : Z;
  kf_Offset : Z
}.

Definition key_selected (f : APIKeyFilter) (now : time) (k : APIKey) : bool :=
  opt_match (kf_UserID f) (k_UserID k)
  && match kf_KeyType f with None => true | Some t => String.eqb (k_KeyType k) t end
  && (kf_IncludeAll f
      || (is_none (k_RevokedAt k)
          && match k_ExpiresAt k with None => true | Some e => now <? e end)).

Definition ListAPIKeys (sql : nat -> bool) (d : AcctDB) (f : APIKeyFilter) (now : time) : res acct_error (list APIKey) :=
  guard! sql 0%nat else ErrSQL in
  Ok (paginate (kf_Limit f) (kf_Offset f)
        (order_desc k_CreatedAt (List.filter (key_selected f now) (rows (api_keys d))))).

Definition revoked_key (k : APIKey) (now : time) (by_ : uuid) : APIKey :=
  {| k_ID := k_ID k; k_UserID := k_UserID k; k_Name := k_Name k; k_KeyHash := k_KeyHash k;
     k_KeyPrefix := k_KeyPrefix k; k_KeyType := k_KeyType k; k_ExpiresAt := k_ExpiresAt k;
     k_LastUsedAt := k_LastUsedAt k; k_RequestCount := k_RequestCount k; k_CreatedAt := k_CreatedAt k;
     k_RevokedAt := Some now; k_RevokedBy := Some by_; k_ProtocolData := k_ProtocolData k |}.

Definition RevokeAPIKey (sql : nat -> bool) (d : AcctDB) (id revokedBy : uuid) (now : time) : ares unit :=
  if negb (sql 0%nat) then (d, Err ErrSQL)
  else match api_keys d !! id with
       | Some k =>
           if is_none (k_RevokedAt k)
           then (set_keys d (<[id := revoked_key k now revokedBy]> (api_keys d)), Ok tt)
           else (d, Err ErrAPIKeyNotFound)
       | None => (d, Err ErrAPIKeyNotFound)
       end.

Definition used_key (k : APIKey) (now : time) : APIKey :=
  {| k_ID := k_ID k; k_UserID := k_UserID k; k_Name := k_Name k; k_KeyHash := k_KeyHash k;
     k_KeyPrefix := k_KeyPrefix k; k_KeyType := k_KeyType k; k_ExpiresAt := k_ExpiresAt k;
     k_LastUsedAt := Some now; k_RequestCount := k_RequestCount k + 1; k_CreatedAt := k_CreatedAt k;
     k_RevokedAt := k_RevokedAt k; k_RevokedBy := k_RevokedBy k; k_ProtocolData := k_ProtocolData k |}.

Definition IncrementAPIKeyUsage (sql : nat -> bool) (d : AcctDB) (id : uuid) (now : time) : ares unit :=
  if sql 0%nat then (set_keys d (alter (fun k => used_key k now) id (api_keys d)), Ok tt) else (d, Err ErrSQL).

(** Statement 0 reads the key, 1 to 3 belong to [EnsureUserOracleSalts], 4 writes. *)
Definition UpgradeAPIKeyO5LogonVerifiers (sql : nat -> bool) (d : AcctDB) (id : uuid) (plainKey : string)
    (encryptionKey : bytes) (r : key_rnd) (now : time) : ares unit :=
  match encryptionKey with
  | [] => (d, Ok tt)
  | _ =>
      match GetAPIKeyByID sql d id with
      | Ok k =>
          match APIKey_OracleData k with
          | Some od =>
              if ok_UserSalt od then (d, Ok tt)
              else
                match EnsureUserOracleSalts (fun i => sql (1 + i)%nat) d (k_UserID k) (kr_user_salts r).1
                        (kr_user_salts r).2 now with
                | (d', Ok salts) =>
                    match computeO5LogonVerifierWithSalts k plainKey encryptionKey (ou_Salt6949 salts)
                            (ou_Salt18453 salts) (kr_nonces r) with
                    | Ok k' =>
                        if sql 4%nat
                        then (set_keys d' (alter (fun row => match APIKey_OracleData k' with
                                                              | Some o => with_oracle row o
                                                              | None => row
                                                              end) id (api_keys d')), Ok tt)
                        else (d', Err ErrSQL)
                    | Err e => (d', Err e)
                    | Panic => (d', Panic)
                    end
                | (d', Err e) => (d', Err e)
                | (d', Panic) => (d', Panic)
                end
          | None => (d, Ok tt)
          end
      | Err e => (d, Err e)
      | Panic => (d, Panic)
      end
  end.
End Keys.

(** ** OAuth states *)

(** INSERT: the state token is unique. *)
Definition CreateOAuthState (sql : nat -> bool) (d : AcctDB) (state : OAuthState) (uid : uuid) (now : time) :
    ares OAuthState :=
  let st := {| os_UID := uid; os_State := os_State state; os_Provider := os_Provider state;
               os_RedirectURL := os_RedirectURL state; os_Metadata := os_Metadata state;
               os_ExpiresAt := os_ExpiresAt state;
               os_CreatedAt := if IsZero (os_CreatedAt state) then now else os_CreatedAt state |} in
  if sql 0%nat && is_none (oauth_states d !! uid)
     && negb (existsb (fun s => String.eqb (os_State s) (os_State st)) (rows (oauth_states d)))
  then (set_states d (<[uid := st]> (oauth_states d)), Ok st)
  else (d, Err ErrSQL).

(** [expires_at > NOW()] *)
Definition unexpired (now : time) (s : OAuthState) : bool := now <? os_ExpiresAt s.

Definition find_state (d : AcctDB) (p : OAuthState -> bool) : option OAuthState :=
  List.find p (rows (oauth_states d)).

(** The SELECT and the DELETE of [ConsumeOAuthState]. *)
Definition consume_select (ok : bool) (d : AcctDB) (stateToken : string) (now : time) : res acct_error OAuthState :=
  guard! ok else ErrSQL in
  match find_state d (fun s => String.eqb (os_State s) stateToken && unexpired now s) with
  | None => Err ErrOAuthStateNotFound
  | Some s => Ok s
  end.

Definition delete_state (ok : bool) (d : AcctDB) (uid : uuid) : ares unit :=
  if ok then (set_states d (delete uid (oauth_states d)), Ok tt) else (d, Err ErrSQL).

Definition ConsumeOAuthState (sql : nat -> bool) (d : AcctDB) (stateToken : string) (now : time) : ares OAuthState :=
  match consume_select (sql 0%nat) d stateToken now with
  | Ok s =>
      match delete_state (sql 1%nat) d (os_UID s) with
      | (d', Ok _) => (d', Ok s)
      | (d', Err e) => (d', Err e)
      | (d', Panic) => (d', Panic)
      end
  | Err e => (d, Err e)
  | Panic => (d, Panic)
  end.

Definition CleanupExpiredOAuthStates (sql : nat -> bool) (d : AcctDB) (now : time) : ares Z :=
  if sql 0%nat
  then (set_states d (filter (fun p => now < os_ExpiresAt p.2) (oauth_states d)),
        Ok (zlen (List.filter (fun s => negb (unexpired now s)) (rows (oauth_states d)))))
  else (d, Err ErrSQL).

(** ** Device authorization *)

Definition DeviceAuthProvider := "device".
Definition DeviceAuthTTL : Z := 10 * Minute.
Definition DeviceAuthStatusPending := "pending".
Definition DeviceAuthStatusApproved := "approved".
Definition DeviceAuthStatusDenied := "denied".

Record DeviceAuthRequest := {
  da_UID : uuid;
  da_ClientName : string;
  da_UserCode : string;
  da_Status : string;
  da_ExpiresAt : time
}.

Definition has_user_code (userCode : string) (s : OAuthState) : bool :=
  match os_Metadata s with Some m => String.eqb (dm_UserCode m) userCode | None => false end.

Definition device_code_row (userCode : string) (now : time) (s : OAuthState) : bool :=
  String.eqb (os_Provider s) DeviceAuthProvider && has_user_code userCode s && unexpired now s.

Definition deviceAuthUserCodeExists (ok : bool) (d : AcctDB) (userCode : string) (now : time) : res acct_error bool :=
  guard! ok else ErrSQL in
  Ok (0 <? zlen (List.filter (device_code_row userCode now) (rows (oauth_states d)))).

(** Statement 0 counts, statement 1 inserts; [now] is the clock of the count and
    of [time.Now], [now'] the default of [created_at]. *)
Definition CreateDeviceAuthRequest (sql : nat -> bool) (d : AcctDB) (clientName deviceCode userCode : string)
    (uid : uuid) (now now' : time) : ares DeviceAuthRequest :=
  match deviceAuthUserCodeExists (sql 0%nat) d userCode now with
  | Ok true => (d, Err ErrDeviceAuthUserCodeTaken)
  | Ok false =>
      let meta := {| dm_ClientName := clientName; dm_UserCode := userCode; dm_Status := DeviceAuthStatusPending;
                     dm_UserID := None; dm_EncryptedKey := []; dm_KeyPrefix := "" |} in
      let state := {| os_UID := Nil; os_State := deviceCode; os_Provider := DeviceAuthProvider;
                      os_RedirectURL := ""; os_Metadata := Some meta; os_ExpiresAt := now + DeviceAuthTTL;
                      os_CreatedAt := 0 |} in
      match CreateOAuthState (fun i => sql (1 + i)%nat) d state uid now' with
      | (d', Ok st) =>
          (d', Ok {| da_UID := os_UID st; da_ClientName := clientName; da_UserCode := userCode;
                     da_Status := DeviceAuthStatusPending; da_ExpiresAt := os_ExpiresAt st |})
      | (d', Err e) => (d', Err e)
      | (d', Panic) => (d', Panic)
      end
  | Err e => (d, Err e)
  | Panic => (d, Panic)
  end.

(** The newest unexpired row with the code, and its metadata. *)
Definition getDeviceAuthStateByUserCode (ok : bool) (d : AcctDB) (userCode : string) (now : time) :
    res acct_error (OAuthState * deviceAuthMetadata) :=
  guard! ok else ErrSQL in
  match order_desc os_CreatedAt (List.filter (device_code_row userCode now) (rows (oauth_states d))) with
  | [] => Err ErrDeviceAuthNotFound
  | s :: _ => match os_Metadata s with Some m => Ok (s, m) | None => Err ErrDecodeMetadata end
  end.

Definition device_request (s : OAuthState) (m : deviceAuthMetadata) : DeviceAuthRequest :=
  {| da_UID := os_UID s; da_ClientName := dm_ClientName m; da_UserCode := dm_UserCode m;
     da_Status := dm_Status m; da_ExpiresAt := os_ExpiresAt s |}.

Definition GetDeviceAuthByUserCode (sql : nat -> bool) (d : AcctDB) (userCode : string) (now : time) :
    res acct_error DeviceAuthRequest :=
  let! ' (state, meta) := getDeviceAuthStateByUserCode (sql 0%nat) d userCode now in
  Ok (device_request state meta).

Definition with_meta (s : OAuthState) (m : deviceAuthMetadata) : OAuthState :=
  {| os_UID := os_UID s; os_State := os_State s; os_Provider := os_Provider s; os_RedirectURL := os_RedirectURL s;
     os_Metadata := Some m; os_ExpiresAt := os_ExpiresAt s; os_CreatedAt := os_CreatedAt s |}.

Definition is_pending (s : OAuthState) : bool :=
  match os_Metadata s with Some m => String.eqb (dm_Status m) DeviceAuthStatusPending | None => false end.

(** The conditional UPDATE: only a row that is still pending and unexpired. *)
Definition respond_update (ok : bool) (d : AcctDB) (uid : uuid) (m : deviceAuthMetadata) (now : time) : ares unit :=
  if negb ok then (d, Err ErrSQL)
  else match oauth_states d !! uid with
       | Some s =>
           if String.eqb (os_Provider s) DeviceAuthProvider && unexpired now s && is_pending s
           then (set_states d (<[uid := with_meta s m]> (oauth_states d)), Ok tt)
           else (d, Err ErrDeviceAuthAlreadyResolved)
       | None => (d, Err ErrDeviceAuthAlreadyResolved)
       end.

(** The metadata a decision writes. *)
Definition decided_meta (m : deviceAuthMetadata) (userID : uuid) (approve : bool) (encryptedKey : bytes)
    (keyPrefix : string) : deviceAuthMetadata :=
  {| dm_ClientName := dm_ClientName m; dm_UserCode := dm_UserCode m;
     dm_Status := if approve then DeviceAuthStatusApproved else DeviceAuthStatusDenied;
     dm_UserID := Some userID;
     dm_EncryptedKey := if approve then encryptedKey else dm_EncryptedKey m;
     dm_KeyPrefix := if approve then keyPrefix else dm_KeyPrefix m |}.

Definition RespondToDeviceAuthByUserCode (sql : nat -> bool) (d : AcctDB) (userCode : string) (userID : uuid)
    (approve : bool) (encryptedKey : bytes) (keyPrefix : string) (now now' : time) : ares unit :=
  match getDeviceAuthStateByUserCode (sql 0%nat) d userCode now with
  | Ok (state, meta) =>
      if String.eqb (dm_Status meta) DeviceAuthStatusPending
      then respond_update (sql 1%nat) d (os_UID state) (decided_meta meta userID approve encryptedKey keyPrefix) now'
      else (d, Err ErrDeviceAuthAlreadyResolved)
  | Err e => (d, Err e)
  | Panic => (d, Panic)
  end.

(** The SELECT of [PollDeviceAuthToken]. *)
Definition poll_select (ok : bool) (d : AcctDB) (deviceCode : string) (now : time) :
    res acct_error (OAuthState * deviceAuthMetadata) :=
  guard! ok else ErrSQL in
  match find_state d (fun s => String.eqb (os_State s) deviceCode
                               && String.eqb (os_Provider s) DeviceAuthProvider && unexpired now s) with
  | None => Err ErrDeviceAuthNotFound
  | Some s => match os_Metadata s with Some m => Ok (s, m) | None => Err ErrDecodeMetadata end
  end.

(** The rest, on the tables it finds: a terminal state is deleted and delivered. *)
Definition poll_finish (ok : bool) (d : AcctDB) (s : OAuthState) (m : deviceAuthMetadata) :
    ares (DeviceAuthRequest * bytes) :=
  if String.eqb (dm_Status m) DeviceAuthStatusPending then (d, Ok (device_request s m, []))
  else match delete_state ok d (os_UID s) with
       | (d', Ok _) => (d', Ok (device_request s m, dm_EncryptedKey m))
       | (d', Err e) => (d', Err e)
       | (d', Panic) => (d', Panic)
       end.

Definition PollDeviceAuthToken (sql : nat -> bool) (d : AcctDB) (deviceCode : string) (now : time) :
    ares (DeviceAuthRequest * bytes) :=
  match poll_select (sql 0%nat) d deviceCode now with
  | Ok (s, m) => poll_finish (sql 1%nat) d s m
  | Err e => (d, Err e)
  | Panic => (d, Panic)
  end.
