(* ===== verification/AccountSafety.v ===== *)
(** * Invariants of the account tables

    Everything the operations of [Accounts] and [ApiKeys] can do to the tables
    is one step relation; the constraints the schema promises hold in every
    reachable state, whatever statements fail, and what a step may do to a row
    is bounded by [acct_evolves]. *)

From Stdlib Require Import ZArith Lia List Bool String Ascii.
From stdpp Require Import base list gmap strings relations.
From S2P Require Import Prelude GoStrings Encoding Models AuthCache GrantStore Crypto Accounts ApiKeys.

Open Scope string_scope.
Open Scope Z_scope.

(** ** Tables *)

Section Tables.
Context {V K : Type}.
Implicit Types m : gmap uuid V.

(** Rows sit under their own key. *)
Definition keyed (uid : V -> uuid) m : Prop := forall k v, m !! k = Some v -> uid v = k.

(** A unique index on [key] over the rows [p] selects. *)
Definition unique_on (p : V -> bool) (key : V -> K) m : Prop :=
  forall k1 k2 v1 v2, m !! k1 = Some v1 -> m !! k2 = Some v2 ->
    p v1 = true -> p v2 = true -> key v1 = key v2 -> k1 = k2.

Lemma keyed_insert uid m k v : keyed uid m -> uid v = k -> keyed uid (<[k := v]> m).
Proof. intros H Hv k' v' [[-> <-]|[_ E]]%lookup_insert_Some; [done|by apply H]. Qed.

Lemma keyed_weaken uid m m' :
  keyed uid m -> (forall k v, m' !! k = Some v -> exists w, m !! k = Some w /\ uid v = uid w) -> keyed uid m'.
Proof. intros H Hw k v E. destruct (Hw k v E) as (w & Ew & ->). by apply H. Qed.

Lemma unique_on_insert p key m k v :
  unique_on p key m ->
  (p v = true -> forall k' v', k' <> k -> m !! k' = Some v' -> p v' = true -> key v' <> key v) ->
  unique_on p key (<[k := v]> m).
Proof.
  intros H Hn k1 k2 v1 v2 E1 E2 P1 P2 Ek.
  apply lookup_insert_Some in E1 as [[<- <-]|[N1 E1]]; apply lookup_insert_Some in E2 as [[<- <-]|[N2 E2]].
  - done.
  - destruct (Hn P1 k2 v2 (not_eq_sym N2) E2 P2); done.
  - destruct (Hn P2 k1 v1 (not_eq_sym N1) E1 P1); done.
  - by eapply H.
Qed.

(** Rows that keep their key, or leave the index, cannot break it. *)
Lemma unique_on_weaken p key m m' :
  unique_on p key m ->
  (forall k v, m' !! k = Some v -> p v = true -> exists w, m !! k = Some w /\ p w = true /\ key v = key w) ->
  unique_on p key m'.
Proof.
  intros H Hw k1 k2 v1 v2 E1 E2 P1 P2 Ek.
  destruct (Hw _ _ E1 P1) as (w1 & F1 & Q1 & K1). destruct (Hw _ _ E2 P2) as (w2 & F2 & Q2 & K2).
  eapply H; [exact F1|exact F2|done|done|congruence].
Qed.

Lemma existsb_rows_false (f : V -> bool) m k v :
  existsb f (rows m) = false -> m !! k = Some v -> f v = false.
Proof.
  intros H E. destruct (f v) eqn:F; [|done].
  assert (existsb f (rows m) = true); [|congruence].
  apply existsb_exists. exists v. split; [|done]. apply elem_rows. by exists k.
Qed.

Lemma find_rows_Some (f : V -> bool) m v :
  List.find f (rows m) = Some v -> f v = true /\ exists k, m !! k = Some v.
Proof. intros H. apply find_some in H as [Hin Hf]. split; [done|]. by apply elem_rows. Qed.

Lemma find_rows_None (f : V -> bool) m k v :
  List.find f (rows m) = None -> m !! k = Some v -> f v = false.
Proof. intros H E. apply (find_none f (rows m)); [done|]. apply elem_rows. by exists k. Qed.

(** A lookup by a unique key finds the one row there is. *)
Lemma find_rows_unique p key (f : V -> bool) m k v :
  unique_on p key m -> m !! k = Some v -> f v = true ->
  (forall w, f w = true -> p w = true /\ key w = key v) ->
  List.find f (rows m) = Some v.
Proof.
  intros Hu E Hf Hsel. destruct (List.find f (rows m)) as [w|] eqn:Hw.
  - apply find_rows_Some in Hw as (Fw & k' & E').
    destruct (Hsel w Fw) as (Pw & Kw). destruct (Hsel v Hf) as (Pv & _).
    assert (k' = k) as -> by (eapply Hu; eauto). congruence.
  - rewrite (find_rows_None f m k v Hw E) in Hf. done.
Qed.
End Tables.

(** ** What the schema promises *)

Section Invariant.
Context {C : Collation}.

Record acct_ok (d : AcctDB) : Prop := {
  users_keyed : keyed u_UID (users d);
  usernames_unique : unique_on live_user u_Username (users d);
  identities_keyed : keyed i_UID (user_identities d);
  identities_unique : unique_on live_identity (fun i => (i_Provider i, i_ProviderID i)) (user_identities d);
  identities_owned : forall k i, user_identities d !! k = Some i -> is_Some (users d !! i_UserID i);
  groups_keyed : keyed ug_UID (user_groups d);
  group_names_unique : unique_on (fun _ => true) (fun g => lower (ug_Name g)) (user_groups d);
  members_exist : forall g u, (g, u) ∈ user_group_members d -> is_Some (user_groups d !! g) /\ is_Some (users d !! u);
  audit_keyed : keyed al_UID (audit_log d);
  keys_keyed : keyed k_ID (api_keys d);
  prefixes_unique : unique_on (fun _ => true) k_KeyPrefix (api_keys d);
  keys_owned : forall k a, api_keys d !! k = Some a -> is_Some (users d !! k_UserID a);
  states_keyed : keyed os_UID (oauth_states d);
  tokens_unique : unique_on (fun _ => true) os_State (oauth_states d)
}.

Definition empty_accounts : AcctDB :=
  {| users := ∅; user_identities := ∅; user_groups := ∅; user_group_members := ∅; audit_log := ∅;
     api_keys := ∅; oauth_states := ∅ |}.

Lemma empty_accounts_ok : acct_ok empty_accounts.
Proof. split; cbn; repeat intro; try done; set_solver. Qed.

(** One lemma per table: what a new content of it must satisfy. *)
Lemma ok_set_users d m :
  acct_ok d -> keyed u_UID m -> unique_on live_user u_Username m ->
  (forall k, is_Some (users d !! k) -> is_Some (m !! k)) -> acct_ok (set_users d m).
Proof. intros [] Hk Hu Hm. split; cbn; try done; naive_solver. Qed.

Lemma ok_set_identities d m :
  acct_ok d -> keyed i_UID m -> unique_on live_identity (fun i => (i_Provider i, i_ProviderID i)) m ->
  (forall k i, m !! k = Some i -> is_Some (users d !! i_UserID i)) -> acct_ok (set_identities d m).
Proof. intros [] Hk Hu Hm. by split. Qed.

Lemma ok_set_groups d m mem :
  acct_ok d -> keyed ug_UID m -> unique_on (fun _ => true) (fun g => lower (ug_Name g)) m ->
  (forall g u, (g, u) ∈ mem -> is_Some (m !! g) /\ is_Some (users d !! u)) -> acct_ok (set_groups d m mem).
Proof. intros [] Hk Hu Hm. by split. Qed.

Lemma ok_set_audit d m : acct_ok d -> keyed al_UID m -> acct_ok (set_audit d m).
Proof. intros [] Hk. by split. Qed.

Lemma ok_set_keys d m :
  acct_ok d -> keyed k_ID m -> unique_on (fun _ => true) k_KeyPrefix m ->
  (forall k a, m !! k = Some a -> is_Some (users d !! k_UserID a)) -> acct_ok (set_keys d m).
Proof. intros [] Hk Hu Hm. by split. Qed.

Lemma ok_set_states d m :
  acct_ok d -> keyed os_UID m -> unique_on (fun _ => true) os_State m -> acct_ok (set_states d m).
Proof. intros [] Hk Hu. by split. Qed.

(** Rewriting one row of a table without touching its keys. *)
Lemma ok_user_row d k u u' :
  acct_ok d -> users d !! k = Some u -> u_UID u' = u_UID u -> u_Username u' = u_Username u ->
  (live_user u' = true -> live_user u = true) -> acct_ok (set_users d (<[k := u']> (users d))).
Proof.
  intros H E Hid Hn Hl. apply ok_set_users; [done| | |].
  - apply keyed_insert; [apply H|]. rewrite Hid. by apply H.
  - apply unique_on_insert; [apply H|]. intros P k' v' Hne E' P' Heq.
    apply Hne. eapply (usernames_unique d H); eauto. congruence.
  - intros k' Hk'. destruct (decide (k = k')) as [->|]; [by rewrite lookup_insert_eq|by rewrite lookup_insert_ne].
Qed.

Lemma ok_key_row d k a a' :
  acct_ok d -> api_keys d !! k = Some a -> k_ID a' = k_ID a -> k_KeyPrefix a' = k_KeyPrefix a ->
  k_UserID a' = k_UserID a -> acct_ok (set_keys d (<[k := a']> (api_keys d))).
Proof.
  intros H E Hid Hp Hu. apply ok_set_keys; [done| | |].
  - apply keyed_insert; [apply H|]. rewrite Hid. by apply H.
  - apply unique_on_insert; [apply H|]. intros _ k' v' Hne E' _ Heq.
    apply Hne. eapply (prefixes_unique d H); eauto. congruence.
  - intros k' a2 [[<- <-]|[_ E']]%lookup_insert_Some; [rewrite Hu|]; by eapply (keys_owned d H).
Qed.

(** ** The operations *)

Lemma live_user_at_Some d uid u : live_user_at d uid = Some u -> users d !! uid = Some u /\ live_user u = true.
Proof. unfold live_user_at. destruct (users d !! uid) as [v|]; [|done]. destruct (live_user v) eqn:E; naive_solver. Qed.

Lemma CreateUser_ok sql d name hash roles uid n n' :
  acct_ok d -> acct_ok (CreateUser sql d name hash roles uid n n').1.
Proof.
  intros H. unfold CreateUser. destruct (negb (sql 0%nat) || _) eqn:E0; [done|].
  destruct (username_taken d name) eqn:Et; [done|]. cbn [fst].
  apply orb_false_iff in E0 as [_ E0]. apply bool_decide_eq_false, eq_None_not_Some in E0.
  apply ok_set_users; [done| | |].
  - by apply keyed_insert; [apply H|].
  - apply unique_on_insert; [apply H|]. cbn. intros _ k' v' _ E' Hl Heq.
    pose proof (existsb_rows_false _ _ _ _ Et E') as F. cbn in F. rewrite Hl, Heq, String.eqb_refl in F. done.
  - intros k Hk. destruct (decide (uid = k)) as [->|]; [by rewrite lookup_insert_eq|by rewrite lookup_insert_ne].
Qed.

Lemma UpdateUser_ok sql d uid up n n' : acct_ok d -> acct_ok (UpdateUser sql d uid up n n').1.
Proof.
  intros H. unfold UpdateUser. destruct (negb _); [done|]. destruct (live_user_at d uid) as [u|] eqn:E; [|done].
  apply live_user_at_Some in E as [E El]. by eapply ok_user_row.
Qed.

Lemma in_tx_ok {A} commit (body : AcctDB -> ares A) d :
  acct_ok d -> acct_ok (body d).1 -> acct_ok (in_tx commit body d).1.
Proof. intros H Hb. unfold in_tx. destruct (body d) as [d' [a|e|]]; cbn in *; [by destruct commit|done..]. Qed.

Lemma DeleteUser_ok sql d uid now : acct_ok d -> acct_ok (DeleteUser sql d uid now).1.
Proof.
  intros H. unfold DeleteUser. apply in_tx_ok; [done|]. unfold delete_user_body. destruct (negb (sql 0%nat)); [done|].
  set (f := fun i => _). set (d1 := set_identities d _).
  assert (H1 : acct_ok d1).
  { apply ok_set_identities; [done| | |].
    - apply (keyed_weaken _ (user_identities d)); [apply H|]. intros k v Ek.
      rewrite lookup_fmap in Ek. destruct (user_identities d !! k) as [w|] eqn:Ew; [|done].
      cbn in Ek. injection Ek as <-. exists w. split; [done|]. unfold f. by destruct (_ && _).
    - apply (unique_on_weaken _ _ (user_identities d)); [apply H|]. intros k v Ek P.
      rewrite lookup_fmap in Ek. destruct (user_identities d !! k) as [w|] eqn:Ew; [|done].
      cbn in Ek. injection Ek as <-. exists w. split; [done|]. unfold f in *.
      destruct (live_identity w && _) eqn:Eb; [done|]. done.
    - intros k v Ek. rewrite lookup_fmap in Ek. destruct (user_identities d !! k) as [w|] eqn:Ew; [|done].
      cbn in Ek. injection Ek as <-. pose proof (identities_owned d H k w Ew) as Ho. unfold f.
      by destruct (_ && _). }
  destruct (negb (sql 1%nat)); [done|]. destruct (live_user_at d1 uid) as [u|] eqn:E; [|done].
  apply live_user_at_Some in E as [E El]. by eapply ok_user_row.
Qed.

Lemma salts_write_ok sql d uid user s1 s2 now :
  acct_ok d -> acct_ok (ensure_salts_write sql d uid user s1 s2 now).1.
Proof.
  intros H. unfold ensure_salts_write. destruct s1, s2; [|done..]. destruct (negb _); [done|].
  unfold salts_cas. destruct (live_user_at d uid) as [u|] eqn:E; [|done].
  destruct (is_none _); [|done]. apply live_user_at_Some in E as [E El]. by eapply ok_user_row.
Qed.

Lemma EnsureUserOracleSalts_ok sql d uid s1 s2 now :
  acct_ok d -> acct_ok (EnsureUserOracleSalts sql d uid s1 s2 now).1.
Proof.
  intros H. unfold EnsureUserOracleSalts. destruct (ensure_salts_read sql d uid) as [[u [o|]]|e|]; try done.
  by apply salts_write_ok.
Qed.

Lemma EnsureDefaultAdmin_ok sql d hash uid n n' : acct_ok d -> acct_ok (EnsureDefaultAdmin sql d hash uid n n').1.
Proof.
  intros H. unfold EnsureDefaultAdmin. destruct (negb _); [done|]. destruct (0 <? _); [done|].
  pose proof (CreateUser_ok (fun i => sql (1 + i)%nat) d "admin" hash [RoleAdmin; RoleConnector] uid n n' H) as Hc.
  by destruct (CreateUser _ _ _ _ _ _ _ _) as [d' [u|e|]].
Qed.

Lemma persist_verifier_ok sql d uid creds now : acct_ok d -> acct_ok (persistUserMongoVerifier sql d uid creds now).1.
Proof.
  intros H. unfold persistUserMongoVerifier. destruct (negb _); [done|].
  destruct (live_user_at d uid) as [u|] eqn:E; [|done]. destruct (sql 2%nat && sql 3%nat); [|done].
  apply live_user_at_Some in E as [E El]. by eapply ok_user_row.
Qed.

Lemma CreateUserIdentity_ok sql d i uid n n' : acct_ok d -> acct_ok (CreateUserIdentity sql d i uid n n').1.
Proof.
  intros H. unfold CreateUserIdentity. cbn [i_UserID i_Provider i_ProviderID].
  match goal with |- context [if ?c then _ else _] => destruct c eqn:Ec end; [|done].
  rewrite !andb_true_iff in Ec. destruct Ec as [[[_ Hk] Hu] Hf]. cbn [fst].
  apply ok_set_identities; [done| | |].
  - by apply keyed_insert; [apply H|].
  - apply unique_on_insert; [apply H|]. intros P k' v' Hne E' P' Heq. cbn in *.
    rewrite P in Hf. cbn in Hf. destruct (find_identity d _ _) as [w|] eqn:Ef; [done|].
    unfold find_identity in Ef. pose proof (find_rows_None _ _ _ _ Ef E') as F. cbn in F.
    injection Heq as H1 H2. rewrite P', H1, H2, !String.eqb_refl in F. done.
  - intros k' v' [[<- <-]|[_ E']]%lookup_insert_Some; cbn.
    + destruct (users d !! _); [by eexists|done].
    + by eapply (identities_owned d H).
Qed.

Lemma DeleteUserIdentity_ok sql d uid now : acct_ok d -> acct_ok (DeleteUserIdentity sql d uid now).1.
Proof.
  intros H. unfold DeleteUserIdentity. destruct (negb _); [done|].
  unfold live_identity_at. destruct (user_identities d !! uid) as [i|] eqn:E; [|done].
  destruct (live_identity i) eqn:El; [|done]. cbn [fst]. apply ok_set_identities; [done| | |].
  - apply keyed_insert; [apply H|]. cbn. by apply H.
  - by apply unique_on_insert; [apply H|].
  - intros k' v' [[<- <-]|[_ E']]%lookup_insert_Some; cbn; by eapply (identities_owned d H).
Qed.

Lemma CreateUserGroup_ok sql d g uid now : acct_ok d -> acct_ok (CreateUserGroup sql d g uid now).1.
Proof.
  intros H. unfold CreateUserGroup. destruct (negb (sql 0%nat) || _); [done|].
  destruct (group_name_taken d None (ug_Name g)) eqn:Et; [done|]. apply ok_set_groups; [done| | |].
  - by apply keyed_insert; [apply H|].
  - apply unique_on_insert; [apply H|]. cbn. intros _ k' v' Hne E' _ Heq.
    pose proof (existsb_rows_false _ _ _ _ Et E') as F. cbn in F.
    rewrite Heq, String.eqb_refl in F. done.
  - intros g' u Hm. destruct (members_exist d H g' u Hm) as [Hg Hu]. split; [|done].
    apply lookup_insert_is_Some'. by right.
Qed.

Lemma UpdateUserGroup_ok sql d g : acct_ok d -> acct_ok (UpdateUserGroup sql d g).1.
Proof.
  intros H. unfold UpdateUserGroup. destruct (negb _); [done|].
  destruct (user_groups d !! ug_UID g) as [old|] eqn:E; [|done].
  destruct (group_name_taken d (Some (ug_UID g)) (ug_Name g)) eqn:Et; [done|]. apply ok_set_groups; [done| | |].
  - apply keyed_insert; [apply H|]. cbn. by apply H.
  - apply unique_on_insert; [apply H|]. cbn. intros _ k' v' Hne E' _ Heq.
    pose proof (existsb_rows_false _ _ _ _ Et E') as F. cbn in F.
    rewrite Heq, String.eqb_refl, andb_true_r in F. apply negb_false_iff, bool_decide_eq_true in F.
    injection F as F. apply Hne. rewrite <- (groups_keyed d H k' v' E'). done.
  - intros g' u Hm. destruct (members_exist d H g' u Hm) as [Hg Hu]. split; [|done].
    apply lookup_insert_is_Some'. by right.
Qed.

Lemma DeleteUserGroup_ok sql d uid : acct_ok d -> acct_ok (DeleteUserGroup sql d uid).1.
Proof.
  intros H. unfold DeleteUserGroup. destruct (negb _); [done|].
  destruct (user_groups d !! uid) as [g|] eqn:E; [|done]. apply ok_set_groups; [done| | |].
  - apply (keyed_weaken _ (user_groups d)); [apply H|]. intros k v [_ Ek]%lookup_delete_Some. by exists v.
  - apply (unique_on_weaken _ _ (user_groups d)); [apply H|]. intros k v [_ Ek]%lookup_delete_Some _. by exists v.
  - intros g' u [Hne Hm]%elem_of_filter. cbn in Hne. destruct (members_exist d H g' u Hm) as [Hg Hu].
    split; [|done]. by rewrite lookup_delete_ne.
Qed.

Lemma insert_member_ok ok d g u : acct_ok d -> acct_ok (insert_member ok d g u).1.
Proof.
  intros H. unfold insert_member. destruct (ok && _ && _) eqn:Ec; [|done].
  rewrite !andb_true_iff in Ec. destruct Ec as [[_ Hg] Hu]. apply ok_set_groups; try apply H.
  intros g' u' [[= -> ->]%elem_of_singleton|Hm]%elem_of_union.
  - destruct (user_groups d !! g), (users d !! u); done.
  - by apply (members_exist d H).
Qed.

Lemma insert_members_ok sql pairs : forall i d, acct_ok d -> acct_ok (insert_members sql i d pairs).1.
Proof.
  induction pairs as [|[g u] pairs IH]; intros i d H; cbn [insert_members]; [done|].
  pose proof (insert_member_ok (sql i) d g u H) as Hm.
  destruct (insert_member (sql i) d g u) as [d' [[]|e|]]; cbn in *; [by apply IH|done..].
Qed.

Lemma fewer_members_ok d mem : acct_ok d -> mem ⊆ user_group_members d -> acct_ok (set_groups d (user_groups d) mem).
Proof. intros H Hs. apply ok_set_groups; try apply H. intros g u Hm. by apply (members_exist d H), Hs. Qed.

Lemma replace_members_ok sql d kept pairs :
  acct_ok d -> kept ⊆ user_group_members d -> acct_ok (replace_members sql d kept pairs).1.
Proof.
  intros H Hs. unfold replace_members. destruct (negb (sql 0%nat)); [done|]. apply in_tx_ok; [done|].
  destruct (negb (sql 1%nat)); [done|]. by apply insert_members_ok, fewer_members_ok.
Qed.

Lemma LogAuditEvent_ok sql d e uid now : acct_ok d -> acct_ok (LogAuditEvent sql d e uid now).1.
Proof.
  intros H. unfold LogAuditEvent. destruct (_ && _); [|done]. apply ok_set_audit; [done|].
  by apply keyed_insert; [apply H|].
Qed.

Lemma insert_key_ok ok d k : acct_ok d -> acct_ok (insert_key ok d k).1.
Proof.
  intros H. unfold insert_key. destruct (_ && _ && _ && _) eqn:Ec; [|done].
  rewrite !andb_true_iff in Ec. destruct Ec as [[_ Hp] Hu]. apply negb_true_iff in Hp.
  apply ok_set_keys; [done| | |].
  - by apply keyed_insert; [apply H|].
  - apply unique_on_insert; [apply H|]. intros _ k' v' Hne E' _ Heq.
    pose proof (existsb_rows_false _ _ _ _ Hp E') as F. cbn in F. by rewrite Heq, String.eqb_refl in F.
  - intros k' v' [[<- <-]|[_ E']]%lookup_insert_Some; [|by eapply (keys_owned d H)].
    destruct (users d !! _); [by eexists|done].
Qed.

Lemma RevokeAPIKey_ok sql d id by_ now : acct_ok d -> acct_ok (RevokeAPIKey sql d id by_ now).1.
Proof.
  intros H. unfold RevokeAPIKey. destruct (negb _); [done|]. destruct (api_keys d !! id) as [k|] eqn:E; [|done].
  destruct (is_none _); [|done]. by eapply ok_key_row.
Qed.

(** [alter] of a key row, by a function that keeps the indexed columns. *)
Lemma alter_key_ok d id f :
  acct_ok d -> (forall k, k_ID (f k) = k_ID k /\ k_KeyPrefix (f k) = k_KeyPrefix k /\ k_UserID (f k) = k_UserID k) ->
  acct_ok (set_keys d (alter f id (api_keys d))).
Proof.
  intros H Hf. destruct (api_keys d !! id) as [k|] eqn:E.
  - replace (alter f id (api_keys d)) with (<[id := f k]> (api_keys d)).
    + eapply ok_key_row; [done|exact E|apply Hf..].
    + apply map_eq. intros j. destruct (decide (id = j)) as [<-|].
      * by rewrite lookup_insert_eq, lookup_alter_eq, E.
      * by rewrite lookup_insert_ne, lookup_alter_ne.
  - replace (alter f id (api_keys d)) with (api_keys d).
    + apply ok_set_keys; [done|apply H..].
    + apply map_eq. intros j. destruct (decide (id = j)) as [<-|].
      * by rewrite lookup_alter_eq, E.
      * by rewrite lookup_alter_ne.
Qed.

Lemma CreateOAuthState_ok sql d s uid now : acct_ok d -> acct_ok (CreateOAuthState sql d s uid now).1.
Proof.
  intros H. unfold CreateOAuthState. cbn [os_State]. destruct (_ && _ && _) eqn:Ec; [|done].
  rewrite !andb_true_iff in Ec. destruct Ec as [_ Hp]. apply negb_true_iff in Hp.
  apply ok_set_states; [done| |].
  - by apply keyed_insert; [apply H|].
  - apply unique_on_insert; [apply H|]. cbn. intros _ k' v' Hne E' _ Heq.
    pose proof (existsb_rows_false _ _ _ _ Hp E') as F. cbn in F. by rewrite Heq, String.eqb_refl in F.
Qed.

Lemma fewer_states_ok d m : acct_ok d -> m ⊆ oauth_states d -> acct_ok (set_states d m).
Proof.
  intros H Hs. apply ok_set_states; [done| |].
  - intros k v E. apply (states_keyed d H). by eapply lookup_weaken.
  - apply (unique_on_weaken _ _ (oauth_states d)); [apply H|]. intros k v E _. exists v.
    by split; [eapply lookup_weaken|].
Qed.

Lemma respond_update_ok ok d uid m now : acct_ok d -> acct_ok (respond_update ok d uid m now).1.
Proof.
  intros H. unfold respond_update. destruct (negb ok); [done|]. destruct (oauth_states d !! uid) as [s|] eqn:E; [|done].
  destruct (_ && _ && _); [|done]. apply ok_set_states; [done| |].
  - apply keyed_insert; [apply H|]. cbn. by apply H.
  - apply unique_on_insert; [apply H|]. cbn. intros _ k' v' Hne E' _ Heq. apply Hne.
    by eapply (tokens_unique d H).
Qed.
End Invariant.

(** ** Histories *)

Section Steps.
Context {C : Collation} {A2 : Argon2} {GCM : AEAD} {HS : Hashes} {UT : UUIDText} {SK : ScramKeys}.

(** Every operation that writes, with any fate of its statements; the operations
    that read and write in separate statements also step by their halves. *)
Inductive acct_step : AcctDB -> AcctDB -> Prop :=
| st_create_user d sql name hash roles uid n n' : acct_step d (CreateUser sql d name hash roles uid n n').1
| st_update_user d sql uid up n n' : acct_step d (UpdateUser sql d uid up n n').1
| st_delete_user d sql uid n : acct_step d (DeleteUser sql d uid n).1
| st_salts d sql uid s1 s2 n : acct_step d (EnsureUserOracleSalts sql d uid s1 s2 n).1
| st_salts_write d sql uid user s1 s2 n : acct_step d (ensure_salts_write sql d uid user s1 s2 n).1
| st_default_admin d sql hash uid n n' : acct_step d (EnsureDefaultAdmin sql d hash uid n n').1
| st_verifier d sql uid pw ek rnd nonces n : acct_step d (SetUserMongoVerifier sql d uid pw ek rnd nonces n).1
| st_create_identity d sql i uid n n' : acct_step d (CreateUserIdentity sql d i uid n n').1
| st_delete_identity d sql uid n : acct_step d (DeleteUserIdentity sql d uid n).1
| st_create_group d sql g uid n : acct_step d (CreateUserGroup sql d g uid n).1
| st_update_group d sql g : acct_step d (UpdateUserGroup sql d g).1
| st_delete_group d sql uid : acct_step d (DeleteUserGroup sql d uid).1
| st_add_member d sql g u : acct_step d (AddUserToGroup sql d g u).1
| st_remove_member d sql g u : acct_step d (RemoveUserFromGroup sql d g u).1
| st_set_members d sql g us : acct_step d (SetGroupMembers sql d g us).1
| st_set_groups d sql u gs : acct_step d (SetUserGroups sql d u gs).1
| st_audit d sql e uid n : acct_step d (LogAuditEvent sql d e uid n).1
| st_create_key d sql u name exp ek id r n : acct_step d (CreateAPIKey sql d u name exp ek id r n).1
| st_create_key_value d sql u name plain exp ek id r n : acct_step d (CreateAPIKeyWithValue sql d u name plain exp ek id r n).1
| st_web_session d sql u id r n n' : acct_step d (CreateWebSession sql d u id r n n').1
| st_revoke_key d sql id by_ n : acct_step d (RevokeAPIKey sql d id by_ n).1
| st_use_key d sql id n : acct_step d (IncrementAPIKeyUsage sql d id n).1
| st_upgrade_key d sql id plain ek r n : acct_step d (UpgradeAPIKeyO5LogonVerifiers sql d id plain ek r n).1
| st_oauth_state d sql s uid n : acct_step d (CreateOAuthState sql d s uid n).1
| st_delete_state d ok uid : acct_step d (delete_state ok d uid).1
| st_consume d sql tok n : acct_step d (ConsumeOAuthState sql d tok n).1
| st_cleanup d sql n : acct_step d (CleanupExpiredOAuthStates sql d n).1
| st_device_create d sql c dc uc uid n n' : acct_step d (CreateDeviceAuthRequest sql d c dc uc uid n n').1
| st_device_respond d sql uc u ap ek kp n n' : acct_step d (RespondToDeviceAuthByUserCode sql d uc u ap ek kp n n').1
| st_respond_update d ok uid m n : acct_step d (respond_update ok d uid m n).1
| st_device_poll d sql dc n : acct_step d (PollDeviceAuthToken sql d dc n).1.

Lemma finish_key_ok sql d k plain ek r now : acct_ok d -> acct_ok (finish_key sql d k plain ek r now).1.
Proof.
  intros H. unfold finish_key. destruct ek as [[|b ek]|]; try by apply insert_key_ok.
  unfold attachO5LogonVerifiers.
  pose proof (EnsureUserOracleSalts_ok sql d (k_UserID k) (kr_user_salts r).1 (kr_user_salts r).2 now H) as Hs.
  destruct (EnsureUserOracleSalts _ _ _ _ _ _) as [d' [o|e|]]; cbn [fst] in Hs; [| |done].
  - destruct (computeO5LogonVerifierWithSalts _ _ _ _ _ _); [by apply insert_key_ok|done..].
  - destruct (computeO5LogonVerifier _ _ _ _); [by apply insert_key_ok|done..].
Qed.

Lemma CreateAPIKey_ok sql d u name exp ek id r n : acct_ok d -> acct_ok (CreateAPIKey sql d u name exp ek id r n).1.
Proof.
  intros H. unfold CreateAPIKey. destruct (let! ' _ := _ in _) as [[[plain prefix] hash]|e|]; [|done..].
  pose proof (finish_key_ok sql d (new_key id u name hash prefix KeyTypeAPI exp n) plain ek r n H) as Hf.
  by destruct (finish_key _ _ _ _ _ _ _) as [d' [k|e|]].
Qed.

Lemma CreateWebSession_ok sql d u id r n n' : acct_ok d -> acct_ok (CreateWebSession sql d u id r n n').1.
Proof.
  intros H. unfold CreateWebSession. destruct (let! ' _ := _ in _) as [[[plain prefix] hash]|e|]; [|done..].
  match goal with |- context [insert_key ?ok d ?k] => pose proof (insert_key_ok ok d k H) as Hk;
    by destruct (insert_key ok d k) as [d' [?|e|]] end.
Qed.

Lemma Upgrade_ok sql d id plain ek r n : acct_ok d -> acct_ok (UpgradeAPIKeyO5LogonVerifiers sql d id plain ek r n).1.
Proof.
  intros H. unfold UpgradeAPIKeyO5LogonVerifiers. destruct ek as [|b ek]; [done|].
  destruct (GetAPIKeyByID sql d id) as [k|e|]; [|done..].
  destruct (APIKey_OracleData k) as [od|]; [|done]. destruct (ok_UserSalt od); [done|].
  pose proof (EnsureUserOracleSalts_ok (fun i => sql (1 + i)%nat) d (k_UserID k) (kr_user_salts r).1 (kr_user_salts r).2 n H) as Hs.
  destruct (EnsureUserOracleSalts _ _ _ _ _ _) as [d' [o|e|]]; cbn [fst] in Hs; [|done..].
  destruct (computeO5LogonVerifierWithSalts _ _ _ _ _ _) as [k'|e|]; [|done..].
  destruct (sql 4%nat); [|done]. apply alter_key_ok; [done|]. intros k2. by destruct (APIKey_OracleData k').
Qed.

Lemma acct_step_ok d d' : acct_step d d' -> acct_ok d -> acct_ok d'.
Proof.
  intros Hs H. destruct Hs.
  - by apply CreateUser_ok.
  - by apply UpdateUser_ok.
  - by apply DeleteUser_ok.
  - by apply EnsureUserOracleSalts_ok.
  - by apply salts_write_ok.
  - by apply EnsureDefaultAdmin_ok.
  - unfold SetUserMongoVerifier. destruct rnd as [salt|]; [|done].
    destruct (deriveMongoSCRAM _ _ _) as [[sk srv]|e|]; [|done..].
    repeat (case_match; try done). by apply persist_verifier_ok.
  - by apply CreateUserIdentity_ok.
  - by apply DeleteUserIdentity_ok.
  - by apply CreateUserGroup_ok.
  - by apply UpdateUserGroup_ok.
  - by apply DeleteUserGroup_ok.
  - by apply insert_member_ok.
  - unfold RemoveUserFromGroup. destruct (sql 0%nat); [|done]. apply fewer_members_ok; [done|set_solver].
  - apply replace_members_ok; [done|]. set_solver.
  - apply replace_members_ok; [done|]. set_solver.
  - by apply LogAuditEvent_ok.
  - by apply CreateAPIKey_ok.
  - unfold CreateAPIKeyWithValue. destruct (_ <? _); [done|].
    destruct (lift_crypto _) as [h|e|]; [|done..]. by apply finish_key_ok.
  - by apply CreateWebSession_ok.
  - by apply RevokeAPIKey_ok.
  - unfold IncrementAPIKeyUsage. destruct (sql 0%nat); [|done]. by apply alter_key_ok.
  - by apply Upgrade_ok.
  - by apply CreateOAuthState_ok.
  - unfold delete_state. destruct ok; [|done]. apply fewer_states_ok; [done|]. apply delete_subseteq.
  - unfold ConsumeOAuthState, delete_state. destruct (consume_select _ _ _ _); [|done..].
    destruct (sql 1%nat); [|done]. apply fewer_states_ok; [done|]. apply delete_subseteq.
  - unfold CleanupExpiredOAuthStates. destruct (sql 0%nat); [|done]. apply fewer_states_ok; [done|].
    apply map_filter_subseteq.
  - unfold CreateDeviceAuthRequest. destruct (deviceAuthUserCodeExists _ _ _ _) as [[]|e|]; [done| |done..].
    match goal with |- context [CreateOAuthState ?q d ?st uid n'] => pose proof (CreateOAuthState_ok q d st uid n' H) as Hc;
      by destruct (CreateOAuthState q d st uid n') as [d2 [?|e|]] end.
  - unfold RespondToDeviceAuthByUserCode. destruct (getDeviceAuthStateByUserCode _ _ _ _) as [[s m]|e|]; [|done..].
    destruct (String.eqb _ _); [|done]. by apply respond_update_ok.
  - by apply respond_update_ok.
  - unfold PollDeviceAuthToken. destruct (poll_select _ _ _ _) as [[s m]|e|]; [|done..].
    unfold poll_finish. destruct (String.eqb _ _); [done|]. unfold delete_state. destruct (sql 1%nat); [|done].
    apply fewer_states_ok; [done|]. apply delete_subseteq.
Qed.

Lemma acct_steps_ok d d' : rtc acct_step d d' -> acct_ok d -> acct_ok d'.
Proof. induction 1; [done|]. intros H1. by apply IHrtc, (acct_step_ok x). Qed.
End Steps.
