(* ===== verification/AccountTheorems.v ===== *)
(** * Correctness of accounts, keys and device authorization

    The theorems about [Accounts] and [ApiKeys]: the constraints of the schema
    in every reachable state, the life of an API key from its creation to its
    revocation, the delivery of a device key, concurrent generation of Oracle
    salts, and group membership as the input of grant scopes. *)

From Stdlib Require Import ZArith Lia List Bool String Ascii.
From stdpp Require Import base list gmap strings relations pretty.
From S2P Require Import Prelude GoStrings Encoding Models AuthCache GrantStore Crypto Accounts ApiKeys AccountSafety.

Open Scope string_scope.
Open Scope Z_scope.

(** ** Keys over time *)

(** What later steps may do to a key: identity, hash, owner, type and expiry
    stay, and a revocation stays as it is. *)
Definition key_evolves (k k' : APIKey) : Prop :=
  k_ID k' = k_ID k /\ k_UserID k' = k_UserID k /\ k_KeyHash k' = k_KeyHash k /\
  k_KeyPrefix k' = k_KeyPrefix k /\ k_KeyType k' = k_KeyType k /\ k_ExpiresAt k' = k_ExpiresAt k /\
  (IsRevoked k = true -> k_RevokedAt k' = k_RevokedAt k).

Definition keys_evolve (d d' : AcctDB) : Prop :=
  forall id k, api_keys d !! id = Some k -> exists k', api_keys d' !! id = Some k' /\ key_evolves k k'.

Lemma key_evolves_refl k : key_evolves k k.
Proof. repeat split. Qed.

Lemma key_evolves_trans k1 k2 k3 : key_evolves k1 k2 -> key_evolves k2 k3 -> key_evolves k1 k3.
Proof.
  unfold key_evolves, IsRevoked. intros (A1 & A2 & A3 & A4 & A5 & A6 & A7) (B1 & B2 & B3 & B4 & B5 & B6 & B7).
  repeat split; try congruence. intros H. specialize (A7 H). rewrite A7 in B7. by apply B7.
Qed.

Lemma keys_evolve_refl d d' : api_keys d' = api_keys d -> keys_evolve d d'.
Proof. intros E id k H. exists k. rewrite E. split; [done|apply key_evolves_refl]. Qed.

Lemma keys_evolve_trans d1 d2 d3 : keys_evolve d1 d2 -> keys_evolve d2 d3 -> keys_evolve d1 d3.
Proof.
  intros H1 H2 id k E. destruct (H1 _ _ E) as (k' & E' & R1). destruct (H2 _ _ E') as (k'' & E'' & R2).
  exists k''. split; [done|]. by eapply key_evolves_trans.
Qed.

Lemma insert_key_evolves ok d k : keys_evolve d (insert_key ok d k).1.
Proof.
  unfold insert_key. destruct (_ && _ && _ && _) eqn:Ec; [|by apply keys_evolve_refl].
  rewrite !andb_true_iff in Ec. destruct Ec as [[[_ Hn] _] _]. intros id k0 E. exists k0. split; [|apply key_evolves_refl].
  cbn. rewrite lookup_insert_ne; [done|]. intros <-. by rewrite E in Hn.
Qed.

Lemma alter_key_evolves d id f : (forall k, key_evolves k (f k)) -> keys_evolve d (set_keys d (alter f id (api_keys d))).
Proof.
  intros Hf id' k E. cbn. destruct (decide (id = id')) as [<-|Hne].
  - exists (f k). split; [by rewrite lookup_alter_eq, E|done].
  - exists k. split; [by rewrite lookup_alter_ne|apply key_evolves_refl].
Qed.

(** Operations on other tables. *)
Ltac same_keys := apply keys_evolve_refl; repeat (case_match; simplify_eq/=; try done).

Lemma salts_same_keys sql d uid s1 s2 n :
  api_keys (EnsureUserOracleSalts sql d uid s1 s2 n).1 = api_keys d.
Proof.
  unfold EnsureUserOracleSalts, ensure_salts_write, salts_cas.
  repeat (case_match; simplify_eq/=; try done).
Qed.

Section Evolution.
Context {C : Collation} {A2 : Argon2} {GCM : AEAD} {HS : Hashes} {UT : UUIDText} {SK : ScramKeys}.

Lemma finish_key_evolves sql d k plain ek r n : keys_evolve d (finish_key sql d k plain ek r n).1.
Proof.
  unfold finish_key. destruct ek as [[|b ek]|]; try apply insert_key_evolves.
  unfold attachO5LogonVerifiers.
  pose proof (salts_same_keys sql d (k_UserID k) (kr_user_salts r).1 (kr_user_salts r).2 n) as Hs.
  destruct (EnsureUserOracleSalts _ _ _ _ _ _) as [d' [o|e|]]; cbn [fst] in Hs.
  - destruct (computeO5LogonVerifierWithSalts _ _ _ _ _ _); [|by apply keys_evolve_refl..].
    eapply keys_evolve_trans; [by apply keys_evolve_refl|apply insert_key_evolves].
  - destruct (computeO5LogonVerifier _ _ _ _); [|by apply keys_evolve_refl..].
    eapply keys_evolve_trans; [by apply keys_evolve_refl|apply insert_key_evolves].
  - by apply keys_evolve_refl.
Qed.

Lemma insert_members_same_keys sql pairs : forall i d, api_keys (insert_members sql i d pairs).1 = api_keys d.
Proof.
  induction pairs as [|[g u] pairs IH]; intros i d; cbn [insert_members]; [done|].
  unfold insert_member. destruct (_ && _ && _); cbn; [|done]. by rewrite IH.
Qed.

Lemma in_tx_same_keys {A} commit (body : AcctDB -> ares A) d :
  api_keys (body d).1 = api_keys d -> api_keys (in_tx commit body d).1 = api_keys d.
Proof. unfold in_tx. destruct (body d) as [d' [a|e|]]; cbn; [by destruct commit|done..]. Qed.

Lemma replace_members_same_keys sql d kept pairs : api_keys (replace_members sql d kept pairs).1 = api_keys d.
Proof.
  unfold replace_members. destruct (negb _); [done|]. apply in_tx_same_keys.
  destruct (negb _); [done|]. by rewrite insert_members_same_keys.
Qed.

Lemma acct_step_keys d d' : acct_step d d' -> keys_evolve d d'.
Proof.
  destruct 1.
  - unfold CreateUser. same_keys.
  - unfold UpdateUser. same_keys.
  - apply keys_evolve_refl, in_tx_same_keys. unfold delete_user_body. repeat (case_match; simplify_eq/=; try done).
  - apply keys_evolve_refl, salts_same_keys.
  - unfold ensure_salts_write, salts_cas. same_keys.
  - unfold EnsureDefaultAdmin, CreateUser. same_keys.
  - unfold SetUserMongoVerifier, persistUserMongoVerifier. same_keys.
  - unfold CreateUserIdentity. same_keys.
  - unfold DeleteUserIdentity. same_keys.
  - unfold CreateUserGroup. same_keys.
  - unfold UpdateUserGroup. same_keys.
  - unfold DeleteUserGroup. same_keys.
  - unfold AddUserToGroup, insert_member. same_keys.
  - unfold RemoveUserFromGroup. same_keys.
  - apply keys_evolve_refl, replace_members_same_keys.
  - apply keys_evolve_refl, replace_members_same_keys.
  - unfold LogAuditEvent. same_keys.
  - unfold CreateAPIKey. destruct (let! ' _ := _ in _) as [[[plain prefix] hash]|e|]; [|by apply keys_evolve_refl..].
    match goal with |- context [finish_key ?q d ?k ?p ?ek ?r ?n] =>
      pose proof (finish_key_evolves q d k p ek r n) as Hf; by destruct (finish_key q d k p ek r n) as [d2 [?|?|]] end.
  - unfold CreateAPIKeyWithValue. destruct (_ <? _); [by apply keys_evolve_refl|].
    destruct (lift_crypto _) as [h|e|]; [|by apply keys_evolve_refl..]. apply finish_key_evolves.
  - unfold CreateWebSession. destruct (let! ' _ := _ in _) as [[[plain prefix] hash]|e|]; [|by apply keys_evolve_refl..].
    match goal with |- context [insert_key ?ok d ?k] =>
      pose proof (insert_key_evolves ok d k) as Hf; by destruct (insert_key ok d k) as [d2 [?|?|]] end.
  - unfold RevokeAPIKey. destruct (negb _); [by apply keys_evolve_refl|].
    destruct (api_keys d !! id) as [k|] eqn:E; [|by apply keys_evolve_refl].
    destruct (is_none (k_RevokedAt k)) eqn:En; [|by apply keys_evolve_refl].
    intros id' k' E'. cbn. destruct (decide (id = id')) as [<-|Hne].
    + exists (revoked_key k n by_). split; [by rewrite lookup_insert_eq|].
      assert (k' = k) as -> by congruence. repeat split. unfold IsRevoked. by destruct (k_RevokedAt k).
    + exists k'. split; [by rewrite lookup_insert_ne|apply key_evolves_refl].
  - unfold IncrementAPIKeyUsage. destruct (sql 0%nat); [|by apply keys_evolve_refl].
    by apply alter_key_evolves.
  - unfold UpgradeAPIKeyO5LogonVerifiers. destruct ek as [|b ek]; [by apply keys_evolve_refl|].
    destruct (GetAPIKeyByID sql d id) as [k|e|]; [|by apply keys_evolve_refl..].
    destruct (APIKey_OracleData k) as [od|]; [|by apply keys_evolve_refl].
    destruct (ok_UserSalt od); [by apply keys_evolve_refl|].
    pose proof (salts_same_keys (fun i => sql (1 + i)%nat) d (k_UserID k) (kr_user_salts r).1 (kr_user_salts r).2 n) as Hs.
    destruct (EnsureUserOracleSalts _ _ _ _ _ _) as [d' [o|e|]]; cbn [fst] in Hs; [|by apply keys_evolve_refl..].
    destruct (computeO5LogonVerifierWithSalts _ _ _ _ _ _) as [k'|e|]; [|by apply keys_evolve_refl..].
    destruct (sql 4%nat); [|by apply keys_evolve_refl].
    eapply keys_evolve_trans; [by apply keys_evolve_refl|]. apply alter_key_evolves. intros k2.
    by destruct (APIKey_OracleData k').
  - unfold CreateOAuthState. same_keys.
  - unfold delete_state. same_keys.
  - unfold ConsumeOAuthState, delete_state. same_keys.
  - unfold CleanupExpiredOAuthStates. same_keys.
  - unfold CreateDeviceAuthRequest, CreateOAuthState. same_keys.
  - unfold RespondToDeviceAuthByUserCode, respond_update. same_keys.
  - unfold respond_update. same_keys.
  - unfold PollDeviceAuthToken, poll_finish, delete_state. same_keys.
Qed.

Lemma acct_steps_keys d d' : rtc acct_step d d' -> keys_evolve d d'.
Proof.
  induction 1; [by apply keys_evolve_refl|]. eapply keys_evolve_trans; [by apply acct_step_keys|done].
Qed.
End Evolution.

(** ** The tables *)

Section Theorems.
Context {C : Collation} {A2 : Argon2} {GCM : AEAD} {HS : Hashes} {UT : UUIDText} {SK : ScramKeys}.
Context {dig : Digest} {order : MapOrder}.

(** C33. Whatever operations run, in whatever interleaving and with whatever
    statements failing, the tables satisfy their constraints: rows under their
    own keys; no two live users with one name, no two live identities with one
    provider id, no two keys with one prefix, no two rows of the state table with
    one state token (the device code, for a device authorisation; user codes are not
    constrained), no two groups with one name up to case; and every identity, key
    and membership refers to user and group rows that exist, a user's possibly
    soft-deleted. *)
Theorem account_tables_consistent d : rtc acct_step empty_accounts d -> acct_ok d.
Proof. intros H. apply (acct_steps_ok _ _ H), empty_accounts_ok. Qed.

(** ** The life of a key *)

Lemma finish_key_Ok sql d k plain ek r n d' k' :
  finish_key sql d k plain ek r n = (d', Ok k') ->
  api_keys d' !! k_ID k = Some k' /\ k_KeyHash k' = k_KeyHash k /\ k_KeyPrefix k' = k_KeyPrefix k /\
  k_ExpiresAt k' = k_ExpiresAt k /\ k_RevokedAt k' = k_RevokedAt k /\ k_ID k' = k_ID k.
Proof.
  assert (Hins : forall ok d k0 d' k', insert_key ok d k0 = (d', Ok k') -> k' = k0 /\ api_keys d' !! k_ID k0 = Some k0).
  { intros ok d0 k0 d1 k1. unfold insert_key. destruct (_ && _ && _ && _); intros [= <- <-]. split; [done|].
    cbn. by rewrite lookup_insert_eq. }
  assert (Hst : forall s1 s2 us nc k2, storeO5LogonVerifiers k plain (match ek with Some e => e | None => [] end) s1 s2 us nc = Ok k2 ->
    k_ID k2 = k_ID k /\ k_KeyHash k2 = k_KeyHash k /\ k_KeyPrefix k2 = k_KeyPrefix k /\ k_ExpiresAt k2 = k_ExpiresAt k /\
    k_RevokedAt k2 = k_RevokedAt k).
  { intros s1 s2 us nc k2. unfold storeO5LogonVerifiers. intros (v1 & _ & (v2 & _ & [= <-])%rbind_Ok)%rbind_Ok. done. }
  unfold finish_key. destruct ek as [[|b ek]|].
  1,3: intros (-> & E)%Hins; done.
  unfold attachO5LogonVerifiers.
  destruct (EnsureUserOracleSalts _ _ _ _ _ _) as [d1 [o|e|]]; [| |done].
  - destruct (computeO5LogonVerifierWithSalts _ _ _ _ _ _) as [k2|e|] eqn:E2; [|done..].
    apply Hst in E2 as (I1 & I2 & I3 & I4 & I5). rewrite <- I1. intros (-> & E)%Hins. done.
  - destruct (computeO5LogonVerifier _ _ _ _) as [k2|e2|] eqn:E2; [|done..].
    unfold computeO5LogonVerifier in E2.
    apply rbind_Ok in E2 as ([s1 v1] & _ & ([s2 v2] & _ & E2)%rbind_Ok).
    apply Hst in E2 as (I1 & I2 & I3 & I4 & I5). rewrite <- I1. intros (-> & E)%Hins. done.
Qed.

Lemma slen_key_chars p bs : slen (p ++ string_of_list_ascii (map charset_at bs)) = slen p + zlen bs.
Proof.
  rewrite slen_app. f_equal. unfold slen, zlen. f_equal.
  induction bs as [|b bs IH]; cbn; [done|]. by rewrite IH.
Qed.

(** Lookups by prefix find the key that has it. *)
Lemma GetAPIKeyByPrefix_Ok sql d id k :
  acct_ok d -> api_keys d !! id = Some k -> sql 0%nat = true -> GetAPIKeyByPrefix sql d (k_KeyPrefix k) = Ok k.
Proof.
  intros H E Hs. unfold GetAPIKeyByPrefix. rewrite Hs.
  rewrite (find_rows_unique (fun _ => true) k_KeyPrefix _ (api_keys d) id k); [done|apply H|done|apply String.eqb_refl|].
  intros w. intros ?%String.eqb_eq. done.
Qed.

(** From the moment [CreateAPIKey] returns a key, through any history of later
    operations, its plaintext is recognised as that very key, and the answer of
    [VerifyAPIKey] is decided by its revocation and its expiry alone. *)
Theorem api_key_lifecycle sql d0 userID name expiresAt ek id r now d1 k plain d2 salt rb sql' n n' n'' :
  rtc acct_step empty_accounts d0 ->
  kr_key r = Some rb -> zlen rb = APIKeyRandomLength -> kr_hash_salt r = Some salt -> wf_bytes salt ->
  CreateAPIKey sql d0 userID name expiresAt ek id r now = (d1, Ok (k, plain)) ->
  rtc acct_step d1 d2 -> sql' 0%nat = true ->
  exists k2, api_keys d2 !! id = Some k2 /\ key_evolves k k2 /\ HasPrefix plain "dbb_" = true /\
    VerifyAPIKey sql' d2 None plain n n' n'' =
      (None, if IsRevoked k2 then Err ErrAPIKeyRevoked
             else if IsExpired n'' k2 then Err ErrAPIKeyExpired else Ok k2).
Proof.
  intros Hreach Hrb Hlen Hsalt Hwf Hc Hlater Hsql.
  assert (Hok : acct_ok d2).
  { apply (acct_steps_ok _ _ Hlater).
    replace d1 with (CreateAPIKey sql d0 userID name expiresAt ek id r now).1 by (by rewrite Hc).
    apply CreateAPIKey_ok, (acct_steps_ok _ _ Hreach), empty_accounts_ok. }
  unfold CreateAPIKey in Hc. rewrite Hrb, Hsalt in Hc. cbn [generateAPIKey generateKey rbind] in Hc.
  set (p := APIKeyPrefix ++ string_of_list_ascii (map charset_at rb)) in *.
  assert (Hp : slen p = 36) by (unfold p; rewrite slen_key_chars, Hlen; reflexivity).
  destruct (HashPassword (Some salt) p) as [h|e|] eqn:Eh; cbn [lift_crypto rbind] in Hc; [|done..].
  destruct (finish_key _ _ _ _ _ _ _) as [d3 [k3|e|]] eqn:Ef; [|done..]. injection Hc as -> -> <-.
  apply finish_key_Ok in Ef as (E1 & Hh & Hpre & _ & _ & _). cbn [new_key k_ID k_KeyHash k_KeyPrefix] in *.
  destruct (acct_steps_keys _ _ Hlater id k E1) as (k2 & E2 & Hev). pose proof Hev as (_ & _ & Hh2 & Hp2 & _).
  exists k2. split; [done|]. split; [done|]. split; [apply (HasPrefix_self "dbb_")|].
  unfold VerifyAPIKey. rewrite Hp. change (36 <? APIKeyPrefixLength) with false. cbv iota.
  replace (String.substring 0 (Z.to_nat APIKeyPrefixLength) p) with (k_KeyPrefix k2) by congruence.
  rewrite (GetAPIKeyByPrefix_Ok sql' d2 id k2 Hok E2 Hsql). cbn [check_key].
  replace (k_KeyHash k2) with h by congruence.
  rewrite (hash_verifies salt p h Hwf Eh). by destruct (IsRevoked k2), (IsExpired n'' k2).
Qed.

(** A revoked key never authenticates again: in every state reachable from one
    where the key is revoked, and whatever the authentication cache remembers,
    [VerifyAPIKey] does not answer with it. *)
Theorem revoked_key_refused d id k d' sql cache plain n n' n'' :
  acct_ok d -> api_keys d !! id = Some k -> IsRevoked k = true -> rtc acct_step d d' ->
  forall k', (VerifyAPIKey sql d' cache plain n n' n'').2 = Ok k' -> k_ID k' <> id.
Proof.
  intros Hok E Hr Hs k' Hv Hid.
  destruct (acct_steps_keys _ _ Hs id k E) as (k2 & E2 & Hev).
  unfold VerifyAPIKey in Hv. destruct (_ <? _); [done|].
  destruct (GetAPIKeyByPrefix sql d' _) as [k3|e|] eqn:Eg; [|done..].
  destruct (check_key cache plain (k_KeyHash k3) n n') as [c [[]|e|]]; cbn in Hv; try done.
  destruct (IsRevoked k3) eqn:Er; [done|]. destruct (IsExpired n'' k3); [done|]. injection Hv as ->.
  unfold GetAPIKeyByPrefix in Eg. destruct (sql 0%nat); [|done].
  destruct (List.find _ _) as [k4|] eqn:Ef; [|done]. injection Eg as ->.
  apply find_rows_Some in Ef as (_ & j & Ej).
  pose proof (keys_keyed d' (acct_steps_ok _ _ Hs Hok) j k' Ej) as Hj. rewrite Hid in Hj. subst j.
  assert (k2 = k') as -> by congruence.
  destruct Hev as (_ & _ & _ & _ & _ & _ & Hrev). unfold IsRevoked in *. rewrite (Hrev Hr) in Er.
  by destruct (k_RevokedAt k).
Qed.

(** ** Users over time *)

(** A deleted user stays deleted; Oracle salts, once there, stay as they are. *)
Definition user_evolves (u u' : User) : Prop :=
  u_UID u' = u_UID u /\ u_Username u' = u_Username u /\
  (live_user u = false -> live_user u' = false) /\
  (forall o, User_OracleData u = Some o -> User_OracleData u' = Some o).

Definition users_evolve (d d' : AcctDB) : Prop :=
  forall uid u, users d !! uid = Some u -> exists u', users d' !! uid = Some u' /\ user_evolves u u'.

Lemma user_evolves_refl u : user_evolves u u.
Proof. repeat split; auto. Qed.

Lemma users_evolve_refl d d' : users d' = users d -> users_evolve d d'.
Proof. intros E id k H. exists k. rewrite E. split; [done|apply user_evolves_refl]. Qed.

Lemma users_evolve_trans d1 d2 d3 : users_evolve d1 d2 -> users_evolve d2 d3 -> users_evolve d1 d3.
Proof.
  intros H1 H2 id k E. destruct (H1 _ _ E) as (k' & E' & A1 & A2' & A3 & A4).
  destruct (H2 _ _ E') as (k'' & E'' & B1 & B2 & B3 & B4).
  exists k''. split; [done|]. repeat split; [congruence|congruence|auto|auto].
Qed.

Lemma users_evolve_row d uid u u' :
  users d !! uid = Some u -> user_evolves u u' -> users_evolve d (set_users d (<[uid := u']> (users d))).
Proof.
  intros E He uid' v Ev. cbn. destruct (decide (uid = uid')) as [<-|Hne].
  - exists u'. split; [by rewrite lookup_insert_eq|]. congruence.
  - exists v. split; [by rewrite lookup_insert_ne|apply user_evolves_refl].
Qed.

Lemma CreateUser_users sql d name hash roles uid n n' : users_evolve d (CreateUser sql d name hash roles uid n n').1.
Proof.
  unfold CreateUser. destruct (negb (sql 0%nat) || _) eqn:E0; [by apply users_evolve_refl|].
  destruct (username_taken _ _); [by apply users_evolve_refl|]. intros uid' v E. cbn. exists v.
  apply orb_false_iff in E0 as [_ E0]. apply bool_decide_eq_false, eq_None_not_Some in E0.
  split; [|apply user_evolves_refl]. rewrite lookup_insert_ne; [done|congruence].
Qed.

Lemma salts_write_users sql d uid user s1 s2 n : users_evolve d (ensure_salts_write sql d uid user s1 s2 n).1.
Proof.
  unfold ensure_salts_write, salts_cas. destruct s1, s2; try by apply users_evolve_refl.
  destruct (negb _); [by apply users_evolve_refl|].
  destruct (live_user_at d uid) as [u|] eqn:E; [|by apply users_evolve_refl].
  destruct (is_none (User_OracleData u)) eqn:En; [|by apply users_evolve_refl].
  apply live_user_at_Some in E as [E El]. eapply users_evolve_row; [done|]. repeat split; [done|].
  intros o Ho. by rewrite Ho in En.
Qed.

Lemma salts_users sql d uid s1 s2 n : users_evolve d (EnsureUserOracleSalts sql d uid s1 s2 n).1.
Proof.
  unfold EnsureUserOracleSalts. destruct (ensure_salts_read sql d uid) as [[u [o|]]|e|]; try by apply users_evolve_refl.
  apply salts_write_users.
Qed.

Lemma persist_users sql d uid creds n : users_evolve d (persistUserMongoVerifier sql d uid creds n).1.
Proof.
  unfold persistUserMongoVerifier. destruct (negb _); [by apply users_evolve_refl|].
  destruct (live_user_at d uid) as [u|] eqn:E; [|by apply users_evolve_refl].
  destruct (_ && _); [|by apply users_evolve_refl]. apply live_user_at_Some in E as [E El].
  eapply users_evolve_row; [done|]. repeat split; [done|]. unfold User_OracleData. cbn.
  by destruct (u_ProtocolData u).
Qed.

Lemma same_users_in_tx {A} commit (body : AcctDB -> ares A) d :
  users_evolve d (body d).1 -> users_evolve d (in_tx commit body d).1.
Proof.
  unfold in_tx. destruct (body d) as [d' [a|e|]]; cbn; [|by intros; apply users_evolve_refl..].
  destruct commit; [done|]. intros. by apply users_evolve_refl.
Qed.

Lemma insert_members_same_users sql pairs : forall i d, users (insert_members sql i d pairs).1 = users d.
Proof.
  induction pairs as [|[g u] pairs IH]; intros i d; cbn [insert_members]; [done|].
  unfold insert_member. destruct (_ && _ && _); cbn; [|done]. by rewrite IH.
Qed.

Lemma replace_members_users sql d kept pairs : users_evolve d (replace_members sql d kept pairs).1.
Proof.
  unfold replace_members. destruct (negb _); [by apply users_evolve_refl|]. apply same_users_in_tx, users_evolve_refl.
  destruct (negb _); [done|]. by rewrite insert_members_same_users.
Qed.

Lemma insert_key_users ok d k : users (insert_key ok d k).1 = users d.
Proof. unfold insert_key. by destruct (_ && _ && _ && _). Qed.

Lemma finish_key_users sql d k plain ek r n : users_evolve d (finish_key sql d k plain ek r n).1.
Proof.
  unfold finish_key. destruct ek as [[|b ek]|]; try apply users_evolve_refl, insert_key_users.
  unfold attachO5LogonVerifiers.
  pose proof (salts_users sql d (k_UserID k) (kr_user_salts r).1 (kr_user_salts r).2 n) as Hs.
  destruct (EnsureUserOracleSalts _ _ _ _ _ _) as [d' [o|e|]]; cbn [fst] in Hs; [| |done].
  - destruct (computeO5LogonVerifierWithSalts _ _ _ _ _ _); [|done..].
    eapply users_evolve_trans; [done|apply users_evolve_refl, insert_key_users].
  - destruct (computeO5LogonVerifier _ _ _ _); [|done..].
    eapply users_evolve_trans; [done|apply users_evolve_refl, insert_key_users].
Qed.

Ltac same_users := apply users_evolve_refl; repeat (case_match; simplify_eq/=; try done).

Lemma acct_step_users d d' : acct_step d d' -> users_evolve d d'.
Proof.
  destruct 1.
  - apply CreateUser_users.
  - unfold UpdateUser. destruct (negb _); [by apply users_evolve_refl|].
    destruct (live_user_at d uid) as [u|] eqn:E; [|by apply users_evolve_refl].
    apply live_user_at_Some in E as [E El]. eapply users_evolve_row; [done|]. by repeat split.
  - apply same_users_in_tx. unfold delete_user_body. destruct (negb _); [by apply users_evolve_refl|].
    destruct (negb _); [by apply users_evolve_refl|].
    destruct (live_user_at _ uid) as [u|] eqn:E; [|by apply users_evolve_refl].
    apply live_user_at_Some in E as [E El].
    eapply users_evolve_trans; [|eapply users_evolve_row; [exact E|repeat split; auto]]. by apply users_evolve_refl.
  - apply salts_users.
  - apply salts_write_users.
  - unfold EnsureDefaultAdmin. destruct (negb _); [by apply users_evolve_refl|].
    destruct (0 <? _); [by apply users_evolve_refl|].
    pose proof (CreateUser_users (fun i => sql (1 + i)%nat) d "admin" hash [RoleAdmin; RoleConnector] uid n n') as Hc.
    by destruct (CreateUser _ _ _ _ _ _ _ _) as [d' [?|?|]].
  - unfold SetUserMongoVerifier. repeat (case_match; try by apply users_evolve_refl). apply persist_users.
  - unfold CreateUserIdentity. same_users.
  - unfold DeleteUserIdentity. same_users.
  - unfold CreateUserGroup. same_users.
  - unfold UpdateUserGroup. same_users.
  - unfold DeleteUserGroup. same_users.
  - unfold AddUserToGroup, insert_member. same_users.
  - unfold RemoveUserFromGroup. same_users.
  - apply replace_members_users.
  - apply replace_members_users.
  - unfold LogAuditEvent. same_users.
  - unfold CreateAPIKey. destruct (let! ' _ := _ in _) as [[[plain prefix] hash]|e|]; [|by apply users_evolve_refl..].
    match goal with |- context [finish_key ?q d ?k ?p ?ek ?r ?n] =>
      pose proof (finish_key_users q d k p ek r n) as Hf; by destruct (finish_key q d k p ek r n) as [d2 [?|?|]] end.
  - unfold CreateAPIKeyWithValue. destruct (_ <? _); [by apply users_evolve_refl|].
    destruct (lift_crypto _) as [h|e|]; [|by apply users_evolve_refl..]. apply finish_key_users.
  - unfold CreateWebSession. destruct (let! ' _ := _ in _) as [[[plain prefix] hash]|e|]; [|by apply users_evolve_refl..].
    match goal with |- context [insert_key ?ok d ?k] =>
      pose proof (insert_key_users ok d k) as Hf; destruct (insert_key ok d k) as [d2 [?|?|]]; by apply users_evolve_refl end.
  - unfold RevokeAPIKey. same_users.
  - unfold IncrementAPIKeyUsage. same_users.
  - unfold UpgradeAPIKeyO5LogonVerifiers. destruct ek as [|b ek]; [by apply users_evolve_refl|].
    destruct (GetAPIKeyByID sql d id) as [k|e|]; [|by apply users_evolve_refl..].
    destruct (APIKey_OracleData k) as [od|]; [|by apply users_evolve_refl].
    destruct (ok_UserSalt od); [by apply users_evolve_refl|].
    pose proof (salts_users (fun i => sql (1 + i)%nat) d (k_UserID k) (kr_user_salts r).1 (kr_user_salts r).2 n) as Hs.
    destruct (EnsureUserOracleSalts _ _ _ _ _ _) as [d' [o|e|]]; cbn [fst] in Hs; [|done..].
    destruct (computeO5LogonVerifierWithSalts _ _ _ _ _ _) as [k'|e|]; [|done..].
    destruct (sql 4%nat); [|done]. eapply users_evolve_trans; [done|]. by apply users_evolve_refl.
  - unfold CreateOAuthState. same_users.
  - unfold delete_state. same_users.
  - unfold ConsumeOAuthState, delete_state. same_users.
  - unfold CleanupExpiredOAuthStates. same_users.
  - unfold CreateDeviceAuthRequest, CreateOAuthState. same_users.
  - unfold RespondToDeviceAuthByUserCode, respond_update. same_users.
  - unfold respond_update. same_users.
  - unfold PollDeviceAuthToken, poll_finish, delete_state. same_users.
Qed.

Lemma acct_steps_users d d' : rtc acct_step d d' -> users_evolve d d'.
Proof.
  induction 1; [by apply users_evolve_refl|]. eapply users_evolve_trans; [by apply acct_step_users|done].
Qed.

(** A deleted account is gone for good: once [DeleteUser] has succeeded, no later
    history brings the user back through its uid, its name, any linked identity,
    or an API key of its own that still verifies. *)
Theorem deleted_user_gone d uid sql now d1 d2 :
  acct_ok d -> DeleteUser sql d uid now = (d1, Ok tt) -> rtc acct_step d1 d2 ->
  forall sql',
    (forall u, GetUserByUID sql' d2 uid <> Ok u) /\
    (forall name u, GetUserByUsername sql' d2 name = Ok u -> u_UID u <> uid) /\
    (forall provider pid u, GetUserByIdentity sql' d2 provider pid = Ok u -> u_UID u <> uid) /\
    (forall k, k_UserID k = uid -> forall u, GetUserByUID sql' d2 (k_UserID k) <> Ok u).
Proof.
  intros Hok Hdel Hs sql'.
  assert (Hok2 : acct_ok d2).
  { apply (acct_steps_ok _ _ Hs). replace d1 with (DeleteUser sql d uid now).1 by (by rewrite Hdel).
    by apply DeleteUser_ok. }
  assert (Hgone : exists u, users d2 !! uid = Some u /\ live_user u = false).
  { unfold DeleteUser, in_tx, delete_user_body in Hdel. destruct (negb (sql 0%nat)); [done|].
    destruct (negb (sql 1%nat)); [done|]. destruct (live_user_at _ uid) as [u|] eqn:E; [|done].
    destruct (sql 2%nat); [|done]. injection Hdel as <-.
    match type of Hs with rtc _ ?d1 _ => destruct (acct_steps_users _ _ Hs uid
      (user_with u (u_PasswordHash u) (u_Roles u) (u_PasswordChangedAt u) (u_UpdatedAt u) (Some now) (u_ProtocolData u)))
      as (u' & E' & _ & _ & Hl & _) end.
    - cbn. by rewrite lookup_insert_eq.
    - exists u'. split; [done|]. by apply Hl. }
  destruct Hgone as (u0 & E0 & Hl0).
  assert (Huid : forall sql' u, GetUserByUID sql' d2 uid <> Ok u).
  { intros q u. unfold GetUserByUID, live_user_at. destruct (q 0%nat); [|done]. by rewrite E0, Hl0. }
  assert (Hlive : forall u, live_user u = true -> (exists k, users d2 !! k = Some u) -> u_UID u <> uid).
  { intros u Hl (k & E) Hu. rewrite (users_keyed d2 Hok2 k u E) in Hu. subst k. congruence. }
  split; [apply Huid|]. split; [|split].
  - intros name u. unfold GetUserByUsername. destruct (sql' 0%nat); [|done].
    destruct (List.find _ _) as [v|] eqn:Ef; [|done]. intros [= <-].
    apply find_rows_Some in Ef as (Hf & Hk). apply andb_true_iff in Hf as [Hf _]. by apply Hlive.
  - intros provider pid u (i & _ & Hu)%rbind_Ok. unfold GetUserByUID in Hu. destruct (sql' _); [|done].
    destruct (live_user_at d2 (i_UserID i)) as [v|] eqn:Ev; [|done]. injection Hu as ->.
    apply live_user_at_Some in Ev as [Ev Hl]. apply Hlive; [done|by eexists].
  - intros k ->. apply Huid.
Qed.

(** ** Oracle salts and MongoDB verifiers *)

Lemma salts_write_Ok sql d uid user s1 s2 n d' o :
  ensure_salts_write sql d uid user s1 s2 n = (d', Ok o) ->
  exists u, users d' !! uid = Some u /\ User_OracleData u = Some o.
Proof.
  unfold ensure_salts_write, salts_cas. destruct s1 as [s1|], s2 as [s2|]; try done. destruct (negb _); [done|].
  destruct (live_user_at d uid) as [u|] eqn:E.
  - destruct (is_none (User_OracleData u)).
    + intros [= <- <-]. eexists. cbn. by rewrite lookup_insert_eq.
    + intros [= <- Hw]. apply rbind_Ok in Hw as (w & Hw & Ho). unfold GetUserByUID in Hw.
      destruct (sql _); [|done]. rewrite E in Hw. injection Hw as ->.
      apply live_user_at_Some in E as [E _]. exists w. split; [done|]. destruct (User_OracleData w); [congruence|done].
  - intros [= <- Hw]. apply rbind_Ok in Hw as (w & Hw & Ho). unfold GetUserByUID in Hw.
    destruct (sql _); [|done]. by rewrite E in Hw.
Qed.

(** Concurrent calls agree on the user's Oracle salts: if two sessions both read
    the row before either wrote, and any other operations run in between, the
    salts the second one returns are the first one's, and they are the salts
    every later state holds. *)
Theorem oracle_salts_agree uid d1 sql1 u1 s1 s2 n1 d2 o1 d3 sql2 u2 t1 t2 n2 d4 o2 :
  ensure_salts_write sql1 d1 uid u1 s1 s2 n1 = (d2, Ok o1) ->
  rtc acct_step d2 d3 ->
  ensure_salts_write sql2 d3 uid u2 t1 t2 n2 = (d4, Ok o2) ->
  o2 = o1 /\ forall d5 u, rtc acct_step d4 d5 -> users d5 !! uid = Some u -> User_OracleData u = Some o1.
Proof.
  intros H1 Hs H2. apply salts_write_Ok in H1 as (v1 & E1 & O1).
  destruct (acct_steps_users _ _ Hs uid v1 E1) as (v3 & E3 & _ & _ & _ & Ho). specialize (Ho _ O1).
  assert (H24 : acct_step d3 d4).
  { replace d4 with (ensure_salts_write sql2 d3 uid u2 t1 t2 n2).1 by (by rewrite H2). apply st_salts_write. }
  destruct (acct_step_users _ _ H24 uid v3 E3) as (v4 & E4 & _ & _ & _ & Ho4). specialize (Ho4 _ Ho).
  apply salts_write_Ok in H2 as (v4' & E4' & O2). split; [congruence|].
  intros d5 u Hs5 E5. destruct (acct_steps_users _ _ Hs5 uid v4 E4) as (v5 & E5' & _ & _ & _ & Ho5).
  specialize (Ho5 _ Ho4). congruence.
Qed.

(** The MongoDB verifier has no such protection: when a session that is about to
    create a user's Oracle salts has read the row before a password change
    stored a new verifier, its write puts the old verifier back. *)
Theorem mongo_verifier_clobbered sql d uid u creds n d1 sql' s1 s2 n' d2 o :
  ensure_salts_read (fun _ => true) d uid = Ok (u, None) -> User_OracleData u = None ->
  persistUserMongoVerifier sql d uid creds n = (d1, Ok tt) ->
  ensure_salts_write sql' d1 uid u s1 s2 n' = (d2, Ok o) ->
  (exists v, live_user_at d1 uid = Some v /\ User_MongoSCRAMCredentials v = Some creds) /\
  (exists v, live_user_at d2 uid = Some v /\ User_MongoSCRAMCredentials v = User_MongoSCRAMCredentials u).
Proof.
  intros Hr Hno Hp Hw. unfold ensure_salts_read, GetUserByUID in Hr. cbn [rbind] in Hr.
  destruct (live_user_at d uid) as [u0|] eqn:E; [|done]. injection Hr as -> _.
  unfold persistUserMongoVerifier in Hp. destruct (negb _); [done|]. rewrite E in Hp.
  destruct (_ && _); [|done]. apply live_user_at_Some in E as [E El]. injection Hp as <-.
  assert (L1 : live_user_at (set_users d (<[uid := with_protocol u (Some
      {| up_Oracle := up_Oracle (default {| up_Oracle := None; up_MongoDB := None |} (u_ProtocolData u));
         up_MongoDB := Some {| mu_SCRAMSHA256 := Some creds |} |}) n]> (users d))) uid =
      Some (with_protocol u (Some
      {| up_Oracle := up_Oracle (default {| up_Oracle := None; up_MongoDB := None |} (u_ProtocolData u));
         up_MongoDB := Some {| mu_SCRAMSHA256 := Some creds |} |}) n)).
  { unfold live_user_at. cbn. rewrite lookup_insert_eq. unfold live_user in *. cbn. by rewrite El. }
  split; [by eexists|].
  unfold ensure_salts_write, salts_cas in Hw. destruct s1 as [s1|], s2 as [s2|]; try done.
  destruct (negb _); [done|]. rewrite L1 in Hw. unfold User_OracleData at 1 in Hw. cbn in Hw.
  assert (En : up_Oracle (default {| up_Oracle := None; up_MongoDB := None |} (u_ProtocolData u)) = None)
    by (unfold User_OracleData in Hno; by destruct (u_ProtocolData u)).
  rewrite En in Hw. cbn in Hw. injection Hw as <- <-. eexists. split.
  - unfold live_user_at. cbn. rewrite lookup_insert_eq. unfold live_user in *. cbn. by rewrite El.
  - unfold User_MongoSCRAMCredentials, User_MongoData. cbn. by destruct (u_ProtocolData u).
Qed.

(** ** Device authorization *)

Lemma delete_state_gone d k s : acct_ok d -> oauth_states d !! k = Some s ->
  forall now, find_state (delete_state true d (os_UID s)).1
    (fun x => String.eqb (os_State x) (os_State s) && String.eqb (os_Provider x) DeviceAuthProvider && unexpired now x) = None.
Proof.
  intros Hok E now. destruct (find_state _ _) as [x|] eqn:Ef; [|done]. exfalso.
  apply find_rows_Some in Ef as (Hf & j & Ej). cbn in Ej. apply lookup_delete_Some in Ej as [Hne Ej].
  rewrite !andb_true_iff in Hf. destruct Hf as [[Ht%String.eqb_eq _] _].
  apply Hne. rewrite (states_keyed d Hok k s E). by eapply (tokens_unique d Hok).
Qed.

(** Polls one after the other deliver a decision once: a poll that returns a
    terminal state returns the key stored with it, and every later poll with the
    same device code finds nothing. *)
Theorem device_key_delivered_once sql d dc now d1 req key :
  acct_ok d -> PollDeviceAuthToken sql d dc now = (d1, Ok (req, key)) ->
  da_Status req <> DeviceAuthStatusPending ->
  (exists s m, oauth_states d !! da_UID req = Some s /\ os_State s = dc /\ os_Metadata s = Some m /\
               unexpired now s = true /\ dm_Status m = da_Status req /\ dm_EncryptedKey m = key) /\
  forall sql' now', sql' 0%nat = true -> PollDeviceAuthToken sql' d1 dc now' = (d1, Err ErrDeviceAuthNotFound).
Proof.
  intros Hok Hp Hst. unfold PollDeviceAuthToken in Hp. destruct (poll_select _ _ _ _) as [[s m]|e|] eqn:Es; [|done..].
  unfold poll_select in Es. destruct (sql 0%nat); [|done]. destruct (find_state d _) as [x|] eqn:Ef; [|done].
  destruct (os_Metadata x) as [mx|] eqn:Em; [|done]. injection Es as -> ->.
  apply find_rows_Some in Ef as (Hf & j & Ej). rewrite !andb_true_iff in Hf.
  destruct Hf as [[Ht%String.eqb_eq _] Hu]. pose proof (states_keyed d Hok j s Ej) as Hj.
  unfold poll_finish in Hp. destruct (String.eqb_spec (dm_Status m) DeviceAuthStatusPending) as [Hpen|_].
  { injection Hp as _ <- _. done. }
  destruct (sql 1%nat); cbn [delete_state] in Hp; [|done]. injection Hp as <- <- <-. cbn [da_UID da_Status device_request].
  split; [exists s, m; subst j; done|]. intros sql' now' Hs.
  unfold PollDeviceAuthToken, poll_select. rewrite Hs.
  pose proof (delete_state_gone d j s Hok Ej now') as Hg. rewrite Ht in Hg. cbn [delete_state fst] in Hg. by rewrite Hg.
Qed.

(** Two polls at the same time both get the key: the second one has read the row
    before the first one deletes it, and the DELETE that then removes nothing is
    no error. *)
Theorem device_key_delivered_twice d dc now s m :
  poll_select true d dc now = Ok (s, m) -> dm_Status m <> DeviceAuthStatusPending ->
  let d1 := (poll_finish true d s m).1 in
  poll_finish true d s m = (d1, Ok (device_request s m, dm_EncryptedKey m)) /\
  poll_finish true d1 s m = (d1, Ok (device_request s m, dm_EncryptedKey m)).
Proof.
  intros _ Hst. unfold poll_finish. destruct (String.eqb_spec (dm_Status m) DeviceAuthStatusPending) as [|_]; [done|].
  cbn [delete_state fst]. split; [done|]. f_equal. unfold set_states. cbn. f_equal. by rewrite delete_delete_eq.
Qed.

(** Of two responders that both saw the request pending, only the first one's
    decision is recorded. *)
Theorem device_decided_once ok d uid m n d1 ok' m' n' :
  respond_update ok d uid m n = (d1, Ok tt) -> dm_Status m <> DeviceAuthStatusPending ->
  (respond_update ok' d1 uid m' n').1 = d1 /\ (respond_update ok' d1 uid m' n').2 <> Ok tt.
Proof.
  intros Hr Hst. unfold respond_update in Hr. destruct (negb ok); [done|].
  destruct (oauth_states d !! uid) as [s|] eqn:E; [|done]. destruct (_ && _ && _); [|done]. injection Hr as <-.
  unfold respond_update. destruct (negb ok'); [done|]. cbn. rewrite lookup_insert_eq.
  unfold is_pending. cbn. destruct (String.eqb_spec (dm_Status m) DeviceAuthStatusPending) as [|_]; [done|].
  by rewrite andb_false_r.
Qed.
End Theorems.

(** ** Groups *)

Lemma insert_members_Ok sql pairs : forall i d d',
  insert_members sql i d pairs = (d', Ok tt) ->
  d' = set_groups d (user_groups d) (list_to_set pairs ∪ user_group_members d).
Proof.
  induction pairs as [|[g u] pairs IH]; intros i d d'; cbn [insert_members].
  - intros [= <-]. cbn. replace (∅ ∪ user_group_members d) with (user_group_members d) by set_solver. by destruct d.
  - unfold insert_member. destruct (_ && _ && _); [|done]. intros ->%IH. unfold set_groups. cbn. f_equal. set_solver.
Qed.

Lemma replace_members_spec sql d kept pairs :
  match replace_members sql d kept pairs with
  | (d', Ok _) => d' = set_groups d (user_groups d) (list_to_set pairs ∪ kept)
  | (d', _) => d' = d
  end.
Proof.
  unfold replace_members, in_tx. destruct (negb (sql 0%nat)); [done|]. destruct (negb (sql 1%nat)); [done|].
  destruct (insert_members _ _ _ _) as [d' [[]|e|]] eqn:E; [|done..]. destruct (sql _); [|done].
  apply insert_members_Ok in E. by rewrite E.
Qed.

(** Replacing a group's members is all or nothing: on success exactly the given
    users are members and every other group is as before; on any failure nothing
    has changed. *)
Theorem set_group_members_exact sql d groupUID userUIDs :
  match SetGroupMembers sql d groupUID userUIDs with
  | (d', Ok _) =>
      forall g u, (g, u) ∈ user_group_members d' <->
        (g = groupUID /\ (u ∈ userUIDs)) \/ (g <> groupUID /\ (g, u) ∈ user_group_members d)
  | (d', _) => d' = d
  end.
Proof.
  unfold SetGroupMembers. match goal with |- context [replace_members sql d ?k ?p] =>
    pose proof (replace_members_spec sql d k p) as H; destruct (replace_members sql d k p) as [d' [[]|e|]] end; [|done..].
  intros g u. rewrite H. cbn [user_group_members set_groups]. rewrite elem_of_union, elem_of_list_to_set, elem_of_filter.
  cbn [fst]. rewrite list_elem_of_fmap. split.
  - intros [(v & [= -> ->] & Hv)|[Hne Hm]]; [by left|by right].
  - intros [[-> Hu]|[Hne Hm]]; [left; by exists u|by right].
Qed.

Lemma groups_of_spec d u g : In g (groups_of d u) <-> (g, u) ∈ user_group_members d.
Proof.
  unfold groups_of. rewrite in_map_iff. split.
  - intros ([g' u'] & <- & Hin). apply filter_In in Hin as [Hin Hu%N.eqb_eq]. cbn in *. subst u'.
    by apply elem_of_elements, list_elem_of_In.
  - intros H. exists (g, u). split; [done|]. apply filter_In. split; [|cbn; apply N.eqb_refl].
    by apply list_elem_of_In, elem_of_elements.
Qed.

(** Deleting a group never widens what anyone may request: a definition that
    applies to a user after the deletion already applied before, and one scoped
    to the deleted group alone applies to nobody. *)
Theorem delete_group_fails_closed sql d uid def u :
  let d' := (DeleteUserGroup sql d uid).1 in
  (AppliesToGroups def (groups_of d' u) = true -> AppliesToGroups def (groups_of d u) = true) /\
  ((DeleteUserGroup sql d uid).2 = Ok tt -> gd_GroupUIDs def = [uid] -> AppliesToGroups def (groups_of d' u) = false).
Proof.
  cbn zeta. unfold DeleteUserGroup. destruct (negb _); [done|]. destruct (user_groups d !! uid) as [g|]; [|done].
  cbn [fst snd]. split.
  - rewrite !AppliesToGroups_spec. intros [He|(x & Hx & Hin)]; [by left|]. right. exists x. split; [done|].
    apply groups_of_spec in Hin. cbn in Hin. apply elem_of_filter in Hin as [_ Hin]. by apply groups_of_spec.
  - intros _ Hdef. apply not_true_iff_false. rewrite AppliesToGroups_spec, Hdef.
    intros [?|(x & [<-|[]] & Hin)]; [done|]. apply groups_of_spec in Hin. cbn in Hin.
    apply elem_of_filter in Hin as [Hne _]. done.
Qed.

(** ** A sample installation *)

Module Sample.
Definition ok : nat -> bool := fun _ => true.
#[export] Instance s_collation : Collation := {| collate := String.leb; lower := fun s => s |}.
#[export] Instance s_argon2 : Argon2 := toy_argon2.
#[export] Instance s_aead : AEAD := toy_aead.
#[export] Instance s_hashes : Hashes := toy_hashes.
#[export] Instance s_uuid : UUIDText := {| uuid_String := pretty; uuid_String_inj := fun u v H => inj pretty u v H |}.
#[export] Instance s_scram : ScramKeys := {| stored_credentials p salt n := Some (str_bytes p, salt) |}.

Definition alice : uuid := 1%N.
Definition db_user := (CreateUser ok empty_accounts "alice" "hash" [RoleAdmin] alice 10 10).1.
Definition rnd : key_rnd :=
  {| kr_key := Some (replicate 32 77); kr_hash_salt := Some (replicate 16 9);
     kr_user_salts := (Some (replicate 10 3), Some (replicate 16 4));
     kr_key_salts := (None, None); kr_nonces := (Some (replicate 12 5), Some (replicate 12 6)) |}.
Definition db_key := (CreateAPIKey ok db_user alice "ci" (Some 500) None 7%N rnd 20).1.
Definition db_revoked := (RevokeAPIKey ok db_key 7%N alice 30).1.
Definition db_device := (CreateDeviceAuthRequest ok db_user "cli" "secret" "ABCD2345" 9%N 20 20).1.
Definition db_approved := (RespondToDeviceAuthByUserCode ok db_device "ABCD2345" alice true [1; 2; 3] "dbb_aaaa" 30 31).1.

Lemma reach_user : rtc acct_step empty_accounts db_user.
Proof. apply rtc_once, st_create_user. Qed.
Lemma reach_key : rtc acct_step empty_accounts db_key.
Proof. eapply rtc_r; [apply reach_user|]. apply st_create_key. Qed.
Lemma reach_device : rtc acct_step empty_accounts db_device.
Proof. eapply rtc_r; [apply reach_user|]. apply st_device_create. Qed.
Lemma reach_approved : rtc acct_step empty_accounts db_approved.
Proof. eapply rtc_r; [apply reach_device|]. apply st_device_respond. Qed.

Lemma ok_of d : rtc acct_step empty_accounts d -> acct_ok d.
Proof. intros H. apply (acct_steps_ok _ _ H), empty_accounts_ok. Qed.
End Sample.

Import Sample.

Lemma account_tables_consistent_witness : acct_ok db_approved.
Proof. apply account_tables_consistent, reach_approved. Defined.

Lemma api_key_lifecycle_witness :
  exists k plain k2, CreateAPIKey ok db_user alice "ci" (Some 500) None 7%N rnd 20 = (db_key, Ok (k, plain)) /\
    api_keys db_revoked !! 7%N = Some k2 /\
    VerifyAPIKey (dig := Toy.toy_digest) (order := Toy.toy_order) ok db_revoked None plain 40 40 40
    = (None, if IsRevoked k2 then Err ErrAPIKeyRevoked
             else if IsExpired 40 k2 then Err ErrAPIKeyExpired else Ok k2).
Proof.
  destruct (CreateAPIKey ok db_user alice "ci" (Some 500) None 7%N rnd 20) as [d1 [[k plain]|e|]] eqn:E;
    [|vm_compute in E; discriminate..].
  assert (d1 = db_key) as -> by (unfold db_key; by rewrite E).
  destruct (api_key_lifecycle (dig := Toy.toy_digest) (order := Toy.toy_order)
    ok db_user alice "ci" (Some 500) None 7%N rnd 20 db_key k plain db_revoked (replicate 16 9) (replicate 32 77) ok 40 40 40)
    as (k2 & H1 & _ & _ & H2).
  - apply reach_user.
  - reflexivity.
  - reflexivity.
  - reflexivity.
  - exact (wf_bytes_check (replicate 16 9) eq_refl).
  - exact E.
  - apply rtc_once, st_revoke_key.
  - reflexivity.
  - exists k, plain, k2. split; [reflexivity|]. split; [exact H1|exact H2].
Defined.

Lemma revoked_key_refused_witness :
  forall plain k', (VerifyAPIKey (dig := Toy.toy_digest) (order := Toy.toy_order)
                      ok db_revoked None plain 40 40 40).2 = Ok k' -> k_ID k' <> 7%N.
Proof.
  intros plain k' Hv. destruct (api_keys db_revoked !! 7%N) as [k|] eqn:E; [|vm_compute in E; discriminate].
  refine (revoked_key_refused (dig := Toy.toy_digest) (order := Toy.toy_order)
            db_revoked 7%N k db_revoked ok None plain 40 40 40 _ E _ (rtc_refl _ _) k' Hv).
  - apply ok_of. eapply rtc_r; [apply reach_key|]. apply st_revoke_key.
  - vm_compute in E. injection E as <-. reflexivity.
Defined.

Lemma deleted_user_gone_witness :
  forall u, GetUserByUID ok (DeleteUser ok db_key alice 50).1 alice <> Ok u.
Proof.
  destruct (DeleteUser ok db_key alice 50) as [d1 r] eqn:E.
  assert (r = Ok tt) as -> by (vm_compute in E; congruence).
  apply (deleted_user_gone db_key alice ok 50 d1 d1); [apply ok_of, reach_key|exact E|apply rtc_refl].
Defined.

Lemma oracle_salts_agree_witness :
  forall u1 u2, exists o,
    (ensure_salts_write ok db_user alice u1 (Some [1]) (Some [2]) 30).2 = Ok o /\
    (ensure_salts_write ok (ensure_salts_write ok db_user alice u1 (Some [1]) (Some [2]) 30).1
       alice u2 (Some [3]) (Some [4]) 31).2 = Ok o.
Proof.
  intros u1 u2.
  destruct (ensure_salts_write ok db_user alice u1 (Some [1]) (Some [2]) 30) as [d2 r1] eqn:E1.
  pose proof E1 as E1'. vm_compute in E1'. injection E1' as D2 R1.
  exists {| ou_Salt6949 := [1]; ou_Salt18453 := [2] |}. split; [cbn; congruence|]. cbn [fst].
  destruct (ensure_salts_write ok d2 alice u2 (Some [3]) (Some [4]) 31) as [d4 r2] eqn:E2.
  assert (exists o2, r2 = Ok o2) as (o2 & ->).
  { rewrite <- D2 in E2. vm_compute in E2. injection E2 as _ <-. by eexists. }
  cbn. f_equal. rewrite <- R1 in E1.
  eapply (proj1 (oracle_salts_agree alice db_user ok u1 (Some [1]) (Some [2]) 30 d2 _ d2 ok u2 (Some [3]) (Some [4]) 31 d4 o2
            E1 (rtc_refl _ _) E2)).
Defined.

Lemma mongo_verifier_clobbered_witness :
  exists u v d2 o, ensure_salts_read ok db_user alice = Ok (u, None) /\
    let creds := {| ms_Salt := [1]; ms_Iterations := 15000; ms_StoredKey := [2]; ms_ServerKey := [3] |} in
    ensure_salts_write ok (persistUserMongoVerifier ok db_user alice creds 30).1 alice u (Some [1]) (Some [2]) 31 = (d2, Ok o) /\
    live_user_at d2 alice = Some v /\ User_MongoSCRAMCredentials v = None.
Proof.
  set (creds := {| ms_Salt := [1]; ms_Iterations := 15000; ms_StoredKey := [2]; ms_ServerKey := [3] |}).
  destruct (ensure_salts_read ok db_user alice) as [[u [o|]]|e|] eqn:Er; try (vm_compute in Er; discriminate).
  pose proof Er as Er'. vm_compute in Er'. injection Er' as Eu.
  destruct (persistUserMongoVerifier ok db_user alice creds 30) as [d1 r] eqn:Ep.
  assert (r = Ok tt) as -> by (vm_compute in Ep; congruence).
  destruct (ensure_salts_write ok d1 alice u (Some [1]) (Some [2]) 31) as [d2 [o|e|]] eqn:Ew;
    try (assert (d1 = (persistUserMongoVerifier ok db_user alice creds 30).1) as -> by (by rewrite Ep);
         subst u; vm_compute in Ew; discriminate).
  destruct (mongo_verifier_clobbered ok db_user alice u creds 30 d1 ok (Some [1]) (Some [2]) 31 d2 o)
    as (_ & v & Hv & Hm); [exact Er|by subst u|exact Ep|exact Ew|].
  exists u, v, d2, o. split; [done|]. cbv zeta. rewrite Ep. cbn [fst]. split; [done|]. split; [done|].
  rewrite Hm. by subst u.
Defined.

Lemma device_key_delivered_once_witness :
  exists d1 req, PollDeviceAuthToken ok db_approved "secret" 40 = (d1, Ok (req, [1; 2; 3])) /\
    PollDeviceAuthToken ok d1 "secret" 41 = (d1, Err ErrDeviceAuthNotFound).
Proof.
  destruct (PollDeviceAuthToken ok db_approved "secret" 40) as [d1 [[req key]|e|]] eqn:E; try (vm_compute in E; discriminate).
  pose proof E as E'. vm_compute in E'. injection E' as _ Hreq Hkey. exists d1, req. split; [congruence|].
  apply (device_key_delivered_once ok db_approved "secret" 40 d1 req key);
    [apply ok_of, reach_approved|exact E|subst req; discriminate|reflexivity].
Defined.

Lemma device_key_delivered_twice_witness :
  exists s m d1, poll_select true db_approved "secret" 40 = Ok (s, m) /\ dm_EncryptedKey m = [1; 2; 3] /\
    poll_finish true d1 s m = (d1, Ok (device_request s m, [1; 2; 3])).
Proof.
  destruct (poll_select true db_approved "secret" 40) as [[s m]|e|] eqn:E; try (vm_compute in E; discriminate).
  pose proof E as E'. vm_compute in E'. injection E' as _ Hm.
  assert (Hk : dm_EncryptedKey m = [1; 2; 3]) by (by rewrite <- Hm).
  assert (Hst : dm_Status m <> DeviceAuthStatusPending) by (by rewrite <- Hm).
  exists s, m, (poll_finish true db_approved s m).1. split; [reflexivity|]. split; [exact Hk|].
  rewrite <- Hk. exact (proj2 (device_key_delivered_twice db_approved "secret" 40 s m E Hst)).
Defined.

Lemma device_decided_once_witness :
  exists m d1, respond_update true db_device 9%N m 35 = (d1, Ok tt) /\
               (respond_update true d1 9%N m 40).2 <> Ok tt.
Proof.
  pose (m := {| dm_ClientName := "cli"; dm_UserCode := "ABCD2345"; dm_Status := DeviceAuthStatusDenied;
                dm_UserID := None; dm_EncryptedKey := []; dm_KeyPrefix := "" |}).
  exists m. destruct (respond_update true db_device 9%N m 35) as [d1 r] eqn:E.
  assert (r = Ok tt) as -> by (vm_compute in E; congruence).
  exists d1. split; [done|].
  apply (device_decided_once true db_device 9%N m 35 d1 true m 40 E). discriminate.
Defined.

Definition ops_only : GrantDefinition :=
  {| gd_UID := 1%N; gd_Name := "d"; gd_Description := ""; gd_DurationSeconds := 60; gd_Controls := [];
     gd_MaxQueryCounts := None; gd_MaxBytesTransferred := None; gd_AutoApprove := true; gd_GroupUIDs := [5%N];
     gd_DatabaseUIDs := []; gd_IsActive := true; gd_CreatedBy := 1%N; gd_CreatedAt := 0 |}.
Definition db_group : AcctDB :=
  (AddUserToGroup ok (CreateUserGroup ok db_user {| ug_UID := Nil; ug_Name := "ops"; ug_Description := "";
     ug_CreatedBy := None; ug_CreatedAt := 0 |} 5%N 20).1 5%N alice).1.

Lemma delete_group_fails_closed_witness :
  AppliesToGroups ops_only (groups_of db_group alice) = true /\
  AppliesToGroups ops_only (groups_of (DeleteUserGroup ok db_group 5%N).1 alice) = false.
Proof.
  split; [vm_compute; reflexivity|].
  apply (proj2 (delete_group_fails_closed ok db_group 5%N ops_only alice)); vm_compute; reflexivity.
Defined.
