(* ===== verification/Servers.v ===== *)
(** * Servers and SSH bastions in the store
    ([internal/store/servers.go], the storage-DSN guard of [store.go])

    One table holds database targets and SSH bastions; [via_uid] says through
    which bastion a server is dialled.  Passwords and SSH secrets are encrypted
    with the row's own identifier as additional data.  [url.Parse] and
    [strings.ToLower] outside ASCII are the class [HostText]. *)

From Stdlib Require Import ZArith Lia List Bool String Ascii.
From stdpp Require Import base list gmap strings relations.
From S2P Require Import Prelude GoStrings Encoding Models AuthCache GrantStore Crypto Accounts.

Open Scope string_scope.
Open Scope Z_scope.

Inductive server_error :=
| ErrServerSQL
| ErrServerCrypto (e : crypto_error)
| ErrServerNotFound
| ErrTargetMatchesStorage
| ErrServerViaNotSSH
| ErrServerViaCycle
| ErrServerNameConflict
| ErrViaWalkUnfinished.          (* the walk ran out of fuel: shown impossible *)

(** ** The storage DSN *)

(** [url.Parse] of a DSN gives host name, port and path; [ToLower] is
    [strings.ToLower]. *)
Class HostText := {
  parse_url : string -> option (string * string * string);
  ToLower : string -> string
}.

Record DSNComponents := { dsn_Host : string; dsn_Port : string; dsn_Server : string }.

(** [strings.Index(s, "=")]: what is before and after the first one. *)
Fixpoint cut_equals (s : string) : option (string * string) :=
  match s with
  | EmptyString => None
  | String c r =>
      if Ascii.eqb c "=" then Some ("", r)
      else match cut_equals r with Some (k, v) => Some (String c k, v) | None => None end
  end.

Definition is_quote (c : ascii) : bool := (code c =? 39) || (code c =? 34).

Fixpoint trim_left_quotes (s : string) : string :=
  match s with
  | String c r => if is_quote c then trim_left_quotes r else s
  | EmptyString => s
  end.

Fixpoint trim_right_quotes (s : string) : string :=
  match s with
  | EmptyString => EmptyString
  | String c r =>
      if all_chars is_quote s then EmptyString else String c (trim_right_quotes r)
  end.

(** [strings.Trim(s, quotes)] *)
Definition trim_quotes (s : string) : string := trim_right_quotes (trim_left_quotes s).

Section DSN.
Context {HT : HostText}.

Definition normalizeHost (host : string) : string :=
  let host := ToLower host in
  if String.eqb host "localhost" || String.eqb host "127.0.0.1" || String.eqb host "::1" then "localhost" else host.

Definition TrimPrefix (s p : string) : string :=
  if HasPrefix s p then String.substring (String.length p) (String.length s - String.length p) s else s.

(** One [key=value] word of the key-value format. *)
Definition dsn_word (c : DSNComponents) (part : string) : DSNComponents :=
  match cut_equals part with
  | None => c
  | Some (k, v) =>
      let key := ToLower k in
      let value := trim_quotes v in
      if String.eqb key "host" then {| dsn_Host := normalizeHost value; dsn_Port := dsn_Port c; dsn_Server := dsn_Server c |}
      else if String.eqb key "port" then {| dsn_Host := dsn_Host c; dsn_Port := value; dsn_Server := dsn_Server c |}
      else if String.eqb key "dbname" || String.eqb key "database"
           then {| dsn_Host := dsn_Host c; dsn_Port := dsn_Port c; dsn_Server := value |}
      else c
  end.

Definition parsePostgresDSN (dsn : string) : option DSNComponents :=
  if HasPrefix dsn "postgres://" || HasPrefix dsn "postgresql://" then
    match parse_url dsn with
    | None => None
    | Some (host, port, path) =>
        Some {| dsn_Host := normalizeHost host; dsn_Port := if String.eqb port "" then "5432" else port;
                dsn_Server := TrimPrefix path "/" |}
    end
  else Some (foldl dsn_word {| dsn_Host := ""; dsn_Port := "5432"; dsn_Server := "" |} (Fields dsn)).

Definition MatchesStorageDSN (storageDSN host : string) (port : Z) (databaseName : string) : bool :=
  match parsePostgresDSN storageDSN with
  | None => false
  | Some storage =>
      String.eqb (dsn_Host storage) (normalizeHost host) && String.eqb (dsn_Port storage) (FormatInt port)
      && String.eqb (dsn_Server storage) databaseName
  end.
End DSN.

(** ** The table *)

Abbreviation ServerDB := (gmap uuid Server).
Abbreviation sres A := (ServerDB * res server_error A)%type.

Definition live_server (s : Server) : bool := is_none (d_DeletedAt s).

Definition live_server_at (d : ServerDB) (uid : uuid) : option Server :=
  match d !! uid with
  | Some s => if live_server s then Some s else None
  | None => None
  end.

Definition GetServerByUID (ok : bool) (d : ServerDB) (uid : uuid) : res server_error Server :=
  guard! ok else ErrServerSQL in
  match live_server_at d uid with None => Err ErrServerNotFound | Some s => Ok s end.

Definition GetServerByName (ok : bool) (d : ServerDB) (name : string) : res server_error Server :=
  guard! ok else ErrServerSQL in
  match List.find (fun s => live_server s && String.eqb (d_Name s) name && negb (String.eqb (d_Protocol s) ProtocolSSH))
          (rows d) with
  | None => Err ErrServerNotFound
  | Some s => Ok s
  end.

Definition has_service (serviceName : string) (s : Server) : bool :=
  live_server s && match d_OracleServiceName s with Some n => String.eqb n serviceName | None => false end
  && String.eqb (d_Protocol s) ProtocolOracle.

Definition GetServerByOracleServiceName (ok : bool) (d : ServerDB) (serviceName : string) : res server_error Server :=
  guard! ok else ErrServerSQL in
  match List.find (has_service serviceName) (rows d) with None => Err ErrServerNotFound | Some s => Ok s end.

Section Lists.
Context {C : Collation}.

Definition by_name (l : list Server) : list Server := order_by (fun a b => collate (d_Name a) (d_Name b)) l.

Definition ListServersByOracleServiceName (ok : bool) (d : ServerDB) (serviceName : string) : res server_error (list Server) :=
  guard! ok else ErrServerSQL in Ok (by_name (List.filter (has_service serviceName) (rows d))).

Definition ListSSHServers (ok : bool) (d : ServerDB) : res server_error (list Server) :=
  guard! ok else ErrServerSQL in
  Ok (by_name (List.filter (fun s => live_server s && String.eqb (d_Protocol s) ProtocolSSH) (rows d))).

Definition ListListableServers (ok : bool) (d : ServerDB) : res server_error (list Server) :=
  guard! ok else ErrServerSQL in
  Ok (by_name (List.filter (fun s => live_server s && d_Listable s && negb (String.eqb (d_Protocol s) ProtocolSSH)) (rows d))).

Definition ListServers (ok : bool) (d : ServerDB) : res server_error (list Server) :=
  guard! ok else ErrServerSQL in
  Ok (by_name (List.filter (fun s => live_server s && negb (String.eqb (d_Protocol s) ProtocolSSH)) (rows d))).
End Lists.

(** ** The via chain *)

(** The loop of [validateViaUID]: statement [i] loads [cur]. *)
Fixpoint via_walk (fuel : nat) (sql : nat -> bool) (i : nat) (d : ServerDB) (selfUID : uuid)
    (seen : gset uuid) (cur : uuid) : res server_error unit :=
  match fuel with
  | O => Err ErrViaWalkUnfinished
  | S fuel =>
      guard! negb (negb (N.eqb selfUID Nil) && N.eqb cur selfUID) else ErrServerViaCycle in
      guard! negb (bool_decide (cur ∈ seen)) else ErrServerViaCycle in
      let! via := GetServerByUID (sql i) d cur in
      guard! String.eqb (d_Protocol via) ProtocolSSH else ErrServerViaNotSSH in
      match d_ViaUID via with
      | None => Ok tt
      | Some next => via_walk fuel sql (S i) d selfUID ({[ cur ]} ∪ seen) next
      end
  end.

(** One more step than there are servers is enough ([via_walk_finishes]). *)
Definition validateViaUID (sql : nat -> bool) (d : ServerDB) (selfUID viaUID : uuid) : res server_error unit :=
  via_walk (S (size d)) sql 0 d selfUID ∅ viaUID.

(** ** Secrets *)

Definition lift_srv {A} (r : res crypto_error A) : res server_error A :=
  match r with Ok a => Ok a | Err e => Err (ErrServerCrypto e) | Panic => Panic end.

Definition with_ssh (s : Server) (sd : SSHServerData) : Server :=
  {| d_UID := d_UID s; d_Name := d_Name s; d_Description := d_Description s; d_Host := d_Host s; d_Port := d_Port s;
     d_DatabaseName := d_DatabaseName s; d_Username := d_Username s; d_Password := d_Password s;
     d_PasswordEncrypted := d_PasswordEncrypted s; d_SSLMode := d_SSLMode s; d_Protocol := d_Protocol s;
     d_OracleServiceName := d_OracleServiceName s; d_ViaUID := d_ViaUID s;
     d_ProtocolData := Some {| sp_MongoDB := match d_ProtocolData s with Some p => sp_MongoDB p | None => None end;
                               sp_SSH := Some sd |};
     d_Listable := d_Listable s; d_CreatedBy := d_CreatedBy s; d_CreatedAt := d_CreatedAt s;
     d_UpdatedAt := d_UpdatedAt s; d_DeletedAt := d_DeletedAt s |}.

Definition with_password (s : Server) (plain : string) (enc : bytes) : Server :=
  {| d_UID := d_UID s; d_Name := d_Name s; d_Description := d_Description s; d_Host := d_Host s; d_Port := d_Port s;
     d_DatabaseName := d_DatabaseName s; d_Username := d_Username s; d_Password := plain;
     d_PasswordEncrypted := enc; d_SSLMode := d_SSLMode s; d_Protocol := d_Protocol s;
     d_OracleServiceName := d_OracleServiceName s; d_ViaUID := d_ViaUID s; d_ProtocolData := d_ProtocolData s;
     d_Listable := d_Listable s; d_CreatedBy := d_CreatedBy s; d_CreatedAt := d_CreatedAt s;
     d_UpdatedAt := d_UpdatedAt s; d_DeletedAt := d_DeletedAt s |}.

(** What a row looks like once it went through the database: the plaintext
    fields are not columns. *)
Definition stored (s : Server) : Server :=
  let s := with_password s "" (d_PasswordEncrypted s) in
  match Server_SSHData s with
  | Some sd => with_ssh s {| ssh_PrivateKeyEncrypted := ssh_PrivateKeyEncrypted sd;
                             ssh_PassphraseEncrypted := ssh_PassphraseEncrypted sd;
                             ssh_KnownHostKey := ssh_KnownHostKey sd; ssh_PrivateKey := ""; ssh_Passphrase := "" |}
  | None => s
  end.

Section Secrets.
Context {GCM : AEAD} {UT : UUIDText}.

Definition encryptSSHSecrets (uid : uuid) (sd : SSHServerData) (encryptionKey : bytes)
    (nonces : option bytes * option bytes) : res server_error SSHServerData :=
  let aad := ServerAAD (uuid_String uid) in
  let! sd :=
    if String.eqb (ssh_PrivateKey sd) "" then Ok sd
    else let! enc := lift_srv (Encrypt nonces.1 (str_bytes (ssh_PrivateKey sd)) encryptionKey aad) in
         Ok {| ssh_PrivateKeyEncrypted := enc; ssh_PassphraseEncrypted := ssh_PassphraseEncrypted sd;
               ssh_KnownHostKey := ssh_KnownHostKey sd; ssh_PrivateKey := ""; ssh_Passphrase := ssh_Passphrase sd |} in
  if String.eqb (ssh_Passphrase sd) "" then Ok sd
  else let! enc := lift_srv (Encrypt nonces.2 (str_bytes (ssh_Passphrase sd)) encryptionKey aad) in
       Ok {| ssh_PrivateKeyEncrypted := ssh_PrivateKeyEncrypted sd; ssh_PassphraseEncrypted := enc;
             ssh_KnownHostKey := ssh_KnownHostKey sd; ssh_PrivateKey := ssh_PrivateKey sd; ssh_Passphrase := "" |}.

Definition DecryptSSHSecrets (s : Server) (encryptionKey : bytes) : res server_error Server :=
  match Server_SSHData s with
  | None => Ok s
  | Some sd =>
      let aad := ServerAAD (uuid_String (d_UID s)) in
      let! sd :=
        if zlen (ssh_PrivateKeyEncrypted sd) =? 0 then Ok sd
        else let! pt := lift_srv (Decrypt (ssh_PrivateKeyEncrypted sd) encryptionKey aad) in
             Ok {| ssh_PrivateKeyEncrypted := ssh_PrivateKeyEncrypted sd; ssh_PassphraseEncrypted := ssh_PassphraseEncrypted sd;
                   ssh_KnownHostKey := ssh_KnownHostKey sd; ssh_PrivateKey := bytes_str pt; ssh_Passphrase := ssh_Passphrase sd |} in
      let! sd :=
        if zlen (ssh_PassphraseEncrypted sd) =? 0 then Ok sd
        else let! pt := lift_srv (Decrypt (ssh_PassphraseEncrypted sd) encryptionKey aad) in
             Ok {| ssh_PrivateKeyEncrypted := ssh_PrivateKeyEncrypted sd; ssh_PassphraseEncrypted := ssh_PassphraseEncrypted sd;
                   ssh_KnownHostKey := ssh_KnownHostKey sd; ssh_PrivateKey := ssh_PrivateKey sd; ssh_Passphrase := bytes_str pt |} in
      Ok (with_ssh s sd)
  end.

Definition DecryptPassword (s : Server) (encryptionKey : bytes) : res server_error Server :=
  let! plaintext := lift_srv (Decrypt (d_PasswordEncrypted s) encryptionKey (ServerAAD (uuid_String (d_UID s)))) in
  Ok (with_password s (bytes_str plaintext) (d_PasswordEncrypted s)).
End Secrets.

Definition MongoAuthSourceOrDefault (s : Server) : string :=
  match Server_MongoData s with
  | Some data => if String.eqb (md_AuthSource data) "" then "admin" else md_AuthSource data
  | None => "admin"
  end.

(** ** Writes *)

Record ServerUpdate := {
  su_Description : option string;
  su_Host : option string;
  su_Port : option Z;
  su_DatabaseName : option string;
  su_Username : option string;
  su_Password : option string;
  su_SSLMode : option string;
  su_Protocol : option string;
  su_OracleServiceName : option string;
  su_MongoAuthSource : option string;
  su_Listable : option bool;
  su_ViaUID : option uuid;
  su_ClearViaUID : bool;
  su_SSHPrivateKey : option string;
  su_SSHPassphrase : option string
}.

Definition valueOrDefault {A} (ptr : option A) (def : A) : A := default def ptr.

Definition empty_ssh : SSHServerData :=
  {| ssh_PrivateKeyEncrypted := []; ssh_PassphraseEncrypted := []; ssh_KnownHostKey := "";
     ssh_PrivateKey := ""; ssh_Passphrase := "" |}.

(** [protocol_data || {"mongodb": {..., "auth_source": v}}] *)
Definition merge_auth_source (pd : option ServerProtocolData) (v : string) : ServerProtocolData :=
  {| sp_MongoDB := Some {| md_AuthSource := v |}; sp_SSH := match pd with Some p => sp_SSH p | None => None end |}.

(** [protocol_data || {"ssh": {..., "known_host_key": v}}] *)
Definition pin_host_key (pd : option ServerProtocolData) (v : string) : ServerProtocolData :=
  let sd := default empty_ssh (match pd with Some p => sp_SSH p | None => None end) in
  {| sp_MongoDB := match pd with Some p => sp_MongoDB p | None => None end;
     sp_SSH := Some {| ssh_PrivateKeyEncrypted := ssh_PrivateKeyEncrypted sd;
                       ssh_PassphraseEncrypted := ssh_PassphraseEncrypted sd; ssh_KnownHostKey := v;
                       ssh_PrivateKey := ""; ssh_Passphrase := "" |} |}.

(** The columns an UPDATE sets; [via] and [pd] as they come out. *)
Definition updated_row (s : Server) (u : ServerUpdate) (enc : option bytes) (pd : option ServerProtocolData) (now : time) : Server :=
  {| d_UID := d_UID s; d_Name := d_Name s; d_Description := valueOrDefault (su_Description u) (d_Description s);
     d_Host := valueOrDefault (su_Host u) (d_Host s); d_Port := valueOrDefault (su_Port u) (d_Port s);
     d_DatabaseName := valueOrDefault (su_DatabaseName u) (d_DatabaseName s);
     d_Username := valueOrDefault (su_Username u) (d_Username s); d_Password := d_Password s;
     d_PasswordEncrypted := valueOrDefault enc (d_PasswordEncrypted s);
     d_SSLMode := valueOrDefault (su_SSLMode u) (d_SSLMode s);
     d_Protocol := valueOrDefault (su_Protocol u) (d_Protocol s);
     d_OracleServiceName := match su_OracleServiceName u with Some n => Some n | None => d_OracleServiceName s end;
     d_ViaUID := if su_ClearViaUID u then None
                 else match su_ViaUID u with Some v => Some v | None => d_ViaUID s end;
     d_ProtocolData := pd; d_Listable := valueOrDefault (su_Listable u) (d_Listable s);
     d_CreatedBy := d_CreatedBy s; d_CreatedAt := d_CreatedAt s; d_UpdatedAt := now; d_DeletedAt := d_DeletedAt s |}.

Definition deleted_server (s : Server) (now : time) : Server :=
  {| d_UID := d_UID s; d_Name := d_Name s; d_Description := d_Description s; d_Host := d_Host s; d_Port := d_Port s;
     d_DatabaseName := d_DatabaseName s; d_Username := d_Username s; d_Password := d_Password s;
     d_PasswordEncrypted := d_PasswordEncrypted s; d_SSLMode := d_SSLMode s; d_Protocol := d_Protocol s;
     d_OracleServiceName := d_OracleServiceName s; d_ViaUID := d_ViaUID s; d_ProtocolData := d_ProtocolData s;
     d_Listable := d_Listable s; d_CreatedBy := d_CreatedBy s; d_CreatedAt := d_CreatedAt s;
     d_UpdatedAt := d_UpdatedAt s; d_DeletedAt := Some now |}.

(** [servers_name_key] covers deleted rows too. *)
Definition name_taken (d : ServerDB) (name : string) : bool :=
  existsb (fun s => String.eqb (d_Name s) name) (rows d).

Section Writes.
Context {GCM : AEAD} {UT : UUIDText} {HT : HostText}.
Variable storageDSN : string.

(** The row as it is inserted; the protocol data is the caller's. *)
Definition new_server (db : Server) (uid : uuid) (now now' : time) : Server :=
  {| d_UID := uid; d_Name := d_Name db; d_Description := d_Description db; d_Host := d_Host db; d_Port := d_Port db;
     d_DatabaseName := d_DatabaseName db; d_Username := d_Username db; d_Password := "";
     d_PasswordEncrypted := str_bytes "placeholder"; d_SSLMode := d_SSLMode db; d_Protocol := d_Protocol db;
     d_OracleServiceName := d_OracleServiceName db; d_ViaUID := d_ViaUID db; d_ProtocolData := d_ProtocolData db;
     d_Listable := d_Listable db; d_CreatedBy := d_CreatedBy db; d_CreatedAt := now; d_UpdatedAt := now';
     d_DeletedAt := None |}.

Definition has_plain_secret (sd : SSHServerData) : bool :=
  negb (String.eqb (ssh_PrivateKey sd) "") || negb (String.eqb (ssh_Passphrase sd) "").

(** The transaction: INSERT, UPDATE of the password, UPDATE of the protocol data,
    COMMIT are statements 1 to 4; statement 0 begins it. *)
Definition create_tx (sql : nat -> bool) (d : ServerDB) (db : Server) (encryptionKey : bytes) (uid : uuid)
    (nonce : option bytes) (nonces : option bytes * option bytes) (now now' : time) : sres Server :=
  let result := new_server db uid now now' in
  if negb (sql 0%nat && sql 1%nat) || bool_decide (is_Some (d !! uid)) then (d, Err ErrServerSQL)
  else if name_taken d (d_Name db) then (d, Err ErrServerNameConflict)
  else
    match (let! enc := lift_srv (Encrypt nonce (str_bytes (d_Password db)) encryptionKey (ServerAAD (uuid_String uid))) in
           guard! sql 2%nat else ErrServerSQL in
           let result := with_password result "" enc in
           let! result :=
             match Server_SSHData db with
             | Some sd =>
                 if has_plain_secret sd
                 then let! sd' := encryptSSHSecrets uid sd encryptionKey nonces in
                      guard! sql 3%nat else ErrServerSQL in
                      Ok (with_ssh result sd')
                 else Ok result
             | None => Ok result
             end in
           guard! sql 4%nat else ErrServerSQL in
           Ok result) with
    | Ok result => (<[uid := stored result]> d, Ok result)
    | Err e => (d, Err e)
    | Panic => (d, Panic)
    end.

Definition CreateServer (walk sql : nat -> bool) (d : ServerDB) (db : Server) (encryptionKey : bytes) (uid : uuid)
    (nonce : option bytes) (nonces : option bytes * option bytes) (now now' : time) : sres Server :=
  if MatchesStorageDSN storageDSN (d_Host db) (d_Port db) (d_DatabaseName db) then (d, Err ErrTargetMatchesStorage)
  else match (match d_ViaUID db with Some v => validateViaUID walk d Nil v | None => Ok tt end) with
       | Ok _ => create_tx sql d db encryptionKey uid nonce nonces now now'
       | Err e => (d, Err e)
       | Panic => (d, Panic)
       end.

Definition SetKnownHostKey (ok : bool) (d : ServerDB) (uid : uuid) (hostKey : string) : sres unit :=
  if negb ok then (d, Err ErrServerSQL)
  else match live_server_at d uid with
       | Some s =>
           (<[uid := match pin_host_key (d_ProtocolData s) hostKey with
                     | {| sp_MongoDB := m; sp_SSH := sd |} =>
                         {| d_UID := d_UID s; d_Name := d_Name s; d_Description := d_Description s; d_Host := d_Host s;
                            d_Port := d_Port s; d_DatabaseName := d_DatabaseName s; d_Username := d_Username s;
                            d_Password := d_Password s; d_PasswordEncrypted := d_PasswordEncrypted s;
                            d_SSLMode := d_SSLMode s; d_Protocol := d_Protocol s;
                            d_OracleServiceName := d_OracleServiceName s; d_ViaUID := d_ViaUID s;
                            d_ProtocolData := Some {| sp_MongoDB := m; sp_SSH := sd |};
                            d_Listable := d_Listable s; d_CreatedBy := d_CreatedBy s; d_CreatedAt := d_CreatedAt s;
                            d_UpdatedAt := d_UpdatedAt s; d_DeletedAt := d_DeletedAt s |}
                     end]> d, Ok tt)
       | None => (d, Ok tt)
       end.

Definition checkStorageDSNConflict (ok : bool) (d : ServerDB) (uid : uuid) (u : ServerUpdate) : res server_error unit :=
  if is_none (su_Host u) && is_none (su_Port u) && is_none (su_DatabaseName u) then Ok tt
  else
    let! current := GetServerByUID ok d uid in
    let host := valueOrDefault (su_Host u) (d_Host current) in
    let port := valueOrDefault (su_Port u) (d_Port current) in
    let databaseName := valueOrDefault (su_DatabaseName u) (d_DatabaseName current) in
    guard! negb (MatchesStorageDSN storageDSN host port databaseName) else ErrTargetMatchesStorage in
    Ok tt.

Definition mergedSSHSecrets (ok : bool) (d : ServerDB) (uid : uuid) (u : ServerUpdate) (encryptionKey : bytes)
    (nonces : option bytes * option bytes) : res server_error ServerProtocolData :=
  let! current := GetServerByUID ok d uid in
  let sd := default empty_ssh (Server_SSHData current) in
  let aad := ServerAAD (uuid_String uid) in
  let! key :=
    match su_SSHPrivateKey u with
    | Some k => lift_srv (Encrypt nonces.1 (str_bytes k) encryptionKey aad)
    | None => Ok (ssh_PrivateKeyEncrypted sd)
    end in
  let! phrase :=
    match su_SSHPassphrase u with
    | Some p => lift_srv (Encrypt nonces.2 (str_bytes p) encryptionKey aad)
    | None => Ok (ssh_PassphraseEncrypted sd)
    end in
  Ok {| sp_MongoDB := Server_MongoData current;
        sp_SSH := Some {| ssh_PrivateKeyEncrypted := key; ssh_PassphraseEncrypted := phrase;
                          ssh_KnownHostKey := ssh_KnownHostKey sd; ssh_PrivateKey := ""; ssh_Passphrase := "" |} |}.

(** Statements: 0 the DSN check, 1 the merge of SSH secrets, 2 the UPDATE.  An
    UPDATE that sets [protocol_data] twice is an error of the server. *)
Definition UpdateServer (walk sql : nat -> bool) (d : ServerDB) (uid : uuid) (u : ServerUpdate) (encryptionKey : bytes)
    (nonce : option bytes) (nonces : option bytes * option bytes) (now : time) : sres unit :=
  match (let! _ := checkStorageDSNConflict (sql 0%nat) d uid u in
         let! _ := match su_ViaUID u with Some v => validateViaUID walk d uid v | None => Ok tt end in
         let! enc :=
           match su_Password u with
           | Some p => let! e := lift_srv (Encrypt nonce (str_bytes p) encryptionKey (ServerAAD (uuid_String uid))) in Ok (Some e)
           | None => Ok None
           end in
         let! pd :=
           if is_none (su_SSHPrivateKey u) && is_none (su_SSHPassphrase u) then Ok None
           else let! pd := mergedSSHSecrets (sql 1%nat) d uid u encryptionKey nonces in Ok (Some pd) in
         guard! sql 2%nat && (is_none (su_MongoAuthSource u) || is_none pd) else ErrServerSQL in
         match live_server_at d uid with
         | None => Err ErrServerNotFound
         | Some s =>
             let pd := match pd, su_MongoAuthSource u with
                       | Some pd, _ => Some pd
                       | None, Some v => Some (merge_auth_source (d_ProtocolData s) v)
                       | None, None => d_ProtocolData s
                       end in
             Ok (updated_row s u enc pd now)
         end) with
  | Ok row => (<[uid := row]> d, Ok tt)
  | Err e => (d, Err e)
  | Panic => (d, Panic)
  end.

Definition DeleteServer (ok : bool) (d : ServerDB) (uid : uuid) (now : time) : sres unit :=
  if negb ok then (d, Err ErrServerSQL)
  else match live_server_at d uid with
       | None => (d, Err ErrServerNotFound)
       | Some s => (<[uid := deleted_server s now]> d, Ok tt)
       end.
End Writes.

(** * Theorems *)

(** ** The walk always ends *)

Lemma GetServerByUID_Ok ok d uid s :
  GetServerByUID ok d uid = Ok s -> d !! uid = Some s /\ live_server s = true.
Proof.
  unfold GetServerByUID, live_server_at. destruct ok; [|done]. destruct (d !! uid) as [x|]; [|done].
  destruct (live_server x) eqn:E; naive_solver.
Qed.

Lemma via_walk_fuel sql d self : forall fuel i seen cur,
  seen ⊆ dom d -> (size (dom d) < fuel + size seen)%nat ->
  via_walk fuel sql i d self seen cur <> Err ErrViaWalkUnfinished.
Proof.
  induction fuel as [|fuel IH]; intros i seen cur Hsub Hsz.
  { pose proof (subseteq_size _ _ Hsub). lia. }
  cbn [via_walk]. destruct (negb _); [|done]. case_bool_decide as Hin; [done|]. cbn [negb].
  destruct (GetServerByUID (sql i) d cur) as [s|e|] eqn:E; [|by unfold GetServerByUID in E; destruct (sql i), (live_server_at d cur); simplify_eq/=..].
  cbn [rbind]. destruct (String.eqb _ _); [|done]. destruct (d_ViaUID s) as [v|]; [|done].
  apply GetServerByUID_Ok in E as [E _]. apply IH.
  - apply elem_of_dom_2 in E. set_solver.
  - rewrite size_union by set_solver. rewrite size_singleton. lia.
Qed.

(** [validateViaUID] terminates on every table, also one whose [via_uid] chain
    is a cycle: the loop body runs at most once per server and once more. *)
Theorem via_walk_finishes sql d selfUID viaUID :
  validateViaUID sql d selfUID viaUID <> Err ErrViaWalkUnfinished.
Proof. apply via_walk_fuel; [set_solver|]. rewrite size_dom, size_empty. lia. Qed.

(** ** Chains end at a direct server *)

(** Following [via_uid] from [a] meets only existing rows, never [avoid], and
    ends at a row that is dialled directly. *)
Inductive grounded (avoid : option uuid) (d : ServerDB) : uuid -> Prop :=
| grounded_direct a s : Some a <> avoid -> d !! a = Some s -> d_ViaUID s = None -> grounded avoid d a
| grounded_via a s b : Some a <> avoid -> d !! a = Some s -> d_ViaUID s = Some b -> grounded avoid d b -> grounded avoid d a.

Lemma via_walk_Ok sql d self : forall fuel i seen cur,
  via_walk fuel sql i d self seen cur = Ok tt ->
  grounded (if N.eqb self Nil then None else Some self) d cur.
Proof.
  induction fuel as [|fuel IH]; intros i seen cur H; [done|]. cbn [via_walk] in H.
  destruct (negb (negb (N.eqb self Nil) && N.eqb cur self)) eqn:Eself; [|done].
  destruct (negb (bool_decide (cur ∈ seen))); [|done]. apply rbind_Ok in H as (s & E & H).
  destruct (String.eqb _ _); [|done]. apply GetServerByUID_Ok in E as [E _].
  assert (Hne : Some cur <> (if N.eqb self Nil then None else Some self)).
  { destruct (N.eqb_spec self Nil); [done|]. destruct (N.eqb_spec cur self); [done|]. congruence. }
  destruct (d_ViaUID s) as [b|] eqn:Ev; [|by eapply grounded_direct].
  eapply grounded_via; eauto.
Qed.

Lemma grounded_weaken avoid d a : grounded avoid d a -> grounded None d a.
Proof. induction 1; [by eapply grounded_direct|by eapply grounded_via]. Qed.

(** Rewriting a row that the chain avoids, or one whose [via_uid] stays, keeps it. *)
Lemma grounded_insert avoid d k s' a :
  grounded avoid d a ->
  (avoid = Some k \/ forall s, d !! k = Some s -> d_ViaUID s' = d_ViaUID s) ->
  grounded avoid (<[k := s']> d) a.
Proof.
  intros H Hk. induction H as [a s Hne E Ev|a s b Hne E Ev _ IH]; destruct (decide (k = a)) as [->|Hka].
  - destruct Hk as [?|Hk]; [done|]. eapply grounded_direct; [done|apply lookup_insert_eq|]. by rewrite (Hk s E).
  - eapply grounded_direct; [done|by rewrite lookup_insert_ne|done].
  - destruct Hk as [?|Hk]; [done|]. eapply grounded_via; [done|apply lookup_insert_eq| |done]. by rewrite (Hk s E).
  - eapply grounded_via; [done|by rewrite lookup_insert_ne|done|done].
Qed.

Lemma grounded_fresh d k s' a : d !! k = None -> grounded None d a -> grounded None (<[k := s']> d) a.
Proof. intros Hk H. apply grounded_insert; [done|]. right. intros s E. congruence. Qed.

(** A row gets a new [via_uid] whose chain avoids it. *)
Lemma grounded_reroute d k s s' b a :
  d !! k = Some s -> d_ViaUID s' = Some b -> grounded (Some k) d b ->
  grounded None d a -> grounded None (<[k := s']> d) a.
Proof.
  intros E Ev Hb H.
  assert (Hk : grounded None (<[k := s']> d) k).
  { eapply grounded_via; [done|apply lookup_insert_eq|done|].
    eapply grounded_weaken, grounded_insert; [exact Hb|by left]. }
  induction H as [a sa Hne Ea Eva|a sa c Hne Ea Eva _ IH]; (destruct (decide (k = a)) as [->|Hka]; [done|]).
  - eapply grounded_direct; [done|by rewrite lookup_insert_ne|done].
  - eapply grounded_via; [done|by rewrite lookup_insert_ne|done|done].
Qed.

Lemma grounded_cut d k s s' a :
  d !! k = Some s -> d_ViaUID s' = None -> grounded None d a -> grounded None (<[k := s']> d) a.
Proof.
  intros E Ev H.
  induction H as [a sa Hne Ea Eva|a sa c Hne Ea Eva _ IH];
    (destruct (decide (k = a)) as [->|Hka]; [eapply grounded_direct; [done|apply lookup_insert_eq|done]|]).
  - eapply grounded_direct; [done|by rewrite lookup_insert_ne|done].
  - eapply grounded_via; [done|by rewrite lookup_insert_ne|done|done].
Qed.

Section Invariant.
Context {GCM : AEAD} {UT : UUIDText} {HT : HostText}.
Variable storageDSN : string.

(** The operations of the API, one after the other. *)
Inductive server_step : ServerDB -> ServerDB -> Prop :=
| sv_create d walk sql db ek uid nonce nonces n n' :
    uid <> Nil -> server_step d (CreateServer storageDSN walk sql d db ek uid nonce nonces n n').1
| sv_update d walk sql uid u ek nonce nonces n :
    server_step d (UpdateServer storageDSN walk sql d uid u ek nonce nonces n).1
| sv_delete d ok uid n : server_step d (DeleteServer ok d uid n).1
| sv_pin d ok uid key : server_step d (SetKnownHostKey ok d uid key).1.

Record servers_ok (d : ServerDB) : Prop := {
  sv_keyed : forall k s, d !! k = Some s -> d_UID s = k /\ k <> Nil;
  sv_chains : forall k s, d !! k = Some s -> grounded None d k;
  sv_not_storage : forall k s, d !! k = Some s ->
    MatchesStorageDSN storageDSN (d_Host s) (d_Port s) (d_DatabaseName s) = false
}.

(** A row that keeps its key and its target. *)
Lemma servers_ok_row d k s s' :
  servers_ok d -> d !! k = Some s -> d_UID s' = d_UID s ->
  MatchesStorageDSN storageDSN (d_Host s') (d_Port s') (d_DatabaseName s') = false ->
  (forall a t, d !! a = Some t -> grounded None d a -> grounded None (<[k := s']> d) a) ->
  servers_ok (<[k := s']> d).
Proof.
  intros H E Hid Hst Hg. split.
  - intros k' t [[<- <-]|[_ Et]]%lookup_insert_Some; [rewrite Hid|]; by apply (sv_keyed d H).
  - intros k' t [[<- <-]|[_ Et]]%lookup_insert_Some.
    + apply (Hg k s); [done|]. by eapply (sv_chains d H).
    + apply (Hg k' t); [done|]. by eapply (sv_chains d H).
  - intros k' t [[<- <-]|[_ Et]]%lookup_insert_Some; [done|by eapply (sv_not_storage d H)].
Qed.

Lemma live_server_at_Some d uid s : live_server_at d uid = Some s -> d !! uid = Some s /\ live_server s = true.
Proof. unfold live_server_at. destruct (d !! uid) as [x|]; [|done]. destruct (live_server x) eqn:E; naive_solver. Qed.

Lemma stored_fields s :
  d_UID (stored s) = d_UID s /\ d_ViaUID (stored s) = d_ViaUID s /\ d_Host (stored s) = d_Host s /\
  d_Port (stored s) = d_Port s /\ d_DatabaseName (stored s) = d_DatabaseName s /\ d_Name (stored s) = d_Name s /\
  d_PasswordEncrypted (stored s) = d_PasswordEncrypted s.
Proof. unfold stored. by destruct (Server_SSHData _). Qed.

(** What [create_tx] inserts. *)
Lemma create_tx_Ok sql d db ek uid nonce nonces n n' d' r :
  create_tx sql d db ek uid nonce nonces n n' = (d', Ok r) ->
  d !! uid = None /\ d' = <[uid := stored r]> d /\ d_UID r = uid /\ d_ViaUID r = d_ViaUID db /\
  d_Host r = d_Host db /\ d_Port r = d_Port db /\ d_DatabaseName r = d_DatabaseName db /\
  lift_srv (Encrypt nonce (str_bytes (d_Password db)) ek (ServerAAD (uuid_String uid))) = Ok (d_PasswordEncrypted r).
Proof.
  unfold create_tx. destruct (negb _ || _) eqn:E0; [done|]. destruct (name_taken _ _); [done|].
  apply orb_false_iff in E0 as [_ E0]. apply bool_decide_eq_false, eq_None_not_Some in E0.
  match goal with |- context [match ?m with Ok _ => _ | Err _ => _ | Panic => _ end] => destruct m as [x|e|] eqn:Em end; [|done..].
  intros [= <- <-]. apply rbind_Ok in Em as (enc & Ee & Em). destruct (sql 2%nat); [|done].
  apply rbind_Ok in Em as (y & Ey & Em). destruct (sql 4%nat); [|done]. injection Em as ->.
  split; [done|]. split; [done|].
  assert (Hy : x = with_password (new_server db uid n n') "" enc \/
               exists sd, x = with_ssh (with_password (new_server db uid n n') "" enc) sd).
  { destruct (Server_SSHData db) as [sd|]; [|left; congruence]. destruct (has_plain_secret sd); [|left; congruence].
    apply rbind_Ok in Ey as (sd' & _ & Ey). destruct (sql 3%nat); [|done]. right. exists sd'. congruence. }
  destruct Hy as [->|(sd & ->)]; cbn; done.
Qed.

Lemma CreateServer_safe walk sql d db ek uid nonce nonces n n' :
  uid <> Nil -> servers_ok d -> servers_ok (CreateServer storageDSN walk sql d db ek uid nonce nonces n n').1.
Proof.
  intros Hnil H. unfold CreateServer. destruct (MatchesStorageDSN _ _ _ _) eqn:Em; [done|].
  destruct (match d_ViaUID db with Some v => _ | None => _ end) as [[]|e|] eqn:Ev; [|done..].
  destruct (create_tx sql d db ek uid nonce nonces n n') as [d' [r|e|]] eqn:Ec.
  - apply create_tx_Ok in Ec as (Hf & -> & Hu & Hv & Hh & Hp & Hd & _).
    destruct (stored_fields r) as (S1 & S2 & S3 & S4 & S5 & _). cbn [fst].
    assert (Hg : forall a t, d !! a = Some t -> grounded None (<[uid := stored r]> d) a).
    { intros a t E. apply grounded_fresh; [done|]. by eapply (sv_chains d H). }
    split.
    + intros k s [[<- <-]|[_ E]]%lookup_insert_Some; [by rewrite S1|by apply (sv_keyed d H)].
    + intros k s [[<- <-]|[_ E]]%lookup_insert_Some; [|by eapply Hg].
      destruct (d_ViaUID db) as [v|] eqn:Edv.
      * apply via_walk_Ok in Ev. cbn in Ev. eapply grounded_via; [done|apply lookup_insert_eq|by rewrite S2, Hv|].
        by apply grounded_fresh.
      * eapply grounded_direct; [done|apply lookup_insert_eq|by rewrite S2, Hv].
    + intros k s [[<- <-]|[_ E]]%lookup_insert_Some; [|by eapply (sv_not_storage d H)].
      by rewrite S3, S4, S5, Hh, Hp, Hd.
  - unfold create_tx in Ec. repeat (case_match; simplify_eq/=; try done).
  - unfold create_tx in Ec. repeat (case_match; simplify_eq/=; try done).
Qed.

Lemma UpdateServer_Ok walk sql d uid u ek nonce nonces n d' :
  UpdateServer storageDSN walk sql d uid u ek nonce nonces n = (d', Ok tt) ->
  exists s enc pd, d !! uid = Some s /\ d' = <[uid := updated_row s u enc pd n]> d /\
    checkStorageDSNConflict storageDSN (sql 0%nat) d uid u = Ok tt /\
    (forall v, su_ViaUID u = Some v -> validateViaUID walk d uid v = Ok tt).
Proof.
  unfold UpdateServer.
  match goal with |- context [match ?m with Ok _ => _ | Err _ => _ | Panic => _ end] => destruct m as [row|e|] eqn:Em end; [|done..].
  intros [= <-]. apply rbind_Ok in Em as ([] & Hc & Em). apply rbind_Ok in Em as ([] & Hv & Em).
  apply rbind_Ok in Em as (enc & _ & Em). apply rbind_Ok in Em as (pd & _ & Em).
  destruct (_ && _); [|done]. destruct (live_server_at d uid) as [s|] eqn:E; [|done]. injection Em as <-.
  apply live_server_at_Some in E as [E _]. eexists s, enc, _. split; [done|]. split; [done|]. split; [done|].
  intros v Ev. by rewrite Ev in Hv.
Qed.

Lemma UpdateServer_fail walk sql d uid u ek nonce nonces n :
  (UpdateServer storageDSN walk sql d uid u ek nonce nonces n).2 <> Ok tt ->
  (UpdateServer storageDSN walk sql d uid u ek nonce nonces n).1 = d.
Proof.
  unfold UpdateServer.
  match goal with |- context [match ?m with Ok _ => _ | Err _ => _ | Panic => _ end] => by destruct m end.
Qed.

(** The DSN check covers every update that touches the target. *)
Lemma update_not_storage ok d uid s u enc pd n :
  servers_ok d -> d !! uid = Some s -> checkStorageDSNConflict storageDSN ok d uid u = Ok tt ->
  let r := updated_row s u enc pd n in
  MatchesStorageDSN storageDSN (d_Host r) (d_Port r) (d_DatabaseName r) = false.
Proof.
  intros H E Hc. cbn. unfold checkStorageDSNConflict in Hc.
  destruct (is_none (su_Host u) && is_none (su_Port u) && is_none (su_DatabaseName u)) eqn:En.
  - destruct (su_Host u), (su_Port u), (su_DatabaseName u); try done. cbn. by eapply (sv_not_storage d H).
  - apply rbind_Ok in Hc as (c & Ec & Hc). apply GetServerByUID_Ok in Ec as [Ec _].
    assert (c = s) as -> by congruence. by destruct (MatchesStorageDSN _ _ _ _).
Qed.

Lemma UpdateServer_safe walk sql d uid u ek nonce nonces n :
  servers_ok d -> servers_ok (UpdateServer storageDSN walk sql d uid u ek nonce nonces n).1.
Proof.
  intros H. destruct (UpdateServer storageDSN walk sql d uid u ek nonce nonces n) as [d' r] eqn:E.
  assert (r = Ok tt \/ r <> Ok tt) as [->|Hne] by (destruct r as [[]|e|]; [by left|by right..]).
  - apply UpdateServer_Ok in E as (s & enc & pd & Es & -> & Hc & Hv). cbn [fst].
    apply (servers_ok_row d uid s); [done|done|done|by eapply update_not_storage|].
    intros a t Et Hg. destruct (su_ClearViaUID u) eqn:Ecl.
    { eapply grounded_cut; [done| |done]. cbn. by rewrite Ecl. }
    destruct (su_ViaUID u) as [v|] eqn:Ev.
    + pose proof (via_walk_Ok _ _ _ _ _ _ _ (Hv v eq_refl)) as Hw.
      destruct (sv_keyed d H uid s Es) as [_ Hnil]. destruct (N.eqb_spec uid Nil); [done|].
      eapply grounded_reroute; [done| |exact Hw|done]. cbn. by rewrite Ecl, Ev.
    + apply grounded_insert; [done|]. right. intros s2 Es2. cbn. rewrite Ecl, Ev. congruence.
  - pose proof (UpdateServer_fail walk sql d uid u ek nonce nonces n) as Hf. rewrite E in Hf. cbn in *.
    by rewrite (Hf Hne).
Qed.

Lemma server_step_ok d d' : server_step d d' -> servers_ok d -> servers_ok d'.
Proof.
  intros Hs H. destruct Hs.
  - by apply CreateServer_safe.
  - by apply UpdateServer_safe.
  - unfold DeleteServer. destruct (negb ok); [done|]. destruct (live_server_at d uid) as [s|] eqn:E; [|done].
    apply live_server_at_Some in E as [E _]. apply (servers_ok_row d uid s); [done|done|done|cbn; by eapply (sv_not_storage d H)|].
    intros a t Et Hg. apply grounded_insert; [done|]. right. intros s2 Es2. cbn. congruence.
  - unfold SetKnownHostKey. destruct (negb ok); [done|]. destruct (live_server_at d uid) as [s|] eqn:E; [|done].
    apply live_server_at_Some in E as [E _]. apply (servers_ok_row d uid s); [done|done|done|cbn; by eapply (sv_not_storage d H)|].
    intros a t Et Hg. apply grounded_insert; [done|]. right. intros s2 Es2. cbn. congruence.
Qed.

Lemma servers_ok_empty : servers_ok ∅.
Proof. by split. Qed.

Lemma server_steps_ok d d' : rtc server_step d d' -> servers_ok d -> servers_ok d'.
Proof. induction 1; [done|]. intros H1. by apply IHrtc, (server_step_ok x). Qed.

(** In every table the server operations produce, following [via_uid] from any
    server reaches a directly dialled one without meeting a missing row or the
    same row twice, and no server is dbbat's own storage database. *)
Theorem server_table_safe d :
  rtc server_step ∅ d ->
  forall k s, d !! k = Some s ->
    grounded None d k /\ MatchesStorageDSN storageDSN (d_Host s) (d_Port s) (d_DatabaseName s) = false.
Proof.
  intros Hs k s E. pose proof (server_steps_ok _ _ Hs servers_ok_empty) as H.
  split; [by eapply (sv_chains d H)|by eapply (sv_not_storage d H)].
Qed.

(** ** Secrets *)

(** A created server's password is stored so that only its own row decrypts it:
    the stored row gives the plaintext back, holds no plaintext itself, and the
    same ciphertext under any other row's identifier is refused. *)
Theorem server_password_bound walk sql d db ek uid nonce nonces n n' d' r :
  zlen nonce = NonceSize -> zlen ek = 32 ->
  CreateServer storageDSN walk sql d db ek uid (Some nonce) nonces n n' = (d', Ok r) ->
  exists row, d' !! uid = Some row /\ d_Password row = "" /\
    (exists dec, DecryptPassword row ek = Ok dec /\ d_Password dec = d_Password db) /\
    forall other, d_UID other <> uid -> d_PasswordEncrypted other = d_PasswordEncrypted row ->
      DecryptPassword other ek = Err (ErrServerCrypto ErrDecrypt).
Proof.
  intros Hn Hk Hc. unfold CreateServer in Hc. destruct (MatchesStorageDSN _ _ _ _); [done|].
  destruct (match d_ViaUID db with Some v => _ | None => _ end) as [[]|e|]; [|done..].
  apply create_tx_Ok in Hc as (_ & -> & Hu & _ & _ & _ & _ & He).
  destruct (stored_fields r) as (S1 & _ & _ & _ & _ & _ & S7).
  rewrite encrypt_ok in He by done. cbn in He. injection He as He.
  exists (stored r). split; [apply lookup_insert_eq|]. split; [unfold stored; by destruct (Server_SSHData _)|].
  split.
  - unfold DecryptPassword. rewrite S1, S7, Hu, <- He, decrypt_sealed, Open_Seal by done.
    eexists. split; [done|]. cbn. apply bytes_str_bytes.
  - intros other Hne Ho. unfold DecryptPassword. rewrite Ho, S7, <- He, decrypt_sealed by done.
    rewrite Open_other; [done|]. intros Heq%(f_equal snd). cbn [snd] in Heq.
    apply Hne, uuid_String_inj. symmetry. apply ServerAAD_inj. exact Heq.
Qed.
End Invariant.

(** A sample installation with a bastion and a database behind it. *)
Module SampleServers.
#[export] Instance ss_aead : AEAD := toy_aead.
#[export] Instance ss_uuid : UUIDText.
Proof. refine {| uuid_String u := string_of_list_ascii (replicate (N.to_nat u) "x"%char) |}.
  intros u v H. apply (f_equal String.length) in H.
  assert (Hl : forall n, String.length (string_of_list_ascii (replicate n "x"%char)) = n)
    by (induction n; cbn; congruence). rewrite !Hl in H. lia.
Defined.
#[export] Instance ss_text : HostText := {| parse_url _ := None; ToLower s := s |}.
Definition ok : nat -> bool := fun _ => true.
Definition dsn := "host=localhost port=5432 dbname=dbbat".
Definition key := replicate 32 9.

Definition sample_server (name host : string) (protocol : string) (via : option uuid) : Server :=
  {| d_UID := Nil; d_Name := name; d_Description := ""; d_Host := host; d_Port := 5432; d_DatabaseName := "dbbat";
     d_Username := "u"; d_Password := "pw"; d_PasswordEncrypted := []; d_SSLMode := ""; d_Protocol := protocol;
     d_OracleServiceName := None; d_ViaUID := via; d_ProtocolData := None; d_Listable := true; d_CreatedBy := None;
     d_CreatedAt := 0; d_UpdatedAt := 0; d_DeletedAt := None |}.

Definition db1 := (CreateServer dsn ok ok ∅ (sample_server "hop" "bastion" ProtocolSSH None) key 1%N
                     (Some (replicate 12 1)) (None, None) 5 5).1.
Definition db2 := (CreateServer dsn ok ok db1 (sample_server "db" "10.0.0.1" ProtocolPostgreSQL (Some 1%N)) key 2%N
                     (Some (replicate 12 2)) (None, None) 6 6).1.

Lemma reach2 : rtc (server_step dsn) ∅ db2.
Proof. apply rtc_l with db1; [|apply rtc_once]; apply sv_create; discriminate. Qed.

Lemma storage_refused :
  (CreateServer dsn ok ok db1 (sample_server "self" "127.0.0.1" ProtocolPostgreSQL None) key 3%N
     (Some (replicate 12 2)) (None, None) 6 6).2 = Err ErrTargetMatchesStorage.
Proof. vm_compute. reflexivity. Qed.
End SampleServers.

Import SampleServers.

Lemma server_table_safe_witness :
  exists s, db2 !! 2%N = Some s /\ grounded None db2 2%N /\ d_ViaUID s = Some 1%N.
Proof.
  destruct (db2 !! 2%N) as [s|] eqn:E; [|vm_compute in E; discriminate]. exists s. split; [reflexivity|]. split.
  - exact (proj1 (server_table_safe dsn db2 reach2 2%N s E)).
  - vm_compute in E. injection E as <-. reflexivity.
Defined.

Lemma server_password_bound_witness :
  exists row, db1 !! 1%N = Some row /\ d_Password row = "" /\
    exists dec, DecryptPassword row key = Ok dec /\ d_Password dec = "pw".
Proof.
  destruct (CreateServer dsn ok ok ∅ (sample_server "hop" "bastion" ProtocolSSH None) key 1%N
              (Some (replicate 12 1)) (None, None) 5 5) as [d' [r|e|]] eqn:E; try (vm_compute in E; discriminate).
  destruct (server_password_bound dsn ok ok ∅ (sample_server "hop" "bastion" ProtocolSSH None) key 1%N
              (replicate 12 1) (None, None) 5 5 d' r eq_refl eq_refl E) as (row & H1 & H2 & H3 & _).
  exists row. split; [unfold db1; rewrite E; exact H1|]. split; [exact H2|exact H3].
Defined.
