(* ===== verification/Dial.v ===== *)
(** * Dialling upstream servers through SSH bastions
    ([internal/proxy/shared/dial.go])

    The dialer keeps one SSH client per bastion.  What the network does is an
    oracle [World] indexed by the number of external events so far: whether a
    TCP dial or a channel through a client opens, which host key a peer
    presents, whether the rest of the handshake succeeds, whether an SQL
    statement of the store does.  Parsing private keys is the class [SSHKeys]
    ([golang.org/x/crypto/ssh]).  The Go functions return a client and an error;
    so do the definitions, since one path returns both. *)

From Stdlib Require Import ZArith Lia List Bool String Ascii.
From stdpp Require Import base list gmap strings relations.
From S2P Require Import Prelude GoStrings Encoding Models AuthCache GrantStore Crypto Accounts Servers.

Open Scope string_scope.
Open Scope Z_scope.

Inductive dial_error :=
| ErrLoadBastion (e : server_error)
| ErrBastionNotSSH
| ErrBastionSecrets (e : server_error)
| ErrParsePrivateKey
| ErrNoSSHAuthMethod
| ErrServerViaCycleDial
| ErrReachBastion
| ErrHandshake
| ErrSSHHostKeyMismatch
| ErrPinHostKey (e : server_error)
| ErrDialUpstream
| ErrDialThroughBastion
| ErrDialUnfinished               (* out of fuel: shown impossible *)
| ErrDialPanic.

Class SSHKeys := {
  ParsePrivateKey : string -> bool;
  ParsePrivateKeyWithPassphrase : string -> string -> bool
}.

Record World := {
  w_tcp : nat -> bool;               (* net.Dialer.DialContext *)
  w_channel : nat -> bool;           (* ssh.Client.DialContext *)
  w_host_key : nat -> option string; (* the presented key, as an authorized_keys line *)
  w_auth : nat -> bool;              (* the rest of ssh.NewClientConn *)
  w_sql : nat -> bool
}.

(** Clients are numbered as they are made. *)
Record Dialer := {
  clients : gmap uuid nat;
  closed : list nat;
  made : nat;
  events : nat;
  table : ServerDB
}.

Definition NewDialer (t : ServerDB) : Dialer :=
  {| clients := ∅; closed := []; made := 0; events := 0; table := t |}.

Definition tick (d : Dialer) : Dialer :=
  {| clients := clients d; closed := closed d; made := made d; events := S (events d); table := table d |}.
Definition set_table (d : Dialer) (t : ServerDB) : Dialer :=
  {| clients := clients d; closed := closed d; made := made d; events := events d; table := t |}.
Definition new_client (d : Dialer) : Dialer :=
  {| clients := clients d; closed := closed d; made := S (made d); events := events d; table := table d |}.

Definition drop_client (d : Dialer) (uid : uuid) : Dialer :=
  match clients d !! uid with
  | Some c => {| clients := delete uid (clients d); closed := c :: closed d; made := made d;
                 events := events d; table := table d |}
  | None => d
  end.

Definition pool (d : Dialer) (uid : uuid) (client : nat) : Dialer :=
  let cl := match clients d !! uid with
            | Some existing => if Nat.eqb existing client then closed d else existing :: closed d
            | None => closed d
            end in
  {| clients := <[uid := client]> (clients d); closed := cl; made := made d; events := events d; table := table d |}.

Definition Close (d : Dialer) : Dialer :=
  {| clients := ∅; closed := (map snd (map_to_list (clients d)) ++ closed d)%list; made := made d;
     events := events d; table := table d |}.

(** ** Host keys and authentication methods *)

Fixpoint trimTrailingNewline (s : string) : string :=
  match s with
  | EmptyString => EmptyString
  | String c EmptyString => if code c =? 10 then EmptyString else s
  | String c r => String c (trimTrailingNewline r)
  end.

(** The callback: the key to record, or a mismatch. *)
Definition hostKeyCallback (bastion : Server) (line : string) : res dial_error string :=
  let presented := trimTrailingNewline line in
  let pinned := match Server_SSHData bastion with Some sd => ssh_KnownHostKey sd | None => "" end in
  if String.eqb pinned "" then Ok presented
  else guard! String.eqb pinned presented else ErrSSHHostKeyMismatch in Ok "".

Inductive AuthMethod := PublicKeys | Password (pw : string).

Definition sshAuthMethods {SK : SSHKeys} (bastion : Server) : res dial_error (list AuthMethod) :=
  let! keys :=
    match Server_SSHData bastion with
    | Some sd =>
        if String.eqb (ssh_PrivateKey sd) "" then Ok []
        else
          let ok := if String.eqb (ssh_Passphrase sd) "" then ParsePrivateKey (ssh_PrivateKey sd)
                    else ParsePrivateKeyWithPassphrase (ssh_PrivateKey sd) (ssh_Passphrase sd) in
          guard! ok else ErrParsePrivateKey in Ok [PublicKeys]
    | None => Ok []
    end in
  let methods := (keys ++ if String.eqb (d_Password bastion) "" then [] else [Password (d_Password bastion)])%list in
  match methods with
  | [] => Err ErrNoSSHAuthMethod
  | _ => Ok methods
  end.

(** ** Clients *)

Abbreviation client_result := (option nat * option dial_error)%type.

Section Dial.
Context {GCM : AEAD} {UT : UUIDText} {SK : SSHKeys}.
Variable w : World.

(** The bastion's row with its secrets decrypted and its authentication methods. *)
Definition load_bastion (ok : bool) (t : ServerDB) (ek : bytes) (uid : uuid) : res dial_error Server :=
  match GetServerByUID ok t uid with
  | Err e => Err (ErrLoadBastion e)
  | Panic => Panic
  | Ok bastion =>
      guard! String.eqb (d_Protocol bastion) ProtocolSSH else ErrBastionNotSSH in
      match (let! b := DecryptSSHSecrets bastion ek in
             if zlen (d_PasswordEncrypted b) =? 0 then Ok b else DecryptPassword b ek) with
      | Err e => Err (ErrBastionSecrets e)
      | Panic => Panic
      | Ok b => let! _ := sshAuthMethods b in Ok b
      end
  end.

(** After the raw connection: handshake, client, pinning, pooling. *)
Definition handshake (d : Dialer) (uid : uuid) (bastion : Server) : Dialer * client_result :=
  match w_host_key w (events d) with
  | None => (tick d, (None, Some ErrHandshake))
  | Some line =>
      let d := tick d in
      match hostKeyCallback bastion line with
      | Ok recordedKey =>
          if negb (w_auth w (events d)) then (tick d, (None, Some ErrHandshake))
          else
            let client := made d in
            let d := new_client (tick d) in
            let known := match Server_SSHData bastion with Some sd => ssh_KnownHostKey sd | None => "" end in
            if negb (String.eqb recordedKey "") && String.eqb known "" then
              let '(t, r) := SetKnownHostKey (w_sql w (events d)) (table d) uid recordedKey in
              let d := set_table (tick d) t in
              match r with
              | Err e => (pool d uid client, (Some client, Some (ErrPinHostKey e)))
              | _ => (pool d uid client, (Some client, None))
              end
            else (pool d uid client, (Some client, None))
      | _ => (d, (None, Some ErrSSHHostKeyMismatch))
      end
  end.

Fixpoint sshClientFor (fuel : nat) (d : Dialer) (ek : bytes) (uid : uuid) (seen : gset uuid) : Dialer * client_result :=
  match fuel with
  | O => (d, (None, Some ErrDialUnfinished))
  | S fuel =>
      match clients d !! uid with
      | Some c => (d, (Some c, None))
      | None =>
          if bool_decide (uid ∈ seen) then (d, (None, Some ErrServerViaCycleDial))
          else
            let seen := {[ uid ]} ∪ seen in
            match load_bastion (w_sql w (events d)) (table d) ek uid with
            | Err e => (tick d, (None, Some e))
            | Panic => (tick d, (None, Some ErrDialPanic))
            | Ok bastion =>
                let d := tick d in
                match d_ViaUID bastion with
                | None =>
                    if w_tcp w (events d) then handshake (tick d) uid bastion
                    else (tick d, (None, Some ErrReachBastion))
                | Some via =>
                    match sshClientFor fuel d ek via seen with
                    | (d, (_, Some e)) => (d, (None, Some e))
                    | (d, (_, None)) =>
                        if w_channel w (events d) then handshake (tick d) uid bastion
                        else (tick d, (None, Some ErrReachBastion))
                    end
                end
            end
      end
  end.

(** One more level than there are servers is enough ([dial_finishes]). *)
Definition client_for (d : Dialer) (ek : bytes) (uid : uuid) : Dialer * client_result :=
  sshClientFor (S (size (table d))) d ek uid ∅.

Definition ConnectBastion (d : Dialer) (ek : bytes) (uid : uuid) : Dialer * client_result := client_for d ek uid.

(** [None] is success: a connection. *)
Definition DialUpstream (d : Dialer) (ek : bytes) (srv : Server) : Dialer * option dial_error :=
  match d_ViaUID srv with
  | None => (tick d, if w_tcp w (events d) then None else Some ErrDialUpstream)
  | Some via =>
      match client_for d ek via with
      | (d, (_, Some e)) => (d, Some e)
      | (d, (_, None)) =>
          if w_channel w (events d) then (tick d, None)
          else
            let d := drop_client (tick d) via in
            match client_for d ek via with
            | (d, (_, Some e)) => (d, Some e)
            | (d, (_, None)) => (tick d, if w_channel w (events d) then None else Some ErrDialThroughBastion)
            end
      end
  end.

(** * Theorems *)

Definition pinned (t : ServerDB) (uid : uuid) : string :=
  match t !! uid with
  | Some s => match Server_SSHData s with Some sd => ssh_KnownHostKey sd | None => "" end
  | None => ""
  end.

Lemma load_bastion_Ok ok t ek uid b :
  load_bastion ok t ek uid = Ok b ->
  exists s, t !! uid = Some s /\ d_ViaUID b = d_ViaUID s /\
    match Server_SSHData b with Some sd => ssh_KnownHostKey sd | None => "" end = pinned t uid.
Proof.
  unfold load_bastion. destruct (GetServerByUID ok t uid) as [s|e|] eqn:E; [|done..].
  destruct (String.eqb _ _); [|done]. apply GetServerByUID_Ok in E as [E _].
  destruct (let! b := DecryptSSHSecrets s ek in _) as [b'|e|] eqn:Ed; [|done..]. intros (m & _ & [= <-])%rbind_Ok.
  exists s. split; [done|]. unfold pinned. rewrite E. apply rbind_Ok in Ed as (b1 & E1 & E2).
  assert (H1 : d_ViaUID b1 = d_ViaUID s /\
    match Server_SSHData b1 with Some sd => ssh_KnownHostKey sd | None => "" end =
    match Server_SSHData s with Some sd => ssh_KnownHostKey sd | None => "" end).
  { unfold DecryptSSHSecrets in E1. destruct (Server_SSHData s) as [sd|] eqn:Es; [|injection E1 as <-; by rewrite Es].
    apply rbind_Ok in E1 as (sd1 & F1 & E1). apply rbind_Ok in E1 as (sd2 & F2 & [= <-]). split; [done|]. cbn.
    assert (ssh_KnownHostKey sd1 = ssh_KnownHostKey sd).
    { destruct (_ =? 0); [congruence|]. by apply rbind_Ok in F1 as (? & _ & [= <-]). }
    destruct (zlen (ssh_PassphraseEncrypted sd1) =? 0); [congruence|]. by apply rbind_Ok in F2 as (? & _ & [= <-]). }
  destruct (_ =? 0); [injection E2 as <-; done|].
  unfold DecryptPassword in E2. by apply rbind_Ok in E2 as (? & _ & [= <-]).
Qed.

Lemma pin_rows ok t uid key t' r :
  SetKnownHostKey ok t uid key = (t', r) ->
  dom t' = dom t /\ forall u, u <> uid -> t' !! u = t !! u.
Proof.
  unfold SetKnownHostKey. destruct (negb ok); [intros [= <- _]; done|].
  destruct (live_server_at t uid) as [s|] eqn:E; intros [= <- _]; [|done].
  apply live_server_at_Some in E as [E _]. split.
  - rewrite dom_insert_L. apply elem_of_dom_2 in E. set_solver.
  - intros u Hu. by rewrite lookup_insert_ne.
Qed.

(** What one call may change: rows and clients of bastions being visited stay,
    pinned keys stay, no server appears or disappears. *)
Record dial_frame (seen : gset uuid) (d d' : Dialer) : Prop := {
  fr_dom : dom (table d') = dom (table d);
  fr_rows : forall u, u ∈ seen -> table d' !! u = table d !! u;
  fr_clients : forall u, u ∈ seen -> clients d' !! u = clients d !! u;
  fr_pins : forall u, pinned (table d) u <> "" -> pinned (table d') u = pinned (table d) u
}.

Lemma dial_frame_same seen d d' : table d' = table d -> clients d' = clients d -> dial_frame seen d d'.
Proof. intros E1 E2. split; [|intros u _..|intros u _]; by rewrite ?E1, ?E2. Qed.

Lemma dial_frame_trans seen seen' d d1 d2 :
  seen ⊆ seen' -> dial_frame seen' d d1 -> dial_frame seen d1 d2 -> dial_frame seen d d2.
Proof.
  intros Hs [A1 A2 A3 A4] [B1 B2 B3 B4]. split; [congruence| | |].
  - intros u Hu. rewrite B2 by done. apply A2. set_solver.
  - intros u Hu. rewrite B3 by done. apply A3. set_solver.
  - intros u Hu. rewrite B4; [by apply A4|]. by rewrite A4.
Qed.

Lemma handshake_frame seen d uid b :
  uid ∉ seen ->
  match Server_SSHData b with Some sd => ssh_KnownHostKey sd | None => "" end = pinned (table d) uid ->
  dial_frame seen d (handshake d uid b).1.
Proof.
  intros Hu Hk. unfold handshake. destruct (w_host_key w (events d)) as [line|]; [|by apply dial_frame_same].
  destruct (hostKeyCallback b line) as [rec|e|]; [|by apply dial_frame_same..].
  destruct (negb _); [by apply dial_frame_same|].
  assert (Hpool : forall d1 c, clients d1 = clients d -> dial_frame seen d1 (pool d1 uid c)).
  { intros d1 c _. split; [done|done| |done]. intros u Hin. cbn. rewrite lookup_insert_ne; [done|set_solver]. }
  destruct (negb (String.eqb rec "") && _) eqn:Ec.
  2:{ eapply (dial_frame_trans seen seen _ (new_client (tick (tick d)))); [done|by apply dial_frame_same|by apply Hpool]. }
  apply andb_true_iff in Ec as [_ Ek%String.eqb_eq].
  destruct (SetKnownHostKey _ _ _ _) as [t r] eqn:Es. apply pin_rows in Es as [Hd Hr]. cbn in Hd, Hr.
  assert (Hset : dial_frame seen d (set_table (tick (new_client (tick (tick d)))) t)).
  { split; cbn; [done| |done|].
    - intros u Hin. apply Hr. set_solver.
    - intros u Hp. destruct (decide (u = uid)) as [->|Hne]; [by rewrite <- Hk in Hp|].
      unfold pinned. by rewrite (Hr u Hne). }
  destruct r as [x|e|]; cbn [fst]; (eapply dial_frame_trans; [done|exact Hset|by apply Hpool]).
Qed.

Lemma sshClientFor_frame ek : forall fuel d uid seen, dial_frame seen d (sshClientFor fuel d ek uid seen).1.
Proof.
  induction fuel as [|fuel IH]; intros d uid seen; cbn [sshClientFor]; [by apply dial_frame_same|].
  destruct (clients d !! uid) as [c|]; [by apply dial_frame_same|].
  case_bool_decide as Hin; [by apply dial_frame_same|].
  destruct (load_bastion _ _ _ _) as [b|e|] eqn:El; [|by apply dial_frame_same..].
  apply load_bastion_Ok in El as (s & Es & Hvia & Hpin).
  destruct (d_ViaUID b) as [via|].
  - pose proof (IH (tick d) via ({[ uid ]} ∪ seen)) as Hf.
    destruct (sshClientFor fuel (tick d) ek via _) as [d1 [c e]]. cbn [fst] in Hf.
    assert (Hf' : dial_frame ({[ uid ]} ∪ seen) d d1)
      by (eapply dial_frame_trans; [done|by apply (dial_frame_same _ d (tick d))|done]).
    assert (Hf2 : dial_frame seen d d1)
      by (eapply dial_frame_trans; [|exact Hf'|by apply dial_frame_same]; set_solver).
    destruct e as [e|]; [done|].
    destruct (w_channel w (events d1)); [|eapply dial_frame_trans; [|exact Hf2|by apply dial_frame_same]; done].
    eapply dial_frame_trans; [|exact Hf2|]; [done|]. eapply dial_frame_trans; [done|by apply (dial_frame_same _ d1 (tick d1))|].
    apply handshake_frame; [done|]. cbn. rewrite Hpin. unfold pinned. by rewrite (fr_rows _ _ _ Hf') by set_solver.
  - destruct (w_tcp w _); [|by apply dial_frame_same].
    eapply dial_frame_trans; [done|by apply (dial_frame_same _ d (tick (tick d)))|]. by apply handshake_frame.
Qed.

(** ** Termination *)

Lemma handshake_not_unfinished d uid b : (handshake d uid b).2.2 <> Some ErrDialUnfinished.
Proof. unfold handshake. repeat (case_match; simplify_eq/=; try done). Qed.

Lemma load_bastion_not_dial ok t ek uid :
  load_bastion ok t ek uid <> Err ErrDialUnfinished /\ load_bastion ok t ek uid <> Err ErrServerViaCycleDial.
Proof.
  unfold load_bastion. destruct (GetServerByUID ok t uid) as [s|e|]; [|split; done..].
  destruct (String.eqb _ _); [|split; done].
  destruct (rbind (DecryptSSHSecrets s ek) _) as [b|e|]; [|split; done..].
  unfold sshAuthMethods. split; repeat (case_match; simplify_eq/=; try done).
Qed.

Lemma handshake_not_cycle d uid b : (handshake d uid b).2.2 <> Some ErrServerViaCycleDial.
Proof. unfold handshake. repeat (case_match; simplify_eq/=; try done). Qed.

Lemma handshake_both d uid b d1 c e :
  handshake d uid b = (d1, (Some c, Some e)) -> (exists e', e = ErrPinHostKey e') /\ clients d1 !! uid = Some c.
Proof.
  unfold handshake. repeat (case_match; simplify_eq/=; try done); intros; simplify_eq;
    (split; [by eexists|]); cbn; by rewrite lookup_insert_eq.
Qed.

Lemma sshClientFor_fuel ek : forall fuel d uid seen,
  seen ⊆ dom (table d) -> (size (dom (table d)) < fuel + size seen)%nat ->
  (sshClientFor fuel d ek uid seen).2.2 <> Some ErrDialUnfinished.
Proof.
  induction fuel as [|fuel IH]; intros d uid seen Hsub Hsz.
  { pose proof (subseteq_size _ _ Hsub). lia. }
  cbn [sshClientFor]. destruct (clients d !! uid) as [c|]; [done|]. case_bool_decide as Hin; [done|].
  destruct (load_bastion _ _ _ _) as [b|e|] eqn:El; [|by intros [= ->]; apply load_bastion_not_dial in El|done].
  apply load_bastion_Ok in El as (s & Es & _). destruct (d_ViaUID b) as [via|].
  - assert (Hn : (sshClientFor fuel (tick d) ek via ({[ uid ]} ∪ seen)).2.2 <> Some ErrDialUnfinished).
    { apply IH; cbn [tick table].
      - apply elem_of_dom_2 in Es. set_solver.
      - rewrite size_union by set_solver. rewrite size_singleton. lia. }
    destruct (sshClientFor fuel (tick d) ek via _) as [d1 [c [e|]]]; cbn [snd] in Hn |- *; [congruence|].
    destruct (w_channel w (events d1)); [apply handshake_not_unfinished|done].
  - destruct (w_tcp w _); [apply handshake_not_unfinished|done].
Qed.

(** C34. Dialling always ends, also when the [via_uid] chain is a cycle that two
    concurrent updates made: the recursion visits each server at most once. *)
Theorem dial_finishes d ek srv : (DialUpstream d ek srv).2 <> Some ErrDialUnfinished.
Proof.
  assert (Hc : forall d uid, (client_for d ek uid).2.2 <> Some ErrDialUnfinished).
  { intros d0 uid. apply sshClientFor_fuel; [set_solver|]. rewrite size_dom, size_empty. lia. }
  unfold DialUpstream. destruct (d_ViaUID srv) as [via|]; [|by destruct (w_tcp w _)].
  pose proof (Hc d via) as H1. destruct (client_for d ek via) as [d1 [c [e|]]]; cbn [fst snd] in H1 |- *; [congruence|].
  destruct (w_channel w _); [done|].
  pose proof (Hc (drop_client (tick d1) via) via) as H2.
  destruct (client_for (drop_client (tick d1) via) ek via) as [d2 [c2 [e|]]]; cbn [fst snd] in H2 |- *; [congruence|].
  by destruct (w_channel w _).
Qed.

(** ** Host keys *)

(** A bastion whose host key is pinned is protected against impostors: while no
    peer presents the pinned key, no client for it is made or pooled, and the
    pin stays. *)
Theorem impostor_refused d ek uid k :
  pinned (table d) uid = k -> k <> "" -> clients d !! uid = None ->
  (forall t line, w_host_key w t = Some line -> trimTrailingNewline line <> k) ->
  let '(d', (c, e)) := ConnectBastion d ek uid in
  c = None /\ e <> None /\ clients d' !! uid = None /\ pinned (table d') uid = k.
Proof.
  intros Hk Hne Hnc Himp. unfold ConnectBastion, client_for.
  assert (Hhs : forall d1 b, match Server_SSHData b with Some sd => ssh_KnownHostKey sd | None => "" end = k ->
    clients d1 !! uid = None -> pinned (table d1) uid = k ->
    let '(d', (c, e)) := handshake d1 uid b in
    c = None /\ e <> None /\ clients d' !! uid = None /\ pinned (table d') uid = k).
  { intros d1 b Hb Hc1 Hp1. unfold handshake. destruct (w_host_key w (events d1)) as [line|] eqn:Ew; [|done].
    unfold hostKeyCallback. rewrite Hb. destruct (String.eqb_spec k ""); [done|].
    destruct (String.eqb_spec k (trimTrailingNewline line)) as [Heq|]; [|done].
    by destruct (Himp _ _ Ew). }
  cbn [sshClientFor]. rewrite Hnc. case_bool_decide as Hin; [set_solver|].
  destruct (load_bastion _ _ _ _) as [b|e|] eqn:El; [|done..].
  apply load_bastion_Ok in El as (s & Es & _ & Hpin). rewrite Hk in Hpin.
  destruct (d_ViaUID b) as [via|].
  - pose proof (sshClientFor_frame ek (size (table d)) (tick d) via ({[ uid ]} ∪ ∅)) as Hf.
    destruct (sshClientFor _ (tick d) ek via _) as [d1 [c [e|]]]; cbn [fst] in Hf.
    + split; [done|]. split; [done|]. split.
      * rewrite (fr_clients _ _ _ Hf) by set_solver. done.
      * rewrite (fr_pins _ _ _ Hf); cbn; congruence.
    + assert (Hc1 : clients d1 !! uid = None) by (rewrite (fr_clients _ _ _ Hf) by set_solver; done).
      assert (Hp1 : pinned (table d1) uid = k) by (rewrite (fr_pins _ _ _ Hf); cbn; congruence).
      destruct (w_channel w (events d1)); [by apply Hhs|done].
  - destruct (w_tcp w _); [by apply Hhs|done].
Qed.

(** A dial never changes a pinned key, whatever keys the peers present. *)
Theorem pins_survive_dial d ek srv uid :
  pinned (table d) uid <> "" -> pinned (table (DialUpstream d ek srv).1) uid = pinned (table d) uid.
Proof.
  intros Hp. assert (Hc : forall d0 u, pinned (table d0) uid <> "" ->
    pinned (table (client_for d0 ek u).1) uid = pinned (table d0) uid).
  { intros d0 u H0. apply (fr_pins ∅ d0 _ (sshClientFor_frame ek _ d0 u ∅)). done. }
  assert (Hdrop : forall d0 u, table (drop_client d0 u) = table d0)
    by (intros d0 u; unfold drop_client; by destruct (clients d0 !! u)).
  unfold DialUpstream. destruct (d_ViaUID srv) as [via|]; [|done].
  pose proof (Hc d via Hp) as H1. destruct (client_for d ek via) as [d1 [c [e|]]]; cbn [fst snd] in H1 |- *; [done|].
  destruct (w_channel w _); [done|].
  pose proof (Hc (drop_client (tick d1) via) via) as H2. rewrite Hdrop in H2. cbn [tick table] in H2.
  rewrite H1 in H2. specialize (H2 Hp).
  destruct (client_for (drop_client (tick d1) via) ek via) as [d2 [c2 [e|]]]; cbn [fst snd tick table] in H2 |- *; done.
Qed.

(** ** Chains of a consistent table *)

Definition next_hop (t : ServerDB) (a b : uuid) : Prop := exists s, t !! a = Some s /\ d_ViaUID s = Some b.

Lemma grounded_acyclic t a : grounded None t a -> ~ tc (next_hop t) a a.
Proof.
  induction 1 as [a s _ E Ev|a s b _ E Ev _ IH]; intros Hc.
  - inversion Hc as [x y (s' & E' & Ev')|x y z (s' & E' & Ev')]; subst; congruence.
  - apply IH. inversion Hc as [x y (s' & E' & Ev') |x y z (s' & E' & Ev') Hr]; subst;
      rewrite E in E'; injection E' as <-; rewrite Ev in Ev'; injection Ev' as <-.
    + apply tc_once. by exists s.
    + eapply tc_r; [exact Hr|]. by exists s.
Qed.

Lemma sshClientFor_grounded ek t a : grounded None t a ->
  forall fuel d seen, table d = t -> (forall b, rtc (next_hop t) a b -> b ∉ seen) ->
  (sshClientFor fuel d ek a seen).2.2 <> Some ErrServerViaCycleDial.
Proof.
  induction 1 as [a s _ E Ev|a s b _ E Ev Hg IH]; intros [|fuel] d seen Ht Hs; cbn [sshClientFor]; try done.
  all: destruct (clients d !! a) as [c|]; [done|].
  all: case_bool_decide as Hin; [by destruct (Hs a (rtc_refl _ _))|].
  all: destruct (load_bastion _ _ _ _) as [m|e|] eqn:El;
    [|by intros [= ->]; apply load_bastion_not_dial in El|done].
  all: apply load_bastion_Ok in El as (s' & E' & Hv & _); rewrite Ht, E in E'; injection E' as <-; rewrite Hv, Ev.
  - destruct (w_tcp w _); [apply handshake_not_cycle|done].
  - assert (Hn : (sshClientFor fuel (tick d) ek b ({[ a ]} ∪ seen)).2.2 <> Some ErrServerViaCycleDial).
    { apply IH; [done|]. intros c Hc. apply not_elem_of_union. split.
      - intros ->%elem_of_singleton. apply (grounded_acyclic t a).
        + by eapply grounded_via.
        + eapply tc_rtc_r; [|exact Hc]. apply tc_once. by exists s.
      - apply Hs. eapply rtc_l; [|exact Hc]. by exists s. }
    destruct (sshClientFor fuel (tick d) ek b _) as [d1 [c [e|]]]; cbn [snd] in Hn |- *; [congruence|].
    destruct (w_channel w (events d1)); [apply handshake_not_cycle|done].
Qed.

(** The table the API maintains and the dialer agree: on a table that only the
    server operations wrote, a bastion the table names is never refused as part of
    a cycle. *)
Theorem stored_chains_dialable {HT : HostText} dsn d ek uid s :
  rtc (server_step dsn) ∅ (table d) -> table d !! uid = Some s ->
  (ConnectBastion d ek uid).2.2 <> Some ErrServerViaCycleDial.
Proof.
  intros Hr E. eapply sshClientFor_grounded; [|done|set_solver].
  eapply sv_chains; [|exact E]. by eapply server_steps_ok, servers_ok_empty.
Qed.

(** ** Trust on first use *)

(** When the key of a new bastion cannot be recorded, the client stays in the
    pool but the dial fails, although the comment calls this not fatal; the next
    dial finds the client and does not try to pin again, so the row stays
    unpinned. *)
Theorem unpinned_client_pooled d ek uid d1 c e :
  clients d !! uid = None -> ConnectBastion d ek uid = (d1, (Some c, Some e)) ->
  (exists e', e = ErrPinHostKey e') /\ clients d1 !! uid = Some c /\ ConnectBastion d1 ek uid = (d1, (Some c, None)) /\
  forall srv, d_ViaUID srv = Some uid -> (DialUpstream d ek srv).2 = Some e.
Proof.
  intros Hn Hc. assert (Hp : (exists e', e = ErrPinHostKey e') /\ clients d1 !! uid = Some c).
  { revert Hc. unfold ConnectBastion, client_for. cbn [sshClientFor]. rewrite Hn. case_bool_decide; [done|].
    destruct (load_bastion _ _ _ _) as [b|?|]; [|done..]. destruct (d_ViaUID b) as [via|].
    - destruct (sshClientFor _ _ _ via _) as [d2 [c2 [e2|]]]; [done|].
      destruct (w_channel w _); [apply handshake_both|done].
    - destruct (w_tcp w _); [apply handshake_both|done]. }
  split; [apply Hp|]. split; [apply Hp|]. split.
  - unfold ConnectBastion, client_for. cbn [sshClientFor]. by rewrite (proj2 Hp).
  - intros srv Hv. unfold DialUpstream. rewrite Hv. unfold ConnectBastion in Hc. by rewrite Hc.
Qed.
End Dial.

(** ** A bastion and a database behind it *)

Module SampleDial.
Import SampleServers.
#[export] Instance sd_keys : SSHKeys := {| ParsePrivateKey _ := true; ParsePrivateKeyWithPassphrase _ _ := true |}.

(** Every peer presents [line]; the [n]-th event's statement fails when [sql n] is false. *)
Definition world (line : string) (sql : nat -> bool) : World :=
  {| w_tcp _ := true; w_channel _ := true; w_host_key _ := Some line; w_auth _ := true; w_sql := sql |}.
Definition dial0 : Dialer := NewDialer db2.
Definition behind : Server := sample_server "db" "10.0.0.1" ProtocolPostgreSQL (Some 1%N).

(** The first dial pins the key; the client it made is then dropped. *)
Definition pinned_dialer : Dialer := drop_client (DialUpstream (world "ssh-ed25519 AAAA" ok) dial0 key behind).1 1%N.
End SampleDial.

Import SampleServers SampleDial.

Lemma impostor_refused_witness :
  (ConnectBastion (world "ssh-ed25519 EVIL" ok) pinned_dialer key 1%N).2.1 = None.
Proof.
  assert (Hk : pinned (table pinned_dialer) 1%N = "ssh-ed25519 AAAA") by (vm_compute; reflexivity).
  assert (Hc : clients pinned_dialer !! 1%N = None) by (vm_compute; reflexivity).
  pose proof (impostor_refused (world "ssh-ed25519 EVIL" ok) pinned_dialer key 1%N "ssh-ed25519 AAAA" Hk) as H.
  destruct (ConnectBastion (world "ssh-ed25519 EVIL" ok) pinned_dialer key 1%N) as [d' [c e]].
  apply H; [discriminate|exact Hc|]. intros t line [= <-]. vm_compute. discriminate.
Defined.

Lemma pins_survive_dial_witness :
  pinned (table (DialUpstream (world "ssh-ed25519 EVIL" ok) pinned_dialer key behind).1) 1%N = "ssh-ed25519 AAAA".
Proof.
  assert (Hk : pinned (table pinned_dialer) 1%N = "ssh-ed25519 AAAA") by (vm_compute; reflexivity).
  rewrite <- Hk. apply (pins_survive_dial (world "ssh-ed25519 EVIL" ok) pinned_dialer key behind 1%N).
  rewrite Hk. discriminate.
Defined.

Lemma stored_chains_dialable_witness :
  (ConnectBastion (world "ssh-ed25519 AAAA" ok) dial0 key 2%N).2.2 <> Some ErrServerViaCycleDial.
Proof.
  destruct (db2 !! 2%N) as [s|] eqn:E; [|vm_compute in E; discriminate].
  exact (stored_chains_dialable (world "ssh-ed25519 AAAA" ok) dsn dial0 key 2%N s reach2 E).
Defined.

(** The statement that records the key fails. *)
Definition flaky : World := world "ssh-ed25519 AAAA" (fun n => Nat.ltb n 4).

Lemma unpinned_client_pooled_witness :
  exists e, (DialUpstream flaky dial0 key behind).2 = Some e /\ (exists e', e = ErrPinHostKey e').
Proof.
  destruct (ConnectBastion flaky dial0 key 1%N) as [d1 [[c|] [e|]]] eqn:E; try (vm_compute in E; discriminate).
  destruct (unpinned_client_pooled flaky dial0 key 1%N d1 c e eq_refl E) as (He & _ & _ & Hd).
  exists e. split; [apply Hd; reflexivity|exact He].
Defined.
