(* ===== verification/ConnCheck.v ===== *)
(** * Connectivity checks ([internal/proxy/conncheck])

    A check dials a server of the table the way the proxies do, logs in with the
    stored credentials, and says how far it came and which field to look at.  A Go
    error is what the classification looks at: its text, the sentinels it wraps, and
    whether it is a DNS failure or a timeout.  The login libraries are a parameter:
    how often a probe dials and what it makes of the outcomes. *)

From Stdlib Require Import ZArith Lia List Bool String Ascii.
From stdpp Require Import base list gmap strings relations.
From S2P Require Import Prelude GoStrings Encoding Regex Models AuthCache GrantStore Crypto Accounts Servers Dial.

Open Scope string_scope.
Open Scope Z_scope.

(** ** Errors *)

Inductive sentinel := SNoSSHAuthMethod | SServerViaCycleDial | SBastionNotSSH | SSSHHostKeyMismatch | SMissingConfig.
#[export] Instance sentinel_eq_dec : EqDecision sentinel.
Proof. solve_decision. Defined.

(** [ge_deadline]: it is [context.DeadlineExceeded]; [ge_timeout]: a [net.Error] that timed out. *)
Record GoError := {
  ge_text : string;
  ge_is : list sentinel;
  ge_dns : option string;
  ge_timeout : bool;
  ge_deadline : bool
}.

(** [fmt.Errorf("...: %w", err)] *)
Definition wrap (prefix : string) (e : GoError) : GoError :=
  {| ge_text := prefix ++ ge_text e; ge_is := ge_is e; ge_dns := ge_dns e; ge_timeout := ge_timeout e; ge_deadline := ge_deadline e |}.
Definition plain (text : string) (is_ : list sentinel) : GoError :=
  {| ge_text := text; ge_is := is_; ge_dns := None; ge_timeout := false; ge_deadline := false |}.
Definition Is (e : GoError) (s : sentinel) : bool := bool_decide (s ∈ ge_is e).

(** What the dialer's message quotes: an address, the secret that did not decrypt, the
    cause of the network, the store or a library. *)
Record Quoted := { qt_addr : string; qt_secret : string; qt_cause : GoError }.

(** The errors of [shared/dial.go] as they are worded there. *)
Definition dial_go_error (q : Quoted) (e : dial_error) : GoError :=
  match e with
  | ErrLoadBastion _ => wrap "failed to load ssh bastion: " (qt_cause q)
  | ErrBastionNotSSH => plain ("ssh: via_uid does not reference an ssh server: " ++ qt_addr q) [SBastionNotSSH]
  | ErrBastionSecrets _ => wrap ("failed to decrypt " ++ qt_secret q ++ ": ") (qt_cause q)
  | ErrParsePrivateKey => wrap "failed to parse ssh private key: " (qt_cause q)
  | ErrNoSSHAuthMethod => plain "ssh: bastion has no usable auth method (private key or password)" [SNoSSHAuthMethod]
  | ErrServerViaCycleDial => plain "ssh: via_uid chain forms a cycle" [SServerViaCycleDial]
  | ErrReachBastion => wrap ("failed to reach ssh bastion " ++ qt_addr q ++ ": ") (qt_cause q)
  | ErrHandshake => wrap ("ssh handshake with " ++ qt_addr q ++ " failed: ") (qt_cause q)
  | ErrSSHHostKeyMismatch =>
      plain ("ssh handshake with " ++ qt_addr q ++ " failed: ssh: handshake failed: ssh: host key mismatch with pinned known_host_key") [SSSHHostKeyMismatch]
  | ErrPinHostKey _ => wrap "connected but failed to pin ssh host key: " (qt_cause q)
  | ErrDialUpstream => wrap ("failed to dial upstream " ++ qt_addr q ++ ": ") (qt_cause q)
  | ErrDialThroughBastion => wrap ("failed to dial " ++ qt_addr q ++ " through ssh bastion: ") (qt_cause q)
  | ErrDialUnfinished | ErrDialPanic => qt_cause q
  end.

(** ** Results *)

Inductive Stage := StageConfig | StageBastionDial | StageBastionAuth | StageTargetDial | StageTargetAuth.
Inductive Code :=
| CodeOK | CodeDNSFailure | CodeTimeout | CodeUnreachable | CodeHostKeyMismatch | CodeAuthRejected | CodeBadPrivateKey
| CodeNoAuthMethod | CodeViaCycle | CodeViaNotSSH | CodeHandshakeFailed | CodeDBAuthFailed | CodeDBHandshakeFailed
| CodeMissingConfig | CodeUnsupported | CodeInternal.
#[export] Instance stage_eq_dec : EqDecision Stage.
Proof. solve_decision. Defined.
#[export] Instance code_eq_dec : EqDecision Code.
Proof. solve_decision. Defined.

Record Result := {
  rs_OK : bool;
  rs_Stage : Stage;
  rs_Code : Code;
  rs_Message : string;
  rs_HostKeyPinned : bool;
  rs_KnownHostKey : string;
  rs_DurationMs : Z
}.

Definition result (ok : bool) (stage : Stage) (code : Code) (message : string) : Result :=
  {| rs_OK := ok; rs_Stage := stage; rs_Code := code; rs_Message := message; rs_HostKeyPinned := false; rs_KnownHostKey := ""; rs_DurationMs := 0 |}.
Definition failed := result false.
Definition with_message (r : Result) (m : string) : Result :=
  {| rs_OK := rs_OK r; rs_Stage := rs_Stage r; rs_Code := rs_Code r; rs_Message := m; rs_HostKeyPinned := rs_HostKeyPinned r;
     rs_KnownHostKey := rs_KnownHostKey r; rs_DurationMs := rs_DurationMs r |}.

(** [strings.ReplaceAll(msg, "\n", " ")] *)
Fixpoint unbreak (s : string) : string :=
  match s with String c s => String (if code c =? 10 then " "%char else c) (unbreak s) | EmptyString => "" end.

Definition ellipsis : string := String (chr 226) (String (chr 128) (String (chr 166) "")).
Definition sanitize_maxLen : Z := 300.

Definition sanitize (e : GoError) : string :=
  let msg := unbreak (TrimSpace (ge_text e)) in
  if sanitize_maxLen <? slen msg then String.substring 0 300 msg ++ ellipsis else msg.

Definition any_of (msg : string) (needles : list string) : bool := existsb (Contains msg) needles.

Section Classify.
Context {HT : HostText}.

Definition isTimeout (e : GoError) : bool := ge_timeout e.

Definition isRefusedOrUnreachable (e : GoError) : bool :=
  any_of (ToLower (ge_text e)) ["connection refused"; "network is unreachable"; "no route to host"; "connection reset by peer"].

Definition isBadPrivateKey (e : GoError) : bool := Contains (ge_text e) "failed to parse ssh private key".

Definition isAuthRejection (e : GoError) : bool :=
  any_of (ToLower (ge_text e)) ["unable to authenticate"; "no supported methods remain"; "permission denied"].

Definition alts (rs : list regex) : regex := fold_right Alt (Cls (fun _ => false)) rs.
Definition oracleAuthErrorRe : regex :=
  seqs [raw "ora-"; StarC (Ascii.eqb "0"); alts (map raw ["1017"; "1005"; "1004"; "1045"; "1031"; "9911"; "28000"; "28001"; "28009"]); WordB].

Definition isDBAuthRejection (e : GoError) : bool :=
  let msg := ToLower (ge_text e) in
  MatchString oracleAuthErrorRe msg
  || any_of msg ["password authentication failed"; "authentication failed"; "auth failed"; "access denied"; "role " ++ String (chr 34) "";
                 "does not exist"; "permission denied"; "not authorized"; "1045"; "1044"; "28p01"; "28000"].

(** Code [CodeInternal]: it cannot tell. *)
Definition classifyNetworkError (e : GoError) (stage : Stage) : Result :=
  match ge_dns e with
  | Some name => failed stage CodeDNSFailure ("the hostname could not be resolved: " ++ name)
  | None =>
      if ge_deadline e || isTimeout e then
        failed stage CodeTimeout "the connection timed out: the host is unreachable or a firewall is dropping the packets"
      else if isRefusedOrUnreachable e then failed stage CodeUnreachable "the connection was refused: check the host and port"
      else failed stage CodeInternal ""
  end.

Definition internal (r : Result) : bool := bool_decide (rs_Code r = CodeInternal).

Definition classifySSHError (e : GoError) : Result :=
  if Is e SNoSSHAuthMethod then failed StageConfig CodeNoAuthMethod "the bastion has no usable credentials: set an SSH private key or a password"
  else if Is e SServerViaCycleDial then failed StageConfig CodeViaCycle "the via_uid chain forms a cycle"
  else if Is e SBastionNotSSH then failed StageConfig CodeViaNotSSH "via_uid does not reference an SSH server"
  else if Is e SSSHHostKeyMismatch then failed StageBastionAuth CodeHostKeyMismatch
    ("the bastion presented a host key that does not match the pinned known_host_key " ++ String (chr 226) (String (chr 128) (String (chr 148) "")) ++ " either the host changed, or the connection is being intercepted")
  else if isBadPrivateKey e then failed StageConfig CodeBadPrivateKey "the stored SSH private key could not be parsed (wrong format, or a missing/incorrect passphrase)"
  else if Contains (ge_text e) "ssh handshake" then
    let net := classifyNetworkError e StageBastionAuth in
    if negb (internal net) then net
    else if isAuthRejection e then failed StageBastionAuth CodeAuthRejected "the bastion refused the credentials: check the username and the SSH private key or password"
    else failed StageBastionAuth CodeHandshakeFailed ("the SSH handshake with the bastion failed: " ++ sanitize e)
  else
    let net := classifyNetworkError e StageBastionDial in
    if internal net then with_message net ("could not reach the SSH bastion: " ++ sanitize e) else net.

Definition isBastionStage (e : GoError) : bool :=
  Is e SNoSSHAuthMethod || Is e SServerViaCycleDial || Is e SBastionNotSSH || Is e SSSHHostKeyMismatch || isBadPrivateKey e
  || any_of (ge_text e) ["ssh handshake"; "failed to reach ssh bastion"; "failed to load ssh bastion"].

Definition classifyDialError (e : GoError) (viaTunnel : bool) : Result :=
  if viaTunnel && isBastionStage e then classifySSHError e
  else
    let net := classifyNetworkError e StageTargetDial in
    if internal net then
      with_message net (if viaTunnel then "the SSH tunnel is up, but the target could not be reached through it: " ++ sanitize e
                        else "could not reach the target: " ++ sanitize e)
    else net.

Definition classifyTargetError (e : GoError) : Result :=
  if Is e SMissingConfig then failed StageConfig CodeMissingConfig (sanitize e)
  else
    let net := classifyNetworkError e StageTargetAuth in
    if negb (internal net) then net
    else if isDBAuthRejection e then failed StageTargetAuth CodeDBAuthFailed ("the database refused the stored credentials: " ++ sanitize e)
    else failed StageTargetAuth CodeDBHandshakeFailed ("the target was reachable but the database handshake failed: " ++ sanitize e).
End Classify.

(** ** Probes ([probes.go]) *)

(** A login library at work: it asks for the transport and goes on by the outcome,
    returns, or is still busy when the check's context ends. *)
Inductive ProbeRun :=
| PDial (k : option GoError -> ProbeRun)
| PDone (e : option GoError)
| PLate.

Inductive TLSConfig := TLSPlain | TLSUnverified | TLSVerified (serverName : string).

(** What a probe hands its library.  [lg_tls] is [None] for the MongoDB driver, which
    is given no TLS setting. *)
Record Login := {
  lg_Host : string;
  lg_Port : Z;
  lg_User : string;
  lg_Password : string;
  lg_Database : string;
  lg_tls : option TLSConfig;
  lg_AppName : string
}.

Class LoginLibraries := {
  version : string;
  pgconn_Connect : Login -> ProbeRun;
  mysql_Connect : Login -> ProbeRun;
  mongo_Ping : Login -> ProbeRun;
  oracle_Connect : Login -> ProbeRun
}.

Definition postgresTLSConfig (srv : Server) : TLSConfig :=
  if String.eqb (d_SSLMode srv) "require" then TLSUnverified
  else if (String.eqb (d_SSLMode srv) "verify-ca" || String.eqb (d_SSLMode srv) "verify-full")%bool then TLSVerified (d_Host srv)
  else TLSPlain.

Definition oracleServiceName (srv : Server) : string :=
  match d_OracleServiceName srv with
  | Some name => if String.eqb name "" then d_DatabaseName srv else name
  | None => d_DatabaseName srv
  end.

(** A cleared deadline (the zero time) the transport rejects is no error. *)
Definition ignoreZeroDeadline (err : option GoError) (zero : bool) : option GoError :=
  match err with Some e => if zero then None else Some e | None => None end.

Section Probes.
Context {LL : LoginLibraries}.

Definition probeAppName : string := "dbbat/" ++ version ++ " connectivity-check".

Definition login_of (srv : Server) (port : Z) (database : string) (tls : option TLSConfig) : Login :=
  {| lg_Host := d_Host srv; lg_Port := port; lg_User := d_Username srv; lg_Password := d_Password srv; lg_Database := database;
     lg_tls := tls; lg_AppName := probeAppName |}.

(** [uint16(srv.Port)] wraps. *)
Definition probePostgres (srv : Server) : ProbeRun :=
  pgconn_Connect (login_of srv (d_Port srv mod 65536) (d_DatabaseName srv) (Some (postgresTLSConfig srv))).
Definition probeMySQL (srv : Server) : ProbeRun :=
  mysql_Connect (login_of srv (d_Port srv) (d_DatabaseName srv) (Some (postgresTLSConfig srv))).
Definition probeMongo (srv : Server) : ProbeRun :=
  mongo_Ping (login_of srv (d_Port srv) (MongoAuthSourceOrDefault srv) None).

Definition errMissingConfig : string := "conncheck: incomplete server configuration".
Definition probeOracle (srv : Server) : ProbeRun :=
  if String.eqb (oracleServiceName srv) "" then
    PDone (Some (plain (errMissingConfig ++ ": set the Oracle service name (or a database name to use as one)") [SMissingConfig]))
  else oracle_Connect (login_of srv (d_Port srv) (oracleServiceName srv) (Some (postgresTLSConfig srv))).

Definition probeFor (protocol : string) : option (Server -> ProbeRun) :=
  if String.eqb protocol ProtocolPostgreSQL then Some probePostgres
  else if String.eqb protocol ProtocolMySQL || String.eqb protocol ProtocolMariaDB then Some probeMySQL
  else if String.eqb protocol ProtocolMongoDB then Some probeMongo
  else if String.eqb protocol ProtocolOracle then Some probeOracle
  else None.

(** ** The checks *)

Context {GCM : AEAD} {UT : UUIDText} {SK : SSHKeys} {HT : HostText}.
Variable w : World.
Variable quoted : nat -> Quoted. (* what the message of a dial that ended at this event quotes *)

Definition go_error (d : Dialer) (e : dial_error) : GoError := dial_go_error (quoted (events d)) e.

(** Where a probe ended: the dialer, the last dial's error, and the library's answer
    ([None]: the context ended first). *)
Fixpoint run_probe (p : ProbeRun) (d : Dialer) (ek : bytes) (srv : Server) (dialErr : option GoError) :
    Dialer * option GoError * option (option GoError) :=
  match p with
  | PDone e => (d, dialErr, Some e)
  | PLate => (d, dialErr, None)
  | PDial k =>
      let '(d, r) := DialUpstream w d ek srv in
      match r with
      | Some e => let e := go_error d e in run_probe (k (Some e)) d ek srv (Some e)
      | None => run_probe (k None) d ek srv dialErr
      end
  end.

Definition ssh_pin (s : Server) : string := match Server_SSHData s with Some sd => ssh_KnownHostKey sd | None => "" end.

Definition with_pin (r : Result) (known : string) (pinned : bool) : Result :=
  {| rs_OK := rs_OK r; rs_Stage := rs_Stage r; rs_Code := rs_Code r; rs_Message := rs_Message r; rs_HostKeyPinned := pinned;
     rs_KnownHostKey := known; rs_DurationMs := rs_DurationMs r |}.

Definition checkBastion (d : Dialer) (ek : bytes) (uid : uuid) : Dialer * Result :=
  let hadPin := match GetServerByUID (w_sql w (events d)) (table d) uid with
                | Ok before => negb (String.eqb (ssh_pin before) "")
                | _ => false
                end in
  let '(d, (_, err)) := ConnectBastion w (tick d) ek uid in
  match err with
  | Some e => (d, classifySSHError (go_error d e))
  | None =>
      let r := result true StageBastionAuth CodeOK "SSH bastion reachable and the stored credentials were accepted" in
      let r := match GetServerByUID (w_sql w (events d)) (table d) uid with
               | Ok after => with_pin r (ssh_pin after) (negb hadPin && negb (String.eqb (ssh_pin after) ""))
               | _ => r
               end in
      (tick d, if rs_HostKeyPinned r then with_message r "SSH bastion reachable, credentials accepted, host key pinned" else r)
  end.

Definition viaTunnel (srv : Server) : bool := match d_ViaUID srv with Some _ => true | None => false end.

Definition checkTarget (d : Dialer) (ek : bytes) (srv : Server) : Dialer * Result :=
  match probeFor (d_Protocol srv) with
  | None =>
      let '(d, r) := DialUpstream w d ek srv in
      (d, match r with
          | Some e => classifyDialError (go_error d e) (viaTunnel srv)
          | None => result true StageTargetDial CodeUnsupported
                      ("target reachable; dbbat has no login probe for protocol " ++ d_Protocol srv ++ ", so credentials were not verified")
          end)
  | Some probe =>
      match (if zlen (d_PasswordEncrypted srv) =? 0 then Ok srv else DecryptPassword srv ek) with
      | Ok srv =>
          let '(d, failedDial, answer) := run_probe (probe srv) d ek srv None in
          (d, match answer with
              | None => failed StageTargetAuth CodeTimeout "the target accepted the connection but the database handshake did not complete in time"
              | Some None => result true StageTargetAuth CodeOK "target reachable and the stored credentials were accepted"
              | Some (Some probeErr) =>
                  match failedDial with
                  | Some e => classifyDialError e (viaTunnel srv)
                  | None => classifyTargetError probeErr
                  end
              end)
      | _ => (d, failed StageConfig CodeInternal "failed to decrypt the stored database password")
      end
  end.

Definition check (d : Dialer) (ek : bytes) (srv : Server) : Dialer * Result :=
  if IsSSH srv then checkBastion d ek (d_UID srv) else checkTarget d ek srv.

(** A check starts without pooled clients; what it leaves is the server table. *)
Definition Check (t : ServerDB) (ek : bytes) (srv : Server) (durationMs : Z) : ServerDB * Result :=
  let '(d, r) := check (NewDialer t) ek srv in
  (table (Close d),
   {| rs_OK := rs_OK r; rs_Stage := rs_Stage r; rs_Code := rs_Code r; rs_Message := rs_Message r;
      rs_HostKeyPinned := rs_HostKeyPinned r; rs_KnownHostKey := rs_KnownHostKey r; rs_DurationMs := durationMs |}).
End Probes.

(** * Theorems *)

(** ** What is reported for a dial that fails *)

Definition markers : list string :=
  ["failed to parse ssh private key"; "ssh handshake"; "failed to reach ssh bastion"; "failed to load ssh bastion"].
Definition own_marker (e : dial_error) : option string :=
  match e with
  | ErrParsePrivateKey => Some "failed to parse ssh private key"
  | ErrHandshake | ErrSSHHostKeyMismatch => Some "ssh handshake"
  | ErrReachBastion => Some "failed to reach ssh bastion"
  | ErrLoadBastion _ => Some "failed to load ssh bastion"
  | _ => None
  end.
(** What the message quotes is no error of the dialer itself, and does not hold the
    wording of one. *)
Definition clean (q : Quoted) (e : dial_error) : Prop :=
  ge_is (qt_cause q) = [] /\ forall m, m ∈ markers -> Contains (ge_text (dial_go_error q e)) m = true -> own_marker e = Some m.

Section Reported.
Context {HT : HostText}.

(** The network's verdict on an error, and how the two callers read the dialer's errors. *)
Definition network_code (g : GoError) : option Code :=
  if bool_decide (is_Some (ge_dns g)) then Some CodeDNSFailure
  else if ge_deadline g || ge_timeout g then Some CodeTimeout
  else if isRefusedOrUnreachable g then Some CodeUnreachable
  else None.
Definition bastion_errors (g : GoError) (otherwise : Stage) (e : dial_error) : Stage * Code :=
  match e with
  | ErrNoSSHAuthMethod => (StageConfig, CodeNoAuthMethod)
  | ErrServerViaCycleDial => (StageConfig, CodeViaCycle)
  | ErrBastionNotSSH => (StageConfig, CodeViaNotSSH)
  | ErrParsePrivateKey => (StageConfig, CodeBadPrivateKey)
  | ErrSSHHostKeyMismatch => (StageBastionAuth, CodeHostKeyMismatch)
  | ErrHandshake => (StageBastionAuth, default (if isAuthRejection g then CodeAuthRejected else CodeHandshakeFailed) (network_code g))
  | ErrReachBastion | ErrLoadBastion _ => (StageBastionDial, default CodeInternal (network_code g))
  | _ => (otherwise, default CodeInternal (network_code g))
  end.

Lemma classifyNetworkError_code g stage :
  rs_Stage (classifyNetworkError g stage) = stage /\ rs_OK (classifyNetworkError g stage) = false /\
  rs_Code (classifyNetworkError g stage) = default CodeInternal (network_code g) /\
  internal (classifyNetworkError g stage) = match network_code g with None => true | _ => false end.
Proof.
  unfold classifyNetworkError, network_code, internal, isTimeout. destruct (ge_dns g); [done|].
  destruct (_ || _); [done|]. by destruct (isRefusedOrUnreachable g).
Qed.

Lemma unmarked q e m : clean q e -> m ∈ markers -> own_marker e <> Some m -> Contains (ge_text (dial_go_error q e)) m = false.
Proof. intros [_ Hc] Hm Ho. destruct (Contains _ m) eqn:E; [|done]. by destruct Ho; apply Hc. Qed.

Lemma Contains_head a b : Contains (a ++ b) a = true.
Proof. apply Contains_app. by exists "", b. Qed.

Lemma not_bad_key q e : clean q e -> own_marker e <> Some "failed to parse ssh private key" ->
  isBadPrivateKey (dial_go_error q e) = false.
Proof. intros Hc Ho. apply unmarked; [done| |done]. unfold markers. set_solver. Qed.
Lemma not_handshake q e : clean q e -> own_marker e <> Some "ssh handshake" ->
  Contains (ge_text (dial_go_error q e)) "ssh handshake" = false.
Proof. intros Hc Ho. apply unmarked; [done| |done]. unfold markers. set_solver. Qed.

Lemma own_text q e m : own_marker e = Some m -> Contains (ge_text (dial_go_error q e)) m = true.
Proof.
  destruct e; intros [= <-]; apply Contains_app; exists "";
    [exists (": " ++ ge_text (qt_cause q))|exists (": " ++ ge_text (qt_cause q))|exists ((" " ++ qt_addr q ++ ": ") ++ ge_text (qt_cause q))
    |exists ((" with " ++ qt_addr q ++ " failed: ") ++ ge_text (qt_cause q))|]; [reflexivity..|].
  eexists (" with " ++ qt_addr q ++ _). reflexivity.
Qed.

Abbreviation verdict r := (rs_Stage r, rs_Code r).

Lemma Is_clean q e s : clean q e -> Is (dial_go_error q e) s =
  match e with
  | ErrBastionNotSSH => bool_decide (s = SBastionNotSSH)
  | ErrNoSSHAuthMethod => bool_decide (s = SNoSSHAuthMethod)
  | ErrServerViaCycleDial => bool_decide (s = SServerViaCycleDial)
  | ErrSSHHostKeyMismatch => bool_decide (s = SSSHHostKeyMismatch)
  | _ => false
  end.
Proof. intros [Hq _]. destruct e; unfold Is; cbn [dial_go_error wrap plain ge_is]; rewrite ?Hq; by destruct s. Qed.

Definition net_verdict (g : GoError) (stage : Stage) (c : Code) : Stage * Code := (stage, default c (network_code g)).
Definition handshook (g : GoError) : bool := Contains (ge_text g) "ssh handshake".

Lemma classifySSHError_verdict g :
  verdict (classifySSHError g) =
  if Is g SNoSSHAuthMethod then (StageConfig, CodeNoAuthMethod)
  else if Is g SServerViaCycleDial then (StageConfig, CodeViaCycle)
  else if Is g SBastionNotSSH then (StageConfig, CodeViaNotSSH)
  else if Is g SSSHHostKeyMismatch then (StageBastionAuth, CodeHostKeyMismatch)
  else if isBadPrivateKey g then (StageConfig, CodeBadPrivateKey)
  else if handshook g then net_verdict g StageBastionAuth (if isAuthRejection g then CodeAuthRejected else CodeHandshakeFailed)
  else net_verdict g StageBastionDial CodeInternal.
Proof.
  unfold classifySSHError, handshook, net_verdict.
  destruct (Is g SNoSSHAuthMethod); [reflexivity|]. destruct (Is g SServerViaCycleDial); [reflexivity|].
  destruct (Is g SBastionNotSSH); [reflexivity|]. destruct (Is g SSSHHostKeyMismatch); [reflexivity|].
  destruct (isBadPrivateKey g); [reflexivity|]. destruct (Contains _ _).
  - destruct (classifyNetworkError_code g StageBastionAuth) as (A1 & _ & A2 & A3). rewrite A3.
    destruct (network_code g); cbn [negb]; [by rewrite A1, A2|]. by destruct (isAuthRejection g).
  - destruct (classifyNetworkError_code g StageBastionDial) as (A1 & _ & A2 & A3). rewrite A3.
    destruct (network_code g); cbn [with_message rs_Stage rs_Code]; by rewrite A1, A2.
Qed.

Lemma isBadPrivateKey_own q e : clean q e ->
  isBadPrivateKey (dial_go_error q e) = match e with ErrParsePrivateKey => true | _ => false end.
Proof.
  intros Hc. destruct e; try (apply (not_bad_key _ _ Hc); discriminate). exact (own_text q ErrParsePrivateKey _ eq_refl).
Qed.
Lemma handshook_own q e : clean q e ->
  handshook (dial_go_error q e) = match e with ErrHandshake | ErrSSHHostKeyMismatch => true | _ => false end.
Proof.
  intros Hc. destruct e; try (apply (not_handshake _ _ Hc); discriminate).
  - exact (own_text q ErrHandshake _ eq_refl).
  - exact (own_text q ErrSSHHostKeyMismatch _ eq_refl).
Qed.

(** The stage and code a bastion's own check reports. *)
Lemma bastion_verdict q e : clean q e ->
  verdict (classifySSHError (dial_go_error q e)) = bastion_errors (dial_go_error q e) StageBastionDial e.
Proof.
  intros Hc. rewrite classifySSHError_verdict, !(Is_clean q e) by done. rewrite isBadPrivateKey_own, handshook_own by done.
  generalize (dial_go_error q e). intros g. by destruct e.
Qed.

(** The errors that are the bastion's, in the eyes of a check that dials through it. *)
Definition blames_bastion (e : dial_error) : bool :=
  match e with
  | ErrBastionSecrets _ | ErrPinHostKey _ | ErrDialUpstream | ErrDialThroughBastion | ErrDialUnfinished | ErrDialPanic => false
  | _ => true
  end.

Lemma isBastionStage_own q e : clean q e -> isBastionStage (dial_go_error q e) = blames_bastion e.
Proof.
  intros Hc. unfold isBastionStage, any_of. cbn [existsb]. rewrite !(Is_clean q e) by done. rewrite isBadPrivateKey_own by done.
  fold (handshook (dial_go_error q e)). rewrite handshook_own by done.
  assert (Hm : forall m, m ∈ markers -> Contains (ge_text (dial_go_error q e)) m = bool_decide (own_marker e = Some m)).
  { intros m Hin. case_bool_decide as E; [by apply own_text|by apply unmarked]. }
  rewrite !Hm by (unfold markers; set_solver). destruct e; reflexivity.
Qed.

Lemma dial_verdict q e via : clean q e ->
  verdict (classifyDialError (dial_go_error q e) via) =
  if via then bastion_errors (dial_go_error q e) (if blames_bastion e then StageBastionDial else StageTargetDial) e
  else net_verdict (dial_go_error q e) StageTargetDial CodeInternal.
Proof.
  intros Hc. unfold classifyDialError. rewrite isBastionStage_own by done.
  assert (Hn : forall m, verdict (let net := classifyNetworkError (dial_go_error q e) StageTargetDial in
                  if internal net then with_message net m else net) = net_verdict (dial_go_error q e) StageTargetDial CodeInternal).
  { intros m. destruct (classifyNetworkError_code (dial_go_error q e) StageTargetDial) as (A1 & _ & A2 & A3). cbn zeta.
    rewrite A3. unfold net_verdict. destruct (network_code _); cbn [with_message rs_Stage rs_Code]; by rewrite A1, A2. }
  destruct via; cbn [andb]; [|apply Hn]. destruct (blames_bastion e) eqn:Eb.
  - rewrite bastion_verdict by done. by destruct e.
  - rewrite (Hn ("the SSH tunnel is up, but the target could not be reached through it: " ++ _)).
    generalize (dial_go_error q e). intros g. by destruct e.
Qed.
End Reported.

(** ** What a check does *)

Section CheckLaws.
Context {LL : LoginLibraries} {GCM : AEAD} {UT : UUIDText} {SK : SSHKeys} {HT : HostText}.
Variable w : World.
Variable quoted : nat -> Quoted.
Variable ek : bytes.

(** The dials of a check in order: [None] a connection, else the error and what its message quotes. *)
Abbreviation dial_outcome := (option (Quoted * dial_error)).
Definition seen_error (o : dial_outcome) : option GoError := option_map (fun '(q, e) => dial_go_error q e) o.

Inductive dials (srv : Server) : Dialer -> list dial_outcome -> Dialer -> Prop :=
| dials_nil d : dials srv d [] d
| dials_cons d d1 d2 r l :
    DialUpstream w d ek srv = (d1, r) ->
    dials srv d1 l d2 ->
    dials srv d (option_map (pair (quoted (events d1))) r :: l) d2.

(** What a probe's library makes of a sequence of outcomes. *)
Fixpoint library_answer (p : ProbeRun) (l : list dial_outcome) : option (option (option GoError)) :=
  match p, l with
  | PDone e, [] => Some (Some e)
  | PLate, [] => Some None
  | PDial k, o :: l => library_answer (k (seen_error o)) l
  | _, _ => None
  end.

Definition last_failure (l : list dial_outcome) (before : option GoError) : option GoError :=
  fold_left (fun f o => match seen_error o with Some e => Some e | None => f end) l before.

Lemma run_probe_dials p : forall d srv before d' f a,
  run_probe w quoted p d ek srv before = (d', f, a) ->
  exists l, dials srv d l d' /\ library_answer p l = Some a /\ f = last_failure l before.
Proof.
  induction p as [k IH|e|]; intros d srv before d' f a; cbn [run_probe].
  - destruct (DialUpstream w d ek srv) as [d1 [e|]] eqn:Ed; intros Hr;
      apply IH in Hr as (l & Hl & Ha & Hf);
      (eexists; split; [by eapply dials_cons|]); by split.
  - intros [= <- <- <-]. exists []. by split; [constructor|].
  - intros [= <- <- <-]. exists []. by split; [constructor|].
Qed.

Lemma last_failure_Some l before g :
  last_failure l before = Some g -> before = Some g \/ exists q e, Some (q, e) ∈ l /\ g = dial_go_error q e.
Proof.
  revert before. induction l as [|o l IH]; intros before; cbn; [by left|]. intros [H|(q & e & Hin & ->)]%IH.
  - destruct o as [[q e]|]; cbn in H; [|by left]. right. exists q, e. split; [set_solver|congruence].
  - right. exists q, e. split; [set_solver|done].
Qed.
Lemma last_failure_None l : last_failure l None = None -> Forall (eq None) l.
Proof.
  assert (Hs : forall l g, exists g', last_failure l (Some g) = Some g').
  { induction l0 as [|[[q e]|] l0 IH]; intros g; [by exists g|apply (IH (dial_go_error q e))|apply (IH g)]. }
  induction l as [|[[q e]|] l IH]; cbn; [done| |by constructor; auto].
  intros H. by destruct (Hs l (dial_go_error q e)) as [g' Hg]; unfold last_failure in Hg; rewrite Hg in H.
Qed.

Lemma dials_quoted srv d l d' q e : dials srv d l d' -> Some (q, e) ∈ l -> exists n, q = quoted n.
Proof.
  induction 1 as [|d d1 d2 r l Hd _ IH]; [set_solver|]. intros [E|Hin]%elem_of_cons; [|by apply IH].
  destruct r as [e0|]; [|done]. injection E as -> ->. by eexists.
Qed.

Definition ready (srv srv' : Server) : Prop :=
  (if zlen (d_PasswordEncrypted srv) =? 0 then Ok srv else DecryptPassword srv ek) = Ok srv'.

Lemma ready_via srv srv' : ready srv srv' -> d_ViaUID srv' = d_ViaUID srv.
Proof.
  unfold ready. destruct (_ =? 0); [congruence|]. unfold DecryptPassword. by intros (p & _ & [= <-])%rbind_Ok.
Qed.

Lemma classifyTargetError_verdict g :
  rs_OK (classifyTargetError g) = false /\ (rs_Stage (classifyTargetError g) = StageTargetAuth \/ rs_Stage (classifyTargetError g) = StageConfig /\ Is g SMissingConfig).
Proof.
  unfold classifyTargetError. destruct (Is g SMissingConfig) eqn:E; [split; [done|by right; split]|].
  destruct (classifyNetworkError_code g StageTargetAuth) as (A1 & A0 & A2 & A3). rewrite A3.
  destruct (network_code g); cbn [negb]; [split; [done|by left]|]. destruct (isDBAuthRejection g); (split; [done|by left]).
Qed.
Lemma classify_not_ok g via : rs_OK (classifyDialError g via) = false /\ rs_OK (classifySSHError g) = false.
Proof.
  assert (Hn : forall s, rs_OK (classifyNetworkError g s) = false) by (intros s; apply classifyNetworkError_code).
  assert (Hs : rs_OK (classifySSHError g) = false).
  { unfold classifySSHError. destruct (Is g _); [reflexivity|]. destruct (Is g _); [reflexivity|].
    destruct (Is g _); [reflexivity|]. destruct (Is g _); [reflexivity|]. destruct (isBadPrivateKey g); [reflexivity|].
    destruct (Contains _ _); [|by destruct (internal _); [apply Hn|apply Hn]].
    destruct (internal _); [by destruct (isAuthRejection g)|apply Hn]. }
  split; [|done]. unfold classifyDialError. destruct (via && _); [done|]. destruct (internal _); [|apply Hn].
  by destruct via; apply Hn.
Qed.

Lemma dials_run_probe p : forall d srv before d' l a,
  dials srv d l d' -> library_answer p l = Some a -> run_probe w quoted p d ek srv before = (d', last_failure l before, a).
Proof.
  induction p as [k IH|e|]; intros d srv before d' l a Hd; destruct Hd as [d|d d1 d2 r l Hr Hd]; try done; cbn [library_answer run_probe].
  - intros Ha. rewrite Hr. destruct r as [e|]; by eapply IH in Ha.
  - by intros [= <-].
  - by intros [= <-].
Qed.

Lemma checkTarget_probed d srv srv' probe :
  probeFor (d_Protocol srv) = Some probe -> ready srv srv' ->
  checkTarget w quoted d ek srv =
  let '(d, failedDial, answer) := run_probe w quoted (probe srv') d ek srv' None in
  (d, match answer with
      | None => failed StageTargetAuth CodeTimeout "the target accepted the connection but the database handshake did not complete in time"
      | Some None => result true StageTargetAuth CodeOK "target reachable and the stored credentials were accepted"
      | Some (Some e) => match failedDial with
                         | Some g => classifyDialError g (viaTunnel srv)
                         | None => classifyTargetError e
                         end
      end).
Proof.
  intros Hp Hr. unfold checkTarget. rewrite Hp. pose proof (ready_via _ _ Hr) as Hv. unfold ready in Hr. rewrite Hr.
  unfold viaTunnel. by rewrite Hv.
Qed.

(** The bastion, as it is stored, cannot be used. *)
Definition bad_setup (e : dial_error) : bool :=
  match e with ErrNoSSHAuthMethod | ErrServerViaCycleDial | ErrBastionNotSSH | ErrParsePrivateKey => true | _ => false end.

(** The stages of a failed dial. *)
Lemma dial_stage q e srv : clean q e ->
  let r := classifyDialError (dial_go_error q e) (viaTunnel srv) in
  rs_Stage r <> StageTargetAuth /\
  (rs_Stage r = StageBastionDial \/ rs_Stage r = StageBastionAuth -> d_ViaUID srv <> None /\ blames_bastion e = true) /\
  (rs_Stage r = StageTargetDial -> d_ViaUID srv = None \/ blames_bastion e = false) /\
  (rs_Stage r = StageConfig -> d_ViaUID srv <> None /\ bad_setup e = true).
Proof.
  intros Hc. pose proof (f_equal fst (dial_verdict q e (viaTunnel srv) Hc)) as Hs. cbn [fst] in Hs.
  cbn zeta. rewrite Hs. clear Hs.
  unfold viaTunnel. destruct (d_ViaUID srv) as [via|].
  - generalize (dial_go_error q e). intros g. destruct e; cbn; naive_solver.
  - cbn. naive_solver.
Qed.

Lemma classify_no_pin g : rs_HostKeyPinned (classifySSHError g) = false.
Proof.
  assert (Hn : forall s, rs_HostKeyPinned (classifyNetworkError g s) = false).
  { intros s. unfold classifyNetworkError. destruct (ge_dns g); [done|]. destruct (_ || _); [done|].
    by destruct (isRefusedOrUnreachable g). }
  unfold classifySSHError. destruct (Is g _); [reflexivity|]. destruct (Is g _); [reflexivity|].
  destruct (Is g _); [reflexivity|]. destruct (Is g _); [reflexivity|]. destruct (isBadPrivateKey g); [reflexivity|].
  destruct (Contains _ _); [|by destruct (internal _); apply Hn].
  destruct (internal _); [by destruct (isAuthRejection g)|apply Hn].
Qed.

(** C35. What a check of a database server reports happened, provided the wording of
    an error that is quoted does not imitate the dialer's own ([clean]).  It succeeds
    exactly when the stored password decrypts and the login library accepted the
    login over the connections the dialer gave it.  A failure at [target_auth] is
    either a login that failed after every dial connected, or the check's context
    ended while the library was at work; whether it had connected is not known then,
    though the message says so ([late_check_claims_connection]).  A bastion's stage
    is only reported of a server behind a bastion, when a dial failed on the
    bastion; [target_dial] when a dial failed of a direct server, or with an error
    that the dialer does not put down to the bastion ([tunnel_blames_target] says
    which ones it should); and [config] when the password does not decrypt, when a
    bastion is stored in a way that cannot be used, or when every dial connected and
    the probe found the server's row incomplete. *)
Theorem check_report_sound d srv probe d' r :
  (forall n e, clean (quoted n) e) -> probeFor (d_Protocol srv) = Some probe ->
  checkTarget w quoted d ek srv = (d', r) ->
  (rs_OK r = true <-> exists srv' l, ready srv srv' /\ dials srv' d l d' /\ library_answer (probe srv') l = Some (Some None)) /\
  (rs_OK r = false -> rs_Stage r = StageTargetAuth ->
     exists srv' l, ready srv srv' /\ dials srv' d l d' /\
       ((exists e, Forall (eq None) l /\ library_answer (probe srv') l = Some (Some (Some e))) \/
        (rs_Code r = CodeTimeout /\ library_answer (probe srv') l = Some None))) /\
  (rs_Stage r = StageBastionDial \/ rs_Stage r = StageBastionAuth ->
     d_ViaUID srv <> None /\ exists srv' l q e, ready srv srv' /\ dials srv' d l d' /\ Some (q, e) ∈ l /\ blames_bastion e = true) /\
  (rs_Stage r = StageTargetDial ->
     exists srv' l q e, ready srv srv' /\ dials srv' d l d' /\ Some (q, e) ∈ l /\ (d_ViaUID srv = None \/ blames_bastion e = false)) /\
  (rs_Stage r = StageConfig ->
     (forall srv', ~ ready srv srv') \/
     exists srv' l, ready srv srv' /\ dials srv' d l d' /\
       ((d_ViaUID srv <> None /\ exists q e, Some (q, e) ∈ l /\ bad_setup e = true) \/
        (exists e, Forall (eq None) l /\ library_answer (probe srv') l = Some (Some (Some e)) /\ Is e SMissingConfig = true))).
Proof.
  intros Hclean Hp Hc.
  destruct (if zlen (d_PasswordEncrypted srv) =? 0 then Ok srv else DecryptPassword srv ek) as [srv'|e|] eqn:Er.
  2, 3: unfold checkTarget in Hc; rewrite Hp, Er in Hc; injection Hc as <- <-; cbn; unfold ready; rewrite Er; naive_solver.
  rewrite (checkTarget_probed d srv srv' probe Hp Er) in Hc.
  destruct (run_probe w quoted (probe srv') d ek srv' None) as [[d1 f] a] eqn:Erun. injection Hc as -> Hr.
  apply run_probe_dials in Erun as (l & Hl & Ha & Hf).
  assert (Hdet : (exists s' l', ready srv s' /\ dials s' d l' d' /\ library_answer (probe s') l' = Some (Some None)) -> a = Some None).
  { intros (s' & l' & Hs & Hd' & Ha'). unfold ready in Hs. rewrite Er in Hs. injection Hs as <-.
    eapply (dials_run_probe _ _ _ None) in Hd'; [|exact Ha']. eapply (dials_run_probe _ _ _ None) in Hl; [|exact Ha]. congruence. }
  destruct a as [[e|]|]; subst r.
  - destruct f as [g|].
    + symmetry in Hf. apply last_failure_Some in Hf as [|(q & e' & Hin & ->)]; [done|].
      destruct (dials_quoted _ _ _ _ _ _ Hl Hin) as [n ->].
      destruct (dial_stage (quoted n) e' srv (Hclean n e')) as (S1 & S2 & S3 & S4).
      split; [split; [by rewrite (proj1 (classify_not_ok _ _))|by intros Hx; specialize (Hdet Hx)]|].
      split; [done|]. split; [|split].
      * intros [H1 H2]%S2. split; [done|]. by exists srv', l, (quoted n), e'.
      * intros H1%S3. by exists srv', l, (quoted n), e'.
      * intros [H1 H2]%S4. right. exists srv', l. do 2 (split; [done|]). left. split; [done|]. by exists (quoted n), e'.
    + destruct (classifyTargetError_verdict e) as [K1 K2]. symmetry in Hf. apply last_failure_None in Hf.
      split; [split; [by rewrite K1|by intros Hx; specialize (Hdet Hx)]|].
      split; [intros _ _; exists srv', l; do 2 (split; [done|]); left; by exists e|].
      split; [intros [H|H]; destruct K2 as [K2|[K2 _]]; congruence|].
      split; [intros H; destruct K2 as [K2|[K2 _]]; congruence|].
      intros H. destruct K2 as [K2|[_ K2]]; [congruence|]. right. exists srv', l. do 2 (split; [done|]). right. exists e.
      do 2 (split; [done|]). by destruct (Is e SMissingConfig).
  - cbn. split; [split; [intros _; by exists srv', l|done]|]. split; [done|]. split; [naive_solver|done].
  - cbn. split; [split; [done|by intros Hx; specialize (Hdet Hx)]|].
    split; [intros _ _; exists srv', l; do 2 (split; [done|]); by right|]. split; [naive_solver|done].
Qed.

(** ** Bastions and pinned keys *)

Lemma client_for_frame d uid : dial_frame ∅ d (client_for w d ek uid).1.
Proof. apply sshClientFor_frame. Qed.

Lemma dial_keeps d srv d' r :
  DialUpstream w d ek srv = (d', r) ->
  dom (table d') = dom (table d) /\ forall u, pinned (table d) u <> "" -> pinned (table d') u = pinned (table d) u.
Proof.
  intros Hd. split; [|intros u Hu; replace d' with (DialUpstream w d ek srv).1 by (by rewrite Hd); by apply pins_survive_dial].
  assert (Hdrop : forall d0 u, table (drop_client d0 u) = table d0)
    by (intros d0 u; unfold drop_client; by destruct (clients d0 !! u)).
  revert Hd. unfold DialUpstream. destruct (d_ViaUID srv) as [via|]; [|intros [= <- _]; done].
  pose proof (fr_dom _ _ _ (client_for_frame d via)) as H1.
  destruct (client_for w d ek via) as [d1 [c [e|]]]; cbn [fst] in H1; [intros [= <- _]; done|].
  destruct (w_channel w _); [intros [= <- _]; done|].
  pose proof (fr_dom _ _ _ (client_for_frame (drop_client (tick d1) via) via)) as H2. rewrite Hdrop in H2. cbn [tick table] in H2.
  destruct (client_for w (drop_client (tick d1) via) ek via) as [d2 [c2 [e|]]]; cbn [fst] in H2; intros [= <- _]; cbn; congruence.
Qed.

Lemma dials_keep srv d l d' :
  dials srv d l d' ->
  dom (table d') = dom (table d) /\ forall u, pinned (table d) u <> "" -> pinned (table d') u = pinned (table d) u.
Proof.
  induction 1 as [|d d1 d2 r l Hd _ [IH1 IH2]]; [done|]. apply dial_keeps in Hd as [H1 H2]. split; [congruence|].
  intros u Hu. rewrite IH2; rewrite H2 by done; done.
Qed.

Lemma GetServerByUID_pin ok t uid s : GetServerByUID ok t uid = Ok s -> ssh_pin s = pinned t uid.
Proof. intros [H _]%GetServerByUID_Ok. unfold pinned. by rewrite H. Qed.

Lemma checkBastion_table d uid : table (checkBastion w quoted d ek uid).1 = table (ConnectBastion w (tick d) ek uid).1.
Proof. unfold checkBastion. by destruct (ConnectBastion w (tick d) ek uid) as [d1 [c [e|]]]. Qed.

(** Checking never harms the table: no row appears or disappears, and a pinned host
    key stays, whichever keys the peers present and however often a library dials. *)
Theorem check_keeps_pins t srv ms :
  dom (Check w quoted t ek srv ms).1 = dom t /\
  forall u, pinned t u <> "" -> pinned (Check w quoted t ek srv ms).1 u = pinned t u.
Proof.
  unfold Check, check. destruct (IsSSH srv).
  - pose proof (checkBastion_table (NewDialer t) (d_UID srv)) as Ht.
    destruct (checkBastion _ _ _ _ _) as [d1 r]. cbn [fst Close table] in *. rewrite Ht.
    destruct (client_for_frame (tick (NewDialer t)) (d_UID srv)) as [F1 _ _ F4]. split; [apply F1|apply F4].
  - destruct (checkTarget w quoted (NewDialer t) ek srv) as [d1 r] eqn:Ec. cbn [fst Close table].
    destruct (probeFor (d_Protocol srv)) as [probe|] eqn:Ep.
    + destruct (if zlen (d_PasswordEncrypted srv) =? 0 then Ok srv else DecryptPassword srv ek) as [srv'|e|] eqn:Er.
      2, 3: unfold checkTarget in Ec; rewrite Ep, Er in Ec; injection Ec as <- _; done.
      rewrite (checkTarget_probed _ srv srv' probe Ep Er) in Ec.
      destruct (run_probe _ _ _ _ _ _ _) as [[d2 f] a] eqn:Erun. injection Ec as -> _.
      apply run_probe_dials in Erun as (l & Hl & _). by apply dials_keep in Hl.
    + unfold checkTarget in Ec. rewrite Ep in Ec. destruct (DialUpstream _ _ _ _) as [d2 x] eqn:Ed. injection Ec as -> _.
      by apply dial_keeps in Ed.
Qed.

Lemma connected_row d uid : clients d !! uid = None -> (client_for w d ek uid).2.2 = None ->
  exists s, GetServerByUID true (table d) uid = Ok s.
Proof.
  intros Hn. unfold client_for. cbn [sshClientFor]. rewrite Hn. case_bool_decide; [done|]. unfold load_bastion.
  destruct (GetServerByUID _ (table d) uid) as [s|e|] eqn:E; [|done..]. intros _. exists s.
  apply GetServerByUID_Ok in E as [E1 E2]. unfold GetServerByUID, live_server_at. by rewrite E1, E2.
Qed.

(** What the check of a bastion reports: success exactly when a client was made with
    no error; that a host key was pinned only when the row had none before and has the
    reported key now; and the pinned key when the row is read back.  The first read of the
    row must succeed: when it fails, the row counts as unpinned. *)
Theorem bastion_check_exact d uid d' r :
  clients d !! uid = None -> w_sql w (events d) = true -> checkBastion w quoted d ek uid = (d', r) ->
  (rs_OK r = true <-> (ConnectBastion w (tick d) ek uid).2.2 = None) /\
  (rs_HostKeyPinned r = true -> rs_OK r = true /\ pinned (table d) uid = "" /\ rs_KnownHostKey r = pinned (table d') uid /\ rs_KnownHostKey r <> "") /\
  (pinned (table d) uid <> "" -> rs_HostKeyPinned r = false /\ pinned (table d') uid = pinned (table d) uid).
Proof.
  intros Hn Hsql. pose proof (client_for_frame (tick d) uid) as [_ _ _ F4]. pose proof (connected_row (tick d) uid Hn) as Hrow.
  unfold checkBastion, ConnectBastion. rewrite Hsql. destruct (client_for w (tick d) ek uid) as [d1 [c e]]. cbn [fst snd tick table] in *.
  destruct e as [e|]; intros [= <- <-].
  { rewrite (proj2 (classify_not_ok _ true)), classify_no_pin. split; [done|]. split; [done|]. intros H. split; [done|by apply F4]. }
  destruct (Hrow eq_refl) as [before Eb]. pose proof (GetServerByUID_pin _ _ _ _ Eb) as Hb.
  unfold GetServerByUID at 1 in Eb. rewrite Eb, Hb.
  destruct (GetServerByUID (w_sql w (events d1)) (table d1) uid) as [after|x|] eqn:Ea.
  2, 3: cbn [rs_HostKeyPinned result rs_OK]; split; [done|]; split; [done|]; intros H; split; [done|by apply F4].
  pose proof (GetServerByUID_pin _ _ _ _ Ea) as ->. cbn [with_pin rs_HostKeyPinned].
  destruct (String.eqb_spec (pinned (table d) uid) "") as [E1|E1]; cbn [negb andb].
  - destruct (String.eqb_spec (pinned (table d1) uid) "") as [E2|E2]; cbn; [done|]. split; [done|]. split; [|done]. done.
  - cbn. split; [done|]. split; [done|]. intros _. split; [done|by apply F4].
Qed.
End CheckLaws.

(** ** The table moves by pins only *)

Section Pins.
Context {LL : LoginLibraries} {GCM : AEAD} {UT : UUIDText} {SK : SSHKeys} {HT : HostText}.
Variables (w : World) (quoted : nat -> Quoted) (ek : bytes) (dsn : string).
#[local] Abbreviation moves d d' := (rtc (server_step dsn) (table d) (table d')).

Lemma handshake_moves d uid b : moves d (handshake w d uid b).1.
Proof.
  unfold handshake. destruct (w_host_key w _); [|done]. destruct (hostKeyCallback _ _); [|done..].
  destruct (negb _); [done|]. destruct (_ && _); [|done]. cbn [table tick new_client].
  pose proof (sv_pin dsn (table d) (w_sql w (events (new_client (tick (tick d))))) uid a) as Hp.
  destruct (SetKnownHostKey _ _ _ _) as [t [r|r|]]; apply rtc_once; exact Hp.
Qed.

Lemma sshClientFor_moves : forall fuel d uid seen, moves d (sshClientFor w fuel d ek uid seen).1.
Proof.
  induction fuel as [|fuel IH]; intros d uid seen; cbn [sshClientFor]; [done|]. destruct (clients d !! uid); [done|].
  case_bool_decide; [done|]. destruct (load_bastion _ _ _ _) as [b|e|]; [|done..]. destruct (d_ViaUID b) as [via|].
  - specialize (IH (tick d) via ({[uid]} ∪ seen)). destruct (sshClientFor _ _ (tick d) _ _ _) as [d1 [c [e|]]]; cbn [fst] in *; [done|].
    destruct (w_channel w _); [|done]. etransitivity; [exact IH|]. apply (handshake_moves (tick d1)).
  - destruct (w_tcp w _); [|done]. apply (handshake_moves (tick (tick d))).
Qed.

Lemma drop_client_table d uid : table (drop_client d uid) = table d.
Proof. unfold drop_client. by destruct (clients d !! uid). Qed.

Lemma dial_moves d srv : moves d (DialUpstream w d ek srv).1.
Proof.
  unfold DialUpstream. destruct (d_ViaUID srv) as [via|]; [|done].
  pose proof (sshClientFor_moves (S (size (table d))) d via ∅) as H1. fold (client_for w d ek via) in H1.
  destruct (client_for w d ek via) as [d1 [c [e|]]]; cbn [fst] in *; [done|]. destruct (w_channel w _); [done|].
  pose proof (sshClientFor_moves (S (size (table (drop_client (tick d1) via)))) (drop_client (tick d1) via) via ∅) as H2.
  fold (client_for w (drop_client (tick d1) via) ek via) in H2.
  destruct (client_for w (drop_client (tick d1) via) ek via) as [d2 [c2 [e|]]]; cbn [fst tick table] in *;
    rewrite drop_client_table in H2; by etransitivity.
Qed.

Lemma run_probe_moves p : forall d srv before, moves d (run_probe w quoted p d ek srv before).1.1.
Proof.
  induction p as [k IH|e|]; intros d srv before; cbn [run_probe]; [|done..].
  pose proof (dial_moves d srv) as H1. destruct (DialUpstream w d ek srv) as [d1 [e|]]; (etransitivity; [exact H1|apply IH]).
Qed.

(** On the table a check is a sequence of the store's operations. *)
Lemma Check_moves t srv ms : rtc (server_step dsn) t (Check w quoted t ek srv ms).1.
Proof.
  unfold Check, check. destruct (IsSSH srv).
  - pose proof (checkBastion_table w quoted ek (NewDialer t) (d_UID srv)) as Ht.
    destruct (checkBastion _ _ _ _ _) as [d1 r]. cbn [fst Close table] in *. rewrite Ht. apply (sshClientFor_moves _ (tick (NewDialer t))).
  - unfold checkTarget. destruct (probeFor (d_Protocol srv)) as [probe|].
    + destruct (if zlen (d_PasswordEncrypted srv) =? 0 then Ok srv else DecryptPassword srv ek) as [srv'|e|]; [|done..].
      pose proof (run_probe_moves (probe srv') (NewDialer t) srv' None) as H1. by destruct (run_probe _ _ _ _ _ _ _) as [[d2 f] a].
    + pose proof (dial_moves (NewDialer t) srv) as H1. by destruct (DialUpstream _ _ _ _) as [d2 x].
Qed.
End Pins.

(** ** What reports get wrong *)

(** A tunnelled check whose bastion's secrets do not decrypt, or whose new client could
    not be pinned, blames the target and says the tunnel is up. *)
Theorem tunnel_blames_target {HT : HostText} q e :
  clean q e -> (exists x, e = ErrBastionSecrets x \/ e = ErrPinHostKey x) -> network_code (dial_go_error q e) = None ->
  let r := classifyDialError (dial_go_error q e) true in
  rs_Stage r = StageTargetDial /\ HasPrefix (rs_Message r) "the SSH tunnel is up, but the target could not be reached through it" = true.
Proof.
  intros Hc He Hn. cbn zeta. unfold classifyDialError. rewrite isBastionStage_own by done.
  replace (blames_bastion e) with false by (by destruct He as [x [-> | ->]]). cbn [andb].
  destruct (classifyNetworkError_code (dial_go_error q e) StageTargetDial) as (A1 & _ & _ & A3). rewrite A3, Hn.
  cbn [with_message rs_Stage rs_Message]. split; [done|]. apply HasPrefix_app.
  by exists (": " ++ sanitize (dial_go_error q e)).
Qed.

(** Whatever the dials did, a check the context ends says that the target accepted the
    connection. *)
Theorem late_check_claims_connection {LL : LoginLibraries} {GCM : AEAD} {UT : UUIDText} {SK : SSHKeys} {HT : HostText}
    w quoted ek d srv srv' probe l d' :
  probeFor (d_Protocol srv) = Some probe -> ready ek srv srv' -> dials w quoted ek srv' d l d' ->
  library_answer (probe srv') l = Some None -> Forall (fun o => o <> None) l ->
  let r := (checkTarget w quoted d ek srv).2 in
  rs_Stage r = StageTargetAuth /\ HasPrefix (rs_Message r) "the target accepted the connection" = true.
Proof.
  intros Hp Hr Hd Ha _. rewrite (checkTarget_probed w quoted ek d srv srv' probe Hp Hr).
  rewrite (dials_run_probe w quoted ek _ _ _ None _ _ _ Hd Ha). split; [done|]. by apply HasPrefix_app; eexists.
Qed.

(** ** Messages are bounded *)

Lemma unbreak_length s : String.length (unbreak s) = String.length s.
Proof. induction s as [|c s IH]; cbn; [done|]. by rewrite IH. Qed.
Lemma unbreak_char s : all_chars (fun c => negb (code c =? 10)) (unbreak s) = true.
Proof. induction s as [|c s IH]; cbn; [done|]. rewrite IH. by destruct (code c =? 10) eqn:E; cbn; rewrite ?E. Qed.

(** What a report quotes of an error is at most 303 bytes and one line. *)
Theorem quoted_error_bounded e :
  slen (sanitize e) <= 303 /\ all_chars (fun c => negb (code c =? 10)) (sanitize e) = true.
Proof.
  unfold sanitize, slen, sanitize_maxLen. rewrite unbreak_length.
  destruct (300 <? Z.of_nat (String.length (TrimSpace (ge_text e)))) eqn:E.
  - split.
    + pose proof (slen_app (String.substring 0 300 (unbreak (TrimSpace (ge_text e)))) ellipsis) as H. unfold slen in H. rewrite H.
      rewrite length_substring by (rewrite unbreak_length; blia). cbn. lia.
    + rewrite all_chars_app. apply andb_true_iff. split; [apply all_chars_substring, unbreak_char|reflexivity].
  - rewrite unbreak_length. split; [blia|apply unbreak_char].
Qed.

(** ** A bastion and a database behind it *)

Module SampleCheck.
Import SampleServers SampleDial.
(** Libraries that dial once and accept the password "pw"; MySQL's hangs. *)
Definition login_once (l : Login) : ProbeRun :=
  PDial (fun e => PDone (match e with
                         | Some e => Some e
                         | None => if String.eqb (lg_Password l) "pw" then None else Some (plain "password authentication failed" [])
                         end)).
#[export] Instance sc_libs : LoginLibraries :=
  {| version := "1.0"; pgconn_Connect := login_once; mysql_Connect _ := PDial (fun _ => PLate); mongo_Ping := login_once;
     oracle_Connect := login_once |}.

Definition quote : Quoted := {| qt_addr := "10.0.0.9:22"; qt_secret := "the private key"; qt_cause := plain "broken pipe" [] |}.
Definition quoted (_ : nat) : Quoted := quote.
Lemma quote_clean e : clean quote e.
Proof.
  split; [reflexivity|]. intros m Hm. unfold markers in Hm. rewrite !elem_of_cons, elem_of_nil in Hm.
  destruct Hm as [->|[->|[->|[->|[]]]]]; destruct e; vm_compute; congruence.
Qed.
Definition net : World := world "ssh-ed25519 AAAA" ok.
(** The database is down behind a bastion that works. *)
Definition net_down : World :=
  {| w_tcp _ := true; w_channel _ := false; w_host_key _ := Some "ssh-ed25519 AAAA"; w_auth _ := true; w_sql := ok |}.
Definition slow : Server := sample_server "my" "10.0.0.2" ProtocolMySQL (Some 1%N).

Example check_accepts : rs_Code (Check net quoted db2 key behind 3).2 = CodeOK.
Proof. vm_compute. reflexivity. Qed.
Example check_down : (rs_Stage (Check net_down quoted db2 key behind 3).2, rs_Code (Check net_down quoted db2 key behind 3).2) = (StageTargetDial, CodeInternal).
Proof. vm_compute. reflexivity. Qed.
(** The row behind the bastion does not decrypt under another key. *)
Example check_wrong_key : let r := (Check net quoted db2 (replicate 32 8) behind 3).2 in
  (rs_Stage r, rs_Message r) = (StageTargetDial, "the SSH tunnel is up, but the target could not be reached through it: failed to decrypt the private key: broken pipe").
Proof. vm_compute. reflexivity. Qed.
(** A port that happens to hold "1045" turns a TLS failure into refused credentials. *)
Example port_reads_as_refusal : rs_Code (classifyTargetError (plain "tls: first record from 10.0.0.9:11045 does not look like a TLS handshake" [])) = CodeDBAuthFailed.
Proof. vm_compute. reflexivity. Qed.
End SampleCheck.
Import SampleServers SampleDial SampleCheck.

Lemma check_report_sound_witness :
  exists srv' l, ready key behind srv' /\ dials net quoted key srv' dial0 l (checkTarget net quoted dial0 key behind).1 /\
    library_answer (probePostgres srv') l = Some (Some None).
Proof.
  assert (Hok : rs_OK (checkTarget net quoted dial0 key behind).2 = true) by (vm_compute; reflexivity).
  destruct (checkTarget net quoted dial0 key behind) as [d' r] eqn:E.
  exact (proj1 (proj1 (check_report_sound net quoted key dial0 behind probePostgres d' r (fun _ => quote_clean) eq_refl E)) Hok).
Defined.

Lemma check_keeps_pins_witness :
  pinned (Check (world "ssh-ed25519 EVIL" ok) quoted (table pinned_dialer) key behind 3).1 1%N = "ssh-ed25519 AAAA".
Proof.
  assert (Hk : pinned (table pinned_dialer) 1%N = "ssh-ed25519 AAAA") by (vm_compute; reflexivity).
  rewrite <- Hk. apply (proj2 (check_keeps_pins (world "ssh-ed25519 EVIL" ok) quoted key (table pinned_dialer) behind 3)).
  rewrite Hk. discriminate.
Defined.

Lemma bastion_check_exact_witness :
  let r := (checkBastion net quoted dial0 key 1%N).2 in rs_HostKeyPinned r = true /\ rs_KnownHostKey r <> "".
Proof.
  assert (Hp : rs_HostKeyPinned (checkBastion net quoted dial0 key 1%N).2 = true) by (vm_compute; reflexivity).
  destruct (checkBastion net quoted dial0 key 1%N) as [d' r] eqn:E. cbn [snd] in *. split; [exact Hp|].
  destruct (bastion_check_exact net quoted key dial0 1%N d' r eq_refl eq_refl E) as (_ & H & _). apply (H Hp).
Defined.

Lemma tunnel_blames_target_witness :
  rs_Stage (classifyDialError (dial_go_error quote (ErrPinHostKey ErrServerSQL)) true) = StageTargetDial.
Proof.
  apply (tunnel_blames_target quote (ErrPinHostKey ErrServerSQL) (quote_clean _)); [by eexists; right|vm_compute; reflexivity].
Defined.

(** Nothing answered, and the report says the target accepted the connection. *)
Lemma late_check_claims_connection_witness :
  rs_Stage (checkTarget net_down quoted dial0 key slow).2 = StageTargetAuth.
Proof.
  destruct (DialUpstream net_down dial0 key slow) as [d1 r] eqn:E.
  assert (Hr : r = Some ErrDialThroughBastion) by (apply (f_equal snd) in E; vm_compute in E; congruence).
  subst r. refine (proj1 (late_check_claims_connection net_down quoted key dial0 slow slow probeMySQL
    [Some (quote, ErrDialThroughBastion)] d1 eq_refl eq_refl _ eq_refl _)).
  - exact (dials_cons net_down quoted key slow dial0 d1 d1 (Some ErrDialThroughBastion) [] E (dials_nil net_down quoted key slow d1)).
  - repeat constructor; discriminate.
Defined.
