(* ===== verification/MongoWire.v ===== *)
(** * MongoDB wire framing ([internal/proxy/mongodb/wire.go])

    A reader is the list of bytes it still has to give; a buffer that the code
    allocates and fills is the concatenation of what it writes.  Slicing and
    indexing are checked ([Panic] is the Go run-time panic); a loop that runs
    out of fuel is [Panic] too, so the theorems that exclude [Panic] also show
    that the fuel is enough.  A BSON document is its bytes; [bson.Marshal] is
    the argument [marshal] of the reply builders, and the DEFLATE codec is the
    class [Zlib]. *)

From Stdlib Require Import ZArith Lia List Bool String Ascii.
From stdpp Require Import base list.
From S2P Require Import Prelude.

Open Scope Z_scope.
Open Scope list_scope.

Definition opCodeReply : Z := 1.
Definition opCodeQuery : Z := 2004.
Definition opCodeCompressed : Z := 2012.
Definition opCodeMsg : Z := 2013.

Definition compressorNoop : Z := 0.
Definition compressorSnappy : Z := 1.
Definition compressorZlib : Z := 2.
Definition compressorZstd : Z := 3.

Definition opCompressedHeaderLen : Z := 9.
Definition headerLen : Z := 16.
Definition maxWireMessageSize : Z := 48 * 1000 * 1000.

Definition flagChecksumPresent : Z := Z.shiftl 1 0.
Definition flagMoreToCome : Z := Z.shiftl 1 1.
Definition flagExhaustAllowed : Z := Z.shiftl 1 16.
Definition opReplyAwaitCapable : Z := 8.

Inductive wire_error :=
| ErrIO (e : io_error)
| ErrShortMessage
| ErrMessageTooLarge
| ErrUnsupportedCompress
| ErrCompressedSizeMismat
| ErrBadSection
| ErrZlib
| ErrMarshal.

(** [compress/zlib]: the writer's output for some input, and what reading at
    most [n] bytes from a reader over some data gives. *)
Class Zlib := {
  deflate : bytes -> bytes;
  inflate : bytes -> Z -> option bytes;
  inflate_limit : forall data n out, inflate data n = Some out -> zlen out <= Z.max 0 n;
  inflate_deflate : forall data n, zlen data < n -> inflate (deflate data) n = Some data
}.

(** [l[i]] *)
Definition at_ (i : Z) (l : bytes) : res wire_error Z :=
  let! s := sl i (i + 1) l in Ok (le_get s).

(** [binary.LittleEndian.Uint32(l[lo:lo+4])] *)
Definition uint32_at (lo : Z) (l : bytes) : res wire_error Z :=
  let! s := sl lo (lo + 4) l in Ok (le_get s).

Record message := {
  m_length : Z;
  m_requestID : Z;
  m_responseTo : Z;
  m_opCode : Z;
  m_body : bytes;
  m_raw : bytes
}.

Definition io_res {A} (r : res io_error A) : res wire_error A :=
  match r with Ok a => Ok a | Err e => Err (ErrIO e) | Panic => Panic end.

Definition readMessage (r : bytes) : res wire_error (message * bytes) :=
  let! ' (hdr, r) := io_res (read_full headerLen r) in
  let! l := uint32_at 0 hdr in
  let length := i32 l in
  guard! headerLen <=? length else ErrShortMessage in
  guard! length <=? maxWireMessageSize else ErrMessageTooLarge in
  let! ' (body, r) := io_res (read_full (length - headerLen) r) in
  let! requestID := uint32_at 4 hdr in
  let! responseTo := uint32_at 8 hdr in
  let! opCode := uint32_at 12 hdr in
  Ok ({| m_length := length; m_requestID := i32 requestID; m_responseTo := i32 responseTo;
         m_opCode := i32 opCode; m_body := body; m_raw := hdr ++ body |}, r).

(** The 16 bytes written into [buf[0:16]]. *)
Definition writeHeader (length requestID responseTo opCode : Z) : bytes :=
  le_put 4 (u32 length) ++ le_put 4 (u32 requestID) ++ le_put 4 (u32 responseTo) ++ le_put 4 (u32 opCode).

Section Compression.
Context {Z_ : Zlib}.

Definition decompress (compressorID : Z) (data : bytes) (uncompressedSize : Z) : res wire_error bytes :=
  if compressorID =? compressorNoop then Ok data
  else if compressorID =? compressorZlib then
    match inflate data (uncompressedSize + 1) with Some out => Ok out | None => Err ErrZlib end
  else Err ErrUnsupportedCompress.

Definition compress (compressorID : Z) (data : bytes) : res wire_error bytes :=
  if compressorID =? compressorNoop then Ok data
  else if compressorID =? compressorZlib then Ok (deflate data)
  else Err ErrUnsupportedCompress.

Definition decompressMessage (m : message) : res wire_error (message * Z) :=
  guard! opCompressedHeaderLen <=? zlen (m_body m) else ErrShortMessage in
  let! op := uint32_at 0 (m_body m) in
  let originalOpcode := i32 op in
  let! uncompressedSize := uint32_at 4 (m_body m) in
  let! compressorID := at_ 8 (m_body m) in
  let! compressed := sl opCompressedHeaderLen (zlen (m_body m)) (m_body m) in
  guard! negb ((uncompressedSize <? 0) || (maxWireMessageSize <? uncompressedSize)) else ErrMessageTooLarge in
  let! innerBody := decompress compressorID compressed uncompressedSize in
  guard! zlen innerBody =? uncompressedSize else ErrCompressedSizeMismat in
  let total := headerLen + zlen innerBody in
  let raw := writeHeader (i32 total) (m_requestID m) (m_responseTo m) originalOpcode ++ innerBody in
  let! body := sl headerLen (zlen raw) raw in
  Ok ({| m_length := i32 total; m_requestID := m_requestID m; m_responseTo := m_responseTo m;
         m_opCode := originalOpcode; m_body := body; m_raw := raw |}, compressorID).

Definition compressMessage (raw : bytes) (compressorID : Z) : res wire_error bytes :=
  guard! headerLen <=? zlen raw else ErrShortMessage in
  let! requestID := uint32_at 4 raw in
  let! responseTo := uint32_at 8 raw in
  let! op := uint32_at 12 raw in
  let originalOpcode := i32 op in
  let! innerBody := sl headerLen (zlen raw) raw in
  let! compressed := compress compressorID innerBody in
  let total := headerLen + opCompressedHeaderLen + zlen compressed in
  Ok (writeHeader (i32 total) (i32 requestID) (i32 responseTo) opCodeCompressed
      ++ le_put 4 (u32 originalOpcode) ++ le_put 4 (u32 (zlen innerBody))
      ++ [compressorID] ++ compressed).
End Compression.

Definition compressorIDForName (name : string) : Z * bool :=
  if String.eqb name "zlib"%string then (compressorZlib, true) else (0, false).

Record opMsgSection := {
  s_kind : Z;
  s_identifier : bytes;
  s_documents : list bytes
}.

Record opMsg := { om_flags : Z; om_sections : list opMsgSection }.

Definition readBSONDoc (b : bytes) : res wire_error bytes :=
  guard! 4 <=? zlen b else ErrShortMessage in
  let! size := uint32_at 0 b in
  guard! negb ((size <? 5) || (zlen b <? size)) else ErrShortMessage in
  sl 0 size b.

(** The index of the first [c], or -1. *)
Fixpoint indexByte_from (i : Z) (b : bytes) (c : Z) : Z :=
  match b with
  | [] => -1
  | v :: b => if v =? c then i else indexByte_from (i + 1) b c
  end.
Definition indexByte (b : bytes) (c : Z) : Z := indexByte_from 0 b c.

(** [for len(docsBytes) > 0 { ... }] *)
Fixpoint read_docs (fuel : nat) (docsBytes : bytes) : res wire_error (list bytes) :=
  match fuel with
  | O => Panic
  | S fuel =>
      if zlen docsBytes =? 0 then Ok []
      else
        let! doc := readBSONDoc docsBytes in
        let! docsBytes := sl (zlen doc) (zlen docsBytes) docsBytes in
        let! docs := read_docs fuel docsBytes in
        Ok (doc :: docs)
  end.

Definition parseDocumentSequence (rest : bytes) : res wire_error (opMsgSection * Z) :=
  guard! 4 <=? zlen rest else ErrShortMessage in
  let! size := uint32_at 0 rest in
  guard! negb ((size <? 5) || (zlen rest <? size)) else ErrShortMessage in
  let! inner := sl 4 size rest in
  let idEnd := indexByte inner 0 in
  guard! 0 <=? idEnd else ErrShortMessage in
  let! identifier := sl 0 idEnd inner in
  let! docsBytes := sl (idEnd + 1) (zlen inner) inner in
  let! docs := read_docs (S (length docsBytes)) docsBytes in
  Ok ({| s_kind := 1; s_identifier := identifier; s_documents := docs |}, size).

Fixpoint parse_sections (fuel : nat) (rest : bytes) : res wire_error (list opMsgSection) :=
  match fuel with
  | O => Panic
  | S fuel =>
      match rest with
      | [] => Ok []
      | kind :: rest =>
          if kind =? 0 then
            let! doc := readBSONDoc rest in
            let! rest := sl (zlen doc) (zlen rest) rest in
            let! sections := parse_sections fuel rest in
            Ok ({| s_kind := 0; s_identifier := []; s_documents := [doc] |} :: sections)
          else if kind =? 1 then
            let! ' (section, consumed) := parseDocumentSequence rest in
            let! rest := sl consumed (zlen rest) rest in
            let! sections := parse_sections fuel rest in
            Ok (section :: sections)
          else Err ErrBadSection
      end
  end.

Definition parseOpMsg (body : bytes) : res wire_error opMsg :=
  guard! 4 <=? zlen body else ErrShortMessage in
  let! flags := uint32_at 0 body in
  let! rest := sl 4 (zlen body) body in
  let! rest :=
    (if negb (Z.land flags flagChecksumPresent =? 0) then
       guard! 4 <=? zlen rest else ErrShortMessage in
       sl 0 (zlen rest - 4) rest
     else Ok rest) in
  let! sections := parse_sections (S (length rest)) rest in
  Ok {| om_flags := flags; om_sections := sections |}.

Fixpoint commandBody (sections : list opMsgSection) : option bytes :=
  match sections with
  | [] => None
  | s :: sections =>
      match s_documents s with
      | [doc] => if s_kind s =? 0 then Some doc else commandBody sections
      | _ => commandBody sections
      end
  end.

Fixpoint sequence (sections : list opMsgSection) (identifier : bytes) : option (list bytes) :=
  match sections with
  | [] => None
  | s :: sections =>
      if (s_kind s =? 1) && bool_decide (s_identifier s = identifier)
      then Some (s_documents s) else sequence sections identifier
  end.

Record opQuery := { oq_fullCollectionName : bytes; oq_query : bytes }.

Definition parseOpQuery (body : bytes) : res wire_error opQuery :=
  let skipReturnLen := 8 in
  guard! 4 <=? zlen body else ErrShortMessage in
  let pos := 4 in
  let! tail := sl pos (zlen body) body in
  let nameEnd := indexByte tail 0 in
  guard! 0 <=? nameEnd else ErrShortMessage in
  let! name := sl pos (pos + nameEnd) body in
  let pos := pos + nameEnd + 1 + skipReturnLen in
  guard! pos <=? zlen body else ErrShortMessage in
  let! tail := sl pos (zlen body) body in
  let! q := readBSONDoc tail in
  Ok {| oq_fullCollectionName := name; oq_query := q |}.

Definition buildOpMsgReply (requestID responseTo : Z) (marshal : option bytes) : res wire_error bytes :=
  match marshal with
  | None => Err ErrMarshal
  | Some docBytes =>
      let total := headerLen + 4 + 1 + zlen docBytes in
      Ok (writeHeader (i32 total) requestID responseTo opCodeMsg ++ le_put 4 0 ++ [0] ++ docBytes)
  end.

Definition buildOpReply (requestID responseTo : Z) (marshal : option bytes) : res wire_error bytes :=
  match marshal with
  | None => Err ErrMarshal
  | Some docBytes =>
      let total := headerLen + (4 + 8 + 4 + 4) + zlen docBytes in
      Ok (writeHeader (i32 total) requestID responseTo opCodeReply
          ++ le_put 4 opReplyAwaitCapable ++ le_put 8 0 ++ le_put 4 0 ++ le_put 4 1 ++ docBytes)
  end.

(** ** Lemmas on integers *)

Lemma uint32_mid lo (p s q : bytes) : zlen p = lo -> zlen s = 4 -> uint32_at lo (p ++ s ++ q) = Ok (le_get s).
Proof. intros. unfold uint32_at. rewrite sl_mid by (done || lia). done. Qed.

Lemma uint32_head (s q : bytes) : zlen s = 4 -> uint32_at 0 (s ++ q) = Ok (le_get s).
Proof. intros. by apply (uint32_mid 0 []). Qed.

Lemma u32_get v : le_get (le_put 4 (u32 v)) = u32 v.
Proof. rewrite le_get_put. unfold u32. apply Z.mod_small. apply Z.mod_pos_bound. lia. Qed.

Lemma i32_u32 v : i32 (u32 v) = i32 v.
Proof. apply sint_mod. lia. Qed.

Lemma u32_i32 v : u32 (i32 v) = u32 v.
Proof. apply mod_sint. lia. Qed.

Lemma i32_id v : - 2 ^ 31 <= v < 2 ^ 31 -> i32 v = v.
Proof. intros. apply sint_small; lia. Qed.

Lemma u32_id v : 0 <= v < 2 ^ 32 -> u32 v = v.
Proof. apply Z.mod_small. Qed.

Lemma zlen_header a b c d : zlen (writeHeader a b c d) = 16.
Proof. reflexivity. Qed.

(** ** Frames *)

Lemma split_hdr (h : bytes) : zlen h = 16 ->
  exists a b c d, h = a ++ b ++ c ++ d /\ zlen a = 4 /\ zlen b = 4 /\ zlen c = 4 /\ zlen d = 4.
Proof.
  intros Hh. exists (take 4 h), (take 4 (drop 4 h)), (take 4 (drop 8 h)), (drop 12 h).
  unfold zlen in *. rewrite !length_take, !length_drop. split_and!; try lia.
  replace (drop 12 h) with (drop 4 (drop 8 h)) by by rewrite drop_drop.
  rewrite take_drop. replace (drop 8 h) with (drop 4 (drop 4 h)) by by rewrite drop_drop.
  by rewrite !take_drop.
Qed.

(** Reading a frame: a 16-byte header, then as many bytes as it says. *)
Lemma readMessage_Ok r m rest :
  readMessage r = Ok (m, rest) ->
  exists hl hi ho hc,
    zlen hl = 4 /\ zlen hi = 4 /\ zlen ho = 4 /\ zlen hc = 4
    /\ m_raw m = (hl ++ hi ++ ho ++ hc) ++ m_body m /\ r = m_raw m ++ rest
    /\ m_length m = i32 (le_get hl) /\ m_requestID m = i32 (le_get hi)
    /\ m_responseTo m = i32 (le_get ho) /\ m_opCode m = i32 (le_get hc)
    /\ m_length m = zlen (m_raw m) /\ 16 <= m_length m <= maxWireMessageSize.
Proof.
  unfold readMessage, headerLen.
  destruct (read_full 16 r) as [[hdr r1]|e|] eqn:E1; [|done..]. cbn [io_res rbind].
  apply read_full_Ok in E1 as (_ & -> & Hh).
  destruct (split_hdr hdr Hh) as (hl & hi & ho & hc & -> & H1 & H2 & H3 & H4).
  rewrite uint32_head by done. cbn [rbind].
  destruct (16 <=? i32 (le_get hl)) eqn:El; [|done].
  destruct (i32 (le_get hl) <=? maxWireMessageSize) eqn:Eu; [|done].
  destruct (read_full _ r1) as [[body r2]|e|] eqn:E2; [|done..]. cbn [io_res rbind].
  apply read_full_Ok in E2 as (_ & -> & Hb).
  rewrite (uint32_mid 4 hl hi (ho ++ hc)) by done. cbn [rbind].
  replace (hl ++ hi ++ ho ++ hc) with ((hl ++ hi) ++ ho ++ hc) at 1 by by rewrite !app_assoc.
  rewrite (uint32_mid 8 (hl ++ hi) ho hc) by (done || rewrite zlen_app; lia). cbn [rbind].
  replace (hl ++ hi ++ ho ++ hc) with ((hl ++ hi ++ ho) ++ hc ++ []) at 1 by by rewrite app_nil_r, <- !app_assoc.
  rewrite (uint32_mid 12) by (done || rewrite !zlen_app; lia). cbn [rbind]. intros [= <- <-].
  exists hl, hi, ho, hc. cbn [m_raw m_body m_length m_requestID m_responseTo m_opCode].
  bools. split_and!; try done; [by rewrite <- !app_assoc|]. rewrite !zlen_app in *. lia.
Qed.

(** A frame that is written with its right length is read back whole. *)
Lemma readMessage_frame rid rto op body rest :
  zlen body + 16 <= maxWireMessageSize ->
  readMessage ((writeHeader (zlen body + 16) rid rto op ++ body) ++ rest)
  = Ok ({| m_length := zlen body + 16; m_requestID := i32 rid; m_responseTo := i32 rto;
           m_opCode := i32 op; m_body := body;
           m_raw := writeHeader (zlen body + 16) rid rto op ++ body |}, rest).
Proof.
  intros Hs. unfold readMessage, headerLen, maxWireMessageSize in *. rewrite <- app_assoc.
  rewrite read_full_app by apply zlen_header. cbn [io_res rbind].
  assert (i32 (u32 (zlen body + 16)) = zlen body + 16) as El.
  { rewrite i32_u32. apply i32_id. unfold zlen in *. lia. }
  unfold writeHeader at 1. rewrite uint32_head by done. cbn [rbind]. rewrite u32_get, El.
  rewrite (proj2 (Z.leb_le 16 _)) by (unfold zlen; lia). rewrite (proj2 (Z.leb_le _ _) Hs).
  rewrite read_full_app by lia. cbn [io_res rbind].
  unfold writeHeader at 1. rewrite (uint32_mid 4) by done. cbn [rbind].
  unfold writeHeader at 1. rewrite (app_assoc (le_put 4 _) (le_put 4 _)), (uint32_mid 8) by done. cbn [rbind].
  unfold writeHeader at 1.
  replace (le_put 4 _ ++ _) with
    ((le_put 4 (u32 (zlen body + 16)) ++ le_put 4 (u32 rid) ++ le_put 4 (u32 rto)) ++ le_put 4 (u32 op) ++ [])
    by by rewrite app_nil_r, <- !app_assoc.
  rewrite (uint32_mid 12) by done. cbn [rbind]. by rewrite !u32_get, !i32_u32.
Qed.

Lemma readMessage_not_Panic r : readMessage r <> Panic.
Proof.
  unfold readMessage, headerLen.
  destruct (read_full 16 r) as [[hdr r1]|e|] eqn:E1; [|done|by apply read_full_not_Panic in E1].
  cbn [io_res rbind]. apply read_full_Ok in E1 as (_ & -> & Hh).
  unfold uint32_at.
  destruct (sl_in (E := wire_error) 0 (0 + 4) hdr ltac:(lia) ltac:(lia)) as (? & s0 & ? & -> & _).
  destruct (sl_in (E := wire_error) 4 (4 + 4) hdr ltac:(lia) ltac:(lia)) as (? & s1 & ? & -> & _).
  destruct (sl_in (E := wire_error) 8 (8 + 4) hdr ltac:(lia) ltac:(lia)) as (? & s2 & ? & -> & _).
  destruct (sl_in (E := wire_error) 12 (12 + 4) hdr ltac:(lia) ltac:(lia)) as (? & s3 & ? & -> & _).
  cbn [rbind]. destruct (16 <=? _) eqn:El; [|done]. destruct (_ <=? maxWireMessageSize); [|done].
  destruct (read_full _ r1) as [[body r2]|e|] eqn:E2; [done|done|].
  apply read_full_not_Panic in E2; [done|]. bools. lia.
Qed.

(** ** The grammar of OP_MSG *)

(** A document carries its own length, trailing NUL included. *)
Definition doc_ok (d : bytes) : Prop := 5 <= zlen d /\ le_get (take 4 d) = zlen d.

Definition sequence_size (s : opMsgSection) : Z := 4 + zlen (s_identifier s) + 1 + zlen (concat (s_documents s)).

Definition section_ok (s : opMsgSection) : Prop :=
  Forall doc_ok (s_documents s)
  /\ ((s_kind s = 0 /\ s_identifier s = [] /\ length (s_documents s) = 1%nat)
      \/ (s_kind s = 1 /\ (0 ∉ s_identifier s) /\ sequence_size s < 2 ^ 32)).

(** A section's bytes after its kind byte. *)
Definition sequence_bytes (s : opMsgSection) : bytes :=
  le_put 4 (sequence_size s) ++ s_identifier s ++ [0] ++ concat (s_documents s).

Definition section_bytes (s : opMsgSection) : bytes :=
  s_kind s :: (if s_kind s =? 0 then concat (s_documents s) else sequence_bytes s).

Lemma take4_app (d q : bytes) : 5 <= zlen d -> take 4 (d ++ q) = take 4 d.
Proof. intros H. apply take_app_le. unfold zlen in H. lia. Qed.

Lemma readBSONDoc_size (b : bytes) : 4 <= zlen b ->
  readBSONDoc b = (if negb ((le_get (take 4 b) <? 5) || (zlen b <? le_get (take 4 b)))
                   then sl 0 (le_get (take 4 b)) b else Err ErrShortMessage).
Proof.
  intros Hb. unfold readBSONDoc. rewrite (proj2 (Z.leb_le 4 _) Hb).
  assert (uint32_at 0 b = Ok (le_get (take 4 b))) as ->; [|done].
  rewrite <- (take_drop 4 b) at 1. apply uint32_head. unfold zlen in *. rewrite length_take. lia.
Qed.

Lemma readBSONDoc_Ok b d : readBSONDoc b = Ok d <-> doc_ok d /\ exists q, b = d ++ q.
Proof.
  split.
  - intros H. destruct (4 <=? zlen b) eqn:E4.
    + bools. rewrite readBSONDoc_size in H by done. destruct (negb _) eqn:Es; [|done]. bools.
      apply (sl_Ok (E := wire_error)) in H as (p & q & -> & Hp & Hs). destruct p; [|unfold zlen in Hp; cbn in Hp; lia].
      cbn [app] in *. split; [|eauto]. split; [lia|]. rewrite take4_app in Hs by lia. lia.
    + unfold readBSONDoc in H. by rewrite E4 in H.
  - intros [[H5 Hl] [q ->]]. rewrite readBSONDoc_size by (rewrite zlen_app; pose proof (zlen_nonneg q); lia).
    rewrite take4_app, Hl, zlen_app by done. pose proof (zlen_nonneg q).
    replace (negb _) with true
      by (symmetry; apply negb_true_iff, orb_false_iff; rewrite !Z.ltb_ge; lia).
    apply (sl_mid _ _ []); [done|lia].
Qed.

Lemma readBSONDoc_not_Panic b : wf_bytes b -> readBSONDoc b <> Panic.
Proof.
  intros Hwf. destruct (4 <=? zlen b) eqn:E4; bools.
  - rewrite readBSONDoc_size by done. destruct (negb _) eqn:Es; [|done]. bools.
    destruct (sl_in (E := wire_error) 0 (le_get (take 4 b)) b ltac:(lia) ltac:(lia)) as (? & ? & ? & -> & _). done.
  - unfold readBSONDoc. by rewrite (proj2 (Z.leb_gt 4 _) E4).
Qed.

Lemma read_docs_Ok fuel : forall b ds, (length b < fuel)%nat ->
  read_docs fuel b = Ok ds <-> b = concat ds /\ Forall doc_ok ds.
Proof.
  induction fuel as [|fuel IH]; intros b ds Hf; [lia|]. cbn [read_docs].
  destruct (zlen b =? 0) eqn:Ez; bools.
  - assert (b = []) as -> by (destruct b; [done|unfold zlen in Ez; cbn in Ez; lia]). split.
    + intros [= <-]. done.
    + intros [Hc Hd]. destruct ds as [|d ds]; [done|]. exfalso. apply Forall_cons in Hd as [[Hd _] _].
      cbn in Hc. destruct d; [unfold zlen in Hd; cbn in Hd; lia|done].
  - split.
    + intros H. apply rbind_Ok in H as (d & Hr & H). apply readBSONDoc_Ok in Hr as (Hd & q & ->).
      rewrite sl_tail in H by done. cbn [rbind] in H. apply rbind_Ok in H as (ds' & Hr & [= <-]).
      apply IH in Hr as [-> Hds]; [by split; [|constructor]|].
      rewrite length_app in Hf. destruct Hd as [Hd _]. unfold zlen in Hd. lia.
    + intros [-> Hd]. destruct ds as [|d ds]; [done|]. apply Forall_cons in Hd as [Hd Hds]. cbn [concat].
      rewrite (proj2 (readBSONDoc_Ok _ d)) by eauto. cbn [rbind]. rewrite sl_tail by done. cbn [rbind].
      rewrite (proj2 (IH (concat ds) ds ltac:(cbn in Hf; rewrite length_app in Hf; destruct Hd as [Hd _];
        unfold zlen in Hd; lia))); [done|]. by split.
Qed.

Lemma read_docs_not_Panic fuel : forall b, (length b < fuel)%nat -> wf_bytes b -> read_docs fuel b <> Panic.
Proof.
  induction fuel as [|fuel IH]; intros b Hf Hwf; [lia|]. cbn [read_docs]. destruct (zlen b =? 0); [done|].
  apply rbind_not_Panic; [by apply readBSONDoc_not_Panic|]. intros d Hd.
  apply readBSONDoc_Ok in Hd as ([Hd _] & q & ->). rewrite sl_tail by done. cbn [rbind].
  apply rbind_not_Panic; [|done]. apply wf_app in Hwf as [_ Hwf]. rewrite length_app in Hf.
  apply IH; [unfold zlen in Hd; lia|done].
Qed.

Lemma indexByte_from_spec c b : forall i,
  ((c ∈ b) /\ exists p q, b = p ++ c :: q /\ (c ∉ p) /\ indexByte_from i b c = i + zlen p)
  \/ ((c ∉ b) /\ indexByte_from i b c = -1).
Proof.
  induction b as [|v b IH]; intros i; cbn [indexByte_from]; [right; split; [apply not_elem_of_nil|done]|].
  destruct (v =? c) eqn:Ev; bools.
  - subst v. left. split; [left|]. exists [], b. split_and!; [done|apply not_elem_of_nil|unfold zlen; cbn; lia].
  - destruct (IH (i + 1)) as [(Hin & p & q & -> & Hp & ->)|[Hn ->]].
    + left. split; [by right|]. exists (v :: p), q. split_and!; [done| |rewrite zlen_cons; lia].
      apply not_elem_of_cons. done.
    + right. split; [|done]. apply not_elem_of_cons. done.
Qed.

Lemma indexByte_app c p q : c ∉ p -> indexByte (p ++ c :: q) c = zlen p.
Proof.
  intros Hp. unfold indexByte.
  assert (forall i, indexByte_from i (p ++ c :: q) c = i + zlen p) as H; [|apply H].
  induction p as [|x p IH]; intros i; cbn [indexByte_from app].
  - rewrite Z.eqb_refl. unfold zlen. cbn. lia.
  - apply not_elem_of_cons in Hp as [Hx Hp]. rewrite (proj2 (Z.eqb_neq x c)) by congruence.
    rewrite IH by done. rewrite zlen_cons. lia.
Qed.

Lemma le_put_4 (s : bytes) : wf_bytes s -> zlen s = 4 -> le_put 4 (le_get s) = s.
Proof. intros Hwf Hs. rewrite <- (le_put_get s Hwf) at 2. f_equal. unfold zlen in Hs. lia. Qed.

Lemma le_get_4 v : 0 <= v < 2 ^ 32 -> le_get (le_put 4 v) = v.
Proof. intros. rewrite le_get_put. by apply Z.mod_small. Qed.

Lemma sequence_size_nonneg s : 5 <= sequence_size s.
Proof. unfold sequence_size. pose proof (zlen_nonneg (s_identifier s)). pose proof (zlen_nonneg (concat (s_documents s))). lia. Qed.

Lemma parseDocumentSequence_sound rest s n :
  wf_bytes rest -> parseDocumentSequence rest = Ok (s, n) ->
  s_kind s = 1 /\ section_ok s /\ n = zlen (sequence_bytes s) /\ exists q, rest = sequence_bytes s ++ q.
Proof.
  intros Hwf. unfold parseDocumentSequence. destruct (4 <=? zlen rest) eqn:E4; [|done]. bools.
  assert (zlen (take 4 rest) = 4) as Ht by (unfold zlen in *; rewrite length_take; lia).
  rewrite <- (take_drop 4 rest) at 1. rewrite uint32_head by done. cbn [rbind].
  pose proof (le_get_bound (take 4 rest) ltac:(by apply Forall_take)) as Hsz. rewrite Ht in Hsz.
  destruct (negb _) eqn:Es; [|done]. bools. intros Hp.
  apply rbind_Ok in Hp as (inner & Hi & Hp). apply (sl_Ok (E := wire_error)) in Hi as (p & q & Er & Hp4 & Hin).
  assert (take 4 rest = p) as Hpe.
  { rewrite Er. assert (length p = 4%nat) as <- by (unfold zlen in Hp4; lia). apply take_app_length. }
  unfold indexByte in Hp.
  destruct (indexByte_from_spec 0 inner 0) as [(_ & id & tl & -> & Hid & Hx)|[_ Hx]]; rewrite Hx in Hp; [|done].
  rewrite (proj2 (Z.leb_le 0 _)) in Hp by (pose proof (zlen_nonneg id); lia).
  rewrite Z.add_0_l, sl_head in Hp by done. cbn [rbind] in Hp.
  replace (id ++ 0 :: tl) with ((id ++ [0]) ++ tl) in Hp by by rewrite <- app_assoc.
  rewrite sl_tail in Hp by (rewrite ?zlen_app, ?zlen_cons, ?zlen_nil; done || lia). cbn [rbind] in Hp.
  apply rbind_Ok in Hp as (docs & Hd & [= <- <-]). apply read_docs_Ok in Hd as [-> Hds]; [|lia].
  assert (sequence_size {| s_kind := 1; s_identifier := id; s_documents := docs |} = le_get (take 4 rest)) as Esz.
  { unfold sequence_size. cbn [s_identifier s_documents]. rewrite zlen_app, zlen_cons in Hin. lia. }
  assert (wf_bytes (take 4 rest)) as Hwp by by apply Forall_take.
  unfold section_ok, sequence_bytes. rewrite Esz. cbn [s_kind s_identifier s_documents].
  rewrite le_put_4 by done. split_and!; [done|done| | |].
  - right. split_and!; [done|done|]. lia.
  - rewrite !zlen_app in *. rewrite zlen_cons in *. rewrite zlen_nil. lia.
  - exists q. rewrite Hpe, Er, <- !app_assoc. done.
Qed.

Lemma parseDocumentSequence_complete s q :
  s_kind s = 1 -> section_ok s ->
  parseDocumentSequence (sequence_bytes s ++ q)
  = Ok ({| s_kind := 1; s_identifier := s_identifier s; s_documents := s_documents s |}, zlen (sequence_bytes s)).
Proof.
  intros Hk [Hds [[Hk0 _]|(_ & Hid & Hsz)]]; [congruence|]. pose proof (sequence_size_nonneg s) as H5.
  assert (zlen (sequence_bytes s) = sequence_size s) as Hz.
  { unfold sequence_bytes, sequence_size. rewrite !zlen_app, zlen_le_put, zlen_cons, zlen_nil. lia. }
  unfold parseDocumentSequence. pose proof (zlen_nonneg q).
  rewrite (proj2 (Z.leb_le 4 _)) by (rewrite zlen_app; lia). rewrite zlen_app, Hz.
  assert (uint32_at 0 (sequence_bytes s ++ q) = Ok (sequence_size s)) as ->.
  { unfold sequence_bytes. rewrite <- app_assoc, uint32_head by done. by rewrite le_get_4 by lia. }
  cbn [rbind]. replace (negb _) with true
    by (symmetry; apply negb_true_iff, orb_false_iff; rewrite !Z.ltb_ge; lia).
  unfold sequence_bytes. rewrite <- app_assoc, sl_mid by (done || unfold sequence_size; rewrite !zlen_app, zlen_cons, zlen_nil; lia).
  cbn [rbind app]. rewrite indexByte_app by done. rewrite (proj2 (Z.leb_le 0 _) (zlen_nonneg _)).
  rewrite sl_head by done. cbn [rbind].
  replace (s_identifier s ++ 0 :: concat (s_documents s)) with ((s_identifier s ++ [0]) ++ concat (s_documents s))
    by by rewrite <- app_assoc.
  rewrite sl_tail by (rewrite ?zlen_app, ?zlen_cons, ?zlen_nil; done || lia). cbn [rbind].
  rewrite (proj2 (read_docs_Ok (S (length (concat (s_documents s)))) _ (s_documents s) (Nat.lt_succ_diag_r _))) by done.
  done.
Qed.

Lemma parseDocumentSequence_not_Panic rest : wf_bytes rest -> parseDocumentSequence rest <> Panic.
Proof.
  intros Hwf. unfold parseDocumentSequence. destruct (4 <=? zlen rest) eqn:E4; [|done]. bools.
  destruct (sl_in (E := wire_error) 0 (0 + 4) rest ltac:(lia) ltac:(lia)) as (? & s0 & ? & E0 & _).
  unfold uint32_at. rewrite E0. cbn [rbind]. destruct (negb _) eqn:Es; [|done]. bools.
  destruct (sl_in (E := wire_error) 4 (le_get s0) rest ltac:(lia) ltac:(lia)) as (p & inner & q & -> & -> & _). cbn [rbind].
  unfold indexByte. destruct (indexByte_from_spec 0 inner 0) as [(_ & id & tl & -> & _ & ->)|[_ ->]]; [|done].
  rewrite (proj2 (Z.leb_le 0 _)) by (pose proof (zlen_nonneg id); lia).
  rewrite Z.add_0_l, sl_head by done. cbn [rbind].
  replace (id ++ 0 :: tl) with ((id ++ [0]) ++ tl) in * by by rewrite <- app_assoc.
  rewrite sl_tail by (rewrite ?zlen_app, ?zlen_cons, ?zlen_nil; done || lia). cbn [rbind].
  apply rbind_not_Panic; [|done]. apply read_docs_not_Panic; [lia|].
  rewrite !wf_app in Hwf. tauto.
Qed.

Lemma section_bytes_length s : (0 < length (section_bytes s))%nat.
Proof. cbn. lia. Qed.

Lemma parse_sections_sound fuel : forall rest ss, (length rest < fuel)%nat -> wf_bytes rest ->
  parse_sections fuel rest = Ok ss -> rest = concat (map section_bytes ss) /\ Forall section_ok ss.
Proof.
  induction fuel as [|fuel IH]; intros rest ss Hf Hwf; [lia|]. cbn [parse_sections].
  destruct rest as [|kind rest]; [intros [= <-]; done|]. apply Forall_cons in Hwf as [_ Hwf]. cbn in Hf.
  destruct (kind =? 0) eqn:E0; [|destruct (kind =? 1) eqn:E1; [|done]]; bools; subst kind; intros H.
  - apply rbind_Ok in H as (d & Hd & H). apply readBSONDoc_Ok in Hd as (Hd & q & ->).
    rewrite sl_tail in H by done. cbn [rbind] in H. apply rbind_Ok in H as (ss' & Hs & [= <-]).
    apply wf_app in Hwf as [_ Hwf]. rewrite length_app in Hf.
    apply IH in Hs as [-> Hss]; [|lia|done]. cbn. rewrite app_nil_r. split; [done|]. constructor; [|done].
    split; [by apply Forall_singleton|]. by left.
  - apply rbind_Ok in H as ([s n] & Hd & H).
    apply parseDocumentSequence_sound in Hd as (Hk & Hok & -> & q & ->); [|done].
    rewrite sl_tail in H by done. cbn [rbind] in H. apply rbind_Ok in H as (ss' & Hs & [= <-]).
    apply wf_app in Hwf as [_ Hwf]. rewrite length_app in Hf.
    apply IH in Hs as [-> Hss]; [|lia|done]. cbn. rewrite Hk. cbn. split; [done|by constructor].
Qed.

Lemma parse_sections_complete ss : forall fuel, (length (concat (map section_bytes ss)) < fuel)%nat ->
  Forall section_ok ss -> parse_sections fuel (concat (map section_bytes ss)) = Ok ss.
Proof.
  induction ss as [|s ss IH]; intros fuel Hf Hok; (destruct fuel as [|fuel]; [lia|]); [done|].
  apply Forall_cons in Hok as [Hs Hss]. cbn [map concat] in *. rewrite length_app in Hf.
  pose proof (section_bytes_length s). specialize (IH fuel ltac:(lia) Hss).
  destruct s as [kind id docs]. unfold section_bytes in *. cbn [s_kind s_identifier s_documents app parse_sections] in *.
  destruct Hs as [Hd Hs]. cbn [s_kind s_identifier s_documents] in *.
  destruct Hs as [(-> & -> & Hl)|(-> & Hid & Hsz)]; cbn [Z.eqb] in *.
  - destruct docs as [|d [|]]; try done. apply Forall_inv in Hd. cbn [concat]. rewrite app_nil_r.
    rewrite (proj2 (readBSONDoc_Ok _ d)) by eauto. cbn [rbind]. rewrite sl_tail by done. cbn [rbind].
    by rewrite IH.
  - rewrite parseDocumentSequence_complete by (try done; by split; [|right]). cbn [rbind s_identifier s_documents].
    rewrite sl_tail by done. cbn [rbind]. by rewrite IH.
Qed.

Lemma parse_sections_not_Panic fuel : forall rest, (length rest < fuel)%nat -> wf_bytes rest ->
  parse_sections fuel rest <> Panic.
Proof.
  induction fuel as [|fuel IH]; intros rest Hf Hwf; [lia|]. cbn [parse_sections].
  destruct rest as [|kind rest]; [done|]. apply Forall_cons in Hwf as [_ Hwf]. cbn in Hf.
  destruct (kind =? 0); [|destruct (kind =? 1); [|done]].
  - apply rbind_not_Panic; [by apply readBSONDoc_not_Panic|]. intros d Hd.
    apply readBSONDoc_Ok in Hd as (Hd & q & ->). rewrite sl_tail by done. cbn [rbind].
    apply wf_app in Hwf as [_ Hwf]. rewrite length_app in Hf.
    apply rbind_not_Panic; [apply IH; [lia|done]|done].
  - apply rbind_not_Panic; [by apply parseDocumentSequence_not_Panic|]. intros [s n] Hd.
    apply parseDocumentSequence_sound in Hd as (_ & _ & -> & q & ->); [|done]. rewrite sl_tail by done. cbn [rbind].
    apply wf_app in Hwf as [_ Hwf]. rewrite length_app in Hf.
    apply rbind_not_Panic; [apply IH; [lia|done]|done].
Qed.

Lemma parseOpMsg_sound body msg :
  wf_bytes body -> parseOpMsg body = Ok msg ->
  exists checksum,
    body = le_put 4 (om_flags msg) ++ concat (map section_bytes (om_sections msg)) ++ checksum
    /\ zlen checksum = (if Z.land (om_flags msg) flagChecksumPresent =? 0 then 0 else 4)
    /\ 0 <= om_flags msg < 2 ^ 32 /\ Forall section_ok (om_sections msg).
Proof.
  intros Hwf. unfold parseOpMsg. destruct (4 <=? zlen body) eqn:E4; [|done]. bools.
  destruct (split_at 4 body ltac:(lia)) as (fl & rest & -> & Hfl). rewrite uint32_head by done. cbn [rbind].
  rewrite sl_tail by done. cbn [rbind]. intros H. apply wf_app in Hwf as [Hwfl Hwr].
  pose proof (le_get_bound fl Hwfl) as Hb. rewrite Hfl in Hb.
  apply rbind_Ok in H as (rest' & Hr & H). apply rbind_Ok in H as (ss & Hs & [= <-]).
  cbn [om_flags om_sections]. rewrite le_put_4 by done. destruct (Z.land _ _ =? 0); cbn [negb] in Hr.
  - injection Hr as <-. apply parse_sections_sound in Hs as [-> Hok]; [|lia|done].
    exists []. rewrite app_nil_r. done.
  - destruct (4 <=? zlen rest) eqn:E; [|done]. bools. apply (sl_Ok (E := wire_error)) in Hr as (p & q & -> & Hp & Hq).
    destruct p; [|unfold zlen in Hp; cbn in Hp; lia]. cbn [app] in *. apply wf_app in Hwr as [Hwr _].
    apply parse_sections_sound in Hs as [-> Hok]; [|lia|done]. exists q. rewrite zlen_app in Hq.
    split_and!; [done|lia|lia|lia|done].
Qed.

Lemma parseOpMsg_complete msg checksum :
  zlen checksum = (if Z.land (om_flags msg) flagChecksumPresent =? 0 then 0 else 4) ->
  0 <= om_flags msg < 2 ^ 32 -> Forall section_ok (om_sections msg) ->
  parseOpMsg (le_put 4 (om_flags msg) ++ concat (map section_bytes (om_sections msg)) ++ checksum) = Ok msg.
Proof.
  intros Hck Hfl Hok. unfold parseOpMsg. set (ss := concat _).
  pose proof (zlen_nonneg (ss ++ checksum)).
  rewrite (proj2 (Z.leb_le 4 _)) by (rewrite zlen_app, zlen_le_put; lia).
  rewrite uint32_head by done. rewrite le_get_4 by done. cbn [rbind].
  rewrite sl_tail by done. cbn [rbind]. destruct (Z.land _ _ =? 0); cbn [negb].
  - destruct checksum; [|unfold zlen in Hck; cbn in Hck; lia]. rewrite app_nil_r. cbn [rbind].
    unfold ss. rewrite parse_sections_complete by (done || lia). by destruct msg.
  - rewrite zlen_app in *. rewrite (proj2 (Z.leb_le 4 _)) by (pose proof (zlen_nonneg ss); lia).
    rewrite sl_head by lia. cbn [rbind]. unfold ss. rewrite parse_sections_complete by (done || lia). by destruct msg.
Qed.

Lemma parseOpMsg_not_Panic body : wf_bytes body -> parseOpMsg body <> Panic.
Proof.
  intros Hwf. unfold parseOpMsg. destruct (4 <=? zlen body) eqn:E4; [|done]. bools.
  destruct (split_at 4 body ltac:(lia)) as (fl & rest & -> & Hfl). rewrite uint32_head by done. cbn [rbind].
  rewrite sl_tail by done. cbn [rbind]. apply wf_app in Hwf as [_ Hwr].
  destruct (negb _).
  - destruct (4 <=? zlen rest) eqn:E; [|done]. bools.
    destruct (sl_in (E := wire_error) 0 (zlen rest - 4) rest ltac:(lia) ltac:(lia)) as (p & s & q & -> & -> & _). cbn [rbind].
    rewrite !wf_app in Hwr. apply rbind_not_Panic; [|done]. apply parse_sections_not_Panic; [lia|tauto].
  - cbn [rbind]. apply rbind_not_Panic; [|done]. by apply parse_sections_not_Panic; [lia|].
Qed.

(** ** Properties *)

(** Framing of the inbound stream is exact: reading a message never
    panics, and when it succeeds the bytes kept for verbatim relay are exactly
    the bytes consumed, the declared length is their number and lies between 16
    and 48,000,000, and the header fields and body the proxy decides on are
    those of the relayed bytes. *)
Theorem read_message_exact r :
  readMessage r <> Panic
  /\ forall m rest, readMessage r = Ok (m, rest) ->
       r = m_raw m ++ rest
       /\ m_length m = zlen (m_raw m) /\ headerLen <= m_length m <= maxWireMessageSize
       /\ sl (E := wire_error) headerLen (zlen (m_raw m)) (m_raw m) = Ok (m_body m)
       /\ uint32_at 0 (m_raw m) = Ok (le_get (take 4 (m_raw m)))
       /\ m_length m = i32 (le_get (take 4 (m_raw m)))
       /\ m_requestID m = i32 (le_get (take 4 (drop 4 (m_raw m))))
       /\ m_responseTo m = i32 (le_get (take 4 (drop 8 (m_raw m))))
       /\ m_opCode m = i32 (le_get (take 4 (drop 12 (m_raw m)))).
Proof.
  split; [apply readMessage_not_Panic|]. intros m rest H.
  apply readMessage_Ok in H as (hl & hi & ho & hc & H1 & H2 & H3 & H4 & Hraw & -> & E1 & E2 & E3 & E4 & Hl & Hb).
  assert (zlen (hl ++ hi ++ ho ++ hc) = 16) as H16 by (rewrite !zlen_app; lia).
  unfold zlen in H1, H2, H3, H4. split_and!; [done|done|unfold headerLen; lia|lia| | |..].
  - rewrite Hraw. apply sl_tail; [exact H16|done].
  - rewrite <- (take_drop 4 (m_raw m)) at 1. apply uint32_head. unfold zlen in *. rewrite length_take. lia.
  - rewrite E1, Hraw, <- app_assoc, take_app_length' by lia. done.
  - rewrite E2, Hraw, <- !app_assoc, drop_app_length', take_app_length' by lia. done.
  - rewrite E3, Hraw. replace (((hl ++ hi ++ ho ++ hc) ++ m_body m)) with ((hl ++ hi) ++ ho ++ hc ++ m_body m)
      by by rewrite <- !app_assoc.
    rewrite drop_app_length', take_app_length' by (rewrite ?length_app; lia). done.
  - rewrite E4, Hraw. replace (((hl ++ hi ++ ho ++ hc) ++ m_body m)) with ((hl ++ hi ++ ho) ++ hc ++ m_body m)
      by by rewrite <- !app_assoc.
    rewrite drop_app_length', take_app_length' by (rewrite ?length_app; lia). done.
Qed.

(** C39. The OP_MSG parser accepts exactly the grammar: it never panics and
    always terminates, whatever the client sends; it succeeds with a message
    exactly when the body is the flags, the encoding of those sections one
    after the other, and the four checksum bytes when the flag asks for them.
    So no byte of a relayed command escapes the sections the proxy inspects,
    and every well-formed message is accepted. *)
Theorem parse_op_msg_exact body :
  wf_bytes body ->
  parseOpMsg body <> Panic
  /\ forall msg, parseOpMsg body = Ok msg <->
       exists checksum,
         body = le_put 4 (om_flags msg) ++ concat (map section_bytes (om_sections msg)) ++ checksum
         /\ zlen checksum = (if Z.land (om_flags msg) flagChecksumPresent =? 0 then 0 else 4)
         /\ 0 <= om_flags msg < 2 ^ 32 /\ Forall section_ok (om_sections msg).
Proof.
  intros Hwf. split; [by apply parseOpMsg_not_Panic|]. intros msg. split; [by apply parseOpMsg_sound|].
  intros (ck & -> & Hck & Hfl & Hok). by apply parseOpMsg_complete.
Qed.

Definition sample_doc : bytes := [5; 0; 0; 0; 0].
Definition sample_body : bytes :=
  le_put 4 1 ++ [0] ++ sample_doc ++ [1] ++ le_put 4 12 ++ [100; 0] ++ [6; 0; 0; 0; 7; 0] ++ [9; 9; 9; 9].

Lemma parse_op_msg_exact_witness :
  exists msg, parseOpMsg sample_body = Ok msg /\ commandBody (om_sections msg) = Some sample_doc.
Proof.
  destruct (parseOpMsg sample_body) as [msg|e|] eqn:E; [|vm_compute in E; discriminate..].
  exists msg. split; [reflexivity|].
  destruct (parse_op_msg_exact sample_body (wf_bytes_check sample_body eq_refl)) as [_ H].
  destruct (proj1 (H msg) E) as (ck & Hb & _). vm_compute in E. injection E as <-. reflexivity.
Defined.

(** Legacy OP_QUERY parsing never panics, and what it returns is the
    collection name and a whole document of the body at the place the format
    says. *)
Theorem parse_op_query_safe body :
  wf_bytes body ->
  parseOpQuery body <> Panic
  /\ forall q, parseOpQuery body = Ok q ->
       exists flags skip_return tail,
         body = flags ++ oq_fullCollectionName q ++ [0] ++ skip_return ++ oq_query q ++ tail
         /\ zlen flags = 4 /\ zlen skip_return = 8
         /\ (0 ∉ oq_fullCollectionName q) /\ doc_ok (oq_query q).
Proof.
  intros Hwf. unfold parseOpQuery. destruct (4 <=? zlen body) eqn:E4; [|done]. bools.
  destruct (split_at 4 body ltac:(lia)) as (fl & tl & -> & Hfl).
  rewrite sl_tail by done. cbn [rbind]. unfold indexByte.
  destruct (indexByte_from_spec 0 tl 0) as [(_ & name & tl' & -> & Hn & ->)|[_ ->]]; [|done].
  pose proof (zlen_nonneg name) as Hnn. rewrite Z.add_0_l, (proj2 (Z.leb_le 0 _) Hnn).
  rewrite sl_mid by (done || lia). cbn [rbind].
  destruct (_ <=? zlen (fl ++ _)) eqn:Ep; [|done]. bools.
  rewrite !zlen_app, zlen_cons in Ep. destruct (split_at 8 tl' ltac:(lia)) as (sr & rest & -> & Hsr).
  replace (fl ++ name ++ 0 :: sr ++ rest) with ((fl ++ name ++ [0] ++ sr) ++ rest) in *
    by by rewrite <- !app_assoc.
  rewrite sl_tail by (done || rewrite !zlen_app, zlen_cons, zlen_nil; lia). cbn [rbind].
  apply wf_app in Hwf as [_ Hwf]. split.
  - apply rbind_not_Panic; [by apply readBSONDoc_not_Panic|done].
  - intros q H. apply rbind_Ok in H as (d & Hd & [= <-]). apply readBSONDoc_Ok in Hd as (Hd & tail & ->).
    exists fl, sr, tail. cbn [oq_fullCollectionName oq_query]. split_and!; try done. by rewrite <- !app_assoc.
Qed.

Definition sample_query : bytes := le_put 4 0 ++ [97; 0] ++ le_put 8 0 ++ sample_doc.

Lemma parse_op_query_safe_witness :
  exists q, parseOpQuery sample_query = Ok q /\ doc_ok (oq_query q).
Proof.
  destruct (parseOpQuery sample_query) as [q|e|] eqn:E; [|vm_compute in E; discriminate..].
  exists q. split; [reflexivity|].
  destruct (proj2 (parse_op_query_safe sample_query (wf_bytes_check sample_query eq_refl)) q E)
    as (? & ? & ? & _ & _ & _ & _ & H). exact H.
Defined.

Section CompressionProperties.
Context {Z_ : Zlib}.

(** The body of an OP_COMPRESSED frame, part by part. *)
Lemma decompressMessage_parts m op sz id data :
  m_body m = op ++ sz ++ [id] ++ data -> zlen op = 4 -> zlen sz = 4 ->
  decompressMessage m =
    (guard! negb ((le_get sz <? 0) || (maxWireMessageSize <? le_get sz)) else ErrMessageTooLarge in
     let! innerBody := decompress id data (le_get sz) in
     guard! zlen innerBody =? le_get sz else ErrCompressedSizeMismat in
     let raw := writeHeader (i32 (headerLen + zlen innerBody)) (m_requestID m) (m_responseTo m) (i32 (le_get op))
                ++ innerBody in
     Ok ({| m_length := i32 (headerLen + zlen innerBody); m_requestID := m_requestID m;
            m_responseTo := m_responseTo m; m_opCode := i32 (le_get op); m_body := innerBody; m_raw := raw |}, id)).
Proof.
  intros Hb Ho Hs. unfold decompressMessage. rewrite Hb. pose proof (zlen_nonneg data).
  rewrite (proj2 (Z.leb_le opCompressedHeaderLen _))
    by (unfold opCompressedHeaderLen; rewrite !zlen_app, zlen_cons, zlen_nil; lia).
  rewrite uint32_head by done. cbn [rbind]. rewrite uint32_mid by done. cbn [rbind].
  unfold at_. rewrite (app_assoc op sz), sl_mid by (done || rewrite zlen_app; lia). cbn [rbind le_get].
  rewrite Z.mul_0_r, Z.add_0_r.
  replace ((op ++ sz) ++ [id] ++ data) with ((op ++ sz ++ [id]) ++ data) by by rewrite <- !app_assoc.
  rewrite sl_tail by (done || unfold opCompressedHeaderLen; rewrite !zlen_app, zlen_cons, zlen_nil; lia).
  cbn [rbind]. destruct (negb _); [|done]. destruct (decompress _ _ _) as [inner|e|]; [|done..]. cbn [rbind].
  destruct (_ =? _); [|done]. by rewrite sl_tail.
Qed.

Lemma compressMessage_frame id rid rto op body c :
  compress id body = Ok c ->
  compressMessage (writeHeader (zlen body + 16) rid rto op ++ body) id
  = Ok (writeHeader (i32 (zlen c + 9 + 16)) (i32 rid) (i32 rto) opCodeCompressed
        ++ le_put 4 (u32 op) ++ le_put 4 (u32 (zlen body)) ++ [id] ++ c).
Proof.
  intros Hc. unfold compressMessage, headerLen, opCompressedHeaderLen. pose proof (zlen_nonneg body).
  rewrite (proj2 (Z.leb_le 16 _)) by (rewrite zlen_app, zlen_header; lia).
  unfold writeHeader at 1 2 3. rewrite <- !app_assoc. rewrite uint32_mid by done. cbn [rbind].
  rewrite (app_assoc (le_put 4 _) (le_put 4 _)), uint32_mid by done. cbn [rbind].
  rewrite (app_assoc (_ ++ _) (le_put 4 _)), uint32_mid by done. cbn [rbind].
  rewrite sl_tail by done. cbn [rbind]. rewrite Hc. cbn [rbind].
  rewrite !u32_get, !i32_u32, u32_i32. replace (16 + 9 + zlen c) with (zlen c + 9 + 16) by lia. done.
Qed.

Lemma decompress_compress id body c : compress id body = Ok c -> decompress id c (zlen body) = Ok body.
Proof.
  unfold compress, decompress. destruct (id =? compressorNoop); [congruence|].
  destruct (id =? compressorZlib); [|done]. intros [= <-]. by rewrite inflate_deflate by lia.
Qed.

Lemma decompress_not_Panic id data n : decompress id data n <> Panic.
Proof. unfold decompress. repeat case_match; done. Qed.

(** Unwrapping an OP_COMPRESSED frame cannot be turned against the proxy:
    it never panics, the inflated body is exactly the declared size and at most
    48,000,000 bytes, and the rebuilt frame that is relayed upstream is a
    proper frame whose header and body are the ones the proxy went on to
    inspect. *)
Theorem decompressed_frame_consistent m :
  wf_bytes (m_body m) ->
  decompressMessage m <> Panic
  /\ forall m' id, decompressMessage m = Ok (m', id) ->
       zlen (m_body m') <= maxWireMessageSize
       /\ m_length m' = zlen (m_raw m')
       /\ m_raw m' = writeHeader (m_length m') (m_requestID m') (m_responseTo m') (m_opCode m') ++ m_body m'
       /\ m_requestID m' = m_requestID m /\ m_responseTo m' = m_responseTo m
       /\ (id = compressorNoop \/ id = compressorZlib).
Proof.
  intros Hwf. destruct (9 <=? zlen (m_body m)) eqn:E9.
  - bools. destruct (split_at 4 (m_body m) ltac:(lia)) as (op & t1 & Hb & Ho).
    rewrite Hb, zlen_app in E9. destruct (split_at 4 t1 ltac:(lia)) as (sz & t2 & -> & Hs).
    rewrite zlen_app in E9. destruct t2 as [|id data]; [unfold zlen in *; cbn in *; lia|].
    rewrite (decompressMessage_parts m op sz id data Hb Ho Hs).
    destruct (negb _) eqn:Esz; [|done]. bools. split.
    + apply rbind_not_Panic; [apply decompress_not_Panic|]. intros inner _. by destruct (_ =? _).
    + intros m' id' Hm. apply rbind_Ok in Hm as (inner & Hd & Hm). destruct (_ =? _) eqn:El; [|done]. bools.
      assert (forall x, Ok x = Ok (E := wire_error) (m', id') -> x = (m', id')) as Hinj by congruence.
      apply Hinj, pair_equal_spec in Hm as [<- <-]. cbn [m_body m_length m_raw m_requestID m_responseTo m_opCode].
      assert (i32 (headerLen + zlen inner) = headerLen + zlen inner) as Ei.
      { apply i32_id. unfold headerLen, maxWireMessageSize in *. pose proof (zlen_nonneg inner). lia. }
      rewrite Ei, zlen_app, zlen_header. unfold decompress in Hd.
      split_and!; [lia|done|done|done|done|].
      destruct (id =? compressorNoop) eqn:En; bools; [by left|].
      destruct (id =? compressorZlib) eqn:Ez; bools; [by right|done].
  - unfold decompressMessage, opCompressedHeaderLen. rewrite E9. done.
Qed.

(** Compression is transparent: a frame compressed by the proxy with a
    compressor it negotiates, read back from any stream and unwrapped, is the
    same frame byte for byte. *)
Theorem compress_roundtrip id rid rto op body c rest :
  compress id body = Ok c -> zlen c + 25 <= maxWireMessageSize -> zlen body <= maxWireMessageSize ->
  - 2 ^ 31 <= rid < 2 ^ 31 -> - 2 ^ 31 <= rto < 2 ^ 31 -> - 2 ^ 31 <= op < 2 ^ 31 ->
  let raw := writeHeader (zlen body + 16) rid rto op ++ body in
  exists buf m m', compressMessage raw id = Ok buf /\ readMessage (buf ++ rest) = Ok (m, rest)
    /\ m_opCode m = opCodeCompressed /\ decompressMessage m = Ok (m', id)
    /\ m_raw m' = raw /\ m_body m' = body /\ m_opCode m' = op.
Proof.
  intros Hc Hlc Hlb Hrid Hrto Hop raw.
  set (cbody := le_put 4 (u32 op) ++ le_put 4 (u32 (zlen body)) ++ [id] ++ c).
  assert (zlen cbody = zlen c + 9) as Hcb by (unfold cbody; rewrite !zlen_app, !zlen_le_put, zlen_cons, zlen_nil; lia).
  exists (writeHeader (zlen cbody + 16) rid rto opCodeCompressed ++ cbody).
  eexists _, _. split; [|split; [apply readMessage_frame; lia|]].
  - unfold raw. rewrite (compressMessage_frame id rid rto op body c) by done. by rewrite Hcb, !i32_id by (done || unfold maxWireMessageSize in *; pose proof (zlen_nonneg c); lia).
  - cbn [m_opCode]. split; [done|].
    assert (0 <= zlen body < 2 ^ 32) as Hz by (unfold maxWireMessageSize in *; pose proof (zlen_nonneg body); lia).
    rewrite (decompressMessage_parts _ (le_put 4 (u32 op)) (le_put 4 (u32 (zlen body))) id c) by done.
    rewrite !u32_get, i32_u32, (u32_id (zlen body)), i32_id by done.
    replace (negb _) with true
      by (symmetry; apply negb_true_iff, orb_false_iff; rewrite !Z.ltb_ge; split; lia).
    rewrite (decompress_compress id body c) by done. cbn [rbind]. rewrite Z.eqb_refl.
    cbn [m_requestID m_responseTo]. unfold headerLen.
    rewrite (i32_id (16 + zlen body)) by (unfold maxWireMessageSize in *; lia).
    rewrite (Z.add_comm 16), !i32_id by done. split_and!; done.
Qed.
End CompressionProperties.

(** A command reply the proxy builds is understood as it was meant: a
    client that reads the frame finds the request it answers, an OP_MSG, and
    one section with exactly the marshalled document. *)
Theorem reply_roundtrip rid rto doc rest :
  doc_ok doc -> zlen doc + 21 <= maxWireMessageSize ->
  - 2 ^ 31 <= rid < 2 ^ 31 -> - 2 ^ 31 <= rto < 2 ^ 31 ->
  exists buf m msg, buildOpMsgReply rid rto (Some doc) = Ok buf
    /\ readMessage (buf ++ rest) = Ok (m, rest) /\ m_raw m = buf
    /\ m_requestID m = rid /\ m_responseTo m = rto /\ m_opCode m = opCodeMsg
    /\ parseOpMsg (m_body m) = Ok msg /\ om_flags msg = 0
    /\ commandBody (om_sections msg) = Some doc /\ length (om_sections msg) = 1%nat.
Proof.
  intros Hd Hs Hrid Hrto. pose proof (zlen_nonneg doc).
  set (body := le_put 4 0 ++ [0] ++ doc).
  assert (zlen body = zlen doc + 5) as Hb by (unfold body; rewrite !zlen_app, zlen_le_put, zlen_cons, zlen_nil; lia).
  exists (writeHeader (zlen body + 16) rid rto opCodeMsg ++ body). eexists _.
  exists {| om_flags := 0; om_sections := [{| s_kind := 0; s_identifier := []; s_documents := [doc] |}] |}.
  split; [|split; [apply readMessage_frame; lia|]].
  - unfold buildOpMsgReply, headerLen. rewrite Hb, i32_id by (unfold maxWireMessageSize in *; lia).
    replace (16 + 4 + 1 + zlen doc) with (zlen doc + 5 + 16) by lia. done.
  - cbn [m_raw m_requestID m_responseTo m_opCode m_body]. rewrite !i32_id by done. split_and!; try done.
    unfold body. rewrite <- (parseOpMsg_complete
      {| om_flags := 0; om_sections := [{| s_kind := 0; s_identifier := []; s_documents := [doc] |}] |} []);
      cbn [om_flags om_sections]; [|done|lia|].
    + cbn [map concat section_bytes s_kind s_documents Z.eqb app]. by rewrite !app_nil_r.
    + apply Forall_singleton. split; [by apply Forall_singleton|by left].
Qed.

Lemma reply_roundtrip_witness :
  exists buf m msg, buildOpMsgReply 7 9 (Some sample_doc) = Ok buf
    /\ readMessage (buf ++ [1; 2; 3]) = Ok (m, [1; 2; 3]) /\ m_responseTo m = 9
    /\ parseOpMsg (m_body m) = Ok msg /\ commandBody (om_sections msg) = Some sample_doc.
Proof.
  destruct (reply_roundtrip 7 9 sample_doc [1; 2; 3]) as (buf & m & msg & H1 & H2 & _ & _ & H3 & _ & H4 & _ & H5 & _).
  - split; [vm_compute; discriminate|reflexivity].
  - vm_compute. discriminate.
  - lia.
  - lia.
  - exists buf, m, msg. split_and!; assumption.
Defined.

(** ** A concrete codec for the witnesses: stored blocks only *)
Module ToyZlib.
Lemma limit (data : bytes) n out : Some (take (Z.to_nat n) data) = Some out -> zlen out <= Z.max 0 n.
Proof. intros [= <-]. unfold zlen. rewrite length_take. lia. Qed.

Lemma inverse (data : bytes) n : zlen data < n -> Some (take (Z.to_nat n) data) = Some data.
Proof. intros H. by rewrite take_ge by (unfold zlen in H; lia). Qed.

#[local] Instance zlib : Zlib :=
  {| deflate := fun d => d; inflate := fun d n => Some (take (Z.to_nat n) d);
     inflate_limit := limit; inflate_deflate := inverse |}.

Definition frame : message :=
  {| m_length := 30; m_requestID := 4; m_responseTo := 0; m_opCode := opCodeCompressed;
     m_body := le_put 4 2013 ++ le_put 4 5 ++ [2] ++ sample_doc; m_raw := [] |}.

Lemma decompressed_frame_consistent_witness :
  exists m', decompressMessage frame = Ok (m', 2) /\ m_length m' = zlen (m_raw m').
Proof.
  destruct (decompressMessage frame) as [[m' id]|e|] eqn:E; [|vm_compute in E; discriminate..].
  destruct (proj2 (decompressed_frame_consistent (Z_ := zlib) frame (wf_bytes_check (m_body frame) eq_refl)) m' id E)
    as (_ & Hl & _).
  exists m'. split; [vm_compute in E; injection E as <- <-; reflexivity|exact Hl].
Defined.

Lemma compress_roundtrip_witness :
  exists buf m m', compressMessage (writeHeader 21 1 2 2013 ++ sample_doc) 2 = Ok buf
    /\ readMessage (buf ++ [42]) = Ok (m, [42]) /\ decompressMessage m = Ok (m', 2)
    /\ m_raw m' = writeHeader 21 1 2 2013 ++ sample_doc.
Proof.
  destruct (compress_roundtrip (Z_ := zlib) 2 1 2 2013 sample_doc sample_doc [42])
    as (buf & m & m' & H1 & H2 & _ & H3 & H4 & _);
    [reflexivity|vm_compute; discriminate|vm_compute; discriminate|lia|lia|lia|].
  exists buf, m, m'. split_and!; assumption.
Defined.
End ToyZlib.
