(* ===== verification/TNS.v ===== *)
(** * Oracle TNS packets ([internal/proxy/oracle/tns.go])

    A connection being read is the list of bytes it still has to give; a
    connection being written is the list of bytes written so far.  Lengths are
    16-bit ([uint16]) or 32-bit fields, big-endian. *)

From Stdlib Require Import ZArith Lia List Bool String Ascii.
From stdpp Require Import base list.
From S2P Require Import Prelude.

Open Scope Z_scope.
Open Scope list_scope.

Definition TNSPacketTypeConnect : Z := 1.
Definition TNSPacketTypeAccept : Z := 2.
Definition TNSPacketTypeRefuse : Z := 3.
Definition TNSPacketTypeRedirect : Z := 4.
Definition TNSPacketTypeMarker : Z := 5.
Definition TNSPacketTypeData : Z := 6.
Definition TNSPacketTypeResend : Z := 11.
Definition TNSPacketTypeControl : Z := 12.

Definition tnsHeaderSize : Z := 8.
Definition maxTNSPacketSize : Z := 65535.

Inductive tns_error :=
| TnsIO (e : io_error)
| ErrTNSHeaderTooShort
| ErrTNSPacketTooLarge
| TnsWrite.

Record TNSPacket := {
  t_Type : Z;
  t_Flags : Z;
  t_Length : Z;
  t_Payload : bytes;
  t_Raw : bytes
}.

(** [raw[lo:lo+n]] read as a big-endian integer. *)
Definition be_at (lo n : Z) (raw : bytes) : res tns_error Z :=
  let! s := sl lo (lo + n) raw in Ok (be_get s).

Definition parseTNSHeader (raw : bytes) : res tns_error TNSPacket :=
  guard! tnsHeaderSize <=? zlen raw else ErrTNSHeaderTooShort in
  let! len := be_at 0 2 raw in
  let! typ := be_at 4 1 raw in
  let! flags := be_at 5 1 raw in
  Ok {| t_Type := typ; t_Flags := flags; t_Length := len; t_Payload := []; t_Raw := [] |}.

Definition encodeTNSPacket (typ : Z) (payload : bytes) : bytes :=
  let totalLen := tnsHeaderSize + zlen payload in
  be_put 2 (u16 totalLen) ++ [0; 0] ++ [u8 typ] ++ [0] ++ [0; 0] ++ payload.

Definition tns_io {A} (r : res io_error A) : res tns_error A :=
  match r with Ok a => Ok a | Err e => Err (TnsIO e) | Panic => Panic end.

Definition readExtendedConnectData (conn : bytes) (pkt : TNSPacket) : res tns_error (TNSPacket * bytes) :=
  if zlen (t_Payload pkt) <? 20 then Ok (pkt, conn)
  else
    let! connectDataOffset := be_at 18 2 (t_Payload pkt) in
    let payloadNeeded := connectDataOffset - tnsHeaderSize in
    if payloadNeeded <? zlen (t_Payload pkt) then Ok (pkt, conn)
    else
      let! ' (sizeBuf, conn) := tns_io (read_full 2 conn) in
      let extendedLen := be_get sizeBuf in
      guard! negb ((extendedLen <? 2) || (maxTNSPacketSize <? extendedLen)) else ErrTNSPacketTooLarge in
      let! ' (remaining, conn) := tns_io (read_full (extendedLen - 2) conn) in
      Ok ({| t_Type := t_Type pkt; t_Flags := t_Flags pkt; t_Length := t_Length pkt;
             t_Payload := t_Payload pkt ++ sizeBuf ++ remaining;
             t_Raw := t_Raw pkt ++ sizeBuf ++ remaining |}, conn).

Definition readTNSPacket (conn : bytes) : res tns_error (TNSPacket * bytes) :=
  let! ' (header, conn) := tns_io (read_full tnsHeaderSize conn) in
  let! pkt := parseTNSHeader header in
  let! packetLen := (if 0 <? t_Length pkt then Ok (t_Length pkt) else be_at 0 4 header) in
  if packetLen <? tnsHeaderSize then
    Ok ({| t_Type := t_Type pkt; t_Flags := t_Flags pkt; t_Length := t_Length pkt;
           t_Payload := []; t_Raw := header |}, conn)
  else
    guard! packetLen <=? maxTNSPacketSize else ErrTNSPacketTooLarge in
    let payloadLen := packetLen - tnsHeaderSize in
    let! ' (payload, conn) :=
      (if 0 <? payloadLen then tns_io (read_full payloadLen conn) else Ok ([], conn)) in
    let pkt := {| t_Type := t_Type pkt; t_Flags := t_Flags pkt; t_Length := t_Length pkt;
                  t_Payload := payload; t_Raw := header ++ payload |} in
    if t_Type pkt =? TNSPacketTypeConnect then readExtendedConnectData conn pkt else Ok (pkt, conn).

(** [ok] says whether [conn.Write] takes the bytes. *)
Definition writeTNSPacket (ok : bool) (conn : bytes) (pkt : TNSPacket) : res tns_error bytes :=
  let data := if 0 <? zlen (t_Raw pkt) then t_Raw pkt else encodeTNSPacket (t_Type pkt) (t_Payload pkt) in
  guard! ok else TnsWrite in
  Ok (conn ++ data).

Definition Encode (p : TNSPacket) : bytes := encodeTNSPacket (t_Type p) (t_Payload p).

(** ** Lemmas *)

Lemma be_at_mid lo n (p s q : bytes) : zlen p = lo -> zlen s = n -> be_at lo n (p ++ s ++ q) = Ok (be_get s).
Proof. intros. unfold be_at. rewrite sl_mid by (done || lia). done. Qed.

Lemma be_at_in lo n (l : bytes) : 0 <= lo -> 0 <= n -> lo + n <= zlen l ->
  exists p s q, be_at lo n l = Ok (be_get s) /\ l = p ++ s ++ q /\ zlen p = lo /\ zlen s = n.
Proof.
  intros H1 H2 H3. destruct (sl_in (E := tns_error) lo (lo + n) l ltac:(lia) ltac:(lia)) as (p & s & q & Es & El & Hp & Hs).
  exists p, s, q. unfold be_at. rewrite Es. split_and!; [done|done|done|lia].
Qed.

Lemma be_get_2 (s : bytes) : wf_bytes s -> zlen s = 2 -> 0 <= be_get s <= 65535.
Proof. intros Hwf Hs. pose proof (be_get_bound s Hwf) as H. rewrite Hs in H. lia. Qed.

Lemma be_get_app (a b : bytes) : be_get (a ++ b) = be_get a * 256 ^ zlen b + be_get b.
Proof.
  unfold be_get. rewrite rev_app_distr.
  assert (forall x y, le_get (x ++ y) = le_get x + 256 ^ zlen x * le_get y) as H.
  { induction x as [|v x IH]; intros y; cbn [le_get app]; [unfold zlen; cbn; lia|].
    rewrite IH, zlen_cons, Z.pow_add_r by (try apply zlen_nonneg; lia). lia. }
  rewrite H. unfold zlen. rewrite length_rev. lia.
Qed.

(** The parts of a header. *)
Lemma header_parts (h : bytes) : zlen h = 8 ->
  exists hi lo typ flags tl, h = hi ++ lo ++ [typ; flags] ++ tl /\ zlen hi = 2 /\ zlen lo = 2 /\ zlen tl = 2.
Proof.
  intros Hh. destruct (split_at 2 h ltac:(lia)) as (hi & t1 & -> & H1). rewrite zlen_app in Hh.
  destruct (split_at 2 t1 ltac:(lia)) as (lo & t2 & -> & H2). rewrite zlen_app in Hh.
  destruct t2 as [|typ [|flags tl]]; rewrite ?zlen_cons, ?zlen_nil in Hh; [lia|lia|].
  exists hi, lo, typ, flags, tl. split_and!; [done|done|done|lia].
Qed.

Lemma parseTNSHeader_parts hi lo typ flags tl :
  zlen hi = 2 -> zlen lo = 2 -> zlen tl = 2 ->
  parseTNSHeader (hi ++ lo ++ [typ; flags] ++ tl)
  = Ok {| t_Type := typ; t_Flags := flags; t_Length := be_get hi; t_Payload := []; t_Raw := [] |}.
Proof.
  intros H1 H2 H3. unfold parseTNSHeader, tnsHeaderSize.
  rewrite (proj2 (Z.leb_le 8 _)) by (rewrite !zlen_app, !zlen_cons, zlen_nil; lia).
  unfold be_at. rewrite sl_head by done. cbn [rbind].
  replace (hi ++ lo ++ [typ; flags] ++ tl) with ((hi ++ lo) ++ [typ] ++ [flags] ++ tl) by by rewrite <- !app_assoc.
  rewrite sl_mid by (done || rewrite zlen_app; lia). cbn [rbind].
  replace ((hi ++ lo) ++ [typ] ++ [flags] ++ tl) with ((hi ++ lo ++ [typ]) ++ [flags] ++ tl) by by rewrite <- !app_assoc.
  rewrite sl_mid by (done || rewrite !zlen_app, zlen_cons, zlen_nil; lia). cbn [rbind].
  unfold be_get. cbn. by rewrite !Z.add_0_r.
Qed.

(** The reader, on a stream cut after the header. *)
Definition packet_len (hi lo : bytes) : Z := if 0 <? be_get hi then be_get hi else be_get (hi ++ lo).

Definition after_header (hi lo : bytes) (typ flags : Z) (header conn : bytes) : res tns_error (TNSPacket * bytes) :=
  if packet_len hi lo <? 8 then
    Ok ({| t_Type := typ; t_Flags := flags; t_Length := be_get hi; t_Payload := []; t_Raw := header |}, conn)
  else
    guard! packet_len hi lo <=? maxTNSPacketSize else ErrTNSPacketTooLarge in
    let! ' (payload, conn) := tns_io (read_full (packet_len hi lo - 8) conn) in
    let pkt := {| t_Type := typ; t_Flags := flags; t_Length := be_get hi;
                  t_Payload := payload; t_Raw := header ++ payload |} in
    if typ =? TNSPacketTypeConnect then readExtendedConnectData conn pkt else Ok (pkt, conn).

Lemma readTNSPacket_parts hi lo typ flags tl conn :
  zlen hi = 2 -> zlen lo = 2 -> zlen tl = 2 ->
  readTNSPacket ((hi ++ lo ++ [typ; flags] ++ tl) ++ conn)
  = after_header hi lo typ flags (hi ++ lo ++ [typ; flags] ++ tl) conn.
Proof.
  intros H1 H2 H3. unfold readTNSPacket, tnsHeaderSize.
  rewrite read_full_app by (rewrite !zlen_app, !zlen_cons, zlen_nil; lia). cbn [tns_io rbind].
  rewrite parseTNSHeader_parts by done. cbn [rbind t_Length t_Type t_Flags].
  assert ((if 0 <? be_get hi then Ok (be_get hi) else be_at 0 4 (hi ++ lo ++ [typ; flags] ++ tl))
          = Ok (E := tns_error) (packet_len hi lo)) as ->.
  { unfold packet_len. destruct (0 <? be_get hi); [done|]. unfold be_at. rewrite (app_assoc hi lo), sl_head; [done|].
    rewrite zlen_app. lia. }
  cbn [rbind]. unfold after_header. destruct (packet_len hi lo <? 8) eqn:E8; [done|]. bools.
  destruct (_ <=? maxTNSPacketSize); [|done]. destruct (0 <? packet_len hi lo - 8) eqn:E0; [done|]. bools.
  replace (packet_len hi lo - 8) with 0 by lia.
  assert (read_full 0 conn = Ok ([], conn)) as -> by by apply (read_full_app 0 []). done.
Qed.

Lemma packet_len_bound hi lo : wf_bytes hi -> wf_bytes lo -> zlen hi = 2 -> zlen lo = 2 ->
  0 <= packet_len hi lo <= maxTNSPacketSize.
Proof.
  intros W1 W2 H1 H2. unfold packet_len, maxTNSPacketSize.
  pose proof (be_get_2 _ W1 H1). pose proof (be_get_2 _ W2 H2).
  destruct (0 <? be_get hi) eqn:E; bools; [lia|]. rewrite be_get_app. lia.
Qed.

(** What the reader returns is what it consumed. *)
Record faithful (stream : bytes) (pkt : TNSPacket) (rest : bytes) : Prop := {
  f_stream : stream = t_Raw pkt ++ rest;
  f_payload : t_Payload pkt = drop 8 (t_Raw pkt);
  f_size : 8 <= zlen (t_Raw pkt) <= (if t_Type pkt =? TNSPacketTypeConnect then 2 * maxTNSPacketSize else maxTNSPacketSize)
}.

Lemma readExtendedConnectData_spec stream conn pkt :
  faithful stream pkt conn -> t_Type pkt = TNSPacketTypeConnect -> zlen (t_Raw pkt) <= maxTNSPacketSize ->
  wf_bytes stream ->
  readExtendedConnectData conn pkt <> Panic
  /\ forall pkt' rest, readExtendedConnectData conn pkt = Ok (pkt', rest) ->
       faithful stream pkt' rest /\ t_Type pkt' = t_Type pkt.
Proof.
  intros [Hs Hp Hz] Ht Hmax Hwf. unfold readExtendedConnectData.
  destruct (zlen (t_Payload pkt) <? 20) eqn:E20; [split; [done|]; intros ? ? [= <- <-]; by split|]. bools.
  destruct (be_at_in 18 2 (t_Payload pkt) ltac:(lia) ltac:(lia) ltac:(lia)) as (? & off & ? & -> & _). cbn [rbind].
  destruct (_ <? zlen (t_Payload pkt)); [split; [done|]; intros ? ? [= <- <-]; by split|].
  destruct (read_full 2 conn) as [[sizeBuf c1]|e|] eqn:E1; [|done|by apply read_full_not_Panic in E1].
  cbn [tns_io rbind]. apply read_full_Ok in E1 as (_ & -> & Hsb).
  destruct (negb _) eqn:Ee; [|done]. bools.
  destruct (read_full (be_get sizeBuf - 2) c1) as [[rem c2]|e|] eqn:E2;
    [|done|apply read_full_not_Panic in E2; [done|lia]].
  cbn [tns_io rbind]. apply read_full_Ok in E2 as (_ & -> & Hrem). split; [done|]. intros pkt' rest [= <- <-].
  split; [|done]. split; cbn [t_Raw t_Payload t_Type].
  - rewrite Hs, <- !app_assoc. done.
  - rewrite Hp, drop_app_le; [done|]. unfold zlen in Hz. lia.
  - rewrite Ht, Z.eqb_refl in *. rewrite !zlen_app. lia.
Qed.

Lemma read_cases stream : wf_bytes stream ->
  readTNSPacket stream <> Panic
  /\ forall pkt rest, readTNSPacket stream = Ok (pkt, rest) -> faithful stream pkt rest.
Proof.
  intros Hwf. destruct (8 <=? zlen stream) eqn:E8; bools.
  2:{ unfold readTNSPacket, tnsHeaderSize, read_full. rewrite (proj2 (Z.leb_gt 8 _) E8).
      destruct (zlen stream =? 0); done. }
  destruct (split_at 8 stream ltac:(lia)) as (h & conn & -> & Hh).
  destruct (header_parts h Hh) as (hi & lo & typ & flags & tl & -> & H1 & H2 & H3).
  rewrite readTNSPacket_parts by done. pose proof Hwf as Hwf'. rewrite !wf_app in Hwf'.
  destruct Hwf' as ((W1 & W2 & _) & _). pose proof (packet_len_bound _ _ W1 W2 H1 H2) as Hb.
  unfold after_header. set (hdr := hi ++ lo ++ [typ; flags] ++ tl) in *.
  destruct (packet_len hi lo <? 8) eqn:Es; bools.
  { split; [done|]. intros pkt rest [= <- <-]. split; cbn [t_Raw t_Payload t_Type]; [done| |].
    - by rewrite drop_ge by (unfold zlen in Hh; lia).
    - unfold maxTNSPacketSize. case_match; lia. }
  destruct (_ <=? maxTNSPacketSize); [|done].
  destruct (read_full _ conn) as [[pl c]|e|] eqn:Er; [|done|apply read_full_not_Panic in Er; [done|lia]].
  cbn [tns_io rbind]. apply read_full_Ok in Er as (_ & -> & Hpl).
  assert (faithful (hdr ++ pl ++ c)
    {| t_Type := typ; t_Flags := flags; t_Length := be_get hi; t_Payload := pl; t_Raw := hdr ++ pl |} c) as Hf.
  { split; cbn [t_Raw t_Payload t_Type]; [by rewrite <- app_assoc| |].
    - by rewrite drop_app_length' by (unfold zlen in Hh; lia).
    - rewrite zlen_app. case_match; lia. }
  destruct (typ =? TNSPacketTypeConnect) eqn:Et; bools.
  - destruct (readExtendedConnectData_spec _ _ _ Hf Et) as [Hp Hok]; [cbn [t_Raw]; rewrite zlen_app; lia|done|].
    split; [done|]. intros pkt rest H. by apply Hok.
  - split; [done|]. by intros pkt rest [= <- <-].
Qed.

(** ** Properties *)

(** TNS packets are relayed verbatim: reading never panics, and a packet
    that is read carries exactly the bytes taken from the client, its payload is
    those bytes after the header, its size is bounded, and writing it puts the
    same bytes on the upstream connection. *)
Theorem tns_relayed_verbatim stream :
  wf_bytes stream ->
  readTNSPacket stream <> Panic
  /\ forall pkt rest, readTNSPacket stream = Ok (pkt, rest) ->
       stream = t_Raw pkt ++ rest
       /\ t_Payload pkt = drop 8 (t_Raw pkt)
       /\ 8 <= zlen (t_Raw pkt) <= 2 * maxTNSPacketSize
       /\ forall upstream, writeTNSPacket true upstream pkt = Ok (upstream ++ t_Raw pkt).
Proof.
  intros Hwf. destruct (read_cases stream Hwf) as [Hp Hok]. split; [done|]. intros pkt rest H.
  destruct (Hok _ _ H) as [Hs Hpl Hz]. split_and!; [done|done|lia| |].
  - unfold maxTNSPacketSize in *. destruct (_ =? _); lia.
  - intros up. unfold writeTNSPacket. by rewrite (proj2 (Z.ltb_lt 0 _)) by lia.
Qed.

Definition sample_packet : bytes := encodeTNSPacket TNSPacketTypeData [1; 2; 3].

Lemma tns_relayed_verbatim_witness :
  exists pkt, readTNSPacket (sample_packet ++ [9]) = Ok (pkt, [9]) /\ t_Payload pkt = [1; 2; 3]
    /\ writeTNSPacket true [] pkt = Ok sample_packet.
Proof.
  destruct (readTNSPacket (sample_packet ++ [9])) as [[pkt rest]|e|] eqn:E; [|vm_compute in E; discriminate..].
  destruct (proj2 (tns_relayed_verbatim (sample_packet ++ [9]) (wf_bytes_check (sample_packet ++ [9]) eq_refl)) pkt rest E)
    as (_ & _ & _ & Hw).
  exists pkt. rewrite (Hw []). vm_compute in E. injection E as <- <-. split_and!; reflexivity.
Defined.

(** A packet the proxy encodes itself is read back with its type and
    payload, as long as the payload fits a packet (at most 65527 bytes) and, for
    a Connect packet, its connect data lies inside it. *)
Theorem tns_encode_roundtrip typ payload rest :
  wf_bytes payload -> zlen payload <= 65527 -> 0 <= typ < 256 ->
  (typ = TNSPacketTypeConnect -> zlen payload < 20) ->
  readTNSPacket (encodeTNSPacket typ payload ++ rest)
  = Ok ({| t_Type := typ; t_Flags := 0; t_Length := 8 + zlen payload; t_Payload := payload;
           t_Raw := encodeTNSPacket typ payload |}, rest).
Proof.
  intros Hwf Hz Ht Hc. pose proof (zlen_nonneg payload) as H0.
  assert (encodeTNSPacket typ payload
          = (be_put 2 (8 + zlen payload) ++ [0; 0] ++ [typ; 0] ++ [0; 0]) ++ payload) as Henc.
  { unfold encodeTNSPacket, tnsHeaderSize, u8, u16. rewrite !Z.mod_small by lia. by rewrite <- !app_assoc. }
  assert (be_get (be_put 2 (8 + zlen payload)) = 8 + zlen payload) as Hlen
    by (rewrite be_get_put; apply Z.mod_small; cbn; lia).
  rewrite Henc, <- app_assoc, readTNSPacket_parts by done. unfold after_header, packet_len. rewrite Hlen.
  rewrite (proj2 (Z.ltb_lt 0 _)), (proj2 (Z.ltb_ge _ 8)) by lia.
  rewrite (proj2 (Z.leb_le _ maxTNSPacketSize)) by (unfold maxTNSPacketSize; lia).
  rewrite read_full_app by lia. cbn [tns_io rbind].
  destruct (typ =? TNSPacketTypeConnect) eqn:E; [|done]. bools.
  unfold readExtendedConnectData. cbn [t_Payload]. by rewrite (proj2 (Z.ltb_lt _ 20) (Hc E)).
Qed.

Lemma tns_encode_roundtrip_witness :
  exists pkt, readTNSPacket (encodeTNSPacket TNSPacketTypeRefuse [34; 0; 0; 1; 65] ++ [7]) = Ok (pkt, [7])
    /\ t_Type pkt = TNSPacketTypeRefuse.
Proof.
  eexists. split.
  - apply tns_encode_roundtrip; [apply (wf_bytes_check [34; 0; 0; 1; 65]); reflexivity|vm_compute; discriminate| |discriminate].
    split; [discriminate|reflexivity].
  - reflexivity.
Defined.

(** The size check on packets can never fire: a packet of the 32-bit
    format whose length is 65536 or more is not refused.  The high half of its
    length is taken for a 16-bit length, so the reader stops after that many
    bytes (at least the header) and the rest of the packet is left in the stream
    to be read as further packets. *)
Theorem tns_large_packet_split len typ flags tl data rest :
  65536 <= len < 2 ^ 32 -> typ <> TNSPacketTypeConnect -> zlen tl = 2 -> zlen data = len - 8 ->
  exists pkt left, readTNSPacket ((be_put 4 len ++ [typ; flags] ++ tl) ++ data ++ rest) = Ok (pkt, left ++ rest)
    /\ left <> [] /\ zlen (t_Raw pkt) = Z.max 8 (len / 65536) /\ zlen (t_Raw pkt) < len.
Proof.
  intros Hl Ht Htl Hd. pose proof (Z.div_le_lower_bound len 65536 1 ltac:(lia) ltac:(lia)) as Hq1.
  pose proof (Z.div_lt_upper_bound len 65536 65536 ltac:(lia) ltac:(lia)) as Hq2.
  pose proof (Z.mul_div_le len 65536 ltac:(lia)) as Hq3. set (n := len / 65536) in *.
  assert (be_put 4 len = be_put 2 n ++ be_put 2 len) as ->.
  { unfold be_put. cbn [le_put rev app]. unfold n. rewrite !Z.div_div by lia. done. }
  rewrite <- (app_assoc (be_put 2 n)), readTNSPacket_parts by done. unfold after_header, packet_len.
  assert (be_get (be_put 2 n) = n) as -> by (rewrite be_get_put; apply Z.mod_small; cbn; lia).
  rewrite (proj2 (Z.ltb_lt 0 n)) by lia. destruct (n <? 8) eqn:E8; bools.
  - eexists _, data. split; [reflexivity|]. cbn [t_Raw]. rewrite !zlen_app, !zlen_be_put, !zlen_cons, zlen_nil.
    split_and!; [intros ->; unfold zlen in Hd; cbn in Hd; lia|lia|lia].
  - rewrite (proj2 (Z.leb_le n maxTNSPacketSize)) by (unfold maxTNSPacketSize; lia).
    destruct (split_at (n - 8) data ltac:(lia)) as (pl & left & -> & Hpl). rewrite zlen_app in Hd.
    rewrite <- app_assoc, read_full_app by done. cbn [tns_io rbind]. rewrite (proj2 (Z.eqb_neq _ _) Ht).
    eexists _, left. split; [reflexivity|]. cbn [t_Raw]. rewrite !zlen_app, !zlen_be_put, !zlen_cons, zlen_nil.
    split_and!; [intros ->; unfold zlen in Hd at 2; cbn in Hd; lia|lia|lia].
Qed.

Lemma tns_large_packet_split_witness :
  exists pkt left, readTNSPacket ((be_put 4 65536 ++ [TNSPacketTypeData; 0; 0; 0]) ++ repeat 7 (Z.to_nat 65528) ++ [1])
      = Ok (pkt, left ++ [1]) /\ zlen (t_Raw pkt) = 8.
Proof.
  destruct (tns_large_packet_split 65536 TNSPacketTypeData 0 [0; 0] (repeat 7 (Z.to_nat 65528)) [1]) as (pkt & left & E & _ & Hz & _).
  - lia.
  - discriminate.
  - reflexivity.
  - unfold zlen. rewrite repeat_length, Z2Nat.id by lia. reflexivity.
  - exists pkt, left. split; [exact E|rewrite Hz; reflexivity].
Defined.
