(* ===== verification/Dump.v ===== *)
(** * Session dumps ([internal/dump])

    A dump file is its bytes: a 16-byte magic, a version, a JSON header with its
    length, then packets (8-byte timestamp, direction, length, data) and an end
    marker.  A file write either takes everything or stops after some bytes with
    an error: [io i] describes the i-th write of an operation.  Timestamps are
    what [time.Since] returned, in nanoseconds.  JSON encoding of the header is
    the class [HeaderCodec]; its law is the one JSON gives: the two text fields
    survive a round trip. *)

From Stdlib Require Import ZArith Lia List Bool String Ascii.
From stdpp Require Import base list.
From S2P Require Import Prelude Models.

Open Scope Z_scope.
Open Scope list_scope.

(** "DBBAT_DUMP" followed by six NUL bytes. *)
Definition magic : bytes := [68; 66; 66; 65; 84; 95; 68; 85; 77; 80; 0; 0; 0; 0; 0; 0].
Definition magicSize : Z := 16.
Definition minMagic : Z := 10.
Definition version : Z := 2.
Definition versionLen : Z := 2.
Definition headerLenLen : Z := 4.
Definition FileExt : string := ".dbbat-dump".
Definition eofMarker : Z := 255.
Definition DirClientToServer : Z := 0.
Definition DirServerToClient : Z := 1.
Definition packetFrameSize : Z := 13.

Inductive dump_error :=
| DumpIO (e : io_error)
| DumpWrite
| DumpMarshal
| ErrInvalidMagic
| ErrUnsupportedVersion
| DumpUnmarshal.

Record Packet := { p_RelativeNs : Z; p_Direction : Z; p_Data : bytes }.

(** [Connection map[string]any] is opaque: [None] is the empty map. *)
Record Header := {
  h_SessionID : string;
  h_Protocol : string;
  h_StartTime : time;
  h_Connection : option bytes
}.

Class HeaderCodec := {
  marshal_header : Header -> bytes;
  unmarshal_header : bytes -> option Header;
  header_roundtrip : forall h, exists h', unmarshal_header (marshal_header h) = Some h'
    /\ h_SessionID h' = h_SessionID h /\ h_Protocol h' = h_Protocol h
}.

(** ** Writer *)

Record Writer := {
  w_file : bytes;
  w_startTime : time;
  w_maxSize : Z;
  w_written : Z
}.

Definition set_file (w : Writer) (f : bytes) : Writer :=
  {| w_file := f; w_startTime := w_startTime w; w_maxSize := w_maxSize w; w_written := w_written w |}.

(** [w.file.Write(b)]: [None] takes all of [b], [Some n] fails after [n] bytes. *)
Definition file_write (o : option nat) (w : Writer) (b : bytes) : Writer * bool :=
  match o with
  | None => (set_file w (w_file w ++ b), true)
  | Some n => (set_file w (w_file w ++ take n b), false)
  end.

Definition packet_frame (relNs : bytes) (direction len : Z) : bytes :=
  relNs ++ [direction] ++ be_put 4 (u32 len).

Section WithCodec.
Context {HC : HeaderCodec}.

Definition writeHeader (io : nat -> option nat) (w : Writer) (header : Header) : res dump_error Writer :=
  let '(w, ok) := file_write (io 0%nat) w magic in
  guard! ok else DumpWrite in
  let '(w, ok) := file_write (io 1%nat) w (be_put 2 (u16 version)) in
  guard! ok else DumpWrite in
  let jsonData := marshal_header header in
  let '(w, ok) := file_write (io 2%nat) w (be_put 4 (u32 (zlen jsonData))) in
  guard! ok else DumpWrite in
  let '(w, ok) := file_write (io 3%nat) w jsonData in
  guard! ok else DumpWrite in
  Ok {| w_file := w_file w; w_startTime := w_startTime w; w_maxSize := w_maxSize w; w_written := zlen (w_file w) |}.

(** On an error the new file is removed again. *)
Definition NewWriter (io : nat -> option nat) (header : Header) (maxSize : Z) : res dump_error Writer :=
  writeHeader io {| w_file := []; w_startTime := h_StartTime header; w_maxSize := maxSize; w_written := 0 |} header.

(** The two writes of a packet, shared by the two ways to write one. *)
Definition write_frame (io : nat -> option nat) (w : Writer) (frame data : bytes) (frameTotal : Z) :
    Writer * res dump_error unit :=
  let '(w, ok) := file_write (io 0%nat) w frame in
  if negb ok then (w, Err DumpWrite)
  else
    let '(w, ok) := file_write (io 1%nat) w data in
    if negb ok then (w, Err DumpWrite)
    else ({| w_file := w_file w; w_startTime := w_startTime w; w_maxSize := w_maxSize w;
             w_written := w_written w + frameTotal |}, Ok tt).

Definition WritePacket (io : nat -> option nat) (w : Writer) (direction : Z) (data : bytes) (now : time) :
    Writer * res dump_error unit :=
  let frameTotal := packetFrameSize + zlen data in
  if (0 <? w_maxSize w) && (w_maxSize w <? w_written w + frameTotal) then (w, Ok tt)
  else
    let relNs := now - w_startTime w in
    write_frame io w (packet_frame (be_put 8 (u64 relNs)) direction (zlen data)) data frameTotal.

Definition writePacketRaw (io : nat -> option nat) (w : Writer) (relativeNsBuf : bytes) (direction : Z) (data : bytes) :
    Writer * res dump_error unit :=
  write_frame io w (packet_frame relativeNsBuf direction (zlen data)) data (packetFrameSize + zlen data).

(** The error of the last write is dropped. *)
Definition Close (io : nat -> option nat) (w : Writer) (now : time) : Writer :=
  (file_write (io 0%nat) w (packet_frame (be_put 8 (u64 (now - w_startTime w))) eofMarker 0)).1.

(** ** Reader *)

Record Reader := { r_file : bytes; r_header : Header }.

Definition dump_io {A} (r : res io_error A) : res dump_error A :=
  match r with Ok a => Ok a | Err e => Err (DumpIO e) | Panic => Panic end.

Definition readHeader (file : bytes) : res dump_error Reader :=
  let! ' (magicBuf, file) := dump_io (read_full magicSize file) in
  let! prefix := sl 0 minMagic magicBuf in
  guard! bool_decide (prefix = take (Z.to_nat minMagic) magic) else ErrInvalidMagic in
  let! ' (vBuf, file) := dump_io (read_full versionLen file) in
  guard! be_get vBuf =? version else ErrUnsupportedVersion in
  let! ' (hLenBuf, file) := dump_io (read_full headerLenLen file) in
  let! ' (jsonBuf, file) := dump_io (read_full (be_get hLenBuf) file) in
  match unmarshal_header jsonBuf with
  | None => Err DumpUnmarshal
  | Some h => Ok {| r_file := file; r_header := h |}
  end.

Definition OpenReader (file : bytes) : res dump_error Reader := readHeader file.

Definition ReadPacket (r : Reader) : res dump_error (Packet * Reader) :=
  let! ' (frameBuf, file) := dump_io (read_full packetFrameSize (r_file r)) in
  let! ns := sl 0 8 frameBuf in
  let! dir := sl 8 9 frameBuf in
  let! len := sl 9 13 frameBuf in
  let direction := be_get dir in
  if direction =? eofMarker then Err (DumpIO EOF)
  else
    let! ' (data, file) := dump_io (read_full (be_get len) file) in
    Ok ({| p_RelativeNs := i64 (be_get ns); p_Direction := direction; p_Data := data |},
        {| r_file := file; r_header := r_header r |}).

(** A client reading to the end. *)
Fixpoint read_all (fuel : nat) (r : Reader) : res dump_error (list Packet) :=
  match fuel with
  | O => Panic
  | S fuel =>
      match ReadPacket r with
      | Err (DumpIO EOF) => Ok []
      | Err e => Err e
      | Panic => Panic
      | Ok (p, r) => let! ps := read_all fuel r in Ok (p :: ps)
      end
  end.

(** ** Anonymise *)

(** The copying loop; [io i] are the writes of the i-th packet. *)
Fixpoint anonymise_loop (fuel : nat) (io : nat -> nat -> option nat) (i : nat) (r : Reader) (w : Writer) :
    Writer * res dump_error unit :=
  match fuel with
  | O => (w, Panic)
  | S fuel =>
      match ReadPacket r with
      | Err (DumpIO EOF) => (w, Ok tt)
      | Err e => (w, Err e)
      | Panic => (w, Panic)
      | Ok (pkt, r) =>
          match writePacketRaw (io i) w (be_put 8 (u64 (p_RelativeNs pkt))) (p_Direction pkt) (p_Data pkt) with
          | (w, Ok _) => anonymise_loop fuel io (S i) r w
          | (w, Err e) => (w, Err e)
          | (w, Panic) => (w, Panic)
          end
      end
  end.

Definition Anonymise (io_h : nat -> option nat) (io : nat -> nat -> option nat) (io_c : nat -> option nat)
    (input : bytes) (now : time) : res dump_error (bytes * res dump_error unit) :=
  let! reader := OpenReader input in
  let header := r_header reader in
  let! writer := NewWriter io_h {| h_SessionID := h_SessionID header; h_Protocol := h_Protocol header;
                                   h_StartTime := 0; h_Connection := None |} 0 in
  let '(w, r) := anonymise_loop (S (length input)) io 0 reader writer in
  Ok (w_file (Close io_c w now), r).
End WithCodec.

(** ** TapConn and clean-up *)

Record TapConn := { t_writer : Writer; t_readDir : Z; t_writeDir : Z }.

Definition with_writer (t : TapConn) (w : Writer) : TapConn :=
  {| t_writer := w; t_readDir := t_readDir t; t_writeDir := t_writeDir t |}.

(** [n] bytes of [b] went through the underlying connection. *)
Definition tap (io : nat -> option nat) (t : TapConn) (dir : Z) (b : bytes) (n : Z) (now : time) : TapConn :=
  if 0 <? n then with_writer t (WritePacket io (t_writer t) dir (take (Z.to_nat n) b) now).1 else t.

Definition TapConn_Read io (t : TapConn) b n now := tap io t (t_readDir t) b n now.
Definition TapConn_Write io (t : TapConn) b n now := tap io t (t_writeDir t) b n now.

(** [filepath.Ext] of a name without separators: from the last dot on. *)
Fixpoint last_dot (name : string) : option string :=
  match name with
  | EmptyString => None
  | String c r =>
      match last_dot r with
      | Some e => Some e
      | None => if Ascii.eqb c "."%char then Some name else None
      end
  end.
Definition Ext (name : string) : string := match last_dot name with Some e => e | None => EmptyString end.

Record dir_entry := {
  de_name : string;
  de_IsDir : bool;
  de_ModTime : option time;          (* None: e.Info fails *)
  de_removable : bool                (* os.Remove succeeds *)
}.

Definition expired_dump (cutoff : time) (e : dir_entry) : bool :=
  negb (de_IsDir e || negb (String.eqb (Ext (de_name e)) FileExt))
  && match de_ModTime e with Some t => Before t cutoff | None => false end.

(** The entries left, and the number deleted. *)
Fixpoint CleanupOldFiles (entries : list dir_entry) (cutoff : time) : list dir_entry * Z :=
  match entries with
  | [] => ([], 0)
  | e :: es =>
      let '(kept, deleted) := CleanupOldFiles es cutoff in
      if expired_dump cutoff e && de_removable e then (kept, deleted + 1) else (e :: kept, deleted)
  end.

(** ** The file format *)

Definition packet_bytes (p : Packet) : bytes :=
  packet_frame (be_put 8 (u64 (p_RelativeNs p))) (p_Direction p) (zlen (p_Data p)) ++ p_Data p.

Definition end_bytes (relNs : Z) : bytes := packet_frame (be_put 8 (u64 relNs)) eofMarker 0.

Record packet_ok (p : Packet) : Prop := {
  po_ns : - 2 ^ 63 <= p_RelativeNs p < 2 ^ 63;
  po_dir : 0 <= p_Direction p < 255;
  po_len : zlen (p_Data p) < 2 ^ 32
}.

Definition all_written : nat -> option nat := fun _ => None.

Lemma be_get_single d : be_get [d] = d.
Proof. unfold be_get. cbn. lia. Qed.

Lemma be_put_get_id n v : 0 <= v < 256 ^ Z.of_nat n -> be_get (be_put n v) = v.
Proof. intros. rewrite be_get_put. by apply Z.mod_small. Qed.

Lemma u32_be v : 0 <= v < 2 ^ 32 -> be_get (be_put 4 (u32 v)) = v.
Proof. intros. unfold u32. rewrite Z.mod_small by lia. by apply be_put_get_id. Qed.

Lemma i64_u64 v : - 2 ^ 63 <= v < 2 ^ 63 -> i64 (be_get (be_put 8 (u64 v))) = v.
Proof.
  intros Hv. rewrite be_put_get_id by (apply Z.mod_pos_bound; lia). unfold i64, u64.
  rewrite sint_mod by lia. apply sint_small; lia.
Qed.

Section Format.
Context {HC : HeaderCodec}.

Definition header_file (h : Header) : bytes :=
  magic ++ be_put 2 (u16 version) ++ be_put 4 (u32 (zlen (marshal_header h))) ++ marshal_header h.

Definition dump_bytes (h : Header) (ps : list Packet) (relNs : Z) : bytes :=
  header_file h ++ concat (map packet_bytes ps) ++ end_bytes relNs.

(** The frame of a packet, read part by part. *)
Lemma ReadPacket_frame ns dir len rest h :
  zlen ns = 8 -> zlen len = 4 ->
  ReadPacket {| r_file := (ns ++ [dir] ++ len) ++ rest; r_header := h |}
  = if dir =? eofMarker then Err (DumpIO EOF)
    else let! ' (data, file) := dump_io (read_full (be_get len) rest) in
         Ok ({| p_RelativeNs := i64 (be_get ns); p_Direction := dir; p_Data := data |},
             {| r_file := file; r_header := h |}).
Proof.
  intros Hn Hl. unfold ReadPacket, packetFrameSize. cbn [r_file r_header].
  rewrite read_full_app by (rewrite !zlen_app, zlen_cons, zlen_nil; lia). cbn [dump_io rbind].
  rewrite sl_head by done. cbn [rbind]. rewrite sl_mid by done. cbn [rbind].
  rewrite (app_assoc ns [dir]), sl_tail by (rewrite !zlen_app, ?zlen_cons, ?zlen_nil; lia). cbn [rbind].
  by rewrite be_get_single.
Qed.

Lemma ReadPacket_packet p rest h : packet_ok p ->
  ReadPacket {| r_file := packet_bytes p ++ rest; r_header := h |} = Ok (p, {| r_file := rest; r_header := h |}).
Proof.
  intros [Hn Hd Hl]. unfold packet_bytes, packet_frame. rewrite <- app_assoc, ReadPacket_frame by done.
  rewrite (proj2 (Z.eqb_neq _ _)) by (unfold eofMarker; lia).
  pose proof (zlen_nonneg (p_Data p)).
  rewrite u32_be by lia.
  rewrite read_full_app by done. cbn [dump_io rbind]. rewrite i64_u64 by done. by destruct p.
Qed.

Lemma ReadPacket_end relNs rest h :
  ReadPacket {| r_file := end_bytes relNs ++ rest; r_header := h |} = Err (DumpIO EOF).
Proof. unfold end_bytes, packet_frame. by rewrite ReadPacket_frame. Qed.

Lemma read_all_packets ps : forall fuel relNs rest h, Forall packet_ok ps -> (length ps < fuel)%nat ->
  read_all fuel {| r_file := concat (map packet_bytes ps) ++ end_bytes relNs ++ rest; r_header := h |} = Ok ps.
Proof.
  induction ps as [|p ps IH]; intros fuel relNs rest h Hok Hf; (destruct fuel as [|fuel]; [cbn in Hf; lia|]);
    cbn [map concat app read_all].
  - by rewrite ReadPacket_end.
  - apply Forall_cons in Hok as [Hp Hps]. rewrite <- app_assoc, ReadPacket_packet by done.
    rewrite IH by (done || cbn in Hf; lia). done.
Qed.

Lemma OpenReader_header h rest : zlen (marshal_header h) < 2 ^ 32 ->
  exists h', OpenReader (header_file h ++ rest) = Ok {| r_file := rest; r_header := h' |}
  /\ h_SessionID h' = h_SessionID h /\ h_Protocol h' = h_Protocol h.
Proof.
  intros Hsize. destruct (header_roundtrip h) as (h' & Hu & H1 & H2). exists h'. split; [|done].
  unfold OpenReader, readHeader, header_file. rewrite <- !app_assoc.
  rewrite read_full_app by done. cbn [dump_io rbind]. change (sl 0 minMagic magic) with (Ok (E := dump_error) (take 10 magic)). cbn [rbind].
  rewrite bool_decide_eq_true_2 by done.
  rewrite read_full_app by done. cbn [dump_io rbind].
  change (be_get (be_put 2 (u16 version)) =? version) with true. rewrite (read_full_app headerLenLen) by done. cbn [dump_io rbind].
  pose proof (zlen_nonneg (marshal_header h)).
  rewrite u32_be by lia.
  rewrite read_full_app by done. cbn [dump_io rbind]. by rewrite Hu.
Qed.

(** Reading gives well-formed packets whatever the file holds. *)
Lemma ReadPacket_ok r p r' : wf_bytes (r_file r) -> ReadPacket r = Ok (p, r') ->
  packet_ok p /\ wf_bytes (r_file r') /\ (length (r_file r') < length (r_file r))%nat.
Proof.
  destruct r as [file h]. cbn [r_file]. intros Hwf H.
  destruct (13 <=? zlen file) eqn:E13; bools.
  2:{ unfold ReadPacket, packetFrameSize, read_full in H. cbn [r_file] in H.
      rewrite (proj2 (Z.leb_gt 13 _) E13) in H. cbn in H. by destruct (zlen file =? 0). }
  destruct (split_at 8 file ltac:(lia)) as (ns & t1 & -> & Hn). rewrite zlen_app in E13.
  destruct t1 as [|dir t1]; [rewrite zlen_nil in E13; lia|]. rewrite zlen_cons in E13.
  destruct (split_at 4 t1 ltac:(lia)) as (len & rest & -> & Hl).
  replace (ns ++ dir :: len ++ rest) with ((ns ++ [dir] ++ len) ++ rest) in * by by rewrite <- !app_assoc.
  rewrite ReadPacket_frame in H by done. destruct (dir =? eofMarker) eqn:Ed; [done|]. bools.
  rewrite !wf_app in Hwf. destruct Hwf as ((Wn & Wd & Wl) & Wr). apply Forall_inv in Wd.
  pose proof (be_get_bound len Wl) as Hlen. rewrite Hl in Hlen.
  destruct (read_full _ rest) as [[data f]|e|] eqn:Er; [|done..]. cbn [dump_io rbind] in H. injection H as <- <-.
  apply read_full_Ok in Er as (_ & -> & Hdata). apply wf_app in Wr as [_ Wr]. cbn [r_file].
  rewrite !length_app. cbn [length]. split_and!; [|done|lia]. split; cbn [p_RelativeNs p_Direction p_Data].
  - pose proof (sint_bound 64 (be_get ns) ltac:(lia)). unfold i64. lia.
  - unfold is_byte, eofMarker in *. lia.
  - rewrite Hdata. lia.
Qed.
End Format.

Section Writing.
Context {HC : HeaderCodec}.

Lemma NewWriter_ok h maxSize :
  NewWriter all_written h maxSize
  = Ok {| w_file := header_file h; w_startTime := h_StartTime h; w_maxSize := maxSize;
          w_written := zlen (header_file h) |}.
Proof. unfold NewWriter, writeHeader, header_file. cbn -[magic be_put zlen]. by rewrite <- !app_assoc. Qed.

(** A packet as the recorder is asked to write it: direction, data, clock. *)
Definition record_op : Type := Z * bytes * time.
Definition op_packet (start : time) (o : record_op) : Packet :=
  {| p_RelativeNs := o.2 - start; p_Direction := o.1.1; p_Data := o.1.2 |}.

Fixpoint record_all (w : Writer) (ops : list record_op) : Writer :=
  match ops with
  | [] => w
  | (dir, data, now) :: ops => record_all (WritePacket all_written w dir data now).1 ops
  end.

(** The writer's bookkeeping matches its file. *)
Definition writer_ok (w : Writer) : Prop := w_written w = zlen (w_file w).

Lemma zlen_packet p : zlen (packet_bytes p) = packetFrameSize + zlen (p_Data p).
Proof.
  unfold packet_bytes, packet_frame, packetFrameSize.
  rewrite !zlen_app, !zlen_be_put, zlen_cons, zlen_nil. lia.
Qed.

Lemma write_frame_ok w frame data n :
  write_frame all_written w frame data n
  = ({| w_file := w_file w ++ frame ++ data; w_startTime := w_startTime w; w_maxSize := w_maxSize w;
        w_written := w_written w + n |}, Ok tt).
Proof. unfold write_frame. cbn. by rewrite <- app_assoc. Qed.

Lemma record_all_spec ops : forall w, writer_ok w ->
  exists ps, w_file (record_all w ops) = w_file w ++ concat (map packet_bytes ps)
    /\ sublist ps (map (op_packet (w_startTime w)) ops)
    /\ (w_maxSize w <= 0 -> ps = map (op_packet (w_startTime w)) ops)
    /\ (0 < w_maxSize w -> zlen (w_file (record_all w ops)) <= Z.max (w_maxSize w) (zlen (w_file w)))
    /\ w_startTime (record_all w ops) = w_startTime w.
Proof.
  induction ops as [|[[dir data] now] ops IH]; intros w Hw; cbn [record_all].
  { exists []. cbn. rewrite app_nil_r. split_and!; try done. lia. }
  unfold WritePacket. destruct (_ && _) eqn:Eskip; cbn [fst].
  - bools. destruct (IH w Hw) as (ps & Hf & Hsub & Hall & Hsz & Hst). exists ps. split_and!; try done; [|lia].
    cbn [map]. by constructor.
  - rewrite write_frame_ok. cbn [fst].
    set (w1 := {| w_file := _; w_startTime := _; w_maxSize := _; w_written := _ |}).
    pose proof (zlen_packet (op_packet (w_startTime w) (dir, data, now))) as Hzp.
    assert (w_file w1 = w_file w ++ packet_bytes (op_packet (w_startTime w) (dir, data, now))) as Hf1 by done.
    assert (writer_ok w1) as Hw1.
    { unfold writer_ok in *. rewrite Hf1, zlen_app, Hzp. cbn. lia. }
    destruct (IH w1 Hw1) as (ps & Hf & Hsub & Hall & Hsz & Hst).
    exists (op_packet (w_startTime w) (dir, data, now) :: ps). cbn [w_startTime w_maxSize w1 map] in *.
    split_and!.
    + rewrite Hf, Hf1. cbn [concat map]. by rewrite <- app_assoc.
    + by constructor.
    + intros Hm. f_equal. auto.
    + intros Hm. specialize (Hsz Hm). rewrite Hf1, zlen_app, Hzp in Hsz. cbn [p_Data op_packet fst snd] in Hsz.
      unfold writer_ok in Hw. apply andb_false_iff in Eskip. destruct Eskip; bools; lia.
    + done.
Qed.

Lemma Close_file w now : w_file (Close all_written w now) = w_file w ++ end_bytes (now - w_startTime w).
Proof. done. Qed.

Lemma sublist_Forall {A} (P : A -> Prop) (l1 l2 : list A) : sublist l1 l2 -> Forall P l2 -> Forall P l1.
Proof.
  induction 1 as [|x l1 l2 _ IH|x l1 l2 _ IH]; intros Hf; [done| |]; apply Forall_cons in Hf as [? ?]; auto.
Qed.

(** ** Properties *)

(** C40. A recorded session reads back: after any sequence of packets, the
    closed file opens with the session's identity, and reading it to the end
    gives packets in the order they were recorded, each with its time, direction
    and bytes.  Without a size limit none is missing; with one, a packet is
    either there whole or left out, and the file never exceeds the limit (or its
    header) by more than the end marker. *)
Theorem dump_roundtrip h maxSize ops now :
  zlen (marshal_header h) < 2 ^ 32 ->
  Forall (fun o => packet_ok (op_packet (h_StartTime h) o)) ops ->
  exists w r ps, NewWriter all_written h maxSize = Ok w
    /\ OpenReader (w_file (Close all_written (record_all w ops) now)) = Ok r
    /\ h_SessionID (r_header r) = h_SessionID h /\ h_Protocol (r_header r) = h_Protocol h
    /\ read_all (S (length ops)) r = Ok ps
    /\ sublist ps (map (op_packet (h_StartTime h)) ops)
    /\ (maxSize <= 0 -> ps = map (op_packet (h_StartTime h)) ops)
    /\ (0 < maxSize -> zlen (w_file (Close all_written (record_all w ops) now))
                       <= Z.max maxSize (zlen (header_file h)) + packetFrameSize).
Proof.
  intros Hsize Hops. rewrite NewWriter_ok. eexists _.
  set (w := {| w_file := header_file h; w_startTime := h_StartTime h; w_maxSize := maxSize;
               w_written := zlen (header_file h) |}).
  destruct (record_all_spec ops w) as (ps & Hf & Hsub & Hall & Hsz & Hst); [done|].
  cbn [w w_file w_startTime w_maxSize] in *. rewrite Close_file, Hf, <- app_assoc.
  destruct (OpenReader_header h (concat (map packet_bytes ps) ++ end_bytes (now - w_startTime (record_all w ops))) Hsize)
    as (h' & Ho & H1 & H2).
  eexists _, ps. split; [reflexivity|]. split; [exact Ho|]. cbn [r_header].
  assert (Forall packet_ok (map (op_packet (h_StartTime h)) ops)) as Hpk by by apply Forall_map.
  pose proof (sublist_length _ _ Hsub) as Hlen. rewrite length_map in Hlen.
  split_and!; try done.
  - rewrite <- (app_nil_r (end_bytes _)). apply read_all_packets; [by eapply sublist_Forall|lia].
  - intros Hm. specialize (Hsz Hm). rewrite Hf in Hsz. rewrite app_assoc, zlen_app.
    change (zlen (end_bytes _)) with 13. unfold packetFrameSize. lia.
Qed.
End Writing.

Section Anonymising.
Context {HC : HeaderCodec}.

Lemma ReadPacket_not_Panic r : wf_bytes (r_file r) -> ReadPacket r <> Panic.
Proof.
  destruct r as [file h]. cbn [r_file]. intros Hwf.
  destruct (13 <=? zlen file) eqn:E13; bools.
  2:{ unfold ReadPacket, packetFrameSize, read_full. cbn [r_file].
      rewrite (proj2 (Z.leb_gt 13 _) E13). cbn. by destruct (zlen file =? 0). }
  destruct (split_at 8 file ltac:(lia)) as (ns & t1 & -> & Hn). rewrite zlen_app in E13.
  destruct t1 as [|dir t1]; [rewrite zlen_nil in E13; lia|]. rewrite zlen_cons in E13.
  destruct (split_at 4 t1 ltac:(lia)) as (len & rest & -> & Hl).
  replace (ns ++ dir :: len ++ rest) with ((ns ++ [dir] ++ len) ++ rest) in * by by rewrite <- !app_assoc.
  rewrite ReadPacket_frame by done. destruct (dir =? eofMarker); [done|].
  rewrite !wf_app in Hwf. destruct Hwf as ((_ & _ & Wl) & _). pose proof (be_get_bound len Wl).
  destruct (read_full _ rest) as [[data f]|e|] eqn:Er; [done|done|]. apply read_full_not_Panic in Er; [done|lia].
Qed.

Lemma OpenReader_suffix input r : OpenReader input = Ok r -> exists p, input = p ++ r_file r.
Proof.
  unfold OpenReader, readHeader. intros H.
  destruct (read_full magicSize input) as [[m f1]|e|] eqn:E1; [|done..]. cbn [dump_io rbind] in H.
  apply read_full_Ok in E1 as (_ & -> & _). apply rbind_Ok in H as (pre & _ & H).
  destruct (bool_decide _); [|done].
  destruct (read_full versionLen f1) as [[v f2]|e|] eqn:E2; [|done..]. cbn [dump_io rbind] in H.
  apply read_full_Ok in E2 as (_ & -> & _). destruct (_ =? version); [|done].
  destruct (read_full headerLenLen f2) as [[l f3]|e|] eqn:E3; [|done..]. cbn [dump_io rbind] in H.
  apply read_full_Ok in E3 as (_ & -> & _).
  destruct (read_full (be_get l) f3) as [[j f4]|e|] eqn:E4; [|done..]. cbn [dump_io rbind] in H.
  apply read_full_Ok in E4 as (_ & -> & _). destruct (unmarshal_header j); [|done]. injection H as <-.
  cbn [r_file]. exists (m ++ v ++ l ++ j). by rewrite <- !app_assoc.
Qed.

(** The copying loop writes what the reader gives. *)
Lemma anonymise_loop_spec fuel : forall i r w ps, wf_bytes (r_file r) -> (length (r_file r) < fuel)%nat ->
  read_all fuel r = Ok ps ->
  exists w', anonymise_loop fuel (fun _ => all_written) i r w = (w', Ok tt)
    /\ w_file w' = w_file w ++ concat (map packet_bytes ps) /\ w_startTime w' = w_startTime w
    /\ Forall packet_ok ps.
Proof.
  induction fuel as [|fuel IH]; intros i r w ps Hwf Hf; [lia|]. cbn [read_all anonymise_loop].
  destruct (ReadPacket r) as [[p r']|e|] eqn:E; [| |done].
  - destruct (ReadPacket_ok _ _ _ Hwf E) as (Hp & Hwf' & Hlt). intros H. apply rbind_Ok in H as (ps' & Hps & [= <-]).
    unfold writePacketRaw. rewrite write_frame_ok.
    destruct (IH (S i) r' {| w_file := w_file w ++ packet_frame (be_put 8 (u64 (p_RelativeNs p))) (p_Direction p)
        (zlen (p_Data p)) ++ p_Data p; w_startTime := w_startTime w; w_maxSize := w_maxSize w;
        w_written := w_written w + (packetFrameSize + zlen (p_Data p)) |} ps' Hwf' ltac:(lia) Hps)
      as (w' & Hrun & Hfile & Hst & Hok).
    exists w'. split; [exact Hrun|]. cbn [w_file w_startTime] in *. split_and!; [|done|by constructor].
    rewrite Hfile. cbn [map concat]. by rewrite <- app_assoc.
  - destruct e as [[]| | | | |]; try done. intros [= <-]. exists w. cbn. by rewrite app_nil_r.
Qed.

(** Anonymising keeps the traffic and drops everything else: for any dump
    that reads to its end, the copy is determined by the session id, the
    protocol and the packets alone - no start time, no connection metadata -
    and reading it gives the same packets, byte for byte, under the same session
    id and protocol. *)
Theorem anonymise_preserves_packets input r ps now :
  wf_bytes input -> OpenReader input = Ok r -> read_all (S (length input)) r = Ok ps ->
  let h := {| h_SessionID := h_SessionID (r_header r); h_Protocol := h_Protocol (r_header r);
              h_StartTime := 0; h_Connection := None |} in
  zlen (marshal_header h) < 2 ^ 32 ->
  Anonymise all_written (fun _ => all_written) all_written input now = Ok (dump_bytes h ps now, Ok tt)
  /\ exists r', OpenReader (dump_bytes h ps now) = Ok r' /\ read_all (S (length ps)) r' = Ok ps
       /\ h_SessionID (r_header r') = h_SessionID (r_header r)
       /\ h_Protocol (r_header r') = h_Protocol (r_header r).
Proof.
  intros Hwf Ho Hps h Hsize.
  destruct (OpenReader_suffix input r Ho) as (p & Hin).
  assert (wf_bytes (r_file r)) as Hwr by (rewrite Hin, wf_app in Hwf; tauto).
  assert (length (r_file r) < S (length input))%nat as Hlen by (rewrite Hin, length_app; lia).
  unfold Anonymise. rewrite Ho. cbn [rbind]. fold h. rewrite NewWriter_ok. cbn [rbind].
  destruct (anonymise_loop_spec _ 0 r {| w_file := header_file h; w_startTime := h_StartTime h; w_maxSize := 0;
    w_written := zlen (header_file h) |} ps Hwr Hlen Hps) as (w' & -> & Hfile & Hst & Hok).
  split.
  - rewrite Close_file, Hfile, Hst. cbn [w_file w_startTime h h_StartTime]. unfold dump_bytes.
    by rewrite <- app_assoc, Z.sub_0_r.
  - destruct (OpenReader_header h (concat (map packet_bytes ps) ++ end_bytes now) Hsize) as (h' & Ho' & H1 & H2).
    eexists. split; [exact Ho'|]. split_and!; [|exact H1|exact H2].
    rewrite <- (app_nil_r (end_bytes now)). by apply read_all_packets; [|lia].
Qed.
End Anonymising.

(** Clean-up removes exactly the expired dump files it can, and counts them. *)
Lemma cleanup_spec entries cutoff :
  CleanupOldFiles entries cutoff
  = (List.filter (fun e => negb (expired_dump cutoff e && de_removable e)) entries,
     zlen (List.filter (fun e => expired_dump cutoff e && de_removable e) entries)).
Proof.
  induction entries as [|e es IH]; [done|]. cbn [CleanupOldFiles List.filter]. rewrite IH.
  destruct (expired_dump cutoff e && de_removable e); cbn [negb]; [|done]. rewrite zlen_cons. f_equal. lia.
Qed.


(** ** A concrete header codec for the witnesses *)
Module ToyHeader.
Fixpoint enc_str (s : string) : bytes :=
  match s with
  | EmptyString => [0]
  | String c s => 1 :: Z.of_nat (nat_of_ascii c) :: enc_str s
  end.

Fixpoint dec_str (fuel : nat) (b : bytes) : option (string * bytes) :=
  match fuel, b with
  | S fuel, tag :: b =>
      if tag =? 0 then Some (EmptyString, b)
      else match b with
           | c :: b =>
               match dec_str fuel b with
               | Some (s, b) => Some (String (ascii_of_nat (Z.to_nat c)) s, b)
               | None => None
               end
           | [] => None
           end
  | _, _ => None
  end.

Definition enc (h : Header) : bytes := enc_str (h_SessionID h) ++ enc_str (h_Protocol h).

Definition dec (b : bytes) : option Header :=
  match dec_str (length b) b with
  | Some (id, b) =>
      match dec_str (length b) b with
      | Some (proto, _) =>
          Some {| h_SessionID := id; h_Protocol := proto; h_StartTime := 0; h_Connection := None |}
      | None => None
      end
  | None => None
  end.

Lemma dec_enc_str s : forall fuel b, (length (enc_str s) <= fuel)%nat -> dec_str fuel (enc_str s ++ b) = Some (s, b).
Proof.
  induction s as [|c s IH]; intros fuel b Hf; (destruct fuel as [|fuel]; [cbn in Hf; lia|]); [done|].
  cbn [enc_str app dec_str]. change (1 =? 0) with false. cbn [enc_str length] in Hf.
  rewrite IH by lia. by rewrite Nat2Z.id, ascii_nat_embedding.
Qed.

Lemma header_dec_enc h : exists h', dec (enc h) = Some h' /\ h_SessionID h' = h_SessionID h /\ h_Protocol h' = h_Protocol h.
Proof.
  unfold dec, enc. rewrite dec_enc_str by (rewrite length_app; lia).
  assert (dec_str (length (enc_str (h_Protocol h))) (enc_str (h_Protocol h)) = Some (h_Protocol h, [])) as ->
    by (rewrite <- (dec_enc_str (h_Protocol h) (length (enc_str (h_Protocol h))) []) by lia; by rewrite app_nil_r).
  eexists. split; [reflexivity|done].
Qed.

#[local] Instance codec : HeaderCodec :=
  {| marshal_header := enc; unmarshal_header := dec; header_roundtrip := header_dec_enc |}.

Definition header : Header :=
  {| h_SessionID := "s1"; h_Protocol := "postgresql"; h_StartTime := 100; h_Connection := Some [1; 2] |}.

Lemma dump_roundtrip_witness :
  exists w r, NewWriter all_written header 0 = Ok w
    /\ OpenReader (w_file (Close all_written (record_all w [(0, [81; 1], 105); (1, [90], 109)]) 120)) = Ok r
    /\ read_all 3 r = Ok [{| p_RelativeNs := 5; p_Direction := 0; p_Data := [81; 1] |};
                          {| p_RelativeNs := 9; p_Direction := 1; p_Data := [90] |}].
Proof.
  destruct (dump_roundtrip (HC := codec) header 0 [(0, [81; 1], 105); (1, [90], 109)] 120)
    as (w & r & ps & H1 & H2 & _ & _ & H3 & _ & H4 & _).
  - reflexivity.
  - repeat (apply Forall_cons; split; [split; [split; [vm_compute; discriminate|reflexivity]
      |split; [vm_compute; discriminate|reflexivity]|reflexivity]|]). apply Forall_nil; exact I.
  - exists w, r. rewrite H4 in H3 by (vm_compute; discriminate). split_and!; [exact H1|exact H2|exact H3].
Defined.

Definition input : bytes :=
  dump_bytes header [{| p_RelativeNs := 5; p_Direction := 0; p_Data := [81; 1] |}] 20.

Lemma anonymise_preserves_packets_witness :
  exists out, Anonymise all_written (fun _ => all_written) all_written input 7 = Ok (out, Ok tt).
Proof.
  destruct (OpenReader input) as [r|e|] eqn:E; [|vm_compute in E; discriminate..].
  eexists. apply (anonymise_preserves_packets (HC := codec) input r
    [{| p_RelativeNs := 5; p_Direction := 0; p_Data := [81; 1] |}] 7);
    [apply (wf_bytes_check input); vm_compute; reflexivity|exact E| |];
    vm_compute in E; injection E as <-; vm_compute; reflexivity.
Defined.
End ToyHeader.
