(* ===== verification/PgText.v ===== *)
(** * PostgreSQL: statements, parameters and rows as text
    ([internal/proxy/postgresql/intercept.go])

    The pure functions of the PostgreSQL interceptor.  Formatting and parsing
    of floating-point numbers and JSON encoding are the class [GoText]; integers
    and base64 are those of [Encoding].  [strings.ToUpper] is the one of [GoStrings]
    with one more rune, U+0250, whose upper case U+2C6F is a byte longer: the
    one function here that depends on lengths ([parseCopyColumnNames]) sees both
    directions of length change. *)

From Stdlib Require Import ZArith Lia List Bool String Ascii.
From stdpp Require Import base list gmap strings.
From S2P Require Import Prelude GoStrings Encoding Regex Models Validation.

Open Scope string_scope.
Open Scope Z_scope.

(** ** Statement classes *)

Definition re_tx_read_only : regex :=
  seqs [WordB; ci "SET"; spaces; opt (seqs [ci "SESSION"; spaces]); ci "default_transaction_read_only";
        spaces0; Alt (ci "=") (ci "TO"); spaces0; Alt (ci "off") (Alt (ci "false") (ci "0")); WordB].
Definition re_reset_read_only : regex :=
  seqs [WordB; ci "RESET"; spaces; opt (seqs [ci "SESSION"; spaces]); ci "default_transaction_read_only"; WordB].
Definition re_set_authorization : regex :=
  seqs [WordB; ci "SET"; spaces; opt (seqs [ci "SESSION"; spaces]); ci "AUTHORIZATION"; WordB].
Definition re_set_role : regex := seqs [WordB; ci "SET"; spaces; ci "ROLE"; WordB].

Definition readOnlyBypassPatterns : list regex :=
  [re_tx_read_only; re_reset_read_only; re_set_authorization; re_set_role].

Definition isWriteQuery (sql : string) : bool := IsWriteQuery sql.
Definition isDDLQuery (sql : string) : bool := IsDDLQuery sql.
Definition isPasswordChangeQuery (sql : string) : bool := IsPasswordChangeQuery sql.

Definition isCopyQuery (sql : string) : bool :=
  let upper := ToUpper (TrimSpace sql) in HasPrefix upper "COPY ".

Definition isReadOnlyBypassAttempt (sql : string) : bool :=
  existsb (fun pattern => MatchString pattern sql) readOnlyBypassPatterns.

(** ** Row counts *)

Definition parseRowsAffected (commandTag : string) : option Z :=
  let parts := Fields commandTag in
  if 2 <=? zlen parts then ParseInt (List.last parts "") else None.

(** A JSON value of a captured row. *)
Inductive jval :=
| JNull
| JBool (b : bool)
| JInt (n : Z)
| JFloat (bits : Z)
| JStr (s : string)
| JRaw (s : string).

Class GoText := {
  FormatFloat32 : Z -> string;           (* strconv.FormatFloat(..., 'g', -1, 32) of the bits *)
  FormatFloat64 : Z -> string;
  ParseFloat : string -> option Z;       (* the bits of the float64 *)
  valid_json : string -> bool;
  marshal_row : gmap string jval -> string + string   (* JSON text, or the error text *)
}.

(** [binary.BigEndian.UintN(data)] reads the first bytes. *)
Definition be_first (n : nat) (data : bytes) : Z := be_get (take n data).

Section WithText.
Context {GT : GoText}.

Definition decodeBinaryParameter (data : bytes) (oid : Z) : string :=
  let unknown := "(oid:" ++ FormatInt oid ++ ")" ++ b64 data in
  if zlen data =? 0 then ""
  else if oid =? 16 then (match data with b :: _ => if b =? 1 then "true" else "false" | [] => "" end)
  else if oid =? 21 then (if 2 <=? zlen data then FormatInt (sint 16 (be_first 2 data)) else unknown)
  else if oid =? 23 then (if 4 <=? zlen data then FormatInt (i32 (be_first 4 data)) else unknown)
  else if oid =? 20 then (if 8 <=? zlen data then FormatInt (i64 (be_first 8 data)) else unknown)
  else if oid =? 700 then (if 4 <=? zlen data then FormatFloat32 (be_first 4 data) else unknown)
  else if oid =? 701 then (if 8 <=? zlen data then FormatFloat64 (be_first 8 data) else unknown)
  else if (oid =? 25) || (oid =? 1042) || (oid =? 1043) then bytes_str data
  else if oid =? 17 then b64 data
  else unknown.

Definition getTypeOID (oids : list Z) (idx : nat) : Z := nth idx oids 0.

Definition decodeColumnValue (data : bytes) (oid : Z) : jval :=
  let str := bytes_str data in
  if oid =? 16 then JBool (String.eqb str "t" || String.eqb str "true" || String.eqb str "1")
  else if (oid =? 21) || (oid =? 23) || (oid =? 20) then
    match ParseInt str with Some n => JInt n | None => JStr str end
  else if (oid =? 700) || (oid =? 701) || (oid =? 1700) then
    match ParseFloat str with Some f => JFloat f | None => JStr str end
  else if oid =? 17 then JStr str
  else if (oid =? 114) || (oid =? 3802) then if valid_json str then JRaw str else JStr str
  else JStr str.

Definition col_name (names : list string) (i : nat) : string :=
  match nth_error names i with Some n => n | None => "col_" ++ FormatInt (Z.of_nat i) end.

(** The row as a map: a later column of the same name wins. *)
Fixpoint row_map (i : nat) (values : list (option bytes)) (names : list string) (oids : list Z)
    (m : gmap string jval) : gmap string jval :=
  match values with
  | [] => m
  | v :: values =>
      let jv := match v with None => JNull | Some b => decodeColumnValue b (getTypeOID oids i) end in
      row_map (S i) values names oids (<[col_name names i := jv]> m)
  end.

Definition opt_len (v : option bytes) : Z := match v with Some b => zlen b | None => 0 end.
Definition row_size (values : list (option bytes)) : Z := foldr (fun v n => opt_len v + n) 0 values.

Definition convertDataRow (values : list (option bytes)) (names : list string) (oids : list Z) : QueryRow :=
  let jsonData :=
    match marshal_row (row_map 0 values names oids ∅) with
    | inl j => j
    | inr e => "{" ++ String (chr 34) ("error" ++ String (chr 34) (":" ++ String (chr 34)
                 ("marshal failed: " ++ e ++ String (chr 34) "}")))
    end in
  {| qr_RowNumber := 0; qr_RowData := jsonData; qr_RowSizeBytes := row_size values |}.

(** ** COPY *)

Definition copyFormatToString (format : Z) : string :=
  if format =? 0 then "text" else if format =? 1 then "binary" else "unknown".

(** U+0250 (2 bytes) becomes U+2C6F (3 bytes) under [ToUpper]. *)
Fixpoint grow_0250 (s : string) : string :=
  match s with
  | String c ((String d r) as r1) =>
      if (code c =? 201) && (code d =? 144)
      then String (chr 226) (String (chr 177) (String (chr 175) (grow_0250 r)))
      else String c (grow_0250 r1)
  | _ => s
  end.
Definition ToUpperLen (s : string) : string := ToUpper (grow_0250 s).

(** [strings.Index], [strings.LastIndex], -1 when absent. *)
Fixpoint index_from (i : Z) (s p : string) : Z :=
  if HasPrefix s p then i
  else match s with EmptyString => -1 | String _ s => index_from (i + 1) s p end.
Definition Index (s p : string) : Z := index_from 0 s p.

Fixpoint last_index_from (i : Z) (s p : string) (best : Z) : Z :=
  let best := if HasPrefix s p then i else best in
  match s with EmptyString => best | String _ s => last_index_from (i + 1) s p best end.
Definition LastIndex (s p : string) : Z := last_index_from 0 s p (-1).

(** [s[lo:hi]]; [None] is the run-time panic. *)
Definition substr (lo hi : Z) (s : string) : option string :=
  if (0 <=? lo) && (lo <=? hi) && (hi <=? slen s)
  then Some (String.substring (Z.to_nat lo) (Z.to_nat (hi - lo)) s) else None.

(** [Ok []] is the nil result. *)
Definition parseCopyColumnNames (sql : string) : res unit (list string) :=
  let upper := ToUpperLen sql in
  let toIdx := Index upper " TO " in
  let fromIdx := Index upper " FROM " in
  let endIdx := if 0 <? toIdx then toIdx else if 0 <? fromIdx then fromIdx else -1 in
  if endIdx <? 0 then Ok []
  else match substr 0 endIdx sql with
       | None => Panic
       | Some prefix =>
           let start := Index prefix "(" in
           let end_ := LastIndex prefix ")" in
           if (start <? 0) || (end_ <? start) then Ok []
           else match substr (start + 1) end_ prefix with
                | None => Panic
                | Some colList =>
                    Ok (List.filter (fun c => negb (String.eqb c "")) (map TrimSpace (Split colList ",")))
                end
       end.

(** [strings.NewReplacer] of the six two-byte escapes, applied left to right. *)
Definition unescape1 (c : ascii) : option ascii :=
  if Ascii.eqb c "\"%char then Some "\"%char
  else if Ascii.eqb c "n"%char then Some (chr 10)
  else if Ascii.eqb c "r"%char then Some (chr 13)
  else if Ascii.eqb c "t"%char then Some (chr 9)
  else if Ascii.eqb c "b"%char then Some (chr 8)
  else if Ascii.eqb c "f"%char then Some (chr 12)
  else None.

Fixpoint unescapeCopyText (s : string) : string :=
  match s with
  | String c ((String d r) as r1) =>
      if Ascii.eqb c "\"%char
      then match unescape1 d with
           | Some x => String x (unescapeCopyText r)
           | None => String c (unescapeCopyText r1)
           end
      else String c (unescapeCopyText r1)
  | _ => s
  end.

(** One line of COPY text as a map. *)
Fixpoint copy_map (j : nat) (fields names : list string) (m : gmap string jval) : gmap string jval :=
  match fields with
  | [] => m
  | f :: fields =>
      let v := if String.eqb f "\N" then JNull else JStr (unescapeCopyText f) in
      copy_map (S j) fields names (<[col_name names j := v]> m)
  end.

(** The loop over the lines; [i] is the line index, [n] the rows kept. *)
Fixpoint copy_rows (maxRows : Z) (names : list string) (i n : Z) (lines : list string) : list QueryRow :=
  match lines with
  | [] => []
  | line :: lines =>
      if String.eqb line "" || String.eqb line "\." then copy_rows maxRows names (i + 1) n lines
      else if maxRows <=? n then []
      else match marshal_row (copy_map 0 (Split line (chr 9)) names ∅) with
           | inr _ => copy_rows maxRows names (i + 1) n lines
           | inl j =>
               {| qr_RowNumber := i + 1; qr_RowData := j; qr_RowSizeBytes := slen line |}
               :: copy_rows maxRows names (i + 1) (n + 1) lines
           end
  end.

Definition parseCopyDataToRows (maxRows format : Z) (names : list string) (chunks : list bytes) : list QueryRow :=
  if (zlen chunks =? 0) || (format =? 1) then []
  else copy_rows maxRows names 0 0 (Split (bytes_str (concat chunks)) (chr 10)).
End WithText.

(** ** COPY text *)

(** How the server writes a value in COPY text format. *)
Definition escape1 (c : ascii) : string :=
  let z := code c in
  if Ascii.eqb c "\"%char then "\\"
  else if z =? 10 then "\n" else if z =? 13 then "\r" else if z =? 9 then "\t"
  else if z =? 8 then "\b" else if z =? 12 then "\f" else if z =? 11 then "\v"
  else String c "".

Fixpoint escapeCopyText (s : string) : string :=
  match s with EmptyString => "" | String c s => escape1 c ++ escapeCopyText s end.

Lemma escape1_cases c : code c <> 11 ->
  (escape1 c = String c "" /\ c <> "\"%char)
  \/ exists d, escape1 c = String "\"%char (String d "") /\ unescape1 d = Some c.
Proof. destruct c as [[] [] [] [] [] [] [] []]; intros H; vm_compute in H; try (by exfalso; apply H);
  first [left; split; [reflexivity|discriminate] | right; eexists; split; reflexivity]. Qed.

(** A character that is not a backslash, then anything. *)
Lemma unescape_plain c s : c <> "\"%char -> unescapeCopyText (String c s) = String c (unescapeCopyText s).
Proof. intros H. destruct s; cbn [unescapeCopyText]; [done|]. by rewrite (proj2 (Ascii.eqb_neq _ _) H). Qed.

(** Captured COPY text is decoded back to the value the server wrote: for
    every value without a vertical tab, unescaping its COPY text form gives the
    value. *)
Theorem copy_text_roundtrip s :
  all_chars (fun c => negb (code c =? 11)) s = true -> unescapeCopyText (escapeCopyText s) = s.
Proof.
  induction s as [|c s IH]; [done|]. cbn [all_chars escapeCopyText]. intros H. bools. specialize (IH H0).
  destruct (escape1_cases c H) as [[-> Hc]|(d & -> & Hd)]; cbn [String.append].
  - by rewrite unescape_plain, IH.
  - cbn [unescapeCopyText]. by rewrite Hd, IH.
Qed.

Lemma copy_text_roundtrip_witness :
  unescapeCopyText (escapeCopyText (String (chr 9) ("a\nb" ++ String (chr 10) ""))) = String (chr 9) ("a\nb" ++ String (chr 10) "").
Proof. apply (copy_text_roundtrip (String (chr 9) ("a\nb" ++ String (chr 10) ""))). reflexivity. Defined.

(** A vertical tab comes back as the two characters of its escape. *)
Lemma copy_text_vertical_tab : unescapeCopyText (escapeCopyText (String (chr 11) "")) = "\v".
Proof. reflexivity. Qed.

(** A COPY statement whose table name is twelve times U+0250. *)
Fixpoint repeat_str (n : nat) (s : string) : string := match n with O => "" | S n => s ++ repeat_str n s end.
Definition rune_0250 : string := String (chr 201) (String (chr 144) "").
Definition copy_growing : string := "COPY " ++ repeat_str 12 rune_0250 ++ " TO STDOUT".

Lemma parse_growing_panics : parseCopyColumnNames copy_growing = Panic.
Proof. vm_compute. reflexivity. Qed.

(** A tab after the keyword hides a COPY. *)
Lemma copy_with_tab_unseen :
  isCopyQuery ("COPY t TO STDOUT") = true /\ isCopyQuery ("COPY" ++ String (chr 9) "t TO STDOUT") = false.
Proof. split; reflexivity. Qed.

(** Re-opening the transaction for writing is not among the patterns. *)
Lemma begin_read_write_unseen :
  isReadOnlyBypassAttempt "BEGIN READ WRITE; DELETE FROM t" = false
  /\ isWriteQuery "BEGIN READ WRITE; DELETE FROM t" = false.
Proof. split; vm_compute; reflexivity. Qed.
