(* ===== verification/PgSession.v ===== *)
(** * A PostgreSQL proxy session
    ([internal/proxy/postgresql/session.go], [intercept.go], [auth.go])

    A session is a record; each message of the client or of the upstream server
    is one step of its relay loop.  The two loops run in two goroutines: a run is
    any interleaving of their steps.  A step sees the byte counters, the
    revocation flag and the clock as a [Live] value.  The messages forwarded
    upstream, the refusals sent to the client and the records handed to the
    store are lists the steps append to.  The startup phase (the SSL/GSS probes,
    the startup and password packets) reads a byte stream. *)

From Stdlib Require Import ZArith Lia List Bool String Ascii.
From stdpp Require Import base list gmap strings relations.
From S2P Require Import Prelude GoStrings Encoding Models Validation Limits PgText.

Open Scope string_scope.
Open Scope Z_scope.

Inductive pg_error :=
| PgLimit (e : limit_error)
| ErrQueryLimitExceeded
| ErrDataLimitExceeded
| ErrWriteNotPermitted
| ErrPasswordChangeNotAllowed
| ErrReadOnlyBypassAttempt
| ErrDDLNotPermitted
| ErrCopyNotPermitted.

(** ** State *)

Record pendingQuery := {
  pq_sql : string;
  pq_startTime : time;
  pq_parameters : option QueryParameters;
  pq_columnNames : list string;
  pq_columnOIDs : list Z;
  pq_capturedRows : list QueryRow;
  pq_capturedBytes : Z;
  pq_rowNumber : Z;
  pq_truncated : bool
}.

Record preparedStatement := { ps_sql : string; ps_typeOIDs : list Z; ps_resolvedOIDs : list Z }.

Record portalState := { po_stmtName : string; po_parameters : option QueryParameters }.

Record copyState := {
  cs_direction : string;
  cs_format : Z;
  cs_columnNames : list string;
  cs_dataChunks : list bytes;
  cs_totalBytes : Z;
  cs_truncated : bool
}.

Record extendedQueryState := {
  x_preparedStatements : gmap string preparedStatement;
  x_portals : gmap string portalState;
  x_pendingQueries : list pendingQuery;
  x_pendingDescribes : list string
}.

Record QueryStorageConfig := { MaxResultRows : Z; MaxResultBytes : Z; StoreResults : bool }.

(** What does not change during the relay. *)
Record Config := {
  c_queryStorage : QueryStorageConfig;
  c_connectionUID : uuid;
  c_guard : option LimitGuard
}.

(** The messages of [pgproto3] the loops look at; [COther] and [SOther] stand
    for all the others. *)
Inductive client_msg :=
| CQuery (sql : string)
| CParse (name query : string) (oids : list Z)
| CBind (portal stmt : string) (formats : list Z) (params : list bytes)
| CExecute (portal : string)
| CDescribe (objectType : ascii) (name : string)
| CClose (objectType : ascii) (name : string)
| CCopyData (data : bytes)
| CCopyDone
| CCopyFail (message : string)
| COther (tag : Z).

Inductive server_msg :=
| SParameterDescription (oids : list Z)
| SRowDescription (fields : list (string * Z))
| SCommandComplete (tag : string)
| SErrorResponse (message : string)
| SDataRow (values : list (option bytes))
| SCopyOutResponse (format : Z)
| SCopyInResponse (format : Z)
| SCopyData (data : bytes)
| SCopyDone
| SReadyForQuery
| SOther (tag : Z).

(** What [persistQueryAsync] hands to the store. *)
Record logged := { lg_query : Query; lg_rows : list QueryRow; lg_bytes : Z }.

Record Session := {
  s_grant : AccessGrant;
  s_currentQuery : option pendingQuery;
  s_extendedState : extendedQueryState;
  s_copyState : option copyState;
  s_lastBytesSnapshot : Z;
  s_rowsAffected : option Z;         (* local of the upstream loop *)
  s_queryError : option string;      (* local of the upstream loop *)
  s_upstream : list client_msg;
  s_client : list server_msg;
  s_refused : list pg_error;
  s_log : list logged
}.

Definition set_current (s : Session) (q : option pendingQuery) : Session :=
  {| s_grant := s_grant s; s_currentQuery := q; s_extendedState := s_extendedState s; s_copyState := s_copyState s;
     s_lastBytesSnapshot := s_lastBytesSnapshot s; s_rowsAffected := s_rowsAffected s; s_queryError := s_queryError s;
     s_upstream := s_upstream s; s_client := s_client s; s_refused := s_refused s; s_log := s_log s |}.
Definition set_ext (s : Session) (x : extendedQueryState) : Session :=
  {| s_grant := s_grant s; s_currentQuery := s_currentQuery s; s_extendedState := x; s_copyState := s_copyState s;
     s_lastBytesSnapshot := s_lastBytesSnapshot s; s_rowsAffected := s_rowsAffected s; s_queryError := s_queryError s;
     s_upstream := s_upstream s; s_client := s_client s; s_refused := s_refused s; s_log := s_log s |}.
Definition set_copy (s : Session) (c : option copyState) : Session :=
  {| s_grant := s_grant s; s_currentQuery := s_currentQuery s; s_extendedState := s_extendedState s; s_copyState := c;
     s_lastBytesSnapshot := s_lastBytesSnapshot s; s_rowsAffected := s_rowsAffected s; s_queryError := s_queryError s;
     s_upstream := s_upstream s; s_client := s_client s; s_refused := s_refused s; s_log := s_log s |}.
Definition set_snapshot (s : Session) (n : Z) : Session :=
  {| s_grant := s_grant s; s_currentQuery := s_currentQuery s; s_extendedState := s_extendedState s; s_copyState := s_copyState s;
     s_lastBytesSnapshot := n; s_rowsAffected := s_rowsAffected s; s_queryError := s_queryError s;
     s_upstream := s_upstream s; s_client := s_client s; s_refused := s_refused s; s_log := s_log s |}.
Definition set_outcome (s : Session) (rows : option Z) (err : option string) : Session :=
  {| s_grant := s_grant s; s_currentQuery := s_currentQuery s; s_extendedState := s_extendedState s; s_copyState := s_copyState s;
     s_lastBytesSnapshot := s_lastBytesSnapshot s; s_rowsAffected := rows; s_queryError := err;
     s_upstream := s_upstream s; s_client := s_client s; s_refused := s_refused s; s_log := s_log s |}.
Definition forward (s : Session) (m : client_msg) : Session :=
  {| s_grant := s_grant s; s_currentQuery := s_currentQuery s; s_extendedState := s_extendedState s; s_copyState := s_copyState s;
     s_lastBytesSnapshot := s_lastBytesSnapshot s; s_rowsAffected := s_rowsAffected s; s_queryError := s_queryError s;
     s_upstream := (s_upstream s ++ [m])%list; s_client := s_client s; s_refused := s_refused s; s_log := s_log s |}.
Definition deliver (s : Session) (m : server_msg) : Session :=
  {| s_grant := s_grant s; s_currentQuery := s_currentQuery s; s_extendedState := s_extendedState s; s_copyState := s_copyState s;
     s_lastBytesSnapshot := s_lastBytesSnapshot s; s_rowsAffected := s_rowsAffected s; s_queryError := s_queryError s;
     s_upstream := s_upstream s; s_client := (s_client s ++ [m])%list; s_refused := s_refused s; s_log := s_log s |}.
Definition sendQueryError (s : Session) (e : pg_error) : Session :=
  {| s_grant := s_grant s; s_currentQuery := s_currentQuery s; s_extendedState := s_extendedState s; s_copyState := s_copyState s;
     s_lastBytesSnapshot := s_lastBytesSnapshot s; s_rowsAffected := s_rowsAffected s; s_queryError := s_queryError s;
     s_upstream := s_upstream s; s_client := s_client s; s_refused := (s_refused s ++ [e])%list; s_log := s_log s |}.

Definition set_stmts (x : extendedQueryState) m : extendedQueryState :=
  {| x_preparedStatements := m; x_portals := x_portals x; x_pendingQueries := x_pendingQueries x;
     x_pendingDescribes := x_pendingDescribes x |}.
Definition set_portals (x : extendedQueryState) m : extendedQueryState :=
  {| x_preparedStatements := x_preparedStatements x; x_portals := m; x_pendingQueries := x_pendingQueries x;
     x_pendingDescribes := x_pendingDescribes x |}.
Definition set_pending (x : extendedQueryState) l : extendedQueryState :=
  {| x_preparedStatements := x_preparedStatements x; x_portals := x_portals x; x_pendingQueries := l;
     x_pendingDescribes := x_pendingDescribes x |}.
Definition set_describes (x : extendedQueryState) l : extendedQueryState :=
  {| x_preparedStatements := x_preparedStatements x; x_portals := x_portals x; x_pendingQueries := x_pendingQueries x;
     x_pendingDescribes := l |}.

Definition new_pending (sql : string) (now : time) (params : option QueryParameters) : pendingQuery :=
  {| pq_sql := sql; pq_startTime := now; pq_parameters := params; pq_columnNames := []; pq_columnOIDs := [];
     pq_capturedRows := []; pq_capturedBytes := 0; pq_rowNumber := 0; pq_truncated := false |}.

(** ** Client to upstream *)

Definition checkQuotas (e : Live) (grant : AccessGrant) : option pg_error :=
  if l_revoked e then Some (PgLimit ErrGrantRevoked)
  else if negb (IsZero (g_ExpiresAt grant)) && negb (Before (l_now e) (g_ExpiresAt grant))
       then Some (PgLimit ErrGrantExpired)
  else if match g_MaxQueryCounts grant with Some m => m <=? g_QueryCount grant | None => false end
       then Some ErrQueryLimitExceeded
  else if match g_MaxBytesTransferred grant with Some m => m <=? g_BytesTransferred grant | None => false end
       then Some ErrDataLimitExceeded
  else None.

(** The controls, in the order [handleQuery] and [handleParse] both test them. *)
Definition check_controls (grant : AccessGrant) (sql : string) : option pg_error :=
  if isPasswordChangeQuery sql then Some ErrPasswordChangeNotAllowed
  else if IsReadOnly grant && isReadOnlyBypassAttempt sql then Some ErrReadOnlyBypassAttempt
  else if IsReadOnly grant && isWriteQuery sql then Some ErrWriteNotPermitted
  else if negb (IsReadOnly grant) && ShouldBlockDDL grant && isDDLQuery sql then Some ErrDDLNotPermitted
  else if ShouldBlockCopy grant && isCopyQuery sql then Some ErrCopyNotPermitted
  else None.

Definition handleQuery (e : Live) (s : Session) (sql : string) : Session + pg_error :=
  match checkQuotas e (s_grant s) with
  | Some err => inr err
  | None =>
      match check_controls (s_grant s) sql with
      | Some err => inr err
      | None => inl (set_current s (Some (new_pending sql (l_now e) None)))
      end
  end.

Definition handleParse (s : Session) (name query : string) (oids : list Z) : Session + pg_error :=
  match check_controls (s_grant s) query with
  | Some err => inr err
  | None =>
      let x := s_extendedState s in
      let stmt := {| ps_sql := query; ps_typeOIDs := oids; ps_resolvedOIDs := [] |} in
      inl (set_ext s (set_stmts x (<[name := stmt]> (x_preparedStatements x))))
  end.

Definition handleDescribe (s : Session) (objectType : ascii) (name : string) : Session :=
  if negb (Ascii.eqb objectType "S") then s
  else let x := s_extendedState s in set_ext s (set_describes x (x_pendingDescribes x ++ [name])%list).

Section WithText.
Context {GT : GoText}.

Definition format_code (formats : list Z) (i : nat) : Z :=
  match formats with [f] => f | _ => nth i formats 0 end.

Definition bind_parameters (typeOIDs formats : list Z) (params : list bytes) : option QueryParameters :=
  if zlen params =? 0 then None
  else Some {|
    qp_Values := imap (fun i p => if format_code formats i =? 0 then bytes_str p
                                  else decodeBinaryParameter p (getTypeOID typeOIDs i)) params;
    qp_Raw := map b64 params;
    qp_FormatCodes := imap (fun i _ => format_code formats i) params;
    qp_TypeOIDs := typeOIDs |}.

Definition handleBind (s : Session) (portal stmt : string) (formats : list Z) (params : list bytes) : Session :=
  let x := s_extendedState s in
  let typeOIDs :=
    match x_preparedStatements x !! stmt with
    | Some st => if zlen (ps_typeOIDs st) =? 0 then ps_resolvedOIDs st else ps_typeOIDs st
    | None => []
    end in
  let p := {| po_stmtName := stmt; po_parameters := bind_parameters typeOIDs formats params |} in
  set_ext s (set_portals x (<[portal := p]> (x_portals x))).

Definition handleExecute (e : Live) (s : Session) (portal : string) : Session + pg_error :=
  match checkQuotas e (s_grant s) with
  | Some err => inr err
  | None =>
      let x := s_extendedState s in
      match x_portals x !! portal with
      | None => inl s
      | Some p =>
          let sqlText := match x_preparedStatements x !! po_stmtName p with
                         | Some st => ps_sql st | None => "" end in
          let q := new_pending sqlText (l_now e) (po_parameters p) in
          inl (set_ext s (set_pending x (x_pendingQueries x ++ [q])%list))
      end
  end.

Definition handleClose (s : Session) (objectType : ascii) (name : string) : Session :=
  let x := s_extendedState s in
  if Ascii.eqb objectType "S" then set_ext s (set_stmts x (delete name (x_preparedStatements x)))
  else if Ascii.eqb objectType "P" then set_ext s (set_portals x (delete name (x_portals x)))
  else s.

Definition captureCopyData (cfg : QueryStorageConfig) (s : Session) (data : bytes) : Session :=
  match s_copyState s with
  | None => s
  | Some c =>
      if cs_truncated c || negb (StoreResults cfg) then s
      else
        let dataSize := zlen data in
        if MaxResultBytes cfg <? cs_totalBytes c + dataSize then
          set_copy s (Some {| cs_direction := cs_direction c; cs_format := cs_format c;
            cs_columnNames := cs_columnNames c; cs_dataChunks := []; cs_totalBytes := cs_totalBytes c;
            cs_truncated := true |})
        else
          set_copy s (Some {| cs_direction := cs_direction c; cs_format := cs_format c;
            cs_columnNames := cs_columnNames c; cs_dataChunks := (cs_dataChunks c ++ [data])%list;
            cs_totalBytes := cs_totalBytes c + dataSize; cs_truncated := false |})
  end.

Definition copy_direction_is (s : Session) (d : string) : bool :=
  match s_copyState s with Some c => String.eqb (cs_direction c) d | None => false end.

(** One iteration of [proxyClientToUpstream]. *)
Definition intercept (cfg : Config) (e : Live) (s : Session) (m : client_msg) : Session + pg_error :=
  match m with
  | CQuery sql => handleQuery e s sql
  | CParse name query oids => handleParse s name query oids
  | CBind portal stmt formats params => inl (handleBind s portal stmt formats params)
  | CExecute portal => handleExecute e s portal
  | CDescribe t name => inl (handleDescribe s t name)
  | CClose t name => inl (handleClose s t name)
  | CCopyData data => inl (if copy_direction_is s "in" then captureCopyData (c_queryStorage cfg) s data else s)
  | CCopyFail _ => inl (set_copy s None)
  | CCopyDone | COther _ => inl s
  end.

Definition client_step (cfg : Config) (e : Live) (s : Session) (m : client_msg) : Session :=
  match intercept cfg e s m with
  | inr err => sendQueryError s err
  | inl s' => forward s' m
  end.

(** ** Upstream to client *)

Definition handleParameterDescription (s : Session) (oids : list Z) : Session :=
  let x := s_extendedState s in
  match x_pendingDescribes x with
  | [] => s
  | name :: rest =>
      let x := set_describes x rest in
      match x_preparedStatements x !! name with
      | None => set_ext s x
      | Some st =>
          let st := {| ps_sql := ps_sql st; ps_typeOIDs := ps_typeOIDs st; ps_resolvedOIDs := oids |} in
          set_ext s (set_stmts x (<[name := st]> (x_preparedStatements x)))
      end
  end.

Definition getCurrentPendingQuery (s : Session) : option pendingQuery :=
  match s_currentQuery s with
  | Some q => Some q
  | None => last (x_pendingQueries (s_extendedState s))
  end.

(** Writing through the pointer [getCurrentPendingQuery] returned. *)
Definition update_pending (s : Session) (q : pendingQuery) : Session :=
  match s_currentQuery s with
  | Some _ => set_current s (Some q)
  | None =>
      let x := s_extendedState s in
      set_ext s (set_pending x (<[pred (length (x_pendingQueries x)) := q]> (x_pendingQueries x)))
  end.

Definition captureRowDescription (s : Session) (fields : list (string * Z)) : Session :=
  match getCurrentPendingQuery s with
  | None => s
  | Some q =>
      update_pending s {| pq_sql := pq_sql q; pq_startTime := pq_startTime q; pq_parameters := pq_parameters q;
        pq_columnNames := map fst fields; pq_columnOIDs := map snd fields;
        pq_capturedRows := pq_capturedRows q; pq_capturedBytes := pq_capturedBytes q;
        pq_rowNumber := pq_rowNumber q; pq_truncated := pq_truncated q |}
  end.

(** The pop shared by [CommandComplete] and [ErrorResponse]. *)
Definition pop_pending (s : Session) : Session :=
  let x := s_extendedState s in
  match x_pendingQueries x with
  | [] => s
  | q :: rest => set_current (set_ext s (set_pending x rest)) (Some q)
  end.

Definition capture_row (cfg : QueryStorageConfig) (q : pendingQuery) (values : list (option bytes)) : pendingQuery :=
  let rowSize := row_size values in
  if (MaxResultRows cfg <=? pq_rowNumber q) || (MaxResultBytes cfg <? pq_capturedBytes q + rowSize) then
    {| pq_sql := pq_sql q; pq_startTime := pq_startTime q; pq_parameters := pq_parameters q;
       pq_columnNames := pq_columnNames q; pq_columnOIDs := pq_columnOIDs q; pq_capturedRows := [];
       pq_capturedBytes := pq_capturedBytes q; pq_rowNumber := pq_rowNumber q; pq_truncated := true |}
  else
    {| pq_sql := pq_sql q; pq_startTime := pq_startTime q; pq_parameters := pq_parameters q;
       pq_columnNames := pq_columnNames q; pq_columnOIDs := pq_columnOIDs q;
       pq_capturedRows := (pq_capturedRows q ++ [convertDataRow values (pq_columnNames q) (pq_columnOIDs q)])%list;
       pq_capturedBytes := pq_capturedBytes q + rowSize; pq_rowNumber := pq_rowNumber q + 1;
       pq_truncated := false |}.

Definition captureDataRow (cfg : QueryStorageConfig) (s : Session) (values : list (option bytes)) : Session :=
  match getCurrentPendingQuery s with
  | None => s
  | Some q =>
      if StoreResults cfg && negb (pq_truncated q) then update_pending s (capture_row cfg q values) else s
  end.

Definition start_copy (s : Session) (direction : string) (format : Z) : res unit Session :=
  let! names := (match s_currentQuery s with Some q => parseCopyColumnNames (pq_sql q) | None => Ok [] end) in
  Ok (set_copy s (Some {| cs_direction := direction; cs_format := format; cs_columnNames := names;
                          cs_dataChunks := []; cs_totalBytes := 0; cs_truncated := false |})).

Definition number_rows (rows : list QueryRow) : list QueryRow :=
  imap (fun i r => {| qr_RowNumber := Z.of_nat i + 1; qr_RowData := qr_RowData r;
                      qr_RowSizeBytes := qr_RowSizeBytes r |}) rows.

Definition logQuery (cfg : Config) (e : Live) (s : Session) (rowsAffected : option Z) (queryError : option string)
    (bytesTransferred : Z) : Session :=
  match s_currentQuery s with
  | None => s
  | Some q =>
      let query := {| q_UID := Nil; q_ConnectionID := c_connectionUID cfg; q_SQLText := pq_sql q;
        q_Parameters := pq_parameters q; q_ExecutedAt := pq_startTime q;
        q_DurationMs := Some (Z.quot (l_now e - pq_startTime q) 1000000 * 1000); q_RowsAffected := rowsAffected;
        q_Error := queryError;
        q_CopyFormat := option_map (fun c => copyFormatToString (cs_format c)) (s_copyState s);
        q_CopyDirection := option_map cs_direction (s_copyState s) |} in
      let regular := pq_capturedRows q in
      let capturedRows :=
        match s_copyState s with
        | Some c =>
            if negb (cs_truncated c) && (0 <? zlen (cs_dataChunks c))
            then parseCopyDataToRows (MaxResultRows (c_queryStorage cfg)) (cs_format c) (cs_columnNames c) (cs_dataChunks c)
            else regular
        | None => regular
        end in
      let entry := {| lg_query := query; lg_rows := number_rows capturedRows; lg_bytes := bytesTransferred |} in
      let g := s_grant s in
      {| s_grant := {| g_UID := g_UID g; g_UserID := g_UserID g; g_DatabaseID := g_DatabaseID g;
           g_Controls := g_Controls g; g_GrantedBy := g_GrantedBy g; g_StartsAt := g_StartsAt g;
           g_ExpiresAt := g_ExpiresAt g; g_RevokedAt := g_RevokedAt g; g_RevokedBy := g_RevokedBy g;
           g_MaxQueryCounts := g_MaxQueryCounts g; g_MaxBytesTransferred := g_MaxBytesTransferred g;
           g_CreatedAt := g_CreatedAt g; g_QueryCount := g_QueryCount g + 1;
           g_BytesTransferred := g_BytesTransferred g + bytesTransferred |};
         s_currentQuery := s_currentQuery s; s_extendedState := s_extendedState s; s_copyState := s_copyState s;
         s_lastBytesSnapshot := s_lastBytesSnapshot s; s_rowsAffected := s_rowsAffected s;
         s_queryError := s_queryError s; s_upstream := s_upstream s; s_client := s_client s; s_refused := s_refused s;
         s_log := if N.eqb (c_connectionUID cfg) Nil then s_log s else (s_log s ++ [entry])%list |}
  end.

Definition total_bytes (e : Live) : Z := l_from e + l_to e.

(** The [switch] of [proxyUpstreamToClient]. *)
Definition observe (cfg : Config) (e : Live) (s : Session) (m : server_msg) : res unit Session :=
  match m with
  | SParameterDescription oids => Ok (handleParameterDescription s oids)
  | SRowDescription fields => Ok (captureRowDescription s fields)
  | SCommandComplete tag => Ok (pop_pending (set_outcome s (parseRowsAffected tag) (s_queryError s)))
  | SErrorResponse msg => Ok (pop_pending (set_outcome s (s_rowsAffected s) (Some msg)))
  | SDataRow values => Ok (captureDataRow (c_queryStorage cfg) s values)
  | SCopyOutResponse format => start_copy s "out" format
  | SCopyInResponse format => start_copy s "in" format
  | SCopyData data => Ok (if copy_direction_is s "out" then captureCopyData (c_queryStorage cfg) s data else s)
  | SReadyForQuery =>
      match s_currentQuery s with
      | None => Ok s
      | Some _ =>
          let bytesTransferred := total_bytes e - s_lastBytesSnapshot s in
          let s := set_snapshot s (total_bytes e) in
          let s := logQuery cfg e s (s_rowsAffected s) (s_queryError s) bytesTransferred in
          Ok (set_outcome (set_copy (set_current s None) None) None None)
      end
  | SCopyDone | SOther _ => Ok s
  end.

Definition limit_text (err : limit_error) : string :=
  match err with
  | ErrByteQuotaExceeded => "bandwidth quota exceeded for this grant"
  | ErrGrantExpired => "grant expired"
  | ErrGrantRevoked => "grant revoked"
  end.

Definition persistAbortedQuery (cfg : Config) (e : Live) (s : Session) (cause : limit_error) : Session :=
  match getCurrentPendingQuery s with
  | None => s
  | Some query =>
      let bytesTransferred := total_bytes e - s_lastBytesSnapshot s in
      if bytesTransferred <=? 0 then s
      else
        let s := set_snapshot s (total_bytes e) in
        let s := match s_currentQuery s with None => set_current s (Some query) | Some _ => s end in
        logQuery cfg e s None (Some ("aborted: " ++ limit_text cause)) bytesTransferred
  end.

(** [abortStream] included: [w] is the instant after the error frame was written
    to the client, [None] when that write failed, in which case the aborted
    query is not recorded. *)
Definition enforceStreamLimits (cfg : Config) (e : Live) (w : option Live) (s : Session) : Session * option limit_error :=
  match getCurrentPendingQuery s with
  | None => (s, None)
  | Some _ =>
      match Check (c_guard cfg) e with
      | None => (s, None)
      | Some verr =>
          (match w with Some e' => persistAbortedQuery cfg e' s verr | None => s end, Some verr)
      end
  end.

(** One iteration of [proxyUpstreamToClient]; [Some err] leaves the loop.  [e] is
    the instant the message is looked at, [c] the one the limits are checked at,
    after the message went to the client. *)
Definition upstream_step (cfg : Config) (e c : Live) (w : option Live) (s : Session) (m : server_msg) :
    res unit (Session * option limit_error) :=
  let! s := observe cfg e s m in
  Ok (enforceStreamLimits cfg c w (deliver s m)).

(** Any interleaving of the two loops.  A failed flush towards the client ends
    the upstream loop after the message was observed. *)
Inductive pg_step (cfg : Config) : Session -> Session -> Prop :=
| step_client e s m : pg_step cfg s (client_step cfg e s m)
| step_upstream e c w s m s' stop : upstream_step cfg e c w s m = Ok (s', stop) -> pg_step cfg s s'
| step_flush_failed e s m s' : observe cfg e s m = Ok s' -> pg_step cfg s s'.
End WithText.

Definition new_session (g : AccessGrant) : Session :=
  {| s_grant := g; s_currentQuery := None;
     s_extendedState := {| x_preparedStatements := ∅; x_portals := ∅; x_pendingQueries := []; x_pendingDescribes := [] |};
     s_copyState := None; s_lastBytesSnapshot := 0; s_rowsAffected := None; s_queryError := None;
     s_upstream := []; s_client := []; s_refused := []; s_log := [] |}.

(** ** Startup *)

Inductive startup_error :=
| StartIO (e : io_error)
| StartWrite
| StartTLS
| StartDecode
| ErrUnknownStartupMagic
| ErrTooManyNegotiationRounds.

Definition pgSSLRequestCode : Z := 80877103.
Definition pgGSSEncRequestCode : Z := 80877104.
Definition maxStartupNegotiationRounds : nat := 3.

Definition start_io {A} (r : res io_error A) : res startup_error A :=
  match r with Ok a => Ok a | Err e => Err (StartIO e) | Panic => Panic end.

(** [bufio.Reader.Peek] *)
Definition peek (n : Z) (r : bytes) : res startup_error bytes :=
  if n <=? zlen r then Ok (take (Z.to_nat n) r) else Err (StartIO EOF).

(** The client side of the socket: bytes to read, bytes written. *)
Record Wire := { wi_in : bytes; wi_out : bytes }.

(** [wr] says whether the reply byte can be written; [tls] is [None] when TLS is
    off, otherwise the handshake: the plaintext stream it yields, if it does. *)
Definition handleSSLRequest (wr : bool) (tls : option (bytes -> option bytes)) (w : Wire) :
    res startup_error (Wire * bool) :=
  let! ' (_, rest) := start_io (read_full 8 (wi_in w)) in
  guard! wr else StartWrite in
  match tls with
  | None => Ok ({| wi_in := rest; wi_out := (wi_out w ++ [78])%list |}, false)
  | Some handshake =>
      match handshake rest with
      | None => Err StartTLS
      | Some plain => Ok ({| wi_in := plain; wi_out := (wi_out w ++ [83])%list |}, true)
      end
  end.

Definition handleGSSRequest (wr : bool) (w : Wire) : res startup_error Wire :=
  let! ' (_, rest) := start_io (read_full 8 (wi_in w)) in
  guard! wr else StartWrite in
  Ok {| wi_in := rest; wi_out := (wi_out w ++ [78])%list |}.

Fixpoint negotiate (rounds : nat) (wr : bool) (tls : option (bytes -> option bytes)) (w : Wire) :
    res startup_error Wire :=
  match rounds with
  | O => Err ErrTooManyNegotiationRounds
  | S rounds =>
      let! header := peek 8 (wi_in w) in
      if negb (be_get (take 4 header) =? 8) then Ok w
      else
        let version := be_get (drop 4 header) in
        if version =? pgSSLRequestCode then
          let! ' (w, done) := handleSSLRequest wr tls w in
          if (done : bool) then Ok w else negotiate rounds wr tls w
        else if version =? pgGSSEncRequestCode then
          let! w := handleGSSRequest wr w in
          negotiate rounds wr tls w
        else Err ErrUnknownStartupMagic
  end.

Definition negotiateSSL wr tls w := negotiate maxStartupNegotiationRounds wr tls w.

(** [decode] is [StartupMessage.Decode]. *)
Definition receiveStartupMessage {A} (decode : bytes -> option A) (r : bytes) : res startup_error (A * bytes) :=
  let! ' (lengthBuf, r) := start_io (read_full 4 r) in
  let length := be_get lengthBuf in
  let! _ := (if length <? 4 then Panic else Ok tt) in   (* msgBuf[4:] of a buffer of [length] bytes *)
  let! ' (body, r) := start_io (read_full (length - 4) r) in
  match decode body with
  | None => Err StartDecode
  | Some m => Ok (m, r)
  end.

Definition receivePasswordMessage (r : bytes) : res startup_error (bytes * bytes) :=
  let! ' (_, r) := start_io (read_full 1 r) in
  let! ' (lengthBuf, r) := start_io (read_full 4 r) in
  let length := be_get lengthBuf in
  let! ' (dataBuf, r) := start_io (read_full (length - 4) r) in  (* make panics on a negative length *)
  let! password := sl 0 (zlen dataBuf - 1) dataBuf in
  Ok (password, r).


(** ** What a step leaves alone *)

(** The grant's terms: everything but the two running counters. *)
Definition same_terms (g g' : AccessGrant) : Prop :=
  g_Controls g' = g_Controls g /\ g_ExpiresAt g' = g_ExpiresAt g
  /\ g_MaxQueryCounts g' = g_MaxQueryCounts g /\ g_MaxBytesTransferred g' = g_MaxBytesTransferred g.

Definition log_bytes (s : Session) : Z := foldr (fun l n => lg_bytes l + n) 0 (s_log s).

(** The accounting part of a session: grant, snapshot, log. *)
Definition accounts (s : Session) : AccessGrant * Z * list logged := (s_grant s, s_lastBytesSnapshot s, s_log s).

Lemma log_bytes_snoc l x :
  foldr (fun l n => lg_bytes l + n) 0 (l ++ [x])%list = foldr (fun l n => lg_bytes l + n) 0 l + lg_bytes x.
Proof. induction l; cbn; lia. Qed.

Section Steps.
Context {GT : GoText}.
Variable cfg : Config.

Lemma update_pending_accounts s q : accounts (update_pending s q) = accounts s /\ s_upstream (update_pending s q) = s_upstream s.
Proof. unfold update_pending. by destruct (s_currentQuery s). Qed.

Lemma pop_pending_accounts s : accounts (pop_pending s) = accounts s /\ s_upstream (pop_pending s) = s_upstream s.
Proof. unfold pop_pending. by destruct (x_pendingQueries _). Qed.

Lemma captureCopyData_accounts c s d :
  accounts (captureCopyData c s d) = accounts s /\ s_upstream (captureCopyData c s d) = s_upstream s.
Proof. unfold captureCopyData. by repeat case_match. Qed.

Lemma intercept_accounts e s m s' : intercept cfg e s m = inl s' ->
  accounts s' = accounts s /\ s_upstream s' = s_upstream s.
Proof.
  destruct m; cbn [intercept]; unfold handleQuery, handleParse, handleExecute;
    repeat case_match; intros; simplify_eq; try done; auto using captureCopyData_accounts.
  - unfold handleDescribe. by case_match.
  - unfold handleClose. by repeat case_match.
Qed.

(** Recording: the one operation that changes the accounts. *)
Lemma logQuery_accounts e s r err n s' : logQuery cfg e s r err n = s' -> s_currentQuery s <> None ->
  s_upstream s' = s_upstream s
  /\ same_terms (s_grant s) (s_grant s')
  /\ g_QueryCount (s_grant s') = g_QueryCount (s_grant s) + 1
  /\ g_BytesTransferred (s_grant s') = g_BytesTransferred (s_grant s) + n
  /\ s_lastBytesSnapshot s' = s_lastBytesSnapshot s
  /\ (c_connectionUID cfg <> Nil -> exists x, s_log s' = (s_log s ++ [x])%list /\ lg_bytes x = n).
Proof.
  intros <- Hq. unfold logQuery. destruct (s_currentQuery s); [|done]. cbn.
  split_and!; try done. intros Hc. rewrite (proj2 (N.eqb_neq _ _) Hc). eauto.
Qed.

(** A step either leaves the accounts alone or records one query. *)
Inductive account_step (s s' : Session) : Prop :=
| acc_same : accounts s' = accounts s -> account_step s s'
| acc_log n :
    same_terms (s_grant s) (s_grant s') ->
    g_QueryCount (s_grant s') = g_QueryCount (s_grant s) + 1 ->
    g_BytesTransferred (s_grant s') = g_BytesTransferred (s_grant s) + n ->
    s_lastBytesSnapshot s' = s_lastBytesSnapshot s + n ->
    (c_connectionUID cfg <> Nil -> exists x, s_log s' = (s_log s ++ [x])%list /\ lg_bytes x = n) ->
    account_step s s'.

Lemma log_step e s r err s0 s' :
  accounts s0 = accounts s -> s_currentQuery s0 <> None ->
  s' = logQuery cfg e (set_snapshot s0 (total_bytes e)) r err (total_bytes e - s_lastBytesSnapshot s0) ->
  account_step s s'.
Proof.
  intros Ha Hq ->. unfold accounts in Ha. simplify_eq.
  destruct (logQuery_accounts e (set_snapshot s0 (total_bytes e)) r err (total_bytes e - s_lastBytesSnapshot s0) _ eq_refl)
    as (_ & Ht & Hc & Hb & Hs & Hl); [done|]. cbn [set_snapshot s_grant s_lastBytesSnapshot s_log] in *.
  apply (acc_log _ _ (total_bytes e - s_lastBytesSnapshot s0)); rewrite <- ?H, <- ?H0, <- ?H1 in *; try done; try congruence.
  rewrite Hs. lia.
Qed.

Lemma observe_accounts e s m s' : observe cfg e s m = Ok s' -> account_step s s' /\ s_upstream s' = s_upstream s.
Proof.
  destruct m; cbn [observe]; intros H.
  - injection H as <-. unfold handleParameterDescription. repeat case_match; by split; [constructor|].
  - injection H as <-. unfold captureRowDescription. case_match; [|by split; [constructor|]].
    match goal with |- context [update_pending s ?q] => destruct (update_pending_accounts s q) as [Ha Hu] end. split; [by constructor; rewrite Ha|by rewrite Hu].
  - injection H as <-. destruct (pop_pending_accounts (set_outcome s (parseRowsAffected tag) (s_queryError s))) as [Ha Hu].
    split; [by constructor; rewrite Ha|by rewrite Hu].
  - injection H as <-. destruct (pop_pending_accounts (set_outcome s (s_rowsAffected s) (Some message))) as [Ha Hu].
    split; [by constructor; rewrite Ha|by rewrite Hu].
  - injection H as <-. unfold captureDataRow. repeat case_match; try by split; [constructor|].
    destruct (update_pending_accounts s (capture_row (c_queryStorage cfg) p values)) as [Ha Hu].
    split; [by constructor; rewrite Ha|by rewrite Hu].
  - apply rbind_Ok in H as (names & _ & [= <-]). by split; [constructor|].
  - apply rbind_Ok in H as (names & _ & [= <-]). by split; [constructor|].
  - injection H as <-. case_match; [|by split; [constructor|]].
    destruct (captureCopyData_accounts (c_queryStorage cfg) s data) as [Ha Hu]. split; [by constructor|done].
  - injection H as <-. by split; [constructor|].
  - destruct (s_currentQuery s) eqn:Eq; [|injection H as <-; by split; [constructor|]]. injection H as <-.
    split.
    + set (s1 := logQuery _ _ _ _ _ _).
      assert (account_step s s1) as Hs1 by (eapply (log_step e s); [done|congruence|reflexivity]).
      destruct Hs1; [by constructor|by eapply acc_log].
    + by destruct (logQuery_accounts e (set_snapshot s (total_bytes e)) (s_rowsAffected s) (s_queryError s)
        (total_bytes e - s_lastBytesSnapshot s) _ eq_refl) as (Hu & _); [cbn; congruence|].
  - injection H as <-. by split; [constructor|].
Qed.

Lemma persist_accounts e s cause :
  account_step s (persistAbortedQuery cfg e s cause) /\ s_upstream (persistAbortedQuery cfg e s cause) = s_upstream s.
Proof.
  unfold persistAbortedQuery. destruct (getCurrentPendingQuery s) as [q|]; [|by split; [constructor|]].
  destruct (_ <=? 0); [by split; [constructor|]|].
  destruct (s_currentQuery s) as [q0|] eqn:Eq; cbn [set_snapshot s_currentQuery]; rewrite ?Eq.
  - split; [by eapply (log_step e s); [done|congruence|reflexivity]|].
    by destruct (logQuery_accounts e (set_snapshot s (total_bytes e)) None (Some ("aborted: " ++ limit_text cause))
      (total_bytes e - s_lastBytesSnapshot s) _ eq_refl) as (Hu & _); [cbn; congruence|].
  - split; [by apply (log_step e s None (Some ("aborted: " ++ limit_text cause)) (set_current s (Some q)))|].
    by destruct (logQuery_accounts e (set_current (set_snapshot s (total_bytes e)) (Some q)) None
      (Some ("aborted: " ++ limit_text cause)) (total_bytes e - s_lastBytesSnapshot s) _ eq_refl) as (Hu & _).
Qed.

Lemma enforce_accounts e w s s' stop : enforceStreamLimits cfg e w s = (s', stop) ->
  account_step s s' /\ s_upstream s' = s_upstream s.
Proof.
  unfold enforceStreamLimits. destruct (getCurrentPendingQuery s); [|intros [= <- <-]; by split; [constructor|]].
  destruct (Check _ _); [|intros [= <- <-]; by split; [constructor|]]. intros [= <- <-].
  destruct w; [apply persist_accounts|by split; [constructor|]].
Qed.

(** A forwarded statement passed the controls of the grant. *)
Definition forwardable (g : AccessGrant) (m : client_msg) : Prop :=
  match m with
  | CQuery sql | CParse _ sql _ => check_controls g sql = None
  | _ => True
  end.

Lemma same_terms_controls g g' sql : same_terms g g' -> check_controls g' sql = check_controls g sql.
Proof. intros (Hc & _). unfold check_controls, IsReadOnly, ShouldBlockDDL, ShouldBlockCopy, HasControl. by rewrite Hc. Qed.

Lemma same_terms_refl g : same_terms g g.
Proof. done. Qed.

Lemma same_terms_trans g1 g2 g3 : same_terms g1 g2 -> same_terms g2 g3 -> same_terms g1 g3.
Proof. intros (?&?&?&?) (?&?&?&?). split_and!; congruence. Qed.

Lemma account_terms s s' : account_step s s' -> same_terms (s_grant s) (s_grant s').
Proof. destruct 1 as [Ha|]; [|done]. unfold accounts in Ha. injection Ha as -> _ _. done. Qed.

Lemma intercept_forwardable e s m s' : intercept cfg e s m = inl s' -> forwardable (s_grant s) m.
Proof.
  destruct m; cbn [intercept forwardable]; try done; unfold handleQuery, handleParse; by repeat case_match.
Qed.

(** The invariant of the accounts and of the forwarded messages. *)
Record session_ok (g0 : AccessGrant) (s : Session) : Prop := {
  so_terms : same_terms g0 (s_grant s);
  so_forward : Forall (forwardable g0) (s_upstream s);
  so_bytes : g_BytesTransferred (s_grant s) = g_BytesTransferred g0 + s_lastBytesSnapshot s;
  so_log : c_connectionUID cfg <> Nil ->
    g_QueryCount (s_grant s) = g_QueryCount g0 + zlen (s_log s) /\ log_bytes s = s_lastBytesSnapshot s
}.

Lemma session_ok_accounts g0 s s' : session_ok g0 s -> account_step s s' -> s_upstream s' = s_upstream s -> session_ok g0 s'.
Proof.
  intros [Ht Hf Hb Hl] Hstep Hu. pose proof (account_terms _ _ Hstep) as Ht'.
  destruct Hstep as [Ha|n _ Hc Hb' Hs Hlog].
  - unfold accounts in Ha. injection Ha as Hg Hsn Hlg. split; rewrite ?Hg, ?Hsn, ?Hu; try done.
    unfold log_bytes. by rewrite Hlg.
  - split; [by eapply same_terms_trans|by rewrite Hu|lia|]. intros Hne. destruct (Hl Hne) as [H1 H2].
    destruct (Hlog Hne) as (x & Hx & Hn). unfold log_bytes in *. rewrite Hx, log_bytes_snoc, zlen_app, zlen_cons, zlen_nil.
    lia.
Qed.

Lemma pg_step_ok g0 s s' : pg_step cfg s s' -> session_ok g0 s -> session_ok g0 s'.
Proof.
  intros Hstep Hok. destruct Hstep as [e s m|e c w s m s' stop H|e s m s' H].
  - unfold client_step. destruct (intercept cfg e s m) as [s1|err] eqn:E.
    + destruct (intercept_accounts _ _ _ _ E) as [Ha Hu].
      assert (session_ok g0 s1) as [Ht Hf Hb Hl] by (by eapply session_ok_accounts; [|constructor|]).
      split; cbn [forward s_grant s_upstream s_lastBytesSnapshot s_log]; try done.
      apply Forall_app. split; [done|]. apply Forall_cons. split; [|by apply Forall_nil].
      apply intercept_forwardable in E. destruct Hok as [Ht0 _ _ _].
      destruct m; cbn [forwardable] in *; try done; by rewrite (same_terms_controls _ _ _ Ht0) in E.
    + by eapply session_ok_accounts; [done|constructor|].
  - unfold upstream_step in H. apply rbind_Ok in H as (s1 & Ho & [= He]).
    destruct (observe_accounts _ _ _ _ Ho) as [Ha1 Hu1].
    destruct (enforce_accounts _ _ _ _ _ He) as [Ha2 Hu2].
    eapply session_ok_accounts; [|exact Ha2|exact Hu2].
    eapply (session_ok_accounts g0 s1); [by eapply session_ok_accounts|by constructor|done].
  - destruct (observe_accounts _ _ _ _ H) as [Ha Hu]. by eapply session_ok_accounts.
Qed.

Lemma pg_steps_ok g0 s s' : rtc (pg_step cfg) s s' -> session_ok g0 s -> session_ok g0 s'.
Proof. induction 1; eauto using pg_step_ok. Qed.

Lemma new_session_ok g0 : session_ok g0 (new_session g0).
Proof. split; cbn; try done; [lia|]. unfold zlen. cbn. intros _. split; [lia|done]. Qed.
End Steps.

Lemma ddl_is_write sql : IsDDLQuery sql = true -> IsWriteQuery sql = true.
Proof.
  unfold IsDDLQuery, IsWriteQuery. rewrite !existsb_exists. intros (k & Hk & Hp). exists k. split; [|done].
  unfold ddlKeywords, writeKeywords in *. cbn in *. intuition (subst; eauto 20).
Qed.

Lemma check_controls_None g sql : check_controls g sql = None ->
  isPasswordChangeQuery sql = false
  /\ (IsReadOnly g = true -> isWriteQuery sql = false /\ isReadOnlyBypassAttempt sql = false)
  /\ (ShouldBlockDDL g = true -> isDDLQuery sql = false)
  /\ (ShouldBlockCopy g = true -> isCopyQuery sql = false).
Proof.
  unfold check_controls. destruct (isPasswordChangeQuery sql); [done|].
  destruct (IsReadOnly g), (isReadOnlyBypassAttempt sql); cbn [andb]; try done;
    destruct (isWriteQuery sql) eqn:Ew; cbn [andb negb]; try done;
    destruct (ShouldBlockDDL g); cbn [andb]; try done; destruct (isDDLQuery sql) eqn:Ed; cbn [andb];
    try done; try (apply ddl_is_write in Ed; unfold isWriteQuery in Ew; congruence);
    destruct (ShouldBlockCopy g), (isCopyQuery sql); done.
Qed.

(** A concrete text library for the witnesses. *)
Module ToyText.
#[local] Instance text : GoText :=
  {| FormatFloat32 := fun _ => "0"; FormatFloat64 := fun _ => "0"; ParseFloat := fun _ => None;
     valid_json := fun _ => false; marshal_row := fun m => inl (FormatInt (Z.of_nat (size m))) |}.
End ToyText.

Section Properties.
Context {GT : GoText}.

(** C2. Whatever the client and the server send and however the two relay
    loops interleave, no statement reaches the upstream server, as a simple
    query or a prepared statement, unless the grant's controls admit it: never a
    recognised password change; under read_only neither a recognised write nor
    an attempt to lift the session's read-only mode; under block_ddl no DDL;
    under block_copy no COPY.  And the session never changes the grant's terms. *)
Theorem pg_only_admitted_forwarded cfg g s sql :
  rtc (pg_step cfg) (new_session g) s ->
  (CQuery sql ∈ s_upstream s \/ exists name oids, CParse name sql oids ∈ s_upstream s) ->
  isPasswordChangeQuery sql = false
  /\ (IsReadOnly g = true -> isWriteQuery sql = false /\ isReadOnlyBypassAttempt sql = false)
  /\ (ShouldBlockDDL g = true -> isDDLQuery sql = false)
  /\ (ShouldBlockCopy g = true -> isCopyQuery sql = false)
  /\ same_terms g (s_grant s).
Proof.
  intros Hsteps Hin. destruct (pg_steps_ok cfg g _ _ Hsteps (new_session_ok cfg g)) as [Ht Hf _ _].
  rewrite Forall_forall in Hf.
  assert (check_controls g sql = None) as Hc by (destruct Hin as [Hin|(name & oids & Hin)]; exact (Hf _ Hin)).
  destruct (check_controls_None _ _ Hc) as (?&?&?&?). done.
Qed.

(** The session's accounts always balance: at every moment of every run
    the query counter has grown by exactly the number of records handed to the
    store, the byte counter by exactly the sum of their byte counts, and that
    sum is the wire traffic up to the last recorded query - no byte is counted
    twice and none is skipped between records. *)
Theorem pg_accounts_balance cfg g s :
  c_connectionUID cfg <> Nil -> rtc (pg_step cfg) (new_session g) s ->
  g_QueryCount (s_grant s) = g_QueryCount g + zlen (s_log s)
  /\ g_BytesTransferred (s_grant s) = g_BytesTransferred g + log_bytes s
  /\ log_bytes s = s_lastBytesSnapshot s.
Proof.
  intros Hne Hsteps. destruct (pg_steps_ok cfg g _ _ Hsteps (new_session_ok cfg g)) as [_ _ Hb Hl].
  destruct (Hl Hne) as [H1 H2]. split_and!; [done|lia|done].
Qed.

(** A grant that is used up or withdrawn stops the next command: when the
    grant is revoked, expired, or at its query or byte limit, a query or an
    execute message is answered with the matching error and nothing is
    forwarded, tracked or recorded. *)
Theorem pg_exhausted_grant_refused cfg e s m err :
  (match m with CQuery _ | CExecute _ => True | _ => False end) ->
  checkQuotas e (s_grant s) = Some err ->
  client_step cfg e s m = sendQueryError s err
  /\ s_upstream (client_step cfg e s m) = s_upstream s /\ s_log (client_step cfg e s m) = s_log s.
Proof.
  intros Hm Hq. unfold client_step. destruct m; try done; cbn [intercept]; unfold handleQuery, handleExecute; by rewrite Hq.
Qed.
End Properties.

Definition sample_cfg : Config :=
  {| c_queryStorage := {| MaxResultRows := 10; MaxResultBytes := 1000; StoreResults := true |};
     c_connectionUID := 40%N; c_guard := None |}.
Definition live (from to now : Z) : Live := {| l_from := from; l_to := to; l_revoked := false; l_now := now |}.

Lemma pg_only_admitted_forwarded_witness :
  isWriteQuery "SELECT 1" = false.
Proof.
  destruct (pg_only_admitted_forwarded (GT := ToyText.text) sample_cfg (sample_grant ["read_only"])
    (client_step (GT := ToyText.text) sample_cfg (live 0 0 200) (new_session (sample_grant ["read_only"])) (CQuery "SELECT 1"))
    "SELECT 1") as (_ & H & _).
  - apply rtc_once, step_client.
  - left. vm_compute. left.
  - exact (proj1 (H eq_refl)).
Defined.

Definition one_query : Session :=
  client_step (GT := ToyText.text) sample_cfg (live 0 0 200) (new_session (sample_grant [])) (CQuery "SELECT 1").

Lemma pg_accounts_balance_witness :
  exists s, upstream_step (GT := ToyText.text) sample_cfg (live 20 30 210) (live 20 30 210) None one_query SReadyForQuery = Ok (s, None)
    /\ g_BytesTransferred (s_grant s) = 0 + log_bytes s.
Proof.
  destruct (upstream_step (GT := ToyText.text) sample_cfg (live 20 30 210) (live 20 30 210) None one_query SReadyForQuery)
    as [[s stop]|e|] eqn:E; [|vm_compute in E; discriminate..].
  exists s. split; [vm_compute in E; injection E as <- <-; reflexivity|].
  destruct (pg_accounts_balance (GT := ToyText.text) sample_cfg (sample_grant []) s) as (_ & H & _).
  - discriminate.
  - eapply rtc_l; [apply (step_client sample_cfg (live 0 0 200) _ (CQuery "SELECT 1"))|].
    apply rtc_once. eapply step_upstream. exact E.
  - exact H.
Defined.

Lemma pg_exhausted_grant_refused_witness :
  s_upstream (client_step (GT := ToyText.text) sample_cfg (live 0 0 5000) (new_session (sample_grant [])) (CQuery "SELECT 1")) = [].
Proof.
  exact (proj1 (proj2 (pg_exhausted_grant_refused (GT := ToyText.text) sample_cfg (live 0 0 5000)
    (new_session (sample_grant [])) (CQuery "SELECT 1") (PgLimit ErrGrantExpired) I eq_refl))).
Defined.

(** ** One exchange at a time *)

Section Exchange.
Context {GT : GoText}.
Variable cfg : Config.

(** The upstream loop over several messages; it stops at the first limit. *)
Fixpoint upstream_run (s : Session) (ms : list (Live * Live * server_msg)) :
    res unit (Session * option limit_error) :=
  match ms with
  | [] => Ok (s, None)
  | (e, c, m) :: ms =>
      let! ' (s, stop) := upstream_step cfg e c (Some c) s m in
      match stop with
      | Some err => Ok (s, Some err)
      | None => upstream_run s ms
      end
  end.

(** Nothing in flight. *)
Record idle (s : Session) : Prop := {
  id_current : s_currentQuery s = None;
  id_pending : x_pendingQueries (s_extendedState s) = [];
  id_copy : s_copyState s = None;
  id_outcome : s_rowsAffected s = None /\ s_queryError s = None
}.

Definition no_limit (ms : list (Live * Live * server_msg)) : Prop := Forall (fun p => Check (c_guard cfg) p.1.2 = None) ms.

Lemma step_no_limit e c s m s' : observe cfg e s m = Ok s' -> Check (c_guard cfg) c = None ->
  upstream_step cfg e c (Some c) s m = Ok (deliver s' m, None).
Proof.
  intros Ho Hc. unfold upstream_step. rewrite Ho. cbn [rbind]. unfold enforceStreamLimits.
  destruct (getCurrentPendingQuery _); [|done]. by rewrite Hc.
Qed.

Lemma upstream_run_cons e c m ms s s1 : observe cfg e s m = Ok s1 -> no_limit ((e, c, m) :: ms) ->
  upstream_run s ((e, c, m) :: ms) = upstream_run (deliver s1 m) ms /\ no_limit ms.
Proof.
  intros Ho Hn. apply Forall_cons in Hn as [Hc Hn]. cbn [fst snd] in Hc. cbn [upstream_run]. by rewrite (step_no_limit _ _ _ _ _ Ho Hc).
Qed.

(** Feeding result rows to a tracked query. *)
Definition capture_rows (q : pendingQuery) (vs : list (list (option bytes))) : pendingQuery :=
  fold_left (fun q v => if StoreResults (c_queryStorage cfg) && negb (pq_truncated q)
                        then capture_row (c_queryStorage cfg) q v else q) vs q.

(** Several messages delivered to the client. *)
Definition deliver_all (s : Session) (l : list server_msg) : Session :=
  {| s_grant := s_grant s; s_currentQuery := s_currentQuery s; s_extendedState := s_extendedState s; s_copyState := s_copyState s;
     s_lastBytesSnapshot := s_lastBytesSnapshot s; s_rowsAffected := s_rowsAffected s; s_queryError := s_queryError s;
     s_upstream := s_upstream s; s_client := (s_client s ++ l)%list; s_refused := s_refused s; s_log := s_log s |}.

Lemma run_rows vs : forall (es : list (Live * Live)) s q ms, length es = length vs -> s_currentQuery s = Some q ->
  no_limit (zip es (map SDataRow vs) ++ ms)%list ->
  upstream_run s (zip es (map SDataRow vs) ++ ms)%list = upstream_run (deliver_all (set_current s (Some (capture_rows q vs))) (map SDataRow vs)) ms
  /\ no_limit ms.
Proof.
  induction vs as [|v vs IH]; intros es s q ms Hl Hq Hn.
  - destruct es; [|done]. cbn in *. split; [|done]. f_equal. destruct s; unfold deliver_all; cbn in *; subst.
    by rewrite app_nil_r.
  - destruct es as [|[e c] es]; [done|]. cbn [map zip zip_with app] in *.
    set (q1 := if StoreResults (c_queryStorage cfg) && negb (pq_truncated q)
               then capture_row (c_queryStorage cfg) q v else q).
    assert (observe cfg e s (SDataRow v) = Ok (set_current s (Some q1))) as Ho.
    { cbn [observe]. unfold captureDataRow, getCurrentPendingQuery, update_pending. rewrite Hq. subst q1.
      destruct (_ && _); [done|]. f_equal. destruct s; cbn in *; by subst. }
    destruct (upstream_run_cons _ _ _ _ _ _ Ho Hn) as [-> Hn'].
    destruct (IH es (deliver (set_current s (Some q1)) (SDataRow v)) q1 ms ltac:(cbn in Hl; lia) eq_refl Hn') as [-> Hms].
    split; [|done]. f_equal. unfold deliver_all. cbn. by rewrite <- app_assoc.
Qed.

(** What is kept of a result: all of it, or nothing once a limit is passed. *)
Lemma capture_rows_spec vs : forall q, pq_truncated q = false -> StoreResults (c_queryStorage cfg) = true ->
  pq_rowNumber q <= MaxResultRows (c_queryStorage cfg) -> pq_capturedBytes q <= MaxResultBytes (c_queryStorage cfg) ->
  let q' := capture_rows q vs in
  pq_sql q' = pq_sql q /\ pq_startTime q' = pq_startTime q /\ pq_parameters q' = pq_parameters q
  /\ pq_capturedRows q' =
     if bool_decide (pq_rowNumber q + zlen vs <= MaxResultRows (c_queryStorage cfg)
                     /\ pq_capturedBytes q + foldr (fun v n => row_size v + n) 0 vs
                        <= MaxResultBytes (c_queryStorage cfg))
     then (pq_capturedRows q ++ map (fun v => convertDataRow v (pq_columnNames q) (pq_columnOIDs q)) vs)%list
     else [].
Proof.
  assert (forall vs q, pq_truncated q = true -> capture_rows q vs = q) as Htr.
  { clear vs. induction vs as [|v vs IH]; intros q Hq; [done|]. unfold capture_rows. cbn [fold_left].
    rewrite Hq, andb_false_r. exact (IH q Hq). }
  assert (forall v, 0 <= row_size v) as Hrs.
  { induction v as [|x v IHv]; unfold row_size in *; cbn [foldr]; [lia|].
    assert (0 <= opt_len x) by (destruct x; cbn; [apply zlen_nonneg|lia]). lia. }
  assert (forall l, 0 <= foldr (fun v n => row_size v + n) 0 l) as Hsum.
  { induction l as [|x l IHl]; cbn [foldr]; [lia|]. pose proof (Hrs x). lia. }
  induction vs as [|v vs IH]; intros q Hq Hst Hrn Hcb; cbn zeta.
  - cbn [capture_rows fold_left map foldr]. rewrite zlen_nil, app_nil_r. split_and!; try done.
    by rewrite bool_decide_eq_true_2 by lia.
  - assert (capture_rows q (v :: vs) = capture_rows (capture_row (c_queryStorage cfg) q v) vs) as ->.
    { unfold capture_rows. cbn [fold_left]. by rewrite Hst, Hq. }
    cbn [map foldr]. rewrite zlen_cons.
    pose proof (Hrs v). pose proof (Hsum vs). pose proof (zlen_nonneg vs).
    unfold capture_row. destruct (_ || _) eqn:Elim.
    + rewrite Htr by done. cbn. split_and!; try done. rewrite bool_decide_eq_false_2; [done|].
      apply orb_true_iff in Elim. destruct Elim; bools; lia.
    + bools. match goal with |- context [capture_rows ?q1 vs] => destruct (IH q1) as (-> & -> & -> & ->); [done|done|cbn; lia|cbn; lia|] end.
      cbn [pq_sql pq_startTime pq_parameters pq_rowNumber pq_capturedBytes pq_capturedRows pq_columnNames pq_columnOIDs].
      split_and!; try done. rewrite <- app_assoc. cbn [app].
      assert (forall (P Q : Prop) `{Decision P, Decision Q} (a b : list QueryRow), P <-> Q ->
        (if bool_decide P then a else b) = (if bool_decide Q then a else b)) as Hext.
      { intros P Q ? ? a b HPQ. by rewrite (bool_decide_ext P Q HPQ). }
      apply Hext. lia.
Qed.
End Exchange.

Section ExchangeProperties.
Context {GT : GoText}.

(** C3. A query that runs alone is recorded exactly: when nothing else is in
    flight and no limit is crossed, an admitted query followed by its result
    (row description, rows, completion, ready) reaches the upstream server once,
    the result reaches the client message for message, and the exchange leaves exactly one new record - its text, its start time, the row count
    of the completion tag, all wire bytes since the previous record, and its
    rows numbered from one, either all of them or, past a capture limit, none -
    and the session is idle again. *)
Theorem pg_query_recorded cfg s e0 sql fields vs tag e1 c1 es e2 c2 e3 c3 :
  idle s -> c_connectionUID cfg <> Nil -> StoreResults (c_queryStorage cfg) = true ->
  0 <= MaxResultRows (c_queryStorage cfg) -> 0 <= MaxResultBytes (c_queryStorage cfg) ->
  checkQuotas e0 (s_grant s) = None -> check_controls (s_grant s) sql = None ->
  length es = length vs ->
  let ms := ((e1, c1, SRowDescription fields) :: zip es (map SDataRow vs)
             ++ [(e2, c2, SCommandComplete tag); (e3, c3, SReadyForQuery)])%list in
  no_limit cfg ms ->
  exists s' entry, upstream_run cfg (client_step cfg e0 s (CQuery sql)) ms = Ok (s', None)
    /\ s_upstream s' = (s_upstream s ++ [CQuery sql])%list
    /\ s_client s' = (s_client s ++ map snd ms)%list
    /\ s_log s' = (s_log s ++ [entry])%list
    /\ q_SQLText (lg_query entry) = sql /\ q_ExecutedAt (lg_query entry) = l_now e0
    /\ q_RowsAffected (lg_query entry) = parseRowsAffected tag /\ q_Error (lg_query entry) = None
    /\ lg_bytes entry = total_bytes e3 - s_lastBytesSnapshot s
    /\ lg_rows entry = number_rows
         (if bool_decide (zlen vs <= MaxResultRows (c_queryStorage cfg)
                          /\ foldr (fun v n => row_size v + n) 0 vs <= MaxResultBytes (c_queryStorage cfg))
          then map (fun v => convertDataRow v (map fst fields) (map snd fields)) vs else [])
    /\ idle s'.
Proof.
  intros [Hc Hp Hcopy [Hra Hqe]] Hne Hst Hmr Hmb Hq Hctl Hl ms Hn. unfold ms in *.
  unfold client_step. cbn [intercept]. unfold handleQuery. rewrite Hq, Hctl.
  set (q0 := new_pending sql (l_now e0) None). set (s0 := forward (set_current s (Some q0)) (CQuery sql)).
  set (q1 := {| pq_sql := sql; pq_startTime := l_now e0; pq_parameters := None; pq_columnNames := map fst fields;
                pq_columnOIDs := map snd fields; pq_capturedRows := []; pq_capturedBytes := 0; pq_rowNumber := 0;
                pq_truncated := false |}).
  destruct (upstream_run_cons cfg e1 c1 (SRowDescription fields) _ s0 (set_current s0 (Some q1)) eq_refl Hn) as [-> Hn1].
  destruct (run_rows cfg vs es (deliver (set_current s0 (Some q1)) (SRowDescription fields)) q1 _ Hl eq_refl Hn1) as [-> Hn2].
  set (q2 := capture_rows cfg q1 vs).
  destruct (capture_rows_spec cfg vs q1 eq_refl Hst Hmr Hmb) as (Esql & Est & Epar & Erows). fold q2 in Esql, Est, Epar, Erows.
  cbn [q1 pq_sql pq_startTime pq_parameters pq_rowNumber pq_capturedBytes pq_capturedRows pq_columnNames pq_columnOIDs
       app] in Esql, Est, Epar, Erows. rewrite !Z.add_0_l in Erows.
  set (s2 := deliver_all (set_current (deliver (set_current s0 (Some q1)) (SRowDescription fields)) (Some q2)) (map SDataRow vs)).
  assert (observe cfg e2 s2 (SCommandComplete tag) = Ok (set_outcome s2 (parseRowsAffected tag) None)) as Ho2.
  { cbn [observe]. unfold pop_pending. cbn [s2 s0 set_outcome set_current deliver deliver_all forward s_extendedState s_queryError].
    by rewrite Hp, Hqe. }
  destruct (upstream_run_cons cfg _ _ _ _ _ _ Ho2 Hn2) as [-> Hn3].
  apply Forall_cons in Hn3 as [Hc3 _]. cbn [fst snd] in Hc3. cbn [upstream_run].
  erewrite (step_no_limit cfg e3 c3 _ SReadyForQuery); [|reflexivity|exact Hc3]. cbn [rbind].
  eexists _, _. split; [reflexivity|].
  cbn. rewrite (proj2 (N.eqb_neq _ _) Hne), Hcopy. cbn. split_and!; try done.
  - rewrite <- !app_assoc. cbn [app]. rewrite map_app. f_equal. f_equal. f_equal.
    change (map snd) with (fmap (M := list) (A := Live * Live * server_msg) snd).
    by rewrite snd_zip by (rewrite length_map; lia).
  - cbn [lg_rows]. by rewrite Erows.
Qed.

(** Pipelined executions are not audited one by one: when a client sends
    two Execute messages before the server answers, both run, but only one
    record is written and the query counter grows by one.  The record carries the
    text of the second statement together with the rows of the first. *)
Theorem pg_pipelined_execute_lost cfg s ea eb pa pb sta stb va vb tag e1 c1 e2 c2 e3 c3 e4 c4 e5 c5 :
  idle s -> c_connectionUID cfg <> Nil -> StoreResults (c_queryStorage cfg) = true ->
  1 <= MaxResultRows (c_queryStorage cfg) -> row_size va <= MaxResultBytes (c_queryStorage cfg) ->
  checkQuotas ea (s_grant s) = None -> checkQuotas eb (s_grant s) = None ->
  let x := s_extendedState s in
  x_portals x !! "a" = Some pa -> x_portals x !! "b" = Some pb ->
  x_preparedStatements x !! po_stmtName pa = Some sta -> x_preparedStatements x !! po_stmtName pb = Some stb ->
  let ms := [(e1, c1, SDataRow va); (e2, c2, SCommandComplete tag); (e3, c3, SDataRow vb);
             (e4, c4, SCommandComplete tag); (e5, c5, SReadyForQuery)] in
  no_limit cfg ms ->
  exists s' entry,
    upstream_run cfg (client_step cfg eb (client_step cfg ea s (CExecute "a")) (CExecute "b")) ms = Ok (s', None)
    /\ s_upstream s' = (s_upstream s ++ [CExecute "a"; CExecute "b"])%list
    /\ s_log s' = (s_log s ++ [entry])%list
    /\ g_QueryCount (s_grant s') = g_QueryCount (s_grant s) + 1
    /\ q_SQLText (lg_query entry) = ps_sql stb
    /\ lg_rows entry = number_rows [convertDataRow va [] []].
Proof.
  intros [Hc Hp Hcopy [Hra Hqe]] Hne Hst Hmr Hmb Hqa Hqb x Hpa Hpb Hsa Hsb ms Hn. unfold x, ms in *.
  unfold client_step at 2. cbn [intercept]. unfold handleExecute at 1. rewrite Hqa, Hpa, Hsa, Hp. cbn [app].
  unfold client_step. cbn [intercept]. unfold handleExecute.
  cbn [forward set_ext s_grant s_extendedState set_pending x_portals x_preparedStatements x_pendingQueries].
  rewrite Hqb, Hpb, Hsb. cbn [app].
  set (qa := new_pending (ps_sql sta) (l_now ea) (po_parameters pa)).
  set (qb := new_pending (ps_sql stb) (l_now eb) (po_parameters pb)).
  match goal with |- context [upstream_run cfg ?s0 _] => set (s0' := s0) end.
  assert (observe cfg e1 s0' (SDataRow va)
    = Ok (set_ext s0' (set_pending (s_extendedState s0') [qa; capture_row (c_queryStorage cfg) qb va]))) as Ho1.
  { cbn [observe]. unfold captureDataRow, getCurrentPendingQuery, update_pending.
    cbn [s0' forward set_ext s_currentQuery s_extendedState set_pending x_pendingQueries].
    rewrite Hc. cbn [last]. rewrite Hst. done. }
  destruct (upstream_run_cons cfg _ _ _ _ _ _ Ho1 Hn) as [-> Hn1].
  set (qb' := capture_row (c_queryStorage cfg) qb va).
  match goal with |- context [upstream_run cfg ?s0 _] => set (s1 := s0) end.
  assert (observe cfg e2 s1 (SCommandComplete tag)
    = Ok (set_current (set_ext (set_outcome s1 (parseRowsAffected tag) None)
            (set_pending (s_extendedState s1) [qb'])) (Some qa))) as Ho2.
  { cbn [observe]. unfold pop_pending. cbn. by rewrite Hqe. }
  destruct (upstream_run_cons cfg _ _ _ _ _ _ Ho2 Hn1) as [-> Hn2].
  match goal with |- context [upstream_run cfg ?s0 _] => set (s2 := s0) end.
  assert (observe cfg e3 s2 (SDataRow vb) = Ok (set_current s2 (Some (capture_row (c_queryStorage cfg) qa vb)))) as Ho3.
  { cbn [observe]. unfold captureDataRow. cbn. by rewrite Hst. }
  destruct (upstream_run_cons cfg _ _ _ _ _ _ Ho3 Hn2) as [-> Hn3].
  match goal with |- context [upstream_run cfg ?s0 _] => set (s3 := s0) end.
  destruct (upstream_run_cons cfg e4 c4 (SCommandComplete tag) _ s3 _ eq_refl Hn3) as [-> Hn4].
  apply Forall_cons in Hn4 as [Hc5 _]. cbn [fst snd] in Hc5. cbn [upstream_run].
  erewrite (step_no_limit cfg e5 c5 _ SReadyForQuery); [|reflexivity|exact Hc5]. cbn [rbind].
  eexists _, _. split; [reflexivity|].
  assert (qb' = capture_row (c_queryStorage cfg) qb va) as Eqb by done. unfold capture_row in Eqb.
  cbn [qb new_pending pq_rowNumber pq_capturedBytes] in Eqb. rewrite Z.add_0_l in Eqb.
  rewrite (proj2 (Z.leb_gt _ 0)), (proj2 (Z.ltb_ge _ _) Hmb) in Eqb by lia. cbn [orb] in Eqb.
  cbn. rewrite (proj2 (N.eqb_neq _ _) Hne), Hcopy. cbn. rewrite Eqb. cbn. rewrite <- app_assoc. split_and!; done.
Qed.
End ExchangeProperties.

(** ** Startup *)

(** A startup packet with a proper length is received whole. *)
Lemma receiveStartupMessage_ok {A} (decode : bytes -> option A) body rest m :
  zlen body + 4 < 2 ^ 32 -> decode body = Some m ->
  receiveStartupMessage decode (be_put 4 (zlen body + 4) ++ body ++ rest)%list = Ok (m, rest).
Proof.
  intros Hl Hd. pose proof (zlen_nonneg body). unfold receiveStartupMessage.
  rewrite read_full_app by done. cbn [start_io rbind].
  assert (be_get (be_put 4 (zlen body + 4)) = zlen body + 4) as ->
    by (rewrite be_get_put; apply Z.mod_small; cbn; lia).
  rewrite (proj2 (Z.ltb_ge _ 4)) by lia. cbn [rbind]. rewrite read_full_app by lia. cbn [start_io rbind]. by rewrite Hd.
Qed.

(** A client that has not authenticated can make the startup code panic: a
    first packet whose length field is 0, 1, 2 or 3 passes the SSL/GSS
    negotiation untouched and then slices a buffer shorter than four bytes;
    likewise a password packet whose length field is at most 4 makes a buffer of
    negative size or slices an empty one. *)
Theorem pg_startup_short_length_panics {A} (decode : bytes -> option A) wr tls n typ rest :
  0 <= n <= 4 -> 4 <= zlen rest ->
  (n < 4 -> let packet := (be_put 4 n ++ rest)%list in
     negotiateSSL wr tls {| wi_in := packet; wi_out := [] |} = Ok {| wi_in := packet; wi_out := [] |}
     /\ receiveStartupMessage decode packet = Panic)
  /\ receivePasswordMessage (typ :: be_put 4 n ++ rest)%list = Panic.
Proof.
  intros Hn Hr. assert (be_get (be_put 4 n) = n) as Hg by (rewrite be_get_put; apply Z.mod_small; cbn; lia). split.
  - intros Hlt packet. split.
    + unfold negotiateSSL, maxStartupNegotiationRounds. cbn [negotiate wi_in]. unfold peek.
      rewrite (proj2 (Z.leb_le 8 _)) by (unfold packet; rewrite zlen_app, zlen_be_put; lia). cbn [rbind].
      assert (take 4 (take (Z.to_nat 8) packet) = be_put 4 n) as ->.
      { rewrite take_take. unfold packet. by rewrite take_app_le. }
      rewrite Hg, (proj2 (Z.eqb_neq n 8)) by lia. done.
    + unfold receiveStartupMessage, packet. rewrite read_full_app by done. cbn [start_io rbind].
      by rewrite Hg, (proj2 (Z.ltb_lt n 4)) by lia.
  - unfold receivePasswordMessage. change (typ :: be_put 4 n ++ rest)%list with ([typ] ++ be_put 4 n ++ rest)%list.
    rewrite (read_full_app 1 [typ]) by done. cbn [start_io rbind].
    rewrite read_full_app by done. cbn [start_io rbind]. rewrite Hg. destruct (n <? 4) eqn:E; bools.
    + unfold read_full. by rewrite (proj2 (Z.ltb_lt (n - 4) 0)) by lia.
    + replace (n - 4) with 0 by lia. assert (read_full 0 rest = Ok ([], rest)) as -> by by apply (read_full_app 0 []).
      done.
Qed.

Lemma pg_startup_short_length_panics_witness :
  receiveStartupMessage (fun b => Some b) [0; 0; 0; 3; 1; 2; 3; 4] = Panic
  /\ receivePasswordMessage [112; 0; 0; 0; 3; 1; 2; 3; 4] = Panic.
Proof.
  destruct (pg_startup_short_length_panics (fun b => Some b) true None 3 112 [1; 2; 3; 4]) as [H1 H2].
  - lia.
  - vm_compute. discriminate.
  - split; [exact (proj2 (H1 ltac:(lia)))|exact H2].
Defined.

Lemma pg_query_recorded_witness :
  exists s' entry, upstream_run (GT := ToyText.text) sample_cfg
      (client_step (GT := ToyText.text) sample_cfg (live 0 0 200) (new_session (sample_grant [])) (CQuery "SELECT 1"))
      [(live 9 0 201, live 9 0 201, SRowDescription [("x", 23)]); (live 9 5 202, live 9 5 202, SDataRow [Some [49]]);
       (live 9 8 203, live 9 8 203, SCommandComplete "SELECT 1"); (live 9 11 204, live 9 11 204, SReadyForQuery)] = Ok (s', None)
    /\ s_log s' = [entry] /\ q_RowsAffected (lg_query entry) = Some 1 /\ lg_bytes entry = 20.
Proof.
  destruct (pg_query_recorded (GT := ToyText.text) sample_cfg (new_session (sample_grant [])) (live 0 0 200) "SELECT 1"
    [("x", 23)] [[Some [49]]] "SELECT 1" (live 9 0 201) (live 9 0 201) [(live 9 5 202, live 9 5 202)]
    (live 9 8 203) (live 9 8 203) (live 9 11 204) (live 9 11 204))
    as (s' & entry & Hrun & _ & _ & Hlog & _ & _ & Hra & _ & Hb & _).
  - split; [reflexivity|reflexivity|reflexivity|split; reflexivity].
  - discriminate.
  - reflexivity.
  - vm_compute; discriminate.
  - vm_compute; discriminate.
  - reflexivity.
  - reflexivity.
  - reflexivity.
  - repeat constructor.
  - exists s', entry. split; [exact Hrun|]. split; [exact Hlog|]. split; [rewrite Hra; reflexivity|rewrite Hb; reflexivity].
Defined.

(** Two prepared statements bound to two portals. *)
Definition two_portals : Session :=
  fold_left (fun s m => client_step (GT := ToyText.text) sample_cfg (live 0 0 200) s m)
    [CParse "sa" "SELECT secret" []; CParse "sb" "SELECT 1" []; CBind "a" "sa" [] []; CBind "b" "sb" [] []]
    (new_session (sample_grant [])).

Lemma pg_pipelined_execute_lost_witness :
  exists s' entry, upstream_run (GT := ToyText.text) sample_cfg
      (client_step (GT := ToyText.text) sample_cfg (live 0 0 200)
        (client_step (GT := ToyText.text) sample_cfg (live 0 0 200) two_portals (CExecute "a")) (CExecute "b"))
      [(live 9 5 202, live 9 5 202, SDataRow [Some [49]]); (live 9 8 203, live 9 8 203, SCommandComplete "SELECT 1");
       (live 9 5 202, live 9 5 202, SDataRow [Some [50]]); (live 9 8 203, live 9 8 203, SCommandComplete "SELECT 1");
       (live 9 11 204, live 9 11 204, SReadyForQuery)] = Ok (s', None)
    /\ s_log s' = [entry] /\ q_SQLText (lg_query entry) = "SELECT 1".
Proof.
  destruct (pg_pipelined_execute_lost (GT := ToyText.text) sample_cfg two_portals (live 0 0 200) (live 0 0 200)
    {| po_stmtName := "sa"; po_parameters := None |} {| po_stmtName := "sb"; po_parameters := None |}
    {| ps_sql := "SELECT secret"; ps_typeOIDs := []; ps_resolvedOIDs := [] |}
    {| ps_sql := "SELECT 1"; ps_typeOIDs := []; ps_resolvedOIDs := [] |}
    [Some [49]] [Some [50]] "SELECT 1" (live 9 5 202) (live 9 5 202) (live 9 8 203) (live 9 8 203) (live 9 5 202) (live 9 5 202)
    (live 9 8 203) (live 9 8 203) (live 9 11 204) (live 9 11 204))
    as (s' & entry & Hrun & _ & Hlog & _ & Hsql & _).
  - split; [reflexivity|reflexivity|reflexivity|split; reflexivity].
  - discriminate.
  - reflexivity.
  - vm_compute; discriminate.
  - vm_compute; discriminate.
  - reflexivity.
  - reflexivity.
  - vm_compute; reflexivity.
  - vm_compute; reflexivity.
  - vm_compute; reflexivity.
  - vm_compute; reflexivity.
  - repeat constructor.
  - exists s', entry. split; [exact Hrun|]. split; [exact Hlog|exact Hsql].
Defined.

(** ** Gaps *)

(** Two statements pass every control of every grant: a COPY whose keyword
    is followed by a tab, under block_copy, and a transaction opened
    READ WRITE that then deletes, under read_only. *)
Theorem pg_control_gaps g :
  check_controls g ("COPY" ++ String (chr 9) "t TO STDOUT") = None
  /\ check_controls g "BEGIN READ WRITE; DELETE FROM t" = None.
Proof.
  split.
  - unfold check_controls. change (isPasswordChangeQuery _) with false.
    replace (isReadOnlyBypassAttempt _) with false by (symmetry; vm_compute; reflexivity).
    change (isWriteQuery _) with false. change (isDDLQuery _) with false. change (isCopyQuery _) with false.
    by rewrite !andb_false_r.
  - unfold check_controls. change (isPasswordChangeQuery _) with false.
    rewrite (proj1 begin_read_write_unseen), (proj2 begin_read_write_unseen).
    change (isDDLQuery _) with false. change (isCopyQuery _) with false. by rewrite !andb_false_r.
Qed.

(** A user whose grant admits it can stop the proxy with one COPY: when the
    table name holds characters whose upper case is longer, the position of
    [TO] in the upper-cased statement lies past the end of the statement, and
    the relay of the server's answer panics on the slice. *)
Theorem pg_copy_statement_panics {GT : GoText} cfg s e0 e c w format :
  checkQuotas e0 (s_grant s) = None -> check_controls (s_grant s) copy_growing = None ->
  upstream_step cfg e c w (client_step cfg e0 s (CQuery copy_growing)) (SCopyOutResponse format) = Panic.
Proof.
  intros Hq Hc. unfold client_step. cbn [intercept]. unfold handleQuery. rewrite Hq, Hc.
  unfold upstream_step. cbn [observe]. unfold start_copy. cbn [forward set_current s_currentQuery new_pending pq_sql].
  by rewrite parse_growing_panics.
Qed.

Lemma pg_copy_statement_panics_witness :
  upstream_step (GT := ToyText.text) sample_cfg (live 0 0 201) (live 0 0 201) None
    (client_step (GT := ToyText.text) sample_cfg (live 0 0 200) (new_session (sample_grant [])) (CQuery copy_growing))
    (SCopyOutResponse 0) = Panic.
Proof.
  apply (pg_copy_statement_panics (GT := ToyText.text) sample_cfg (new_session (sample_grant [])) (live 0 0 200)
    (live 0 0 201) (live 0 0 201) None 0); vm_compute; reflexivity.
Defined.
