(* ===== verification/ProxyAuth.v ===== *)
(** * Client authentication in the proxies
    ([internal/proxy/postgresql/auth.go], [internal/proxy/mysql/auth.go],
    [cachingsha2.go], the credential check of [internal/proxy/mongodb/auth.go])

    The proxies terminate authentication themselves: a client names a user and a
    server, and proves its identity with the user's password or with an API key
    of that user.  Each proxy composes the same parts of the store: users
    ([Accounts]), API keys ([ApiKeys]), servers ([Servers]), grants
    ([GrantStore]), the password cache ([AuthCache]) and the hash ([Crypto]).

    [e_sql i] answers the statements of the [i]-th call of the store, [e_now i]
    is the [i]-th reading of the clock.  A goroutine that counts a use of an API
    key is recorded in [b_spawned]. *)

From Stdlib Require Import ZArith Lia List Bool String Ascii.
From stdpp Require Import base list gmap strings.
From S2P Require Import Prelude GoStrings Encoding Models Limits Revocation AuthCache GrantStore Crypto Accounts ApiKeys AccountSafety AccountTheorems Servers PgSession.

Open Scope string_scope.
Open Scope Z_scope.

(** What a login reads and changes.  The store checks API keys through a cache of
    the API server, the proxies check passwords through their own. *)
Record Backend := {
  b_acct : AcctDB;
  b_servers : ServerDB;
  b_grants : DB;
  b_keyCache : option AuthCache;
  b_authCache : option AuthCache;
  b_spawned : list uuid
}.

Definition set_keyCache (b : Backend) c : Backend :=
  {| b_acct := b_acct b; b_servers := b_servers b; b_grants := b_grants b; b_keyCache := c;
     b_authCache := b_authCache b; b_spawned := b_spawned b |}.
Definition set_authCache (b : Backend) c : Backend :=
  {| b_acct := b_acct b; b_servers := b_servers b; b_grants := b_grants b; b_keyCache := b_keyCache b;
     b_authCache := c; b_spawned := b_spawned b |}.
Definition spawn_usage (b : Backend) (id : uuid) : Backend :=
  {| b_acct := b_acct b; b_servers := b_servers b; b_grants := b_grants b; b_keyCache := b_keyCache b;
     b_authCache := b_authCache b; b_spawned := id :: b_spawned b |}.

Record Env := { e_sql : nat -> nat -> bool; e_now : nat -> time }.

Inductive quota_error := QuotaExpired | QuotaQueries | QuotaBytes.

Inductive login_error :=
| ErrMissingCredentials
| ErrReceive (e : startup_error)
| ErrLoginUser (e : acct_error)
| ErrLoginServer (e : server_error)
| ErrLoginGrant (e : store_error)
| ErrPgQuota (e : pg_error)
| ErrQuota (e : quota_error)
| ErrAPIKeyVerifyFailed (e : acct_error)
| ErrAPIKeyOwnerMismatch
| ErrInvalidPassword
| ErrAccessDenied
| ErrUnsupportedAuthPlugin
| ErrLoginServerNotFound
| ErrLoginNoActiveGrant
| ErrCachingSha2NeedsRSA
| ErrSaltField
| ErrPacketIO
| ErrPubkey
| ErrRSADecrypt.

Definition isAPIKey (password : string) : bool :=
  (APIKeyPrefixLength <=? slen password) && HasPrefix password APIKeyPrefix.

(** The quota check of the MySQL and MongoDB proxies; PostgreSQL's is [PgSession.checkQuotas]. *)
Definition checkQuotas (now : time) (grant : AccessGrant) : option quota_error :=
  if negb (IsZero (g_ExpiresAt grant)) && negb (Before now (g_ExpiresAt grant)) then Some QuotaExpired
  else if match g_MaxQueryCounts grant with Some m => m <=? g_QueryCount grant | None => false end
       then Some QuotaQueries
  else if match g_MaxBytesTransferred grant with Some m => m <=? g_BytesTransferred grant | None => false end
       then Some QuotaBytes
  else None.

Section Login.
Context {A2 : Argon2} {dig : Digest} {order : MapOrder} {UT : UUIDText}.

(** ** Passwords *)

(** The cache when the proxy has one, the hash otherwise. *)
Definition check_password (b : Backend) (user : User) (password : string) (now now' : time) :
    Backend * res crypto_error bool :=
  match b_authCache b with
  | Some c =>
      let '(c, r) := AuthCache.VerifyPassword c (uuid_String (u_UID user)) password (u_PasswordHash user) now now' in
      (set_authCache b (Some c), r)
  | None => (b, Crypto.VerifyPassword (u_PasswordHash user) password)
  end.

Definition verify_key (e : Env) (b : Backend) (key : string) : Backend * res acct_error APIKey :=
  let '(c, r) := VerifyAPIKey (e_sql e 3) (b_acct b) (b_keyCache b) key (e_now e 3) (e_now e 4) (e_now e 5) in
  (set_keyCache b c, r).

(** ** PostgreSQL *)

Record PgLogin := { pl_user : User; pl_database : Server; pl_grant : AccessGrant }.

Definition authenticateWithAPIKey (e : Env) (b : Backend) (user : User) (apiKey : string) :
    Backend * res login_error unit :=
  let '(b, r) := verify_key e b apiKey in
  match r with
  | Err err => (b, Err (ErrAPIKeyVerifyFailed err))
  | Panic => (b, Panic)
  | Ok verified =>
      if negb (N.eqb (k_UserID verified) (u_UID user)) then (b, Err ErrAPIKeyOwnerMismatch)
      else (spawn_usage b (k_ID verified), Ok tt)
  end.

(** Before the password is asked for: the user, the server, the grant, the quotas. *)
Definition pg_identify (e : Env) (b : Backend) (username databaseName : string) : res login_error PgLogin :=
  guard! negb (String.eqb username "" || String.eqb databaseName "") else ErrMissingCredentials in
  match GetUserByUsername (e_sql e 0) (b_acct b) username with
  | Err err => Err (ErrLoginUser err)
  | Panic => Panic
  | Ok user =>
      match GetServerByName (e_sql e 1 0%nat) (b_servers b) databaseName with
      | Err err => Err (ErrLoginServer err)
      | Panic => Panic
      | Ok database =>
          match GetActiveGrant (e_sql e 2) (b_grants b) (u_UID user) (d_UID database) (e_now e 0) with
          | Err err => Err (ErrLoginGrant err)
          | Panic => Panic
          | Ok grant =>
              match PgSession.checkQuotas {| l_from := 0; l_to := 0; l_revoked := false; l_now := e_now e 1 |} grant with
              | Some err => Err (ErrPgQuota err)
              | None => Ok {| pl_user := user; pl_database := database; pl_grant := grant |}
              end
          end
      end
  end.

(** [password] is what reading the password message gave. *)
Definition authenticate (e : Env) (b : Backend) (username databaseName : string) (password : res startup_error string) :
    Backend * res login_error PgLogin :=
  match pg_identify e b username databaseName with
  | Err err => (b, Err err)
  | Panic => (b, Panic)
  | Ok login =>
      match password with
      | Err err => (b, Err (ErrReceive err))
      | Panic => (b, Panic)
      | Ok password =>
          if isAPIKey password then
            match authenticateWithAPIKey e b (pl_user login) password with
            | (b, Ok _) => (b, Ok login)
            | (b, Err _) => (b, Err ErrInvalidPassword)
            | (b, Panic) => (b, Panic)
            end
          else
            match check_password b (pl_user login) password (e_now e 3) (e_now e 4) with
            | (b, Ok true) => (b, Ok login)
            | (b, Panic) => (b, Panic)
            | (b, _) => (b, Err ErrInvalidPassword)
            end
      end
  end.

(** ** MySQL and MongoDB

    Their credential checks return the user; MySQL's caller only uses success. *)

Definition authenticateAPIKey (e : Env) (b : Backend) (username key : string) : Backend * res login_error User :=
  let '(b, r) := verify_key e b key in
  match r with
  | Err _ => (b, Err ErrAccessDenied)
  | Panic => (b, Panic)
  | Ok verified =>
      match GetUserByUsername (e_sql e 0) (b_acct b) username with
      | Ok user =>
          if negb (N.eqb (u_UID user) (k_UserID verified)) then (b, Err ErrAPIKeyOwnerMismatch)
          else (spawn_usage b (k_ID verified), Ok user)
      | Err _ => (b, Err ErrAPIKeyOwnerMismatch)
      | Panic => (b, Panic)
      end
  end.

Definition verifyCredentials (e : Env) (b : Backend) (username password : string) : Backend * res login_error User :=
  if isAPIKey password then authenticateAPIKey e b username password
  else
    match GetUserByUsername (e_sql e 0) (b_acct b) username with
    | Err _ => (b, Err ErrAccessDenied)
    | Panic => (b, Panic)
    | Ok user =>
        match check_password b user password (e_now e 3) (e_now e 4) with
        | (b, Ok true) => (b, Ok user)
        | (b, Panic) => (b, Panic)
        | (b, _) => (b, Err ErrAccessDenied)
        end
    end.
End Login.

(** ** [caching_sha2_password], full authentication *)

(** [crypto/rsa] with OAEP and SHA-1, and the PEM form of the public key. *)
Class RSA (key : Type) := {
  DecryptOAEP : key -> bytes -> option bytes;
  pubkey_pem : key -> option bytes
}.

(** The connection: packets still to read ([None] ends in an error), packets
    written, whether TLS was negotiated, the salt the library drew, whether writes
    succeed. *)
Record Conn := {
  c_in : list bytes;
  c_out : list bytes;
  c_tls : bool;
  c_salt : option bytes;
  c_write : bool
}.

Definition WritePacket (c : Conn) (data : bytes) : Conn * res login_error unit :=
  if c_write c
  then ({| c_in := c_in c; c_out := (c_out c ++ [data])%list; c_tls := c_tls c; c_salt := c_salt c; c_write := c_write c |}, Ok tt)
  else (c, Err ErrPacketIO).

Definition ReadPacket (c : Conn) : Conn * res login_error bytes :=
  match c_in c with
  | p :: r => ({| c_in := r; c_out := c_out c; c_tls := c_tls c; c_salt := c_salt c; c_write := c_write c |}, Ok p)
  | [] => (c, Err ErrPacketIO)
  end.

Definition MORE_DATE_HEADER : Z := 1.
Definition CACHE_SHA2_FULL_AUTH : Z := 4.

(** The payload behind the four header bytes [WritePacket] fills in. *)
Definition writeAuthMoreDataFullAuth (c : Conn) : Conn * res login_error unit :=
  WritePacket c [MORE_DATE_HEADER; CACHE_SHA2_FULL_AUTH].

Definition xorWithSalt (data salt : bytes) : bytes :=
  if zlen salt =? 0 then data
  else imap (fun i x => Z.lxor x (nth (i mod length salt)%nat salt 0)) data.

(** [strings.TrimRight(s, "\x00")] *)
Fixpoint trimTrailingNUL (b : bytes) : bytes :=
  match b with
  | [] => []
  | x :: r => match trimTrailingNUL r with
              | [] => if x =? 0 then [] else [x]
              | r' => x :: r'
              end
  end.

Section FullAuth.
Context {key : Type} {R : RSA key}.

Definition writeAuthMoreDataPubkey (c : Conn) (k : key) : Conn * res login_error unit :=
  match pubkey_pem k with
  | None => (c, Err ErrPubkey)
  | Some pem => WritePacket c (MORE_DATE_HEADER :: pem)
  end.

Definition decryptCachingSha2Password (encrypted : bytes) (k : key) (salt : bytes) : res login_error bytes :=
  match DecryptOAEP k encrypted with
  | None => Err ErrRSADecrypt
  | Some decrypted => Ok (trimTrailingNUL (xorWithSalt decrypted salt))
  end.

Definition readConnSalt (c : Conn) : res login_error bytes :=
  match c_salt c with None => Err ErrSaltField | Some s => Ok s end.

Definition driveCachingSha2FullAuth (c : Conn) (rsaKey : option key) : Conn * res login_error bytes :=
  match writeAuthMoreDataFullAuth c with
  | (c, Err err) => (c, Err err)
  | (c, Panic) => (c, Panic)
  | (c, Ok _) =>
      match ReadPacket c with
      | (c, Err err) => (c, Err err)
      | (c, Panic) => (c, Panic)
      | (c, Ok authData) =>
          if c_tls c then (c, Ok (trimTrailingNUL authData))
          else
            let asked :=
              if bool_decide (authData = [2]) then
                match rsaKey with
                | None => (c, Err ErrCachingSha2NeedsRSA)
                | Some k =>
                    match writeAuthMoreDataPubkey c k with
                    | (c, Err err) => (c, Err err)
                    | (c, Panic) => (c, Panic)
                    | (c, Ok _) => ReadPacket c
                    end
                end
              else (c, Ok authData) in
            match asked with
            | (c, Ok authData) =>
                match rsaKey with
                | None => (c, Err ErrCachingSha2NeedsRSA)
                | Some k => (c, let! salt := readConnSalt c in decryptCachingSha2Password authData k salt)
                end
            | (c, r) => (c, r)
            end
      end
  end.

(** ** The MySQL authentication provider and handler *)

Definition AUTH_CACHING_SHA2_PASSWORD := "caching_sha2_password".
Definition AUTH_CLEAR_PASSWORD := "mysql_clear_password".

Definition Validate (plugin : string) : bool :=
  String.eqb plugin AUTH_CACHING_SHA2_PASSWORD || String.eqb plugin AUTH_CLEAR_PASSWORD.

Definition extractPlaintext (c : Conn) (rsaKey : option key) (plugin : string) (authData : bytes) :
    Conn * res login_error bytes :=
  if String.eqb plugin AUTH_CLEAR_PASSWORD then (c, Ok (trimTrailingNUL authData))
  else if String.eqb plugin AUTH_CACHING_SHA2_PASSWORD then
    if zlen authData =? 0 then (c, Ok []) else driveCachingSha2FullAuth c rsaKey
  else (c, Err ErrUnsupportedAuthPlugin).

Context {A2 : Argon2} {dig : Digest} {order : MapOrder} {UT : UUIDText}.

Definition Authenticate (e : Env) (b : Backend) (c : Conn) (rsaKey : option key) (username plugin : string)
    (authData : bytes) : Backend * Conn * res login_error unit :=
  match extractPlaintext c rsaKey plugin authData with
  | (c, Err err) => (b, c, Err err)
  | (c, Panic) => (b, c, Panic)
  | (c, Ok password) =>
      let '(b, r) := verifyCredentials e b username (bytes_str password) in
      (b, c, let! _ := r in Ok tt)
  end.

(** The user, when there is one; store errors are reported as an unknown user. *)
Definition GetCredential (e : Env) (b : Backend) (username : string) : option User :=
  match GetUserByUsername (e_sql e 1) (b_acct b) username with Ok user => Some user | _ => None end.
End FullAuth.

Record MyLogin := {
  ml_user : User;
  ml_database : Server;
  ml_grant : AccessGrant;
  ml_revocation : handle;
  ml_guard : option LimitGuard
}.

Definition OnAuthSuccess (e : Env) (b : Backend) (w : World) (user : User) (requestedDB : string) :
    World * res login_error MyLogin :=
  if String.eqb requestedDB "" then (w, Err ErrLoginServerNotFound)
  else
    match GetServerByName (e_sql e 2 0%nat) (b_servers b) requestedDB with
    | Ok db =>
        if negb (IsMySQLFamily (d_Protocol db)) then (w, Err ErrLoginServerNotFound)
        else
          match GetActiveGrant (e_sql e 4) (b_grants b) (u_UID user) (d_UID db) (e_now e 0) with
          | Ok grant =>
              match checkQuotas (e_now e 1) grant with
              | Some err => (w, Err (ErrQuota err))
              | None =>
                  let '(w, h) := Register w (g_UID grant) in
                  (w, Ok {| ml_user := user; ml_database := db; ml_grant := grant; ml_revocation := h;
                            ml_guard := WithRevocation (Some (NewLimitGuard (Some grant) true true)) true |})
              end
          | _ => (w, Err ErrLoginNoActiveGrant)
          end
    | _ => (w, Err ErrLoginServerNotFound)
    end.

(** The callbacks in the order the go-mysql server makes them for one handshake:
    the user, then the credential, then the hook on success. *)
Definition mysql_login {key : Type} {R : RSA key} {A2 : Argon2} {dig : Digest} {order : MapOrder} {UT : UUIDText}
    (e : Env) (b : Backend) (w : World) (c : Conn) (rsaKey : option key) (username requestedDB plugin : string)
    (authData : bytes) : Backend * World * res login_error MyLogin :=
  match GetCredential e b username with
  | None => (b, w, Err ErrAccessDenied)
  | Some user =>
      if negb (Validate plugin) then (b, w, Err ErrUnsupportedAuthPlugin)
      else
        match Authenticate e b c rsaKey username plugin authData with
        | (b, _, Err err) => (b, w, Err err)
        | (b, _, Panic) => (b, w, Panic)
        | (b, _, Ok _) => let '(w, r) := OnAuthSuccess e b w user requestedDB in (b, w, r)
        end
  end.

(** * Theorems *)

(** What authorises a session on [srv] as [user] under [g]: rows of the tables,
    live and active when they were read, with room left in the quotas. *)
Record authorised (e : Env) (b : Backend) (username dbname : string) (user : User) (srv : Server) (g : AccessGrant) : Prop := {
  au_user : exists k, users (b_acct b) !! k = Some user /\ live_user user = true /\ u_Username user = username;
  au_server : exists k, b_servers b !! k = Some srv /\ live_server srv = true /\ d_Name srv = dbname /\ d_Protocol srv <> ProtocolSSH;
  au_grant : exists k g0, access_grants (b_grants b) !! k = Some g0 /\ selects (u_UID user) (d_UID srv) (e_now e 0) g0 /\
    g = with_counters g0 (grant_query_count (b_grants b) g0) (grant_bytes (b_grants b) g0);
  au_time : g_ExpiresAt g <> 0 -> e_now e 1 < g_ExpiresAt g;
  au_queries : forall m, g_MaxQueryCounts g = Some m -> g_QueryCount g < m;
  au_bytes : forall m, g_MaxBytesTransferred g = Some m -> g_BytesTransferred g < m
}.

Lemma quotas_room now g :
  checkQuotas now g = None <->
  (g_ExpiresAt g <> 0 -> now < g_ExpiresAt g) /\ (forall m, g_MaxQueryCounts g = Some m -> g_QueryCount g < m) /\
  (forall m, g_MaxBytesTransferred g = Some m -> g_BytesTransferred g < m).
Proof.
  unfold checkQuotas, IsZero, Before.
  destruct (Z.eqb_spec (g_ExpiresAt g) 0) as [E|E], (Z.ltb_spec now (g_ExpiresAt g)) as [L|L]; cbn [negb andb];
  destruct (g_MaxQueryCounts g) as [q|], (g_MaxBytesTransferred g) as [m|];
  repeat match goal with |- context[?a <=? ?b] => destruct (Z.leb_spec a b) end;
  (split; [try discriminate; intros _; repeat split; intros; simplify_eq; lia|]);
  intros (H1 & H2 & H3); try done; exfalso;
  try specialize (H2 _ eq_refl); try specialize (H3 _ eq_refl); try specialize (H1 E); lia.
Qed.

Lemma pg_quotas_same now g :
  PgSession.checkQuotas {| l_from := 0; l_to := 0; l_revoked := false; l_now := now |} g = None <-> checkQuotas now g = None.
Proof. unfold PgSession.checkQuotas, checkQuotas. cbn. repeat case_match; done. Qed.

Lemma GetUserByUsername_Ok sql d name u :
  GetUserByUsername sql d name = Ok u ->
  exists k, users d !! k = Some u /\ live_user u = true /\ u_Username u = name.
Proof.
  unfold GetUserByUsername. destruct (sql 0%nat); [|done].
  destruct (List.find _ _) as [x|] eqn:E; [|done]. intros [= ->].
  apply find_rows_Some in E as [H (k & Hk)]. bools. eauto.
Qed.

Lemma GetServerByName_Ok ok d name s :
  GetServerByName ok d name = Ok s ->
  exists k, d !! k = Some s /\ live_server s = true /\ d_Name s = name /\ d_Protocol s <> ProtocolSSH.
Proof.
  unfold GetServerByName. destruct ok; [|done].
  destruct (List.find _ _) as [x|] eqn:E; [|done]. intros [= ->].
  apply find_rows_Some in E as [H (k & Hk)]. bools. exists k. repeat split; done.
Qed.

Section LoginTheorems.
Context {A2 : Argon2} {dig : Digest} {order : MapOrder} {UT : UUIDText}.

(** What proves an identity: the check of the password, or an API key row of
    that very user that is neither revoked nor expired and whose hash matches. *)
Definition proven (e : Env) (b : Backend) (user : User) (password : string) : Prop :=
  if isAPIKey password
  then exists i k, api_keys (b_acct b) !! i = Some k /\ k_UserID k = u_UID user /\ k_RevokedAt k = None /\
    (forall t, k_ExpiresAt k = Some t -> e_now e 5 <= t) /\
    (check_key (b_keyCache b) password (k_KeyHash k) (e_now e 3) (e_now e 4)).2 = Ok true
  else (check_password b user password (e_now e 3) (e_now e 4)).2 = Ok true.

Lemma verify_key_Ok e b key k :
  (verify_key e b key).2 = Ok k ->
  exists i, api_keys (b_acct b) !! i = Some k /\ k_RevokedAt k = None /\
    (forall t, k_ExpiresAt k = Some t -> e_now e 5 <= t) /\
    (check_key (b_keyCache b) key (k_KeyHash k) (e_now e 3) (e_now e 4)).2 = Ok true.
Proof.
  unfold verify_key, VerifyAPIKey. destruct (_ <? _); [done|].
  destruct (GetAPIKeyByPrefix _ _ _) as [k1|err|] eqn:Eg; [|done..].
  destruct (check_key _ _ _ _ _) as [c v] eqn:Ec. cbn.
  destruct v as [[]|err|]; [|done..]. destruct (IsRevoked k1) eqn:Er; [done|].
  destruct (IsExpired _ k1) eqn:Ex; [done|]. intros [= ->]. unfold GetAPIKeyByPrefix in Eg.
  destruct (e_sql e 3 0%nat); [|done]. destruct (List.find _ _) as [k2|] eqn:Ef; [|done].
  injection Eg as ->. apply find_rows_Some in Ef as (_ & i & Ei). exists i. split; [done|].
  unfold IsRevoked in Er. unfold IsExpired in Ex. rewrite Ec.
  split; [by destruct (k_RevokedAt k)|]. split; [|done].
  intros t Ht. rewrite Ht in Ex. unfold After in Ex. bools. lia.
Qed.

(** The credential check accepts a user exactly when the table has the user and
    the credential proves it, whatever the caches hold. *)
Lemma credentials_sound e b username password user :
  (verifyCredentials e b username password).2 = Ok user ->
  GetUserByUsername (e_sql e 0) (b_acct b) username = Ok user /\ proven e b user password.
Proof.
  unfold verifyCredentials, proven. destruct (isAPIKey password).
  - unfold authenticateAPIKey. destruct (verify_key e b password) as [b1 [k|err|]] eqn:Ev; [|done..].
    assert (Hb : b_acct b1 = b_acct b).
    { unfold verify_key in Ev. destruct (VerifyAPIKey _ _ _ _ _ _ _). by injection Ev as <- _. }
    rewrite Hb. destruct (GetUserByUsername _ _ username) as [u|err|]; [|done..].
    destruct (N.eqb_spec (u_UID u) (k_UserID k)) as [Hk|]; [|done]. intros [= ->]. split; [done|].
    destruct (verify_key_Ok e b password k) as (i & Hi & Hr); [by rewrite Ev|]. exists i, k. by repeat split; try apply Hr.
  - destruct (GetUserByUsername _ _ username) as [u|err|]; [|done..].
    destruct (check_password b u password _ _) as [b1 [[]|err|]] eqn:Ec; try done. intros [= ->]. by rewrite Ec.
Qed.

Lemma verify_key_acct e b key : b_acct (verify_key e b key).1 = b_acct b.
Proof. unfold verify_key. by destruct (VerifyAPIKey _ _ _ _ _ _ _). Qed.

Lemma pg_identify_user e b username dbname login :
  pg_identify e b username dbname = Ok login ->
  GetUserByUsername (e_sql e 0) (b_acct b) username = Ok (pl_user login).
Proof.
  unfold pg_identify. destruct (_ || _); [done|].
  destruct (GetUserByUsername _ _ _) as [u|?|]; [|done..]. destruct (GetServerByName _ _ _) as [s|?|]; [|done..].
  destruct (GetActiveGrant _ _ _ _ _) as [g|?|]; [|done..]. destruct (PgSession.checkQuotas _ _); [done|].
  by intros [= <-].
Qed.

(** Once the client is identified, PostgreSQL's check is the others' check. *)
Lemma authenticate_eq e b username dbname password login :
  pg_identify e b username dbname = Ok login ->
  authenticate e b username dbname (Ok password) =
  match verifyCredentials e b username password with
  | (b, Ok _) => (b, Ok login)
  | (b, Err _) => (b, Err ErrInvalidPassword)
  | (b, Panic) => (b, Panic)
  end.
Proof.
  intros Hi. pose proof (pg_identify_user _ _ _ _ _ Hi) as Hu.
  unfold authenticate, verifyCredentials. rewrite Hi. destruct (isAPIKey password).
  - unfold authenticateWithAPIKey, authenticateAPIKey. pose proof (verify_key_acct e b password) as Hb.
    destruct (verify_key e b password) as [b1 [k|err|]]; [|done..]. cbn in Hb. rewrite Hb, Hu, (N.eqb_sym (k_UserID k)).
    by destruct (N.eqb _ _).
  - rewrite Hu. by destruct (check_password b (pl_user login) password _ _) as [b1 [[]|err|]].
Qed.

Lemma verified_user e b username password u u' :
  GetUserByUsername (e_sql e 0) (b_acct b) username = Ok u ->
  (verifyCredentials e b username password).2 = Ok u' -> u' = u.
Proof. intros Hu [H _]%credentials_sound. congruence. Qed.

(** A credential check writes no table. *)
Lemma credentials_frame e b username password :
  let b' := (verifyCredentials e b username password).1 in
  b_acct b' = b_acct b /\ b_servers b' = b_servers b /\ b_grants b' = b_grants b.
Proof.
  unfold verifyCredentials, authenticateAPIKey, verify_key, check_password.
  repeat (case_match; simplify_eq/=; try done).
Qed.

(** C26. PostgreSQL has its own credential check, in another order: the key after the
    user.  Once its client is identified it accepts exactly the credentials that
    [verifyCredentials] accepts, the check MySQL and MongoDB's PLAIN mechanism share,
    with the same effect on caches and counters.  (MongoDB's SCRAM-SHA-256 and
    Oracle's O5LOGON take other credentials and are not compared.) *)
Theorem proxies_accept_same_credentials e b username dbname password login :
  pg_identify e b username dbname = Ok login ->
  ((authenticate e b username dbname (Ok password)).2 = Ok login
   <-> (verifyCredentials e b username password).2 = Ok (pl_user login)) /\
  (authenticate e b username dbname (Ok password)).1 = (verifyCredentials e b username password).1.
Proof.
  intros Hi. rewrite (authenticate_eq _ _ _ _ _ _ Hi).
  pose proof (fun u => verified_user e b username password _ u (pg_identify_user _ _ _ _ _ Hi)) as Hv.
  destruct (verifyCredentials e b username password) as [b1 [u|err|]]; cbn in *; [|done..].
  by rewrite (Hv u eq_refl).
Qed.

Lemma authorised_of e b username dbname user srv g ok sql :
  GetUserByUsername sql (b_acct b) username = Ok user ->
  GetServerByName ok (b_servers b) dbname = Ok srv ->
  (exists sql', GetActiveGrant sql' (b_grants b) (u_UID user) (d_UID srv) (e_now e 0) = Ok g) ->
  checkQuotas (e_now e 1) g = None -> authorised e b username dbname user srv g.
Proof.
  intros Hu Hs [sql' Hg] Hq. apply quotas_room in Hq as (Q1 & Q2 & Q3).
  apply GetActiveGrant_Ok in Hg as (k & g0 & G1 & G2 & G3 & _).
  split; [by eapply GetUserByUsername_Ok|by eapply GetServerByName_Ok|by exists k, g0|done..].
Qed.

(** C7. A PostgreSQL client that is let in is authorised: it named a live user and a
    live server, an unrevoked grant of that user on that server is in its window
    with room in its quotas, and the password or an API key of that user proved
    the identity. *)
Theorem pg_login_sound e b username dbname password login :
  (authenticate e b username dbname password).2 = Ok login ->
  authorised e b username dbname (pl_user login) (pl_database login) (pl_grant login) /\
  exists pw, password = Ok pw /\ proven e b (pl_user login) pw.
Proof.
  intros H. destruct (pg_identify e b username dbname) as [l|?|] eqn:Hi; [|by unfold authenticate in H; rewrite Hi in H..].
  destruct password as [pw|?|]; [|by unfold authenticate in H; rewrite Hi in H..].
  rewrite (authenticate_eq _ _ _ _ _ _ Hi) in H. pose proof (credentials_sound e b username pw) as Hc.
  destruct (verifyCredentials e b username pw) as [b1 [u|err|]]; [|done..]. injection H as <-.
  destruct (Hc u eq_refl) as [Hu Hp]. pose proof (pg_identify_user _ _ _ _ _ Hi) as Hu'.
  rewrite Hu in Hu'. injection Hu' as ->. split; [|by exists pw].
  revert Hi. unfold pg_identify. destruct (_ || _); [done|]. rewrite Hu.
  destruct (GetServerByName _ _ _) as [s|?|] eqn:Es; [|done..].
  destruct (GetActiveGrant _ _ _ _ _) as [g|?|] eqn:Eg; [|done..].
  destruct (PgSession.checkQuotas _ g) eqn:Eq; [done|]. apply pg_quotas_same in Eq.
  intros [= <-]. eapply authorised_of; eauto.
Qed.

(** The answer of a look-up that succeeds does not depend on which statement asked. *)
Lemma GetUserByUsername_unique sql sql' d name u u' :
  GetUserByUsername sql d name = Ok u -> GetUserByUsername sql' d name = Ok u' -> u' = u.
Proof. unfold GetUserByUsername. destruct (sql 0%nat), (sql' 0%nat); cbn; try done. destruct (List.find _ _); congruence. Qed.

(** C8. A MySQL client that is let in, whichever statements of the login fail, is
    authorised in the same sense, on a server of the MySQL family: the bytes its
    message yields are the password or an API key of the user, and its session is
    registered under its grant, so that
    revoking the grant reaches it. *)
Theorem mysql_login_sound {key : Type} {R : RSA key} e b w c (rsaKey : option key) username dbname plugin authData b' w' login :
  mysql_login e b w c rsaKey username dbname plugin authData = (b', w', Ok login) ->
  authorised e b username dbname (ml_user login) (ml_database login) (ml_grant login) /\
  IsMySQLFamily (d_Protocol (ml_database login)) = true /\
  (exists c' pw, extractPlaintext c rsaKey plugin authData = (c', Ok pw) /\ proven e b (ml_user login) (bytes_str pw)) /\
  (w', ml_revocation login) = Register w (g_UID (ml_grant login)) /\ ml_guard login <> None.
Proof.
  intros H. unfold mysql_login, GetCredential in H.
  destruct (GetUserByUsername (e_sql e 1) (b_acct b) username) as [user|?|] eqn:Eu; [|done..].
  destruct (Validate plugin); [|done]. cbn [negb] in H. unfold Authenticate in H.
  destruct (extractPlaintext c rsaKey plugin authData) as [c1 [pw|?|]] eqn:Ex; [|done..].
  pose proof (credentials_sound e b username (bytes_str pw)) as Hc.
  pose proof (credentials_frame e b username (bytes_str pw)) as (F1 & F2 & F3).
  destruct (verifyCredentials e b username (bytes_str pw)) as [b1 [u|?|]]; cbn in H; [|done..]. cbn in F1, F2, F3.
  destruct (Hc u eq_refl) as [Hu Hp].
  assert (u = user) as ->.
  { by eapply GetUserByUsername_unique. }
  unfold OnAuthSuccess in H. destruct (String.eqb _ _); [done|]. rewrite F2, F3 in H.
  destruct (GetServerByName _ _ _) as [s|?|] eqn:Es; [|done..].
  destruct (IsMySQLFamily _) eqn:Ef; [|done]. cbn [negb] in H.
  destruct (GetActiveGrant _ _ _ _ _) as [g|?|] eqn:Eg; [|done..].
  destruct (checkQuotas _ g) eqn:Eq; [done|]. destruct (Register w (g_UID g)) as [w1 h] eqn:Er.
  injection H as <- <- <-. cbn. split; [eapply authorised_of; eauto|].
  split; [done|]. split; [eauto|]. done.
Qed.

(** Without a cache, an identified client with a password (not an API key) gets in
    exactly when Argon2id maps it to the key of the password the hash was made
    from, with the salt and parameters of the hash; otherwise it is told that the
    password is wrong. *)
Theorem pg_password_login_exact e b username dbname password login salt pw0 :
  pg_identify e b username dbname = Ok login ->
  b_authCache b = None -> isAPIKey password = false -> wf_bytes salt ->
  HashPassword (Some salt) pw0 = Ok (u_PasswordHash (pl_user login)) ->
  authenticate e b username dbname (Ok password)
  = (b, if bool_decide (derive DefaultHashParams salt password = derive DefaultHashParams salt pw0)
        then Ok login else Err ErrInvalidPassword).
Proof.
  intros Hi Hc Hk Hs Hh. rewrite (authenticate_eq _ _ _ _ _ _ Hi).
  unfold verifyCredentials. rewrite Hk, (pg_identify_user _ _ _ _ _ Hi). unfold check_password. rewrite Hc.
  assert (Hp : valid_params DefaultHashParams) by (repeat split; vm_compute; congruence).
  destruct (derive_defined DefaultHashParams salt pw0 Hp) as (key0 & E0).
  destruct (derive_defined DefaultHashParams salt password Hp) as (key & E).
  unfold HashPassword in Hh. rewrite (hash_encoded _ _ _ _ E0) in Hh. injection Hh as <-.
  rewrite (verify_encoded _ _ _ password key); [|done|done|by eapply IDKey_wf|by eapply IDKey_length|done].
  rewrite E, E0. destruct (bool_decide_reflect (key = key0)) as [->|Hne].
  - by rewrite bool_decide_eq_true_2.
  - rewrite bool_decide_eq_false_2; [done|]. congruence.
Qed.
End LoginTheorems.

(** ** The exchange of [caching_sha2_password] *)

Lemma xorWithSalt_involutive data salt : xorWithSalt (xorWithSalt data salt) salt = data.
Proof.
  unfold xorWithSalt. destruct (_ =? 0); [done|].
  apply list_eq. intros i. rewrite !list_lookup_imap. destruct (data !! i) as [x|]; [|done].
  cbn. f_equal. by rewrite Z.lxor_assoc, Z.lxor_nilpotent, Z.lxor_0_r.
Qed.

Lemma trimTrailingNUL_terminated pw : last pw <> Some 0 -> trimTrailingNUL (pw ++ [0])%list = pw.
Proof.
  induction pw as [|x [|y r] IH]; intros H; [done|cbn in *; destruct (Z.eqb_spec x 0); congruence|].
  specialize (IH H). cbn in IH |- *. by rewrite IH.
Qed.

(** What a client sends for password [pw]: its bytes and a NUL, in clear under
    TLS, otherwise masked with the salt and encrypted, after asking for the public
    key or straight away. *)
Inductive client_sends {key : Type} (enc : bytes -> bytes) (salt pw : bytes) : bool -> list bytes -> Prop :=
| send_tls : client_sends enc salt pw true [(pw ++ [0])%list]
| send_asking : client_sends enc salt pw false [[2]; enc (xorWithSalt (pw ++ [0])%list salt)]
| send_known : enc (xorWithSalt (pw ++ [0])%list salt) <> [2] ->
    client_sends enc salt pw false [enc (xorWithSalt (pw ++ [0])%list salt)].

(** Full authentication recovers the client's password, on every path of the
    exchange, and always opens with the full-authentication request. *)
Theorem full_auth_roundtrip {key : Type} {R : RSA key} (k : key) pem enc salt pw tls packets out :
  (forall m, DecryptOAEP k (enc m) = Some m) -> pubkey_pem k = Some pem -> last pw <> Some 0 ->
  client_sends (key := key) enc salt pw tls packets ->
  exists more,
    driveCachingSha2FullAuth {| c_in := packets; c_out := out; c_tls := tls; c_salt := Some salt; c_write := true |} (Some k)
    = ({| c_in := []; c_out := (out ++ [MORE_DATE_HEADER; CACHE_SHA2_FULL_AUTH] :: more)%list; c_tls := tls;
          c_salt := Some salt; c_write := true |}, Ok pw).
Proof.
  intros Hd Hpem Hpw Hs. unfold driveCachingSha2FullAuth, writeAuthMoreDataFullAuth, WritePacket. cbn [c_write].
  destruct Hs as [| |Hne]; cbn [ReadPacket c_in c_tls c_out c_salt].
  - exists []. by rewrite trimTrailingNUL_terminated.
  - rewrite bool_decide_eq_true_2 by done. unfold writeAuthMoreDataPubkey. rewrite Hpem.
    cbn [WritePacket ReadPacket c_write c_in c_out c_tls c_salt readConnSalt rbind]. unfold decryptCachingSha2Password.
    rewrite Hd, xorWithSalt_involutive, trimTrailingNUL_terminated by done.
    eexists. rewrite <- app_assoc. reflexivity.
  - rewrite bool_decide_eq_false_2 by done. cbn [readConnSalt c_salt rbind]. unfold decryptCachingSha2Password.
    rewrite Hd, xorWithSalt_involutive, trimTrailingNUL_terminated by done. by exists [].
Qed.

(** ** One user, one server, one grant *)

Module SampleLogin.
Import SampleServers.
#[export] Instance sl_argon2 : Argon2 := toy_argon2.
#[export] Instance sl_digest : Digest := Toy.toy_digest.
#[export] Instance sl_order : MapOrder := Toy.toy_order.
#[export] Instance sl_rsa : RSA unit := {| DecryptOAEP _ c := Some c; pubkey_pem _ := Some [45; 45] |}.

Definition salt : bytes := replicate 16 9.
Definition hash : string := match HashPassword (Some salt) "s3cret" with Ok h => h | _ => "" end.
Definition acct : AcctDB := (CreateUser ok empty_accounts "alice" hash [RoleConnector] 1%N 10 10).1.
Definition servers : ServerDB :=
  (CreateServer dsn ok ok ∅ (sample_server "shop" "10.0.0.9" ProtocolMySQL None) key 2%N
     (Some (replicate 12 1)) (None, None) 5 5).1.
Definition backend : Backend :=
  {| b_acct := acct; b_servers := servers; b_grants := (CreateGrant ok empty_db (sample_grant []) 7%N 90).1;
     b_keyCache := None; b_authCache := None; b_spawned := [] |}.
Definition env : Env := {| e_sql _ _ := true; e_now _ := 200 |}.
Definition conn (password : bytes) : Conn :=
  {| c_in := [password]; c_out := []; c_tls := true; c_salt := None; c_write := true |}.
End SampleLogin.

Import SampleServers SampleLogin.

Lemma proxies_accept_same_credentials_witness :
  (verifyCredentials env backend "alice" "s3cret").2
  = match pg_identify env backend "alice" "shop" with Ok l => Ok (pl_user l) | _ => Panic end.
Proof.
  destruct (pg_identify env backend "alice" "shop") as [l|err|] eqn:E; [|vm_compute in E; discriminate..].
  apply (proxies_accept_same_credentials env backend "alice" "shop" "s3cret" l E).
  unfold authenticate. rewrite E. vm_compute in E. injection E as <-. vm_compute. reflexivity.
Defined.

Lemma pg_login_sound_witness :
  exists l, proven env backend (pl_user l) "s3cret" /\ g_UID (pl_grant l) = 7%N.
Proof.
  destruct (authenticate env backend "alice" "shop" (Ok "s3cret")) as [b [l|err|]] eqn:E; [|vm_compute in E; discriminate..].
  destruct (pg_login_sound env backend "alice" "shop" (Ok "s3cret") l) as (_ & pw & [= <-] & Hp); [by rewrite E|].
  exists l. split; [exact Hp|]. vm_compute in E. injection E as _ <-. reflexivity.
Defined.

Lemma mysql_login_sound_witness :
  exists l, (mysql_login env backend NewRevocationRegistry (conn (str_bytes "s3cret")) (Some tt) "alice" "shop"
               AUTH_CACHING_SHA2_PASSWORD [1]).2 = Ok l /\ IsMySQLFamily (d_Protocol (ml_database l)) = true.
Proof.
  destruct (mysql_login env backend NewRevocationRegistry (conn (str_bytes "s3cret")) (Some tt) "alice" "shop"
              AUTH_CACHING_SHA2_PASSWORD [1]) as [[b w] [l|err|]] eqn:E; [|vm_compute in E; discriminate..].
  exists l. split; [reflexivity|].
  exact (proj1 (proj2 (mysql_login_sound _ _ _ _ _ _ _ _ _ _ _ _ E))).
Defined.

Lemma pg_password_login_exact_witness :
  (authenticate env backend "alice" "shop" (Ok "s3creT")).2 = Err ErrInvalidPassword.
Proof.
  destruct (pg_identify env backend "alice" "shop") as [l|err|] eqn:E; [|vm_compute in E; discriminate..].
  rewrite (pg_password_login_exact env backend "alice" "shop" "s3creT" l salt "s3cret" E eq_refl eq_refl
             (wf_bytes_check salt eq_refl)); [vm_compute; reflexivity|].
  vm_compute in E. injection E as <-. vm_compute. reflexivity.
Defined.

Lemma full_auth_roundtrip_witness :
  exists more, driveCachingSha2FullAuth
    {| c_in := [[2]; xorWithSalt [112; 119; 0] [7; 8]]; c_out := []; c_tls := false; c_salt := Some [7; 8]; c_write := true |}
    (Some tt)
  = ({| c_in := []; c_out := [MORE_DATE_HEADER; CACHE_SHA2_FULL_AUTH] :: more; c_tls := false;
        c_salt := Some [7; 8]; c_write := true |}, Ok [112; 119]).
Proof.
  exact (full_auth_roundtrip tt [45; 45] (fun m => m) [7; 8] [112; 119] false
           [[2]; xorWithSalt [112; 119; 0] [7; 8]] [] (fun _ => eq_refl) eq_refl ltac:(discriminate)
           (send_asking (key := unit) (fun m => m) [7; 8] [112; 119])).
Defined.
