(* ===== verification/Recorder.v ===== *)
(** * Recording queries and capturing rows in the MySQL and MongoDB proxies
    ([recordQuery], [recordDisconnect], [captureRows], [captureCursorRows] of
    [internal/proxy/mysql] and [internal/proxy/mongodb])

    The two proxies share one bookkeeping: a query is recorded once, when it is
    over, with the client bytes since the previous record; a goroutine writes it
    to the store; the grant's counters in memory follow at once.  [ac_log] lists
    what was handed to those goroutines, [persist] is one goroutine. *)

From Stdlib Require Import ZArith Lia List Bool String Ascii.
From stdpp Require Import base list gmap strings.
From S2P Require Import Prelude GoStrings Models Limits GrantStore QueryStore PgSession.

Open Scope string_scope.
Open Scope Z_scope.

(** The fields of a session the bookkeeping uses. *)
Record Account := {
  ac_grant : option AccessGrant;
  ac_connection : option uuid;
  ac_snapshot : Z;
  ac_log : list logged
}.

Definition cumulativeClientBytes (e : Live) : Z := l_from e + l_to e.

Definition spend (g : AccessGrant) (bytes : Z) : AccessGrant :=
  with_counters g (g_QueryCount g + 1) (g_BytesTransferred g + bytes).

(** [e] is the instant of the record, [start] the time the query began. *)
Definition recordQuery (e : Live) (sql : string) (params : option QueryParameters) (start : time)
    (capturedRows : list QueryRow) (rowsAffected : option Z) (queryError : option string) (a : Account) : Account :=
  match ac_connection a with
  | None => a
  | Some conn =>
      let total := cumulativeClientBytes e in
      let bytesTransferred := total - ac_snapshot a in
      let record :=
        {| q_UID := Nil; q_ConnectionID := conn; q_SQLText := sql; q_Parameters := params; q_ExecutedAt := start;
           q_DurationMs := Some (Z.quot (l_now e - start) 1000); q_RowsAffected := rowsAffected;
           q_Error := queryError; q_CopyFormat := None; q_CopyDirection := None |} in
      {| ac_grant := option_map (fun g => spend g bytesTransferred) (ac_grant a);
         ac_connection := ac_connection a; ac_snapshot := total;
         ac_log := (ac_log a ++ [{| lg_query := record; lg_rows := capturedRows; lg_bytes := bytesTransferred |}])%list |}
  end.

(** One goroutine of [recordQuery].  [sql i] answers its [i]-th call of the store. *)
Definition persist (sql : nat -> nat -> bool) (d : QDB) (l : logged) (uid : uuid) (uids : nat -> uuid) (now now' : time) : QDB :=
  match CreateQuery (sql 0%nat) d (lg_query l) uid now with
  | (d, Ok created) =>
      let d := if 0 <? zlen (lg_rows l) then (StoreQueryRows (sql 1%nat) d (q_UID created) (lg_rows l) uids).1 else d in
      if 0 <? lg_bytes l
      then {| qd_db := (IncrementConnectionStats (sql 2%nat) (qd_db d) (q_ConnectionID (lg_query l)) (lg_bytes l) now').1;
              query_rows := query_rows d |}
      else d
  | (d, _) => d
  end.

(** The end of a session: what is left of the client bytes, then the close. *)
Definition recordDisconnect (sql : nat -> nat -> bool) (e : Live) (a : Account) (d : DB) (now : time) : Account * DB :=
  match ac_connection a with
  | None => (a, d)
  | Some conn =>
      let total := cumulativeClientBytes e in
      let delta := total - ac_snapshot a in
      let '(a, d) :=
        if 0 <? delta
        then ({| ac_grant := ac_grant a; ac_connection := ac_connection a; ac_snapshot := total; ac_log := ac_log a |},
              (IncrementConnectionBytes (sql 0%nat) d conn delta now).1)
        else (a, d) in
      (a, (CloseConnection (sql 1%nat) d conn now).1)
  end.

(** ** Capturing rows *)

Section Capture.
Context {A : Type}.
Variable q : QueryStorageConfig.
Variable enc : A -> option string.

(** The loop of both capture functions: [None] of [enc] skips the row.  Returns
    the rows, their size and whether a limit cut the loop short. *)
Fixpoint capture_loop (rowIdx : Z) (totalBytes : Z) (values : list A) : list QueryRow * Z * bool :=
  match values with
  | [] => ([], totalBytes, false)
  | row :: rest =>
      if (0 <? MaxResultRows q) && (MaxResultRows q <=? rowIdx) then ([], totalBytes, true)
      else
        match enc row with
        | None => capture_loop (rowIdx + 1) totalBytes rest
        | Some text =>
            let size := slen text in
            if (0 <? MaxResultBytes q) && (MaxResultBytes q <? totalBytes + size) then ([], totalBytes, true)
            else
              let '(rows, total, truncated) := capture_loop (rowIdx + 1) (totalBytes + size) rest in
              ({| qr_RowNumber := rowIdx + 1; qr_RowData := text; qr_RowSizeBytes := size |} :: rows, total, truncated)
        end
  end.
End Capture.

(** * Theorems *)

Definition logged_bytes (l : list logged) : Z := foldr (fun x n => lg_bytes x + n) 0 l.

Lemma logged_bytes_app l l' : logged_bytes (l ++ l') = logged_bytes l + logged_bytes l'.
Proof. unfold logged_bytes. induction l as [|x l IH]; cbn [foldr]; rewrite ?foldr_app in *; cbn in *; [done|]. rewrite IH. lia. Qed.

Lemma logged_bytes_perm l l' : Permutation l l' -> logged_bytes l = logged_bytes l'.
Proof. unfold logged_bytes. induction 1; cbn [foldr]; lia. Qed.

(** ** The books balance *)

(** Since the session began with grant [g0] and no bytes recorded. *)
Record balanced (g0 : AccessGrant) (conn : uuid) (a : Account) : Prop := {
  ba_conn : ac_connection a = Some conn;
  ba_snapshot : ac_snapshot a = logged_bytes (ac_log a);
  ba_grant : ac_grant a = Some (with_counters g0 (g_QueryCount g0 + zlen (ac_log a)) (g_BytesTransferred g0 + ac_snapshot a));
  ba_conns : Forall (fun l => q_ConnectionID (lg_query l) = conn) (ac_log a)
}.

Lemma with_counters_same g : with_counters g (g_QueryCount g) (g_BytesTransferred g) = g.
Proof. by destruct g. Qed.

Lemma balanced_start g0 conn :
  balanced g0 conn {| ac_grant := Some g0; ac_connection := Some conn; ac_snapshot := 0; ac_log := [] |}.
Proof. split; [done..| |done]. cbn. by rewrite !Z.add_0_r, with_counters_same. Qed.

Lemma recordQuery_balanced e sql params start rows affected err g0 conn a :
  balanced g0 conn a -> balanced g0 conn (recordQuery e sql params start rows affected err a).
Proof.
  intros [H1 H2 H3 H4]. unfold recordQuery. rewrite H1. split; cbn.
  - done.
  - rewrite logged_bytes_app. cbn. lia.
  - rewrite H3. cbn. unfold spend, with_counters. cbn. do 2 f_equal; [|lia].
    unfold zlen. rewrite length_app. cbn. lia.
  - apply Forall_app. split; [done|]. by constructor.
Qed.

(** Without a connection row nothing is counted. *)
Lemma recordQuery_unrecorded e sql params start rows affected err a :
  ac_connection a = None -> recordQuery e sql params start rows affected err a = a.
Proof. intros H. unfold recordQuery. by rewrite H. Qed.

(** ** The rows captured *)

Section CaptureFacts.
Context {A : Type} (q : QueryStorageConfig) (enc : A -> option string).

(** [r] is a row of [values], whose first row has number [i + 1]. *)
Definition row_of (i : Z) (values : list A) (r : QueryRow) : Prop :=
  exists v, values !! Z.to_nat (qr_RowNumber r - 1 - i) = Some v /\ i < qr_RowNumber r /\
    enc v = Some (qr_RowData r) /\ qr_RowSizeBytes r = slen (qr_RowData r) /\
    (0 < MaxResultRows q -> qr_RowNumber r <= MaxResultRows q).

Definition rows_bytes (rows : list QueryRow) : Z := foldr (fun r m => qr_RowSizeBytes r + m) 0 rows.

Lemma row_of_cons i v values r : row_of (i + 1) values r -> row_of i (v :: values) r.
Proof.
  intros (v0 & Hv & Hl & Hrest). exists v0.
  replace (Z.to_nat (qr_RowNumber r - 1 - i)) with (S (Z.to_nat (qr_RowNumber r - 1 - (i + 1)))) by lia.
  split; [exact Hv|]. split; [lia|done].
Qed.

Lemma capture_loop_spec : forall values i total rows n tr,
  capture_loop q enc i total values = (rows, n, tr) ->
  n = total + rows_bytes rows /\ Forall (row_of i values) rows /\
  (0 < MaxResultBytes q -> total <= MaxResultBytes q -> n <= MaxResultBytes q) /\
  (tr = false -> map qr_RowData rows = omap enc values).
Proof.
  unfold rows_bytes. induction values as [|v values IH]; intros i total rows n tr; cbn [capture_loop].
  { intros [= <- <- <-]. cbn [foldr map omap list_omap]. repeat split; [lia|constructor|lia]. }
  destruct ((0 <? MaxResultRows q) && (MaxResultRows q <=? i)) eqn:Er.
  { intros [= <- <- <-]. cbn [foldr]. repeat split; [lia|constructor|lia|done]. }
  assert (Hi : 0 < MaxResultRows q -> i + 1 <= MaxResultRows q) by (intros; bools; lia).
  destruct (enc v) as [text|] eqn:Ev.
  - destruct ((0 <? MaxResultBytes q) && _) eqn:Eb.
    { intros [= <- <- <-]. cbn [foldr]. repeat split; [lia|constructor|lia|done]. }
    destruct (capture_loop q enc (i + 1) (total + slen text) values) as [[rows' n'] tr'] eqn:El. intros [= <- <- <-].
    destruct (IH _ _ _ _ _ El) as (H1 & H2 & H3 & H4). cbn [foldr qr_RowSizeBytes]. repeat split.
    + lia.
    + constructor; [|eapply Forall_impl; [exact H2|intros; by apply row_of_cons]]. exists v. cbn [qr_RowNumber qr_RowData qr_RowSizeBytes].
      replace (Z.to_nat (i + 1 - 1 - i)) with 0%nat by lia. repeat split; try done; lia.
    + intros Hp Ht. apply H3; [done|]. bools; lia.
    + intros Htr. cbn [map omap list_omap qr_RowData]. rewrite Ev. f_equal. by apply H4.
  - intros El. destruct (IH _ _ _ _ _ El) as (H1 & H2 & H3 & H4).
    repeat split; [done|eapply Forall_impl; [exact H2|intros; by apply row_of_cons]|done|].
    intros Htr. cbn [omap list_omap]. rewrite Ev. by apply H4.
Qed.
End CaptureFacts.

(** ** What the store holds in the end *)

Definition all_true : nat -> nat -> bool := fun _ _ => true.

(** The goroutines ran, one after the other in some order, and no statement failed. *)
Inductive persisted : QDB -> list logged -> QDB -> Prop :=
| persisted_nil d : persisted d [] d
| persisted_cons d l ls uid uids now now' d' :
    queries (qd_db d) !! uid = None ->
    persisted (persist all_true d l uid uids now now') ls d' -> persisted d (l :: ls) d'.

Lemma StoreQueryRows_db sql d q rows uids : qd_db (StoreQueryRows sql d q rows uids).1 = qd_db d.
Proof. unfold StoreQueryRows. destruct (_ =? _); [done|]. by destruct (_ || _). Qed.

Lemma persist_connection d l uid uids now now' c :
  queries (qd_db d) !! uid = None -> connections (qd_db d) !! q_ConnectionID (lg_query l) = Some c -> 0 <= lg_bytes l ->
  let d' := persist all_true d l uid uids now now' in
  (exists c', connections (qd_db d') !! q_ConnectionID (lg_query l) = Some c' /\
     c_BytesTransferred c' = c_BytesTransferred c + lg_bytes l /\ c_DisconnectedAt c' = c_DisconnectedAt c) /\
  exists r, queries (qd_db d') = <[uid := r]> (queries (qd_db d)) /\ q_SQLText r = q_SQLText (lg_query l) /\
     q_ConnectionID r = q_ConnectionID (lg_query l).
Proof.
  intros Hu Hc Hb. unfold persist, CreateQuery, all_true. rewrite Hu, Hc. cbn [negb orb].
  rewrite (bool_decide_eq_false_2 (is_Some None)) by (by intros [? ?]). rewrite bool_decide_eq_true_2 by eauto. cbn [negb orb].
  match goal with |- context[<[uid := ?x]> _] => set (r := x) end.
  assert (Hr : q_SQLText r = q_SQLText (lg_query l) /\ q_ConnectionID r = q_ConnectionID (lg_query l)) by done.
  destruct (0 <? zlen (lg_rows l)), (Z.ltb_spec 0 (lg_bytes l)); cbn [qd_db]; rewrite ?StoreQueryRows_db;
    unfold IncrementConnectionStats, update_connection; cbn [set_connections set_queries qd_db connections queries fst];
    (split; [|by exists r]).
  all: first [ rewrite lookup_alter_eq, Hc; exists (bump 1 (lg_bytes l) now' c); by repeat split
             | exists c; repeat split; [done|lia] ].
Qed.

Lemma persisted_connection conn d ls d' :
  persisted d ls d' -> Forall (fun l => q_ConnectionID (lg_query l) = conn /\ 0 <= lg_bytes l) ls ->
  forall c, connections (qd_db d) !! conn = Some c ->
  exists c', connections (qd_db d') !! conn = Some c' /\ c_BytesTransferred c' = c_BytesTransferred c + logged_bytes ls /\
    c_DisconnectedAt c' = c_DisconnectedAt c /\ size (queries (qd_db d')) = (size (queries (qd_db d)) + length ls)%nat.
Proof.
  induction 1 as [d|d l ls uid uids now now' d' Hu Hp IH]; intros Hall c Hc.
  - exists c. cbn. repeat split; [done|lia|lia].
  - apply Forall_cons in Hall as [[<- Hb] Hall].
    destruct (persist_connection d l uid uids now now' c Hu Hc Hb) as [(c1 & E1 & B1 & D1) (r & Hq & _)].
    destruct (IH Hall c1 E1) as (c' & E' & B' & D' & S'). exists c'.
    rewrite Hq, map_size_insert_None in S' by done. cbn [length].
    unfold logged_bytes in *. cbn [foldr]. repeat split; [done|lia|congruence|lia].
Qed.

(** C27. The bookkeeping MySQL and MongoDB sessions share ([recordQuery],
    [recordDisconnect]) neither loses a byte nor counts one twice: when the queries
    of such a session have been written, in whatever order, and the session has
    ended, with every statement executed, its connection row has gained every byte
    the client sent or received, and there is one query row per record.  (PostgreSQL
    and Oracle do not write the bytes after their last query.) *)
Theorem session_bytes_persisted g0 conn a log d d' c e now :
  balanced g0 conn a -> Permutation (ac_log a) log -> Forall (fun l => 0 <= lg_bytes l) (ac_log a) ->
  ac_snapshot a <= cumulativeClientBytes e ->
  connections (qd_db d) !! conn = Some c -> c_DisconnectedAt c = None -> persisted d log d' ->
  let db := (recordDisconnect all_true e a (qd_db d') now).2 in
  (exists c', connections db !! conn = Some c' /\
     c_BytesTransferred c' = c_BytesTransferred c + cumulativeClientBytes e /\ c_DisconnectedAt c' = Some now) /\
  size (queries db) = (size (queries (qd_db d)) + length (ac_log a))%nat.
Proof.
  intros [H1 H2 _ H4] Hp Hb Hs Hc Ho Hd.
  assert (Hall : Forall (fun l => q_ConnectionID (lg_query l) = conn /\ 0 <= lg_bytes l) log).
  { rewrite <- Hp. by apply Forall_and. }
  destruct (persisted_connection conn d log d' Hd Hall c Hc) as (c' & E' & B' & D' & S').
  rewrite Ho in D'. rewrite <- (logged_bytes_perm _ _ Hp), <- H2 in B'. rewrite <- (Permutation_length Hp) in S'.
  unfold recordDisconnect. rewrite H1. unfold CloseConnection, IncrementConnectionBytes, update_connection, all_true.
  destruct (Z.ltb_spec 0 (cumulativeClientBytes e - ac_snapshot a)); cbn.
  - rewrite lookup_alter_eq, E'. cbn. rewrite D'. cbn. split; [|done]. rewrite lookup_insert_eq.
    eexists. split; [reflexivity|]. cbn. split; [lia|done].
  - rewrite E'. rewrite D'. cbn. split; [|done]. rewrite lookup_insert_eq.
    eexists. split; [reflexivity|]. cbn. split; [lia|done].
Qed.

Module SampleRecord.
Definition conn : uuid := 4%N.
Definition live_at (from to now : Z) : Live := {| l_from := from; l_to := to; l_revoked := false; l_now := now |}.
Definition qdb : QDB :=
  {| qd_db := (CreateConnection (fun _ => true) empty_db 1%N 2%N "10.0.0.1" conn 10 10).1; query_rows := [] |}.
Definition start : Account :=
  {| ac_grant := Some (sample_grant []); ac_connection := Some conn; ac_snapshot := 0; ac_log := [] |}.
Definition one : Account := recordQuery (live_at 100 50 20) "SELECT 1" None 15 [] None None start.
Definition entry : logged :=
  match ac_log one with
  | l :: _ => l
  | [] => {| lg_query := {| q_UID := Nil; q_ConnectionID := conn; q_SQLText := ""; q_Parameters := None; q_ExecutedAt := 0;
                            q_DurationMs := None; q_RowsAffected := None; q_Error := None; q_CopyFormat := None;
                            q_CopyDirection := None |}; lg_rows := []; lg_bytes := 0 |}
  end.
Definition written : QDB := persist all_true qdb entry 9%N (fun _ => 8%N) 20 21.
End SampleRecord.

Lemma session_bytes_persisted_witness :
  exists c', connections (recordDisconnect all_true (SampleRecord.live_at 120 80 30) SampleRecord.one
                            (qd_db SampleRecord.written) 31).2 !! SampleRecord.conn = Some c' /\ c_BytesTransferred c' = 200.
Proof.
  destruct (connections (qd_db SampleRecord.qdb) !! SampleRecord.conn) as [c|] eqn:Ec; [|vm_compute in Ec; discriminate].
  assert (Hc : c_BytesTransferred c = 0 /\ c_DisconnectedAt c = None) by (vm_compute in Ec; injection Ec as <-; split; reflexivity).
  destruct (session_bytes_persisted (sample_grant []) SampleRecord.conn SampleRecord.one [SampleRecord.entry] SampleRecord.qdb
              SampleRecord.written c (SampleRecord.live_at 120 80 30) 31) as [(c' & H1 & H2 & _) _].
  - apply recordQuery_balanced, balanced_start.
  - vm_compute. constructor. constructor.
  - vm_compute. constructor; [discriminate|constructor].
  - vm_compute. discriminate.
  - exact Ec.
  - apply Hc.
  - apply persisted_cons with (uid := 9%N) (uids := fun _ => 8%N) (now := 20) (now' := 21); [vm_compute; reflexivity|apply persisted_nil].
  - exists c'. split; [exact H1|]. rewrite H2, (proj1 Hc). reflexivity.
Defined.
