(* ===== verification/MySqlSession.v ===== *)
(** * A MySQL proxy session
    ([internal/proxy/mysql/intercept.go], [result.go], [session.go])

    The go-mysql library speaks the protocol and calls one handler per client
    command; the handler decides, runs the command on the upstream connection,
    and records it.  The upstream answers are arguments of the handlers.  A
    session is a record; what it hands to the upstream server is the list
    [ms_upstream].  A handler sees the counters, the revocation flag and the
    clock as a [Live] value, once when it decides ([e]) and once when it records
    ([e']). *)

From Stdlib Require Import ZArith Lia List Bool String Ascii.
From stdpp Require Import base list gmap strings relations.
From S2P Require Import Prelude GoStrings Encoding Models Validation Limits Revocation GrantStore Servers PgSession ProxyAuth Recorder.

Open Scope string_scope.
Open Scope Z_scope.

Inductive my_error :=
| MyRevoked
| MyQuota (e : quota_error)
| MyInvalid (e : verror)
| ErrSwitchDatabaseDenied
| ErrCommandNotPermitted
| MyUpstream (text : string).

Definition verror_text (e : verror) : string :=
  match e with
  | ErrReadOnlyViolation => "write operations not permitted with read-only access"
  | ErrDDLBlocked => "DDL operations not permitted: your access grant blocks schema modifications"
  | ErrPasswordChangeBlocked => "password modification is not allowed through the proxy"
  | ErrOraclePatternBlocked => "blocked: this Oracle operation is not permitted through the proxy"
  | ErrMySQLPatternBlocked => "blocked: this MySQL operation is not permitted through the proxy"
  | ErrMongoReadOnly => "dbbat: grant is read-only"
  | ErrMongoDDLBlocked => "dbbat: grant blocks DDL operations"
  | ErrMongoCommandBlocked => "dbbat: command not permitted through dbbat"
  | ErrMongoUnknownCommand => "dbbat: command not on the proxy allowlist"
  | ErrMongoDatabaseBlocked => "dbbat: access to this database is not permitted"
  end.

Definition my_text (e : my_error) : string :=
  match e with
  | MyRevoked => "grant revoked"
  | MyQuota QuotaExpired => "grant expired"
  | MyQuota QuotaQueries => "query count limit exceeded for this grant"
  | MyQuota QuotaBytes => "data transfer limit exceeded for this grant"
  | MyInvalid e => verror_text e
  | ErrSwitchDatabaseDenied => "switching database not permitted through dbbat"
  | ErrCommandNotPermitted => "command not permitted through dbbat"
  | MyUpstream text => text
  end.

(** ** Results *)

Inductive FieldValue := FNull | FUint (n : Z) | FInt (n : Z) | FFloat (bits : Z) | FBytes (b : bytes).

(** [AffectedRows] is a uint64; the types of the fields, the rows. *)
Record Resultset := { rs_Fields : list (option Z); rs_Values : list (list FieldValue) }.
Record Result := { r_AffectedRows : Z; r_Resultset : option Resultset }.

(** A value as it goes to [json.Marshal]; [GParsed b] is what [json.Unmarshal] made of [b]. *)
Inductive go_any :=
| GNil | GUint (n : Z) | GInt (n : Z) | GFloat (bits : Z) | GString (s : string)
| GBlob (b64 : string) | GParsed (b : bytes).

Class MyJSON := {
  json_valid : bytes -> bool;
  json_Marshal : list go_any -> option string
}.

Definition cont (b : Z) : bool := (128 <=? b) && (b <=? 191).
Definition in_range (lo hi b : Z) : bool := (lo <=? b) && (b <=? hi).

(** [utf8.Valid] *)
Fixpoint utf8_Valid (b : bytes) : bool :=
  match b with
  | [] => true
  | b0 :: r0 =>
      if b0 <? 128 then utf8_Valid r0
      else
        match r0 with
        | [] => false
        | b1 :: r1 =>
            if in_range 194 223 b0 then cont b1 && utf8_Valid r1
            else
              match r1 with
              | [] => false
              | b2 :: r2 =>
                  let lo := if b0 =? 224 then 160 else 128 in
                  let hi := if b0 =? 237 then 159 else 191 in
                  if in_range 224 239 b0 then in_range lo hi b1 && cont b2 && utf8_Valid r2
                  else
                    match r2 with
                    | [] => false
                    | b3 :: r3 =>
                        let lo := if b0 =? 240 then 144 else 128 in
                        let hi := if b0 =? 244 then 143 else 191 in
                        in_range 240 244 b0 && in_range lo hi b1 && cont b2 && cont b3 && utf8_Valid r3
                    end
              end
        end
  end.

Definition MYSQL_TYPE_JSON : Z := 245.
Definition is_blob_type (t : Z) : bool := (t =? 249) || (t =? 250) || (t =? 251) || (t =? 252).

Section Results.
Context {J : MyJSON}.

Definition jsonBytesValue (b : bytes) (fieldType : Z) : go_any :=
  if is_blob_type fieldType then
    if negb (utf8_Valid b) then GBlob (b64 b) else GString (bytes_str b)
  else if fieldType =? MYSQL_TYPE_JSON then
    if json_valid b then GParsed b else GString (bytes_str b)
  else GString (bytes_str b).

Definition jsonValue (fv : FieldValue) (fieldType : Z) : go_any :=
  match fv with
  | FNull => GNil
  | FBytes b => jsonBytesValue b fieldType
  | FUint n => GUint n
  | FInt n => GInt n
  | FFloat bits => GFloat bits
  end.

Definition encodeRow (fields : list (option Z)) (row : list FieldValue) : option string :=
  json_Marshal (imap (fun i fv => jsonValue fv (match fields !! i with Some (Some t) => t | _ => 0 end)) row).

Definition captureRows (q : QueryStorageConfig) (result : option Result) : list QueryRow * Z * bool :=
  match result with
  | Some {| r_Resultset := Some rs |} =>
      if zlen (rs_Values rs) =? 0 then ([], 0, false)
      else if negb (StoreResults q) then ([], 0, false)
      else capture_loop q (encodeRow (rs_Fields rs)) 0 0 (rs_Values rs)
  | _ => ([], 0, false)
  end.
End Results.

(** ** The session *)

Inductive up_cmd :=
| UpExecute (sql : string)
| UpPrepare (sql : string)
| UpStmtExecute (sql : string) (args : list string)
| UpStmtClose (id : Z)
| UpFieldList (table wildcard : string).

(** [ms_stmts] is the statement table of the library: the text of each prepared
    statement, which it passes back with the upstream statement. *)
Record MySession := {
  ms_database : Server;
  ms_requestedDB : string;
  ms_authComplete : bool;
  ms_account : Account;
  ms_stmts : gmap Z string;
  ms_upstream : list up_cmd
}.

Definition set_account (s : MySession) (a : Account) : MySession :=
  {| ms_database := ms_database s; ms_requestedDB := ms_requestedDB s; ms_authComplete := ms_authComplete s;
     ms_account := a; ms_stmts := ms_stmts s; ms_upstream := ms_upstream s |}.
Definition set_requested (s : MySession) (db : string) : MySession :=
  {| ms_database := ms_database s; ms_requestedDB := db; ms_authComplete := ms_authComplete s;
     ms_account := ms_account s; ms_stmts := ms_stmts s; ms_upstream := ms_upstream s |}.
Definition set_my_stmts (s : MySession) m : MySession :=
  {| ms_database := ms_database s; ms_requestedDB := ms_requestedDB s; ms_authComplete := ms_authComplete s;
     ms_account := ms_account s; ms_stmts := m; ms_upstream := ms_upstream s |}.
Definition send_up (s : MySession) (c : up_cmd) : MySession :=
  {| ms_database := ms_database s; ms_requestedDB := ms_requestedDB s; ms_authComplete := ms_authComplete s;
     ms_account := ms_account s; ms_stmts := ms_stmts s; ms_upstream := (ms_upstream s ++ [c])%list |}.

(** [recordQuery] on the session, [err] being the error of the query. *)
Definition record (e : Live) (s : MySession) (sql : string) (params : option QueryParameters) (start : time)
    (rows : list QueryRow) (affected : option Z) (err : option my_error) : MySession :=
  set_account s (recordQuery e sql params start rows affected (option_map my_text err) (ms_account s)).

Definition UseDB (e : Live) (s : MySession) (dbName : string) : MySession * option my_error :=
  if negb (ms_authComplete s) then (set_requested s dbName, None)
  else
    let syntheticSQL := "USE " ++ dbName in
    if String.eqb dbName (d_Name (ms_database s)) || String.eqb dbName (d_DatabaseName (ms_database s))
    then (record e s syntheticSQL None (l_now e) [] None None, None)
    else (record e s syntheticSQL None (l_now e) [] None (Some ErrSwitchDatabaseDenied), Some ErrSwitchDatabaseDenied).

Section Commands.
Context {J : MyJSON}.
Variable q : QueryStorageConfig.

(** [int64(result.AffectedRows)] when positive *)
Definition rows_affected (result : option Result) : option Z :=
  match result with
  | Some r => if 0 <? r_AffectedRows r then Some (i64 (r_AffectedRows r)) else None
  | None => None
  end.

(** [exec] is the command handed to the upstream server and [answer] its answer. *)
Definition runIntercepted (e e' : Live) (s : MySession) (sql : string) (params : option QueryParameters)
    (exec : up_cmd) (answer : option Result + string) : res unit (MySession * (option Result + my_error)) :=
  match ac_grant (ms_account s) with
  | None => if l_revoked e then Ok (record e s sql params (l_now e) [] None (Some MyRevoked), inr MyRevoked) else Panic
  | Some grant =>
      let refuse err := Ok (record e s sql params (l_now e) [] None (Some err), inr err) in
      if l_revoked e then refuse MyRevoked
      else
        match checkQuotas (l_now e) grant with
        | Some err => refuse (MyQuota err)
        | None =>
            match ValidateMySQLQuery sql grant with
            | Some err => refuse (MyInvalid err)
            | None =>
                let s := send_up s exec in
                match answer with
                | inr text => Ok (record e' s sql params (l_now e) [] None (Some (MyUpstream text)), inr (MyUpstream text))
                | inl result =>
                    let capturedRows := (captureRows q result).1.1 in
                    Ok (record e' s sql params (l_now e) capturedRows (rows_affected result) None, inl result)
                end
            end
        end
  end.

Definition HandleQuery (e e' : Live) (s : MySession) (query : string) (answer : option Result + string) :=
  runIntercepted e e' s query None (UpExecute query) answer.

Definition HandleFieldList (s : MySession) (table wildcard : string) : MySession := send_up s (UpFieldList table wildcard).

(** [answer] is the number the statement gets, or the upstream error. *)
Definition HandleStmtPrepare (e e' : Live) (s : MySession) (query : string) (answer : Z + string) :
    MySession * option my_error :=
  let syntheticSQL := "PREPARE: " ++ query in
  let s := send_up s (UpPrepare query) in
  match answer with
  | inr text => (record e' s syntheticSQL None (l_now e) [] None (Some (MyUpstream text)), Some (MyUpstream text))
  | inl id => (record e' (set_my_stmts s (<[id := query]> (ms_stmts s))) syntheticSQL None (l_now e) [] None None, None)
  end.

(** [None] is SQL NULL; the other arguments come rendered by [%v]. *)
Definition stringifyArgs (args : list (option string)) : option QueryParameters :=
  match args with
  | [] => None
  | _ => Some {| qp_Values := map (default "NULL") args; qp_Raw := []; qp_FormatCodes := []; qp_TypeOIDs := [] |}
  end.

(** [id] is the statement the client names; the library passes back its text and
    the upstream statement it has for it. *)
Definition HandleStmtExecute (e e' : Live) (s : MySession) (id : Z) (args : list (option string))
    (answer : option Result + string) : res unit (MySession * (option Result + my_error)) :=
  match ms_stmts s !! id with
  | None => Ok (s, inr ErrCommandNotPermitted)
  | Some query => runIntercepted e e' s query (stringifyArgs args) (UpStmtExecute query (map (default "NULL") args)) answer
  end.

Definition HandleStmtClose (s : MySession) (id : Z) : MySession :=
  match ms_stmts s !! id with
  | None => s
  | Some _ => send_up (set_my_stmts s (delete id (ms_stmts s))) (UpStmtClose id)
  end.

Definition HandleOtherCommand (s : MySession) (cmd : Z) : MySession * option my_error := (s, Some ErrCommandNotPermitted).

(** One command of the client, with the upstream's answer to it. *)
Inductive my_step : MySession -> MySession -> Prop :=
| my_use e s db : my_step s (UseDB e s db).1
| my_query e e' s sql answer s' r : HandleQuery e e' s sql answer = Ok (s', r) -> my_step s s'
| my_field_list s table wildcard : my_step s (HandleFieldList s table wildcard)
| my_prepare e e' s sql answer : my_step s (HandleStmtPrepare e e' s sql answer).1
| my_execute e e' s id args answer s' r : HandleStmtExecute e e' s id args answer = Ok (s', r) -> my_step s s'
| my_close s id : my_step s (HandleStmtClose s id)
| my_other s cmd : my_step s (HandleOtherCommand s cmd).1.
End Commands.

Definition hex_digit (n : Z) : ascii := chr (if n <? 10 then 48 + n else 87 + n).

Definition commandName (cmd : Z) : string :=
  if cmd =? 18 then "COM_BINLOG_DUMP"
  else if cmd =? 30 then "COM_BINLOG_DUMP_GTID"
  else if cmd =? 21 then "COM_REGISTER_SLAVE"
  else if cmd =? 19 then "COM_TABLE_DUMP"
  else if cmd =? 8 then "COM_SHUTDOWN"
  else if cmd =? 12 then "COM_PROCESS_KILL"
  else if cmd =? 13 then "COM_DEBUG"
  else if cmd =? 31 then "COM_RESET_CONNECTION"
  else "0x" ++ String (hex_digit (cmd / 16)) (String (hex_digit (cmd mod 16)) "").

(** ** Start and end *)

(** A failed insert is logged and the session goes on without a connection row. *)
Definition recordConnection (sql : nat -> bool) (d : DB) (login : MyLogin) (sourceIP : string) (uid : uuid) (n n' : time) :
    DB * option uuid :=
  match CreateConnection sql d (u_UID (ml_user login)) (d_UID (ml_database login)) sourceIP uid n n' with
  | (d, Ok c) => (d, Some (c_UID c))
  | (d, _) => (d, None)
  end.

Definition my_session (login : MyLogin) (requestedDB : string) (conn : option uuid) : MySession :=
  {| ms_database := ml_database login; ms_requestedDB := requestedDB; ms_authComplete := true;
     ms_account := {| ac_grant := Some (ml_grant login); ac_connection := conn; ac_snapshot := 0; ac_log := [] |};
     ms_stmts := ∅; ms_upstream := [] |}.

Definition deregisterRevocation (w : World) (login : option MyLogin) : World :=
  match login with
  | None => w
  | Some l => Deregister w (g_UID (ml_grant l)) (Some (ml_revocation l))
  end.

(** * Theorems *)

Section SessionTheorems.
Context {J : MyJSON}.
Variable q : QueryStorageConfig.

Definition executed (c : up_cmd) : option string :=
  match c with UpExecute sql | UpStmtExecute sql _ => Some sql | _ => None end.
Definition executions (s : MySession) : list string := omap executed (ms_upstream s).

Definition with_account_grant (g0 : AccessGrant) (s : MySession) : Prop :=
  exists n b, ac_grant (ms_account s) = Some (with_counters g0 n b).

Lemma ValidateMySQLQuery_counters sql g n b : ValidateMySQLQuery sql (with_counters g n b) = ValidateMySQLQuery sql g.
Proof. done. Qed.

Lemma recordQuery_grant e sql params start rows affected err a g0 n b :
  ac_grant a = Some (with_counters g0 n b) ->
  exists n' b', ac_grant (recordQuery e sql params start rows affected err a) = Some (with_counters g0 n' b') /\
    n <= n' /\ (ac_connection a <> None -> n' = n + 1) /\
    ac_connection (recordQuery e sql params start rows affected err a) = ac_connection a.
Proof.
  intros H. unfold recordQuery. destruct (ac_connection a) as [c|] eqn:E.
  - cbn. rewrite H. cbn. unfold spend. cbn. eexists _, _. split; [reflexivity|]. cbn. split; [lia|]. done.
  - exists n, b. rewrite E. split; [done|]. split; [lia|done].
Qed.

(** One command: the account changes by at most one record; at most one
    statement is executed, and only after the checks passed. *)
Inductive my_effect (s s' : MySession) : Prop :=
| me_same : ms_account s' = ms_account s -> executions s' = executions s -> my_effect s s'
| me_recorded e sql params start rows affected err :
    ms_account s' = recordQuery e sql params start rows affected err (ms_account s) ->
    executions s' = executions s -> my_effect s s'
| me_executed e e' sql params rows affected err g :
    ac_grant (ms_account s) = Some g -> l_revoked e = false -> checkQuotas (l_now e) g = None ->
    ValidateMySQLQuery sql g = None ->
    ms_account s' = recordQuery e' sql params (l_now e) rows affected err (ms_account s) ->
    executions s' = (executions s ++ [sql])%list -> my_effect s s'.

Lemma executions_send s c : executions (send_up s c) = (executions s ++ option_list (executed c))%list.
Proof. unfold executions. cbn. rewrite omap_app. cbn. by destruct (executed c). Qed.

Lemma runIntercepted_effect e e' s sql params exec answer s' r :
  executed exec = Some sql ->
  runIntercepted q e e' s sql params exec answer = Ok (s', r) -> my_effect s s'.
Proof.
  intros Hx. unfold runIntercepted. destruct (ac_grant (ms_account s)) as [g|] eqn:Eg.
  2:{ destruct (l_revoked e); [|done]. intros [= <- _]. by eapply me_recorded. }
  destruct (l_revoked e) eqn:Er; [intros [= <- _]; by eapply me_recorded|].
  destruct (checkQuotas _ g) eqn:Eq; [intros [= <- _]; by eapply me_recorded|].
  destruct (ValidateMySQLQuery sql g) eqn:Ev; [intros [= <- _]; by eapply me_recorded|].
  assert (He : forall a, executions (set_account (send_up s exec) a) = (executions s ++ [sql])%list).
  { intros a. change (executions (send_up s exec) = (executions s ++ [sql])%list).
    by rewrite executions_send, Hx. }
  destruct answer as [result|text]; intros [= <- _]; (eapply me_executed; [done..|reflexivity|apply He]).
Qed.

Lemma my_step_effect s s' : my_step q s s' -> my_effect s s'.
Proof.
  intros [e s0 db|e e' s0 sql answer s1 r H|s0 t w|e e' s0 sql answer|e e' s0 id args answer s1 r H|s0 id|s0 cmd].
  - unfold UseDB. destruct (ms_authComplete s0); [|by apply me_same].
    destruct (_ || _); by eapply me_recorded.
  - by eapply runIntercepted_effect in H.
  - apply me_same; [done|]. unfold HandleFieldList. by rewrite executions_send, app_nil_r.
  - unfold HandleStmtPrepare. destruct answer; (eapply me_recorded; [reflexivity|]);
      change (executions (send_up s0 (UpPrepare sql)) = executions s0); by rewrite executions_send, app_nil_r.
  - unfold HandleStmtExecute in H. destruct (ms_stmts s0 !! id) as [query|]; [|injection H as <- _; by apply me_same].
    by eapply runIntercepted_effect in H.
  - unfold HandleStmtClose. destruct (ms_stmts s0 !! id); [|by apply me_same]. apply me_same; [done|].
    change (executions (send_up s0 (UpStmtClose id)) = executions s0). by rewrite executions_send, app_nil_r.
  - by apply me_same.
Qed.

(** What holds of a session at every moment. *)
Record my_ok (g0 : AccessGrant) (conn : option uuid) (s : MySession) : Prop := {
  mo_conn : ac_connection (ms_account s) = conn;
  mo_grant : exists n b, ac_grant (ms_account s) = Some (with_counters g0 n b) /\
    g_QueryCount g0 <= n /\ (conn <> None -> zlen (executions s) <= n - g_QueryCount g0);
  mo_valid : Forall (fun sql => ValidateMySQLQuery sql g0 = None) (executions s);
  mo_quota : conn <> None -> forall m, g_MaxQueryCounts g0 = Some m -> zlen (executions s) <= Z.max 0 (m - g_QueryCount g0);
  mo_balanced : forall c, conn = Some c -> balanced g0 c (ms_account s)
}.

Lemma my_start login db conn : my_ok (ml_grant login) conn (my_session login db conn).
Proof.
  split; [done| | | |].
  - exists (g_QueryCount (ml_grant login)), (g_BytesTransferred (ml_grant login)). cbn.
    rewrite with_counters_same. repeat split; [lia|]. intros _. unfold zlen. cbn. lia.
  - constructor.
  - intros _ m _. unfold zlen. cbn. lia.
  - intros c ->. apply balanced_start.
Qed.

Lemma my_effect_ok g0 conn s s' : my_ok g0 conn s -> my_effect s s' -> my_ok g0 conn s'.
Proof.
  intros [H1 (n & b & Hg & Hn & Hx) H3 H4 H5] Hs.
  destruct Hs as [Ha He|e sql params start rows affected err Ha He|e e' sql params rows affected err g Eg Er Eq Ev Ha He].
  - split; rewrite ?Ha, ?He; eauto.
  - destruct (recordQuery_grant e sql params start rows affected err _ g0 n b Hg) as (n' & b' & G1 & G2 & G3 & G4).
    split; rewrite ?Ha, ?He; try done; [congruence| |].
    + exists n', b'. split; [done|]. split; [lia|]. intros Hc. specialize (Hx Hc). rewrite <- H1 in Hc.
      rewrite (G3 Hc). lia.
    + intros c Hc. apply recordQuery_balanced. by apply H5.
  - rewrite Hg in Eg. injection Eg as <-. apply quotas_room in Eq as (_ & Q2 & _). cbn in Q2.
    destruct (recordQuery_grant e' sql params (l_now e) rows affected err _ g0 n b Hg) as (n' & b' & G1 & G2 & G3 & G4).
    assert (Hl : zlen (executions s') = zlen (executions s) + 1) by (rewrite He; unfold zlen; rewrite length_app; cbn; lia).
    split; rewrite ?Ha; [congruence| | | |].
    + exists n', b'. split; [done|]. split; [lia|]. intros Hc. specialize (Hx Hc). rewrite <- H1 in Hc.
      rewrite (G3 Hc). lia.
    + rewrite He. apply Forall_app. split; [done|]. by repeat constructor.
    + intros Hc m Hm. specialize (Q2 m Hm). specialize (Hx Hc). lia.
    + intros c Hc. apply recordQuery_balanced. by apply H5.
Qed.

Lemma my_steps_ok g0 conn s s' : rtc (my_step q) s s' -> my_ok g0 conn s -> my_ok g0 conn s'.
Proof. induction 1 as [|s s1 s2 Hs _ IH]; intros Hok; [done|]. apply IH. eapply my_effect_ok; [done|]. by apply my_step_effect. Qed.

(** C4. Every statement a session executed upstream, as a query or as a prepared
    statement, passed the validation of its grant, and while the session has a
    connection row the statements executed never exceed what the query quota left
    when it began. *)
Theorem mysql_only_admitted_executed login db conn s sql :
  rtc (my_step q) (my_session login db conn) s ->
  In (UpExecute sql) (ms_upstream s) \/ (exists args, In (UpStmtExecute sql args) (ms_upstream s)) ->
  ValidateMySQLQuery sql (ml_grant login) = None /\
  (conn <> None -> forall m, g_MaxQueryCounts (ml_grant login) = Some m ->
     zlen (executions s) <= Z.max 0 (m - g_QueryCount (ml_grant login))).
Proof.
  intros Hr Hin. pose proof (my_steps_ok _ _ _ _ Hr (my_start login db conn)) as H. split; [|apply (mo_quota _ _ _ H)].
  apply (proj1 (List.Forall_forall _ _) (mo_valid _ _ _ H)). apply list_elem_of_In, list_elem_of_omap.
  destruct Hin as [Hin|[args Hin]]; (eexists; split; [by apply list_elem_of_In|done]).
Qed.

(** The books of a session balance: with a connection row, after any commands,
    the bytes of its records add up to the last snapshot, and the grant's
    counters in memory are the initial ones plus one per record and plus those
    bytes. *)
Theorem mysql_accounts_balance login db conn s :
  rtc (my_step q) (my_session login db (Some conn)) s ->
  let a := ms_account s in
  ac_snapshot a = logged_bytes (ac_log a) /\
  ac_grant a = Some (with_counters (ml_grant login) (g_QueryCount (ml_grant login) + zlen (ac_log a))
                                   (g_BytesTransferred (ml_grant login) + ac_snapshot a)).
Proof.
  intros Hr. pose proof (my_steps_ok _ _ _ _ Hr (my_start login db (Some conn))) as H.
  pose proof (mo_balanced _ _ _ H conn eq_refl) as Hb. split; [apply (ba_snapshot _ _ _ Hb)|apply (ba_grant _ _ _ Hb)].
Qed.

(** Without a connection row, whose insert may fail without ending the session,
    the query quota binds nothing: a query the grant admits once is executed any
    number of times. *)
Theorem mysql_unrecorded_session_unlimited login db e sql n :
  l_revoked e = false -> checkQuotas (l_now e) (ml_grant login) = None ->
  ValidateMySQLQuery sql (ml_grant login) = None ->
  exists s, rtc (my_step q) (my_session login db None) s /\ executions s = repeat sql n /\ ac_log (ms_account s) = [].
Proof.
  intros Hr Hq Hv.
  assert (Hn : exists s, rtc (my_step q) (my_session login db None) s /\ executions s = repeat sql n /\
            ms_account s = ms_account (my_session login db None)).
  { induction n as [|n (s & H1 & H2 & H3)]; [by exists (my_session login db None)|].
    destruct (HandleQuery q e e s sql (inl None)) as [[s' r]|?|] eqn:E.
    2,3: by revert E; unfold HandleQuery, runIntercepted; rewrite H3; cbn; rewrite Hr, Hq, Hv.
    exists s'. split; [eapply rtc_r; [exact H1|]; by eapply my_query|].
    revert E. unfold HandleQuery, runIntercepted. rewrite H3. cbn [my_session ms_account ac_grant]. rewrite Hr, Hq, Hv.
    intros [= <- _]. split.
    - change (executions (send_up s (UpExecute sql)) = repeat sql (S n)).
      rewrite executions_send, H2. cbn. by rewrite <- repeat_cons.
    - unfold record, recordQuery. cbn. by rewrite H3. }
  destruct Hn as (s & H1 & H2 & H3). exists s. by rewrite H3.
Qed.

(** The rows kept of a result are rows of the result in order, encoded, within
    both limits; when nothing was cut off they are all its rows that encode. *)
Theorem mysql_captured_rows_exact rs n rows total cut :
  captureRows q (Some {| r_AffectedRows := n; r_Resultset := Some rs |}) = (rows, total, cut) ->
  StoreResults q = true ->
  Forall (row_of q (encodeRow (rs_Fields rs)) 0 (rs_Values rs)) rows /\ total = rows_bytes rows /\
  (0 < MaxResultBytes q -> total <= MaxResultBytes q) /\
  (cut = false -> map qr_RowData rows = omap (encodeRow (rs_Fields rs)) (rs_Values rs)).
Proof.
  intros H Hs. unfold captureRows in H. rewrite Hs in H. destruct (Z.eqb_spec (zlen (rs_Values rs)) 0) as [E|E].
  - injection H as <- <- <-. repeat split; [constructor|lia|]. intros _.
    destruct (rs_Values rs); [done|]. unfold zlen in E. cbn in E. lia.
  - destruct (capture_loop_spec q _ _ _ _ _ _ _ H) as (H1 & H2 & H3 & H4).
    repeat split; [done|lia|intros; apply H3; lia|done].
Qed.

(** PREPARE is not checked: it reaches the upstream server of a session whose
    grant is revoked, expired, exhausted or forbids the statement. *)
Theorem mysql_prepare_unchecked e e' s query answer :
  ms_upstream (HandleStmtPrepare e e' s query answer).1 = (ms_upstream s ++ [UpPrepare query])%list.
Proof. unfold HandleStmtPrepare. by destruct answer. Qed.
End SessionTheorems.

(** ** A session of the sample login *)

Module SampleMy.
#[export] Instance sm_json : MyJSON :=
  {| json_valid _ := true; json_Marshal l := Some (String.concat "," (map (fun x => match x with GString s => s | _ => "?" end) l)) |}.
Definition storage : QueryStorageConfig := {| MaxResultRows := 1; MaxResultBytes := 100; StoreResults := true |}.
Definition login : MyLogin :=
  {| ml_user := {| u_UID := 1%N; u_Username := "alice"; u_PasswordHash := ""; u_Roles := []; u_RateLimitExempt := false;
                   u_PasswordChangedAt := None; u_ProtocolData := None; u_CreatedAt := 0; u_UpdatedAt := 0; u_DeletedAt := None |};
     ml_database := SampleServers.sample_server "shop" "10.0.0.9" ProtocolMySQL None;
     ml_grant := {| g_UID := 7%N; g_UserID := 1%N; g_DatabaseID := 2%N; g_Controls := [ControlReadOnly];
       g_GrantedBy := 3%N; g_StartsAt := 100; g_ExpiresAt := 1000; g_RevokedAt := None;
       g_RevokedBy := None; g_MaxQueryCounts := Some 1; g_MaxBytesTransferred := None;
       g_CreatedAt := 90; g_QueryCount := 0; g_BytesTransferred := 0 |}; ml_revocation := 0%nat;
     ml_guard := None |}.
Definition result : Result :=
  {| r_AffectedRows := 0;
     r_Resultset := Some {| rs_Fields := [Some 253]; rs_Values := [[FBytes [104; 105]]; [FBytes [120]]] |} |}.
Definition live1 := SampleRecord.live_at 100 20 200.
Definition live2 := SampleRecord.live_at 100 90 201.
End SampleMy.

Import SampleMy.

Lemma one_query_run :
  exists s, HandleQuery storage live1 live2 (my_session login "shop" (Some 4%N)) "SELECT 1" (inl (Some result)) = Ok (s, inl (Some result)) /\
    rtc (my_step storage) (my_session login "shop" (Some 4%N)) s /\ In (UpExecute "SELECT 1") (ms_upstream s).
Proof.
  destruct (HandleQuery storage live1 live2 (my_session login "shop" (Some 4%N)) "SELECT 1" (inl (Some result)))
    as [[s r]|e|] eqn:E; [|vm_compute in E; discriminate..].
  exists s. assert (Hr : r = inl (Some result) /\ ms_upstream s = [UpExecute "SELECT 1"]).
  { vm_compute in E. injection E as <- <-. split; reflexivity. }
  destruct Hr as [-> Hu]. split; [reflexivity|]. split; [by eapply rtc_once, my_query|]. rewrite Hu. by left.
Qed.

Lemma mysql_only_admitted_executed_witness : ValidateMySQLQuery "SELECT 1" (ml_grant login) = None.
Proof.
  destruct one_query_run as (s & _ & Hr & Hin).
  exact (proj1 (mysql_only_admitted_executed storage login "shop" (Some 4%N) s "SELECT 1" Hr (or_introl Hin))).
Defined.

Lemma mysql_accounts_balance_witness :
  exists s, rtc (my_step storage) (my_session login "shop" (Some 4%N)) s /\
    ac_snapshot (ms_account s) = logged_bytes (ac_log (ms_account s)).
Proof.
  destruct one_query_run as (s & _ & Hr & _). exists s. split; [exact Hr|].
  exact (proj1 (mysql_accounts_balance storage login "shop" 4%N s Hr)).
Defined.

Lemma mysql_unrecorded_session_unlimited_witness :
  exists s, rtc (my_step storage) (my_session login "shop" None) s /\ executions s = repeat "SELECT 1" 1000 /\
    ac_log (ms_account s) = [].
Proof.
  apply (mysql_unrecorded_session_unlimited storage login "shop" live1 "SELECT 1" 1000); vm_compute; reflexivity.
Defined.

Lemma mysql_captured_rows_exact_witness :
  exists rows total cut, captureRows storage (Some result) = (rows, total, cut) /\ cut = true /\ total = rows_bytes rows.
Proof.
  destruct (captureRows storage (Some result)) as [[rows total] cut] eqn:E. exists rows, total, cut.
  split; [reflexivity|]. split; [vm_compute in E; injection E as _ _ <-; reflexivity|].
  exact (proj1 (proj2 (mysql_captured_rows_exact storage _ 0 rows total cut E eq_refl))).
Defined.
