(* ===== verification/MongoBson.v ===== *)
(** * BSON documents as the MongoDB proxy reads and builds them
    (the helpers of [internal/proxy/mongodb]: [wire.go], [hello.go], [errors.go],
    [result.go], [lineage.go])

    The [bson] package is the class [BSONLib]: looking up a field, listing
    elements and array values, rendering Extended JSON and marshalling a document
    built by the proxy.  A double is its 64 bits where it is read and a quotient
    of integers where it is built. *)

From Stdlib Require Import ZArith Lia List Bool String Ascii.
From stdpp Require Import base list gmap strings.
From S2P Require Import Prelude GoStrings Encoding Models Validation GrantStore Servers PgSession MongoWire Recorder.

Open Scope string_scope.
Open Scope Z_scope.

Inductive bval :=
| VDouble (bits : Z) | VString (s : string) | VDoc (b : bytes) | VArray (b : bytes) | VBinary (b : bytes)
| VBool (b : bool) | VInt32 (n : Z) | VInt64 (n : Z) | VOther (tag : Z).

Inductive bout :=
| OBool (b : bool) | OInt32 (n : Z) | OInt (n : Z) | ODouble (num den : Z) | OStr (s : string) | OBin (b : bytes)
| ODate (t : Z) | OArray (l : list bout) | ODoc (l : list (string * bout)) | ORaw (v : bval) | OObjectID (b : bytes).

Abbreviation bdoc := (list (string * bout)).

Class BSONLib := {
  Lookup : bytes -> string -> option bval;
  Elements : bytes -> option (list (string * bval));
  Values : bytes -> option (list bval);
  MarshalExtJSON : bytes -> option string;
  Marshal : bdoc -> option bytes;
  double_is_one : Z -> bool;       (* d == 1 *)
  double_int64 : Z -> Z            (* int64(d) *)
}.

(** ** Errors *)

Definition codeAuthenticationFailed : Z := 18.
Definition codeUnauthorized : Z := 13.
Definition codeNameAuthenticationFailed := "AuthenticationFailed".
Definition codeNameUnauthorized := "Unauthorized".
Definition authFailedMsg := "Authentication failed.".

Definition errorDoc (code : Z) (codeName errmsg : string) : bdoc :=
  [("ok", ODouble 0 1); ("errmsg", OStr errmsg); ("code", OInt32 code); ("codeName", OStr codeName)].
Definition authFailedDoc : bdoc := errorDoc codeAuthenticationFailed codeNameAuthenticationFailed authFailedMsg.
Definition unauthorizedDoc (reason : string) : bdoc := errorDoc codeUnauthorized codeNameUnauthorized reason.
Definition okDoc : bdoc := [("ok", ODouble 1 1)].

(** ** hello *)

Definition minWireVersion : Z := 0.
Definition maxWireVersion : Z := 21.
Definition maxBSONObjectSize : Z := 16 * 1024 * 1024.
Definition maxMessageSizeBytes : Z := 48000000.
Definition maxWriteBatchSize : Z := 100000.
Definition logicalSessionTimeoutMinutes : Z := 30.

Definition buildInfoDoc : bdoc :=
  [("version", OStr "7.0.0"); ("versionArray", OArray [OInt 7; OInt 0; OInt 0; OInt 0]);
   ("maxWireVersion", OInt32 maxWireVersion); ("ok", ODouble 1 1)].

Section Docs.
Context {B : BSONLib}.

(** The first key, "" when the document does not decode or is empty. *)
Definition commandName (doc : bytes) : string :=
  match Elements doc with Some ((k, _) :: _) => k | _ => "" end.

Definition lookupString (doc : bytes) (key : string) : string :=
  match Lookup doc key with Some (VString s) => s | _ => "" end.

Definition lookupBool (doc : bytes) (key : string) : bool :=
  match Lookup doc key with Some (VBool b) => b | _ => false end.

Definition lookupInt64 (doc : bytes) (key : string) : option Z :=
  match Lookup doc key with
  | Some (VInt32 n) => Some n
  | Some (VInt64 n) => Some n
  | Some (VDouble d) => Some (double_int64 d)
  | _ => None
  end.

Definition lookupDoc (doc : bytes) (key : string) : option bytes :=
  match Lookup doc key with Some (VDoc d) => Some d | _ => None end.
Definition lookupArray (doc : bytes) (key : string) : option bytes :=
  match Lookup doc key with Some (VArray d) => Some d | _ => None end.
Definition lookupBinary (doc : bytes) (key : string) : option bytes :=
  match Lookup doc key with Some (VBinary d) => Some d | _ => None end.

Definition replyOK (body : bytes) : bool :=
  match Lookup body "ok" with
  | Some (VDouble d) => double_is_one d
  | Some (VInt32 i) => i =? 1
  | Some (VInt64 i) => i =? 1
  | _ => false
  end.

Definition clientOffersZlib (request : bytes) : bool :=
  match lookupArray request "compression" with
  | None => false
  | Some arr =>
      match Values arr with
      | None => false
      | Some values =>
          existsb (fun v => match v with VString name => (compressorIDForName name).2 | _ => false end) values
      end
  end.

(** The user part of "<authSource>.<username>". *)
Fixpoint after_dot (s : string) : string :=
  match s with
  | EmptyString => ""
  | String c r => if Ascii.eqb c "." then r else after_dot r
  end.

(** [verifier name]: the user exists and has a SCRAM verifier. *)
Definition supportedMechsFor (verifier : string -> bool) (probe : string) : list bout :=
  let username := after_dot probe in
  if negb (String.eqb username "") && verifier username then [OStr "SCRAM-SHA-256"; OStr "PLAIN"] else [OStr "PLAIN"].

Definition helloDoc (verifier : string -> bool) (connID : Z) (serviceID : bytes) (now : Z) (name : string) (request : bytes) : bdoc :=
  ((if String.eqb name "hello" then [("isWritablePrimary", OBool true)] else [("ismaster", OBool true)])
   ++ (if lookupBool request "helloOk" then [("helloOk", OBool true)] else [])
   ++ [("maxBsonObjectSize", OInt32 maxBSONObjectSize); ("maxMessageSizeBytes", OInt32 maxMessageSizeBytes);
       ("maxWriteBatchSize", OInt32 maxWriteBatchSize); ("localTime", ODate now);
       ("logicalSessionTimeoutMinutes", OInt32 logicalSessionTimeoutMinutes); ("connectionId", OInt32 connID);
       ("minWireVersion", OInt32 minWireVersion); ("maxWireVersion", OInt32 maxWireVersion); ("readOnly", OBool false)]
   ++ (let mechs := lookupString request "saslSupportedMechs" in
       if String.eqb mechs "" then [] else [("saslSupportedMechs", OArray (supportedMechsFor verifier mechs))])
   ++ (if clientOffersZlib request then [("compression", OArray [OStr "zlib"])] else [])
   ++ (if lookupBool request "loadBalanced" then [("serviceId", OObjectID serviceID)] else [])
   ++ [("ok", ODouble 1 1)])%list.

(** ** Results *)

Definition rowsAffectedFrom (body : bytes) : option Z :=
  match lookupInt64 body "nModified" with
  | Some v => Some v
  | None => lookupInt64 body "n"
  end.

Definition captureCursorRows (q : QueryStorageConfig) (body : bytes) : list QueryRow :=
  if negb (StoreResults q) then []
  else
    match lookupDoc body "cursor" with
    | None => []
    | Some cursor =>
        match (match lookupArray cursor "firstBatch" with
               | Some batch => Some batch
               | None => lookupArray cursor "nextBatch"
               end) with
        | None => []
        | Some batch =>
            match Values batch with
            | None => []
            | Some values =>
                (capture_loop q (fun v => match v with VDoc d => MarshalExtJSON d | _ => None end) 0 0 values).1.1
            end
        end
    end.

Definition bytesPerMB : Z := 1024 * 1024.
Definition maxSQLTextLen : Z := 8 * 1024.

Definition rewriteDatabasesField (body : bytes) (databases : list bout) (totalSize : Z) : bdoc :=
  match Elements body with
  | None => [("databases", OArray databases); ("totalSize", ODouble totalSize 1); ("ok", ODouble 1 1)]
  | Some elems =>
      map (fun '(k, v) =>
             if String.eqb k "databases" then ("databases", OArray databases)
             else if String.eqb k "totalSize" then ("totalSize", ODouble totalSize 1)
             else if String.eqb k "totalSizeMb" then ("totalSizeMb", ODouble totalSize bytesPerMB)
             else (k, ORaw v)) elems
  end.

(** The entries of the grant's database, and the size they add up to. *)
Fixpoint keep_databases (allowed : string) (values : list bval) : list bout * Z :=
  match values with
  | [] => ([], 0)
  | v :: rest =>
      let '(kept, size) := keep_databases allowed rest in
      match v with
      | VDoc d =>
          if String.eqb (lookupString d "name") allowed
          then (ORaw v :: kept, i64 (size + default 0 (lookupInt64 d "sizeOnDisk")))
          else (kept, size)
      | _ => (kept, size)
      end
  end.

Definition filterListDatabasesReply (allowed : string) (m : message) : option bytes :=
  match parseOpMsg (m_body m) with
  | Ok parsed =>
      match commandBody (om_sections parsed) with
      | None => None
      | Some body =>
          match lookupArray body "databases" with
          | None => None
          | Some arr =>
              match Values arr with
              | None => None
              | Some values =>
                  let '(kept, totalSize) := keep_databases allowed values in
                  match buildOpMsgReply (m_requestID m) (m_responseTo m) (Marshal (rewriteDatabasesField body kept totalSize)) with
                  | Ok raw => Some raw
                  | _ => None
                  end
              end
          end
      end
  | _ => None
  end.

Definition buildSQLText (cmd : string) (body : bytes) : string :=
  match MarshalExtJSON body with
  | None => cmd
  | Some ext =>
      let text := cmd ++ " " ++ ext in
      if maxSQLTextLen <? slen text then String.substring 0 (Z.to_nat maxSQLTextLen) text else text
  end.

Definition params_of (values : list string) : QueryParameters :=
  {| qp_Values := values; qp_Raw := []; qp_FormatCodes := []; qp_TypeOIDs := [] |}.

Definition extractParams (body : bytes) : option QueryParameters :=
  let values :=
    ((match lookupDoc body "lsid" with
      | Some lsid => match MarshalExtJSON lsid with Some ej => [("lsid=" ++ ej)%string] | None => [] end
      | None => []
      end)
     ++ (match lookupInt64 body "txnNumber" with Some n => [("txnNumber=" ++ FormatInt n)%string] | None => [] end))%list in
  match values with [] => None | _ => Some (params_of values) end.
End Docs.
