(* ===== verification/MongoSession.v ===== *)
(** * A MongoDB proxy session
    ([internal/proxy/mongodb/session.go], [auth.go], [scram_server.go],
    [intercept.go], [result.go], [lineage.go])

    Until a client has authenticated, the proxy answers it itself; afterwards two
    pumps relay framed messages, the client's after a check.  A step of the
    session is one message of one side.  What is written to the client and to the
    upstream server are the lists [mg_client] and [mg_upstream].  Replies of the
    proxy are documents ([RDoc], [RQuery] for the legacy OP_REPLY) before they are
    marshalled, frames of the upstream server are [RFrame].

    The SCRAM conversation is the class [ScramServer] ([xdg-go/scram]): the user
    name of a client-first message, the server-first message for the credentials
    the callback returned, and the check of the client-final message.  Dialling
    and authenticating upstream is [connectUpstream] of [MongoUpstream]; here
    its outcome is [x_upstream]. *)

From Stdlib Require Import ZArith Lia List Bool String Ascii.
From stdpp Require Import base list gmap strings relations.
From S2P Require Import Prelude GoStrings Encoding Models Validation Limits Revocation AuthCache GrantStore Crypto Accounts ApiKeys Servers PgSession MongoWire ProxyAuth Recorder MySqlSession MongoBson.

Open Scope string_scope.
Open Scope Z_scope.

Inductive mg_error :=
| ErrAuthenticationFailed
| ErrTLSRequired
| ErrDatabaseNotResolvable
| ErrNoActiveGrant
| MgQuota (e : quota_error)
| ErrUpstreamConnect
| ErrUnknownOpCode (op : Z)
| ErrNoCommandBody
| ErrPreAuthNotAllowed
| MgRevoked
| MgInvalid (e : verror)
| MgWire (e : wire_error)
| MgClientWrite
| MgUpstreamWrite.

Definition mg_text (e : mg_error) : string :=
  match e with
  | ErrAuthenticationFailed => "authentication failed"
  | ErrTLSRequired => "dbbat: PLAIN authentication requires TLS"
  | ErrDatabaseNotResolvable =>
      "dbbat: could not resolve target database; connect with authSource=<dbbat-database-name> (or username 'user#database')"
  | ErrNoActiveGrant => "dbbat: no active grant for this database"
  | MgQuota QuotaExpired => "grant expired"
  | MgQuota QuotaQueries => "dbbat: query count limit exceeded for this grant"
  | MgQuota QuotaBytes => "dbbat: data transfer limit exceeded for this grant"
  | ErrUpstreamConnect => "dbbat: upstream MongoDB connection failed"
  | ErrPreAuthNotAllowed => "dbbat: authentication required"
  | MgRevoked => "grant revoked"
  | MgInvalid e => verror_text e
  | _ => ""
  end.

(** ** State *)

Record Stored := { sc_Salt : bytes; sc_Iters : Z; sc_StoredKey : bytes; sc_ServerKey : bytes }.

Class ScramServer := {
  conv : Type;
  client_first : string -> option string;                     (* the user name it carries *)
  server_first : string -> Stored -> string -> option (conv * string);  (* message, credentials, nonce *)
  client_final : conv -> string -> option string * bool       (* the server-final message; Valid() *)
}.

Record pending := {
  pq_command : string;
  pq_sqlText : string;
  pq_params : option QueryParameters;
  pq_start : time;
  pq_moreToCome : bool;
  pq_cursorID : Z
}.

Record cursorOrigin := { co_command : string; co_namespace : string }.

Inductive reply := RDoc (responseTo : Z) (doc : bdoc) | RQuery (responseTo : Z) (doc : bdoc) | RFrame (raw : bytes).

Record Listener := {
  sv_tls : bool;                  (* tlsConfig != nil *)
  sv_serviceID : bytes;
  sv_encryptionKey : bytes;
  sv_storage : QueryStorageConfig
}.

Record MgSession {SS : ScramServer} := {
  mg_tlsActive : bool;
  mg_connID : Z;
  mg_user : option User;
  mg_database : option Server;
  mg_account : Account;
  mg_authenticated : bool;
  mg_authSource : string;
  mg_scramConv : option conv;
  mg_scramUser : option User;
  mg_scramHint : string;
  mg_compressor : option Z;       (* Some: replies are compressed with it *)
  mg_revocation : option handle;
  mg_pending : gmap Z pending;
  mg_cursors : gmap Z cursorOrigin;
  mg_upstream : list message;
  mg_client : list reply
}.

(** What an authentication step reads besides the session. *)
Record AuthIO := {
  x_env : Env;
  x_nonce : string;               (* the nonce the scram library draws *)
  x_upstream : bool;              (* connectUpstream succeeds *)
  x_conn_sql : nat -> bool;       (* CreateConnection *)
  x_conn_uid : uuid;
  x_source : string;
  x_write : bool                  (* the reply reaches the client *)
}.

Section Session.
Context {SS : ScramServer} {B : BSONLib} {BS : BSON bytes}.

Definition set_identity (s : MgSession) (user : option User) (db : option Server) (a : Account) (auth : bool)
    (h : option handle) : MgSession :=
  {| mg_tlsActive := mg_tlsActive s; mg_connID := mg_connID s; mg_user := user; mg_database := db; mg_account := a;
     mg_authenticated := auth; mg_authSource := mg_authSource s; mg_scramConv := mg_scramConv s;
     mg_scramUser := mg_scramUser s; mg_scramHint := mg_scramHint s; mg_compressor := mg_compressor s;
     mg_revocation := h; mg_pending := mg_pending s; mg_cursors := mg_cursors s; mg_upstream := mg_upstream s;
     mg_client := mg_client s |}.
Definition set_scram (s : MgSession) (source : string) (c : option conv) (u : option User) (hint : string) : MgSession :=
  {| mg_tlsActive := mg_tlsActive s; mg_connID := mg_connID s; mg_user := mg_user s; mg_database := mg_database s;
     mg_account := mg_account s; mg_authenticated := mg_authenticated s; mg_authSource := source; mg_scramConv := c;
     mg_scramUser := u; mg_scramHint := hint; mg_compressor := mg_compressor s; mg_revocation := mg_revocation s;
     mg_pending := mg_pending s; mg_cursors := mg_cursors s; mg_upstream := mg_upstream s; mg_client := mg_client s |}.
Definition set_relay (s : MgSession) (a : Account) (p : gmap Z pending) (cu : gmap Z cursorOrigin) (up : list message)
    (cl : list reply) (comp : option Z) : MgSession :=
  {| mg_tlsActive := mg_tlsActive s; mg_connID := mg_connID s; mg_user := mg_user s; mg_database := mg_database s;
     mg_account := a; mg_authenticated := mg_authenticated s; mg_authSource := mg_authSource s;
     mg_scramConv := mg_scramConv s; mg_scramUser := mg_scramUser s; mg_scramHint := mg_scramHint s;
     mg_compressor := comp; mg_revocation := mg_revocation s; mg_pending := p; mg_cursors := cu; mg_upstream := up;
     mg_client := cl |}.

Definition with_reply (s : MgSession) (r : reply) : MgSession :=
  set_relay s (mg_account s) (mg_pending s) (mg_cursors s) (mg_upstream s) (mg_client s ++ [r])%list (mg_compressor s).
Definition set_mg_account (s : MgSession) (a : Account) : MgSession :=
  set_relay s a (mg_pending s) (mg_cursors s) (mg_upstream s) (mg_client s) (mg_compressor s).
Definition with_pending (s : MgSession) p : MgSession :=
  set_relay s (mg_account s) p (mg_cursors s) (mg_upstream s) (mg_client s) (mg_compressor s).
Definition with_cursors (s : MgSession) c : MgSession :=
  set_relay s (mg_account s) (mg_pending s) c (mg_upstream s) (mg_client s) (mg_compressor s).
Definition with_upstream (s : MgSession) (m : message) : MgSession :=
  set_relay s (mg_account s) (mg_pending s) (mg_cursors s) (mg_upstream s ++ [m])%list (mg_client s) (mg_compressor s).

Definition newSession (connID : Z) (tls : bool) : MgSession :=
  {| mg_tlsActive := tls; mg_connID := connID; mg_user := None; mg_database := None;
     mg_account := {| ac_grant := None; ac_connection := None; ac_snapshot := 0; ac_log := [] |};
     mg_authenticated := false; mg_authSource := ""; mg_scramConv := None; mg_scramUser := None; mg_scramHint := "";
     mg_compressor := None; mg_revocation := None; mg_pending := ∅; mg_cursors := ∅; mg_upstream := []; mg_client := [] |}.

(** ** Credentials *)

(** [bytes.Split(data, {0})] *)
Fixpoint split_nul (b : bytes) : list bytes :=
  match b with
  | [] => [[]]
  | x :: r => if x =? 0 then [] :: split_nul r
              else match split_nul r with f :: fs => (x :: f) :: fs | [] => [[x]] end
  end.

Definition parsePlainPayload (body : bytes) : option (string * string) :=
  match lookupBinary body "payload" with
  | None => None
  | Some data =>
      match reverse (split_nul data) with
      | password :: username :: _ =>
          if String.eqb (bytes_str username) "" then None else Some (bytes_str username, bytes_str password)
      | _ => None
      end
  end.

(** At the last '#'. *)
Fixpoint split_hash (raw : string) : option (string * string) :=
  match raw with
  | EmptyString => None
  | String c r =>
      match split_hash r with
      | Some (u, d) => Some (String c u, d)
      | None => if Ascii.eqb c "#" then Some (EmptyString, r) else None
      end
  end.
Definition splitUserDBHint (raw : string) : string * string := default (raw, "") (split_hash raw).

Context {A2 : Argon2} {dig : Digest} {order : MapOrder} {UT : UUIDText} {GCM : AEAD}.

Definition decryptMongoSCRAM (key : bytes) (uid : uuid) (creds : MongoSCRAMCreds) : res crypto_error (bytes * bytes) :=
  let aad := UserAAD (uuid_String uid) in
  let! storedKey := Decrypt (ms_StoredKey creds) key aad in
  let! serverKey := Decrypt (ms_ServerKey creds) key aad in
  Ok (storedKey, serverKey).

Definition scramCredentialLookup (sv : Listener) (e : Env) (b : Backend) (username : string) :
    option (User * string * Stored) :=
  let '(bareUser, hint) := splitUserDBHint username in
  match GetUserByUsername (e_sql e 0) (b_acct b) bareUser with
  | Ok user =>
      match User_MongoSCRAMCredentials user with
      | None => None
      | Some creds =>
          match decryptMongoSCRAM (sv_encryptionKey sv) (u_UID user) creds with
          | Ok (storedKey, serverKey) =>
              Some (user, hint, {| sc_Salt := ms_Salt creds; sc_Iters := ms_Iterations creds;
                                   sc_StoredKey := storedKey; sc_ServerKey := serverKey |})
          | _ => None
          end
      end
  | _ => None
  end.

Definition userHasMongoVerifier (ok : nat -> bool) (b : Backend) (username : string) : bool :=
  match GetUserByUsername ok (b_acct b) username with
  | Ok user => match User_MongoSCRAMCredentials user with Some _ => true | None => false end
  | _ => false
  end.

(** ** Which server *)

(** The loop over the grants; [i] numbers the store call of each lookup. *)
Fixpoint single_server (e : Env) (b : Backend) (i : nat) (grants : list AccessGrant) (resolved : option Server) :
    res mg_error Server :=
  match grants with
  | [] => match resolved with None => Err ErrDatabaseNotResolvable | Some db => Ok db end
  | g :: grants =>
      match GetServerByUID (e_sql e i 0%nat) (b_servers b) (g_DatabaseID g) with
      | Ok db =>
          if negb (String.eqb (d_Protocol db) ProtocolMongoDB) then single_server e b (S i) grants resolved
          else
            match resolved with
            | Some r => if negb (N.eqb (d_UID r) (d_UID db)) then Err ErrDatabaseNotResolvable
                        else single_server e b (S i) grants (Some db)
            | None => single_server e b (S i) grants (Some db)
            end
      | _ => single_server e b (S i) grants resolved
      end
  end.

Definition resolveSingleGrantDatabase (e : Env) (b : Backend) (user : User) : res mg_error Server :=
  match ListGrants (e_sql e 6) (b_grants b)
          {| gf_UserID := Some (u_UID user); gf_DatabaseID := None; gf_ActiveOnly := true |} (e_now e 6) with
  | Ok grants => single_server e b 10 grants None
  | _ => Err ErrDatabaseNotResolvable
  end.

Definition resolveDatabase (e : Env) (b : Backend) (authSource : string) (user : User) (hint : string) : res mg_error Server :=
  let name :=
    if negb (String.eqb authSource "") && negb (String.eqb authSource "$external") && negb (String.eqb authSource "admin")
    then authSource else hint in
  if negb (String.eqb name "") then
    match GetServerByName (e_sql e 2 0%nat) (b_servers b) name with
    | Ok db => if String.eqb (d_Protocol db) ProtocolMongoDB then Ok db else Err ErrDatabaseNotResolvable
    | _ => Err ErrDatabaseNotResolvable
    end
  else resolveSingleGrantDatabase e b user.

(** ** Authentication *)

Record MgWorld := { mw_backend : Backend; mw_reg : World }.

Definition set_backend (w : MgWorld) b : MgWorld := {| mw_backend := b; mw_reg := mw_reg w |}.
Definition set_reg (w : MgWorld) r : MgWorld := {| mw_backend := mw_backend w; mw_reg := r |}.
Definition set_db (b : Backend) (d : DB) : Backend :=
  {| b_acct := b_acct b; b_servers := b_servers b; b_grants := d; b_keyCache := b_keyCache b;
     b_authCache := b_authCache b; b_spawned := b_spawned b |}.

Abbreviation step_result := (MgSession * MgWorld * res mg_error bool)%type.

(** The last reply of a step; a failed write is the error of the step. *)
Definition finish (x : AuthIO) (s : MgSession) (w : MgWorld) (r : reply) (done : bool) : step_result :=
  if x_write x then (with_reply s r, w, Ok done) else (s, w, Err MgClientWrite).

(** A reply whose failure is ignored, then the error of the step. *)
Definition refuse (x : AuthIO) (s : MgSession) (w : MgWorld) (responseTo : Z) (doc : bdoc) (err : mg_error) : step_result :=
  (if x_write x then with_reply s (RDoc responseTo doc) else s, w, Err err).

Definition auth_error_doc (err : mg_error) : bdoc :=
  errorDoc codeAuthenticationFailed codeNameAuthenticationFailed (mg_text err).

Definition failAuth (x : AuthIO) (s : MgSession) (w : MgWorld) (responseTo : Z) : step_result :=
  refuse x s w responseTo authFailedDoc ErrAuthenticationFailed.

Definition deregister (s : MgSession) (r : World) : World :=
  match ac_grant (mg_account s), mg_revocation s with
  | Some g, Some h => Deregister r (g_UID g) (Some h)
  | _, _ => r
  end.

Definition account_of (g : option AccessGrant) (c : option uuid) (a : Account) : Account :=
  {| ac_grant := g; ac_connection := c; ac_snapshot := ac_snapshot a; ac_log := ac_log a |}.

(** The registration, the upstream connection, the connection row. *)
Definition establishSession (sv : Listener) (x : AuthIO) (s : MgSession) (w : MgWorld) (responseTo : Z)
    (user : User) (db : Server) (grant : AccessGrant) : step_result :=
  let '(reg, h) := Register (mw_reg w) (g_UID grant) in
  let w := set_reg w reg in
  let s := set_identity s (Some user) (Some db) (account_of (Some grant) None (mg_account s)) false (Some h) in
  let decrypted := match DecryptPassword db (sv_encryptionKey sv) with Ok _ => true | _ => false end in
  if negb (decrypted && x_upstream x) then
    let w := set_reg w (deregister s (mw_reg w)) in
    let s := set_identity s (Some user) (Some db) (account_of None None (mg_account s)) false (Some h) in
    refuse x s w responseTo (auth_error_doc ErrUpstreamConnect) ErrUpstreamConnect
  else
    let '(d, r) := CreateConnection (x_conn_sql x) (b_grants (mw_backend w)) (u_UID user) (d_UID db) (x_source x)
                     (x_conn_uid x) (e_now (x_env x) 7) (e_now (x_env x) 8) in
    let c := match r with Ok c => Some (c_UID c) | _ => None end in
    (set_identity s (Some user) (Some db) (account_of (Some grant) c (mg_account s)) true (Some h),
     set_backend w (set_db (mw_backend w) d), Ok true).

Definition authorizeAndEstablish (sv : Listener) (x : AuthIO) (s : MgSession) (w : MgWorld) (responseTo : Z)
    (user : User) (hint : string) : step_result :=
  let e := x_env x in
  let s := set_identity s (Some user) (mg_database s) (mg_account s) (mg_authenticated s) (mg_revocation s) in
  match resolveDatabase e (mw_backend w) (mg_authSource s) user hint with
  | Err err => refuse x s w responseTo (auth_error_doc err) err
  | Panic => (s, w, Panic)
  | Ok db =>
      let s := set_identity s (Some user) (Some db) (mg_account s) (mg_authenticated s) (mg_revocation s) in
      match GetActiveGrant (e_sql e 4) (b_grants (mw_backend w)) (u_UID user) (d_UID db) (e_now e 0) with
      | Ok grant =>
          match checkQuotas (e_now e 1) grant with
          | Some q =>
              let s := set_identity s (Some user) (Some db) (account_of (Some grant) None (mg_account s))
                         (mg_authenticated s) (mg_revocation s) in
              refuse x s w responseTo (auth_error_doc (MgQuota q)) (MgQuota q)
          | None => establishSession sv x s w responseTo user db grant
          end
      | _ => refuse x s w responseTo (auth_error_doc ErrNoActiveGrant) ErrNoActiveGrant
      end
  end.

Definition sasl_reply (payload : bytes) (done : bool) : bdoc :=
  [("conversationId", OInt32 1); ("done", OBool done); ("payload", OBin payload); ("ok", ODouble 1 1)].
Definition scramReply (payload : string) (done : bool) : bdoc := sasl_reply (str_bytes payload) done.

(** The success reply that follows an established session. *)
Definition then_reply (x : AuthIO) (r : step_result) (rep : reply) : step_result :=
  match r with
  | (s, w, Ok _) => finish x s w rep true
  | (s, w, Err err) => (s, w, Err err)
  | (s, w, Panic) => (s, w, Panic)
  end.

Definition handlePlainStart (sv : Listener) (x : AuthIO) (s : MgSession) (w : MgWorld) (responseTo : Z) (body : bytes) :
    step_result :=
  if sv_tls sv && negb (mg_tlsActive s) then refuse x s w responseTo (auth_error_doc ErrTLSRequired) ErrTLSRequired
  else
    match parsePlainPayload body with
    | None => failAuth x s w responseTo
    | Some (rawUser, password) =>
        let '(bareUser, hint) := splitUserDBHint rawUser in
        match verifyCredentials (x_env x) (mw_backend w) bareUser password with
        | (b, Ok user) =>
            then_reply x (authorizeAndEstablish sv x s (set_backend w b) responseTo user hint) (RDoc responseTo (sasl_reply [] true))
        | (b, Err _) => failAuth x s (set_backend w b) responseTo
        | (b, Panic) => (s, set_backend w b, Panic)
        end
    end.

Definition handleScramStart (sv : Listener) (x : AuthIO) (s : MgSession) (w : MgWorld) (responseTo : Z) (body : bytes) :
    step_result :=
  match lookupBinary body "payload" with
  | None => failAuth x s w responseTo
  | Some clientFirst =>
      match client_first (bytes_str clientFirst) with
      | None => failAuth x s w responseTo
      | Some username =>
          match scramCredentialLookup sv (x_env x) (mw_backend w) username with
          | None => failAuth x s w responseTo
          | Some (user, hint, creds) =>
              (* the callback ran: the user is recorded *)
              let s := set_scram s (mg_authSource s) (mg_scramConv s) (Some user) hint in
              match server_first (bytes_str clientFirst) creds (x_nonce x) with
              | None => failAuth x s w responseTo
              | Some (c, serverFirst) =>
                  finish x (set_scram s (mg_authSource s) (Some c) (Some user) hint) w
                    (RDoc responseTo (scramReply serverFirst false)) false
              end
          end
      end
  end.

Definition handleScramContinue (sv : Listener) (x : AuthIO) (s : MgSession) (w : MgWorld) (responseTo : Z) (body : bytes) :
    step_result :=
  match mg_scramConv s, lookupBinary body "payload" with
  | Some c, Some clientFinal =>
      match client_final c (bytes_str clientFinal) with
      | (Some serverFinal, true) =>
          match mg_scramUser s with
          | None => failAuth x s w responseTo
          | Some user =>
              then_reply x (authorizeAndEstablish sv x s w responseTo user (mg_scramHint s))
                (RDoc responseTo (scramReply serverFinal true))
          end
      | _ => failAuth x s w responseTo
      end
  | _, _ => failAuth x s w responseTo
  end.

Definition handleSaslStart (sv : Listener) (x : AuthIO) (s : MgSession) (w : MgWorld) (responseTo : Z) (body : bytes) :
    step_result :=
  let s := set_scram s (lookupString body "$db") (mg_scramConv s) (mg_scramUser s) (mg_scramHint s) in
  let mech := lookupString body "mechanism" in
  if String.eqb mech "PLAIN" then handlePlainStart sv x s w responseTo body
  else if String.eqb mech "SCRAM-SHA-256" then handleScramStart sv x s w responseTo body
  else failAuth x s w responseTo.

Definition is_hello (name : string) : bool :=
  String.eqb name "hello" || String.eqb name "isMaster" || String.eqb name "ismaster".

Definition hello_reply (sv : Listener) (x : AuthIO) (s : MgSession) (w : MgWorld) (name : string) (request : bytes) : bdoc :=
  helloDoc (userHasMongoVerifier (e_sql (x_env x) 9) (mw_backend w)) (mg_connID s) (sv_serviceID sv) (e_now (x_env x) 9) name request.

Definition lift_wire {A} (r : res wire_error A) : res mg_error A :=
  match r with Ok a => Ok a | Err e => Err (MgWire e) | Panic => Panic end.

Definition dispatchPreAuthOpQuery (sv : Listener) (x : AuthIO) (s : MgSession) (w : MgWorld) (m : message) : step_result :=
  match parseOpQuery (m_body m) with
  | Ok q =>
      let name := commandName (oq_query q) in
      if is_hello name then finish x s w (RQuery (m_requestID m) (hello_reply sv x s w name (oq_query q))) false
      else finish x s w (RQuery (m_requestID m) (unauthorizedDoc (mg_text ErrPreAuthNotAllowed))) false
  | Err e => (s, w, Err (MgWire e))
  | Panic => (s, w, Panic)
  end.

Definition dispatchPreAuthOpMsg (sv : Listener) (x : AuthIO) (s : MgSession) (w : MgWorld) (m : message) : step_result :=
  match parseOpMsg (m_body m) with
  | Err e => (s, w, Err (MgWire e))
  | Panic => (s, w, Panic)
  | Ok parsed =>
      match commandBody (om_sections parsed) with
      | None => (s, w, Err ErrNoCommandBody)
      | Some body =>
          let name := commandName body in
          let id := m_requestID m in
          if is_hello name then finish x s w (RDoc id (hello_reply sv x s w name body)) false
          else if String.eqb name "ping" then finish x s w (RDoc id okDoc) false
          else if String.eqb name "buildInfo" || String.eqb name "buildinfo" then finish x s w (RDoc id buildInfoDoc) false
          else if String.eqb name "endSessions" then finish x s w (RDoc id okDoc) false
          else if String.eqb name "saslStart" then handleSaslStart sv x s w id body
          else if String.eqb name "saslContinue" then
            match mg_scramConv s with
            | Some _ => handleScramContinue sv x s w id body
            | None => failAuth x s w id
            end
          else finish x s w (RDoc id (unauthorizedDoc (mg_text ErrPreAuthNotAllowed))) false
      end
  end.

Definition dispatchPreAuth (sv : Listener) (x : AuthIO) (s : MgSession) (w : MgWorld) (m : message) : step_result :=
  if m_opCode m =? opCodeQuery then dispatchPreAuthOpQuery sv x s w m
  else if m_opCode m =? opCodeMsg then dispatchPreAuthOpMsg sv x s w m
  else (s, w, Err (ErrUnknownOpCode (m_opCode m))).

(** ** Relaying *)

Section Wire.
Context {Z_ : Zlib}.

(** An OP_COMPRESSED envelope is opened, and from then on replies are compressed. *)
Definition readClientMessage (s : MgSession) (m : message) : res wire_error (MgSession * message) :=
  if negb (m_opCode m =? opCodeCompressed) then Ok (s, m)
  else
    let! ' (inner, id) := decompressMessage m in
    Ok (set_relay s (mg_account s) (mg_pending s) (mg_cursors s) (mg_upstream s) (mg_client s) (Some id), inner).

Definition maybeCompress (comp : option Z) (raw : bytes) : res wire_error bytes :=
  match comp with
  | None => Ok raw
  | Some id =>
      if (id =? compressorNoop) || (zlen raw <? headerLen) then Ok raw
      else
        let! op := uint32_at 12 raw in
        if negb (i32 op =? opCodeMsg) && negb (i32 op =? opCodeReply) then Ok raw else compressMessage raw id
  end.
End Wire.

Definition registerPending (s : MgSession) (id : Z) (pq : pending) : MgSession := with_pending s (<[id := pq]> (mg_pending s)).
Definition takePending (s : MgSession) (id : Z) : MgSession * option pending :=
  (with_pending s (delete id (mg_pending s)), mg_pending s !! id).
Definition pendingCommand (s : MgSession) (id : Z) : string :=
  match mg_pending s !! id with Some pq => pq_command pq | None => "" end.

Definition record_pending (e : Live) (s : MgSession) (pq : pending) (rows : list QueryRow) (affected : option Z)
    (err : option string) : MgSession :=
  set_mg_account s (recordQuery e (pq_sqlText pq) (pq_params pq) (pq_start pq) rows affected err (mg_account s)).

Definition appendPendingParam (pq : pending) (value : string) : pending :=
  let p := default (params_of []) (pq_params pq) in
  {| pq_command := pq_command pq; pq_sqlText := pq_sqlText pq;
     pq_params := Some {| qp_Values := (qp_Values p ++ [value])%list; qp_Raw := qp_Raw p;
                          qp_FormatCodes := qp_FormatCodes p; qp_TypeOIDs := qp_TypeOIDs p |};
     pq_start := pq_start pq; pq_moreToCome := pq_moreToCome pq; pq_cursorID := pq_cursorID pq |}.

Definition set_cursorID (pq : pending) (id : Z) : pending :=
  {| pq_command := pq_command pq; pq_sqlText := pq_sqlText pq; pq_params := pq_params pq; pq_start := pq_start pq;
     pq_moreToCome := pq_moreToCome pq; pq_cursorID := id |}.

Definition annotateGetMore (s : MgSession) (pq : pending) (body : bytes) : pending :=
  match lookupInt64 body "getMore" with
  | None => pq
  | Some cursorID =>
      let pq := appendPendingParam (set_cursorID pq cursorID) ("cursor_id=" ++ FormatInt cursorID) in
      match mg_cursors s !! cursorID with
      | None => pq
      | Some origin =>
          let ref := co_command origin ++ (if String.eqb (co_namespace origin) "" then "" else " " ++ co_namespace origin) in
          appendPendingParam pq ("cursor_origin=" ++ ref)
      end
  end.

Definition cursorOpeningCommands : list string := ["find"; "aggregate"; "listCollections"; "listIndexes"].

Definition trackCursorFromReply (s : MgSession) (pq : pending) (body : bytes) : MgSession * pending :=
  match lookupDoc body "cursor" with
  | None => (s, pq)
  | Some cursor =>
      let replyCursorID := default 0 (lookupInt64 cursor "id") in
      if contains_str cursorOpeningCommands (pq_command pq) then
        if negb (replyCursorID =? 0) then
          (with_cursors s (<[replyCursorID := {| co_command := pq_command pq; co_namespace := lookupString cursor "ns" |}]> (mg_cursors s)),
           appendPendingParam pq ("cursor_id=" ++ FormatInt replyCursorID))
        else (s, pq)
      else if String.eqb (pq_command pq) "getMore" && (replyCursorID =? 0) && negb (pq_cursorID pq =? 0)
      then (with_cursors s (delete (pq_cursorID pq) (mg_cursors s)), pq)
      else (s, pq)
  end.

Definition new_pending_query (e : Live) (cmd : string) (body : bytes) (moreToCome : bool) : pending :=
  {| pq_command := cmd; pq_sqlText := buildSQLText cmd body; pq_params := extractParams body; pq_start := l_now e;
     pq_moreToCome := moreToCome; pq_cursorID := 0 |}.

(** [wr]: the reply reaches the client. *)
Definition rejectCommand (e : Live) (wr : bool) (s : MgSession) (m : message) (cmd : string) (body : bytes)
    (moreToCome : bool) (verr : mg_error) : res mg_error MgSession :=
  let s := record_pending e s (new_pending_query e cmd body false) [] None (Some (mg_text verr)) in
  if moreToCome then Ok s
  else guard! wr else MgClientWrite in Ok (with_reply s (RDoc (m_requestID m) (unauthorizedDoc (mg_text verr)))).

Definition forward (up : bool) (s : MgSession) (m : message) : res mg_error MgSession :=
  guard! up else MgUpstreamWrite in Ok (with_upstream s m).

(** [e] is the instant of the checks, [e'] the one after the forward. *)
Definition handleClientOpMsg (e e' : Live) (wr up : bool) (s : MgSession) (m : message) : res mg_error MgSession :=
  let! parsed := lift_wire (parseOpMsg (m_body m)) in
  match commandBody (om_sections parsed) with
  | None => Err ErrNoCommandBody
  | Some body =>
      let cmd := commandName body in
      let dbName := lookupString body "$db" in
      let moreToCome := negb (Z.land (om_flags parsed) flagMoreToCome =? 0) in
      if l_revoked e then rejectCommand e wr s m cmd body moreToCome MgRevoked
      else
        match ac_grant (mg_account s) with
        | None => Panic
        | Some grant =>
            match checkQuotas (l_now e) grant with
            | Some q => rejectCommand e wr s m cmd body moreToCome (MgQuota q)
            | None =>
                match ValidateMongoCommand cmd dbName body (mg_database s) grant with
                | Some v => rejectCommand e wr s m cmd body moreToCome (MgInvalid v)
                | None =>
                    let pq := new_pending_query e cmd body moreToCome in
                    let pq := if String.eqb cmd "getMore" then annotateGetMore s pq body else pq in
                    let s := registerPending s (m_requestID m) pq in
                    let! s := forward up s m in
                    if moreToCome then
                      match takePending s (m_requestID m) with
                      | (s, Some pq) => Ok (record_pending e' s pq [] None None)
                      | (s, None) => Ok s
                      end
                    else Ok s
                end
            end
        end
  end.

(** One message of the client, after decompression. *)
Definition client_pump (e e' : Live) (wr up : bool) (s : MgSession) (m : message) : res mg_error MgSession :=
  if negb (m_opCode m =? opCodeMsg) then forward up s m else handleClientOpMsg e e' wr up s m.

Definition captureResult (q : QueryStorageConfig) (e : Live) (s : MgSession) (m : message) : MgSession :=
  if negb (m_opCode m =? opCodeMsg) then s
  else
    match takePending s (m_responseTo m) with
    | (_, None) => s
    | (s, Some pq) =>
        match parseOpMsg (m_body m) with
        | Ok parsed =>
            match commandBody (om_sections parsed) with
            | None => record_pending e s pq [] None None
            | Some body =>
                let queryError :=
                  if replyOK body then None
                  else let msg := lookupString body "errmsg" in Some (if String.eqb msg "" then "command failed" else msg) in
                let rowsAffected := rowsAffectedFrom body in
                let rows := captureCursorRows q body in
                let '(s, pq) := trackCursorFromReply s pq body in
                record_pending e s pq rows rowsAffected queryError
            end
        | _ => record_pending e s pq [] None None
        end
    end.

(** One message of the upstream server. *)
Definition upstream_pump (q : QueryStorageConfig) (e : Live) (wr : bool) (s : MgSession) (m : message) : res mg_error MgSession :=
  let outRaw :=
    if String.eqb (pendingCommand s (m_responseTo m)) "listDatabases" then
      match mg_database s with
      | Some db => default (m_raw m) (filterListDatabasesReply (d_DatabaseName db) m)
      | None => m_raw m
      end
    else m_raw m in
  let s := captureResult q e s m in
  guard! wr else MgClientWrite in Ok (with_reply s (RFrame outRaw)).

(** The two pumps, in any interleaving. *)
Inductive relay_step (q : QueryStorageConfig) : MgSession -> MgSession -> Prop :=
| relay_client e e' wr up s m s' : client_pump e e' wr up s m = Ok s' -> relay_step q s s'
| relay_upstream e wr s m s' : upstream_pump q e wr s m = Ok s' -> relay_step q s s'.
End Session.

(** * Theorems *)

Section Auth.
Context {SS : ScramServer} {B : BSONLib} {BS : BSON bytes}.
Context {A2 : Argon2} {dig : Digest} {order : MapOrder} {UT : UUIDText} {GCM : AEAD}.

(** The session is established for [user]: an active grant of that user on a
    MongoDB server, with room in its quotas, and a registered revocation handle. *)
Record established (x : AuthIO) (w w' : MgWorld) (s' : MgSession) (user : User) : Prop := {
  es_auth : mg_authenticated s' = true;
  es_user : mg_user s' = Some user;
  es_access : exists db g g0 k, mg_database s' = Some db /\ ac_grant (mg_account s') = Some g /\
    (exists k', b_servers (mw_backend w) !! k' = Some db) /\ live_server db = true /\ d_Protocol db = ProtocolMongoDB /\
    access_grants (b_grants (mw_backend w)) !! k = Some g0 /\
    selects (u_UID user) (d_UID db) (e_now (x_env x) 0) g0 /\
    g = with_counters g0 (grant_query_count (b_grants (mw_backend w)) g0) (grant_bytes (b_grants (mw_backend w)) g0) /\
    checkQuotas (e_now (x_env x) 1) g = None /\
    mw_reg w' = (Register (mw_reg w) (g_UID g)).1 /\ mg_revocation s' = Some (Register (mw_reg w) (g_UID g)).2
}.

Lemma single_server_Ok e b : forall grants i resolved db,
  (forall r, resolved = Some r -> (exists k, b_servers b !! k = Some r) /\ live_server r = true /\ d_Protocol r = ProtocolMongoDB) ->
  single_server e b i grants resolved = Ok db ->
  (exists k, b_servers b !! k = Some db) /\ live_server db = true /\ d_Protocol db = ProtocolMongoDB.
Proof.
  induction grants as [|g grants IH]; intros i resolved db Hr; cbn [single_server].
  - destruct resolved as [r|]; [|done]. intros [= ->]. by apply Hr.
  - destruct (GetServerByUID _ _ _) as [s|?|] eqn:Es; [|apply IH; done..].
    destruct (String.eqb_spec (d_Protocol s) ProtocolMongoDB) as [Hp|]; [|by apply IH]. cbn [negb].
    apply GetServerByUID_Ok in Es as [Es Hl].
    assert (Hs : forall r, Some s = Some r -> (exists k, b_servers b !! k = Some r) /\ live_server r = true /\ d_Protocol r = ProtocolMongoDB)
      by (intros r [= <-]; eauto).
    destruct resolved as [r|]; [|by apply IH]. destruct (negb _); [done|by apply IH].
Qed.

Lemma resolveDatabase_Ok e b src user hint db :
  resolveDatabase e b src user hint = Ok db ->
  (exists k, b_servers b !! k = Some db) /\ live_server db = true /\ d_Protocol db = ProtocolMongoDB.
Proof.
  unfold resolveDatabase, resolveSingleGrantDatabase. destruct (negb (String.eqb _ "")).
  - destruct (GetServerByName _ _ _) as [s|?|] eqn:Es; [|done..].
    destruct (String.eqb_spec (d_Protocol s) ProtocolMongoDB) as [Hp|]; [|done]. intros [= ->].
    apply GetServerByName_Ok in Es as (k & E & Hl & _). eauto.
  - destruct (ListGrants _ _ _ _); [|done..]. apply single_server_Ok. done.
Qed.

Lemma authorize_established sv x s w id user hint s' w' b :
  authorizeAndEstablish sv x s w id user hint = (s', w', Ok b) ->
  b = true /\ established x w w' s' user /\ mg_upstream s' = mg_upstream s.
Proof.
  unfold authorizeAndEstablish. destruct (resolveDatabase _ _ _ _ _) as [db|?|] eqn:Er; [|done..].
  destruct (GetActiveGrant _ _ _ _ _) as [g|?|] eqn:Eg; [|done..].
  destruct (checkQuotas _ g) eqn:Eq; [done|]. unfold establishSession.
  destruct (Register (mw_reg w) (g_UID g)) as [reg h] eqn:Ereg. destruct (negb _); [done|].
  destruct (CreateConnection _ _ _ _ _ _ _ _) as [d r] eqn:Ec. intros [= <- <- <-].
  apply resolveDatabase_Ok in Er as (Hk & Hl & Hp). apply GetActiveGrant_Ok in Eg as (k & g0 & G1 & G2 & G3 & _).
  split; [done|]. split; [|done]. split; [done..|]. exists db, g, g0, k. rewrite Ereg. split_and!; try done; first [apply Hk|by apply G2].
Qed.

(** ** Conversations *)

(** The messages of a client before it is let in, oldest first, each in whatever
    state the rest of the system then is. *)
Inductive preauth_run (sv : Listener) (s0 : MgSession) : list (AuthIO * MgWorld * message) -> MgSession -> Prop :=
| preauth_start : preauth_run sv s0 [] s0
| preauth_message tr s x w m s' w' :
    preauth_run sv s0 tr s -> dispatchPreAuth sv x s w m = (s', w', Ok false) ->
    preauth_run sv s0 (tr ++ [(x, w, m)])%list s'.

(** The message is the command [cmd], with this body. *)
Definition carries (m : message) (cmd : string) (body : bytes) : Prop :=
  exists p, parseOpMsg (m_body m) = Ok p /\ commandBody (om_sections p) = Some body /\ commandName body = cmd.

(** The conversation [c] was opened by an earlier saslStart of this session, with
    the verifier the store then held for [user], the user it names. *)
Definition opened_for (sv : Listener) (tr : list (AuthIO * MgWorld * message)) (user : User) (c : conv) : Prop :=
  exists x w m body first name hint creds r,
    In (x, w, m) tr /\ carries m "saslStart" body /\ lookupString body "mechanism" = "SCRAM-SHA-256" /\
    lookupBinary body "payload" = Some first /\ client_first (bytes_str first) = Some name /\
    scramCredentialLookup sv (x_env x) (mw_backend w) name = Some (user, hint, creds) /\
    server_first (bytes_str first) creds (x_nonce x) = Some (c, r).

Definition scram_ok (sv : Listener) (tr : list (AuthIO * MgWorld * message)) (s : MgSession) : Prop :=
  forall c, mg_scramConv s = Some c -> exists user, mg_scramUser s = Some user /\ opened_for sv tr user c.

(** What makes a message the one that lets the client in: the password or API
    key it carries proves the user it names, or it is the right final message of
    the conversation the session opened for that user. *)
Definition admits (sv : Listener) (tr : list (AuthIO * MgWorld * message)) (s : MgSession) (x : AuthIO) (w : MgWorld)
    (m : message) (user : User) : Prop :=
  (exists body rawUser password bare hint,
     carries m "saslStart" body /\ lookupString body "mechanism" = "PLAIN" /\
     parsePlainPayload body = Some (rawUser, password) /\ splitUserDBHint rawUser = (bare, hint) /\
     GetUserByUsername (e_sql (x_env x) 0) (b_acct (mw_backend w)) bare = Ok user /\
     proven (x_env x) (mw_backend w) user password /\ (sv_tls sv = true -> mg_tlsActive s = true)) \/
  (exists body final c r,
     carries m "saslContinue" body /\ lookupBinary body "payload" = Some final /\
     mg_scramConv s = Some c /\ opened_for sv tr user c /\ client_final c (bytes_str final) = (Some r, true)).

Lemma finish_false x s w r s' w' b :
  finish x s w r false = (s', w', Ok b) -> b = false /\ s' = with_reply s r.
Proof. unfold finish. destruct (x_write x); naive_solver. Qed.

Lemma then_reply_Ok sv x s w id user hint rep s' w' b :
  then_reply x (authorizeAndEstablish sv x s w id user hint) rep = (s', w', Ok b) ->
  b = true /\ exists s1, established x w w' s1 user /\ s' = with_reply s1 rep /\ mg_upstream s1 = mg_upstream s.
Proof.
  unfold then_reply. destruct (authorizeAndEstablish _ _ _ _ _ _ _) as [[s1 w1] [b1|?|]] eqn:E; [|done..].
  apply authorize_established in E as (-> & He & Hu). unfold finish. destruct (x_write x); [|done]. naive_solver.
Qed.

Lemma failAuth_not_Ok x s w id s' w' b : failAuth x s w id <> (s', w', Ok b).
Proof. done. Qed.

Lemma opened_for_more sv tr tr' user c : opened_for sv tr user c -> opened_for sv (tr ++ tr')%list user c.
Proof.
  intros (x & w & m & body & f & n & h & cr & r & Hin & H).
  exists x, w, m, body, f, n, h, cr, r. split; [apply in_or_app; by left|exact H].
Qed.

Lemma scram_ok_more sv tr tr' s s' :
  mg_scramConv s' = mg_scramConv s -> mg_scramUser s' = mg_scramUser s ->
  scram_ok sv tr s -> scram_ok sv (tr ++ tr')%list s'.
Proof.
  intros E1 E2 H c Hc. rewrite E1 in Hc. destruct (H c Hc) as (u & Hu & Ho).
  exists u. rewrite E2. split; [done|by apply opened_for_more].
Qed.

(** What a message before authentication can do. *)
Lemma dispatchPreAuth_cases sv tr x s w m s' w' b :
  dispatchPreAuth sv x s w m = (s', w', Ok b) -> scram_ok sv tr s ->
  mg_upstream s' = mg_upstream s /\
  if b then
    exists user s1 rep wb, established x wb w' s1 user /\ s' = with_reply s1 rep /\ b_servers (mw_backend wb) = b_servers (mw_backend w) /\
      b_grants (mw_backend wb) = b_grants (mw_backend w) /\ mw_reg wb = mw_reg w /\ admits sv tr s x w m user
  else scram_ok sv (tr ++ [(x, w, m)])%list s' /\ mg_authenticated s' = mg_authenticated s /\ mg_account s' = mg_account s.
Proof.
  intros H Hs.
  assert (idle : forall rep, finish x s w rep false = (s', w', Ok b) ->
    mg_upstream s' = mg_upstream s /\ b = false /\ scram_ok sv (tr ++ [(x, w, m)])%list s' /\
    mg_authenticated s' = mg_authenticated s /\ mg_account s' = mg_account s).
  { intros rep E. apply finish_false in E as [-> ->]. split; [done|]. split; [done|]. split; [|done].
    by apply (scram_ok_more sv tr _ s). }
  unfold dispatchPreAuth in H. destruct (_ =? opCodeQuery).
  { unfold dispatchPreAuthOpQuery in H. destruct (parseOpQuery _) as [q|?|]; [|done..].
    destruct (is_hello _); apply idle in H as (? & -> & ?); done. }
  destruct (_ =? opCodeMsg); [|done]. unfold dispatchPreAuthOpMsg in H.
  destruct (parseOpMsg _) as [p|?|] eqn:Ep; [|done..]. destruct (commandBody _) as [body|] eqn:Eb; [|done].
  destruct (is_hello _); [by apply idle in H as (? & -> & ?)|].
  destruct (String.eqb _ "ping"); [by apply idle in H as (? & -> & ?)|].
  destruct (_ || _); [by apply idle in H as (? & -> & ?)|].
  destruct (String.eqb _ "endSessions"); [by apply idle in H as (? & -> & ?)|].
  destruct (String.eqb_spec (commandName body) "saslStart") as [Ecmd|_].
  - assert (Hc : carries m "saslStart" body) by (by exists p).
    unfold handleSaslStart in H. destruct (String.eqb_spec (lookupString body "mechanism") "PLAIN") as [Em|_].
    + unfold handlePlainStart in H. destruct (sv_tls sv && negb _) eqn:Et; [done|].
      destruct (parsePlainPayload body) as [[rawUser pw]|] eqn:Epl; [|done].
      destruct (splitUserDBHint rawUser) as [bare hint] eqn:Esp.
      pose proof (credentials_sound (x_env x) (mw_backend w) bare pw) as Hv.
      pose proof (credentials_frame (x_env x) (mw_backend w) bare pw) as (_ & F2 & F3).
      destruct (verifyCredentials _ _ bare pw) as [b1 [user|?|]]; [|done..].
      apply then_reply_Ok in H as (-> & s1 & He & -> & Hu). split; [done|].
      destruct (Hv user eq_refl) as [Hg Hp]. exists user, s1. do 2 eexists. split; [exact He|].
      split; [done|]. split; [exact F2|]. split; [exact F3|]. split; [done|]. left.
      exists body, rawUser, pw, bare, hint. do 6 (split; [done|]).
      intros Ht. rewrite Ht in Et. cbn in Et. by destruct (mg_tlsActive s).
    + destruct (String.eqb_spec (lookupString body "mechanism") "SCRAM-SHA-256") as [Em|]; [|done]. unfold handleScramStart in H.
      destruct (lookupBinary body "payload") as [cf|] eqn:Epl; [|done]. destruct (client_first _) as [name|] eqn:En; [|done].
      destruct (scramCredentialLookup _ _ _ name) as [[[user hint] creds]|] eqn:El; [|done].
      destruct (server_first _ creds _) as [[c r]|] eqn:Ef; [|done].
      apply finish_false in H as [-> ->]. split; [done|]. split; [|done].
      intros c' [= <-]. exists user. split; [done|].
      exists x, w, m, body, cf, name, hint, creds, r. split; [apply in_or_app; right; by left|done].
  - destruct (String.eqb_spec (commandName body) "saslContinue") as [Ecmd|_]; [|by apply idle in H as (? & -> & ?)].
    destruct (mg_scramConv s) as [c|] eqn:Ec; [|done]. unfold handleScramContinue in H. rewrite Ec in H.
    destruct (lookupBinary body "payload") as [final|] eqn:Epl; [|done].
    destruct (client_final c _) as [[r|] []] eqn:Ef; try done.
    destruct (Hs c Ec) as (user & Hu & Hv). rewrite Hu in H.
    apply then_reply_Ok in H as (-> & s1 & He & -> & Hup). split; [done|].
    exists user, s1. do 2 eexists. split; [exact He|]. repeat (split; [done|]). right.
    exists body, final, c, r. split; [by exists p|done].
Qed.

Lemma preauth_steps sv s tr s' :
  preauth_run sv s tr s' -> scram_ok sv [] s ->
  scram_ok sv tr s' /\ mg_upstream s' = mg_upstream s /\ mg_authenticated s' = mg_authenticated s /\ mg_account s' = mg_account s.
Proof.
  induction 1 as [|tr s1 x w m s2 w' _ IH E]; intros Hs; [done|].
  destruct (IH Hs) as (H1 & H2 & H3 & H4).
  apply (dispatchPreAuth_cases sv tr) in E as (Hu & Hs1 & Ha & Hc); [|done].
  split; [done|]. split_and!; congruence.
Qed.

(** C9. A MongoDB client that is let in is authorised.  Whatever it sent before, the
    session is established for a user with an active grant on a MongoDB server,
    under a registered revocation handle, nothing reached the upstream server
    before, and the message that let it in proves that user: either a PLAIN
    saslStart that names the user and whose password is the user's password or a
    usable API key of theirs, never in clear when the listener has TLS, or a
    saslContinue whose payload the SCRAM library accepts as the final message of
    the conversation that an earlier saslStart of this session opened with the
    verifier the store then held for the user it named. *)
Theorem mongo_login_sound sv connID tls tr s x w m s' w' :
  preauth_run sv (newSession connID tls) tr s ->
  dispatchPreAuth sv x s w m = (s', w', Ok true) ->
  mg_upstream s' = [] /\
  exists user s1 rep wb, established x wb w' s1 user /\ s' = with_reply s1 rep /\
    b_grants (mw_backend wb) = b_grants (mw_backend w) /\ b_servers (mw_backend wb) = b_servers (mw_backend w) /\
    mw_reg wb = mw_reg w /\ admits sv tr s x w m user.
Proof.
  intros Hr E. destruct (preauth_steps _ _ _ _ Hr) as (Hs & Hu & _); [done|].
  apply (dispatchPreAuth_cases sv tr) in E as (Hu' & user & s1 & rep & wb & He & -> & F1 & F2 & F3 & Hp); [|done].
  split; [by rewrite Hu', Hu|]. exists user, s1, rep, wb. exact (conj He (conj eq_refl (conj F2 (conj F1 (conj F3 Hp))))).
Qed.

(** Until then the client only talks to the proxy: nothing reaches an upstream
    server, no grant is held and nothing is recorded. *)
Theorem mongo_preauth_isolated sv connID tls tr s :
  preauth_run sv (newSession connID tls) tr s ->
  mg_upstream s = [] /\ mg_authenticated s = false /\ ac_grant (mg_account s) = None /\ ac_log (mg_account s) = [].
Proof. intros Hr. destruct (preauth_steps _ _ _ _ Hr) as (_ & Hu & Ha & Hc); [done|]. by rewrite Hu, Ha, Hc. Qed.
End Auth.

(** ** The relay *)

Section Relay.
Context {SS : ScramServer} {B : BSONLib} {BS : BSON bytes}.
Variable q : QueryStorageConfig.

(** A message that may reach the upstream server: an OP_MSG whose command body
    passed the validation, or anything that is not an OP_MSG. *)
Definition admissible (db : option Server) (g : AccessGrant) (m : message) : Prop :=
  m_opCode m = opCodeMsg ->
  exists parsed body, parseOpMsg (m_body m) = Ok parsed /\ commandBody (om_sections parsed) = Some body /\
    ValidateMongoCommand (commandName body) (lookupString body "$db") body db g = None.

Record relay_ok (db : option Server) (g0 : AccessGrant) (conn : option uuid) (s : MgSession) : Prop := {
  ro_db : mg_database s = db;
  ro_conn : ac_connection (mg_account s) = conn;
  ro_grant : exists n b, ac_grant (mg_account s) = Some (with_counters g0 n b);
  ro_forwarded : Forall (admissible db g0) (mg_upstream s);
  ro_balanced : forall c, conn = Some c -> balanced g0 c (mg_account s)
}.

Lemma relay_ok_ext db g0 conn s s' :
  mg_database s' = mg_database s -> mg_account s' = mg_account s -> mg_upstream s' = mg_upstream s ->
  relay_ok db g0 conn s -> relay_ok db g0 conn s'.
Proof. intros E1 E2 E3 [H1 H2 H3 H4 H5]. split; rewrite ?E1, ?E2, ?E3; done. Qed.

Lemma record_ok db g0 conn e s pq rows affected err :
  relay_ok db g0 conn s -> relay_ok db g0 conn (record_pending e s pq rows affected err).
Proof.
  intros [H1 H2 (n & b & H3) H4 H5].
  destruct (recordQuery_grant e (pq_sqlText pq) (pq_params pq) (pq_start pq) rows affected err _ g0 n b H3) as (n' & b' & G & _ & _ & Gc).
  split; [done|exact (eq_trans Gc H2)|by exists n', b'|done|].
  intros c Hc. apply recordQuery_balanced. by apply H5.
Qed.

Lemma forward_ok db g0 conn up s m s' :
  forward up s m = Ok s' -> admissible db g0 m -> relay_ok db g0 conn s -> relay_ok db g0 conn s'.
Proof.
  unfold forward. destruct up; [|done]. intros [= <-] Hm [H1 H2 H3 H4 H5]. split; try done.
  cbn. apply Forall_app. split; [done|]. by constructor.
Qed.

Lemma rejectCommand_ok db g0 conn e wr s m cmd body more err s' :
  rejectCommand e wr s m cmd body more err = Ok s' -> relay_ok db g0 conn s -> relay_ok db g0 conn s'.
Proof.
  unfold rejectCommand. intros H Hs. destruct more; [injection H as <-; by apply record_ok|].
  destruct wr; [|done]. injection H as <-. eapply relay_ok_ext; [..|by apply record_ok]; done.
Qed.

Lemma handleClientOpMsg_ok db g0 conn e e' wr up s m s' :
  handleClientOpMsg e e' wr up s m = Ok s' -> relay_ok db g0 conn s -> relay_ok db g0 conn s'.
Proof.
  intros H Hs. unfold handleClientOpMsg in H. destruct (parseOpMsg (m_body m)) as [parsed|?|] eqn:Ep; [|done..]. cbn [lift_wire rbind] in H.
  destruct (commandBody _) as [body|] eqn:Eb; [|done].
  destruct (l_revoked e); [by eapply rejectCommand_ok|].
  destruct (ro_grant _ _ _ _ Hs) as (n & b & Eg). rewrite Eg in H.
  destruct (checkQuotas _ _); [by eapply rejectCommand_ok|].
  destruct (ValidateMongoCommand _ _ _ _ _) eqn:Ev; [by eapply rejectCommand_ok|].
  apply rbind_Ok in H as (s1 & Hf & H).
  assert (H1 : relay_ok db g0 conn s1).
  { eapply forward_ok; [exact Hf| |eapply relay_ok_ext; [..|exact Hs]; done]. intros _. exists parsed, body. repeat split; try done.
    by rewrite <- (ro_db _ _ _ _ Hs). }
  destruct (negb _); [|by injection H as <-]. unfold takePending in H.
  destruct (mg_pending s1 !! _); injection H as <-; [apply record_ok|]; (eapply relay_ok_ext; [..|exact H1]; done).
Qed.

Lemma track_ok db g0 conn s pq body : relay_ok db g0 conn s -> relay_ok db g0 conn (trackCursorFromReply s pq body).1.
Proof.
  intros Hs. assert (Hc : forall c, relay_ok db g0 conn (with_cursors s c)) by (intros c; by apply (relay_ok_ext db g0 conn s)).
  unfold trackCursorFromReply. destruct (lookupDoc body "cursor"); [|done].
  destruct (contains_str _ _); [destruct (negb _); [apply Hc|done]|]. destruct (_ && _); [apply Hc|done].
Qed.

Lemma captureResult_ok db g0 conn e s m : relay_ok db g0 conn s -> relay_ok db g0 conn (captureResult q e s m).
Proof.
  intros Hs. unfold captureResult. destruct (negb _); [done|]. unfold takePending.
  assert (H1 : relay_ok db g0 conn (with_pending s (delete (m_responseTo m) (mg_pending s)))) by (eapply relay_ok_ext; [..|exact Hs]; done).
  destruct (mg_pending s !! _) as [pq|]; [|done].
  destruct (parseOpMsg _) as [p|?|]; [|by apply record_ok..].
  destruct (commandBody _) as [body|]; [|by apply record_ok].
  pose proof (track_ok db g0 conn _ pq body H1) as H2.
  destruct (trackCursorFromReply _ pq body) as [s1 pq1]. by apply record_ok.
Qed.

Lemma relay_step_ok db g0 conn s s' : relay_step q s s' -> relay_ok db g0 conn s -> relay_ok db g0 conn s'.
Proof.
  intros [e e' wr up s0 m s1 H|e wr s0 m s1 H] Hs.
  - unfold client_pump in H. destruct (Z.eqb_spec (m_opCode m) opCodeMsg) as [Eo|Eo]; cbn [negb] in H.
    + by eapply handleClientOpMsg_ok.
    + eapply forward_ok; [exact H|by intros ?|done].
  - unfold upstream_pump in H. destruct wr; [|done]. injection H as <-.
    apply (relay_ok_ext db g0 conn (captureResult q e s0 m)); [done..|by apply captureResult_ok].
Qed.

Lemma relay_steps_ok db g0 conn s s' : rtc (relay_step q) s s' -> relay_ok db g0 conn s -> relay_ok db g0 conn s'.
Proof. induction 1 as [|s s1 s2 H _ IH]; intros Hs; [done|]. by eapply IH, relay_step_ok. Qed.

(** The session as authentication leaves it. *)
Definition relaying (g : AccessGrant) (conn : option uuid) (s : MgSession) : Prop :=
  ac_grant (mg_account s) = Some g /\ ac_connection (mg_account s) = conn /\ ac_snapshot (mg_account s) = 0 /\
  ac_log (mg_account s) = [] /\ mg_upstream s = [].

Lemma relaying_ok g conn s : relaying g conn s -> relay_ok (mg_database s) g conn s.
Proof.
  intros (H1 & H2 & H3 & H4 & H5). split; [done..| | |].
  - exists (g_QueryCount g), (g_BytesTransferred g). by rewrite with_counters_same.
  - rewrite H5. constructor.
  - intros c ->. destruct (mg_account s) as [gr c' sn l]. cbn in *. subst. apply balanced_start.
Qed.

(** C5. Every OP_MSG the relay ever forwarded carries a command that the validation
    admits under the session's grant and server, in every interleaving of the two
    pumps; and with a connection row the books of the session balance. *)
Theorem mongo_only_admitted_forwarded g conn s s' m :
  relaying g conn s -> rtc (relay_step q) s s' -> In m (mg_upstream s') -> m_opCode m = opCodeMsg ->
  exists parsed body, parseOpMsg (m_body m) = Ok parsed /\ commandBody (om_sections parsed) = Some body /\
    ValidateMongoCommand (commandName body) (lookupString body "$db") body (mg_database s) g = None.
Proof.
  intros Hs Hr Hin Ho. pose proof (relay_steps_ok _ _ _ _ _ Hr (relaying_ok _ _ _ Hs)) as H.
  apply (proj1 (List.Forall_forall _ _) (ro_forwarded _ _ _ _ H)); done.
Qed.

Theorem mongo_accounts_balance g conn s s' :
  relaying g (Some conn) s -> rtc (relay_step q) s s' ->
  let a := mg_account s' in
  ac_snapshot a = logged_bytes (ac_log a) /\
  ac_grant a = Some (with_counters g (g_QueryCount g + zlen (ac_log a)) (g_BytesTransferred g + ac_snapshot a)).
Proof.
  intros Hs Hr. pose proof (relay_steps_ok _ _ _ _ _ Hr (relaying_ok _ _ _ Hs)) as H.
  pose proof (ro_balanced _ _ _ _ H conn eq_refl) as Hb. split; [apply (ba_snapshot _ _ _ Hb)|apply (ba_grant _ _ _ Hb)].
Qed.

(** A reply to a pending command is recorded once, under the text the command
    was registered with, and the command is pending no more. *)
Lemma captureResult_records e s m pq c :
  m_opCode m = opCodeMsg -> mg_pending s !! m_responseTo m = Some pq -> ac_connection (mg_account s) = Some c ->
  exists l, ac_log (mg_account (captureResult q e s m)) = (ac_log (mg_account s) ++ [l])%list /\
    q_SQLText (lg_query l) = pq_sqlText pq /\ q_ConnectionID (lg_query l) = c /\
    mg_pending (captureResult q e s m) = delete (m_responseTo m) (mg_pending s) /\
    mg_upstream (captureResult q e s m) = mg_upstream s /\ mg_client (captureResult q e s m) = mg_client s /\
    mg_database (captureResult q e s m) = mg_database s /\ ac_connection (mg_account (captureResult q e s m)) = Some c.
Proof.
  intros Ho Hp Hc. unfold captureResult. rewrite Ho. cbn [negb Z.eqb]. unfold takePending. rewrite Hp. cbn.
  assert (Hrec : forall s0 pq0 rows aff err, mg_account s0 = mg_account s -> pq_sqlText pq0 = pq_sqlText pq ->
    exists l, ac_log (mg_account (record_pending e s0 pq0 rows aff err)) = (ac_log (mg_account s) ++ [l])%list /\
      q_SQLText (lg_query l) = pq_sqlText pq /\ q_ConnectionID (lg_query l) = c /\
      ac_connection (mg_account (record_pending e s0 pq0 rows aff err)) = Some c).
  { intros s0 pq0 rows aff err Ha Ht. unfold record_pending, recordQuery. cbn. rewrite Ha, Hc. cbn.
    eexists. split; [reflexivity|]. by rewrite <- Ht. }
  set (s1 := with_pending s _).
  assert (Hone : forall s0 pq0 rows aff err, mg_account s0 = mg_account s -> pq_sqlText pq0 = pq_sqlText pq ->
    mg_pending s0 = delete (m_responseTo m) (mg_pending s) -> mg_upstream s0 = mg_upstream s -> mg_client s0 = mg_client s ->
    mg_database s0 = mg_database s -> let s' := record_pending e s0 pq0 rows aff err in
    exists l, ac_log (mg_account s') = (ac_log (mg_account s) ++ [l])%list /\
      q_SQLText (lg_query l) = pq_sqlText pq /\ q_ConnectionID (lg_query l) = c /\
      mg_pending s' = delete (m_responseTo m) (mg_pending s) /\ mg_upstream s' = mg_upstream s /\
      mg_client s' = mg_client s /\ mg_database s' = mg_database s /\ ac_connection (mg_account s') = Some c).
  { intros s0 pq0 rows aff err Ha Ht E1 E2 E3 E4 s'. destruct (Hrec s0 pq0 rows aff err Ha Ht) as (l & L1 & L2 & L3 & L4).
    exists l. repeat split; done. }
  destruct (parseOpMsg _) as [p|?|]; [|by apply Hone..].
  destruct (commandBody _) as [body|]; [|by apply Hone].
  unfold trackCursorFromReply. destruct (lookupDoc body "cursor"); [|by apply Hone].
  destruct (contains_str _ _); [destruct (negb _); by apply Hone|]. destruct (_ && _); by apply Hone.
Qed.

Lemma captureResult_unknown e s m : mg_pending s !! m_responseTo m = None -> captureResult q e s m = s.
Proof.
  intros Hp. unfold captureResult, takePending. destruct (negb _); [done|]. by rewrite Hp.
Qed.

(** The relay admitted an acknowledged command of the client and sent it on. *)
Definition sent (s : MgSession) (m : message) (pq : pending) (s' : MgSession) : Prop :=
  m_opCode m = opCodeMsg /\ mg_pending s' = <[m_requestID m := pq]> (mg_pending s) /\
  mg_upstream s' = (mg_upstream s ++ [m])%list /\ mg_account s' = mg_account s /\ mg_client s' = mg_client s /\
  mg_database s' = mg_database s /\ exists e e' wr, client_pump e e' wr true s m = Ok s'.

(** Every admitted command is recorded once when it is answered, if its request
    id is not in use: whatever other replies and commands with other ids do. *)
Theorem mongo_command_recorded s m pq s1 s2 e wr r s3 c :
  sent s m pq s1 -> mg_pending s2 !! m_requestID m = mg_pending s1 !! m_requestID m ->
  ac_connection (mg_account s2) = Some c ->
  m_opCode r = opCodeMsg -> m_responseTo r = m_requestID m -> upstream_pump q e wr s2 r = Ok s3 ->
  exists l, ac_log (mg_account s3) = (ac_log (mg_account s2) ++ [l])%list /\
    q_SQLText (lg_query l) = pq_sqlText pq /\ q_ConnectionID (lg_query l) = c /\ mg_pending s3 !! m_requestID m = None.
Proof.
  intros (_ & Hp & _) Hp2 Hc Ho Hr H. rewrite Hp, lookup_insert_eq in Hp2.
  unfold upstream_pump in H. destruct wr; [|done]. injection H as <-.
  rewrite <- Hr in Hp2. destruct (captureResult_records e s2 r pq c Ho Hp2 Hc) as (l & H1 & H2 & H3 & H4 & _).
  exists l. split; [exact H1|]. split; [exact H2|]. split; [exact H3|].
  cbn [with_reply set_relay mg_pending]. rewrite H4, Hr. apply lookup_delete_eq.
Qed.

(** A client may use one request id twice.  The second command replaces the first
    in the table of pending commands: both reach the upstream server, but of the
    two only one is recorded and counted, and when the first was [listDatabases]
    its unfiltered answer is relayed. *)
Theorem mongo_reused_request_id s m1 m2 pq1 pq2 s1 s2 e3 e4 wr r1 r2 s3 s4 c :
  sent s m1 pq1 s1 -> sent s1 m2 pq2 s2 -> m_requestID m1 = m_requestID m2 ->
  ac_connection (mg_account s) = Some c -> pq_command pq2 <> "listDatabases" ->
  m_opCode r1 = opCodeMsg -> m_responseTo r1 = m_requestID m1 -> m_responseTo r2 = m_requestID m1 ->
  upstream_pump q e3 wr s2 r1 = Ok s3 -> upstream_pump q e4 wr s3 r2 = Ok s4 ->
  mg_upstream s4 = (mg_upstream s ++ [m1; m2])%list /\
  length (ac_log (mg_account s4)) = S (length (ac_log (mg_account s))) /\
  mg_client s4 = (mg_client s ++ [RFrame (m_raw r1); RFrame (m_raw r2)])%list.
Proof.
  intros (_ & P1 & U1 & A1 & C1 & _) (_ & P2 & U2 & A2' & C2 & _) Hid Hc Hl Ho R1 R2 H3 H4.
  rewrite <- Hid in P2.
  assert (Hp : mg_pending s2 !! m_responseTo r1 = Some pq2) by (by rewrite R1, P2, lookup_insert_eq).
  assert (Hc2 : ac_connection (mg_account s2) = Some c) by congruence.
  unfold upstream_pump in H3, H4. destruct wr; [|done]. unfold pendingCommand in H3. rewrite Hp in H3.
  destruct (String.eqb_spec (pq_command pq2) "listDatabases"); [done|]. injection H3 as <-.
  destruct (captureResult_records e3 s2 r1 pq2 c Ho Hp Hc2) as (l & L1 & _ & _ & L4 & L5 & L6 & _).
  set (s3 := with_reply (captureResult q e3 s2 r1) (RFrame (m_raw r1))) in H4.
  assert (Hn : mg_pending s3 !! m_responseTo r2 = None) by (unfold s3; cbn [with_reply set_relay mg_pending]; by rewrite L4, R1, R2, lookup_delete_eq).
  unfold pendingCommand in H4. rewrite Hn in H4. change (String.eqb "" "listDatabases") with false in H4. cbv iota in H4. rewrite (captureResult_unknown e4 s3 r2 Hn) in H4.
  injection H4 as <-. unfold s3. cbn [with_reply set_relay mg_upstream mg_account mg_client].
  rewrite L1, L5, L6, U2, U1, C2, C1, A2', A1. split; [by rewrite <- app_assoc|].
  split; [rewrite length_app; cbn; lia|by rewrite <- app_assoc].
Qed.

(** Only OP_MSG is looked at: a message with any other opcode is passed to the
    upstream server unchecked and unrecorded, also when the grant is read-only,
    revoked or exhausted. *)
Theorem mongo_other_opcodes_unchecked e e' wr s m :
  m_opCode m <> opCodeMsg ->
  client_pump e e' wr true s m = Ok (with_upstream s m) /\ mg_account (with_upstream s m) = mg_account s.
Proof. intros Ho. unfold client_pump. by destruct (Z.eqb_spec (m_opCode m) opCodeMsg). Qed.

(** ** Paged results *)

(** A cursor opened by a [find] or [aggregate] links every later [getMore] to it:
    both log the same [cursor_id], and the [getMore] names the command and the
    namespace it continues, until the cursor is drained. *)
Theorem mongo_cursor_lineage s pq reply cursor n s1 pq1 more pq2 :
  contains_str cursorOpeningCommands (pq_command pq) = true ->
  lookupDoc reply "cursor" = Some cursor -> lookupInt64 cursor "id" = Some n -> n <> 0 ->
  trackCursorFromReply s pq reply = (s1, pq1) ->
  lookupInt64 more "getMore" = Some n ->
  let pq3 := annotateGetMore s1 pq2 more in
  let tag := ("cursor_id=" ++ FormatInt n)%string in
  In tag (qp_Values (default (params_of []) (pq_params pq1))) /\
  In tag (qp_Values (default (params_of []) (pq_params pq3))) /\
  In ("cursor_origin=" ++ pq_command pq ++
      (if String.eqb (lookupString cursor "ns") "" then "" else " " ++ lookupString cursor "ns"))%string
     (qp_Values (default (params_of []) (pq_params pq3))) /\
  pq_cursorID pq3 = n /\
  forall drained last s2 pq4, lookupDoc drained "cursor" = Some last -> lookupInt64 last "id" = Some 0 ->
    pq_command pq3 = "getMore" -> trackCursorFromReply s1 pq3 drained = (s2, pq4) -> mg_cursors s2 !! n = None.
Proof.
  intros Hcmd Hd Hid Hne Ht Hm pq3 tag. unfold trackCursorFromReply in Ht. rewrite Hd, Hcmd, Hid in Ht. unfold default, from_option, id in Ht. cbv zeta in Ht.
  destruct (Z.eqb_spec n 0); [done|]. cbn [negb] in Ht. injection Ht as <- <-.
  assert (H3 : pq3 = annotateGetMore (with_cursors s (<[n:={| co_command := pq_command pq; co_namespace := lookupString cursor "ns" |}]> (mg_cursors s))) pq2 more) by done.
  unfold annotateGetMore in H3. rewrite Hm in H3. cbn [with_cursors set_relay mg_cursors] in H3. rewrite lookup_insert_eq in H3.
  split; [cbn; apply in_or_app; right; by left|]. rewrite H3. cbn [appendPendingParam pq_params default qp_Values pq_cursorID set_cursorID pq_command].
  split; [apply in_or_app; left; apply in_or_app; right; by left|].
  split; [apply in_or_app; right; by left|]. split; [done|].
  intros drained last s2 pq4 Hl H0 Hg Hs. unfold trackCursorFromReply in Hs. cbn [pq_command appendPendingParam set_cursorID] in Hs.
  rewrite Hl, H0 in Hs. rewrite Hg in Hs. cbn in Hs. destruct (Z.eqb_spec n 0); [done|]. cbn in Hs.
  injection Hs as <- <-. cbn. apply lookup_delete_eq.
Qed.

(** ** [listDatabases] *)

(** A rewritten [listDatabases] answer lists databases of the grant's name only,
    each one an entry of the upstream's answer, as the OP_MSG reply to the same
    request; the other fields keep their place and value. *)
Theorem mongo_list_databases_confined allowed m raw :
  filterListDatabasesReply allowed m = Some raw ->
  exists parsed body arr values kept total,
    parseOpMsg (m_body m) = Ok parsed /\ commandBody (om_sections parsed) = Some body /\
    lookupArray body "databases" = Some arr /\ Values arr = Some values /\
    buildOpMsgReply (m_requestID m) (m_responseTo m) (Marshal (rewriteDatabasesField body kept total)) = Ok raw /\
    Forall (fun o => exists d, o = ORaw (VDoc d) /\ In (VDoc d) values /\ lookupString d "name" = allowed) kept /\
    (forall d, In (VDoc d) values -> lookupString d "name" = allowed -> In (ORaw (VDoc d)) kept) /\
    Forall (fun kv => kv.1 = "databases" -> kv.2 = OArray kept) (rewriteDatabasesField body kept total).
Proof.
  unfold filterListDatabasesReply. destruct (parseOpMsg _) as [parsed|?|] eqn:Ep; [|done..].
  destruct (commandBody _) as [body|] eqn:Eb; [|done]. destruct (lookupArray body _) as [arr|] eqn:Ea; [|done].
  destruct (Values arr) as [values|] eqn:Ev; [|done]. destruct (keep_databases allowed values) as [kept total] eqn:Ek.
  destruct (buildOpMsgReply _ _ _) as [raw'|?|] eqn:Er; [|done..]. intros [= ->].
  exists parsed, body, arr, values, kept, total. do 5 (split; [done|]).
  assert (Hk : Forall (fun o => exists d, o = ORaw (VDoc d) /\ In (VDoc d) values /\ lookupString d "name" = allowed) kept /\
               forall d, In (VDoc d) values -> lookupString d "name" = allowed -> In (ORaw (VDoc d)) kept).
  { clear -Ek. revert kept total Ek. induction values as [|v values IH]; intros kept total; cbn [keep_databases].
    - intros [= <- <-]. split; [constructor|done].
    - destruct (keep_databases allowed values) as [k t] eqn:E. destruct (IH k t eq_refl) as [I1 I2].
      assert (I1' : Forall (fun o => exists d, o = ORaw (VDoc d) /\ In (VDoc d) (v :: values) /\ lookupString d "name" = allowed) k).
      { eapply Forall_impl; [exact I1|]. intros o (d & -> & Hin & Hn). exists d. repeat split; [by right|done]. }
      destruct v as [| |d| | | | | |]; try (intros [= <- <-]; split; [exact I1'|]; intros d0 [?|Hin] Hn; [done|by apply I2]).
      destruct (String.eqb_spec (lookupString d "name") allowed) as [Hn|Hn]; intros [= <- <-].
      + split; [constructor; [|exact I1']; exists d; repeat split; [by left|done]|].
        intros d0 [[= ->]|Hin] Hn0; [by left|right; by apply I2].
      + split; [exact I1'|]. intros d0 [[= ->]|Hin] Hn0; [done|by apply I2]. }
  destruct Hk as [H1 H2]. split; [done|]. split; [done|].
  unfold rewriteDatabasesField. destruct (Elements body) as [elems|].
  - apply List.Forall_forall. intros kv Hin. apply in_map_iff in Hin as ([k v] & <- & _). intros Hkv. revert Hkv.
    destruct (String.eqb_spec k "databases"); [done|]. destruct (String.eqb k "totalSize"); [done|].
    by destruct (String.eqb k "totalSizeMb").
  - repeat constructor; done.
Qed.
End Relay.

(** ** The text of a logged command *)

Lemma utf8_step b0 r0 :
  utf8_Valid (b0 :: r0) = true -> exists p x r, b0 :: r0 = (p ++ x :: r)%list /\ x < 192 /\ utf8_Valid r = true.
Proof.
  cbn [utf8_Valid]. destruct (Z.ltb_spec b0 128); [intros Hv; exists [], b0, r0; split; [done|split; [lia|done]]|].
  destruct r0 as [|b1 r1]; [done|].
  destruct (in_range 194 223 b0).
  { intros H1. unfold cont in H1. bools. exists [b0], b1, r1. split; [done|split; [lia|done]]. }
  destruct r1 as [|b2 r2]; [done|].
  destruct (in_range 224 239 b0).
  { intros H1. unfold cont in H1. bools. exists [b0; b1], b2, r2. split; [done|split; [lia|done]]. }
  destruct r2 as [|b3 r3]; [done|].
  intros H1. unfold cont in H1. bools. exists [b0; b1; b2], b3, r3. split; [done|split; [lia|done]].
Qed.

(** Valid UTF-8 never ends in the first byte of a longer sequence. *)
Lemma utf8_last_byte : forall n l b, (length l <= n)%nat -> utf8_Valid (l ++ [b])%list = true -> b < 192.
Proof.
  assert (Hone : forall p x (r : bytes) l b, (l ++ [b] = p ++ x :: r)%list ->
            (r = [] /\ b = x) \/ exists r', r = (r' ++ [b])%list /\ (length r' < length l)%nat).
  { intros p x r l b E. induction r as [|z r' _] using rev_ind.
    - apply app_inj_tail in E as [_ ->]. by left.
    - right. exists r'. rewrite app_comm_cons, app_assoc in E. apply app_inj_tail in E as [-> ->].
      split; [done|]. rewrite length_app. cbn. lia. }
  induction n as [|n IH]; intros l b Hl H.
  - destruct l; [|cbn in Hl; lia]. apply utf8_step in H as (p & x & r & E & Hx & Hr).
    destruct (Hone _ _ _ [] b E) as [[_ ->]|(r' & _ & Hlt)]; [done|cbn in Hlt; lia].
  - destruct (l ++ [b])%list as [|b0 r0] eqn:El; [by destruct l|].
    apply utf8_step in H as (p & x & r & E & Hx & Hr). rewrite <- El in E.
    destruct (Hone _ _ _ _ b E) as [[_ ->]|(r' & -> & Hlt)]; [done|]. apply (IH r'); [lia|done].
Qed.

Section LogText.
Context {B : BSONLib}.

(** The text of a long command is cut at a byte: when the cut falls inside a
    character, the logged text is not valid UTF-8 even though the command's is. *)
Theorem mongo_log_text_cut_inside_character cmd body ext pre b rest :
  MarshalExtJSON body = Some ext -> (cmd ++ " " ++ ext = pre ++ String b rest)%string ->
  slen pre = maxSQLTextLen - 1 -> 192 <= code b -> rest <> "" ->
  utf8_Valid (str_bytes (buildSQLText cmd body)) = false.
Proof.
  intros Hm Ht Hl Hb Hr. unfold buildSQLText. rewrite Hm, Ht. unfold slen in *.
  assert (Hlen : forall u v, String.length (u ++ v)%string = (String.length u + String.length v)%nat)
    by (induction u as [|c u IH]; intros v; cbn; [done|by rewrite IH]).
  rewrite Hlen. cbn [String.length].
  destruct (Z.ltb_spec maxSQLTextLen (Z.of_nat (String.length pre + S (String.length rest)))).
  2:{ destruct rest; [done|]. cbn [String.length] in *. lia. }
  assert (Hsub : forall p, String.substring 0 (S (String.length p)) (p ++ String b rest)%string = (p ++ String b "")%string).
  { induction p as [|c p IH]; cbn; [by destruct rest|]. f_equal. exact IH. }
  replace (Z.to_nat maxSQLTextLen) with (S (String.length pre)) by lia. rewrite Hsub.
  assert (Hsb : str_bytes (pre ++ String b "")%string = (str_bytes pre ++ [code b])%list).
  { clear. induction pre as [|c p IH]; [done|]. cbn. f_equal. exact IH. }
  rewrite Hsb. destruct (utf8_Valid _) eqn:E; [|done]. apply (utf8_last_byte _ _ _ (le_n _)) in E. lia.
Qed.
End LogText.

(** ** A concrete library, listener and session *)

Module SampleMongo.
Import SampleServers SampleLogin.
(** A document is its length, a name and the rest: [name] is its only key, and
    looking anything up finds the bytes behind the name's NUL, as a binary, the
    mechanism PLAIN apart. *)
Fixpoint cut_nul (b : bytes) : bytes * bytes :=
  match b with
  | [] => ([], [])
  | x :: r => if x =? 0 then ([], r) else let '(n, t) := cut_nul r in (x :: n, t)
  end.
Definition fields (doc : bytes) : bytes * bytes := cut_nul (drop 4 doc).
#[export] Instance t_bson : BSONLib :=
  {| Lookup doc key := if String.eqb key "mechanism" then Some (VString "PLAIN")
                       else if String.eqb key "payload" then Some (VBinary (removelast (fields doc).2))
                       else if String.eqb key "databases" then Some (VArray [])
                       else if String.eqb key "cursor" then Some (VDoc [9])
                       else if String.eqb key "id" then (if bool_decide (doc = [0]) then Some (VInt64 0) else Some (VInt64 77))
                       else if String.eqb key "getMore" then Some (VInt64 77)
                       else if String.eqb key "name" then Some (VString "shop") else None;
     Elements doc := Some [(bytes_str (fields doc).1, VInt32 1)];
     Values _ := Some [VDoc [1]; VInt32 3];
     MarshalExtJSON doc := Some (bytes_str doc);
     Marshal _ := Some [5; 0; 0; 0; 0];
     double_is_one _ := true; double_int64 b := b |}.
#[export] Instance t_stages : BSON bytes := {| pipeline_stages _ := None |}.
#[export] Instance t_scram : ScramServer :=
  {| conv := unit; client_first _ := None; server_first _ _ _ := None; client_final _ _ := (None, false) |}.

Definition doc_of (name : string) (rest : bytes) : bytes :=
  (le_put 4 (4 + zlen (str_bytes name) + 1 + zlen rest + 1) ++ str_bytes name ++ [0] ++ rest ++ [0])%list.
Definition msg (id : Z) (name : string) (rest : bytes) : message :=
  let body := (le_put 4 0 ++ [0] ++ doc_of name rest)%list in
  {| m_length := 16 + zlen body; m_requestID := id; m_responseTo := 0; m_opCode := opCodeMsg; m_body := body; m_raw := body |}.
Definition answer (id : Z) : message :=
  let m := msg 900 "ok" [] in
  {| m_length := m_length m; m_requestID := 900; m_responseTo := id; m_opCode := opCodeMsg; m_body := m_body m; m_raw := m_raw m |}.

Definition listener : Listener :=
  {| sv_tls := true; sv_serviceID := []; sv_encryptionKey := SampleServers.key; sv_storage := SampleMy.storage |}.
Definition io : AuthIO :=
  {| x_env := SampleLogin.env; x_nonce := "n"; x_upstream := true; x_conn_sql _ := true; x_conn_uid := 4%N;
     x_source := "10.0.0.7"; x_write := true |}.
Definition mongo_servers : ServerDB :=
  (CreateServer SampleServers.dsn SampleServers.ok SampleServers.ok ∅
     (SampleServers.sample_server "shop" "10.0.0.9" ProtocolMongoDB None) SampleServers.key 2%N
     (Some (replicate 12 1)) (None, None) 5 5).1.
Definition world : MgWorld :=
  {| mw_backend := {| b_acct := SampleLogin.acct; b_servers := mongo_servers;
                      b_grants := (CreateGrant (fun _ => true) empty_db (sample_grant []) 7%N 90).1;
                      b_keyCache := None; b_authCache := None; b_spawned := [] |};
     mw_reg := NewRevocationRegistry |}.
Definition plain : bytes := ([0] ++ str_bytes "alice#shop" ++ [0] ++ str_bytes "s3cret")%list.
Definition logged_in : MgSession * MgWorld * res mg_error bool :=
  dispatchPreAuth listener io (newSession 1 true) world (msg 1 "saslStart" plain).
Definition session : MgSession :=
  {| mg_tlsActive := true; mg_connID := 1; mg_user := None; mg_database := mongo_servers !! 2%N;
     mg_account := {| ac_grant := Some (sample_grant [ControlReadOnly]); ac_connection := Some 4%N; ac_snapshot := 0; ac_log := [] |};
     mg_authenticated := true; mg_authSource := ""; mg_scramConv := None; mg_scramUser := None; mg_scramHint := "";
     mg_compressor := None; mg_revocation := None; mg_pending := ∅; mg_cursors := ∅; mg_upstream := []; mg_client := [] |}.
Definition live1 : Live := SampleRecord.live_at 10 10 200.
Definition after (m : message) (s : MgSession) : MgSession :=
  match client_pump live1 live1 true true s m with Ok s' => s' | _ => s end.
Definition pending_of (m : message) (s : MgSession) : pending :=
  match mg_pending (after m s) !! m_requestID m with Some pq => pq
  | None => {| pq_command := ""; pq_sqlText := ""; pq_params := None; pq_start := 0; pq_moreToCome := false; pq_cursorID := 0 |} end.
End SampleMongo.

Import SampleServers SampleLogin SampleMongo.

Lemma mongo_login_sound_witness : exists s w user, logged_in = (s, w, Ok true) /\ mg_user s = Some user.
Proof.
  destruct logged_in as [[s w] [[]|e|]] eqn:E; try (vm_compute in E; discriminate).
  destruct (mongo_login_sound listener 1 true [] (newSession 1 true) io world (msg 1 "saslStart" plain) s w (preauth_start _ _) E)
    as (_ & user & s1 & rep & wb & He & -> & _).
  exists (with_reply s1 rep), w, user. split; [reflexivity|]. exact (es_user _ _ _ _ _ He).
Defined.

Lemma mongo_preauth_isolated_witness :
  exists s w, dispatchPreAuth listener io (newSession 1 true) world (msg 1 "ping" []) = (s, w, Ok false) /\ mg_upstream s = [].
Proof.
  destruct (dispatchPreAuth listener io (newSession 1 true) world (msg 1 "ping" [])) as [[s w] [[]|e|]] eqn:E;
    try (vm_compute in E; discriminate).
  exists s, w. split; [reflexivity|].
  exact (proj1 (mongo_preauth_isolated listener 1 true _ s (preauth_message listener _ [] _ io world (msg 1 "ping" []) s w (preauth_start _ _) E))).
Defined.

Lemma sent_find (id : Z) (name : string) s :
  client_pump live1 live1 true true s (msg id name []) = Ok (after (msg id name []) s) ->
  mg_pending (after (msg id name []) s) = <[id := pending_of (msg id name []) s]> (mg_pending s) ->
  mg_upstream (after (msg id name []) s) = (mg_upstream s ++ [msg id name []])%list ->
  mg_account (after (msg id name []) s) = mg_account s -> mg_client (after (msg id name []) s) = mg_client s ->
  mg_database (after (msg id name []) s) = mg_database s ->
  sent s (msg id name []) (pending_of (msg id name []) s) (after (msg id name []) s).
Proof. intros H1 H2 H3 H4 H5 H6. do 6 (split; [done|]). by exists live1, live1, true. Qed.

Lemma find_admitted : client_pump live1 live1 true true session (msg 3 "find" []) = Ok (after (msg 3 "find" []) session).
Proof. vm_compute. reflexivity. Qed.

Lemma mongo_only_admitted_forwarded_witness :
  exists body, ValidateMongoCommand (commandName body) (lookupString body "$db") body (mg_database session)
                 (sample_grant [ControlReadOnly]) = None.
Proof.
  destruct (mongo_only_admitted_forwarded SampleMy.storage (sample_grant [ControlReadOnly]) (Some 4%N) session
              (after (msg 3 "find" []) session) (msg 3 "find" [])) as (p & body & _ & _ & H).
  - do 4 (split; [reflexivity|]). reflexivity.
  - apply rtc_once. eapply relay_client. exact find_admitted.
  - vm_compute. left. reflexivity.
  - reflexivity.
  - exists body. exact H.
Defined.

Lemma mongo_accounts_balance_witness :
  ac_snapshot (mg_account (after (msg 3 "drop" []) session)) = 20.
Proof.
  refine (eq_trans (proj1 (mongo_accounts_balance SampleMy.storage (sample_grant [ControlReadOnly]) 4%N session
              (after (msg 3 "drop" []) session) _ _)) _).
  - do 4 (split; [reflexivity|]). reflexivity.
  - apply rtc_once. apply (relay_client _ live1 live1 true true _ (msg 3 "drop" [])). vm_compute. reflexivity.
  - vm_compute. reflexivity.
Defined.

Lemma mongo_command_recorded_witness :
  exists s3 l, upstream_pump SampleMy.storage live1 true (after (msg 3 "find" []) session) (answer 3) = Ok s3 /\
    ac_log (mg_account s3) = [l].
Proof.
  destruct (upstream_pump SampleMy.storage live1 true (after (msg 3 "find" []) session) (answer 3)) as [s3|e|] eqn:E;
    [|vm_compute in E; discriminate..].
  destruct (mongo_command_recorded SampleMy.storage session (msg 3 "find" []) (pending_of (msg 3 "find" []) session)
              (after (msg 3 "find" []) session) (after (msg 3 "find" []) session) live1 true (answer 3) s3 4%N) as (l & H & _).
  - apply sent_find; vm_compute; reflexivity.
  - reflexivity.
  - vm_compute. reflexivity.
  - reflexivity.
  - reflexivity.
  - exact E.
  - exists s3, l. split; [reflexivity|]. exact H.
Defined.

(** A [listDatabases] and a [ping] under one request id. *)
Definition two_commands : MgSession := after (msg 3 "ping" []) (after (msg 3 "listDatabases" []) session).

Lemma mongo_reused_request_id_witness :
  exists s4, length (mg_upstream s4) = 2%nat /\ length (ac_log (mg_account s4)) = 1%nat /\
    mg_client s4 = [RFrame (m_raw (answer 3)); RFrame (m_raw (answer 3))].
Proof.
  destruct (upstream_pump SampleMy.storage live1 true two_commands (answer 3)) as [s3|e|] eqn:E3; [|vm_compute in E3; discriminate..].
  destruct (upstream_pump SampleMy.storage live1 true s3 (answer 3)) as [s4|e|] eqn:E4;
    [|vm_compute in E3; injection E3 as <-; vm_compute in E4; discriminate..].
  destruct (mongo_reused_request_id SampleMy.storage session (msg 3 "listDatabases" []) (msg 3 "ping" [])
              (pending_of (msg 3 "listDatabases" []) session) (pending_of (msg 3 "ping" []) (after (msg 3 "listDatabases" []) session))
              (after (msg 3 "listDatabases" []) session) two_commands live1 live1 true (answer 3) (answer 3) s3 s4 4%N) as (H1 & H2 & H3).
  - apply sent_find; vm_compute; reflexivity.
  - apply sent_find; vm_compute; reflexivity.
  - reflexivity.
  - reflexivity.
  - vm_compute. discriminate.
  - reflexivity.
  - reflexivity.
  - reflexivity.
  - exact E3.
  - exact E4.
  - exists s4. rewrite H1, H2, H3. repeat split; reflexivity.
Defined.

Lemma mongo_other_opcodes_unchecked_witness :
  client_pump live1 live1 true true session
    {| m_length := 20; m_requestID := 1; m_responseTo := 0; m_opCode := opCodeQuery; m_body := [1; 2; 3; 4]; m_raw := [] |}
  = Ok (with_upstream session
    {| m_length := 20; m_requestID := 1; m_responseTo := 0; m_opCode := opCodeQuery; m_body := [1; 2; 3; 4]; m_raw := [] |}).
Proof.
  apply (mongo_other_opcodes_unchecked live1 live1 true session
    {| m_length := 20; m_requestID := 1; m_responseTo := 0; m_opCode := opCodeQuery; m_body := [1; 2; 3; 4]; m_raw := [] |}).
  discriminate.
Defined.

Lemma mongo_cursor_lineage_witness :
  let s1 := with_cursors session (<[77 := {| co_command := "find"; co_namespace := "" |}]> (mg_cursors session)) in
  pq_cursorID (annotateGetMore s1 (pending_of (msg 4 "getMore" []) session) []) = 77.
Proof.
  destruct (trackCursorFromReply session (pending_of (msg 3 "find" []) session) [7]) as [s1 pq1] eqn:E.
  assert (H : s1 = with_cursors session (<[77 := {| co_command := "find"; co_namespace := "" |}]> (mg_cursors session))).
  { vm_compute in E. injection E as <- _. vm_compute. reflexivity. }
  rewrite <- H.
  exact (proj1 (proj2 (proj2 (proj2 (mongo_cursor_lineage session (pending_of (msg 3 "find" []) session) [7] [9] 77 s1 pq1 []
           (pending_of (msg 4 "getMore" []) session) eq_refl eq_refl eq_refl ltac:(discriminate) E eq_refl))))).
Defined.

Lemma mongo_list_databases_confined_witness :
  exists raw values, filterListDatabasesReply "shop" (answer 3) = Some raw /\ Values [] = Some values.
Proof.
  destruct (filterListDatabasesReply "shop" (answer 3)) as [raw|] eqn:E; [|vm_compute in E; discriminate].
  destruct (mongo_list_databases_confined "shop" (answer 3) raw E) as (p & body & arr & values & k & t & _ & _ & Ha & Hv & _).
  exists raw, values. split; [reflexivity|]. vm_compute in Ha. injection Ha as <-. exact Hv.
Defined.

Definition long_text : string := string_of_list_ascii (repeat "a"%char (Z.to_nat 8188)).

Lemma mongo_log_text_cut_inside_character_witness :
  utf8_Valid (str_bytes (buildSQLText "ok" (str_bytes long_text ++ [195; 169]))) = false.
Proof.
  apply (mongo_log_text_cut_inside_character "ok" (str_bytes long_text ++ [195; 169])
           (bytes_str (str_bytes long_text ++ [195; 169])) ("ok " ++ long_text)%string (chr 195) (String (chr 169) "")).
  - reflexivity.
  - vm_compute. reflexivity.
  - vm_compute. reflexivity.
  - vm_compute. discriminate.
  - discriminate.
Defined.
