(* ===== verification/MongoUpstream.v ===== *)
(** * The upstream connection of the MongoDB proxy ([internal/proxy/mongodb/upstream.go])

    The proxy speaks the protocol itself; its SCRAM client is a library
    ([xdg-go/scram]): the class [ScramClient], with what its documentation promises in
    [ScramClientLaws].  All the server ever sends is one byte stream, so that every
    adaptive server is covered. *)

From Stdlib Require Import ZArith Lia List Bool String Ascii.
From stdpp Require Import base list gmap strings.
From S2P Require Import Prelude GoStrings Encoding Models Limits GrantStore Crypto Servers Dial ConnCheck MongoWire MongoBson.

Open Scope string_scope.
Open Scope Z_scope.

(** One conversation of the SCRAM client. *)
Class ScramClient := {
  cconv : Type;
  NewConversation : string -> string -> string -> option cconv;  (* user, password, the nonce drawn *)
  Step : cconv -> string -> cconv * option string;               (* [None]: an error *)
  Done : cconv -> bool;
  Valid : cconv -> bool        (* the server has shown that it has the credentials *)
}.

(** A conversation takes three steps; the last checks the signature of the server. *)
Class ScramClientLaws {SC : ScramClient} := {
  steps_left : cconv -> nat;
  new_steps u p n c : NewConversation u p n = Some c -> steps_left c = 3%nat;
  step_left c m c' r : Step c m = (c', Some r) -> steps_left c = S (steps_left c');
  step_done c m c' r : Step c m = (c', Some r) -> Done c' = Nat.eqb (steps_left c') 0 /\ Valid c' = Nat.eqb (steps_left c') 0
}.

Inductive up_error :=
| UpDecrypt (e : server_error)
| UpDial (e : dial_error)
| UpTLS
| UpName                       (* no application name: shown impossible *)
| UpWrite
| UpRead (e : wire_error)
| UpWire (e : wire_error)
| UpNoCommandBody
| ErrUpstreamRejected (errmsg : string)
| UpScramClient
| UpScramStep
| UpServerValidation
| UpUnfinished.                (* out of fuel: shown impossible *)

(** The connection: requests so far, what is left to read, what was written. *)
Record upstreamConn := { up_reqID : Z; up_reader : bytes; up_sent : list bytes }.

Definition maxAppNameLen : Z := 128.

Definition U (A : Type) : Type := upstreamConn -> upstreamConn * res up_error A.
Definition ret {A} (a : A) : U A := fun u => (u, Ok a).
Definition lift {A} (r : res up_error A) : U A := fun u => (u, r).
Definition then_ {A B} (m : U A) (k : A -> U B) : U B :=
  fun u => match m u with (u, Ok a) => k a u | (u, Err e) => (u, Err e) | (u, Panic) => (u, Panic) end.

Declare Scope up_scope.
Notation "'up!' x := m 'in' k" := (then_ m (fun x => k)) (at level 10, x name, m at level 100, k at level 200) : up_scope.
Notation "'up!' ' p := m 'in' k" := (then_ m (fun p => k)) (at level 10, p pattern, m at level 100, k at level 200) : up_scope.
Open Scope up_scope.

Section Upstream.
Context {B : BSONLib} {SC : ScramClient}.
(** The writes that succeed, counted from 0. *)
Variable write : nat -> bool.

Definition wire {A} (r : res wire_error A) : res up_error A :=
  match r with Ok a => Ok a | Err e => Err (UpWire e) | Panic => Panic end.

Definition command_of (m : message) : res up_error bytes :=
  let! parsed := wire (parseOpMsg (m_body m)) in
  match commandBody (om_sections parsed) with Some body => Ok body | None => Err UpNoCommandBody end.

Definition sendCommand (doc : bdoc) : U bytes := fun u =>
  let u := {| up_reqID := i32 (up_reqID u + 1); up_reader := up_reader u; up_sent := up_sent u |} in
  match wire (buildOpMsgReply (up_reqID u) 0 (Marshal doc)) with
  | Ok req =>
      if negb (write (length (up_sent u))) then (u, Err UpWrite)
      else
        match readMessage (up_reader u) with
        | Ok (m, rest) => ({| up_reqID := up_reqID u; up_reader := rest; up_sent := up_sent u ++ [req] |}, command_of m)
        | Err e => ({| up_reqID := up_reqID u; up_reader := up_reader u; up_sent := up_sent u ++ [req] |}, Err (UpRead e))
        | Panic => (u, Panic)
        end
  | Err e => (u, Err e)
  | Panic => (u, Panic)
  end.

Definition helloCommand (version goos appName : string) : bdoc :=
  [("hello", OInt 1); ("helloOk", OBool true);
   ("client", ODoc [("driver", ODoc [("name", OStr "dbbat"); ("version", OStr version)]);
                    ("application", ODoc [("name", OStr appName)]); ("os", ODoc [("type", OStr goos)])]);
   ("$db", OStr "admin")].

Definition upstreamHandshake (version goos username : string) : U unit :=
  match BuildUpstreamName version username "" maxAppNameLen with
  | None => lift Panic
  | Some appName =>
      up! body := sendCommand (helloCommand version goos appName) in
      if replyOK body then ret tt else lift (Err (ErrUpstreamRejected (lookupString body "errmsg")))
  end.

(** Conversation, payload, done. *)
Definition parseSaslReply (body : bytes) : res up_error (Z * bytes * bool) :=
  if negb (replyOK body) then Err (ErrUpstreamRejected (lookupString body "errmsg"))
  else
    let convID := match Lookup body "conversationId" with Some (VInt32 n) => n | _ => 0 end in
    Ok (convID, default [] (lookupBinary body "payload"), lookupBool body "done").

Definition saslContinue (convID : Z) (resp authDB : string) : bdoc :=
  [("saslContinue", OInt 1); ("conversationId", OInt32 convID); ("payload", OBin (str_bytes resp)); ("$db", OStr authDB)].
Definition saslStart (clientFirst authDB : string) : bdoc :=
  [("saslStart", OInt 1); ("mechanism", OStr "SCRAM-SHA-256"); ("payload", OBin (str_bytes clientFirst));
   ("options", ODoc [("skipEmptyExchange", OBool true)]); ("$db", OStr authDB)].

(** [for !done]: the conversation and the last payload. *)
Fixpoint continue_loop (fuel : nat) (authDB : string) (c : cconv) (reply : Z * bytes * bool) : U (cconv * bytes) :=
  let '(convID, payload, done) := reply in
  if done : bool then ret (c, payload)
  else
    match fuel with
    | O => lift (Err UpUnfinished)
    | S fuel =>
        match Step c (bytes_str payload) with
        | (_, None) => lift (Err UpScramStep)
        | (c, Some resp) =>
            up! body := sendCommand (saslContinue convID resp authDB) in
            up! reply := lift (parseSaslReply body) in
            continue_loop fuel authDB c reply
        end
    end.

(** Every round reads a message of at least sixteen bytes ([login_ends]). *)
Definition loop_fuel (u : upstreamConn) : nat := S (length (up_reader u)).

Definition scramLoop (c : cconv) (body : bytes) (authDB : string) : U cconv := fun u =>
  (up! reply := lift (parseSaslReply body) in
   up! ' (c, payload) := continue_loop (loop_fuel u) authDB c reply in
   if negb (Done c) && (0 <? zlen payload) then
     match Step c (bytes_str payload) with
     | (c, Some _) => ret c
     | (_, None) => lift (Err UpServerValidation)
     end
   else ret c) u.

Definition scramAuthDB (srv : Server) : string := MongoAuthSourceOrDefault srv.

Definition upstreamSCRAM (srv : Server) (nonce : string) : U cconv :=
  let authDB := scramAuthDB srv in
  match NewConversation (d_Username srv) (d_Password srv) nonce with
  | None => lift (Err UpScramClient)
  | Some conv =>
      match Step conv "" with
      | (_, None) => lift (Err UpScramStep)
      | (conv, Some clientFirst) =>
          up! body := sendCommand (saslStart clientFirst authDB) in
          scramLoop conv body authDB
      end
  end.

(** The login on an open channel. *)
Definition login (srv : Server) (version goos username nonce : string) : U cconv :=
  up! _ := upstreamHandshake version goos username in
  upstreamSCRAM srv nonce.
End Upstream.

(** [dialUpstream]: the TLS the mode asks for. *)
Definition upstreamTLS (srv : Server) : TLSConfig :=
  let mode := d_SSLMode srv in
  if String.eqb mode "require" then TLSUnverified
  else if (String.eqb mode "verify-ca" || String.eqb mode "verify-full")%bool then TLSVerified (d_Host srv)
  else TLSPlain.

(** The network behind the dialler: does the TLS handshake succeed, and what does the
    server send on the channel. *)
Record Net := {
  n_handshake : TLSConfig -> bool;
  n_stream : TLSConfig -> bytes;
  n_write : nat -> bool
}.

Section Connect.
Context {B : BSONLib} {SC : ScramClient} {GCM : AEAD} {UT : UUIDText} {KP : SSHKeys}.
Variables (w : World) (n : Net).

Definition dialUpstream (d : Dialer) (ek : bytes) (srv : Server) : Dialer * res up_error TLSConfig :=
  match DialUpstream w d ek srv with
  | (d, Some e) => (d, Err (UpDial e))
  | (d, None) =>
      let config := upstreamTLS srv in
      (d, match config with
          | TLSPlain => Ok config
          | _ => if n_handshake n config then Ok config else Err UpTLS
          end)
  end.

(** The channel if there is one, the connection on it, and the outcome: the
    conversation of a session that goes on. *)
Definition connectUpstream (d : Dialer) (ek : bytes) (srv : Server) (version goos username nonce : string) :
    Dialer * option (TLSConfig * upstreamConn) * res up_error cconv :=
  match DecryptPassword srv ek with
  | Panic => (d, None, Panic)
  | Err e => (d, None, Err (UpDecrypt e))
  | Ok srv =>
      match dialUpstream d ek srv with
      | (d, Ok config) =>
          let '(u, r) := login (n_write n) srv version goos username nonce
                           {| up_reqID := 0; up_reader := n_stream n config; up_sent := [] |} in
          (d, Some (config, u), r)
      | (d, Err e) => (d, None, Err e)
      | (d, Panic) => (d, None, Panic)
      end
  end.
End Connect.

(** * Theorems *)

Section Login.
Context {B : BSONLib} {SC : ScramClient} {SL : ScramClientLaws}.
Variable write : nat -> bool.

(** What a step of the login leaves: no panic, the fuel not used up, at most [n]
    requests more, what is left of the stream well formed and no longer. *)
Definition tame {A} (n : nat) (m : U A) : Prop :=
  forall u, wf_bytes (up_reader u) ->
    let '(u', r) := m u in
    r <> Panic /\ r <> Err UpUnfinished /\ wf_bytes (up_reader u') /\ (length (up_reader u') <= length (up_reader u))%nat /\
    (length (up_sent u') <= length (up_sent u) + n)%nat.

Lemma tame_ret {A} n (a : A) : tame n (ret a).
Proof. intros u Hw. cbn. repeat split; try done; lia. Qed.
Lemma tame_lift {A} n (r : res up_error A) : r <> Panic -> r <> Err UpUnfinished -> tame n (lift r).
Proof. intros H1 H2 u Hw. cbn. repeat split; try done; lia. Qed.
Lemma tame_then {A D} n k (m : U A) (f : A -> U D) : tame n m -> (forall a, tame k (f a)) -> tame (n + k) (then_ m f).
Proof.
  intros Hm Hf u Hw. specialize (Hm u Hw). unfold then_. destruct (m u) as [u1 [a|e|]]; destruct Hm as (H1 & H2 & H3 & H4 & H5).
  - specialize (Hf a u1 H3). destruct (f a u1) as [u2 r]. destruct Hf as (F1 & F2 & F3 & F4 & F5). repeat split; try done; lia.
  - repeat split; try done; [congruence|lia].
  - done.
Qed.

(** One command: one request, and a message less in the stream when it succeeds. *)
Lemma sendCommand_shrinks doc u b : (sendCommand write doc u).2 = Ok b ->
  (length (up_reader (sendCommand write doc u).1) < length (up_reader u))%nat.
Proof.
  unfold sendCommand. destruct (wire _) as [req|e|]; [|done..]. destruct (negb _); [done|].
  destruct (readMessage _) as [[m rest]|e|] eqn:E; [|done..]. intros _.
  apply readMessage_Ok in E as (hl & hi & ho & hc & _ & _ & _ & _ & _ & Er & _ & _ & _ & _ & H1 & H2).
  cbn [fst up_reader] in *. rewrite Er, length_app. unfold zlen in *. lia.
Qed.

Lemma sendCommand_tame doc : tame 1 (sendCommand write doc).
Proof.
  intros u Hw. unfold sendCommand, buildOpMsgReply. destruct (Marshal doc) as [db|]; cbn [wire up_sent up_reader up_reqID];
    [|repeat split; try done; lia].
  destruct (negb (write _)); cbn [up_reader up_sent]; [repeat split; try done; lia|].
  destruct (readMessage (up_reader u)) as [[m rest]|e|] eqn:E; cbn [up_reader up_sent].
  - apply readMessage_Ok in E as (hl & hi & ho & hc & _ & _ & _ & _ & Hraw & Er & _ & _ & _ & _ & H1 & H2).
    rewrite Er, Hraw in Hw. apply wf_app in Hw as [Hw Hr]. apply wf_app in Hw as [_ Hb].
    pose proof (parseOpMsg_not_Panic _ Hb). unfold command_of. rewrite length_app; cbn [length].
    repeat split; try done; [| |rewrite Er, length_app; lia].
    + destruct (parseOpMsg (m_body m)); cbn; [destruct (commandBody _); done|done|done].
    + destruct (parseOpMsg (m_body m)); cbn; [destruct (commandBody _); done|done|done].
  - rewrite length_app; cbn [length]. repeat split; try done; lia.
  - by apply readMessage_not_Panic in E.
Qed.

Lemma parseSaslReply_tame n body : tame n (lift (parseSaslReply body)).
Proof. apply tame_lift; unfold parseSaslReply; by destruct (negb _). Qed.

Lemma continue_tame authDB fuel : forall c reply u, wf_bytes (up_reader u) -> (length (up_reader u) < fuel)%nat ->
  let '(u', r) := continue_loop write fuel authDB c reply u in
  r <> Panic /\ r <> Err UpUnfinished /\ wf_bytes (up_reader u') /\ (length (up_reader u') <= length (up_reader u))%nat /\
  (length (up_sent u') <= length (up_sent u) + steps_left c)%nat.
Proof.
  induction fuel as [|fuel IH]; intros c [[convID payload] done_] u Hw Hf; [lia|]. cbn [continue_loop].
  destruct done_; [apply (tame_ret (steps_left c) _ u Hw)|].
  destruct (Step c (bytes_str payload)) as [c1 [resp|]] eqn:Es; [|by apply tame_lift].
  apply step_left in Es. unfold then_ at 1. pose proof (sendCommand_tame (saslContinue convID resp authDB) u Hw) as H1.
  pose proof (sendCommand_shrinks (saslContinue convID resp authDB) u) as H2.
  destruct (sendCommand write _ u) as [u1 [b|e|]]; destruct H1 as (T1 & T2 & T3 & T4 & T5); [|repeat split; try done; [congruence|lia]|done].
  specialize (H2 b eq_refl). cbn [fst] in H2. unfold then_, lift. pose proof (parseSaslReply_tame 0 b u1 T3) as H3. unfold lift in H3.
  destruct (parseSaslReply b) as [reply|e|]; destruct H3 as (S1 & S2 & _); [|repeat split; try done; [congruence|lia]|done].
  specialize (IH c1 reply u1 T3 ltac:(lia)). destruct (continue_loop write fuel authDB c1 reply u1) as [u2 r].
  destruct IH as (I1 & I2 & I3 & I4 & I5). repeat split; try done; lia.
Qed.

Lemma scramLoop_tame c body authDB : tame (steps_left c) (scramLoop write c body authDB).
Proof.
  intros u Hw. unfold scramLoop. unfold then_ at 1, lift at 1. destruct (parseSaslReply body) as [reply|e|] eqn:Ep.
  - unfold then_. pose proof (continue_tame authDB (loop_fuel u) c reply u Hw ltac:(unfold loop_fuel; lia)) as H1.
    destruct (continue_loop _ _ _ _ _ _) as [u1 [[c1 payload]|e|]]; destruct H1 as (T1 & T2 & T3 & T4 & T5);
      [|repeat split; try done; congruence|done].
    destruct (_ && _); [destruct (Step c1 _) as [c2 [x|]]|]; cbn; repeat split; try done; lia.
  - repeat split; try done; [|lia]. intros [= ->]. unfold parseSaslReply in Ep. by destruct (negb _).
  - unfold parseSaslReply in Ep. by destruct (negb _).
Qed.

Lemma app_name version user : exists name, BuildUpstreamName version user "" maxAppNameLen = Some name.
Proof. destruct (upstream_name_bounded version user "" maxAppNameLen) as (name & H & _). by exists name. Qed.

Lemma login_tame srv version goos username nonce : tame 4 (login write srv version goos username nonce).
Proof.
  unfold login. apply (tame_then 1 3).
  - unfold upstreamHandshake. destruct (app_name version username) as [name ->]. apply (tame_then 1 0); [apply sendCommand_tame|].
    intros body. destruct (replyOK body); [apply tame_ret|by apply tame_lift].
  - intros _. unfold upstreamSCRAM. destruct (NewConversation _ _ _) as [c0|] eqn:En; [|by apply tame_lift].
    destruct (Step c0 "") as [c1 [first|]] eqn:Es; [|by apply tame_lift].
    apply new_steps in En. apply step_left in Es. apply (tame_then 1 2); [apply sendCommand_tame|]. intros body.
    replace 2%nat with (steps_left c1) by lia. apply scramLoop_tame.
Qed.

(** ** Frames of a server *)

(** The server answers with this document. *)
Definition frame_of (doc : bytes) : bytes :=
  match buildOpMsgReply 0 0 (Some doc) with Ok b => b | _ => [] end.
Definition fits (doc : bytes) : Prop := doc_ok doc /\ zlen doc + 21 <= maxWireMessageSize.

Lemma answered_command doc db req rest id sent body :
  fits body -> Marshal doc = Some db -> write (length sent) = true ->
  buildOpMsgReply (i32 (id + 1)) 0 (Some db) = Ok req ->
  sendCommand write doc {| up_reqID := id; up_reader := frame_of body ++ rest; up_sent := sent |} =
    ({| up_reqID := i32 (id + 1); up_reader := rest; up_sent := sent ++ [req] |}, Ok body).
Proof.
  intros [Hd Hl] Hm Hw Hr. unfold sendCommand. cbn [up_reqID up_reader up_sent]. rewrite Hm, Hr. cbn [wire]. rewrite Hw. cbn [negb].
  destruct (reply_roundtrip 0 0 body rest Hd Hl ltac:(lia) ltac:(lia)) as (buf & m & msg & H1 & H2 & _ & _ & _ & _ & H3 & _ & H4 & _).
  unfold frame_of. rewrite H1, H2. unfold command_of. rewrite H3. cbn [wire rbind]. by rewrite H4.
Qed.

(** C14. The login of the MongoDB proxy at an upstream server ends: whatever bytes the
    server sends, it neither panics nor runs on, and asks at most four things, greeting
    and first message of the exchange included. *)
Theorem mongo_upstream_ends srv version goos username nonce u :
  wf_bytes (up_reader u) ->
  let '(u', r) := login write srv version goos username nonce u in
  r <> Panic /\ r <> Err UpUnfinished /\ (length (up_sent u') <= length (up_sent u) + 4)%nat.
Proof.
  intros Hw. pose proof (login_tame srv version goos username nonce u Hw) as H. destruct (login _ _ _ _ _ _ u) as [u' r].
  destruct H as (H1 & H2 & _ & _ & H3). by split_and!.
Qed.

(** A reply of the exchange with this payload. *)
Definition says (body payload : bytes) (done : bool) : Prop :=
  fits body /\ replyOK body = true /\ default [] (lookupBinary body "payload") = payload /\ lookupBool body "done" = done.

Hypothesis writes_succeed : forall i, write i = true.
Hypothesis documents_marshal : forall doc, is_Some (Marshal doc).

Lemma asked doc body rest id sent : fits body ->
  exists req, sendCommand write doc {| up_reqID := id; up_reader := frame_of body ++ rest; up_sent := sent |} =
    ({| up_reqID := i32 (id + 1); up_reader := rest; up_sent := sent ++ [req] |}, Ok body).
Proof. intros Hf. destruct (documents_marshal doc) as [db Hd]. eexists. by eapply answered_command. Qed.

Lemma parsed body payload done_ : says body payload done_ -> exists convID, parseSaslReply body = Ok (convID, payload, done_).
Proof. intros (_ & Ho & <- & <-). unfold parseSaslReply. rewrite Ho. by eexists. Qed.

Lemma greeted body rest version goos username : fits body -> replyOK body = true ->
  exists req, upstreamHandshake write version goos username {| up_reqID := 0; up_reader := frame_of body ++ rest; up_sent := [] |} =
    ({| up_reqID := 1; up_reader := rest; up_sent := [req] |}, Ok tt).
Proof.
  intros Hf Ho. unfold upstreamHandshake. destruct (app_name version username) as [name ->]. unfold then_.
  destruct (asked (helloCommand version goos name) body rest 0 [] Hf) as [req ->]. rewrite Ho. by exists req.
Qed.

(** The login completes at a server that knows the password: when it answers the
    greeting, offers its first message and then, as the proxy asks, closes with its
    final one, the session goes on with a conversation in which the signature of the
    server was checked, after three requests. *)
Theorem mongo_upstream_login_completes srv version goos username nonce c0 c1 c2 c3 first final last hello reply1 reply2 p1 p2 rest :
  NewConversation (d_Username srv) (d_Password srv) nonce = Some c0 ->
  Step c0 "" = (c1, Some first) -> Step c1 (bytes_str p1) = (c2, Some final) -> Step c2 (bytes_str p2) = (c3, Some last) ->
  fits hello -> replyOK hello = true -> says reply1 p1 false -> says reply2 p2 true -> p2 <> [] ->
  exists u, login write srv version goos username nonce
      {| up_reqID := 0; up_reader := frame_of hello ++ frame_of reply1 ++ frame_of reply2 ++ rest; up_sent := [] |} = (u, Ok c3) /\
    Valid c3 = true /\ length (up_sent u) = 3%nat /\ up_reader u = rest.
Proof.
  intros Hn S1 S2 S3 Fh Oh R1 R2 Hne. pose proof (new_steps _ _ _ _ Hn). pose proof (step_left _ _ _ _ S1). pose proof (step_left _ _ _ _ S2).
  pose proof (step_left _ _ _ _ S3). destruct (step_done _ _ _ _ S2) as [D2 _]. destruct (step_done _ _ _ _ S3) as [_ V3].
  unfold login, then_ at 1. destruct (greeted hello (frame_of reply1 ++ frame_of reply2 ++ rest) version goos username Fh Oh) as [q1 ->].
  unfold upstreamSCRAM. rewrite Hn, S1. unfold then_ at 1.
  destruct (asked (saslStart first (scramAuthDB srv)) reply1 (frame_of reply2 ++ rest) 1 [q1] (proj1 R1)) as [q2 ->].
  destruct (parsed _ _ _ R1) as [id1 P1]. destruct (parsed _ _ _ R2) as [id2 P2].
  unfold scramLoop, then_, lift, loop_fuel. rewrite P1. cbn [up_reader continue_loop]. rewrite S2. unfold then_, lift.
  destruct (asked (saslContinue id1 final (scramAuthDB srv)) reply2 rest (i32 (1 + 1)) ([q1] ++ [q2]) (proj1 R2)) as [q3 ->]. rewrite P2.
  destruct (length (frame_of reply2 ++ rest)); cbn [continue_loop ret].
  all: rewrite D2; replace (steps_left c2) with 1%nat by lia; cbn [Nat.eqb negb andb].
  all: destruct (Z.ltb_spec 0 (zlen p2)) as [_|Hz]; [|destruct p2; [done|unfold zlen in Hz; cbn in Hz; lia]].
  all: rewrite S3; eexists; split; [reflexivity|]; split; [rewrite V3; by replace (steps_left c3) with 0%nat by lia|done].
Qed.

(** The exchange proves nothing about a server that ends it: one that answers the
    first message of the exchange with done and no payload is logged in to after two
    requests, with neither proof sent nor signature seen, whatever the password. *)
Theorem mongo_upstream_unproven srv version goos username nonce c0 c1 first hello reply rest :
  NewConversation (d_Username srv) (d_Password srv) nonce = Some c0 -> Step c0 "" = (c1, Some first) ->
  fits hello -> replyOK hello = true -> says reply [] true ->
  exists u, login write srv version goos username nonce
      {| up_reqID := 0; up_reader := frame_of hello ++ frame_of reply ++ rest; up_sent := [] |} = (u, Ok c1) /\
    Valid c1 = false /\ length (up_sent u) = 2%nat.
Proof.
  intros Hn S1 Fh Oh R. pose proof (new_steps _ _ _ _ Hn). pose proof (step_left _ _ _ _ S1). destruct (step_done _ _ _ _ S1) as [_ V1].
  unfold login, then_ at 1. destruct (greeted hello (frame_of reply ++ rest) version goos username Fh Oh) as [q1 ->].
  unfold upstreamSCRAM. rewrite Hn, S1. unfold then_ at 1.
  destruct (asked (saslStart first (scramAuthDB srv)) reply rest 1 [q1] (proj1 R)) as [q2 ->]. destruct (parsed _ _ _ R) as [id P].
  unfold scramLoop, then_, lift, loop_fuel. rewrite P. cbn [up_reader continue_loop ret]. rewrite andb_false_r.
  eexists. split; [reflexivity|]. split; [rewrite V1; by replace (steps_left c1) with 2%nat by lia|done].
Qed.
End Login.

Section Channels.
Context {B : BSONLib} {SC : ScramClient} {GCM : AEAD} {UT : UUIDText} {KP : SSHKeys}.

(** A session that got a channel has the one the mode of its row asks for, after a TLS
    handshake unless that is none; the row's other modes speak in clear. *)
Theorem mongo_channel_of_mode w n d ek srv version goos username nonce d' config u r :
  connectUpstream w n d ek srv version goos username nonce = (d', Some (config, u), r) ->
  config = upstreamTLS srv /\ (config = TLSPlain \/ n_handshake n config = true) /\
  (config = TLSPlain <-> d_SSLMode srv ∉ ["require"; "verify-ca"; "verify-full"]).
Proof.
  unfold connectUpstream. destruct (DecryptPassword srv ek) as [srv'|e|] eqn:Ed; [|done..].
  assert (Hs : upstreamTLS srv' = upstreamTLS srv).
  { revert Ed. unfold DecryptPassword. by intros (p & _ & [= <-])%rbind_Ok. }
  unfold dialUpstream. destruct (DialUpstream w d ek srv') as [d1 [e|]]; [done|]. rewrite Hs.
  assert (Hm : upstreamTLS srv = TLSPlain <-> d_SSLMode srv ∉ ["require"; "verify-ca"; "verify-full"]).
  { unfold upstreamTLS. destruct (String.eqb_spec (d_SSLMode srv) "require") as [->|H1]; [split; [done|]; intros H; destruct H; set_solver|].
    destruct (String.eqb_spec (d_SSLMode srv) "verify-ca") as [->|H2]; [split; [done|]; intros H; destruct H; set_solver|].
    destruct (String.eqb_spec (d_SSLMode srv) "verify-full") as [->|H3]; [split; [done|]; intros H; destruct H; set_solver|].
    split; [intros _; set_solver|done]. }
  destruct (upstreamTLS srv) eqn:Eu.
  - destruct (login _ _ _ _ _ _ _) as [u' r']. intros [= <- <- <- <-]. split_and!; [done|by left|done].
  - destruct (n_handshake n TLSUnverified) eqn:Eh; [|done]. destruct (login _ _ _ _ _ _ _) as [u' r']. intros [= <- <- <- <-]. split_and!; [done|by right|done].
  - destruct (n_handshake n (TLSVerified serverName)) eqn:Eh; [|done]. destruct (login _ _ _ _ _ _ _) as [u' r']. intros [= <- <- <- <-]. split_and!; [done|by right|done].
Qed.
End Channels.

(** ** A sample server *)

Module SampleMongoUp.
(** The steps left and the password; the final message names the password. *)
#[export] Instance toy_scram : ScramClient := {|
  cconv := nat * string;
  NewConversation _ p _ := Some (3%nat, p);
  Step c m := match c with
              | (O, _) => (c, None)
              | (S O, p) => if String.eqb m ("v=" ++ p) then ((0%nat, p), Some "") else (c, None)
              | (S n, p) => ((n, p), Some ("step " ++ m))
              end;
  Done c := Nat.eqb c.1 0; Valid c := Nat.eqb c.1 0 |}.
#[export] Instance toy_laws : ScramClientLaws.
Proof.
  refine {| steps_left c := c.1 |}.
  - by intros u p n c [= <-].
  - intros [[|[|n]] p] m [n' p'] r; cbn; [done| |]; [destruct (String.eqb m _); [by intros [= <- <- <-]|done]|by intros [= <- <- <-]].
  - intros [[|[|n]] p] m [n' p'] r; cbn; [done| |]; [destruct (String.eqb m _); [by intros [= <- <- <-]|done]|by intros [= <- <- <-]].
Defined.
(** A document is a length, [ok], [done] and the payload. *)
#[export] Instance toy_bson : BSONLib :=
  {| Lookup doc key := if String.eqb key "ok" then VInt32 <$> doc !! 4%nat
                       else if String.eqb key "done" then (fun b => VBool (b =? 1)) <$> doc !! 5%nat
                       else if String.eqb key "payload" then Some (VBinary (drop 6 doc)) else None;
     Elements _ := None; Values _ := None; MarshalExtJSON _ := None; Marshal _ := Some [5; 0; 0; 0; 0];
     double_is_one _ := true; double_int64 b := b |}.
Definition reply (ok done : Z) (payload : string) : bytes :=
  (le_put 4 (6 + zlen (str_bytes payload)) ++ [ok; done] ++ str_bytes payload)%list.
Definition row : Server := SampleServers.sample_server "shop" "10.0.0.9" ProtocolMongoDB None.
Definition on (l : list bytes) : upstreamConn := {| up_reqID := 0; up_reader := concat (map frame_of l); up_sent := [] |}.
Definition outcome (l : list bytes) := (login (fun _ => true) row "1" "linux" "alice" "n" (on l)).2.

(** The server proves itself, *)
Example honest : outcome [reply 1 0 ""; reply 1 0 "r=1"; reply 1 1 ("v=" ++ d_Password row)] = Ok (0%nat, d_Password row).
Proof. vm_compute. reflexivity. Qed.
(** also when it leaves out nothing and waits for an empty answer; *)
Example unhurried : outcome [reply 1 0 ""; reply 1 0 "r=1"; reply 1 0 ("v=" ++ d_Password row); reply 1 1 ""] = Ok (0%nat, d_Password row).
Proof. vm_compute. reflexivity. Qed.
(** a wrong signature is refused, *)
Example impostor : outcome [reply 1 0 ""; reply 1 0 "r=1"; reply 1 1 "v=guess"] = Err UpServerValidation.
Proof. vm_compute. reflexivity. Qed.
(** but none at all is not, *)
Example silent : outcome [reply 1 0 ""; reply 1 1 ""] = Ok (2%nat, d_Password row).
Proof. vm_compute. reflexivity. Qed.
(** nor is a first message in place of the last. *)
Example hasty : outcome [reply 1 0 ""; reply 1 1 "r=1"] = Ok (1%nat, d_Password row).
Proof. vm_compute. reflexivity. Qed.
End SampleMongoUp.
Import SampleMongoUp.

Lemma mongo_upstream_ends_witness :
  (login (fun _ => true) row "1" "linux" "alice" "n" (on (replicate 9 (reply 1 0 "again")))).2 <> Err UpUnfinished.
Proof.
  pose proof (mongo_upstream_ends (fun _ => true) row "1" "linux" "alice" "n" (on (replicate 9 (reply 1 0 "again")))) as H.
  destruct (login _ _ _ _ _ _ _) as [u r]. apply H. apply wf_bytes_check. vm_compute. reflexivity.
Defined.

Lemma reply_fits ok done payload : zlen (str_bytes payload) < 1000 -> fits (reply ok done payload).
Proof.
  intros Hl. pose proof (zlen_nonneg (str_bytes payload)). unfold fits, doc_ok, reply.
  rewrite !zlen_app, zlen_le_put, !zlen_cons, zlen_nil. unfold maxWireMessageSize. split_and!; [lia| |lia].
  change (take 4 (le_put 4 (6 + zlen (str_bytes payload)) ++ [ok; done] ++ str_bytes payload)) with (le_put 4 (6 + zlen (str_bytes payload))).
  rewrite le_get_put, Z.mod_small by lia. lia.
Qed.

Lemma mongo_upstream_login_completes_witness :
  exists u, login (fun _ => true) row "1" "linux" "alice" "n" (on [reply 1 0 ""; reply 1 0 "r=1"; reply 1 1 ("v=" ++ d_Password row)]) = (u, Ok (0%nat, d_Password row)).
Proof.
  destruct (mongo_upstream_login_completes (fun _ => true) (fun _ => eq_refl) (fun _ => ltac:(eexists; reflexivity)) row "1" "linux" "alice" "n"
    (3%nat, d_Password row) (2%nat, d_Password row) (1%nat, d_Password row) (0%nat, d_Password row) "step " "step r=1" ""
    (reply 1 0 "") (reply 1 0 "r=1") (reply 1 1 ("v=" ++ d_Password row)) (str_bytes "r=1") (str_bytes ("v=" ++ d_Password row)) [])
    as (u & H & _); try reflexivity; try (apply reply_fits; reflexivity).
  - split; [apply reply_fits; reflexivity|by split_and!].
  - split; [apply reply_fits; reflexivity|by split_and!].
  - discriminate.
  - exists u. exact H.
Defined.

Lemma mongo_upstream_unproven_witness :
  exists u c, login (fun _ => true) row "1" "linux" "alice" "n" (on [reply 1 0 ""; reply 1 1 ""]) = (u, Ok c) /\ Valid c = false.
Proof.
  destruct (mongo_upstream_unproven (fun _ => true) (fun _ => eq_refl) (fun _ => ltac:(eexists; reflexivity)) row "1" "linux" "alice" "n"
    (3%nat, d_Password row) (2%nat, d_Password row) "step " (reply 1 0 "") (reply 1 1 "") []) as (u & H & Hv & _);
    try reflexivity; try (apply reply_fits; reflexivity).
  - split; [apply reply_fits; reflexivity|by split_and!].
  - exists u, (2%nat, d_Password row). split; [exact H|exact Hv].
Defined.
