(* ===== verification/MySqlUpstream.v ===== *)
(** * The upstream connection of the MySQL proxy ([internal/proxy/mysql/upstream.go])

    The login is a library's ([go-mysql]); what it is configured with is modelled. *)

From Stdlib Require Import ZArith Lia List Bool String Ascii.
From stdpp Require Import base list gmap strings.
From S2P Require Import Prelude GoStrings Models Limits Crypto Servers Dial ConnCheck.

Open Scope string_scope.
Open Scope Z_scope.

Definition maxProgramNameLen : Z := 256.

Definition buildUpstreamProgramName (version username clientProgramName : string) : option string :=
  BuildUpstreamName version username clientProgramName maxProgramNameLen.

(** What the client library is configured with; [None] for a panic. *)
Record Options := { o_tls : TLSConfig; o_LocalFiles : bool; o_attributes : list (string * string) }.

(** [attributes] are those the client declared to the proxy, if it is connected.  The
    library starts out in clear. *)
Definition applyUpstreamOptions (srv : Server) (version username : string) (attributes : option (gmap string string)) : option Options :=
  let tls := if String.eqb (d_SSLMode srv) "require" then TLSUnverified
             else if (String.eqb (d_SSLMode srv) "verify-ca" || String.eqb (d_SSLMode srv) "verify-full")%bool then TLSVerified (d_Host srv)
             else TLSPlain in
  let clientProgramName := match attributes with Some a => default "" (a !! "program_name") | None => "" end in
  option_map (fun name => {| o_tls := tls; o_LocalFiles := false; o_attributes := [("program_name", name)] |})
    (buildUpstreamProgramName version username clientProgramName).

Section Connect.
Context {GCM : AEAD} {UT : UUIDText} {KP : SSHKeys}.
(** [client.ConnectWithDialer] over a connection: user, password, database and options. *)
Variable Connect : string -> string -> string -> Options -> bool.
Variable w : World.

Inductive my_error := MyDecrypt (e : server_error) | MyDial (e : dial_error) | MyLogin.

(** The library dials first, then configures itself and logs in. *)
Definition connectUpstream (d : Dialer) (ek : bytes) (srv : Server) (version username : string) (attributes : option (gmap string string)) :
    Dialer * res my_error Options :=
  match DecryptPassword srv ek with
  | Panic => (d, Panic)
  | Err e => (d, Err (MyDecrypt e))
  | Ok srv =>
      match DialUpstream w d ek srv with
      | (d, Some e) => (d, Err (MyDial e))
      | (d, None) =>
          (d, match applyUpstreamOptions srv version username attributes with
              | None => Panic
              | Some o => if Connect (d_Username srv) (d_Password srv) (d_DatabaseName srv) o then Ok o else Err MyLogin
              end)
      end
  end.
End Connect.

(** * Theorems *)

(** The options of a MySQL session always exist, never let the server ask for a local
    file, ask for the TLS a connectivity check of the row would, and name the program
    in at most 256 bytes. *)
Theorem mysql_options srv version username attributes :
  exists o name, applyUpstreamOptions srv version username attributes = Some o /\
    o_LocalFiles o = false /\ o_tls o = postgresTLSConfig srv /\
    o_attributes o = [("program_name", name)] /\ slen name <= 256.
Proof.
  unfold applyUpstreamOptions, buildUpstreamProgramName.
  destruct (upstream_name_bounded version username (match attributes with Some a => default "" (a !! "program_name") | None => "" end) maxProgramNameLen)
    as (name & -> & Hl & _).
  eexists _, name. split; [reflexivity|]. by split_and!.
Qed.
