(* ===== verification/LoginTracker.v ===== *)
(** * The failed-login tracker of the HTTP API ([internal/api/middleware.go])

    [authFailureTracker] remembers, per name, how many password attempts have
    failed in a row and when the last one did; [checkRateLimit] is asked before
    a password is looked at.  The map is a [gmap]; the two clock readings a call
    makes are arguments.  The theorems are about histories in which the requests
    of all names interleave, the check, the verification and the recording of
    one being separate steps: what the counter holds, and how many guesses an
    attacker gets. *)

From Stdlib Require Import ZArith Lia List Bool String Ascii.
From stdpp Require Import base list gmap strings.
From S2P Require Import Prelude GoStrings Models RateLimit.

Open Scope string_scope.
Open Scope Z_scope.

Record failureRecord := { fr_count : Z; fr_lastFailure : time }.

Abbreviation failures := (gmap string failureRecord).

Definition authFailureResetDuration : Z := 15 * Minute.

(** [(minFailures, delay)], in the order they are tried. *)
Definition authBackoffDelays : list (Z * Z) :=
  [(10, 5 * Minute); (7, 2 * Minute); (5, 30 * Second); (3, 5 * Second)].

Definition newAuthFailureTracker : failures := ∅.

(** One tick of the background loop. *)
Definition cleanup (m : failures) (now : time) : failures :=
  filter (fun '(_, r) => now - fr_lastFailure r <= authFailureResetDuration) m.

(** The loop over the delays: only the first one that applies counts. *)
Fixpoint backoff (delays : list (Z * Z)) (r : failureRecord) (now now' : time) : bool * Z :=
  match delays with
  | [] => (true, 0)
  | (minFailures, delay) :: delays =>
      if minFailures <=? fr_count r then
        let blockedUntil := fr_lastFailure r + delay in
        if Before now blockedUntil then (false, retry_after blockedUntil now') else (true, 0)
      else backoff delays r now now'
  end.

(** [now'] is the clock of [time.Until]. *)
Definition checkRateLimit (m : failures) (username : string) (now now' : time) : bool * Z :=
  match m !! username with
  | None => (true, 0)
  | Some r =>
      if authFailureResetDuration <? now - fr_lastFailure r then (true, 0)
      else backoff authBackoffDelays r now now'
  end.

(** [now] is the clock of [time.Since], [now'] of the new [lastFailure]. *)
Definition recordFailure (m : failures) (username : string) (now now' : time) : failures :=
  match m !! username with
  | None => <[username := {| fr_count := 1; fr_lastFailure := now' |}]> m
  | Some r =>
      let count := if authFailureResetDuration <? now - fr_lastFailure r then 1 else fr_count r + 1 in
      <[username := {| fr_count := count; fr_lastFailure := now' |}]> m
  end.

Definition resetFailures (m : failures) (username : string) : failures := delete username m.

(** ** The specification: delays from the history of failures *)

(** The delay after [n] failures in a row. *)
Definition delay_after (n : Z) : Z :=
  if 10 <=? n then 5 * Minute else if 7 <=? n then 2 * Minute
  else if 5 <=? n then 30 * Second else if 3 <=? n then 5 * Second else 0.

Lemma backoff_spec r now now' :
  backoff authBackoffDelays r now now' =
  (let until := fr_lastFailure r + delay_after (fr_count r) in
   if (3 <=? fr_count r) && (now <? until) then (false, retry_after until now') else (true, 0)).
Proof.
  cbn [backoff authBackoffDelays]. unfold delay_after, Before.
  destruct (Z.leb_spec 10 (fr_count r)), (Z.leb_spec 7 (fr_count r)), (Z.leb_spec 5 (fr_count r)),
    (Z.leb_spec 3 (fr_count r)); try lia; done.
Qed.

Lemma delay_bounds n : 0 <= delay_after n <= 5 * Minute.
Proof. unfold delay_after, Minute, Second. repeat case_match; lia. Qed.

Lemma delay_mono n m : n <= m -> delay_after n <= delay_after m.
Proof. unfold delay_after, Minute, Second. repeat case_match; blia. Qed.

(** A recorded failure: the two readings of the clock [recordFailure] takes, the
    second one being the [lastFailure] it stores. *)
Abbreviation failure := (time * time)%type.

(** Failures in a row: the newest first, none more than a quarter of an hour
    after the one before. *)
Fixpoint streak (fails : list failure) : Z :=
  match fails with
  | [] => 0
  | [_] => 1
  | t :: ((t' :: _) as older) => if authFailureResetDuration <? t.1 - t'.2 then 1 else 1 + streak older
  end.

Lemma streak_cons t t' older :
  streak (t :: t' :: older) = if authFailureResetDuration <? t.1 - t'.2 then 1 else 1 + streak (t' :: older).
Proof. done. Qed.

Lemma streak_pos t older : 1 <= streak (t :: older).
Proof.
  revert t; induction older as [|t' older IH]; intros t; [cbn; lia|].
  rewrite streak_cons. case_match; [lia|]. specialize (IH t'). lia.
Qed.

Arguments streak fails : simpl never.

(** ** Histories *)

(** The requests that carry a password do three things one after the other, and
    other requests come in between: they ask the tracker, at [t]; the password is
    looked at; and it turns out wrong, which is recorded with the readings [t2]
    and [t3], or right, which forgets the failures. *)
Inductive tr_event :=
| Ask (username : string) (t : time)
| Wrong (username : string) (t2 t3 : time)
| Right (username : string) (t : time)
| Tick (t : time).

Definition tr_time (e : tr_event) : time :=
  match e with Ask _ t => t | Wrong _ _ t3 => t3 | Right _ t => t | Tick t => t end.

(** The tracker; for every name the failures since its last success, the newest
    first; the requests that were let through and whose password is being looked
    at; and the most there ever were of these at a time. *)
Record tr_state := {
  ts_tracker : failures;
  ts_fails : string -> list failure;
  ts_flight : string -> Z;
  ts_peak : string -> Z
}.

Definition upd {A} (f : string -> A) (u : string) (a : A) : string -> A := fun x => if String.eqb x u then a else f x.

Definition tr_step (s : tr_state) (e : tr_event) : tr_state :=
  match e with
  | Tick t =>
      {| ts_tracker := cleanup (ts_tracker s) t; ts_fails := ts_fails s; ts_flight := ts_flight s; ts_peak := ts_peak s |}
  | Ask u t =>
      if (checkRateLimit (ts_tracker s) u t t).1 then
        let n := ts_flight s u + 1 in
        {| ts_tracker := ts_tracker s; ts_fails := ts_fails s; ts_flight := upd (ts_flight s) u n;
           ts_peak := upd (ts_peak s) u (Z.max (ts_peak s u) n) |}
      else s
  | Wrong u t2 t3 =>
      if 0 <? ts_flight s u then
        {| ts_tracker := recordFailure (ts_tracker s) u t2 t3; ts_fails := upd (ts_fails s) u ((t2, t3) :: ts_fails s u);
           ts_flight := upd (ts_flight s) u (ts_flight s u - 1); ts_peak := ts_peak s |}
      else s
  | Right u _ =>
      if 0 <? ts_flight s u then
        {| ts_tracker := resetFailures (ts_tracker s) u; ts_fails := upd (ts_fails s) u [];
           ts_flight := upd (ts_flight s) u (ts_flight s u - 1); ts_peak := ts_peak s |}
      else s
  end.

Definition tr_init : tr_state :=
  {| ts_tracker := newAuthFailureTracker; ts_fails _ := []; ts_flight _ := 0; ts_peak _ := 0 |}.
Definition tr_run (es : list tr_event) : tr_state := foldl tr_step tr_init es.

(** The clock does not run backwards. *)
Definition tr_after (T : time) (e : tr_event) : Prop :=
  match e with Ask _ t | Right _ t | Tick t => T <= t | Wrong _ t2 t3 => T <= t2 /\ t2 <= t3 end.
Fixpoint tr_ordered (T : time) (es : list tr_event) : Prop :=
  match es with [] => True | e :: es => tr_after T e /\ tr_ordered (tr_time e) es end.

(** ** What the tracker holds *)

(** For one name at time [T]: nothing is forgotten before its time. *)
Definition follows (r : option failureRecord) (fails : list failure) (T : time) : Prop :=
  match fails with
  | [] => r = None
  | t :: older =>
      t.2 <= T /\
      (r = Some {| fr_count := streak (t :: older); fr_lastFailure := t.2 |}
       \/ (r = None /\ authFailureResetDuration < T - t.2))
  end.

Fixpoint descending (fails : list failure) : Prop :=
  match fails with
  | [] => True
  | t :: older => t.1 <= t.2 /\ Forall (fun a => a.2 <= t.1) older /\ descending older
  end.

(** The failures after [w], and those of the five minutes from [w] on. *)
Definition since (w : time) (fails : list failure) : list failure := List.filter (fun a => w <? a.2) fails.
Definition window (w : time) (fails : list failure) : list failure :=
  List.filter (fun a => (w <? a.2) && (a.2 <=? w + 5 * Minute)) fails.

Record tr_good (s : tr_state) (T : time) (u : string) : Prop := {
  tg_follows : follows (ts_tracker s !! u) (ts_fails s u) T;
  tg_desc : descending (ts_fails s u);
  tg_flight : 0 <= ts_flight s u <= ts_peak s u;
  tg_since : forall w, T <= w + 5 * Minute -> 10 <= zlen (since w (ts_fails s u)) ->
    zlen (since w (ts_fails s u)) + ts_flight s u <= 9 + ts_peak s u;
  tg_window : forall w, zlen (window w (ts_fails s u)) <= 9 + ts_peak s u
}.

Lemma follows_later r fails T T' : T <= T' -> follows r fails T -> follows r fails T'.
Proof.
  intros HT. destruct fails as [|t older]; cbn; [done|].
  intros [Ht [->|[-> Hr]]]; (split; [lia|]); [by left|right; split; [done|lia]].
Qed.

(** The answer, from the history. *)
Definition may_try (fails : list failure) (now : time) : bool :=
  match fails with
  | [] => true
  | t :: _ => (authFailureResetDuration <? now - t.2) || (t.2 + delay_after (streak fails) <=? now)
  end.

Lemma check_may_try m u fails T now now' :
  follows (m !! u) fails T -> T <= now -> (checkRateLimit m u now now').1 = may_try fails now.
Proof.
  intros Hf HT. unfold checkRateLimit, may_try. destruct fails as [|t older]; cbn [follows] in Hf.
  - by rewrite Hf.
  - destruct Hf as [Ht [-> | [-> Hr]]].
    + rewrite backoff_spec. cbn [fr_lastFailure fr_count].
      destruct (Z.ltb_spec authFailureResetDuration (now - t.2)); [done|]. cbn [orb].
      set (d := delay_after _). set (n := streak _) in *.
      assert (d = 0 \/ 3 <= n) as Hd by (subst d; unfold delay_after; repeat case_match; blia).
      destruct (Z.leb_spec 3 n), (Z.ltb_spec now (t.2 + d)), (Z.leb_spec (t.2 + d) now); cbn; try done; lia.
    + cbn. symmetry. apply orb_true_iff. left. apply Z.ltb_lt. lia.
Qed.

Lemma record_follows m u fails T now now' :
  follows (m !! u) fails T -> T <= now -> now <= now' ->
  follows (recordFailure m u now now' !! u) ((now, now') :: fails) now'.
Proof.
  intros Hf HT HT'. unfold recordFailure. destruct fails as [|t older]; cbn [follows] in Hf |- *.
  - rewrite Hf, lookup_insert_eq. split; [done|by left].
  - split; [done|]. left. destruct Hf as [Ht [-> | [-> Hr]]].
    + rewrite lookup_insert_eq, streak_cons. cbn [fr_count fr_lastFailure fst snd]. case_match; do 2 f_equal; lia.
    + rewrite lookup_insert_eq, streak_cons. cbn [fst]. rewrite (proj2 (Z.ltb_lt _ _)) by lia. done.
Qed.

Lemma record_other m u now now' u' : u' <> u -> recordFailure m u now now' !! u' = m !! u'.
Proof. intros. unfold recordFailure. case_match; by rewrite lookup_insert_ne. Qed.

Lemma cleanup_follows m u fails T now :
  follows (m !! u) fails T -> T <= now -> follows (cleanup m now !! u) fails now.
Proof.
  intros Hf HT. unfold cleanup. destruct fails as [|t older]; cbn [follows] in *.
  - apply map_lookup_filter_None. by left.
  - destruct Hf as [Ht [E | [E Hr]]]; split; try lia.
    + destruct (Z.leb_spec (now - t.2) authFailureResetDuration) as [Hk|Hk].
      * left. by apply map_lookup_filter_Some.
      * right. split; [|lia]. apply map_lookup_filter_None. right. intros r. rewrite E.
        intros [= <-]. cbn. lia.
    + right. split; [|lia]. apply map_lookup_filter_None. by left.
Qed.

Lemma since_old w fails : Forall (fun a => a.2 <= w) fails -> since w fails = [].
Proof. unfold since. induction 1 as [|a l Ha _ IH]; [done|]. cbn [List.filter]. by rewrite (proj2 (Z.ltb_ge _ _)). Qed.

Lemma since_cons w a fails : since w (a :: fails) = if w <? a.2 then a :: since w fails else since w fails.
Proof. done. Qed.

Lemma window_since w fails T : Forall (fun a => a.2 <= T) fails -> T <= w + 5 * Minute -> window w fails = since w fails.
Proof.
  intros Hf HT. unfold window, since. induction Hf as [|a l Ha _ IH]; [done|]. cbn [List.filter].
  rewrite (proj2 (Z.leb_le a.2 _)), andb_true_r by lia. by rewrite IH.
Qed.

Lemma window_cons w a fails : zlen (window w (a :: fails)) = (if (w <? a.2) && (a.2 <=? w + 5 * Minute) then 1 else 0) + zlen (window w fails).
Proof. unfold window, zlen. cbn [List.filter]. case_match; cbn [length]; lia. Qed.

Lemma desc_bounded t older : descending (t :: older) -> Forall (fun a => a.2 <= t.2) (t :: older).
Proof. intros (H1 & H2 & _). constructor; [lia|]. eapply Forall_impl; [exact H2|]. cbn. intros. lia. Qed.

(** Failures close together are a streak. *)
Lemma since_streak w : forall fails, descending fails ->
  match fails with [] => True | t :: _ => t.2 <= w + authFailureResetDuration end -> zlen (since w fails) <= streak fails.
Proof.
  induction fails as [|t older IH]; intros Hd Ht; [done|]. pose proof (desc_bounded _ _ Hd) as Hb.
  rewrite since_cons. destruct Hd as (H1 & H2 & Hd). destruct (Z.ltb_spec w t.2) as [Hw|Hw].
  - destruct older as [|t' older]; [done|]. rewrite streak_cons. pose proof (streak_pos t' older) as Hp.
    apply Forall_cons in H2 as [H2 H3]. destruct (Z.leb_spec t'.2 w) as [Hw'|Hw'].
    + rewrite since_old; [|by eapply Forall_impl; [apply (desc_bounded _ _ Hd)|cbn; intros; lia]].
      unfold zlen. cbn [length]. case_match; lia.
    + destruct (Z.ltb_spec authFailureResetDuration (t.1 - t'.2)); [lia|].
      specialize (IH Hd ltac:(lia)). unfold zlen in *. cbn [length]. lia.
  - rewrite since_old; [apply Z.le_trans with 1; [done|apply streak_pos]|].
    apply Forall_cons in Hb as [_ Hb]. eapply Forall_impl; [exact Hb|]. cbn. intros. lia.
Qed.

(** After ten failures no further request is let through for five minutes. *)
Lemma ten_refused fails w t : descending fails -> t <= w + 5 * Minute ->
  match fails with [] => True | a :: _ => a.2 <= t end -> 10 <= zlen (since w fails) -> may_try fails t = false.
Proof.
  intros Hd Ht Hh Hn. destruct fails as [|a older]; [done|]. pose proof (since_streak w (a :: older) Hd) as Hs.
  assert (w < a.2) as Hw.
  { destruct (Z.ltb_spec w a.2); [done|]. rewrite since_old in Hn; [done|].
    eapply Forall_impl; [apply (desc_bounded _ _ Hd)|]. cbn. intros. lia. }
  cbn beta iota in Hs. unfold authFailureResetDuration, Minute, Second in *. specialize (Hs ltac:(lia)).
  cbn [may_try]. unfold delay_after. rewrite (proj2 (Z.leb_le 10 _)) by lia. unfold authFailureResetDuration, Minute, Second. blia.
Qed.

Lemma tr_good_idle s s' T T' u : T <= T' -> follows (ts_tracker s' !! u) (ts_fails s' u) T' ->
  ts_fails s' u = ts_fails s u -> ts_flight s' u = ts_flight s u -> ts_peak s' u = ts_peak s u -> tr_good s T u -> tr_good s' T' u.
Proof.
  intros HT Hf E1 E2 E3 [G1 G2 G3 G4 G5]. split; [done|by rewrite E1|by rewrite E2, E3| |by rewrite E1, E3].
  rewrite E1, E2, E3. intros w Hw. apply G4. lia.
Qed.

Lemma upd_eq {A} (f : string -> A) u a : upd f u a u = a.
Proof. unfold upd. by rewrite String.eqb_refl. Qed.
Lemma upd_ne {A} (f : string -> A) u a x : x <> u -> upd f u a x = f x.
Proof. unfold upd. intros H. by rewrite (proj2 (String.eqb_neq x u) H). Qed.

Lemma ask_good s T u t : T <= t -> tr_good s T u -> (checkRateLimit (ts_tracker s) u t t).1 = true ->
  tr_good (tr_step s (Ask u t)) t u.
Proof.
  intros HT [G1 G2 G3 G4 G5] Hc. cbn [tr_step]. rewrite Hc. rewrite (check_may_try _ _ _ _ _ _ G1 HT) in Hc.
  split; cbn [ts_tracker ts_fails ts_flight ts_peak]; rewrite ?upd_eq.
  - by apply (follows_later _ _ T).
  - done.
  - lia.
  - intros w Hw Hn. rewrite (ten_refused _ w) in Hc; try done.
    destruct (ts_fails s u) as [|a l]; [done|]. cbn [follows] in G1. lia.
  - intros w. specialize (G5 w). lia.
Qed.

Lemma wrong_good s T u t2 t3 : T <= t2 -> t2 <= t3 -> tr_good s T u -> 0 < ts_flight s u ->
  tr_good (tr_step s (Wrong u t2 t3)) t3 u.
Proof.
  intros HT Ht [G1 G2 G3 G4 G5] Hp. cbn [tr_step]. rewrite (proj2 (Z.ltb_lt _ _)) by done.
  assert (Forall (fun a => a.2 <= T) (ts_fails s u)) as Hb.
  { destruct (ts_fails s u) as [|a l]; [constructor|]. cbn [follows] in G1. eapply Forall_impl; [apply (desc_bounded _ _ G2)|]. cbn. intros. lia. }
  assert (forall w, t3 <= w + 5 * Minute -> 10 <= zlen (since w ((t2, t3) :: ts_fails s u)) ->
    zlen (since w ((t2, t3) :: ts_fails s u)) + (ts_flight s u - 1) <= 9 + ts_peak s u) as G4'.
  { intros w Hw. rewrite since_cons. specialize (G4 w ltac:(lia)).
    destruct (w <? (t2, t3).2); unfold zlen in *; cbn [length]; intros Hn; [|lia].
    destruct (Z.leb_spec 10 (Z.of_nat (length (since w (ts_fails s u))))); [specialize (G4 ltac:(lia))|]; lia. }
  split; cbn [ts_tracker ts_fails ts_flight ts_peak]; rewrite ?upd_eq.
  - by apply (record_follows _ _ _ T).
  - cbn [descending fst snd]. split; [done|]. split; [|done]. eapply Forall_impl; [exact Hb|]. cbn. intros. lia.
  - lia.
  - exact G4'.
  - intros w. destruct (Z.leb_spec t3 (w + 5 * Minute)) as [Hw|Hw].
    + rewrite (window_since _ _ t3); [|constructor; [done|]; eapply Forall_impl; [exact Hb|]; cbn; intros; lia|done].
      destruct (Z.leb_spec 10 (zlen (since w ((t2, t3) :: ts_fails s u)))) as [Hn|Hn]; [specialize (G4' w Hw Hn)|]; lia.
    + rewrite window_cons. cbn [snd]. rewrite (proj2 (Z.leb_gt t3 _)), andb_false_r by done. apply G5.
Qed.

Lemma right_good s T u t : T <= t -> tr_good s T u -> 0 < ts_flight s u -> tr_good (tr_step s (Right u t)) t u.
Proof.
  intros HT [_ _ G3 _ _] Hp. cbn [tr_step]. rewrite (proj2 (Z.ltb_lt _ _)) by done.
  split; cbn [ts_tracker ts_fails ts_flight ts_peak]; rewrite ?upd_eq; [apply lookup_delete_eq|done|lia|intros w; change (since w []) with (@nil failure)|intros w; change (window w []) with (@nil failure)]; unfold zlen; cbn [length]; lia.
Qed.

Lemma tr_step_good s e T : (forall u, tr_good s T u) -> tr_after T e -> forall u, tr_good (tr_step s e) (tr_time e) u.
Proof.
  intros Hg Ht x. pose proof (Hg x) as Hx. pose proof (tg_follows _ _ _ Hx) as Hf.
  assert (forall T', T <= T' -> tr_good s T' x) as Hidle.
  { intros T' HT. apply (tr_good_idle s s T T'); try done. by apply (follows_later _ _ T). }
  destruct e as [u t|u t2 t3|u t|t]; cbn [tr_after] in Ht; cbn [tr_time].
  - destruct (checkRateLimit (ts_tracker s) u t t).1 eqn:Ec; [|cbn [tr_step]; rewrite Ec; by apply Hidle].
    destruct (String.eqb_spec x u) as [->|Hne]; [by apply (ask_good _ T)|]. cbn [tr_step]. rewrite Ec.
    apply (tr_good_idle s _ T); cbn [ts_tracker ts_fails ts_flight ts_peak]; rewrite ?upd_ne by done; try done. by apply (follows_later _ _ T).
  - destruct (Z.ltb_spec 0 (ts_flight s u)) as [Hp|Hp]; [|cbn [tr_step]; rewrite (proj2 (Z.ltb_ge _ _)) by done; apply Hidle; lia].
    destruct (String.eqb_spec x u) as [->|Hne]; [by apply (wrong_good _ T); destruct Ht|]. cbn [tr_step]. rewrite (proj2 (Z.ltb_lt _ _)) by done.
    apply (tr_good_idle s _ T); cbn [ts_tracker ts_fails ts_flight ts_peak]; rewrite ?upd_ne, ?record_other by done; try done; [lia|].
    apply (follows_later _ _ T); [lia|done].
  - destruct (Z.ltb_spec 0 (ts_flight s u)) as [Hp|Hp]; [|cbn [tr_step]; rewrite (proj2 (Z.ltb_ge _ _)) by done; by apply Hidle].
    destruct (String.eqb_spec x u) as [->|Hne]; [by apply (right_good _ T)|]. cbn [tr_step]. rewrite (proj2 (Z.ltb_lt _ _)) by done.
    unfold resetFailures.
    apply (tr_good_idle s _ T); cbn [ts_tracker ts_fails ts_flight ts_peak]; rewrite ?upd_ne, ?lookup_delete_ne by done; try done.
    by apply (follows_later _ _ T).
  - apply (tr_good_idle s _ T); try done. cbn [tr_step ts_tracker ts_fails]. by apply (cleanup_follows _ _ _ T).
Qed.

Definition tr_last (T : time) (es : list tr_event) : time := foldl (fun _ e => tr_time e) T es.

Lemma tr_run_good T es : tr_ordered T es -> forall u, tr_good (tr_run es) (tr_last T es) u.
Proof.
  unfold tr_run. assert (forall u, tr_good tr_init T u) as H0.
  { intros u. split; cbn; try done; try lia. }
  revert T H0. generalize tr_init. induction es as [|e es IH]; intros s T Hg Ho; [done|].
  destruct Ho as [He Ho]. cbn [foldl]. apply IH; [|done]. by apply (tr_step_good _ _ T).
Qed.

(** ** Theorems *)

(** Whether a password may be tried now is decided by the failures since the last
    success: the answer and the waiting time, between one second and five minutes,
    are what the back-off table says, and nobody waits longer than five minutes
    after the last failure. *)
Theorem attempt_delay_exact T es u now now' :
  tr_ordered T es -> tr_last T es <= now -> now <= now' ->
  let fails := ts_fails (tr_run es) u in
  let '(allowed, wait) := checkRateLimit (ts_tracker (tr_run es)) u now now' in
  allowed = may_try fails now
  /\ (allowed = false -> 1 <= wait <= 300)
  /\ match fails with
     | [] => allowed = true
     | t :: _ => t.2 + 5 * Minute <= now -> allowed = true
     end.
Proof.
  intros Ho Hn Hn'. pose proof (tg_follows _ _ _ (tr_run_good T es Ho u)) as Hf.
  pose proof (check_may_try _ _ _ _ _ now' Hf Hn) as Hc.
  set (fails := ts_fails (tr_run es) u) in *.
  assert (may_try fails now = false -> 1 <= (checkRateLimit (ts_tracker (tr_run es)) u now now').2 <= 300) as Hw.
  { rewrite <- Hc. unfold checkRateLimit. case_match eqn:E; [|done]. case_match; [done|].
    rewrite backoff_spec. cbv zeta. case_match; cbn [fst snd]; [|done]. intros _. bools.
    destruct fails as [|t older]; cbn [follows] in Hf; [congruence|].
    destruct Hf as [Ht [Ef|[Ef _]]]; [|congruence]. injection Ef as ->. cbn [fr_lastFailure fr_count] in *.
    pose proof (delay_bounds (streak (t :: older))). unfold retry_after, Minute, Second in *.
    pose proof (Z.quot_le_mono (t.2 + delay_after (streak (t :: older)) - now') (300 * 1000000000) 1000000000 ltac:(lia) ltac:(lia)) as Hq.
    rewrite Z.quot_mul in Hq by lia. destruct (Z.ltb_spec (Z.quot (t.2 + delay_after (streak (t :: older)) - now') 1000000000) 1); lia. }
  destruct (checkRateLimit _ _ _ _) as [allowed wait]. cbn [fst snd] in *. subst allowed.
  split; [done|]. split; [done|]. destruct fails as [|t older]; [done|]. intros H. cbn [may_try].
  pose proof (delay_bounds (streak (t :: older))). apply orb_true_iff. right. apply Z.leb_le. lia.
Qed.

(** C36. However the requests that carry a password are spread and interleaved, in
    any window of five minutes the wrong passwords tried against one name since
    its last right one are at most nine and the most requests for that name that
    were ever past the check at the same time: ten when requests come one after
    the other.  A request past the check is not stopped any more, so this is also
    what a burst gets. *)
Theorem guesses_bounded T es u w :
  tr_ordered T es -> zlen (window w (ts_fails (tr_run es) u)) <= 9 + ts_peak (tr_run es) u.
Proof. intros Ho. apply (tg_window _ _ _ (tr_run_good T es Ho u)). Qed.

(** Quick guesses, the fourth refused; then twelve requests at once. *)
Definition guess (u : string) (t : time) : list tr_event := [Ask u t; Wrong u (t + 1) (t + 2)].
Definition sample_attempts : list tr_event :=
  (guess "bob" 0 ++ guess "bob" Second ++ [Ask "eve" (2 * Second); Right "eve" (2 * Second)] ++ guess "bob" (2 * Second)
   ++ [Ask "bob" (3 * Second); Tick (4 * Second)])%list.
Definition burst (n : nat) : list tr_event :=
  (replicate n (Ask "bob" 0) ++ map (fun i => Wrong "bob" (Z.of_nat i) (Z.of_nat i)) (seq 1 n))%list.

Lemma attempt_delay_exact_witness :
  let '(allowed, wait) := checkRateLimit (ts_tracker (tr_run sample_attempts)) "bob" (5 * Second) (5 * Second) in
  allowed = may_try (ts_fails (tr_run sample_attempts) "bob") (5 * Second)
  /\ (allowed = false -> 1 <= wait <= 300)
  /\ match ts_fails (tr_run sample_attempts) "bob" with
     | [] => allowed = true
     | t :: _ => t.2 + 5 * Minute <= 5 * Second -> allowed = true
     end.
Proof.
  apply (attempt_delay_exact 0 sample_attempts "bob" (5 * Second) (5 * Second)); cbn; unfold Second; lia.
Defined.

Lemma guesses_bounded_witness :
  ts_peak (tr_run sample_attempts) "bob" = 1 /\ zlen (window 0 (ts_fails (tr_run sample_attempts) "bob")) <= 9 + ts_peak (tr_run sample_attempts) "bob".
Proof. split; [reflexivity|]. apply (guesses_bounded 0 sample_attempts "bob" 0). cbn. unfold Second. lia. Defined.

Example sample_refused : ts_fails (tr_run sample_attempts) "bob" =
  [(2 * Second + 1, 2 * Second + 2); (Second + 1, Second + 2); (1, 2)] /\ ts_flight (tr_run sample_attempts) "bob" = 0.
Proof. split; reflexivity. Qed.

(** Nothing stops a burst: sixty requests at once are sixty guesses at once. *)
Example burst_passes : zlen (window 0 (ts_fails (tr_run (burst 60)) "bob")) = 60 /\ ts_peak (tr_run (burst 60)) "bob" = 60.
Proof. split; vm_compute; reflexivity. Qed.
