(* ===== verification/ApiBase.v ===== *)
(** * The HTTP API: responses, handlers and the authentication middleware
    ([internal/api/errors.go], [middleware.go], [server.go])

    A handler is a computation on the server's state that may finish the request
    early: [H A] either goes on with a value or stops with the response it has
    written.  What the outside decides during a request (the fate of every SQL
    statement, the clock, the random source, the identifiers drawn) is the
    record [ReqEnv]; the i-th store call of a request reads [rq_sql e i].  A nil
    dereference unwinds to [gin.Recovery], the response [recovered].  [steps]
    is the reasoning rule of the monad: a preorder on states every step of a
    handler respects. *)

From Stdlib Require Import ZArith Lia List Bool String Ascii.
From stdpp Require Import base list gmap strings.
From S2P Require Import Prelude GoStrings Encoding Models Revocation RateLimit AuthCache GrantStore QueryStore Crypto Accounts ApiKeys AccountSafety Servers LoginTracker Endpoints.

Open Scope string_scope.
Open Scope Z_scope.

(** ** Responses *)

Inductive ErrorCode :=
| ErrCodeInternalError
| ErrCodeValidationError
| ErrCodeNotFound
| ErrCodeUnauthorized
| ErrCodeForbidden
| ErrCodeInvalidCredentials
| ErrCodePasswordChangeRequired
| ErrCodeWeakPassword
| ErrCodeRateLimited
| ErrCodeConflict
| ErrCodeOAuthFailed
| ErrCodeOAuthStateMismatch
| ErrCodeOAuthProviderError
| ErrCodeOAuthUserNotLinked
| ErrCodeOAuthWrongWorkspace
| ErrCodeDuplicateName
| ErrCodeTargetMatchesSelf
| ErrCodeGrantExpired
| ErrCodeQuotaExceeded.

(** A server row as administrators see it, in short, and the outcome of a check of it. *)
Record ConnectionTestResponse := {
  ct_OK : bool;
  ct_Stage : string;
  ct_Code : string;
  ct_Message : string;
  ct_HostKeyPinned : bool;
  ct_KnownHostKey : string;
  ct_DurationMs : Z
}.

Record DatabaseResponse := {
  dr_UID : uuid;
  dr_Name : string;
  dr_Description : string;
  dr_Host : string;
  dr_Port : Z;
  dr_DatabaseName : string;
  dr_Username : string;
  dr_SSLMode : string;
  dr_Protocol : string;
  dr_OracleServiceName : string;
  dr_MongoAuthSource : string;
  dr_Listable : bool;
  dr_CreatedBy : option uuid;
  dr_ViaUID : option uuid;
  dr_SSHKnownHostKey : string;
  dr_ConnectionTest : option ConnectionTestResponse
}.

Record DatabaseLimitedResponse := { dl_UID : uuid; dl_Name : string; dl_Description : string }.

(** A body is what the handler hands to [c.JSON]. *)
Inductive body :=
| BNone
| BError (code : ErrorCode) (message : string)
| BRetry (code : ErrorCode) (message : string) (retryAfter : Z)
| BRateLimit (retryAfter : Z)
| BOAuthError (error description : string)
| BMessage (message : string)
| BLogin (token : string) (expiresAt : option time) (uid : uuid) (username : string) (roles : list string)
    (passwordChangeRequired : bool)
| BMe (uid : uuid) (username : string) (roles : list string) (passwordChangeRequired : bool)
    (expiresAt createdAt : option time)
| BUser (u : User)
| BUsers (us : list User)
| BUserDetail (u : User) (groups : list UserGroup)
| BGroup (g : UserGroup)
| BGroups (gs : list (UserGroup * list uuid))
| BKey (k : APIKey)
| BKeys (ks : list APIKey)
| BKeyCreated (k : APIKey) (plainKey : string) (connections : list ConnectionInfo) (truncated : bool)
| BDeviceStarted (deviceCode userCode : string) (expiresIn interval : Z)
| BDeviceToken (accessToken tokenType : string)
| BDeviceConsent (clientName userCode status : string) (expiresAt : time)
| BStatus (status : string)
| BAudit (events : list AuditLog)
| BGrant (g : AccessGrant)
| BGrants (gs : list AccessGrant)
| BDefinition (d : GrantDefinition)
| BDefinitions (ds : list GrantDefinition)
| BRequest (r : GrantRequest)
| BRequests (rs : list GrantRequest)
| BApproved (r : GrantRequest) (g : AccessGrant)
| BParam (p : GlobalParameter)
| BParams (ps : list GlobalParameter)
| BInstance (public : option PublicEndpoints) (resolved : ResolvedEndpoints)
| BDatabase (d : DatabaseResponse)
| BDatabases (ds : list DatabaseResponse)
| BLimited (d : DatabaseLimitedResponse)
| BLimiteds (ds : list DatabaseLimitedResponse)
| BServers (ds : list DatabaseResponse)
| BTest (t : ConnectionTestResponse)
| BTested (message : string) (t : ConnectionTestResponse)
| BConnection (info : ConnectionInfo)
| BConnections (cs : list Connection)
| BSession (c : Connection)
| BQueries (qs : list joined)
| BQuery (q : Query)
| BQueryRows (r : QueryRowsResult)
| BFile (name : string) (content : bytes)
| BText (error : string).

Record Response := { r_status : Z; r_headers : list (string * string); r_body : body }.

Definition respond (status : Z) (b : body) : Response := {| r_status := status; r_headers := []; r_body := b |}.

Definition StatusOK : Z := 200.
Definition StatusCreated : Z := 201.
Definition StatusNoContent : Z := 204.
Definition StatusFound : Z := 302.
Definition StatusBadRequest : Z := 400.
Definition StatusUnauthorized : Z := 401.
Definition StatusForbidden : Z := 403.
Definition StatusNotFound : Z := 404.
Definition StatusConflict : Z := 409.
Definition StatusGone : Z := 410.
Definition StatusTooManyRequests : Z := 429.
Definition StatusInternalServerError : Z := 500.

Definition writeError (status : Z) (code : ErrorCode) (message : string) : Response :=
  respond status (BError code message).

Definition writeRateLimited (retryAfter : Z) : Response :=
  {| r_status := StatusTooManyRequests; r_headers := [("Retry-After", FormatInt retryAfter)];
     r_body := BRetry ErrCodeRateLimited "Too many requests. Try again later." retryAfter |}.

(** The error goes to the log, never to the client. *)
Definition writeInternalError : Response :=
  respond StatusInternalServerError (BError ErrCodeInternalError "An internal error occurred. Please try again.").

Definition successResponse (b : body) : Response := respond StatusOK b.

(** [gin.Recovery]: 500 without a body. *)
Definition recovered : Response := respond StatusInternalServerError BNone.

(** [c.Header("WWW-Authenticate", ...)] before a response. *)
Definition challenge (r : Response) : Response :=
  {| r_status := r_status r; r_headers := ("WWW-Authenticate", "Basic realm=" ++ String (chr 34) ("DBBat" ++ String (chr 34) "")) :: r_headers r; r_body := r_body r |}.

(** ** The server's state *)

(** What the notifier is handed about a grant request: the action and the two
    people, the rest of the event being read back from the tables. *)
Inductive notice_action := GrantActionCreated | GrantActionApproved | GrantActionDenied | GrantActionCancelled.
Record notice := { n_request : GrantRequest; n_action : notice_action; n_decider : option uuid }.

(** The tables, the registry of live sessions, and what the process keeps:
    [a_cache] is the one cache the server shares with its store; [a_spawned] the
    keys whose usage a goroutine has still to count; [a_notified] the events
    given to the notifier. *)
Record ApiState := {
  a_db : AcctDB;
  a_grants : DB;
  a_servers : ServerDB;
  a_params : ParamDB;
  a_registry : World;
  a_tracker : failures;
  a_cache : option AuthCache;
  a_limiter : option RateLimiter;
  a_spawned : list uuid;
  a_notified : list notice
}.

Definition put_db (s : ApiState) x : ApiState :=
  {| a_db := x; a_grants := a_grants s; a_servers := a_servers s; a_params := a_params s; a_registry :=
     a_registry s; a_tracker := a_tracker s; a_cache := a_cache s; a_limiter := a_limiter s; a_spawned :=
     a_spawned s; a_notified := a_notified s |}.
Definition put_grants (s : ApiState) x : ApiState :=
  {| a_db := a_db s; a_grants := x; a_servers := a_servers s; a_params := a_params s; a_registry :=
     a_registry s; a_tracker := a_tracker s; a_cache := a_cache s; a_limiter := a_limiter s; a_spawned :=
     a_spawned s; a_notified := a_notified s |}.
Definition put_servers (s : ApiState) x : ApiState :=
  {| a_db := a_db s; a_grants := a_grants s; a_servers := x; a_params := a_params s; a_registry :=
     a_registry s; a_tracker := a_tracker s; a_cache := a_cache s; a_limiter := a_limiter s; a_spawned :=
     a_spawned s; a_notified := a_notified s |}.
Definition put_params (s : ApiState) x : ApiState :=
  {| a_db := a_db s; a_grants := a_grants s; a_servers := a_servers s; a_params := x; a_registry :=
     a_registry s; a_tracker := a_tracker s; a_cache := a_cache s; a_limiter := a_limiter s; a_spawned :=
     a_spawned s; a_notified := a_notified s |}.
Definition put_registry (s : ApiState) x : ApiState :=
  {| a_db := a_db s; a_grants := a_grants s; a_servers := a_servers s; a_params := a_params s; a_registry
     := x; a_tracker := a_tracker s; a_cache := a_cache s; a_limiter := a_limiter s; a_spawned :=
     a_spawned s; a_notified := a_notified s |}.
Definition put_tracker (s : ApiState) x : ApiState :=
  {| a_db := a_db s; a_grants := a_grants s; a_servers := a_servers s; a_params := a_params s; a_registry
     := a_registry s; a_tracker := x; a_cache := a_cache s; a_limiter := a_limiter s; a_spawned :=
     a_spawned s; a_notified := a_notified s |}.
Definition put_cache (s : ApiState) x : ApiState :=
  {| a_db := a_db s; a_grants := a_grants s; a_servers := a_servers s; a_params := a_params s; a_registry
     := a_registry s; a_tracker := a_tracker s; a_cache := x; a_limiter := a_limiter s; a_spawned :=
     a_spawned s; a_notified := a_notified s |}.
Definition put_limiter (s : ApiState) x : ApiState :=
  {| a_db := a_db s; a_grants := a_grants s; a_servers := a_servers s; a_params := a_params s; a_registry
     := a_registry s; a_tracker := a_tracker s; a_cache := a_cache s; a_limiter := x; a_spawned :=
     a_spawned s; a_notified := a_notified s |}.
Definition put_spawned (s : ApiState) x : ApiState :=
  {| a_db := a_db s; a_grants := a_grants s; a_servers := a_servers s; a_params := a_params s; a_registry
     := a_registry s; a_tracker := a_tracker s; a_cache := a_cache s; a_limiter := a_limiter s; a_spawned
     := x; a_notified := a_notified s |}.
Definition put_notified (s : ApiState) x : ApiState :=
  {| a_db := a_db s; a_grants := a_grants s; a_servers := a_servers s; a_params := a_params s; a_registry
     := a_registry s; a_tracker := a_tracker s; a_cache := a_cache s; a_limiter := a_limiter s; a_spawned
     := a_spawned s; a_notified := x |}.

(** What the server reads of its configuration; [None]: [s.config] is nil. *)
Record Config := {
  cf_RunMode : string;
  cf_endpoints : EndpointConfig;
  cf_DemoTargetDB : string;
  cf_BaseURL : string;
  cf_AutoCreateUsers : bool;
  cf_DefaultRole : string
}.
Record ApiConfig := { ac_config : option Config; ac_encryptionKey : bytes }.

Definition RunModeTest := "test".
Definition RunModeDemo := "demo".

Definition isTestMode (cfg : ApiConfig) : bool :=
  match ac_config cfg with Some c => String.eqb (cf_RunMode c) RunModeTest | None => false end.
Definition IsDemoMode (cfg : ApiConfig) : bool :=
  match ac_config cfg with Some c => String.eqb (cf_RunMode c) RunModeDemo | None => false end.

Record ReqEnv := {
  rq_sql : nat -> nat -> bool;     (* store call, statement *)
  rq_now : nat -> time;
  rq_uid : nat -> uuid;
  rq_rnd : nat -> option bytes;
  rq_key : key_rnd;
  rq_text : string                 (* the text of an error of another package *)
}.

(** ** The monad *)

Definition H (A : Type) : Type := ApiState -> ApiState * (A + Response).

Definition hret {A} (a : A) : H A := fun s => (s, inl a).
Definition stop {A} (r : Response) : H A := fun s => (s, inr r).
Definition hbind {A B} (m : H A) (k : A -> H B) : H B :=
  fun s => match m s with
           | (s', inl a) => k a s'
           | (s', inr r) => (s', inr r)
           end.

Declare Scope api_scope.
Delimit Scope api_scope with api.
Notation "'do!' x ':=' m 'in' k" := (hbind m (fun x => k))
  (at level 10, x name, m at level 100, k at level 200) : api_scope.
Notation "'do!' ' p ':=' m 'in' k" := (hbind m (fun x => match x with p => k end))
  (at level 10, p pattern, m at level 100, k at level 200) : api_scope.
(** [if c { write(r); return }] *)
Notation "'refuse!' c 'with' r 'in' k" := (if c then stop r else k)
  (at level 10, c at level 100, r at level 100, k at level 200) : api_scope.
Open Scope api_scope.

(** A handler always writes a response. *)
Definition run (h : H Response) (s : ApiState) : ApiState * Response :=
  match h s with (s', inl r) => (s', r) | (s', inr r) => (s', r) end.

(** A read of the account tables, and an operation on them. *)
Definition query {A} (f : AcctDB -> res acct_error A) : H (res acct_error A) := fun s => (s, inl (f (a_db s))).
Definition exec {A} (f : AcctDB -> ares A) : H (res acct_error A) :=
  fun s => let '(d, r) := f (a_db s) in (put_db s d, inl r).

(** The same on the other tables. *)
Definition query_grants {A} (f : DB -> res store_error A) : H (res store_error A) := fun s => (s, inl (f (a_grants s))).
Definition exec_grants {A} (f : DB -> dbres A) : H (res store_error A) :=
  fun s => let '(d, r) := f (a_grants s) in (put_grants s d, inl r).
Definition query_servers {A} (f : ServerDB -> res server_error A) : H (res server_error A) :=
  fun s => (s, inl (f (a_servers s))).
Definition exec_servers {A} (f : ServerDB -> sres A) : H (res server_error A) :=
  fun s => let '(d, r) := f (a_servers s) in (put_servers s d, inl r).
Definition query_params {A} (f : ParamDB -> res param_error A) : H (res param_error A) :=
  fun s => (s, inl (f (a_params s))).
Definition exec_params {A} (f : ParamDB -> pres A) : H (res param_error A) :=
  fun s => let '(d, r) := f (a_params s) in (put_params s d, inl r).

(** [if err != nil { ... }] *)
Definition catch {E A} (m : H (res E A)) (handler : E -> H A) : H A :=
  do! r := m in
  match r with
  | Ok a => hret a
  | Err e => handler e
  | Panic => stop recovered
  end.
Definition or_stop {E A} (m : H (res E A)) (r : E -> Response) : H A := catch m (fun e => stop (r e)).
(** [_ = f()] *)
Definition ignore {E A} (m : H (res E A)) : H unit :=
  do! r := m in match r with Panic => stop recovered | _ => hret tt end.

(** [ShouldBindJSON]: [None] when the body does not decode; a field tagged
    [required] must not be its zero value. *)
Definition bind {A} (required : A -> bool) (req : option A) : option A :=
  match req with Some r => if required r then Some r else None | None => None end.
Definition nonempty (s : string) : bool := negb (String.eqb s "").
Definition bound {A} (req : option A) (message : string) : H A :=
  match req with
  | Some r => hret r
  | None => stop (writeError StatusBadRequest ErrCodeValidationError message)
  end.

(** ** The failure tracker, used from a handler *)

Definition recordFailureH (e : ReqEnv) (username : string) : H unit :=
  fun s => (put_tracker s (recordFailure (a_tracker s) username (rq_now e 2) (rq_now e 3)), inl tt).
Definition resetFailuresH (username : string) : H unit :=
  fun s => (put_tracker s (resetFailures (a_tracker s) username), inl tt).

(** [if !s.isTestMode() { if allowed, retryAfter := ...; !allowed { ... } }] *)
Definition rate_limit_first (cfg : ApiConfig) (e : ReqEnv) (username : string) : H unit :=
  fun s => if isTestMode cfg then (s, inl tt)
           else match checkRateLimit (a_tracker s) username (rq_now e 0) (rq_now e 1) with
                | (true, _) => (s, inl tt)
                | (false, retryAfter) => (s, inr (writeRateLimited retryAfter))
                end.

(** [recordFailure] and the response. *)
Definition fail_login {A} (e : ReqEnv) (username : string) (r : Response) : H A :=
  do! _ := recordFailureH e username in stop r.

(** ** Authentication *)

Definition authMethodBasic := "basic".
Definition authMethodAPIKey := "api_key".
Definition authMethodWebSession := "web_session".

(** What the middleware leaves in the gin context. *)
Record Ctx := { cx_user : option User; cx_key : option APIKey; cx_method : string }.

Definition no_auth : Ctx := {| cx_user := None; cx_key := None; cx_method := "" |}.

(** The [Authorization] header and what [Request.BasicAuth] decodes from it. *)
Record AuthHeader := { ah_Authorization : string; ah_Basic : option (string * string) }.

Definition isAPIKeyAuth (c : Ctx) : bool := String.eqb (cx_method c) authMethodAPIKey.

(** [currentUser.UID] and the like, on a pointer that may be nil. *)
Definition deref {A} (o : option A) : H A := match o with Some a => hret a | None => stop recovered end.

Section Middleware.
Context {A2 : Argon2} {dig : Digest} {order : MapOrder} {UT : UUIDText}.
Variables (cfg : ApiConfig) (e : ReqEnv).

(** [store.VerifyAPIKey], through the cache. *)
Definition verify_api_key (i : nat) (token : string) : H (res acct_error APIKey) :=
  fun s => let '(c, r) := VerifyAPIKey (rq_sql e i) (a_db s) (a_cache s) token (rq_now e 4) (rq_now e 5) (rq_now e 6) in
           (put_cache s c, inl r).

Definition handleBearerAuth (token : string) : H Ctx :=
  do! apiKey := or_stop (verify_api_key 0 token)
                  (fun _ => writeError StatusUnauthorized ErrCodeUnauthorized "invalid API key") in
  do! user := or_stop (query (fun d => GetUserByUID (rq_sql e 1) d (k_UserID apiKey)))
                (fun _ => writeError StatusUnauthorized ErrCodeUnauthorized "user not found") in
  do! _ := fun s => (put_spawned s (k_ID apiKey :: a_spawned s), inl tt) in
  hret {| cx_user := Some user; cx_key := Some apiKey;
          cx_method := if IsWebSession apiKey then authMethodWebSession else authMethodAPIKey |}.

Definition verifyPasswordDirect (storedHash password : string) : res crypto_error bool :=
  Crypto.VerifyPassword storedHash password.

(** Through the cache when there is one. *)
Definition verify_password (user : User) (password : string) : H (res crypto_error bool) :=
  fun s => match a_cache s with
           | Some c =>
               let '(c, r) := AuthCache.VerifyPassword c (uuid_String (u_UID user)) password (u_PasswordHash user)
                                (rq_now e 4) (rq_now e 5) in
               (put_cache s (Some c), inl r)
           | None => (s, inl (verifyPasswordDirect (u_PasswordHash user) password))
           end.

(** [if err != nil || !valid]: record the failure and answer 401. *)
Definition valid_or_fail (m : H (res crypto_error bool)) (key : string) (r : Response) : H unit :=
  do! v := m in
  match v with
  | Ok true => hret tt
  | Panic => stop recovered
  | _ => fail_login e key r
  end.

Definition invalid_credentials : Response :=
  writeError StatusUnauthorized ErrCodeInvalidCredentials "invalid credentials".

Definition handleBasicAuth (basic : option (string * string)) : H Ctx :=
  match basic with
  | None => stop (challenge (writeError StatusUnauthorized ErrCodeUnauthorized "authentication required"))
  | Some (username, password) =>
      do! _ := rate_limit_first cfg e username in
      do! user := catch (query (fun d => GetUserByUsername (rq_sql e 0) d username))
                    (fun _ => fail_login e username (challenge invalid_credentials)) in
      do! _ := valid_or_fail (verify_password user password) username (challenge invalid_credentials) in
      do! _ := resetFailuresH username in
      hret {| cx_user := Some user; cx_key := None; cx_method := authMethodBasic |}
  end.

Definition bearer_prefix := "Bearer ".

Definition authMiddleware (hdr : AuthHeader) : H Ctx :=
  if HasPrefix (ah_Authorization hdr) bearer_prefix
  then handleBearerAuth (String.substring 7 (String.length (ah_Authorization hdr) - 7) (ah_Authorization hdr))
  else handleBasicAuth (ah_Basic hdr).

Definition requireRole (role : string) (c : Ctx) : H unit :=
  refuse! (match cx_user c with None => true | Some u => negb (HasRole u role) end)
    with writeError StatusForbidden ErrCodeForbidden (role ++ " access required") in
  hret tt.

Definition requireAdmin (c : Ctx) : H unit := requireRole RoleAdmin c.

Definition requireAdminOrViewer (c : Ctx) : H unit :=
  refuse! (match cx_user c with None => true | Some u => negb (IsAdmin u) && negb (IsViewer u) end)
    with writeError StatusForbidden ErrCodeForbidden "admin or viewer access required" in
  hret tt.

Definition requireBasicAuth (c : Ctx) : H unit :=
  refuse! negb (String.eqb (cx_method c) authMethodBasic)
    with writeError StatusForbidden ErrCodeForbidden "this operation requires password authentication" in
  hret tt.

Definition requireWebSessionOrBasicAuth (c : Ctx) : H unit :=
  refuse! negb (String.eqb (cx_method c) authMethodBasic) && negb (String.eqb (cx_method c) authMethodWebSession)
    with writeError StatusForbidden ErrCodeForbidden "API keys cannot perform this operation" in
  hret tt.

(** A limiter middleware, when the server has a limiter. *)
Definition limited (middleware : RateLimiter -> RateLimiter * mw_result) : H unit :=
  fun s => match a_limiter s with
           | None => (s, inl tt)
           | Some rl =>
               match middleware rl with
               | (rl, Next _) => (put_limiter s (Some rl), inl tt)
               | (rl, TooManyRequests _ retryAfter) =>
                   (put_limiter s (Some rl),
                    inr {| r_status := StatusTooManyRequests; r_headers := [("Retry-After", FormatInt retryAfter)];
                           r_body := BRateLimit retryAfter |})
               end
           end.

Definition post_auth_limit (c : Ctx) : H unit :=
  limited (fun rl => PostAuthMiddleware rl (cx_user c) (rq_now e 7) (rq_now e 8)).
Definition pre_auth_limit (ip : string) : H unit :=
  limited (fun rl => PreAuthMiddleware rl ip (rq_now e 7) (rq_now e 8)).

(** The route group all authenticated endpoints are in. *)
Definition authenticated (hdr : AuthHeader) : H Ctx :=
  do! c := authMiddleware hdr in
  do! _ := post_auth_limit c in
  hret c.

(** The goroutine of [handleBearerAuth], when it comes to run; the request's
    context may be gone by then, and the statement fails. *)
Definition count_usage (s : ApiState) (id : uuid) : ApiState :=
  match IncrementAPIKeyUsage (rq_sql e 9) (a_db s) id (rq_now e 9) with
  | (d, _) => put_spawned (put_db s d) (List.filter (fun i => negb (N.eqb i id)) (a_spawned s))
  end.
End Middleware.

(** ** Reasoning about handlers *)

Lemma hbind_inl {A B} (m : H A) (k : A -> H B) s s' b :
  hbind m k s = (s', inl b) <-> exists s1 a, m s = (s1, inl a) /\ k a s1 = (s', inl b).
Proof.
  unfold hbind. destruct (m s) as [s1 [a|r]]; split; try (intros (?&?&?&?); congruence); try congruence; eauto.
Qed.

(** Every run of [m] moves the state along [R]. *)
Definition steps {A} (R : relation ApiState) (m : H A) : Prop := forall s, R s (m s).1.

Section Steps.
Context (R : relation ApiState) {HR : PreOrder R}.

Lemma steps_ret {A} (a : A) : steps R (hret a).
Proof. intros s. reflexivity. Qed.
Lemma steps_stop {A} r : steps R (stop (A := A) r).
Proof. intros s. reflexivity. Qed.
Lemma steps_bind {A B} (m : H A) (k : A -> H B) : steps R m -> (forall a, steps R (k a)) -> steps R (hbind m k).
Proof.
  intros Hm Hk s. unfold hbind. specialize (Hm s). destruct (m s) as [s1 [a|r]]; [|done].
  etransitivity; [exact Hm|apply Hk].
Qed.
Lemma steps_known {A B} (a : A) (k : A -> H B) : steps R (k a) -> steps R (hbind (hret a) k).
Proof. done. Qed.
Lemma steps_query {A} (f : AcctDB -> res acct_error A) : steps R (query f).
Proof. intros s. reflexivity. Qed.
Lemma steps_query_grants {A} (f : DB -> res store_error A) : steps R (query_grants f).
Proof. intros s. reflexivity. Qed.
Lemma steps_query_servers {A} (f : ServerDB -> res server_error A) : steps R (query_servers f).
Proof. intros s. reflexivity. Qed.
Lemma steps_query_params {A} (f : ParamDB -> res param_error A) : steps R (query_params f).
Proof. intros s. reflexivity. Qed.
Lemma steps_deref {A} (o : option A) : steps R (deref o).
Proof. destruct o; [apply steps_ret|apply steps_stop]. Qed.
Lemma steps_if {A} (b : bool) (m m' : H A) : steps R m -> steps R m' -> steps R (if b then m else m').
Proof. by destruct b. Qed.
Lemma steps_catch {E A} (m : H (res E A)) (h : E -> H A) :
  steps R m -> (forall e, steps R (h e)) -> steps R (catch m h).
Proof.
  intros Hm Hh. apply steps_bind; [done|]. intros [a|e|]; [apply steps_ret|apply Hh|apply steps_stop].
Qed.
Lemma steps_or_stop {E A} (m : H (res E A)) r : steps R m -> steps R (or_stop m r).
Proof. intros Hm. apply steps_catch; [done|]. intros e. apply steps_stop. Qed.
Lemma steps_ignore {E A} (m : H (res E A)) : steps R m -> steps R (ignore m).
Proof. intros Hm. apply steps_bind; [done|]. intros [a|e|]; (apply steps_ret || apply steps_stop). Qed.

Lemma steps_run (h : H Response) s : steps R h -> R s (run h s).1.
Proof. intros Hh. specialize (Hh s). unfold run. by destruct (h s) as [s' [r|r]]. Qed.
End Steps.

(** ** What a step learns

    [keeps I m V]: [m] preserves [I], and the value it goes on with satisfies
    [V].  [V] may mention the state the request began with, never the current
    one: what a handler has read stays true only as far as [I] says. *)

Definition keeps {A} (I : ApiState -> Prop) (m : H A) (V : A -> Prop) : Prop :=
  forall s, I s -> match m s with (s', inl a) => I s' /\ V a | (s', inr _) => I s' end.

Section Keeps.
Context (I : ApiState -> Prop).

Lemma keeps_ret {A} (a : A) (V : A -> Prop) : V a -> keeps I (hret a) V.
Proof. by intros Ha s Hs. Qed.
Lemma keeps_stop {A} r (V : A -> Prop) : keeps I (stop r) V.
Proof. by intros s Hs. Qed.
Lemma keeps_bind {A B} (m : H A) (k : A -> H B) V W :
  keeps I m V -> (forall a, V a -> keeps I (k a) W) -> keeps I (hbind m k) W.
Proof.
  intros Hm Hk s Hs. unfold hbind. specialize (Hm s Hs). destruct (m s) as [s1 [a|r]]; [|done].
  destruct Hm as [H1 Ha]. by apply Hk.
Qed.
Lemma keeps_weaken {A} (m : H A) (V W : A -> Prop) : keeps I m V -> (forall a, V a -> W a) -> keeps I m W.
Proof. intros Hm HV s Hs. specialize (Hm s Hs). destruct (m s) as [s1 [a|r]]; [|done]. naive_solver. Qed.
Lemma keeps_query {A} (f : AcctDB -> res acct_error A) (V : res acct_error A -> Prop) :
  (forall s, I s -> V (f (a_db s))) -> keeps I (query f) V.
Proof. intros HV s Hs. split; [done|]. by apply HV. Qed.
Lemma keeps_query_grants {A} (f : DB -> res store_error A) (V : res store_error A -> Prop) :
  (forall s, I s -> V (f (a_grants s))) -> keeps I (query_grants f) V.
Proof. intros HV s Hs. split; [done|]. by apply HV. Qed.
Lemma keeps_catch {E A} (m : H (res E A)) h (V : A -> Prop) :
  keeps I m (fun r => forall a, r = Ok a -> V a) -> (forall e, keeps I (h e) V) -> keeps I (catch m h) V.
Proof.
  intros Hm Hh. eapply keeps_bind; [exact Hm|]. intros [a|e|] Ha; [apply keeps_ret; eauto|apply Hh|apply keeps_stop].
Qed.
Lemma keeps_or_stop {E A} (m : H (res E A)) r (V : A -> Prop) :
  keeps I m (fun r => forall a, r = Ok a -> V a) -> keeps I (or_stop m r) V.
Proof. intros Hm. apply keeps_catch; [done|]. intros e. apply keeps_stop. Qed.
Lemma keeps_if {A} (b : bool) (m m' : H A) V :
  (b = true -> keeps I m V) -> (b = false -> keeps I m' V) -> keeps I (if b then m else m') V.
Proof. destruct b; auto. Qed.
Lemma keeps_deref {A} (o : option A) (V : A -> Prop) : (forall a, o = Some a -> V a) -> keeps I (deref o) V.
Proof. destruct o; intros HV; [apply keeps_ret; auto|apply keeps_stop]. Qed.
Lemma keeps_bound {A} (o : option A) m (V : A -> Prop) : (forall a, o = Some a -> V a) -> keeps I (bound o m) V.
Proof. destruct o; intros HV; [apply keeps_ret; auto|apply keeps_stop]. Qed.

(** A relation the steps respect, seen from a fixed state. *)
Lemma keeps_steps (R : relation ApiState) {A} (m : H A) :
  (forall s s', I s -> R s s' -> I s') -> steps R m -> keeps I m (fun _ => True).
Proof. intros HI Hm s Hs. specialize (Hm s). destruct (m s) as [s1 [a|r]]; [split|]; eauto. Qed.

Lemma keeps_run (h : H Response) V s : keeps I h V -> I s -> I (run h s).1.
Proof. intros Hh Hs. specialize (Hh s Hs). unfold run. destruct (h s) as [s' [r|r]]; naive_solver. Qed.
End Keeps.

Lemma steps_of_keeps {A} (R : relation ApiState) {HR : PreOrder R} (m : H A) :
  (forall s0, keeps (R s0) m (fun _ => True)) -> steps R m.
Proof. intros Hm s. specialize (Hm s s ltac:(reflexivity)). destruct (m s) as [s1 [a|r]]; [by destruct Hm|done]. Qed.

(** Passing over a step whose value does not matter. *)
Lemma keeps_then {A B} (I : ApiState -> Prop) (m : H A) (k : A -> H B) W :
  keeps I m (fun _ => True) -> (forall a, keeps I (k a) W) -> keeps I (hbind m k) W.
Proof. intros Hm Hk. eapply keeps_bind; [exact Hm|]. intros a _. apply Hk. Qed.

(** The general form, for the places where a handler relies on what it has just
    written: [Q] speaks of the current state. *)
Definition triple {A} (P : ApiState -> Prop) (m : H A) (Q : A -> ApiState -> Prop) (F : ApiState -> Prop) : Prop :=
  forall s, P s -> match m s with (s', inl a) => Q a s' | (s', inr _) => F s' end.

Lemma triple_bind {A B} P (m : H A) (k : A -> H B) Q W F :
  triple P m Q F -> (forall a, triple (Q a) (k a) W F) -> triple P (hbind m k) W F.
Proof.
  intros Hm Hk s Hs. unfold hbind. specialize (Hm s Hs). destruct (m s) as [s1 [a|r]]; [|done]. by apply Hk.
Qed.
Lemma triple_keeps {A} (P I : ApiState -> Prop) (m : H A) (V : A -> Prop) :
  (forall s, P s -> I s /\ keeps I m V) -> triple P m (fun a s => I s /\ V a) I.
Proof. intros Hm s Hs. destruct (Hm s Hs) as [Hi Hk]. by apply Hk. Qed.
Lemma triple_stop {A} (P : ApiState -> Prop) r (Q : A -> ApiState -> Prop) (F : ApiState -> Prop) :
  (forall s, P s -> F s) -> triple P (stop r) Q F.
Proof. intros HF s Hs. by apply HF. Qed.
