(* ===== verification/ApiAuth.v ===== *)
(** * Logging in and changing passwords over HTTP ([internal/api/auth.go])

    Each handler is the source's function on the state of [ApiBase].  A path
    parameter is an [option]: [None] when [uuid.Parse] refuses it.  The i-th
    store call of a handler is site [10 + i] of the request's environment. *)

From Stdlib Require Import ZArith Lia List Bool String Ascii.
From stdpp Require Import base list gmap strings.
From S2P Require Import Prelude GoStrings Encoding Models RateLimit AuthCache GrantStore Crypto Accounts ApiKeys AccountSafety LoginTracker ApiBase.

Open Scope string_scope.
Open Scope Z_scope.
Open Scope api_scope.

Record LoginRequest := { lr_Username : string; lr_Password : string }.

Record ChangePasswordRequest := {
  cp_Username : string;
  cp_CurrentPassword : string;
  cp_NewPassword : string
}.

Record ResetPasswordRequest := { rp_NewPassword : string }.

Definition minPasswordLength : Z := 8.

Section Auth.
Context {A2 : Argon2} {GCM : AEAD} {HS : Hashes} {dig : Digest} {order : MapOrder} {UT : UUIDText} {SK : ScramKeys}.
Variables (cfg : ApiConfig) (e : ReqEnv).

Definition weak_password : Response :=
  writeError StatusBadRequest ErrCodeWeakPassword "Password must be at least 8 characters".

(** Best effort: a failure is only logged. *)
Definition setMongoVerifier (uid : uuid) (password : string) : H unit :=
  ignore (exec (fun d => SetUserMongoVerifier (rq_sql e 20) d uid password (ac_encryptionKey cfg)
                           (rq_rnd e 1) (rq_rnd e 2, rq_rnd e 3) (rq_now e 20))).

Definition handleLogin (req : option LoginRequest) : H Response :=
  do! req := bound (bind (fun r => nonempty (lr_Username r) && nonempty (lr_Password r)) req)
               "invalid request: username and password required" in
  do! _ := rate_limit_first cfg e (lr_Username req) in
  do! user := catch (query (fun d => GetUserByUsername (rq_sql e 10) d (lr_Username req)))
                (fun _ => fail_login e (lr_Username req) invalid_credentials) in
  do! _ := valid_or_fail e (fun s => (s, inl (Crypto.VerifyPassword (u_PasswordHash user) (lr_Password req))))
             (lr_Username req) invalid_credentials in
  do! _ := resetFailuresH (lr_Username req) in
  refuse! negb (HasChangedPassword user)
    with writeError StatusForbidden ErrCodePasswordChangeRequired "You must change your password before logging in" in
  do! ' (apiKey, plainKey) :=
    or_stop (exec (fun d => CreateWebSession (rq_sql e 11) d (u_UID user) (rq_uid e 0) (rq_key e) (rq_now e 10) (rq_now e 11)))
      (fun _ => writeInternalError) in
  hret (respond StatusOK (BLogin plainKey (k_ExpiresAt apiKey) (u_UID user) (u_Username user) (u_Roles user)
                            (negb (HasChangedPassword user)))).

Definition handleLogout (c : Ctx) : H Response :=
  let done := hret (respond StatusNoContent BNone) in
  match cx_key c with
  | None => done
  | Some apiKey =>
      match cx_user c with
      | None => done
      | Some currentUser =>
          do! _ := ignore (exec (fun d => RevokeAPIKey (rq_sql e 10) d (k_ID apiKey) (u_UID currentUser) (rq_now e 10))) in
          done
      end
  end.

Definition handleMe (c : Ctx) : H Response :=
  match cx_user c with
  | None => stop (writeError StatusUnauthorized ErrCodeUnauthorized "not authenticated")
  | Some u =>
      hret (respond StatusOK (BMe (u_UID u) (u_Username u) (u_Roles u) (negb (HasChangedPassword u))
                                (match cx_key c with Some k => k_ExpiresAt k | None => None end)
                                (match cx_key c with Some k => Some (k_CreatedAt k) | None => None end)))
  end.

(** The end the three password handlers share: length, hash, UPDATE, verifier. *)
Definition store_password (target : uuid) (newPassword : string) (message : string) : H Response :=
  do! newHash := or_stop (fun s => (s, inl (HashPassword (rq_rnd e 0) newPassword))) (fun _ => writeInternalError) in
  do! _ := or_stop (exec (fun d => UpdateUser (rq_sql e 19) d target
                                     {| uu_PasswordHash := Some newHash; uu_Roles := None |} (rq_now e 18) (rq_now e 19)))
             (fun _ => writeInternalError) in
  do! _ := setMongoVerifier target newPassword in
  hret (respond StatusOK (BMessage message)).

Definition change_required (r : ChangePasswordRequest) : bool :=
  nonempty (cp_CurrentPassword r) && nonempty (cp_NewPassword r).

Definition handlePreLoginPasswordChange (req : option ChangePasswordRequest) : H Response :=
  do! req := bound (bind (fun r => nonempty (cp_Username r) && change_required r) req)
               "username, current_password, and new_password are required" in
  let bad := writeError StatusUnauthorized ErrCodeInvalidCredentials "Invalid username or current password" in
  do! _ := rate_limit_first cfg e (cp_Username req) in
  do! user := catch (query (fun d => GetUserByUsername (rq_sql e 10) d (cp_Username req)))
                (fun _ => fail_login e (cp_Username req) bad) in
  do! _ := valid_or_fail e (fun s => (s, inl (Crypto.VerifyPassword (u_PasswordHash user) (cp_CurrentPassword req))))
             (cp_Username req) bad in
  do! _ := resetFailuresH (cp_Username req) in
  refuse! slen (cp_NewPassword req) <? minPasswordLength with weak_password in
  store_password (u_UID user) (cp_NewPassword req) "Password changed successfully".

(** With a username, that user authenticates; without one, the target does, and
    its failures are counted under the text of its uid. *)
Definition handleChangePassword (param : option uuid) (req : option ChangePasswordRequest) : H Response :=
  do! targetUID := bound param "invalid user ID" in
  do! req := bound (bind change_required req) "current_password and new_password are required" in
  let bad := writeError StatusUnauthorized ErrCodeInvalidCredentials in
  do! ' (authUser, rateLimitKey) :=
    (if nonempty (cp_Username req) then
       let key := cp_Username req in
       do! _ := rate_limit_first cfg e key in
       do! u := catch (query (fun d => GetUserByUsername (rq_sql e 10) d key))
                  (fun _ => fail_login e key (bad "Invalid username or current password")) in
       hret (u, key)
     else
       let key := uuid_String targetUID in
       do! _ := rate_limit_first cfg e key in
       do! u := catch (query (fun d => GetUserByUID (rq_sql e 10) d targetUID))
                  (fun _ => fail_login e key (bad "Invalid current password")) in
       hret (u, key)) in
  do! _ := valid_or_fail e (fun s => (s, inl (Crypto.VerifyPassword (u_PasswordHash authUser) (cp_CurrentPassword req))))
             rateLimitKey (bad "Invalid current password") in
  do! _ := resetFailuresH rateLimitKey in
  do! _ := (if nonempty (cp_Username req)
            then or_stop (query (fun d => GetUserByUID (rq_sql e 11) d targetUID))
                   (fun _ => writeError StatusNotFound ErrCodeNotFound "user not found")
            else hret authUser) in
  refuse! negb (N.eqb (u_UID authUser) targetUID) && negb (IsAdmin authUser)
    with writeError StatusForbidden ErrCodeForbidden "You can only change your own password" in
  refuse! slen (cp_NewPassword req) <? minPasswordLength with weak_password in
  store_password targetUID (cp_NewPassword req) "Password changed successfully".

Definition handleResetPassword (c : Ctx) (param : option uuid) (req : option ResetPasswordRequest) : H Response :=
  match cx_user c with
  | None => stop (writeError StatusUnauthorized ErrCodeUnauthorized "authentication required")
  | Some currentUser =>
      refuse! isAPIKeyAuth c
        with writeError StatusForbidden ErrCodeForbidden "web session required for password reset" in
      refuse! negb (IsAdmin currentUser) with writeError StatusForbidden ErrCodeForbidden "admin access required" in
      do! targetUID := bound param "invalid user ID" in
      refuse! N.eqb (u_UID currentUser) targetUID
        with writeError StatusForbidden ErrCodeForbidden
               "cannot reset your own password; use the password change endpoint instead" in
      do! req := bound (bind (fun r => nonempty (rp_NewPassword r)) req) "new_password is required" in
      refuse! slen (rp_NewPassword req) <? minPasswordLength with weak_password in
      do! _ := or_stop (query (fun d => GetUserByUID (rq_sql e 10) d targetUID))
                 (fun _ => writeError StatusNotFound ErrCodeNotFound "user not found") in
      store_password targetUID (rp_NewPassword req) "Password reset successfully"
  end.
End Auth.
