(* ===== verification/ApiUsers.v ===== *)
(** * Users and API keys over HTTP ([internal/api/users.go], [keys.go],
    [device.go], [observability.go])

    Handlers on the state of [ApiBase].  [handleUpdateUser] and
    [handleDeleteUser] are composed of the part that checks and the part that
    writes, so that two requests can be interleaved. *)

From Stdlib Require Import ZArith Lia List Bool String Ascii.
From stdpp Require Import base list gmap strings.
From S2P Require Import Prelude GoStrings Encoding Models Revocation RateLimit AuthCache GrantStore Crypto Accounts ApiKeys AccountSafety Servers LoginTracker Endpoints ApiBase ApiAuth.

Open Scope string_scope.
Open Scope Z_scope.
Open Scope api_scope.

(** The text of a [time.Time] in JSON. *)
Class TimeText := { MarshalTime : time -> string }.

Record CreateUserRequest := { cu_Username : string; cu_Password : string; cu_Roles : option (list string) }.

(** [None] is JSON null or an absent field: a nil pointer or a nil slice. *)
Record UpdateUserRequest := {
  up_Password : option string;
  up_Roles : option (list string);
  up_GroupUIDs : option (list uuid)
}.

Record CreateAPIKeyRequest := { ck_Name : string; ck_ExpiresAt : option time }.

Definition maxConnectionsInResponse : nat := 50.

Section Json.
Context {UT : UUIDText} {TT : TimeText}.

Definition json_uid (u : uuid) : json := JsonStr (uuid_String u).
Definition json_opt {A} (f : A -> json) (o : option A) : json := match o with Some a => f a | None => JsonNull end.
Definition json_strings (o : option (list string)) : json := json_opt (fun l => JsonArr (map JsonStr l)) o.
Definition json_uids (o : option (list uuid)) : json := json_opt (fun l => JsonArr (map json_uid l)) o.
Definition json_time (t : time) : json := JsonStr (MarshalTime t).

(** [json.Marshal] of the request itself. *)
Definition json_update (r : UpdateUserRequest) : json :=
  JsonObj [("password", json_opt JsonStr (up_Password r)); ("roles", json_strings (up_Roles r));
           ("group_uids", json_uids (up_GroupUIDs r))].
End Json.

Section Users.
Context {C : Collation} {A2 : Argon2} {GCM : AEAD} {HS : Hashes} {dig : Digest} {order : MapOrder}
  {UT : UUIDText} {SK : ScramKeys} {TT : TimeText}.
Variables (cfg : ApiConfig) (e : ReqEnv).

Definition audit (site : nat) (event : string) (user performedBy : option uuid) (details : json) : H unit :=
  ignore (exec (fun d => LogAuditEvent (rq_sql e site) d
    {| al_UID := Nil; al_EventType := event; al_UserID := user; al_PerformedBy := performedBy; al_Details := details;
       al_CreatedAt := 0 |} (rq_uid e site) (rq_now e site))).

(** ** Users *)

Definition handleCreateUser (c : Ctx) (req : option CreateUserRequest) : H Response :=
  do! req := bound (bind (fun r => nonempty (cu_Username r) && nonempty (cu_Password r)) req)
               ("invalid request: " ++ rq_text e) in
  do! passwordHash := or_stop (fun s => (s, inl (HashPassword (rq_rnd e 0) (cu_Password req)))) (fun _ => writeInternalError) in
  do! user := or_stop (exec (fun d => CreateUser (rq_sql e 10) d (cu_Username req) passwordHash (default [] (cu_Roles req))
                                        (rq_uid e 0) (rq_now e 10) (rq_now e 11)))
                (fun err => match err with
                            | ErrUserNameConflict =>
                                writeError StatusConflict ErrCodeDuplicateName "a user with this username already exists"
                            | _ => writeInternalError
                            end) in
  do! _ := setMongoVerifier cfg e (u_UID user) (cu_Password req) in
  do! currentUser := deref (cx_user c) in
  do! _ := audit 30 "user.created" (Some (u_UID user)) (Some (u_UID currentUser))
             (JsonObj [("roles", json_strings (Some (u_Roles user))); ("username", JsonStr (u_Username user))]) in
  hret (successResponse (BUser user)).

Definition handleListUsers (c : Ctx) : H Response :=
  do! currentUser := deref (cx_user c) in
  if IsAdmin currentUser || IsViewer currentUser then
    do! users := or_stop (query (fun d => ListUsers (rq_sql e 10) d)) (fun _ => writeInternalError) in
    hret (successResponse (BUsers users))
  else hret (successResponse (BUsers [currentUser])).

Definition handleGetUser (param : option uuid) : H Response :=
  do! uid := bound param "invalid user UID" in
  do! user := or_stop (query (fun d => GetUserByUID (rq_sql e 10) d uid))
                (fun _ => writeError StatusNotFound ErrCodeNotFound "user not found") in
  do! groups := or_stop (query (fun d => ListGroupsForUser (rq_sql e 11) d uid)) (fun _ => writeInternalError) in
  hret (successResponse (BUserDetail user groups)).

Definition checkSelfUpdateAllowed (uid : uuid) (currentUser : User) (req : UpdateUserRequest) : H unit :=
  if IsAdmin currentUser then hret tt
  else
    refuse! negb (N.eqb uid (u_UID currentUser))
      with writeError StatusForbidden ErrCodeForbidden "can only update your own user" in
    refuse! negb (is_none (up_Roles req)) with writeError StatusForbidden ErrCodeForbidden "cannot change roles" in
    refuse! negb (is_none (up_GroupUIDs req)) with writeError StatusForbidden ErrCodeForbidden "cannot change groups" in
    hret tt.

Fixpoint checkGroupsExist (groupUIDs : list uuid) : H unit :=
  match groupUIDs with
  | [] => hret tt
  | g :: groupUIDs =>
      do! _ := or_stop (query (fun d => GetUserGroup (rq_sql e 12) d g))
                 (fun _ => writeError StatusBadRequest ErrCodeValidationError ("user group does not exist: " ++ uuid_String g)) in
      checkGroupsExist groupUIDs
  end.

Definition rejectLastAdminDemotion (uid : uuid) (roles : option (list string)) : H unit :=
  match roles with
  | None => hret tt
  | Some roles =>
      if contains_str roles RoleAdmin then hret tt
      else
        do! targetUser := or_stop (query (fun d => GetUserByUID (rq_sql e 13) d uid))
                            (fun _ => writeError StatusNotFound ErrCodeNotFound "user not found") in
        if negb (IsAdmin targetUser) then hret tt
        else
          do! adminCount := or_stop (query (fun d => CountAdmins (rq_sql e 14) d)) (fun _ => writeInternalError) in
          refuse! adminCount <=? 1
            with writeError StatusConflict ErrCodeConflict "cannot remove the admin role from the last admin user" in
          hret tt
  end.

(** In demo mode the password of [admin] is fixed on this route. *)
Definition check_demo_admin (uid : uuid) (req : UpdateUserRequest) : H unit :=
  if negb (is_none (up_Password req)) && IsDemoMode cfg then
    do! r := query (fun d => GetUserByUID (rq_sql e 15) d uid) in
    match r with
    | Ok targetUser =>
        refuse! String.eqb (u_Username targetUser) "admin"
          with writeError StatusForbidden ErrCodeForbidden "cannot change admin password in demo mode" in
        hret tt
    | Err _ => hret tt
    | Panic => stop recovered
    end
  else hret tt.

(** The first half: everything before the first write. *)
Definition update_user_checks (c : Ctx) (param : option uuid) (req : option UpdateUserRequest) :
    H (uuid * UpdateUserRequest * User) :=
  do! uid := bound param "invalid user UID" in
  do! req := bound req ("invalid request: " ++ rq_text e) in
  refuse! negb (is_none (up_Password req)) && isAPIKeyAuth c
    with writeError StatusForbidden ErrCodeForbidden "password changes require password authentication" in
  do! _ := check_demo_admin uid req in
  do! currentUser := deref (cx_user c) in
  do! _ := checkSelfUpdateAllowed uid currentUser req in
  do! _ := checkGroupsExist (default [] (up_GroupUIDs req)) in
  do! _ := rejectLastAdminDemotion uid (up_Roles req) in
  hret (uid, req, currentUser).

(** The second half. *)
Definition update_user_writes (uid : uuid) (req : UpdateUserRequest) (currentUser : User) : H Response :=
  do! hash := (match up_Password req with
               | None => hret None
               | Some p => do! h := or_stop (fun s => (s, inl (HashPassword (rq_rnd e 0) p))) (fun _ => writeInternalError) in
                           hret (Some h)
               end) in
  do! _ := or_stop (exec (fun d => UpdateUser (rq_sql e 16) d uid
                                     {| uu_PasswordHash := hash; uu_Roles := up_Roles req |} (rq_now e 10) (rq_now e 11)))
             (fun _ => writeInternalError) in
  do! _ := (match up_GroupUIDs req with
            | None => hret tt
            | Some gs => or_stop (exec (fun d => SetUserGroups (rq_sql e 17) d uid gs)) (fun _ => writeInternalError)
            end) in
  do! _ := (match up_Password req with None => hret tt | Some p => setMongoVerifier cfg e uid p end) in
  do! _ := audit 30 "user.updated" (Some uid) (Some (u_UID currentUser)) (JsonObj [("updated_fields", json_update req)]) in
  do! _ := (match up_GroupUIDs req with
            | None => hret tt
            | Some gs => audit 31 "user_group.membership_set" (Some uid) (Some (u_UID currentUser))
                           (JsonObj [("group_uids", json_uids (Some gs)); ("user_uid", json_uid uid)])
            end) in
  hret (successResponse (BMessage "user updated")).

Definition handleUpdateUser (c : Ctx) (param : option uuid) (req : option UpdateUserRequest) : H Response :=
  do! ' (uid, req, currentUser) := update_user_checks c param req in
  update_user_writes uid req currentUser.

Definition delete_user_checks (c : Ctx) (param : option uuid) : H (uuid * User) :=
  do! uid := bound param "invalid user UID" in
  do! currentUser := deref (cx_user c) in
  refuse! N.eqb uid (u_UID currentUser)
    with writeError StatusBadRequest ErrCodeValidationError "cannot delete your own user" in
  do! userToDelete := or_stop (query (fun d => GetUserByUID (rq_sql e 10) d uid))
                        (fun _ => writeError StatusNotFound ErrCodeNotFound "user not found") in
  refuse! IsDemoMode cfg && String.eqb (u_Username userToDelete) "admin"
    with writeError StatusForbidden ErrCodeForbidden "cannot delete admin user in demo mode" in
  do! _ := (if IsAdmin userToDelete then
              do! adminCount := or_stop (query (fun d => CountAdmins (rq_sql e 11) d)) (fun _ => writeInternalError) in
              refuse! adminCount <=? 1 with writeError StatusConflict ErrCodeConflict "cannot delete the last admin user" in
              hret tt
            else hret tt) in
  hret (uid, currentUser).

Definition delete_user_writes (uid : uuid) (currentUser : User) : H Response :=
  do! _ := or_stop (exec (fun d => DeleteUser (rq_sql e 12) d uid (rq_now e 10))) (fun _ => writeInternalError) in
  do! _ := audit 30 "user.deleted" (Some uid) (Some (u_UID currentUser)) (JsonObj [("user_uid", json_uid uid)]) in
  hret (successResponse (BMessage "user deleted")).

Definition handleDeleteUser (c : Ctx) (param : option uuid) : H Response :=
  do! ' (uid, currentUser) := delete_user_checks c param in
  delete_user_writes uid currentUser.

(** ** API keys *)

(** The databases of the grants, each once, in the order they appear. *)
Fixpoint distinct (seen l : list uuid) : list uuid :=
  match l with
  | [] => []
  | x :: l => if contains_uid seen x then distinct seen l else x :: distinct (x :: seen) l
  end.

Definition buildConnectionsForUser (user : User) (apiKey : string) : H (list ConnectionInfo * bool) :=
  match ac_config cfg with
  | None => hret ([], false)
  | Some cf =>
      do! pe := query_params (fun d => GetPublicEndpoints (rq_sql e 40 0%nat) d) in
      match pe with
      | Ok pe =>
          match ResolvePublicEndpoints pe (Some (cf_endpoints cf)) with
          | Ok endpoints =>
              do! grants := query_grants (fun d => ListGrants (rq_sql e 41) d
                {| gf_UserID := Some (u_UID user); gf_DatabaseID := None; gf_ActiveOnly := true |} (rq_now e 41)) in
              match grants with
              | Ok grants =>
                  fun s =>
                    let connections :=
                      omap (fun uid => match GetServerByUID (rq_sql e 42 (N.to_nat uid)) (a_servers s) uid with
                                       | Ok db => BuildConnectionURL db user endpoints apiKey
                                       | _ => None
                                       end) (distinct [] (map g_DatabaseID grants)) in
                    (s, inl (if (maxConnectionsInResponse <? length connections)%nat
                             then (take maxConnectionsInResponse connections, true) else (connections, false)))
              | Err _ => hret ([], false)
              | Panic => stop recovered
              end
          | _ => stop recovered
          end
      | Err _ => hret ([], false)
      | Panic => stop recovered
      end
  end.

Definition handleCreateAPIKey (c : Ctx) (req : option CreateAPIKeyRequest) : H Response :=
  do! req := bound (bind (fun r => nonempty (ck_Name r)) req) ("invalid request: " ++ rq_text e) in
  do! currentUser := deref (cx_user c) in
  do! ' (apiKey, plainKey) :=
    or_stop (exec (fun d => CreateAPIKey (rq_sql e 10) d (u_UID currentUser) (ck_Name req) (ck_ExpiresAt req)
                              (Some (ac_encryptionKey cfg)) (rq_uid e 0) (rq_key e) (rq_now e 10)))
      (fun _ => writeInternalError) in
  do! _ := audit 30 "api_key.created" (Some (u_UID currentUser)) (Some (u_UID currentUser))
             (JsonObj [("expires_at", json_opt json_time (k_ExpiresAt apiKey)); ("key_name", JsonStr (k_Name apiKey));
                       ("key_prefix", JsonStr (k_KeyPrefix apiKey)); ("user_id", json_uid (u_UID currentUser))]) in
  do! ' (connections, truncated) := buildConnectionsForUser currentUser plainKey in
  hret (respond StatusCreated (BKeyCreated apiKey plainKey connections truncated)).

(** The query string: [user_id] is [None] when absent or empty, [Some None] when
    it does not parse. *)
Record KeyQuery := { kq_IncludeAll : bool; kq_AllUsers : bool; kq_UserID : option (option uuid) }.

Definition handleListAPIKeys (c : Ctx) (q : KeyQuery) : H Response :=
  do! currentUser := deref (cx_user c) in
  do! who :=
    (if IsAdmin currentUser then
       match kq_UserID q with
       | Some (Some uid) => hret (Some uid)
       | Some None => stop (writeError StatusBadRequest ErrCodeValidationError "invalid user_id")
       | None => hret (if kq_AllUsers q then None else Some (u_UID currentUser))
       end
     else hret (Some (u_UID currentUser))) in
  do! keys := or_stop (query (fun d => ListAPIKeys (rq_sql e 10) d
                {| kf_UserID := who; kf_KeyType := Some KeyTypeAPI; kf_IncludeAll := kq_IncludeAll q; kf_Limit := 0; kf_Offset := 0 |}
                (rq_now e 10))) (fun _ => writeInternalError) in
  hret (successResponse (BKeys keys)).

Definition key_of (c : Ctx) (param : option uuid) : H (uuid * User * APIKey) :=
  do! id := bound param "invalid API key ID" in
  do! apiKey := or_stop (query (fun d => GetAPIKeyByID (rq_sql e 10) d id))
                  (fun _ => writeError StatusNotFound ErrCodeNotFound "API key not found") in
  do! currentUser := deref (cx_user c) in
  refuse! negb (IsAdmin currentUser) && negb (N.eqb (k_UserID apiKey) (u_UID currentUser))
    with writeError StatusForbidden ErrCodeForbidden "access denied" in
  hret (id, currentUser, apiKey).

Definition handleGetAPIKey (c : Ctx) (param : option uuid) : H Response :=
  do! ' (_, apiKey) := key_of c param in
  hret (successResponse (BKey apiKey)).

Definition handleRevokeAPIKey (c : Ctx) (param : option uuid) : H Response :=
  do! ' (id, currentUser, apiKey) := key_of c param in
  do! _ := or_stop (exec (fun d => RevokeAPIKey (rq_sql e 11) d id (u_UID currentUser) (rq_now e 10)))
             (fun _ => writeInternalError) in
  do! _ := audit 30 "api_key.revoked" (Some (k_UserID apiKey)) (Some (u_UID currentUser))
             (JsonObj [("key_name", JsonStr (k_Name apiKey)); ("key_prefix", JsonStr (k_KeyPrefix apiKey));
                       ("revoked_by", json_uid (u_UID currentUser))]) in
  hret (respond StatusNoContent BNone).

(** ** The audit log *)

(** The query string; the identifiers and times are [None] when absent or when
    they do not parse. *)
Record AuditQuery := {
  aq_EventType : string;
  aq_UserID : option uuid;
  aq_PerformedBy : option uuid;
  aq_StartTime : option time;
  aq_EndTime : option time;
  aq_Before : option uuid;
  aq_Limit : string;
  aq_Offset : string
}.

Definition audit_filter (q : AuditQuery) : AuditFilter :=
  {| af_EventType := if nonempty (aq_EventType q) then Some (aq_EventType q) else None;
     af_UserID := aq_UserID q; af_PerformedBy := aq_PerformedBy q; af_StartTime := aq_StartTime q;
     af_EndTime := aq_EndTime q; af_BeforeUID := aq_Before q;
     af_Limit := if nonempty (aq_Limit q) then default 0 (ParseInt (aq_Limit q)) else 100;
     af_Offset := if nonempty (aq_Offset q) then default 0 (ParseInt (aq_Offset q)) else 0 |}.

Definition handleListAudit (q : AuditQuery) : H Response :=
  let f := audit_filter q in
  do! events := or_stop (query (fun d => ListAuditEvents (rq_sql e 10) d f)) (fun _ => writeInternalError) in
  hret (successResponse (BAudit events)).
End Users.
