(* ===== verification/ApiDevice.v ===== *)
(** * Device authorization over HTTP ([internal/api/device.go], and
    [generateRandomState] of [oauth.go])

    RFC 8628: a tool opens a request and polls for it, a logged-in user decides
    it on the consent page, approval mints an API key that waits encrypted until
    the tool collects it.  The store's side is [ApiKeys]. *)

From Stdlib Require Import ZArith Lia List Bool String Ascii.
From stdpp Require Import base list gmap strings.
From S2P Require Import Prelude GoStrings Encoding Models Revocation RateLimit AuthCache GrantStore Crypto Accounts ApiKeys AccountSafety AccountTheorems Servers LoginTracker Endpoints ApiBase ApiAuth ApiUsers.

Open Scope string_scope.
Open Scope Z_scope.
Open Scope api_scope.

Definition deviceClientNameMaxLength : Z := 200.
Definition devicePollIntervalSeconds : Z := 2.
Definition deviceUserCodeLength : Z := 8.
Definition deviceUserCodeAttempts : nat := 5.
Definition deviceGrantType := "urn:ietf:params:oauth:grant-type:device_code".
Definition deviceDefaultClientName := "Unknown application".
Definition deviceUserCodeAlphabet := "ABCDEFGHJKMNPQRSTUVWXYZ23456789".

(** [hex.EncodeToString] *)
Definition hex_digit (d : Z) : ascii := chr (if d <? 10 then 48 + d else 87 + d).
Fixpoint hex_encode (b : bytes) : string :=
  match b with
  | [] => ""
  | x :: b => String (hex_digit (x / 16)) (String (hex_digit (x mod 16)) (hex_encode b))
  end.

(** [None]: the random source failed. *)
Definition generateRandomState (rnd : option bytes) : res acct_error string :=
  match rnd with None => Err ErrRandom | Some b => Ok (hex_encode b) end.

Definition alphabet_at (v : Z) : ascii :=
  default zero (String.get (Z.to_nat (v mod slen deviceUserCodeAlphabet)) deviceUserCodeAlphabet).

Definition generateDeviceUserCode (rnd : option bytes) : res acct_error string :=
  match rnd with
  | None => Err ErrRandom
  | Some raw => Ok (string_of_list_ascii (map alphabet_at raw))
  end.

Definition formatUserCode (canonical : string) : string :=
  if negb (slen canonical =? deviceUserCodeLength) then canonical
  else String.substring 0 4 canonical ++ "-" ++ String.substring 4 4 canonical.

Fixpoint filter_chars (keep : ascii -> bool) (s : string) : string :=
  match s with
  | EmptyString => ""
  | String c r => if keep c then String c (filter_chars keep r) else filter_chars keep r
  end.

(** The alphabet is ASCII: filtering runes is filtering bytes. *)
Definition normalizeUserCode (input : string) : string :=
  filter_chars (one_of deviceUserCodeAlphabet) (ToUpper (TrimSpace input)).

Record DeviceTokenRequest := { dt_GrantType : string; dt_DeviceCode : string }.
Record DeviceConsentRequest := { dq_UserCode : string; dq_Approve : bool }.

(** RFC 6749 section 5.2. *)
Definition writeOAuthError (code description : string) : Response :=
  respond StatusBadRequest (BOAuthError code description).

Section Device.
Context {C : Collation} {A2 : Argon2} {GCM : AEAD} {HS : Hashes} {dig : Digest} {order : MapOrder}
  {UT : UUIDText} {SK : ScramKeys} {TT : TimeText}.
Variables (cfg : ApiConfig) (e : ReqEnv).

(** Attempt [i] of the loop of [handleDeviceAuthorization]: two draws, one
    creation; a taken user code is tried again. *)
Fixpoint allocate_codes (attempts i : nat) (clientName : string) : H (string * DeviceAuthRequest) :=
  match attempts with
  | O => stop writeInternalError
  | S attempts =>
      do! dc := or_stop (fun s => (s, inl (generateRandomState (rq_rnd e (2 * i))))) (fun _ => writeInternalError) in
      do! userCode := or_stop (fun s => (s, inl (generateDeviceUserCode (rq_rnd e (2 * i + 1))))) (fun _ => writeInternalError) in
      do! r := exec (fun d => CreateDeviceAuthRequest (rq_sql e (10 + i)) d clientName dc userCode (rq_uid e i)
                                (rq_now e (10 + i)) (rq_now e (20 + i))) in
      match r with
      | Ok created => hret (dc, created)
      | Err ErrDeviceAuthUserCodeTaken => allocate_codes attempts (S i) clientName
      | Err _ => stop writeInternalError
      | Panic => stop recovered
      end
  end.

(** [req]: the decoded body, the empty request when there is none. *)
Definition handleDeviceAuthorization (ip : string) (client_name : string) : H Response :=
  do! _ := pre_auth_limit e ip in
  let clientName := TrimSpace client_name in
  let clientName := if String.eqb clientName "" then deviceDefaultClientName else clientName in
  refuse! deviceClientNameMaxLength <? slen clientName
    with writeError StatusBadRequest ErrCodeValidationError "client_name too long" in
  do! ' (deviceCode, created) := allocate_codes deviceUserCodeAttempts 0 clientName in
  do! _ := audit e 30 "device_auth.requested" None None
             (JsonObj [("client_name", JsonStr clientName); ("request_id", json_uid (da_UID created))]) in
  hret (respond StatusOK (BDeviceStarted deviceCode (formatUserCode (da_UserCode created))
                            (Z.quot (da_ExpiresAt created - rq_now e 31) Second) devicePollIntervalSeconds)).

Definition handleDeviceToken (req : option DeviceTokenRequest) : H Response :=
  match bind (fun r => nonempty (dt_GrantType r) && nonempty (dt_DeviceCode r)) req with
  | None => stop (writeOAuthError "invalid_request" "grant_type and device_code are required")
  | Some req =>
      refuse! negb (String.eqb (dt_GrantType req) deviceGrantType)
        with writeOAuthError "unsupported_grant_type" "unsupported grant_type" in
      do! ' (deviceReq, encryptedKey) :=
        or_stop (exec (fun d => PollDeviceAuthToken (rq_sql e 10) d (dt_DeviceCode req) (rq_now e 10)))
          (fun err => match err with
                      | ErrDeviceAuthNotFound => writeOAuthError "expired_token" "the device_code has expired or is unknown"
                      | _ => writeInternalError
                      end) in
      if String.eqb (da_Status deviceReq) DeviceAuthStatusPending
      then hret (writeOAuthError "authorization_pending" "the authorization request is still pending")
      else if String.eqb (da_Status deviceReq) DeviceAuthStatusDenied
      then hret (writeOAuthError "access_denied" "the authorization request was denied")
      else
        do! plainKey := or_stop (fun s => (s, inl (Decrypt encryptedKey (ac_encryptionKey cfg)
                                                     (DeviceAuthAAD (uuid_String (da_UID deviceReq))))))
                          (fun _ => writeInternalError) in
        hret (respond StatusOK (BDeviceToken (bytes_str plainKey) "Bearer"))
  end.

Definition not_found_or_expired : Response :=
  writeError StatusNotFound ErrCodeNotFound "device authorization request not found or expired".

Definition code_of (user_code : string) : H string :=
  let userCode := normalizeUserCode user_code in
  refuse! String.eqb userCode "" with writeError StatusBadRequest ErrCodeValidationError "user_code is required" in
  hret userCode.

Definition handleGetDeviceConsent (user_code : string) : H Response :=
  do! userCode := code_of user_code in
  do! deviceReq := or_stop (query (fun d => GetDeviceAuthByUserCode (rq_sql e 10) d userCode (rq_now e 10)))
                     (fun _ => not_found_or_expired) in
  hret (respond StatusOK (BDeviceConsent (da_ClientName deviceReq) (formatUserCode (da_UserCode deviceReq))
                            (da_Status deviceReq) (da_ExpiresAt deviceReq))).

(** Up to the decision: the key of an approval is minted and sealed here. *)
Definition consent_key (currentUser : User) (deviceReq : DeviceAuthRequest) (approve : bool) : H (bytes * string) :=
  if negb approve then hret ([], "")
  else
    do! ' (apiKey, plainKey) :=
      or_stop (exec (fun d => CreateAPIKey (rq_sql e 11) d (u_UID currentUser) ("device: " ++ da_ClientName deviceReq) None
                                (Some (ac_encryptionKey cfg)) (rq_uid e 0) (rq_key e) (rq_now e 11)))
        (fun _ => writeInternalError) in
    do! encryptedKey := or_stop (fun s => (s, inl (Encrypt (rq_rnd e 0) (str_bytes plainKey) (ac_encryptionKey cfg)
                                                     (DeviceAuthAAD (uuid_String (da_UID deviceReq))))))
                          (fun _ => writeInternalError) in
    hret (encryptedKey, k_KeyPrefix apiKey).

Definition handleDeviceConsent (c : Ctx) (req : option DeviceConsentRequest) : H Response :=
  do! req := bound (bind (fun r => nonempty (dq_UserCode r)) req) "user_code is required" in
  do! userCode := code_of (dq_UserCode req) in
  do! deviceReq := or_stop (query (fun d => GetDeviceAuthByUserCode (rq_sql e 10) d userCode (rq_now e 10)))
                     (fun _ => not_found_or_expired) in
  refuse! negb (String.eqb (da_Status deviceReq) DeviceAuthStatusPending)
    with writeError StatusConflict ErrCodeConflict "request already responded to" in
  do! currentUser := deref (cx_user c) in
  do! ' (encryptedKey, keyPrefix) := consent_key currentUser deviceReq (dq_Approve req) in
  do! _ := or_stop (exec (fun d => RespondToDeviceAuthByUserCode (rq_sql e 12) d userCode (u_UID currentUser) (dq_Approve req)
                                     encryptedKey keyPrefix (rq_now e 12) (rq_now e 13)))
             (fun err => match err with
                         | ErrDeviceAuthAlreadyResolved | ErrDeviceAuthNotFound =>
                             writeError StatusConflict ErrCodeConflict "request already responded to or expired"
                         | _ => writeInternalError
                         end) in
  do! _ := audit e 30 (if dq_Approve req then "device_auth.approved" else "device_auth.denied")
             (Some (u_UID currentUser)) (Some (u_UID currentUser))
             (JsonObj [("client_name", JsonStr (da_ClientName deviceReq)); ("key_prefix", JsonStr keyPrefix);
                       ("request_id", json_uid (da_UID deviceReq))]) in
  hret (respond StatusNoContent BNone).
End Device.

(** ** What the user types *)

Definition in_alphabet (c : ascii) : bool := one_of deviceUserCodeAlphabet c.

(** An ASCII character [normalizeUserCode] drops. *)
Definition junk (c : ascii) : bool := is_ascii1 c && negb (in_alphabet (upper1 c)).

Lemma filter_chars_app keep s t : filter_chars keep (s ++ t) = filter_chars keep s ++ filter_chars keep t.
Proof. induction s as [|c s IH]; cbn; [done|]. destruct (keep c); cbn; by rewrite IH. Qed.

Lemma space_junk c : is_space1 c = true -> is_ascii1 c = true /\ in_alphabet (upper1 c) = false.
Proof. destruct c as [[] [] [] [] [] [] [] []]; by vm_compute. Qed.

Definition typed (s : string) : string := filter_chars in_alphabet (ToUpper s).

Lemma typed_cons c s : is_ascii1 c = true ->
  typed (String c s) = if in_alphabet (upper1 c) then String (upper1 c) (typed s) else typed s.
Proof. intros Hc. unfold typed. by rewrite upper_ascii_cons. Qed.

Lemma trim_left_typed s : all_chars is_ascii1 s = true ->
  all_chars is_ascii1 (TrimLeftSpace s) = true /\ typed (TrimLeftSpace s) = typed s.
Proof.
  induction s as [|c s IH]; [done|]. intros Ha. pose proof Ha as Ha'. cbn [all_chars] in Ha. apply andb_true_iff in Ha as [Hc Hs].
  assert (TrimLeftSpace (String c s) = if is_space1 c then TrimLeftSpace s else String c s) as ->.
  { cbn [TrimLeftSpace]. destruct (is_space1 c); [done|]. destruct s as [|d s1]; [done|].
    rewrite space_not_ascii_2 by done. destruct s1; [done|]. by rewrite space_not_ascii_3. }
  destruct (is_space1 c) eqn:Es; [|done]. apply space_junk in Es as [_ Es].
  rewrite typed_cons, Es by done. by apply IH.
Qed.

Lemma trim_right_typed s : all_chars is_ascii1 s = true -> typed (TrimRightSpace s) = typed s.
Proof.
  induction s as [|c s IH]; [done|]. intros Ha. pose proof (trim_left_typed _ Ha) as [_ Hl].
  cbn [all_chars] in Ha. apply andb_true_iff in Ha as [Hc Hs]. cbn [TrimRightSpace].
  destruct (String.eqb (TrimLeftSpace (String c s)) "") eqn:Ee.
  - apply String.eqb_eq in Ee. by rewrite Ee in Hl.
  - rewrite !typed_cons by done. by rewrite IH.
Qed.

Lemma normalize_typed s : all_chars is_ascii1 s = true -> normalizeUserCode s = typed s.
Proof.
  intros Ha. destruct (trim_left_typed s Ha) as [Ha' Hl]. unfold normalizeUserCode, TrimSpace.
  change (typed (TrimRightSpace (TrimLeftSpace s)) = typed s). by rewrite trim_right_typed.
Qed.

Lemma typed_app s t : all_chars is_ascii1 s = true -> typed (s ++ t) = typed s ++ typed t.
Proof. intros Hs. unfold typed. by rewrite ToUpper_ascii_app, filter_chars_app. Qed.

Lemma typed_junk s : all_chars junk s = true -> all_chars is_ascii1 s = true /\ typed s = "".
Proof.
  induction s as [|c s IH]; [done|]. cbn [all_chars]. unfold junk at 1.
  intros [[Hc Hn%negb_true_iff]%andb_true_iff Hs]%andb_true_iff. destruct (IH Hs) as [Ha Ht].
  split; [by rewrite Hc|]. by rewrite typed_cons, Hn.
Qed.

Lemma alphabet_in v : in_alphabet (alphabet_at v) = true.
Proof.
  unfold alphabet_at. change (slen deviceUserCodeAlphabet) with 31.
  pose proof (Z.mod_pos_bound v 31 ltac:(lia)) as Hb. set (i := v mod 31) in *.
  assert (Hall : Forall (fun n => in_alphabet (default zero (String.get n deviceUserCodeAlphabet)) = true) (seq 0 31))
    by (repeat constructor).
  rewrite List.Forall_forall in Hall. apply Hall, in_seq. lia.
Qed.

Lemma filter_chars_all keep s : all_chars keep s = true -> filter_chars keep s = s.
Proof. induction s as [|c s IH]; [done|]. cbn. intros [-> Hs]%andb_true_iff. by rewrite IH. Qed.

Lemma alphabet_upper s : all_chars in_alphabet s = true -> all_chars is_ascii1 s = true /\ ToUpper s = s.
Proof.
  assert (Hc : forall c, in_alphabet c = true -> is_ascii1 c = true /\ upper1 c = c)
    by (intros [[] [] [] [] [] [] [] []]; by vm_compute).
  induction s as [|c s IH]; [done|]. cbn [all_chars]. intros [Hin Hs]%andb_true_iff.
  destruct (Hc c Hin) as [Ha Hu], (IH Hs) as [Has Hus]. rewrite upper_ascii_cons by done. rewrite Ha, Has, Hu, Hus. done.
Qed.

Lemma halves s : slen s = 8 ->
  exists a b, String.substring 0 4 s = a /\ String.substring 4 4 s = b /\ a ++ b = s /\ slen a = 4 /\ slen b = 4.
Proof.
  unfold slen. intros H. do 8 (destruct s as [|? s]; [discriminate|]). destruct s; [|cbn in H; lia].
  do 2 eexists. by repeat split.
Qed.

(** The code shown to the user is read back: in any letter case, cut in two parts
    anywhere, with separators, spaces and other characters outside the alphabet
    before, between and after them. *)
Theorem user_code_roundtrip raw code typed1 typed2 before between after :
  generateDeviceUserCode (Some raw) = Ok code -> zlen raw = deviceUserCodeLength ->
  all_chars is_ascii1 typed1 = true -> all_chars is_ascii1 typed2 = true -> ToUpper typed1 ++ ToUpper typed2 = code ->
  all_chars junk before = true -> all_chars junk between = true -> all_chars junk after = true ->
  normalizeUserCode (before ++ typed1 ++ between ++ typed2 ++ after) = code /\
  normalizeUserCode (formatUserCode code) = code /\ slen code = 8 /\ slen (formatUserCode code) = 9.
Proof.
  intros Hgen Hlen H1 H2 Hcode Hb Hm Ha. cbn in Hgen. injection Hgen as Hgen.
  assert (Hin : all_chars in_alphabet code = true).
  { rewrite <- Hgen. clear. induction raw as [|v raw IH]; [done|].
    cbn [map string_of_list_ascii all_chars]. by rewrite alphabet_in. }
  assert (Hsl : slen code = 8).
  { rewrite <- Hgen. unfold slen, zlen, deviceUserCodeLength in *. rewrite <- Hlen. f_equal. clear.
    induction raw as [|v raw IH]; [done|]. cbn [map string_of_list_ascii String.length length]. by rewrite IH. }
  assert (Hread : forall j1 t1 j2 t2 j3, all_chars junk j1 = true -> all_chars junk j2 = true -> all_chars junk j3 = true ->
    all_chars is_ascii1 t1 = true -> all_chars is_ascii1 t2 = true -> ToUpper t1 ++ ToUpper t2 = code ->
    normalizeUserCode (j1 ++ t1 ++ j2 ++ t2 ++ j3) = code).
  { intros j1 t1 j2 t2 j3 J1 J2 J3 T1 T2 Ht.
    destruct (typed_junk _ J1) as [A1 E1], (typed_junk _ J2) as [A2 E2], (typed_junk _ J3) as [A3 E3].
    rewrite normalize_typed by (by rewrite !all_chars_app, A1, T1, A2, T2, A3).
    rewrite !typed_app, E1, E2, E3 by done. cbn [String.append]. rewrite sapp_nil_r. unfold typed.
    rewrite <- filter_chars_app, Ht. by apply filter_chars_all. }
  split; [by apply Hread|].
  destruct (halves code Hsl) as (a & b & Ea & Eb & Eab & La & Lb).
  assert (Hf : formatUserCode code = a ++ "-" ++ b) by (unfold formatUserCode; rewrite Hsl; cbn [negb Z.eqb]; by rewrite Ea, Eb).
  rewrite <- Eab, all_chars_app in Hin. apply andb_true_iff in Hin as [Ia Ib].
  destruct (alphabet_upper a Ia) as [Aa Ua], (alphabet_upper b Ib) as [Ab Ub].
  split; [|split; [done|rewrite Hf, !slen_app, La, Lb; reflexivity]].
  rewrite Hf. rewrite <- (sapp_nil_r b). apply (Hread "" a "-" b ""); try done. by rewrite Ua, Ub.
Qed.

Lemma user_code_roundtrip_witness :
  normalizeUserCode "  abcd - efgh " = "ABCDEFGH" /\ formatUserCode "ABCDEFGH" = "ABCD-EFGH" /\
  normalizeUserCode (formatUserCode "ABCDEFGH") = "ABCDEFGH".
Proof.
  destruct (user_code_roundtrip [0; 1; 2; 3; 4; 5; 6; 7] "ABCDEFGH" "abcd" "efgh" "  " " - " " ") as (H1 & H2 & _);
    try reflexivity.
  split; [exact H1|]. split; [reflexivity|exact H2].
Defined.
