(* ===== verification/ApiGroups.v ===== *)
(** * User groups, parameters and instance settings over HTTP
    ([internal/api/user_groups.go], [parameters.go])

    All of it behind [requireAdmin], except [handleGetInstance]. *)

From Stdlib Require Import ZArith Lia List Bool String Ascii.
From stdpp Require Import base list gmap strings.
From S2P Require Import Prelude GoStrings Encoding Models Revocation RateLimit AuthCache GrantStore Crypto Accounts ApiKeys AccountSafety Servers LoginTracker Endpoints ApiBase ApiAuth ApiUsers.

Open Scope string_scope.
Open Scope Z_scope.
Open Scope api_scope.

Definition maxGroupNameLen : Z := 64.

(** [cg_MemberUIDs]: [None] is a nil slice. *)
Record CreateUserGroupRequest := {
  cg_Name : string;
  cg_Description : string;
  cg_MemberUIDs : option (list uuid)
}.

(** The empty text: fine. *)
Definition validateUserGroupRequest (req : CreateUserGroupRequest) : string :=
  if String.eqb (cg_Name req) "" then "name is required"
  else if maxGroupNameLen <? slen (cg_Name req) then "name must be at most 64 characters"
  else "".

Section Groups.
Context {C : Collation} {A2 : Argon2} {GCM : AEAD} {HS : Hashes} {dig : Digest} {order : MapOrder}
  {UT : UUIDText} {SK : ScramKeys} {TT : TimeText}.
Variables (cfg : ApiConfig) (e : ReqEnv).

(** The message of the first uid that names nobody. *)
Fixpoint checkUsersExist (uids : list uuid) : H string :=
  match uids with
  | [] => hret ""
  | uid :: uids =>
      do! r := query (fun d => GetUserByUID (rq_sql e 20) d uid) in
      match r with
      | Ok _ => checkUsersExist uids
      | Err _ => hret ("user does not exist: " ++ uuid_String uid)
      | Panic => stop recovered
      end
  end.

Definition valid_group (param : option CreateUserGroupRequest) : H CreateUserGroupRequest :=
  do! req := bound (bind (fun r => nonempty (cg_Name r)) param) ("invalid request: " ++ rq_text e) in
  let msg := validateUserGroupRequest req in
  refuse! nonempty msg with writeError StatusBadRequest ErrCodeValidationError msg in
  do! msg := checkUsersExist (default [] (cg_MemberUIDs req)) in
  refuse! nonempty msg with writeError StatusBadRequest ErrCodeValidationError msg in
  hret req.

Definition groupWithMembers (group : UserGroup) : H (UserGroup * list uuid) :=
  do! members := or_stop (query (fun d => ListGroupMemberUIDs (rq_sql e 21) d (ug_UID group))) (fun _ => writeInternalError) in
  hret (group, members).

Definition group_error (err : acct_error) : Response :=
  match err with
  | ErrUserGroupNotFound => writeError StatusNotFound ErrCodeNotFound "user group not found"
  | ErrUserGroupDuplicate => writeError StatusConflict ErrCodeDuplicateName "user group with this name already exists"
  | _ => writeInternalError
  end.

Definition get_group (uid : uuid) : H UserGroup :=
  or_stop (query (fun d => GetUserGroup (rq_sql e 10) d uid)) group_error.

Definition json_group (group : UserGroup) (members : option (list uuid)) : json :=
  JsonObj [("member_uids", json_uids members); ("name", JsonStr (ug_Name group)); ("user_group_uid", json_uid (ug_UID group))].

Definition handleCreateUserGroup (c : Ctx) (req : option CreateUserGroupRequest) : H Response :=
  do! req := valid_group req in
  do! currentUser := deref (cx_user c) in
  do! created := or_stop (exec (fun d => CreateUserGroup (rq_sql e 10) d
                   {| ug_UID := Nil; ug_Name := cg_Name req; ug_Description := cg_Description req;
                      ug_CreatedBy := Some (u_UID currentUser); ug_CreatedAt := 0 |} (rq_uid e 0) (rq_now e 10))) group_error in
  do! _ := (match default [] (cg_MemberUIDs req) with
            | [] => hret tt
            | uids => or_stop (exec (fun d => SetGroupMembers (rq_sql e 11) d (ug_UID created) uids)) (fun _ => writeInternalError)
            end) in
  do! _ := audit e 30 "user_group.created" None (Some (u_UID currentUser)) (json_group created (cg_MemberUIDs req)) in
  do! ' (group, members) := groupWithMembers created in
  hret (successResponse (BGroups [(group, members)])).

Fixpoint with_members (groups : list UserGroup) : H (list (UserGroup * list uuid)) :=
  match groups with
  | [] => hret []
  | g :: groups =>
      do! x := groupWithMembers g in
      do! xs := with_members groups in
      hret (x :: xs)
  end.

Definition handleListUserGroups : H Response :=
  do! groups := or_stop (query (fun d => ListUserGroups (rq_sql e 10) d)) (fun _ => writeInternalError) in
  do! out := with_members groups in
  hret (successResponse (BGroups out)).

Definition handleGetUserGroup (param : option uuid) : H Response :=
  do! uid := bound param "invalid user group UID" in
  do! group := get_group uid in
  do! ' (group, members) := groupWithMembers group in
  hret (successResponse (BGroups [(group, members)])).

Definition handleUpdateUserGroup (c : Ctx) (param : option uuid) (req : option CreateUserGroupRequest) : H Response :=
  do! uid := bound param "invalid user group UID" in
  do! req := valid_group req in
  do! group := get_group uid in
  let group := {| ug_UID := ug_UID group; ug_Name := cg_Name req; ug_Description := cg_Description req;
                  ug_CreatedBy := ug_CreatedBy group; ug_CreatedAt := ug_CreatedAt group |} in
  do! _ := or_stop (exec (fun d => UpdateUserGroup (rq_sql e 11) d group))
             (fun err => match err with ErrUserGroupDuplicate => group_error err | _ => writeInternalError end) in
  do! _ := (match cg_MemberUIDs req with
            | None => hret tt
            | Some uids => or_stop (exec (fun d => SetGroupMembers (rq_sql e 12) d (ug_UID group) uids)) (fun _ => writeInternalError)
            end) in
  do! currentUser := deref (cx_user c) in
  do! _ := audit e 30 "user_group.updated" None (Some (u_UID currentUser)) (json_group group (cg_MemberUIDs req)) in
  do! ' (group, members) := groupWithMembers group in
  hret (successResponse (BGroups [(group, members)])).

Definition handleDeleteUserGroup (c : Ctx) (param : option uuid) : H Response :=
  do! uid := bound param "invalid user group UID" in
  do! _ := or_stop (exec (fun d => DeleteUserGroup (rq_sql e 10) d uid)) group_error in
  do! currentUser := deref (cx_user c) in
  do! _ := audit e 30 "user_group.deleted" None (Some (u_UID currentUser)) (JsonObj [("user_group_uid", json_uid uid)]) in
  hret (successResponse (BMessage "user group deleted")).

(** Both path parameters, or 400. *)
Definition parseMemberParams (group user : option uuid) : H (uuid * uuid) :=
  do! g := bound group "invalid UID" in
  do! u := bound user "invalid UID" in
  hret (g, u).

Definition json_member (g u : uuid) : json := JsonObj [("user_group_uid", json_uid g); ("user_uid", json_uid u)].

Definition handleAddUserGroupMember (c : Ctx) (group user : option uuid) : H Response :=
  do! ' (groupUID, userUID) := parseMemberParams group user in
  do! _ := get_group groupUID in
  do! _ := or_stop (query (fun d => GetUserByUID (rq_sql e 11) d userUID))
             (fun _ => writeError StatusNotFound ErrCodeNotFound "user not found") in
  do! _ := or_stop (exec (fun d => AddUserToGroup (rq_sql e 12) d groupUID userUID)) (fun _ => writeInternalError) in
  do! currentUser := deref (cx_user c) in
  do! _ := audit e 30 "user_group.member_added" (Some userUID) (Some (u_UID currentUser)) (json_member groupUID userUID) in
  hret (successResponse (BMessage "member added")).

Definition handleRemoveUserGroupMember (c : Ctx) (group user : option uuid) : H Response :=
  do! ' (groupUID, userUID) := parseMemberParams group user in
  do! _ := get_group groupUID in
  do! _ := or_stop (exec (fun d => RemoveUserFromGroup (rq_sql e 12) d groupUID userUID)) (fun _ => writeInternalError) in
  do! currentUser := deref (cx_user c) in
  do! _ := audit e 30 "user_group.member_removed" (Some userUID) (Some (u_UID currentUser)) (json_member groupUID userUID) in
  hret (successResponse (BMessage "member removed")).

Definition handleListUserGroupMembers (param : option uuid) : H Response :=
  do! uid := bound param "invalid user group UID" in
  do! _ := get_group uid in
  do! users := or_stop (query (fun d => ListGroupMembers (rq_sql e 11) d uid)) (fun _ => writeInternalError) in
  hret (successResponse (BUsers users)).

(** ** Parameters *)

Definition param_response (err : param_error) : Response :=
  match err with
  | ErrParameterNotFound => writeError StatusNotFound ErrCodeNotFound "parameter not found"
  | ErrParamSQL => writeInternalError
  end.

Definition handleListParameters (groupKey : string) : H Response :=
  do! params := or_stop (query_params (fun d => GetAllParameters (rq_sql e 10 0%nat) d groupKey)) (fun _ => writeInternalError) in
  hret (respond StatusOK (BParams params)).

Definition handleGetParameter (group key : string) : H Response :=
  do! p := or_stop (query_params (fun d => GetParameter (rq_sql e 10 0%nat) d group key)) param_response in
  hret (respond StatusOK (BParam p)).

(** [value] is required. *)
Definition handleSetParameter (group key : string) (value : option string) : H Response :=
  do! value := bound (bind nonempty value) ("invalid request: " ++ rq_text e) in
  do! _ := or_stop (exec_params (fun d => SetParameter (rq_sql e 10 0%nat) d group key value (rq_uid e 0) (rq_now e 10)))
             (fun _ => writeInternalError) in
  do! p := or_stop (query_params (fun d => GetParameter (rq_sql e 11 0%nat) d group key)) (fun _ => writeInternalError) in
  hret (respond StatusOK (BParam p)).

Definition handleDeleteParameter (group key : string) : H Response :=
  do! _ := or_stop (exec_params (fun d => DeleteParameter (rq_sql e 10 0%nat) d group key (rq_now e 10))) param_response in
  hret (respond StatusNoContent BNone).

(** The raw settings are for administrators. *)
Definition handleGetInstance (c : Ctx) : H Response :=
  do! currentUser := deref (cx_user c) in
  do! pe := or_stop (query_params (fun d => GetPublicEndpoints (rq_sql e 10 0%nat) d)) (fun _ => writeInternalError) in
  match ResolvePublicEndpoints pe (cf_endpoints <$> ac_config cfg) with
  | Ok resolved => hret (respond StatusOK (BInstance (if IsAdmin currentUser then Some pe else None) resolved))
  | _ => stop recovered
  end.

Definition handleUpdateInstancePublic (req : option PublicEndpoints) : H Response :=
  do! pe := bound req ("invalid request: " ++ rq_text e) in
  do! _ := or_stop (exec_params (fun d => SetPublicEndpoints (rq_sql e 10) d pe (rq_uid e) (rq_now e))) (fun _ => writeInternalError) in
  hret (respond StatusNoContent BNone).
End Groups.
