(* ===== verification/ApiGrants.v ===== *)
(** * Grants, definitions and requests over HTTP
    ([internal/api/grants.go], [grant_definitions.go], [grant_requests.go])

    The tables are [GrantStore], the registry of live sessions is [Revocation].
    An approval is split at the end of its scope check: the check and the
    transaction of the store are separate statements. *)

From Stdlib Require Import ZArith Lia List Bool String Ascii.
From stdpp Require Import base list gmap strings.
From S2P Require Import Prelude GoStrings Encoding Models Revocation RateLimit AuthCache GrantStore Crypto Accounts ApiKeys AccountSafety Servers LoginTracker Endpoints ApiBase ApiAuth ApiUsers.

Open Scope string_scope.
Open Scope Z_scope.
Open Scope api_scope.

Record CreateGrantBody := {
  cgb_UserID : uuid;
  cgb_DatabaseID : uuid;
  cgb_Controls : list string;
  cgb_StartsAt : time;
  cgb_ExpiresAt : time;
  cgb_MaxQueryCounts : option Z;
  cgb_MaxBytesTransferred : option Z
}.

Record DefinitionBody := {
  df_Name : string;
  df_Description : string;
  df_DurationSeconds : Z;
  df_Controls : list string;
  df_MaxQueryCounts : option Z;
  df_MaxBytesTransferred : option Z;
  df_AutoApprove : bool;
  df_GroupUIDs : list uuid;
  df_DatabaseUIDs : list uuid
}.

Record RequestBody := {
  rb_GrantDefinitionID : uuid;
  rb_DatabaseID : uuid;
  rb_Justification : string
}.

Definition maxJustificationLen : Z := 1000.
Definition maxDuration : Z := 30 * 24 * 3600.

(** The first control that is not a known one. *)
Definition bad_control (controls : list string) : option string :=
  List.find (fun c => negb (contains_str ValidControls c)) controls.

Definition validateDefinitionRequest (req : DefinitionBody) : string :=
  if String.eqb (df_Name req) "" then "name is required"
  else if 64 <? slen (df_Name req) then "name must be at most 64 characters"
  else if df_DurationSeconds req <=? 0 then "duration_seconds must be > 0"
  else if maxDuration <? df_DurationSeconds req then "duration_seconds must be at most 30 days (2592000)"
  else match bad_control (df_Controls req) with
       | Some control => "invalid control: " ++ control
       | None =>
           if match df_MaxQueryCounts req with Some n => n <=? 0 | None => false end
           then "max_query_counts must be > 0 or omitted"
           else if match df_MaxBytesTransferred req with Some n => n <=? 0 | None => false end
           then "max_bytes_transferred must be > 0 or omitted"
           else ""
       end.

Section Grants.
Context {C : Collation} {A2 : Argon2} {GCM : AEAD} {HS : Hashes} {dig : Digest} {order : MapOrder}
  {UT : UUIDText} {SK : ScramKeys} {TT : TimeText}.
Variables (cfg : ApiConfig) (e : ReqEnv).

(** ** Grants *)

(** [if target, err := GetServerByUID(...); err == nil && target.IsSSH()] *)
Definition reject_ssh (uid : uuid) (message : string) : H unit :=
  do! r := query_servers (fun d => GetServerByUID (rq_sql e 5 0%nat) d uid) in
  refuse! (match r with Ok target => IsSSH target | _ => false end)
    with writeError StatusBadRequest ErrCodeValidationError message in
  hret tt.

(** [required]: no nil UUID and no zero time. *)
Definition grant_required (r : CreateGrantBody) : bool :=
  negb (N.eqb (cgb_UserID r) Nil) && negb (N.eqb (cgb_DatabaseID r) Nil)
  && negb (IsZero (cgb_StartsAt r)) && negb (IsZero (cgb_ExpiresAt r)).

Definition handleCreateGrant (c : Ctx) (req : option CreateGrantBody) : H Response :=
  do! req := bound (bind grant_required req) ("invalid request: " ++ rq_text e) in
  do! _ := (match bad_control (cgb_Controls req) with
            | Some control => stop (writeError StatusBadRequest ErrCodeValidationError ("invalid control: " ++ control))
            | None => hret tt
            end) in
  refuse! negb (Before (cgb_StartsAt req) (cgb_ExpiresAt req))
    with writeError StatusBadRequest ErrCodeValidationError "starts_at must be before expires_at" in
  do! _ := reject_ssh (cgb_DatabaseID req) "cannot grant access to an ssh server" in
  do! currentUser := deref (cx_user c) in
  let grant := {| g_UID := Nil; g_UserID := cgb_UserID req; g_DatabaseID := cgb_DatabaseID req; g_Controls := cgb_Controls req;
                  g_GrantedBy := u_UID currentUser; g_StartsAt := cgb_StartsAt req; g_ExpiresAt := cgb_ExpiresAt req;
                  g_RevokedAt := None; g_RevokedBy := None; g_MaxQueryCounts := cgb_MaxQueryCounts req;
                  g_MaxBytesTransferred := cgb_MaxBytesTransferred req; g_CreatedAt := 0; g_QueryCount := 0;
                  g_BytesTransferred := 0 |} in
  do! result := or_stop (exec_grants (fun d => CreateGrant (rq_sql e 10) d grant (rq_uid e 0) (rq_now e 10)))
                  (fun _ => writeInternalError) in
  do! _ := audit e 30 "grant.created" (Some (g_UserID result)) (Some (u_UID currentUser))
             (JsonObj [("controls", json_strings (Some (g_Controls result))); ("database_id", json_uid (g_DatabaseID result));
                       ("expires_at", json_time (g_ExpiresAt result)); ("grant_uid", json_uid (g_UID result));
                       ("starts_at", json_time (g_StartsAt result)); ("user_id", json_uid (g_UserID result))]) in
  hret (successResponse (BGrant result)).

(** The query string, its identifiers [None] when absent or malformed. *)
Record GrantQuery := { gq_UserID : option uuid; gq_DatabaseID : option uuid; gq_ActiveOnly : bool }.

Definition handleListGrants (c : Ctx) (q : GrantQuery) : H Response :=
  do! currentUser := deref (cx_user c) in
  let filter := {| gf_UserID := if negb (IsAdmin currentUser) && negb (IsViewer currentUser)
                                then Some (u_UID currentUser) else gq_UserID q;
                   gf_DatabaseID := gq_DatabaseID q; gf_ActiveOnly := gq_ActiveOnly q |} in
  do! grants := or_stop (query_grants (fun d => ListGrants (rq_sql e 10) d filter (rq_now e 10))) (fun _ => writeInternalError) in
  hret (successResponse (BGrants grants)).

Definition handleGetGrant (c : Ctx) (param : option uuid) : H Response :=
  do! uid := bound param "invalid grant UID" in
  do! grant := or_stop (query_grants (fun d => GetGrantByUID (rq_sql e 10) d uid))
                 (fun _ => writeError StatusNotFound ErrCodeNotFound "grant not found") in
  do! currentUser := deref (cx_user c) in
  refuse! negb (IsAdmin currentUser) && negb (IsViewer currentUser) && negb (N.eqb (g_UserID grant) (u_UID currentUser))
    with writeError StatusForbidden ErrCodeForbidden "no access to this grant" in
  hret (successResponse (BGrant grant)).

(** [s.store.Revocations().Revoke(uid)] *)
Definition signal_sessions (uid : uuid) : H Z :=
  fun s => let '(w, n) := Revoke (a_registry s) uid in (put_registry s w, inl n).

Definition handleRevokeGrant (c : Ctx) (param : option uuid) : H Response :=
  do! uid := bound param "invalid grant UID" in
  do! currentUser := deref (cx_user c) in
  do! _ := or_stop (exec_grants (fun d => RevokeGrant (rq_sql e 10) d uid (u_UID currentUser) (rq_now e 10)))
             (fun _ => writeInternalError) in
  do! _ := signal_sessions uid in
  do! grant := query_grants (fun d => GetGrantByUID (rq_sql e 11) d uid) in
  do! _ := audit e 30 "grant.revoked" (match grant with Ok g => Some (g_UserID g) | _ => None end) (Some (u_UID currentUser))
             (JsonObj [("grant_uid", json_uid uid)]) in
  hret (successResponse (BMessage "grant revoked")).

(** ** Definitions *)

Fixpoint check_groups (uids : list uuid) : H string :=
  match uids with
  | [] => hret ""
  | uid :: uids =>
      do! r := query (fun d => GetUserGroup (rq_sql e 6) d uid) in
      match r with
      | Ok _ => check_groups uids
      | Err _ => hret ("user group does not exist: " ++ uuid_String uid)
      | Panic => stop recovered
      end
  end.

Fixpoint check_databases (uids : list uuid) : H string :=
  match uids with
  | [] => hret ""
  | uid :: uids =>
      do! r := query_servers (fun d => GetServerByUID (rq_sql e 7 0%nat) d uid) in
      match r with
      | Ok target =>
          if IsSSH target then hret ("cannot scope a grant definition to an ssh server: " ++ uuid_String uid)
          else check_databases uids
      | Err _ => hret ("database does not exist: " ++ uuid_String uid)
      | Panic => stop recovered
      end
  end.

Definition validateDefinitionScope (req : DefinitionBody) : H string :=
  do! msg := check_groups (df_GroupUIDs req) in
  if nonempty msg then hret msg else check_databases (df_DatabaseUIDs req).

Definition valid_definition (req : option DefinitionBody) : H DefinitionBody :=
  do! req := bound (bind (fun r => nonempty (df_Name r) && negb (df_DurationSeconds r =? 0)) req)
               ("invalid request: " ++ rq_text e) in
  let msg := validateDefinitionRequest req in
  refuse! nonempty msg with writeError StatusBadRequest ErrCodeValidationError msg in
  do! msg := validateDefinitionScope req in
  refuse! nonempty msg with writeError StatusBadRequest ErrCodeValidationError msg in
  hret req.

Definition definition_of (req : DefinitionBody) (uid createdBy : uuid) (active : bool) (created : time) : GrantDefinition :=
  {| gd_UID := uid; gd_Name := df_Name req; gd_Description := df_Description req;
     gd_DurationSeconds := df_DurationSeconds req; gd_Controls := df_Controls req;
     gd_MaxQueryCounts := df_MaxQueryCounts req; gd_MaxBytesTransferred := df_MaxBytesTransferred req;
     gd_AutoApprove := df_AutoApprove req; gd_GroupUIDs := df_GroupUIDs req; gd_DatabaseUIDs := df_DatabaseUIDs req;
     gd_IsActive := active; gd_CreatedBy := createdBy; gd_CreatedAt := created |}.

Definition definition_error (err : store_error) : Response :=
  match err with
  | ErrGrantDefinitionNotFound => writeError StatusNotFound ErrCodeNotFound "grant definition not found"
  | _ => writeInternalError
  end.

Definition handleCreateGrantDefinition (c : Ctx) (req : option DefinitionBody) : H Response :=
  do! req := valid_definition req in
  do! currentUser := deref (cx_user c) in
  do! created := or_stop (exec_grants (fun d => CreateGrantDefinition (rq_sql e 10) d
                            (definition_of req Nil (u_UID currentUser) false 0) (rq_uid e 0) (rq_now e 10)))
                   (fun err => match err with
                               | ErrGrantDefinitionDuplicate =>
                                   writeError StatusConflict ErrCodeDuplicateName "grant definition with this name already exists"
                               | _ => writeInternalError
                               end) in
  do! _ := audit e 30 "grant_definition.created" None (Some (u_UID currentUser))
             (JsonObj [("auto_approve", JsonBool (gd_AutoApprove created)); ("controls", json_strings (Some (gd_Controls created)));
                       ("database_uids", json_uids (Some (gd_DatabaseUIDs created)));
                       ("duration_seconds", JsonNum (gd_DurationSeconds created));
                       ("grant_definition_uid", json_uid (gd_UID created));
                       ("group_uids", json_uids (Some (gd_GroupUIDs created))); ("name", JsonStr (gd_Name created))]) in
  hret (successResponse (BDefinition created)).

Definition handleListGrantDefinitions (c : Ctx) (active_only : bool) : H Response :=
  do! currentUser := deref (cx_user c) in
  do! defs := or_stop (query_grants (fun d => ListGrantDefinitions (rq_sql e 10) d (negb (IsAdmin currentUser) || active_only)))
                (fun _ => writeInternalError) in
  if IsAdmin currentUser then hret (successResponse (BDefinitions defs))
  else
    do! groupUIDs := or_stop (query (fun d => ListUserGroupUIDs (rq_sql e 11) d (u_UID currentUser))) (fun _ => writeInternalError) in
    hret (successResponse (BDefinitions (List.filter (fun d => AppliesToGroups d groupUIDs) defs))).

Definition handleGetGrantDefinition (c : Ctx) (param : option uuid) : H Response :=
  do! uid := bound param "invalid grant definition UID" in
  do! def := or_stop (query_grants (fun d => GetGrantDefinition (rq_sql e 10) d uid)) definition_error in
  do! currentUser := deref (cx_user c) in
  if IsAdmin currentUser then hret (successResponse (BDefinition def))
  else
    refuse! negb (gd_IsActive def) with definition_error ErrGrantDefinitionNotFound in
    do! groupUIDs := or_stop (query (fun d => ListUserGroupUIDs (rq_sql e 11) d (u_UID currentUser))) (fun _ => writeInternalError) in
    refuse! negb (AppliesToGroups def groupUIDs) with definition_error ErrGrantDefinitionNotFound in
    hret (successResponse (BDefinition def)).

Definition handleUpdateGrantDefinition (c : Ctx) (param : option uuid) (req : option DefinitionBody) : H Response :=
  do! uid := bound param "invalid grant definition UID" in
  do! req := valid_definition req in
  do! def := or_stop (query_grants (fun d => GetGrantDefinition (rq_sql e 10) d uid)) definition_error in
  let def := definition_of req (gd_UID def) (gd_CreatedBy def) (gd_IsActive def) (gd_CreatedAt def) in
  do! _ := or_stop (exec_grants (fun d => UpdateGrantDefinition (rq_sql e 11) d def)) (fun _ => writeInternalError) in
  do! currentUser := deref (cx_user c) in
  do! _ := audit e 30 "grant_definition.updated" None (Some (u_UID currentUser))
             (JsonObj [("auto_approve", JsonBool (gd_AutoApprove def)); ("database_uids", json_uids (Some (gd_DatabaseUIDs def)));
                       ("grant_definition_uid", json_uid (gd_UID def)); ("group_uids", json_uids (Some (gd_GroupUIDs def)));
                       ("name", JsonStr (gd_Name def))]) in
  hret (successResponse (BDefinition def)).

Definition handleDeactivateGrantDefinition (c : Ctx) (param : option uuid) : H Response :=
  do! uid := bound param "invalid grant definition UID" in
  do! _ := or_stop (exec_grants (fun d => DeactivateGrantDefinition (rq_sql e 10) d uid)) definition_error in
  do! currentUser := deref (cx_user c) in
  do! _ := audit e 30 "grant_definition.deactivated" None (Some (u_UID currentUser))
             (JsonObj [("grant_definition_uid", json_uid uid)]) in
  hret (successResponse (BMessage "grant definition deactivated")).

(** ** Requests *)

(** [notifyAsync] with the event [loadEventContext] builds. *)
Definition notify (req : GrantRequest) (action : notice_action) (decider : option uuid) : H unit :=
  fun s => (put_notified s ({| n_request := req; n_action := action; n_decider := decider |} :: a_notified s), inl tt).

Inductive decisionSource := decisionSourceWeb | decisionSourceSlack | decisionSourceAutoApprove.

(** [via] sorts after the other keys the callers use. *)
Definition decisionDetails (base : list (string * json)) (source : decisionSource) : json :=
  JsonObj (base ++ match source with
                   | decisionSourceWeb => []
                   | decisionSourceSlack => [("via", JsonStr "slack")]
                   | decisionSourceAutoApprove => [("via", JsonStr "auto_approve")]
                   end)%list.

Definition enforceRequestScope (def : GrantDefinition) (requester : User) (databaseID : uuid) : H unit :=
  do! groupUIDs := or_stop (query (fun d => ListUserGroupUIDs (rq_sql e 11) d (u_UID requester))) (fun _ => writeInternalError) in
  refuse! negb (AppliesToGroups def groupUIDs)
    with writeError StatusForbidden ErrCodeForbidden "this grant definition is not available to your user groups" in
  refuse! negb (AppliesToDatabase def databaseID)
    with writeError StatusForbidden ErrCodeForbidden "this grant definition cannot be requested for this database" in
  hret tt.

(** What a decision can fail with, beyond the errors of the store. *)
Inductive decision_error := DErrAccounts (err : acct_error) | DErrStore (err : store_error) | ErrRequestOutOfScope.

Abbreviation DH A := (H (res decision_error A)).

Definition lift_store {A} (m : H (res store_error A)) : DH A :=
  do! r := m in hret (match r with Ok a => Ok a | Err err => Err (DErrStore err) | Panic => Panic end).

Definition details_of (request : GrantRequest) (grant : AccessGrant) : list (string * json) :=
  [("grant_request_uid", json_uid (gr_UID request)); ("resulting_grant_id", json_uid (g_UID grant))].

Definition autoApproveGrantRequest (request : GrantRequest) (requester : User) : DH (AccessGrant * GrantRequest) :=
  do! r := lift_store (exec_grants (fun d => AutoApproveGrantRequest (rq_sql e 15) d (gr_UID request) (u_UID requester)
                                               (rq_uid e 2) (rq_now e 15) (rq_now e 16))) in
  match r with
  | Ok (grant, updated) =>
      do! _ := audit e 31 "grant_request.approved" (Some (gr_UserID updated)) None
                 (decisionDetails (details_of updated grant) decisionSourceAutoApprove) in
      do! _ := notify updated GrantActionApproved None in
      hret (Ok (grant, updated))
  | Err err => hret (Err err)
  | Panic => hret Panic
  end.

Definition request_required (r : RequestBody) : bool :=
  negb (N.eqb (rb_GrantDefinitionID r) Nil) && negb (N.eqb (rb_DatabaseID r) Nil).

(** Up to the check for a pending request. *)
Definition create_request_checks (c : Ctx) (req : option RequestBody) : H (RequestBody * GrantDefinition * User) :=
  do! req := bound (bind request_required req) ("invalid request: " ++ rq_text e) in
  refuse! maxJustificationLen <? slen (rb_Justification req)
    with writeError StatusBadRequest ErrCodeValidationError "justification too long" in
  do! def := or_stop (query_grants (fun d => GetGrantDefinition (rq_sql e 10) d (rb_GrantDefinitionID req)))
               (fun err => match err with
                           | ErrGrantDefinitionNotFound =>
                               writeError StatusBadRequest ErrCodeValidationError "grant_definition_id does not exist"
                           | _ => writeInternalError
                           end) in
  refuse! negb (gd_IsActive def) with writeError StatusBadRequest ErrCodeValidationError "grant definition is not active" in
  refuse! gd_AutoApprove def && String.eqb (rb_Justification req) ""
    with writeError StatusBadRequest ErrCodeValidationError "justification is required for auto-approved grant definitions" in
  do! currentUser := deref (cx_user c) in
  do! _ := enforceRequestScope def currentUser (rb_DatabaseID req) in
  do! _ := reject_ssh (rb_DatabaseID req) "cannot request access to an ssh server" in
  do! pending := or_stop (query_grants (fun d => HasPendingRequest (rq_sql e 12) d (u_UID currentUser)
                                                  (rb_GrantDefinitionID req) (rb_DatabaseID req)))
                   (fun _ => writeInternalError) in
  refuse! pending
    with writeError StatusConflict ErrCodeConflict "a pending request already exists for this database and definition" in
  hret (req, def, currentUser).

Definition create_request_writes (req : RequestBody) (def : GrantDefinition) (currentUser : User) : H Response :=
  do! created := or_stop (exec_grants (fun d => CreateGrantRequest (rq_sql e 13) d
                   {| gr_UID := Nil; gr_UserID := u_UID currentUser; gr_GrantDefinitionID := rb_GrantDefinitionID req;
                      gr_DatabaseID := rb_DatabaseID req; gr_Justification := rb_Justification req;
                      gr_Status := GrantRequestPending; gr_RequestedAt := 0; gr_DecidedAt := None; gr_DecidedBy := None;
                      gr_DecisionReason := None; gr_ResultingGrantID := None; gr_SlackChannel := None;
                      gr_SlackMessageTS := None |} (rq_uid e 1) (rq_now e 13))) (fun _ => writeInternalError) in
  do! _ := audit e 30 "grant_request.created" (Some (u_UID currentUser)) (Some (u_UID currentUser))
             (JsonObj [("database_id", json_uid (gr_DatabaseID created));
                       ("grant_definition_id", json_uid (gr_GrantDefinitionID created));
                       ("grant_request_uid", json_uid (gr_UID created))]) in
  if gd_AutoApprove def then
    do! outcome := autoApproveGrantRequest created currentUser in
    match outcome with
    | Ok (_, updated) => hret (successResponse (BRequest updated))
    | Err _ =>
        do! _ := notify created GrantActionCreated None in
        hret (successResponse (BRequest created))
    | Panic => stop recovered
    end
  else
    do! _ := notify created GrantActionCreated None in
    hret (successResponse (BRequest created)).

Definition handleCreateGrantRequest (c : Ctx) (req : option RequestBody) : H Response :=
  do! ' (req, def, currentUser) := create_request_checks c req in
  create_request_writes req def currentUser.

(** The query string; [status] is [None] when absent, and a status that is none
    of the five selects nothing. *)
Record RequestQuery := {
  rqq_UserID : option uuid;
  rqq_Status : option GrantRequestStatus;
  rqq_DatabaseID : option uuid
}.

Definition handleListGrantRequests (c : Ctx) (q : RequestQuery) : H Response :=
  do! currentUser := deref (cx_user c) in
  let filter := {| rf_UserID := if negb (IsAdmin currentUser) then Some (u_UID currentUser) else rqq_UserID q;
                   rf_Status := rqq_Status q; rf_DatabaseID := rqq_DatabaseID q; rf_Limit := 0; rf_Offset := 0 |} in
  do! requests := or_stop (query_grants (fun d => ListGrantRequests (rq_sql e 10) d filter)) (fun _ => writeInternalError) in
  hret (successResponse (BRequests requests)).

Definition request_error (err : store_error) : Response :=
  match err with
  | ErrGrantRequestNotFound => writeError StatusNotFound ErrCodeNotFound "grant request not found"
  | _ => writeInternalError
  end.

Definition own_request (c : Ctx) (uid : uuid) (message : string) : H (GrantRequest * User) :=
  do! req := or_stop (query_grants (fun d => GetGrantRequest (rq_sql e 10) d uid)) request_error in
  do! currentUser := deref (cx_user c) in
  refuse! negb (IsAdmin currentUser) && negb (N.eqb (gr_UserID req) (u_UID currentUser))
    with writeError StatusForbidden ErrCodeForbidden message in
  hret (req, currentUser).

Definition handleGetGrantRequest (c : Ctx) (param : option uuid) : H Response :=
  do! uid := bound param "invalid grant request UID" in
  do! ' (req, _) := own_request c uid "no access to this grant request" in
  hret (successResponse (BRequest req)).

(** A lookup that fails, for whatever reason, leaves the verdict to the store. *)
Definition checkRequestInScope (uid : uuid) : DH unit :=
  do! request := query_grants (fun d => GetGrantRequest (rq_sql e 11) d uid) in
  match request with
  | Ok request =>
      do! def := query_grants (fun d => GetGrantDefinition (rq_sql e 12) d (gr_GrantDefinitionID request)) in
      match def with
      | Ok def =>
          do! groupUIDs := query (fun d => ListUserGroupUIDs (rq_sql e 13) d (gr_UserID request)) in
          match groupUIDs with
          | Ok groupUIDs =>
              if AppliesTo def groupUIDs (gr_DatabaseID request) then hret (Ok tt) else hret (Err ErrRequestOutOfScope)
          | Err err => hret (Err (DErrAccounts err))
          | Panic => hret Panic
          end
      | Err _ => hret (Ok tt)
      | Panic => hret Panic
      end
  | Err _ => hret (Ok tt)
  | Panic => hret Panic
  end.

(** The rest of an approval, the scope check done. *)
Definition approve_writes (uid : uuid) (decider : User) (source : decisionSource) : DH (AccessGrant * GrantRequest) :=
  do! r := lift_store (exec_grants (fun d => ApproveGrantRequest (rq_sql e 14) d uid (u_UID decider) (rq_uid e 2)
                                               (rq_now e 14) (rq_now e 15))) in
  match r with
  | Ok (grant, request) =>
      do! _ := audit e 30 "grant_request.approved" (Some (gr_UserID request)) (Some (u_UID decider))
                 (decisionDetails (details_of request grant) source) in
      do! _ := notify request GrantActionApproved (Some (u_UID decider)) in
      hret (Ok (grant, request))
  | Err err => hret (Err err)
  | Panic => hret Panic
  end.

Definition approveGrantRequest (uid : uuid) (decider : User) (source : decisionSource) : DH (AccessGrant * GrantRequest) :=
  do! r := checkRequestInScope uid in
  match r with
  | Ok _ => approve_writes uid decider source
  | Err err => hret (Err err)
  | Panic => hret Panic
  end.

Definition denyGrantRequest (uid : uuid) (decider : User) (reason : string) (source : decisionSource) : DH GrantRequest :=
  do! r := lift_store (exec_grants (fun d => DenyGrantRequest (rq_sql e 14) d uid (u_UID decider) reason (rq_now e 14))) in
  match r with
  | Ok updated =>
      do! _ := audit e 30 "grant_request.denied" (Some (gr_UserID updated)) (Some (u_UID decider))
                 (decisionDetails [("grant_request_uid", json_uid (gr_UID updated)); ("reason", JsonStr reason)] source) in
      do! _ := notify updated GrantActionDenied (Some (u_UID decider)) in
      hret (Ok updated)
  | Err err => hret (Err err)
  | Panic => hret Panic
  end.

Definition decision_response (err : decision_error) : Response :=
  match err with
  | DErrStore ErrGrantRequestNotFound => writeError StatusNotFound ErrCodeNotFound "grant request not found"
  | DErrStore ErrInvalidTransition => writeError StatusConflict ErrCodeConflict "grant request is not pending"
  | DErrStore ErrDefinitionInactive => writeError StatusConflict ErrCodeConflict "grant definition is no longer active"
  | ErrRequestOutOfScope =>
      writeError StatusConflict ErrCodeConflict "the grant definition's scope no longer covers this user or database"
  | _ => writeInternalError
  end.

(** The routes of the two decisions require an administrator: there is a user. *)
Definition handleApproveGrantRequest (c : Ctx) (param : option uuid) : H Response :=
  do! uid := bound param "invalid grant request UID" in
  do! currentUser := deref (cx_user c) in
  do! ' (grant, request) := or_stop (approveGrantRequest uid currentUser decisionSourceWeb) decision_response in
  hret (successResponse (BApproved request grant)).

Definition handleDenyGrantRequest (c : Ctx) (param : option uuid) (reason : string) : H Response :=
  do! uid := bound param "invalid grant request UID" in
  do! currentUser := deref (cx_user c) in
  do! updated := or_stop (denyGrantRequest uid currentUser reason decisionSourceWeb) decision_response in
  hret (successResponse (BRequest updated)).

Definition handleCancelGrantRequest (c : Ctx) (param : option uuid) : H Response :=
  do! uid := bound param "invalid grant request UID" in
  do! ' (_, currentUser) := own_request c uid "only the requester or an admin can cancel" in
  do! updated := or_stop (exec_grants (fun d => CancelGrantRequest (rq_sql e 14) d uid (u_UID currentUser) (rq_now e 14)))
                   (fun err => match err with
                               | ErrInvalidTransition => writeError StatusConflict ErrCodeConflict "grant request is not pending"
                               | _ => writeInternalError
                               end) in
  do! _ := audit e 30 "grant_request.cancelled" (Some (gr_UserID updated)) (Some (u_UID currentUser))
             (JsonObj [("grant_request_uid", json_uid (gr_UID updated))]) in
  do! _ := notify updated GrantActionCancelled (Some (u_UID currentUser)) in
  hret (successResponse (BRequest updated)).
End Grants.
