(* ===== verification/ApiSafety.v ===== *)
(** * What a request without the admin role can do

    [confined U]: the relation between the server before and after a request of
    a user [U] who is no administrator.  Everyone else's rows, the shared tables
    and the caller's own name, roles and memberships are as they were; what is
    new is his: his keys, his requests, his decisions, his audit events, and the
    grants of auto-approved definitions that apply to his groups. *)

From Stdlib Require Import ZArith Lia List Bool String Ascii.
From stdpp Require Import base list gmap strings relations.
From S2P Require Import Prelude GoStrings Encoding Models Revocation RateLimit AuthCache GrantStore Crypto Accounts ApiKeys AccountSafety AccountTheorems Servers LoginTracker Endpoints ApiBase ApiAuth ApiUsers ApiDevice ApiGroups ApiGrants ApiRoutes.

Open Scope string_scope.
Open Scope Z_scope.
Open Scope api_scope.

(** ** The account tables *)

(** What an administrator decides about an account. *)
Definition account_of (u : User) := (u_UID u, u_Username u, u_Roles u, u_RateLimitExempt u, u_CreatedAt u, u_DeletedAt u).

Definition by_self (U : uuid) (ev : AuditLog) : Prop :=
  al_PerformedBy ev = Some U \/ (al_PerformedBy ev = None /\ al_UserID ev = Some U).

(** A pending device authorization the user has decided. *)
Definition decided_by (U : uuid) (st st' : OAuthState) : Prop :=
  exists m, st' = with_meta st m /\ is_pending st = true /\ dm_UserID m = Some U /\ dm_Status m <> DeviceAuthStatusPending.

Record acct_confined (U : uuid) (d d' : AcctDB) : Prop := {
  ac_users : forall uid, uid <> U -> users d' !! uid = users d !! uid;
  ac_self : account_of <$> users d' !! U = account_of <$> users d !! U;
  ac_identities : user_identities d' = user_identities d;
  ac_groups : user_groups d' = user_groups d;
  ac_members : user_group_members d' = user_group_members d;
  ac_keys : forall id k, k_UserID k <> U -> (api_keys d' !! id = Some k <-> api_keys d !! id = Some k);
  ac_states : forall id, oauth_states d' !! id = oauth_states d !! id \/
    exists st st', oauth_states d !! id = Some st /\ oauth_states d' !! id = Some st' /\ decided_by U st st';
  ac_audit : audit_log d ⊆ audit_log d';
  ac_new_audit : forall id ev, audit_log d' !! id = Some ev -> audit_log d !! id = Some ev \/ by_self U ev
}.

#[export] Instance acct_confined_preorder U : PreOrder (acct_confined U).
Proof.
  split.
  - intros d. split; try done; naive_solver.
  - intros d1 d2 d3 A B. split.
    + intros uid Hne. rewrite (ac_users _ _ _ B uid Hne). by apply A.
    + etransitivity; [apply B|apply A].
    + etransitivity; [apply B|apply A].
    + etransitivity; [apply B|apply A].
    + etransitivity; [apply B|apply A].
    + intros id k Hk. rewrite (ac_keys _ _ _ B id k Hk). by apply A.
    + intros id. destruct (ac_states _ _ _ B id) as [->|(su & su' & F1 & F2 & Hb)]; [by apply A|].
      destruct (ac_states _ _ _ A id) as [<-|(st & st' & E1 & E2 & Ha)]; [right; eauto|].
      rewrite E2 in F1. injection F1 as <-. destruct Ha as (m & -> & _ & _ & Hm), Hb as (m' & _ & Hp & _).
      cbn in Hp. by apply String.eqb_eq in Hp.
    + etransitivity; [apply A|apply B].
    + intros id ev E. destruct (ac_new_audit _ _ _ B id ev E) as [E'|]; [|by right]. by apply A.
Qed.

Section Frames.
Context {C : Collation} {A2 : Argon2} {GCM : AEAD} {HS : Hashes} {UT : UUIDText} {SK : ScramKeys}.
Variable U : uuid.

Lemma confined_row d u u' :
  users d !! U = Some u -> account_of u' = account_of u -> acct_confined U d (set_users d (<[U := u']> (users d))).
Proof.
  intros E Ha. split; cbn; try done; try naive_solver.
  - intros uid Hne. by rewrite lookup_insert_ne.
  - by rewrite lookup_insert_eq, E; cbn; rewrite Ha.
Qed.

Lemma confined_new_key d k :
  api_keys d !! k_ID k = None -> k_UserID k = U -> acct_confined U d (set_keys d (<[k_ID k := k]> (api_keys d))).
Proof.
  intros E Hu. split; cbn; try done; try naive_solver.
  intros id k' Hk'. rewrite lookup_insert_Some. split; [|by right; split; [congruence|]].
  intros [[_ <-]|[_ H]]; [done|done].
Qed.

Lemma confined_key d id k k' :
  api_keys d !! id = Some k -> k_UserID k = U -> k_UserID k' = U ->
  acct_confined U d (set_keys d (<[id := k']> (api_keys d))).
Proof.
  intros E Hu Hu'. split; cbn; try done; try naive_solver.
  intros i x Hx. rewrite lookup_insert_Some. split.
  - intros [[_ <-]|[_ H]]; done.
  - intros H. right. split; [|done]. intros <-. congruence.
Qed.

Lemma confined_audit d k ev : audit_log d !! k = None -> by_self U ev -> acct_confined U d (set_audit d (<[k := ev]> (audit_log d))).
Proof.
  intros E Hb. split; cbn; try done; try naive_solver.
  - by apply insert_subseteq.
  - intros id e [[_ <-]|[_ H]]%lookup_insert_Some; [by right|by left].
Qed.

Lemma confined_state d k st st' :
  oauth_states d !! k = Some st -> decided_by U st st' -> acct_confined U d (set_states d (<[k := st']> (oauth_states d))).
Proof.
  intros E Hd. split; cbn; try done; try naive_solver.
  intros id. destruct (decide (k = id)) as [<-|]; [right; rewrite lookup_insert_eq|left; by rewrite lookup_insert_ne].
  by exists st, st'.
Qed.

(** The operations, applied to the caller. *)

Lemma UpdateUser_confined sql d up n n' : uu_Roles up = None -> acct_confined U d (UpdateUser sql d U up n n').1.
Proof.
  intros Hr. unfold UpdateUser. destruct (negb _); [done|]. destruct (live_user_at d U) as [u|] eqn:E; [|done].
  apply live_user_at_Some in E as [E _]. apply (confined_row d u); [done|]. unfold account_of; cbn. by rewrite Hr.
Qed.

Lemma SetUserMongoVerifier_confined sql d pw ek rnd nonces n :
  acct_confined U d (SetUserMongoVerifier sql d U pw ek rnd nonces n).1.
Proof.
  unfold SetUserMongoVerifier. repeat (case_match; try done).
  unfold persistUserMongoVerifier. destruct (negb _); [done|]. destruct (live_user_at d U) as [u|] eqn:E; [|done].
  destruct (sql 2%nat && sql 3%nat); [|done].
  apply live_user_at_Some in E as [E _]. by apply (confined_row d u).
Qed.

Lemma salts_confined sql d s1 s2 n : acct_confined U d (EnsureUserOracleSalts sql d U s1 s2 n).1.
Proof.
  unfold EnsureUserOracleSalts. destruct (ensure_salts_read sql d U) as [[u [o|]]|e|]; try done.
  unfold ensure_salts_write. destruct s1, s2; try done. destruct (negb _); [done|].
  unfold salts_cas. destruct (live_user_at d U) as [u'|] eqn:E; [|done].
  destruct (is_none _); [|done]. apply live_user_at_Some in E as [E _]. by apply (confined_row d u').
Qed.

Lemma insert_key_confined ok d k : k_UserID k = U -> acct_confined U d (insert_key ok d k).1.
Proof.
  intros Hu. unfold insert_key. destruct (_ && _ && _ && _) eqn:E; [|done]. rewrite !andb_true_iff in E.
  destruct E as [[[_ E] _] _]. apply confined_new_key; [|done]. by destruct (api_keys d !! k_ID k).
Qed.

Lemma store_o5_owner k plain ek s1 s2 us nonces k' :
  storeO5LogonVerifiers k plain ek s1 s2 us nonces = Ok k' -> k_UserID k' = k_UserID k.
Proof. unfold storeO5LogonVerifiers. by intros (v1 & _ & (v2 & _ & [= <-])%rbind_Ok)%rbind_Ok. Qed.

Lemma o5_owner k plain ek s1 s2 nonces k' :
  computeO5LogonVerifierWithSalts k plain ek s1 s2 nonces = Ok k' -> k_UserID k' = k_UserID k.
Proof. apply store_o5_owner. Qed.

Lemma o5_legacy_owner k plain ek r k' : computeO5LogonVerifier k plain ek r = Ok k' -> k_UserID k' = k_UserID k.
Proof.
  unfold computeO5LogonVerifier. intros ([s1 v1] & _ & ([s2 v2] & _ & E2)%rbind_Ok)%rbind_Ok.
  by apply store_o5_owner in E2.
Qed.

Lemma finish_key_confined sql d k plain ek r n : k_UserID k = U -> acct_confined U d (finish_key sql d k plain ek r n).1.
Proof.
  intros Hu. unfold finish_key. destruct ek as [[|b ek]|]; try by apply insert_key_confined.
  unfold attachO5LogonVerifiers. rewrite Hu.
  pose proof (salts_confined sql d (kr_user_salts r).1 (kr_user_salts r).2 n) as Hs.
  destruct (EnsureUserOracleSalts _ _ _ _ _ _) as [d' [o|e|]]; cbn [fst] in Hs; [| |done].
  - destruct (computeO5LogonVerifierWithSalts _ _ _ _ _ _) eqn:Ek; [|done..].
    apply o5_owner in Ek. etransitivity; [exact Hs|]. apply insert_key_confined. congruence.
  - destruct (computeO5LogonVerifier _ _ _ _) eqn:Ek; [|done..].
    apply o5_legacy_owner in Ek. etransitivity; [exact Hs|]. apply insert_key_confined. congruence.
Qed.

Lemma CreateAPIKey_confined sql d name exp ek id r n : acct_confined U d (CreateAPIKey sql d U name exp ek id r n).1.
Proof.
  unfold CreateAPIKey. destruct (let! ' _ := _ in _) as [[[plain prefix] hash]|e|]; [|done..].
  pose proof (finish_key_confined sql d (new_key id U name hash prefix KeyTypeAPI exp n) plain ek r n eq_refl) as Hf.
  by destruct (finish_key _ _ _ _ _ _ _) as [d' [k|e|]].
Qed.

Lemma RevokeAPIKey_confined sql d id by_ n :
  (forall k, api_keys d !! id = Some k -> k_UserID k = U) -> acct_confined U d (RevokeAPIKey sql d id by_ n).1.
Proof.
  intros Hk. unfold RevokeAPIKey. destruct (negb _); [done|]. destruct (api_keys d !! id) as [k|] eqn:E; [|done].
  destruct (is_none _); [|done]. apply (confined_key d id k); [done|by apply Hk|cbn; by apply Hk].
Qed.

Lemma LogAuditEvent_confined sql d ev uid n : by_self U ev -> acct_confined U d (LogAuditEvent sql d ev uid n).1.
Proof.
  intros Hb. unfold LogAuditEvent. destruct (_ && _) eqn:E; [|done]. apply andb_true_iff in E as [_ E].
  apply confined_audit; [|done]. by destruct (audit_log d !! uid).
Qed.

Lemma Respond_confined sql d code ap ek kp n n' :
  acct_confined U d (RespondToDeviceAuthByUserCode sql d code U ap ek kp n n').1.
Proof.
  unfold RespondToDeviceAuthByUserCode. destruct (getDeviceAuthStateByUserCode _ _ _ _) as [[s m]|e|]; [|done..].
  destruct (String.eqb _ _); [|done]. unfold respond_update. destruct (negb _); [done|].
  destruct (oauth_states d !! os_UID s) as [st|] eqn:E; [|done].
  destruct (_ && _ && _) eqn:Ep; [|done]. apply andb_true_iff in Ep as [_ Ep].
  apply (confined_state d _ st); [done|]. eexists. repeat split; [done|]. cbn. by destruct ap.
Qed.
End Frames.

(** ** The access tables *)

(** A grant an auto-approved definition gives: every term is the definition's. *)
Definition auto_grant (U : uuid) (groups : list uuid) (d : DB) (g : AccessGrant) : Prop :=
  g_UserID g = U /\ g_GrantedBy g = U /\
  exists did def, grant_definitions d !! did = Some def /\ gd_IsActive def = true /\ gd_AutoApprove def = true /\
    AppliesTo def groups (g_DatabaseID g) = true /\
    g_Controls g = gd_Controls def /\ g_MaxQueryCounts g = gd_MaxQueryCounts def /\
    g_MaxBytesTransferred g = gd_MaxBytesTransferred def /\
    g_ExpiresAt g = g_StartsAt g + i64 (gd_DurationSeconds def * Second).

Record grants_confined (U : uuid) (groups : list uuid) (d d' : DB) : Prop := {
  gc_definitions : grant_definitions d' = grant_definitions d;
  gc_connections : connections d' = connections d;
  gc_queries : queries d' = queries d;
  gc_grants : access_grants d ⊆ access_grants d';
  gc_new : forall id g, access_grants d' !! id = Some g -> access_grants d !! id = Some g \/ auto_grant U groups d g;
  gc_requests : forall id r, gr_UserID r <> U -> (grant_requests d' !! id = Some r <-> grant_requests d !! id = Some r)
}.

#[export] Instance grants_confined_preorder U groups : PreOrder (grants_confined U groups).
Proof.
  split.
  - intros d. split; try done; naive_solver.
  - intros d1 d2 d3 A B. split.
    + etransitivity; [apply B|apply A].
    + etransitivity; [apply B|apply A].
    + etransitivity; [apply B|apply A].
    + etransitivity; [apply A|apply B].
    + intros id g E. destruct (gc_new _ _ _ _ B id g E) as [E'|Hg]; [by apply A|right].
      unfold auto_grant in *. by rewrite <- (gc_definitions _ _ _ _ A).
    + intros id r Hr. rewrite (gc_requests _ _ _ _ B id r Hr). by apply A.
Qed.

Section GrantFrames.
Variables (U : uuid) (groups : list uuid).
Abbreviation confined := (grants_confined U groups).

Lemma confined_request d k r :
  (forall old, grant_requests d !! k = Some old -> gr_UserID old = U) -> gr_UserID r = U ->
  confined d (set_requests d (<[k := r]> (grant_requests d))).
Proof.
  intros Hold Hr. split; cbn; try done; try naive_solver.
  intros id x Hx. rewrite lookup_insert_Some. split.
  - intros [[_ <-]|[_ H]]; done.
  - intros H. right. split; [|done]. intros <-. by apply Hx, Hold.
Qed.

Lemma CreateGrantRequest_confined sql d req uid n :
  gr_UserID req = U -> confined d (CreateGrantRequest sql d req uid n).1.
Proof.
  intros Hr. unfold CreateGrantRequest. destruct (_ || _) eqn:E; [done|]. apply orb_false_iff in E as [_ E].
  apply bool_decide_eq_false, eq_None_not_Some in E. apply confined_request; [|done]. by rewrite E.
Qed.

Lemma transition_confined sql d uid target by_ reason n :
  (forall r, grant_requests d !! uid = Some r -> gr_UserID r = U) ->
  confined d (transition sql d uid target by_ reason n).1.
Proof.
  intros Ho. unfold transition, RunInTx, transition_body. destruct (negb (sql 0%nat)); [done|].
  destruct (grant_requests d !! uid) as [r|] eqn:E; [|done]. destruct (negb _); [done|].
  destruct (negb (sql 1%nat)); [done|]. destruct (sql 2%nat); [|done].
  apply confined_request; [intros old Ho'|cbn; by apply Ho]. apply Ho. congruence.
Qed.

(** Auto-approval: the definition of the request is what makes the grant. *)
Lemma AutoApprove_confined sql d uid gid n n' req def :
  grant_requests d !! uid = Some req -> gr_UserID req = U ->
  grant_definitions d !! gr_GrantDefinitionID req = Some def -> gd_AutoApprove def = true ->
  AppliesTo def groups (gr_DatabaseID req) = true ->
  confined d (AutoApproveGrantRequest sql d uid U gid n n').1.
Proof.
  intros Er Hu Ed Ha Happ. unfold AutoApproveGrantRequest, approveGrantRequestTx, RunInTx, approve_body.
  destruct (negb (sql 0%nat)); [done|]. rewrite Er. destruct (negb _); [done|]. destruct (negb (sql 1%nat)); [done|].
  rewrite Ed. destruct (gd_IsActive def) eqn:Eact; cbn [negb]; [|done]. destruct (negb (sql 2%nat)); [done|].
  unfold insert_grant. destruct (_ && _) eqn:Ei; [|done]. apply andb_true_iff in Ei as [_ Ei].
  apply negb_true_iff, bool_decide_eq_false, eq_None_not_Some in Ei.
  destruct (negb (sql 3%nat)); [done|]. destruct (sql 4%nat); [|done]. cbn [fst].
  set (g := inserted_grant _ _ _).
  transitivity (set_grants d (<[gid := g]> (access_grants d))).
  - split; cbn; try done; try naive_solver; [by apply insert_subseteq|].
    intros id g' [[_ <-]|[_ H]]%lookup_insert_Some; [right|by left].
    split; [done|]. split; [done|]. exists (gr_GrantDefinitionID req), def. by repeat split.
  - apply confined_request; [|done]. cbn. intros old Ho. congruence.
Qed.
End GrantFrames.

(** ** The whole server *)

Record confined (U : uuid) (s s' : ApiState) : Prop := {
  cf_accounts : acct_confined U (a_db s) (a_db s');
  cf_grants : grants_confined U (groups_of (a_db s) U) (a_grants s) (a_grants s');
  cf_servers : a_servers s' = a_servers s;
  cf_params : a_params s' = a_params s;
  cf_registry : a_registry s' = a_registry s
}.

Lemma same_groups U d d' : acct_confined U d d' -> groups_of d' U = groups_of d U.
Proof. intros H. unfold groups_of. by rewrite (ac_members _ _ _ H). Qed.

#[export] Instance confined_preorder U : PreOrder (confined U).
Proof.
  split.
  - intros s. by split.
  - intros s1 s2 s3 A B. split.
    + etransitivity; [apply A|apply B].
    + etransitivity; [apply A|]. rewrite <- (same_groups U _ _ (cf_accounts _ _ _ A)). apply B.
    + etransitivity; [apply B|apply A].
    + etransitivity; [apply B|apply A].
    + etransitivity; [apply B|apply A].
Qed.

#[export] Instance confined_passive U : Passive (confined U).
Proof. intros s s' [E1 E2 E3 E4 E5]. split; [by rewrite E1|by rewrite E2|done..]. Qed.

(** What the middleware put in the context is in the tables. *)
Record ctx_ok (s : ApiState) (c : Ctx) : Prop := {
  cx_live : forall u, cx_user c = Some u -> live_user_at (a_db s) (u_UID u) = Some u;
  cx_owner : forall k, cx_key c = Some k ->
    exists u, cx_user c = Some u /\ api_keys (a_db s) !! k_ID k = Some k /\ k_UserID k = u_UID u
}.

Section Confinement.
Context {C : Collation} {A2 : Argon2} {GCM : AEAD} {HS : Hashes} {dig : Digest} {order : MapOrder}
  {UT : UUIDText} {SK : ScramKeys} {TT : TimeText}.
Variables (cfg : ApiConfig) (e : ReqEnv).

Section Caller.
Variables (s0 : ApiState) (c : Ctx) (me : User).
Hypotheses (Hc : ctx_ok s0 c) (Hme : cx_user c = Some me) (Hrole : IsAdmin me = false).
Abbreviation U := (u_UID me).
Abbreviation I := (confined U s0).

Lemma passing {A} (m : H A) : steps (confined U) m -> keeps I m (fun _ => True).
Proof. apply keeps_steps. intros s s' H1 H2. by etransitivity. Qed.

Lemma keeps_exec {A} (f : AcctDB -> ares A) (V : res acct_error A -> Prop) :
  (forall s, I s -> acct_confined U (a_db s) (f (a_db s)).1 /\ V (f (a_db s)).2) -> keeps I (exec f) V.
Proof.
  intros Hf s Hs. unfold exec. specialize (Hf s Hs). destruct (f (a_db s)) as [d r]. destruct Hf as [Hd HV].
  split; [|done]. etransitivity; [exact Hs|]. by split.
Qed.

Lemma keeps_exec_any {A} (f : AcctDB -> ares A) :
  (forall s, I s -> acct_confined U (a_db s) (f (a_db s)).1) -> keeps I (exec f) (fun _ => True).
Proof. intros Hf. apply keeps_exec. intros s Hs. split; [by apply Hf|done]. Qed.

Lemma keeps_ignore {E A} (m : H (res E A)) : keeps I m (fun _ => True) -> keeps I (ignore m) (fun _ => True).
Proof. intros Hm. eapply keeps_bind; [exact Hm|]. intros [a|x|] _; [apply keeps_ret|apply keeps_ret|apply keeps_stop]; done. Qed.

Lemma keeps_or_stop_any {E A} (m : H (res E A)) r : keeps I m (fun _ => True) -> keeps I (or_stop m r) (fun _ => True).
Proof. intros Hm. apply keeps_or_stop. eapply keeps_weaken; [exact Hm|]. done. Qed.

Lemma audit_keeps site ev u d : keeps I (audit e site ev u (Some U) d) (fun _ => True).
Proof.
  unfold audit. apply keeps_ignore, keeps_exec_any. intros s _. apply LogAuditEvent_confined. by left.
Qed.

Lemma auto_audit_keeps site ev d : keeps I (audit e site ev (Some U) None d) (fun _ => True).
Proof.
  unfold audit. apply keeps_ignore, keeps_exec_any. intros s _. apply LogAuditEvent_confined. by right.
Qed.

(** A key or a request that was the caller's, or did not exist, still is not
    somebody else's. *)
Lemma own_key s id k : I s -> (forall k0, api_keys (a_db s0) !! id = Some k0 -> k_UserID k0 = U) ->
  api_keys (a_db s) !! id = Some k -> k_UserID k = U.
Proof.
  intros Hs Ho E. destruct (decide (k_UserID k = U)) as [|Hne]; [done|].
  apply Ho, (ac_keys _ _ _ (cf_accounts _ _ _ Hs) id k); done.
Qed.

Lemma own_key_before s id k k0 : I s -> api_keys (a_db s) !! id = Some k -> k_UserID k = U ->
  api_keys (a_db s0) !! id = Some k0 -> k_UserID k0 = U.
Proof.
  intros Hs E Ho E0. destruct (decide (k_UserID k0 = U)) as [|Hne]; [done|].
  apply (ac_keys _ _ _ (cf_accounts _ _ _ Hs) id k0) in E0; [congruence|done].
Qed.

Lemma own_request_now s id r : I s -> (forall r0, grant_requests (a_grants s0) !! id = Some r0 -> gr_UserID r0 = U) ->
  grant_requests (a_grants s) !! id = Some r -> gr_UserID r = U.
Proof.
  intros Hs Ho E. destruct (decide (gr_UserID r = U)) as [|Hne]; [done|].
  apply Ho, (gc_requests _ _ _ _ (cf_grants _ _ _ Hs) id r); done.
Qed.

Lemma own_request_before s id r r0 : I s -> grant_requests (a_grants s) !! id = Some r -> gr_UserID r = U ->
  grant_requests (a_grants s0) !! id = Some r0 -> gr_UserID r0 = U.
Proof.
  intros Hs E Ho E0. destruct (decide (gr_UserID r0 = U)) as [|Hne]; [done|].
  apply (gc_requests _ _ _ _ (cf_grants _ _ _ Hs) id r0) in E0; [congruence|done].
Qed.

(** *** The handlers that write *)

Lemma caller : keeps I (deref (cx_user c)) (fun u => u = me).
Proof using Hme. apply keeps_deref. intros a Ha. congruence. Qed.

Ltac pass := apply keeps_then; [first [apply passing; solve [walk] | apply audit_keeps]|intros ?].
Ltac done_ := by apply keeps_ret.

Lemma logout_keeps : keeps I (handleLogout e c) (fun _ => True).
Proof using Hc Hme.
  unfold handleLogout. destruct (cx_key c) as [k|] eqn:Ek; [|done_]. rewrite Hme.
  apply keeps_then; [|intros _; done_]. apply keeps_ignore, keeps_exec_any. intros s Hs.
  apply RevokeAPIKey_confined. intros k'. apply own_key; [done|]. intros k0 E0.
  destruct (cx_owner _ _ Hc k Ek) as (u & Hu & E & Ho). congruence.
Qed.

Lemma consent_key_keeps r approve : keeps I (consent_key cfg e me r approve) (fun _ => True).
Proof.
  unfold consent_key. destruct (negb approve); [done_|].
  apply keeps_then; [|intros [k plain]; pass; done_].
  apply keeps_or_stop_any, keeps_exec_any. intros s _. apply CreateAPIKey_confined.
Qed.

Lemma consent_keeps req : keeps I (handleDeviceConsent cfg e c req) (fun _ => True).
Proof using Hme.
  unfold handleDeviceConsent. do 3 pass. apply keeps_if; intros _; [apply keeps_stop|].
  eapply keeps_bind; [apply caller|]. intros ? ->.
  apply keeps_then; [apply consent_key_keeps|]. intros [ek kp].
  apply keeps_then; [|intros _; pass; done_].
  apply keeps_or_stop_any, keeps_exec_any. intros s _. apply Respond_confined.
Qed.

Lemma update_checks_learn param req :
  keeps I (update_user_checks cfg e c param req)
    (fun '(uid, req, cu) => uid = U /\ cu = me /\ up_Roles req = None /\ up_GroupUIDs req = None).
Proof using Hme Hrole.
  unfold update_user_checks. do 2 pass. apply keeps_if; intros _; [apply keeps_stop|]. pass.
  eapply keeps_bind; [apply caller|]. intros ? ->.
  apply keeps_bind with (V := fun _ => a = U /\ up_Roles a0 = None /\ up_GroupUIDs a0 = None).
  - unfold checkSelfUpdateAllowed. rewrite Hrole.
    do 3 (apply keeps_if; [intros _; apply keeps_stop|intros ?%negb_false_iff]).
    apply keeps_ret. split; [by apply N.eqb_eq|]. by destruct (up_Roles a0), (up_GroupUIDs a0).
  - intros _ (Hu & Hr & Hg). do 2 pass. by apply keeps_ret.
Qed.

Lemma verifier_keeps pw : keeps I (setMongoVerifier cfg e U pw) (fun _ => True).
Proof. unfold setMongoVerifier. apply keeps_ignore, keeps_exec_any. intros s _. apply SetUserMongoVerifier_confined. Qed.

Lemma update_keeps param req : keeps I (handleUpdateUser cfg e c param req) (fun _ => True).
Proof using Hme Hrole.
  unfold handleUpdateUser. eapply keeps_bind; [apply update_checks_learn|].
  intros [[uid r] cu] (-> & -> & Hr & Hg). unfold update_user_writes. rewrite Hr, Hg. pass.
  apply keeps_then; [|intros _].
  - apply keeps_or_stop_any, keeps_exec_any. intros s _. by apply UpdateUser_confined.
  - apply keeps_then; [done_|intros _].
    apply keeps_then; [destruct (up_Password r); [apply verifier_keeps|done_]|intros _].
    pass. apply keeps_then; [done_|intros _]. done_.
Qed.

Lemma create_key_keeps req : keeps I (handleCreateAPIKey cfg e c req) (fun _ => True).
Proof using Hme.
  unfold handleCreateAPIKey. pass. eapply keeps_bind; [apply caller|]. intros ? ->.
  apply keeps_then; [|intros [k plain]].
  - apply keeps_or_stop_any, keeps_exec_any. intros s _. apply CreateAPIKey_confined.
  - pass. apply keeps_then; [apply passing; walk|intros [conns tr]; done_].
Qed.

Lemma key_of_learn param :
  keeps I (key_of e c param)
    (fun '(id, cu, k) => cu = me /\ forall k0, api_keys (a_db s0) !! id = Some k0 -> k_UserID k0 = U).
Proof using Hme Hrole.
  unfold key_of. pass.
  apply keeps_bind with (V := fun k => k_UserID k = U -> forall k0, api_keys (a_db s0) !! a = Some k0 -> k_UserID k0 = U).
  - apply keeps_or_stop, keeps_query. intros s Hs k. unfold GetAPIKeyByID. destruct (rq_sql e 10 0%nat); [|done]. cbn.
    destruct (api_keys (a_db s) !! a) as [k'|] eqn:E; [|done]. intros [= <-] Ho k0. by apply (own_key_before s a k').
  - intros k Hk. eapply keeps_bind; [apply caller|]. intros ? ->. rewrite Hrole.
    apply keeps_if; [intros _; apply keeps_stop|]. cbn [negb andb]. intros Ho%negb_false_iff%N.eqb_eq.
    apply keeps_ret. split; [done|by apply Hk].
Qed.

Lemma revoke_key_keeps param : keeps I (handleRevokeAPIKey e c param) (fun _ => True).
Proof using Hme Hrole.
  unfold handleRevokeAPIKey. eapply keeps_bind; [apply key_of_learn|].
  intros [[id cu] k] (-> & Ho). apply keeps_then; [|intros _; pass; done_].
  apply keeps_or_stop_any, keeps_exec_any. intros s Hs. apply RevokeAPIKey_confined.
  intros k'. by apply own_key.
Qed.

Lemma keeps_exec_grants {A} (f : DB -> dbres A) (V : res store_error A -> Prop) :
  (forall s, I s -> grants_confined U (groups_of (a_db s0) U) (a_grants s) (f (a_grants s)).1 /\ V (f (a_grants s)).2) ->
  keeps I (exec_grants f) V.
Proof.
  intros Hf s Hs. unfold exec_grants. specialize (Hf s Hs). destruct (f (a_grants s)) as [d r]. destruct Hf as [Hd HV].
  split; [|done]. etransitivity; [exact Hs|]. split; cbn; try done.
  by rewrite (same_groups U _ _ (cf_accounts _ _ _ Hs)).
Qed.

Lemma cancel_keeps param : keeps I (handleCancelGrantRequest e c param) (fun _ => True).
Proof using Hme Hrole.
  unfold handleCancelGrantRequest. pass.
  apply keeps_bind with (V := fun '(_, cu) =>
    cu = me /\ forall r, grant_requests (a_grants s0) !! a = Some r -> gr_UserID r = U).
  - unfold own_request.
    apply keeps_bind with (V := fun r => gr_UserID r = U -> forall r0, grant_requests (a_grants s0) !! a = Some r0 -> gr_UserID r0 = U).
    + apply keeps_or_stop, keeps_query_grants. intros s Hs r. unfold GetGrantRequest.
      destruct (rq_sql e 10 0%nat); [|done]. cbn. destruct (grant_requests _ !! a) as [r'|] eqn:E; [|done].
      intros [= <-] Ho r0. by apply (own_request_before s a r').
    + intros r Hr. eapply keeps_bind; [apply caller|]. intros ? ->. rewrite Hrole.
      apply keeps_if; [intros _; apply keeps_stop|]. cbn [negb andb]. intros Ho%negb_false_iff%N.eqb_eq.
      apply keeps_ret. split; [done|by apply Hr].
  - intros [r cu] [-> Ho]. apply keeps_then; [|intros upd; do 2 pass; done_].
    apply keeps_or_stop_any, keeps_exec_grants. intros s Hs. split; [|done].
    apply transition_confined. intros r'. by apply own_request_now.
Qed.

(** The scope check of a new request. *)
Definition in_scope (req : RequestBody) (def : GrantDefinition) : Prop :=
  grant_definitions (a_grants s0) !! rb_GrantDefinitionID req = Some def /\
  AppliesTo def (groups_of (a_db s0) U) (rb_DatabaseID req) = true.

Lemma request_checks_learn req :
  keeps I (create_request_checks e c req) (fun '(req, def, cu) => cu = me /\ in_scope req def).
Proof using Hme.
  unfold create_request_checks. pass. apply keeps_if; intros _; [apply keeps_stop|].
  apply keeps_bind with (V := fun def => grant_definitions (a_grants s0) !! rb_GrantDefinitionID a = Some def).
  - apply keeps_or_stop, keeps_query_grants. intros s Hs def. unfold GetGrantDefinition.
    destruct (rq_sql e 10 0%nat); [|done]. cbn. rewrite (gc_definitions _ _ _ _ (cf_grants _ _ _ Hs)).
    destruct (grant_definitions _ !! _); [|done]. by intros [= <-].
  - intros def Hdef. do 2 (apply keeps_if; intros _; [apply keeps_stop|]).
    eapply keeps_bind; [apply caller|]. intros ? ->.
    apply keeps_bind with (V := fun _ => AppliesTo def (groups_of (a_db s0) U) (rb_DatabaseID a) = true).
    + unfold enforceRequestScope. apply keeps_bind with (V := fun gs => gs = groups_of (a_db s0) U).
      * apply keeps_or_stop, keeps_query. intros s Hs gs. unfold ListUserGroupUIDs.
        destruct (rq_sql e 11 0%nat); [|done]. cbn. intros [= <-]. apply same_groups, Hs.
      * intros gs ->. do 2 (apply keeps_if; [intros _; apply keeps_stop|intros ?%negb_false_iff]).
        apply keeps_ret. by apply andb_true_iff.
    + intros _ Happ. do 2 pass. apply keeps_if; intros _; [apply keeps_stop|]. by apply keeps_ret.
Qed.

(** With the request it has just created, still as it was. *)
Definition holding (r : GrantRequest) (s : ApiState) : Prop :=
  I s /\ grant_requests (a_grants s) !! gr_UID r = Some r.

Lemma auto_keeps r req def :
  in_scope req def -> gd_AutoApprove def = true -> gr_UserID r = U ->
  gr_GrantDefinitionID r = rb_GrantDefinitionID req -> gr_DatabaseID r = rb_DatabaseID req ->
  triple (holding r) (autoApproveGrantRequest e r me) (fun _ s => I s /\ True) I.
Proof.
  intros [Hdef Happ] Hauto Hu Hd Hdb. unfold autoApproveGrantRequest, lift_store.
  pose (V := fun (x : res decision_error (AccessGrant * GrantRequest)) =>
    match x with Ok (_, upd) => gr_UserID upd = U | _ => True end).
  apply triple_bind with (Q := fun x s => I s /\ V x).
  - apply triple_bind with (Q := fun x s => I s /\ match x with Ok (_, upd) => gr_UserID upd = U | _ => True end).
    + intros s [Hs Er]. unfold exec_grants.
      assert (Hconf : grants_confined U (groups_of (a_db s0) U) (a_grants s)
        (AutoApproveGrantRequest (rq_sql e 15) (a_grants s) (gr_UID r) U (rq_uid e 2) (rq_now e 15) (rq_now e 16)).1).
      { eapply AutoApprove_confined; try done; [|by rewrite Hdb].
        by rewrite (gc_definitions _ _ _ _ (cf_grants _ _ _ Hs)), Hd. }
      pose proof (approve_cases (rq_sql e 15) (a_grants s) (gr_UID r) None U (rq_uid e 2) (rq_now e 15) (rq_now e 16)) as Hcase.
      unfold AutoApproveGrantRequest in *. destruct (approveGrantRequestTx _ _ _ _ _ _ _ _) as [d' x].
      split; [etransitivity; [exact Hs|]; split; cbn; try done; by rewrite (same_groups U _ _ (cf_accounts _ _ _ Hs))|].
      destruct x as [[g upd]|err|]; [|done..]. cbn in Hcase. destruct Hcase as (q & dq & Eq & _ & _ & _ & _ & _ & -> & _).
      cbn. congruence.
    + intros [[g upd]|err|] s Hs; exact Hs.
  - intros x. apply (triple_keeps _ I _ (fun _ => True)). intros s [Hs HV]. split; [done|].
    destruct x as [[g upd]|err|]; [|done_..]. cbn in HV. rewrite HV.
    apply keeps_then; [apply auto_audit_keeps|intros _]. pass. done_.
Qed.

Lemma create_writes_keeps req def :
  in_scope req def -> keeps I (create_request_writes e req def me) (fun _ => True).
Proof.
  intros Hscope. unfold create_request_writes.
  pose (mine r := gr_UserID r = U /\ gr_GrantDefinitionID r = rb_GrantDefinitionID req /\ gr_DatabaseID r = rb_DatabaseID req).
  match goal with |- keeps _ ?m _ => change (triple I m (fun _ s => I s /\ True) I) end.
  apply triple_bind with (Q := fun r s => holding r s /\ mine r).
  - intros s Hs. unfold or_stop, catch, hbind, exec_grants. cbv beta.
    match goal with |- context [CreateGrantRequest ?q ?d ?r ?u ?n] =>
      pose proof (CreateGrantRequest_confined U (groups_of (a_db s) U) q d r u n eq_refl) as Hconf;
      destruct (CreateGrantRequest q d r u n) as [d' x] eqn:Ec end.
    assert (Hs' : I (put_grants s d')) by (etransitivity; [exact Hs|by split]).
    destruct x as [r|err|]; cbn -[put_grants]; [|done..].
    unfold CreateGrantRequest in Ec. destruct (_ || _); [done|]. injection Ec as <- <-.
    split; [split; [done|cbn; by rewrite lookup_insert_eq]|done].
  - intros r. apply triple_bind with (Q := fun _ s => holding r s /\ mine r).
    + intros s [[Hs Er] Hm].
      pose proof (audit_keeps 30%nat "grant_request.created" (Some U)
        (JsonObj [("database_id", json_uid (gr_DatabaseID r)); ("grant_definition_id", json_uid (gr_GrantDefinitionID r));
                  ("grant_request_uid", json_uid (gr_UID r))]) s Hs) as Ha.
      unfold audit, ignore, hbind, exec in *. destruct (LogAuditEvent _ _ _ _ _) as [d [x|err|]]; cbn in *; [| |done].
      all: destruct Ha as [Ha _]; split; [split; [exact Ha|exact Er]|exact Hm].
    + intros _. destruct (gd_AutoApprove def) eqn:Hauto.
      * apply triple_bind with (Q := fun _ s => I s /\ True).
        -- intros s [Hh (M1 & M2 & M3)]. by apply (auto_keeps r req def).
        -- intros x. apply (triple_keeps _ I _ (fun _ => True)). intros s [Hs _]. split; [done|].
           destruct x as [[g upd]|err|]; [done_| |apply keeps_stop]. pass. done_.
      * apply (triple_keeps _ I _ (fun _ => True)). intros s [[Hs _] _]. split; [done|]. pass. done_.
Qed.

Lemma request_keeps req : keeps I (handleCreateGrantRequest e c req) (fun _ => True).
Proof using Hme.
  unfold handleCreateGrantRequest. eapply keeps_bind; [apply request_checks_learn|].
  intros [[r def] cu] [-> Hscope]. by apply create_writes_keeps.
Qed.

Ltac reads := apply passing; open_handler; walk.

Lemma not_admin : keeps I (requireAdmin c) (fun _ => False).
Proof using Hme Hrole.
  unfold requireAdmin, requireRole. rewrite Hme. unfold IsAdmin in Hrole. rewrite Hrole. apply keeps_stop.
Qed.

(** Every endpoint. *)
Lemma handle_confined r : keeps I (serve_auth cfg e r c) (fun _ => True).
Proof using Hc Hme Hrole.
  unfold serve_auth.
  destruct r; cbn [guard handle];
    first [ eapply keeps_bind; [apply not_admin|intros _ []]
          | apply keeps_then; [reads|intros _] ].
  - apply logout_keeps.
  - reads.
  - reads.
  - apply consent_keeps.
  - reads.
  - reads.
  - apply update_keeps.
  - reads.
  - reads.
  - reads.
  - reads.
  - apply request_keeps.
  - reads.
  - reads.
  - apply cancel_keeps.
  - apply create_key_keeps.
  - reads.
  - reads.
  - apply revoke_key_keeps.
  - reads.
  - reads.
Qed.
End Caller.

(** *** Who the middleware lets in *)

Lemma VerifyAPIKey_row sql d cache plain n n' n'' k :
  acct_ok d -> (VerifyAPIKey sql d cache plain n n' n'').2 = Ok k -> api_keys d !! k_ID k = Some k.
Proof.
  intros Hok. unfold VerifyAPIKey. destruct (_ <? _); [done|].
  destruct (GetAPIKeyByPrefix _ _ _) as [k'|err|] eqn:E; [|done..].
  destruct (check_key _ _ _ _ _) as [cc v]. cbn [snd]. intros Hv.
  assert (k' = k) as <-.
  { destruct v as [[]|err|]; try done. destruct (negb (IsRevoked k')); [|done]. destruct (negb (IsExpired _ k')); [|done].
    by injection Hv. }
  unfold GetAPIKeyByPrefix in E. destruct (sql 0%nat); [|done]. cbn in E.
  destruct (List.find _ _) as [x|] eqn:Ef; [|done]. injection E as ->.
  apply find_rows_Some in Ef as (_ & id & Hid). by rewrite (keys_keyed d Hok id k' Hid).
Qed.

Lemma authenticated_learn s0 hdr :
  acct_ok (a_db s0) -> keeps (untouched s0) (authenticated cfg e hdr) (ctx_ok s0).
Proof.
  intros Hok.
  assert (Hpass : forall A (m : H A), steps untouched m -> keeps (untouched s0) m (fun _ => True)).
  { intros A m. apply keeps_steps. intros s s' H1 H2. by etransitivity. }
  unfold authenticated. eapply keeps_bind with (V := ctx_ok s0); [|intros c Hc].
  2: { apply keeps_then; [apply Hpass; unfold post_auth_limit; walk|intros _]. by apply keeps_ret. }
  unfold authMiddleware. destruct (HasPrefix _ _).
  - unfold handleBearerAuth.
    eapply keeps_bind with (V := fun k => api_keys (a_db s0) !! k_ID k = Some k).
    { apply keeps_or_stop. intros s Hs. unfold verify_api_key.
      destruct (VerifyAPIKey _ _ _ _ _ _ _) as [cc x] eqn:E. split; [by destruct Hs|].
      intros k ->. rewrite <- (un_db _ _ Hs). eapply VerifyAPIKey_row; [by rewrite (un_db _ _ Hs)|by rewrite E]. }
    intros k Hk. eapply keeps_bind with (V := fun u => live_user_at (a_db s0) (k_UserID k) = Some u).
    { apply keeps_or_stop, keeps_query. intros s Hs u. unfold GetUserByUID. destruct (rq_sql e 1 0%nat); [|done]. cbn.
      rewrite (un_db _ _ Hs). destruct (live_user_at _ _); [|done]. by intros [= <-]. }
    intros u Hu. pose proof (live_user_at_Some _ _ _ Hu) as [E El].
    assert (u_UID u = k_UserID k) as Eu by by apply (users_keyed _ Hok).
    apply keeps_then; [apply Hpass; walk|intros _]. apply keeps_ret. split; cbn.
    + intros u' [= <-]. by rewrite Eu.
    + intros k' [= <-]. by exists u.
  - unfold handleBasicAuth. destruct (ah_Basic hdr) as [[name pw]|]; [|apply keeps_stop].
    apply keeps_then; [apply Hpass; walk|intros _].
    eapply keeps_bind with (V := fun u => live_user_at (a_db s0) (u_UID u) = Some u).
    { apply keeps_catch.
      - apply keeps_query. intros s Hs u. unfold GetUserByUsername. destruct (rq_sql e 0 0%nat); [|done]. cbn.
        destruct (List.find _ _) as [x|] eqn:Ef; [|done]. intros [= <-].
        apply find_rows_Some in Ef as (Hf & id & Hid). rewrite (un_db _ _ Hs) in Hid.
        apply andb_true_iff in Hf as [Hl _]. unfold live_user_at.
        by rewrite (users_keyed _ Hok id x Hid), Hid, Hl.
      - intros err. unfold fail_login. apply keeps_then; [apply Hpass; walk|intros _; apply keeps_stop]. }
    intros u Hu. do 2 (apply keeps_then; [apply Hpass; walk|intros _]). apply keeps_ret. split; cbn; [|done].
    by intros u' [= <-].
Qed.

(** C17. A request of an authenticated user without the admin role leaves every other
    account, every group and membership, the grant definitions, the parameters, the
    servers, the live sessions, the other users' keys and requests and his own name
    and roles as they were; the only new grants are his own, with exactly the terms
    of an active auto-approved definition that applies to his groups and the
    database. *)
Theorem non_admin_confined hdr r s s1 c me :
  acct_ok (a_db s) -> authenticated cfg e hdr s = (s1, inl c) -> cx_user c = Some me -> IsAdmin me = false ->
  confined (u_UID me) s (run (serve cfg e (Authenticated hdr r)) s).1.
Proof.
  intros Hok Ha Hme Hrole.
  pose proof (authenticated_learn s hdr Hok s) as Hl. rewrite Ha in Hl.
  destruct Hl as [Hun Hc]; [by split|].
  unfold run. cbn [serve]. unfold hbind. rewrite Ha.
  pose proof (handle_confined s c me Hc Hme Hrole r s1 (confined_passive _ _ _ Hun)) as Hh.
  destruct (serve_auth cfg e r c s1) as [s2 [x|x]]; cbn; [by destruct Hh|done].
Qed.
End Confinement.

(** ** A sample server *)

Module ApiSample.
Export AccountTheorems.Sample.
#[export] Instance as_digest : Digest := Toy.toy_digest.
#[export] Instance as_order : MapOrder := Toy.toy_order.
#[export] Instance as_time : TimeText := {| MarshalTime t := FormatInt t |}.

Definition cfg : ApiConfig := {| ac_config := None; ac_encryptionKey := replicate 32 1 |}.
Definition env (now : time) (base : N) : ReqEnv :=
  {| rq_sql _ _ := true; rq_now _ := now; rq_uid i := (base + N.of_nat i)%N; rq_rnd _ := Some (replicate 12 7);
     rq_key := rnd; rq_text := "" |}.

Definition bob : uuid := 2%N.
Definition carol : uuid := 3%N.
Definition hash : string := match HashPassword (Some (replicate 16 9)) "secret" with Ok h => h | _ => "" end.

Definition make (d : AcctDB) (name : string) (roles : list string) (uid : uuid) : AcctDB :=
  (UpdateUser ok (CreateUser ok d name hash roles uid 10 10).1 uid
     {| uu_PasswordHash := Some hash; uu_Roles := None |} 11 11).1.
Definition staff : AcctDB :=
  make (make (make empty_accounts "alice" [RoleAdmin] alice) "bob" [RoleConnector] bob) "carol" [RoleAdmin; RoleViewer] carol.

Definition server (d : AcctDB) : ApiState :=
  {| a_db := d; a_grants := empty_db; a_servers := ∅; a_params := ∅;
     a_registry := {| w_flags := ∅; w_next := 0%nat; w_sessions := None |};
     a_tracker := ∅; a_cache := None; a_limiter := None; a_spawned := []; a_notified := [] |}.

Lemma make_reach d name roles uid : rtc acct_step empty_accounts d -> rtc acct_step empty_accounts (make d name roles uid).
Proof. intros H. eapply rtc_r; [eapply rtc_r; [exact H|apply st_create_user]|apply st_update_user]. Qed.
Lemma staff_ok : acct_ok staff.
Proof. by apply ok_of; repeat apply make_reach. Qed.

Definition basic (name : string) : AuthHeader := {| ah_Authorization := "Basic"; ah_Basic := Some (name, "secret") |}.

(** The value a computation goes on with. *)
Definition value_of {A} (x : ApiState * (A + Response)) : option A := match x with (_, inl a) => Some a | _ => None end.
Lemma value_of_inl {A} (x : ApiState * (A + Response)) a : value_of x = Some a -> exists s, x = (s, inl a).
Proof. destruct x as [s [b|r]]; cbn; [|done]. intros [= ->]. by exists s. Qed.
End ApiSample.

Import ApiSample.

Lemma non_admin_confined_witness :
  exists s1 c me, authenticated cfg (env 100 50) (basic "bob") (server staff) = (s1, inl c) /\ cx_user c = Some me /\
    u_UID me = bob /\
    confined bob (server staff)
      (run (serve cfg (env 100 50)
              (Authenticated (basic "bob") (PostKey (Some {| ck_Name := "ci"; ck_ExpiresAt := None |})))) (server staff)).1.
Proof.
  destruct (value_of (authenticated cfg (env 100 50) (basic "bob") (server staff))) as [c|] eqn:E; [|vm_compute in E; discriminate].
  pose proof E as E'. vm_compute in E'. injection E' as E'.
  apply value_of_inl in E as [s1 E].
  destruct (cx_user c) as [me|] eqn:Hme; [|rewrite <- E' in Hme; discriminate].
  exists s1, c, me. assert (u_UID me = bob) as Hu by (rewrite <- E' in Hme; cbn in Hme; by injection Hme as <-).
  split; [exact E|]. split; [exact Hme|]. split; [exact Hu|]. rewrite <- Hu.
  apply (non_admin_confined cfg (env 100 50) (basic "bob") _ (server staff) s1 c me staff_ok E Hme).
  rewrite <- E' in Hme. cbn in Hme. injection Hme as <-. reflexivity.
Defined.
