(* ===== verification/ApiAdmins.v ===== *)
(** * API keys and administrators

    What authenticating with an API key cannot do, and why an instance that
    serves its requests one after the other never loses its last administrator,
    while two requests at once can remove the last two. *)

From Stdlib Require Import ZArith Lia List Bool String Ascii.
From stdpp Require Import base list gmap strings relations.
From S2P Require Import Prelude GoStrings Encoding Models Revocation RateLimit AuthCache GrantStore Crypto Accounts ApiKeys AccountSafety AccountTheorems Servers LoginTracker Endpoints ApiBase ApiAuth ApiUsers ApiDevice ApiGroups ApiGrants ApiRoutes ApiSafety.

Open Scope string_scope.
Open Scope Z_scope.
Open Scope api_scope.

(** ** Frames *)

(** Groups and audit events leave accounts and credentials alone. *)
Record same_accounts (d d' : AcctDB) : Prop := {
  sa_users : users d' = users d;
  sa_keys : api_keys d' = api_keys d;
  sa_states : oauth_states d' = oauth_states d
}.

#[export] Instance same_accounts_preorder : PreOrder same_accounts.
Proof. split; [by intros d|]. intros d1 d2 d3 [] []. split; congruence. Qed.

Create HintDb accounts.

Section Same.
Context {C : Collation}.

Lemma insert_members_same sql pairs : forall i d, same_accounts d (insert_members sql i d pairs).1.
Proof.
  induction pairs as [|[g u] pairs IH]; intros i d; cbn [insert_members]; [done|].
  unfold insert_member. destruct (_ && _ && _); [|done]. etransitivity; [|apply IH]. by split.
Qed.
Lemma replace_members_same sql d kept pairs : same_accounts d (replace_members sql d kept pairs).1.
Proof.
  unfold replace_members, in_tx. destruct (negb (sql 0%nat)); [done|]. destruct (negb (sql 1%nat)); [done|].
  pose proof (insert_members_same sql pairs 2 (set_groups d (user_groups d) kept)) as H.
  destruct (insert_members _ _ _ _) as [d' [a|err|]]; try done. destruct (sql _); [|done].
  etransitivity; [|exact H]. by split.
Qed.
Lemma SetUserGroups_same sql d u gs : same_accounts d (SetUserGroups sql d u gs).1.
Proof. apply replace_members_same. Qed.
Lemma SetGroupMembers_same sql d g us : same_accounts d (SetGroupMembers sql d g us).1.
Proof. apply replace_members_same. Qed.
Lemma AddUserToGroup_same sql d g u : same_accounts d (AddUserToGroup sql d g u).1.
Proof. unfold AddUserToGroup, insert_member. by destruct (_ && _ && _). Qed.
Lemma RemoveUserFromGroup_same sql d g u : same_accounts d (RemoveUserFromGroup sql d g u).1.
Proof. unfold RemoveUserFromGroup. by destruct (sql 0%nat). Qed.
Lemma CreateUserGroup_same sql d g uid n : same_accounts d (CreateUserGroup sql d g uid n).1.
Proof. unfold CreateUserGroup. repeat (case_match; try done). Qed.
Lemma UpdateUserGroup_same sql d g : same_accounts d (UpdateUserGroup sql d g).1.
Proof. unfold UpdateUserGroup. repeat (case_match; try done). Qed.
Lemma DeleteUserGroup_same sql d uid : same_accounts d (DeleteUserGroup sql d uid).1.
Proof. unfold DeleteUserGroup. repeat (case_match; try done). Qed.
Lemma LogAuditEvent_same sql d ev uid n : same_accounts d (LogAuditEvent sql d ev uid n).1.
Proof. unfold LogAuditEvent. repeat (case_match; try done). Qed.
End Same.
#[export] Hint Resolve SetUserGroups_same SetGroupMembers_same AddUserToGroup_same RemoveUserFromGroup_same
  CreateUserGroup_same UpdateUserGroup_same DeleteUserGroup_same LogAuditEvent_same : accounts.

(** ** API keys *)

(** Only the key [id] may change, and only by being revoked; no account's
    password; no device authorization. *)
Record creds_frozen (id : uuid) (d d' : AcctDB) : Prop := {
  fz_keys : forall i, i <> id -> api_keys d' !! i = api_keys d !! i;
  fz_self : api_keys d' !! id = api_keys d !! id \/
    exists k now by_, api_keys d !! id = Some k /\ k_RevokedAt k = None /\ api_keys d' !! id = Some (revoked_key k now by_);
  fz_users : forall uid u, users d !! uid = Some u ->
    exists u', users d' !! uid = Some u' /\ u_PasswordHash u' = u_PasswordHash u /\ u_PasswordChangedAt u' = u_PasswordChangedAt u;
  fz_states : oauth_states d' = oauth_states d
}.

#[export] Instance creds_frozen_preorder id : PreOrder (creds_frozen id).
Proof.
  split.
  - intros d. split; eauto.
  - intros d1 d2 d3 [A1 A2 A3 A4] [B1 B2 B3 B4]. split.
    + intros i Hi. by rewrite B1, A1.
    + destruct B2 as [->|(k & n & b & E & Hr & ->)]; [done|]. destruct A2 as [<-|(k' & n' & b' & _ & _ & E')]; [right; eauto 6|].
      rewrite E' in E. by injection E as <-.
    + intros uid u E. destruct (A3 uid u E) as (u' & E' & H1 & H2). destruct (B3 uid u' E') as (u'' & E'' & H3 & H4).
      exists u''. split; [done|]. split; congruence.
    + congruence.
Qed.

Lemma frozen_same id d d' : same_accounts d d' -> creds_frozen id d d'.
Proof. intros [Hu Hk Hs]. split; [by rewrite Hk|left; by rewrite Hk|rewrite Hu; eauto|done]. Qed.

Lemma frozen_users id d m :
  (forall uid u, users d !! uid = Some u -> exists u', m !! uid = Some u' /\ u_PasswordHash u' = u_PasswordHash u /\
     u_PasswordChangedAt u' = u_PasswordChangedAt u) -> creds_frozen id d (set_users d m).
Proof. intros Hm. split; cbn; eauto. Qed.

Lemma CreateUser_frozen id sql d name hash roles uid n n' : creds_frozen id d (CreateUser sql d name hash roles uid n n').1.
Proof.
  unfold CreateUser. destruct (_ || _) eqn:E; [done|]. destruct (username_taken _ _); [done|]. cbn [fst].
  apply orb_false_iff in E as [_ E]. apply bool_decide_eq_false, eq_None_not_Some in E.
  apply frozen_users. intros k u Hk. exists u. by rewrite lookup_insert_ne by congruence.
Qed.

Lemma UpdateUser_frozen id sql d uid roles n n' :
  creds_frozen id d (UpdateUser sql d uid {| uu_PasswordHash := None; uu_Roles := roles |} n n').1.
Proof.
  unfold UpdateUser. destruct (negb _); [done|]. destruct (live_user_at d uid) as [u|] eqn:E; [|done]. cbn [fst].
  apply live_user_at_Some in E as [E _]. apply frozen_users. intros k x Hx.
  destruct (decide (uid = k)) as [->|]; [rewrite lookup_insert_eq; simplify_eq; eauto|rewrite lookup_insert_ne; eauto].
Qed.

Lemma DeleteUser_frozen id sql d uid n : creds_frozen id d (DeleteUser sql d uid n).1.
Proof.
  unfold DeleteUser, in_tx, delete_user_body. destruct (negb _); [done|]. destruct (negb _); [done|].
  destruct (live_user_at _ uid) as [u|] eqn:E; [|done]. destruct (sql 2%nat); [|done]. cbn [fst].
  apply live_user_at_Some in E as [E _]. cbn in E. split; cbn; eauto. intros k x Hx.
  destruct (decide (uid = k)) as [->|]; [rewrite lookup_insert_eq; simplify_eq; eauto|rewrite lookup_insert_ne; eauto].
Qed.

Lemma RevokeAPIKey_frozen id sql d by_ n : creds_frozen id d (RevokeAPIKey sql d id by_ n).1.
Proof.
  unfold RevokeAPIKey. destruct (negb _); [done|]. destruct (api_keys d !! id) as [k|] eqn:E; [|done].
  destruct (k_RevokedAt k) eqn:Hr; cbn; [done|]. split; cbn; eauto.
  - intros i Hi. by rewrite lookup_insert_ne.
  - right. rewrite lookup_insert_eq. eauto 8.
Qed.

Lemma verifier_frozen {GCM : AEAD} {UT : UUIDText} {SK : ScramKeys} id sql d uid pw ek rnd nonces n :
  creds_frozen id d (SetUserMongoVerifier sql d uid pw ek rnd nonces n).1.
Proof.
  unfold SetUserMongoVerifier. repeat (case_match; try done). unfold persistUserMongoVerifier.
  destruct (negb _); [done|]. destruct (live_user_at d uid) as [u|] eqn:E; [|done]. destruct (_ && _); [|done]. cbn [fst].
  apply live_user_at_Some in E as [E _]. apply frozen_users. intros k x Hx.
  destruct (decide (uid = k)) as [->|]; [rewrite lookup_insert_eq; simplify_eq; eauto|rewrite lookup_insert_ne; eauto].
Qed.

Section Frozen.
Context {C : Collation} {A2 : Argon2} {GCM : AEAD} {HS : Hashes} {dig : Digest} {order : MapOrder}
  {UT : UUIDText} {SK : ScramKeys} {TT : TimeText}.
Variables (cfg : ApiConfig) (e : ReqEnv).

Definition frozen (id : uuid) (s s' : ApiState) : Prop := creds_frozen id (a_db s) (a_db s').

#[local] Instance frozen_preorder id : PreOrder (frozen id).
Proof. split; [intros s; unfold frozen; reflexivity|]. unfold frozen. intros s1 s2 s3 H1 H2. by etransitivity. Qed.
#[local] Instance frozen_passive id : Passive (frozen id).
Proof. intros s s' [E _ _ _ _]. unfold frozen. by rewrite E. Qed.

Lemma exec_frozen id {A} (f : AcctDB -> ares A) : (forall d, creds_frozen id d (f d).1) -> steps (frozen id) (exec f).
Proof. intros Hf s. unfold exec, frozen. specialize (Hf (a_db s)). by destruct (f (a_db s)). Qed.
Lemma exec_grants_frozen id {A} (f : DB -> dbres A) : steps (frozen id) (exec_grants f).
Proof. intros s. unfold exec_grants, frozen. by destruct (f (a_grants s)). Qed.
Lemma exec_params_frozen id {A} (f : ParamDB -> pres A) : steps (frozen id) (exec_params f).
Proof. intros s. unfold exec_params, frozen. by destruct (f (a_params s)). Qed.
Lemma signal_frozen id u : steps (frozen id) (signal_sessions u).
Proof. intros s. unfold signal_sessions, frozen. by destruct (Revoke _ _). Qed.

Hint Resolve exec_grants_frozen exec_params_frozen signal_frozen : api_steps.
#[local] Hint Extern 1 (steps (frozen _) (exec _)) =>
  apply exec_frozen; intros ?; first [apply CreateUser_frozen | apply DeleteUser_frozen | apply verifier_frozen | apply RevokeAPIKey_frozen
    | apply frozen_same; solve [eauto with accounts]] : api_steps.

Lemma audit_frozen id site ev u by_ d : steps (frozen id) (audit e site ev u by_ d).
Proof. unfold audit. walk. Qed.
Lemma verifier_steps_frozen id u p : steps (frozen id) (setMongoVerifier cfg e u p).
Proof. unfold setMongoVerifier. walk. Qed.
Hint Resolve audit_frozen verifier_steps_frozen : api_steps.

Section Caller.
Variables (c : Ctx) (k : APIKey).
Hypotheses (Hmethod : cx_method c = authMethodAPIKey) (Hkey : cx_key c = Some k).
Abbreviation R := (frozen (k_ID k)).

Ltac reads := open_handler; walk.

Lemma no_web_session : requireWebSessionOrBasicAuth c = stop (writeError StatusForbidden ErrCodeForbidden "API keys cannot perform this operation").
Proof using Hmethod. unfold requireWebSessionOrBasicAuth. by rewrite Hmethod. Qed.

Lemma is_key_auth : isAPIKeyAuth c = true.
Proof using Hmethod. unfold isAPIKeyAuth. by rewrite Hmethod. Qed.

Lemma update_frozen param req : steps R (handleUpdateUser cfg e c param req).
Proof using Hmethod.
  apply steps_of_keeps; [exact _|]. intros s0.
  assert (Hp : forall A (m : H A), steps R m -> keeps (R s0) m (fun _ => True)).
  { intros A m. apply keeps_steps. intros s s' H1 H2. by etransitivity. }
  unfold handleUpdateUser. apply keeps_bind with (V := fun '(_, r, _) => up_Password r = None).
  - unfold update_user_checks. rewrite is_key_auth. do 2 (apply keeps_then; [apply Hp; walk|intros ?]).
    apply keeps_if; [intros _; apply keeps_stop|]. rewrite andb_true_r. intros Hpw%negb_false_iff.
    do 5 (apply keeps_then; [apply Hp; unfold checkSelfUpdateAllowed; walk|intros ?]).
    apply keeps_ret. by destruct (up_Password a0).
  - intros [[uid r] cu] Hpw. apply Hp. unfold update_user_writes. rewrite Hpw. walk.
    apply exec_frozen. intros d. apply UpdateUser_frozen.
Qed.

Lemma handle_frozen r : steps R (serve_auth cfg e r c).
Proof using Hmethod Hkey.
  unfold serve_auth.
  destruct r; cbn [guard handle]; rewrite ?no_web_session; try (intros s; unfold R, hbind, stop; reflexivity);
    (apply steps_bind; [exact _|reads|intros _]).
  all: try solve [reads].
  - unfold handleLogout. rewrite Hkey. reads.
  - apply update_frozen.
  - unfold handleResetPassword. rewrite is_key_auth. reads.
Qed.
End Caller.
End Frozen.

Section KeyTheorem.
Context {C : Collation} {A2 : Argon2} {GCM : AEAD} {HS : Hashes} {dig : Digest} {order : MapOrder}
  {UT : UUIDText} {SK : ScramKeys} {TT : TimeText}.

(** C18. A request authenticated with an API key, an administrator's included, creates no
    key and changes none but its own (by logging out), changes no password and
    decides no device authorization. *)
Theorem api_key_mints_nothing cfg e hdr r s s1 c k :
  authenticated cfg e hdr s = (s1, inl c) -> cx_method c = authMethodAPIKey -> cx_key c = Some k ->
  creds_frozen (k_ID k) (a_db s) (a_db (run (serve cfg e (Authenticated hdr r)) s).1).
Proof.
  intros Ha Hm Hk.
  pose proof (authenticated_steps untouched cfg e hdr s) as Hun.
  rewrite Ha in Hun. pose proof (handle_frozen cfg e c k Hm Hk r s1) as Hh.
  unfold run. cbn [serve]. unfold hbind. rewrite Ha. destruct Hun as [Hdb _ _ _ _]. cbn [fst] in Hdb.
  unfold frozen in Hh. rewrite Hdb in Hh. by destruct (serve_auth cfg e r c s1) as [s2 [x|x]].
Qed.
End KeyTheorem.

(** ** Administrators *)

Definition admin_row (u : User) : bool := live_user u && IsAdmin u.
Definition is_admin_of (d : AcctDB) (uid : uuid) : Prop := exists u, users d !! uid = Some u /\ admin_row u = true.
Definition has_admin (d : AcctDB) : Prop := exists uid, is_admin_of d uid.

(** Nobody loses the role. *)
Definition powers (d d' : AcctDB) : Prop := forall uid, is_admin_of d uid -> is_admin_of d' uid.

#[export] Instance powers_preorder : PreOrder powers.
Proof. split; [by intros d uid|]. intros d1 d2 d3 H1 H2 uid H. by apply H2, H1. Qed.

Lemma powers_users d d' : users d' = users d -> powers d d'.
Proof. intros E uid [u Hu]. exists u. by rewrite E. Qed.

Lemma powers_confined U d d' : acct_confined U d d' -> powers d d'.
Proof.
  intros H uid (u & E & Ha). destruct (decide (uid = U)) as [->|Hne]; [|exists u; by rewrite (ac_users _ _ _ H)].
  pose proof (ac_self _ _ _ H) as Hs. rewrite E in Hs. destruct (users d' !! U) as [u'|] eqn:E'; [|done]. cbn in Hs.
  exists u'. split; [done|]. unfold account_of in Hs. unfold admin_row, live_user, IsAdmin, HasRole in *. congruence.
Qed.

Lemma CreateUser_powers sql d name hash roles uid n n' : powers d (CreateUser sql d name hash roles uid n n').1.
Proof.
  unfold CreateUser. destruct (_ || _) eqn:E; [done|]. destruct (username_taken _ _); [done|].
  apply orb_false_iff in E as [_ E]. apply bool_decide_eq_false, eq_None_not_Some in E.
  intros k (u & Hk & Ha). exists u. cbn. by rewrite lookup_insert_ne by congruence.
Qed.

Lemma CreateWebSession_powers {A2 : Argon2} sql d u id r n n' : powers d (CreateWebSession sql d u id r n n').1.
Proof.
  unfold CreateWebSession. destruct (let! ' _ := _ in _) as [[[plain prefix] hash]|err|]; [|done..].
  match goal with |- context [insert_key ?ok d ?k] => pose proof (insert_key_users ok d k) as Hk;
    destruct (insert_key ok d k) as [d' [?|err|]] end; by apply powers_users.
Qed.

Lemma RevokeAPIKey_powers sql d id by_ n : powers d (RevokeAPIKey sql d id by_ n).1.
Proof. apply powers_users. unfold RevokeAPIKey. repeat (case_match; try done). Qed.
Lemma CreateDevice_powers sql d c dc uc uid n n' : powers d (CreateDeviceAuthRequest sql d c dc uc uid n n').1.
Proof. apply powers_users. unfold CreateDeviceAuthRequest, CreateOAuthState. repeat (case_match; simplify_eq/=; try done). Qed.
Lemma Poll_powers sql d dc n : powers d (PollDeviceAuthToken sql d dc n).1.
Proof. apply powers_users. unfold PollDeviceAuthToken, poll_finish, delete_state. repeat (case_match; simplify_eq/=; try done). Qed.

(** One of two administrators is somebody else. *)
Lemma another_row {V} (p : V -> bool) (m : gmap uuid V) k :
  1 < zlen (List.filter p (rows m)) -> exists k' v, k' <> k /\ m !! k' = Some v /\ p v = true.
Proof.
  intros Hlen.
  assert (Hex : forall m' : gmap uuid V, 0 < zlen (List.filter p (rows m')) -> exists k' v, m' !! k' = Some v /\ p v = true).
  { intros m' Hl. destruct (List.filter p (rows m')) as [|v l] eqn:E; [done|].
    assert (In v (List.filter p (rows m'))) as Hin by (rewrite E; by left).
    apply filter_In in Hin as [Hin Hv]. apply elem_rows in Hin as [k' Hk']. eauto. }
  destruct (m !! k) as [v|] eqn:E.
  - assert (0 < zlen (List.filter p (rows (delete k m)))) as Hd.
    { pose proof (map_to_list_delete m k v E) as Hp. apply (fmap_Permutation snd) in Hp. cbn in Hp.
      assert (Hl : length (List.filter p (v :: rows (delete k m))) = length (List.filter p (rows m))).
      { apply Permutation_length. unfold rows. clear -Hp.
        assert (forall l l' : list V, l ≡ₚ l' -> List.filter p l ≡ₚ List.filter p l') as Hf.
        { intros l l'. induction 1; cbn; repeat destruct (p _); try done; try (by constructor); by etransitivity. }
        by apply Hf. }
      unfold zlen in *. cbn [List.filter] in Hl. destruct (p v); cbn in Hl; lia. }
    destruct (Hex _ Hd) as (k' & v' & Hk' & Hv'). apply lookup_delete_Some in Hk' as [Hne Hk']. eauto 6.
  - destruct (Hex m) as (k' & v' & Hk' & Hv'); [lia|]. exists k', v'. split; [congruence|done].
Qed.

Lemma another_admin sql d n uid : CountAdmins sql d = Ok n -> (n <=? 1) = false -> exists other, other <> uid /\ is_admin_of d other.
Proof.
  unfold CountAdmins. destruct (sql 0%nat); [|done]. cbn. intros [= <-] Hn%Z.leb_gt.
  destruct (another_row _ _ uid Hn) as (k & u & Hne & E & Ha). exists k. split; [done|]. exists u. by split.
Qed.

Section Admins.
Context {C : Collation} {A2 : Argon2} {GCM : AEAD} {HS : Hashes} {dig : Digest} {order : MapOrder}
  {UT : UUIDText} {SK : ScramKeys} {TT : TimeText}.

Definition powers_kept (s s' : ApiState) : Prop := powers (a_db s) (a_db s').
Definition admins_kept (s s' : ApiState) : Prop := has_admin (a_db s) -> has_admin (a_db s').

#[local] Instance powers_kept_preorder : PreOrder powers_kept.
Proof. split; [intros s; unfold powers_kept; reflexivity|]. unfold powers_kept. intros s1 s2 s3 H1 H2. by etransitivity. Qed.
#[local] Instance powers_kept_passive : Passive powers_kept.
Proof. intros s s' [E _ _ _ _]. unfold powers_kept. rewrite E. reflexivity. Qed.
#[local] Instance admins_kept_preorder : PreOrder admins_kept.
Proof. unfold admins_kept. split; [by intros s|]. intros s1 s2 s3 H1 H2. auto. Qed.

Lemma powers_admins s s' : powers_kept s s' -> admins_kept s s'.
Proof. intros H (uid & Ha). exists uid. by apply H. Qed.

Lemma steps_admins {A} (m : H A) : steps powers_kept m -> steps admins_kept m.
Proof. intros Hm s. by apply powers_admins. Qed.

Lemma exec_powers {A} (f : AcctDB -> ares A) : (forall d, powers d (f d).1) -> steps powers_kept (exec f).
Proof. intros Hf s. unfold exec, powers_kept. specialize (Hf (a_db s)). by destruct (f (a_db s)). Qed.
Lemma exec_grants_powers {A} (f : DB -> dbres A) : steps powers_kept (exec_grants f).
Proof. intros s. unfold exec_grants, powers_kept. by destruct (f (a_grants s)). Qed.
Lemma exec_params_powers {A} (f : ParamDB -> pres A) : steps powers_kept (exec_params f).
Proof. intros s. unfold exec_params, powers_kept. by destruct (f (a_params s)). Qed.
Lemma signal_powers u : steps powers_kept (signal_sessions u).
Proof. intros s. unfold signal_sessions, powers_kept. by destruct (Revoke _ _). Qed.
Hint Resolve exec_grants_powers exec_params_powers signal_powers : api_steps.

#[local] Hint Extern 1 (steps powers_kept (exec _)) =>
  apply exec_powers; intros ?;
  first [ apply CreateUser_powers | apply RevokeAPIKey_powers | apply CreateWebSession_powers | apply CreateDevice_powers
        | apply Poll_powers | eapply powers_confined; (apply UpdateUser_confined; reflexivity)
        | eapply powers_confined, SetUserMongoVerifier_confined | eapply powers_confined, CreateAPIKey_confined
        | eapply powers_confined, Respond_confined | apply powers_users, sa_users; solve [eauto with accounts] ] : api_steps.

Section Handlers.
Variables (cfg : ApiConfig) (e : ReqEnv).

Lemma audit_powers site ev u by_ d : steps powers_kept (audit e site ev u by_ d).
Proof. unfold audit. walk. Qed.
Lemma verifier_powers u p : steps powers_kept (setMongoVerifier cfg e u p).
Proof. unfold setMongoVerifier. walk. Qed.
Hint Resolve audit_powers verifier_powers : api_steps.
Lemma store_password_powers t p m : steps powers_kept (store_password cfg e t p m).
Proof. unfold store_password. walk. Qed.
Lemma allocate_powers n : forall i name, steps powers_kept (allocate_codes e n i name).
Proof. induction n; intros i name; cbn [allocate_codes]; walk. Qed.
Hint Resolve store_password_powers allocate_powers : api_steps.

(** The two requests that can take the role away, as far as their checks go. *)
Definition spared (s : ApiState) (uid : uuid) : Prop :=
  ~ is_admin_of (a_db s) uid \/ exists other, other <> uid /\ is_admin_of (a_db s) other.

Lemma not_admin_spared s0 uid u : live_user_at (a_db s0) uid = Some u -> IsAdmin u = false -> spared s0 uid.
Proof.
  intros [E El]%live_user_at_Some Hn. left. intros (u' & E' & Ha). unfold admin_row in Ha.
  rewrite E in E'. injection E' as <-. by rewrite El, Hn in Ha.
Qed.

Lemma counted s0 i uid r :
  keeps (untouched s0)
    (do! n := or_stop (query (fun d => CountAdmins (rq_sql e i) d)) (fun _ => writeInternalError) in
     refuse! n <=? 1 with r in hret tt)
    (fun _ => spared s0 uid).
Proof.
  eapply keeps_bind with (V := fun n => (n <=? 1) = false -> exists other, other <> uid /\ is_admin_of (a_db s0) other).
  - apply keeps_or_stop, keeps_query. intros s Hs n Hc. rewrite (un_db _ _ Hs) in Hc. by eapply another_admin.
  - intros n Hn. apply keeps_if; [intros _; apply keeps_stop|]. intros Hle. apply keeps_ret. right. by apply Hn.
Qed.

Lemma target_learn s0 i uid r :
  keeps (untouched s0) (or_stop (query (fun d => GetUserByUID (rq_sql e i) d uid)) r)
    (fun u => live_user_at (a_db s0) uid = Some u).
Proof.
  apply keeps_or_stop, keeps_query. intros s Hs u. unfold GetUserByUID. destruct (rq_sql e i 0%nat); [|done]. cbn.
  rewrite (un_db _ _ Hs). destruct (live_user_at _ _); [|done]. by intros [= <-].
Qed.

Lemma reads_keep {A} s0 (m : H A) : steps untouched m -> keeps (untouched s0) m (fun _ => True).
Proof. apply keeps_steps. intros s s' H1 H2. by etransitivity. Qed.
Ltac reads := apply keeps_then; [apply reads_keep; open_handler; unfold checkSelfUpdateAllowed; walk|intros ?].

Lemma update_checks_spare s0 c param req :
  keeps (untouched s0) (update_user_checks cfg e c param req)
    (fun '(uid, r, _) => match up_Roles r with
                         | Some roles => contains_str roles RoleAdmin = true \/ spared s0 uid
                         | None => True
                         end).
Proof.
  unfold update_user_checks. do 2 reads. apply keeps_if; [intros _; apply keeps_stop|intros _]. do 4 reads.
  eapply keeps_bind with (V := fun _ => match up_Roles a0 with
                                        | Some roles => contains_str roles RoleAdmin = true \/ spared s0 a
                                        | None => True end).
  - unfold rejectLastAdminDemotion. destruct (up_Roles a0) as [roles|]; [|by apply keeps_ret].
    apply keeps_if; [intros Hr; apply keeps_ret; by left|intros _].
    eapply keeps_bind; [apply target_learn|]. intros u Hu. cbn beta in Hu. eapply keeps_weaken with (V := fun _ => spared s0 a).
    + apply keeps_if; [intros Hn%negb_true_iff; apply keeps_ret; by eapply not_admin_spared|intros _; apply counted].
    + intros _ Hs. by right.
  - intros _ Hr. by apply keeps_ret.
Qed.

Lemma delete_checks_spare s0 c param :
  keeps (untouched s0) (delete_user_checks cfg e c param)
    (fun '(uid, _) => spared s0 uid /\ is_Some (live_user_at (a_db s0) uid)).
Proof.
  unfold delete_user_checks. do 2 reads. apply keeps_if; [intros _; apply keeps_stop|intros _].
  eapply keeps_bind; [apply target_learn|]. intros u Hu. cbn beta in Hu. apply keeps_if; [intros _; apply keeps_stop|intros _].
  eapply keeps_bind with (V := fun _ => spared s0 a).
  - apply keeps_if; [intros _; apply counted|intros Hn; apply keeps_ret; by eapply not_admin_spared].
  - intros _ Hs. apply keeps_ret. split; [done|by exists u].
Qed.

(** Taking the role from a spared user. *)
Lemma spared_survives s0 d uid :
  spared s0 uid -> (forall k, k <> uid -> users d !! k = users (a_db s0) !! k) -> has_admin (a_db s0) -> has_admin d.
Proof.
  intros [Hn|(other & Hne & u & E & Ha)] Hrest (adm & u' & E' & Ha').
  - exists adm, u'. split; [|done]. rewrite Hrest; [done|]. intros ->. apply Hn. by exists u'.
  - exists other, u. split; [|done]. by rewrite Hrest.
Qed.

Lemma exec_admins {A} s0 (f : AcctDB -> ares A) uid :
  spared s0 uid -> (forall d k, k <> uid -> users (f d).1 !! k = users d !! k) ->
  triple (untouched s0) (exec f) (fun _ => admins_kept s0) (admins_kept s0).
Proof.
  intros Hsp Hf s Hs. unfold exec. specialize (Hf (a_db s)). destruct (f (a_db s)) as [d r]. unfold admins_kept. cbn in *.
  apply (spared_survives _ _ uid Hsp). intros k Hk. by rewrite Hf, (un_db _ _ Hs).
Qed.

Lemma UpdateUser_others sql d uid up n n' k : k <> uid -> users (UpdateUser sql d uid up n n').1 !! k = users d !! k.
Proof.
  intros Hk. unfold UpdateUser. destruct (negb _); [done|]. destruct (live_user_at d uid); [|done]. cbn.
  by rewrite lookup_insert_ne by done.
Qed.
Lemma DeleteUser_others sql d uid n k : k <> uid -> users (DeleteUser sql d uid n).1 !! k = users d !! k.
Proof.
  intros Hk. unfold DeleteUser, in_tx, delete_user_body. destruct (negb _); [done|]. destruct (negb _); [done|].
  destruct (live_user_at _ uid); [|done]. destruct (sql 2%nat); [|done]. cbn. by rewrite lookup_insert_ne by done.
Qed.

Lemma then_powers {A B} s0 P (m : H A) (k : A -> H B) :
  triple P m (fun _ => admins_kept s0) (admins_kept s0) -> (forall a, steps powers_kept (k a)) ->
  triple P (hbind m k) (fun _ => admins_kept s0) (admins_kept s0).
Proof.
  intros Hm Hk. eapply triple_bind; [exact Hm|]. intros a s Hs.
  pose proof (steps_admins _ (Hk a) s) as Hp. destruct (k a s) as [s1 [x|x]]; cbn in Hp; unfold admins_kept in *; auto.
Qed.

Lemma or_stop_triple {E A} s0 P (m : H (res E A)) r :
  triple P m (fun _ => admins_kept s0) (admins_kept s0) -> triple P (or_stop m r) (fun _ => admins_kept s0) (admins_kept s0).
Proof.
  intros Hm s Hs. unfold or_stop, catch, hbind. specialize (Hm s Hs). by destruct (m s) as [s1 [[a|x|]|x]].
Qed.

Lemma untouched_admins s0 s : untouched s0 s -> admins_kept s0 s.
Proof. intros [E _ _ _ _]. unfold admins_kept. by rewrite E. Qed.

(** Checks on the tables as they were, then a body that keeps an administrator. *)
Lemma checks_then {A} (chk : H A) (V : ApiState -> A -> Prop) (k : A -> H Response) :
  (forall s0, keeps (untouched s0) chk (V s0)) ->
  (forall s0 a, V s0 a -> triple (untouched s0) (k a) (fun _ => admins_kept s0) (admins_kept s0)) ->
  steps admins_kept (hbind chk k).
Proof.
  intros Hc Hk s. specialize (Hc s s ltac:(reflexivity)). unfold hbind.
  destruct (chk s) as [s1 [a|x]]; [|by apply untouched_admins]. destruct Hc as [Hun Ha].
  specialize (Hk s a Ha s1 Hun). by destruct (k a s1) as [s2 [x|x]].
Qed.

Lemma delete_admins c param : steps admins_kept (handleDeleteUser cfg e c param).
Proof.
  unfold handleDeleteUser. eapply checks_then; [intros s0; apply delete_checks_spare|].
  intros s0 [uid cu] [Hsp _]. unfold delete_user_writes. apply then_powers; [|intros _; walk].
  apply or_stop_triple. apply (exec_admins s0 _ uid Hsp). intros d k. apply DeleteUser_others.
Qed.

Lemma UpdateUser_powers sql d uid up n n' :
  (forall roles, uu_Roles up = Some roles -> contains_str roles RoleAdmin = true) -> powers d (UpdateUser sql d uid up n n').1.
Proof.
  intros Hr. unfold UpdateUser. destruct (negb _); [done|]. destruct (live_user_at d uid) as [u|] eqn:E; [|done].
  apply live_user_at_Some in E as [E El]. intros k (v & Ek & Ha). cbn.
  destruct (decide (uid = k)) as [<-|]; [|exists v; cbn; by rewrite lookup_insert_ne by done].
  eexists. cbn. rewrite lookup_insert_eq. split; [done|]. rewrite E in Ek. injection Ek as <-.
  unfold admin_row, live_user, IsAdmin, HasRole in *. cbn. apply andb_true_iff in Ha as [-> Hadm].
  destruct (uu_Roles up) as [roles|]; cbn; [by rewrite Hr|done].
Qed.

Lemma powers_triple {A} s0 (f : AcctDB -> ares A) :
  (forall d, powers d (f d).1) -> triple (untouched s0) (exec f) (fun _ => admins_kept s0) (admins_kept s0).
Proof.
  intros Hf s Hs%untouched_admins. pose proof (exec_powers f Hf s) as Hp.
  destruct (exec f s) as [s1 [x|x]]; apply powers_admins in Hp; unfold admins_kept in *; auto.
Qed.

Lemma update_admins c param req : steps admins_kept (handleUpdateUser cfg e c param req).
Proof.
  unfold handleUpdateUser. eapply checks_then; [intros s0; apply update_checks_spare|].
  intros s0 [[uid r] cu] Hr. unfold update_user_writes.
  eapply triple_bind with (Q := fun _ => untouched s0).
  - match goal with |- triple _ ?m _ _ => assert (Hm : keeps (untouched s0) m (fun _ => True)) end.
    { apply reads_keep. walk. }
    intros s Hs. specialize (Hm s Hs).
    match type of Hm with match ?m with _ => _ end => destruct m as [s1 [h|resp]] end.
    + by destruct Hm.
    + by apply untouched_admins.
  - intros hash. apply then_powers; [|intros _; open_handler; walk].
    apply or_stop_triple. destruct (up_Roles r) as [roles|] eqn:Er.
    + destruct Hr as [Hadm|Hsp].
      * apply powers_triple. intros d. apply UpdateUser_powers. cbn. congruence.
      * apply (exec_admins s0 _ uid Hsp). intros d k. apply UpdateUser_others.
    + apply powers_triple. intros d. apply UpdateUser_powers. cbn. congruence.
Qed.

Lemma serve_admins r : steps admins_kept (serve cfg e r).
Proof.
  destruct r; cbn [serve].
  - apply steps_admins. unfold handleLogin. walk.
  - apply steps_admins. unfold handlePreLoginPasswordChange. walk.
  - apply steps_admins. unfold handleDeviceAuthorization, pre_auth_limit. walk.
  - apply steps_admins. unfold handleDeviceToken. walk.
  - apply steps_admins. unfold handleChangePassword. walk.
  - apply steps_bind; [exact _|apply steps_admins, authenticated_steps; exact _|]. intros c.
    unfold serve_auth. apply steps_bind; [exact _|apply steps_admins, guard_steps; exact _|intros _].
    destruct r; cbn [handle]; try (apply steps_admins; solve [open_handler; walk]).
    + apply update_admins.
    + apply delete_admins.
Qed.
End Handlers.

(** Requests served one after the other, whatever they are and whoever sends them,
    never take the role from the last live administrator. *)
Theorem admin_kept cfg reqs s :
  has_admin (a_db s) -> has_admin (a_db (served cfg reqs s)).
Proof.
  unfold served. revert s. induction reqs as [|[e r] reqs IH]; intros s Hs; cbn [fold_left]; [done|].
  apply IH. by apply (steps_run admins_kept _ s (serve_admins cfg e r)).
Qed.

Lemma DeleteUser_all_ok sql d uid n u :
  (forall i, sql i = true) -> live_user_at d uid = Some u ->
  exists d', DeleteUser sql d uid n = (d', Ok tt) /\ (forall k, k <> uid -> users d' !! k = users d !! k) /\
    live_user_at d' uid = None.
Proof.
  intros Hs Hu. unfold DeleteUser, in_tx, delete_user_body. rewrite !Hs. cbn [negb].
  set (d1 := set_identities d _). change (live_user_at d1 uid) with (live_user_at d uid). rewrite Hu. cbv zeta.
  eexists. split; [done|]. split.
  - intros k Hk. cbn. by rewrite lookup_insert_ne by done.
  - unfold live_user_at. cbn. by rewrite lookup_insert_eq.
Qed.

Lemma delete_writes_done e uid cu s u :
  (forall i j, rq_sql e i j = true) -> live_user_at (a_db s) uid = Some u ->
  exists s', run (delete_user_writes e uid cu) s = (s', successResponse (BMessage "user deleted")) /\
    (forall k, k <> uid -> users (a_db s') !! k = users (a_db s) !! k) /\ live_user_at (a_db s') uid = None.
Proof.
  intros Hs Hu. destruct (DeleteUser_all_ok (rq_sql e 12) (a_db s) uid (rq_now e 10) u (Hs 12%nat) Hu) as (d & E & Ho & Hg).
  unfold run, delete_user_writes, audit, or_stop, catch, ignore, hbind, exec, hret. rewrite E. cbv beta iota.
  match goal with |- context [LogAuditEvent ?q ?d ?ev ?u ?n] => pose proof (LogAuditEvent_same q d ev u n) as [Hsu _ _];
    destruct (LogAuditEvent q d ev u n) as [d' x] eqn:El end.
  cbn in Hsu. assert (Hlive : live_user_at d' uid = None) by (unfold live_user_at in *; by rewrite Hsu).
  assert (x <> Panic) as Hx by (unfold LogAuditEvent in El; destruct (_ && _); congruence).
  destruct x as [[]|err|]; [| |done]; (eexists; split; [reflexivity|]; split; [intros k Hk; cbn; rewrite Hsu; by apply Ho|done]).
Qed.

(** Two administrators who delete each other at the same time: when both checks run
    before either write, both requests succeed and no administrator is left. *)
Theorem last_admins_race cfg e e' c c' a b s s1 s2 ua ub :
  (forall i j, rq_sql e i j = true) -> (forall i j, rq_sql e' i j = true) ->
  (forall uid, is_admin_of (a_db s) uid -> uid = a \/ uid = b) ->
  delete_user_checks cfg e c (Some b) s = (s1, inl (b, ua)) ->
  delete_user_checks cfg e' c' (Some a) s1 = (s2, inl (a, ub)) ->
  a <> b ->
  exists s3 s4, run (delete_user_writes e b ua) s2 = (s3, successResponse (BMessage "user deleted")) /\
    run (delete_user_writes e' a ub) s3 = (s4, successResponse (BMessage "user deleted")) /\
    ~ has_admin (a_db s4).
Proof.
  intros Hok Hok' Honly Hc Hc' Hne.
  pose proof (delete_checks_spare cfg e s c (Some b) s ltac:(reflexivity)) as Hb. rewrite Hc in Hb.
  destruct Hb as (Hun & _ & [u Hu]).
  pose proof (delete_checks_spare cfg e' s1 c' (Some a) s1 ltac:(reflexivity)) as Ha. rewrite Hc' in Ha.
  destruct Ha as (Hun' & _ & [v Hv]).
  rewrite (un_db _ _ Hun) in Hv. assert (Hdb : a_db s2 = a_db s) by (destruct Hun, Hun'; congruence).
  destruct (delete_writes_done e b ua s2 u Hok) as (s3 & R3 & O3 & G3); [by rewrite Hdb|].
  destruct (delete_writes_done e' a ub s3 v Hok') as (s4 & R4 & O4 & G4).
  { unfold live_user_at in *. by rewrite O3, Hdb by done. }
  exists s3, s4. split; [done|]. split; [done|]. intros (k & w & Ek & Hw).
  apply andb_true_iff in Hw as Hl. destruct Hl as [Hl _].
  assert (live_user_at (a_db s4) k = Some w) as Hlive by (unfold live_user_at; by rewrite Ek, Hl).
  destruct (decide (k = a)) as [->|Hka]; [congruence|].
  rewrite O4 in Ek by done.
  destruct (decide (k = b)) as [->|Hkb]; [unfold live_user_at in G3; rewrite Ek, Hl in G3; done|].
  rewrite O3, Hdb in Ek by done. destruct (Honly k); [by exists w|done..].
Qed.
End Admins.

(** ** Witnesses *)

Import ApiSample.

(** [dbb_] and the first drawn characters are the prefix of the sample key. *)
Definition with_key : AcctDB := (CreateAPIKey ok staff alice "ci" None None 7%N rnd 20).1.
Definition plain_key : string := match (CreateAPIKey ok staff alice "ci" None None 7%N rnd 20).2 with Ok (_, p) => p | _ => "" end.
Definition bearer (token : string) : AuthHeader := {| ah_Authorization := "Bearer " ++ token; ah_Basic := None |}.

Lemma api_key_mints_nothing_witness :
  exists s1 c k, authenticated cfg (env 100 50) (bearer plain_key) (server with_key) = (s1, inl c) /\
    cx_method c = authMethodAPIKey /\ cx_key c = Some k /\
    creds_frozen (k_ID k) with_key
      (a_db (run (serve cfg (env 100 50) (Authenticated (bearer plain_key) PostLogout)) (server with_key)).1).
Proof.
  destruct (value_of (authenticated cfg (env 100 50) (bearer plain_key) (server with_key))) as [c|] eqn:E;
    [|vm_compute in E; discriminate].
  pose proof E as E'. vm_compute in E'. injection E' as E'.
  apply value_of_inl in E as [s1 E].
  destruct (cx_key c) as [k|] eqn:Hk; [|rewrite <- E' in Hk; discriminate].
  exists s1, c, k. assert (Hm : cx_method c = authMethodAPIKey) by (by rewrite <- E').
  split; [exact E|]. split; [exact Hm|]. split; [exact Hk|].
  exact (api_key_mints_nothing cfg (env 100 50) (bearer plain_key) PostLogout (server with_key) s1 c k E Hm Hk).
Defined.

Lemma make_others d name roles uid k : k <> uid -> users (make d name roles uid) !! k = users d !! k.
Proof.
  intros Hk. unfold make. rewrite UpdateUser_others by done. unfold CreateUser.
  destruct (_ || _); [done|]. destruct (username_taken _ _); [done|]. cbn. by rewrite lookup_insert_ne by done.
Qed.

Lemma staff_admins uid : is_admin_of staff uid -> uid = alice \/ uid = carol.
Proof.
  intros (u & E & Ha).
  destruct (decide (uid = alice)) as [|N1]; [by left|]. destruct (decide (uid = carol)) as [|N3]; [by right|].
  unfold staff in E. rewrite make_others in E by done. destruct (decide (uid = bob)) as [->|N2].
  - vm_compute in E. injection E as <-. discriminate.
  - rewrite !make_others in E by done. discriminate.
Qed.

Lemma admin_kept_witness :
  has_admin staff /\
  has_admin (a_db (served cfg [(env 100 50, Authenticated (basic "alice") (DelUser (Some carol)));
                               (env 101 60, Authenticated (basic "alice") (DelUser (Some alice)))] (server staff))).
Proof.
  assert (H : has_admin staff) by (exists alice; eexists; split; [vm_compute; reflexivity|reflexivity]).
  split; [exact H|]. exact (admin_kept cfg _ (server staff) H).
Defined.

Lemma last_admins_race_witness :
  exists c c' ua ub s1 s2 s3 s4,
    delete_user_checks cfg (env 100 50) c (Some carol) (server staff) = (s1, inl (carol, ua)) /\
    delete_user_checks cfg (env 100 70) c' (Some alice) s1 = (s2, inl (alice, ub)) /\
    run (delete_user_writes (env 100 50) carol ua) s2 = (s3, successResponse (BMessage "user deleted")) /\
    run (delete_user_writes (env 100 70) alice ub) s3 = (s4, successResponse (BMessage "user deleted")) /\
    ~ has_admin (a_db s4).
Proof.
  destruct (users staff !! alice) as [ua|] eqn:Ea; [|vm_compute in Ea; discriminate].
  destruct (users staff !! carol) as [ub|] eqn:Ec; [|vm_compute in Ec; discriminate].
  pose (c := {| cx_user := Some ua; cx_key := None; cx_method := authMethodBasic |}).
  pose (c' := {| cx_user := Some ub; cx_key := None; cx_method := authMethodBasic |}).
  assert (E1 : delete_user_checks cfg (env 100 50) c (Some carol) (server staff) = (server staff, inl (carol, ua))).
  { vm_compute in Ea. injection Ea as <-. vm_compute. reflexivity. }
  assert (E2 : delete_user_checks cfg (env 100 70) c' (Some alice) (server staff) = (server staff, inl (alice, ub))).
  { vm_compute in Ec. injection Ec as <-. vm_compute. reflexivity. }
  destruct (last_admins_race cfg (env 100 50) (env 100 70) c c' alice carol (server staff) (server staff) (server staff) ua ub)
    as (s3 & s4 & H3 & H4 & H5); [done|done|exact staff_admins|exact E1|exact E2|done|].
  exists c, c', ua, ub, (server staff), (server staff), s3, s4. split; [exact E1|]. split; [exact E2|]. auto.
Defined.
