(* ===== verification/ApiSessions.v ===== *)
(** * Credentials over HTTP, from issue to use

    The token a login answers with, the key a device authorization delivers, the
    code a user types, and where a password set through the API can be read. *)

From Stdlib Require Import ZArith Lia List Bool String Ascii.
From stdpp Require Import base list gmap strings relations.
From S2P Require Import Prelude GoStrings Encoding Models Revocation RateLimit AuthCache GrantStore Crypto Accounts ApiKeys AccountSafety AccountTheorems Servers LoginTracker Endpoints ApiBase ApiAuth ApiUsers ApiDevice ApiGroups ApiGrants ApiRoutes ApiSafety ApiAdmins.

Open Scope string_scope.
Open Scope Z_scope.
Open Scope api_scope.

(** ** Runs that go on *)

Lemma bound_inl {A} (o : option A) msg s s' a : bound o msg s = (s', inl a) -> s' = s /\ o = Some a.
Proof. destruct o; cbn; [by intros [= <- <-]|done]. Qed.

Lemma or_stop_inl {E A} (m : H (res E A)) r s s' a : or_stop m r s = (s', inl a) -> m s = (s', inl (Ok a)).
Proof. unfold or_stop, catch. intros (s1 & [b|x|] & Hm & Hk)%hbind_inl; cbn in Hk; [by injection Hk as <- <-|done..]. Qed.

Lemma catch_inl {E A} (m : H (res E A)) h s s' a :
  (forall x s1, h x s1 <> (s', inl a)) -> catch m h s = (s', inl a) -> m s = (s', inl (Ok a)).
Proof.
  intros Hh. unfold catch. intros (s1 & [b|x|] & Hm & Hk)%hbind_inl; cbn in Hk; [by injection Hk as <- <-| |done].
  by apply Hh in Hk.
Qed.

Lemma deref_inl {A} (o : option A) s s' a : deref o s = (s', inl a) -> s' = s /\ o = Some a.
Proof. destruct o; cbn; [by intros [= <- <-]|done]. Qed.

Lemma query_inl {A} (f : AcctDB -> res acct_error A) s s' r : query f s = (s', inl r) -> s' = s /\ f (a_db s) = r.
Proof. by intros [= <- <-]. Qed.

Lemma exec_inl {A} (f : AcctDB -> ares A) s s' r : exec f s = (s', inl r) -> exists d, f (a_db s) = (d, r) /\ s' = put_db s d.
Proof. unfold exec. destruct (f (a_db s)) as [d x]. intros [= <- <-]. eauto. Qed.

Lemma refuse_inl {A} (c : bool) r (k : H A) s s' a : (if c then stop r else k) s = (s', inl a) -> c = false /\ k s = (s', inl a).
Proof. by destruct c. Qed.

Lemma fail_not_inl {A} e u r s s' (a : A) : fail_login e u r s <> (s', inl a).
Proof. done. Qed.

Lemma valid_inl e m u r s s' a : valid_or_fail e m u r s = (s', inl a) -> m s = (s', inl (Ok true)).
Proof.
  unfold valid_or_fail. intros (s1 & v & Hm & Hk)%hbind_inl. destruct v as [[]|x|]; cbn in Hk; [by injection Hk as <- _|done..].
Qed.

Lemma passive_db {A} (m : H A) s s' x : steps untouched m -> m s = (s', x) -> a_db s' = a_db s.
Proof. intros Hm E. specialize (Hm s). rewrite E in Hm. by destruct Hm. Qed.

Section Sessions.
Context {C : Collation} {A2 : Argon2} {GCM : AEAD} {HS : Hashes} {dig : Digest} {order : MapOrder}
  {UT : UUIDText} {SK : ScramKeys} {TT : TimeText}.
Variable cfg : ApiConfig.

(** A new key, at any later time: the store answers with its row as it then is. *)
Lemma key_found d0 d2 id k plain h salt sql n n' n'' :
  api_keys d0 !! id = Some k -> k_KeyHash k = h -> HashPassword (Some salt) plain = Ok h -> wf_bytes salt ->
  k_KeyPrefix k = String.substring 0 (Z.to_nat APIKeyPrefixLength) plain -> APIKeyPrefixLength <= slen plain ->
  acct_ok d2 -> rtc acct_step d0 d2 -> sql 0%nat = true ->
  exists k2, api_keys d2 !! id = Some k2 /\ key_evolves k k2 /\
    VerifyAPIKey sql d2 None plain n n' n'' =
      (None, if IsRevoked k2 then Err ErrAPIKeyRevoked else if IsExpired n'' k2 then Err ErrAPIKeyExpired else Ok k2).
Proof.
  intros E Hh Eh Hwf Hp Hlen Hok Hlater Hsql.
  destruct (acct_steps_keys _ _ Hlater id k E) as (k2 & E2 & Hev). pose proof Hev as (_ & _ & Hh2 & Hp2 & _).
  exists k2. split; [done|]. split; [done|]. unfold VerifyAPIKey.
  destruct (slen plain <? APIKeyPrefixLength) eqn:El; [apply Z.ltb_lt in El; lia|].
  rewrite <- Hp, <- Hp2, (GetAPIKeyByPrefix_Ok sql d2 id k2 Hok E2 Hsql). cbn [check_key].
  replace (k_KeyHash k2) with h by congruence.
  rewrite (hash_verifies salt plain h Hwf Eh). by destruct (IsRevoked k2), (IsExpired n'' k2).
Qed.

Lemma insert_key_Ok ok d k d' k' : insert_key ok d k = (d', Ok k') -> k' = k /\ api_keys d' !! k_ID k = Some k.
Proof.
  unfold insert_key. destruct (_ && _ && _ && _); intros [= <- <-]. split; [done|]. cbn. by rewrite lookup_insert_eq.
Qed.

Lemma CreateWebSession_Ok sql d u id r n n' d' k plain rb salt :
  kr_key r = Some rb -> zlen rb = APIKeyRandomLength -> kr_hash_salt r = Some salt ->
  CreateWebSession sql d u id r n n' = (d', Ok (k, plain)) ->
  exists h, HashPassword (Some salt) plain = Ok h /\ slen plain = 36 /\ api_keys d' !! id = Some k /\
    k = new_key id u "Web Session" h (String.substring 0 (Z.to_nat APIKeyPrefixLength) plain) KeyTypeWeb
          (Some (n + WebSessionMaxDuration)) n'.
Proof.
  intros Hrb Hlen Hsalt. unfold CreateWebSession. rewrite Hrb, Hsalt. cbn [generateWebKey generateKey rbind].
  set (p := WebKeyPrefix ++ string_of_list_ascii (map charset_at rb)).
  destruct (HashPassword (Some salt) p) as [h|x|] eqn:Eh; cbn [lift_crypto rbind]; [|done..].
  destruct (insert_key _ _ _) as [d1 [k1|x|]] eqn:Ei; [|done..]. intros [= <- <- <-].
  apply insert_key_Ok in Ei as [-> Ei]. exists h. split; [done|]. split; [|done].
  unfold p. by rewrite slen_key_chars, Hlen.
Qed.

(** A login that is not refused had the name of a live user, his password, and a
    password already changed; the token it answers authenticates as that user, at
    any later time, exactly until the session is revoked or an hour has passed. *)
Theorem login_session e req s s1 r rb salt :
  acct_ok (a_db s) -> kr_key (rq_key e) = Some rb -> zlen rb = APIKeyRandomLength ->
  kr_hash_salt (rq_key e) = Some salt -> wf_bytes salt ->
  handleLogin cfg e (Some req) s = (s1, inl r) ->
  exists u token,
    live_user_at (a_db s) (u_UID u) = Some u /\ u_Username u = lr_Username req /\
    Crypto.VerifyPassword (u_PasswordHash u) (lr_Password req) = Ok true /\ HasChangedPassword u = true /\
    r = respond StatusOK (BLogin token (Some (rq_now e 10 + WebSessionMaxDuration)) (u_UID u) (u_Username u) (u_Roles u) false) /\
    forall e2 s2 u2, rtc acct_step (a_db s1) (a_db s2) -> a_cache s2 = None -> rq_sql e2 0 0%nat = true ->
      rq_sql e2 1 0%nat = true -> live_user_at (a_db s2) (u_UID u) = Some u2 ->
      exists k2, api_keys (a_db s2) !! rq_uid e 0 = Some k2 /\ k_UserID k2 = u_UID u /\
        ((IsRevoked k2 = false /\ rq_now e2 6 <= rq_now e 10 + WebSessionMaxDuration) <->
         exists s3, handleBearerAuth e2 token s2 = (s3, inl {| cx_user := Some u2; cx_key := Some k2; cx_method := authMethodWebSession |})).
Proof.
  intros Hok Hrb Hlen Hsalt Hwf. unfold handleLogin.
  intros (t0 & req' & B & Hrun)%hbind_inl. apply bound_inl in B as [-> B].
  unfold bind in B. destruct (nonempty (lr_Username req) && nonempty (lr_Password req)); [|done].
  apply (inj Some) in B. subst req'.
  apply hbind_inl in Hrun as (t1 & [] & B & Hrun). pose proof (passive_db _ _ _ _ (rate_steps untouched cfg e _) B) as D1.
  apply hbind_inl in Hrun as (t2 & u & B2 & Hrun). apply catch_inl in B2; [|intros; apply fail_not_inl].
  apply query_inl in B2 as [-> Hu].
  apply hbind_inl in Hrun as (t3 & [] & B3 & Hrun). apply valid_inl in B3. injection B3 as <- Hpw.
  apply hbind_inl in Hrun as (t4 & [] & B4 & Hrun). pose proof (passive_db _ _ _ _ (reset_steps untouched _) B4) as D4.
  apply refuse_inl in Hrun as [Hch%negb_false_iff Hrun].
  apply hbind_inl in Hrun as (t5 & [k token] & B5 & Hrun). apply or_stop_inl, exec_inl in B5 as (d & Ec & ->).
  injection Hrun as <- <-. rewrite D4, D1 in Ec.
  pose proof (CreateWebSession_ok (rq_sql e 11) (a_db s) (u_UID u) (rq_uid e 0) (rq_key e) (rq_now e 10) (rq_now e 11) Hok) as Hok1.
  rewrite Ec in Hok1. cbn [fst] in Hok1.
  apply (CreateWebSession_Ok _ _ _ _ _ _ _ _ _ _ rb salt Hrb Hlen Hsalt) in Ec as (h & Eh & Hl & Ek & Hk).
  assert (Hrow : live_user_at (a_db s) (u_UID u) = Some u /\ u_Username u = lr_Username req).
  { rewrite D1 in Hu. unfold GetUserByUsername in Hu. destruct (rq_sql e 10 0%nat); [|done]. cbn in Hu.
    destruct (List.find _ _) as [x|] eqn:Ef; [|done]. injection Hu as ->.
    apply find_rows_Some in Ef as (Hf & id & Hid). apply andb_true_iff in Hf as [Hl' Hn%String.eqb_eq].
    unfold live_user_at. by rewrite (users_keyed _ Hok id u Hid), Hid, Hl'. }
  exists u, token. destruct Hrow as [Hrow Hname]. rewrite Hch. cbn [negb].
  split; [done|]. split; [done|]. split; [done|]. split; [done|]. split; [by subst k|].
  intros e2 s2 u2 Hlater Hcache Hq0 Hq1 Hlive.
  destruct (key_found d (a_db s2) (rq_uid e 0) k token h salt (rq_sql e2 0) (rq_now e2 4) (rq_now e2 5) (rq_now e2 6))
    as (k2 & E2 & Hev & Hv); try done; [by subst k..|by rewrite Hl|by apply (acct_steps_ok _ _ Hlater)|].
  destruct Hev as (_ & Ho & _ & _ & Hty & Hexp & _). exists k2. split; [done|]. split; [by rewrite Ho, Hk|].
  assert (Hex : IsExpired (rq_now e2 6) k2 = false <-> rq_now e2 6 <= rq_now e 10 + WebSessionMaxDuration).
  { unfold IsExpired, After. rewrite Hexp, Hk. cbn [new_key k_ExpiresAt]. by rewrite Z.ltb_ge. }
  assert (Hrun : handleBearerAuth e2 token s2 =
    match (if IsRevoked k2 then Err ErrAPIKeyRevoked else if IsExpired (rq_now e2 6) k2 then Err ErrAPIKeyExpired else Ok k2) with
    | Ok k2 => (put_spawned (put_cache s2 None) (k_ID k2 :: a_spawned s2),
                inl {| cx_user := Some u2; cx_key := Some k2; cx_method := authMethodWebSession |})
    | _ => (put_cache s2 None, inr (writeError StatusUnauthorized ErrCodeUnauthorized "invalid API key"))
    end).
  { unfold handleBearerAuth, or_stop, catch, hbind, verify_api_key, query. rewrite Hcache, Hv.
    destruct (IsRevoked k2); [done|]. destruct (IsExpired _ k2); [done|]. cbv beta iota. unfold hret at 1.
    cbv beta iota. unfold GetUserByUID. rewrite Hq1. cbn [negb a_db put_cache]. rewrite Ho, Hk. cbn [new_key k_UserID].
    rewrite Hlive. cbn. unfold IsWebSession. rewrite Hty, Hk. done. }
  rewrite Hrun. destruct (IsRevoked k2); [naive_solver|]. destruct (IsExpired _ k2); [naive_solver lia|]. naive_solver.
Qed.

(** *** A device authorization, approved and collected *)

Lemma salts_states sql d u s1 s2 n : oauth_states (EnsureUserOracleSalts sql d u s1 s2 n).1 = oauth_states d.
Proof. unfold EnsureUserOracleSalts, ensure_salts_write, salts_cas. repeat (case_match; simplify_eq/=; try done). Qed.

Lemma insert_key_states ok d k : oauth_states (insert_key ok d k).1 = oauth_states d.
Proof. unfold insert_key. by destruct (_ && _ && _ && _). Qed.

Lemma CreateAPIKey_states sql d u name exp ek id r n : oauth_states (CreateAPIKey sql d u name exp ek id r n).1 = oauth_states d.
Proof.
  unfold CreateAPIKey. destruct (let! ' _ := _ in _) as [[[plain prefix] hash]|err|]; [|done..].
  set (k := new_key _ _ _ _ _ _ _ _). assert (Hf : oauth_states (finish_key sql d k plain ek r n).1 = oauth_states d).
  { unfold finish_key. destruct ek as [[|b ek]|]; try apply insert_key_states. unfold attachO5LogonVerifiers.
    pose proof (salts_states sql d (k_UserID k) (kr_user_salts r).1 (kr_user_salts r).2 n) as Hs.
    destruct (EnsureUserOracleSalts _ _ _ _ _ _) as [d' [o|err|]]; cbn [fst] in Hs; [| |done].
    - destruct (computeO5LogonVerifierWithSalts _ _ _ _ _ _); [by rewrite insert_key_states|done..].
    - destruct (computeO5LogonVerifier _ _ _ _); [by rewrite insert_key_states|done..]. }
  by destruct (finish_key _ _ _ _ _ _ _) as [d' [k'|err|]].
Qed.

Lemma finish_key_owner sql d k plain ek r n d' k' : finish_key sql d k plain ek r n = (d', Ok k') -> k_UserID k' = k_UserID k.
Proof.
  unfold finish_key. destruct ek as [[|b ek]|]; try by intros [-> _]%insert_key_Ok.
  destruct (attachO5LogonVerifiers _ _ _ _ _ _ _) as [d1 [k1|err|]] eqn:Ea; [|done..]. intros [-> _]%insert_key_Ok.
  unfold attachO5LogonVerifiers in Ea. destruct (EnsureUserOracleSalts _ _ _ _ _ _) as [d2 [o|err|]]; [..|done];
    injection Ea as _ Ek; [by apply o5_owner in Ek|by apply o5_legacy_owner in Ek].
Qed.

Lemma CreateAPIKey_Ok sql d u name exp ek id r n d' k plain rb salt :
  kr_key r = Some rb -> zlen rb = APIKeyRandomLength -> kr_hash_salt r = Some salt ->
  CreateAPIKey sql d u name exp ek id r n = (d', Ok (k, plain)) ->
  exists h, HashPassword (Some salt) plain = Ok h /\ slen plain = 36 /\ api_keys d' !! id = Some k /\ k_ID k = id /\
    k_KeyHash k = h /\ k_KeyPrefix k = String.substring 0 (Z.to_nat APIKeyPrefixLength) plain /\
    k_ExpiresAt k = exp /\ k_RevokedAt k = None /\ k_UserID k = u.
Proof.
  intros Hrb Hlen Hsalt. unfold CreateAPIKey. rewrite Hrb, Hsalt. cbn [generateAPIKey generateKey rbind].
  set (p := APIKeyPrefix ++ string_of_list_ascii (map charset_at rb)).
  destruct (HashPassword (Some salt) p) as [h|x|] eqn:Eh; cbn [lift_crypto rbind]; [|done..].
  destruct (finish_key _ _ _ _ _ _ _) as [d1 [k1|x|]] eqn:Ef; [|done..]. intros [= <- <- <-].
  pose proof (finish_key_owner _ _ _ _ _ _ _ _ _ Ef) as Hu.
  apply finish_key_Ok in Ef as (E1 & Hh & Hpre & He & Hr & Hid). cbn [new_key k_ID k_KeyHash k_KeyPrefix k_ExpiresAt k_RevokedAt k_UserID] in *.
  exists h. split; [done|]. split; [unfold p; by rewrite slen_key_chars, Hlen|]. done.
Qed.

Lemma in_order_desc {A} (key : A -> Z) (x : A) l : In x (order_desc key l) <-> In x l.
Proof.
  assert (Hins : forall y m, In x (insert_desc key y m) <-> x = y \/ In x m).
  { intros y m. induction m as [|z m IH]; cbn; [naive_solver|]. destruct (_ <? _); cbn; naive_solver. }
  induction l as [|y l IH]; [done|]. cbn. rewrite Hins. unfold order_desc in IH. naive_solver.
Qed.

(** The one row with the code. *)
Definition only_code (code : string) (d : AcctDB) (st : OAuthState) (m : deviceAuthMetadata) : Prop :=
  oauth_states d !! os_UID st = Some st /\ os_Metadata st = Some m /\
  forall id st', oauth_states d !! id = Some st' -> has_user_code code st' = true -> id = os_UID st.

Lemma by_code ok d code now st m st' m' :
  only_code code d st m -> getDeviceAuthStateByUserCode ok d code now = Ok (st', m') -> st' = st /\ m' = m.
Proof.
  intros (Est & Em & Huniq). unfold getDeviceAuthStateByUserCode. destruct ok; [|done]. cbn [negb].
  destruct (order_desc _ _) as [|x l] eqn:Eo; [done|].
  assert (Hin : In x (List.filter (device_code_row code now) (rows (oauth_states d)))).
  { apply (in_order_desc os_CreatedAt). rewrite Eo. by left. }
  apply filter_In in Hin as [[id Hid]%elem_rows Hrow]. unfold device_code_row in Hrow.
  apply andb_true_iff in Hrow as [[_ Hcode]%andb_true_iff _].
  pose proof (Huniq id x Hid Hcode) as ->. rewrite Est in Hid. injection Hid as <-. rewrite Em. by intros [= <- <-].
Qed.

Lemma device_get sql d code now st m req :
  only_code code d st m -> GetDeviceAuthByUserCode sql d code now = Ok req -> req = device_request st m.
Proof.
  intros Hone. unfold GetDeviceAuthByUserCode. destruct (getDeviceAuthStateByUserCode _ _ _ _) as [[s' m']|x|] eqn:E; [|done..].
  cbn. destruct (by_code _ _ _ _ _ _ _ _ Hone E) as [-> ->]. by intros [= <-].
Qed.

Lemma device_respond sql d code u enc prefix n n' d' st m :
  only_code code d st m -> RespondToDeviceAuthByUserCode sql d code u true enc prefix n n' = (d', Ok tt) ->
  d' = set_states d (<[os_UID st := with_meta st (decided_meta m u true enc prefix)]> (oauth_states d)) /\
  os_Provider st = DeviceAuthProvider.
Proof.
  intros Hone. unfold RespondToDeviceAuthByUserCode.
  destruct (getDeviceAuthStateByUserCode _ _ _ _) as [[s' m']|x|] eqn:E; [|done..].
  destruct (by_code _ _ _ _ _ _ _ _ Hone E) as [-> ->]. destruct (String.eqb _ _); [|done].
  unfold respond_update. destruct (negb _); [done|]. destruct Hone as (-> & _).
  destruct (_ && _ && _) eqn:Ec; [|done]. apply andb_true_iff in Ec as [[Ep%String.eqb_eq _]%andb_true_iff _].
  by intros [= <-].
Qed.

Lemma device_poll sql d now st m :
  acct_ok d -> (forall i, sql i = true) -> oauth_states d !! os_UID st = Some st -> os_Metadata st = Some m ->
  os_Provider st = DeviceAuthProvider -> now < os_ExpiresAt st -> dm_Status m = DeviceAuthStatusApproved ->
  PollDeviceAuthToken sql d (os_State st) now =
    (set_states d (delete (os_UID st) (oauth_states d)), Ok (device_request st m, dm_EncryptedKey m)).
Proof.
  intros Hok Hs Est Em Ep Hexp Hst. unfold PollDeviceAuthToken, poll_select. rewrite !Hs. cbn [negb].
  unfold find_state.
  rewrite (find_rows_unique (fun _ => true) os_State _ (oauth_states d) (os_UID st) st); [|apply Hok|done| |].
  - rewrite Em. unfold poll_finish. rewrite Hst. by cbn.
  - rewrite Ep, !String.eqb_refl. unfold unexpired. by apply Z.ltb_lt in Hexp as ->.
  - intros w [[Hw%String.eqb_eq _]%andb_true_iff _]%andb_true_iff. done.
Qed.

Lemma audit_states e site ev u by_ d s s' x :
  audit e site ev u by_ d s = (s', x) -> oauth_states (a_db s') = oauth_states (a_db s) /\
  api_keys (a_db s') = api_keys (a_db s) /\ rtc acct_step (a_db s) (a_db s').
Proof.
  unfold audit, ignore, hbind, exec.
  match goal with |- context [LogAuditEvent ?q ?d ?ev ?u ?n] =>
    pose proof (LogAuditEvent_same q d ev u n) as [_ Hk Hs]; pose proof (st_audit d q ev u n) as Hstep;
    destruct (LogAuditEvent q d ev u n) as [d' [x'|err|]] end;
    cbn in *; intros [= <- _]; cbn; (split; [done|]); (split; [done|]); by apply rtc_once.
Qed.

(** What an approval leaves behind. *)
Lemma approval_inl e c req me st m s s1 r rb salt nonce :
  acct_ok (a_db s) -> kr_key (rq_key e) = Some rb -> zlen rb = APIKeyRandomLength ->
  kr_hash_salt (rq_key e) = Some salt ->
  rq_rnd e 0 = Some nonce -> zlen nonce = NonceSize -> zlen (ac_encryptionKey cfg) = 32 ->
  only_code (normalizeUserCode (dq_UserCode req)) (a_db s) st m -> dq_Approve req = true -> cx_user c = Some me ->
  handleDeviceConsent cfg e c (Some req) s = (s1, inl r) ->
  exists k token h ciph, HashPassword (Some salt) token = Ok h /\ slen token = 36 /\ k_KeyHash k = h /\
    k_KeyPrefix k = String.substring 0 (Z.to_nat APIKeyPrefixLength) token /\
    k_ExpiresAt k = None /\ k_RevokedAt k = None /\ k_UserID k = u_UID me /\
    Decrypt ciph (ac_encryptionKey cfg) (DeviceAuthAAD (uuid_String (os_UID st))) = Ok (str_bytes token) /\
    acct_ok (a_db s1) /\ api_keys (a_db s1) !! rq_uid e 0 = Some k /\ os_Provider st = DeviceAuthProvider /\
    oauth_states (a_db s1) !! os_UID st = Some (with_meta st (decided_meta m (u_UID me) true ciph (k_KeyPrefix k))).
Proof.
  intros Hok Hrb Hlen Hsalt Hn Hnl Hkl Hone Happ Hme. unfold handleDeviceConsent.
  intros (t0 & req' & B & Hrun)%hbind_inl. apply bound_inl in B as [-> B].
  unfold bind in B. destruct (nonempty _); [|done]. apply (inj Some) in B. subst req'.
  apply hbind_inl in Hrun as (t1 & code & B & Hrun).
  assert (t1 = s /\ code = normalizeUserCode (dq_UserCode req)) as [-> ->].
  { unfold code_of in B. by apply refuse_inl in B as [_ [= <- <-]]. }
  apply hbind_inl in Hrun as (t2 & dreq & B2 & Hrun). apply or_stop_inl, query_inl in B2 as [-> Hd].
  apply (device_get _ _ _ _ _ _ _ Hone) in Hd. subst dreq.
  apply refuse_inl in Hrun as [_ Hrun].
  apply hbind_inl in Hrun as (t3 & me' & B3 & Hrun). apply deref_inl in B3 as [-> B3]. rewrite Hme in B3. injection B3 as <-.
  apply hbind_inl in Hrun as (t4 & [enc prefix] & B4 & Hrun). rewrite Happ in *. unfold consent_key in B4. cbn [negb] in B4.
  apply hbind_inl in B4 as (t5 & [k token] & B5 & B6). apply or_stop_inl, exec_inl in B5 as (d1 & Ec & ->).
  pose proof (CreateAPIKey_states (rq_sql e 11) (a_db s) (u_UID me) ("device: " ++ da_ClientName (device_request st m)) None
    (Some (ac_encryptionKey cfg)) (rq_uid e 0) (rq_key e) (rq_now e 11)) as Hst1.
  pose proof (CreateAPIKey_ok (rq_sql e 11) (a_db s) (u_UID me) ("device: " ++ da_ClientName (device_request st m)) None
    (Some (ac_encryptionKey cfg)) (rq_uid e 0) (rq_key e) (rq_now e 11) Hok) as Hok1.
  rewrite Ec in Hst1, Hok1. cbn [fst] in Hst1, Hok1.
  apply (CreateAPIKey_Ok _ _ _ _ _ _ _ _ _ _ _ _ rb salt Hrb Hlen Hsalt) in Ec as (h & Eh & Hl & Ek & Hid & Hh & Hp & He & Hr & Hu).
  apply hbind_inl in B6 as (t6 & enc' & B6 & B7). apply or_stop_inl in B6. injection B6 as <- Henc.
  injection B7 as <- <- <-. rewrite Hn in Henc.
  destruct (encrypt_roundtrip nonce (str_bytes token) (ac_encryptionKey cfg) (DeviceAuthAAD (uuid_String (os_UID st))) Hnl Hkl)
    as (ciph & Eenc & Edec & _).
  change (da_UID (device_request st m)) with (os_UID st) in Henc. rewrite Eenc in Henc. injection Henc as <-.
  apply hbind_inl in Hrun as (t7 & [] & B7 & Hrun). apply or_stop_inl, exec_inl in B7 as (d2 & Er & ->).
  assert (Hone1 : only_code (normalizeUserCode (dq_UserCode req)) d1 st m) by (unfold only_code in *; by rewrite Hst1).
  pose proof (st_device_respond d1 (rq_sql e 12) (normalizeUserCode (dq_UserCode req)) (u_UID me) true ciph (k_KeyPrefix k)
    (rq_now e 12) (rq_now e 13)) as Hstep. cbn [a_db put_db] in Er. rewrite Er in Hstep. cbn [fst] in Hstep.
  apply (device_respond _ _ _ _ _ _ _ _ _ _ _ Hone1) in Er as [Ed2 Hprov].
  apply hbind_inl in Hrun as (t8 & [] & B8 & Hrun). injection Hrun as <- _.
  apply audit_states in B8 as (Hst8 & Hk8 & Hlater). cbn [a_db put_db] in *.
  exists k, token, h, ciph. repeat (split; [done|]). split; [|rewrite Hk8, Hst8, Ed2; cbn; by rewrite lookup_insert_eq].
  apply (acct_steps_ok _ _ Hlater), (acct_step_ok _ _ Hstep Hok1).
Qed.

Lemma token_run e s dc d' dreq enc plain :
  dc <> "" -> PollDeviceAuthToken (rq_sql e 10) (a_db s) dc (rq_now e 10) = (d', Ok (dreq, enc)) ->
  da_Status dreq = DeviceAuthStatusApproved ->
  Decrypt enc (ac_encryptionKey cfg) (DeviceAuthAAD (uuid_String (da_UID dreq))) = Ok plain ->
  run (handleDeviceToken cfg e (Some {| dt_GrantType := deviceGrantType; dt_DeviceCode := dc |})) s =
    (put_db s d', respond StatusOK (BDeviceToken (bytes_str plain) "Bearer")).
Proof.
  intros Hdc Hp Hst Hdec. apply String.eqb_neq in Hdc.
  unfold run, handleDeviceToken, bind, nonempty. cbn [dt_GrantType dt_DeviceCode]. rewrite Hdc.
  change (negb (String.eqb deviceGrantType "") && negb false) with true. cbv iota.
  cbn [dt_GrantType dt_DeviceCode]. rewrite String.eqb_refl. cbn [negb].
  unfold or_stop, catch, hbind, exec. rewrite Hp. cbv beta iota. unfold hret at 1. cbv beta iota.
  rewrite Hst. change (String.eqb DeviceAuthStatusApproved DeviceAuthStatusPending) with false.
  change (String.eqb DeviceAuthStatusApproved DeviceAuthStatusDenied) with false. cbv beta iota. by rewrite Hdec.
Qed.

(** C25. A device code that was approved is exchanged, once, for a key of the user who
    approved it: the token in the response verifies as that key, which does not
    expire, and the request is gone. *)
Theorem device_key_delivered e e3 c req me st m s s1 r rb salt nonce :
  acct_ok (a_db s) -> kr_key (rq_key e) = Some rb -> zlen rb = APIKeyRandomLength ->
  kr_hash_salt (rq_key e) = Some salt -> wf_bytes salt ->
  rq_rnd e 0 = Some nonce -> zlen nonce = NonceSize -> zlen (ac_encryptionKey cfg) = 32 ->
  only_code (normalizeUserCode (dq_UserCode req)) (a_db s) st m -> dq_Approve req = true -> cx_user c = Some me ->
  handleDeviceConsent cfg e c (Some req) s = (s1, inl r) ->
  os_State st <> "" -> (forall i, rq_sql e3 10 i = true) -> rq_now e3 10 < os_ExpiresAt st ->
  exists token k s2,
    run (handleDeviceToken cfg e3 (Some {| dt_GrantType := deviceGrantType; dt_DeviceCode := os_State st |})) s1
      = (s2, respond StatusOK (BDeviceToken token "Bearer")) /\
    k_UserID k = u_UID me /\ k_ExpiresAt k = None /\ k_KeyPrefix k = String.substring 0 (Z.to_nat APIKeyPrefixLength) token /\
    oauth_states (a_db s2) !! os_UID st = None /\
    forall sql n n' n'', sql 0%nat = true -> VerifyAPIKey sql (a_db s2) None token n n' n'' = (None, Ok k).
Proof.
  intros Hok Hrb Hlen Hsalt Hwf Hn Hnl Hkl Hone Happ Hme Hrun Hcode Hsql Hexp.
  destruct (approval_inl _ _ _ _ _ _ _ _ _ _ _ _ Hok Hrb Hlen Hsalt Hn Hnl Hkl Hone Happ Hme Hrun)
    as (k & token & h & ciph & Eh & Hl & Hh & Hp & He & Hr & Hu & Hdec & Hok1 & Ek & Hprov & Est).
  set (m' := decided_meta _ _ _ _ _) in *. set (d := a_db s1) in *.
  pose proof (device_poll (rq_sql e3 10) d (rq_now e3 10) (with_meta st m') m' Hok1 Hsql Est eq_refl Hprov Hexp eq_refl) as Hpoll.
  exists token, k, (put_db s1 (set_states d (delete (os_UID st) (oauth_states d)))).
  split; [|split; [done|split; [done|split; [done|split; [cbn; by rewrite lookup_delete_eq|]]]]].
  - rewrite <- (bytes_str_bytes token). by apply (token_run _ _ _ _ _ _ _ Hcode Hpoll).
  - intros sql n n' n'' Hs. pose proof (st_delete_state d true (os_UID st)) as Hdel. cbn in Hdel.
    destruct (key_found d (set_states d (delete (os_UID st) (oauth_states d))) (rq_uid e 0) k token h salt sql n n' n'' Ek Hh Eh Hwf Hp) as (k2 & E2 & _ & Hv);
      [by rewrite Hl|exact (acct_step_ok _ _ Hdel Hok1)|by apply rtc_once|done|].
    cbn in E2. rewrite Ek in E2. injection E2 as <-. unfold IsRevoked, IsExpired in Hv. rewrite Hr, He in Hv. exact Hv.
Qed.

(** *** Where a password set through the API can be read *)

Definition audit_same (s s' : ApiState) : Prop := audit_log (a_db s') = audit_log (a_db s).
#[local] Instance audit_same_preorder : PreOrder audit_same.
Proof. unfold audit_same. split; [by intros s|]. intros s1 s2 s3 H1 H2. congruence. Qed.

Lemma exec_audit {A} (f : AcctDB -> ares A) : (forall d, audit_log (f d).1 = audit_log d) -> steps audit_same (exec f).
Proof. intros Hf s. unfold exec, audit_same. specialize (Hf (a_db s)). by destruct (f (a_db s)). Qed.

Lemma UpdateUser_audit sql d uid up n n' : audit_log (UpdateUser sql d uid up n n').1 = audit_log d.
Proof. unfold UpdateUser. destruct (negb _); [done|]. by destruct (live_user_at d uid). Qed.

Lemma verifier_audit sql d uid pw ek rnd nonces n : audit_log (SetUserMongoVerifier sql d uid pw ek rnd nonces n).1 = audit_log d.
Proof. unfold SetUserMongoVerifier, persistUserMongoVerifier. repeat (case_match; try done). Qed.

Lemma insert_members_audit sql pairs : forall i d, audit_log (insert_members sql i d pairs).1 = audit_log d.
Proof.
  induction pairs as [|[g u] pairs IH]; intros i d; cbn [insert_members]; [done|].
  unfold insert_member. destruct (_ && _ && _); [|done]. by rewrite IH.
Qed.

Lemma SetUserGroups_audit sql d u gs : audit_log (SetUserGroups sql d u gs).1 = audit_log d.
Proof.
  unfold SetUserGroups, replace_members, in_tx. destruct (negb (sql 0%nat)); [done|]. destruct (negb (sql 1%nat)); [done|].
  match goal with |- context [insert_members ?q ?i ?d ?ps] => pose proof (insert_members_audit q ps i d) as H;
    destruct (insert_members q i d ps) as [d' [a|err|]] end; try done. by destruct (sql _).
Qed.

(** An audit event whose statement succeeds is in the log from then on. *)
Lemma audit_logged e site ev u by_ det s s' x :
  audit e site ev u by_ det s = (s', x) ->
  audit_log (a_db s) ⊆ audit_log (a_db s') /\
  (rq_sql e site 0%nat = true -> audit_log (a_db s) !! rq_uid e site = None ->
   audit_log (a_db s') !! rq_uid e site =
     Some {| al_UID := rq_uid e site; al_EventType := ev; al_UserID := u; al_PerformedBy := by_; al_Details := det;
             al_CreatedAt := rq_now e site |}).
Proof.
  unfold audit, ignore, hbind, exec, LogAuditEvent. intros H. destruct (rq_sql e site 0%nat).
  - destruct (audit_log (a_db s) !! rq_uid e site) eqn:E; cbn in H; injection H as <- _; cbn; [done|].
    split; [by apply insert_subseteq|]. intros _ _. by rewrite lookup_insert_eq.
  - cbn in H. injection H as <- _. by cbn.
Qed.

(** All the events about one user, no limit. *)
Definition audit_of (uid : uuid) : AuditQuery :=
  {| aq_EventType := ""; aq_UserID := Some uid; aq_PerformedBy := None; aq_StartTime := None; aq_EndTime := None;
     aq_Before := None; aq_Limit := "0"; aq_Offset := "" |}.

(** A password set through PUT /users/:uid is written in clear into the audit log,
    and a viewer who lists the log reads it there. *)
Theorem update_audit_leaks_password e e2 uid req me p s s1 r c viewer :
  update_user_writes cfg e uid req me s = (s1, inl r) -> up_Password req = Some p ->
  rq_sql e 30 0%nat = true -> audit_log (a_db s) !! rq_uid e 30 = None ->
  cx_user c = Some viewer -> IsViewer viewer = true -> rq_sql e2 10 0%nat = true ->
  exists ev evs fields,
    run (serve_auth cfg e2 (GetAudit (audit_of uid)) c) s1 = (s1, successResponse (BAudit evs)) /\ In ev evs /\
    al_Details ev = JsonObj [("updated_fields", JsonObj fields)] /\ In ("password", JsonStr p) fields.
Proof.
  intros Hrun Hp Hq Hfresh Hc Hv Hq2. unfold update_user_writes in Hrun. rewrite Hp in Hrun.
  apply hbind_inl in Hrun as (t1 & hash & B & Hrun).
  apply hbind_inl in Hrun as (t2 & [] & B2 & Hrun).
  apply hbind_inl in Hrun as (t3 & [] & B3 & Hrun).
  apply hbind_inl in Hrun as (t4 & [] & B4 & Hrun).
  apply hbind_inl in Hrun as (t5 & [] & B5 & Hrun).
  apply hbind_inl in Hrun as (t6 & [] & B6 & Hrun). injection Hrun as -> _.
  assert (Hsame : audit_log (a_db t4) = audit_log (a_db s)).
  { assert (Hst : forall A (m : H A) u u' x, steps audit_same m -> m u = (u', x) -> audit_log (a_db u') = audit_log (a_db u)).
    { intros A m u u' x Hm E. specialize (Hm u). by rewrite E in Hm. }
    rewrite (Hst _ _ _ _ _ (ltac:(unfold setMongoVerifier; apply steps_ignore; [exact _|]; apply exec_audit; intros; apply verifier_audit)) B4).
    apply Hst in B3; [|destruct (up_GroupUIDs req); [apply steps_or_stop; [exact _|]; apply exec_audit; intros; apply SetUserGroups_audit|by intros ?]].
    apply Hst in B2; [|apply steps_or_stop; [exact _|]; apply exec_audit; intros; apply UpdateUser_audit].
    apply hbind_inl in B as (t0 & h & B & [= <- _]). apply or_stop_inl in B. injection B as <- _. congruence. }
  apply audit_logged in B5 as [_ Hlog]. specialize (Hlog Hq ltac:(by rewrite Hsame)).
  assert (Hsub : audit_log (a_db t5) ⊆ audit_log (a_db s1)).
  { destruct (up_GroupUIDs req); [by apply audit_logged in B6 as [? _]|]. by injection B6 as ->. }
  eapply lookup_weaken in Hlog; [|exact Hsub].
  match type of Hlog with _ = Some ?ev => exists ev end.
  set (evs := order_desc (fun e => Z.of_N (al_UID e)) (List.filter (audit_selected (audit_filter (audit_of uid))) (rows (audit_log (a_db s1))))).
  exists evs. eexists. split; [|split; [|split; [reflexivity|left; by rewrite Hp]]].
  - unfold run, serve_auth. cbn [guard handle]. unfold requireAdminOrViewer. rewrite Hc, Hv.
    cbn [negb]. rewrite andb_false_r. cbv beta iota delta [hbind hret].
    unfold handleListAudit, or_stop, catch, query, hbind, ListAuditEvents. by rewrite Hq2.
  - apply in_order_desc, filter_In. split; [apply elem_rows; eauto|].
    unfold audit_selected. cbn. by rewrite N.eqb_refl.
Qed.
End Sessions.

(** ** Witnesses *)

Import ApiSample.

Definition bob_login : LoginRequest := {| lr_Username := "bob"; lr_Password := "secret" |}.

Lemma login_session_witness :
  exists s1 r u token k2 s3, handleLogin cfg (env 100 50) (Some bob_login) (server staff) = (s1, inl r) /\
    r_body r = BLogin token (Some (100 + WebSessionMaxDuration)) (u_UID u) (u_Username u) (u_Roles u) false /\
    handleBearerAuth (env 101 60) token s1
      = (s3, inl {| cx_user := Some u; cx_key := Some k2; cx_method := authMethodWebSession |}).
Proof.
  set (run1 := handleLogin cfg (env 100 50) (Some bob_login) (server staff)).
  destruct (value_of run1) as [r|] eqn:E; [|vm_compute in E; discriminate].
  apply value_of_inl in E as [s1 E]. assert (Hs1 : s1 = run1.1) by (by rewrite E).
  destruct (login_session cfg (env 100 50) bob_login (server staff) s1 r (replicate 32 77) (replicate 16 9))
    as (u & token & Hu & _ & _ & _ & Hr & Hlater);
    [exact staff_ok|reflexivity|reflexivity|reflexivity|exact (wf_bytes_check (replicate 16 9) eq_refl)|exact E|].
  assert (Hlive : live_user_at (a_db s1) (u_UID u) = Some u).
  { unfold live_user_at in *. replace (users (a_db s1)) with (users staff); [exact Hu|]. rewrite Hs1. vm_compute. reflexivity. }
  assert (Hcache : a_cache s1 = None) by (rewrite Hs1; vm_compute; reflexivity).
  destruct (Hlater (env 101 60) s1 u) as (k2 & Hk2 & _ & Hiff);
    [reflexivity|exact Hcache|reflexivity|reflexivity|exact Hlive|].
  destruct (proj1 Hiff) as (s3 & H3).
  { split; [|discriminate]. rewrite Hs1 in Hk2. vm_compute in Hk2. injection Hk2 as <-. reflexivity. }
  exists s1, r, u, token, k2, s3. split; [exact E|]. split; [by rewrite Hr|exact H3].
Defined.

Definition new_password : UpdateUserRequest := {| up_Password := Some "hunter2"; up_Roles := None; up_GroupUIDs := None |}.

Lemma update_audit_leaks_password_witness :
  exists me viewer s1 r ev evs fields,
    update_user_writes cfg (env 100 50) bob new_password me (server staff) = (s1, inl r) /\
    run (serve_auth cfg (env 101 90) (GetAudit (audit_of bob))
           {| cx_user := Some viewer; cx_key := None; cx_method := authMethodBasic |}) s1
      = (s1, successResponse (BAudit evs)) /\
    In ev evs /\ al_Details ev = JsonObj [("updated_fields", JsonObj fields)] /\ In ("password", JsonStr "hunter2") fields.
Proof.
  destruct (users staff !! bob) as [me|] eqn:Em; [|vm_compute in Em; discriminate].
  destruct (users staff !! carol) as [viewer|] eqn:Ev; [|vm_compute in Ev; discriminate].
  destruct (value_of (update_user_writes cfg (env 100 50) bob new_password me (server staff))) as [r|] eqn:E;
    [|vm_compute in Em; injection Em as <-; vm_compute in E; discriminate].
  apply value_of_inl in E as [s1 E].
  destruct (update_audit_leaks_password cfg (env 100 50) (env 101 90) bob new_password me "hunter2" (server staff) s1 r
    {| cx_user := Some viewer; cx_key := None; cx_method := authMethodBasic |} viewer) as (ev & evs & fields & H1 & H2 & H3 & H4);
    [exact E|reflexivity|reflexivity|reflexivity|reflexivity|vm_compute in Ev; injection Ev as <-; reflexivity|reflexivity|].
  exists me, viewer, s1, r, ev, evs, fields. auto.
Defined.

(** A device waits; alice types its code and approves; the device collects. *)
Definition waiting : AcctDB := (CreateDeviceAuthRequest ok staff "cli" "device-secret" "ABCDEFGH" 9%N 20 20).1.
Definition approval : DeviceConsentRequest := {| dq_UserCode := "abcd-efgh"; dq_Approve := true |}.

Lemma waiting_ok : acct_ok waiting.
Proof. apply (acct_step_ok staff); [apply st_device_create|apply staff_ok]. Qed.

Lemma device_key_delivered_witness :
  exists me s1 r token s2, handleDeviceConsent cfg (env 100 50) {| cx_user := Some me; cx_key := None; cx_method := authMethodBasic |}
      (Some approval) (server waiting) = (s1, inl r) /\
    run (handleDeviceToken cfg (env 101 90) (Some {| dt_GrantType := deviceGrantType; dt_DeviceCode := "device-secret" |})) s1
      = (s2, respond StatusOK (BDeviceToken token "Bearer")).
Proof.
  destruct (users waiting !! alice) as [me|] eqn:Em; [|vm_compute in Em; discriminate].
  set (c := {| cx_user := Some me; cx_key := None; cx_method := authMethodBasic |}).
  destruct (oauth_states waiting !! 9%N) as [st|] eqn:Est; [|vm_compute in Est; discriminate].
  assert (Hst : exists m, os_UID st = 9%N /\ os_State st = "device-secret" /\ os_Metadata st = Some m /\ dm_UserCode m = "ABCDEFGH" /\
                          os_ExpiresAt st = 20 + DeviceAuthTTL).
  { vm_compute in Est. injection Est as <-. eexists. repeat split. }
  destruct Hst as (m & Hid & Hdc & Hm & Hcode & Hexp).
  destruct (value_of (handleDeviceConsent cfg (env 100 50) c (Some approval) (server waiting))) as [r|] eqn:E;
    [|subst c; vm_compute in Em; injection Em as <-; vm_compute in E; discriminate].
  apply value_of_inl in E as [s1 E].
  destruct (device_key_delivered cfg (env 100 50) (env 101 90) c approval me st m (server waiting) s1 r
    (replicate 32 77) (replicate 16 9) (replicate 12 7)) as (token & k & s2 & H & _);
    [exact waiting_ok|reflexivity|reflexivity|reflexivity|exact (wf_bytes_check (replicate 16 9) eq_refl)
    |reflexivity|reflexivity|reflexivity| |reflexivity|reflexivity|exact E|by rewrite Hdc|done|rewrite Hexp; reflexivity|].
  { split; [by rewrite Hid|]. split; [exact Hm|]. intros id st' Hid' _. rewrite Hid.
    destruct (decide (id = 9%N)) as [|Hne]; [done|exfalso]. change (oauth_states waiting !! id = Some st') in Hid'.
    replace (oauth_states waiting) with ({[ 9%N := st ]} : gmap uuid OAuthState) in Hid'.
    - rewrite lookup_singleton_ne in Hid'; [discriminate|congruence].
    - vm_compute in Est. injection Est as <-. vm_compute. reflexivity. }
  rewrite Hdc in H. exists me, s1, r, token, s2. split; [exact E|exact H].
Defined.
