(* ===== verification/ApiOAuth.v ===== *)
(** * Logging in through an OAuth provider ([internal/api/oauth.go],
    [internal/auth/slack/provider.go])

    The provider is an interface; Slack's implementation is over the answers of its two
    HTTP endpoints.  The outside also supplies Unicode case mapping and the folding of
    accents ([NameText]). *)

From Stdlib Require Import ZArith Lia List Bool String Ascii.
From stdpp Require Import base list gmap strings relations.
From S2P Require Import Prelude GoStrings Encoding Models Revocation RateLimit AuthCache GrantStore Crypto Accounts ApiKeys AccountSafety AccountTheorems Servers LoginTracker Endpoints ApiBase ApiAuth ApiUsers ApiDevice ApiGroups ApiGrants ApiRoutes ApiSafety.

Open Scope string_scope.
Open Scope Z_scope.
Open Scope api_scope.

(** ** Providers *)

Record OAuthUser := {
  ou_ProviderID : string;
  ou_Email : string;
  ou_DisplayName : string;
  ou_TeamID : string;
  ou_TeamName : string;
  ou_AvatarURL : string;
  ou_RawData : string
}.

Inductive oauth_error := ErrWrongWorkspace | ErrUnexpectedStatus | ErrSlackAPI (text : string) | ErrTransport | ErrDecoding.

Record OAuthProvider := {
  pr_Name : string;
  pr_AuthorizeURL : string -> string -> string;         (* state, redirect URI *)
  pr_ExchangeCode : string -> string -> res oauth_error OAuthUser
}.

Module Slack.
Record tokenResponse := { tk_OK : bool; tk_AccessToken : string; tk_Error : string }.
Record userInfoResponse := {
  ui_OK : bool;
  ui_Sub : string;
  ui_Name : string;
  ui_Email : string;
  ui_Picture : string;
  ui_TeamID : string;
  ui_TeamName : string;
  ui_Error : string
}.

Record Provider := { sp_clientID : string; sp_clientSecret : string; sp_teamID : string }.

(** [url.Values.Encode], the keys in order. *)
Fixpoint encode_values (l : list (string * string)) : string :=
  match l with
  | [] => ""
  | [(k, v)] => QueryEscape k ++ "=" ++ QueryEscape v
  | (k, v) :: l => QueryEscape k ++ "=" ++ QueryEscape v ++ "&" ++ encode_values l
  end.

Definition defaultAuthorizeURL := "https://slack.com/openid/connect/authorize".

Definition AuthorizeURL (p : Provider) (state redirectURI : string) : string :=
  defaultAuthorizeURL ++ "?" ++ encode_values
    ([("client_id", sp_clientID p); ("redirect_uri", redirectURI); ("response_type", "code"); ("scope", "openid email profile");
      ("state", state)] ++ if String.eqb (sp_teamID p) "" then [] else [("team", sp_teamID p)])%list.

Section Exchange.
(** The endpoints: no answer, or a status and the decoded body when it decodes; and
    [json.Marshal] of the user info. *)
Variable token_endpoint : string -> option (Z * option tokenResponse).
Variable userinfo_endpoint : string -> option (Z * option userInfoResponse).
Variable marshal : userInfoResponse -> string.

Definition answered {A} (r : option (Z * option A)) : res oauth_error A :=
  match r with
  | None => Err ErrTransport
  | Some (status, body) =>
      guard! status =? 200 else ErrUnexpectedStatus in
      match body with Some a => Ok a | None => Err ErrDecoding end
  end.

Definition exchangeToken (p : Provider) (code redirectURI : string) : res oauth_error string :=
  let! r := answered (token_endpoint (encode_values
              [("client_id", sp_clientID p); ("client_secret", sp_clientSecret p); ("code", code); ("redirect_uri", redirectURI)])) in
  guard! tk_OK r else ErrSlackAPI (tk_Error r) in
  Ok (tk_AccessToken r).

Definition fetchUserInfo (accessToken : string) : res oauth_error userInfoResponse :=
  let! r := answered (userinfo_endpoint ("Bearer " ++ accessToken)) in
  guard! ui_OK r else ErrSlackAPI (ui_Error r) in
  Ok r.

Definition ExchangeCode (p : Provider) (code redirectURI : string) : res oauth_error OAuthUser :=
  let! token := exchangeToken p code redirectURI in
  let! userInfo := fetchUserInfo token in
  guard! String.eqb (sp_teamID p) "" || String.eqb (ui_TeamID userInfo) (sp_teamID p) else ErrWrongWorkspace in
  Ok {| ou_ProviderID := ui_Sub userInfo; ou_Email := ui_Email userInfo; ou_DisplayName := ui_Name userInfo;
        ou_TeamID := ui_TeamID userInfo; ou_TeamName := ui_TeamName userInfo; ou_AvatarURL := ui_Picture userInfo;
        ou_RawData := marshal userInfo |}.

Definition NewProvider (p : Provider) : OAuthProvider :=
  {| pr_Name := "slack"; pr_AuthorizeURL := AuthorizeURL p; pr_ExchangeCode := ExchangeCode p |}.
End Exchange.
End Slack.

(** ** User names *)

Class NameText := { lower_name : string -> string; foldAccents : string -> string }.

(** White space becomes a dot; the input is UTF-8. *)
Fixpoint dot_spaces (s : string) : string :=
  match s with
  | EmptyString => ""
  | String c r =>
      if is_space1 c then String "." (dot_spaces r)
      else match r with
           | String d r2 =>
               if is_space2 c d then String "." (dot_spaces r2)
               else match r2 with
                    | String e r3 => if is_space3 c d e then String "." (dot_spaces r3) else String c (dot_spaces r)
                    | EmptyString => String c (dot_spaces r)
                    end
           | EmptyString => String c ""
           end
  end.

Definition is_lower_or_digit (c : ascii) : bool := let n := code c in (97 <=? n) && (n <=? 122) || (48 <=? n) && (n <=? 57).
(** [[a-z0-9._-]] *)
Definition name_char (c : ascii) : bool := is_lower_or_digit c || Ascii.eqb c "." || Ascii.eqb c "_" || Ascii.eqb c "-".

Fixpoint keep_chars (p : ascii -> bool) (s : string) : string :=
  match s with EmptyString => "" | String c r => if p c then String c (keep_chars p r) else keep_chars p r end.

Definition hasUsernameContent (s : string) : bool := negb (all_chars (fun c => negb (is_lower_or_digit c)) s).

Definition canonicalizeUsername {NT : NameText} (displayName email : string) : string :=
  let base := if negb (String.eqb displayName "") then displayName
              else if String.eqb email "" then "" else match cut_first "@" email with Some (b, _) => b | None => email end in
  let base := if String.eqb base "" then "user" else base in
  let base := keep_chars name_char (dot_spaces (foldAccents (lower_name base))) in
  let base := if 30 <? slen base then String.substring 0 30 base else base in
  if hasUsernameContent base then base else "user".

(** ** Handlers *)

Definition oauthStateTTL : Z := 10 * Minute.

Record HttpRequest := { hr_TLS : bool; hr_ForwardedProto : string; hr_Host : string }.

Definition redirect (url : string) : Response := {| r_status := StatusFound; r_headers := [("Location", url)]; r_body := BNone |}.

(** The codes of the OAuth handlers; no other reaches [redirectWithError]. *)
Definition oauth_code_text (c : ErrorCode) : string :=
  match c with
  | ErrCodeOAuthProviderError => "OAUTH_PROVIDER_ERROR"
  | ErrCodeOAuthStateMismatch => "OAUTH_STATE_MISMATCH"
  | ErrCodeOAuthFailed => "OAUTH_FAILED"
  | ErrCodeOAuthUserNotLinked => "OAUTH_USER_NOT_LINKED"
  | _ => "OAUTH_WRONG_WORKSPACE"
  end.

(** Why no local user was found. *)
Inductive resolve_error := ErrOAuthUserNotLinked | ErrResolve.

Section OAuth.
Context {C : Collation} {A2 : Argon2} {GCM : AEAD} {HS : Hashes} {dig : Digest} {order : MapOrder}
  {UT : UUIDText} {SK : ScramKeys} {TT : TimeText} {NT : NameText}.
Variables (cfg : ApiConfig) (e : ReqEnv) (oauthProviders : gmap string OAuthProvider).

Definition base_url : string :=
  match ac_config cfg with Some c => if String.eqb (cf_BaseURL c) "" then "/app" else cf_BaseURL c | None => "/app" end.
Definition redirectWithError (code : ErrorCode) : Response := redirect (base_url ++ "/login?error=" ++ oauth_code_text code).

Definition buildCallbackURL (r : HttpRequest) (providerName : string) : string :=
  let scheme := if hr_TLS r then "https" else if String.eqb (hr_ForwardedProto r) "" then "http" else hr_ForwardedProto r in
  scheme ++ "://" ++ hr_Host r ++ "/api/v1/auth/" ++ providerName ++ "/callback".

Definition handleOAuthAuthorize (providerName : string) (r : HttpRequest) : H Response :=
  match oauthProviders !! providerName with
  | None => stop (writeError StatusNotFound ErrCodeNotFound "unknown OAuth provider")
  | Some provider =>
      match generateRandomState (rq_rnd e 3) with
      | Ok stateToken =>
          do! _ := or_stop (exec (fun d => CreateOAuthState (rq_sql e 10) d
                     {| os_UID := Nil; os_State := stateToken; os_Provider := providerName; os_RedirectURL := ""; os_Metadata := None;
                        os_ExpiresAt := rq_now e 10 + oauthStateTTL; os_CreatedAt := 0 |} (rq_uid e 0) (rq_now e 11)))
                     (fun _ => writeInternalError) in
          hret (redirect (pr_AuthorizeURL provider stateToken (buildCallbackURL r providerName)))
      | _ => stop writeInternalError
      end
  end.

(** A step of [findOrCreateOAuthUser]: any error but the ones it looks at is wrapped. *)
Definition or_fail {A B} (m : H (res acct_error A)) (k : A -> H (res resolve_error B)) : H (res resolve_error B) :=
  do! r := m in
  match r with Ok a => k a | Err _ => hret (Err ErrResolve) | Panic => hret Panic end.

Definition linkIdentity (userID : uuid) (providerName : string) (u : OAuthUser) : H (res acct_error UserIdentity) :=
  exec (fun d => CreateUserIdentity (rq_sql e 15) d
    {| i_UID := Nil; i_UserID := userID; i_Provider := providerName; i_ProviderID := ou_ProviderID u; i_Email := ou_Email u;
       i_DisplayName := ou_DisplayName u; i_Metadata := ou_RawData u; i_CreatedAt := 0; i_UpdatedAt := 0; i_DeletedAt := None |}
    (rq_uid e 1) (rq_now e 12) (rq_now e 13)).

(** Its error is only logged. *)
Definition cleanupOrphanIdentity (provider providerID : string) : H unit :=
  do! r := query (fun d => GetIdentityByProviderID (rq_sql e 12) d provider providerID) in
  match r with
  | Ok identity => ignore (exec (fun d => DeleteUserIdentity (rq_sql e 13) d (i_UID identity) (rq_now e 14)))
  | _ => hret tt
  end.

Definition generateUniqueUsername (displayName email : string) : H string :=
  let base := canonicalizeUsername displayName email in
  do! r := query (fun d => GetUserByUsername (rq_sql e 16) d base) in
  match r with
  | Err ErrUserNotFound => hret base
  | _ => hret (base ++ "." ++ hex_encode (default [0; 0; 0; 0] (rq_rnd e 4)))
  end.

Definition create_oauth_user (c : Config) (providerName : string) (u : OAuthUser) : H (res resolve_error User) :=
  let role := if String.eqb (cf_DefaultRole c) "" then RoleConnector else cf_DefaultRole c in
  do! username := generateUniqueUsername (ou_DisplayName u) (ou_Email u) in
  match (let! b := match rq_rnd e 5 with Some b => Ok b | None => Err ErrRand end in HashPassword (rq_rnd e 0) (hex_encode b)) with
  | Ok passwordHash =>
      or_fail (exec (fun d => CreateUser (rq_sql e 17) d username passwordHash [role] (rq_uid e 2) (rq_now e 15) (rq_now e 16))) (fun user =>
      or_fail (exec (fun d => UpdateUser (rq_sql e 18) d (u_UID user) {| uu_PasswordHash := Some passwordHash; uu_Roles := None |}
                                (rq_now e 17) (rq_now e 18))) (fun _ =>
      or_fail (linkIdentity (u_UID user) providerName u) (fun _ =>
      hret (Ok user))))
  | Err _ => hret (Err ErrResolve)
  | Panic => hret Panic
  end.

(** By e-mail, then by creating one. *)
Definition match_or_create (providerName : string) (u : OAuthUser) : H (res resolve_error User) :=
  let create : H (res resolve_error User) :=
    match ac_config cfg with
    | Some c => if cf_AutoCreateUsers c then create_oauth_user c providerName u else hret (Err ErrOAuthUserNotLinked)
    | None => hret (Err ErrOAuthUserNotLinked)
    end in
  if String.eqb (ou_Email u) "" then create
  else
    do! r := query (fun d => GetUserByUsername (rq_sql e 14) d (ou_Email u)) in
    match r with
    | Ok user => or_fail (linkIdentity (u_UID user) providerName u) (fun _ => hret (Ok user))
    | Err ErrUserNotFound => create
    | Err _ => hret (Err ErrResolve)
    | Panic => hret Panic
    end.

Definition findOrCreateOAuthUser (providerName : string) (u : OAuthUser) : H (res resolve_error User) :=
  do! r := query (fun d => GetUserByIdentity (rq_sql e 11) d providerName (ou_ProviderID u)) in
  match r with
  | Ok user => hret (Ok user)
  | Err ErrIdentityNotFound => match_or_create providerName u
  | Err ErrUserNotFound =>
      do! _ := cleanupOrphanIdentity providerName (ou_ProviderID u) in
      match_or_create providerName u
  | Err _ => hret (Err ErrResolve)
  | Panic => hret Panic
  end.

Record CallbackQuery := { cq_error : string; cq_state : string; cq_code : string }.

(** Up to the web session. *)
Definition oauth_login (providerName : string) (r : HttpRequest) (q : CallbackQuery) : H (User * APIKey * string) :=
  refuse! negb (String.eqb (cq_error q) "") with redirectWithError ErrCodeOAuthProviderError in
  refuse! String.eqb (cq_state q) "" with redirectWithError ErrCodeOAuthStateMismatch in
  do! oauthState := or_stop (exec (fun d => ConsumeOAuthState (rq_sql e 10) d (cq_state q) (rq_now e 10)))
                      (fun err => match err with
                                  | ErrOAuthStateNotFound => redirectWithError ErrCodeOAuthStateMismatch
                                  | _ => writeInternalError
                                  end) in
  refuse! negb (String.eqb (os_Provider oauthState) providerName) with redirectWithError ErrCodeOAuthStateMismatch in
  do! provider := deref (oauthProviders !! providerName) in
  do! oauthUser := or_stop (hret (pr_ExchangeCode provider (cq_code q) (buildCallbackURL r providerName)))
                     (fun _ => redirectWithError ErrCodeOAuthFailed) in
  do! user := or_stop (findOrCreateOAuthUser (pr_Name provider) oauthUser)
                (fun err => match err with
                            | ErrOAuthUserNotLinked => redirectWithError ErrCodeOAuthUserNotLinked
                            | ErrResolve => redirectWithError ErrCodeOAuthFailed
                            end) in
  do! ' (k, plainKey) := or_stop (exec (fun d => CreateWebSession (rq_sql e 19) d (u_UID user) (rq_uid e 0) (rq_key e) (rq_now e 19) (rq_now e 20)))
                           (fun _ => writeInternalError) in
  hret (user, k, plainKey).

Definition handleOAuthCallback (providerName : string) (r : HttpRequest) (q : CallbackQuery) : H Response :=
  do! ' (user, k, plainKey) := oauth_login providerName r q in
  hret (redirect (base_url ++ "/login?token=" ++ plainKey)).
End OAuth.

(** * Theorems *)

(** ** User names *)

Lemma keep_chars_all p s : all_chars p (keep_chars p s) = true.
Proof. induction s as [|c s IH]; cbn; [done|]. destruct (p c) eqn:E; cbn; [by rewrite E|done]. Qed.

(** Whatever the display name and the e-mail are, the canonical name is at most thirty
    bytes of [a-z0-9._-] with a letter or digit among them. *)
Theorem canonical_name_ok {NT : NameText} displayName email :
  let n := canonicalizeUsername displayName email in
  n <> "" /\ slen n <= 30 /\ all_chars name_char n = true /\ hasUsernameContent n = true.
Proof.
  unfold canonicalizeUsername. cbv zeta. set (s := keep_chars name_char _).
  assert (Hs : all_chars name_char s = true) by apply keep_chars_all. clearbody s.
  set (b := if 30 <? slen s then _ else s).
  assert (Hb : slen b <= 30 /\ all_chars name_char b = true).
  { unfold b. destruct (30 <? slen s) eqn:E; bools; [|split; [lia|done]]. split; [|by apply all_chars_substring].
    unfold slen in *. rewrite length_substring by lia. lia. }
  clearbody b. destruct (hasUsernameContent b) eqn:Ec; [|by vm_compute]. repeat split; try apply Hb; [|done].
  intros ->. by vm_compute in Ec.
Qed.

(** ** Slack *)

(** What is taken for the user comes from the user-info endpoint under the token the
    code bought, and with a configured team from that team. *)
Theorem slack_user_genuine token_ep info_ep marshal p code uri u :
  Slack.ExchangeCode token_ep info_ep marshal p code uri = Ok u ->
  exists token info, Slack.exchangeToken token_ep p code uri = Ok token /\
    info_ep ("Bearer " ++ token) = Some (200, Some info) /\ Slack.ui_OK info = true /\
    ou_ProviderID u = Slack.ui_Sub info /\ ou_Email u = Slack.ui_Email info /\
    (Slack.sp_teamID p <> "" -> Slack.ui_TeamID info = Slack.sp_teamID p).
Proof.
  unfold Slack.ExchangeCode, Slack.fetchUserInfo, Slack.answered. intros (token & Et & E)%rbind_Ok. exists token.
  apply rbind_Ok in E as (info & Ei & E). destruct (info_ep ("Bearer " ++ token)) as [[st [b|]]|]; cbn in Ei; try done.
  2: by destruct (st =? 200). destruct (st =? 200) eqn:E2; [|done]. cbn in Ei. destruct (Slack.ui_OK b) eqn:Eo; [|done].
  injection Ei as ->. bools. subst st. exists info. destruct (_ || _) eqn:Em; [|done]. injection E as <-. repeat split; try done.
  intros Hn. by apply orb_true_iff in Em as [Em%String.eqb_eq|Em%String.eqb_eq].
Qed.

(** ** Logging in *)

Section Login.
Context {C : Collation} {A2 : Argon2} {GCM : AEAD} {HS : Hashes} {dig : Digest} {order : MapOrder}
  {UT : UUIDText} {SK : ScramKeys} {TT : TimeText} {NT : NameText}.
Variables (cfg : ApiConfig) (e : ReqEnv) (oauthProviders : gmap string OAuthProvider).

(** How the local user of a provider's user was found. *)
Inductive resolved (d : AcctDB) (provider : string) (u : OAuthUser) (user : User) : Prop :=
| by_identity i :
    find_identity d provider (ou_ProviderID u) = Some i -> live_user_at d (i_UserID i) = Some user -> resolved d provider u user
| by_email :
    ou_Email u <> "" -> u_Username user = ou_Email u -> (exists k, users d !! k = Some user) -> live_user user = true ->
    resolved d provider u user
| by_creation c :
    ac_config cfg = Some c -> cf_AutoCreateUsers c = true -> users d !! u_UID user = None ->
    u_Roles user = [if String.eqb (cf_DefaultRole c) "" then RoleConnector else cf_DefaultRole c] -> resolved d provider u user.

Lemma GetUserByUID_row sql d uid u : GetUserByUID sql d uid = Ok u -> live_user_at d uid = Some u.
Proof. unfold GetUserByUID. destruct (sql 0%nat); [|done]. cbn. by destruct (live_user_at d uid) as [x|]; [intros [= ->]|]. Qed.

Lemma GetUserByUsername_row sql d name u :
  GetUserByUsername sql d name = Ok u -> (exists k, users d !! k = Some u) /\ u_Username u = name /\ live_user u = true.
Proof.
  unfold GetUserByUsername. destruct (sql 0%nat); [|done]. cbn. destruct (List.find _ _) as [x|] eqn:Ef; [|done]. intros [= ->].
  apply find_rows_Some in Ef as (Hf & id & Hid). bools. repeat split; [by exists id|done|done].
Qed.

(** The OAuth handlers move the tables by operations of the store. *)
#[local] Instance store_steps_passive' : Passive store_steps.
Proof. intros s s' [E1 E2 E3 _ _]. split; [rewrite E1; apply rtc_refl|rewrite E2; apply rtc_refl|done]. Qed.
#[local] Existing Instance store_steps_preorder.
#[local] Hint Extern 1 (steps store_steps (exec _)) => apply exec_once; intros ?; constructor : api_steps.

Lemma callback_steps name r q : steps store_steps (handleOAuthCallback cfg e oauthProviders name r q).
Proof.
  unfold handleOAuthCallback, oauth_login, findOrCreateOAuthUser, match_or_create, create_oauth_user, generateUniqueUsername,
    cleanupOrphanIdentity, linkIdentity, or_fail. walk.
Qed.
Lemma authorize_steps name r : steps store_steps (handleOAuthAuthorize e oauthProviders name r).
Proof. unfold handleOAuthAuthorize. walk. Qed.

(** *** What a login does *)

Lemma or_fail_inl {A B} (m : H (res acct_error A)) (k : A -> H (res resolve_error B)) s s' b :
  or_fail m k s = (s', inl (Ok b)) -> exists s1 a, m s = (s1, inl (Ok a)) /\ k a s1 = (s', inl (Ok b)).
Proof. unfold or_fail, hbind. destruct (m s) as [s1 [[a|x|]|r]]; intros H; try done. by exists s1, a. Qed.

Lemma exec_Ok {A} (f : AcctDB -> ares A) s s' a : exec f s = (s', inl (Ok a)) -> f (a_db s) = (a_db s', Ok a).
Proof. unfold exec. destruct (f (a_db s)) as [d x] eqn:E. by intros [= <- ->]. Qed.

Lemma login_goes_on {X A} (m : H (res X A)) h s s' a : or_stop m h s = (s', inl a) -> m s = (s', inl (Ok a)).
Proof. unfold or_stop, catch, hbind. destruct (m s) as [s1 [[b|x|]|r]]; intros H; try done. by injection H as <- <-. Qed.

Lemma consume_Ok sql d tok now d' st :
  acct_ok d -> ConsumeOAuthState sql d tok now = (d', Ok st) ->
  oauth_states d !! os_UID st = Some st /\ os_State st = tok /\ now < os_ExpiresAt st /\ d' = set_states d (delete (os_UID st) (oauth_states d)).
Proof.
  intros Hok. unfold ConsumeOAuthState, consume_select, find_state. destruct (sql 0%nat); [|done]. cbn.
  destruct (List.find _ _) as [x|] eqn:Ef; [|done]. unfold delete_state. destruct (sql 1%nat); [|done]. intros [= <- <-].
  apply find_rows_Some in Ef as (Hf & id & Hid). unfold unexpired in Hf. bools. by rewrite (states_keyed _ Hok id x Hid).
Qed.

Lemma create_user_row c name u s s' user :
  create_oauth_user e c name u s = (s', inl (Ok user)) ->
  users (a_db s) !! u_UID user = None /\ u_Roles user = [if String.eqb (cf_DefaultRole c) "" then RoleConnector else cf_DefaultRole c].
Proof.
  unfold create_oauth_user. rewrite hbind_inl. intros (s1 & uname & E1 & E2).
  assert (Hs1 : s1 = s).
  { revert E1. unfold generateUniqueUsername. rewrite hbind_inl. intros (s2 & x & [= <- <-] & E1).
    by destruct (GetUserByUsername _ _ _) as [|[]|]; injection E1 as <- _. }
  subst s1. destruct (rbind _ _) as [hash|x|]; [|done..]. apply or_fail_inl in E2 as (s2 & u2 & E2 & E3).
  apply exec_Ok in E2. apply or_fail_inl in E3 as (s3 & [] & _ & E3). apply or_fail_inl in E3 as (s4 & i & _ & [= _ <-]).
  unfold CreateUser in E2. destruct (negb _ || bool_decide _) eqn:Eg; [done|]. destruct (username_taken _ _); [done|].
  injection E2 as _ <-. cbn. apply orb_false_iff in Eg as [_ Eg%bool_decide_eq_false]. split; [|done].
  by destruct (users (a_db s) !! rq_uid e 2); [destruct Eg; eexists|].
Qed.

Lemma match_resolved name u s s' user d p :
  users d = users (a_db s) -> match_or_create cfg e name u s = (s', inl (Ok user)) -> resolved d p u user.
Proof.
  intros Hd. unfold match_or_create.
  set (create := match ac_config cfg with Some c => _ | None => _ end).
  assert (Hcreate : create s = (s', inl (Ok user)) -> resolved d p u user).
  { unfold create. destruct (ac_config cfg) as [c|] eqn:Ec; [|done]. destruct (cf_AutoCreateUsers c) eqn:Ea; [|done].
    intros [Hn Hr]%create_user_row. eapply by_creation; [exact Ec|exact Ea|by rewrite Hd|exact Hr]. }
  clearbody create. destruct (String.eqb_spec (ou_Email u) ""); [done|]. rewrite hbind_inl. intros (s1 & r & [= <- <-] & Hr).
  destruct (GetUserByUsername _ _ _) as [x|[]|] eqn:Eg; try done; [|by apply Hcreate].
  apply or_fail_inl in Hr as (s2 & i & _ & [= _ <-]). apply GetUserByUsername_row in Eg as ([k Hk] & Hu & Hl).
  apply by_email; [done|done|exists k; by rewrite Hd|done].
Qed.

Lemma find_resolved name u s s' user : findOrCreateOAuthUser cfg e name u s = (s', inl (Ok user)) -> resolved (a_db s) name u user.
Proof.
  unfold findOrCreateOAuthUser. rewrite hbind_inl. intros (s1 & r & [= <- <-] & Hr).
  destruct (GetUserByIdentity _ _ _ _) as [x|[]|] eqn:Eg; try done.
  - injection Hr as _ <-. unfold GetUserByIdentity, GetIdentityByProviderID in Eg. destruct (rq_sql e 11 0%nat); [|done]. cbn in Eg.
    destruct (find_identity _ _ _) as [i|] eqn:Ei; [|done]. cbn in Eg. eapply by_identity; [exact Ei|by eapply GetUserByUID_row].
  - apply hbind_inl in Hr as (s1 & [] & Ec & Hr). eapply match_resolved; [|exact Hr].
    revert Ec. unfold cleanupOrphanIdentity. rewrite hbind_inl. intros (s2 & i & [= <- <-] & Ec).
    destruct (GetIdentityByProviderID _ _ _ _) as [i|x|]; [|by injection Ec as <-..].
    unfold ignore in Ec. apply hbind_inl in Ec as (s2 & x & Ec & Ec2). unfold exec in Ec.
    assert (Hu : users (DeleteUserIdentity (rq_sql e 13) (a_db s) (i_UID i) (rq_now e 14)).1 = users (a_db s)).
    { unfold DeleteUserIdentity. destruct (negb _); [done|]. by destruct (live_identity_at _ _). }
    destruct (DeleteUserIdentity _ _ _ _) as [d y]. injection Ec as <- <-. destruct y; try done; injection Ec2 as <-; cbn in *; by rewrite Hu.
  - by eapply match_resolved.
Qed.

(** The pending logins stay as they are. *)
Definition same_states (s s' : ApiState) : Prop := oauth_states (a_db s') = oauth_states (a_db s).
#[local] Instance same_states_preorder : PreOrder same_states.
Proof. split; [by intros s|]. intros s1 s2 s3 H1 H2. unfold same_states in *. congruence. Qed.
#[local] Instance same_states_passive : Passive same_states.
Proof. intros s s' [E _ _ _ _]. unfold same_states. by rewrite E. Qed.
Lemma exec_same_states {A} (f : AcctDB -> ares A) : (forall d, oauth_states (f d).1 = oauth_states d) -> steps same_states (exec f).
Proof. intros Hf s. unfold exec, same_states. specialize (Hf (a_db s)). by destruct (f (a_db s)). Qed.

Lemma find_same_states name u : steps same_states (findOrCreateOAuthUser cfg e name u).
Proof.
  assert (H1 : forall d x uid n n', oauth_states (CreateUserIdentity (rq_sql e 15) d x uid n n').1 = oauth_states d)
    by (intros; unfold CreateUserIdentity; by destruct (_ && _)).
  assert (H2 : forall d x n, oauth_states (DeleteUserIdentity (rq_sql e 13) d x n).1 = oauth_states d)
    by (intros; unfold DeleteUserIdentity; destruct (negb _); [done|]; by destruct (live_identity_at _ _)).
  assert (H3 : forall d a b c x n n', oauth_states (CreateUser (rq_sql e 17) d a b c x n n').1 = oauth_states d)
    by (intros; unfold CreateUser; destruct (_ || _); [done|]; by destruct (username_taken _ _)).
  assert (H4 : forall d a b n n', oauth_states (UpdateUser (rq_sql e 18) d a b n n').1 = oauth_states d)
    by (intros; unfold UpdateUser; destruct (negb _); [done|]; by destruct (live_user_at _ _)).
  assert (Hx : forall A (f : AcctDB -> ares A), (forall d, oauth_states (f d).1 = oauth_states d) -> steps same_states (exec f))
    by (intros; by apply exec_same_states).
  Local Hint Extern 1 (steps same_states (exec _)) => apply exec_same_states; intros ?; match goal with H : _ |- _ => apply H end : api_steps.
  unfold findOrCreateOAuthUser, match_or_create, create_oauth_user, generateUniqueUsername, cleanupOrphanIdentity, linkIdentity, or_fail. walk.
Qed.

Lemma session_Ok sql d u id r n n' d' k plain :
  CreateWebSession sql d u id r n n' = (d', Ok (k, plain)) ->
  k_UserID k = u /\ k_KeyType k = KeyTypeWeb /\ api_keys d' !! k_ID k = Some k /\ oauth_states d' = oauth_states d.
Proof.
  unfold CreateWebSession. destruct (rbind _ _) as [[[key prefix] hash]|x|]; [|done..]. unfold insert_key.
  destruct (_ && _); [|done]. intros [= <- <- _]. cbn. split; [done|]. split; [done|]. split; [apply lookup_insert_eq|done].
Qed.

Lemma login_facts name r q s s' user k plain :
  acct_ok (a_db s) -> oauth_login cfg e oauthProviders name r q s = (s', inl (user, k, plain)) ->
  exists st provider u,
    oauth_states (a_db s) !! os_UID st = Some st /\ os_State st = cq_state q /\ os_Provider st = name /\ rq_now e 10 < os_ExpiresAt st /\
    oauth_states (a_db s') = delete (os_UID st) (oauth_states (a_db s)) /\
    oauthProviders !! name = Some provider /\ pr_ExchangeCode provider (cq_code q) (buildCallbackURL r name) = Ok u /\
    resolved (a_db s) (pr_Name provider) u user /\
    k_UserID k = u_UID user /\ k_KeyType k = KeyTypeWeb /\ api_keys (a_db s') !! k_ID k = Some k.
Proof.
  intros Hok. unfold oauth_login. destruct (negb (String.eqb (cq_error q) "")); [done|]. destruct (String.eqb (cq_state q) ""); [done|].
  rewrite hbind_inl. intros (s1 & st & E1 & E). apply login_goes_on, exec_Ok in E1. apply (consume_Ok _ _ _ _ _ _ Hok) in E1 as (R1 & R2 & R3 & R4).
  destruct (String.eqb_spec (os_Provider st) name) as [Hp|]; [|done]. cbn [negb] in E.
  apply hbind_inl in E as (s2 & provider & E2 & E). destruct (oauthProviders !! name) as [p|] eqn:Ep; [|done]. injection E2 as <- <-.
  apply hbind_inl in E as (s2 & u & E2 & E). apply login_goes_on in E2. injection E2 as <- Eu.
  apply hbind_inl in E as (s2 & x & E2 & E). apply login_goes_on in E2. pose proof (find_same_states (pr_Name p) u s1) as Hst. rewrite E2 in Hst.
  apply find_resolved in E2. apply hbind_inl in E as (s3 & [k0 pl] & E3 & E). apply login_goes_on, exec_Ok, session_Ok in E3 as (K1 & K2 & K3 & K4).
  injection E as <- <- <- <-. exists st, p, u. unfold same_states in Hst. rewrite R4 in Hst. cbn in Hst.
  repeat split; try done; [by rewrite K4|].
  assert (Hres : forall d d' , users d' = users d -> user_identities d' = user_identities d -> resolved d' (pr_Name p) u x -> resolved d (pr_Name p) u x).
  { intros d d' Hu Hi [i Hf Hl|He Hn Hk Hl|c Hc Ha Hx Hr].
    - eapply by_identity; [unfold find_identity in *; by rewrite <- Hi|unfold live_user_at in *; by rewrite <- Hu].
    - apply by_email; [done|done|by rewrite <- Hu|done].
    - eapply by_creation; [exact Hc|done|by rewrite <- Hu|done]. }
  eapply Hres; [| |exact E2]; by rewrite R4.
Qed.

Lemma login_states name r q s s' user k plain :
  acct_ok (a_db s) -> oauth_login cfg e oauthProviders name r q s = (s', inl (user, k, plain)) ->
  exists st, oauth_states (a_db s) !! os_UID st = Some st /\ os_State st = cq_state q /\ oauth_states (a_db s') = delete (os_UID st) (oauth_states (a_db s)).
Proof.
  intros Hok (st & p & u & H1 & H2 & _ & _ & H3 & _)%login_facts; [|done]. by exists st.
Qed.

(** C22. An OAuth login is sound.  It gives a session to somebody the provider vouches for:
    the state it came back with was issued for this provider, has not expired and is
    spent, the code was exchanged, and the session belongs to the user the provider's
    identity is linked to, to the user whose name is the provider's e-mail address, or
    to a new user with the configured default role when users are created. *)
Theorem oauth_login_sound name r q s s' user k plain :
  acct_ok (a_db s) -> oauth_login cfg e oauthProviders name r q s = (s', inl (user, k, plain)) ->
  exists st provider u,
    oauth_states (a_db s) !! os_UID st = Some st /\ os_State st = cq_state q /\ os_Provider st = name /\ rq_now e 10 < os_ExpiresAt st /\
    oauth_states (a_db s') = delete (os_UID st) (oauth_states (a_db s)) /\
    oauthProviders !! name = Some provider /\ pr_ExchangeCode provider (cq_code q) (buildCallbackURL r name) = Ok u /\
    resolved (a_db s) (pr_Name provider) u user /\
    k_UserID k = u_UID user /\ k_KeyType k = KeyTypeWeb /\ api_keys (a_db s') !! k_ID k = Some k.
Proof. apply login_facts. Qed.

(** A state is good for one login: when it is presented again nothing but the refusal
    happens, whoever presents it and for whichever provider. *)
Theorem oauth_state_single_use e' name r q s s' user k plain name' r' q' :
  acct_ok (a_db s) -> oauth_login cfg e oauthProviders name r q s = (s', inl (user, k, plain)) ->
  cq_error q' = "" -> cq_state q' = cq_state q -> rq_sql e' 10%nat 0%nat = true ->
  handleOAuthCallback cfg e' oauthProviders name' r' q' s' = (s', inr (redirectWithError cfg ErrCodeOAuthStateMismatch)).
Proof.
  intros Hok Hl He Hq Hsql. assert (Hne : String.eqb (cq_state q) "" = false).
  { revert Hl. unfold oauth_login. destruct (negb _); [done|]. by destruct (String.eqb (cq_state q) ""). }
  pose proof (login_states name r q s s' user k plain Hok Hl) as (st & Hst & Htok & Hs').
  unfold handleOAuthCallback, oauth_login. rewrite He, Hq, Hne. cbn [String.eqb negb].
  assert (Hf : find_state (a_db s') (fun x => String.eqb (os_State x) (cq_state q) && unexpired (rq_now e' 10) x) = None).
  { unfold find_state. destruct (List.find _ _) as [x|] eqn:Ef; [|done]. apply find_rows_Some in Ef as (Hx & id & Hid). bools.
    rewrite Hs' in Hid. apply lookup_delete_Some in Hid as [Hne' Hid].
    destruct Hne'. apply (tokens_unique _ Hok (os_UID st) id st x Hst Hid eq_refl eq_refl). congruence. }
  assert (Hc : ConsumeOAuthState (rq_sql e' 10) (a_db s') (cq_state q) (rq_now e' 10) = (a_db s', Err ErrOAuthStateNotFound))
    by (unfold ConsumeOAuthState, consume_select; rewrite Hsql, Hf; reflexivity).
  unfold hbind, or_stop, catch, exec, hbind. rewrite Hc. by destruct s'.
Qed.
End Login.

(** ** A sample provider *)

Module SampleOAuth.
Import ApiSample.
#[export] Instance so_names : NameText := {| lower_name s := s; foldAccents s := s |}.
(** A Slack application open to every workspace; its users say who they are. *)
Definition info (sub email team : string) : Slack.userInfoResponse :=
  {| Slack.ui_OK := true; Slack.ui_Sub := sub; Slack.ui_Name := "mallory"; Slack.ui_Email := email; Slack.ui_Picture := "";
     Slack.ui_TeamID := team; Slack.ui_TeamName := ""; Slack.ui_Error := "" |}.
Definition app (teamID : string) : Slack.Provider := {| Slack.sp_clientID := "id"; Slack.sp_clientSecret := "secret"; Slack.sp_teamID := teamID |}.
Definition slack (teamID : string) (who : Slack.userInfoResponse) : gmap string OAuthProvider :=
  {[ "slack" := Slack.NewProvider (fun _ => Some (200, Some {| Slack.tk_OK := true; Slack.tk_AccessToken := "tok"; Slack.tk_Error := "" |}))
                  (fun _ => Some (200, Some who)) (fun _ => "{}") (app teamID) ]}.
Definition config : Config :=
  {| cf_RunMode := ""; cf_endpoints := {| ec_PublicURL := ""; ec_ListenPG := ""; ec_ListenOracle := ""; ec_ListenMySQL := ""; ec_ListenMongo := "" |};
     cf_DemoTargetDB := ""; cf_BaseURL := ""; cf_AutoCreateUsers := true; cf_DefaultRole := "" |}.
Definition cfg' : ApiConfig := {| ac_config := Some config; ac_encryptionKey := replicate 32 1 |}.
Definition req : HttpRequest := {| hr_TLS := true; hr_ForwardedProto := ""; hr_Host := "dbbat.example" |}.
Definition root_admin : AcctDB := make staff "root@corp.example" [RoleAdmin] 4%N.
Definition mallory := info "U666" "root@corp.example" "T666".
Definition started (ps : gmap string OAuthProvider) : ApiState := (run (handleOAuthAuthorize (env 100 70) ps "slack" req) (server root_admin)).1.
Definition back : CallbackQuery := {| cq_error := ""; cq_state := hex_encode (replicate 12 7); cq_code := "code" |}.
Definition outcome (ps : gmap string OAuthProvider) (s : ApiState) : option (string * list string) :=
  match oauth_login cfg' (env 100 80) ps "slack" req back s with (_, inl (u, _, _)) => Some (u_Username u, u_Roles u) | _ => None end.

(** The e-mail address in the claims of somebody else's workspace opens the administrator's account. *)
Example email_takes_over : outcome (slack "" mallory) (started (slack "" mallory)) = Some ("root@corp.example", [RoleAdmin]).
Proof. vm_compute. reflexivity. Qed.
(** With a configured team it does not; *)
Example team_refused : outcome (slack "T1" mallory) (started (slack "T1" mallory)) = None.
Proof. vm_compute. reflexivity. Qed.
(** somebody unknown becomes a connector. *)
Example newcomer : outcome (slack "" (info "U7" "" "T1")) (started (slack "" (info "U7" "" "T1"))) = Some ("mallory", [RoleConnector]).
Proof. vm_compute. reflexivity. Qed.
End SampleOAuth.
Import ApiSample SampleOAuth.

Lemma root_ok : acct_ok root_admin.
Proof. by apply ok_of; repeat apply make_reach. Qed.

Lemma started_ok ps : acct_ok (a_db (started ps)).
Proof.
  unfold started. pose proof (authorize_steps (env 100 70) ps "slack" req (server root_admin)) as [H _ _].
  unfold run. destruct (handleOAuthAuthorize _ _ _ _ _) as [s' x]. cbn [fst] in H. destruct x; (eapply acct_steps_ok; [exact H|apply root_ok]).
Qed.

Lemma oauth_login_sound_witness :
  exists s' user k plain st, oauth_login cfg' (env 100 80) (slack "" mallory) "slack" req back (started (slack "" mallory)) = (s', inl (user, k, plain)) /\
    u_Username user = "root@corp.example" /\ api_keys (a_db s') !! k_ID k = Some k /\ os_State st = cq_state back /\
    oauth_states (a_db s') !! os_UID st = None.
Proof.
  pose proof email_takes_over as Hu. unfold outcome in Hu.
  destruct (oauth_login cfg' (env 100 80) (slack "" mallory) "slack" req back (started (slack "" mallory))) as [s' [[[user k] plain]|x]] eqn:E; [|discriminate].
  injection Hu as Hu _.
  destruct (oauth_login_sound cfg' (env 100 80) (slack "" mallory) "slack" req back (started (slack "" mallory)) s' user k plain (started_ok _) E)
    as (st & p & u & _ & H1 & _ & _ & H2 & _ & _ & _ & _ & _ & H3).
  exists s', user, k, plain, st. repeat split; [exact Hu|exact H3|exact H1|]. rewrite H2. apply lookup_delete_eq.
Defined.

Lemma oauth_state_single_use_witness :
  exists s', (run (handleOAuthCallback cfg' (env 100 85) (slack "" mallory) "slack" req back) s').2 = redirectWithError cfg' ErrCodeOAuthStateMismatch.
Proof.
  pose proof email_takes_over as Hu. unfold outcome in Hu.
  destruct (oauth_login cfg' (env 100 80) (slack "" mallory) "slack" req back (started (slack "" mallory))) as [s' [[[user k] plain]|x]] eqn:E; [|discriminate].
  exists s'. unfold run.
  rewrite (oauth_state_single_use cfg' (env 100 80) (slack "" mallory) (env 100 85) "slack" req back (started (slack "" mallory)) s' user k plain
    "slack" req back (started_ok _) E eq_refl eq_refl eq_refl). reflexivity.
Defined.

Lemma slack_user_genuine_witness : Slack.ui_TeamID (info "U1" "a@b" "T1") = "T1".
Proof.
  destruct (slack_user_genuine (fun _ => Some (200, Some {| Slack.tk_OK := true; Slack.tk_AccessToken := "tok"; Slack.tk_Error := "" |}))
    (fun _ => Some (200, Some (info "U1" "a@b" "T1"))) (fun _ => "{}") (app "T1") "code" "uri" _ eq_refl) as (t & i & _ & [= <-] & _ & _ & _ & H).
  apply H. discriminate.
Defined.
