(* ===== verification/ApiSlack.v ===== *)
(** * Approve and Deny clicks from Slack ([internal/api/slack_interactions.go],
    [slack_socketmode.go])

    A click arrives by HTTP, where the signature of the request is the authentication, or
    over Socket Mode; both end in [processSlackDecision].  The library that verifies
    signatures and decodes payloads is a parameter.  What the clicker is told is a value;
    posting it to Slack is not modelled. *)

From Stdlib Require Import ZArith Lia List Bool String Ascii.
From stdpp Require Import base list gmap strings relations.
From S2P Require Import Prelude GoStrings Encoding Models Revocation RateLimit AuthCache GrantStore Crypto Accounts ApiKeys AccountSafety AccountTheorems Servers LoginTracker Endpoints ApiBase ApiAuth ApiUsers ApiDevice ApiGroups ApiGrants ApiRoutes ApiSafety ApiOAuth.

Open Scope string_scope.
Open Scope Z_scope.
Open Scope api_scope.

(** What the code reads of a callback; a block action is its identifier and value. *)
Record InteractionCallback := {
  cb_Type : string;
  cb_UserID : string;
  cb_ResponseURL : string;
  cb_BlockActions : list (option (string * string))
}.

Class SlackLibrary := {
  (** Headers and secret; [None] for missing headers or a stale time stamp. *)
  NewSecretsVerifier : list (string * string) -> string -> option (bytes -> bool);
  InteractionCallbackParse : bytes -> option InteractionCallback;
  uuid_Parse : string -> option uuid
}.

Definition slackInteractionMaxBody : Z := 2 ^ 20.
Definition InteractionTypeBlockActions := "block_actions".
Definition ActionApprove := "grant_request_approve".
Definition ActionDeny := "grant_request_deny".

(** What the clicker gets to see. *)
Inductive feedback :=
| Ephemeral (responseURL text : string)
| ThreadReply (request : GrantRequest) (action : notice_action) (decider : uuid).

Definition msgNotAdmin := "Only dbbat admins can decide grant requests.".
Definition msgNoLongerPending := "This request is no longer pending.".
Definition msgRequestNotFound := "That grant request no longer exists.".
Definition msgDefinitionGone := "The grant definition is no longer active, so this request can't be approved.".
Definition msgOutOfScope := "The grant definition's scope no longer covers this user or database, " ++
  "so this request can't be approved. Create a direct grant instead.".
Definition msgDecideFailed := "Something went wrong deciding this request. Try again from the dbbat UI.".
Definition msgNotLinked (url : string) : string :=
  "Your Slack account isn't linked to a dbbat user. Sign in to dbbat with Slack first: " ++ url.

Definition threadReplyText (action : notice_action) (deciderSlackID : string) (decider : option User) : string :=
  let who := if negb (String.eqb deciderSlackID "") then "<@" ++ deciderSlackID ++ ">"
             else match decider with Some u => u_Username u | None => "an admin" end in
  match action with
  | GrantActionApproved => "✅ This request has been *approved* by " ++ who ++ "."
  | GrantActionDenied => "❌ This request has been *denied* by " ++ who ++ "."
  | GrantActionCancelled => "🚫 This request has been *cancelled* by the requester."
  | GrantActionCreated => ""
  end.

Definition actionForStatus (status : GrantRequestStatus) : notice_action :=
  match status with
  | GrantRequestApproved => GrantActionApproved
  | GrantRequestDenied => GrantActionDenied
  | GrantRequestCancelled => GrantActionCancelled
  | _ => GrantActionCreated
  end.

Section Slack.
Context {C : Collation} {A2 : Argon2} {GCM : AEAD} {HS : Hashes} {dig : Digest} {order : MapOrder}
  {UT : UUIDText} {SK : ScramKeys} {TT : TimeText} {SL : SlackLibrary}.
Variables (cfg : ApiConfig) (e : ReqEnv).

(** ** The callback *)

(** [true]: approve.  The first of our actions decides, also when its value is no UUID. *)
Fixpoint first_action (actions : list (option (string * string))) : option (bool * uuid) :=
  match actions with
  | [] => None
  | None :: actions => first_action actions
  | Some (id, value) :: actions =>
      if String.eqb id ActionApprove then option_map (pair true) (uuid_Parse value)
      else if String.eqb id ActionDeny then option_map (pair false) (uuid_Parse value)
      else first_action actions
  end.

Definition slackDecisionFromCallback (cb : InteractionCallback) : option (bool * uuid) :=
  if String.eqb (cb_Type cb) InteractionTypeBlockActions then first_action (cb_BlockActions cb) else None.

(** The bytes of a verified request.  [body] is [None] when reading fails; one byte more
    than the cap is read. *)
Definition readVerifiedSlackBody (signingSecret : string) (headers : list (string * string)) (body : option bytes) : option bytes :=
  if String.eqb signingSecret "" then None
  else match NewSecretsVerifier headers signingSecret with
       | None => None
       | Some ensure =>
           match body with
           | None => None
           | Some body =>
               let body := take (Z.to_nat (slackInteractionMaxBody + 1)) body in
               if slackInteractionMaxBody <? zlen body then None else if ensure body then Some body else None
           end
       end.

(** ** The decision *)

Definition publicURLForMessage : H string :=
  fun s => let url := ResolveWebUIURL (rq_sql e 17 0%nat) (a_params s) (cf_endpoints <$> ac_config cfg) in
           (s, inl (if negb (String.eqb url "") then url
                    else match ac_config cfg with
                         | Some c => if String.eqb (ec_PublicURL (cf_endpoints c)) "" then "your dbbat instance" else ec_PublicURL (cf_endpoints c)
                         | None => "your dbbat instance"
                         end)).

(** Nothing is posted without a response URL. *)
Definition postEphemeral (responseURL text : string) : H (list feedback) :=
  hret (if String.eqb responseURL "" then [] else [Ephemeral responseURL text]).

Definition deciderUserForRequest (req : GrantRequest) : H (option uuid) :=
  match gr_DecidedBy req with
  | None => hret None
  | Some by_ =>
      do! u := query (fun d => GetUserByUID (rq_sql e 19) d by_) in
      hret (match u with Ok u => Some (u_UID u) | _ => None end)
  end.

Definition rerenderRequest (uid : uuid) : H unit :=
  do! req := query_grants (fun d => GetGrantRequest (rq_sql e 18) d uid) in
  match req with
  | Ok req => do! by_ := deciderUserForRequest req in notify req (actionForStatus (gr_Status req)) by_
  | _ => hret tt
  end.

Definition handleSlackDecisionError (responseURL : string) (uid : uuid) (err : decision_error) : H (list feedback) :=
  match err with
  | DErrStore ErrInvalidTransition => do! _ := rerenderRequest uid in postEphemeral responseURL msgNoLongerPending
  | DErrStore ErrGrantRequestNotFound => postEphemeral responseURL msgRequestNotFound
  | DErrStore ErrDefinitionInactive => postEphemeral responseURL msgDefinitionGone
  | ErrRequestOutOfScope => postEphemeral responseURL msgOutOfScope
  | _ => postEphemeral responseURL msgDecideFailed
  end.

Definition userBySlackID (slackID : string) : H (res acct_error User) :=
  query (fun d => GetUserByIdentity (rq_sql e 16) d IdentityTypeSlack slackID).

(** The decision an administrator made; a panic would end the process. *)
Definition decide (approve : bool) (uid : uuid) (user : User) (responseURL : string) : H (list feedback) :=
  if approve then
    do! r := approveGrantRequest e uid user decisionSourceSlack in
    match r with
    | Ok (_, request) => hret [ThreadReply request GrantActionApproved (u_UID user)]
    | Err err => handleSlackDecisionError responseURL uid err
    | Panic => stop recovered
    end
  else
    do! r := denyGrantRequest e uid user "" decisionSourceSlack in
    match r with
    | Ok request => hret [ThreadReply request GrantActionDenied (u_UID user)]
    | Err err => handleSlackDecisionError responseURL uid err
    | Panic => stop recovered
    end.

Definition processSlackDecision (slackUserID responseURL : string) (approve : bool) (uid : uuid) : H (list feedback) :=
  do! r := userBySlackID slackUserID in
  match r with
  | Ok user => if IsAdmin user then decide approve uid user responseURL else postEphemeral responseURL msgNotAdmin
  | Err ErrUserNotFound | Err ErrIdentityNotFound =>
      do! url := publicURLForMessage in postEphemeral responseURL (msgNotLinked url)
  | Err _ => postEphemeral responseURL msgDecideFailed
  | Panic => stop recovered
  end.

(** Either transport: the goroutine a callback starts, if any. *)
Definition dispatchSlackCallback (cb : InteractionCallback) : option (H (list feedback)) :=
  option_map (fun '(approve, uid) => processSlackDecision (cb_UserID cb) (cb_ResponseURL cb) approve uid) (slackDecisionFromCallback cb).

(** The status and the goroutine. *)
Definition serveSlackInteraction (signingSecret : string) (headers : list (string * string)) (body : option bytes) :
    Response * option (H (list feedback)) :=
  match readVerifiedSlackBody signingSecret headers body with
  | None => (respond StatusUnauthorized BNone, None)
  | Some body =>
      (respond StatusOK BNone, match InteractionCallbackParse body with None => None | Some cb => dispatchSlackCallback cb end)
  end.

(** [s.notifier.SigningSecret()] *)
Definition handleSlackInteraction (notifierSecret : string) := serveSlackInteraction notifierSecret.

(** The event's payload when it is an interaction ([true]) carrying a callback. *)
Definition handleSocketEvent (interactive : bool) (data : option InteractionCallback) : option (H (list feedback)) :=
  if interactive then match data with Some cb => dispatchSlackCallback cb | None => None end else None.
End Slack.

(** * Theorems *)

Section SlackLaws.
Context {C : Collation} {A2 : Argon2} {GCM : AEAD} {HS : Hashes} {dig : Digest} {order : MapOrder}
  {UT : UUIDText} {SK : ScramKeys} {TT : TimeText} {SL : SlackLibrary}.
Variables (cfg : ApiConfig) (e : ReqEnv).

(** A live administrator the Slack account is linked to. *)
Definition slack_admin (d : AcctDB) (slackID : string) (user : User) : Prop :=
  (exists i, find_identity d IdentityTypeSlack slackID = Some i /\ live_user_at d (i_UserID i) = Some user) /\ IsAdmin user = true.

Lemma linked_user sql d id user : GetUserByIdentity sql d IdentityTypeSlack id = Ok user ->
  exists i, find_identity d IdentityTypeSlack id = Some i /\ live_user_at d (i_UserID i) = Some user.
Proof.
  unfold GetUserByIdentity, GetIdentityByProviderID. destruct (sql 0%nat); [|done]. cbn. destruct (find_identity _ _ _) as [i|]; [|done].
  cbn. intros H. exists i. split; [done|by eapply GetUserByUID_row].
Qed.

(** Without such an administrator nothing changes. *)
Lemma decision_needs_admin id url approve uid s :
  (processSlackDecision cfg e id url approve uid s).1 <> s -> exists user, slack_admin (a_db s) id user.
Proof.
  unfold processSlackDecision, userBySlackID, query, hbind. destruct (GetUserByIdentity _ _ _ _) as [user|[]|] eqn:E; try done.
  apply linked_user in E as (i & Hi & Hl). destruct (IsAdmin user) eqn:Ea; [|done]. intros _. exists user. split; [by exists i|done].
Qed.

Lemma verified_body secret headers body b :
  readVerifiedSlackBody secret headers body = Some b ->
  secret <> "" /\ body = Some b /\ zlen b <= slackInteractionMaxBody /\ exists ensure, NewSecretsVerifier headers secret = Some ensure /\ ensure b = true.
Proof.
  unfold readVerifiedSlackBody. destruct (String.eqb_spec secret ""); [done|]. destruct (NewSecretsVerifier _ _) as [ensure|]; [|done].
  destruct body as [body|]; [|done]. destruct (Z.ltb_spec slackInteractionMaxBody (zlen (take (Z.to_nat (slackInteractionMaxBody + 1)) body))); [done|].
  destruct (ensure _) eqn:Ee; [|done]. intros [= <-].
  assert (Hw : take (Z.to_nat (slackInteractionMaxBody + 1)) body = body).
  { apply take_ge. revert H. unfold zlen. rewrite length_take. unfold slackInteractionMaxBody. change (2 ^ 20) with 1048576. lia. }
  rewrite Hw in *. repeat split; try done. by exists ensure.
Qed.

(** C23. A click decides only what an administrator may.  A request that comes in over
    HTTP changes something only if its signature over the whole body verifies under the
    configured secret, it carries one of the two actions with a request's identifier,
    and the Slack account that clicked is linked to a live user with the admin role. *)
Theorem slack_click_sound secret headers body resp job s :
  serveSlackInteraction cfg e secret headers body = (resp, Some job) -> (job s).1 <> s ->
  r_status resp = StatusOK /\ secret <> "" /\
  exists b ensure cb approve uid user,
    body = Some b /\ zlen b <= slackInteractionMaxBody /\ NewSecretsVerifier headers secret = Some ensure /\ ensure b = true /\
    InteractionCallbackParse b = Some cb /\ slackDecisionFromCallback cb = Some (approve, uid) /\
    slack_admin (a_db s) (cb_UserID cb) user.
Proof.
  unfold serveSlackInteraction. destruct (readVerifiedSlackBody _ _ _) as [b|] eqn:Eb; [|done].
  apply verified_body in Eb as (H1 & H2 & H3 & ensure & H4 & H5). destruct (InteractionCallbackParse b) as [cb|] eqn:Ec; [|done].
  unfold dispatchSlackCallback. destruct (slackDecisionFromCallback cb) as [[approve uid]|] eqn:Ed; [|done].
  intros [= <- <-] [user Hu]%decision_needs_admin. split; [done|]. split; [done|]. by exists b, ensure, cb, approve, uid, user.
Qed.

(** The steps that leave the access tables. *)
Definition same_grants (s s' : ApiState) : Prop := a_grants s' = a_grants s.
#[local] Instance same_grants_preorder : PreOrder same_grants.
Proof. split; [by intros s|]. intros s1 s2 s3 H1 H2. unfold same_grants in *. congruence. Qed.
#[local] Instance same_grants_passive : Passive same_grants.
Proof. intros s s' [_ E _ _ _]. exact E. Qed.
Lemma exec_same_grants {A} (f : AcctDB -> ares A) : steps same_grants (exec f).
Proof. intros s. unfold exec, same_grants. by destruct (f (a_db s)). Qed.
#[local] Hint Resolve exec_same_grants : api_steps.

Lemma bind_known {A B} (a : A) (k : A -> H B) s : hbind (hret a) k s = k a s.
Proof. done. Qed.

(** What comes after keeps the access tables. *)
Lemma after {A B} (m : H A) (k : A -> H B) s :
  (forall a, steps same_grants (k a)) -> a_grants (hbind m k s).1 = a_grants (m s).1.
Proof. intros Hk. unfold hbind. destruct (m s) as [s1 [a|r]]; [|done]. apply Hk. Qed.

Lemma after_or_stop {A E} (m : H (res E A)) f s : a_grants (or_stop m f s).1 = a_grants (m s).1.
Proof. unfold or_stop, catch. apply after. intros r. walk. Qed.

(** The source of a decision shows in the audit log only. *)
Lemma approve_source uid user src src' s :
  a_grants (approveGrantRequest e uid user src s).1 = a_grants (approveGrantRequest e uid user src' s).1.
Proof.
  unfold approveGrantRequest. unfold hbind at 1 2. destruct (checkRequestInScope e uid s) as [s1 [[u|err|]|r]]; try done.
  unfold approve_writes. rewrite !after; [done| |]; intros r; walk.
Qed.
Lemma deny_source uid user reason src src' s :
  a_grants (denyGrantRequest e uid user reason src s).1 = a_grants (denyGrantRequest e uid user reason src' s).1.
Proof. unfold denyGrantRequest. rewrite !after; [done| |]; intros r; walk. Qed.

Lemma error_same url uid err : steps same_grants (handleSlackDecisionError e url uid err).
Proof. unfold handleSlackDecisionError, rerenderRequest, deciderUserForRequest, postEphemeral. walk. Qed.
#[local] Hint Resolve error_same : api_steps.

Lemma run_grants (h : H Response) s : a_grants (run h s).1 = a_grants (h s).1.
Proof. unfold run. by destruct (h s) as [s' [r|r]]. Qed.

(** A click moves the tables by operations of the stores. *)
#[local] Existing Instance store_steps_preorder.
#[local] Existing Instance store_steps_passive'.
#[local] Hint Extern 1 (steps store_steps (exec_grants _)) => apply exec_grants_once; intros ?; constructor : api_steps.
#[local] Hint Resolve audit_steps : api_steps.
Lemma error_steps url uid err : steps store_steps (handleSlackDecisionError e url uid err).
Proof. unfold handleSlackDecisionError, rerenderRequest, deciderUserForRequest, postEphemeral. walk. Qed.
#[local] Hint Resolve error_steps : api_steps.
Lemma slack_steps id url approve uid : steps store_steps (processSlackDecision cfg e id url approve uid).
Proof.
  unfold processSlackDecision, userBySlackID, decide, approveGrantRequest, approve_writes, denyGrantRequest, lift_store, postEphemeral, publicURLForMessage.
  walk; intros s; reflexivity.
Qed.

(** C24. A click is a decision like any other: on the access tables it has exactly the
    effect of the same administrator's request to the web API, a denial without reason,
    on the error paths too. *)
Theorem slack_decides_like_web c user url approve uid s :
  cx_user c = Some user ->
  a_grants (decide e approve uid user url s).1 =
  a_grants (run ((if approve then handleApproveGrantRequest e c (Some uid) else handleDenyGrantRequest e c (Some uid) "")) s).1.
Proof.
  intros Hc. rewrite run_grants. unfold decide. destruct approve.
  - rewrite after by (intros r; walk). unfold handleApproveGrantRequest. rewrite Hc.
    unfold bound, deref. rewrite !bind_known, after, after_or_stop by (intros []; walk). apply approve_source.
  - rewrite after by (intros r; walk). unfold handleDenyGrantRequest. rewrite Hc.
    unfold bound, deref. rewrite !bind_known, after, after_or_stop by (intros ?; walk). apply deny_source.
Qed.
End SlackLaws.

(** ** A sample workspace *)

Module SampleSlack.
Import ApiSample.
(** A toy signature names the secret and the length of the body; a payload is its length. *)
Definition click (id value : string) (by_ : string) : InteractionCallback :=
  {| cb_Type := InteractionTypeBlockActions; cb_UserID := by_; cb_ResponseURL := "https://hooks"; cb_BlockActions := [None; Some (id, value)] |}.
#[export] Instance ss_library : SlackLibrary := {|
  NewSecretsVerifier headers secret :=
    match headers with
    | (_, sig) :: _ => Some (fun b => String.eqb sig (secret ++ FormatInt (zlen b)))
    | [] => None
    end;
  InteractionCallbackParse b :=
    match zlen b with
    | 1 => Some (click ActionApprove "20" "UALICE")
    | 2 => Some (click ActionDeny "20" "UALICE")
    | 3 => Some (click ActionApprove "20" "UBOB")
    | _ => None
    end;
  uuid_Parse s := if String.eqb s "20" then Some 20%N else None |}.

Definition linked (d : AcctDB) (user : uuid) (slackID : string) (uid : uuid) : AcctDB :=
  (CreateUserIdentity ok d {| i_UID := 0%N; i_UserID := user; i_Provider := IdentityTypeSlack; i_ProviderID := slackID; i_Email := "";
     i_DisplayName := ""; i_Metadata := "{}"; i_CreatedAt := 0; i_UpdatedAt := 0; i_DeletedAt := None |} uid 12 12).1.
(** [alice] is an administrator, [bob] is not. *)
Definition workspace : ApiState := put_grants (server (linked (linked staff alice "UALICE" 60%N) bob "UBOB" 61%N)) sample_db1.
Definition posted (sig : string) (n : nat) := serveSlackInteraction cfg (env 100 70) "shh" [("X-Slack-Signature", sig)] (Some (replicate n 0)).
Definition status_after (job : option (H (list feedback))) : option GrantRequestStatus :=
  match job with Some job => gr_Status <$> (grant_requests (a_grants (job workspace).1) !! 20%N) | None => None end.

(** Alice approves, alice denies, bob may not; a signature for another body opens nothing. *)
Example alice_approves : status_after (posted "shh1" 1).2 = Some GrantRequestApproved.
Proof. vm_compute. reflexivity. Qed.
Example alice_denies : status_after (posted "shh2" 2).2 = Some GrantRequestDenied.
Proof. vm_compute. reflexivity. Qed.
Example bob_may_not : status_after (posted "shh3" 3).2 = Some GrantRequestPending.
Proof. vm_compute. reflexivity. Qed.
Example forged_click : r_status (posted "shh2" 1).1 = StatusUnauthorized /\ status_after (posted "shh2" 1).2 = None.
Proof. vm_compute. split; reflexivity. Qed.
End SampleSlack.
Import ApiSample SampleSlack.

Lemma slack_click_sound_witness :
  exists user, slack_admin (a_db workspace) "UALICE" user.
Proof.
  destruct (posted "shh1" 1) as [resp [job|]] eqn:E; [|pose proof alice_approves as H; rewrite E in H; discriminate].
  assert (Hs : status_after (Some job) = Some GrantRequestApproved) by (pose proof alice_approves as H; by rewrite E in H).
  assert (Hne : (job workspace).1 <> workspace).
  { intros Hw. unfold status_after in Hs. rewrite Hw in Hs. vm_compute in Hs. discriminate. }
  destruct (slack_click_sound cfg (env 100 70) "shh" _ _ resp job workspace E Hne) as (_ & _ & b & ensure & cb & approve & uid & user & H1 & _ & _ & _ & H2 & _ & H3).
  exists user. injection H1 as <-. vm_compute in H2. injection H2 as <-. exact H3.
Defined.

Lemma slack_decides_like_web_witness :
  exists user, cx_user {| cx_user := Some user; cx_key := None; cx_method := "web" |} = Some user /\
  a_grants (decide (env 100 70) true 20%N user "https://hooks" workspace).1 =
  a_grants (run (handleApproveGrantRequest (env 100 70) {| cx_user := Some user; cx_key := None; cx_method := "web" |} (Some 20%N)) workspace).1.
Proof.
  assert (H : is_Some (users (a_db workspace) !! alice)) by (vm_compute; eauto).
  destruct H as [u _]. exists u. split; [reflexivity|].
  exact (slack_decides_like_web (env 100 70) {| cx_user := Some u; cx_key := None; cx_method := "web" |} u "https://hooks" true 20%N workspace eq_refl).
Defined.
