(* ===== verification/ApiObserve.v ===== *)
(** * Connections, queries and dumps over the API ([internal/api/observability.go])

    Query parameters are read as text; what parses identifiers and dates is the class
    [QueryText].  The captured rows and the directory of dumps are arguments: no handler
    writes rows, and deleting a dump gives the directory after it. *)

From Stdlib Require Import ZArith Lia List Bool String Ascii.
From stdpp Require Import base list gmap strings relations.
From S2P Require Import Prelude GoStrings Encoding Models Revocation RateLimit AuthCache GrantStore QueryStore Crypto Accounts ApiKeys AccountSafety AccountTheorems Servers LoginTracker Endpoints ApiBase ApiAuth ApiUsers ApiDevice ApiGroups ApiGrants ApiRoutes ApiSafety ApiAdmins ApiSessions.

Open Scope string_scope.
Open Scope Z_scope.
Open Scope api_scope.

Class QueryText := {
  parse_uuid : string -> option uuid;      (* uuid.Parse *)
  parse_rfc3339 : string -> option time
}.

(** [c.Query]: empty when the parameter is absent. *)
Abbreviation params := (string -> string).

Section Observability.
Context {C : Collation} {A2 : Argon2} {GCM : AEAD} {HS : Hashes} {dig : Digest} {order : MapOrder}
  {UT : UUIDText} {SK : ScramKeys} {TT : TimeText} {QT : QueryText} {CC : CursorCodec}.
Variables (cfg : ApiConfig) (e : ReqEnv).

(** ** Filters *)

(** A parameter that does not parse is as good as none. *)
Definition uid_param (q : params) (key : string) : option uuid :=
  if String.eqb (q key) "" then None else parse_uuid (q key).
Definition time_param (q : params) (key : string) : option time :=
  if String.eqb (q key) "" then None else parse_rfc3339 (q key).

(** The default of 100 is for an absent limit only: one that does not parse is 0. *)
Definition limit_param (q : params) : Z :=
  if String.eqb (q "limit") "" then 100 else default 0 (ParseInt (q "limit")).
Definition offset_param (q : params) : Z :=
  if String.eqb (q "offset") "" then 0 else default 0 (ParseInt (q "offset")).

Definition connection_filter (currentUser : User) (q : params) : ConnectionFilter :=
  {| cf_UserID := if negb (IsAdmin currentUser) && negb (IsViewer currentUser) then Some (u_UID currentUser) else uid_param q "user_id";
     cf_DatabaseID := uid_param q "database_id"; cf_BeforeUID := uid_param q "before";
     cf_Limit := limit_param q; cf_Offset := offset_param q |}.

Definition query_filter (q : params) : QueryFilter :=
  {| qf_ConnectionID := uid_param q "connection_id"; qf_UserID := uid_param q "user_id"; qf_DatabaseID := uid_param q "database_id";
     qf_StartTime := time_param q "start_time"; qf_EndTime := time_param q "end_time"; qf_BeforeUID := uid_param q "before";
     qf_Limit := limit_param q; qf_Offset := offset_param q |}.

(** ** Connections *)

Definition handleListConnections (c : Ctx) (q : params) : H Response :=
  do! currentUser := deref (cx_user c) in
  do! connections := or_stop (query_grants (fun d => ListConnections (rq_sql e 10) d (connection_filter currentUser q)))
                       (fun _ => writeInternalError) in
  hret (successResponse (BConnections connections)).

Definition connection_not_found : Response := writeError StatusNotFound ErrCodeNotFound "connection not found".

Definition handleGetConnection (c : Ctx) (param : option uuid) : H Response :=
  do! uid := bound param "invalid connection UID" in
  do! currentUser := deref (cx_user c) in
  do! conn := or_stop (query_grants (fun d => GetConnectionByUID (rq_sql e 10) d uid)) (fun _ => connection_not_found) in
  refuse! negb (IsAdmin currentUser) && negb (IsViewer currentUser) && negb (N.eqb (c_UserID conn) (u_UID currentUser))
    with connection_not_found in
  hret (successResponse (BSession conn)).

(** ** Queries *)

(** The query log is in the tables of the state; the rows are apart. *)
Variable captured : list QueryRowModel.
Definition query_log {A} (f : QDB -> res query_error A) : H (res query_error A) :=
  fun s => (s, inl (f {| qd_db := a_grants s; query_rows := captured |})).

Definition handleListQueries (q : params) : H Response :=
  do! queries := or_stop (query_log (fun d => ListQueries (rq_sql e 10) d (query_filter q))) (fun _ => writeInternalError) in
  hret (successResponse (BQueries queries)).

Definition handleGetQuery (param : option uuid) : H Response :=
  do! uid := bound param "invalid query UID" in
  do! query := or_stop (query_log (fun d => GetQuery (rq_sql e 10) d uid))
                 (fun _ => writeError StatusNotFound ErrCodeNotFound "query not found") in
  hret (successResponse (BQuery query)).

Definition handleGetQueryRows (param : option uuid) (q : params) : H Response :=
  do! uid := bound param "invalid query UID" in
  let invalid_limit := writeError StatusBadRequest ErrCodeValidationError "invalid limit" in
  do! limit :=
    (if String.eqb (q "limit") "" then hret DefaultQueryRowsLimit
     else match ParseInt (q "limit") with
          | None => stop invalid_limit
          | Some val => if (val <? 1) || (MaxQueryRowsLimit <? val) then stop invalid_limit else hret val
          end) in
  do! result := or_stop (query_log (fun d => GetQueryRows (rq_sql e 10) d uid (q "cursor") limit))
                  (fun err => match err with
                              | ErrQueryNotFound => writeError StatusNotFound ErrCodeNotFound "query not found"
                              | ErrInvalidCursor => writeError StatusBadRequest ErrCodeValidationError "invalid cursor"
                              | ErrQueryDB => writeInternalError
                              end) in
  hret (successResponse (BQueryRows result)).

(** ** Dumps *)

Definition dumpFileExt := ".dbbat-dump".
Definition dump_file (uid : uuid) : string := uuid_String uid ++ dumpFileExt.

(** [dumpDir] is the configured directory, [files] what it holds. *)
Definition find_dump (dumpDir : string) (files : gmap string bytes) (param : option uuid) : H (string * bytes) :=
  do! uid := bound param "invalid connection UID" in
  refuse! String.eqb dumpDir "" with writeError StatusNotFound ErrCodeNotFound "dumps are not enabled" in
  match files !! dump_file uid with
  | None => stop (writeError StatusNotFound ErrCodeNotFound "no dump available for this connection")
  | Some content => hret (dump_file uid, content)
  end.

Definition in_quotes (s : string) : string := let q := String (Ascii.ascii_of_nat 34) "" in q ++ s ++ q.

Definition handleGetConnectionDump (dumpDir : string) (files : gmap string bytes) (param : option uuid) : H Response :=
  do! ' (name, content) := find_dump dumpDir files param in
  hret {| r_status := StatusOK; r_headers := [("Content-Disposition", "attachment; filename=" ++ in_quotes name)]; r_body := BFile name content |}.

(** [removed]: [os.Remove] succeeds.  The directory afterwards comes with the response. *)
Definition handleDeleteConnectionDump (dumpDir : string) (files : gmap string bytes) (removed : bool) (param : option uuid) :
    H (Response * gmap string bytes) :=
  do! ' (name, _) := find_dump dumpDir files param in
  refuse! negb removed with writeInternalError in
  hret (respond StatusNoContent BNone, delete name files).

(** ** Routes *)

Inductive observe_route :=
| GetConnections (q : params)
| GetSession (uid : option uuid)
| GetDump (dumpDir : string) (files : gmap string bytes) (uid : option uuid)
| DelDump (dumpDir : string) (files : gmap string bytes) (removed : bool) (uid : option uuid)
| GetQueries (q : params)
| GetQuery' (uid : option uuid)
| GetRows (uid : option uuid) (q : params).

Definition observe_guard (r : observe_route) (c : Ctx) : H unit :=
  match r with
  | GetConnections _ | GetSession _ => hret tt
  | DelDump _ _ _ _ => requireAdmin c
  | _ => requireAdminOrViewer c
  end.

Definition observe_handle (r : observe_route) (c : Ctx) : H Response :=
  match r with
  | GetConnections q => handleListConnections c q
  | GetSession uid => handleGetConnection c uid
  | GetDump dir files uid => handleGetConnectionDump dir files uid
  | DelDump dir files removed uid => do! ' (r, _) := handleDeleteConnectionDump dir files removed uid in hret r
  | GetQueries q => handleListQueries q
  | GetQuery' uid => handleGetQuery uid
  | GetRows uid q => handleGetQueryRows uid q
  end.

Definition serve_observe (hdr : AuthHeader) (r : observe_route) : H Response :=
  do! c := authenticated cfg e hdr in
  do! _ := observe_guard r c in
  observe_handle r c.
End Observability.

(** * Theorems *)

Section Quiet.
Context {C : Collation} {A2 : Argon2} {GCM : AEAD} {HS : Hashes} {dig : Digest} {order : MapOrder}
  {UT : UUIDText} {SK : ScramKeys} {TT : TimeText} {QT : QueryText} {CC : CursorCodec}.
Context (R : relation ApiState) `{!PreOrder R, HP : !Passive R}.
Variables (cfg : ApiConfig) (e : ReqEnv) (captured : list QueryRowModel).

Lemma log_steps {A} (f : QDB -> res query_error A) : steps R (query_log captured f).
Proof. intros s. cbn. reflexivity. Qed.
#[local] Hint Resolve log_steps : api_steps.

(** Observing changes nothing but what authenticating does. *)
Lemma observe_steps hdr r : steps R (serve_observe cfg e captured hdr r).
Proof.
  unfold serve_observe. apply steps_bind; [exact _|apply authenticated_steps; exact _|]. intros c.
  destruct r; cbn [observe_guard observe_handle]; unfold requireAdminOrViewer, requireAdmin, requireRole, handleListConnections,
    handleGetConnection, handleListQueries, handleGetQuery, handleGetQueryRows, handleGetConnectionDump, handleDeleteConnectionDump, find_dump; walk.
Qed.
End Quiet.

Section Own.
Context {C : Collation} {A2 : Argon2} {GCM : AEAD} {HS : Hashes} {dig : Digest} {order : MapOrder}
  {UT : UUIDText} {SK : ScramKeys} {TT : TimeText} {QT : QueryText} {CC : CursorCodec}.
Variables (cfg : ApiConfig) (e : ReqEnv) (captured : list QueryRowModel).

(** What a response shows of sessions is this user's. *)
Definition own_only (me : uuid) (b : body) : Prop :=
  match b with
  | BConnections cs => Forall (fun c => c_UserID c = me) cs
  | BSession c => c_UserID c = me
  | BQueries _ | BQuery _ | BQueryRows _ | BFile _ _ => False
  | _ => True
  end.

(** A computation that changes nothing and shows nothing else's. *)
Definition shows_own (me : uuid) (m : H Response) : Prop :=
  forall s, (m s).1 = s /\ match (m s).2 with inl r | inr r => own_only me (r_body r) end.

Lemma in_paginate {A} limit offset (x : A) l : In x (paginate limit offset l) -> In x l.
Proof.
  unfold paginate. assert (Hd : forall n, In x (drop n l) -> In x l) by (intros n H; rewrite <- (take_drop n l); apply in_or_app; by right).
  assert (Ht : forall n m, In x (take n m) -> In x m) by (intros n m H; rewrite <- (take_drop n m); apply in_or_app; by left).
  destruct (0 <? limit), (0 <? offset); eauto.
Qed.

Lemma listed_own me q sql d cs :
  IsAdmin me = false -> IsViewer me = false ->
  ListConnections sql d (connection_filter me q) = Ok cs -> Forall (fun c => c_UserID c = u_UID me) cs.
Proof.
  intros Ha Hv. unfold ListConnections, connection_filter. rewrite Ha, Hv. destruct (sql 0%nat); [|done]. intros [= <-].
  apply Forall_forall. intros c Hc. apply list_elem_of_In, in_paginate, in_order_desc, filter_In in Hc as [_ Hc].
  unfold connection_selected, opt_match in Hc. cbn [cf_UserID negb andb] in Hc. bools. by apply N.eqb_eq.
Qed.

Lemma refused_own me c (k : H Response) : cx_user c = Some me -> IsAdmin me = false -> IsViewer me = false ->
  shows_own (u_UID me) (do! _ := requireAdminOrViewer c in k) /\ shows_own (u_UID me) (do! _ := requireAdmin c in k).
Proof.
  intros Hc Ha Hv. unfold requireAdminOrViewer, requireAdmin, requireRole. rewrite Hc, Ha, Hv.
  change (HasRole me RoleAdmin) with (IsAdmin me). rewrite Ha. split; intros s; done.
Qed.

Lemma route_own c me r : cx_user c = Some me -> IsAdmin me = false -> IsViewer me = false ->
  shows_own (u_UID me) (do! _ := observe_guard r c in observe_handle e captured r c).
Proof.
  intros Hc Ha Hv. destruct r; cbn [observe_guard]; try (apply (refused_own me c _ Hc Ha Hv)).
  - intros s. cbn [observe_handle]. unfold handleListConnections. rewrite Hc. unfold deref, or_stop, catch, query_grants, hbind, hret.
    destruct (ListConnections _ _ _) as [cs|x|] eqn:E; [|done..]. split; [done|]. by eapply listed_own.
  - intros s. cbn [observe_handle]. unfold handleGetConnection. rewrite Hc. destruct uid as [u|]; [|done].
    unfold bound, deref, or_stop, catch, query_grants, hbind, hret. destruct (GetConnectionByUID _ _ _) as [x|x|]; [|done..].
    rewrite Ha, Hv. cbn [negb andb]. destruct (N.eqb_spec (c_UserID x) (u_UID me)) as [E|E]; by cbn.
Qed.

(** A connector observes only himself.  Without the admin and the viewer role a
    request for connections shows sessions of the caller and no others, whatever its
    filters say; queries, captured rows and dumps are refused; and nothing changes. *)
Theorem connector_observes_own hdr r s s1 c me :
  authenticated cfg e hdr s = (s1, inl c) -> cx_user c = Some me -> IsAdmin me = false -> IsViewer me = false ->
  let '(s', x) := run (serve_observe cfg e captured hdr r) s in
  s' = s1 /\ untouched s s' /\ own_only (u_UID me) (r_body x).
Proof.
  intros Hs Hc Ha Hv. pose proof (authenticated_steps untouched cfg e hdr s) as Hu. rewrite Hs in Hu. cbn in Hu.
  destruct (route_own c me r Hc Ha Hv s1) as [H1 H2]. unfold run, serve_observe. unfold hbind at 1. rewrite Hs.
  destruct (hbind _ _ s1) as [s2 [x|x]]; cbn in H1, H2; subst s2; by split_and!.
Qed.
End Own.

(** ** Bob observes *)

Module SampleObserve.
Import ApiSample.
#[export] Instance so_text : QueryText := {| parse_uuid s := if String.eqb s "1" then Some 1%N else None; parse_rfc3339 _ := None |}.
#[export] Instance so_codec : CursorCodec :=
  {| encode_cursor := QueryStore.Toy.enc; decode_cursor := QueryStore.Toy.dec; decode_encode := QueryStore.Toy.dec_enc; encode_nonempty := QueryStore.Toy.enc_nonempty |}.
(** One session of bob's and one of carol's. *)
Definition sessions : DB :=
  (CreateConnection ok (CreateConnection ok empty_db bob 6%N "10.0.0.1" 40%N 5 5).1 carol 6%N "10.0.0.2" 41%N 6 6).1.
Definition watched : ApiState := put_grants (server staff) sessions.
Definition asks (l : list (string * string)) : string -> string :=
  fun k => match List.find (fun p => String.eqb p.1 k) l with Some (_, v) => v | None => "" end.
Definition seen (who : string) (r : observe_route) : body := r_body (run (serve_observe cfg (env 100 60) [] (basic who) r) watched).2.
Definition shown (b : body) : list uuid := match b with BConnections cs => map c_UID cs | _ => [] end.

Example bob_sees_his : shown (seen "bob" (GetConnections (asks [("user_id", "3")]))) = [40%N].
Proof. vm_compute. reflexivity. Qed.
Example alice_sees_all : shown (seen "alice" (GetConnections (asks []))) = [41%N; 40%N].
Proof. vm_compute. reflexivity. Qed.
Example bob_cannot_see_hers : r_status (run (serve_observe cfg (env 100 60) [] (basic "bob") (GetSession (Some 41%N))) watched).2 = StatusNotFound.
Proof. vm_compute. reflexivity. Qed.
(** A limit that does not parse is no limit. *)
Example bad_limit : limit_param (asks [("limit", "ten")]) = 0 /\ limit_param (asks []) = 100.
Proof. split; reflexivity. Qed.
End SampleObserve.
Import ApiSample SampleObserve.

Lemma connector_observes_own_witness :
  own_only bob (seen "bob" (GetConnections (asks [("user_id", "3")]))).
Proof.
  destruct (value_of (authenticated cfg (env 100 60) (basic "bob") watched)) as [c|] eqn:E; [|vm_compute in E; discriminate].
  pose proof E as E'. vm_compute in E'. injection E' as E'. apply value_of_inl in E as [s1 E].
  destruct (cx_user c) as [me|] eqn:Hme; [|rewrite <- E' in Hme; discriminate].
  assert (Hr : IsAdmin me = false /\ IsViewer me = false /\ u_UID me = bob) by (rewrite <- E' in Hme; injection Hme as <-; repeat split).
  destruct Hr as (Ha & Hv & Hu).
  pose proof (connector_observes_own cfg (env 100 60) [] (basic "bob") (GetConnections (asks [("user_id", "3")])) watched s1 c me E Hme Ha Hv) as H.
  unfold seen. destruct (run _ watched) as [s' x]. cbn [snd]. rewrite <- Hu. apply H.
Defined.
