(* ===== verification/ApiServers.v ===== *)
(** * Servers over HTTP ([internal/api/servers.go], [servers_connectivity.go];
    the demo target of [internal/config/config.go])

    The server rows and their connectivity checks.  The text of an error of the store
    is [rq_text]; a check runs on the network and the login libraries of [ConnCheck]. *)

From Stdlib Require Import ZArith Lia List Bool String Ascii.
From stdpp Require Import base list gmap strings relations.
From S2P Require Import Prelude GoStrings Encoding Models Revocation RateLimit AuthCache GrantStore QueryStore Crypto Accounts ApiKeys AccountSafety AccountTheorems Servers Dial ConnCheck LoginTracker Endpoints ApiBase ApiAuth ApiUsers ApiDevice ApiGroups ApiGrants ApiRoutes ApiSafety ApiOAuth ApiSlack ApiObserve.

Open Scope string_scope.
Open Scope Z_scope.
Open Scope api_scope.

(** ** Demo mode *)

Record DemoTarget := { dt_Username : string; dt_Password : string; dt_Host : string; dt_Server : string }.

Definition DefaultDemoTargetDB := "demo:demo@localhost/demo".

(** "user:pass@host/dbname" *)
Definition ParseDemoTargetDB (s : string) : option DemoTarget :=
  match cut_last "@" s with
  | None => None
  | Some (userPass, hostDB) =>
      match cut_first ":" userPass, cut_first "/" hostDB with
      | Some (user, pass), Some (host, db) => Some {| dt_Username := user; dt_Password := pass; dt_Host := host; dt_Server := db |}
      | _, _ => None
      end
  end.

Definition GetDemoTarget (c : Config) : option DemoTarget :=
  if String.eqb (cf_RunMode c) RunModeDemo then
    ParseDemoTargetDB (if String.eqb (cf_DemoTargetDB c) "" then DefaultDemoTargetDB else cf_DemoTargetDB c)
  else None.

Definition only_demo (t : DemoTarget) : string :=
  "you can only use " ++ dt_Username t ++ ":" ++ dt_Password t ++ "@" ++ dt_Host t ++ "/" ++ dt_Server t ++ " in demo mode".

(** The empty text: fine. *)
Definition ValidateDemoTarget (c : Config) (username password host database : string) : string :=
  match GetDemoTarget c with
  | None => ""
  | Some t =>
      if String.eqb username (dt_Username t) && String.eqb password (dt_Password t)
         && String.eqb host (dt_Host t) && String.eqb database (dt_Server t) then ""
      else only_demo t
  end.

(** ** Requests *)

Record CreateDatabaseRequest := {
  cd_Name : string;
  cd_Description : string;
  cd_Host : string;
  cd_Port : Z;
  cd_DatabaseName : string;
  cd_Username : string;
  cd_Password : string;
  cd_SSLMode : string;
  cd_Protocol : string;
  cd_OracleServiceName : string;
  cd_MongoAuthSource : string;
  cd_Listable : option bool;
  cd_ViaUID : option uuid;
  cd_SSHPrivateKey : string;
  cd_SSHPassphrase : string;
  cd_TestConnection : bool
}.

(** [UpdateDatabaseRequest] is the update the store takes and the wish for a check. *)
Record UpdateDatabaseRequest := { ud_Update : ServerUpdate; ud_TestConnection : bool }.

Definition with_protocol (r : CreateDatabaseRequest) (protocol service sslmode : string) : CreateDatabaseRequest :=
  {| cd_Name := cd_Name r; cd_Description := cd_Description r; cd_Host := cd_Host r; cd_Port := cd_Port r;
     cd_DatabaseName := cd_DatabaseName r; cd_Username := cd_Username r; cd_Password := cd_Password r; cd_SSLMode := sslmode;
     cd_Protocol := protocol; cd_OracleServiceName := service; cd_MongoAuthSource := cd_MongoAuthSource r;
     cd_Listable := cd_Listable r; cd_ViaUID := cd_ViaUID r; cd_SSHPrivateKey := cd_SSHPrivateKey r;
     cd_SSHPassphrase := cd_SSHPassphrase r; cd_TestConnection := cd_TestConnection r |}.

Definition isSupportedProtocol (protocol : string) : bool :=
  existsb (String.eqb protocol)
    [ProtocolPostgreSQL; ProtocolOracle; ProtocolMySQL; ProtocolMariaDB; ProtocolMongoDB; ProtocolSSH].

Definition defaultPortFor (protocol : string) : Z :=
  if String.eqb protocol ProtocolPostgreSQL then 5432
  else if String.eqb protocol ProtocolOracle then 1521
  else if String.eqb protocol ProtocolMySQL || String.eqb protocol ProtocolMariaDB then 3306
  else if String.eqb protocol ProtocolMongoDB then 27017
  else if String.eqb protocol ProtocolSSH then 22
  else 0.

(** The completed request, or a message. *)
Definition validateCreateProtocolFields (r : CreateDatabaseRequest) : res string CreateDatabaseRequest :=
  if String.eqb (cd_Protocol r) ProtocolSSH then
    guard! nonempty (cd_SSHPrivateKey r) || nonempty (cd_Password r)
      else "ssh_private_key or password is required for ssh servers" in Ok r
  else if String.eqb (cd_Protocol r) ProtocolOracle then
    guard! nonempty (cd_OracleServiceName r) || nonempty (cd_DatabaseName r)
      else "oracle_service_name or database_name is required for Oracle databases" in
    Ok (if nonempty (cd_OracleServiceName r) then r else with_protocol r (cd_Protocol r) (cd_DatabaseName r) (cd_SSLMode r))
  else
    guard! nonempty (cd_DatabaseName r) else "database_name is required for " ++ cd_Protocol r ++ " databases" in
    Ok (if nonempty (cd_SSLMode r) then r else with_protocol r (cd_Protocol r) (cd_OracleServiceName r) "prefer").

(** The row a request asks for. *)
Definition requested_server (r : CreateDatabaseRequest) (createdBy : uuid) : Server :=
  let ssh := String.eqb (cd_Protocol r) ProtocolSSH in
  let secrets := ssh && (nonempty (cd_SSHPrivateKey r) || nonempty (cd_SSHPassphrase r)) in
  {| d_UID := Nil; d_Name := cd_Name r; d_Description := cd_Description r; d_Host := cd_Host r; d_Port := cd_Port r;
     d_DatabaseName := cd_DatabaseName r; d_Username := cd_Username r; d_Password := cd_Password r; d_PasswordEncrypted := [];
     d_SSLMode := cd_SSLMode r; d_Protocol := cd_Protocol r;
     d_OracleServiceName := if nonempty (cd_OracleServiceName r) then Some (cd_OracleServiceName r) else None;
     d_ViaUID := cd_ViaUID r;
     d_ProtocolData :=
       if nonempty (cd_MongoAuthSource r) || secrets then
         Some {| sp_MongoDB := if nonempty (cd_MongoAuthSource r) then Some {| md_AuthSource := cd_MongoAuthSource r |} else None;
                 sp_SSH := if secrets then Some {| ssh_PrivateKeyEncrypted := []; ssh_PassphraseEncrypted := []; ssh_KnownHostKey := "";
                                                   ssh_PrivateKey := cd_SSHPrivateKey r; ssh_Passphrase := cd_SSHPassphrase r |}
                           else None |}
       else None;
     d_Listable := if ssh then false else default true (cd_Listable r);
     d_CreatedBy := Some createdBy; d_CreatedAt := 0; d_UpdatedAt := 0; d_DeletedAt := None |}.

(** ** Answers *)

Definition toDatabaseResponse (db : Server) : DatabaseResponse :=
  {| dr_UID := d_UID db; dr_Name := d_Name db; dr_Description := d_Description db; dr_Host := d_Host db; dr_Port := d_Port db;
     dr_DatabaseName := d_DatabaseName db; dr_Username := d_Username db; dr_SSLMode := d_SSLMode db; dr_Protocol := d_Protocol db;
     dr_OracleServiceName := default "" (d_OracleServiceName db);
     dr_MongoAuthSource := match Server_MongoData db with Some data => md_AuthSource data | None => "" end;
     dr_Listable := d_Listable db; dr_CreatedBy := d_CreatedBy db; dr_ViaUID := d_ViaUID db;
     dr_SSHKnownHostKey := match Server_SSHData db with Some sd => ssh_KnownHostKey sd | None => "" end;
     dr_ConnectionTest := None |}.

Definition with_test (d : DatabaseResponse) (t : option ConnectionTestResponse) : DatabaseResponse :=
  {| dr_UID := dr_UID d; dr_Name := dr_Name d; dr_Description := dr_Description d; dr_Host := dr_Host d; dr_Port := dr_Port d;
     dr_DatabaseName := dr_DatabaseName d; dr_Username := dr_Username d; dr_SSLMode := dr_SSLMode d; dr_Protocol := dr_Protocol d;
     dr_OracleServiceName := dr_OracleServiceName d; dr_MongoAuthSource := dr_MongoAuthSource d; dr_Listable := dr_Listable d;
     dr_CreatedBy := dr_CreatedBy d; dr_ViaUID := dr_ViaUID d; dr_SSHKnownHostKey := dr_SSHKnownHostKey d; dr_ConnectionTest := t |}.

Definition toDatabaseLimitedResponse (db : Server) : DatabaseLimitedResponse :=
  {| dl_UID := d_UID db; dl_Name := d_Name db; dl_Description := d_Description db |}.

Definition stage_text (s : Stage) : string :=
  match s with
  | StageConfig => "config" | StageBastionDial => "bastion_dial" | StageBastionAuth => "bastion_auth"
  | StageTargetDial => "target_dial" | StageTargetAuth => "target_auth"
  end.
Definition code_text (c : Code) : string :=
  match c with
  | CodeOK => "ok" | CodeDNSFailure => "dns_failure" | CodeTimeout => "timeout" | CodeUnreachable => "unreachable"
  | CodeHostKeyMismatch => "host_key_mismatch" | CodeAuthRejected => "auth_rejected" | CodeBadPrivateKey => "bad_private_key"
  | CodeNoAuthMethod => "no_auth_method" | CodeViaCycle => "via_cycle" | CodeViaNotSSH => "via_not_ssh"
  | CodeHandshakeFailed => "handshake_failed" | CodeDBAuthFailed => "db_auth_failed"
  | CodeDBHandshakeFailed => "db_handshake_failed" | CodeMissingConfig => "missing_config"
  | CodeUnsupported => "auth_not_verified" | CodeInternal => "internal_error"
  end.

Definition toConnectionTestResponse (r : Result) : ConnectionTestResponse :=
  {| ct_OK := rs_OK r; ct_Stage := stage_text (rs_Stage r); ct_Code := code_text (rs_Code r); ct_Message := rs_Message r;
     ct_HostKeyPinned := rs_HostKeyPinned r; ct_KnownHostKey := rs_KnownHostKey r; ct_DurationMs := rs_DurationMs r |}.

(** ** Handlers *)

Section ServerHandlers.
Context {C : Collation} {A2 : Argon2} {GCM : AEAD} {HS : Hashes} {dig : Digest} {order : MapOrder}
  {UT : UUIDText} {SK : ScramKeys} {TT : TimeText} {HT : HostText} {KP : SSHKeys} {LL : LoginLibraries}.
Variables (storageDSN : string) (w : Dial.World) (quoted : nat -> Quoted) (durationMs : Z).
Variables (cfg : ApiConfig) (e : ReqEnv).

(** Named by what changed; a secret only as changed.  [json.Marshal] sorts the keys. *)
Definition redactUpdateForAudit (u : ServerUpdate) : json :=
  let field {A} (key : string) (f : A -> json) (o : option A) := match o with Some v => [(key, f v)] | None => [] end in
  let changed (key : string) (o : option string) := field key (fun _ => JsonBool true) o in
  JsonObj ((if su_ClearViaUID u then [("clear_via_uid", JsonBool true)] else [])
    ++ field "database_name" JsonStr (su_DatabaseName u) ++ field "description" JsonStr (su_Description u)
    ++ field "host" JsonStr (su_Host u) ++ field "listable" JsonBool (su_Listable u)
    ++ field "mongo_auth_source" JsonStr (su_MongoAuthSource u) ++ field "oracle_service_name" JsonStr (su_OracleServiceName u)
    ++ changed "password_changed" (su_Password u) ++ field "port" JsonNum (su_Port u) ++ field "protocol" JsonStr (su_Protocol u)
    ++ changed "ssh_passphrase_changed" (su_SSHPassphrase u) ++ changed "ssh_private_key_changed" (su_SSHPrivateKey u)
    ++ field "ssl_mode" JsonStr (su_SSLMode u) ++ field "username" JsonStr (su_Username u)
    ++ field "via_uid" json_uid (su_ViaUID u))%list.

Definition get_server (site : nat) (uid : uuid) : H (res server_error Server) :=
  query_servers (fun d => GetServerByUID (rq_sql e site 0%nat) d uid).

(** *** Checks *)

Definition auditConnectionCheck (c : Ctx) (srv : Server) (r : Result) : H unit :=
  match cx_user c with
  | None => hret tt
  | Some currentUser =>
      audit e 31 "server.connection_tested" None (Some (u_UID currentUser))
        (JsonObj [("code", JsonStr (code_text (rs_Code r))); ("ok", JsonBool (rs_OK r)); ("protocol", JsonStr (d_Protocol srv));
                  ("server_uid", json_uid (d_UID srv)); ("stage", JsonStr (stage_text (rs_Stage r)))])
  end.

Definition runConnectionCheck (srv : Server) : H Result :=
  fun s => let '(t, r) := Check w quoted (a_servers s) (ac_encryptionKey cfg) srv durationMs in (put_servers s t, inl r).

Definition test_server (c : Ctx) (srv : Server) : H ConnectionTestResponse :=
  do! r := runConnectionCheck srv in
  do! _ := auditConnectionCheck c srv r in
  hret (toConnectionTestResponse r).

Definition handleTestServerConnection (c : Ctx) (param : option uuid) : H Response :=
  do! uid := bound param "invalid server UID" in
  do! srv := or_stop (get_server 10 uid) (fun _ => writeError StatusNotFound ErrCodeNotFound "server not found") in
  do! t := test_server c srv in
  hret (successResponse (BTest t)).

Definition maybeInlineConnectionTest (c : Ctx) (requested : bool) (uid : uuid) : H (option ConnectionTestResponse) :=
  if requested then
    do! srv := get_server 42 uid in
    match srv with
    | Ok srv => do! t := test_server c srv in hret (Some t)
    | Err _ => hret None
    | Panic => stop recovered
    end
  else hret None.

(** *** Rows *)

Definition writeCreateServerError (err : server_error) : Response :=
  match err with
  | ErrTargetMatchesStorage => writeError StatusBadRequest ErrCodeTargetMatchesSelf "target database cannot match DBBat storage database"
  | ErrServerViaNotSSH | ErrServerViaCycle => writeError StatusBadRequest ErrCodeValidationError (rq_text e)
  | ErrServerNameConflict => writeError StatusConflict ErrCodeDuplicateName (rq_text e)
  | _ => writeInternalError
  end.

Definition valid_create (req : option CreateDatabaseRequest) : H CreateDatabaseRequest :=
  do! req := bound (bind (fun r => nonempty (cd_Name r) && nonempty (cd_Host r) && nonempty (cd_Username r)) req)
               ("invalid request: " ++ rq_text e) in
  let demo := match ac_config cfg with
              | Some c => ValidateDemoTarget c (cd_Username req) (cd_Password req) (cd_Host req) (cd_DatabaseName req)
              | None => ""
              end in
  refuse! nonempty demo with writeError StatusForbidden ErrCodeForbidden demo in
  let req := if String.eqb (cd_Protocol req) "" then with_protocol req ProtocolPostgreSQL (cd_OracleServiceName req) (cd_SSLMode req) else req in
  refuse! negb (isSupportedProtocol (cd_Protocol req))
    with writeError StatusBadRequest ErrCodeValidationError "protocol must be one of: postgresql, oracle, mysql, mariadb, mongodb, ssh" in
  refuse! cd_Port req =? 0
    with writeError StatusBadRequest ErrCodeValidationError
           ("port is required (suggested default for " ++ cd_Protocol req ++ ": " ++ FormatInt (defaultPortFor (cd_Protocol req)) ++ ")") in
  match validateCreateProtocolFields req with
  | Ok req => hret req
  | Err msg => stop (writeError StatusBadRequest ErrCodeValidationError msg)
  | Panic => stop recovered
  end.

Definition handleCreateDatabase (c : Ctx) (req : option CreateDatabaseRequest) : H Response :=
  do! req := valid_create req in
  do! currentUser := deref (cx_user c) in
  do! result := or_stop (exec_servers (fun d => CreateServer storageDSN (rq_sql e 41) (rq_sql e 40) d
                  (requested_server req (u_UID currentUser)) (ac_encryptionKey cfg) (rq_uid e 0) (rq_rnd e 0) (rq_rnd e 1, rq_rnd e 2)
                  (rq_now e 10) (rq_now e 11))) writeCreateServerError in
  do! _ := audit e 30 "database.created" None (Some (u_UID currentUser))
             (JsonObj [("host", JsonStr (d_Host result)); ("name", JsonStr (d_Name result)); ("port", JsonNum (d_Port result))]) in
  do! test := maybeInlineConnectionTest c (cd_TestConnection req) (d_UID result) in
  hret (successResponse (BDatabase (with_test (toDatabaseResponse result) test))).

Definition handleListDatabases (c : Ctx) : H Response :=
  do! currentUser := deref (cx_user c) in
  if IsAdmin currentUser then
    do! databases := or_stop (query_servers (ListServers (rq_sql e 10 0%nat))) (fun _ => writeInternalError) in
    hret (successResponse (BDatabases (map toDatabaseResponse databases)))
  else
    do! databases := or_stop (query_servers (ListListableServers (rq_sql e 10 0%nat))) (fun _ => writeInternalError) in
    hret (successResponse (BLimiteds (map toDatabaseLimitedResponse databases))).

Definition no_access : Response := writeError StatusForbidden ErrCodeForbidden "no access to this database".
Definition database_not_found : Response := writeError StatusNotFound ErrCodeNotFound "database not found".

Definition handleGetDatabase (c : Ctx) (param : option uuid) : H Response :=
  do! uid := bound param "invalid database UID" in
  do! db := or_stop (get_server 10 uid) (fun _ => database_not_found) in
  do! currentUser := deref (cx_user c) in
  if IsAdmin currentUser then hret (successResponse (BDatabase (toDatabaseResponse db)))
  else if IsViewer currentUser then hret (successResponse (BLimited (toDatabaseLimitedResponse db)))
  else if IsConnector currentUser then
    do! _ := or_stop (query_grants (fun d => GetActiveGrant (rq_sql e 11) d (u_UID currentUser) uid (rq_now e 10))) (fun _ => no_access) in
    hret (successResponse (BLimited (toDatabaseLimitedResponse db)))
  else stop no_access.

(** [Username], [Password], [Host] and [DatabaseName] all absent. *)
Definition no_credentials (u : ServerUpdate) : bool :=
  match su_Username u, su_Password u, su_Host u, su_DatabaseName u with None, None, None, None => true | _, _, _, _ => false end.

Definition validateDemoModeUpdate (db : Server) (u : ServerUpdate) : string :=
  match ac_config cfg with
  | None => ""
  | Some c =>
      if negb (IsDemoMode cfg) || no_credentials u then ""
      else match GetDemoTarget c with
           | None => ""
           | Some t =>
               let username := default (d_Username db) (su_Username u) in
               let host := default (d_Host db) (su_Host u) in
               let database := default (d_DatabaseName db) (su_DatabaseName u) in
               match su_Password u with
               | Some password => ValidateDemoTarget c username password host database
               | None =>
                   if match su_Username u with Some _ => negb (String.eqb username (dt_Username t)) | None => false end then only_demo t
                   else if match su_Host u with Some _ => negb (String.eqb host (dt_Host t)) | None => false end then only_demo t
                   else if match su_DatabaseName u with Some _ => negb (String.eqb database (dt_Server t)) | None => false end then only_demo t
                   else ""
               end
           end
  end.

Definition update_error (err : server_error) : Response :=
  match err with
  | ErrTargetMatchesStorage => writeError StatusBadRequest ErrCodeTargetMatchesSelf "target database cannot match DBBat storage database"
  | ErrServerNotFound => database_not_found
  | ErrServerViaNotSSH | ErrServerViaCycle => writeError StatusBadRequest ErrCodeValidationError (rq_text e)
  | _ => writeInternalError
  end.

(** In demo mode. *)
Definition check_demo_update (uid : uuid) (u : ServerUpdate) : H unit :=
  if IsDemoMode cfg && negb (no_credentials u) then
    do! db := or_stop (get_server 10 uid) (fun _ => database_not_found) in
    let msg := validateDemoModeUpdate db u in
    refuse! nonempty msg with writeError StatusForbidden ErrCodeForbidden msg in
    hret tt
  else hret tt.

Definition handleUpdateDatabase (c : Ctx) (param : option uuid) (req : option UpdateDatabaseRequest) : H Response :=
  do! uid := bound param "invalid database UID" in
  do! req := bound req ("invalid request: " ++ rq_text e) in
  let u := ud_Update req in
  do! _ := check_demo_update uid u in
  do! _ := or_stop (exec_servers (fun d => UpdateServer storageDSN (rq_sql e 41) (rq_sql e 40) d uid u (ac_encryptionKey cfg)
             (rq_rnd e 0) (rq_rnd e 1, rq_rnd e 2) (rq_now e 10))) update_error in
  do! currentUser := deref (cx_user c) in
  do! _ := audit e 30 "database.updated" None (Some (u_UID currentUser))
             (JsonObj [("database_uid", json_uid uid); ("updated_fields", redactUpdateForAudit u)]) in
  do! test := maybeInlineConnectionTest c (ud_TestConnection req) uid in
  hret (successResponse (match test with Some t => BTested "database updated" t | None => BMessage "database updated" end)).

Definition handleDeleteDatabase (c : Ctx) (param : option uuid) : H Response :=
  do! uid := bound param "invalid database UID" in
  do! _ := (if IsDemoMode cfg then
              do! db := get_server 10 uid in
              match db with
              | Ok db => refuse! String.eqb (d_Name db) "demo_db"
                           with writeError StatusForbidden ErrCodeForbidden "cannot delete the demo database in demo mode" in
                         hret tt
              | Err _ => hret tt
              | Panic => stop recovered
              end
            else hret tt) in
  do! _ := or_stop (exec_servers (fun d => DeleteServer (rq_sql e 40 0%nat) d uid (rq_now e 10))) (fun _ => writeInternalError) in
  do! currentUser := deref (cx_user c) in
  do! _ := audit e 30 "database.deleted" None (Some (u_UID currentUser)) (JsonObj [("database_uid", json_uid uid)]) in
  hret (successResponse (BMessage "database deleted")).

(** The zero value. *)
Definition no_endpoints_resolved : ResolvedEndpoints :=
  {| re_PGHost := ""; re_OraHost := ""; re_MySQLHost := ""; re_MongoHost := ""; re_PGPort := 0; re_OraPort := 0;
     re_MySQLPort := 0; re_MongoPort := 0; re_WebUIURL := "" |}.

Definition handleGetDatabaseConnection (c : Ctx) (param : option uuid) : H Response :=
  do! uid := bound param "invalid database UID" in
  do! db := or_stop (get_server 10 uid) (fun _ => database_not_found) in
  do! currentUser := deref (cx_user c) in
  do! _ := (if IsAdmin currentUser then hret tt
            else do! grants := or_stop (query_grants (fun d => ListGrants (rq_sql e 11) d
                   {| gf_UserID := Some (u_UID currentUser); gf_DatabaseID := Some uid; gf_ActiveOnly := true |} (rq_now e 10)))
                   (fun _ => database_not_found) in
                 match grants with [] => stop database_not_found | _ => hret tt end) in
  do! pe := query_params (fun d => GetPublicEndpoints (rq_sql e 12 0%nat) d) in
  let pe := match pe with Ok pe => pe | _ => no_endpoints end in
  let endpoints := match ac_config cfg with
                   | Some cf => ResolvePublicEndpoints pe (Some (cf_endpoints cf))
                   | None => Ok no_endpoints_resolved
                   end in
  match endpoints with
  | Ok endpoints =>
      match BuildConnectionURL db currentUser endpoints "" with
      | None => hret (respond StatusConflict (BText "proxy for this protocol is disabled"))
      | Some info => hret (respond StatusOK (BConnection info))
      end
  | _ => stop recovered
  end.

Definition handleListSSHServers : H Response :=
  do! servers := or_stop (query_servers (ListSSHServers (rq_sql e 10 0%nat))) (fun _ => writeInternalError) in
  hret (successResponse (BServers (map toDatabaseResponse servers))).

(** ** Routes *)

Inductive server_route :=
| PostServer (req : option CreateDatabaseRequest) | GetServers | GetServer (uid : option uuid)
| PutServer (uid : option uuid) (req : option UpdateDatabaseRequest) | DelServer (uid : option uuid)
| GetServerConnection (uid : option uuid) | PostServerTest (uid : option uuid) | GetSSHServers.

Definition server_guard (r : server_route) (c : Ctx) : H unit :=
  match r with
  | PostServer _ | PutServer _ _ | DelServer _ | PostServerTest _ | GetSSHServers => requireAdmin c
  | GetServers | GetServer _ | GetServerConnection _ => hret tt
  end.

Definition server_handle (r : server_route) (c : Ctx) : H Response :=
  match r with
  | PostServer req => handleCreateDatabase c req
  | GetServers => handleListDatabases c
  | GetServer uid => handleGetDatabase c uid
  | PutServer uid req => handleUpdateDatabase c uid req
  | DelServer uid => handleDeleteDatabase c uid
  | GetServerConnection uid => handleGetDatabaseConnection c uid
  | PostServerTest uid => handleTestServerConnection c uid
  | GetSSHServers => handleListSSHServers
  end.

Definition serve_servers (hdr : AuthHeader) (r : server_route) : H Response :=
  do! c := authenticated cfg e hdr in
  do! _ := server_guard r c in
  server_handle r c.
End ServerHandlers.

(** ** Every request moves the tables by the operations of the stores *)

Section Refinement.
Context {C : Collation} {A2 : Argon2} {GCM : AEAD} {HS : Hashes} {dig : Digest} {order : MapOrder}
  {UT : UUIDText} {SK : ScramKeys} {TT : TimeText} {HT : HostText} {KP : SSHKeys} {LL : LoginLibraries} {NT : NameText} {SL : SlackLibrary} {QT : QueryText} {CC : CursorCodec}.
Variable storageDSN : string.

Record moves (s s' : ApiState) : Prop := {
  mv_accounts : rtc acct_step (a_db s) (a_db s');
  mv_grants : rtc db_step (a_grants s) (a_grants s');
  mv_servers : rtc (server_step storageDSN) (a_servers s) (a_servers s')
}.

#[local] Instance moves_preorder : PreOrder moves.
Proof. split; [by intros s|]. intros s1 s2 s3 [] []. split; by etransitivity. Qed.
#[local] Instance moves_passive : Passive moves.
Proof. intros s s' [E1 E2 E3 _ _]. split; rewrite ?E1, ?E2, ?E3; apply rtc_refl. Qed.

Lemma moves_of_store s s' : store_steps s s' -> moves s s'.
Proof. intros [A B D]. split; [done|done|by rewrite D]. Qed.

Lemma exec_servers_once {A} (f : ServerDB -> sres A) :
  (forall d, server_step storageDSN d (f d).1) -> steps moves (exec_servers f).
Proof.
  intros Hf s. unfold exec_servers. specialize (Hf (a_servers s)). destruct (f (a_servers s)) as [d r].
  split; cbn; [done|done|by apply rtc_once].
Qed.
Lemma audit_moves e site ev u by_ d : steps moves (audit e site ev u by_ d).
Proof. intros s. apply moves_of_store, audit_steps. Qed.

Section Requests.
Variables (w : Dial.World) (quoted : nat -> Quoted) (ms : Z) (cfg : ApiConfig) (e : ReqEnv).
Hypothesis fresh : rq_uid e 0 <> Nil.

#[local] Hint Resolve audit_moves : api_steps.
#[local] Hint Extern 1 (steps moves (exec_servers _)) => apply exec_servers_once; intros ?; constructor; exact fresh : api_steps.
#[local] Hint Extern 1 (steps moves (exec_servers _)) => apply exec_servers_once; intros ?; constructor : api_steps.

Lemma check_moves srv : steps moves (runConnectionCheck w quoted ms cfg srv).
Proof.
  intros s. unfold runConnectionCheck. pose proof (Check_moves w quoted (ac_encryptionKey cfg) storageDSN (a_servers s) srv ms) as H1.
  destruct (Check _ _ _ _ _ _) as [t r]. by split.
Qed.
#[local] Hint Resolve check_moves : api_steps.
Lemma test_moves c srv : steps moves (test_server w quoted ms cfg e c srv).
Proof. unfold test_server, auditConnectionCheck. walk. Qed.
#[local] Hint Resolve test_moves : api_steps.
Lemma inline_moves c b uid : steps moves (maybeInlineConnectionTest w quoted ms cfg e c b uid).
Proof. unfold maybeInlineConnectionTest, get_server. walk. Qed.
#[local] Hint Resolve inline_moves : api_steps.

Lemma server_guard_moves r c : steps moves (server_guard r c).
Proof. destruct r; cbn [server_guard]; unfold requireAdmin, requireRole; walk. Qed.

Lemma server_handle_moves r c : steps moves (server_handle storageDSN w quoted ms cfg e r c).
Proof.
  destruct r; cbn [server_handle];
    unfold handleCreateDatabase, valid_create, handleListDatabases, handleGetDatabase, handleUpdateDatabase, check_demo_update,
      handleDeleteDatabase, handleGetDatabaseConnection, handleTestServerConnection, handleListSSHServers, get_server; walk.
Qed.

Lemma serve_servers_moves hdr r : steps moves (serve_servers storageDSN w quoted ms cfg e hdr r).
Proof.
  unfold serve_servers. apply steps_bind; [exact _|apply authenticated_steps; exact _|]. intros c.
  apply steps_bind; [exact _|apply server_guard_moves|]. intros _. apply server_handle_moves.
Qed.
End Requests.

(** A request of one of the route tables, of a browser that logs in with OAuth, or a click
    from Slack over either transport; a click's goroutine runs with its request. *)
Inductive request :=
| Plain (r : route)
| OnServers (w : Dial.World) (quoted : nat -> Quoted) (ms : Z) (hdr : AuthHeader) (r : server_route)
| OAuthStart (providers : gmap string OAuthProvider) (name : string) (r : HttpRequest)
| OAuthBack (providers : gmap string OAuthProvider) (name : string) (r : HttpRequest) (q : CallbackQuery)
| Observes (captured : list QueryRowModel) (hdr : AuthHeader) (r : observe_route)
| SlackPost (secret : string) (headers : list (string * string)) (body : option bytes)
| SlackSocket (interactive : bool) (data : option InteractionCallback).

Definition with_job (resp : Response) (job : option (H (list feedback))) : H Response :=
  match job with None => hret resp | Some job => do! _ := job in hret resp end.

Definition serve_any (cfg : ApiConfig) (e : ReqEnv) (r : request) : H Response :=
  match r with
  | Plain r => serve cfg e r
  | OnServers w quoted ms hdr r => serve_servers storageDSN w quoted ms cfg e hdr r
  | OAuthStart providers name r => handleOAuthAuthorize e providers name r
  | OAuthBack providers name r q => handleOAuthCallback cfg e providers name r q
  | Observes captured hdr r => serve_observe cfg e captured hdr r
  | SlackPost secret headers body => let '(resp, job) := serveSlackInteraction cfg e secret headers body in with_job resp job
  | SlackSocket interactive data => with_job (respond StatusOK BNone) (handleSocketEvent cfg e interactive data)
  end.

Lemma job_moves cfg e resp cb : steps moves (with_job resp (dispatchSlackCallback cfg e cb)).
Proof.
  unfold dispatchSlackCallback. destruct (slackDecisionFromCallback cb) as [[approve uid]|]; cbn [option_map with_job]; [|walk].
  apply steps_bind; [exact _| |intros ?; walk]. intros s. apply moves_of_store, slack_steps.
Qed.

Definition served_any (cfg : ApiConfig) (reqs : list (ReqEnv * request)) (s : ApiState) : ApiState :=
  fold_left (fun s q => (run (serve_any cfg q.1 q.2) s).1) reqs s.

(** C19. Whatever requests are served, OAuth logins and clicks from Slack among them, in any order, with any fate of their statements, of
    the network and of the login libraries, the account, access and server tables move
    only by the operations of the stores; so the invariants of all three survive: account
    rows are consistent, grants well formed, and every server is reached by a chain that
    ends and is not the storage database. *)
Theorem api_refines_stores cfg reqs s :
  Forall (fun q => rq_uid q.1 0 <> Nil) reqs ->
  moves s (served_any cfg reqs s) /\
  (acct_ok (a_db s) -> acct_ok (a_db (served_any cfg reqs s))) /\
  (wf (a_grants s) -> wf (a_grants (served_any cfg reqs s))) /\
  (servers_ok storageDSN (a_servers s) -> servers_ok storageDSN (a_servers (served_any cfg reqs s))).
Proof.
  intros Hf. assert (Hs : moves s (served_any cfg reqs s)).
  { unfold served_any. revert s. induction Hf as [|[e r] reqs Hu _ IH]; intros s; cbn [fold_left]; [reflexivity|].
    etransitivity; [|apply IH]. apply (steps_run moves). destruct r; cbn [serve_any fst snd].
    - intros s1. apply moves_of_store, serve_steps.
    - by apply serve_servers_moves.
    - intros s1. apply moves_of_store, authorize_steps.
    - intros s1. apply moves_of_store, callback_steps.
    - apply observe_steps; exact _.
    - unfold serveSlackInteraction. destruct (readVerifiedSlackBody _ _ _) as [b|]; [|cbn [with_job]; walk].
      destruct (InteractionCallbackParse b); [apply job_moves|cbn [with_job]; walk].
    - unfold handleSocketEvent. destruct interactive; [|cbn [with_job]; walk]. destruct data; [apply job_moves|cbn [with_job]; walk]. }
  split; [done|]. destruct Hs as [Ha Hg Hv]. split; [by apply acct_steps_ok|]. split; [by apply wf_steps|by apply server_steps_ok].
Qed.
End Refinement.

(** ** What somebody without the admin role sees *)

Section Visibility.
Context {C : Collation} {A2 : Argon2} {GCM : AEAD} {HS : Hashes} {dig : Digest} {order : MapOrder}
  {UT : UUIDText} {SK : ScramKeys} {TT : TimeText} {HT : HostText} {KP : SSHKeys} {LL : LoginLibraries}.

(** A grant of the user for the database that is active now. *)
Definition granted (s : ApiState) (user database : uuid) (now : time) : Prop :=
  exists k g, access_grants (a_grants s) !! k = Some g /\ selects user database now g.

(** Summaries of listable targets; the summary of one server for a viewer or a holder of
    a grant; a connection URL for a holder of a grant; errors. *)
Definition visible (s : ApiState) (me : User) (now : time) (b : body) : Prop :=
  match b with
  | BNone | BError _ _ => True
  | BLimiteds ds => Forall (fun d => exists k srv, a_servers s !! k = Some srv /\ live_server srv = true /\ d_Listable srv = true /\
                              d_Protocol srv <> ProtocolSSH /\ d = toDatabaseLimitedResponse srv) ds
  | BLimited d => exists uid srv, a_servers s !! uid = Some srv /\ d = toDatabaseLimitedResponse srv /\
                    (IsViewer me = true \/ granted s (u_UID me) uid now)
  | BConnection info => exists uid srv, a_servers s !! uid = Some srv /\ ci_DatabaseUID info = d_UID srv /\ granted s (u_UID me) uid now
  | BText _ => exists uid, granted s (u_UID me) uid now
  | _ => False
  end.

Lemma active_grant_granted sql s u b now g : GetActiveGrant sql (a_grants s) u b now = Ok g -> granted s u b now.
Proof.
  intros (k & g0 & Hk & Hs & _)%GetActiveGrant_Ok. by exists k, g0.
Qed.

Lemma listed_grant sql s f now g gs : ListGrants sql (a_grants s) f now = Ok (g :: gs) ->
  exists k x, access_grants (a_grants s) !! k = Some x /\ grant_selected f now x = true.
Proof.
  unfold ListGrants. destruct (sql 0%nat); [|done]. cbn. destruct (List.filter _ _) as [|x l] eqn:E; [done|]. intros _.
  assert (Hin : In x (List.filter (grant_selected f now) (rows (access_grants (a_grants s))))) by (rewrite E; by left).
  apply filter_In in Hin as [Hr Hs]. apply elem_rows in Hr as [k Hk]. by exists k, x.
Qed.

Lemma connection_uid db user ends key info : BuildConnectionURL db user ends key = Some info -> ci_DatabaseUID info = d_UID db.
Proof.
  unfold BuildConnectionURL, connection_info.
  repeat (match goal with |- context [if ?b then _ else _] => destruct b end; try done; try (by intros [= <-])).
Qed.

(** A handler that reads: the state stays, and its answer is in [V]. *)
Definition answers (s : ApiState) (h : H Response) (V : body -> Prop) : Prop :=
  exists x, h s = (s, x) /\ V (r_body (match x with inl r => r | inr r => r end)).

Lemma answers_ret s r (V : body -> Prop) : V (r_body r) -> answers s (hret r) V.
Proof. intros H. by exists (inl r). Qed.
Lemma answers_stop s r (V : body -> Prop) : V (r_body r) -> answers s (stop r) V.
Proof. intros H. by exists (inr r). Qed.
Lemma answers_bind {A} s (m : H A) k x (V : body -> Prop) : m s = (s, inl x) -> answers s (k x) V -> answers s (hbind m k) V.
Proof. intros E H. unfold answers, hbind. by rewrite E. Qed.
Lemma answers_or_stop {X A} s (m : H (res X A)) r k x (V : body -> Prop) :
  m s = (s, inl x) -> V BNone -> (forall err, V (r_body (r err))) -> (forall a, x = Ok a -> answers s (k a) V) ->
  answers s (hbind (or_stop m r) k) V.
Proof.
  intros E H0 H1 H2. unfold answers, hbind, or_stop, catch, hbind. rewrite E.
  destruct x as [a|err|]; cbn; [by apply H2|eexists; split; [reflexivity|apply H1]|by eexists; split; [reflexivity|]].
Qed.
Lemma answers_bound {A} s (o : option A) m k (V : body -> Prop) :
  V (BError ErrCodeValidationError m) -> (forall a, o = Some a -> answers s (k a) V) -> answers s (hbind (bound o m) k) V.
Proof. intros H1 H2. destruct o as [a|]; [by apply H2|]. by eexists; split; [reflexivity|]. Qed.

Section Caller.
Variables (w : Dial.World) (quoted : nat -> Quoted) (ms : Z) (cfg : ApiConfig) (e : ReqEnv) (dsn : string).
Variables (s : ApiState) (c : Ctx) (me : User).
Hypotheses (Hme : cx_user c = Some me) (Hrole : IsAdmin me = false).
Abbreviation seen := (visible s me (rq_now e 10)).

Lemma caller_known k V : answers s (k me) V -> answers s (hbind (deref (cx_user c)) k) V.
Proof. rewrite Hme. intros H. by eapply answers_bind. Qed.

Lemma list_seen : answers s (handleListDatabases e c) seen.
Proof.
  unfold handleListDatabases. apply caller_known. rewrite Hrole.
  eapply answers_or_stop; [reflexivity|done|done|]. intros ds Hds. apply answers_ret. cbn.
  unfold ListListableServers in Hds. destruct (rq_sql e 10 0%nat); [|done]. injection Hds as <-.
  apply Forall_forall. intros d (srv & -> & Hin)%list_elem_of_fmap. unfold by_name in Hin. rewrite order_by_perm in Hin.
  apply list_elem_of_In, filter_In in Hin as [Hr Hs]. apply elem_rows in Hr as [k Hk]. bools. exists k, srv. by repeat split.
Qed.

Lemma get_seen param : answers s (handleGetDatabase e c param) seen.
Proof.
  unfold handleGetDatabase. apply answers_bound; [done|]. intros uid _.
  eapply answers_or_stop; [reflexivity|done|done|]. intros db Hdb. apply GetServerByUID_Ok in Hdb as [Hdb _].
  apply caller_known. rewrite Hrole. destruct (IsViewer me) eqn:Ev.
  { apply answers_ret. exists uid, db. repeat split; [done|by left]. }
  destruct (IsConnector me); [|by apply answers_stop].
  eapply answers_or_stop; [reflexivity|done|done|]. intros g Hg. apply answers_ret. exists uid, db.
  repeat split; [done|]. right. by eapply active_grant_granted.
Qed.

Lemma connection_seen param : answers s (handleGetDatabaseConnection cfg e c param) seen.
Proof.
  unfold handleGetDatabaseConnection. apply answers_bound; [done|]. intros uid _.
  eapply answers_or_stop; [reflexivity|done|done|]. intros db Hdb. apply GetServerByUID_Ok in Hdb as [Hdb _].
  apply caller_known. rewrite Hrole.
  destruct (ListGrants (rq_sql e 11) (a_grants s) {| gf_UserID := Some (u_UID me); gf_DatabaseID := Some uid; gf_ActiveOnly := true |} (rq_now e 10))
    as [[|g gs]|err|] eqn:El.
  1, 3, 4: unfold answers, hbind, or_stop, catch, query_grants, hbind; rewrite El; cbn; by eexists; split; [reflexivity|].
  assert (Hg : granted s (u_UID me) uid (rq_now e 10)).
  { apply listed_grant in El as (k & x & Hk & Hx). exists k, x. split; [done|]. unfold grant_selected in Hx. cbn in Hx. bools.
    repeat split; [by apply N.eqb_eq|by apply N.eqb_eq|done]. }
  eapply answers_bind; [unfold or_stop, catch, query_grants, hbind; rewrite El; reflexivity|].
  eapply answers_bind; [reflexivity|]. cbv zeta.
  match goal with |- answers _ (match ?x with _ => _ end) _ => destruct x as [ends|err|] end; [|by apply answers_stop..].
  destruct (BuildConnectionURL db me ends "") as [info|] eqn:Eb; apply answers_ret; [|by exists uid].
  exists uid, db. split; [done|]. split; [|done]. by eapply connection_uid.
Qed.

Lemma refused r k : server_guard r c = requireAdmin c -> answers s (hbind (server_guard r c) k) seen.
Proof.
  intros ->. unfold requireAdmin, requireRole. rewrite Hme. replace (HasRole me RoleAdmin) with false by done. by eexists; split; [reflexivity|].
Qed.

Lemma server_seen r : answers s (hbind (server_guard r c) (fun _ => server_handle dsn w quoted ms cfg e r c)) seen.
Proof.
  destruct r; try (by apply refused).
  - eapply answers_bind; [reflexivity|apply list_seen].
  - eapply answers_bind; [reflexivity|apply get_seen].
  - eapply answers_bind; [reflexivity|apply connection_seen].
Qed.
End Caller.

(** C20. Somebody without the admin role changes nothing through the server endpoints and
    learns from them no more than this: the summary (name and description) of the
    live listable targets; the summary of any one server, listable or not, when he
    is a viewer or holds an active grant on it; and, with an active grant on it, a
    server's connection URL.  Hosts, accounts, bastions and checks stay with the
    administrators. *)
Theorem non_admin_servers dsn w quoted ms cfg e hdr r s s1 c me :
  authenticated cfg e hdr s = (s1, inl c) -> cx_user c = Some me -> IsAdmin me = false ->
  let '(s', resp) := run (serve_servers dsn w quoted ms cfg e hdr r) s in
  s' = s1 /\ untouched s s' /\ visible s' me (rq_now e 10) (r_body resp).
Proof.
  intros Ha Hme Hrole. pose proof (authenticated_steps untouched cfg e hdr s) as Hu. rewrite Ha in Hu. cbn in Hu.
  destruct (server_seen w quoted ms cfg e dsn s1 c me Hme Hrole r) as (x & Ex & Hx).
  assert (E : serve_servers dsn w quoted ms cfg e hdr r s = (s1, x)) by (unfold serve_servers; unfold hbind at 1; rewrite Ha; exact Ex).
  unfold run. rewrite E. by destruct x; repeat split; try apply Hu.
Qed.
End Visibility.

(** ** Secrets stay in the server table *)

Section Secrets.
Context {C : Collation} {A2 : Argon2} {GCM : AEAD} {HS : Hashes} {dig : Digest} {order : MapOrder}
  {UT : UUIDText} {SK : ScramKeys} {TT : TimeText} {HT : HostText} {KP : SSHKeys} {LL : LoginLibraries}.

(** Two results that agree up to [R]. *)
Definition same_res {X A B} (R : A -> B -> Prop) (r : res X A) (r' : res X B) : Prop :=
  match r, r' with Ok a, Ok b => R a b | Err e, Err e' => e = e' | Panic, Panic => True | _, _ => False end.
Abbreviation whatever := (fun _ _ => True).

Lemma same_bind {X A B A' B'} (R : A -> B -> Prop) (S : A' -> B' -> Prop) (m : res X A) m' k k' :
  same_res R m m' -> (forall a b, R a b -> same_res S (k a) (k' b)) -> same_res S (rbind m k) (rbind m' k').
Proof. destruct m, m'; cbn; naive_solver. Qed.
Lemma same_refl {X A} (r : res X A) : same_res eq r r.
Proof. by destruct r. Qed.
Lemma encrypt_same nonce p p' key aad : same_res whatever (lift_srv (Encrypt nonce p key aad)) (lift_srv (Encrypt nonce p' key aad)).
Proof. unfold Encrypt. destruct (zlen key =? 32); [|done]. by destruct nonce. Qed.

(** Requests that differ in the text of their secrets only. *)
Definition with_secrets (r : CreateDatabaseRequest) (password key phrase : string) : CreateDatabaseRequest :=
  {| cd_Name := cd_Name r; cd_Description := cd_Description r; cd_Host := cd_Host r; cd_Port := cd_Port r;
     cd_DatabaseName := cd_DatabaseName r; cd_Username := cd_Username r; cd_Password := password; cd_SSLMode := cd_SSLMode r;
     cd_Protocol := cd_Protocol r; cd_OracleServiceName := cd_OracleServiceName r; cd_MongoAuthSource := cd_MongoAuthSource r;
     cd_Listable := cd_Listable r; cd_ViaUID := cd_ViaUID r; cd_SSHPrivateKey := key; cd_SSHPassphrase := phrase;
     cd_TestConnection := cd_TestConnection r |}.
Definition update_secrets (u : ServerUpdate) (password key phrase : option string) : ServerUpdate :=
  {| su_Description := su_Description u; su_Host := su_Host u; su_Port := su_Port u; su_DatabaseName := su_DatabaseName u;
     su_Username := su_Username u; su_Password := password; su_SSLMode := su_SSLMode u; su_Protocol := su_Protocol u;
     su_OracleServiceName := su_OracleServiceName u; su_MongoAuthSource := su_MongoAuthSource u; su_Listable := su_Listable u;
     su_ViaUID := su_ViaUID u; su_ClearViaUID := su_ClearViaUID u; su_SSHPrivateKey := key; su_SSHPassphrase := phrase |}.
Definition as_set {A} (o o' : option A) : Prop := is_Some o <-> is_Some o'.

(** A row without its secrets, and tables that agree but for the secrets of one row. *)
Definition blank_data (pd : ServerProtocolData) : ServerProtocolData :=
  {| sp_MongoDB := sp_MongoDB pd;
     sp_SSH := option_map (fun sd => {| ssh_PrivateKeyEncrypted := []; ssh_PassphraseEncrypted := [];
       ssh_KnownHostKey := ssh_KnownHostKey sd; ssh_PrivateKey := ""; ssh_Passphrase := "" |}) (sp_SSH pd) |}.
Definition blank (s : Server) : Server :=
  {| d_UID := d_UID s; d_Name := d_Name s; d_Description := d_Description s; d_Host := d_Host s; d_Port := d_Port s;
     d_DatabaseName := d_DatabaseName s; d_Username := d_Username s; d_Password := ""; d_PasswordEncrypted := [];
     d_SSLMode := d_SSLMode s; d_Protocol := d_Protocol s; d_OracleServiceName := d_OracleServiceName s; d_ViaUID := d_ViaUID s;
     d_ProtocolData := option_map blank_data (d_ProtocolData s); d_Listable := d_Listable s; d_CreatedBy := d_CreatedBy s;
     d_CreatedAt := d_CreatedAt s; d_UpdatedAt := d_UpdatedAt s; d_DeletedAt := d_DeletedAt s |}.
Definition same_but_secrets (d d' : ServerDB) : Prop :=
  exists uid, (forall k, k <> uid -> d' !! k = d !! k) /\ blank <$> d' !! uid = blank <$> d !! uid.

Lemma same_secrets_refl d : same_but_secrets d d.
Proof. by exists Nil. Qed.
Lemma same_secrets_insert d uid a b : blank a = blank b -> same_but_secrets (<[uid := a]> d) (<[uid := b]> d).
Proof. intros E. exists uid. split; [intros k Hk; by rewrite !lookup_insert_ne|]. by rewrite !lookup_insert_eq; cbn; rewrite E. Qed.
Lemma blank_stored s : blank (stored s) = blank s.
Proof. unfold stored, blank, Server_SSHData. cbn. destruct s as [u n de h p db us pw pe m pr o v pd l cb ca ua da]; cbn. by destruct pd as [[mo [sd|]]|]. Qed.
Abbreviation blank_alike := (fun a b => blank a = blank b).

Lemma update_same dsn walk sql d uid u pw key ph ek nonce nonces now :
  as_set (su_Password u) pw -> as_set (su_SSHPrivateKey u) key -> as_set (su_SSHPassphrase u) ph ->
  same_res whatever (UpdateServer dsn walk sql d uid u ek nonce nonces now).2
    (UpdateServer dsn walk sql d uid (update_secrets u pw key ph) ek nonce nonces now).2 /\
  same_but_secrets (UpdateServer dsn walk sql d uid u ek nonce nonces now).1
    (UpdateServer dsn walk sql d uid (update_secrets u pw key ph) ek nonce nonces now).1.
Proof.
  intros Hp Hk Hh. unfold UpdateServer.
  assert (Hn : forall A (o o' : option A), as_set o o' -> is_none o = is_none o').
  { intros A o o' H. destruct o, o'; try done; exfalso; [destruct (proj1 H ltac:(by eexists))|destruct (proj2 H ltac:(by eexists))]; done. }
  set (m := rbind (checkStorageDSNConflict _ _ _ _ u) _). set (m' := rbind (checkStorageDSNConflict _ _ _ _ (update_secrets _ _ _ _)) _).
  assert (Hm : same_res blank_alike m m').
  { apply (same_bind eq); [apply same_refl|]. intros a b _. apply (same_bind eq); [apply same_refl|]. intros a' b' _.
    apply (same_bind as_set).
    { cbn [su_Password update_secrets]. destruct (su_Password u), pw; try done.
      - eapply same_bind; [apply encrypt_same|]. intros; cbn. unfold as_set. split; intros; by eexists.
      - by destruct (proj1 Hp ltac:(by eexists)).
      - by destruct (proj2 Hp ltac:(by eexists)). }
    intros enc enc' _. cbn [su_SSHPrivateKey su_SSHPassphrase su_MongoAuthSource update_secrets].
    rewrite (Hn _ _ _ Hk), (Hn _ _ _ Hh). apply (same_bind (fun pd pd' => option_map blank_data pd = option_map blank_data pd')).
    { destruct (is_none key && is_none ph); [done|]. apply (same_bind (fun a b => blank_data a = blank_data b)); [|by intros ? ? E; cbn; rewrite E].
      unfold mergedSSHSecrets. apply (same_bind eq); [apply same_refl|]. intros cur _ <-. cbn [su_SSHPrivateKey su_SSHPassphrase update_secrets].
      apply (same_bind whatever).
      { destruct (su_SSHPrivateKey u), key; try done; [apply encrypt_same|by destruct (proj1 Hk ltac:(by eexists))|by destruct (proj2 Hk ltac:(by eexists))]. }
      intros k1 k2 _. apply (same_bind whatever); [|done].
      destruct (su_SSHPassphrase u), ph; try done; [apply encrypt_same|by destruct (proj1 Hh ltac:(by eexists))|by destruct (proj2 Hh ltac:(by eexists))]. }
    intros pd pd' Hpd. assert (is_none pd = is_none pd') as -> by (by destruct pd, pd'). destruct (sql 2%nat && _); [|done].
    destruct (live_server_at d uid) as [row|]; [|done]. cbn [same_res].
    unfold blank, updated_row. cbn [d_UID d_Name d_Description d_Host d_Port d_DatabaseName d_Username d_SSLMode d_Protocol d_OracleServiceName
      d_ViaUID d_ProtocolData d_Listable d_CreatedBy d_CreatedAt d_UpdatedAt d_DeletedAt update_secrets su_Description su_Host su_Port
      su_DatabaseName su_Username su_SSLMode su_Protocol su_OracleServiceName su_Listable su_ViaUID su_ClearViaUID].
    f_equal. by destruct pd, pd'. }
  clearbody m m'. destruct m, m'; try done; (split; [done|]); try apply same_secrets_refl. by apply same_secrets_insert.
Qed.

Definition shown (a b : Server) : Prop := toDatabaseResponse a = toDatabaseResponse b.
Definition same_shape (s s' : string) : Prop := nonempty s = nonempty s'.
Lemma same_shape_empty s s' : same_shape s s' -> String.eqb s "" = String.eqb s' "".
Proof. unfold same_shape, nonempty. intros H. by apply (f_equal negb) in H; rewrite !negb_involutive in H. Qed.

(** SSH secrets of the same shape, and the same public half. *)
Definition like_ssh (a b : SSHServerData) : Prop :=
  ssh_KnownHostKey a = ssh_KnownHostKey b /\ same_shape (ssh_PrivateKey a) (ssh_PrivateKey b) /\ same_shape (ssh_Passphrase a) (ssh_Passphrase b).

Lemma encrypt_ssh_same uid a b ek nonces : like_ssh a b -> same_res like_ssh (encryptSSHSecrets uid a ek nonces) (encryptSSHSecrets uid b ek nonces).
Proof.
  intros (K & E1 & E2). unfold encryptSSHSecrets. apply (same_bind like_ssh).
  - rewrite (same_shape_empty _ _ E1). destruct (String.eqb _ _); [done|]. eapply same_bind; [apply encrypt_same|]. done.
  - intros a' b' (K' & E1' & E2'). rewrite (same_shape_empty _ _ E2'). destruct (String.eqb _ _); [done|].
    eapply same_bind; [apply encrypt_same|]. done.
Qed.

Lemma create_same dsn walk sql d r pw key ph by_ ek uid nonce nonces n n' :
  same_shape (cd_SSHPrivateKey r) key -> same_shape (cd_SSHPassphrase r) ph ->
  same_res shown (CreateServer dsn walk sql d (requested_server r by_) ek uid nonce nonces n n').2
    (CreateServer dsn walk sql d (requested_server (with_secrets r pw key ph) by_) ek uid nonce nonces n n').2 /\
  same_but_secrets (CreateServer dsn walk sql d (requested_server r by_) ek uid nonce nonces n n').1
    (CreateServer dsn walk sql d (requested_server (with_secrets r pw key ph) by_) ek uid nonce nonces n n').1.
Proof.
  intros Hk Hh. unfold CreateServer, create_tx. cbn [requested_server with_secrets d_Host d_Port d_DatabaseName d_ViaUID d_Name
    cd_Host cd_Port cd_DatabaseName cd_ViaUID cd_Name].
  
  assert (Hd : forall x : ServerDB, same_but_secrets x x) by apply same_secrets_refl.
  destruct (MatchesStorageDSN _ _ _ _); [by split|]. destruct (match cd_ViaUID r with Some v => _ | None => _ end); [|by split..].
  destruct (negb _ || _); [by split|]. destruct (name_taken d _); [by split|].
  set (m := rbind _ _). set (m' := rbind (lift_srv (Encrypt nonce (str_bytes (d_Password (requested_server (with_secrets _ _ _ _) _))) _ _)) _).
  set (R := fun a b => shown a b /\ blank a = blank b). assert (Hm : same_res R m m').
  { apply (same_bind whatever); [apply encrypt_same|]. intros enc enc' _. destruct (sql 2%nat); [|done]. cbn [rbind].
    apply (same_bind R); [|intros x1 x2 Hx; by destruct (sql 4%nat)].
    unfold requested_server, Server_SSHData; cbn [with_secrets cd_Protocol cd_MongoAuthSource cd_SSHPrivateKey cd_SSHPassphrase d_ProtocolData].
    unfold same_shape in Hk, Hh. rewrite <- Hk, <- Hh.
    set (secrets := String.eqb (cd_Protocol r) ProtocolSSH && _). destruct secrets.
    - rewrite orb_true_r. cbn [sp_SSH]. unfold has_plain_secret. cbn [ssh_PrivateKey ssh_Passphrase].
      fold (nonempty (cd_SSHPrivateKey r)) (nonempty (cd_SSHPassphrase r)) (nonempty key) (nonempty ph). rewrite <- Hk, <- Hh.
      destruct (_ || _); [|done]. eapply same_bind; [by apply encrypt_ssh_same|]. intros sd1 sd2 (K & _). destruct (sql 3%nat); [|done].
      split; [unfold shown, toDatabaseResponse; cbn; by rewrite K|unfold blank, blank_data; cbn; by rewrite K].
    - rewrite orb_false_r. destruct (nonempty (cd_MongoAuthSource r)); done. }
  clearbody m m'. destruct m, m'; try done; (split; [try apply Hm; done|]); try apply Hd. apply same_secrets_insert. rewrite !blank_stored. apply Hm.
Qed.

(** Two states that agree on all but the secrets of one server, and computations run side by side:
    from states related by [P] they go on with values related by [R] in states related
    by [Q], or both stop with one response. *)
Definition like (s s' : ApiState) : Prop :=
  s' = put_servers s (a_servers s') /\ same_but_secrets (a_servers s) (a_servers s').

Definition alike {A} (P Q : relation ApiState) (R : A -> A -> Prop) (m m' : H A) : Prop :=
  forall s s', P s s' ->
  match m s, m' s' with
  | (t, inl a), (t', inl b) => Q t t' /\ R a b
  | (t, inr r), (t', inr r') => like t t' /\ r = r'
  | _, _ => False
  end.

Lemma like_refl s : like s s.
Proof. split; [by destruct s|apply same_secrets_refl]. Qed.

Lemma alike_bind {A B} (P Q T : relation ApiState) (R : A -> A -> Prop) (S : B -> B -> Prop) m m' k k' :
  alike P Q R m m' -> (forall a b, R a b -> alike Q T S (k a) (k' b)) -> alike P T S (hbind m k) (hbind m' k').
Proof.
  intros Hm Hk s s' Hs. specialize (Hm s s' Hs). unfold hbind. destruct (m s) as [t [a|r]], (m' s') as [t' [b|r']]; try done.
  destruct Hm as [Ht Hab]. by apply Hk.
Qed.
Lemma alike_ret {A} P (R : A -> A -> Prop) a b : R a b -> alike P P R (hret a) (hret b).
Proof. by intros HR s s' Hs. Qed.
Lemma alike_stop {A} (P Q : relation ApiState) (R : A -> A -> Prop) r : (forall s s', P s s' -> like s s') -> alike P Q R (stop r) (stop r).
Proof. intros HP s s' Hs. split; [by apply HP|done]. Qed.
Lemma alike_refuse {A} (Q : relation ApiState) (R : A -> A -> Prop) r : alike eq Q R (stop r) (stop r).
Proof. apply alike_stop. intros s _ <-. apply like_refl. Qed.
Lemma alike_audit e site ev u by_ d : alike like like eq (audit e site ev u by_ d) (audit e site ev u by_ d).
Proof.
  unfold audit, ignore. apply (alike_bind _ like _ eq).
  - intros s s' [Hs Hd]. unfold exec. rewrite Hs. cbn. destruct (LogAuditEvent _ _ _ _ _) as [x r]. split; [|done]. by destruct s.
  - intros [x|x|] _ <-; (by apply alike_ret) || by apply alike_stop.
Qed.
Lemma alike_exec_servers {A} (R : A -> A -> Prop) (f f' : ServerDB -> sres A) (h : server_error -> Response) :
  (forall d, same_res R (f d).2 (f' d).2 /\ same_but_secrets (f d).1 (f' d).1) -> alike eq like R (or_stop (exec_servers f) h) (or_stop (exec_servers f') h).
Proof.
  intros Hf s _ <-. destruct (Hf (a_servers s)) as [Hr Hd]. clear Hf. unfold or_stop, catch, exec_servers, hbind.
  destruct (f (a_servers s)) as [d [a|x|]], (f' (a_servers s)) as [d' [b|x'|]]; cbn in *; try done.
  by subst x'.
Qed.

Section Handlers.
Variables (w : Dial.World) (quoted : nat -> Quoted) (ms : Z) (cfg : ApiConfig) (e : ReqEnv) (dsn : string).
Hypothesis no_demo : IsDemoMode cfg = false.

Lemma demo_off c u p h d : ac_config cfg = Some c -> ValidateDemoTarget c u p h d = "".
Proof. intros E. unfold ValidateDemoTarget, GetDemoTarget. unfold IsDemoMode in no_demo. rewrite E in no_demo. by rewrite no_demo. Qed.

Definition valid_pair (check : bool) pw key ph (a b : CreateDatabaseRequest) : Prop :=
  cd_TestConnection a = check /\ b = with_secrets a pw key ph /\ same_shape (cd_SSHPrivateKey a) key /\ same_shape (cd_SSHPassphrase a) ph.

Lemma alike_known {A B} (P Q : relation ApiState) (R : B -> B -> Prop) (a b : A) (k k' : A -> H B) : alike P Q R (k a) (k' b) -> alike P Q R (hbind (hret a) k) (hbind (hret b) k').
Proof. done. Qed.

(** The second half of the checks. *)
Lemma fields_same r pw key ph :
  same_shape (cd_Password r) pw -> same_shape (cd_SSHPrivateKey r) key -> same_shape (cd_SSHPassphrase r) ph ->
  same_res (valid_pair (cd_TestConnection r) pw key ph) (validateCreateProtocolFields r) (validateCreateProtocolFields (with_secrets r pw key ph)).
Proof.
  unfold same_shape. intros Hp Hk Hh. unfold validateCreateProtocolFields. cbn [with_secrets cd_Protocol cd_SSHPrivateKey cd_Password
    cd_OracleServiceName cd_DatabaseName cd_SSLMode]. rewrite <- Hp, <- Hk.
  destruct (String.eqb _ ProtocolSSH); [by destruct (_ || _)|]. destruct (String.eqb _ ProtocolOracle).
  - destruct (_ || _); [|done]. by destruct (nonempty (cd_OracleServiceName r)).
  - destruct (nonempty (cd_DatabaseName r)); [|done]. by destruct (nonempty (cd_SSLMode r)).
Qed.

Lemma valid_create_same r pw key ph :
  same_shape (cd_Password r) pw -> same_shape (cd_SSHPrivateKey r) key -> same_shape (cd_SSHPassphrase r) ph ->
  alike eq eq (valid_pair (cd_TestConnection r) pw key ph) (valid_create cfg e (Some r)) (valid_create cfg e (Some (with_secrets r pw key ph))).
Proof.
  intros Hp Hk Hh. unfold valid_create, bound, bind. cbn [with_secrets cd_Name cd_Host cd_Username].
  destruct (nonempty (cd_Name r) && nonempty (cd_Host r) && nonempty (cd_Username r)); [|apply alike_refuse].
  apply alike_known. cbv zeta beta.
  assert (Hd : forall x, match ac_config cfg with
                         | Some c => ValidateDemoTarget c (cd_Username x) (cd_Password x) (cd_Host x) (cd_DatabaseName x)
                         | None => "" end = "").
  { intros x. destruct (ac_config cfg) eqn:E; [|done]. by apply demo_off. }
  rewrite (Hd r), (Hd (with_secrets r pw key ph)). cbn [nonempty String.eqb negb].
  set (r0 := if String.eqb (cd_Protocol r) "" then _ else r).
  assert (E0 : (if String.eqb (cd_Protocol (with_secrets r pw key ph)) "" then with_protocol (with_secrets r pw key ph) ProtocolPostgreSQL
                  (cd_OracleServiceName (with_secrets r pw key ph)) (cd_SSLMode (with_secrets r pw key ph)) else with_secrets r pw key ph)
               = with_secrets r0 pw key ph) by (unfold r0; cbn [with_secrets cd_Protocol]; by destruct (String.eqb _ _)).
  assert (E1 : cd_TestConnection r0 = cd_TestConnection r /\ same_shape (cd_Password r0) pw /\ same_shape (cd_SSHPrivateKey r0) key /\ same_shape (cd_SSHPassphrase r0) ph)
    by (unfold r0; by destruct (String.eqb _ _)).
  rewrite E0. clearbody r0. destruct E1 as (P0 & P1 & P2 & P3). rewrite <- P0. clear P0.
  change (cd_Protocol (with_secrets r0 pw key ph)) with (cd_Protocol r0). change (cd_Port (with_secrets r0 pw key ph)) with (cd_Port r0).
  destruct (negb (isSupportedProtocol (cd_Protocol r0))); [apply alike_refuse|]. destruct (cd_Port r0 =? 0); [apply alike_refuse|].
  pose proof (fields_same r0 pw key ph P1 P2 P3) as Hs.
  destruct (validateCreateProtocolFields r0) as [a|m|], (validateCreateProtocolFields (with_secrets r0 pw key ph)) as [b|m'|]; cbn in Hs; try done.
  - subst m'. apply alike_refuse.
  - apply alike_refuse.
Qed.

Lemma caller_alike P (c : Ctx) : (forall s s', P s s' -> like s s') -> alike P P eq (deref (cx_user c)) (deref (cx_user c)).
Proof. intros HP. destruct (cx_user c); [by apply alike_ret|by apply alike_stop]. Qed.

Lemma create_alike c r pw key ph :
  same_shape (cd_Password r) pw -> same_shape (cd_SSHPrivateKey r) key -> same_shape (cd_SSHPassphrase r) ph ->
  cd_TestConnection r = false ->
  alike eq like eq (handleCreateDatabase dsn w quoted ms cfg e c (Some r))
    (handleCreateDatabase dsn w quoted ms cfg e c (Some (with_secrets r pw key ph))).
Proof.
  intros Hp Hk Hh Ht. unfold handleCreateDatabase. eapply alike_bind; [by apply valid_create_same|]. intros a b (Ec & -> & Ka & Ha).
  eapply alike_bind; [apply caller_alike; intros s _ <-; apply like_refl|]. intros u _ <-.
  eapply alike_bind; [apply (alike_exec_servers shown); intros d; by apply create_same|]. intros x y Hxy.
  pose proof (f_equal dr_Host Hxy) as E1. pose proof (f_equal dr_Name Hxy) as E2. pose proof (f_equal dr_Port Hxy) as E3.
  cbn [toDatabaseResponse dr_Host dr_Name dr_Port] in E1, E2, E3. rewrite E1, E2, E3.
  eapply alike_bind; [apply alike_audit|]. intros _ _ _. cbn [with_secrets cd_TestConnection]. rewrite Ec, Ht. cbn [maybeInlineConnectionTest].
  apply alike_known, alike_ret. by rewrite Hxy.
Qed.

Lemma redact_same u pw key ph :
  as_set (su_Password u) pw -> as_set (su_SSHPrivateKey u) key -> as_set (su_SSHPassphrase u) ph ->
  redactUpdateForAudit (update_secrets u pw key ph) = redactUpdateForAudit u.
Proof.
  intros Hp Hk Hh. unfold redactUpdateForAudit. cbn [update_secrets su_Password su_SSHPrivateKey su_SSHPassphrase su_ClearViaUID
    su_DatabaseName su_Description su_Host su_Listable su_MongoAuthSource su_OracleServiceName su_Port su_Protocol su_SSLMode su_Username su_ViaUID].
  assert (Hs : forall (key : string) (o o' : option string), as_set o o' ->
    match o' with Some v => [(key, (fun _ => JsonBool true) v)] | None => [] end = match o with Some v => [(key, (fun _ => JsonBool true) v)] | None => [] end).
  { intros name o o' Ho. destruct o as [x|], o' as [y|]; try reflexivity.
    - by destruct (proj1 Ho (ex_intro _ x eq_refl)).
    - by destruct (proj2 Ho (ex_intro _ y eq_refl)). }
  by rewrite (Hs _ _ _ Hp), (Hs _ _ _ Hk), (Hs _ _ _ Hh).
Qed.

Lemma update_alike c param u t pw key ph :
  as_set (su_Password u) pw -> as_set (su_SSHPrivateKey u) key -> as_set (su_SSHPassphrase u) ph -> t = false ->
  alike eq like eq (handleUpdateDatabase dsn w quoted ms cfg e c param (Some {| ud_Update := u; ud_TestConnection := t |}))
    (handleUpdateDatabase dsn w quoted ms cfg e c param (Some {| ud_Update := update_secrets u pw key ph; ud_TestConnection := t |})).
Proof.
  intros Hp Hk Hh ->. unfold handleUpdateDatabase. destruct param as [uid|]; [|apply alike_refuse]. apply alike_known. cbv zeta beta.
  apply alike_known. cbn [ud_Update ud_TestConnection]. unfold check_demo_update. rewrite no_demo. cbn [andb].
  apply alike_known. rewrite redact_same by done.
  eapply alike_bind; [apply (alike_exec_servers whatever); intros d; by apply update_same|]. intros _ _ _.
  eapply alike_bind; [apply caller_alike; done|]. intros me _ <-.
  eapply alike_bind; [apply alike_audit|]. intros _ _ _. by apply alike_known, alike_ret.
Qed.
End Handlers.

(** The same request, other secrets of the same shape; no check is asked for. *)
Inductive other_secrets : server_route -> server_route -> Prop :=
| other_create r pw key ph :
    same_shape (cd_Password r) pw -> same_shape (cd_SSHPrivateKey r) key -> same_shape (cd_SSHPassphrase r) ph ->
    cd_TestConnection r = false -> other_secrets (PostServer (Some r)) (PostServer (Some (with_secrets r pw key ph)))
| other_update param u pw key ph :
    as_set (su_Password u) pw -> as_set (su_SSHPrivateKey u) key -> as_set (su_SSHPassphrase u) ph ->
    other_secrets (PutServer param (Some {| ud_Update := u; ud_TestConnection := false |}))
      (PutServer param (Some {| ud_Update := update_secrets u pw key ph; ud_TestConnection := false |})).

(** C21. The passwords, private keys and passphrases given when a server is created or
    updated reach the secret columns of its row and nothing else.  Outside demo mode,
    and when the request asks for no connection test, a request with other secrets,
    present and empty in the same places, is answered the same, on the error paths
    too, leaves the same audit log and every other part of the state the same, and
    the server tables agree but for the secrets of one row.  (In demo mode the
    password is compared with the demo account's, and a connection test uses the
    secrets.) *)
Theorem secrets_stay_in_row w quoted ms cfg e dsn hdr r r' s :
  IsDemoMode cfg = false -> other_secrets r r' ->
  let '(t, x) := run (serve_servers dsn w quoted ms cfg e hdr r) s in
  let '(t', x') := run (serve_servers dsn w quoted ms cfg e hdr r') s in
  x = x' /\ t' = put_servers t (a_servers t') /\ same_but_secrets (a_servers t) (a_servers t').
Proof.
  intros Hd Ho.
  assert (Ha : alike eq like eq (serve_servers dsn w quoted ms cfg e hdr r) (serve_servers dsn w quoted ms cfg e hdr r')).
  { assert (Heq : forall A (m : H A), alike eq eq eq m m).
    { intros A m s0 _ <-. destruct (m s0) as [t [a|x]]; split; try done. apply like_refl. }
    apply (alike_bind _ eq _ eq); [apply Heq|]. intros c _ <-. apply (alike_bind _ eq _ eq).
    { destruct Ho; apply Heq. }
    intros _ _ _. destruct Ho; [by apply create_alike|by apply update_alike]. }
  specialize (Ha s s eq_refl). unfold run.
  destruct (serve_servers _ _ _ _ _ _ _ r s) as [t [x|x]], (serve_servers _ _ _ _ _ _ _ r' s) as [t' [x'|x']]; naive_solver.
Qed.
End Secrets.

(** ** Demo mode and missing checks *)

Lemma nonempty_false s : nonempty s = false -> s = "".
Proof. unfold nonempty. intros H%negb_false_iff. by apply String.eqb_eq. Qed.

(** In demo mode a row is only created for the demo target and its account. *)
Theorem demo_create_target cfg e cf t r r' s s' :
  ac_config cfg = Some cf -> GetDemoTarget cf = Some t -> valid_create cfg e (Some r) s = (s', inl r') ->
  cd_Username r = dt_Username t /\ cd_Password r = dt_Password t /\ cd_Host r = dt_Host t /\ cd_DatabaseName r = dt_Server t.
Proof.
  intros Hc Ht. unfold valid_create, bound, bind. destruct (_ && _); [|done]. unfold hbind at 1, hret at 1. rewrite Hc.
  unfold ValidateDemoTarget. rewrite Ht. destruct (_ && _ && _ && _) eqn:E.
  - intros _. bools. by repeat split.
  - cbv zeta. replace (nonempty (only_demo t)) with true by reflexivity. done.
Qed.

Module SampleApiServers.
Import ApiSample SampleOAuth SampleSlack SampleObserve.
#[export] Existing Instance SampleCheck.sc_libs.
#[export] Instance sa_text : HostText := {| parse_url _ := None; ToLower s := s |}.
#[export] Instance sa_keys : SSHKeys := {| ParsePrivateKey _ := true; ParsePrivateKeyWithPassphrase _ _ := true |}.
Definition dsn := "host=localhost port=5432 dbname=dbbat".

Definition wanted (password : string) : CreateDatabaseRequest :=
  {| cd_Name := "orders"; cd_Description := ""; cd_Host := "10.0.0.1"; cd_Port := 5432; cd_DatabaseName := "orders";
     cd_Username := "app"; cd_Password := password; cd_SSLMode := ""; cd_Protocol := ""; cd_OracleServiceName := "";
     cd_MongoAuthSource := ""; cd_Listable := None; cd_ViaUID := None; cd_SSHPrivateKey := ""; cd_SSHPassphrase := "";
     cd_TestConnection := false |}.
Definition on_servers (name : string) (r : server_route) : request := OnServers SampleCheck.net SampleCheck.quoted 5 (basic name) r.
Definition created : ApiState := served_any dsn cfg [(env 100 50, on_servers "alice" (PostServer (Some (wanted "pw"))))] (server staff).

Definition no_update : ServerUpdate :=
  {| su_Description := None; su_Host := None; su_Port := None; su_DatabaseName := None; su_Username := None; su_Password := None;
     su_SSLMode := None; su_Protocol := None; su_OracleServiceName := None; su_MongoAuthSource := None; su_Listable := None;
     su_ViaUID := None; su_ClearViaUID := false; su_SSHPrivateKey := None; su_SSHPassphrase := None |}.
Definition to_nonsense : ServerUpdate :=
  {| su_Description := None; su_Host := None; su_Port := Some 0; su_DatabaseName := None; su_Username := None; su_Password := None;
     su_SSLMode := None; su_Protocol := Some "gopher"; su_OracleServiceName := None; su_MongoAuthSource := None; su_Listable := None;
     su_ViaUID := None; su_ClearViaUID := false; su_SSHPrivateKey := None; su_SSHPassphrase := None |}.

(** The row is there, with the defaults. *)
Example created_row : option_map (fun r => (d_Protocol r, d_SSLMode r, d_Listable r)) (a_servers created !! 50%N) = Some (ProtocolPostgreSQL, "prefer", true).
Proof. vm_compute. reflexivity. Qed.

(** An update is not asked for a supported protocol or a port. *)
Example update_accepts_any_protocol :
  let '(s, x) := run (serve_any dsn cfg (env 100 90) (on_servers "alice" (PutServer (Some 50%N) (Some {| ud_Update := to_nonsense; ud_TestConnection := false |})))) created in
  r_status x = StatusOK /\ option_map (fun r => (d_Protocol r, d_Port r)) (a_servers s !! 50%N) = Some ("gopher", 0).
Proof. vm_compute. split; reflexivity. Qed.

(** Deleting a server that does not exist is an internal error. *)
Example delete_missing :
  r_status (run (serve_any dsn cfg (env 100 90) (on_servers "alice" (DelServer (Some 7%N)))) created).2 = StatusInternalServerError.
Proof. vm_compute. reflexivity. Qed.
End SampleApiServers.

Import ApiSample SampleOAuth SampleSlack SampleObserve SampleApiServers.

Lemma api_refines_stores_witness : servers_ok SampleApiServers.dsn (a_servers created).
Proof.
  refine (proj2 (proj2 (proj2 (api_refines_stores SampleApiServers.dsn cfg
    [(env 100 50, on_servers "alice" (PostServer (Some (wanted "pw"))))] (server staff) _))) _).
  - repeat constructor. discriminate.
  - apply servers_ok_empty.
Defined.

Lemma non_admin_servers_witness :
  exists c me, cx_user c = Some me /\ u_UID me = bob /\
    visible created me 100 (r_body (run (serve_servers SampleApiServers.dsn SampleCheck.net SampleCheck.quoted 5 cfg (env 100 60) (basic "bob") GetServers) created).2).
Proof.
  destruct (value_of (authenticated cfg (env 100 60) (basic "bob") created)) as [c|] eqn:E; [|vm_compute in E; discriminate].
  pose proof E as E'. vm_compute in E'. injection E' as E'. apply value_of_inl in E as [s1 E].
  destruct (cx_user c) as [me|] eqn:Hme; [|rewrite <- E' in Hme; discriminate].
  assert (Hr : IsAdmin me = false /\ u_UID me = bob) by (rewrite <- E' in Hme; injection Hme as <-; split; reflexivity).
  exists c, me. split; [exact Hme|]. split; [apply Hr|].
  pose proof (non_admin_servers SampleApiServers.dsn SampleCheck.net SampleCheck.quoted 5 cfg (env 100 60) (basic "bob") GetServers created s1 c me E Hme (proj1 Hr)) as H1.
  destruct (run _ created) as [s' x]. destruct H1 as (_ & [_ Hg Hs _ _] & H1). cbn [snd].
  unfold visible, granted in *. rewrite Hg, Hs in H1. exact H1.
Defined.

Lemma secrets_stay_in_row_witness :
  (run (serve_servers SampleApiServers.dsn SampleCheck.net SampleCheck.quoted 5 cfg (env 100 50) (basic "alice") (PostServer (Some (wanted "pw")))) (server staff)).2 =
  (run (serve_servers SampleApiServers.dsn SampleCheck.net SampleCheck.quoted 5 cfg (env 100 50) (basic "alice") (PostServer (Some (wanted "other")))) (server staff)).2.
Proof.
  pose proof (secrets_stay_in_row SampleCheck.net SampleCheck.quoted 5 cfg (env 100 50) SampleApiServers.dsn (basic "alice") _ _ (server staff) eq_refl
    (other_create (wanted "pw") "other" "" "" eq_refl eq_refl eq_refl eq_refl)) as H1.
  change (with_secrets (wanted "pw") "other" "" "") with (wanted "other") in H1.
  destruct (run _ (server staff)) as [t x], (run _ (server staff)) as [t' x']. exact (proj1 H1).
Defined.
