(* ===== verification/OracleValues.v ===== *)
(** * Oracle column values as text
    ([internal/proxy/oracle/types.go], the value decoders of [ttc_decode.go])

    A value is the list of its bytes.  A [time.Time] is the number of nanoseconds
    since the epoch with the offset of its zone in seconds; [Date] is [time.Date]
    with its normalisation.  Floats are their bits, rendered by [GoText]. *)

From Stdlib Require Import ZArith Lia List Bool String Ascii.
From stdpp Require Import base list gmap strings.
From S2P Require Import Prelude GoStrings Encoding PgText.

Open Scope string_scope.
Open Scope Z_scope.

(** ** Bytes and text *)

(** [findBytes]: the first position of [pattern] in [data], or -1. *)
Fixpoint find_bytes (i : Z) (data pattern : bytes) : Z :=
  if bool_decide (take (length pattern) data = pattern) then i
  else match data with [] => -1 | _ :: data => find_bytes (i + 1) data pattern end.

Definition findBytes (data pattern : bytes) : Z := find_bytes 0 data pattern.

(** [hex.EncodeToString] *)
Definition hex1 (n : Z) : ascii := chr (if n <? 10 then 48 + n else 87 + n).

Fixpoint hex_string (b : bytes) : string :=
  match b with
  | [] => ""
  | c :: b => String (hex1 (c / 16)) (String (hex1 (c mod 16)) (hex_string b))
  end.

(** [strings.TrimLeft] and [strings.TrimRight] with a cutset of one character. *)
Fixpoint trim_left (c : ascii) (s : string) : string :=
  match s with
  | String d r => if Ascii.eqb c d then trim_left c r else s
  | EmptyString => ""
  end.

Fixpoint trim_right (c : ascii) (s : string) : string :=
  match s with
  | EmptyString => ""
  | String d r =>
      match trim_right c r with
      | EmptyString => if Ascii.eqb c d then "" else String d ""
      | r => String d r
      end
  end.

Fixpoint zeros (n : nat) : string := match n with O => "" | S n => String "0" (zeros n) end.

(** [%0<w>d] of a non-negative number. *)
Definition pad (w : Z) (n : Z) : string :=
  let s := FormatInt n in zeros (Z.to_nat (w - slen s)) ++ s.

Definition isReadableASCII (b : bytes) : bool :=
  (0 <? zlen b) && forallb (fun c => (32 <=? c) && (c <=? 126)) b.

(** ** NUMBER *)

Definition placeDecimalPoint (mant : string) (shift : Z) : string :=
  if 0 <=? shift then
    let t := trim_left "0" (mant ++ zeros (Z.to_nat shift)) in
    if String.eqb t "" then "0" else t
  else
    let frac := - shift in
    let '(intPart, fracPart) :=
      if frac <? slen mant
      then (String.substring 0 (Z.to_nat (slen mant - frac)) mant,
            String.substring (Z.to_nat (slen mant - frac)) (Z.to_nat frac) mant)
      else ("0", zeros (Z.to_nat (frac - slen mant)) ++ mant) in
    let intPart := trim_left "0" intPart in
    let intPart := if String.eqb intPart "" then "0" else intPart in
    let fracPart := trim_right "0" fracPart in
    if String.eqb fracPart "" then intPart else intPart ++ "." ++ fracPart.

(** Two decimal digits for each base-100 digit; [None] when one is out of range. *)
Fixpoint mantissa (digits : list Z) : option string :=
  match digits with
  | [] => Some ""
  | d :: digits =>
      if (d <? 0) || (99 <? d) then None
      else option_map (fun s => String (digit (d / 10)) (String (digit (d mod 10)) s)) (mantissa digits)
  end.

(** [positive, exp100, digits]; [Panic] is the slice [b[1:end]] of the one byte 0x66. *)
Definition number_parts (b0 : Z) (rest : bytes) : res unit (bool * Z * list Z) :=
  if Z.testbit b0 7 then Ok (true, Z.land b0 127 - 65, map (fun c => c - 1) rest)
  else
    let exp100 := Z.land (Z.lxor b0 255) 127 - 65 in
    match rest with
    | [] => if b0 =? 102 then Panic else Ok (false, exp100, [])
    | _ =>
        let rest := if List.last rest 0 =? 102 then removelast rest else rest in
        Ok (false, exp100, map (fun c => 101 - c) rest)
    end.

Definition formatOracleNumber (b : bytes) : res unit (option string) :=
  match b with
  | [] => Ok None
  | b0 :: rest =>
      if (zlen b =? 1) && (b0 =? 128) then Ok (Some "0")
      else
        let! ' (positive, exp100, digits) := number_parts b0 rest in
        if zlen digits =? 0 then Ok None
        else
          match mantissa digits with
          | None => Ok None
          | Some mant =>
              let s := placeDecimalPoint mant (2 * (exp100 - zlen digits + 1)) in
              Ok (Some (if positive then s else "-" ++ s))
          end
  end.

Definition isOracleNumber (b : bytes) : bool :=
  let n := zlen b in
  match b with
  | b0 :: b1 :: rest =>
      if 21 <? n then false
      else if Z.testbit b0 7 then
        negb (b1 <? 2) && negb (List.last (b1 :: rest) 0 <? 2)
        && forallb (fun c => (1 <=? c) && (c <=? 100)) (b1 :: rest)
      else
        let last := List.last (b1 :: rest) 0 in
        let mant := if last =? 102 then removelast (b1 :: rest) else b1 :: rest in
        if negb (last =? 102) && (n <=? 20) then false
        else
          match mant with
          | [] => false
          | _ => negb (100 <? b1) && negb (100 <? List.last mant 0)
                 && forallb (fun c => (2 <=? c) && (c <=? 101)) mant
          end
  | _ => false
  end.

Definition decodeOracleNumberToString (b : bytes) : res unit (option string) :=
  if (zlen b =? 1) && (nth 0 b 0 =? 128) then Ok (Some "0")
  else if negb (isOracleNumber b) then Ok None
  else formatOracleNumber b.

(** ** Times *)

Record gotime := { tm_ns : Z; tm_off : Z }.

Definition second : Z := 1000000000.

(** Days since 1970-01-01 in the proleptic Gregorian calendar, and back. *)
Definition days_of_civil (y m d : Z) : Z :=
  let y := if m <=? 2 then y - 1 else y in
  let era := y / 400 in
  let yoe := y - era * 400 in
  let doy := (153 * ((m + 9) mod 12) + 2) / 5 + d - 1 in
  era * 146097 + (yoe * 365 + yoe / 4 - yoe / 100 + doy) - 719468.

Definition civil_of_days (z : Z) : Z * Z * Z :=
  let z := z + 719468 in
  let era := z / 146097 in
  let doe := z - era * 146097 in
  let yoe := (doe - doe / 1460 + doe / 36524 - doe / 146096) / 365 in
  let doy := doe - (365 * yoe + yoe / 4 - yoe / 100) in
  let mp := (5 * doy + 2) / 153 in
  let d := doy - (153 * mp + 2) / 5 + 1 in
  let m := if mp <? 10 then mp + 3 else mp - 9 in
  ((yoe + era * 400) + (if m <=? 2 then 1 else 0), m, d).

(** [time.Date] in UTC: fields out of range carry over. *)
Definition Date (year month day hour minute second_ nanos : Z) : gotime :=
  let days := days_of_civil (year + (month - 1) / 12) ((month - 1) mod 12 + 1) 1 + (day - 1) in
  {| tm_ns := (days * 86400 + hour * 3600 + minute * 60 + second_) * second + nanos; tm_off := 0 |}.

(** [t.In(time.FixedZone(off))], and the same wall clock in the zone. *)
Definition In_zone (t : gotime) (off : Z) : gotime := {| tm_ns := tm_ns t; tm_off := off |}.
Definition Relabel (t : gotime) (off : Z) : gotime := {| tm_ns := tm_ns t - off * second; tm_off := off |}.

(** The date and the time of day in a layout with [sep] between them. *)
Definition date_time_text (sep : string) (t : gotime) : string :=
  let local := tm_ns t / second + tm_off t in
  let '(y, m, d) := civil_of_days (local / 86400) in
  let sod := local mod 86400 in
  (if y <? 0 then "-" ++ pad 4 (- y) else pad 4 y) ++ "-" ++ pad 2 m ++ "-" ++ pad 2 d ++ sep
  ++ pad 2 (sod / 3600) ++ ":" ++ pad 2 (sod / 60 mod 60) ++ ":" ++ pad 2 (sod mod 60).

(** Layout [.999999999] and layout [.000000000]. *)
Definition fraction (t : gotime) : string :=
  let s := trim_right "0" (pad 9 (tm_ns t mod second)) in
  if String.eqb s "" then "" else "." ++ s.
Definition fraction9 (t : gotime) : string := "." ++ pad 9 (tm_ns t mod second).

(** Layout [-07:00]. *)
Definition zone_text (t : gotime) : string :=
  let mins := Z.quot (tm_off t) 60 in
  (if mins <? 0 then "-" else "+") ++ pad 2 (Z.abs mins / 60) ++ ":" ++ pad 2 (Z.abs mins mod 60).

Definition nth_byte (i : nat) (b : bytes) : Z := nth i b 0.

Definition date_fields_ok (century year month day hour minute second_ : Z) : bool :=
  negb ((century <? 100) || (200 <? century) || (year <? 100) || (200 <? year))
  && negb ((month <? 1) || (12 <? month) || (day <? 1) || (31 <? day))
  && negb ((hour <? 0) || (23 <? hour) || (minute <? 0) || (59 <? minute) || (second_ <? 0) || (59 <? second_)).

Definition decodeOracleDateToString (b : bytes) : option string :=
  match b with
  | [century; year; month; day; h; mi; s] =>
      let hour := h - 1 in let minute := mi - 1 in let second_ := s - 1 in
      if date_fields_ok century year month day hour minute second_ then
        Some (pad 4 ((century - 100) * 100 + (year - 100)) ++ "-" ++ pad 2 month ++ "-" ++ pad 2 day ++ " "
              ++ pad 2 hour ++ ":" ++ pad 2 minute ++ ":" ++ pad 2 second_)
      else None
  | _ => None
  end.

(** [b] has at least seven bytes. *)
Definition parseOracleDateTimePrefix (b : bytes) (nanos : Z) : option gotime :=
  let century := nth_byte 0 b in let year := nth_byte 1 b in let month := nth_byte 2 b in let day := nth_byte 3 b in
  let hour := nth_byte 4 b - 1 in let minute := nth_byte 5 b - 1 in let second_ := nth_byte 6 b - 1 in
  if date_fields_ok century year month day hour minute second_
  then Some (Date ((century - 100) * 100 + (year - 100)) month day hour minute second_ nanos)
  else None.

(** The numeric offset of bytes 11 and 12. *)
Definition zone_offset (b : bytes) : Z := (Z.land (nth_byte 11 b) 63 - 20) * 3600 + (nth_byte 12 b - 60) * 60.
Definition max_offset : Z := 15 * 3600.
Definition named_zone (b : bytes) : bool := Z.testbit (nth_byte 11 b) 7.
Definition in_zone_time (b : bytes) : bool := Z.testbit (nth_byte 11 b) 6.

Definition decodeOracleTimestampToString (b : bytes) : option string :=
  if negb (zlen b =? 11) && negb (zlen b =? 13) then None
  else
    match parseOracleDateTimePrefix (take 7 b) (be_get (take 4 (drop 7 b))) with
    | None => None
    | Some t =>
        if (zlen b =? 13) && negb (named_zone b) then
          let offsetSec := zone_offset b in
          if (offsetSec <? - max_offset) || (max_offset <? offsetSec) then None
          else
            let local := if in_zone_time b then Relabel t offsetSec else In_zone t offsetSec in
            Some (date_time_text " " local ++ fraction local ++ " " ++ zone_text local)
        else Some (date_time_text " " t ++ fraction t)
    end.

Definition decodeOracleRawValue (b : bytes) : res unit string :=
  if isReadableASCII b then Ok (bytes_str b)
  else
    match decodeOracleDateToString b with
    | Some dt => Ok dt
    | None =>
        match decodeOracleTimestampToString b with
        | Some ts => Ok ts
        | None =>
            let! num := decodeOracleNumberToString b in
            Ok (match num with Some num => num | None => hex_string b end)
        end
    end.

(** ** Typed values *)

Definition OracleTypeVARCHAR2 : Z := 1.
Definition OracleTypeNUMBER : Z := 2.
Definition OracleTypeDATE : Z := 12.
Definition OracleTypeRAW : Z := 23.
Definition OracleTypeCHAR : Z := 96.
Definition OracleTypeBINFLOAT : Z := 100.
Definition OracleTypeBINDOUBLE : Z := 101.
Definition OracleTypeCLOB : Z := 112.
Definition OracleTypeBLOB : Z := 113.
Definition OracleTypeTIMESTAMP : Z := 180.
Definition OracleTypeTIMESTAMPTZ : Z := 181.
Definition OracleTypeTIMESTAMPLTZ : Z := 231.
Definition tnsTypeLONGRAW : Z := 24.

Inductive value_error := ErrInvalidDateLength | ErrInvalidTimestampLength | ErrInvalidNumberData | ErrInvalidFloatLength.

(** An [interface{}] a value decodes to. *)
Inductive OraValue := OvNil | OvString (s : string) | OvFloat32 (bits : Z) | OvFloat64 (bits : Z).

Definition untransformOracleBinaryFloat (b : bytes) : bytes :=
  match b with
  | [] => []
  | b0 :: rest =>
      if Z.testbit b0 7 then Z.land b0 127 :: rest else map (fun c => 255 - c) b
  end.

Definition decodeOracleDate (data : bytes) : res value_error gotime :=
  guard! zlen data =? 7 else ErrInvalidDateLength in
  let year := (nth_byte 0 data - 100) * 100 + (nth_byte 1 data - 100) in
  Ok (Date year (nth_byte 2 data) (nth_byte 3 data) (nth_byte 4 data - 1) (nth_byte 5 data - 1) (nth_byte 6 data - 1) 0).

Definition decodeOracleTimestamp (data : bytes) : res value_error gotime :=
  guard! 11 <=? zlen data else ErrInvalidTimestampLength in
  let! t := decodeOracleDate (take 7 data) in
  let base := {| tm_ns := tm_ns t + be_get (take 4 (drop 7 data)); tm_off := 0 |} in
  let offsetSec := zone_offset data in
  if (13 <=? zlen data) && negb (named_zone data) && ((- max_offset <=? offsetSec) && (offsetSec <=? max_offset))
  then Ok (if in_zone_time data then Relabel base offsetSec else In_zone base offsetSec)
  else Ok base.

Definition decodeOracleNumber (data : bytes) : res value_error string :=
  guard! negb (zlen data =? 0) else ErrInvalidNumberData in
  match formatOracleNumber data with
  | Ok (Some s) => Ok s
  | Ok None => Err ErrInvalidNumberData
  | _ => Panic
  end.

Definition decodeOracleValue (typeCode : Z) (data : bytes) : res value_error OraValue :=
  if zlen data =? 0 then Ok OvNil
  else if typeCode =? OracleTypeVARCHAR2 then Ok (OvString (bytes_str data))
  else if typeCode =? OracleTypeCHAR then Ok (OvString (trim_right " " (bytes_str data)))
  else if typeCode =? OracleTypeNUMBER then let! s := decodeOracleNumber data in Ok (OvString s)
  else if typeCode =? OracleTypeDATE then let! t := decodeOracleDate data in Ok (OvString (date_time_text "T" t))
  else if typeCode =? OracleTypeRAW then Ok (OvString (hex_string data))
  else if typeCode =? OracleTypeBINFLOAT then
    guard! 4 <=? zlen data else ErrInvalidFloatLength in
    Ok (OvFloat32 (be_get (untransformOracleBinaryFloat (take 4 data))))
  else if typeCode =? OracleTypeBINDOUBLE then
    guard! 8 <=? zlen data else ErrInvalidFloatLength in
    Ok (OvFloat64 (be_get (untransformOracleBinaryFloat (take 8 data))))
  else if (typeCode =? OracleTypeTIMESTAMP) || (typeCode =? OracleTypeTIMESTAMPLTZ) then
    let! t := decodeOracleTimestamp data in Ok (OvString (date_time_text "T" t ++ fraction9 t))
  else if typeCode =? OracleTypeTIMESTAMPTZ then
    let! t := decodeOracleTimestamp data in
    Ok (OvString (date_time_text "T" t ++ fraction9 t ++ (if tm_off t =? 0 then "Z" else zone_text t)))
  else if (typeCode =? OracleTypeCLOB) || (typeCode =? OracleTypeBLOB) then Ok (OvString "[LOB]")
  else Ok (OvString (b64 data)).

Section Floats.
Context {GT : GoText}.

Definition decodeOracleBinaryFloatString (b : bytes) : option string :=
  if zlen b =? 4 then Some (FormatFloat32 (be_get (untransformOracleBinaryFloat b)))
  else if zlen b =? 8 then Some (FormatFloat64 (be_get (untransformOracleBinaryFloat b)))
  else None.

(** [colTypes] may be shorter than the row. *)
Definition decodeRowValue (colTypes : list Z) (col : nat) (b : bytes) : res unit string :=
  match colTypes !! col with
  | None => decodeOracleRawValue b
  | Some t =>
      if t =? OracleTypeNUMBER then
        let! s := formatOracleNumber b in
        match s with Some s => Ok s | None => decodeOracleRawValue b end
      else if (t =? OracleTypeBINFLOAT) || (t =? OracleTypeBINDOUBLE) then
        match decodeOracleBinaryFloatString b with Some s => Ok s | None => decodeOracleRawValue b end
      else if (t =? OracleTypeRAW) || (t =? tnsTypeLONGRAW) then Ok (hex_string b)
      else decodeOracleRawValue b
  end.
End Floats.

Example number_ex1 : formatOracleNumber [193; 4; 15] = Ok (Some "3.14").
Proof. reflexivity. Qed.
Example number_ex2 : formatOracleNumber [62; 98; 102] = Ok (Some "-3").
Proof. reflexivity. Qed.
Example date_ex : decodeOracleDateToString [120; 124; 2; 29; 13; 1; 1] = Some "2024-02-29 12:00:00".
Proof. reflexivity. Qed.
Example ts_ex : decodeOracleTimestampToString [120; 124; 12; 31; 23; 31; 1; 7; 84; 212; 192; 22; 60]
  = Some "2025-01-01 00:30:00.123 +02:00".
Proof. vm_compute. reflexivity. Qed.

(** * The text of a NUMBER *)

(** Reading a decimal numeral back: the digits as an integer and how many of them
    follow the point. *)
Fixpoint scan_decimal (s : string) (n k : Z) (point : bool) : option (Z * Z) :=
  match s with
  | EmptyString => Some (n, k)
  | String c s =>
      if is_digit c then scan_decimal s (10 * n + (code c - 48)) (if point then k + 1 else k) point
      else if Ascii.eqb c "." && negb point then scan_decimal s n k true
      else None
  end.

Definition decimal (s : string) : option (Z * Z) :=
  match s with
  | String "-" r => option_map (fun '(n, k) => (- n, k)) (scan_decimal r 0 0 false)
  | _ => scan_decimal s 0 0 false
  end.

Definition base100 (digits : list Z) : Z := fold_left (fun m d => 100 * m + d) digits 0.

(** The digits of a numeral as an integer. *)
Fixpoint dval (s : string) : Z :=
  match s with EmptyString => 0 | String c s => (code c - 48) * 10 ^ slen s + dval s end.

Lemma dval_app a b : dval (a ++ b) = dval a * 10 ^ slen b + dval b.
Proof.
  induction a as [|c a IH]; cbn [dval append]; [lia|]. rewrite IH, slen_app, Z.pow_add_r by (unfold slen; lia). lia.
Qed.

Lemma scan_decimal_digits s r n k point : all_chars is_digit s = true ->
  scan_decimal (s ++ r) n k point = scan_decimal r (n * 10 ^ slen s + dval s) (if point then k + slen s else k) point.
Proof.
  revert n k. induction s as [|c s IH]; intros n k; cbn [all_chars scan_decimal append dval].
  - intros _. change (slen "") with 0. rewrite Z.pow_0_r. f_equal; [lia|by destruct point; lia].
  - intros H. bools. rewrite H, IH by done. rewrite slen_cons, Z.pow_add_r by (unfold slen; lia).
    f_equal; [lia|by destruct point; lia].
Qed.

Lemma zeros_digits n : all_chars is_digit (zeros n) = true.
Proof. by induction n. Qed.
Lemma slen_zeros n : slen (zeros n) = Z.of_nat n.
Proof. induction n as [|n IH]; [done|]. cbn [zeros]. rewrite slen_cons, IH. lia. Qed.
Lemma dval_zeros n : dval (zeros n) = 0.
Proof. induction n as [|n IH]; [done|]. cbn [zeros dval]. rewrite IH. change (code "0") with 48. lia. Qed.

Lemma trim_left_zeros s : exists n, s = zeros n ++ trim_left "0" s.
Proof.
  induction s as [|c s [n IH]]; [by exists O|]. cbn [trim_left]. destruct (Ascii.eqb_spec "0" c) as [<-|]; [|by exists O].
  exists (S n). cbn [zeros append]. by rewrite <- IH.
Qed.

Lemma zeros_snoc n s : zeros n ++ String "0" s = String "0" (zeros n ++ s).
Proof. induction n as [|n IH]; [done|]. cbn [zeros append]. by rewrite IH. Qed.

Lemma trim_right_zeros s : exists n, s = trim_right "0" s ++ zeros n.
Proof.
  induction s as [|c s [n IH]]; [by exists O|]. cbn [trim_right].
  destruct (trim_right "0" s) as [|d r] eqn:E.
  - cbn [append] in IH. subst s. destruct (Ascii.eqb_spec "0" c) as [<-|]; [by exists (S n)|by exists n].
  - exists n. cbn [append]. rewrite IH at 1. done.
Qed.

Lemma all_digits_parts a b : all_chars is_digit (a ++ b) = true -> all_chars is_digit a = true /\ all_chars is_digit b = true.
Proof. rewrite all_chars_app. intros. by bools. Qed.

Lemma trim_left_digits s : all_chars is_digit s = true ->
  all_chars is_digit (trim_left "0" s) = true /\ dval (trim_left "0" s) = dval s.
Proof.
  destruct (trim_left_zeros s) as [n E]. intros H. rewrite E in H. apply all_digits_parts in H as [_ H].
  split; [done|]. rewrite E at 2. rewrite dval_app, dval_zeros. lia.
Qed.

(** A numeral without sign, read back. *)
Lemma scan_int s : all_chars is_digit s = true -> scan_decimal s 0 0 false = Some (dval s, 0).
Proof. intros H. rewrite <- (sapp_nil_r s) at 1. by rewrite scan_decimal_digits by done. Qed.

Lemma scan_frac a b : all_chars is_digit a = true -> all_chars is_digit b = true ->
  scan_decimal (a ++ "." ++ b) 0 0 false = Some (dval (a ++ b), slen b).
Proof.
  intros Ha Hb. rewrite scan_decimal_digits by done. cbn [append scan_decimal].
  change (is_digit ".") with false. change (Ascii.eqb "." "." && negb false) with true. cbv iota.
  rewrite <- (sapp_nil_r b) at 1. rewrite scan_decimal_digits by done. cbn [scan_decimal].
  by rewrite dval_app.
Qed.

Lemma substring_all s : String.substring 0 (String.length s) s = s.
Proof. induction s as [|c s IH]; [done|]. cbn. by rewrite IH. Qed.

Lemma substring_split (n : nat) s : (n <= String.length s)%nat ->
  s = String.substring 0 n s ++ String.substring n (String.length s - n) s.
Proof.
  revert n. induction s as [|c s IH]; intros n H; cbn [String.length] in *.
  - by replace n with O by lia.
  - destruct n as [|n].
    + rewrite Nat.sub_0_r. symmetry. apply (substring_all (String c s)).
    + cbn [String.substring append Nat.sub]. f_equal. apply IH. lia.
Qed.

(** The point is placed so that the numeral is the mantissa shifted. *)
Lemma placeDecimalPoint_value mant shift : all_chars is_digit mant = true ->
  exists n k, scan_decimal (placeDecimalPoint mant shift) 0 0 false = Some (n, k) /\ 0 <= k /\
    n * 10 ^ Z.max 0 (- shift) = dval mant * 10 ^ (Z.max 0 shift + k).
Proof.
  intros Hm. unfold placeDecimalPoint. destruct (Z.leb_spec 0 shift) as [Hs|Hs].
  - set (w := mant ++ zeros _). assert (Hw : all_chars is_digit w = true)
      by (unfold w; rewrite all_chars_app, Hm; apply zeros_digits).
    destruct (trim_left_digits w Hw) as [Ht Hv].
    assert (dval w = dval mant * 10 ^ shift) as Hd
      by (unfold w; rewrite dval_app, slen_zeros, dval_zeros, Z2Nat.id by lia; lia).
    destruct (String.eqb_spec (trim_left "0" w) "") as [E|_].
    + exists 0, 0. split; [done|]. split; [lia|]. rewrite E in Hv. cbn in Hv. rewrite (Z.max_r 0 shift), Z.add_0_r by lia. lia.
    + exists (dval w), 0. rewrite scan_int by done. split; [by rewrite Hv|]. split; [lia|].
      rewrite (Z.max_l 0 (- shift)), (Z.max_r 0 shift), Z.add_0_r by lia. lia.
  - remember (- shift) as frac eqn:Hfrac. set (parts := if frac <? slen mant then _ else _).
    assert (exists ip fp, parts = (ip, fp) /\ all_chars is_digit ip = true /\ all_chars is_digit fp = true /\
      dval (ip ++ fp) = dval mant /\ slen fp = frac) as (ip & fp & -> & Hi & Hf & Hv & Hl).
    { unfold parts. destruct (Z.ltb_spec frac (slen mant)) as [Hlt|Hge].
      - unfold slen in *. pose proof (substring_split (Z.to_nat (Z.of_nat (String.length mant) - frac)) mant ltac:(lia)) as E.
        replace (String.length mant - Z.to_nat (Z.of_nat (String.length mant) - frac))%nat with (Z.to_nat frac) in E by lia.
        do 2 eexists. split; [reflexivity|]. rewrite E in Hm. destruct (all_digits_parts _ _ Hm) as [H1 H2].
        split; [done|]. split; [done|]. split; [by rewrite <- E|].
        assert (String.length mant = String.length (String.substring 0 (Z.to_nat (Z.of_nat (String.length mant) - frac)) mant)
          + String.length (String.substring (Z.to_nat (Z.of_nat (String.length mant) - frac)) (Z.to_nat frac) mant))%nat as El.
        { rewrite E at 1. clear. generalize (String.substring 0 (Z.to_nat (Z.of_nat (String.length mant) - frac)) mant).
          intros a. induction a as [|c a IH]; cbn; [done|]. by rewrite IH. }
        assert (String.length (String.substring 0 (Z.to_nat (Z.of_nat (String.length mant) - frac)) mant)
          = Z.to_nat (Z.of_nat (String.length mant) - frac)) as E0.
        { apply length_substring. lia. }
        lia.
      - exists "0", (zeros (Z.to_nat (frac - slen mant)) ++ mant). split; [done|]. split; [done|].
        rewrite all_chars_app, zeros_digits, Hm. split; [done|]. rewrite !dval_app, dval_zeros, slen_app, slen_zeros.
        change (dval "0") with 0. lia. }
    destruct (trim_left_digits ip Hi) as [Hti Hvi]. set (ip' := if String.eqb (trim_left "0" ip) "" then _ else _).
    assert (all_chars is_digit ip' = true /\ dval ip' = dval ip) as [Hi' Hvi'].
    { unfold ip'. destruct (String.eqb_spec (trim_left "0" ip) "") as [E|_]; [|done]. by rewrite <- Hvi, E. }
    destruct (trim_right_zeros fp) as [z Ez]. set (fp' := trim_right "0" fp) in *.
    assert (all_chars is_digit fp' = true) as Hf' by (rewrite Ez in Hf; apply all_digits_parts in Hf as [? _]; done).
    assert (dval ip' * 10 ^ frac + dval fp' * 10 ^ Z.of_nat z = dval mant /\ frac = slen fp' + Z.of_nat z) as [Hdv Hfr].
    { rewrite <- Hv, <- Hl, dval_app, Hvi', Ez, dval_app, dval_zeros, slen_app, slen_zeros. split; [lia|done]. }
    cut (exists n k, scan_decimal (if String.eqb fp' "" then ip' else ip' ++ "." ++ fp') 0 0 false = Some (n, k) /\ 0 <= k /\
           n * 10 ^ frac = dval mant * 10 ^ k).
    { intros (n & k & E1 & E2 & E3). exists n, k. split; [exact E1|]. split; [exact E2|].
      by rewrite (Z.max_l 0 shift), (Z.max_r 0 frac), Z.add_0_l by lia. }
    assert (forall v, v * 10 ^ slen fp' * 10 ^ Z.of_nat z = v * 10 ^ frac) as Hpow.
    { intros v. rewrite Hfr, Z.pow_add_r by (unfold slen; lia). lia. }
    destruct (String.eqb_spec fp' "") as [E|_].
    + exists (dval ip'), 0. rewrite scan_int by done. split; [done|]. split; [lia|].
      rewrite E in Hdv. change (dval "") with 0 in Hdv. lia.
    + exists (dval (ip' ++ fp')), (slen fp'). rewrite scan_frac by done. split; [done|]. split; [unfold slen; lia|].
      rewrite dval_app, <- Hdv, Z.mul_add_distr_r, Z.mul_add_distr_r.
      rewrite <- (Hpow (dval fp')). lia.
Qed.

Lemma mantissa_digits ds : Forall (fun d => 0 <= d <= 99) ds ->
  exists mant, mantissa ds = Some mant /\ all_chars is_digit mant = true /\
    forall m, fold_left (fun m d => 100 * m + d) ds m = m * 10 ^ slen mant + dval mant.
Proof.
  induction 1 as [|d ds Hd _ (mant & Em & Hm & Hv)]; cbn [mantissa fold_left].
  - exists "". split; [done|]. split; [done|]. intros m. change (slen "") with 0. cbn [dval]. lia.
  - destruct ((d <? 0) || (99 <? d)) eqn:E; [exfalso; bools; lia|]. rewrite Em.
    pose proof (Z.div_mod d 10 ltac:(lia)). pose proof (Z.mod_pos_bound d 10 ltac:(lia)).
    eexists. split; [reflexivity|]. cbn [all_chars]. rewrite !digit_is_digit, Hm by lia. split; [done|].
    intros m. rewrite Hv. cbn [dval]. rewrite !slen_cons, !code_digit by lia.
    rewrite !(Z.pow_add_r 10 1) by (unfold slen; lia).
    change (10 ^ 1) with 10. nia.
Qed.

(** A property of all bytes is one of 256 cases. *)
Lemma all_bytes (P : Z -> bool) b : is_byte b -> forallb P (map Z.of_nat (seq 0 256)) = true -> P b = true.
Proof.
  intros Hb H. rewrite forallb_forall in H. apply H, in_map_iff. exists (Z.to_nat b). unfold is_byte in Hb.
  split; [lia|]. apply in_seq. lia.
Qed.

(** The value of a NUMBER as the Oracle documentation gives it: [m * 10 ^ x]. *)
Definition number_value (b : bytes) : Z * Z :=
  match b with
  | [] => (0, 0)
  | b0 :: rest =>
      if 128 <=? b0 then (base100 (map (fun c => c - 1) rest), 2 * (b0 - 193 - zlen rest + 1))
      else
        let rest := if List.last rest 0 =? 102 then removelast rest else rest in
        (- base100 (map (fun c => 101 - c) rest), 2 * (62 - b0 - zlen rest + 1))
  end.

Lemma sign_byte b : is_byte b ->
  Z.testbit b 7 = (128 <=? b) /\ (if 128 <=? b then Z.land b 127 - 65 = b - 193 else Z.land (Z.lxor b 255) 127 - 65 = 62 - b).
Proof.
  intros Hb.
  pose proof (all_bytes (fun b => Bool.eqb (Z.testbit b 7) (128 <=? b) &&
    if 128 <=? b then Z.land b 127 - 65 =? b - 193 else Z.land (Z.lxor b 255) 127 - 65 =? 62 - b) b Hb ltac:(vm_compute; reflexivity)) as H.
  cbv beta in H. apply andb_true_iff in H as [H1 H2]. split; [by apply eqb_prop|]. destruct (128 <=? b); by apply Z.eqb_eq.
Qed.

Lemma forallb_range lo hi l : forallb (fun c => (lo <=? c) && (c <=? hi)) l = true -> Forall (fun c => lo <= c <= hi) l.
Proof. induction l as [|c l IH]; cbn; [by constructor|]. intros H. bools. constructor; [lia|by apply IH]. Qed.

Lemma decimal_unsigned s v : scan_decimal s 0 0 false = Some v -> decimal s = Some v.
Proof.
  intros H. destruct s as [|c r]; [done|]. destruct (Ascii.eqb_spec c "-") as [->|Hc]; [discriminate|].
  unfold decimal. destruct c as [[] [] [] [] [] [] [] []]; done.
Qed.

(** The text of a well-formed NUMBER is a decimal numeral with exactly its value. *)
Theorem number_text_exact b : wf_bytes b -> isOracleNumber b = true ->
  exists s n k, formatOracleNumber b = Ok (Some s) /\ decimal s = Some (n, k) /\ 0 <= k /\
    let '(m, x) := number_value b in n * 10 ^ Z.max 0 (- x) = m * 10 ^ (Z.max 0 x + k).
Proof.
  intros Hwf Hn. destruct b as [|b0 [|b1 rest]]; [done..|]. inversion Hwf as [|? ? H0 Hwf1]; subst.
  destruct (sign_byte b0 H0) as [Hs He]. unfold isOracleNumber in Hn. set (tl := b1 :: rest) in *.
  destruct (21 <? zlen (b0 :: tl)) eqn:Hlen; [done|].
  assert (forall positive exp ds m x, number_parts b0 tl = Ok (positive, exp, ds) ->
    Forall (fun d => 0 <= d <= 99) ds -> ds <> [] ->
    m = (if positive then 1 else -1) * base100 ds -> x = 2 * (exp - zlen ds + 1) ->
    exists s n k, formatOracleNumber (b0 :: tl) = Ok (Some s) /\ decimal s = Some (n, k) /\ 0 <= k /\
      n * 10 ^ Z.max 0 (- x) = m * 10 ^ (Z.max 0 x + k)) as Hgoal.
  { intros positive exp ds m x Ep Hds Hne -> ->. destruct (mantissa_digits ds Hds) as (mant & Em & Hd & Hv).
    destruct (placeDecimalPoint_value mant (2 * (exp - zlen ds + 1)) Hd) as (n & k & Esc & Hk & Hnk).
    assert (base100 ds = dval mant) as Hb by (unfold base100; rewrite Hv; lia).
    unfold formatOracleNumber. replace (zlen (b0 :: tl) =? 1) with false
      by (symmetry; apply Z.eqb_neq; unfold tl; rewrite !zlen_cons; pose proof (zlen_nonneg rest); lia).
    cbn [andb]. rewrite Ep. cbn [rbind]. replace (zlen ds =? 0) with false
      by (symmetry; apply Z.eqb_neq; destruct ds; [done|]; rewrite zlen_cons; pose proof (zlen_nonneg ds); lia).
    rewrite Em. set (txt := placeDecimalPoint _ _) in *. rewrite Hb.
    destruct positive.
    - exists txt, n, k. split; [done|]. split; [|split; [done|lia]].
      by apply decimal_unsigned.
    - exists ("-" ++ txt), (- n), k. split; [done|]. split; [cbn [decimal append]; by rewrite Esc|]. split; [done|]. nia. }
  unfold number_value. rewrite <- Hs. rewrite Hs in Hn. destruct (128 <=? b0) eqn:Eb.
  - bools. rewrite Hs. apply (Hgoal true (b0 - 193) (map (fun c => c - 1) tl)).
    + unfold number_parts. rewrite Hs. by rewrite He.
    + apply Forall_map. eapply Forall_impl; [by apply forallb_range|]. cbn. lia.
    + done.
    + lia.
    + unfold zlen. rewrite length_map. done.
  - destruct (negb _ && _); [done|]. rewrite Hs. set (mant := if _ =? 102 then _ else _) in *.
    assert (number_parts b0 tl = Ok (false, 62 - b0, map (fun c => 101 - c) mant)) as Ep
      by (unfold number_parts; rewrite Hs; cbv iota; by rewrite He).
    destruct mant as [|c0 mant]; [done|].
    apply (Hgoal false (62 - b0) (map (fun c => 101 - c) (c0 :: mant))); [done| |done|lia|by unfold zlen; rewrite length_map].
    apply andb_true_iff in Hn as [_ Hn]. apply Forall_map. eapply Forall_impl; [by apply forallb_range|]. cbn. lia.
Qed.

(** ** Where the decoders panic *)

Lemma formatOracleNumber_Panic b : formatOracleNumber b = Panic <-> b = [102].
Proof.
  split; [|by intros ->]. destruct b as [|b0 rest]; [done|]. unfold formatOracleNumber.
  destruct (_ && _); [done|]. destruct (number_parts b0 rest) as [[[p x] ds]|e|] eqn:E; cbn [rbind].
  - destruct (_ =? 0); [done|]. by destruct (mantissa ds).
  - done.
  - intros _. unfold number_parts in E. destruct (Z.testbit b0 7); [done|]. destruct rest; [|done].
    destruct (Z.eqb_spec b0 102) as [E'|]; [by rewrite E'|done].
Qed.

Lemma formatOracleNumber_total b : b <> [102] -> exists o, formatOracleNumber b = Ok o.
Proof.
  intros Hb. destruct (formatOracleNumber b) as [o|e|] eqn:E; [eauto| |by apply formatOracleNumber_Panic in E].
  exfalso. destruct b as [|b0 rest]; [done|]. unfold formatOracleNumber in E. destruct (_ && _); [done|].
  unfold number_parts in E. destruct (Z.testbit b0 7); [|destruct rest; [destruct (b0 =? 102)|]]; cbn [rbind] in E; try done;
    (destruct (_ =? 0); [done|]); by destruct (mantissa _).
Qed.

Lemma decodeOracleNumberToString_total b : exists o, decodeOracleNumberToString b = Ok o.
Proof.
  unfold decodeOracleNumberToString. destruct (_ && _); [eauto|]. destruct (isOracleNumber b) eqn:E; cbn [negb]; [|eauto].
  apply formatOracleNumber_total. by intros ->.
Qed.

Lemma decodeOracleRawValue_total b : exists s, decodeOracleRawValue b = Ok s.
Proof.
  unfold decodeOracleRawValue. destruct (isReadableASCII b); [eauto|]. destruct (decodeOracleDateToString b); [eauto|].
  destruct (decodeOracleTimestampToString b); [eauto|]. destruct (decodeOracleNumberToString_total b) as [o ->].
  cbn. eauto.
Qed.

Lemma decodeRowValue_Panic {GT : GoText} types col b :
  decodeRowValue types col b = Panic <-> types !! col = Some OracleTypeNUMBER /\ b = [102].
Proof.
  unfold decodeRowValue. destruct (decodeOracleRawValue_total b) as [raw Er].
  destruct (types !! col) as [t|] eqn:Et; [|rewrite Er; naive_solver]. destruct (Z.eqb_spec t OracleTypeNUMBER) as [->|Hn].
  - rewrite <- formatOracleNumber_Panic. destruct (formatOracleNumber b) as [[s|]|[]|]; cbn [rbind]; rewrite ?Er; naive_solver.
  - split; [|by intros [[= ->] _]].
    destruct (_ || _); [destruct (decodeOracleBinaryFloatString b); [done|by rewrite Er]|]. destruct (_ || _); [done|]. by rewrite Er.
Qed.

(** ** Witnesses *)

Lemma number_text_exact_witness : exists s n k, formatOracleNumber [62; 98; 102] = Ok (Some s) /\ decimal s = Some (n, k) /\ 0 <= k /\
  n * 10 ^ Z.max 0 (- 0) = -3 * 10 ^ (Z.max 0 0 + k).
Proof. apply (number_text_exact [62; 98; 102]); [by apply wf_bytes_check|reflexivity]. Defined.
