(* ===== verification/OracleTtc.v ===== *)
(** * Statements in Oracle TTC messages
    ([internal/proxy/oracle/ttc.go], the request decoders of [ttc_decode.go])

    A TTC message is the bytes of a TNS data packet after its two flag bytes; its
    first byte is the function code.  Slices and indices out of range are
    [Panic]. *)

From Stdlib Require Import ZArith Lia List Bool String Ascii.
From stdpp Require Import base list gmap strings.
From S2P Require Import Prelude GoStrings Encoding MySqlSession OracleValues.

Open Scope string_scope.
Open Scope Z_scope.

Inductive ttc_error :=
| ErrTTCPayloadTooShort
| ErrOALL8TooShort
| ErrEmptySQL
| ErrSQLLengthInvalid
| ErrOFETCHTooShort
| ErrColumnDefTooShort
| ErrColumnNameTruncated
| ErrNoTypeCode
| ErrEmptyRowData
| ErrRowValueTruncated.

Definition TTCFuncPiggyback : Z := 3.
Definition TTCFuncOERR : Z := 4.
Definition TTCFuncOCLOSE : Z := 5.
Definition TTCFuncContinuation : Z := 6.
Definition TTCFuncResponse : Z := 8.
Definition TTCFuncOClosev2 : Z := 9.
Definition TTCFuncOALL8 : Z := 14.
Definition TTCFuncQueryResult : Z := 16.
Definition TTCFuncOFETCH : Z := 17.

Definition PiggybackSubClose : Z := 9.
Definition PiggybackSubExecSQL : Z := 94.
Definition execSubOpJDBC : Z := 105.
Definition execSubOpPython : Z := 152.
Definition ttcDataFlagsSize : Z := 2.

(** [data[i]] and [data[i:]]. *)
Definition at_ {E} (i : Z) (data : bytes) : res E Z :=
  match (if i <? 0 then None else data !! Z.to_nat i) with Some b => Ok b | None => Panic end.
Definition from {E} (i : Z) (data : bytes) : res E bytes := sl i (zlen data) data.

Definition parseTTCFunctionCode (tnsDataPayload : bytes) : res ttc_error Z :=
  guard! ttcDataFlagsSize + 1 <=? zlen tnsDataPayload else ErrTTCPayloadTooShort in
  at_ ttcDataFlagsSize tnsDataPayload.

(** [None] is the nil slice. *)
Definition extractTTCPayload (tnsDataPayload : bytes) : option bytes :=
  if zlen tnsDataPayload <? ttcDataFlagsSize + 1 then None else Some (drop (Z.to_nat ttcDataFlagsSize) tnsDataPayload).

Definition second_is (b : Z) (ttcPayload : bytes) : bool :=
  match ttcPayload with _ :: c :: _ => c =? b | _ => false end.
Definition IsPiggybackExecSQL (ttcPayload : bytes) : bool := second_is PiggybackSubExecSQL ttcPayload.
Definition IsPiggybackClose (ttcPayload : bytes) : bool := second_is PiggybackSubClose ttcPayload.
Definition IsExecSQL (ttcPayload : bytes) : bool := second_is execSubOpJDBC ttcPayload || second_is execSubOpPython ttcPayload.

(** The value and the number of bytes it takes. *)
Definition decodeVarLen (data : bytes) : res ttc_error (Z * Z) :=
  match data with
  | [] => Err ErrOALL8TooShort
  | first :: rest =>
      if first <? 254 then Ok (first, 1)
      else if first =? 254 then
        guard! 3 <=? zlen data else ErrOALL8TooShort in Ok (be_get (take 2 rest), 3)
      else
        guard! 5 <=? zlen data else ErrOALL8TooShort in Ok (be_get (take 4 rest), 5)
  end.

(** ** Bind values *)

Definition isBinaryData (data : bytes) : bool :=
  negb (utf8_Valid data)
  || existsb (fun r => (r <? 32) && negb (r =? 9) && negb (r =? 10) && negb (r =? 13)) data.

Definition decodeBindValue (b : bytes) : res unit string :=
  if zlen b =? 0 then Ok "NULL"
  else if negb (isBinaryData b) then Ok (bytes_str b)
  else
    let! s := decodeOracleNumberToString b in
    Ok (match s with Some s => s | None => hex_string b end).

Definition bind_text (b : bytes) : res ttc_error string :=
  match decodeBindValue b with Ok s => Ok s | _ => Panic end.

(** [count] more values, from [offset]; an error of a length ends the list. *)
Fixpoint decodeBindValues (count : nat) (data : bytes) (offset : Z) : res ttc_error (list string) :=
  match count with
  | O => Ok []
  | S count =>
      if zlen data <=? offset then Ok []
      else
        let! rest := from offset data in
        match decodeVarLen rest with
        | Err _ => Ok []
        | Panic => Panic
        | Ok (valLen, bytesRead) =>
            let offset := offset + bytesRead in
            if valLen =? 0 then
              let! values := decodeBindValues count data offset in Ok ("NULL" :: values)
            else if zlen data <? offset + valLen then Ok []
            else
              let! valBytes := sl offset (offset + valLen) data in
              let! v := bind_text valBytes in
              let! values := decodeBindValues count data (offset + valLen) in
              Ok (v :: values)
        end
  end.

Record OALL8Result := { oa_SQL : string; oa_CursorID : Z; oa_BindValues : list string }.

Definition oall8MinPayloadSize : Z := 8.

Definition decodeOALL8 (ttcPayload : bytes) : res ttc_error OALL8Result :=
  let n := zlen ttcPayload in
  guard! oall8MinPayloadSize <=? n else ErrOALL8TooShort in
  let! cursor := sl 5 7 ttcPayload in
  let! rest := from 7 ttcPayload in
  let! ' (sqlLen, bytesRead) := decodeVarLen rest in
  let offset := 7 + bytesRead in
  guard! negb (sqlLen =? 0) else ErrEmptySQL in
  guard! offset + sqlLen <=? n else ErrSQLLengthInvalid in
  let! sqlText := sl offset (offset + sqlLen) ttcPayload in
  let offset := offset + sqlLen in
  let! binds :=
    (if offset + 2 <=? n then
       let! c := sl offset (offset + 2) ttcPayload in
       let bindCount := be_get c in
       if 0 <? bindCount then
         let! rest := from (offset + 2) ttcPayload in decodeBindValues (Z.to_nat bindCount) rest 0
       else Ok []
     else Ok []) in
  Ok {| oa_SQL := bytes_str sqlText; oa_CursorID := be_get cursor; oa_BindValues := binds |}.

(** ** Finding the statement of an execute message *)

Definition sqlKeywords : list string :=
  ["SELECT"; "INSERT"; "UPDATE"; "DELETE"; "CREATE"; "DROP";
   "ALTER"; "TRUNCATE"; "MERGE"; "CALL"; "BEGIN"; "DECLARE"; "WITH"; "GRANT"; "REVOKE";
   "EXPLAIN"; "SET"; "COMMIT"; "ROLLBACK"; "SAVEPOINT"; "LOCK"; "COMMENT"].

Definition looksLikeSQL (s : string) : bool :=
  if slen s <? 2 then false
  else let upper := ToUpper (TrimSpace s) in existsb (HasPrefix upper) sqlKeywords.

Definition extractSQLAtOffset (data : bytes) (offset : Z) : res ttc_error string :=
  guard! offset <? zlen data else ErrOALL8TooShort in
  let! rest := from offset data in
  match decodeVarLen rest with
  | Panic => Panic
  | Err _ => Err ErrEmptySQL
  | Ok (sqlLen, bytesRead) =>
      guard! negb ((sqlLen =? 0) || (32768 <? sqlLen)) else ErrEmptySQL in
      let sqlStart := offset + bytesRead in
      let sqlEnd := sqlStart + sqlLen in
      guard! sqlEnd <=? zlen data else ErrSQLLengthInvalid in
      let! b := sl sqlStart sqlEnd data in
      guard! looksLikeSQL (bytes_str b) else ErrEmptySQL in
      Ok (bytes_str b)
  end.

(** The loop over candidate offsets: the first one that gives a statement, else "". *)
Fixpoint scan_offsets (n : nat) (data : bytes) (offset : Z) : res ttc_error string :=
  match n with
  | O => Ok ""
  | S n =>
      if zlen data - 1 <=? offset then Ok ""
      else
        match extractSQLAtOffset data offset with
        | Panic => Panic
        | Ok sql => if String.eqb sql "" then scan_offsets n data (offset + 1) else Ok sql
        | Err _ => scan_offsets n data (offset + 1)
        end
  end.

Definition lower_byte (c : Z) : Z := if (65 <=? c) && (c <=? 90) then c + 32 else c.

Definition equalFoldASCIIBytes (a b : bytes) : bool :=
  bool_decide (map lower_byte a = map lower_byte b).

Definition payload_keywords : list bytes :=
  map str_bytes ["SELECT"; "INSERT"; "UPDATE"; "DELETE"; "CREATE"; "DROP"; "ALTER"; "BEGIN";
                 "DECLARE"; "WITH"; "MERGE"; "CALL"].

(** [kw] stands at the head of [payload]. *)
Definition keyword_here (payload kw : bytes) : bool :=
  (zlen kw <=? zlen payload) && equalFoldASCIIBytes (take (length kw) payload) kw.

(** [indexOfAnyKeywordCI], as what is left of the payload from the match on. *)
Fixpoint from_keyword (payload : bytes) (keywords : list bytes) : option bytes :=
  match payload with
  | [] => None
  | _ :: rest => if existsb (keyword_here payload) keywords then Some payload else from_keyword rest keywords
  end.

(** The bytes [0x0A .. 0x7E] at the head. *)
Fixpoint sql_run (payload : bytes) : bytes :=
  match payload with
  | c :: rest => if (10 <=? c) && (c <=? 126) then c :: sql_run rest else []
  | [] => []
  end.

Definition findSQLInPayload (payload : bytes) : string :=
  match from_keyword payload payload_keywords with
  | None => ""
  | Some tail =>
      let run := sql_run tail in
      if 2 <? zlen run then TrimSpace (bytes_str run) else ""
  end.

(** ** Binds of a piggyback execute *)

Definition isBindNameByte (c : ascii) : bool :=
  let z := code c in
  (z =? 95) || ((48 <=? z) && (z <=? 57)) || ((97 <=? z) && (z <=? 122)) || ((65 <=? z) && (z <=? 90)).

(** The placeholders in order; [cur] is the one being read. *)
Fixpoint bind_names (s : string) (cur : option string) : list string :=
  let finish := match cur with Some (String _ _ as name) => [name] | _ => [] end in
  match s with
  | EmptyString => finish
  | String c s =>
      match cur with
      | Some name =>
          if isBindNameByte c then bind_names s (Some (name ++ String c ""))
          else (finish ++ bind_names s (if Ascii.eqb c ":" then Some "" else None))%list
      | None => bind_names s (if Ascii.eqb c ":" then Some "" else None)
      end
  end.

Definition countBindPlaceholders (sql : string) : nat := size (list_to_set (bind_names sql None) : gset string).

(** Exactly [count] values that use up [data]. *)
Fixpoint readLenPrefixedValues (data : bytes) (count : nat) : option (list bytes) :=
  match count with
  | O => match data with [] => Some [] | _ => None end
  | S count =>
      match data with
      | [] => None
      | n :: data =>
          if n =? 0 then option_map (cons []) (readLenPrefixedValues data count)
          else if (2000 <? n) || (zlen data <? n) then None
          else option_map (cons (take (Z.to_nat n) data)) (readLenPrefixedValues (drop (Z.to_nat n) data) count)
      end
  end.

Fixpoint bind_texts (vals : list bytes) : res ttc_error (list string) :=
  match vals with
  | [] => Ok []
  | v :: vals => let! s := bind_text v in let! rest := bind_texts vals in Ok (s :: rest)
  end.

(** The loop from the tail: [n] positions are left, the next one is [lo + n - 1]. *)
Fixpoint binds_from_tail (n : nat) (lo : Z) (payload : bytes) (count : nat) : res ttc_error (list string) :=
  match n with
  | O => Ok []
  | S n =>
      let! tail := from (lo + Z.of_nat n) payload in
      match readLenPrefixedValues tail count with
      | Some vals => bind_texts vals
      | None => binds_from_tail n lo payload count
      end
  end.

Definition extractPiggybackBinds (payload : bytes) (sql : string) : res ttc_error (list string) :=
  let count := countBindPlaceholders sql in
  if Nat.eqb count 0 then Ok []
  else
    let idx := findBytes payload (str_bytes sql) in
    let lo := if 0 <=? idx then idx + slen sql else 0 in
    binds_from_tail (Z.to_nat (zlen payload - lo)) lo payload count.

Definition decodePiggybackExecSQL (ttcPayload : bytes) : res ttc_error OALL8Result :=
  guard! 52 <=? zlen ttcPayload else ErrOALL8TooShort in
  let! sql := scan_offsets 30 ttcPayload 40 in
  let sql := if String.eqb sql "" then findSQLInPayload ttcPayload else sql in
  guard! negb (String.eqb sql "") else ErrEmptySQL in
  let! binds := extractPiggybackBinds ttcPayload sql in
  Ok {| oa_SQL := sql; oa_CursorID := 0; oa_BindValues := binds |}.

Definition decodeExecSQL (ttcPayload : bytes) : res ttc_error OALL8Result :=
  guard! 30 <=? zlen ttcPayload else ErrOALL8TooShort in
  let! sql := scan_offsets 26 ttcPayload 50 in
  let sql := if String.eqb sql "" then findSQLInPayload ttcPayload else sql in
  guard! negb (String.eqb sql "") else ErrEmptySQL in
  Ok {| oa_SQL := sql; oa_CursorID := 0; oa_BindValues := [] |}.

(** ** Fetch and close *)

Definition ofetchMinPayloadSize : Z := 7.

(** The cursor and the fetch size. *)
Definition decodeOFETCH (ttcPayload : bytes) : res ttc_error (Z * Z) :=
  guard! ofetchMinPayloadSize <=? zlen ttcPayload else ErrOFETCHTooShort in
  let! cursor := sl 1 3 ttcPayload in
  let! fetch := sl 3 7 ttcPayload in
  Ok (be_get cursor, be_get fetch).

Definition decodeCursorIDFromOCLOSE (ttcPayload : bytes) : res ttc_error Z :=
  guard! 3 <=? zlen ttcPayload else ErrTTCPayloadTooShort in
  let! cursor := sl 1 3 ttcPayload in
  Ok (be_get cursor).

(** * The request decoders never panic *)

Lemma sl_total {E A} lo hi (l : list A) : 0 <= lo <= hi -> hi <= zlen l ->
  exists s, sl (E := E) lo hi l = Ok s /\ zlen s = hi - lo.
Proof. intros H1 H2. destruct (sl_in (E := E) lo hi l H1 H2) as (p & s & q & -> & _ & _ & ?). eauto. Qed.

Lemma from_total {E} i (l : bytes) : 0 <= i <= zlen l -> exists s, from (E := E) i l = Ok s /\ zlen s = zlen l - i.
Proof. intros H. apply sl_total; lia. Qed.

(** Take the next slice of the goal, which is in range. *)
Ltac next_slice :=
  match goal with
  | |- context [sl ?lo ?hi ?l] =>
      let s := fresh "s" in let E := fresh "E" in let L := fresh "L" in
      destruct (sl_total (E := ttc_error) lo hi l ltac:(lia) ltac:(lia)) as (s & E & L); rewrite E; cbn [rbind]
  | |- context [from ?i ?l] =>
      let s := fresh "s" in let E := fresh "E" in let L := fresh "L" in
      destruct (from_total (E := ttc_error) i l ltac:(lia)) as (s & E & L); rewrite E; cbn [rbind]
  end.

(** A failed guard is an error; in the other case the guard is a hypothesis. *)
Ltac next_guard :=
  match goal with |- (if ?c then _ else Err _) <> Panic => let G := fresh "G" in destruct c eqn:G; [|done] end.

Lemma be_take_nonneg n (b : bytes) : wf_bytes b -> 0 <= be_get (take n b).
Proof. intros H. apply be_get_bound, Forall_take, H. Qed.

Lemma decodeVarLen_Ok data v n : wf_bytes data -> decodeVarLen data = Ok (v, n) -> 0 <= v /\ 1 <= n <= zlen data.
Proof.
  intros Hwf. destruct data as [|first rest]; [done|]. inversion Hwf as [|? ? Hf Hr]; subst. cbn [decodeVarLen].
  rewrite zlen_cons. pose proof (zlen_nonneg rest). unfold is_byte in Hf.
  destruct (first <? 254); [intros [= <- <-]; lia|]. destruct (first =? 254).
  - destruct (3 <=? _) eqn:E; [|done]. intros [= <- <-]. pose proof (be_take_nonneg 2 rest Hr). bools. lia.
  - destruct (5 <=? _) eqn:E; [|done]. intros [= <- <-]. pose proof (be_take_nonneg 4 rest Hr). bools. lia.
Qed.

Lemma decodeVarLen_total data : decodeVarLen data <> Panic.
Proof. destruct data; cbn; [done|]. repeat (destruct (_ <? _) || destruct (_ =? _) || destruct (_ <=? _)); done. Qed.

Lemma bind_text_total b : exists s, bind_text b = Ok s.
Proof.
  unfold bind_text, decodeBindValue. destruct (_ =? 0); [eauto|]. destruct (negb _); [eauto|].
  destruct (decodeOracleNumberToString_total b) as [o ->]. cbn. eauto.
Qed.

Lemma bind_texts_total vals : exists l, bind_texts vals = Ok l.
Proof.
  induction vals as [|v vals [l IH]]; cbn [bind_texts]; [eauto|]. destruct (bind_text_total v) as [s ->]. rewrite IH. cbn. eauto.
Qed.

Lemma sl_wf {E} lo hi (l s : bytes) : wf_bytes l -> sl (E := E) lo hi l = Ok s -> wf_bytes s.
Proof. intros H (p & q & -> & _)%sl_Ok. apply wf_app in H as [_ H]. by apply wf_app in H as [H _]. Qed.

Lemma decodeBindValues_total : forall count data offset, wf_bytes data -> 0 <= offset ->
  exists l, decodeBindValues count data offset = Ok l.
Proof.
  induction count as [|count IH]; intros data offset Hwf Ho; cbn [decodeBindValues]; [eauto|].
  destruct (zlen data <=? offset) eqn:E; [eauto|]. bools. next_slice.
  pose proof (sl_wf _ _ _ _ Hwf E0) as Hs. pose proof (decodeVarLen_total s) as Ht.
  destruct (decodeVarLen s) as [[v n]|e|] eqn:Ev; [|eauto|done]. apply decodeVarLen_Ok in Ev as [Hv Hn]; [|done].
  destruct (v =? 0).
  - destruct (IH data (offset + n) Hwf ltac:(lia)) as [l ->]. cbn. eauto.
  - destruct (zlen data <? offset + n + v) eqn:E2; [eauto|]. bools. next_slice.
    destruct (bind_text_total s0) as [t ->]. cbn [rbind].
    destruct (IH data (offset + n + v) Hwf ltac:(lia)) as [l ->]. cbn. eauto.
Qed.

Lemma decodeOALL8_total p : wf_bytes p -> decodeOALL8 p <> Panic.
Proof.
  intros Hwf. unfold decodeOALL8, oall8MinPayloadSize. next_guard. bools. do 2 next_slice.
  pose proof (sl_wf _ _ _ _ Hwf E0) as Hs. pose proof (decodeVarLen_total s0) as Ht.
  destruct (decodeVarLen s0) as [[v n]|e|] eqn:Ev; [|done|done]. apply decodeVarLen_Ok in Ev as [Hv Hn]; [|done].
  cbn [rbind]. next_guard. next_guard. bools. next_slice.
  destruct (_ <=? zlen p) eqn:E2; [|done]. bools. next_slice.
  destruct (0 <? be_get s2); [|done]. next_slice.
  destruct (decodeBindValues_total (Z.to_nat (be_get s2)) s3 0 (sl_wf _ _ _ _ Hwf E4) ltac:(lia)) as [l ->]. done.
Qed.

Lemma extractSQLAtOffset_total p o : wf_bytes p -> 0 <= o -> extractSQLAtOffset p o <> Panic.
Proof.
  intros Hwf Ho. unfold extractSQLAtOffset. next_guard. bools. next_slice.
  pose proof (sl_wf _ _ _ _ Hwf E) as Hs. pose proof (decodeVarLen_total s) as Ht.
  destruct (decodeVarLen s) as [[v n]|e|] eqn:Ev; [|done|done]. apply decodeVarLen_Ok in Ev as [Hv Hn]; [|done].
  next_guard. next_guard. bools. next_slice. next_guard. done.
Qed.

Lemma scan_offsets_total : forall n p o, wf_bytes p -> 0 <= o -> exists s, scan_offsets n p o = Ok s.
Proof.
  induction n as [|n IH]; intros p o Hwf Ho; cbn [scan_offsets]; [eauto|]. destruct (_ <=? o); [eauto|].
  pose proof (extractSQLAtOffset_total p o Hwf Ho) as Ht.
  destruct (extractSQLAtOffset p o) as [s|e|]; [destruct (String.eqb s ""); [|eauto]| |done]; apply IH; lia || done.
Qed.

Lemma binds_from_tail_total : forall n lo p count, 0 <= lo -> lo + Z.of_nat n <= zlen p ->
  exists l, binds_from_tail n lo p count = Ok l.
Proof.
  induction n as [|n IH]; intros lo p count H1 H2; cbn [binds_from_tail]; [eauto|]. next_slice.
  destruct (readLenPrefixedValues s count); [apply bind_texts_total|]. apply IH; lia.
Qed.

Lemma find_bytes_bound : forall data pattern i, find_bytes i data pattern = -1 \/
  (i <= find_bytes i data pattern /\ find_bytes i data pattern + zlen pattern <= i + zlen data).
Proof.
  intros data pattern. induction data as [|c data IH]; intros i; cbn [find_bytes]; case_bool_decide as H.
  - right. rewrite <- H. unfold zlen. rewrite length_take. lia.
  - by left.
  - right. pose proof (f_equal length H) as Hl. rewrite length_take in Hl. unfold zlen. lia.
  - destruct (IH (i + 1)) as [?|[? ?]]; [by left|right]. rewrite zlen_cons. lia.
Qed.

Lemma extractPiggybackBinds_total p sql : exists l, extractPiggybackBinds p sql = Ok l.
Proof.
  unfold extractPiggybackBinds. destruct (Nat.eqb _ 0); [eauto|]. unfold findBytes.
  pose proof (find_bytes_bound p (str_bytes sql) 0) as Hb. rewrite zlen_str_bytes in Hb. pose proof (zlen_nonneg p).
  assert (0 <= slen sql) by (unfold slen; lia).
  destruct (0 <=? find_bytes 0 p (str_bytes sql)) eqn:E; bools; apply binds_from_tail_total; lia.
Qed.

(** Whatever a client sends, finding its statement never panics. *)
Lemma statement_decoders_total p : wf_bytes p ->
  decodeOALL8 p <> Panic /\ decodePiggybackExecSQL p <> Panic /\ decodeExecSQL p <> Panic /\
  decodeOFETCH p <> Panic /\ decodeCursorIDFromOCLOSE p <> Panic.
Proof.
  intros Hwf. split; [by apply decodeOALL8_total|]. split; [|split; [|split]].
  - unfold decodePiggybackExecSQL. next_guard. destruct (scan_offsets_total 30 p 40 Hwf ltac:(lia)) as [s ->]. cbn [rbind].
    next_guard. destruct (extractPiggybackBinds_total p (if String.eqb s "" then findSQLInPayload p else s)) as [l ->]. done.
  - unfold decodeExecSQL. next_guard. destruct (scan_offsets_total 26 p 50 Hwf ltac:(lia)) as [s ->]. cbn [rbind]. by next_guard.
  - unfold decodeOFETCH, ofetchMinPayloadSize. next_guard. bools. by do 2 next_slice.
  - unfold decodeCursorIDFromOCLOSE. next_guard. bools. by next_slice.
Qed.

(** * A parse-and-execute message reads back *)

Definition encodeVarLen (n : Z) : bytes :=
  if n <? 254 then [n] else if n <? 65536 then 254 :: be_put 2 n else 255 :: be_put 4 n.

Definition encode_bind (b : bytes) : bytes := (encodeVarLen (zlen b) ++ b)%list.

(** The layout documented over [decodeOALL8]. *)
Definition oall8 (options : bytes) (cursor : Z) (sql : string) (binds : list bytes) : bytes :=
  (TTCFuncOALL8 :: options ++ be_put 2 cursor ++ encodeVarLen (slen sql) ++ str_bytes sql
   ++ be_put 2 (zlen binds) ++ List.concat (map encode_bind binds))%list.

Lemma decodeVarLen_encode n r : 0 <= n < 2 ^ 32 -> decodeVarLen (encodeVarLen n ++ r) = Ok (n, zlen (encodeVarLen n)).
Proof.
  intros Hn. unfold encodeVarLen. destruct (n <? 254) eqn:E1; cbn [app decodeVarLen].
  { by rewrite E1. }
  destruct (n <? 65536) eqn:E2; cbn [app decodeVarLen].
  - change (254 <? 254) with false. change (254 =? 254) with true. cbv iota.
    rewrite take_app_length' by (by rewrite length_be_put). rewrite be_get_put, Z.mod_small by (bools; cbn; lia).
    rewrite !zlen_cons, zlen_app, zlen_be_put. replace (3 <=? _) with true; [done|]. symmetry. apply Z.leb_le. pose proof (zlen_nonneg r). lia.
  - change (255 <? 254) with false. change (255 =? 254) with false. cbv iota.
    rewrite take_app_length' by (by rewrite length_be_put). rewrite be_get_put, Z.mod_small by lia.
    rewrite !zlen_cons, zlen_app, zlen_be_put. replace (5 <=? _) with true; [done|]. symmetry. apply Z.leb_le. pose proof (zlen_nonneg r). lia.
Qed.

Lemma zlen_encodeVarLen n : 1 <= zlen (encodeVarLen n).
Proof. unfold encodeVarLen. destruct (_ <? _); [done|]. destruct (_ <? _); rewrite zlen_cons, zlen_be_put; lia. Qed.

(** What a bind value is shown as. *)
Definition shown (b : bytes) : string := match bind_text b with Ok s => s | _ => "" end.

Lemma decodeBindValues_encode : forall binds pre, Forall (fun b => zlen b < 2 ^ 32) binds ->
  decodeBindValues (length binds) (pre ++ List.concat (map encode_bind binds)) (zlen pre) = Ok (map shown binds).
Proof.
  induction binds as [|b binds IH]; intros pre Hb; cbn [length decodeBindValues map List.concat]; [done|].
  inversion Hb as [|? ? Hlen Hrest]; subst. pose proof (zlen_nonneg b). pose proof (zlen_encodeVarLen (zlen b)).
  set (tl := List.concat (map encode_bind binds)) in *. unfold encode_bind. rewrite <- app_assoc.
  set (len := encodeVarLen (zlen b)) in *.
  rewrite (proj2 (Z.leb_gt _ _)) by (rewrite !zlen_app; pose proof (zlen_nonneg tl); lia).
  unfold from. rewrite (sl_tail (zlen pre) _ pre (len ++ b ++ tl)) by done. cbn [rbind].
  unfold len at 1. rewrite decodeVarLen_encode by lia. cbv beta iota. fold len.
  assert (bind_text b = Ok (shown b)) as Et by (unfold shown; by destruct (bind_text_total b) as [s ->]).
  destruct (Z.eqb_spec (zlen b) 0) as [E|E].
  - destruct b; [|rewrite zlen_cons in E; pose proof (zlen_nonneg b); lia]. cbn [app].
    replace (pre ++ len ++ tl)%list with ((pre ++ len) ++ tl)%list by by rewrite <- ?app_assoc. rewrite <- zlen_app, IH by done. done.
  - rewrite (proj2 (Z.ltb_ge _ _)) by (rewrite !zlen_app; pose proof (zlen_nonneg tl); lia).
    replace (pre ++ len ++ b ++ tl)%list with ((pre ++ len) ++ b ++ tl)%list by by rewrite <- ?app_assoc.
    rewrite <- zlen_app, sl_mid by lia. cbn [rbind]. rewrite Et. cbn [rbind].
    replace ((pre ++ len) ++ b ++ tl)%list with (((pre ++ len) ++ b) ++ tl)%list by by rewrite <- app_assoc.
    rewrite <- zlen_app, IH by done. done.
Qed.

(** A parse-and-execute message laid out as documented is read as the statement,
    the cursor and the bind values it was made of. *)
Theorem oall8_roundtrip options cursor sql binds :
  zlen options = 4 -> 0 <= cursor < 65536 -> 0 < slen sql < 2 ^ 32 -> zlen binds < 65536 ->
  Forall (fun b => zlen b < 2 ^ 32) binds ->
  decodeOALL8 (oall8 options cursor sql binds)
  = Ok {| oa_SQL := sql; oa_CursorID := cursor; oa_BindValues := map shown binds |}.
Proof.
  intros Ho Hc Hs Hn Hb. unfold oall8. set (len := encodeVarLen (slen sql)). set (tl := List.concat (map encode_bind binds)).
  pose proof (zlen_encodeVarLen (slen sql)) as Hl. fold len in Hl. pose proof (zlen_nonneg tl). pose proof (zlen_nonneg binds).
  pose proof (zlen_str_bytes sql) as Hsb. set (p := TTCFuncOALL8 :: options ++ _).
  assert (p = ((TTCFuncOALL8 :: options) ++ be_put 2 cursor ++ (len ++ str_bytes sql ++ be_put 2 (zlen binds) ++ tl)))%list as E1 by done.
  assert (zlen (TTCFuncOALL8 :: options) = 5) as E5 by (rewrite zlen_cons; lia).
  assert (zlen p = 9 + zlen len + slen sql + zlen tl) as Elen.
  { rewrite E1, !zlen_app, !zlen_be_put, E5, Hsb. lia. }
  unfold decodeOALL8, oall8MinPayloadSize. rewrite (proj2 (Z.leb_le 8 _)) by lia.
  rewrite E1 at 1. rewrite sl_mid by (rewrite ?zlen_be_put; lia). cbn [rbind].
  assert (p = ((TTCFuncOALL8 :: options) ++ be_put 2 cursor) ++ (len ++ str_bytes sql ++ be_put 2 (zlen binds) ++ tl))%list as E2
    by (rewrite E1; by rewrite <- app_assoc).
  unfold from. rewrite E2 at 2. rewrite sl_tail by (rewrite ?zlen_app, ?zlen_be_put, <- ?E2; lia || done). cbn [rbind].
  unfold len at 1. rewrite decodeVarLen_encode by lia. cbn [rbind]. fold len.
  rewrite (proj2 (Z.eqb_neq _ _)) by lia. cbn [negb]. rewrite (proj2 (Z.leb_le _ _)) by lia.
  assert (p = (((TTCFuncOALL8 :: options) ++ be_put 2 cursor) ++ len) ++ str_bytes sql ++ (be_put 2 (zlen binds) ++ tl))%list as E3
    by (rewrite E2; by rewrite <- !app_assoc).
  rewrite E3 at 1. rewrite sl_mid by (rewrite ?zlen_app, ?zlen_be_put, ?E5; lia). cbn [rbind].
  rewrite (proj2 (Z.leb_le (_ + 2) _)) by lia.
  assert (p = ((((TTCFuncOALL8 :: options) ++ be_put 2 cursor) ++ len) ++ str_bytes sql) ++ be_put 2 (zlen binds) ++ tl)%list as E4
    by (rewrite E3; by rewrite <- !app_assoc).
  rewrite E4 at 1. rewrite sl_mid by (rewrite ?zlen_app, ?zlen_be_put, ?E5, ?Hsb; lia). cbn [rbind].
  rewrite !be_get_put, (Z.mod_small (zlen binds)), (Z.mod_small cursor), bytes_str_bytes by (cbn; lia).
  destruct (Z.ltb_spec 0 (zlen binds)) as [Hpos|Hzero].
  - assert (p = (((((TTCFuncOALL8 :: options) ++ be_put 2 cursor) ++ len) ++ str_bytes sql) ++ be_put 2 (zlen binds)) ++ tl)%list as E6
      by (rewrite E4; by rewrite <- !app_assoc).
    rewrite E6 at 2. rewrite sl_tail by (rewrite ?zlen_app, ?zlen_be_put, ?E5, ?Hsb, <- ?E6; lia || (rewrite <- E6; lia)). cbn [rbind].
    replace (Z.to_nat (zlen binds)) with (length binds) by (unfold zlen; lia).
    pose proof (decodeBindValues_encode binds [] Hb) as Hd. cbn [app] in Hd. change (zlen []) with 0 in Hd. unfold tl. by rewrite Hd.
  - destruct binds; [done|]. rewrite zlen_cons in Hzero. pose proof (zlen_nonneg binds). lia.
Qed.

Lemma oall8_roundtrip_witness :
  decodeOALL8 (oall8 [0; 0; 0; 97] 7 "SELECT :1 FROM dual" [[193; 4; 15]; []])
  = Ok {| oa_SQL := "SELECT :1 FROM dual"; oa_CursorID := 7; oa_BindValues := ["3.14"; "NULL"] |}.
Proof.
  apply (oall8_roundtrip [0; 0; 0; 97] 7 "SELECT :1 FROM dual" [[193; 4; 15]; []]);
    [reflexivity|lia|vm_compute; split; reflexivity|reflexivity|repeat constructor].
Defined.
