(* ===== verification/OracleRows.v ===== *)
(** * Results in Oracle TTC messages
    ([internal/proxy/oracle/describe.go], [ttc_oer.go], the response decoders of
    [ttc_decode.go])

    Column descriptions, compressed row streams, end-of-call messages and the
    legacy response.  A cursor over a payload ([dcursor]) is what is left of it. *)

From Stdlib Require Import ZArith Lia List Bool String Ascii.
From stdpp Require Import base list gmap strings.
From S2P Require Import Prelude GoStrings Encoding PgText OracleValues OracleTtc.

Open Scope string_scope.
Open Scope Z_scope.

(** ** Integers and length-coded bytes *)

(** [readCompressedInt]: the value and what follows; [None] is a length of 0. *)
Definition readCompressedInt (buf : bytes) : option (Z * bytes) :=
  match buf with
  | [] => None
  | size :: rest =>
      if size =? 0 then Some (0, rest)
      else if (8 <? size) || (zlen rest <? size) then None
      else Some (i64 (be_get (take (Z.to_nat size) rest)), drop (Z.to_nat size) rest)
  end.

(** The chunks after the marker 0xFE; [fuel] is the number of bytes left. *)
Fixpoint clr_chunks (fuel : nat) (buf data : bytes) : option (bytes * bytes) :=
  match fuel, buf with
  | S fuel, chunkLen :: rest =>
      if chunkLen =? 0 then Some (data, rest)
      else if zlen rest <? chunkLen then None
      else clr_chunks fuel (drop (Z.to_nat chunkLen) rest) (data ++ take (Z.to_nat chunkLen) rest)%list
  | _, _ => Some (data, buf)
  end.

Definition readCLR (buf : bytes) : option (bytes * bytes) :=
  match buf with
  | [] => None
  | first :: rest =>
      if (first =? 0) || (first =? 255) || (first =? 253) then Some ([], rest)
      else if first =? 254 then clr_chunks (length rest) rest []
      else if zlen rest <? first then None
      else Some (take (Z.to_nat first) rest, drop (Z.to_nat first) rest)
  end.

(** ** Column descriptions *)

Record dcursor := { dc_rest : bytes; dc_err : bool }.

Definition failed : dcursor := {| dc_rest := []; dc_err := true |}.
Definition ok_at (rest : bytes) : dcursor := {| dc_rest := rest; dc_err := false |}.

Definition dbyte (c : dcursor) : Z * dcursor :=
  match dc_err c, dc_rest c with
  | false, v :: rest => (v, ok_at rest)
  | _, _ => (0, failed)
  end.

Definition cint (c : dcursor) : Z * dcursor :=
  match dc_err c, dc_rest c with
  | false, size :: rest =>
      let neg := Z.testbit size 7 in
      let size := if neg then Z.land size 127 else size in
      if size =? 0 then (0, ok_at rest)
      else if (8 <? size) || (zlen rest <? size) then (0, failed)
      else
        let v := i64 (be_get (take (Z.to_nat size) rest)) in
        (if neg then i64 (- v) else v, ok_at (drop (Z.to_nat size) rest))
  | _, _ => (0, failed)
  end.

Definition dlc (c : dcursor) : bytes * dcursor :=
  let '(length, c) := cint c in
  if dc_err c || (length <=? 0) then ([], c)
  else
    match readCLR (dc_rest c) with
    | None => ([], failed)
    | Some (data, rest) => (if length <? zlen data then take (Z.to_nat length) data else data, ok_at rest)
    end.

Notation "'get!' x ':=' m 'on' c 'in' k" := (let '(x, c) := m c in k)
  (at level 10, x name, m at level 9, c name, k at level 200) : go_scope.
Notation "'skip!' m 'on' c 'in' k" := (let '(_, c) := m c in k)
  (at level 10, m at level 9, c name, k at level 200) : go_scope.

Definition numberScaleTypes : list Z := [2; 180; 181; 183; 187; 188; 190; 231; 232].

Definition isKnownTNSType (t : Z) : bool :=
  ((1 <=? t) && (t <=? 24)) || ((60 <=? t) && (t <=? 127)) || ((155 <=? t) && (t <=? 156))
  || ((180 <=? t) && (t <=? 232)) || (t =? 252).

(** The annotations of a column: [n] of them, until the cursor fails; [fuel]
    bounds the rounds, each of which takes bytes or fails. *)
Fixpoint annotations (fuel : nat) (n : Z) (c : dcursor) : dcursor :=
  match fuel with
  | O => c
  | S fuel =>
      if (n <=? 0) || dc_err c then c
      else
        skip! dlc on c in
        skip! dlc on c in
        skip! cint on c in
        annotations fuel (n - 1) c
  end.

Definition parseColumnDescribeModernTail (c : dcursor) : dcursor :=
  skip! dlc on c in
  skip! dlc on c in
  get! numAnnotations := cint on c in
  let c :=
    if 0 <? numAnnotations then
      skip! dbyte on c in
      get! numAnnotations := cint on c in
      skip! dbyte on c in
      let c := annotations (S (length (dc_rest c))) numAnnotations c in
      skip! cint on c in c
    else c in
  skip! cint on c in
  skip! cint on c in
  skip! cint on c in c.

(** The name, the type code, the cursor after the record. *)
Definition parseColumnDescribe (c : dcursor) (modern : bool) : string * Z * dcursor :=
  get! dataType := dbyte on c in
  skip! dbyte on c in
  skip! dbyte on c in
  let c := if existsb (Z.eqb dataType) numberScaleTypes then snd (cint c) else snd (dbyte c) in
  skip! cint on c in
  skip! cint on c in
  skip! cint on c in
  skip! dlc on c in
  skip! cint on c in
  skip! cint on c in
  skip! dbyte on c in
  skip! cint on c in
  skip! cint on c in
  skip! dbyte on c in
  skip! dbyte on c in
  get! name := dlc on c in
  skip! dlc on c in
  skip! dlc on c in
  skip! cint on c in
  skip! cint on c in
  let c := if modern then parseColumnDescribeModernTail c else c in
  (bytes_str name, dataType, c).

(** The column count and what follows the header. *)
Definition describeColumnLayout (ttc : bytes) : option (Z * bytes) :=
  match ttc with
  | f :: size :: rest =>
      if (zlen ttc <? 3) || negb (f =? TTCFuncQueryResult) then None
      else if zlen rest <=? size then None
      else
        match readCompressedInt (drop (Z.to_nat size) rest) with
        | None => None
        | Some (_, rest) =>
            match readCompressedInt rest with
            | None => None
            | Some (count, rest) =>
                if count <=? 0 then None
                else match rest with [] => None | _ :: rest => Some (count, rest) end
            end
        end
  | _ => None
  end.

Record columnDesc := { cd_Name : string; cd_Type : Z }.

Fixpoint describe_records (n : nat) (modern : bool) (c : dcursor) : option (list columnDesc) :=
  match n with
  | O => Some []
  | S n =>
      let '(name, typ, c) := parseColumnDescribe c modern in
      if dc_err c || negb (isKnownTNSType typ) then None
      else option_map (cons {| cd_Name := name; cd_Type := typ |}) (describe_records n modern c)
  end.

Definition parseColumnDescribesMode (ttcPayload : bytes) (modern : bool) : option (list columnDesc) :=
  match describeColumnLayout ttcPayload with
  | None => None
  | Some (count, rest) => if 1000 <? count then None else describe_records (Z.to_nat count) modern (ok_at rest)
  end.

Definition parseColumnDescribes (ttcPayload : bytes) : option (list columnDesc) :=
  match parseColumnDescribesMode ttcPayload false with
  | Some cols => Some cols
  | None => parseColumnDescribesMode ttcPayload true
  end.

Definition describeColumnCount (ttcPayload : bytes) : option Z :=
  match describeColumnLayout ttcPayload with
  | Some (count, _) => if 1000 <? count then None else Some count
  | None => None
  end.

(** [COLn] *)
Definition synthetic (i : nat) : string := "COL" ++ FormatInt (Z.of_nat i + 1).

Definition describeColumnTypes (descs : list columnDesc) : list Z := map cd_Type descs.
Definition describeColumnNames (descs : list columnDesc) : list string :=
  imap (fun i d => if String.eqb (cd_Name d) "" then synthetic i else cd_Name d) descs.

(** ** Column names by scanning *)

Definition isUpperLetter (c : Z) : bool := (65 <=? c) && (c <=? 90).

Definition isOracleColumnName (b : bytes) : bool :=
  match b with
  | c0 :: _ :: _ =>
      (zlen b <=? 128) && isUpperLetter c0
      && forallb (fun c => isUpperLetter c || ((48 <=? c) && (c <=? 57)) || (c =? 95) || (c =? 36) || (c =? 35)) b
  | _ => false
  end.

(** A length-prefixed column name at the head: the name and what follows it. *)
Definition name_here (data : bytes) : option (bytes * bytes) :=
  match data with
  | nameLen :: rest =>
      if (nameLen <? 1) || (128 <? nameLen) || (zlen rest <? nameLen) then None
      else
        let candidate := take (Z.to_nat nameLen) rest in
        if isOracleColumnName candidate then Some (candidate, drop (Z.to_nat nameLen) rest) else None
  | [] => None
  end.

(** [skipColumnMetadata]: what is left after the skipped bytes; [n] positions are tried. *)
Fixpoint skip_metadata (n : nat) (data start : bytes) : bytes :=
  match n, data with
  | S n, _ :: rest =>
      match rest, name_here data with
      | _ :: _, Some _ => data
      | _, _ => skip_metadata n rest start
      end
  | _, _ => start
  end.

Definition skipColumnMetadata (data : bytes) : bytes := skip_metadata 40 data data.

Fixpoint scan_names (fuel : nat) (data : bytes) : list string :=
  match fuel, data with
  | S fuel, _ :: ((_ :: _) as rest) =>
      match name_here data with
      | None => scan_names fuel rest
      | Some (name, after) => bytes_str name :: scan_names fuel (skipColumnMetadata after)
      end
  | _, _ => []
  end.

Definition scanColumnNames (data : bytes) : list string :=
  let data := drop 30 data in scan_names (length data) data.

Definition row_marker : bytes := [6; 34].

Definition scanAndPadColumnNames (ttcPayload : bytes) : list string :=
  let markerIdx := findBytes ttcPayload row_marker in
  let columnArea := if 0 <? markerIdx then take (Z.to_nat markerIdx) ttcPayload else ttcPayload in
  let names := scanColumnNames columnArea in
  match describeColumnCount ttcPayload with
  | Some n =>
      if zlen names <? n
      then (names ++ map synthetic (seq (length names) (Z.to_nat n - length names)))%list
      else names
  | None => names
  end.

(** ** Row streams *)

Definition allColumns (n : nat) : list nat := seq 0 n.

Definition bitmaskColumns (mask : bytes) (numCols : nat) : list nat :=
  List.filter (fun col => match mask !! (col / 8)%nat with Some m => Z.testbit m (Z.of_nat (col mod 8)%nat) | None => false end)
    (seq 0 numCols).

Definition bitmaskToColumns (bitmask : Z) (numCols : nat) : list nat := bitmaskColumns [bitmask] numCols.

Definition continuationDescriptorMarker : Z := 21.

(** The columns of the next row and what follows the separator; [None] ends the stream. *)
Definition readRowSeparator (payload : bytes) (numCols : nat) : option (list nat * bytes) :=
  match payload with
  | [] => None
  | m :: rest =>
      if m =? 7 then Some (allColumns numCols, rest)
      else if m =? continuationDescriptorMarker then
        let bitmaskBytes := ((numCols + 7) / 8)%nat in
        if (length rest <? 2 + bitmaskBytes)%nat then None
        else
          let next := bitmaskColumns (take bitmaskBytes (drop 2 rest)) numCols in
          let rest := drop (2 + bitmaskBytes) rest in
          let rest := match rest with 7 :: rest => rest | _ => rest end in
          Some (match next with [] => allColumns numCols | _ => next end, rest)
      else None
  end.

Definition at_footer (payload : bytes) : bool :=
  bool_decide (take 3 payload = [8; 1; 6]) || bool_decide (take 9 payload = str_bytes "ORA-01403").

Section Rows.
Context {GT : GoText}.
Variable colTypes : list Z.

(** One row: the values of the active columns, written into the current one. *)
Fixpoint read_row (active : list nat) (payload : bytes) (cur : list string) : res unit (option (list string * bytes)) :=
  match active with
  | [] => Ok (Some (cur, payload))
  | col :: active =>
      match payload with
      | [] => Ok None
      | valLen :: rest =>
          if valLen =? 0 then read_row active rest (<[col := ""]> cur)
          else if (4000 <? valLen) || (zlen rest <? valLen) then Ok None
          else
            let! decoded := decodeRowValue colTypes col (take (Z.to_nat valLen) rest) in
            read_row active (drop (Z.to_nat valLen) rest) (<[col := decoded]> cur)
      end
  end.

Fixpoint row_stream (fuel : nat) (payload : bytes) (numCols : nat) (active : list nat) (cur : list string) :
    res unit (list (list string)) :=
  match fuel, payload with
  | S fuel, _ :: _ =>
      if at_footer payload then Ok []
      else
        let! r := read_row active payload cur in
        match r with
        | None => Ok []
        | Some (row, rest) =>
            match readRowSeparator rest numCols with
            | None => Ok [row]
            | Some (next, rest) =>
                let! rows := row_stream fuel rest numCols next row in
                Ok (row :: rows)
            end
        end
  | _, _ => Ok []
  end.

(** [prev] may be shorter than the row. *)
Definition parseRowStream (payload : bytes) (numCols : nat) (active : list nat) (prev : list string) :
    res unit (list (list string)) :=
  if Nat.eqb numCols 0 then Ok []
  else row_stream (length payload) payload numCols active (take numCols (prev ++ replicate numCols "")%list).
End Rows.

(** What follows the first 0x07 behind the marker of the row area. *)
Fixpoint after_separator (data : bytes) : option bytes :=
  match data with
  | c :: ((_ :: _) as rest) => if c =? 7 then Some rest else after_separator rest
  | _ => None
  end.

Definition findRowDataStart (data : bytes) : option bytes :=
  let idx := findBytes data row_marker in
  if idx <? 0 then None else after_separator (drop (Z.to_nat idx + 2) data).

Section Results.
Context {GT : GoText}.

Definition scanRowValues (data : bytes) (numCols : nat) (colTypes : list Z) : res unit (list (list string)) :=
  match findRowDataStart data with
  | None => Ok []
  | Some rows => parseRowStream colTypes rows numCols (allColumns numCols) []
  end.

Fixpoint index_of (b : Z) (n : nat) (i : nat) (data : bytes) : option nat :=
  match n, data with
  | S n, c :: data => if c =? b then Some i else index_of b n (S i) data
  | _, _ => None
  end.

Definition parseContinuationRows (payload : bytes) (numCols : nat) (prevRow : list string) (colTypes : list Z) :
    res unit (list (list string)) :=
  if Nat.eqb numCols 0 || (zlen payload <? 15) then Ok []
  else
    match index_of 7 24 1 (drop 1 payload) with
    | None => Ok []
    | Some headerEnd =>
        let active :=
          if (3 <=? headerEnd)%nat then
            match bitmaskToColumns (nth (headerEnd - 2) payload 0) numCols with [] => allColumns numCols | cols => cols end
          else allColumns numCols in
        parseRowStream colTypes (drop (headerEnd + 1) payload) numCols active
          (if Nat.eqb (length prevRow) numCols then prevRow else [])
    end.

Record QueryResultV2 := {
  qv_Columns : list string;
  qv_ColumnTypes : list Z;
  qv_Rows : list (list string);
  qv_NoData : bool
}.

Definition no_data_found : bytes := str_bytes "ORA-01403".

Definition decodeQueryResultV2 (ttcPayload : bytes) : res unit (option QueryResultV2) :=
  if zlen ttcPayload <? 20 then Ok None
  else
    let noData := 0 <=? findBytes ttcPayload no_data_found in
    let '(columns, types) :=
      match parseColumnDescribes ttcPayload with
      | Some descs => (describeColumnNames descs, describeColumnTypes descs)
      | None => (scanAndPadColumnNames ttcPayload, [])
      end in
    let! rows := (if Nat.eqb (length columns) 0 then Ok [] else scanRowValues ttcPayload (length columns) types) in
    Ok (Some {| qv_Columns := columns; qv_ColumnTypes := types; qv_Rows := rows; qv_NoData := noData |}).
End Results.

(** ** End-of-call messages *)

Record oerInfo := { oe_CallStatus : Z; oe_SeqNumber : Z; oe_CurRowNumber : Z; oe_ErrorCode : Z; oe_ErrorMessage : string }.

Definition oraNoDataFound : Z := 1403.
Definition oerFieldMaxSizes : list Z := [4; 2; 8; 4; 2; 2; 4].

Fixpoint printable_run (data : bytes) : bytes :=
  match data with
  | c :: rest => if (32 <=? c) && (c <=? 126) then c :: printable_run rest else []
  | [] => []
  end.

Definition extractORAMessage (data : bytes) : string :=
  let idx := findBytes data (str_bytes "ORA-") in
  if idx <? 0 then "" else TrimSpace (bytes_str (printable_run (drop (Z.to_nat idx) data))).

(** Compressed integers, each no longer than its bound. *)
Fixpoint oer_fields (sizes : list Z) (buf : bytes) : option (list Z * bytes) :=
  match sizes with
  | [] => Some ([], buf)
  | maxSize :: sizes =>
      match readCompressedInt buf with
      | None => None
      | Some (val, rest) =>
          if maxSize <? zlen buf - zlen rest - 1 then None
          else
            match oer_fields sizes rest with
            | Some (vals, rest) => Some (val :: vals, rest)
            | None => None
            end
      end
  end.

(** [payload] starts at the marker. *)
Definition decodeOERAt (payload : bytes) : option oerInfo :=
  match payload with
  | marker :: rest =>
      if negb (marker =? TTCFuncOERR) then None
      else
        match oer_fields oerFieldMaxSizes rest with
        | Some (callStatus :: seqNumber :: curRow :: errorCode :: _, rest) =>
            if negb (Z.testbit callStatus 16) then None
            else Some {| oe_CallStatus := callStatus; oe_SeqNumber := seqNumber; oe_CurRowNumber := curRow;
                         oe_ErrorCode := errorCode;
                         oe_ErrorMessage := if errorCode =? 0 then "" else extractORAMessage rest |}
        | _ => None
        end
  | [] => None
  end.

Fixpoint find_oer (payload : bytes) : option oerInfo :=
  match payload with
  | [] => None
  | _ :: rest => match decodeOERAt payload with Some info => Some info | None => find_oer rest end
  end.

Definition findOERInResponse (payload : bytes) : option oerInfo := find_oer (drop 1 payload).

(** ** The legacy response *)

Record columnDef := {
  co_Name : string; co_TypeCode : Z; co_Size : Z; co_Precision : Z; co_Scale : Z; co_Nullable : bool
}.

(** The types of the columns; none when no type is known. *)
Definition columnTypeCodes (columns : list columnDef) : list Z :=
  if existsb (fun c => negb (co_TypeCode c =? 0)) columns then map co_TypeCode columns else [].

Definition take_byte (data : bytes) : Z * bytes := match data with b :: rest => (b, rest) | [] => (0, []) end.

(** The column and what follows it. *)
Definition decodeColumnDef (data : bytes) : res ttc_error (columnDef * bytes) :=
  guard! 1 <=? zlen data else ErrColumnDefTooShort in
  let! ' (nameLen, bytesRead) := decodeVarLen data in
  guard! bytesRead + nameLen <=? zlen data else ErrColumnNameTruncated in
  let! name := sl bytesRead (bytesRead + nameLen) data in
  let! rest := from (bytesRead + nameLen) data in
  match rest with
  | [] => Err ErrNoTypeCode
  | typeCode :: rest =>
      let '(size, rest) := if 4 <=? zlen rest then (be_get (take 4 rest), drop 4 rest) else (0, rest) in
      let '(precision, rest) := take_byte rest in
      let '(scale, rest) := take_byte rest in
      let '(nullable, rest) := take_byte rest in
      Ok ({| co_Name := bytes_str name; co_TypeCode := typeCode; co_Size := size; co_Precision := precision;
             co_Scale := scale; co_Nullable := negb (nullable =? 0) |}, rest)
  end.

Fixpoint decode_values (columns : list columnDef) (data : bytes) : res ttc_error (list OraValue * bytes) :=
  match columns with
  | [] => Ok ([], data)
  | c :: columns =>
      match data with
      | [] => Ok (replicate (S (length columns)) OvNil, [])
      | _ =>
          let! ' (valLen, bytesRead) := decodeVarLen data in
          let! rest := from bytesRead data in
          if valLen =? 0 then
            let! ' (row, rest) := decode_values columns rest in Ok (OvNil :: row, rest)
          else
            guard! valLen <=? zlen rest else ErrRowValueTruncated in
            let valBytes := take (Z.to_nat valLen) rest in
            let! v := (match decodeOracleValue (co_TypeCode c) valBytes with
                       | Ok v => Ok v
                       | Err _ => Ok (OvString (bytes_str valBytes))
                       | Panic => Panic
                       end) in
            let! ' (row, rest) := decode_values columns (drop (Z.to_nat valLen) rest) in
            Ok (v :: row, rest)
      end
  end.

Definition decodeRow (data : bytes) (columns : list columnDef) : res ttc_error (list OraValue * bytes) :=
  guard! negb (zlen data =? 0) else ErrEmptyRowData in decode_values columns data.

Record TTCResponse := {
  tr_ReturnCode : Z;
  tr_RowCount : Z;
  tr_Columns : list columnDef;
  tr_Rows : list (list OraValue);
  tr_MoreData : bool;
  tr_IsError : bool;
  tr_ErrorCode : Z;
  tr_ErrorMessage : string
}.

Fixpoint column_defs (n : nat) (data : bytes) : res ttc_error (list columnDef * bytes) :=
  match n, data with
  | S n, _ :: _ =>
      match decodeColumnDef data with
      | Panic => Panic
      | Err _ => Ok ([], data)
      | Ok (col, rest) => let! ' (cols, rest) := column_defs n rest in Ok (col :: cols, rest)
      end
  | _, _ => Ok ([], data)
  end.

(** Rows until one byte is left; [fuel] is the number of bytes. *)
Fixpoint legacy_rows (fuel : nat) (columns : list columnDef) (data : bytes) : res ttc_error (list (list OraValue) * bytes) :=
  match fuel, data with
  | S fuel, _ :: _ :: _ =>
      match decodeRow data columns with
      | Panic => Panic
      | Err _ => Ok ([], data)
      | Ok (row, rest) =>
          if (length rest =? length data)%nat then Ok ([], data)
          else let! ' (rows, rest) := legacy_rows fuel columns rest in Ok (row :: rows, rest)
      end
  | _, _ => Ok ([], data)
  end.

Definition ora_code (code : Z) : string := "ORA-" ++ pad 5 code.

(** [16 + msgLen] is a uint16 sum in the slice expression, an int in the guard. *)
Definition response_message (payload : bytes) (errCode : Z) : res ttc_error string :=
  if zlen payload <? 16 then Ok ""
  else
    let! m := sl 14 16 payload in
    let msgLen := be_get m in
    if (16 + msgLen <=? zlen payload) && (0 <? msgLen)
    then let! text := sl 16 (u16 (16 + msgLen)) payload in Ok (bytes_str text)
    else Ok (ora_code errCode).

Definition decodeTTCResponse (payload : bytes) : res ttc_error TTCResponse :=
  guard! 14 <=? zlen payload else ErrOALL8TooShort in
  let! ec := sl 2 6 payload in
  let! rc := sl 8 12 payload in
  let! ef := sl 12 14 payload in
  let errCode := be_get ec in
  if negb (errCode =? 0) && negb (be_get ef =? 0) then
    let! msg := response_message payload errCode in
    Ok {| tr_ReturnCode := u16 errCode; tr_RowCount := be_get rc; tr_Columns := []; tr_Rows := []; tr_MoreData := false;
          tr_IsError := true; tr_ErrorCode := errCode; tr_ErrorMessage := msg |}
  else
    let rest := drop 14 payload in
    let! ' (columns, rest) :=
      (if 2 <=? zlen rest then column_defs (Z.to_nat (be_get (take 2 rest))) (drop 2 rest) else Ok ([], rest)) in
    let! ' (rows, rest) :=
      (match columns with [] => Ok ([], rest) | _ => legacy_rows (length rest) columns rest end) in
    Ok {| tr_ReturnCode := u16 errCode; tr_RowCount := be_get rc; tr_Columns := columns; tr_Rows := rows;
          tr_MoreData := negb (zlen rest =? 0) && negb (List.last payload 0 =? 0);
          tr_IsError := false; tr_ErrorCode := 0; tr_ErrorMessage := "" |}.

(** * A row stream reads back *)

(** The mask of the columns [f], one bit each, eight to a byte. *)
Definition mask_byte (f : nat -> bool) (j : nat) : Z :=
  foldr (fun k acc => Z.b2z (f (8 * j + k)%nat) + 2 * acc) 0 (seq 0 8).
Definition mask_of (f : nat -> bool) (n : nat) : bytes := map (mask_byte f) (seq 0 ((n + 7) / 8)).

Lemma testbit_bits (g : nat -> bool) : forall len start k, (k < len)%nat ->
  Z.testbit (foldr (fun k acc => Z.b2z (g k) + 2 * acc) 0 (seq start len)) (Z.of_nat k) = g (start + k)%nat.
Proof.
  induction len as [|len IH]; intros start k Hk; [lia|]. cbn [seq foldr]. destruct k as [|k].
  - rewrite Z.add_comm, Nat.add_0_r. apply Z.testbit_0_r.
  - rewrite Nat2Z.inj_succ, Z.add_comm, Z.testbit_succ_r by lia. rewrite IH by lia. f_equal. lia.
Qed.

Lemma mask_columns f n : bitmaskColumns (mask_of f n) n = List.filter f (seq 0 n).
Proof.
  unfold bitmaskColumns. apply List.filter_ext_in. intros col Hc. apply in_seq in Hc. unfold mask_of.
  rewrite list_lookup_fmap, lookup_seq_lt; cbn [fmap option_fmap option_map].
  - unfold mask_byte. rewrite (testbit_bits (fun k => f (8 * (0 + col / 8) + k)%nat)) by (apply Nat.mod_upper_bound; lia).
    f_equal. rewrite !Nat.add_0_l. symmetry. apply Nat.div_mod. lia.
  - apply Nat.Div0.div_lt_upper_bound. pose proof (Nat.div_mod (n + 7) 8 ltac:(lia)).
    pose proof (Nat.mod_upper_bound (n + 7) 8 ltac:(lia)). lia.
Qed.

Section RowStream.
Context {GT : GoText} (colTypes : list Z) (n : nat).
Hypothesis Hn : (0 < n)%nat.

(** A value as it travels, and as it is shown. *)
Definition enc_value (v : bytes) : bytes := zlen v :: v.
Definition text (col : nat) (v : bytes) : option string :=
  match v with
  | [] => Some ""
  | _ => match decodeRowValue colTypes col v with Ok s => Some s | _ => None end
  end.
Definition short (v : bytes) : Prop := zlen v <= 252.
Definition shown_as (row : list bytes) (texts : list string) : Prop :=
  length row = n /\ length texts = n /\ Forall short row /\ forall col v, row !! col = Some v -> text col v = texts !! col.

(** The columns of [active], in order. *)
Definition enc_row (active : list nat) (row : list bytes) : bytes :=
  List.concat (map (fun col => enc_value (default [] (row !! col))) active).

(** The next row sends every column, or those [f] selects. *)
Inductive separator := SepAll | SepMask (flag count : Z) (f : nat -> bool).

Definition active_of (s : separator) : list nat :=
  match s with SepAll => seq 0 n | SepMask _ _ f => List.filter f (seq 0 n) end.
Definition enc_sep (s : separator) : bytes :=
  match s with SepAll => [7] | SepMask flag count f => (continuationDescriptorMarker :: flag :: count :: mask_of f n ++ [7])%list end.

(** A column the next row does not send keeps its value. *)
Definition carries (s : separator) (prev next : list bytes) : Prop :=
  active_of s <> [] /\ forall col, (col < n)%nat -> col ∉ active_of s -> next !! col = prev !! col.

(** Every row after the first comes with its separator. *)
Fixpoint enc_rows (rows : list (separator * list bytes)) : bytes :=
  match rows with
  | [] => []
  | (s, row) :: rows => (enc_sep s ++ enc_row (active_of s) row ++ enc_rows rows)%list
  end.

Fixpoint well_carried (prev : list bytes) (rows : list (separator * list bytes)) : Prop :=
  match rows with
  | [] => True
  | (s, row) :: rows => carries s prev row /\ well_carried row rows
  end.

(** No row starts like a footer. *)
Fixpoint no_false_footer (rows : list (separator * list bytes)) (tail : bytes) : Prop :=
  match rows with
  | [] => True
  | (s, row) :: rows => at_footer (enc_row (active_of s) row ++ enc_rows rows ++ tail)%list = false /\ no_false_footer rows tail
  end.

Lemma read_row_enc : forall active row texts cur rest,
  shown_as row texts -> length cur = n -> (forall col, col ∈ active -> (col < n)%nat) ->
  exists cur', read_row colTypes active (enc_row active row ++ rest)%list cur = Ok (Some (cur', rest)) /\ length cur' = n /\
    (forall col, col ∈ active -> cur' !! col = texts !! col) /\ (forall col, col ∉ active -> cur' !! col = cur !! col).
Proof.
  intros active row texts cur rest (Hlr & Hlt & Hshort & Htext). revert cur.
  induction active as [|col active IH]; intros cur Hc Ha; cbn [read_row].
  { exists cur. split; [done|]. split; [done|]. split; [by intros col ?%not_elem_of_nil|done]. }
  assert (col < n)%nat as Hcol by (apply Ha; constructor).
  destruct (lookup_lt_is_Some_2 row col ltac:(lia)) as [v Hv]. destruct (lookup_lt_is_Some_2 texts col ltac:(lia)) as [t Ht].
  specialize (Htext col v Hv). rewrite Ht in Htext.
  assert (forall m, read_row colTypes active (enc_row active row ++ rest)%list (<[col := t]> cur) = m ->
    exists cur', m = Ok (Some (cur', rest)) /\ length cur' = n /\
      (forall c, c ∈ col :: active -> cur' !! c = texts !! c) /\ (forall c, c ∉ col :: active -> cur' !! c = cur !! c)) as Hstep.
  { intros m <-. destruct (IH (<[col := t]> cur)) as (cur' & -> & Hl' & Hin & Hout);
      [by rewrite length_insert|intros c Hc'; apply Ha; by constructor|].
    exists cur'. split; [done|]. split; [done|]. split.
    - intros c [->|Hc']%elem_of_cons; [|by apply Hin]. destruct (decide (col ∈ active)) as [Hi|Hi]; [by apply Hin|].
      rewrite Hout, list_lookup_insert_eq by (done || lia). done.
    - intros c Hc'. apply not_elem_of_cons in Hc' as [? ?]. rewrite Hout by done. by apply list_lookup_insert_ne. }
  unfold enc_row. cbn [map List.concat]. fold (enc_row active row). rewrite Hv. change (default [] (Some v)) with v.
  unfold enc_value. rewrite <- app_assoc, <- app_comm_cons. cbn [read_row].
  pose proof (list_elem_of_lookup_2 _ _ _ Hv) as Hin. rewrite Forall_forall in Hshort. specialize (Hshort v Hin). unfold short in Hshort.
  destruct (decide (v = [])) as [->|Hne].
  { injection Htext as <-. by apply Hstep. }
  assert (0 < zlen v /\ text col v = match decodeRowValue colTypes col v with Ok s => Some s | _ => None end) as [Hpos Et].
  { destruct v as [|b0 v']; [done|]. split; [|done]. rewrite zlen_cons. pose proof (zlen_nonneg v'). lia. }
  rewrite Et in Htext.
  rewrite (proj2 (Z.eqb_neq (zlen v) 0)) by lia. rewrite (proj2 (Z.ltb_ge 4000 _)), (proj2 (Z.ltb_ge _ _))
    by (rewrite ?zlen_app; pose proof (zlen_nonneg (enc_row active row)); pose proof (zlen_nonneg rest); lia).
  cbn [orb]. replace (Z.to_nat (zlen v)) with (length v) by (unfold zlen; lia).
  rewrite take_app_length, drop_app_length. destruct (decodeRowValue colTypes col v) as [t'|e|]; [|done|done].
  injection Htext as ->. by apply Hstep.
Qed.

Lemma active_bound s col : col ∈ active_of s -> (col < n)%nat.
Proof.
  destruct s as [|flag count f]; cbn [active_of]; rewrite list_elem_of_In; [|rewrite filter_In; intros [H _]; revert H]; rewrite in_seq; lia.
Qed.

Lemma read_row_texts s prevt row texts rest :
  shown_as row texts -> length prevt = n ->
  (forall col, (col < n)%nat -> col ∉ active_of s -> prevt !! col = texts !! col) ->
  read_row colTypes (active_of s) (enc_row (active_of s) row ++ rest)%list prevt = Ok (Some (texts, rest)).
Proof.
  intros Hs Hp Hc. destruct (read_row_enc (active_of s) row texts prevt rest Hs Hp (active_bound s)) as (cur & -> & Hl & Hin & Hout).
  do 3 f_equal. destruct Hs as (_ & Hlt & _). apply list_eq. intros col. destruct (decide (col < n)%nat) as [Hb|Hb].
  - destruct (decide (col ∈ active_of s)) as [Hi|Hi]; [by apply Hin|]. rewrite Hout by done. by apply Hc.
  - rewrite !lookup_ge_None_2 by lia. done.
Qed.

Lemma separator_enc s rest : active_of s <> [] -> readRowSeparator (enc_sep s ++ rest)%list n = Some (active_of s, rest).
Proof.
  destruct s as [|flag count f]; cbn [enc_sep active_of]; [done|]. intros Hne. rewrite <- !app_comm_cons. cbn [readRowSeparator].
  change (continuationDescriptorMarker =? 7) with false. change (continuationDescriptorMarker =? continuationDescriptorMarker) with true.
  cbv iota. set (mask := mask_of f n). assert (length mask = ((n + 7) / 8)%nat) as Hl by (unfold mask, mask_of; by rewrite length_map, length_seq).
  rewrite <- Hl. cbn [length]. rewrite !length_app. replace (_ <? _)%nat with false by (symmetry; apply Nat.ltb_ge; lia).
  cbn [drop Nat.add]. rewrite <- app_assoc, drop_0, take_app_length, drop_app_length. unfold mask. rewrite mask_columns.
  by destruct (List.filter f (seq 0 n)).
Qed.

(** The stream ends where [tail] begins. *)
Definition stream_end (tail : bytes) : Prop := readRowSeparator tail n = None.

Lemma enc_row_nonempty active row : active <> [] -> enc_row active row <> [].
Proof. destruct active as [|c a]; [done|]. intros _. unfold enc_row, enc_value. by cbn. Qed.

Lemma stream_rows tail : stream_end tail -> forall rows txs fuel prev prevt,
  shown_as prev prevt -> Forall2 (fun r t => shown_as r.2 t) rows txs -> well_carried prev rows -> no_false_footer rows tail ->
  (length (enc_rows rows) <= fuel)%nat ->
  match readRowSeparator (enc_rows rows ++ tail)%list n with
  | None => Ok []
  | Some (next, rest) => row_stream colTypes fuel rest n next prevt
  end = Ok txs.
Proof.
  intros Hend. induction rows as [|[s row] rows IH]; intros txs fuel prev prevt Hp Ht Hw Hf Hfuel;
    inversion Ht as [|? t ? ts Hrow Hrows]; subst; cbn [enc_rows app].
  { by rewrite Hend. }
  destruct Hw as [[Hne Hkeep] Hw]. destruct Hf as [Hf Hfs]. cbn [snd] in Hrow. cbn [enc_rows] in Hfuel. rewrite <- !app_assoc, separator_enc by done.
  pose proof (enc_row_nonempty (active_of s) row Hne) as Hr. rewrite !length_app in Hfuel.
  destruct fuel as [|fuel]; [destruct (enc_row (active_of s) row); [done|cbn in Hfuel; lia]|].
  destruct (enc_row (active_of s) row) as [|b0 r0] eqn:Er; [done|]. cbn [app row_stream]. cbn [app] in Hf. rewrite Hf.
  change (b0 :: r0 ++ enc_rows rows ++ tail)%list with ((b0 :: r0) ++ enc_rows rows ++ tail)%list. rewrite <- Er.
  rewrite (read_row_texts s prevt row t) by
    (done || (destruct Hp as (_ & ? & _); done) || (intros col Hc Hi; destruct Hp as (Hl1 & Hl2 & _ & Hp), Hrow as (_ & _ & _ & Hrow);
      specialize (Hkeep col Hc Hi); destruct (lookup_lt_is_Some_2 prev col ltac:(lia)) as [v Hv];
      rewrite <- (Hp col v Hv); apply Hrow; congruence)).
  cbn [rbind]. specialize (IH ts fuel row t Hrow Hrows Hw Hfs ltac:(cbn in Hfuel; lia)).
  destruct (readRowSeparator (enc_rows rows ++ tail)%list n) as [[next rest]|].
  - rewrite IH. done.
  - injection IH as <-. done.
Qed.

(** C38. A compressed stream of rows is decoded row for row: every row after the first
    sends the columns its separator announces and keeps the others; the first one
    continues the row the previous packet ended with.  The conditions are those of
    the section and the statement: at least one column, every value of at most 252 bytes and
    decodable for its column's type ([shown_as]); no row whose bytes, at the place
    where the reader looks, pass for a footer ([no_false_footer]; such rows are lost,
    see [footer_lookalike_lost]); and what follows the last row is no separator
    ([stream_end]). *)
Theorem row_stream_roundtrip s row t rows txs prev tail :
  shown_as row t -> Forall2 (fun r t => shown_as r.2 t) rows txs ->
  active_of s <> [] ->
  (forall col, (col < n)%nat -> col ∉ active_of s -> take n (prev ++ replicate n "")%list !! col = t !! col) ->
  well_carried row rows -> no_false_footer ((s, row) :: rows) tail -> stream_end tail ->
  parseRowStream colTypes (enc_row (active_of s) row ++ enc_rows rows ++ tail)%list n (active_of s) prev = Ok (t :: txs).
Proof.
  intros Hrow Hrows Hne Hprev Hw [Hf Hfs] Hend. unfold parseRowStream. replace (Nat.eqb n 0) with false by (symmetry; apply Nat.eqb_neq; lia).
  pose proof (enc_row_nonempty (active_of s) row Hne) as Hr. destruct (enc_row (active_of s) row) as [|b0 r0] eqn:Er; [done|].
  cbn [app length row_stream]. cbn [app] in Hf. rewrite Hf.
  change (b0 :: r0 ++ enc_rows rows ++ tail)%list with ((b0 :: r0) ++ enc_rows rows ++ tail)%list. rewrite <- Er.
  rewrite (read_row_texts s _ row t); [|done|rewrite length_take, length_app, length_replicate; lia|done]. cbn [rbind].
  pose proof (stream_rows tail Hend rows txs (length (r0 ++ enc_rows rows ++ tail)) row t Hrow Hrows Hw Hfs
    ltac:(rewrite !length_app; lia)) as Hs.
  destruct (readRowSeparator (enc_rows rows ++ tail)%list n) as [[next rest]|].
  - rewrite Hs. done.
  - injection Hs as <-. done.
Qed.
End RowStream.

(** A row whose first value is eight bytes long and starts with 0x01 0x06 reads as
    the end of the stream: it is lost, with all the rows after it. *)
Lemma footer_lookalike_lost {GT : GoText} types n six more prev : (0 < n)%nat -> zlen six = 6 ->
  parseRowStream types (enc_value (1 :: 6 :: six) ++ more)%list n (allColumns n) prev = Ok [].
Proof.
  intros Hn H6. unfold parseRowStream. replace (Nat.eqb n 0) with false by (symmetry; apply Nat.eqb_neq; lia).
  unfold enc_value. rewrite !zlen_cons, H6. reflexivity.
Qed.

(** ** An end-of-call message reads back *)

(** A compressed integer: the fewest big-endian bytes, behind their number. *)
Definition enc_int (size : nat) (v : Z) : bytes := Z.of_nat size :: be_put size v.

Lemma readCompressedInt_enc size v rest : (0 < size <= 8)%nat -> 0 <= v < 256 ^ Z.of_nat size -> v < 2 ^ 63 ->
  readCompressedInt (enc_int size v ++ rest)%list = Some (v, rest).
Proof.
  intros Hs Hv H63. unfold enc_int. rewrite <- app_comm_cons. cbn [readCompressedInt].
  rewrite (proj2 (Z.eqb_neq _ _)) by lia. rewrite (proj2 (Z.ltb_ge 8 _)) by lia.
  rewrite (proj2 (Z.ltb_ge _ _)) by (rewrite zlen_app, zlen_be_put; pose proof (zlen_nonneg rest); lia). cbn [orb].
  rewrite Nat2Z.id, take_app_length', drop_app_length' by (by rewrite length_be_put).
  rewrite be_get_put, Z.mod_small by lia. unfold i64. by rewrite sint_small by lia.
Qed.

Fixpoint enc_ints (fields : list (nat * Z)) : bytes :=
  match fields with [] => [] | (size, v) :: fields => (enc_int size v ++ enc_ints fields)%list end.

Definition field_ok (maxSize : Z) (f : nat * Z) : Prop :=
  (0 < f.1)%nat /\ Z.of_nat f.1 <= maxSize /\ 0 <= f.2 < 256 ^ Z.of_nat f.1 /\ f.2 < 2 ^ 63.

Lemma oer_fields_enc rest : forall sizes fields, Forall2 field_ok sizes fields -> Forall (fun m => m <= 8) sizes ->
  oer_fields sizes (enc_ints fields ++ rest)%list = Some (map snd fields, rest).
Proof.
  induction 1 as [|m [size v] sizes fields (H1 & H2 & H3 & H4) _ IH]; intros Hm; inversion Hm; subst; [done|].
  cbn [oer_fields enc_ints fst snd map] in *. rewrite <- app_assoc, readCompressedInt_enc by lia.
  rewrite (proj2 (Z.ltb_ge _ _)), IH by (done || (unfold enc_int; rewrite zlen_app, zlen_cons, zlen_be_put; lia)). done.
Qed.

(** An end-of-call message with the end-of-call bit is read as its status, row
    count and error code, and, for an error, the text that follows. *)
Theorem oer_roundtrip status seq_ rows code f5 f6 f7 tail :
  Forall2 field_ok oerFieldMaxSizes [status; seq_; rows; code; f5; f6; f7] -> Z.testbit status.2 16 = true ->
  decodeOERAt (TTCFuncOERR :: enc_ints [status; seq_; rows; code; f5; f6; f7] ++ tail)%list
  = Some {| oe_CallStatus := status.2; oe_SeqNumber := seq_.2; oe_CurRowNumber := rows.2; oe_ErrorCode := code.2;
            oe_ErrorMessage := if code.2 =? 0 then "" else extractORAMessage tail |}.
Proof.
  intros Hf Hbit. unfold decodeOERAt. change (negb (TTCFuncOERR =? TTCFuncOERR)) with false. cbv iota.
  rewrite oer_fields_enc by (done || by repeat constructor; lia). cbn [map]. by rewrite Hbit.
Qed.

(** ** Witnesses *)

Module OracleRowSample.
#[local] Instance plain_text : GoText :=
  {| FormatFloat32 := FormatInt; FormatFloat64 := FormatInt; ParseFloat := ParseInt; valid_json := fun _ => false;
     marshal_row := fun _ => inl "{}" |}.

Definition row1 : list bytes := [[97]; [193; 4; 15]; [99]].
Definition row2 : list bytes := [[97]; []; [100]].
Definition changed : separator := SepMask 1 2 (fun col => (0 <? col)%nat).
End OracleRowSample.

Import OracleRowSample.

Lemma row_stream_roundtrip_witness :
  parseRowStream (GT := plain_text) [1; 2; 1] (enc_row [0; 1; 2]%nat row1 ++ enc_rows 3 [(changed, row2)] ++ [8; 1; 6])%list 3
    [0; 1; 2]%nat [] = Ok [["a"; "3.14"; "c"]; ["a"; ""; "d"]].
Proof.
  apply (row_stream_roundtrip (GT := plain_text) [1; 2; 1] 3 ltac:(lia) SepAll row1 ["a"; "3.14"; "c"]
           [(changed, row2)] [["a"; ""; "d"]] [] [8; 1; 6]).
  - split; [done|]. split; [done|]. split; [by repeat constructor|]. intros col v H.
    destruct col as [|[|[|col]]]; cbn in H; try discriminate; injection H as <-; reflexivity.
  - constructor; [|constructor]. split; [done|]. split; [done|]. split; [by repeat constructor|]. cbn [snd]. intros col v H. cbn in H.
    destruct col as [|[|[|col]]]; cbn in H; try discriminate; injection H as <-; reflexivity.
  - done.
  - intros col Hc Hi. exfalso. apply Hi. cbn. destruct col as [|[|[|col]]]; [repeat constructor..|lia].
  - split; [|done]. split; [done|]. intros col Hc Hi. destruct col as [|[|[|col]]]; [done| | |lia];
      exfalso; apply Hi; cbn; repeat constructor.
  - repeat split.
  - done.
Defined.

Lemma oer_roundtrip_witness :
  decodeOERAt (TTCFuncOERR :: enc_ints [(3%nat, 65536); (1%nat, 5); (1%nat, 7); (2%nat, 1403); (1%nat, 0); (1%nat, 0); (1%nat, 0)]
    ++ str_bytes "ORA-01403: no data found")%list
  = Some {| oe_CallStatus := 65536; oe_SeqNumber := 5; oe_CurRowNumber := 7; oe_ErrorCode := 1403;
            oe_ErrorMessage := "ORA-01403: no data found" |}.
Proof.
  apply (oer_roundtrip (3%nat, 65536) (1%nat, 5) (1%nat, 7) (2%nat, 1403) (1%nat, 0) (1%nat, 0) (1%nat, 0)); [|reflexivity].
  repeat constructor; cbn; lia.
Defined.
