(* ===== verification/OracleSession.v ===== *)
(** * The relay phase of an Oracle session
    ([internal/proxy/oracle/intercept.go], [proxyMessages] and below in [session.go])

    Two goroutines relay packets, one per direction; each looks into the data
    packets on the way.  A statement packet passes the quota check and (for two of
    the three ways to execute) the grant's controls; the query it starts is
    recorded in the store at once, rows are written as they pass, and the query is
    completed by a response or by the next statement.  A completion hands its store
    calls to a goroutine: [os_jobs] are those that have not run.

    Cursors are shared between the [cursors] map and the pending query, so they
    live in a heap, [os_heap].  The store's answer to the [n]-th call of a session
    is [sql n], the key it generates [fresh n].  A handler sees the byte counters,
    the revocation flag and the clock as a [Live] value. *)

From Stdlib Require Import ZArith Lia List Bool String Ascii.
From stdpp Require Import base list gmap strings relations.
From S2P Require Import Prelude GoStrings Encoding Models Validation Limits Revocation GrantStore QueryStore TNS PgText PgSession Recorder MySqlSession OracleValues OracleTtc OracleRows.

Open Scope string_scope.
Open Scope Z_scope.

(** ** State *)

Record trackedCursor := {
  tc_cursorID : Z;
  tc_sql : string;
  tc_bindValues : list string;
  tc_parsedAt : time;
  tc_columns : list columnDef
}.

(** [oq_cursor] is an index of the heap. *)
Record pendingOracleQuery := {
  oq_cursor : nat;
  oq_startTime : time;
  oq_capturedBytes : Z;
  oq_rowNumber : Z;
  oq_truncated : bool;
  oq_queryUID : uuid;
  oq_queryPersisted : bool;
  oq_lastRow : list string
}.

(** What a completion leaves to a goroutine. *)
Inductive job :=
| Finalize (queryUID : uuid) (duration : Z) (rowsAffected : option Z) (queryError : option string) (bytesTransferred : Z)
| LogLate (query : Query) (bytesTransferred : Z).

Definition job_bytes (j : job) : Z :=
  match j with Finalize _ _ _ _ n => n | LogLate _ n => n end.

(** [os_up] and [os_down] are the packets written to the two connections,
    [os_started] every goroutine started, [os_calls] the store calls made. *)
Record OraSession := {
  os_grant : option AccessGrant;
  os_connectionUID : uuid;
  os_guard : option LimitGuard;
  os_heap : list trackedCursor;
  os_cursors : gmap Z nat;
  os_pending : option pendingOracleQuery;
  os_snapshot : Z;
  os_db : QDB;
  os_calls : nat;
  os_jobs : list job;
  os_started : list job;
  os_up : list TNSPacket;
  os_down : list TNSPacket;
  os_over : bool
}.

(** The tracker: the heap, the map, the pending query. *)
Definition set_tracker (s : OraSession) (heap : list trackedCursor) (m : gmap Z nat) (p : option pendingOracleQuery) : OraSession :=
  {| os_grant := os_grant s; os_connectionUID := os_connectionUID s; os_guard := os_guard s; os_heap := heap;
     os_cursors := m; os_pending := p; os_snapshot := os_snapshot s; os_db := os_db s; os_calls := os_calls s;
     os_jobs := os_jobs s; os_started := os_started s; os_up := os_up s; os_down := os_down s; os_over := os_over s |}.
Definition set_heap s heap := set_tracker s heap (os_cursors s) (os_pending s).
Definition set_cursors s m := set_tracker s (os_heap s) m (os_pending s).
Definition set_pending s p := set_tracker s (os_heap s) (os_cursors s) p.

(** One more call of the store. *)
Definition set_store (s : OraSession) (d : QDB) : OraSession :=
  {| os_grant := os_grant s; os_connectionUID := os_connectionUID s; os_guard := os_guard s; os_heap := os_heap s;
     os_cursors := os_cursors s; os_pending := os_pending s; os_snapshot := os_snapshot s; os_db := d;
     os_calls := S (os_calls s); os_jobs := os_jobs s; os_started := os_started s; os_up := os_up s;
     os_down := os_down s; os_over := os_over s |}.

(** The end of a query: the counters in memory, the snapshot, the goroutine. *)
Definition set_account (s : OraSession) (g : option AccessGrant) (total : Z) (j : job) : OraSession :=
  {| os_grant := g; os_connectionUID := os_connectionUID s; os_guard := os_guard s; os_heap := os_heap s;
     os_cursors := os_cursors s; os_pending := None; os_snapshot := total; os_db := os_db s; os_calls := os_calls s;
     os_jobs := (os_jobs s ++ [j])%list; os_started := (os_started s ++ [j])%list; os_up := os_up s;
     os_down := os_down s; os_over := os_over s |}.

(** [ok] says whether the connection takes the packet; the session that fails to
    relay one is over. *)
Definition set_io (s : OraSession) (up down : list TNSPacket) (over : bool) : OraSession :=
  {| os_grant := os_grant s; os_connectionUID := os_connectionUID s; os_guard := os_guard s; os_heap := os_heap s;
     os_cursors := os_cursors s; os_pending := os_pending s; os_snapshot := os_snapshot s; os_db := os_db s;
     os_calls := os_calls s; os_jobs := os_jobs s; os_started := os_started s; os_up := up; os_down := down;
     os_over := over |}.
Definition send_up (ok : bool) (s : OraSession) (pkt : TNSPacket) : OraSession :=
  if ok then set_io s (os_up s ++ [pkt])%list (os_down s) (os_over s) else set_io s (os_up s) (os_down s) true.
Definition send_down (ok : bool) (s : OraSession) (pkt : TNSPacket) : OraSession :=
  if ok then set_io s (os_up s) (os_down s ++ [pkt])%list (os_over s) else set_io s (os_up s) (os_down s) true.
(** An error frame: a failed write is ignored. *)
Definition send_frame (ok : bool) (s : OraSession) (pkt : TNSPacket) : OraSession :=
  if ok then set_io s (os_up s) (os_down s ++ [pkt])%list (os_over s) else s.
Definition set_over (s : OraSession) : OraSession := set_io s (os_up s) (os_down s) true.

Definition update_query (p : pendingOracleQuery) (bytes rows : Z) (cut : bool) (uid : uuid) (persisted : bool)
    (last : list string) : pendingOracleQuery :=
  {| oq_cursor := oq_cursor p; oq_startTime := oq_startTime p; oq_capturedBytes := bytes; oq_rowNumber := rows;
     oq_truncated := cut; oq_queryUID := uid; oq_queryPersisted := persisted; oq_lastRow := last |}.

Definition with_columns (c : trackedCursor) (columns : list columnDef) : trackedCursor :=
  {| tc_cursorID := tc_cursorID c; tc_sql := tc_sql c; tc_bindValues := tc_bindValues c;
     tc_parsedAt := tc_parsedAt c; tc_columns := columns |}.

(** ** Errors *)

Inductive ora_error :=
| OraLimit (e : limit_error)
| ErrQueryLimitExceed
| ErrDataLimitExceed
| OraInvalid (e : verror).

Definition ora_text (e : ora_error) : string :=
  match e with
  | OraLimit e => limit_text e
  | ErrQueryLimitExceed => "query limit exceeded"
  | ErrDataLimitExceed => "data transfer limit exceeded"
  | OraInvalid e => verror_text e
  end.

Definition ORA00028 : Z := 28.

(** The payload of an error frame, data flags included. *)
Definition error_payload (oraErrorCode : Z) (message : string) : bytes :=
  let errMsg := ora_code oraErrorCode ++ ": " ++ message in
  ([0; 0] ++ [TTCFuncResponse] ++ [1] ++ be_put 4 (u32 oraErrorCode) ++ [0; 0] ++ [0; 0; 0; 0] ++ [0; 1]
   ++ be_put 2 (u16 (slen errMsg)) ++ str_bytes errMsg)%list.

Definition error_frame (oraErrorCode : Z) (message : string) : TNSPacket :=
  {| t_Type := TNSPacketTypeData; t_Flags := 0; t_Length := 0; t_Payload := error_payload oraErrorCode message; t_Raw := [] |}.

Definition writeTTCError (ok : bool) (s : OraSession) (oraErrorCode : Z) (message : string) : OraSession :=
  send_frame ok s (error_frame oraErrorCode message).
Definition sendOracleError (ok : bool) (s : OraSession) (queryErr : ora_error) : OraSession :=
  writeTTCError ok s 1031 (ora_text queryErr).

(** ** Queries *)

Definition formatOracleBinds (values : list string) : option QueryParameters :=
  match values with
  | [] => None
  | _ => Some {| qp_Values := values; qp_Raw := []; qp_FormatCodes := []; qp_TypeOIDs := [] |}
  end.

Definition checkQuotas (e : Live) (s : OraSession) : option ora_error :=
  if l_revoked e then Some (OraLimit ErrGrantRevoked)
  else
    match os_grant s with
    | None => None
    | Some g =>
        if negb (IsZero (g_ExpiresAt g)) && negb (Before (l_now e) (g_ExpiresAt g)) then Some (OraLimit ErrGrantExpired)
        else if match g_MaxQueryCounts g with Some m => m <=? g_QueryCount g | None => false end
             then Some ErrQueryLimitExceed
        else if match g_MaxBytesTransferred g with Some m => m <=? g_BytesTransferred g | None => false end
             then Some ErrDataLimitExceed
        else None
    end.

(** The access-control check of a statement. *)
Definition blocked (s : OraSession) (sql : string) : option ora_error :=
  match os_grant s with
  | Some g => option_map OraInvalid (ValidateOracleQuery sql g)
  | None => None
  end.

Definition ora_query (s : OraSession) (c : trackedCursor) (start : time) (duration rowsAffected : option Z)
    (queryError : option string) : Query :=
  {| q_UID := Nil; q_ConnectionID := os_connectionUID s; q_SQLText := tc_sql c;
     q_Parameters := formatOracleBinds (tc_bindValues c); q_ExecutedAt := start; q_DurationMs := duration;
     q_RowsAffected := rowsAffected; q_Error := queryError; q_CopyFormat := None; q_CopyDirection := None |}.

Definition total_bytes (e : Live) : Z := l_from e + l_to e.

(** Whole milliseconds, in thousandths. *)
Definition elapsed (e : Live) (start : time) : Z := Z.quot (l_now e - start) 1000000 * 1000.

Definition completeQuery (e : Live) (s : OraSession) (rowsAffected : option Z) (queryError : option string) : OraSession :=
  match os_pending s with
  | None => s
  | Some pending =>
      match os_heap s !! oq_cursor pending with
      | None => s
      | Some cursor =>
          let bytesTransferred := total_bytes e - os_snapshot s in
          let duration := elapsed e (oq_startTime pending) in
          let rowsAffected :=
            match rowsAffected with
            | None => if 0 <? oq_rowNumber pending then Some (oq_rowNumber pending) else None
            | Some n => Some n
            end in
          let j :=
            if oq_queryPersisted pending && negb (N.eqb (oq_queryUID pending) Nil)
            then Finalize (oq_queryUID pending) duration rowsAffected queryError bytesTransferred
            else LogLate (ora_query s cursor (oq_startTime pending) (Some duration) rowsAffected queryError) bytesTransferred in
          set_account s (option_map (fun g => with_counters g (g_QueryCount g + 1) (g_BytesTransferred g + bytesTransferred)) (os_grant s))
            (total_bytes e) j
      end
  end.

Definition flushPendingQuery (e : Live) (s : OraSession) : OraSession := completeQuery e s None None.

Section Relay.
Context {GT : GoText}.
Variable sql : nat -> nat -> bool.
Variable fresh : nat -> uuid.
Variable queryStorage : QueryStorageConfig.

Definition persistQueryRecord (e : Live) (s : OraSession) : OraSession :=
  match os_pending s with
  | None => s
  | Some p =>
      if oq_queryPersisted p then s
      else
        match os_heap s !! oq_cursor p with
        | None => s
        | Some cursor =>
            let '(d, created) :=
              CreateQuery (sql (os_calls s)) (os_db s) (ora_query s cursor (oq_startTime p) None None None)
                (fresh (os_calls s)) (l_now e) in
            let uid := match created with Ok q => q_UID q | _ => oq_queryUID p end in
            set_pending (set_store s d)
              (Some (update_query p (oq_capturedBytes p) (oq_rowNumber p) (oq_truncated p) uid true (oq_lastRow p)))
        end
  end.

(** A new pending query on the cursor [c] of the heap. *)
Definition start_query (e : Live) (s : OraSession) (c : nat) : OraSession :=
  set_pending s (Some {| oq_cursor := c; oq_startTime := l_now e; oq_capturedBytes := 0; oq_rowNumber := 0;
                         oq_truncated := false; oq_queryUID := Nil; oq_queryPersisted := false; oq_lastRow := [] |}).

Definition new_cursor (e : Live) (s : OraSession) (id : Z) (text : string) (binds : list string) : OraSession * nat :=
  (set_heap s (os_heap s ++ [{| tc_cursorID := id; tc_sql := text; tc_bindValues := binds; tc_parsedAt := l_now e;
                                tc_columns := [] |}])%list,
   length (os_heap s)).

(** A decoder that panics unwinds to the interceptor, which forwards the packet:
    nothing has been changed by then. *)
Definition handleOALL8 (e : Live) (s : OraSession) (ttcPayload : bytes) : OraSession * option ora_error :=
  match decodeOALL8 ttcPayload with
  | Ok result =>
      match blocked s (oa_SQL result) with
      | Some err => (s, Some err)
      | None =>
          let s := flushPendingQuery e s in
          let '(s, cursor) := new_cursor e s (oa_CursorID result) (oa_SQL result) (oa_BindValues result) in
          let s := set_cursors s (<[oa_CursorID result := cursor]> (os_cursors s)) in
          (persistQueryRecord e (start_query e s cursor), None)
      end
  | _ => (s, None)
  end.

Definition handlePiggybackExec (e : Live) (s : OraSession) (ttcPayload : bytes) : OraSession * option ora_error :=
  match decodePiggybackExecSQL ttcPayload with
  | Ok result =>
      match blocked s (oa_SQL result) with
      | Some err => (s, Some err)
      | None =>
          let s := flushPendingQuery e s in
          let '(s, cursor) := new_cursor e s 0 (oa_SQL result) (oa_BindValues result) in
          (persistQueryRecord e (start_query e s cursor), None)
      end
  | _ => (s, None)
  end.

(** There is no access-control check here. *)
Definition handleJDBCExec (e : Live) (s : OraSession) (ttcPayload : bytes) : OraSession :=
  match decodeExecSQL ttcPayload with
  | Ok result =>
      let s := flushPendingQuery e s in
      let '(s, cursor) := new_cursor e s 0 (oa_SQL result) [] in
      persistQueryRecord e (start_query e s cursor)
  | _ => s
  end.

Definition handleOFETCH (e : Live) (s : OraSession) (ttcPayload : bytes) : OraSession :=
  match decodeOFETCH ttcPayload with
  | Ok (cursorID, _) =>
      match os_cursors s !! cursorID with
      | None => s
      | Some cursor => match os_pending s with None => start_query e s cursor | Some _ => s end
      end
  | _ => s
  end.

Definition handleOCLOSE (s : OraSession) (cursorID : Z) : OraSession :=
  set_cursors s (delete cursorID (os_cursors s)).

(** ** Rows *)

Definition row_map (columns : list columnDef) (values : list string) : gmap string jval :=
  fold_left (fun m '(i, col) => <[co_Name col := match values !! i with Some v => JStr v | None => JNull end]> m)
    (imap pair columns) ∅.

(** The values that belong to a column. *)
Definition ora_row_size (columns : list columnDef) (values : list string) : Z :=
  foldr (fun v n => slen v + n) 0 (take (length columns) values).

(** The row of the pending query [p], whose record exists. *)
Definition stream_row (s : OraSession) (p : pendingOracleQuery) (columns : list columnDef) (values : list string) : OraSession :=
  let rowSize := ora_row_size columns values in
  if (MaxResultRows queryStorage <=? oq_rowNumber p) || (MaxResultBytes queryStorage <? oq_capturedBytes p + rowSize)
  then set_pending s (Some (update_query p (oq_capturedBytes p) (oq_rowNumber p) true (oq_queryUID p) (oq_queryPersisted p) (oq_lastRow p)))
  else
    match marshal_row (row_map columns values) with
    | inr _ => s
    | inl json =>
        let n := oq_rowNumber p + 1 in
        let p := update_query p (oq_capturedBytes p + rowSize) n (oq_truncated p) (oq_queryUID p) (oq_queryPersisted p) (oq_lastRow p) in
        let row := {| qr_RowNumber := n; qr_RowData := json; qr_RowSizeBytes := rowSize |} in
        let d := (StoreQueryRows (sql (os_calls s)) (os_db s) (oq_queryUID p) [row] (fun i => fresh (os_calls s + i)%nat)).1 in
        set_pending (set_store s d) (Some p)
    end.

Definition captureRow (e : Live) (s : OraSession) (columns : list columnDef) (values : list string) : OraSession :=
  match os_pending s with
  | None => s
  | Some p0 =>
      if oq_truncated p0 || negb (StoreResults queryStorage) then s
      else
        let s := persistQueryRecord e s in
        match os_pending s with
        | None => s
        | Some p => if N.eqb (oq_queryUID p) Nil then s else stream_row s p columns values
        end
  end.

Definition set_columns (s : OraSession) (columns : list columnDef) : OraSession :=
  match os_pending s with
  | Some p => set_heap s (alter (fun c => with_columns c columns) (oq_cursor p) (os_heap s))
  | None => s
  end.

(** The columns of the pending query's cursor; [None] without one. *)
Definition pending_columns (s : OraSession) : option (list columnDef) :=
  match os_pending s with
  | Some p => tc_columns <$> os_heap s !! oq_cursor p
  | None => None
  end.

Definition set_lastRow (s : OraSession) (row : list string) : OraSession :=
  match os_pending s with
  | Some p => set_pending s (Some (update_query p (oq_capturedBytes p) (oq_rowNumber p) (oq_truncated p) (oq_queryUID p) (oq_queryPersisted p) row))
  | None => s
  end.

(** A described column: the name and the type when known. *)
Definition described (types : list Z) (i : nat) (name : string) : columnDef :=
  {| co_Name := name; co_TypeCode := match types !! i with Some t => u8 t | None => 0 end;
     co_Size := 0; co_Precision := 0; co_Scale := 0; co_Nullable := false |}.

Definition handleQueryResultV2 (e : Live) (s : OraSession) (ttcPayload : bytes) : OraSession :=
  match decodeQueryResultV2 ttcPayload with
  | Ok (Some result) =>
      let s :=
        match pending_columns s, qv_Columns result with
        | Some _, (_ :: _) as names => set_columns s (imap (described (qv_ColumnTypes result)) names)
        | _, _ => s
        end in
      let s :=
        match pending_columns s with
        | Some columns =>
            let s := fold_left (fun s row => captureRow e s columns row) (qv_Rows result) s in
            match last (qv_Rows result) with Some row => set_lastRow s row | None => s end
        | None => s
        end in
      if qv_NoData result then completeQuery e s None None else s
  | _ => s
  end.

Definition lastRow (s : OraSession) : list string :=
  match os_pending s with Some p => oq_lastRow p | None => [] end.

Definition handleContinuation (e : Live) (s : OraSession) (ttcPayload : bytes) : OraSession :=
  match pending_columns s with
  | None => s
  | Some columns =>
      match (if Nat.eqb (length columns) 0 then Ok []
             else parseContinuationRows ttcPayload (length columns) (lastRow s) (columnTypeCodes columns)) with
      | Ok rows =>
          let s := fold_left (fun s row => set_lastRow (captureRow e s columns row) row) rows s in
          if 0 <=? findBytes ttcPayload no_data_found then completeQuery e s None None else s
      | _ => s
      end
  end.

(** ** Responses *)

Definition completeQueryFromOER (e : Live) (s : OraSession) (info : oerInfo) : OraSession :=
  if oe_ErrorCode info =? oraNoDataFound then completeQuery e s None None
  else if negb (oe_ErrorCode info =? 0) then
    let msg := if String.eqb (oe_ErrorMessage info) "" then ora_code (oe_ErrorCode info) else oe_ErrorMessage info in
    completeQuery e s None (Some msg)
  else completeQuery e s (Some (oe_CurRowNumber info)) None.

Definition handleOERStatus (e : Live) (s : OraSession) (ttcPayload : bytes) : OraSession :=
  match decodeOERAt ttcPayload with Some info => completeQueryFromOER e s info | None => s end.

Definition handleResponse (e : Live) (s : OraSession) (ttcPayload : bytes) : OraSession :=
  match findOERInResponse ttcPayload with
  | Some oer => completeQueryFromOER e s oer
  | None =>
      match decodeTTCResponse ttcPayload with
      | Ok resp =>
          let s :=
            match pending_columns s, tr_Columns resp with
            | Some _, (_ :: _) as columns => set_columns s columns
            | _, _ => s
            end in
          if tr_IsError resp then completeQuery e s None (Some (tr_ErrorMessage resp))
          else if negb (tr_MoreData resp) then
            completeQuery e s (if 0 <? tr_RowCount resp then Some (tr_RowCount resp) else None) None
          else s
      | _ => s
      end
  end.

(** ** The two relays *)

Definition is_ttc (pkt : TNSPacket) : bool :=
  (t_Type pkt =? TNSPacketTypeData) && (ttcDataFlagsSize + 1 <=? zlen (t_Payload pkt)).

(** The function code and the TTC payload of a data packet. *)
Definition ttc_message (pkt : TNSPacket) : option (Z * bytes) :=
  match parseTTCFunctionCode (t_Payload pkt), extractTTCPayload (t_Payload pkt) with
  | Ok f, Some ttcPayload => Some (f, ttcPayload)
  | _, _ => None
  end.

(** The state and the error frame's text when the packet is blocked. *)
Definition interceptClientMessage (e : Live) (s : OraSession) (pkt : TNSPacket) : OraSession * option ora_error :=
  match ttc_message pkt with
  | None => (s, None)
  | Some (funcCode, ttcPayload) =>
      if funcCode =? TTCFuncPiggyback then
        if IsPiggybackExecSQL ttcPayload then
          match checkQuotas e s with
          | Some err => (s, Some err)
          | None => handlePiggybackExec e s ttcPayload
          end
        else if IsPiggybackClose ttcPayload then
          (match ttcPayload with _ :: _ :: c :: _ => handleOCLOSE s c | _ => s end, None)
        else (s, None)
      else if funcCode =? TTCFuncOALL8 then
        match checkQuotas e s with
        | Some err => (s, Some err)
        | None => handleOALL8 e s ttcPayload
        end
      else if funcCode =? TTCFuncOFETCH then
        if IsExecSQL ttcPayload then
          match checkQuotas e s with
          | Some err => (s, Some err)
          | None => (handleJDBCExec e s ttcPayload, None)
          end
        else (handleOFETCH e s ttcPayload, None)
      else if (funcCode =? TTCFuncOCLOSE) || (funcCode =? TTCFuncOClosev2) then
        (match decodeCursorIDFromOCLOSE ttcPayload with Ok c => handleOCLOSE s c | _ => s end, None)
      else (s, None)
  end.

(** One packet of the client: [ok] for the write that answers it. *)
Definition clientToUpstream (e : Live) (ok : bool) (s : OraSession) (pkt : TNSPacket) : OraSession :=
  if is_ttc pkt then
    match interceptClientMessage e s pkt with
    | (s, Some err) => sendOracleError ok s err
    | (s, None) => send_up ok s pkt
    end
  else send_up ok s pkt.

Definition interceptUpstreamMessage (e : Live) (s : OraSession) (pkt : TNSPacket) : OraSession :=
  match ttc_message pkt with
  | None => s
  | Some (funcCode, ttcPayload) =>
      if funcCode =? TTCFuncQueryResult then handleQueryResultV2 e s ttcPayload
      else if funcCode =? TTCFuncResponse then handleResponse e s ttcPayload
      else if funcCode =? TTCFuncOERR then handleOERStatus e s ttcPayload
      else if funcCode =? TTCFuncContinuation then handleContinuation e s ttcPayload
      else s
  end.

(** The check after a relayed packet, at [e]; the query is completed at [e']. *)
Definition enforce_limits (e e' : Live) (ok : bool) (s : OraSession) : OraSession :=
  match os_pending s with
  | None => s
  | Some _ =>
      match Check (os_guard s) e with
      | None => s
      | Some verr =>
          let s := writeTTCError ok s ORA00028 ("session terminated: " ++ limit_text verr) in
          set_over (completeQuery e' s None (Some ("aborted: " ++ limit_text verr)))
      end
  end.

(** One packet of the server: looked into at [e], relayed, then checked at [e1]. *)
Definition upstreamToClient (e e1 e2 : Live) (ok ok' : bool) (s : OraSession) (pkt : TNSPacket) : OraSession :=
  let s := if is_ttc pkt then interceptUpstreamMessage e s pkt else s in
  let s := send_down ok s pkt in
  if ok then enforce_limits e1 e2 ok' s else s.

(** One goroutine of [completeQuery]; [finalizeQuery] for a recorded query. *)
Definition finalizeQuery (n : nat) (s : OraSession) (queryUID : uuid) (duration : Z) (rowsAffected : option Z)
    (queryError : option string) (bytesTransferred : Z) (now : time) : QDB :=
  let d := (UpdateQueryCompletion (sql n) (os_db s) queryUID (Some duration) rowsAffected queryError).1 in
  {| qd_db := (IncrementConnectionStats (sql (S n)) (qd_db d) (os_connectionUID s) bytesTransferred now).1;
     query_rows := query_rows d |}.

Definition run_job (s : OraSession) (j : job) (now : time) : QDB :=
  let n := os_calls s in
  match j with
  | Finalize uid duration rowsAffected queryError bytes => finalizeQuery n s uid duration rowsAffected queryError bytes now
  | LogLate query bytes =>
      let d := (CreateQuery (sql n) (os_db s) query (fresh n) now).1 in
      {| qd_db := (IncrementConnectionStats (sql (S n)) (qd_db d) (os_connectionUID s) bytes now).1;
         query_rows := query_rows d |}
  end.

Definition set_jobs (s : OraSession) (d : QDB) (jobs : list job) : OraSession :=
  {| os_grant := os_grant s; os_connectionUID := os_connectionUID s; os_guard := os_guard s; os_heap := os_heap s;
     os_cursors := os_cursors s; os_pending := os_pending s; os_snapshot := os_snapshot s; os_db := d;
     os_calls := S (S (os_calls s)); os_jobs := jobs; os_started := os_started s; os_up := os_up s;
     os_down := os_down s; os_over := os_over s |}.

(** The session once its grant is known, and the guard it is given. *)
Definition proxyMessages (w : World) (grant : option AccessGrant) (connectionUID : uuid) (d : QDB) : World * handle * OraSession :=
  let grantUID := match grant with Some g => g_UID g | None => Nil end in
  let '(w, h) := Register w grantUID in
  (w, h,
   {| os_grant := grant; os_connectionUID := connectionUID;
      os_guard := WithRevocation (Some (NewLimitGuard grant true true)) true;
      os_heap := []; os_cursors := ∅; os_pending := None; os_snapshot := 0; os_db := d; os_calls := 0;
      os_jobs := []; os_started := []; os_up := []; os_down := []; os_over := false |}).

(** A pending query is not completed at the end of a session. *)
Definition cleanup (w : World) (h : handle) (s : OraSession) (now : time) : World * OraSession :=
  let w := match os_grant s with Some g => Deregister w (g_UID g) (Some h) | None => w end in
  let s := set_over s in
  (w,
   if N.eqb (os_connectionUID s) Nil then s
   else set_store s {| qd_db := (CloseConnection (sql (os_calls s)) (qd_db (os_db s)) (os_connectionUID s) now).1;
                       query_rows := query_rows (os_db s) |}).

(** The relays and the goroutines interleave packet by packet. *)
Inductive ora_step : OraSession -> OraSession -> Prop :=
| step_client e ok pkt s : os_over s = false -> ora_step s (clientToUpstream e ok s pkt)
| step_server e e1 e2 ok ok' pkt s : os_over s = false -> ora_step s (upstreamToClient e e1 e2 ok ok' s pkt)
| step_job s before j after now : os_jobs s = (before ++ j :: after)%list ->
    ora_step s (set_jobs s (run_job s j now) (before ++ after)%list)
| step_stop s : ora_step s (set_over s).

End Relay.

(** * What each handler may change *)

(** The statement a packet carries: [checked_statement] by the two routes that
    are checked, [exec_statement] by function 0x11. *)
Definition decoded (r : res ttc_error OALL8Result) : option string :=
  match r with Ok result => Some (oa_SQL result) | _ => None end.

Definition checked_statement (pkt : TNSPacket) : option string :=
  if is_ttc pkt then
    match ttc_message pkt with
    | Some (f, p) =>
        if f =? TTCFuncPiggyback then if IsPiggybackExecSQL p then decoded (decodePiggybackExecSQL p) else None
        else if f =? TTCFuncOALL8 then decoded (decodeOALL8 p) else None
    | None => None
    end
  else None.

Definition exec_statement (pkt : TNSPacket) : option string :=
  if is_ttc pkt then
    match ttc_message pkt with
    | Some (f, p) => if (f =? TTCFuncOFETCH) && IsExecSQL p then decoded (decodeExecSQL p) else None
    | None => None
    end
  else None.

Definition statement (pkt : TNSPacket) : option string :=
  match checked_statement pkt with Some text => Some text | None => exec_statement pkt end.

Definition tracker_ok (s : OraSession) : Prop :=
  (forall p, os_pending s = Some p -> is_Some (os_heap s !! oq_cursor p))
  /\ map_Forall (fun _ c => is_Some (os_heap s !! c)) (os_cursors s).

(** Everything but the tracker and the store. *)
Definition outside (s : OraSession) :=
  (os_grant s, os_connectionUID s, os_guard s, os_snapshot s, os_started s, os_up s, os_down s, os_over s).

Record quiet (s s' : OraSession) : Prop := {
  qu_outside : outside s' = outside s;
  qu_tracker : tracker_ok s -> tracker_ok s';
  qu_pending : is_Some (os_pending s) -> is_Some (os_pending s')
}.

#[global] Instance quiet_preorder : PreOrder quiet.
Proof. split; [by intros s; split|intros s1 s2 s3 [] []; split; [congruence|tauto..]]. Qed.

Record completes (s s' : OraSession) : Prop := {
  co_pending : is_Some (os_pending s) /\ os_pending s' = None;
  co_tracker : tracker_ok s -> tracker_ok s';
  co_job : exists j, os_started s' = (os_started s ++ [j])%list /\ os_snapshot s' = os_snapshot s + job_bytes j
    /\ os_grant s' = option_map (fun g => with_counters g (g_QueryCount g + 1) (g_BytesTransferred g + job_bytes j)) (os_grant s);
  co_rest : (os_up s', os_down s', os_over s', os_guard s', os_connectionUID s')
            = (os_up s, os_down s, os_over s, os_guard s, os_connectionUID s)
}.

Lemma completeQuery_effect e s rows err :
  completeQuery e s rows err = s /\ (tracker_ok s -> os_pending s = None) \/ completes s (completeQuery e s rows err).
Proof.
  unfold completeQuery. destruct (os_pending s) as [p|] eqn:Hp; [|by left].
  destruct (os_heap s !! oq_cursor p) as [c|] eqn:Hc.
  - right. split; cbn; [by rewrite Hp|intros [_ Hm]; by split| |done].
    eexists. split; [done|].
    assert (forall (b : bool) a1 a2 a3 a4 n q, job_bytes (if b then Finalize a1 a2 a3 a4 n else LogLate q n) = n) as -> by (by intros []).
    split; [lia|done].
  - left. split; [done|]. intros [Hv _]. destruct (Hv p Hp) as [c Hc']. congruence.
Qed.

Lemma flush_pending e s : tracker_ok s -> os_pending (flushPendingQuery e s) = None /\ tracker_ok (flushPendingQuery e s).
Proof.
  intros Hok. unfold flushPendingQuery. destruct (completeQuery_effect e s None None) as [[-> Hn]|[[_ Hn] Ht _ _]]; auto.
Qed.

Section Effects.
Context {GT : GoText}.
Variable sql : nat -> nat -> bool.
Variable fresh : nat -> uuid.
Variable qs : QueryStorageConfig.

(** Changing the pending query without moving its cursor. *)
Lemma quiet_update s p bytes rows cut uid persisted lastr d :
  os_pending s = Some p ->
  quiet s (set_pending s (Some (update_query p bytes rows cut uid persisted lastr)))
  /\ quiet s (set_pending (set_store s d) (Some (update_query p bytes rows cut uid persisted lastr))).
Proof.
  intros Hp. split; split; try done; intros [Hv Hm]; split; try done; intros p' [= <-]; exact (Hv p Hp).
Qed.

Lemma quiet_store s d : quiet s (set_store s d).
Proof. by split. Qed.

Lemma persist_quiet e s : quiet s (persistQueryRecord sql fresh e s).
Proof.
  unfold persistQueryRecord. destruct (os_pending s) as [p|] eqn:Hp; [|done].
  destruct (oq_queryPersisted p); [done|]. destruct (os_heap s !! _); [|done].
  destruct CreateQuery as [d r]. by apply quiet_update.
Qed.

Lemma stream_row_quiet s p cols vals : os_pending s = Some p -> quiet s (stream_row sql fresh qs s p cols vals).
Proof.
  intros Hp. unfold stream_row. destruct (_ || _); [by apply quiet_update; [exact (os_db s)|]|].
  destruct (marshal_row _); [|done]. by apply quiet_update.
Qed.

Lemma captureRow_quiet e s cols vals : quiet s (captureRow sql fresh qs e s cols vals).
Proof.
  unfold captureRow. destruct (os_pending s) as [p0|] eqn:Hp; [|done].
  destruct (_ || _); [done|]. transitivity (persistQueryRecord sql fresh e s); [apply persist_quiet|].
  generalize (persistQueryRecord sql fresh e s). intros s1. destruct (os_pending s1) eqn:Hp1; [|done].
  destruct (N.eqb _ _); [done|]. by apply stream_row_quiet.
Qed.

Lemma set_lastRow_quiet s row : quiet s (set_lastRow s row).
Proof. unfold set_lastRow. destruct (os_pending s) eqn:Hp; [|done]. apply quiet_update; [exact (os_db s)|done]. Qed.

Lemma set_columns_quiet s cols : quiet s (set_columns s cols).
Proof.
  unfold set_columns. destruct (os_pending s) as [p|] eqn:Hp; [|done]. split; [done| |by cbn; rewrite Hp].
  intros [Hv Hm]. split; cbn.
  - intros p' Hp'. apply lookup_lt_is_Some. rewrite length_alter. apply lookup_lt_is_Some. by apply Hv.
  - intros k c Hc. apply lookup_lt_is_Some. rewrite length_alter. apply lookup_lt_is_Some. exact (Hm k c Hc).
Qed.

Lemma rows_quiet {A} (f : OraSession -> A -> OraSession) rows : (forall s r, quiet s (f s r)) ->
  forall s, quiet s (fold_left f rows s).
Proof. intros Hf. induction rows as [|r rows IH]; intros s; [done|]. cbn. by transitivity (f s r). Qed.

Lemma new_cursor_quiet e s id text binds s' c : new_cursor e s id text binds = (s', c) ->
  quiet s s' /\ (c < length (os_heap s'))%nat.
Proof.
  intros [= <- <-]. split; [split; [done| |done]|cbn; rewrite length_app; cbn; lia].
  intros [Hv Hm]. split; cbn.
  - intros p Hp. destruct (Hv p Hp) as [x Hx]. exists x. by apply lookup_app_l_Some.
  - intros k c Hc. destruct (Hm k c Hc) as [x Hx]. exists x. by apply lookup_app_l_Some.
Qed.

Lemma insert_cursor_quiet s k c : (c < length (os_heap s))%nat -> quiet s (set_cursors s (<[k := c]> (os_cursors s))).
Proof.
  intros Hc. split; [done| |done]. intros [Hv Hm]. split; [done|].
  apply map_Forall_insert_2; [by apply lookup_lt_is_Some|done].
Qed.

Lemma start_quiet e s c : (c < length (os_heap s))%nat -> quiet s (start_query e s c) /\ is_Some (os_pending (start_query e s c)).
Proof.
  intros Hc. split; [|done]. split; [done| |done]. intros [Hv Hm]. split; [|done].
  intros p [= <-]. cbn. by apply lookup_lt_is_Some.
Qed.

(** A statement is taken up: its cursor is on the heap, its query starts and is recorded. *)
Lemma take_up e s c : (c < length (os_heap s))%nat ->
  quiet s (persistQueryRecord sql fresh e (start_query e s c))
  /\ is_Some (os_pending (persistQueryRecord sql fresh e (start_query e s c))).
Proof.
  intros Hc. destruct (start_quiet e s c Hc) as [H1 H2]. pose proof (persist_quiet e (start_query e s c)) as H3.
  split; [by etransitivity|by apply H3].
Qed.

Lemma close_quiet s k : quiet s (handleOCLOSE s k).
Proof. split; [done| |done]. intros [Hv Hm]. split; [done|]. by apply map_Forall_delete. Qed.

(** A fetch starts a query on a cursor of the map. *)
Lemma fetch_quiet e s p : tracker_ok s -> quiet s (handleOFETCH e s p).
Proof.
  intros [Hv Hm]. unfold handleOFETCH. destruct (decodeOFETCH p) as [[k n]| |]; try done.
  destruct (os_cursors s !! k) as [c|] eqn:Hk; [|done]. destruct (os_pending s) eqn:Hp; [done|].
  apply start_quiet. apply lookup_lt_is_Some. exact (Hm k c Hk).
Qed.

(** ** Packets of the client *)

(** What [interceptClientMessage] can do with a packet. *)
Inductive client_effect (e : Live) (s : OraSession) (pkt : TNSPacket) : OraSession * option ora_error -> Prop :=
| effect_blocked err : client_effect e s pkt (s, Some err)
| effect_other s' : quiet s s' -> statement pkt = None -> client_effect e s pkt (s', None)
| effect_statement text s' :
    statement pkt = Some text -> checkQuotas e s = None ->
    (checked_statement pkt = Some text -> blocked s text = None) ->
    quiet (flushPendingQuery e s) s' -> is_Some (os_pending s') ->
    client_effect e s pkt (s', None).

Lemma statement_other pkt f p : is_ttc pkt = true -> ttc_message pkt = Some (f, p) ->
  (f =? TTCFuncPiggyback) && IsPiggybackExecSQL p = false -> (f =? TTCFuncOALL8) = false ->
  (f =? TTCFuncOFETCH) && IsExecSQL p = false -> statement pkt = None.
Proof.
  intros Ht Hm Hp Ho Hf. unfold statement, checked_statement, exec_statement. rewrite Ht, Hm, Ho, Hf.
  destruct (f =? TTCFuncPiggyback); [|done]. cbn in Hp. by rewrite Hp.
Qed.

Lemma handleOALL8_effect e s pkt p : is_ttc pkt = true -> ttc_message pkt = Some (TTCFuncOALL8, p) ->
  checkQuotas e s = None -> client_effect e s pkt (handleOALL8 sql fresh e s p).
Proof.
  intros Ht Hm Hq. unfold handleOALL8.
  assert (statement pkt = decoded (decodeOALL8 p)) as Hs.
  { unfold statement, checked_statement, exec_statement. rewrite Ht, Hm. cbn. by destruct (decoded _). }
  destruct (decodeOALL8 p) as [r| |]; [|by apply effect_other..].
  destruct (blocked s (oa_SQL r)) eqn:Hb; [apply effect_blocked|].
  destruct (new_cursor e (flushPendingQuery e s) (oa_CursorID r) (oa_SQL r) (oa_BindValues r)) as [s1 c] eqn:Hn.
  apply new_cursor_quiet in Hn as [H1 Hc]. pose proof (insert_cursor_quiet s1 (oa_CursorID r) c Hc) as H2.
  destruct (take_up e (set_cursors s1 (<[oa_CursorID r := c]> (os_cursors s1))) c Hc) as [H3 H4].
  apply (effect_statement _ _ _ (oa_SQL r)); auto. etransitivity; [exact H1|]. by etransitivity.
Qed.

Lemma handlePiggybackExec_effect e s pkt p : is_ttc pkt = true -> ttc_message pkt = Some (TTCFuncPiggyback, p) ->
  IsPiggybackExecSQL p = true -> checkQuotas e s = None -> client_effect e s pkt (handlePiggybackExec sql fresh e s p).
Proof.
  intros Ht Hm Hp Hq. unfold handlePiggybackExec.
  assert (statement pkt = decoded (decodePiggybackExecSQL p)) as Hs.
  { unfold statement, checked_statement, exec_statement. rewrite Ht, Hm. cbn -[IsPiggybackExecSQL]. rewrite Hp. by destruct (decoded _). }
  destruct (decodePiggybackExecSQL p) as [r| |]; [|by apply effect_other..].
  destruct (blocked s (oa_SQL r)) eqn:Hb; [apply effect_blocked|].
  destruct (new_cursor e (flushPendingQuery e s) 0 (oa_SQL r) (oa_BindValues r)) as [s1 c] eqn:Hn.
  apply new_cursor_quiet in Hn as [H1 Hc]. destruct (take_up e s1 c Hc) as [H3 H4].
  apply (effect_statement _ _ _ (oa_SQL r)); auto. by etransitivity.
Qed.

Lemma handleJDBCExec_effect e s pkt p : is_ttc pkt = true -> ttc_message pkt = Some (TTCFuncOFETCH, p) ->
  IsExecSQL p = true -> checkQuotas e s = None -> client_effect e s pkt (handleJDBCExec sql fresh e s p, None).
Proof.
  intros Ht Hm Hp Hq. unfold handleJDBCExec.
  assert (checked_statement pkt = None /\ statement pkt = decoded (decodeExecSQL p)) as [Hk Hs].
  { unfold statement, checked_statement, exec_statement. rewrite Ht, Hm. cbn -[IsExecSQL]. by rewrite Hp. }
  destruct (decodeExecSQL p) as [r| |]; [|by apply effect_other..].
  destruct (new_cursor e (flushPendingQuery e s) 0 (oa_SQL r) []) as [s1 c] eqn:Hn.
  apply new_cursor_quiet in Hn as [H1 Hc]. destruct (take_up e s1 c Hc) as [H3 H4].
  apply (effect_statement _ _ _ (oa_SQL r)); auto; [by rewrite Hk|by etransitivity].
Qed.

Lemma interceptClientMessage_effect e s pkt : tracker_ok s -> is_ttc pkt = true ->
  client_effect e s pkt (interceptClientMessage sql fresh e s pkt).
Proof.
  intros Hok Ht. unfold interceptClientMessage. destruct (ttc_message pkt) as [[f p]|] eqn:Hm.
  2:{ apply effect_other; [done|]. unfold statement, checked_statement, exec_statement. by rewrite Ht, Hm. }
  pose proof (statement_other pkt f p Ht Hm) as Hother.
  destruct (Z.eqb_spec f TTCFuncPiggyback) as [->|Hf].
  { destruct (IsPiggybackExecSQL p) eqn:Hp.
    - destruct (checkQuotas e s) eqn:Hq; [apply effect_blocked|]. by apply handlePiggybackExec_effect.
    - assert (statement pkt = None) by (by apply Hother).
      destruct (IsPiggybackClose p); apply effect_other; try done.
      destruct p as [|? [|? [|c ?]]]; try done; apply close_quiet. }
  destruct (Z.eqb_spec f TTCFuncOALL8) as [->|Hf2].
  { destruct (checkQuotas e s) eqn:Hq; [apply effect_blocked|]. by apply handleOALL8_effect. }
  destruct (Z.eqb_spec f TTCFuncOFETCH) as [->|Hf3].
  { destruct (IsExecSQL p) eqn:Hp.
    - destruct (checkQuotas e s) eqn:Hq; [apply effect_blocked|]. by apply handleJDBCExec_effect.
    - apply effect_other; [by apply fetch_quiet|]. by apply Hother. }
  assert (statement pkt = None).
  { apply Z.eqb_neq in Hf, Hf2, Hf3. apply Hother; by rewrite ?Hf, ?Hf3. }
  destruct (_ || _); apply effect_other; try done.
  destruct (decodeCursorIDFromOCLOSE p); try done; apply close_quiet.
Qed.

(** ** Packets of the server *)

(** At most one completion, after the rows. *)
Definition server_effect (s s' : OraSession) : Prop := exists s1, quiet s s1 /\ (s' = s1 \/ completes s1 s').

Lemma effect_quiet s s' : quiet s s' -> server_effect s s'.
Proof. intros. exists s'. auto. Qed.

Lemma effect_complete e s s1 rows err : quiet s s1 -> server_effect s (completeQuery e s1 rows err).
Proof. intros Hq. exists s1. split; [done|]. destruct (completeQuery_effect e s1 rows err) as [[-> _]|H]; auto. Qed.

Lemma handleQueryResultV2_effect e s p : server_effect s (handleQueryResultV2 sql fresh qs e s p).
Proof.
  unfold handleQueryResultV2. destruct (decodeQueryResultV2 p) as [[r|]| |]; try by apply effect_quiet.
  set (s1 := match pending_columns s with Some _ => _ | None => s end).
  assert (quiet s s1) as H1.
  { unfold s1. destruct (pending_columns s), (qv_Columns r); auto using set_columns_quiet; done. }
  set (s2 := match pending_columns s1 with Some columns => _ | None => s1 end).
  assert (quiet s s2) as H2.
  { unfold s2. destruct (pending_columns s1) as [cols|]; [|done]. transitivity s1; [done|].
    assert (quiet s1 (fold_left (fun s row => captureRow sql fresh qs e s cols row) (qv_Rows r) s1)) as H3
      by (apply rows_quiet; intros; apply captureRow_quiet).
    destruct (last (qv_Rows r)); [|done]. etransitivity; [exact H3|apply set_lastRow_quiet]. }
  destruct (qv_NoData r); [by apply effect_complete|by apply effect_quiet].
Qed.

Lemma handleContinuation_effect e s p : server_effect s (handleContinuation sql fresh qs e s p).
Proof.
  unfold handleContinuation. destruct (pending_columns s) as [cols|]; [|by apply effect_quiet].
  destruct (if Nat.eqb _ 0 then _ else _) as [rows| |]; try by apply effect_quiet.
  assert (quiet s (fold_left (fun s row => set_lastRow (captureRow sql fresh qs e s cols row) row) rows s)) as H.
  { apply rows_quiet. intros s1 r. etransitivity; [apply captureRow_quiet|apply set_lastRow_quiet]. }
  destruct (0 <=? _); [by apply effect_complete|by apply effect_quiet].
Qed.

Lemma oer_effect e s info : server_effect s (completeQueryFromOER e s info).
Proof. unfold completeQueryFromOER. repeat case_match; by apply effect_complete. Qed.

Lemma interceptUpstreamMessage_effect e s pkt : server_effect s (interceptUpstreamMessage sql fresh qs e s pkt).
Proof.
  unfold interceptUpstreamMessage. destruct (ttc_message pkt) as [[f p]|]; [|by apply effect_quiet].
  destruct (f =? TTCFuncQueryResult); [apply handleQueryResultV2_effect|].
  destruct (f =? TTCFuncResponse).
  { unfold handleResponse. destruct (findOERInResponse p); [apply oer_effect|].
    destruct (decodeTTCResponse p) as [r| |]; try by apply effect_quiet.
    set (s1 := match pending_columns s with Some _ => _ | None => s end).
    assert (quiet s s1) as H1.
    { unfold s1. destruct (pending_columns s), (tr_Columns r); auto using set_columns_quiet; done. }
    destruct (tr_IsError r); [by apply effect_complete|].
    destruct (negb _); [by apply effect_complete|by apply effect_quiet]. }
  destruct (f =? TTCFuncOERR); [unfold handleOERStatus; destruct decodeOERAt; [apply oer_effect|by apply effect_quiet]|].
  destruct (f =? TTCFuncContinuation); [apply handleContinuation_effect|by apply effect_quiet].
Qed.

(** ** The session invariant *)

Definition statements (l : list TNSPacket) : list string := omap statement l.
Definition started_bytes (l : list job) : Z := foldr (fun j n => job_bytes j + n) 0 l.
Definition in_flight (s : OraSession) : Z := match os_pending s with Some _ => 1 | None => 0 end.

Definition admitted (g0 : AccessGrant) (pkt : TNSPacket) : Prop :=
  forall text, checked_statement pkt = Some text -> ValidateOracleQuery text g0 = None.

(** Of a session that began with grant [g0] and nothing sent. *)
Record ora_ok (g0 : AccessGrant) (s : OraSession) : Prop := {
  ok_tracker : tracker_ok s;
  ok_grant : os_grant s = Some (with_counters g0 (g_QueryCount g0 + zlen (os_started s)) (g_BytesTransferred g0 + os_snapshot s));
  ok_snapshot : os_snapshot s = started_bytes (os_started s);
  ok_admitted : Forall (admitted g0) (os_up s);
  ok_count : zlen (statements (os_up s)) <= zlen (os_started s) + in_flight s;
  ok_quota : forall m, g_MaxQueryCounts g0 = Some m -> statements (os_up s) <> [] ->
    zlen (statements (os_up s)) <= m - g_QueryCount g0 + 1
}.

Lemma started_bytes_snoc l j : started_bytes (l ++ [j]) = started_bytes l + job_bytes j.
Proof. unfold started_bytes. induction l as [|x l IH]; cbn in *; lia. Qed.

Lemma in_flight_some s : is_Some (os_pending s) -> in_flight s = 1.
Proof. unfold in_flight. by intros [p ->]. Qed.

Lemma in_flight_bounds s : 0 <= in_flight s <= 1.
Proof. unfold in_flight. destruct (os_pending s); lia. Qed.

Lemma quiet_ok g0 s s' : quiet s s' -> ora_ok g0 s -> ora_ok g0 s'.
Proof.
  intros [Ho Ht Hp] [H1 H2 H3 H4 H5 H6]. unfold outside in Ho.
  injection Ho as Hg _ _ Hs Hst Hu _ _. split; rewrite ?Hg, ?Hs, ?Hst, ?Hu; auto.
  pose proof (in_flight_bounds s'). destruct (os_pending s) as [p|] eqn:Hps.
  - rewrite in_flight_some by auto. rewrite in_flight_some in H5 by (by rewrite Hps). lia.
  - unfold in_flight in H5. rewrite Hps in H5. lia.
Qed.

Lemma completes_ok g0 s s' : completes s s' -> ora_ok g0 s -> ora_ok g0 s' /\ zlen (os_started s') = zlen (os_started s) + 1.
Proof.
  intros [[Hp Hp'] Ht (j & Hst & Hs & Hg) Hr] [H1 H2 H3 H4 H5 H6]. injection Hr as Hu _ _ _ _.
  assert (zlen (os_started s') = zlen (os_started s) + 1) as Hl by (rewrite Hst; unfold zlen; rewrite length_app; cbn; lia).
  split; [|done]. split; rewrite ?Hu; auto.
  - rewrite Hg, H2, Hl, Hs. cbn. unfold with_counters. cbn. do 2 f_equal; lia.
  - rewrite Hst, started_bytes_snoc. lia.
  - rewrite in_flight_some in H5 by done. pose proof (in_flight_bounds s'). lia.
Qed.

Lemma server_ok g0 s s' : server_effect s s' -> ora_ok g0 s -> ora_ok g0 s'.
Proof.
  intros (s1 & Hq & [->|Hc]) Hok; [by eapply quiet_ok|].
  by eapply completes_ok, quiet_ok.
Qed.

(** Only what is written changes. *)
Lemma io_ok g0 s up down over : ora_ok g0 s -> up = os_up s -> ora_ok g0 (set_io s up down over).
Proof. intros [] ->. by split. Qed.

Lemma checkQuotas_None e s g : checkQuotas e s = None -> os_grant s = Some g ->
  forall m, g_MaxQueryCounts g = Some m -> g_QueryCount g < m.
Proof. unfold checkQuotas. destruct (l_revoked e); [done|]. intros Hq Hg m Hm. rewrite Hg, Hm in Hq.
  destruct (_ && _); [done|]. destruct (m <=? g_QueryCount g) eqn:Hle; [done|]. lia. Qed.

(** A packet with no statement is relayed. *)
Lemma send_other_ok g0 ok s pkt : ora_ok g0 s -> statement pkt = None -> ora_ok g0 (send_up ok s pkt).
Proof.
  intros Hok Hs. unfold send_up. destruct ok; [|by apply io_ok]. destruct Hok as [H1 H2 H3 H4 H5 H6].
  assert (statements (os_up s ++ [pkt]) = statements (os_up s)) as Hst
    by (unfold statements; rewrite omap_app; cbn; rewrite Hs; apply app_nil_r).
  split; [exact H1|exact H2|exact H3| |cbn [os_up set_io]; rewrite Hst; exact H5|cbn [os_up set_io]; rewrite Hst; exact H6].
  apply Forall_app. split; [done|]. constructor; [|done].
  intros text Ht. unfold statement in Hs. by rewrite Ht in Hs.
Qed.

Lemma blocked_None g0 n b s text : os_grant s = Some (with_counters g0 n b) -> blocked s text = None ->
  ValidateOracleQuery text g0 = None.
Proof. unfold blocked. intros ->. change (ValidateOracleQuery text (with_counters g0 n b)) with (ValidateOracleQuery text g0). by destruct ValidateOracleQuery. Qed.

Lemma send_statement_ok g0 e ok s s' pkt text :
  ora_ok g0 s -> statement pkt = Some text -> checkQuotas e s = None ->
  (checked_statement pkt = Some text -> blocked s text = None) ->
  quiet (flushPendingQuery e s) s' -> is_Some (os_pending s') -> ora_ok g0 (send_up ok s' pkt).
Proof.
  intros Hok Hst Hq Hb Hqu Hp.
  destruct (flush_pending e s (ok_tracker _ _ Hok)) as [Hnone _].
  assert (ora_ok g0 (flushPendingQuery e s) /\ zlen (os_started (flushPendingQuery e s)) <= zlen (os_started s) + 1) as [Hok1 Hl].
  { unfold flushPendingQuery. destruct (completeQuery_effect e s None None) as [[-> _]|Hc]; [split; [done|lia]|].
    destruct (completes_ok g0 _ _ Hc Hok). split; [done|lia]. }
  pose proof (quiet_ok _ _ _ Hqu Hok1) as Hok2. unfold send_up. destruct ok; [|by apply io_ok].
  pose proof (ok_grant _ _ Hok) as Hg. pose proof (checkQuotas_None e s _ Hq Hg) as Hm. cbn in Hm.
  destruct Hqu as [Ho _ _]. unfold outside in Ho. injection Ho as _ _ _ _ Hst' Hu _ _.
  pose proof (ok_count _ _ Hok1) as Hc. unfold in_flight in Hc. rewrite Hnone in Hc. rewrite <- Hu in Hc.
  destruct Hok2 as [H1 H2 H3 H4 H5 H6].
  assert (zlen (statements (os_up s' ++ [pkt])) = zlen (statements (os_up s')) + 1) as Hlen.
  { unfold statements. rewrite omap_app. cbn. rewrite Hst. unfold zlen. rewrite length_app. cbn. lia. }
  split; [exact H1|exact H2|exact H3|cbn [os_up os_started set_io]..].
  - apply Forall_app. split; [done|]. constructor; [|done]. intros text' Ht.
    assert (text' = text) as -> by (unfold statement in Hst; rewrite Ht in Hst; congruence).
    eapply blocked_None; [exact Hg|auto].
  - change (in_flight (set_io _ _ _ _)) with (in_flight s'). rewrite in_flight_some by done. rewrite Hst'. lia.
  - intros m Hm' _. specialize (Hm m Hm'). lia.
Qed.

Lemma ora_step_ok g0 s s' : ora_step sql fresh qs s s' -> ora_ok g0 s -> ora_ok g0 s'.
Proof.
  intros [e ok pkt s1 _|e e1 e2 ok ok' pkt s1 _|s1 before j after now Hj|s1] Hok.
  - unfold clientToUpstream. destruct (is_ttc pkt) eqn:Ht.
    2:{ apply send_other_ok; [done|]. unfold statement, checked_statement, exec_statement. by rewrite Ht. }
    pose proof (interceptClientMessage_effect e s1 pkt (ok_tracker _ _ Hok) Ht) as [err|s2 Hq Hs|text s2 Hs Hq Hb Hqu Hp].
    + unfold sendOracleError, writeTTCError, send_frame. destruct ok; [by apply io_ok|done].
    + apply send_other_ok; [by eapply quiet_ok|done].
    + by eapply send_statement_ok.
  - unfold upstreamToClient.
    set (s2 := if is_ttc pkt then _ else s1). assert (ora_ok g0 s2) as H2.
    { unfold s2. destruct (is_ttc pkt); [|done]. eapply server_ok; [apply interceptUpstreamMessage_effect|done]. }
    assert (ora_ok g0 (send_down ok s2 pkt)) as H3 by (unfold send_down; destruct ok; by apply io_ok).
    destruct ok; [|done]. unfold enforce_limits. destruct (os_pending _); [|done]. destruct (Check _ _); [|done].
    apply io_ok; [|done]. eapply server_ok; [apply effect_complete; reflexivity|].
    unfold writeTTCError, send_frame. destruct ok'; [by apply io_ok|done].
  - by destruct Hok.
  - by apply io_ok.
Qed.

Lemma ora_steps_ok g0 s s' : rtc (ora_step sql fresh qs) s s' -> ora_ok g0 s -> ora_ok g0 s'.
Proof. induction 1; eauto using ora_step_ok. Qed.

Lemma ora_start w g conn d : ora_ok g (proxyMessages w (Some g) conn d).2.
Proof.
  unfold proxyMessages. destruct (Register w (g_UID g)) as [w' h]. split; cbn; try done.
  - by rewrite !Z.add_0_r, with_counters_same.
Qed.

End Effects.

(** * Properties *)

(** ** What reaches the server *)

Section Properties.
Context {GT : GoText}.
Variable sql : nat -> nat -> bool.
Variable fresh : nat -> uuid.
Variable qs : QueryStorageConfig.

(** C6. However the packets of the client, the packets of the server, the
    goroutines and the clock interleave: when an Oracle session has forwarded to its
    server a packet from which [checked_statement] reads a statement, that is, an
    OALL8 or a piggyback execute that the proxy's own decoders accept, the statement
    passed the controls of the grant the session began with.  Nothing is said of the
    other packets: those that do not decode are passed on unchecked, and so are
    statements sent by function 0x11 ([oracle_exec_unchecked]). *)
Theorem oracle_only_admitted_forwarded w g conn d s pkt text :
  rtc (ora_step sql fresh qs) (proxyMessages w (Some g) conn d).2 s ->
  pkt ∈ os_up s -> checked_statement pkt = Some text -> ValidateOracleQuery text g = None.
Proof.
  intros Hr Hin Ht. pose proof (ok_admitted _ _ (ora_steps_ok _ _ _ g _ _ Hr (ora_start w g conn d))) as Ha.
  rewrite Forall_forall in Ha. by apply (Ha pkt Hin).
Qed.

(** A statement that the grant's controls refuse is forwarded all the same,
    and started as the session's query, when it comes as function 0x11 with an
    execute sub-operation: that handler never asks the controls. *)
Theorem oracle_exec_unchecked e s g pkt text err :
  tracker_ok s -> checkQuotas e s = None -> os_grant s = Some g ->
  exec_statement pkt = Some text -> ValidateOracleQuery text g = Some err ->
  os_up (clientToUpstream sql fresh e true s pkt) = (os_up s ++ [pkt])%list
  /\ os_down (clientToUpstream sql fresh e true s pkt) = os_down s
  /\ is_Some (os_pending (clientToUpstream sql fresh e true s pkt)).
Proof.
  intros Hok Hq Hg Hx Hv. unfold exec_statement in Hx. destruct (is_ttc pkt) eqn:Ht; [|done].
  destruct (ttc_message pkt) as [[f p]|] eqn:Hm; [|done].
  destruct (f =? TTCFuncOFETCH) eqn:Hf; [|done]. apply Z.eqb_eq in Hf as ->. destruct (IsExecSQL p) eqn:Hp; [|done].
  cbn in Hx. unfold clientToUpstream, interceptClientMessage. rewrite Ht, Hm. cbn -[IsExecSQL]. rewrite Hp, Hq.
  unfold handleJDBCExec. destruct (decodeExecSQL p) as [r| |]; try done.
  destruct (new_cursor e (flushPendingQuery e s) 0 (oa_SQL r) []) as [s1 c] eqn:Hn.
  apply new_cursor_quiet in Hn as [H1 Hc]. destruct (take_up sql fresh e s1 c Hc) as [H2 H3].
  destruct (quiet_preorder.(@PreOrder_Transitive _ _) _ _ _ H1 H2) as [Ho _ _]. unfold outside in Ho.
  injection Ho as _ _ _ _ _ Hu Hd _. cbn -[persistQueryRecord start_query]. rewrite Hu, Hd.
  assert (os_up (flushPendingQuery e s) = os_up s /\ os_down (flushPendingQuery e s) = os_down s) as [-> ->].
  { unfold flushPendingQuery. destruct (completeQuery_effect e s None None) as [[-> _]|[_ _ _ Hr]]; [done|].
    by injection Hr as -> -> _ _ _. }
  done.
Qed.

(** ** The books *)

(** At any moment of an Oracle session, the grant in memory counts exactly
    the queries handed to the store's goroutines and the bytes of the last
    snapshot, and those goroutines together carry exactly the bytes counted: no
    byte is attributed twice and none is lost between two queries. *)
Theorem oracle_accounts_balance w g conn d s :
  rtc (ora_step sql fresh qs) (proxyMessages w (Some g) conn d).2 s ->
  os_grant s = Some (with_counters g (g_QueryCount g + zlen (os_started s)) (g_BytesTransferred g + started_bytes (os_started s))).
Proof.
  intros Hr. pose proof (ora_steps_ok _ _ _ g _ _ Hr (ora_start w g conn d)) as Hok.
  rewrite (ok_grant _ _ Hok). by rewrite (ok_snapshot _ _ Hok).
Qed.

(** The query quota lets at most one statement more than it allows through:
    it is checked before the statement still in flight is counted. *)
Theorem oracle_quota_bound w g conn d s m :
  rtc (ora_step sql fresh qs) (proxyMessages w (Some g) conn d).2 s ->
  g_MaxQueryCounts g = Some m -> g_QueryCount g <= m ->
  zlen (statements (os_up s)) <= m - g_QueryCount g + 1.
Proof.
  intros Hr Hm Hle. pose proof (ora_steps_ok _ _ _ g _ _ Hr (ora_start w g conn d)) as Hok.
  destruct (statements (os_up s)) eqn:Hs; [unfold zlen; simpl length; lia|]. rewrite <- Hs.
  apply (ok_quota _ _ Hok); [done|by rewrite Hs].
Qed.

(** ** What is recorded *)

(** The rows affected and the error of an end-of-call message. *)
Definition oer_outcome (info : oerInfo) : option Z * option string :=
  if oe_ErrorCode info =? oraNoDataFound then (None, None)
  else if oe_ErrorCode info =? 0 then (Some (oe_CurRowNumber info), None)
  else (None, Some (if String.eqb (oe_ErrorMessage info) "" then ora_code (oe_ErrorCode info) else oe_ErrorMessage info)).

Lemma completeQueryFromOER_outcome e s info :
  completeQueryFromOER e s info = completeQuery e s (oer_outcome info).1 (oer_outcome info).2.
Proof. unfold completeQueryFromOER, oer_outcome. by repeat case_match. Qed.

(** A statement sent as OALL8 with nothing in flight: what the session and the
    store hold when the store answers. *)
Lemma oall8_taken_up e s pkt p r c : tracker_ok s -> os_pending s = None -> (forall i j, sql i j = true) ->
  is_ttc pkt = true -> ttc_message pkt = Some (TTCFuncOALL8, p) -> decodeOALL8 p = Ok r ->
  checkQuotas e s = None -> blocked s (oa_SQL r) = None ->
  connections (qd_db (os_db s)) !! os_connectionUID s = Some c ->
  queries (qd_db (os_db s)) !! fresh (os_calls s) = None ->
  exists cursor heap m,
    let query := completed (ora_query s cursor (l_now e) None None None) None None None in
    let query := {| q_UID := fresh (os_calls s); q_ConnectionID := q_ConnectionID query; q_SQLText := q_SQLText query;
                    q_Parameters := q_Parameters query; q_ExecutedAt := l_now e; q_DurationMs := None;
                    q_RowsAffected := None; q_Error := None; q_CopyFormat := None; q_CopyDirection := None |} in
    let d := {| qd_db := set_queries (qd_db (os_db s)) (<[fresh (os_calls s) := query]> (queries (qd_db (os_db s))));
                query_rows := query_rows (os_db s) |} in
    let pending := {| oq_cursor := length (os_heap s); oq_startTime := l_now e; oq_capturedBytes := 0; oq_rowNumber := 0;
                      oq_truncated := false; oq_queryUID := fresh (os_calls s); oq_queryPersisted := true; oq_lastRow := [] |} in
    tc_sql cursor = oa_SQL r /\ tc_bindValues cursor = oa_BindValues r /\ heap !! length (os_heap s) = Some cursor
    /\ clientToUpstream sql fresh e true s pkt = send_up true (set_tracker (set_store s d) heap m (Some pending)) pkt.
Proof.
  intros Hok Hp Hsql Ht Hm Hd Hq Hb Hc Hf.
  exists {| tc_cursorID := oa_CursorID r; tc_sql := oa_SQL r; tc_bindValues := oa_BindValues r; tc_parsedAt := l_now e; tc_columns := [] |}.
  do 2 eexists. cbv zeta. split_and!; [done..|by apply list_lookup_middle|].
  unfold clientToUpstream, interceptClientMessage. rewrite Ht, Hm. cbn -[handleOALL8 send_up]. rewrite Hq.
  unfold handleOALL8. rewrite Hd, Hb. unfold flushPendingQuery, completeQuery. rewrite Hp.
  cbn -[persistQueryRecord start_query send_up]. unfold persistQueryRecord, start_query. cbn -[CreateQuery send_up lookup].
  rewrite list_lookup_middle by done. unfold CreateQuery. rewrite Hsql. cbn. rewrite Hf, Hc. cbn.
  by destruct (IsZero (l_now e)).
Qed.

(** When the store answers, a statement sent as OALL8 with nothing in flight
    and then ended by the server's end-of-call message becomes, once its
    goroutine has run, one row of the query log: the statement's text and binds,
    the instant it was forwarded, the time it took, the rows or the error of the
    message; and the connection's row has counted one query and the client bytes
    since the last one. *)
Theorem oracle_query_recorded e e1 e2 e3 now ok' s pkt p r c answer p' info :
  tracker_ok s -> os_pending s = None -> (forall i j, sql i j = true) ->
  is_ttc pkt = true -> ttc_message pkt = Some (TTCFuncOALL8, p) -> decodeOALL8 p = Ok r ->
  checkQuotas e s = None -> blocked s (oa_SQL r) = None ->
  connections (qd_db (os_db s)) !! os_connectionUID s = Some c ->
  queries (qd_db (os_db s)) !! fresh (os_calls s) = None -> fresh (os_calls s) <> Nil ->
  is_ttc answer = true -> ttc_message answer = Some (TTCFuncOERR, p') -> decodeOERAt p' = Some info ->
  let s1 := clientToUpstream sql fresh e true s pkt in
  let s2 := upstreamToClient sql fresh qs e1 e2 e3 true ok' s1 answer in
  exists j d,
    os_up s2 = (os_up s ++ [pkt])%list /\ os_down s2 = (os_down s ++ [answer])%list
    /\ os_jobs s2 = (os_jobs s ++ [j])%list /\ os_pending s2 = None /\ run_job sql fresh s2 j now = d
    /\ queries (qd_db d) !! fresh (os_calls s) = Some
         {| q_UID := fresh (os_calls s); q_ConnectionID := os_connectionUID s; q_SQLText := oa_SQL r;
            q_Parameters := formatOracleBinds (oa_BindValues r); q_ExecutedAt := l_now e;
            q_DurationMs := Some (elapsed e1 (l_now e)); q_RowsAffected := (oer_outcome info).1;
            q_Error := (oer_outcome info).2; q_CopyFormat := None; q_CopyDirection := None |}
    /\ connections (qd_db d) !! os_connectionUID s = Some (bump 1 (total_bytes e1 - os_snapshot s) now c).
Proof.
  intros Hok Hp Hsql Ht Hm Hd Hq Hb Hc Hf Hnil Ht' Hm' Hd'. cbv zeta.
  destruct (oall8_taken_up e s pkt p r c) as (cur & heap & m & Hcs & Hcb & Hcu & ->); [done..|].
  unfold upstreamToClient, interceptUpstreamMessage, handleOERStatus. rewrite Ht', Hm'. cbn -[send_up completeQueryFromOER].
  rewrite Hd', completeQueryFromOER_outcome. unfold completeQuery. cbn -[oer_outcome enforce_limits]. rewrite Hcu.
  cbn -[oer_outcome enforce_limits]. apply N.eqb_neq in Hnil. rewrite Hnil. cbn -[oer_outcome].
  do 2 eexists. split_and!; try done.
  - unfold run_job, finalizeQuery, UpdateQueryCompletion, IncrementConnectionStats, update_connection.
    cbn -[oer_outcome]. rewrite !Hsql. cbn -[oer_outcome]. rewrite lookup_alter_eq, lookup_insert_eq. cbn -[oer_outcome].
    unfold completed. cbn -[oer_outcome]. rewrite Hcs, Hcb. do 2 f_equal.
    + by destruct (oer_outcome info).1.
    + by destruct (oer_outcome info).2.
  - unfold run_job, finalizeQuery, UpdateQueryCompletion, IncrementConnectionStats, update_connection.
    cbn -[oer_outcome]. rewrite !Hsql. cbn -[oer_outcome]. by rewrite lookup_alter_eq, Hc.
Qed.
End Properties.

(** ** Error frames *)

Lemma error_payload_parts code message :
  drop 2 (error_payload code message) =
  ([8; 1] ++ be_put 4 (u32 code) ++ [0; 0] ++ [0; 0; 0; 0] ++ [0; 1]
   ++ be_put 2 (u16 (slen (ora_code code ++ ": " ++ message))) ++ str_bytes (ora_code code ++ ": " ++ message))%list.
Proof. done. Qed.

(** The error frame the proxy sends in place of a blocked statement's answer
    reads back, as a response, as that error: its code, and a message that is the
    code and the reason. *)
Theorem oracle_error_frame_roundtrip code message :
  0 < code < 2 ^ 16 -> slen (ora_code code ++ ": " ++ message) < 2 ^ 16 - 16 ->
  decodeTTCResponse (drop 2 (error_payload code message)) =
  Ok {| tr_ReturnCode := code; tr_RowCount := 0; tr_Columns := []; tr_Rows := []; tr_MoreData := false;
        tr_IsError := true; tr_ErrorCode := code; tr_ErrorMessage := ora_code code ++ ": " ++ message |}.
Proof.
  intros Hc Hl. rewrite error_payload_parts. assert (0 < slen (ora_code code ++ ": " ++ message)) as Ht.
  { unfold ora_code, slen. simpl String.length. lia. }
  revert Ht Hl. generalize (ora_code code ++ ": " ++ message). intros text Ht Hl.
  pose proof (Z.mod_small code (2 ^ 32) ltac:(lia)) as Hu32. unfold u32. rewrite Hu32.
  assert (0 <= slen text) by (unfold slen; lia).
  assert (u16 (slen text) = slen text) as -> by (apply Z.mod_small; lia).
  remember (be_put 4 code) as c4 eqn:E4. remember (be_put 2 (slen text)) as l2 eqn:E2.
  assert (zlen c4 = 4) as L4 by (subst; by rewrite zlen_be_put). assert (zlen l2 = 2) as L2 by (subst; by rewrite zlen_be_put).
  assert (be_get c4 = code) as B4
    by (subst; rewrite be_get_put; apply Z.mod_small; change (256 ^ Z.of_nat 4) with 4294967296; lia).
  assert (be_get l2 = slen text) as B2
    by (subst; rewrite be_get_put; apply Z.mod_small; change (256 ^ Z.of_nat 2) with 65536; lia).
  assert (zlen (str_bytes text) = slen text) as Lt by apply zlen_str_bytes.
  remember ([8; 1] ++ c4 ++ [0; 0] ++ [0; 0; 0; 0] ++ [0; 1] ++ l2 ++ str_bytes text)%list as pl eqn:Epl.
  assert (zlen pl = 16 + slen text) as Lpl by (subst pl; rewrite !zlen_app, L4, L2, Lt; unfold zlen; simpl length; lia).
  unfold decodeTTCResponse. rewrite (proj2 (Z.leb_le 14 (zlen pl))) by lia.
  assert (sl 2 6 pl = Ok (E := ttc_error) c4) as -> by (subst pl; by apply sl_mid). cbn [rbind].
  assert (sl 8 12 pl = Ok (E := ttc_error) [0; 0; 0; 0]) as ->.
  { replace pl with (([8; 1] ++ c4 ++ [0; 0]) ++ [0; 0; 0; 0] ++ ([0; 1] ++ l2 ++ str_bytes text))%list by (subst pl; by rewrite <- !app_assoc).
    apply sl_mid; rewrite ?zlen_app, ?L4; done. }
  cbn [rbind].
  assert (sl 12 14 pl = Ok (E := ttc_error) [0; 1]) as ->.
  { replace pl with (([8; 1] ++ c4 ++ [0; 0] ++ [0; 0; 0; 0]) ++ [0; 1] ++ (l2 ++ str_bytes text))%list by (subst pl; by rewrite <- !app_assoc).
    apply sl_mid; rewrite ?zlen_app, ?L4; done. }
  cbn [rbind]. rewrite B4, (proj2 (Z.eqb_neq code 0)) by lia. change (be_get [0; 1] =? 0) with false. cbn [negb andb].
  unfold response_message. rewrite (proj2 (Z.ltb_ge (zlen pl) 16)) by lia.
  assert (sl 14 16 pl = Ok (E := ttc_error) l2) as ->.
  { replace pl with (([8; 1] ++ c4 ++ [0; 0] ++ [0; 0; 0; 0] ++ [0; 1]) ++ l2 ++ str_bytes text)%list by (subst pl; by rewrite <- !app_assoc).
    apply sl_mid; rewrite ?zlen_app, ?L4; done. }
  cbn [rbind]. rewrite B2, (proj2 (Z.leb_le _ _)) by lia. rewrite (proj2 (Z.ltb_lt 0 (slen text))) by lia. cbn [andb].
  assert (u16 (16 + slen text) = 16 + slen text) as -> by (apply Z.mod_small; lia).
  assert (sl 16 (16 + slen text) pl = Ok (E := ttc_error) (str_bytes text)) as ->.
  { replace pl with (([8; 1] ++ c4 ++ [0; 0] ++ [0; 0; 0; 0] ++ [0; 1] ++ l2) ++ str_bytes text)%list by (subst pl; by rewrite <- !app_assoc).
    apply sl_tail; rewrite ?zlen_app, ?L4, ?L2, ?Lt; [done|unfold zlen; simpl length; lia]. }
  cbn [rbind]. rewrite bytes_str_bytes. unfold u16. by rewrite (Z.mod_small code) by lia.
Qed.

(** ** Witnesses *)

Module SampleOracle.
#[local] Existing Instance ToyText.text.
Definition data (payload : bytes) : TNSPacket :=
  {| t_Type := TNSPacketTypeData; t_Flags := 0; t_Length := 0; t_Payload := [0; 0] ++ payload; t_Raw := [] |}.
Definition grant : AccessGrant :=
  {| g_UID := 7%N; g_UserID := 1%N; g_DatabaseID := 2%N; g_Controls := [ControlReadOnly];
     g_GrantedBy := 3%N; g_StartsAt := 100; g_ExpiresAt := 1000; g_RevokedAt := None;
     g_RevokedBy := None; g_MaxQueryCounts := Some 1; g_MaxBytesTransferred := None;
     g_CreatedAt := 90; g_QueryCount := 0; g_BytesTransferred := 0 |}.
Definition answers : nat -> nat -> bool := fun _ _ => true.
Definition keys (n : nat) : uuid := (100 + N.of_nat n)%N.
Definition storage : QueryStorageConfig := {| MaxResultRows := 10; MaxResultBytes := 100; StoreResults := true |}.
Definition start : OraSession := (proxyMessages NewRevocationRegistry (Some grant) SampleRecord.conn SampleRecord.qdb).2.
Definition live1 := SampleRecord.live_at 100 20 200.
Definition live2 := SampleRecord.live_at 100 90 201.
Definition oall8_select : bytes := oall8 [0; 0; 0; 1] 5 "SELECT 1 FROM dual" [].
Definition select : TNSPacket := data oall8_select.
Definition drop_exec : TNSPacket := data ([17; 105] ++ replicate 30 0 ++ str_bytes "DROP TABLE t" ++ [0]).
Definition ended : bytes := [4; 3; 1; 0; 0; 1; 5; 1; 7; 0; 0; 0; 0].
Definition s1 : OraSession := clientToUpstream answers keys live1 true start select.
Definition s2 : OraSession := clientToUpstream answers keys live2 true s1 select.
End SampleOracle.

Import SampleOracle.

Lemma sample_session : rtc (ora_step (GT := ToyText.text) answers keys storage) start s2.
Proof.
  eapply rtc_l; [exact (step_client (GT := ToyText.text) answers keys storage live1 true select start eq_refl)|].
  apply rtc_once. apply (step_client (GT := ToyText.text) answers keys storage live2 true select s1). vm_compute. reflexivity.
Qed.

Lemma sample_sent : os_up s2 = [select; select].
Proof. vm_compute. reflexivity. Qed.

(** The bound of the quota is reached: one statement is allowed, two go through. *)
Example quota_overrun : g_MaxQueryCounts grant = Some 1 /\ statements (os_up s2) = ["SELECT 1 FROM dual"; "SELECT 1 FROM dual"].
Proof. by rewrite sample_sent. Qed.

Lemma oracle_only_admitted_forwarded_witness : ValidateOracleQuery "SELECT 1 FROM dual" grant = None.
Proof.
  apply (oracle_only_admitted_forwarded (GT := ToyText.text) answers keys storage NewRevocationRegistry grant SampleRecord.conn
           SampleRecord.qdb s2 select); [exact sample_session|rewrite sample_sent; left|vm_compute; reflexivity].
Defined.

Lemma oracle_exec_unchecked_witness :
  ValidateOracleQuery "DROP TABLE t" grant = Some ErrReadOnlyViolation /\
  os_up (clientToUpstream answers keys live1 true start drop_exec) = [drop_exec].
Proof.
  split; [vm_compute; reflexivity|].
  refine (proj1 (oracle_exec_unchecked answers keys live1 start grant drop_exec "DROP TABLE t" ErrReadOnlyViolation _ _ _ _ _));
    [exact (ok_tracker _ _ (ora_start NewRevocationRegistry grant _ _))|vm_compute; reflexivity..].
Defined.

Lemma oracle_accounts_balance_witness :
  os_grant s2 = Some (with_counters grant 1 190).
Proof.
  rewrite (oracle_accounts_balance (GT := ToyText.text) answers keys storage NewRevocationRegistry grant SampleRecord.conn
             SampleRecord.qdb s2 sample_session). vm_compute. reflexivity.
Defined.

Lemma oracle_quota_bound_witness : zlen (statements (os_up s2)) <= 2.
Proof.
  apply (oracle_quota_bound (GT := ToyText.text) answers keys storage NewRevocationRegistry grant SampleRecord.conn
           SampleRecord.qdb s2 1 sample_session eq_refl). done.
Defined.

Lemma oracle_query_recorded_witness :
  exists d, queries (qd_db d) !! 100%N = Some
    {| q_UID := 100%N; q_ConnectionID := SampleRecord.conn; q_SQLText := "SELECT 1 FROM dual"; q_Parameters := None;
       q_ExecutedAt := 200; q_DurationMs := Some 0; q_RowsAffected := Some 7; q_Error := None;
       q_CopyFormat := None; q_CopyDirection := None |}.
Proof.
  destruct (decodeOALL8 oall8_select) as [r| |] eqn:Er; [|vm_compute in Er; discriminate..].
  destruct (connections (qd_db SampleRecord.qdb) !! SampleRecord.conn) as [c|] eqn:Ec; [|vm_compute in Ec; discriminate].
  assert (oa_SQL r = "SELECT 1 FROM dual" /\ oa_BindValues r = []) as [Hs Hb] by (vm_compute in Er; injection Er as <-; done).
  destruct (oracle_query_recorded (GT := ToyText.text) answers keys storage live1 live2 live2 live2 300 true start select oall8_select r c
    (data ended) ended {| oe_CallStatus := 65536; oe_SeqNumber := 5; oe_CurRowNumber := 7; oe_ErrorCode := 0; oe_ErrorMessage := "" |})
    as (j & d & _ & _ & _ & _ & _ & Hd & _);
    [exact (ok_tracker _ _ (ora_start NewRevocationRegistry grant _ _))|done|done|done|done|exact Er|vm_compute; reflexivity
    |unfold blocked; rewrite Hs; vm_compute; reflexivity|exact Ec|done|done|done|done|vm_compute; reflexivity|].
  exists d. rewrite Hs, Hb in Hd. exact Hd.
Defined.

Lemma oracle_error_frame_roundtrip_witness :
  decodeTTCResponse (drop 2 (error_payload 1031 "query limit exceeded")) =
  Ok {| tr_ReturnCode := 1031; tr_RowCount := 0; tr_Columns := []; tr_Rows := []; tr_MoreData := false;
        tr_IsError := true; tr_ErrorCode := 1031; tr_ErrorMessage := "ORA-01031: query limit exceeded" |}.
Proof. apply (oracle_error_frame_roundtrip 1031 "query limit exceeded"); vm_compute; done. Defined.
