(* ===== verification/O5Logon.v ===== *)
(** * O5LOGON, both sides
    ([internal/proxy/oracle/o5logon.go], [upstream_auth_crypto.go])

    The proxy is an Oracle server to its clients, with [O5LogonServer] over a
    stored verifier, and an Oracle client to the upstream database, with
    [computeUpstreamAuthSecrets] over a password.  The block cipher and MD5 are
    parameters with the laws that the exchange relies on; CBC, padding, key
    derivation and the choice of candidates are the code's.  What [crypto/rand]
    produced is an argument, [None] when the read failed. *)

From Stdlib Require Import ZArith Lia List Bool String Ascii.
From stdpp Require Import base list strings.
From S2P Require Import Prelude GoStrings Encoding Crypto OracleValues.

Open Scope string_scope.
Open Scope Z_scope.

Inductive o5_error :=
| ErrO5Rand
| ErrHexDecode
| ErrCipherKeySize
| ErrCiphertextNotAligned
| ErrInvalidPadding
| ErrDecryptedPasswordTooShort
| ErrNoCombinedKeyCandidate
| ErrUnsupportedVerifier.

(** AES on one block, under a key that [aes.NewCipher] takes, and MD5. *)
Class BlockCipher := {
  aes_encrypt : bytes -> bytes -> bytes;
  aes_decrypt : bytes -> bytes -> bytes;
  md5 : bytes -> bytes;
  aes_encrypt_block : forall k b, wf_bytes b -> zlen b = 16 -> wf_bytes (aes_encrypt k b) /\ zlen (aes_encrypt k b) = 16;
  aes_decrypt_block : forall k b, wf_bytes b -> zlen b = 16 -> wf_bytes (aes_decrypt k b) /\ zlen (aes_decrypt k b) = 16;
  aes_decrypt_encrypt : forall k b, wf_bytes b -> zlen b = 16 -> aes_decrypt k (aes_encrypt k b) = b;
  md5_length : forall m, zlen (md5 m) = 16
}.

Definition VerifierType6949 : Z := 6949.
Definition VerifierType18453 : Z := 18453.
Definition pbkdf2SpeedyKeyLabel : string := "AUTH_PBKDF2_SPEEDY_KEY".
Definition o5LogonPasswordPrefixLen : Z := 16.
Definition o5LogonSessionKeyLength : Z := 48.
Definition o5LogonSessionKey18453Length : Z := 32.
Definition o5LogonDefaultPbkdf2VgenCount : Z := 4096.
Definition o5LogonDefaultPbkdf2SderCount : Z := 3.

(** ** Hexadecimal *)

Definition from_hex (c : ascii) : option Z :=
  let z := code c in
  if (48 <=? z) && (z <=? 57) then Some (z - 48)
  else if (65 <=? z) && (z <=? 70) then Some (z - 55)
  else if (97 <=? z) && (z <=? 102) then Some (z - 87) else None.

(** [hex.DecodeString] *)
Fixpoint hex_decode (s : string) : option bytes :=
  match s with
  | EmptyString => Some []
  | String h (String l s) =>
      match from_hex h, from_hex l, hex_decode s with
      | Some h, Some l, Some b => Some (16 * h + l :: b)
      | _, _, _ => None
      end
  | _ => None
  end.

Definition DecodeHex (s : string) : res o5_error bytes :=
  match hex_decode s with Some b => Ok b | None => Err ErrHexDecode end.

Definition upper_hex_string (b : bytes) : string := ToUpper (hex_string b).

(** ** CBC with a zero IV *)

Section Cipher.
Context {B : BlockCipher}.

Definition xor_block (a b : bytes) : bytes := zip_with Z.lxor a b.

(** [n] blocks; [prev] is the ciphertext block before them. *)
Fixpoint cbc_encrypt (n : nat) (key prev data : bytes) : bytes :=
  match n with
  | O => []
  | S n => let c := aes_encrypt key (xor_block (take 16 data) prev) in (c ++ cbc_encrypt n key c (drop 16 data))%list
  end.

Fixpoint cbc_decrypt (n : nat) (key prev data : bytes) : bytes :=
  match n with
  | O => []
  | S n => (xor_block (aes_decrypt key (take 16 data)) prev ++ cbc_decrypt n key (take 16 data) (drop 16 data))%list
  end.

Definition zero_iv : bytes := replicate 16 0.
Definition blocks (data : bytes) : nat := (length data / 16)%nat.
Definition key_ok (key : bytes) : bool := (zlen key =? 16) || (zlen key =? 24) || (zlen key =? 32).

(** The same padding under its two names. *)
Definition pkcs7Pad (data : bytes) (blockSize : Z) : bytes :=
  let padding := blockSize - zlen data mod blockSize in
  (data ++ replicate (Z.to_nat padding) padding)%list.
Definition pkcs5Pad : bytes -> Z -> bytes := pkcs7Pad.

(** The data and the padding it ended with. *)
Definition pkcs7Unpad (data : bytes) : res o5_error (bytes * bytes) :=
  match last data with
  | None => Err ErrInvalidPadding
  | Some padding =>
      if (padding =? 0) || (16 <? padding) || (zlen data <? padding) then Err ErrInvalidPadding
      else
        let n := (length data - Z.to_nat padding)%nat in
        if forallb (Z.eqb padding) (drop n data) then Ok (take n data, drop n data) else Err ErrInvalidPadding
  end.

Definition stripPKCS5Padding (data : bytes) (blockSize : Z) : res o5_error (option bytes) :=
  match last data with
  | None => Ok None
  | Some num =>
      if (num <=? 0) || (blockSize <? num) then Ok None
      else if zlen data <? num then Panic
      else
        let n := (length data - Z.to_nat num)%nat in
        Ok (if forallb (Z.eqb num) (drop n data) then Some (take n data) else None)
  end.

Definition aesCBCEncryptZeroIV (key plaintext : bytes) (keepPadding : bool) : res o5_error bytes :=
  guard! key_ok key else ErrCipherKeySize in
  let padded := pkcs5Pad plaintext 16 in
  let output := cbc_encrypt (blocks padded) key zero_iv padded in
  Ok (if keepPadding then output else take (length plaintext) output).

Definition aesCBCDecryptZeroIV (key ciphertext : bytes) (stripPadding : bool) : res o5_error bytes :=
  guard! key_ok key else ErrCipherKeySize in
  guard! zlen ciphertext mod 16 =? 0 else ErrCiphertextNotAligned in
  let output := cbc_decrypt (blocks ciphertext) key zero_iv ciphertext in
  if stripPadding then
    let! stripped := stripPKCS5Padding output 16 in
    Ok (match stripped with Some b => b | None => output end)
  else Ok output.

Definition aes192CBCEncrypt (key plaintext : bytes) : res o5_error bytes := aesCBCEncryptZeroIV key plaintext true.

Definition aes192CBCEncryptTruncated (key plaintext : bytes) : res o5_error bytes :=
  let! ciphertext := aes192CBCEncrypt key plaintext in Ok (take (length plaintext) ciphertext).

Definition aes192CBCDecryptRaw (key ciphertext : bytes) : res o5_error bytes := aesCBCDecryptZeroIV key ciphertext false.

(** A slice: its elements, and what its backing array holds after them. *)
Definition slice : Type := bytes * bytes.

(** [s[:n]], which may reach into the backing array. *)
Definition slice_to (n : nat) (s : slice) : res o5_error bytes :=
  if (n <=? length (s.1 ++ s.2))%nat then Ok (take n (s.1 ++ s.2)) else Panic.

(** Valid padding is removed, anything else is returned as it is. *)
Definition aes192CBCDecrypt (key ciphertext : bytes) : res o5_error slice :=
  let! plaintext := aes192CBCDecryptRaw key ciphertext in
  match pkcs7Unpad plaintext with
  | Ok unpadded => Ok unpadded
  | _ => Ok (plaintext, [])
  end.

Fixpoint trimNullBytes (data : bytes) : bytes :=
  match data with
  | [] => []
  | c :: data => match trimNullBytes data with [] => if c =? 0 then [] else [c] | rest => c :: rest end
  end.

Definition isPrintableASCIIRun (b : bytes) : bool :=
  match b with [] => false | _ => forallb (fun c => (32 <=? c) && (c <=? 126)) b end.

(** [copy] into 24 zero bytes. *)
Definition deriveAESKey (verifierKey : bytes) : bytes := (take 24 verifierKey ++ replicate (24 - length verifierKey) 0)%list.

(** Bytes 16 to 39 of the two keys. *)
Definition deriveCombinedKey (serverKey clientKey : bytes) : res o5_error bytes :=
  if (length serverKey <? 40)%nat || (length clientKey <? 40)%nat then Panic
  else
    let buffer := xor_block (take 24 (drop 16 serverKey)) (take 24 (drop 16 clientKey)) in
    Ok (take 24 (md5 (take 16 buffer) ++ md5 (drop 16 buffer))%list).

Definition tryDecryptPasswordWithKey (key encPasswordBytes : bytes) : option string :=
  match aes192CBCDecrypt key encPasswordBytes with
  | Ok (plaintext, _) =>
      if zlen plaintext <=? o5LogonPasswordPrefixLen then None
      else
        let password := trimNullBytes (drop (Z.to_nat o5LogonPasswordPrefixLen) plaintext) in
        if isPrintableASCIIRun password then Some (bytes_str password) else None
  | _ => None
  end.

(** ** The server *)

Record O5LogonServer := {
  o5_salt : bytes;
  o5_verifierKey : bytes;
  o5_serverSessionKey : bytes;
  o5_customHash : bool;
  o5_pbkdf2ChkSalt : bytes;
  o5_pbkdf2VgenCount : Z;
  o5_pbkdf2SderCount : Z;
  o5_CombinedKey : bytes;
  o5_verifierType : Z
}.

Definition NewO5LogonServer (salt verifierKey : bytes) : O5LogonServer :=
  {| o5_salt := salt; o5_verifierKey := verifierKey; o5_serverSessionKey := []; o5_customHash := false;
     o5_pbkdf2ChkSalt := []; o5_pbkdf2VgenCount := o5LogonDefaultPbkdf2VgenCount;
     o5_pbkdf2SderCount := o5LogonDefaultPbkdf2SderCount; o5_CombinedKey := []; o5_verifierType := VerifierType6949 |}.

Definition UseVerifier18453 (s : O5LogonServer) (salt verifierKey : bytes) : O5LogonServer :=
  {| o5_salt := salt; o5_verifierKey := verifierKey; o5_serverSessionKey := o5_serverSessionKey s; o5_customHash := true;
     o5_pbkdf2ChkSalt := o5_pbkdf2ChkSalt s; o5_pbkdf2VgenCount := O5LogonPbkdf2VgenCount;
     o5_pbkdf2SderCount := o5_pbkdf2SderCount s; o5_CombinedKey := o5_CombinedKey s; o5_verifierType := VerifierType18453 |}.

Definition EnableCustomHash (s : O5LogonServer) : O5LogonServer :=
  {| o5_salt := o5_salt s; o5_verifierKey := o5_verifierKey s; o5_serverSessionKey := o5_serverSessionKey s; o5_customHash := true;
     o5_pbkdf2ChkSalt := o5_pbkdf2ChkSalt s; o5_pbkdf2VgenCount := o5_pbkdf2VgenCount s;
     o5_pbkdf2SderCount := o5_pbkdf2SderCount s; o5_CombinedKey := o5_CombinedKey s; o5_verifierType := o5_verifierType s |}.

Definition PBKDF2ChkSalt (s : O5LogonServer) : string := upper_hex_string (o5_pbkdf2ChkSalt s).

Definition with_session (s : O5LogonServer) (key chkSalt : bytes) : O5LogonServer :=
  {| o5_salt := o5_salt s; o5_verifierKey := o5_verifierKey s; o5_serverSessionKey := key; o5_customHash := o5_customHash s;
     o5_pbkdf2ChkSalt := chkSalt; o5_pbkdf2VgenCount := o5_pbkdf2VgenCount s;
     o5_pbkdf2SderCount := o5_pbkdf2SderCount s; o5_CombinedKey := o5_CombinedKey s; o5_verifierType := o5_verifierType s |}.
Definition with_combined (s : O5LogonServer) (key : bytes) : O5LogonServer :=
  {| o5_salt := o5_salt s; o5_verifierKey := o5_verifierKey s; o5_serverSessionKey := o5_serverSessionKey s; o5_customHash := o5_customHash s;
     o5_pbkdf2ChkSalt := o5_pbkdf2ChkSalt s; o5_pbkdf2VgenCount := o5_pbkdf2VgenCount s;
     o5_pbkdf2SderCount := o5_pbkdf2SderCount s; o5_CombinedKey := key; o5_verifierType := o5_verifierType s |}.

Definition session_key_length (s : O5LogonServer) : Z :=
  if o5_verifierType s =? VerifierType18453 then o5LogonSessionKey18453Length else o5LogonSessionKeyLength.

(** [rnd] is the session key drawn, [chk] the salt drawn in customHash mode.
    Returns AUTH_SESSKEY and AUTH_VFR_DATA. *)
Definition GenerateChallenge (s : O5LogonServer) (rnd chk : option bytes) : res o5_error (O5LogonServer * string * string) :=
  match rnd, (if o5_customHash s then chk else Some (o5_pbkdf2ChkSalt s)) with
  | Some key, Some chkSalt =>
      let s := with_session s key chkSalt in
      let! encrypted :=
        (if o5_verifierType s =? VerifierType18453 then aesCBCEncryptZeroIV (o5_verifierKey s) key false
         else aes192CBCEncryptTruncated (deriveAESKey (o5_verifierKey s)) key) in
      Ok (s, upper_hex_string encrypted, upper_hex_string (o5_salt s))
  | _, _ => Err ErrO5Rand
  end.

Section Hashed.
Context {H : Hashes}.

(** The package's own copy of [crypto.pbkdf2SpeedyKey], the same code. *)
Definition pbkdf2SpeedyKey : bytes -> bytes -> Z -> bytes := Crypto.pbkdf2SpeedyKey.

Definition combinedKeyCandidates (s : O5LogonServer) (clientSessionKey : slice) : res o5_error (list bytes) :=
  if o5_verifierType s =? VerifierType18453 then
    let joined := (clientSessionKey.1 ++ o5_serverSessionKey s)%list in
    Ok [take 32 (pbkdf2SpeedyKey (o5_pbkdf2ChkSalt s) (str_bytes (upper_hex_string joined)) (o5_pbkdf2SderCount s))]
  else
    let! legacy := deriveCombinedKey (o5_serverSessionKey s) clientSessionKey.1 in
    if negb (o5_customHash s) then Ok [legacy]
    else
      let! c := slice_to 24 clientSessionKey in
      let! k := slice_to 24 (o5_serverSessionKey s, []) in
      let customHashKey := take 24 (pbkdf2SpeedyKey (o5_pbkdf2ChkSalt s) (str_bytes (upper_hex_string (c ++ k))) (o5_pbkdf2SderCount s)) in
      Ok [customHashKey; legacy].

Definition decryptSessionKey (s : O5LogonServer) (enc : bytes) : res o5_error slice :=
  if o5_verifierType s =? VerifierType18453
  then let! key := aesCBCDecryptZeroIV (o5_verifierKey s) enc false in Ok (key, [])
  else aes192CBCDecrypt (deriveAESKey (o5_verifierKey s)) enc.

(** The first candidate that gives a password, with the password. *)
Fixpoint try_keys (candidates : list bytes) (enc : bytes) : option (bytes * string) :=
  match candidates with
  | [] => None
  | key :: candidates =>
      match tryDecryptPasswordWithKey key enc with
      | Some password => Some (key, password)
      | None => try_keys candidates enc
      end
  end.

Definition DecryptPassword (s : O5LogonServer) (encClientSessKey encPassword : string) : res o5_error (O5LogonServer * string) :=
  let! encClient := DecodeHex encClientSessKey in
  let! clientSessionKey := decryptSessionKey s encClient in
  let! enc := DecodeHex encPassword in
  let! candidates := combinedKeyCandidates s clientSessionKey in
  match try_keys candidates enc with
  | Some (key, password) => Ok (with_combined s key, password)
  | None => Err ErrDecryptedPasswordTooShort
  end.

Definition DeriveCombinedKey (s : O5LogonServer) (encClientSessKey : string) : res o5_error O5LogonServer :=
  let! encClient := DecodeHex encClientSessKey in
  let! clientSessionKey := decryptSessionKey s encClient in
  let! candidates := combinedKeyCandidates s clientSessionKey in
  match candidates with [] => Err ErrNoCombinedKeyCandidate | key :: _ => Ok (with_combined s key) end.

Definition CloneForCandidate (s : O5LogonServer) (salt verifierKey : bytes) (encChallengeHex : string) : res o5_error O5LogonServer :=
  let! challenge := DecodeHex encChallengeHex in
  let c := {| o5_salt := salt; o5_verifierKey := verifierKey; o5_serverSessionKey := []; o5_customHash := o5_customHash s;
              o5_pbkdf2ChkSalt := o5_pbkdf2ChkSalt s; o5_pbkdf2VgenCount := o5_pbkdf2VgenCount s;
              o5_pbkdf2SderCount := o5_pbkdf2SderCount s; o5_CombinedKey := []; o5_verifierType := o5_verifierType s |} in
  let! key :=
    (if o5_verifierType c =? VerifierType18453 then aesCBCDecryptZeroIV verifierKey challenge false
     else aes192CBCDecryptRaw (deriveAESKey verifierKey) challenge) in
  Ok (with_session c key (o5_pbkdf2ChkSalt s)).

(** ** The client *)

(** What the server's first answer says. *)
Record upstreamAuthSecrets := {
  us_verifierType : Z;
  us_customHash : bool;
  us_salt : bytes;
  us_pbkdf2ChkSalt : bytes;
  us_pbkdf2VgenCount : Z;
  us_pbkdf2SderCount : Z
}.

(** What the client makes of it; [su_combined] is the key of the password. *)
Record clientSecrets := {
  su_verifierKey : bytes;
  su_serverSessionKey : bytes;
  su_clientSessionKey : bytes;
  su_combined : bytes;
  su_encClientSessKey : string;
  su_encPassword : string;
  su_eSpeedyKey : string
}.

(** The key of the session keys, and the speedy key of verifier 18453. *)
Definition client_verifier_key (password : string) (sec : upstreamAuthSecrets) : res o5_error (bytes * bytes) :=
  if us_verifierType sec =? VerifierType6949 then
    Ok ((sha1 (str_bytes password ++ us_salt sec) ++ [0; 0; 0; 0])%list, [])
  else if us_verifierType sec =? VerifierType18453 then
    let message := (us_salt sec ++ str_bytes pbkdf2SpeedyKeyLabel)%list in
    let speedyKey := pbkdf2SpeedyKey message (str_bytes password) (us_pbkdf2VgenCount sec) in
    Ok (take 32 (sha512 (speedyKey ++ us_salt sec)%list), speedyKey)
  else Err ErrUnsupportedVerifier.

Definition derivePasswordEncKey (sec : upstreamAuthSecrets) (clientKey serverKey : bytes) : res o5_error bytes :=
  if us_customHash sec then
    let derive joined retLen :=
      take retLen (pbkdf2SpeedyKey (us_pbkdf2ChkSalt sec) (str_bytes (upper_hex_string joined)) (us_pbkdf2SderCount sec)) in
    if us_verifierType sec =? VerifierType6949 then
      let! c := slice_to 24 (clientKey, []) in
      let! k := slice_to 24 (serverKey, []) in
      Ok (derive (c ++ k)%list 24%nat)
    else if us_verifierType sec =? VerifierType18453 then Ok (derive (clientKey ++ serverKey)%list 32%nat)
    else Err ErrUnsupportedVerifier
  else if us_verifierType sec =? VerifierType6949 then
    if (length serverKey <? 40)%nat || (length clientKey <? 40)%nat then Panic
    else
      let buf := xor_block (take 24 (drop 16 serverKey)) (take 24 (drop 16 clientKey)) in
      Ok (take 24 (md5 (take 16 buf) ++ md5 (drop 16 buf))%list)
  else Err ErrUnsupportedVerifier.

(** [prefix] is what was drawn for the 16 bytes before the data. *)
Definition encryptOraclePassword (prefix : option bytes) (data key : bytes) (keepPadding : bool) : res o5_error bytes :=
  match prefix with
  | None => Err ErrO5Rand
  | Some prefix => aesCBCEncryptZeroIV key (prefix ++ data)%list keepPadding
  end.

(** The first key drawn that is not the server's; a list that ends is a failed read. *)
Fixpoint draw_client_key (draws : list bytes) (serverKey : bytes) : res o5_error bytes :=
  match draws with
  | [] => Err ErrO5Rand
  | key :: draws => if bool_decide (key = serverKey) then draw_client_key draws serverKey else Ok key
  end.

Definition computeUpstreamAuthSecrets (draws : list bytes) (prefix prefix' : option bytes) (password encServerSessKey : string)
    (sec : upstreamAuthSecrets) : res o5_error clientSecrets :=
  let! ' (verifierKey, speedyKey) := client_verifier_key password sec in
  let! encServer := DecodeHex encServerSessKey in
  let! serverKey := aesCBCDecryptZeroIV verifierKey encServer false in
  let! clientKey := draw_client_key draws serverKey in
  let! encClient := aesCBCEncryptZeroIV verifierKey clientKey false in
  let! combined := derivePasswordEncKey sec clientKey serverKey in
  let! encPw := encryptOraclePassword prefix (str_bytes password) combined true in
  let! eSpeedy :=
    (if us_verifierType sec =? VerifierType18453
     then let! e := encryptOraclePassword prefix' speedyKey combined false in Ok (upper_hex_string e)
     else Ok "") in
  Ok {| su_verifierKey := verifierKey; su_serverSessionKey := serverKey; su_clientSessionKey := clientKey;
        su_combined := combined; su_encClientSessKey := upper_hex_string encClient;
        su_encPassword := upper_hex_string encPw; su_eSpeedyKey := eSpeedy |}.

End Hashed.
End Cipher.

(** * Theorems *)

(** ** Hexadecimal *)

Lemma from_hex_digit n : 0 <= n < 16 -> from_hex (upper1 (hex1 n)) = Some n.
Proof.
  intros Hn. assert (forallb (fun i => bool_decide (from_hex (upper1 (hex1 (Z.of_nat i))) = Some (Z.of_nat i))) (seq 0 16) = true) as Hall
    by reflexivity.
  rewrite forallb_forall in Hall. specialize (Hall (Z.to_nat n)). rewrite Z2Nat.id in Hall by lia.
  eapply bool_decide_eq_true_1, Hall, in_seq. lia.
Qed.

Lemma hex1_ascii n : 0 <= n < 16 -> is_ascii1 (hex1 n) = true.
Proof. intros Hn. unfold hex1, is_ascii1. destruct (Z.ltb_spec n 10); rewrite code_chr by lia; lia. Qed.

Lemma hex_upper_string b : wf_bytes b -> hex_decode (upper_hex_string b) = Some b.
Proof.
  unfold upper_hex_string. induction 1 as [|c b Hc Hb IH]; [done|]. unfold is_byte in Hc. cbn [hex_string].
  assert (0 <= c / 16 < 16) by (split; [apply Z.div_pos|apply Z.div_lt_upper_bound]; lia).
  assert (0 <= c mod 16 < 16) by (apply Z.mod_pos_bound; lia).
  rewrite !upper_ascii_cons by (by apply hex1_ascii). cbn [hex_decode]. rewrite !from_hex_digit, IH by done.
  do 2 f_equal. rewrite (Z.div_mod c 16) at 3 by lia. done.
Qed.

Lemma DecodeHex_upper b : wf_bytes b -> DecodeHex (upper_hex_string b) = Ok b.
Proof. intros Hb. unfold DecodeHex. by rewrite hex_upper_string. Qed.

(** ** Blocks *)

Section CipherTheorems.
Context {B : BlockCipher}.

Lemma wf_xor a b : wf_bytes a -> wf_bytes b -> wf_bytes (xor_block a b).
Proof. apply wf_zip_lxor. Qed.

Lemma xor_xor a b : length a = length b -> xor_block (xor_block a b) b = a.
Proof. apply zip_lxor_cancel. Qed.

Lemma length_xor a b : length a = length b -> length (xor_block a b) = length a.
Proof. intros Hl. unfold xor_block. rewrite length_zip_with. lia. Qed.

Lemma zlen_nat (b : bytes) n : zlen b = Z.of_nat n <-> length b = n.
Proof. unfold zlen. lia. Qed.

Lemma wf_split n (b : bytes) : wf_bytes b -> wf_bytes (take n b) /\ wf_bytes (drop n b).
Proof. intros Hb. split; [by apply Forall_take|by apply Forall_drop]. Qed.

Lemma cbc_encrypt_block n key : forall prev data, length data = (16 * n)%nat -> wf_bytes data -> wf_bytes prev -> length prev = 16%nat ->
  wf_bytes (cbc_encrypt n key prev data) /\ length (cbc_encrypt n key prev data) = (16 * n)%nat.
Proof.
  induction n as [|n IH]; intros prev data Hl Hw Hp Hlp; [split; [constructor|done]|].
  destruct (wf_split 16 data Hw) as [Ht Hd].
  assert (length (take 16 data) = 16%nat) as Hlt by (rewrite length_take; lia).
  destruct (aes_encrypt_block key (xor_block (take 16 data) prev)) as [Hwc Hlc];
    [by apply wf_xor|by apply (zlen_nat _ 16); rewrite length_xor; lia|].
  apply (zlen_nat _ 16) in Hlc. cbn [cbc_encrypt].
  destruct (IH (aes_encrypt key (xor_block (take 16 data) prev)) (drop 16 data)) as [H1 H2];
    [rewrite length_drop; lia|done..|].
  split; [by apply wf_app|]. rewrite length_app. lia.
Qed.

Lemma cbc_decrypt_block n key : forall prev data, length data = (16 * n)%nat -> wf_bytes data -> wf_bytes prev -> length prev = 16%nat ->
  wf_bytes (cbc_decrypt n key prev data) /\ length (cbc_decrypt n key prev data) = (16 * n)%nat.
Proof.
  induction n as [|n IH]; intros prev data Hl Hw Hp Hlp; [split; [constructor|done]|].
  destruct (wf_split 16 data Hw) as [Ht Hd].
  assert (length (take 16 data) = 16%nat) as Hlt by (rewrite length_take; lia).
  destruct (aes_decrypt_block key (take 16 data)) as [Hwc Hlc]; [done|by apply (zlen_nat _ 16)|].
  apply (zlen_nat _ 16) in Hlc. cbn [cbc_decrypt].
  destruct (IH (take 16 data) (drop 16 data)) as [H1 H2]; [rewrite length_drop; lia|done..|].
  split; [by apply wf_app; split; [apply wf_xor|]|]. rewrite length_app, length_xor by lia. lia.
Qed.

Lemma cbc_roundtrip n key : forall prev data, length data = (16 * n)%nat -> wf_bytes data -> wf_bytes prev -> length prev = 16%nat ->
  cbc_decrypt n key prev (cbc_encrypt n key prev data) = data.
Proof.
  induction n as [|n IH]; intros prev data Hl Hw Hp Hlp; [by destruct data|].
  destruct (wf_split 16 data Hw) as [Ht Hd].
  assert (length (take 16 data) = 16%nat) as Hlt by (rewrite length_take; lia).
  assert (wf_bytes (xor_block (take 16 data) prev)) by (by apply wf_xor).
  assert (zlen (xor_block (take 16 data) prev) = 16) by (apply (zlen_nat _ 16); rewrite length_xor; lia).
  destruct (aes_encrypt_block key (xor_block (take 16 data) prev)) as [Hwc Hlc]; [done..|].
  apply (zlen_nat _ 16) in Hlc. cbn [cbc_encrypt cbc_decrypt].
  rewrite take_app_length' by lia. rewrite drop_app_length' by lia. rewrite aes_decrypt_encrypt, xor_xor by (done || lia).
  rewrite IH; [apply take_drop|rewrite length_drop; lia|done..].
Qed.

(** Blocks after the data do not change those of the data. *)
Lemma cbc_encrypt_app n m key : forall prev data extra, length data = (16 * n)%nat -> wf_bytes data -> wf_bytes prev -> length prev = 16%nat ->
  take (16 * n) (cbc_encrypt (n + m) key prev (data ++ extra)) = cbc_encrypt n key prev data.
Proof.
  induction n as [|n IH]; intros prev data extra Hl Hw Hp Hlp; [done|].
  destruct (wf_split 16 data Hw) as [Ht Hd].
  assert (length (take 16 data) = 16%nat) as Hlt by (rewrite length_take; lia).
  destruct (aes_encrypt_block key (xor_block (take 16 data) prev)) as [Hwc Hlc];
    [by apply wf_xor|by apply (zlen_nat _ 16); rewrite length_xor; lia|].
  apply (zlen_nat _ 16) in Hlc. cbn [cbc_encrypt Nat.add].
  rewrite (take_app_le data) by lia. rewrite (drop_app_le data) by lia.
  rewrite take_app_ge by lia. f_equal. rewrite Hlc. replace (16 * S n - 16)%nat with (16 * n)%nat by lia.
  apply IH; [rewrite length_drop; lia|done..].
Qed.

Lemma wf_zero_iv : wf_bytes zero_iv /\ length zero_iv = 16%nat.
Proof. split; [|done]. unfold zero_iv. apply Forall_replicate. unfold is_byte. lia. Qed.

(** ** Padding *)

Lemma pad_bounds (data : bytes) : 1 <= 16 - zlen data mod 16 <= 16.
Proof. pose proof (Z.mod_pos_bound (zlen data) 16). lia. Qed.

Lemma pad_aligned (data : bytes) : exists n, length (pkcs7Pad data 16) = (16 * n)%nat /\ blocks (pkcs7Pad data 16) = n.
Proof.
  pose proof (pad_bounds data) as Hb. pose proof (Z.div_mod (zlen data) 16).
  exists (Z.to_nat (zlen data / 16 + 1)). assert (0 <= zlen data / 16) by (apply Z.div_pos; unfold zlen; lia).
  assert (length (pkcs7Pad data 16) = (16 * Z.to_nat (zlen data / 16 + 1))%nat) as Hl.
  { unfold pkcs7Pad. rewrite length_app, length_replicate. unfold zlen in *. lia. }
  split; [done|]. unfold blocks. rewrite Hl, Nat.mul_comm. by apply Nat.div_mul.
Qed.

Lemma wf_pad data : wf_bytes data -> wf_bytes (pkcs7Pad data 16).
Proof. intros Hd. pose proof (pad_bounds data). apply wf_app. split; [done|]. apply Forall_replicate. unfold is_byte. lia. Qed.

Lemma unpad_pad data : pkcs7Unpad (pkcs7Pad data 16) = Ok (data, replicate (Z.to_nat (16 - zlen data mod 16)) (16 - zlen data mod 16)).
Proof.
  pose proof (pad_bounds data) as Hb. unfold pkcs7Pad. set (p := 16 - zlen data mod 16) in *.
  destruct (Z.to_nat p) as [|k] eqn:Ek; [lia|]. unfold pkcs7Unpad.
  assert (last (data ++ replicate (S k) p) = Some p) as ->.
  { replace (S k) with (k + 1)%nat by lia. rewrite replicate_add, app_assoc. apply last_snoc. }
  rewrite (proj2 (Z.eqb_neq p 0)) by lia. rewrite (proj2 (Z.ltb_ge 16 p)) by lia.
  rewrite (proj2 (Z.ltb_ge _ _)) by (unfold zlen; rewrite length_app, length_replicate; lia). cbn [orb].
  replace (length (data ++ replicate (S k) p) - Z.to_nat p)%nat with (length data) by (rewrite length_app, length_replicate; lia).
  rewrite drop_app_length, take_app_length.
  replace (forallb (Z.eqb p) (replicate (S k) p)) with true; [done|]. symmetry. apply forallb_forall.
  intros x Hx%list_elem_of_In. apply elem_of_replicate in Hx as [-> _]. apply Z.eqb_refl.
Qed.

(** What an unpadded slice was. *)
Lemma unpad_whole data v h : pkcs7Unpad data = Ok (v, h) -> (v ++ h)%list = data.
Proof.
  unfold pkcs7Unpad. destruct (last data); [|done]. destruct (_ || _); [done|]. destruct (forallb _ _); [|done].
  intros [= <- <-]. apply take_drop.
Qed.

(** ** Encryption and back *)

Lemma decrypt_encrypt key data c : wf_bytes data -> aesCBCEncryptZeroIV key data true = Ok c ->
  wf_bytes c /\ zlen c mod 16 = 0 /\ aesCBCDecryptZeroIV key c false = Ok (pkcs7Pad data 16).
Proof.
  intros Hd. unfold aesCBCEncryptZeroIV. destruct (key_ok key) eqn:Hk; [|done]. intros [= <-].
  destruct (pad_aligned data) as (n & Hl & Hb). unfold pkcs5Pad. rewrite Hb.
  destruct wf_zero_iv as [Hw Hz]. pose proof (wf_pad data Hd) as Hp.
  destruct (cbc_encrypt_block n key zero_iv (pkcs7Pad data 16) Hl Hp Hw Hz) as [H1 H2].
  assert (zlen (cbc_encrypt n key zero_iv (pkcs7Pad data 16)) mod 16 = 0) as Hm
    by (unfold zlen; rewrite H2, Nat2Z.inj_mul, Z.mul_comm; by apply Z.mod_mul).
  split_and!; [done..|]. unfold aesCBCDecryptZeroIV. rewrite Hk, Hm. cbn [Z.eqb]. f_equal.
  replace (blocks (cbc_encrypt n key zero_iv (pkcs7Pad data 16))) with n
    by (unfold blocks; rewrite H2, Nat.mul_comm, Nat.div_mul; lia).
  by apply cbc_roundtrip.
Qed.

(** The truncated encryption of whole blocks. *)
Lemma decrypt_encrypt_truncated key data c n : wf_bytes data -> length data = (16 * n)%nat ->
  aesCBCEncryptZeroIV key data false = Ok c ->
  wf_bytes c /\ length c = length data /\ aesCBCDecryptZeroIV key c false = Ok data.
Proof.
  intros Hd Hl. unfold aesCBCEncryptZeroIV. destruct (key_ok key) eqn:Hk; [|done]. intros [= <-].
  destruct wf_zero_iv as [Hw Hz].
  assert (zlen data mod 16 = 0) as Hmod by (unfold zlen; rewrite Hl, Nat2Z.inj_mul, Z.mul_comm; by apply Z.mod_mul).
  assert (blocks (pkcs5Pad data 16) = (n + 1)%nat) as ->.
  { unfold blocks, pkcs5Pad, pkcs7Pad. rewrite Hmod, length_app, length_replicate, Hl. change (Z.to_nat (16 - 0)) with 16%nat.
    replace (16 * n + 16)%nat with ((n + 1) * 16)%nat by lia. apply Nat.div_mul. lia. }
  rewrite Hl. unfold pkcs5Pad, pkcs7Pad. rewrite (cbc_encrypt_app n 1) by done.
  destruct (cbc_encrypt_block n key zero_iv data Hl Hd Hw Hz) as [H1 H2]. split_and!; [done..|].
  unfold aesCBCDecryptZeroIV. rewrite Hk.
  replace (zlen (cbc_encrypt n key zero_iv data) mod 16 =? 0) with true
    by (unfold zlen; rewrite H2, <- Hl; unfold zlen in Hmod; by rewrite Hmod).
  f_equal. replace (blocks (cbc_encrypt n key zero_iv data)) with n by (unfold blocks; rewrite H2, Nat.mul_comm, Nat.div_mul; lia).
  by apply cbc_roundtrip.
Qed.

End CipherTheorems.

(** ** The exchange *)

Section Exchange.
Context {B : BlockCipher} {H : Hashes}.

Definition effective_key (s : O5LogonServer) : bytes :=
  if o5_verifierType s =? VerifierType18453 then o5_verifierKey s else deriveAESKey (o5_verifierKey s).

(** The key has no accidental padding longer than eight bytes (a chance of
    2^-72 for a random one). *)
Definition usable_key (key : bytes) : Prop := match pkcs7Unpad key with Ok (v, _) => (40 <= length v)%nat | _ => True end.

Lemma trim_printable b : forallb (fun c => (32 <=? c) && (c <=? 126)) b = true -> trimNullBytes b = b.
Proof.
  induction b as [|c b IH]; [done|]. cbn [forallb trimNullBytes]. intros [Hc Hb]%andb_true_iff. rewrite IH by done.
  destruct b; [|done]. rewrite (proj2 (Z.eqb_neq c 0)) by lia. done.
Qed.

Lemma printable_password b : isPrintableASCIIRun b = true -> trimNullBytes b = b /\ b <> [] /\ wf_bytes b.
Proof.
  destruct b as [|c b]; [done|]. cbn [isPrintableASCIIRun]. intros Hp. split; [by apply trim_printable|]. split; [done|].
  apply Forall_forall. intros x Hx. rewrite forallb_forall in Hp. apply list_elem_of_In, Hp in Hx. unfold is_byte. lia.
Qed.

Lemma password_back key pw prefix enc :
  wf_bytes prefix -> zlen prefix = 16 -> isPrintableASCIIRun (str_bytes pw) = true ->
  encryptOraclePassword (Some prefix) (str_bytes pw) key true = Ok enc ->
  wf_bytes enc /\ tryDecryptPasswordWithKey key enc = Some pw.
Proof.
  intros Hw Hl Hp He. destruct (printable_password _ Hp) as (Ht & Hne & Hwp).
  apply decrypt_encrypt in He as (H1 & H2 & H3); [|by apply wf_app]. split; [done|].
  unfold tryDecryptPasswordWithKey, aes192CBCDecrypt, aes192CBCDecryptRaw. rewrite H3. cbn [rbind]. rewrite unpad_pad.
  apply (zlen_nat _ 16) in Hl. rewrite (proj2 (Z.leb_gt _ _))
    by (unfold zlen, o5LogonPasswordPrefixLen; rewrite length_app, Hl; destruct (str_bytes pw); [done|cbn; lia]).
  rewrite drop_app_length' by (by rewrite Hl). by rewrite Ht, Hp, bytes_str_bytes.
Qed.

(** What the client's secrets are made of. *)
Lemma compute_inv draws prefix prefix' pw encSess sec c :
  computeUpstreamAuthSecrets draws prefix prefix' pw encSess sec = Ok c ->
  exists speedy encServer encClient encPw,
    client_verifier_key pw sec = Ok (su_verifierKey c, speedy)
    /\ DecodeHex encSess = Ok encServer /\ aesCBCDecryptZeroIV (su_verifierKey c) encServer false = Ok (su_serverSessionKey c)
    /\ draw_client_key draws (su_serverSessionKey c) = Ok (su_clientSessionKey c)
    /\ aesCBCEncryptZeroIV (su_verifierKey c) (su_clientSessionKey c) false = Ok encClient
    /\ su_encClientSessKey c = upper_hex_string encClient
    /\ derivePasswordEncKey sec (su_clientSessionKey c) (su_serverSessionKey c) = Ok (su_combined c)
    /\ encryptOraclePassword prefix (str_bytes pw) (su_combined c) true = Ok encPw
    /\ su_encPassword c = upper_hex_string encPw.
Proof.
  unfold computeUpstreamAuthSecrets. destruct (client_verifier_key pw sec) as [[vk speedy]| |]; cbn [rbind]; try done.
  destruct (DecodeHex encSess) as [es| |]; cbn [rbind]; try done.
  destruct (aesCBCDecryptZeroIV vk es false) as [sk| |] eqn:E1; cbn [rbind]; try done.
  destruct (draw_client_key draws sk) as [ck| |] eqn:E2; cbn [rbind]; try done.
  destruct (aesCBCEncryptZeroIV vk ck false) as [ec| |] eqn:E3; cbn [rbind]; try done.
  destruct (derivePasswordEncKey sec ck sk) as [k| |] eqn:E4; cbn [rbind]; try done.
  destruct (encryptOraclePassword prefix (str_bytes pw) k true) as [ep| |] eqn:E5; cbn [rbind]; try done.
  destruct (if _ =? _ then _ else _) as [es'| |]; cbn [rbind]; try done.
  intros [= <-]. cbn. exists speedy, es, ec, ep. by split_and!.
Qed.

(** The server, when it sees the session keys as the client does, recovers the
    password and the key it was encrypted under. *)
Lemma exchange s sec draws prefix prefix' pw encSess c n :
  o5_verifierType s = us_verifierType sec -> o5_customHash s = us_customHash sec ->
  o5_pbkdf2ChkSalt s = us_pbkdf2ChkSalt sec -> o5_pbkdf2SderCount s = us_pbkdf2SderCount sec ->
  computeUpstreamAuthSecrets draws (Some prefix) prefix' pw encSess sec = Ok c ->
  effective_key s = su_verifierKey c -> o5_serverSessionKey s = su_serverSessionKey c ->
  wf_bytes prefix -> zlen prefix = 16 -> isPrintableASCIIRun (str_bytes pw) = true ->
  wf_bytes (su_clientSessionKey c) -> length (su_clientSessionKey c) = (16 * n)%nat ->
  (us_verifierType sec = VerifierType18453 -> us_customHash sec = true) ->
  (us_verifierType sec = VerifierType6949 ->
     usable_key (su_clientSessionKey c) /\ (40 <= length (su_clientSessionKey c))%nat /\ (40 <= length (su_serverSessionKey c))%nat) ->
  DecryptPassword s (su_encClientSessKey c) (su_encPassword c) = Ok (with_combined s (su_combined c), pw).
Proof.
  intros Hty Hch Hsalt Hsder Hc Hk Hss Hwp Hlp Hpw Hwc Hlc Hmodern Hlegacy.
  apply compute_inv in Hc as (speedy & es & ec & ep & Hvk & _ & _ & _ & Hec & Eec & Hd & Hep & Eep).
  apply (decrypt_encrypt_truncated _ _ _ n) in Hec as (Hwec & _ & Hdec); [|done..].
  destruct (password_back (su_combined c) pw prefix ep) as [Hwep Htry]; [done..|].
  unfold DecryptPassword. rewrite Eec, Eep, !DecodeHex_upper by done. cbn [rbind].
  unfold decryptSessionKey, combinedKeyCandidates, effective_key in *. rewrite Hty in *.
  destruct (us_verifierType sec =? VerifierType18453) eqn:E18.
  - rewrite Hk, Hdec. cbn [rbind fst]. apply Z.eqb_eq in E18. specialize (Hmodern E18).
    unfold derivePasswordEncKey in Hd. rewrite Hmodern, E18 in Hd.
    change (VerifierType18453 =? VerifierType6949) with false in Hd. change (VerifierType18453 =? VerifierType18453) with true in Hd.
    cbv iota zeta beta in Hd. injection Hd as Hd.
    rewrite Hsalt, Hsder, Hss, Hd. cbn [try_keys]. by rewrite Htry.
  - unfold client_verifier_key in Hvk. rewrite E18 in Hvk. destruct (us_verifierType sec =? VerifierType6949) eqn:E69; [|done].
    apply Z.eqb_eq in E69. destruct (Hlegacy E69) as (Hu & Hcl & Hsl).
    unfold aes192CBCDecrypt, aes192CBCDecryptRaw. rewrite Hk, Hdec. cbn [rbind].
    set (sl := match pkcs7Unpad (su_clientSessionKey c) with Ok u => Ok u | _ => Ok (su_clientSessionKey c, []) end).
    assert (exists v h, sl = Ok (E := o5_error) (v, h) /\ (v ++ h)%list = su_clientSessionKey c /\ (40 <= length v)%nat) as (v & h & -> & Hvh & Hv).
    { unfold sl, usable_key in *. destruct (pkcs7Unpad (su_clientSessionKey c)) as [[v h]| |] eqn:Eu.
      - exists v, h. split; [done|]. split; [by apply unpad_whole|done].
      - exists (su_clientSessionKey c), []. by rewrite app_nil_r.
      - exists (su_clientSessionKey c), []. by rewrite app_nil_r. }
    cbn [rbind fst]. rewrite Hss. unfold deriveCombinedKey.
    rewrite (proj2 (Nat.ltb_ge (length (su_serverSessionKey c)) 40)), (proj2 (Nat.ltb_ge (length v) 40)) by lia. cbn [orb rbind].
    unfold derivePasswordEncKey in Hd. rewrite E69 in Hd. cbn [Z.eqb] in Hd. change (VerifierType6949 =? VerifierType6949) with true in Hd.
    rewrite Hch. destruct (us_customHash sec).
    + unfold slice_to in *. cbn [fst snd negb] in *. rewrite !app_nil_r in Hd. rewrite app_nil_r, Hvh.
      rewrite (proj2 (Nat.leb_le 24 (length (su_clientSessionKey c)))), (proj2 (Nat.leb_le 24 (length (su_serverSessionKey c)))) in * by lia.
      cbn [rbind] in *. injection Hd as Hd.
      rewrite Hsalt, Hsder, Hd. cbn [try_keys rbind]. by rewrite Htry.
    + cbn [negb]. rewrite (proj2 (Nat.ltb_ge (length (su_serverSessionKey c)) 40)), (proj2 (Nat.ltb_ge (length (su_clientSessionKey c)) 40)) in Hd by lia.
      cbn [orb] in Hd. injection Hd as Hd.
      assert (take 24 (drop 16 v) = take 24 (drop 16 (su_clientSessionKey c))) as ->
        by (rewrite <- Hvh, drop_app_le, take_app_le by (rewrite ?length_drop; lia); done).
      rewrite Hd. cbn [try_keys rbind]. by rewrite Htry.
Qed.

(** The server of a login: verifier 18453 when the client can take it. *)
Definition login_server (modern : bool) (salt verifierKey salt18453 verifierKey18453 : bytes) : O5LogonServer :=
  let o5 := NewO5LogonServer salt verifierKey in
  if modern then UseVerifier18453 o5 salt18453 verifierKey18453 else o5.

(** What the challenge tells the client. *)
Definition advertised (s : O5LogonServer) : upstreamAuthSecrets :=
  {| us_verifierType := o5_verifierType s; us_customHash := o5_customHash s; us_salt := o5_salt s;
     us_pbkdf2ChkSalt := o5_pbkdf2ChkSalt s; us_pbkdf2VgenCount := o5_pbkdf2VgenCount s;
     us_pbkdf2SderCount := o5_pbkdf2SderCount s |}.

Lemma legacy_aes_key pw salt : deriveAESKey (DeriveO5LogonVerifierKey pw salt) = (sha1 (str_bytes pw ++ salt) ++ [0; 0; 0; 0])%list.
Proof.
  destruct (verifier_lengths pw salt) as [Hl _]. unfold zlen in Hl. unfold deriveAESKey.
  assert (length (DeriveO5LogonVerifierKey pw salt) = 24%nat) as Hl' by lia.
  rewrite Hl', take_ge by lia. cbn [Nat.sub replicate]. rewrite app_nil_r. unfold DeriveO5LogonVerifierKey.
  change (Z.to_nat O5LogonVerifierKeyLength) with 24%nat. pose proof (sha1_length (str_bytes pw ++ salt)%list) as Hs. unfold zlen in Hs.
  assert (length (sha1 (str_bytes pw ++ salt)%list) = 20%nat) as Hs' by lia. rewrite take_ge by lia. by rewrite Hs'.
Qed.

(** The keys are not told. *)
Lemma advertised_session modern salt salt18 vk1 wk1 k1 vk2 wk2 k2 chk :
  advertised (with_session (login_server modern salt vk1 salt18 wk1) k1 chk)
  = advertised (with_session (login_server modern salt vk2 salt18 wk2) k2 chk).
Proof. by destruct modern. Qed.

(** A challenge: the session, and its ciphertext under the key of the server. *)
Lemma challenge_inv modern salt vk salt18 vk18 key chk s encSess vfr :
  GenerateChallenge (login_server modern salt vk salt18 vk18) (Some key) chk = Ok (s, encSess, vfr) ->
  wf_bytes key -> zlen key = (if modern then 32 else 48) ->
  exists chkSalt enc,
    s = with_session (login_server modern salt vk salt18 vk18) key chkSalt /\ wf_bytes enc /\ length enc = length key
    /\ DecodeHex encSess = Ok enc /\ aesCBCDecryptZeroIV (effective_key s) enc false = Ok key.
Proof.
  intros Hg Hw Hl. unfold GenerateChallenge in Hg. destruct (if o5_customHash _ then _ else _) as [chkSalt|]; [|done].
  destruct modern; cbn [login_server] in *.
  - change (o5_verifierType (with_session _ key chkSalt) =? VerifierType18453) with true in Hg. cbv iota in Hg.
    destruct (aesCBCEncryptZeroIV _ key false) as [enc| |] eqn:E; try done. cbn [rbind] in Hg. injection Hg as <- <- <-.
    apply (decrypt_encrypt_truncated _ _ _ 2) in E as (H1 & H2 & H3); [|done|by apply (zlen_nat _ 32)].
    exists chkSalt, enc. split_and!; try done. by apply DecodeHex_upper.
  - change (o5_verifierType (with_session _ key chkSalt) =? VerifierType18453) with false in Hg. cbv iota in Hg.
    unfold aes192CBCEncryptTruncated, aes192CBCEncrypt in Hg.
    assert (forall k, (let! c := aesCBCEncryptZeroIV k key true in Ok (take (length key) c)) = aesCBCEncryptZeroIV k key false) as Htr
      by (intros k; unfold aesCBCEncryptZeroIV; by destruct (key_ok k)).
    rewrite Htr in Hg. destruct (aesCBCEncryptZeroIV _ key false) as [enc| |] eqn:E; try done. cbn [rbind] in Hg. injection Hg as <- <- <-.
    apply (decrypt_encrypt_truncated _ _ _ 3) in E as (H1 & H2 & H3); [|done|by apply (zlen_nat _ 48)].
    exists chkSalt, enc. split_and!; try done. by apply DecodeHex_upper.
Qed.

(** The verifier key of the client is the one stored for the password. *)
Lemma client_key_stored modern pw salt salt18 key chkSalt s :
  s = with_session (login_server modern salt (DeriveO5LogonVerifierKey pw salt) salt18 (DeriveO5LogonVerifier18453Key pw salt18)) key chkSalt ->
  exists speedy, client_verifier_key pw (advertised s) = Ok (effective_key s, speedy).
Proof.
  intros ->. destruct modern; unfold client_verifier_key, effective_key; cbn -[deriveAESKey DeriveO5LogonVerifierKey DeriveO5LogonVerifier18453Key O5LogonPbkdf2VgenCount].
  - by eexists.
  - exists []. by rewrite legacy_aes_key.
Qed.

Lemma decrypted_length key enc d n : wf_bytes enc -> length enc = (16 * n)%nat -> aesCBCDecryptZeroIV key enc false = Ok d -> length d = (16 * n)%nat.
Proof.
  intros Hw Hl. unfold aesCBCDecryptZeroIV. destruct (key_ok key); [|done]. destruct (_ =? 0); [|done]. intros [= <-].
  destruct wf_zero_iv as [H1 H2]. replace (blocks enc) with n by (unfold blocks; rewrite Hl, Nat.mul_comm, Nat.div_mul; lia).
  by apply cbc_decrypt_block.
Qed.

(** A client that knows the password whose verifier is stored proves it: from its
    answer to the challenge the server recovers the password and the key it was
    encrypted under, with the SHA-1 verifier as with the PBKDF2 one.  (With the
    former, provided the session key drawn does not end in more than eight bytes
    that look like padding.) *)
Theorem o5logon_roundtrip modern pw salt salt18 key chk s encSess vfr draws prefix prefix' c :
  GenerateChallenge (login_server modern salt (DeriveO5LogonVerifierKey pw salt) salt18 (DeriveO5LogonVerifier18453Key pw salt18))
    (Some key) chk = Ok (s, encSess, vfr) ->
  wf_bytes key -> zlen key = (if modern then 32 else 48) ->
  computeUpstreamAuthSecrets draws (Some prefix) prefix' pw encSess (advertised s) = Ok c ->
  wf_bytes (su_clientSessionKey c) -> length (su_clientSessionKey c) = length (su_serverSessionKey c) ->
  (modern = false -> usable_key (su_clientSessionKey c)) ->
  wf_bytes prefix -> zlen prefix = 16 -> isPrintableASCIIRun (str_bytes pw) = true ->
  DecryptPassword s (su_encClientSessKey c) (su_encPassword c) = Ok (with_combined s (su_combined c), pw).
Proof.
  intros Hg Hw Hl Hc Hwc Hlc Hu Hwp Hlp Hpw. destruct (challenge_inv _ _ _ _ _ _ _ _ _ _ Hg Hw Hl) as (chkSalt & enc & Es & Hwe & Hle & Hde & Hdec).
  destruct (client_key_stored _ _ _ _ _ _ _ Es) as [speedy Hvk].
  pose proof (compute_inv _ _ _ _ _ _ _ Hc) as (sp & es & ec & ep & Hvk' & Hes & Hsk & _).
  rewrite Hvk in Hvk'. injection Hvk' as Ek _. rewrite Hde in Hes. injection Hes as <-. rewrite <- Ek, Hdec in Hsk. injection Hsk as Esk.
  rewrite <- Esk in Hlc. unfold zlen in Hl.
  apply (exchange s (advertised s) draws prefix prefix' pw encSess c (if modern then 2 else 3)); try done.
  - by rewrite <- Esk, Es.
  - rewrite Hlc. destruct modern; lia.
  - rewrite Es. by destruct modern.
  - rewrite Es, Hlc, <- Esk. destruct modern; [done|]. intros _. split; [by apply Hu|]. lia.
Qed.

(** C13. Any of a user's keys will do when they share their salts: the challenge is
    made for one of them, and the server's view of it under another, by
    [CloneForCandidate], recovers that other key from its owner's answer. *)
Theorem o5logon_any_key modern pw0 pw salt salt18 key chk s encSess vfr draws prefix prefix' c :
  GenerateChallenge (login_server modern salt (DeriveO5LogonVerifierKey pw0 salt) salt18 (DeriveO5LogonVerifier18453Key pw0 salt18))
    (Some key) chk = Ok (s, encSess, vfr) ->
  wf_bytes key -> zlen key = (if modern then 32 else 48) ->
  computeUpstreamAuthSecrets draws (Some prefix) prefix' pw encSess (advertised s) = Ok c ->
  wf_bytes (su_clientSessionKey c) -> length (su_clientSessionKey c) = length (su_serverSessionKey c) ->
  (modern = false -> usable_key (su_clientSessionKey c)) ->
  wf_bytes prefix -> zlen prefix = 16 -> isPrintableASCIIRun (str_bytes pw) = true ->
  exists s',
    CloneForCandidate s (if modern then salt18 else salt)
      (if modern then DeriveO5LogonVerifier18453Key pw salt18 else DeriveO5LogonVerifierKey pw salt) encSess = Ok s'
    /\ DecryptPassword s' (su_encClientSessKey c) (su_encPassword c) = Ok (with_combined s' (su_combined c), pw).
Proof.
  intros Hg Hw Hl Hc Hwc Hlc Hu Hwp Hlp Hpw. destruct (challenge_inv _ _ _ _ _ _ _ _ _ _ Hg Hw Hl) as (chkSalt & enc & Es & Hwe & Hle & Hde & _).
  pose proof (compute_inv _ _ _ _ _ _ _ Hc) as (sp & es & ec & ep & Hvk & Hes & Hsk & _).
  rewrite Hde in Hes. injection Hes as <-. unfold zlen in Hl.
  set (s' := with_session (login_server modern salt (DeriveO5LogonVerifierKey pw salt) salt18 (DeriveO5LogonVerifier18453Key pw salt18))
               (su_serverSessionKey c) chkSalt).
  assert (advertised s' = advertised s) as Ead by (rewrite Es; apply advertised_session).
  destruct (client_key_stored _ _ _ _ _ _ s' eq_refl) as [speedy Hvk']. rewrite Ead, Hvk in Hvk'. injection Hvk' as Ek _.
  assert (length (su_serverSessionKey c) = length key) as Hls.
  { rewrite <- Hle. destruct modern.
    - rewrite (decrypted_length _ _ _ 2 Hwe ltac:(lia) Hsk). lia.
    - rewrite (decrypted_length _ _ _ 3 Hwe ltac:(lia) Hsk). lia. }
  exists s'. split.
  - unfold CloneForCandidate. rewrite Hde, Es. cbn [rbind]. rewrite Ek in Hsk. revert Hsk. unfold s', effective_key.
    destruct modern; cbn -[deriveAESKey DeriveO5LogonVerifierKey DeriveO5LogonVerifier18453Key O5LogonPbkdf2VgenCount aesCBCDecryptZeroIV];
      unfold aes192CBCDecryptRaw; by intros ->.
  - apply (exchange s' (advertised s) draws prefix prefix' pw encSess c (if modern then 2 else 3)); try done; rewrite <- ?Ead; try done.
    + rewrite Hlc, Hls. destruct modern; lia.
    + unfold s'. by destruct modern.
    + unfold s'. rewrite Hlc, Hls. destruct modern; [done|]. intros _. split; [by apply Hu|]. lia.
Qed.

End Exchange.

(** ** Witnesses *)

(** A toy cipher: each byte is shifted by the first byte of the key. *)
Module SampleO5.
Definition shift (n : Z) (b : bytes) : bytes := map (fun x => (x + n) mod 256) b.

Lemma shift_block n b : zlen b = 16 -> wf_bytes (shift n b) /\ zlen (shift n b) = 16.
Proof.
  intros Hl. split; [|by unfold zlen, shift in *; rewrite length_map].
  apply Forall_forall. intros x (y & -> & _)%list_elem_of_fmap. apply Z.mod_pos_bound. lia.
Qed.

Lemma unshift n b : wf_bytes b -> shift (- n) (shift n b) = b.
Proof.
  unfold shift. intros Hb. rewrite map_map. induction Hb as [|x b Hx Hb IH]; [done|]. cbn [map]. f_equal; [|done].
  unfold is_byte in Hx. rewrite Z.add_mod_idemp_l by lia. replace (x + n + - n) with x by lia. apply Z.mod_small. lia.
Qed.

Definition head (k : bytes) : Z := match k with x :: _ => x | [] => 0 end.

Definition toy_cipher : BlockCipher.
Proof.
  refine {| aes_encrypt k b := shift (head k) b; aes_decrypt k b := shift (- head k) b; md5 m := pad_key m 16 |}; intros.
  - by apply shift_block.
  - by apply shift_block.
  - by apply unshift.
  - by apply zlen_pad_key.
Defined.

#[export] Existing Instance toy_cipher.
#[export] Existing Instance toy_hashes.
Definition salt : bytes := [1; 2; 3; 4; 5; 6; 7; 8; 9; 10].
Definition key48 : bytes := map Z.of_nat (seq 1 48).
Definition client48 : bytes := map Z.of_nat (seq 60 48).
Definition prefix : bytes := replicate 16 7.
Definition legacy pw := GenerateChallenge (NewO5LogonServer salt (DeriveO5LogonVerifierKey pw salt)) (Some key48) None.
End SampleO5.

Import SampleO5.

Lemma o5logon_roundtrip_witness :
  exists s encSess vfr c, legacy "secret" = Ok (s, encSess, vfr)
    /\ DecryptPassword s (su_encClientSessKey c) (su_encPassword c) = Ok (with_combined s (su_combined c), "secret").
Proof.
  destruct (legacy "secret") as [[[s encSess] vfr]| |] eqn:Eg; [|vm_compute in Eg; discriminate..].
  destruct (computeUpstreamAuthSecrets [client48] (Some prefix) None "secret" encSess (advertised s)) as [c| |] eqn:Ec;
    [|vm_compute in Eg; injection Eg as <- <- <-; vm_compute in Ec; discriminate..].
  exists s, encSess, vfr, c. split; [done|].
  assert (su_clientSessionKey c = client48 /\ length (su_serverSessionKey c) = 48%nat) as [E1 E2]
    by (vm_compute in Eg; injection Eg as <- <- <-; vm_compute in Ec; injection Ec as <-; split; reflexivity).
  refine (o5logon_roundtrip false "secret" salt [] key48 None s encSess vfr [client48] prefix None c Eg _ _ Ec _ _ _ _ _ _);
    rewrite ?E1, ?E2; try reflexivity; try (apply wf_bytes_check; reflexivity).
Defined.

Lemma o5logon_any_key_witness :
  exists s encSess vfr c s', legacy "first" = Ok (s, encSess, vfr)
    /\ CloneForCandidate s salt (DeriveO5LogonVerifierKey "second" salt) encSess = Ok s'
    /\ DecryptPassword s' (su_encClientSessKey c) (su_encPassword c) = Ok (with_combined s' (su_combined c), "second").
Proof.
  destruct (legacy "first") as [[[s encSess] vfr]| |] eqn:Eg; [|vm_compute in Eg; discriminate..].
  destruct (computeUpstreamAuthSecrets [client48] (Some prefix) None "second" encSess (advertised s)) as [c| |] eqn:Ec;
    [|vm_compute in Eg; injection Eg as <- <- <-; vm_compute in Ec; discriminate..].
  assert (su_clientSessionKey c = client48 /\ length (su_serverSessionKey c) = 48%nat) as [E1 E2]
    by (vm_compute in Eg; injection Eg as <- <- <-; vm_compute in Ec; injection Ec as <-; split; reflexivity).
  destruct (o5logon_any_key false "first" "second" salt [] key48 None s encSess vfr [client48] prefix None c Eg) as (s' & H1 & H2);
    [..|exists s, encSess, vfr, c, s'; by split_and!]; [apply wf_bytes_check; reflexivity|reflexivity|exact Ec|..];
    rewrite ?E1, ?E2; try reflexivity; try (apply wf_bytes_check; reflexivity).
Defined.
