(* ===== verification/OracleAuth.v ===== *)
(** * The authentication messages of an Oracle login
    ([internal/proxy/oracle/ttc_auth.go], [phase1_forward.go], [phase2_forward.go],
    the parsers and builders of [upstream_auth_client.go])

    Both phases carry a preamble, a user name and a dictionary of key/value pairs;
    thin clients write lengths as compressed integers, wide (OCI) clients as four
    little-endian bytes.  The proxy reads the client's messages, writes the
    challenge, and forwards the client's own messages upstream with the user name
    and three values replaced.  A reader returns what it read and what follows. *)

From Stdlib Require Import ZArith Lia List Bool String Ascii.
From stdpp Require Import base list gmap strings.
From S2P Require Import Prelude GoStrings Encoding TNS PgText MySqlSession OracleValues OracleTtc OracleRows O5Logon.

Open Scope string_scope.
Open Scope Z_scope.

Inductive auth_msg_error :=
| ErrAuthPhase1TooShort
| ErrAuthPhase1BadUsername
| ErrAuthPhase2TooShort
| ErrAuthPhase2MissingSessKey
| ErrAuthPhase1Rewrite
| ErrAuthPhase2Rewrite
| ErrPhase1MissingSessKey
| ErrPhase1MissingVerifierData
| ErrInvalidHex
| ErrInvalidHexLength.

Definition authKeyUsername : string := "AUTH_TERMINAL".
Definition authKeySessKey : string := "AUTH_SESSKEY".
Definition authKeyVfrData : string := "AUTH_VFR_DATA".
Definition authKeyPassword : string := "AUTH_PASSWORD".
Definition authKeyPbkdf2CskSalt : string := "AUTH_PBKDF2_CSK_SALT".
Definition authKeyPbkdf2VgenCount : string := "AUTH_PBKDF2_VGEN_COUNT".
Definition authKeyPbkdf2SderCount : string := "AUTH_PBKDF2_SDER_COUNT".
Definition authKeyGloballyUniqueDBID : string := "AUTH_GLOBALLY_UNIQUE_DBID".
Definition authKeyProgramNM : string := "AUTH_PROGRAM_NM".
Definition dbbatGloballyUniqueDBID : string := "DBBA700000000000DBBA700000000000".

Definition knownAuthKeys : list string :=
  [authKeyUsername; authKeySessKey; authKeyVfrData; authKeyPassword; authKeyProgramNM; "AUTH_MACHINE"; "AUTH_PID";
   "AUTH_SID"; "AUTH_ACL"; "AUTH_ALTER_SESSION"; "AUTH_LOGICAL_SESSION_ID"].
Definition known_key (name : string) : bool := existsb (String.eqb name) knownAuthKeys.

Definition PiggybackSubAuth1 : Z := 118.
Definition PiggybackSubAuth2 : Z := 115.

Definition auth_prefix : bytes := str_bytes "AUTH_".
Definition byte_at (i : Z) (b : bytes) : Z := nth (Z.to_nat i) b 0.
Definition from_at (i : Z) (b : bytes) : bytes := drop (Z.to_nat i) b.
Definition upto (i : Z) (b : bytes) : bytes := take (Z.to_nat i) b.

(** ** Writers *)

Fixpoint strip_zeros (b : bytes) : bytes :=
  match b with 0 :: b => strip_zeros b | _ => b end.

(** [n] is a uint64. *)
Definition ttcCompressedUint (n : Z) : bytes :=
  if n =? 0 then [0] else let trimmed := strip_zeros (be_put 8 n) in zlen trimmed :: trimmed.

(** The chunks of 252 bytes of a long value. *)
Fixpoint clr_put (fuel : nat) (data : bytes) : bytes :=
  match fuel, data with
  | S fuel, _ :: _ => let chunk := take 252 data in (zlen chunk :: chunk ++ clr_put fuel (drop 252 data))%list
  | _, _ => []
  end.

Definition ttcClr (data : bytes) : bytes :=
  if zlen data =? 0 then [0]
  else if zlen data <? 252 then zlen data :: data
  else (254 :: clr_put (length data) data ++ [0])%list.

(** The flag of a pair is an int, written as a uint64. *)
Definition ttcKeyVal (key value : string) (flag : Z) : bytes :=
  (ttcCompressedUint (slen key) ++ ttcClr (str_bytes key) ++ ttcCompressedUint (slen value) ++ ttcClr (str_bytes value)
   ++ ttcCompressedUint flag)%list.

Definition ttcKeyValWide (key value : string) (flag : Z) : bytes :=
  (le_put 4 (slen key) ++ ttcClr (str_bytes key) ++ le_put 4 (slen value) ++ ttcClr (str_bytes value) ++ le_put 4 flag)%list.

Definition kv (wide : bool) : string -> string -> Z -> bytes := if wide then ttcKeyValWide else ttcKeyVal.

Definition nul : string := String (chr 0) EmptyString.

Definition buildAuthChallenge (encServerSessKey authVfrData pbkdf2ChkSaltHex : string)
    (vgenCount sderCount verifierType : Z) (wide : bool) : bytes :=
  let modern := negb (String.eqb pbkdf2ChkSaltHex "") in
  let pairs := if modern then 6 else 2 in
  let sessKeyFlag := if verifierType =? VerifierType18453 then 0 else 1 in
  ((if wide then [32; 0; TTCFuncResponse] ++ le_put 2 pairs else [0; 0; TTCFuncResponse] ++ ttcCompressedUint pairs)
   ++ kv wide authKeySessKey encServerSessKey sessKeyFlag
   ++ kv wide authKeyVfrData authVfrData verifierType
   ++ (if modern then
         kv wide authKeyPbkdf2CskSalt pbkdf2ChkSaltHex 0
         ++ kv wide authKeyPbkdf2VgenCount (FormatInt vgenCount) 0
         ++ kv wide authKeyPbkdf2SderCount (FormatInt sderCount) 0
         ++ kv wide (authKeyGloballyUniqueDBID ++ nul) dbbatGloballyUniqueDBID 0
       else []))%list.

(** The end-of-call summaries, as captured from real servers. *)
Definition buildAuthChallengeEndMarker (verifierType : Z) (wide : bool) : bytes :=
  if wide then
    ([4; 1; 0; 0; 0; 35; 0; 1] ++ replicate 40 0 ++ [2; 0; 0; 0; 0; 0; 0; 54; 1] ++ replicate 15 0
     ++ [176; 196; 6; 181; 255; 255] ++ replicate 74 0 ++ [29])%list
  else if verifierType =? VerifierType18453 then
    ([4; 1; 1; 1; 60] ++ replicate 19 0 ++ [1] ++ replicate 10 0)%list
  else ([4; 1; 1; 1; 2] ++ replicate 19 0 ++ [1] ++ replicate 8 0)%list.

Definition buildAuthFailed (oraCode : Z) (message : string) : bytes :=
  ([0; 0; TTCFuncResponse] ++ ttcCompressedUint oraCode ++ ttcClr (str_bytes message))%list.

(** A data packet with a 4-byte length. *)
Definition encodeV315DataPacket (payload : bytes) : bytes :=
  (be_put 4 (u32 (8 + zlen payload)) ++ [TNSPacketTypeData; 0; 0; 0] ++ payload)%list.

(** ** Which encoding *)

Definition isIdentifierByte (b : Z) : bool :=
  ((65 <=? b) && (b <=? 90)) || ((97 <=? b) && (b <=? 122)) || ((48 <=? b) && (b <=? 57))
  || (b =? 95) || (b =? 36) || (b =? 35).
Definition isUsernameByte (b : Z) : bool := isIdentifierByte b || (b =? 46) || (b =? 45) || (b =? 64).
Definition isIdentifierRun (b : bytes) : bool := forallb isIdentifierByte b.

Fixpoint identifier_length (b : bytes) : Z :=
  match b with c :: b => if isIdentifierByte c then 1 + identifier_length b else 0 | [] => 0 end.

(** The key at [i] is framed as wide clients do. *)
Definition wide_key_at (payload : bytes) (i : Z) : bool :=
  let keyLen := identifier_length (from_at i payload) in
  (5 <=? i) && (5 <=? keyLen) && (byte_at (i - 1) payload =? keyLen)
  && (byte_at (i - 2) payload =? 0) && (byte_at (i - 3) payload =? 0) && (byte_at (i - 4) payload =? 0).

Fixpoint wide_from (fuel : nat) (payload : bytes) (off : Z) : bool :=
  match fuel with
  | O => false
  | S fuel =>
      let rel := findBytes (from_at off payload) auth_prefix in
      if rel <? 0 then false
      else let i := off + rel in if wide_key_at payload i then true else wide_from fuel payload (i + 5)
  end.

Definition payloadUsesWideKVEncoding (payload : bytes) : bool := wide_from (S (length payload)) payload 0.

(** ** The user name of phase 1 *)

Definition locateWideUsername (body : bytes) (authIdx : Z) : option (Z * Z) :=
  if authIdx <? 6 then None
  else
    let end_ := authIdx - 5 in
    let fits l := (0 <=? end_ - l - 1) && (byte_at (end_ - l - 1) body =? l)
                  && isPrintableASCIIRun (take (Z.to_nat l) (from_at (end_ - l) body)) in
    let start := fold_left (fun start l => if fits l then end_ - l else start) (map Z.of_nat (seq 1 30)) 0 in
    if start =? 0 then None else Some (start, end_).

(** At most [n] bytes that no name contains, from the end. *)
Fixpoint skip_framing (n : nat) (before : bytes) : option bytes :=
  match before with
  | c :: rest =>
      if isUsernameByte c then Some before
      else match n with O => None | S n => skip_framing n rest end
  | [] => Some []
  end.

Fixpoint username_run (n : nat) (before : bytes) : nat :=
  match n, before with
  | S n, c :: before => if isUsernameByte c then S (username_run n before) else 0%nat
  | _, _ => 0%nat
  end.

Definition locateThinUsername (body : bytes) (authIdx : Z) : option (Z * Z) :=
  match skip_framing 8 (rev (upto authIdx body)) with
  | None => None
  | Some before =>
      let n := username_run 30 before in
      if Nat.eqb n 0 then None else Some (zlen before - Z.of_nat n, zlen before)
  end.

Definition span (body : bytes) (start end_ : Z) : bytes := take (Z.to_nat (end_ - start)) (from_at start body).

Definition locateAnchoredUsername (body : bytes) : option (Z * Z) :=
  let authIdx := findBytes body auth_prefix in
  if authIdx <? 2 then None
  else
    match (if payloadUsesWideKVEncoding body then locateWideUsername body authIdx else locateThinUsername body authIdx) with
    | None => None
    | Some (start, end_) => if known_key (ToUpper (bytes_str (span body start end_))) then None else Some (start, end_)
    end.

Definition usernameBeforeAuthKV (payload : bytes) : option string :=
  match locateAnchoredUsername payload with
  | None => None
  | Some (start, end_) => Some (ToUpper (bytes_str (span payload start end_)))
  end.

Definition readUsernameAtOffset (payload : bytes) (userIDLen : Z) : option string :=
  if (userIDLen <=? 0) || (zlen payload <? userIDLen) then None
  else
    let candidate := upto userIDLen payload in
    let name := ToUpper (bytes_str candidate) in
    if negb (isPrintableASCIIRun candidate) || known_key name then None else Some name.

(** A candidate of [strLen] bytes at the head of [data]. *)
Definition identifier_at (data : bytes) (strLen maxLen : Z) : option string :=
  if (strLen <? 2) || (maxLen <? strLen) || (zlen data <? strLen) then None
  else
    let candidate := upto strLen data in
    let name := ToUpper (bytes_str candidate) in
    if negb (isIdentifierRun candidate) || known_key name then None else Some name.

(** The first loop: [01 len 01 01 name]. *)
Fixpoint marked_name (payload : bytes) : option string :=
  match payload with
  | [] => None
  | _ :: rest =>
      match payload with
      | 1 :: strLen :: 1 :: 1 :: (_ :: _) as data =>
          match identifier_at (drop 4 payload) strLen 32 with Some name => Some name | None => marked_name rest end
      | _ => marked_name rest
      end
  end.

(** The second loop: [len name], not in the last two bytes. *)
Fixpoint prefixed_name (payload : bytes) : option string :=
  match payload with
  | strLen :: ((_ :: _ :: _) as rest) =>
      match identifier_at rest strLen 128 with Some name => Some name | None => prefixed_name rest end
  | _ => None
  end.

Definition parseAuthPhase1Fallback (payload : bytes) : res auth_msg_error string :=
  match marked_name payload with
  | Some name => Ok name
  | None => match prefixed_name payload with Some name => Ok name | None => Err ErrAuthPhase1BadUsername end
  end.

Definition parseAuthPhase1 (tnsDataPayload : bytes) : res auth_msg_error string :=
  guard! ttcDataFlagsSize + 4 <=? zlen tnsDataPayload else ErrAuthPhase1TooShort in
  match usernameBeforeAuthKV tnsDataPayload with
  | Some name => Ok name
  | None =>
      let fallback := parseAuthPhase1Fallback (drop 4 tnsDataPayload) in
      match readCompressedInt (drop 6 tnsDataPayload) with
      | None => fallback
      | Some (userIDLen, payload) =>
          if (userIDLen <=? 0) || (128 <? userIDLen) then fallback
          else
            match readCompressedInt payload with
            | None => fallback
            | Some (_, payload) =>
                if zlen payload <? 5 then fallback
                else
                  let payload := drop 5 payload in
                  match readUsernameAtOffset payload userIDLen with
                  | Some name => Ok name
                  | None =>
                      match payload with
                      | c :: rest =>
                          if c =? userIDLen
                          then match readUsernameAtOffset rest userIDLen with Some name => Ok name | None => fallback end
                          else fallback
                      | [] => fallback
                      end
                  end
            end
      end
  end.

(** ** Key/value pairs of phase 2 *)

(** The value of a pair and what follows its flag. *)
Definition readKVValue (buf : bytes) : option (bytes * bytes) :=
  match readCompressedInt buf with
  | None => None
  | Some (vLen, rest) =>
      if vLen <? 0 then None
      else
        match readCLR rest with
        | None => None
        | Some (clrVal, rest) =>
            Some (clrVal, match readCompressedInt rest with Some (_, rest) => rest | None => drop 1 rest end)
        end
  end.

(** A pair with an AUTH_ key at the head. *)
Definition pair_here (payload : bytes) : option (string * string * bytes) :=
  match readCompressedInt payload with
  | None => None
  | Some (kLen, rest) =>
      if (kLen <=? 0) || (128 <? kLen) || (zlen rest =? 0) then None
      else
        match readCLR rest with
        | None => None
        | Some (clrKey, rest) =>
            let keyStr := ToUpper (bytes_str clrKey) in
            if (zlen clrKey =? 0) || negb (HasPrefix keyStr "AUTH_") then None
            else
              match readKVValue rest with
              | None => None
              | Some (val, rest) => Some (keyStr, bytes_str val, rest)
              end
        end
  end.

Fixpoint scan_pairs (fuel : nat) (payload : bytes) : list (string * string) :=
  match fuel with
  | O => []
  | S fuel =>
      if zlen payload <=? 4 then []
      else
        match pair_here payload with
        | None => scan_pairs fuel (drop 1 payload)
        | Some (key, val, rest) => (key, val) :: scan_pairs fuel rest
        end
  end.

Definition scanTTCKeyValPairs (payload : bytes) : list (string * string) := scan_pairs (length payload) payload.

Definition findKVByKeyBytes (payload : bytes) (key : string) : string :=
  let idx := findBytes payload (str_bytes key) in
  if idx <? 0 then ""
  else
    match readCompressedInt (from_at (idx + slen key) payload) with
    | None | Some (_, []) => ""
    | Some (_, rest) => match readCLR rest with Some (val, _) => bytes_str val | None => "" end
    end.

Definition findKVByKeyBytesWide (payload : bytes) (key : string) : string :=
  let idx := findBytes payload (str_bytes key) in
  if idx <? 0 then ""
  else
    let tail := from_at (idx + slen key) payload in
    if zlen tail <? 4 then ""
    else match readCLR (drop 4 tail) with Some (val, _) => bytes_str val | None => "" end.

(** The last pair with the key, else "". *)
Definition last_value (key : string) (pairs : list (string * string)) : string :=
  fold_left (fun v p => if String.eqb p.1 key then p.2 else v) pairs "".

(** AUTH_SESSKEY and AUTH_PASSWORD. *)
Definition parseAuthPhase2 (tnsDataPayload : bytes) : res auth_msg_error (string * string) :=
  guard! ttcDataFlagsSize + 4 <=? zlen tnsDataPayload else ErrAuthPhase2TooShort in
  let payload := drop 4 tnsDataPayload in
  let pairs := scanTTCKeyValPairs payload in
  let findVal := if payloadUsesWideKVEncoding payload then findKVByKeyBytesWide payload else findKVByKeyBytes payload in
  let value key := let v := last_value key pairs in if String.eqb v "" then findVal key else v in
  let sessKey := value authKeySessKey in
  guard! negb (String.eqb sessKey "") else ErrAuthPhase2MissingSessKey in
  Ok (sessKey, value authKeyPassword).

Definition clientDeclaredProgramName (pkt : option TNSPacket) : string :=
  match pkt with
  | None => ""
  | Some pkt =>
      if payloadUsesWideKVEncoding (t_Payload pkt) then findKVByKeyBytesWide (t_Payload pkt) authKeyProgramNM
      else findKVByKeyBytes (t_Payload pkt) authKeyProgramNM
  end.

(** ** Reading a dictionary *)

(** The chunks of a long value whose lengths are compressed integers; [offset] is
    where they start in the buffer, of which the code computes the end as an int. *)
Fixpoint big_chunks (fuel : nat) (offset : Z) (buf data : bytes) : res unit (option (bytes * bytes)) :=
  match fuel, buf with
  | S fuel, _ :: _ =>
      match readCompressedInt buf with
      | None => Ok None
      | Some (chunkLen, rest) =>
          let offset := offset + (zlen buf - zlen rest) in
          if chunkLen =? 0 then Ok (Some (data, rest))
          else if i64 (offset + chunkLen) <? offset then Panic
          else if zlen rest <? chunkLen then Ok None
          else big_chunks fuel (offset + chunkLen) (from_at chunkLen rest) (data ++ upto chunkLen rest)%list
      end
  | _, _ => Ok (Some (data, buf))
  end.

Definition readCLRVariant (buf : bytes) (bigChunks : bool) : res unit (option (bytes * bytes)) :=
  match buf with
  | 254 :: rest => if bigChunks then big_chunks (length rest) 1 rest [] else Ok (readCLR buf)
  | _ => Ok (readCLR buf)
  end.

Record authKVPairResult := { kp_Key : bytes; kp_Value : bytes; kp_Flag : Z; kp_Rest : bytes }.

(** A value that is there when its length says so. *)
Definition clr_if (present : bool) (buf : bytes) : option (bytes * bytes) :=
  if present then readCLR buf else Some ([], buf).

Definition readAuthKVPairWide (buf : bytes) : option authKVPairResult :=
  let int4 b := if zlen b <? 4 then None else Some (le_get (take 4 b), drop 4 b) in
  match int4 buf with
  | None => None
  | Some (keyLen, rest) =>
      match clr_if (0 <? keyLen) rest with
      | None => None
      | Some (k, rest) =>
          match int4 rest with
          | None => None
          | Some (vLen, rest) =>
              match clr_if (0 <? vLen) rest with
              | None => None
              | Some (v, rest) =>
                  match int4 rest with
                  | None => None
                  | Some (flag, rest) => Some {| kp_Key := k; kp_Value := v; kp_Flag := flag; kp_Rest := rest |}
                  end
              end
          end
      end
  end.

Definition readAuthKVPair (buf : bytes) (wide bigChunks : bool) : res unit (option authKVPairResult) :=
  if wide then Ok (readAuthKVPairWide buf)
  else
    match readCompressedInt buf with
    | None => Ok None
    | Some (keyLen, rest) =>
        match clr_if (0 <? keyLen) rest with
        | None => Ok None
        | Some (k, rest) =>
            match readCompressedInt rest with
            | None => Ok None
            | Some (vLen, rest) =>
                let! v := (if 0 <? vLen then readCLRVariant rest bigChunks else Ok (Some ([], rest))) in
                match v with
                | None => Ok None
                | Some (v, rest) =>
                    match readCompressedInt rest with
                    | None => Ok None
                    | Some (flag, rest) => Ok (Some {| kp_Key := k; kp_Value := v; kp_Flag := flag; kp_Rest := rest |})
                    end
                end
            end
        end
    end.

(** ** The challenge, as the proxy reads it from its upstream *)

Record upstreamAuthResponse := {
  ar_encServerSessKey : string;
  ar_salt : string;
  ar_verifierType : Z;
  ar_pbkdf2ChkSalt : string;
  ar_pbkdf2VgenCount : Z;
  ar_pbkdf2SderCount : Z;
  ar_OracleErr : Z;
  ar_OracleErrText : string;
  ar_properties : gmap string string;
  ar_challengeTrailer : bytes
}.

Definition empty_response : upstreamAuthResponse :=
  {| ar_encServerSessKey := ""; ar_salt := ""; ar_verifierType := 0; ar_pbkdf2ChkSalt := ""; ar_pbkdf2VgenCount := 0;
     ar_pbkdf2SderCount := 0; ar_OracleErr := 0; ar_OracleErrText := ""; ar_properties := ∅; ar_challengeTrailer := [] |}.

Definition recordAuthProperty (key value : string) (flag : Z) (r : upstreamAuthResponse) : upstreamAuthResponse :=
  let named k := String.eqb key k in
  let count k old := if named k then match ParseInt value with Some n => n | None => old end else old in
  {| ar_encServerSessKey := if named "AUTH_SESSKEY" then value else ar_encServerSessKey r;
     ar_salt := if named "AUTH_VFR_DATA" then value else ar_salt r;
     ar_verifierType := if named "AUTH_VFR_DATA" then flag else ar_verifierType r;
     ar_pbkdf2ChkSalt := if named "AUTH_PBKDF2_CSK_SALT" then value else ar_pbkdf2ChkSalt r;
     ar_pbkdf2VgenCount := count "AUTH_PBKDF2_VGEN_COUNT" (ar_pbkdf2VgenCount r);
     ar_pbkdf2SderCount := count "AUTH_PBKDF2_SDER_COUNT" (ar_pbkdf2SderCount r);
     ar_OracleErr := ar_OracleErr r; ar_OracleErrText := ar_OracleErrText r;
     ar_properties := <[key := value]> (ar_properties r); ar_challengeTrailer := ar_challengeTrailer r |}.

Definition with_error (r : upstreamAuthResponse) (code : Z) (text : string) (trailer : bytes) : upstreamAuthResponse :=
  {| ar_encServerSessKey := ar_encServerSessKey r; ar_salt := ar_salt r; ar_verifierType := ar_verifierType r;
     ar_pbkdf2ChkSalt := ar_pbkdf2ChkSalt r; ar_pbkdf2VgenCount := ar_pbkdf2VgenCount r;
     ar_pbkdf2SderCount := ar_pbkdf2SderCount r; ar_OracleErr := code; ar_OracleErrText := text;
     ar_properties := ar_properties r; ar_challengeTrailer := trailer |}.

Fixpoint line_run (b : bytes) : bytes :=
  match b with c :: b => if (c =? 0) || (c =? 10) then [] else c :: line_run b | [] => [] end.

Definition parseAuthSummary (buf : bytes) (r : upstreamAuthResponse) : upstreamAuthResponse :=
  let idx := findBytes buf (str_bytes "ORA-") in
  if idx <? 0 then r
  else
    let text := line_run (from_at idx buf) in
    let code :=
      if 9 <=? zlen text
      then match ParseInt (bytes_str (take 5 (drop 4 text))) with Some n => n | None => ar_OracleErr r end
      else ar_OracleErr r in
    with_error r code (bytes_str text) (ar_challengeTrailer r).

Fixpoint dictionary_pairs (n : nat) (wide : bool) (buf : bytes) (r : upstreamAuthResponse) :
    res unit (upstreamAuthResponse * option bytes) :=
  match n with
  | O => Ok (r, Some buf)
  | S n =>
      let! pair := readAuthKVPair buf wide false in
      match pair with
      | None => Ok (r, None)
      | Some p => dictionary_pairs n wide (kp_Rest p) (recordAuthProperty (bytes_str (kp_Key p)) (bytes_str (kp_Value p)) (kp_Flag p) r)
      end
  end.

(** What follows the dictionary, when all of it is there; the pairs read are
    recorded in either case.  A count beyond the buffer fails at its end: the
    number of rounds is bounded by the bytes. *)
Definition parseAuthKVDictionary (buf : bytes) (r : upstreamAuthResponse) (wide : bool) : res unit (upstreamAuthResponse * option bytes) :=
  let count := if wide then (if zlen buf <? 2 then None else Some (le_get (take 2 buf), drop 2 buf)) else readCompressedInt buf in
  match count with
  | None => Ok (r, None)
  | Some (dictLen, rest) => dictionary_pairs (Z.to_nat (Z.min dictLen (zlen rest + 1))) wide rest r
  end.

Fixpoint parseAuthMessageStream (fuel : nat) (buf : bytes) (r : upstreamAuthResponse) (wide : bool) :
    res unit (upstreamAuthResponse * bool) :=
  match fuel, buf with
  | S fuel, msgCode :: rest =>
      if msgCode =? 8 then
        let! ' (r, after) := parseAuthKVDictionary rest r wide in
        match after with
        | None => Ok (r, false)
        | Some after =>
            Ok (match after with c :: _ => if c =? TTCFuncOERR then with_error r (ar_OracleErr r) (ar_OracleErrText r) after else r | [] => r end, true)
        end
      else if (msgCode =? 4) || (msgCode =? 9) then Ok (parseAuthSummary rest r, true)
      else if msgCode =? 15 then
        if zlen rest <? 6 then Ok (r, false) else parseAuthMessageStream fuel (drop 6 rest) r wide
      else Ok (r, false)
  | _, _ => Ok (r, false)
  end.

Definition hexNibble (c : ascii) : option Z := from_hex c.

(** [s] is upper-cased first. *)
Definition hexDecodeUpper (s : string) : res auth_msg_error bytes :=
  let s := ToUpper s in
  guard! slen s mod 2 =? 0 else ErrInvalidHexLength in
  match hex_decode s with Some b => Ok b | None => Err ErrInvalidHex end.

Definition clamp_count (n low : Z) : Z := if (n <? low) || (100000000 <? n) then low else n.

Definition buildSecretsFromPhase1Response (r : upstreamAuthResponse) (customHash : bool) : res auth_msg_error upstreamAuthSecrets :=
  guard! negb (String.eqb (ar_encServerSessKey r) "") else ErrPhase1MissingSessKey in
  guard! negb (String.eqb (ar_salt r) "") else ErrPhase1MissingVerifierData in
  let! salt := hexDecodeUpper (ar_salt r) in
  let! chk := (if String.eqb (ar_pbkdf2ChkSalt r) "" then Ok [] else hexDecodeUpper (ar_pbkdf2ChkSalt r)) in
  Ok {| us_verifierType := ar_verifierType r; us_customHash := customHash; us_salt := salt; us_pbkdf2ChkSalt := chk;
        us_pbkdf2VgenCount := clamp_count (ar_pbkdf2VgenCount r) 4096;
        us_pbkdf2SderCount := clamp_count (ar_pbkdf2SderCount r) 3 |}.

(** ** Messages the proxy builds for its upstream *)

Record driverIdentity := { di_HostName : string; di_ProgramName : string; di_PID : Z; di_OSUser : string; di_DriverName : string }.

Definition pairs_bytes (pairs : list (string * string * Z)) : bytes :=
  List.concat (map (fun '(k, v, f) => ttcKeyVal k v f) pairs).

Definition buildClientAuthPhase1 (username : string) (ident : driverIdentity) (mode : Z) : bytes :=
  ([TTCFuncPiggyback; PiggybackSubAuth1; 0; 1] ++ ttcCompressedUint (slen username) ++ ttcCompressedUint mode ++ [1; 1; 5; 1; 1]
   ++ ttcClr (str_bytes username)
   ++ pairs_bytes [("AUTH_TERMINAL", di_HostName ident, 0); ("AUTH_PROGRAM_NM", di_ProgramName ident, 0);
                   ("AUTH_MACHINE", di_HostName ident, 0); ("AUTH_PID", FormatInt (di_PID ident), 0);
                   ("AUTH_SID", di_OSUser ident, 0)])%list.

(** [offset]: seconds east of UTC. *)
Definition localTimezoneString (offset : Z) : string :=
  if offset =? 0 then "+00:00"
  else
    let hours := Z.quot offset 3600 in
    (if hours <? 0 then "-" else "+") ++ pad 2 (Z.abs hours) ++ ":" ++ pad 2 (Z.abs (Z.rem (Z.quot offset 60) 60)).

Definition alter_session (tz : string) : string :=
  "ALTER SESSION SET NLS_LANGUAGE='AMERICAN' NLS_TERRITORY='AMERICA'  TIME_ZONE='" ++ tz ++ "'" ++ nul.

Definition phase2_pairs (ident : driverIdentity) (sec : clientSecrets) (tz : string) : list (string * string * Z) :=
  ([("AUTH_SESSKEY", su_encClientSessKey sec, 1); ("AUTH_PASSWORD", su_encPassword sec, 0)]
   ++ (if String.eqb (su_eSpeedyKey sec) "" then [] else [("AUTH_PBKDF2_SPEEDY_KEY", su_eSpeedyKey sec, 0)])
   ++ [("AUTH_TERMINAL", di_HostName ident, 0); ("AUTH_PROGRAM_NM", di_ProgramName ident, 0);
       ("AUTH_MACHINE", di_HostName ident, 0); ("AUTH_PID", FormatInt (di_PID ident), 0); ("AUTH_SID", di_OSUser ident, 0);
       ("SESSION_CLIENT_CHARSET", "871", 0); ("SESSION_CLIENT_LIB_TYPE", "0", 0);
       ("SESSION_CLIENT_DRIVER_NAME", di_DriverName ident, 0); ("SESSION_CLIENT_VERSION", "2.0.0.0", 0);
       ("SESSION_CLIENT_LOBATTR", "1", 0);
       ("AUTH_ALTER_SESSION", alter_session tz, 1)])%list.

Definition buildClientAuthPhase2 (username : string) (ident : driverIdentity) (sec : clientSecrets) (mode : Z) (zone : Z) : bytes :=
  let pairs := phase2_pairs ident sec (localTimezoneString zone) in
  let named := negb (String.eqb username "") in
  ([TTCFuncPiggyback; PiggybackSubAuth2; 0] ++ (if named then 1 :: ttcCompressedUint (slen username) else [0; 0])
   ++ ttcCompressedUint mode ++ [1] ++ ttcCompressedUint (zlen pairs) ++ [1; 1]
   ++ (if named then ttcClr (str_bytes username) else []) ++ pairs_bytes pairs)%list.

(** ** Forwarding the client's own messages *)

Definition first_run : bytes := [254; 255; 255; 255; 255; 255; 255; 255].

(** The last of the [n] positions at or below [i] that holds [b], not below 2. *)
Fixpoint find_back (n : nat) (body : bytes) (i b : Z) : option Z :=
  match n with
  | O => None
  | S n => if i <? 2 then None else if byte_at i body =? b then Some i else find_back n body (i - 1) b
  end.

(** The position of [user_id_len] and the byte to write there. *)
Definition findUserIDLenPos (body : bytes) (fieldStart oldLen newLen : Z) : option (Z * Z) :=
  if payloadUsesWideKVEncoding body then
    let idx := findBytes (upto fieldStart body) first_run in
    if (idx <? 0) || (fieldStart <? idx + 12) then None
    else
      let pos := idx + 8 in
      if negb (byte_at (pos + 1) body =? 0) || negb (byte_at (pos + 2) body =? 0) || negb (byte_at (pos + 3) body =? 0) then None
      else if byte_at pos body =? oldLen then Some (pos, u8 newLen)
      else if byte_at pos body =? 3 * oldLen then Some (pos, u8 (3 * newLen))
      else None
  else option_map (fun i => (i, u8 newLen)) (find_back 12 body (fieldStart - 1) (u8 oldLen)).

Definition rewriteAuthPhase1UsernameAnchored (body : bytes) (newUsername : string) : option bytes :=
  match locateAnchoredUsername body with
  | None => None
  | Some (start, end_) =>
      let oldLen := end_ - start in
      let clrPrefixed := (0 <? start) && (byte_at (start - 1) body =? oldLen) in
      let fieldStart := if clrPrefixed then start - 1 else start in
      let head :=
        match findUserIDLenPos body fieldStart oldLen (slen newUsername) with
        | Some (pos, v) => (upto pos body ++ [v] ++ span body (pos + 1) fieldStart)%list
        | None => upto fieldStart body
        end in
      Some (head ++ (if clrPrefixed then [u8 (slen newUsername)] else []) ++ str_bytes newUsername ++ from_at end_ body)%list
  end.

Definition detectUsernameEncoding (rest : bytes) (userLen : Z) : bool :=
  (userLen + 1 <=? zlen rest) && (byte_at 0 rest =? userLen) && isPrintableASCIIRun (upto userLen (drop 1 rest)).

Definition rewriteAuthPhase1Username (body : bytes) (newUsername : string) : res auth_msg_error bytes :=
  guard! 4 <=? zlen body else ErrAuthPhase1Rewrite in
  guard! (byte_at 0 body =? TTCFuncPiggyback) && (byte_at 1 body =? PiggybackSubAuth1) else ErrAuthPhase1Rewrite in
  match rewriteAuthPhase1UsernameAnchored body newUsername with
  | Some out => Ok out
  | None =>
      match readCompressedInt (drop 4 body) with
      | None => Err ErrAuthPhase1Rewrite
      | Some (userLen, afterLen) =>
          guard! negb ((userLen <=? 0) || (128 <? userLen)) else ErrAuthPhase1Rewrite in
          match readCompressedInt afterLen with
          | None => Err ErrAuthPhase1Rewrite
          | Some (_, afterMode) =>
              guard! 5 <=? zlen afterMode else ErrAuthPhase1Rewrite in
              let rest := drop 5 afterMode in
              let hasCLRPrefix := detectUsernameEncoding rest userLen in
              let consumed := if hasCLRPrefix then userLen + 1 else userLen in
              guard! consumed <=? zlen rest else ErrAuthPhase1Rewrite in
              let modeAndMagic := upto (zlen afterLen - zlen rest) afterLen in
              Ok (take 4 body ++ ttcCompressedUint (slen newUsername) ++ modeAndMagic
                  ++ (if hasCLRPrefix then [u8 (slen newUsername)] else []) ++ str_bytes newUsername ++ from_at consumed rest)%list
          end
      end
  end.

(** What follows a value side, with its flag: [None] when it does not parse. *)
Definition replaceAuthKVValueWide (body : bytes) (key newValue : string) : bytes :=
  let idx := findBytes body (str_bytes key) in
  if idx <? 1 then body
  else if negb (byte_at (idx - 1) body =? slen key) then body
  else
    let pos := idx + slen key in
    let side := from_at pos body in
    if zlen side <? 4 then body
    else
      let origValLen := le_get (take 4 side) in
      match readCLR (drop 4 side) with
      | None => body
      | Some (origVal, rest) =>
          if zlen rest <? 4 then body
          else
            let newValLen :=
              if (0 <? zlen origVal) && (origValLen =? u32 (3 * zlen origVal)) then u32 (3 * slen newValue) else u32 (slen newValue) in
            (upto pos body ++ le_put 4 newValLen ++ ttcClr (str_bytes newValue) ++ take 4 rest ++ drop 4 rest)%list
      end.

Definition replaceAuthKVValue (body : bytes) (key newValue : string) (wide : bool) : bytes :=
  if wide then replaceAuthKVValueWide body key newValue
  else
    let idx := findBytes body (str_bytes key) in
    if idx <? 0 then body
    else
      let keyLenEnc := ttcCompressedUint (slen key) in
      let kvStart := idx - 1 - zlen keyLenEnc in
      if (kvStart <? 0) || negb (bool_decide (span body kvStart (idx - 1) = keyLenEnc)) || negb (byte_at (idx - 1) body =? slen key) then body
      else
        match readCompressedInt (from_at (idx + slen key) body) with
        | None => body
        | Some (_, rest) =>
            match readCLR rest with
            | None => body
            | Some (_, rest) =>
                match readCompressedInt rest with
                | None => body
                | Some (flagVal, rest) => (upto kvStart body ++ ttcKeyVal key newValue (flagVal mod 2 ^ 64) ++ rest)%list
                end
            end
        end.

Definition rewriteAuthPhase2Anchored (body : bytes) (newUsername : string) (sec : clientSecrets) : option bytes :=
  match rewriteAuthPhase1UsernameAnchored body newUsername with
  | None => None
  | Some out =>
      let wide := payloadUsesWideKVEncoding body in
      let out := replaceAuthKVValue out authKeySessKey (su_encClientSessKey sec) wide in
      let out := replaceAuthKVValue out authKeyPassword (su_encPassword sec) wide in
      Some (if String.eqb (su_eSpeedyKey sec) "" then out else replaceAuthKVValue out pbkdf2SpeedyKeyLabel (su_eSpeedyKey sec) wide)
  end.

(** [ah_mode]: the bytes of the mode; [ah_pairs]: what follows the user name. *)
Record authPhase2Header := {
  ah_hasUsername : bool;
  ah_hasCLRPrefix : bool;
  ah_mode : bytes;
  ah_pairCount : Z;
  ah_pairs : bytes
}.

(** The length and what follows it. *)
Definition readPhase2UserLen (rest : bytes) (hasUsername : bool) : res auth_msg_error (Z * bytes) :=
  if negb hasUsername then guard! 1 <=? zlen rest else ErrAuthPhase2Rewrite in Ok (0, drop 1 rest)
  else
    match readCompressedInt rest with
    | None => Err ErrAuthPhase2Rewrite
    | Some (ul, rest) => guard! negb ((ul <=? 0) || (128 <? ul)) else ErrAuthPhase2Rewrite in Ok (ul, rest)
    end.

Definition parseAuthPhase2Header (body : bytes) : res auth_msg_error authPhase2Header :=
  guard! 4 <=? zlen body else ErrAuthPhase2Rewrite in
  guard! (byte_at 0 body =? TTCFuncPiggyback) && (byte_at 1 body =? PiggybackSubAuth2) else ErrAuthPhase2Rewrite in
  let hasUsername := byte_at 3 body =? 1 in
  let! ' (userLen, afterLen) := readPhase2UserLen (drop 4 body) hasUsername in
  match readCompressedInt afterLen with
  | None => Err ErrAuthPhase2Rewrite
  | Some (_, rest) =>
      let mode := upto (zlen afterLen - zlen rest) afterLen in
      guard! negb (zlen rest =? 0) else ErrAuthPhase2Rewrite in
      match readCompressedInt (drop 1 rest) with
      | None => Err ErrAuthPhase2Rewrite
      | Some (pairCount, rest) =>
          guard! negb (pairCount <? 0) else ErrAuthPhase2Rewrite in
          guard! 2 <=? zlen rest else ErrAuthPhase2Rewrite in
          let rest := drop 2 rest in
          if hasUsername then
            let clr := detectUsernameEncoding rest userLen in
            let consumed := if clr then userLen + 1 else userLen in
            guard! consumed <=? zlen rest else ErrAuthPhase2Rewrite in
            Ok {| ah_hasUsername := true; ah_hasCLRPrefix := clr; ah_mode := mode; ah_pairCount := pairCount; ah_pairs := from_at consumed rest |}
          else
            Ok {| ah_hasUsername := false; ah_hasCLRPrefix := false; ah_mode := mode; ah_pairCount := pairCount; ah_pairs := rest |}
      end
  end.

Definition upstreamPhase2Value (key : string) (sec : clientSecrets) : option string :=
  let key := ToUpper key in
  if String.eqb key authKeySessKey then Some (su_encClientSessKey sec)
  else if String.eqb key authKeyPassword then Some (su_encPassword sec)
  else if String.eqb key pbkdf2SpeedyKeyLabel then if String.eqb (su_eSpeedyKey sec) "" then None else Some (su_eSpeedyKey sec)
  else None.

(** [n] pairs; what follows them is dropped. *)
Fixpoint rewritePhase2KVPairs (n : nat) (buf : bytes) (sec : clientSecrets) (bigChunks : bool) : res auth_msg_error bytes :=
  match n with
  | O => Ok []
  | S n =>
      guard! negb (zlen buf =? 0) else ErrAuthPhase2Rewrite in
      match readAuthKVPair buf false bigChunks with
      | Panic => Panic
      | Err _ | Ok None => Err ErrAuthPhase2Rewrite
      | Ok (Some kvp) =>
          let! out := rewritePhase2KVPairs n (kp_Rest kvp) sec bigChunks in
          let key := bytes_str (kp_Key kvp) in
          Ok ((match upstreamPhase2Value key sec with
               | Some newValue => ttcKeyVal key newValue (kp_Flag kvp mod 2 ^ 64)
               | None => upto (zlen buf - zlen (kp_Rest kvp)) buf
               end) ++ out)%list
      end
  end.

Definition assembleAuthPhase2 (body : bytes) (hdr : authPhase2Header) (newUsername : string) (rewrittenPairs : bytes) : bytes :=
  (take 3 body ++ (if ah_hasUsername hdr then 1 :: ttcCompressedUint (slen newUsername) else [0; 0]) ++ ah_mode hdr ++ [1]
   ++ ttcCompressedUint (ah_pairCount hdr) ++ [1; 1]
   ++ (if ah_hasUsername hdr then (if ah_hasCLRPrefix hdr then [u8 (slen newUsername)] else []) ++ str_bytes newUsername else [])
   ++ rewrittenPairs)%list.

Definition rewriteAuthPhase2 (body : bytes) (newUsername : string) (sec : clientSecrets) (bigChunks : bool) : res auth_msg_error bytes :=
  match rewriteAuthPhase2Anchored body newUsername sec with
  | Some out => Ok out
  | None =>
      let! hdr := parseAuthPhase2Header body in
      let n := Z.to_nat (Z.min (ah_pairCount hdr) (zlen (ah_pairs hdr) + 1)) in
      let! rewrittenPairs := rewritePhase2KVPairs n (ah_pairs hdr) sec bigChunks in
      Ok (assembleAuthPhase2 body hdr newUsername rewrittenPairs)
  end.

(** ** The AUTH OK, in the pieces the upstream sent *)

Fixpoint fragments (ttc dataFlags : bytes) (lens : list Z) : bytes :=
  match lens with
  | [] => []
  | n :: lens => (encodeV315DataPacket (dataFlags ++ upto n ttc) ++ fragments (from_at n ttc) dataFlags lens)%list
  end.

Definition reframeAuthOK (mergedPacket dataFlags : bytes) (fragTTCLens : list Z) : bytes :=
  if (zlen fragTTCLens <=? 1) || negb (zlen dataFlags =? 2) then mergedPacket
  else if (zlen mergedPacket <? 10) || negb (zlen mergedPacket - 10 =? foldr Z.add 0 fragTTCLens) then mergedPacket
  else fragments (drop 10 mergedPacket) dataFlags fragTTCLens.
