(* ===== verification/OracleAuthLaws.v ===== *)
(** * What the Oracle login messages preserve

    Laws of [OracleAuth]: the integers and values it writes are read back, the
    challenge the proxy writes is the one a client reads (so a client that knows
    the password logs in), the forwarded phase 2 differs from the client's in the
    three values alone, and an AUTH OK cut at the upstream's boundaries is the
    same bytes. *)

From Stdlib Require Import ZArith Lia List Bool String Ascii.
From stdpp Require Import base list gmap strings.
From S2P Require Import Prelude GoStrings Crypto Encoding TNS PgText MySqlSession OracleValues OracleTtc OracleRows O5Logon OracleAuth.

Open Scope string_scope.
Open Scope Z_scope.

(** ** Integers *)

Lemma be_get_zero (b : bytes) : be_get (0 :: b) = be_get b.
Proof. change (0 :: b) with ([0] ++ b)%list. by rewrite be_get_app. Qed.

Lemma strip_zeros_get b : be_get (strip_zeros b) = be_get b.
Proof. induction b as [|c b IH]; [done|]. cbn [strip_zeros]. destruct c; [by rewrite be_get_zero|done..]. Qed.

Lemma strip_zeros_length b : (length (strip_zeros b) <= length b)%nat.
Proof. induction b as [|c b IH]; [done|]. cbn [strip_zeros]. destruct c; simpl length; lia. Qed.

Lemma be_put_8 n : 0 <= n < 2 ^ 64 -> be_get (be_put 8 n) = n.
Proof. intros Hn. rewrite be_get_put. apply Z.mod_small. change (256 ^ Z.of_nat 8) with (2 ^ 64). lia. Qed.

Lemma read_sized b rest : 0 < zlen b <= 8 ->
  readCompressedInt (zlen b :: b ++ rest)%list = Some (i64 (be_get b), rest).
Proof.
  intros Hb. cbn [readCompressedInt]. rewrite (proj2 (Z.eqb_neq _ _)) by lia. rewrite (proj2 (Z.ltb_ge 8 _)) by lia.
  rewrite (proj2 (Z.ltb_ge _ _)) by (rewrite zlen_app; pose proof (zlen_nonneg rest); lia). cbn [orb].
  rewrite take_app_length', drop_app_length' by (by unfold zlen; rewrite Nat2Z.id). done.
Qed.

Lemma compressed_roundtrip n rest : 0 <= n < 2 ^ 63 -> readCompressedInt (ttcCompressedUint n ++ rest)%list = Some (n, rest).
Proof.
  intros Hn. unfold ttcCompressedUint. destruct (Z.eqb_spec n 0) as [->|Hz]; [done|].
  set (b := strip_zeros (be_put 8 n)). assert (be_get b = n) as Eb by (unfold b; rewrite strip_zeros_get, be_put_8; lia).
  rewrite <- app_comm_cons, read_sized, Eb.
  - unfold i64. by rewrite sint_small by lia.
  - split.
    + destruct b as [|c b']; [cbn in Eb; lia|]. rewrite zlen_cons. pose proof (zlen_nonneg b'). lia.
    + unfold b, zlen. pose proof (strip_zeros_length (be_put 8 n)) as Hl. rewrite length_be_put in Hl. lia.
Qed.

(** ** Values *)

Lemma chunks_back : forall fuel data acc rest fuel', (length data <= fuel)%nat -> (length data < fuel')%nat ->
  clr_chunks fuel' (clr_put fuel data ++ 0 :: rest)%list acc = Some ((acc ++ data)%list, rest).
Proof.
  induction fuel as [|fuel IH]; intros data acc rest fuel' Hf Hf'; (destruct fuel' as [|fuel']; [lia|]);
    (destruct data as [|c data]; [cbn; by rewrite app_nil_r|]); [simpl in Hf; lia|].
  cbn [clr_put]. set (chunk := take 252 (c :: data)).
  assert (0 < zlen chunk <= 252) as Hc by (unfold chunk, zlen; rewrite length_take; simpl length; lia).
  rewrite <- app_comm_cons. cbn [clr_chunks]. rewrite (proj2 (Z.eqb_neq _ _)) by lia.
  rewrite <- app_assoc. rewrite (proj2 (Z.ltb_ge _ _)) by (rewrite zlen_app; pose proof (zlen_nonneg (clr_put fuel (drop 252 (c :: data)) ++ 0 :: rest)); lia).
  rewrite take_app_length', drop_app_length' by (by unfold zlen; rewrite Nat2Z.id).
  rewrite IH by (rewrite length_drop; simpl length in *; lia).
  unfold chunk. by rewrite <- app_assoc, take_drop.
Qed.

Lemma clr_put_length fuel data : (length data <= fuel)%nat -> (length data <= length (clr_put fuel data))%nat.
Proof.
  revert data. induction fuel as [|fuel IH]; intros data Hf; (destruct data as [|c data]; [cbn; lia|]); [simpl in Hf; lia|].
  cbn [clr_put]. remember (c :: data) as d eqn:E. cbn [length]. rewrite length_app.
  assert (0 < length d)%nat by (subst d; simpl; lia).
  specialize (IH (drop 252 d)). rewrite length_drop, length_take in *. lia.
Qed.

(** Any value is read back, chunked or not. *)
Lemma clr_roundtrip data rest : readCLR (ttcClr data ++ rest)%list = Some (data, rest).
Proof.
  unfold ttcClr. pose proof (zlen_nonneg data) as Hn. destruct (Z.eqb_spec (zlen data) 0) as [E|Hz].
  { destruct data as [|c data]; [done|]. rewrite zlen_cons in E. pose proof (zlen_nonneg data). lia. }
  destruct (Z.ltb_spec (zlen data) 252) as [Hs|Hl].
  - rewrite <- app_comm_cons. cbn [readCLR]. rewrite !(proj2 (Z.eqb_neq _ _)) by lia. cbn [orb].
    rewrite (proj2 (Z.ltb_ge _ _)) by (rewrite zlen_app; pose proof (zlen_nonneg rest); lia).
    by rewrite take_app_length', drop_app_length' by (by unfold zlen; rewrite Nat2Z.id).
  - rewrite <- app_comm_cons. cbn [readCLR Z.eqb Pos.eqb orb]. rewrite <- app_assoc. cbn [app].
    rewrite chunks_back; [done|lia|]. rewrite length_app. pose proof (clr_put_length (length data) data). simpl length. lia.
Qed.

(** ** Pairs *)

Definition good_pair (p : string * string * Z) : Prop :=
  let '(k, v, f) := p in 0 < slen k < 2 ^ 32 /\ 0 < slen v < 2 ^ 32 /\ 0 <= f < 2 ^ 32.

Definition read_pair (wide : bool) (buf : bytes) : res unit (option authKVPairResult) := readAuthKVPair buf wide false.

Lemma kv_thin k v f rest : good_pair (k, v, f) ->
  readAuthKVPair (ttcKeyVal k v f ++ rest)%list false false
  = Ok (Some {| kp_Key := str_bytes k; kp_Value := str_bytes v; kp_Flag := f; kp_Rest := rest |}).
Proof.
  intros (Hk & Hv & Hf). unfold readAuthKVPair, ttcKeyVal, clr_if. rewrite <- !app_assoc, compressed_roundtrip by lia.
  rewrite (proj2 (Z.ltb_lt _ _)) by lia. rewrite clr_roundtrip, compressed_roundtrip by lia.
  rewrite (proj2 (Z.ltb_lt _ _)) by lia. unfold readCLRVariant.
  assert (forall b : bytes, match b with 254 :: _ => Ok (readCLR b) | _ => Ok (readCLR b) end = Ok (E := unit) (readCLR b)) as E
    by (intros [|c b]; [done|]; by repeat case_match).
  rewrite E, clr_roundtrip. cbn [rbind]. by rewrite compressed_roundtrip by lia.
Qed.

Lemma int4_back n rest : 0 <= n < 2 ^ 32 ->
  (zlen (le_put 4 n ++ rest)%list <? 4) = false /\ le_get (take 4 (le_put 4 n ++ rest)%list) = n /\ drop 4 (le_put 4 n ++ rest)%list = rest.
Proof.
  intros Hn. split_and!.
  - apply Z.ltb_ge. rewrite zlen_app. unfold zlen at 1. rewrite length_le_put. pose proof (zlen_nonneg rest). lia.
  - rewrite take_app_length' by (by rewrite length_le_put). rewrite le_get_put. apply Z.mod_small.
    change (256 ^ Z.of_nat 4) with (2 ^ 32). lia.
  - by rewrite drop_app_length' by (by rewrite length_le_put).
Qed.

Lemma kv_wide k v f rest : good_pair (k, v, f) ->
  readAuthKVPair (ttcKeyValWide k v f ++ rest)%list true false
  = Ok (Some {| kp_Key := str_bytes k; kp_Value := str_bytes v; kp_Flag := f; kp_Rest := rest |}).
Proof.
  intros (Hk & Hv & Hf). unfold readAuthKVPair, readAuthKVPairWide, ttcKeyValWide, clr_if. rewrite <- !app_assoc.
  destruct (int4_back (slen k) (ttcClr (str_bytes k) ++ le_put 4 (slen v) ++ ttcClr (str_bytes v) ++ le_put 4 f ++ rest)%list) as (-> & -> & ->); [lia|].
  rewrite (proj2 (Z.ltb_lt _ _)) by lia. rewrite clr_roundtrip.
  destruct (int4_back (slen v) (ttcClr (str_bytes v) ++ le_put 4 f ++ rest)%list) as (-> & -> & ->); [lia|].
  rewrite (proj2 (Z.ltb_lt _ _)) by lia. rewrite clr_roundtrip.
  by destruct (int4_back f rest) as (-> & -> & ->); [lia|].
Qed.

Lemma kv_back wide k v f rest : good_pair (k, v, f) ->
  readAuthKVPair (kv wide k v f ++ rest)%list wide false
  = Ok (Some {| kp_Key := str_bytes k; kp_Value := str_bytes v; kp_Flag := f; kp_Rest := rest |}).
Proof. destruct wide; [apply kv_wide|apply kv_thin]. Qed.

Definition record_all (pairs : list (string * string * Z)) (r : upstreamAuthResponse) : upstreamAuthResponse :=
  fold_left (fun r '(k, v, f) => recordAuthProperty k v f r) pairs r.

Definition put_pairs (wide : bool) (pairs : list (string * string * Z)) : bytes :=
  List.concat (map (fun '(k, v, f) => kv wide k v f) pairs).

Lemma dictionary_back wide rest : forall pairs r, Forall good_pair pairs ->
  dictionary_pairs (length pairs) wide (put_pairs wide pairs ++ rest)%list r = Ok (record_all pairs r, Some rest).
Proof.
  induction pairs as [|[[k v] f] pairs IH]; intros r Hp; [done|]. inversion Hp as [|? ? H1 H2]; subst. unfold put_pairs. cbn [length map List.concat dictionary_pairs].
  rewrite <- app_assoc, kv_back by done. cbn [rbind kp_Key kp_Value kp_Flag kp_Rest]. rewrite !bytes_str_bytes.
  by rewrite (IH _ H2).
Qed.

(** ** The challenge *)

Definition challenge_pairs (enc vfr chk : string) (vgen sder vt : Z) : list (string * string * Z) :=
  ([("AUTH_SESSKEY", enc, if vt =? VerifierType18453 then 0 else 1); ("AUTH_VFR_DATA", vfr, vt)]
   ++ if String.eqb chk "" then []
      else [("AUTH_PBKDF2_CSK_SALT", chk, 0); ("AUTH_PBKDF2_VGEN_COUNT", FormatInt vgen, 0); ("AUTH_PBKDF2_SDER_COUNT", FormatInt sder, 0);
            ((authKeyGloballyUniqueDBID ++ nul)%string, dbbatGloballyUniqueDBID, 0)])%list.

Lemma challenge_layout enc vfr chk vgen sder vt wide :
  drop 2 (buildAuthChallenge enc vfr chk vgen sder vt wide)
  = (8 :: (if wide then le_put 2 (zlen (challenge_pairs enc vfr chk vgen sder vt)) else ttcCompressedUint (zlen (challenge_pairs enc vfr chk vgen sder vt)))
       ++ put_pairs wide (challenge_pairs enc vfr chk vgen sder vt))%list.
Proof.
  unfold buildAuthChallenge, challenge_pairs, put_pairs, authKeySessKey, authKeyVfrData, authKeyPbkdf2CskSalt, authKeyPbkdf2VgenCount, authKeyPbkdf2SderCount.
  destruct (String.eqb chk ""), wide; cbn [negb app map List.concat]; by rewrite ?app_nil_r, <- ?app_assoc.
Qed.

Lemma count_read n (wide : bool) (b : bytes) : 0 <= n < 100 ->
  (if wide then (if zlen ((if wide then le_put 2 n else ttcCompressedUint n) ++ b)%list <? 2 then None
                 else Some (le_get (take 2 ((if wide then le_put 2 n else ttcCompressedUint n) ++ b)%list), drop 2 ((if wide then le_put 2 n else ttcCompressedUint n) ++ b)%list))
   else readCompressedInt ((if wide then le_put 2 n else ttcCompressedUint n) ++ b)%list) = Some (n, b).
Proof.
  intros Hn. destruct wide; [|apply compressed_roundtrip; lia].
  rewrite (proj2 (Z.ltb_ge _ _)) by (rewrite zlen_app; unfold zlen at 1; rewrite length_le_put; pose proof (zlen_nonneg b); lia).
  rewrite take_app_length', drop_app_length' by (by rewrite length_le_put). rewrite le_get_put. change (256 ^ Z.of_nat 2) with 65536.
  by rewrite Z.mod_small by lia.
Qed.

Lemma kv_length wide k v f : (5 <= length (kv wide k v f))%nat.
Proof.
  assert (forall b : bytes, (1 <= length (ttcClr b))%nat) as Hc by (intros b; unfold ttcClr; repeat case_match; simpl; lia).
  assert (forall n, (1 <= length (ttcCompressedUint n))%nat) as Hu by (intros n; unfold ttcCompressedUint; case_match; simpl; lia).
  pose proof (Hc (str_bytes k)). pose proof (Hc (str_bytes v)).
  destruct wide; unfold kv, ttcKeyVal, ttcKeyValWide; rewrite !length_app, ?length_le_put;
    [|pose proof (Hu (slen k)); pose proof (Hu (slen v)); pose proof (Hu f)]; lia.
Qed.

Lemma put_pairs_length wide pairs : (length pairs <= length (put_pairs wide pairs))%nat.
Proof.
  induction pairs as [|[[k v] f] pairs IH]; [cbn; lia|]. unfold put_pairs in *. cbn [map List.concat length].
  rewrite length_app. pose proof (kv_length wide k v f). lia.
Qed.

(** A message that carries a dictionary is read whole, with what trails it. *)
Lemma stream_back fuel (wide : bool) pairs trailer : Forall good_pair pairs -> zlen pairs < 100 ->
  exists r : upstreamAuthResponse, parseAuthMessageStream (S fuel)
    (8 :: (if wide then le_put 2 (zlen pairs) else ttcCompressedUint (zlen pairs)) ++ put_pairs wide pairs ++ trailer)%list empty_response wide = Ok (r, true)
  /\ let r' := record_all pairs empty_response in
     ar_encServerSessKey r = ar_encServerSessKey r' /\ ar_salt r = ar_salt r' /\ ar_verifierType r = ar_verifierType r'
     /\ ar_pbkdf2ChkSalt r = ar_pbkdf2ChkSalt r' /\ ar_pbkdf2VgenCount r = ar_pbkdf2VgenCount r' /\ ar_pbkdf2SderCount r = ar_pbkdf2SderCount r'
     /\ ar_OracleErr r = ar_OracleErr r'
     /\ ar_challengeTrailer r = match trailer with c :: _ => if c =? TTCFuncOERR then trailer else ar_challengeTrailer r' | [] => ar_challengeTrailer r' end.
Proof.
  intros Hp Hn. cbn [parseAuthMessageStream Z.eqb Pos.eqb]. unfold parseAuthKVDictionary.
  rewrite count_read by (pose proof (zlen_nonneg pairs); lia).
  rewrite Z.min_l by (rewrite zlen_app; pose proof (zlen_nonneg trailer); pose proof (put_pairs_length wide pairs); unfold zlen in *; lia).
  unfold zlen at 1. rewrite Nat2Z.id, dictionary_back by done. cbn [rbind].
  destruct trailer as [|c t]; [by eexists|]. destruct (c =? TTCFuncOERR); by eexists.
Qed.

Lemma hex_digits n : 0 <= n < 16 -> is_ascii1 (upper1 (hex1 n)) = true /\ upper1 (upper1 (hex1 n)) = upper1 (hex1 n).
Proof.
  intros Hn. assert (is_ascii1 (hex1 n) = true) as Ha by (by apply hex1_ascii). revert Ha. generalize (hex1 n).
  intros [[] [] [] [] [] [] [] []]; by vm_compute.
Qed.

Lemma upper_hex_cons c b : is_byte c -> upper_hex_string (c :: b) = String (upper1 (hex1 (c / 16))) (String (upper1 (hex1 (c mod 16))) (upper_hex_string b)).
Proof.
  intros Hc. unfold is_byte in Hc. unfold upper_hex_string. cbn [hex_string]. rewrite !upper_ascii_cons; [done|..]; apply hex1_ascii.
  - apply Z.mod_pos_bound. lia.
  - split; [apply Z.div_pos|apply Z.div_lt_upper_bound]; lia.
Qed.

Lemma slen_upper_hex b : wf_bytes b -> slen (upper_hex_string b) = 2 * zlen b.
Proof.
  induction 1 as [|c b Hc Hb IH]; [done|]. rewrite upper_hex_cons, !slen_cons, IH, zlen_cons by done. lia.
Qed.

Lemma upper_hex_upper b : wf_bytes b -> ToUpper (upper_hex_string b) = upper_hex_string b.
Proof.
  induction 1 as [|c b Hc Hb IH]; [done|]. rewrite upper_hex_cons by done. unfold is_byte in Hc.
  destruct (hex_digits (c / 16)) as [H1 H2]; [split; [apply Z.div_pos|apply Z.div_lt_upper_bound]; lia|].
  destruct (hex_digits (c mod 16)) as [H3 H4]; [apply Z.mod_pos_bound; lia|].
  by rewrite !upper_ascii_cons, H2, H4, IH by done.
Qed.

Lemma hexDecodeUpper_back b : wf_bytes b -> hexDecodeUpper (upper_hex_string b) = Ok b.
Proof.
  intros Hb. unfold hexDecodeUpper. rewrite upper_hex_upper, slen_upper_hex, hex_upper_string by done.
  rewrite Z.mul_comm, Z_mod_mult. done.
Qed.

Lemma upper_hex_empty b : String.eqb (upper_hex_string b) "" = match b with [] => true | _ => false end.
Proof. destruct b as [|c b]; [done|]. unfold upper_hex_string. cbn [hex_string ToUpper]. destruct (hex_string b); repeat case_match; done. Qed.

Lemma hex_decode_length : forall (n : nat) s b, (String.length s <= n)%nat -> hex_decode s = Some b -> slen s = 2 * zlen b.
Proof.
  induction n as [|n IH]; intros s b Hn.
  - destruct s; [|cbn in Hn; lia]. by intros [= <-].
  - destruct s as [|h [|l s]]; [by intros [= <-]|done|]. cbn [hex_decode].
    destruct (from_hex h); [|done]. destruct (from_hex l); [|done]. destruct (hex_decode s) as [r|] eqn:E; [|done]. intros [= <-].
    rewrite !slen_cons, zlen_cons, (IH s r); [lia|cbn in Hn; lia|done].
Qed.

Lemma DecodeHex_length s b : DecodeHex s = Ok b -> slen s = 2 * zlen b.
Proof. unfold DecodeHex. destruct (hex_decode s) eqn:E; [|done]. intros [= <-]. by apply (hex_decode_length (String.length s)). Qed.

Section Challenge.
Context {B : BlockCipher} {H : Hashes}.

(** The server's challenge message, as [authenticateClient] sends it. *)
Definition challenge_message (s : O5LogonServer) (encSess vfr : string) (wide : bool) : bytes :=
  buildAuthChallenge encSess vfr (PBKDF2ChkSalt s) (o5_pbkdf2VgenCount s) (o5_pbkdf2SderCount s) (o5_verifierType s) wide.

Lemma challenge_good enc vfr chk vt : 0 < slen enc < 2 ^ 32 -> 0 < slen vfr < 2 ^ 32 -> slen chk < 2 ^ 32 -> 0 <= vt < 2 ^ 32 ->
  Forall good_pair (challenge_pairs enc vfr chk 4096 3 vt).
Proof.
  intros He Hv Hc Ht. assert (chk = "" \/ 0 < slen chk) as Hch
    by (destruct chk; [by left|right; rewrite slen_cons; unfold slen; lia]).
  unfold challenge_pairs. destruct (String.eqb_spec chk "") as [Ec|Ec];
    repeat (constructor || (unfold good_pair; split_and!; try (vm_compute; congruence); try lia)).
  all: try (destruct (vt =? VerifierType18453); lia).
  all: try (destruct Hch; [done|lia]).
Qed.

(** What a client that reads the pairs of a challenge makes of them. *)
Lemma pairs_secrets enc vfr_bytes chk_bytes (modern : bool) :
  wf_bytes vfr_bytes -> wf_bytes chk_bytes -> vfr_bytes <> [] -> enc <> "" -> (modern = true <-> chk_bytes <> []) ->
  let r := record_all (challenge_pairs enc (upper_hex_string vfr_bytes) (upper_hex_string chk_bytes) 4096 3
                        (if modern then VerifierType18453 else VerifierType6949)) empty_response in
  ar_encServerSessKey r = enc /\ ar_OracleErr r = 0 /\ ar_challengeTrailer r = []
  /\ buildSecretsFromPhase1Response r modern
     = Ok {| us_verifierType := if modern then VerifierType18453 else VerifierType6949; us_customHash := modern; us_salt := vfr_bytes;
             us_pbkdf2ChkSalt := chk_bytes; us_pbkdf2VgenCount := 4096; us_pbkdf2SderCount := 3 |}.
Proof.
  intros Hv Hc Hvne Hene Hm. cbv zeta. unfold challenge_pairs. rewrite upper_hex_empty.
  assert (String.eqb enc "" = false) as Ee by (by apply String.eqb_neq).
  assert (String.eqb (upper_hex_string vfr_bytes) "" = false) as Ev by (rewrite upper_hex_empty; by destruct vfr_bytes).
  assert (String.eqb (upper_hex_string chk_bytes) "" = match chk_bytes with [] => true | _ => false end) as Ec by apply upper_hex_empty.
  pose proof (hexDecodeUpper_back _ Hv) as Dv. pose proof (hexDecodeUpper_back _ Hc) as Dc.
  change (FormatInt 4096) with "4096". change (FormatInt 3) with "3".
  revert Ev Ec Dv Dc. generalize (upper_hex_string vfr_bytes), (upper_hex_string chk_bytes). intros v c Ev Ec Dv Dc.
  assert (modern = match chk_bytes with [] => false | _ => true end) as Em
    by (destruct modern, chk_bytes; try done; [by destruct (proj1 Hm eq_refl)|by discriminate (proj2 Hm)]).
  destruct chk_bytes as [|c0 chk_bytes]; rewrite Em; cbn -[hexDecodeUpper insert ParseInt clamp_count];
    (split_and!; [done..|]); unfold buildSecretsFromPhase1Response; cbn -[hexDecodeUpper insert ParseInt clamp_count];
    rewrite Ee, Ev, ?Ec; cbn -[hexDecodeUpper]; by rewrite Dv, ?Dc.
Qed.
(** A client that reads the challenge message has the encrypted session key, the
    secrets of the server (salts, turns and verifier type) and the summary that
    trails it: with the password, all that the proof of the password needs. *)
Theorem challenge_roundtrip modern salt vk salt18 vk18 key chk s encSess vfr wide fuel trailer :
  GenerateChallenge (login_server modern salt vk salt18 vk18) (Some key) (Some chk) = Ok (s, encSess, vfr) ->
  wf_bytes key -> zlen key = (if modern then 32 else 48) ->
  wf_bytes (o5_salt s) -> 0 < zlen (o5_salt s) < 2 ^ 30 -> wf_bytes chk -> 0 < zlen chk < 2 ^ 30 ->
  exists r,
    parseAuthMessageStream (S fuel) (drop 2 (challenge_message s encSess vfr wide) ++ TTCFuncOERR :: trailer)%list empty_response wide = Ok (r, true)
    /\ ar_encServerSessKey r = encSess /\ ar_OracleErr r = 0 /\ ar_challengeTrailer r = TTCFuncOERR :: trailer
    /\ buildSecretsFromPhase1Response r modern = Ok (advertised s).
Proof.
  intros Hg Hwk Hlk Hws Hls Hwc Hlc. pose proof (challenge_inv _ _ _ _ _ _ _ _ _ _ Hg Hwk Hlk) as (chkSalt & enc & Es & Hwe & Hle & Hde & _).
  assert (vfr = upper_hex_string (o5_salt s) /\ o5_pbkdf2ChkSalt s = if modern then chk else []) as [Ev Ech].
  { revert Hg. unfold GenerateChallenge. destruct modern; cbn [login_server o5_customHash UseVerifier18453 NewO5LogonServer];
      match goal with |- context [rbind ?m _] => destruct m as [e| |]; [|done..] end; cbn [rbind]; intros [= <- _ <-]; done. }
  assert (o5_pbkdf2VgenCount s = 4096 /\ o5_pbkdf2SderCount s = 3 /\ o5_verifierType s = (if modern then VerifierType18453 else VerifierType6949)
    /\ o5_customHash s = modern) as (Evg & Esd & Evt & Ecu) by (rewrite Es; by destruct modern).
  pose proof (DecodeHex_length _ _ Hde) as Hse. unfold zlen in Hlk.
  unfold challenge_message, PBKDF2ChkSalt. rewrite Ech, Evg, Esd, Evt, Ev, challenge_layout, <- app_comm_cons, <- app_assoc.
  set (chkb := if modern then chk else []) in *.
  assert (wf_bytes chkb /\ zlen chkb < 2 ^ 30) as [Hwcb Hlcb] by (unfold chkb; destruct modern; [split; [done|lia]|split; [constructor|done]]).
  destruct (pairs_secrets encSess (o5_salt s) chkb modern) as (P1 & P2 & P3 & P4); try done.
  { intros E. rewrite E in Hls. unfold zlen in Hls. simpl in Hls. lia. }
  { intros ->. change (slen "") with 0 in Hse. unfold zlen in Hse. rewrite Hle in Hse. destruct modern; lia. }
  { unfold chkb. destruct modern; split; intros; try done. intros E. rewrite E in Hlc. unfold zlen in Hlc. simpl in Hlc. lia. }
  set (pairs := challenge_pairs _ _ _ _ _ _) in *.
  destruct (stream_back fuel wide pairs (TTCFuncOERR :: trailer)) as (r & Hr & F).
  { apply challenge_good; try done; try lia.
    - rewrite Hse. unfold zlen. rewrite Hle. destruct modern; lia.
    - rewrite slen_upper_hex by done. lia.
    - rewrite slen_upper_hex by done. lia.
    - unfold VerifierType18453, VerifierType6949. destruct modern; lia. }
  { unfold pairs, challenge_pairs. by destruct (String.eqb _ _). }
  exists r. split; [exact Hr|]. destruct F as (F1 & F2 & F3 & F4 & F5 & F6 & F7 & F8). fold pairs in F1, F2, F3, F4, F5, F6, F7, F8.
  rewrite F1, F7, F8, P1, P2, Z.eqb_refl. split_and!; try done.
  revert P4. unfold buildSecretsFromPhase1Response. rewrite F1, F2, F3, F4, F5, F6. intros ->.
  unfold advertised. by rewrite Evt, Ecu, Evg, Esd, Ech.
Qed.
End Challenge.

Import SampleO5.

Lemma challenge_roundtrip_witness : exists s encSess vfr r,
  GenerateChallenge (login_server true salt [] salt (replicate 32 9)) (Some (map Z.of_nat (seq 1 32))) (Some [1; 2; 3]) = Ok (s, encSess, vfr)
  /\ parseAuthMessageStream 1 (drop 2 (challenge_message s encSess vfr true) ++ [4; 0])%list empty_response true = Ok (r, true)
  /\ buildSecretsFromPhase1Response r true = Ok (advertised s).
Proof.
  destruct (GenerateChallenge (login_server true salt [] salt (replicate 32 9)) (Some (map Z.of_nat (seq 1 32))) (Some [1; 2; 3]))
    as [[[s encSess] vfr]| |] eqn:Eg; [|vm_compute in Eg; discriminate..].
  assert (o5_salt s = salt) as Es by (vm_compute in Eg; injection Eg as <- <- <-; reflexivity).
  destruct (challenge_roundtrip true salt [] salt (replicate 32 9) (map Z.of_nat (seq 1 32)) [1; 2; 3] s encSess vfr true 0 [0] Eg)
    as (r & H1 & _ & _ & _ & H2); rewrite ?Es; try (apply wf_bytes_check; reflexivity); try reflexivity; try (split; reflexivity).
  exists s, encSess, vfr, r. split; [reflexivity|]. split; [exact H1|exact H2].
Defined.

(** ** The forwarded phase 2 *)

(** The pair the upstream is sent for a pair of the client's. *)
Definition upstream_pair (sec : clientSecrets) (p : string * string * Z) : string * string * Z :=
  let '(k, v, f) := p in match upstreamPhase2Value k sec with Some v' => (k, v', f) | None => p end.

Lemma clr_variant_short v rest b : (b = true -> zlen v < 252) -> readCLRVariant (ttcClr v ++ rest)%list b = Ok (Some (v, rest)).
Proof.
  intros Hb. pose proof (clr_roundtrip v rest) as Hr. unfold readCLRVariant.
  assert (b = true -> exists c t, (ttcClr v ++ rest)%list = c :: t /\ c <> 254) as Hc.
  { intros Et. specialize (Hb Et). unfold ttcClr. destruct (zlen v =? 0); [by eexists _, _|].
    rewrite (proj2 (Z.ltb_lt _ _)) by lia. eexists _, _. split; [done|]. lia. }
  destruct b; [|rewrite Hr; by repeat case_match].
  destruct Hc as (c & t & E & Hne); [done|]. rewrite E in *. rewrite Hr. repeat case_match; congruence.
Qed.

Lemma kv_variant b k v f rest : good_pair (k, v, f) -> (b = true -> slen v < 252) ->
  readAuthKVPair (ttcKeyVal k v f ++ rest)%list false b
  = Ok (Some {| kp_Key := str_bytes k; kp_Value := str_bytes v; kp_Flag := f; kp_Rest := rest |}).
Proof.
  intros (Hk & Hv & Hf) Hb. unfold readAuthKVPair, ttcKeyVal, clr_if. rewrite <- !app_assoc, compressed_roundtrip by lia.
  rewrite (proj2 (Z.ltb_lt _ _)) by lia. rewrite clr_roundtrip, compressed_roundtrip by lia.
  rewrite (proj2 (Z.ltb_lt _ _)) by lia. rewrite clr_variant_short by (by rewrite zlen_str_bytes). cbn [rbind].
  by rewrite compressed_roundtrip by lia.
Qed.

(** Forwarding the pairs of a phase 2 replaces the values of AUTH_SESSKEY,
    AUTH_PASSWORD and, with a speedy key, AUTH_PBKDF2_SPEEDY_KEY by the ones
    derived for the upstream, whatever their order and the case of the keys, and
    copies every other pair with its flag. *)
Theorem phase2_pairs_rewritten sec bigChunks rest : forall pairs,
  Forall good_pair pairs -> (bigChunks = true -> Forall (fun '(_, v, _) => slen v < 252) pairs) ->
  rewritePhase2KVPairs (length pairs) (put_pairs false pairs ++ rest)%list sec bigChunks
  = Ok (put_pairs false (map (upstream_pair sec) pairs)).
Proof.
  induction pairs as [|[[k v] f] pairs IH]; intros Hp Hb; [done|]. inversion Hp as [|? ? H1 H2]; subst.
  unfold put_pairs in *. cbn [length map List.concat rewritePhase2KVPairs kv]. rewrite <- app_assoc.
  assert (0 < zlen (ttcKeyVal k v f ++ List.concat (map (fun '(k, v, f) => ttcKeyVal k v f) pairs) ++ rest)%list) as Hz.
  { pose proof (kv_length false k v f) as Hl. unfold zlen. rewrite length_app. unfold kv in Hl. lia. }
  rewrite (proj2 (Z.eqb_neq _ _)) by lia. cbn [negb]. rewrite kv_variant; [|done|].
  2:{ intros Et. specialize (Hb Et). by inversion Hb. }
  cbn [kp_Rest kp_Key kp_Flag kv] in *. rewrite IH by (try done; intros Et; specialize (Hb Et); by inversion Hb).
  cbn [rbind]. rewrite bytes_str_bytes. unfold upstream_pair at 2. f_equal. f_equal.
  destruct (upstreamPhase2Value k sec).
  - rewrite Z.mod_small; [done|]. destruct H1 as (_ & _ & ?). lia.
  - unfold upto. rewrite zlen_app. apply take_app_length'. unfold zlen. lia.
Qed.

Definition sample_pairs : list (string * string * Z) :=
  [("auth_sesskey", "00FF", 1); ("AUTH_TERMINAL", "host", 0); ("AUTH_PASSWORD", "AA", 0)].
Definition sample_secrets : clientSecrets :=
  {| su_verifierKey := []; su_serverSessionKey := []; su_clientSessionKey := []; su_combined := [];
     su_encClientSessKey := "BEEF"; su_encPassword := "CAFE"; su_eSpeedyKey := "" |}.

Lemma phase2_pairs_rewritten_witness :
  rewritePhase2KVPairs 3 (put_pairs false sample_pairs ++ [])%list sample_secrets true
  = Ok (put_pairs false [("auth_sesskey", "BEEF", 1); ("AUTH_TERMINAL", "host", 0); ("AUTH_PASSWORD", "CAFE", 0)]).
Proof.
  refine (phase2_pairs_rewritten sample_secrets true [] sample_pairs _ _); [|intros _]; repeat constructor; discriminate.
Defined.

(** An empty value is written as two zero bytes, of which the reader takes the
    second for the flag. *)
Example empty_value_misread : exists kvp,
  readAuthKVPair (ttcKeyVal "AUTH_SID" "" 1 ++ [])%list false false = Ok (Some kvp) /\ kp_Flag kvp = 0 /\ kp_Rest kvp = [1; 1].
Proof. by eexists. Qed.

(** A chunk of negative length stops the process that reads it. *)
Example negative_chunk_panics : readCLRVariant [254; 8; 255; 255; 255; 255; 255; 255; 255; 255; 0] true = Panic.
Proof. reflexivity. Qed.

(** ** The AUTH OK *)

Lemma fragments_split flags : forall lens ttc, Forall (fun n => 0 <= n) lens -> zlen ttc = foldr Z.add 0 lens ->
  exists parts, fragments ttc flags lens = List.concat (map (fun p => encodeV315DataPacket (flags ++ p)%list) parts)
    /\ map zlen parts = lens /\ List.concat parts = ttc.
Proof.
  induction lens as [|n lens IH]; intros ttc Hp Ht; cbn [foldr fragments] in *.
  - exists []. destruct ttc as [|c ttc]; [done|]. rewrite zlen_cons in Ht. pose proof (zlen_nonneg ttc). lia.
  - inversion Hp; subst. assert (0 <= foldr Z.add 0 lens) as Hs by (clear - H2; induction H2; cbn; lia).
    assert (zlen (from_at n ttc) = foldr Z.add 0 lens) as E by (unfold from_at, zlen in *; rewrite length_drop; lia).
    destruct (IH (from_at n ttc)) as (parts & E1 & E2 & E3); [done..|]. exists (upto n ttc :: parts). cbn [map List.concat].
    rewrite E1, E2, E3. split_and!; [done| |apply take_drop]. f_equal. unfold upto, zlen in *. rewrite length_take. lia.
Qed.

(** An AUTH OK cut at the upstream's boundaries is the same message: packets of
    the upstream's lengths, all with its data flags, whose bodies make up the
    patched one. *)
Theorem reframe_lossless ttc header flags lens :
  zlen header = 8 -> zlen flags = 2 -> Forall (fun n => 0 <= n) lens -> 1 < zlen lens -> zlen ttc = foldr Z.add 0 lens ->
  exists parts,
    reframeAuthOK (header ++ flags ++ ttc)%list flags lens = List.concat (map (fun p => encodeV315DataPacket (flags ++ p)%list) parts)
    /\ map zlen parts = lens /\ List.concat parts = ttc.
Proof.
  intros Hh Hf Hp Hl Ht. unfold reframeAuthOK. rewrite (proj2 (Z.leb_gt _ _)), Hf, !zlen_app, Hh, Hf by lia. cbn [orb negb Z.eqb Pos.eqb].
  pose proof (zlen_nonneg ttc). rewrite (proj2 (Z.ltb_ge _ _)), (proj2 (Z.eqb_eq _ _)) by lia. cbn [orb negb].
  rewrite app_assoc, drop_app_length' by (rewrite length_app; unfold zlen in *; lia). by apply fragments_split.
Qed.

Lemma reframe_lossless_witness : exists parts,
  reframeAuthOK (replicate 8 0 ++ [32; 0] ++ [8; 1; 1; 4; 5])%list [32; 0] [3; 2] = List.concat (map (fun p => encodeV315DataPacket ([32; 0] ++ p)%list) parts)
  /\ map zlen parts = [3; 2] /\ List.concat parts = [8; 1; 1; 4; 5].
Proof. refine (reframe_lossless [8; 1; 1; 4; 5] (replicate 8 0) [32; 0] [3; 2] _ _ _ _ _); try reflexivity; repeat constructor; discriminate. Defined.
