(* ===== verification/OracleLogin.v ===== *)
(** * The login of an Oracle client
    ([internal/proxy/oracle/connect_descriptor.go], [markers.go], the login half of
    [session.go])

    The connect descriptor names the server, the phase-1 message the user.  The
    client must hold an API key of that user: the challenge is made with the
    verifier of the newest key, and the password it proves is looked for under each
    key that shares the user's salts.

    [e_sql e i] answers the statements of the [i]-th call of the store and
    [e_now e i] is the [i]-th reading of the clock, as in [ProxyAuth]. *)

From Stdlib Require Import ZArith Lia List Bool String Ascii.
From stdpp Require Import base list gmap strings.
From S2P Require Import Prelude GoStrings Encoding Models Limits AuthCache GrantStore Crypto Accounts ApiKeys AccountSafety AccountTheorems Servers PgText TNS Endpoints ProxyAuth OracleValues OracleTtc OracleRows O5Logon OracleAuth.

Open Scope string_scope.
Open Scope Z_scope.

(** ** The connect descriptor *)

Record ConnectDescriptor := {
  cd_ServiceName : string;
  cd_SID : string;
  cd_Host : string;
  cd_Port : Z;
  cd_Program : string;
  cd_OSUser : string
}.

(** [\s] of a regular expression. *)
Definition re_space (c : ascii) : bool :=
  let z := code c in (z =? 9) || (z =? 10) || (z =? 12) || (z =? 13) || (z =? 32).

Fixpoint skip_re_space (s : string) : string :=
  match s with String c r => if re_space c then skip_re_space r else s | EmptyString => s end.

(** The text behind a literal, in any case; U+017F folds to [S] and U+212A to [K]. *)
Fixpoint after_folded (lit s : string) : option string :=
  match lit with
  | EmptyString => Some s
  | String l lit =>
      match s with
      | String c r =>
          if Ascii.eqb (upper1 c) (upper1 l) then after_folded lit r
          else
            match r with
            | String d r1 =>
                if Ascii.eqb (upper1 l) "S" && (code c =? 197) && (code d =? 191) then after_folded lit r1
                else
                  match r1 with
                  | String e r2 =>
                      if Ascii.eqb (upper1 l) "K" && (code c =? 226) && (code d =? 132) && (code e =? 170) then after_folded lit r2 else None
                  | EmptyString => None
                  end
            | EmptyString => None
            end
      | EmptyString => None
      end
  end.

(** [NAME\s*=\s*]: the text behind it, at the head of [s]. *)
Definition after_name (name s : string) : option string :=
  match after_folded name s with
  | Some r => match skip_re_space r with String "=" r => Some r | _ => None end
  | None => None
  end.

Fixpoint until_paren (s : string) : string :=
  match s with String c r => if Ascii.eqb c ")" then "" else String c (until_paren r) | EmptyString => "" end.

(** [(?i)NAME\s*=\s*([^)]+)], leftmost, and the trim of its group: the group is at
    least one byte of what stands between [=] and the next parenthesis, the white
    space the pattern skips is trimmed in any case. *)
Fixpoint extractField (descriptor name : string) : string :=
  match match after_name name descriptor with Some r => until_paren r | None => "" end with
  | EmptyString => match descriptor with String _ d => extractField d name | EmptyString => "" end
  | value => TrimSpace value
  end.

Definition parseServiceName (descriptor : string) : string := extractField descriptor "SERVICE_NAME".
Definition parseSID (descriptor : string) : string := extractField descriptor "SID".

(** What follows the last slash. *)
Fixpoint after_last_slash (s : string) : option string :=
  match s with
  | EmptyString => None
  | String c r => match after_last_slash r with Some t => Some t | None => if Ascii.eqb c "/" then Some r else None end
  end.

Definition parseServiceNameEZConnect (descriptor : string) : string :=
  match after_last_slash descriptor with Some EmptyString | None => "" | Some t => TrimSpace t end.

Definition parseConnectDescriptor (descriptor : string) : ConnectDescriptor :=
  {| cd_ServiceName := parseServiceName descriptor; cd_SID := parseSID descriptor; cd_Host := extractField descriptor "HOST";
     cd_Program := extractField descriptor "PROGRAM"; cd_OSUser := extractField descriptor "USER";
     cd_Port := match extractField descriptor "PORT" with
                | EmptyString => 0
                | portStr => match ParseInt portStr with Some port => port | None => 0 end
                end |}.

Fixpoint from_paren (s : string) : string :=
  match s with String c r => if Ascii.eqb c "(" then s else from_paren r | EmptyString => "" end.
Definition findDescriptorInPayload (payload : bytes) : string := from_paren (bytes_str payload).

(** The bytes at an offset of the payload, when they look like a descriptor. *)
Definition descriptor_at (payload : bytes) (offset dataLen : Z) : option string :=
  if (0 <=? offset) && (offset <? zlen payload) then
    let candidate := bytes_str (upto dataLen (from_at offset payload)) in
    if Contains candidate "DESCRIPTION" || Contains candidate "SERVICE_NAME" then Some candidate else None
  else None.

Definition extractConnectString (payload : bytes) : string :=
  if zlen payload <? 26 then findDescriptorInPayload payload
  else
    let dataLen := be_get (take 2 (drop 16 payload)) in
    let offset := be_get (take 2 (drop 18 payload)) in
    match descriptor_at payload offset dataLen with
    | Some s => s
    | None => match descriptor_at payload (offset - tnsHeaderSize) dataLen with Some s => s | None => findDescriptorInPayload payload end
    end.

(** ** Rewriting the service name *)

(** A template of [ReplaceAllString] over an expression with one group. *)
Definition is_name_char (c : ascii) : bool :=
  let z := code c in ((48 <=? z) && (z <=? 57)) || ((65 <=? z) && (z <=? 90)) || ((97 <=? z) && (z <=? 122)) || (z =? 95).

Fixpoint span_name (s : string) : string * string :=
  match s with
  | String c r => if is_name_char c then let '(n, t) := span_name r in (String c n, t) else ("", s)
  | EmptyString => ("", "")
  end.

(** The group a template names: 1 alone has text besides the whole match, 0. *)
Definition group_text (name g0 g1 : string) : string :=
  if String.eqb name "0" then g0 else if String.eqb name "1" then g1 else "".

Fixpoint expand (fuel : nat) (template g0 g1 : string) : string :=
  match fuel, template with
  | S fuel, String c t =>
      if negb (Ascii.eqb c "$") then String c (expand fuel t g0 g1)
      else
        match t with
        | String "$" t => String "$" (expand fuel t g0 g1)
        | String "{" t1 =>
            match span_name t1 with
            | (String _ _ as n, String "}" t2) => group_text n g0 g1 ++ expand fuel t2 g0 g1
            | _ => String "$" (expand fuel t g0 g1)
            end
        | _ =>
            match span_name t with
            | (String _ _ as n, t2) => group_text n g0 g1 ++ expand fuel t2 g0 g1
            | _ => String "$" (expand fuel t g0 g1)
            end
        end
  | _, _ => ""
  end.

Definition before (s rest : string) : string := String.substring 0 (String.length s - String.length rest) s.

(** The group (name, equals sign and white space) and what follows a match.  The
    service name starts with no white space, its letters outside ASCII are compared
    as they are. *)
Definition service_match (oldName s : string) : option (string * string) :=
  match after_name "SERVICE_NAME" s with
  | Some r =>
      let value := skip_re_space r in
      match after_folded oldName value with Some rest => Some (before s value, rest) | None => None end
  | None => None
  end.

Fixpoint replace_service (fuel : nat) (oldName template s : string) : string :=
  match fuel, s with
  | S fuel, String c r =>
      match service_match oldName s with
      | Some (group, rest) => expand (S (String.length template)) template (before s rest) group ++ replace_service fuel oldName template rest
      | None => String c (replace_service fuel oldName template r)
      end
  | _, _ => ""
  end.

Fixpoint spaces (n : nat) : string := match n with O => "" | S n => String " " (spaces n) end.

Definition padded_name (oldName newName : string) : string :=
  if slen newName <? slen oldName then newName ++ spaces (String.length oldName - String.length newName)
  else String.substring 0 (String.length oldName) newName.

Definition rewrite_bytes (oldName newName : string) (b : bytes) : bytes :=
  str_bytes (replace_service (S (length b)) oldName ("${1}" ++ padded_name oldName newName) (bytes_str b)).

(** The length of the result is left 0; [Raw] is what is sent. *)
Definition rewriteServiceName (pkt : TNSPacket) (oldName newName : string) : TNSPacket :=
  let payload := rewrite_bytes oldName newName (t_Payload pkt) in
  if bool_decide (payload = t_Payload pkt) then pkt
  else {| t_Type := t_Type pkt; t_Flags := t_Flags pkt; t_Length := 0; t_Payload := payload;
          t_Raw := if zlen (t_Raw pkt) =? 0 then [] else rewrite_bytes oldName newName (t_Raw pkt) |}.

(** ** Markers *)

Definition markerTypeBreak : Z := 1.
Definition markerTypeReset : Z := 2.
Definition markerTypeInterrupt : Z := 3.

Definition marker_of (pkt : TNSPacket) : option Z :=
  if (t_Type pkt =? TNSPacketTypeControl) && (3 <=? zlen (t_Payload pkt)) then Some (byte_at 2 (t_Payload pkt)) else None.

Definition isBreakMarker (pkt : TNSPacket) : bool :=
  match marker_of pkt with Some m => (m =? markerTypeBreak) || (m =? markerTypeInterrupt) | None => false end.
Definition isResetMarker (pkt : TNSPacket) : bool :=
  match marker_of pkt with Some m => m =? markerTypeReset | None => false end.
Definition buildResetMarker : bytes := [0; 0; 0; 11; 12; 0; 0; 0; 1; 0; markerTypeReset].

(** ** Errors, and what the client is told *)

Inductive logon_error :=
| ErrReadPhase1
| ErrReadPhase2
| ErrWriteClient
| ErrNoServiceName
| ErrLogonServerNotFound
| ErrAmbiguousServiceName
| ErrParsePhase1 (e : auth_msg_error)
| ErrLogonUserNotFound
| ErrLogonUserLookup (e : acct_error)
| ErrLogonNoActiveGrant
| ErrLogonQuota (e : quota_error)
| ErrListKeys (e : acct_error)
| ErrNoO5LogonVerifier
| ErrO5Challenge (e : o5_error)
| ErrParsePhase2 (e : auth_msg_error)
| ErrLoadKey (e : acct_error)
| ErrAPIKeyVerification
| ErrAPIKeyOwnerMismatchOracle.

Definition ORA01017 : Z := 1017.
Definition ORA01045 : Z := 1045.
Definition ORA12505 : Z := 12505.
Definition ORA12514 : Z := 12514.
Definition ORA12520 : Z := 12520.

Definition authRejectFor (e : logon_error) : Z * string :=
  match e with
  | ErrLogonNoActiveGrant => (ORA01045, "no active grant for this database; request access via dbbat")
  | ErrAmbiguousServiceName =>
      (ORA01045, "service name matches multiple dbbat databases; connect using the dbbat database name instead")
  | _ => (ORA01017, "invalid username/password; logon denied")
  end.

(** The frame of [sendAuthFailed]. *)
Definition auth_failed_frame (e : logon_error) : bytes :=
  let '(code, message) := authRejectFor e in encodeV315DataPacket (buildAuthFailed code message).

Definition redirect_descriptor (oraCode : Z) (reason : string) : string :=
  "(DESCRIPTION=(TMP=)(VSNNUM=0)(ERR=" ++ FormatInt oraCode ++ ")(ERROR_STACK=(ERROR=(CODE=" ++ FormatInt oraCode
  ++ ")(EMFI=4)(ARGS='(" ++ reason ++ ")'))))".

Definition buildErrorRedirectPayload (oraCode : Z) (reason : string) : bytes :=
  let desc := str_bytes (redirect_descriptor oraCode reason) in
  (u8 (Z.shiftr (zlen desc + 4) 8) :: 0 :: be_put 2 (zlen desc mod 65536) ++ desc)%list.

(** ** The server of a connection *)

(** What the session sends when it refuses, and why. *)
Definition refusal : Type := bytes * logon_error.

Definition refuse (oraCode : Z) (reason : string) (e : logon_error) : refusal :=
  (encodeTNSPacket TNSPacketTypeRedirect (buildErrorRedirectPayload oraCode reason), e).

Definition server_addr (s : Server) : string := JoinHostPort (d_Host s) (FormatInt (d_Port s)).

Definition service_of (connectStr : string) : string :=
  let cd := parseConnectDescriptor connectStr in
  if negb (String.eqb (cd_ServiceName cd) "") then cd_ServiceName cd
  else let ez := parseServiceNameEZConnect connectStr in if negb (String.eqb ez "") then ez else cd_SID cd.

(** The server, and the servers to choose from when the name is shared. *)
Definition resolveDatabase {C : Collation} (e : Env) (servers : ServerDB) (connectPayload : bytes) : res refusal (Server * list Server) :=
  let serviceName := service_of (extractConnectString connectPayload) in
  if String.eqb serviceName "" then Err (refuse ORA12505 "missing SERVICE_NAME in connect descriptor" ErrNoServiceName)
  else
    match GetServerByName (e_sql e 0 0%nat) servers serviceName with
    | Panic => Panic
    | Ok db => Ok (db, [])
    | Err _ =>
        match ListServersByOracleServiceName (e_sql e 1 0%nat) servers serviceName with
        | Panic => Panic
        | Err _ | Ok [] => Err (refuse ORA12514 "database not found" ErrLogonServerNotFound)
        | Ok [db] => Ok (db, [])
        | Ok ((db :: _) as candidates) =>
            if forallb (fun c => String.eqb (server_addr c) (server_addr db)) candidates then Ok (db, candidates)
            else Err (refuse ORA12514
                        "service name matches multiple dbbat databases with different upstreams; connect using the dbbat database name"
                        ErrAmbiguousServiceName)
        end
    end.

Section Login.
Context {A2 : Argon2} {GCM : AEAD} {HS : Hashes} {dig : Digest} {order : MapOrder} {UT : UUIDText} {HT : HostText} {B : BlockCipher}.

(** The same store and clock, later. *)
Definition later (n : nat) (e : Env) : Env := {| e_sql := fun i => e_sql e (n + i); e_now := fun i => e_now e (n + i) |}.

Definition find_user (e : Env) (b : Backend) (username : string) : res logon_error User :=
  match GetUserByUsername (e_sql e 0) (b_acct b) username with
  | Ok user => Ok user
  | Err ErrUserNotFound => Err ErrLogonUserNotFound
  | Err err => Err (ErrLogonUserLookup err)
  | Panic => Panic
  end.

(** The candidates the user has an active grant on; call 1 + i of the store reads the i-th. *)
Fixpoint granted (e : Env) (i : nat) (b : Backend) (user : User) (candidates : list Server) : list Server :=
  match candidates with
  | [] => []
  | c :: candidates =>
      let rest := granted e (S i) b user candidates in
      match GetActiveGrant (e_sql e (S i)) (b_grants b) (u_UID user) (d_UID c) (e_now e i) with Ok _ => c :: rest | _ => rest end
  end.

Definition disambiguateDatabase (e : Env) (b : Backend) (database : Server) (candidates : list Server) (phase1 : bytes) : res logon_error Server :=
  if zlen candidates <? 2 then Ok database
  else
    match parseAuthPhase1 phase1 with
    | Panic => Panic
    | Err err => Err (ErrParsePhase1 err)
    | Ok username =>
        let! user := find_user e b (ToLower username) in
        match granted e 0 b user candidates with
        | [] => Err ErrLogonNoActiveGrant
        | [db] => Ok db
        | _ => Err ErrAmbiguousServiceName
        end
    end.

(** ** The messages of the exchange *)

(** [pkts]: what the client sends, until it stops. *)
Fixpoint first_data (pkts : list TNSPacket) : res logon_error TNSPacket :=
  match pkts with
  | [] => Err ErrReadPhase1
  | pkt :: pkts => if t_Type pkt =? TNSPacketTypeData then Ok pkt else first_data pkts
  end.

Definition readPhase1Packet (phase1Pkt : option TNSPacket) (pkts : list TNSPacket) : res logon_error TNSPacket :=
  match phase1Pkt with Some pkt => Ok pkt | None => first_data pkts end.

(** The first data packet, and the reset markers sent on the way to it. *)
Fixpoint readPhase2Packet (write : bool) (pkts : list TNSPacket) (sawBreak : bool) : list bytes * res logon_error TNSPacket :=
  match pkts with
  | [] => ([], Err ErrReadPhase2)
  | pkt :: pkts =>
      if t_Type pkt =? TNSPacketTypeData then ([], Ok pkt)
      else
        let sawBreak := sawBreak || isBreakMarker pkt in
        if isResetMarker pkt && sawBreak then
          if write then let '(out, r) := readPhase2Packet write pkts false in (buildResetMarker :: out, r)
          else ([], Err ErrWriteClient)
        else readPhase2Packet write pkts sawBreak
  end.

Definition clientChallengeTrailer (wide : bool) (upstream : option upstreamAuthResponse) (verifierType : Z) : bytes :=
  match upstream with
  | Some r =>
      match ar_challengeTrailer r with
      | (c :: _) as t => if wide && (c =? TTCFuncOERR) then t else buildAuthChallengeEndMarker verifierType wide
      | [] => buildAuthChallengeEndMarker verifierType wide
      end
  | None => buildAuthChallengeEndMarker verifierType wide
  end.

(** ** The keys a login may use *)

Record o5LogonVerifierData := {
  vd_O5LogonSalt : bytes;
  vd_decryptedVerifier : bytes;
  vd_apiKeyID : uuid;
  vd_keyPrefix : string;
  vd_userSalt : bool;
  vd_salt18453 : bytes;
  vd_decryptedVerifier18453 : bytes
}.

Definition decryptO5LogonVerifier (encVerifier encryptionKey : bytes) (keyPrefix : string) : res crypto_error bytes :=
  Decrypt encVerifier encryptionKey (APIKeyAAD keyPrefix).

Definition decryptVerifierData (encryptionKey : bytes) (k : APIKey) : option o5LogonVerifierData :=
  match APIKey_OracleData k with
  | None => None
  | Some od =>
      if (zlen (ok_Salt6949 od) =? 0) || (zlen (ok_Verifier6949 od) =? 0) then None
      else
        match decryptO5LogonVerifier (ok_Verifier6949 od) encryptionKey (k_KeyPrefix k) with
        | Ok decrypted =>
            let '(salt18453, verifier18453) :=
              if (0 <? zlen (ok_Salt18453 od)) && (0 <? zlen (ok_Verifier18453 od)) then
                match decryptO5LogonVerifier (ok_Verifier18453 od) encryptionKey (k_KeyPrefix k) with
                | Ok v => (ok_Salt18453 od, v)
                | _ => ([], [])
                end
              else ([], []) in
            Some {| vd_O5LogonSalt := ok_Salt6949 od; vd_decryptedVerifier := decrypted; vd_apiKeyID := k_ID k;
                    vd_keyPrefix := k_KeyPrefix k; vd_userSalt := ok_UserSalt od; vd_salt18453 := salt18453;
                    vd_decryptedVerifier18453 := verifier18453 |}
        | _ => None
        end
  end.

Definition selectVerifierCandidates (all : list o5LogonVerifierData) : list o5LogonVerifierData :=
  match List.filter vd_userSalt all with
  | (primary :: _) as shared => List.filter (fun c => bool_decide (vd_O5LogonSalt c = vd_O5LogonSalt primary)) shared
  | [] => match all with [] => [] | legacy :: _ => [legacy] end
  end.

Definition oracle_keys (userID : uuid) : APIKeyFilter :=
  {| kf_UserID := Some userID; kf_KeyType := Some KeyTypeAPI; kf_IncludeAll := false; kf_Limit := 0; kf_Offset := 0 |}.

Definition loadO5LogonVerifiers (e : Env) (b : Backend) (encryptionKey : bytes) (userID : uuid) : res logon_error (list o5LogonVerifierData) :=
  match ListAPIKeys (e_sql e 0) (b_acct b) (oracle_keys userID) (e_now e 0) with
  | Panic => Panic
  | Err err => Err (ErrListKeys err)
  | Ok keys =>
      match selectVerifierCandidates (omap (decryptVerifierData encryptionKey) keys) with
      | [] => Err ErrNoO5LogonVerifier
      | candidates => Ok candidates
      end
  end.

(** ** The key of a login *)

Record KeyProof := {
  kp_apiKey : APIKey;
  kp_CombinedKey : bytes;
  kp_upgrade : option (uuid * string)
}.

(** The verifier of a candidate, for the type of the challenge. *)
Definition candidate_verifier (o5 : O5LogonServer) (v : o5LogonVerifierData) : option (bytes * bytes) :=
  if o5_verifierType o5 =? VerifierType18453
  then if zlen (vd_decryptedVerifier18453 v) =? 0 then None else Some (vd_salt18453 v, vd_decryptedVerifier18453 v)
  else Some (vd_O5LogonSalt v, vd_decryptedVerifier v).

(** The password as the [i]-th candidate sees it; [None] moves on to the next. *)
Definition candidate_password (o5 : O5LogonServer) (i : nat) (v : o5LogonVerifierData) (clientSessKey encPassword encChallenge : string) :
    res o5_error (option (O5LogonServer * string)) :=
  let cand := match i with
              | O => Ok (Some o5)
              | _ => match candidate_verifier o5 v with
                     | Some (salt, key) => match CloneForCandidate o5 salt key encChallenge with Ok c => Ok (Some c) | Err _ => Ok None | Panic => Panic end
                     | None => Ok None
                     end
              end in
  let! cand := cand in
  match cand with
  | None => Ok None
  | Some cand =>
      match DecryptPassword cand clientSessKey encPassword with
      | Panic => Panic
      | Err _ => Ok None
      | Ok r => Ok (Some r)
      end
  end.

(** A key with legacy salts is upgraded while its plaintext is at hand. *)
Definition upgrade_of (k : APIKey) (plain : string) : option (uuid * string) :=
  match APIKey_OracleData k with Some od => if ok_UserSalt od then None else Some (k_ID k, plain) | None => None end.

Fixpoint try_candidates (e : Env) (b : Backend) (o5 : O5LogonServer) (i : nat) (verifiers : list o5LogonVerifierData)
    (clientSessKey encPassword encChallenge : string) : Backend * res logon_error KeyProof :=
  match verifiers with
  | [] => (b, Err ErrAPIKeyVerification)
  | v :: verifiers =>
      match candidate_password o5 i v clientSessKey encPassword encChallenge with
      | Panic => (b, Panic)
      | Err _ | Ok None => try_candidates e b o5 (S i) verifiers clientSessKey encPassword encChallenge
      | Ok (Some (cand, plain)) =>
          match verify_key (later (6 * i) e) b plain with
          | (b, Ok k) => (b, Ok {| kp_apiKey := k; kp_CombinedKey := o5_CombinedKey cand; kp_upgrade := upgrade_of k plain |})
          | (b, Err _) => try_candidates e b o5 (S i) verifiers clientSessKey encPassword encChallenge
          | (b, Panic) => (b, Panic)
          end
      end
  end.

(** Without a password the newest candidate is taken for the key in use. *)
Definition resolveAPIKeyFromPhase2 (e : Env) (b : Backend) (o5 : O5LogonServer) (verifiers : list o5LogonVerifierData)
    (clientSessKey encPassword encChallenge : string) : Backend * res logon_error KeyProof :=
  if String.eqb encPassword "" then
    match verifiers with
    | [] => (b, Panic)
    | primary :: _ =>
        match DeriveCombinedKey o5 clientSessKey with
        | Panic => (b, Panic)
        | derived =>
            let combined := match derived with Ok s => o5_CombinedKey s | _ => o5_CombinedKey o5 end in
            (b, match GetAPIKeyByID (e_sql e 0) (b_acct b) (vd_apiKeyID primary) with
                | Ok k => Ok {| kp_apiKey := k; kp_CombinedKey := combined; kp_upgrade := None |}
                | Err err => Err (ErrLoadKey err)
                | Panic => Panic
                end)
        end
    end
  else try_candidates (later 1 e) b o5 0 verifiers clientSessKey encPassword encChallenge.

(** ** The login *)

(** What the session holds besides the store: the master key, whether the client
    takes verifier 18453, the upstream's challenge when it was asked first, the
    random bytes of the challenge, and whether writes to the client succeed. *)
Record OraEnv := {
  oe_encryptionKey : bytes;
  oe_customHash : bool;
  oe_upstream : option upstreamAuthResponse;
  oe_session : option bytes;
  oe_chk : option bytes;
  oe_write : bool
}.

Record OraLogin := {
  ol_username : string;
  ol_user : User;
  ol_grant : AccessGrant;
  ol_wide : bool;
  ol_phase2 : TNSPacket;
  ol_key : APIKey;
  ol_combinedKey : bytes;
  ol_upgrade : option (uuid * string)
}.

(** Before the challenge: the user, the grant, the quotas, the candidates. *)
Definition identify (e : Env) (b : Backend) (o : OraEnv) (database : Server) (phase1 : bytes) :
    res logon_error (string * User * AccessGrant * list o5LogonVerifierData) :=
  match parseAuthPhase1 phase1 with
  | Panic => Panic
  | Err err => Err (ErrParsePhase1 err)
  | Ok username =>
      let username := ToLower username in
      let! user := find_user e b username in
      match GetActiveGrant (e_sql e 2) (b_grants b) (u_UID user) (d_UID database) (e_now e 0) with
      | Panic => Panic
      | Err _ => Err ErrLogonNoActiveGrant
      | Ok grant =>
          match checkQuotas (e_now e 1) grant with
          | Some err => Err (ErrLogonQuota err)
          | None =>
              let! verifiers := loadO5LogonVerifiers (later 6 e) b (oe_encryptionKey o) (u_UID user) in
              Ok (username, user, grant, verifiers)
          end
      end
  end.

(** The server of the challenge, made from the newest candidate. *)
Definition primary_server (o : OraEnv) (primary : o5LogonVerifierData) : O5LogonServer :=
  login_server (oe_customHash o && (0 <? zlen (vd_decryptedVerifier18453 primary))) (vd_O5LogonSalt primary)
    (vd_decryptedVerifier primary) (vd_salt18453 primary) (vd_decryptedVerifier18453 primary).

Definition challenge_packet (o : OraEnv) (o5 : O5LogonServer) (encSess vfr : string) (wide : bool) : bytes :=
  encodeV315DataPacket
    (buildAuthChallenge encSess vfr (PBKDF2ChkSalt o5) (o5_pbkdf2VgenCount o5) (o5_pbkdf2SderCount o5) (o5_verifierType o5) wide
     ++ clientChallengeTrailer wide (oe_upstream o) (o5_verifierType o5))%list.

(** [client] is what the client sends once it has the challenge packet. *)
Definition authenticateClient (e : Env) (b : Backend) (o : OraEnv) (database : Server) (phase1Pkt : option TNSPacket)
    (pkts : list TNSPacket) (client : bytes -> list TNSPacket) : Backend * list bytes * res logon_error OraLogin :=
  match readPhase1Packet phase1Pkt pkts with
  | Panic => (b, [], Panic)
  | Err err => (b, [], Err err)
  | Ok phase1 =>
      match identify e b o database (t_Payload phase1) with
      | Panic => (b, [], Panic)
      | Err err => (b, [], Err err)
      | Ok (_, _, _, []) => (b, [], Panic)
      | Ok (username, user, grant, (primary :: _) as verifiers) =>
          match GenerateChallenge (primary_server o primary) (oe_session o) (oe_chk o) with
          | Panic => (b, [], Panic)
          | Err err => (b, [], Err (ErrO5Challenge err))
          | Ok (o5, encSess, vfr) =>
              let wide := payloadUsesWideKVEncoding (t_Payload phase1) in
              let challenge := challenge_packet o o5 encSess vfr wide in
              if negb (oe_write o) then (b, [], Err ErrWriteClient)
              else
                let '(markers, phase2) := readPhase2Packet true (client challenge) false in
                let out := challenge :: markers in
                match phase2 with
                | Panic => (b, out, Panic)
                | Err err => (b, out, Err err)
                | Ok phase2 =>
                    match parseAuthPhase2 (t_Payload phase2) with
                    | Panic => (b, out, Panic)
                    | Err err => (b, out, Err (ErrParsePhase2 err))
                    | Ok (clientSessKey, encPassword) =>
                        match resolveAPIKeyFromPhase2 (later 7 e) b o5 verifiers clientSessKey encPassword encSess with
                        | (b, Panic) => (b, out, Panic)
                        | (b, Err err) => (b, out, Err err)
                        | (b, Ok proof) =>
                            if negb (N.eqb (k_UserID (kp_apiKey proof)) (u_UID user)) then (b, out, Err ErrAPIKeyOwnerMismatchOracle)
                            else
                              (spawn_usage b (k_ID (kp_apiKey proof)), out,
                               Ok {| ol_username := username; ol_user := user; ol_grant := grant; ol_wide := wide; ol_phase2 := phase2;
                                     ol_key := kp_apiKey proof; ol_combinedKey := kp_CombinedKey proof; ol_upgrade := kp_upgrade proof |})
                        end
                    end
                end
          end
      end
  end.

(** The steps of [run] from the phase-1 packet on, with the frame that refuses the
    login: the choice among servers that share a name, then the exchange. *)
Definition logon (e : Env) (b : Backend) (o : OraEnv) (database : Server) (candidates : list Server) (phase1Pkt : TNSPacket)
    (client : bytes -> list TNSPacket) : Backend * list bytes * res logon_error (Server * OraLogin) :=
  match disambiguateDatabase e b database candidates (t_Payload phase1Pkt) with
  | Panic => (b, [], Panic)
  | Err err => (b, [auth_failed_frame err], Err err)
  | Ok database =>
      match authenticateClient (later (2 + length candidates) e) b o database (Some phase1Pkt) [] client with
      | (b, out, Ok login) => (b, out, Ok (database, login))
      | (b, out, Err err) => (b, (out ++ [auth_failed_frame err])%list, Err err)
      | (b, out, Panic) => (b, out, Panic)
      end
  end.

End Login.

(** * Theorems *)

(** ** The rewritten service name *)

Definition no_dollar (c : ascii) : bool := negb (Ascii.eqb c "$").

Lemma expand_plain g0 g1 : forall fuel p, all_chars no_dollar p = true -> (String.length p <= fuel)%nat -> expand fuel p g0 g1 = p.
Proof.
  induction fuel as [|fuel IH]; intros [|c p] Hp Hf; try done; [cbn in Hf; lia|].
  cbn [all_chars] in Hp. apply andb_true_iff in Hp as [Hc Hp]. cbn [expand]. unfold no_dollar in Hc. rewrite Hc, IH; [done..|cbn in Hf; lia].
Qed.

Lemma expand_group g0 g1 p : all_chars no_dollar p = true ->
  expand (S (String.length ("${1}" ++ p))) ("${1}" ++ p) g0 g1 = g1 ++ p.
Proof.
  intros Hp. assert (forall n, (String.length p <= n)%nat -> expand (S n) ("${1}" ++ p) g0 g1 = g1 ++ p) as H.
  { intros n Hn. transitivity (match span_name (String "1" (String "}" p)) with
      | (String _ _ as name, String "}" t2) => group_text name g0 g1 ++ expand n t2 g0 g1
      | _ => String "$" (expand n (String "{" (String "1" (String "}" p))) g0 g1)
      end); [reflexivity|]. change (span_name _) with ("1", String "}" p). cbv beta iota.
    change (group_text "1" g0 g1) with g1. by rewrite expand_plain. }
  apply H. pose proof (slen_app "${1}" p) as E. unfold slen in E. lia.
Qed.

Lemma upper_cons_ascii c s : all_chars is_ascii1 (String c s) = true -> is_ascii1 c = true /\ all_chars is_ascii1 s = true.
Proof. cbn [all_chars]. by intros ?%andb_true_iff. Qed.

Lemma after_folded_length lit : forall s r, all_chars is_ascii1 s = true -> after_folded lit s = Some r ->
  slen s = slen lit + slen r /\ all_chars is_ascii1 r = true.
Proof.
  induction lit as [|l lit IH]; intros s r Hs; cbn [after_folded]; [intros [= ->]; by rewrite Z.add_0_l|].
  destruct s as [|c s]; [done|]. apply upper_cons_ascii in Hs as [Hc Hs]. unfold is_ascii1 in Hc.
  destruct (Ascii.eqb (upper1 c) (upper1 l)).
  - intros E. destruct (IH s r Hs E) as [H1 H2]. rewrite !slen_cons. split; [lia|done].
  - replace (code c =? 197) with false by (symmetry; blia). replace (code c =? 226) with false by (symmetry; blia).
    rewrite !andb_false_r. cbn [andb]. by repeat case_match.
Qed.

Lemma skip_re_space_suffix s : slen (skip_re_space s) <= slen s /\ (all_chars is_ascii1 s = true -> all_chars is_ascii1 (skip_re_space s) = true).
Proof.
  induction s as [|c s [IH1 IH2]]; [done|]. cbn [skip_re_space]. destruct (re_space c); [|split; [lia|done]].
  rewrite slen_cons. split; [lia|]. intros H. apply IH2, (upper_cons_ascii _ _ H).
Qed.

Lemma after_name_suffix name s r : all_chars is_ascii1 s = true -> after_name name s = Some r ->
  slen name + slen r < slen s /\ all_chars is_ascii1 r = true.
Proof.
  unfold after_name. intros Hs. destruct (after_folded name s) as [t|] eqn:E; [|done].
  destruct (after_folded_length _ _ _ Hs E) as [Hl Ht]. destruct (skip_re_space_suffix t) as [H1 H2]. specialize (H2 Ht).
  destruct (skip_re_space t) as [|c r']; [done|]. intros H. assert (r' = r /\ is_true true) as [-> _] by (repeat case_match; simplify_eq; done).
  apply upper_cons_ascii in H2 as [_ H2]. rewrite slen_cons in H1. split; [lia|done].
Qed.

Lemma slen_before s r : slen r <= slen s -> slen (before s r) = slen s - slen r.
Proof. intros Hl. unfold before, slen in *. rewrite length_substring by lia. lia. Qed.

Lemma service_match_length old s group rest : all_chars is_ascii1 s = true -> service_match old s = Some (group, rest) ->
  slen group + slen old + slen rest = slen s /\ 0 < slen group /\ all_chars is_ascii1 rest = true.
Proof.
  intros Hs. unfold service_match. destruct (after_name _ s) as [r|] eqn:E; [|done].
  destruct (after_name_suffix _ _ _ Hs E) as [Hr Ha]. destruct (skip_re_space_suffix r) as [H1 H2]. specialize (H2 Ha).
  destruct (after_folded old _) as [t|] eqn:Ef; [|done]. intros [= <- <-]. destruct (after_folded_length _ _ _ H2 Ef) as [Hl Ht].
  change (slen "SERVICE_NAME") with 12 in Hr. rewrite slen_before by lia. split_and!; [lia|lia|done].
Qed.

Lemma slen_spaces n : slen (spaces n) = Z.of_nat n /\ all_chars no_dollar (spaces n) = true.
Proof. induction n as [|n [IH1 IH2]]; [done|]. cbn [spaces]. rewrite slen_cons. split; [lia|exact IH2]. Qed.

Lemma padded_name_ok old new : all_chars no_dollar new = true ->
  slen (padded_name old new) = slen old /\ all_chars no_dollar (padded_name old new) = true.
Proof.
  intros Hn. unfold padded_name. destruct (Z.ltb_spec (slen new) (slen old)).
  - destruct (slen_spaces (String.length old - String.length new)) as [H1 H2]. rewrite slen_app, all_chars_app, Hn, H1. unfold slen in *. split; [lia|done].
  - unfold slen in *. rewrite length_substring by lia. split; [done|by apply all_chars_substring].
Qed.

Lemma replace_length old new : all_chars no_dollar new = true -> forall fuel s, (String.length s <= fuel)%nat -> all_chars is_ascii1 s = true ->
  slen (replace_service fuel old ("${1}" ++ padded_name old new) s) = slen s.
Proof.
  intros Hn. destruct (padded_name_ok old new Hn) as [Hl Hd]. induction fuel as [|fuel IH]; intros [|c s] Hf Hs; try done; [cbn in Hf; lia|].
  cbn [replace_service]. destruct (service_match old (String c s)) as [[group rest]|] eqn:E.
  - destruct (service_match_length _ _ _ _ Hs E) as (H1 & H2 & H3). rewrite expand_group, !slen_app, Hl by done.
    rewrite IH; [lia| |done]. unfold slen in *. lia.
  - rewrite !slen_cons, IH; [done|cbn in Hf; lia|]. by apply upper_cons_ascii in Hs as [_ Hs].
Qed.

(** Rewriting the service name of a connect packet keeps the length of every
    field: names without a dollar are padded or cut to the length of the old one. *)
Theorem rewrite_keeps_length pkt oldName newName :
  all_chars no_dollar newName = true -> Forall (fun c => 0 <= c < 128) (t_Payload pkt) -> Forall (fun c => 0 <= c < 128) (t_Raw pkt) ->
  zlen (t_Payload (rewriteServiceName pkt oldName newName)) = zlen (t_Payload pkt)
  /\ zlen (t_Raw (rewriteServiceName pkt oldName newName)) = zlen (t_Raw pkt).
Proof.
  intros Hn Hp Hr.
  assert (forall b, Forall (fun c => 0 <= c < 128) b -> zlen (rewrite_bytes oldName newName b) = zlen b) as H.
  { intros b Hb. unfold rewrite_bytes. rewrite zlen_str_bytes.
    assert (wf_bytes b) as Hw by (eapply Forall_impl; [exact Hb|]; unfold is_byte; intros; lia).
    assert (slen (bytes_str b) = zlen b) as El by (by rewrite <- zlen_str_bytes, str_bytes_str).
    rewrite replace_length; [done|done|unfold slen, zlen in El; lia|].
    clear -Hb. induction Hb as [|c b Hc Hb IH]; [done|]. cbn. rewrite andb_true_iff. split; [|exact IH].
    unfold is_ascii1. rewrite code_chr by lia. blia. }
  unfold rewriteServiceName. case_bool_decide; [done|]. cbn [t_Payload t_Raw]. rewrite H by exact Hp. split; [reflexivity|].
  destruct (Z.eqb_spec (zlen (t_Raw pkt)) 0) as [E|E]; [by rewrite E|exact (H _ Hr)].
Qed.

Definition connect_sample : TNSPacket :=
  {| t_Type := TNSPacketTypeConnect; t_Flags := 0; t_Length := 0; t_Payload := str_bytes "(CONNECT_DATA=(Service_Name = abynonprod)(CID=x))"; t_Raw := [] |}.

Lemma rewrite_keeps_length_witness :
  bytes_str (t_Payload (rewriteServiceName connect_sample "ABYNONPROD" "TEST01")) = "(CONNECT_DATA=(Service_Name = TEST01    )(CID=x))"
  /\ zlen (t_Payload (rewriteServiceName connect_sample "ABYNONPROD" "TEST01")) = zlen (t_Payload connect_sample).
Proof.
  split; [vm_compute; reflexivity|].
  refine (proj1 (rewrite_keeps_length connect_sample "ABYNONPROD" "TEST01" _ _ _)); [reflexivity| |constructor].
  apply Forall_forall. intros x Hx. assert (forallb (fun c => (0 <=? c) && (c <? 128)) (t_Payload connect_sample) = true) as H by reflexivity.
  rewrite forallb_forall in H. apply list_elem_of_In, H in Hx. lia.
Defined.

(** A dollar in the new name starts a group reference, which is empty. *)
Example dollar_shortens :
  bytes_str (t_Payload (rewriteServiceName connect_sample "abynonprod" "SALES$ORCL")) = "(CONNECT_DATA=(Service_Name = SALES)(CID=x))".
Proof. vm_compute. reflexivity. Qed.

Example descriptor_fields :
  cd_ServiceName (parseConnectDescriptor "(DESCRIPTION=(ADDRESS=(HOST= db )(PORT=1521))(CONNECT_DATA=(service_name=)(SERVICE_NAME = ORCL )))") = "ORCL".
Proof. reflexivity. Qed.

(** ** Resolution *)

(** A connection is directed to a live server: the one of that name, else one that
    serves the name, and when several do, they are all at one address. *)
Theorem resolved_server {C : Collation} e servers payload db candidates :
  resolveDatabase e servers payload = Ok (db, candidates) ->
  let name := service_of (extractConnectString payload) in
  (exists k, servers !! k = Some db) /\ live_server db = true
  /\ (d_Name db = name \/ has_service name db = true)
  /\ Forall (fun c => (exists k, servers !! k = Some c) /\ has_service name c = true /\ server_addr c = server_addr db) candidates.
Proof.
  unfold resolveDatabase. cbv zeta. set (name := service_of _). destruct (String.eqb name ""); [done|].
  destruct (GetServerByName _ servers name) as [s|err|] eqn:Es; [|clear Es|done].
  - intros [= <- <-]. apply GetServerByName_Ok in Es as (k & H1 & H2 & H3 & _). split_and!; [by exists k|done|by left|constructor].
  - destruct (ListServersByOracleServiceName _ servers name) as [l|err'|] eqn:El; [|done..].
    assert (forall c, c ∈ l -> (exists k, servers !! k = Some c) /\ has_service name c = true) as Hl.
    { unfold ListServersByOracleServiceName in El. destruct (e_sql e 1 0%nat); [|done]. injection El as <-. intros c.
      unfold by_name. rewrite order_by_perm, list_elem_of_In, filter_In, elem_rows. done. }
    assert (forall c, has_service name c = true -> live_server c = true) as Hlive by (unfold has_service; intros c ?; by bools).
    destruct l as [|db1 [|db2 l]]; [done| |].
    + intros [= <- <-]. destruct (Hl db1) as [H1 H2]; [by left|]. split_and!; [done|by apply Hlive|by right|constructor].
    + destruct (forallb _ _) eqn:Ef; [|done]. intros [= <- <-]. destruct (Hl db1) as [H1 H2]; [by left|].
      split_and!; [done|by apply Hlive|by right|]. apply Forall_forall. intros c Hc. destruct (Hl c Hc) as [H3 H4].
      rewrite forallb_forall in Ef. apply list_elem_of_In, Ef, String.eqb_eq in Hc. done.
Qed.

(** ** The login *)

Section LoginTheorems.
Context {A2 : Argon2} {GCM : AEAD} {HS : Hashes} {dig : Digest} {order : MapOrder} {UT : UUIDText} {HT : HostText} {B : BlockCipher}.

(** A row of the key table that is neither revoked nor expired at the instants
    [e] gives the check, and whose hash accepts the plaintext, through the cache
    of the store when there is one. *)
Definition key_proven (e : Env) (b : Backend) (k : APIKey) (plain : string) : Prop :=
  exists i, api_keys (b_acct b) !! i = Some k /\ k_RevokedAt k = None /\ (forall t, k_ExpiresAt k = Some t -> e_now e 5 <= t)
    /\ (check_key (b_keyCache b) plain (k_KeyHash k) (e_now e 3) (e_now e 4)).2 = Ok true.

(** The row that the password proves: the first candidates are tried and refused,
    and the next one, on the challenge that was sent, decrypts the password to a
    plaintext that the row's hash accepts then. *)
Definition password_proves (e : Env) (b : Backend) (o5 : O5LogonServer) (vs : list o5LogonVerifierData)
    (sess enc ch : string) (k : APIKey) : Prop :=
  exists n v cand plain bn,
    vs !! n = Some v /\ try_candidates e b o5 0 (take n vs) sess enc ch = (bn, Err ErrAPIKeyVerification) /\
    candidate_password o5 n v sess enc ch = Ok (Some (cand, plain)) /\ key_proven (later (6 * n) e) bn k plain.

Lemma try_candidates_Ok sess enc ch o5 : forall vs e b i b' p,
  try_candidates e b o5 i vs sess enc ch = (b', Ok p) ->
  exists n v cand plain bn,
    vs !! n = Some v /\ try_candidates e b o5 i (take n vs) sess enc ch = (bn, Err ErrAPIKeyVerification) /\
    b_acct bn = b_acct b /\
    candidate_password o5 (i + n) v sess enc ch = Ok (Some (cand, plain)) /\ key_proven (later (6 * (i + n)) e) bn (kp_apiKey p) plain.
Proof.
  induction vs as [|v vs IH]; intros e b i b' p; cbn [try_candidates]; [done|].
  assert (next : forall b1, b_acct b1 = b_acct b -> try_candidates e b1 o5 (S i) vs sess enc ch = (b', Ok p) ->
    (forall rest, try_candidates e b o5 i (v :: rest) sess enc ch = try_candidates e b1 o5 (S i) rest sess enc ch) ->
    exists n v0 cand plain bn,
      (v :: vs) !! n = Some v0 /\ try_candidates e b o5 i (take n (v :: vs)) sess enc ch = (bn, Err ErrAPIKeyVerification) /\
      b_acct bn = b_acct b /\ candidate_password o5 (i + n) v0 sess enc ch = Ok (Some (cand, plain)) /\
      key_proven (later (6 * (i + n)) e) bn (kp_apiKey p) plain).
  { intros b1 Ha H Hstep. destruct (IH _ _ _ _ _ H) as (n & v0 & cand & plain & bn & H1 & H2 & H3 & H4 & H5).
    exists (S n), v0, cand, plain, bn. cbn [take]. rewrite Hstep. replace (i + S n)%nat with (S i + n)%nat by lia.
    split_and!; try done. congruence. }
  destruct (candidate_password o5 i v sess enc ch) as [[[c' plain]|]|err|] eqn:Ec; [| | |done].
  - pose proof (verify_key_acct (later (6 * i) e) b plain) as Ha. pose proof (verify_key_Ok (later (6 * i) e) b plain) as Hv.
    destruct (verify_key (later (6 * i) e) b plain) as [b1 [k|err|]] eqn:Ev; cbn [fst snd] in *; [|clear Hv|done].
    + intros [= <- <-]. exists 0%nat, v, c', plain, b. rewrite Nat.add_0_r. split_and!; [done|done|done|done|by apply Hv].
    + intros H. apply (next b1 Ha H). intros rest. cbn [try_candidates]. by rewrite Ec, Ev.
  - intros H. apply (next b eq_refl H). intros rest. cbn [try_candidates]. by rewrite Ec.
  - intros H. apply (next b eq_refl H). intros rest. cbn [try_candidates]. by rewrite Ec.
Qed.

Lemma identify_Ok e b o database p1 username user grant vs :
  identify e b o database p1 = Ok (username, user, grant, vs) ->
  (exists name, parseAuthPhase1 p1 = Ok name /\ username = ToLower name)
  /\ GetUserByUsername (e_sql e 0) (b_acct b) username = Ok user
  /\ GetActiveGrant (e_sql e 2) (b_grants b) (u_UID user) (d_UID database) (e_now e 0) = Ok grant
  /\ checkQuotas (e_now e 1) grant = None
  /\ loadO5LogonVerifiers (later 6 e) b (oe_encryptionKey o) (u_UID user) = Ok vs.
Proof.
  unfold identify, find_user. destruct (parseAuthPhase1 p1) as [name|?|]; [|done..].
  destruct (GetUserByUsername _ _ _) as [u|[]|] eqn:Eu; cbn [rbind]; try done.
  destruct (GetActiveGrant _ _ _ _ _) as [g|?|] eqn:Eg; [|done..]. destruct (checkQuotas _ g) eqn:Eq; [done|].
  destruct (loadO5LogonVerifiers _ _ _ _) eqn:El; cbn [rbind]; [|done..]. intros [= <- <- <- <-]. split_and!; [by exists name|done..].
Qed.

(** What the exchange was when a client is let in. *)
Lemma authenticateClient_Ok e b o database p1 pkts client b' out login :
  authenticateClient e b o database p1 pkts client = (b', out, Ok login) ->
  exists phase1 primary vs o5 encSess vfr markers sess enc,
    readPhase1Packet p1 pkts = Ok phase1
    /\ (exists name, parseAuthPhase1 (t_Payload phase1) = Ok name /\ ol_username login = ToLower name)
    /\ (exists k, users (b_acct b) !! k = Some (ol_user login) /\ live_user (ol_user login) = true /\ u_Username (ol_user login) = ol_username login)
    /\ (exists k g0, access_grants (b_grants b) !! k = Some g0 /\ selects (u_UID (ol_user login)) (d_UID database) (e_now e 0) g0
          /\ ol_grant login = with_counters g0 (grant_query_count (b_grants b) g0) (grant_bytes (b_grants b) g0))
    /\ checkQuotas (e_now e 1) (ol_grant login) = None
    /\ loadO5LogonVerifiers (later 6 e) b (oe_encryptionKey o) (u_UID (ol_user login)) = Ok (primary :: vs)
    /\ GenerateChallenge (primary_server o primary) (oe_session o) (oe_chk o) = Ok (o5, encSess, vfr)
    /\ readPhase2Packet true (client (challenge_packet o o5 encSess vfr (payloadUsesWideKVEncoding (t_Payload phase1)))) false
         = (markers, Ok (ol_phase2 login))
    /\ parseAuthPhase2 (t_Payload (ol_phase2 login)) = Ok (sess, enc)
    /\ k_UserID (ol_key login) = u_UID (ol_user login)
    /\ if String.eqb enc "" then api_keys (b_acct b) !! vd_apiKeyID primary = Some (ol_key login)
       else password_proves (later 8 e) b o5 (primary :: vs) sess enc encSess (ol_key login).
Proof.
  unfold authenticateClient. destruct (readPhase1Packet p1 pkts) as [phase1|?|]; [|done..].
  destruct (identify e b o database (t_Payload phase1)) as [[[[username user] grant] vs]|?|] eqn:Ei; [|done..].
  apply identify_Ok in Ei as (Hn & Hu & Hg & Hq & Hl). destruct vs as [|primary vs]; [done|].
  destruct (GenerateChallenge _ _ _) as [[[o5 encSess] vfr]|?|] eqn:Ec; [|done..]. destruct (oe_write o); [|done]. cbn [negb].
  destruct (readPhase2Packet _ _ _) as [markers [phase2|?|]] eqn:E2; [|done..].
  destruct (parseAuthPhase2 (t_Payload phase2)) as [[sess enc]|?|] eqn:Ep; [|done..].
  destruct (resolveAPIKeyFromPhase2 _ b o5 (primary :: vs) sess enc encSess) as [b1 [proof|?|]] eqn:Er; [|done..].
  destruct (N.eqb_spec (k_UserID (kp_apiKey proof)) (u_UID user)) as [Eo|]; [|done]. cbn [negb]. intros [= <- <- <-].
  cbn [ol_user ol_username ol_grant ol_key ol_phase2].
  exists phase1, primary, vs, o5, encSess, vfr, markers, sess, enc.
  split; [done|]. split; [done|]. split; [by eapply GetUserByUsername_Ok|].
  split; [apply GetActiveGrant_Ok in Hg as (k & g0 & G1 & G2 & G3 & _); by exists k, g0|].
  do 6 (split; [done|]). revert Er. unfold resolveAPIKeyFromPhase2. destruct (String.eqb_spec enc "") as [->|Hne].
  - destruct (DeriveCombinedKey o5 sess) as [?|?|]; [..|done]; unfold GetAPIKeyByID; destruct (e_sql _ _ _); try done;
      destruct (api_keys (b_acct b) !! _) as [k|] eqn:Ek; try done; by intros [= <- <-].
  - intros H. destruct (try_candidates_Ok _ _ _ _ _ _ _ _ _ _ H) as (n & v & cand & plain & bn & H1 & H2 & _ & H3 & H4).
    by exists n, v, cand, plain, bn.
Qed.

(** C10. An Oracle client that is let in named, in its first message, a live user
    with an unrevoked grant, in its window and its quotas, on the server; the
    session's key is a row of that user; and the second message, the one that
    answers the challenge made from the newest of the user's Oracle keys, either
    carries a password that one of these candidates decrypts to a plaintext which
    the row's hash accepts, the row being neither revoked nor expired when it is
    checked, or carries none, in which case the row is the newest candidate's and
    nothing was proven (see [passwordless_login]). *)
Theorem oracle_login_sound e b o database p1 pkts client b' out login :
  authenticateClient e b o database p1 pkts client = (b', out, Ok login) ->
  exists phase1 primary vs o5 encSess vfr markers sess enc,
    readPhase1Packet p1 pkts = Ok phase1
    /\ (exists name, parseAuthPhase1 (t_Payload phase1) = Ok name /\ ol_username login = ToLower name)
    /\ (exists k, users (b_acct b) !! k = Some (ol_user login) /\ live_user (ol_user login) = true /\ u_Username (ol_user login) = ol_username login)
    /\ (exists k g0, access_grants (b_grants b) !! k = Some g0 /\ selects (u_UID (ol_user login)) (d_UID database) (e_now e 0) g0
          /\ ol_grant login = with_counters g0 (grant_query_count (b_grants b) g0) (grant_bytes (b_grants b) g0))
    /\ checkQuotas (e_now e 1) (ol_grant login) = None
    /\ loadO5LogonVerifiers (later 6 e) b (oe_encryptionKey o) (u_UID (ol_user login)) = Ok (primary :: vs)
    /\ GenerateChallenge (primary_server o primary) (oe_session o) (oe_chk o) = Ok (o5, encSess, vfr)
    /\ readPhase2Packet true (client (challenge_packet o o5 encSess vfr (payloadUsesWideKVEncoding (t_Payload phase1)))) false
         = (markers, Ok (ol_phase2 login))
    /\ parseAuthPhase2 (t_Payload (ol_phase2 login)) = Ok (sess, enc)
    /\ k_UserID (ol_key login) = u_UID (ol_user login)
    /\ if String.eqb enc "" then api_keys (b_acct b) !! vd_apiKeyID primary = Some (ol_key login)
       else password_proves (later 8 e) b o5 (primary :: vs) sess enc encSess (ol_key login).
Proof. apply authenticateClient_Ok. Qed.

(** C11. A client that sends no AUTH_PASSWORD proves nothing.  Once it named a user
    who has a grant, room in its quotas and an Oracle-enabled key of their own, it
    is let in as that user whatever session key it sends, even one that is not
    hexadecimal, unless deriving the combined key from it panics (a hexadecimal
    key too short to be one does that); then the session ends with the panic. *)
Theorem passwordless_login e b o database p1 username user grant primary vs o5 encSess vfr client markers p2 sess k :
  identify e b o database (t_Payload p1) = Ok (username, user, grant, primary :: vs) ->
  GenerateChallenge (primary_server o primary) (oe_session o) (oe_chk o) = Ok (o5, encSess, vfr) -> oe_write o = true ->
  (forall challenge, readPhase2Packet true (client challenge) false = (markers, Ok p2)) ->
  parseAuthPhase2 (t_Payload p2) = Ok (sess, "") ->
  e_sql e 7 0%nat = true -> api_keys (b_acct b) !! vd_apiKeyID primary = Some k -> k_UserID k = u_UID user ->
  (hex_decode sess = None -> DeriveCombinedKey o5 sess <> Panic)
  /\ (DeriveCombinedKey o5 sess <> Panic -> exists b' out login,
        authenticateClient e b o database (Some p1) [] client = (b', out, Ok login)
        /\ ol_user login = user /\ ol_grant login = grant /\ ol_key login = k)
  /\ (DeriveCombinedKey o5 sess = Panic -> exists out, authenticateClient e b o database (Some p1) [] client = (b, out, Panic)).
Proof.
  intros Hi Hc Hw Hcl Hp Hx Hk Ho. split; [unfold DeriveCombinedKey, DecodeHex; by intros ->|].
  unfold authenticateClient. cbn [readPhase1Packet]. rewrite Hi, Hc, Hw, Hcl. cbn [negb]. rewrite Hp.
  unfold resolveAPIKeyFromPhase2, GetAPIKeyByID. change (e_sql (later 7 e) 0%nat 0%nat) with (e_sql e 7 0%nat). rewrite Hx, Hk.
  destruct (DeriveCombinedKey o5 sess) as [?|?|]; cbn [String.eqb kp_apiKey]; rewrite ?Ho, ?N.eqb_refl; cbn [negb];
    (split; [try done; intros _; by do 3 eexists|try done; intros _; by eexists]).
Qed.

(** Before any proof, the answer tells whether a user exists: an unknown name is
    refused with ORA-01017, a known one without a grant with ORA-01045. *)
Theorem refusal_tells_users e b o database p1 name client :
  parseAuthPhase1 (t_Payload p1) = Ok name ->
  let attempt := logon e b o database [] p1 client in
  (find_user (later 2 e) b (ToLower name) = Err ErrLogonUserNotFound -> attempt = (b, [auth_failed_frame ErrLogonUserNotFound], Err ErrLogonUserNotFound))
  /\ (forall user err, find_user (later 2 e) b (ToLower name) = Ok user ->
        GetActiveGrant (e_sql e 4) (b_grants b) (u_UID user) (d_UID database) (e_now e 2) = Err err ->
        attempt = (b, [auth_failed_frame ErrLogonNoActiveGrant], Err ErrLogonNoActiveGrant))
  /\ auth_failed_frame ErrLogonUserNotFound <> auth_failed_frame ErrLogonNoActiveGrant.
Proof.
  intros Hp. cbv zeta. unfold logon. change (disambiguateDatabase e b database [] (t_Payload p1)) with (@Ok logon_error Server database).
  cbv iota. cbn [length Nat.add].
  unfold authenticateClient. cbn [readPhase1Packet]. unfold identify. rewrite Hp. cbv zeta. split_and!.
  - intros ->. done.
  - intros user err -> Hg. cbn [rbind].
    change (GetActiveGrant (e_sql (later 2 e) 2) (b_grants b) (u_UID user) (d_UID database) (e_now (later 2 e) 0) = Err err) in Hg.
    by rewrite Hg.
  - vm_compute. discriminate.
Qed.
End LoginTheorems.

(** ** A sample login *)

Module SampleLogon.
Import SampleServers SampleO5.
#[export] Instance lg_argon2 : Argon2 := toy_argon2.
#[export] Instance lg_digest : Digest := Toy.toy_digest.
#[export] Instance lg_order : MapOrder := Toy.toy_order.
#[export] Instance lg_collation : Collation := {| collate := String.leb; lower := fun s => s |}.

Definition lower1 (c : ascii) : ascii := if (65 <=? code c) && (code c <=? 90) then chr (code c + 32) else c.
Fixpoint lower_string (s : string) : string := match s with String c s => String (lower1 c) (lower_string s) | EmptyString => "" end.
#[export] Instance lg_text : HostText := {| parse_url _ := None; ToLower := lower_string |}.

Definition all_ok : nat -> bool := fun _ => true.
Definition users_only : AcctDB := (CreateUser all_ok empty_accounts "alice" "hash" [RoleConnector] 1%N 10 10).1.
Definition created := CreateAPIKey all_ok users_only 1%N "ci" (Some 500) None 7%N AccountTheorems.Sample.rnd 20.
Definition plain : string := match created with (_, Ok (_, p)) => p | _ => "" end.

(** The key with its Oracle verifier, encrypted under the master key. *)
Definition master : bytes := replicate 32 9.
Definition with_verifier (k : APIKey) : APIKey :=
  match Encrypt (Some (replicate 12 5)) (DeriveO5LogonVerifierKey plain SampleO5.salt) master (APIKeyAAD (k_KeyPrefix k)) with
  | Ok enc => with_oracle k {| ok_Salt6949 := SampleO5.salt; ok_Verifier6949 := enc; ok_Salt18453 := []; ok_Verifier18453 := []; ok_UserSalt := true |}
  | _ => k
  end.
Definition acct : AcctDB := set_keys created.1 (with_verifier <$> api_keys created.1).

Definition database : Server :=
  match rows (CreateServer dsn all_ok all_ok ∅ (sample_server "orcl" "10.0.0.9" ProtocolOracle None) SampleServers.key 2%N
                (Some (replicate 12 1)) (None, None) 5 5).1 with s :: _ => s | [] => sample_server "" "" "" None end.
Definition backend : Backend :=
  {| b_acct := acct; b_servers := ∅; b_grants := (CreateGrant all_ok empty_db (sample_grant []) 7%N 90).1;
     b_keyCache := None; b_authCache := None; b_spawned := [] |}.
Definition env : Env := {| e_sql _ _ := true; e_now _ := 200 |}.
Definition login_env : OraEnv :=
  {| oe_encryptionKey := master; oe_customHash := false; oe_upstream := None; oe_session := Some key48; oe_chk := None; oe_write := true |}.
Definition ident : driverIdentity :=
  {| di_HostName := "host"; di_ProgramName := "sqlplus"; di_PID := 42; di_OSUser := "os"; di_DriverName := "drv" |}.
Definition data_packet (body : bytes) : TNSPacket :=
  {| t_Type := TNSPacketTypeData; t_Flags := 0; t_Length := 0; t_Payload := (0 :: 0 :: body)%list; t_Raw := [] |}.
Definition phase1 : TNSPacket := data_packet (buildClientAuthPhase1 "alice" ident 1).

Definition no_secrets : clientSecrets :=
  {| su_verifierKey := []; su_serverSessionKey := []; su_clientSessionKey := []; su_combined := [];
     su_encClientSessKey := "zz"; su_encPassword := ""; su_eSpeedyKey := "" |}.

(** What a client that holds the key computes. *)
Definition secrets : clientSecrets :=
  match GenerateChallenge (NewO5LogonServer SampleO5.salt (DeriveO5LogonVerifierKey plain SampleO5.salt)) (Some key48) None with
  | Ok (s, encSess, _) =>
      match computeUpstreamAuthSecrets [client48] (Some prefix) None plain encSess (advertised s) with Ok c => c | _ => no_secrets end
  | _ => no_secrets
  end.
Definition phase2 (c : clientSecrets) : TNSPacket := data_packet (buildClientAuthPhase2 "alice" ident c 1 0).
Definition attempt (c : clientSecrets) := authenticateClient env backend login_env database (Some phase1) [] (fun _ => [phase2 c]).
End SampleLogon.

Import SampleServers SampleO5 SampleLogon.

Lemma resolved_server_witness :
  exists payload db, resolveDatabase env {[2%N := database]} payload = Ok (db, []) /\ live_server db = true.
Proof.
  exists (str_bytes "(SERVICE_NAME=orcl)").
  destruct (resolveDatabase env {[2%N := database]} (str_bytes "(SERVICE_NAME=orcl)")) as [[db cands]| |] eqn:E;
    [|vm_compute in E; discriminate..].
  pose proof (resolved_server env {[2%N := database]} (str_bytes "(SERVICE_NAME=orcl)") db cands E) as (_ & H & _).
  exists db. split; [|exact H]. vm_compute in E. injection E as <- <-. reflexivity.
Defined.

Lemma oracle_login_sound_witness :
  exists login, (attempt secrets).2 = Ok login /\ k_UserID (ol_key login) = u_UID (ol_user login) /\ ol_username login = "alice".
Proof.
  destruct (attempt secrets) as [[b' out] [login| |]] eqn:E; [|vm_compute in E; discriminate..].
  exists login. split; [reflexivity|].
  destruct (oracle_login_sound env backend login_env database (Some phase1) [] (fun _ => [phase2 secrets]) b' out login E)
    as (phase1 & primary & vs & o5 & encSess & vfr & markers & sess & enc & _ & _ & _ & _ & _ & _ & _ & _ & _ & H & _).
  split; [exact H|]. vm_compute in E. injection E as _ _ <-. reflexivity.
Defined.

Lemma passwordless_login_witness :
  exists b' out login, attempt no_secrets = (b', out, Ok login) /\ u_Username (ol_user login) = "alice".
Proof.
  destruct (identify env backend login_env database (t_Payload phase1)) as [[[[username user] grant] [|primary vs]]| |] eqn:Ei;
    try (vm_compute in Ei; discriminate).
  destruct (GenerateChallenge (primary_server login_env primary) (oe_session login_env) (oe_chk login_env)) as [[[o5 encSess] vfr]| |] eqn:Eg;
    [|vm_compute in Ei; injection Ei as <- <- <- <- <-; vm_compute in Eg; discriminate..].
  destruct (api_keys (b_acct backend) !! vd_apiKeyID primary) as [k|] eqn:Ek;
    [|vm_compute in Ei; injection Ei as <- <- <- <- <-; vm_compute in Ek; discriminate].
  destruct (passwordless_login env backend login_env database phase1 username user grant primary vs o5 encSess vfr
              (fun _ => [phase2 no_secrets]) [] (phase2 no_secrets) "zz" k Ei Eg eq_refl (fun _ => eq_refl) ltac:(vm_compute; reflexivity) eq_refl Ek)
    as (H0 & H & _).
  { vm_compute in Ei. injection Ei as <- <- <- <- <-. vm_compute in Ek. injection Ek as <-. reflexivity. }
  destruct (H (H0 eq_refl)) as (b' & out & login & H1 & H2 & _).
  exists b', out, login. split; [exact H1|]. rewrite H2. vm_compute in Ei. injection Ei as <- <- <- <- <-. reflexivity.
Defined.

(** A session key of one block ends the login in a panic. *)
Definition short_secrets : clientSecrets :=
  {| su_verifierKey := []; su_serverSessionKey := []; su_clientSessionKey := []; su_combined := [];
     su_encClientSessKey := "00112233445566778899AABBCCDDEEFF"; su_encPassword := ""; su_eSpeedyKey := "" |}.
Example short_key_panics : (attempt short_secrets).2 = Panic.
Proof. vm_compute. reflexivity. Qed.

Lemma refusal_tells_users_witness :
  logon env (set_keyCache backend None) login_env database [] (data_packet (buildClientAuthPhase1 "bob" ident 1)) (fun _ => [])
  = (set_keyCache backend None, [auth_failed_frame ErrLogonUserNotFound], Err ErrLogonUserNotFound).
Proof.
  refine (proj1 (refusal_tells_users env (set_keyCache backend None) login_env database (data_packet (buildClientAuthPhase1 "bob" ident 1)) "BOB" (fun _ => []) _) _);
    vm_compute; reflexivity.
Defined.
