(* ===== verification/OracleUpstream.v ===== *)
(** * The upstream half of an Oracle login
    ([internal/proxy/oracle/relay_preauth.go], [auth_svr_response.go], the session
    half of [upstream_auth_client.go], [upstream_auth.go])

    The negotiation before authentication is relayed between the client and the
    real server, until the client sends its phase-1 message; on the same socket the
    proxy then authenticates with the stored credentials, forwarding the client's
    own messages with the user name and the derived values replaced, and hands the
    server's AUTH OK back with its confirmation made anew under the client's key.

    The network is an argument: packets in the order they arrive, replies as
    functions of what was written. *)

From Stdlib Require Import ZArith Lia List Bool String Ascii.
From stdpp Require Import base list gmap strings.
From S2P Require Import Prelude GoStrings Encoding Models Limits AuthCache GrantStore Crypto Accounts ApiKeys Servers PgText TNS Endpoints ProxyAuth OracleValues OracleTtc OracleRows O5Logon OracleAuth OracleAuthLaws OracleLogin.

Open Scope string_scope.
Open Scope Z_scope.

(** ** AUTH_SVR_RESPONSE *)

Definition authSvrResponsePlaintextLen : Z := 32.
Definition authSvrResponseHexLen : Z := 96.
Definition authSvrResponseMarker : bytes := str_bytes "SERVER_TO_CLIENT".
Definition authSvrResponseKey : bytes := str_bytes "AUTH_SVR_RESPONSE".

Inductive svr_error :=
| ErrAuthSvrResponseKeyNotFound
| ErrAuthSvrResponseNotHex
| ErrAuthSvrResponseTruncated
| ErrAuthSvrResponseBadLength
| ErrSvrRand
| ErrSvrCipher.

Definition is_upper_hex (c : Z) : bool := ((48 <=? c) && (c <=? 57)) || ((65 <=? c) && (c <=? 70)).

Definition isHexRun (buf : bytes) (start length : Z) : bool :=
  if zlen buf <? start + length then false else forallb is_upper_hex (upto length (from_at start buf)).

(** The first run of 96 hexadecimal digits from the position on; [n] positions are left. *)
Fixpoint hex_start (n : nat) (authOK : bytes) (i : Z) : option Z :=
  match n with
  | O => None
  | S n => if isHexRun authOK i authSvrResponseHexLen then Some i else hex_start n authOK (i + 1)
  end.

Definition findAuthSvrResponseHexStart (authOK : bytes) (after : Z) : res svr_error Z :=
  match hex_start (Z.to_nat (zlen authOK - authSvrResponseHexLen - after + 1)) authOK after with
  | Some i => Ok i
  | None => Err ErrAuthSvrResponseNotHex
  end.

Section Response.
Context {B : BlockCipher}.

(** [prefix]: the random bytes drawn. *)
Definition buildAuthSvrResponseValue (prefix : option bytes) (combinedKey : bytes) : res svr_error bytes :=
  match prefix with
  | None => Err ErrSvrRand
  | Some prefix =>
      let plaintext := (prefix ++ authSvrResponseMarker)%list in
      guard! key_ok combinedKey else ErrSvrCipher in
      let padded := pkcs5Pad plaintext 16 in
      Ok (str_bytes (upper_hex_string (cbc_encrypt (blocks padded) combinedKey zero_iv padded)))
  end.

Definition patchAuthSvrResponse (prefix : option bytes) (authOK combinedKey : bytes) : res svr_error bytes :=
  guard! negb (zlen authOK =? 0) else ErrAuthSvrResponseKeyNotFound in
  let keyIdx := findBytes authOK authSvrResponseKey in
  guard! negb (keyIdx <? 0) else ErrAuthSvrResponseKeyNotFound in
  let! hexStart := findAuthSvrResponseHexStart authOK (keyIdx + zlen authSvrResponseKey) in
  guard! hexStart + authSvrResponseHexLen <=? zlen authOK else ErrAuthSvrResponseTruncated in
  let! freshHex := buildAuthSvrResponseValue prefix combinedKey in
  guard! zlen freshHex =? authSvrResponseHexLen else ErrAuthSvrResponseBadLength in
  Ok (upto hexStart authOK ++ freshHex ++ from_at (hexStart + authSvrResponseHexLen) authOK)%list.
End Response.

(** ** What the relay looks at *)

Definition isAuthPhase1 (pkt : TNSPacket) : bool :=
  (t_Type pkt =? TNSPacketTypeData) && (ttcDataFlagsSize + 2 <=? zlen (t_Payload pkt))
  && (byte_at 2 (t_Payload pkt) =? TTCFuncPiggyback) && (byte_at 3 (t_Payload pkt) =? PiggybackSubAuth1).

Definition acceptFlagsOffset : Z := 41.
Definition tnsAcceptFlagFastAuth : Z := 268435456.
Definition tnsAcceptFlagHasEndOfResponse : Z := 33554432.

(** The packet with the two flags cleared, and whether one was set. *)
Definition stripAcceptModernAuthFlags (raw : bytes) : bytes * bool :=
  if (zlen raw <? acceptFlagsOffset + 4) || negb (byte_at 4 raw =? TNSPacketTypeAccept) || (be_get (take 2 (drop 8 raw)) <? 315) then (raw, false)
  else
    let flags := be_get (take 4 (drop 41 raw)) in
    let mask := Z.lor tnsAcceptFlagFastAuth tnsAcceptFlagHasEndOfResponse in
    if Z.land flags mask =? 0 then (raw, false)
    else ((take 41 raw ++ be_put 4 (Z.ldiff flags mask) ++ drop 45 raw)%list, true).

Definition caps_prefix : bytes := [6; 1; 1; 1].

(** The capability byte at an index, when a capability array with enough entries is there. *)
Definition capability (raw : bytes) (index : Z) : option Z :=
  let idx := findBytes raw caps_prefix in
  if idx <? 1 then None
  else
    let numCaps := byte_at (idx - 1) raw in
    let at_ := idx + 4 + index in
    if (numCaps <? 32) || (96 <? numCaps) || (numCaps <=? index) || (zlen raw <=? at_) then None else Some (byte_at at_ raw).

Definition flag_20 (o : option Z) : bool := match o with Some c => negb (Z.land c 32 =? 0) | None => false end.
Definition observeCustomHashFlag (raw : bytes) : bool := flag_20 (capability raw 0).
Definition bigClrChunksCapIndex : Z := 37.
Definition observeBigClrChunksFlag (raw : bytes) : bool := flag_20 (capability raw bigClrChunksCapIndex).

Definition encodeTNSDataV315 (payload : bytes) : bytes :=
  (be_put 4 (u32 (tnsHeaderSize + zlen payload)) ++ [TNSPacketTypeData; 0; 0; 0] ++ payload)%list.

(** ** A pipelined login *)

Definition tnsMsgTypeFastAuth : Z := 34.
Definition fastAuthHeaderLen : Z := 4.
Definition fastAuthProtoToDataTypesGap : Z := 6.

(** The first position at or after [i] of two bytes. *)
Fixpoint op_from (n : nat) (payload : bytes) (i op sub : Z) : Z :=
  match n with
  | O => -1
  | S n => if (byte_at i payload =? op) && (byte_at (i + 1) payload =? sub) then i else op_from n payload (i + 1) op sub
  end.
Definition indexOfOp (payload : bytes) (start op sub : Z) : Z := op_from (Z.to_nat (zlen payload - start - 1)) payload start op sub.

Definition framePreAuthMsg (msg : bytes) : bytes := (0 :: 0 :: msg)%list.

(** The wrapped Set Protocol and Set Data Types messages, and the phase-1 message. *)
Definition splitBundledAuthPhase1 (payload : bytes) : option (list bytes * bytes) :=
  let protoStart := ttcDataFlagsSize + fastAuthHeaderLen in
  if (zlen payload <? protoStart + 2) || negb (byte_at ttcDataFlagsSize payload =? tnsMsgTypeFastAuth) then None
  else
    let auth1Off := indexOfOp payload protoStart TTCFuncPiggyback PiggybackSubAuth1 in
    let dataTypesOff := indexOfOp payload protoStart 2 105 in
    if (auth1Off <? 0) || (dataTypesOff <? 0) || (auth1Off <=? dataTypesOff) then None
    else if negb (byte_at protoStart payload =? 1) || negb (byte_at (protoStart + 1) payload =? 6) then None
    else
      let protoEnd := dataTypesOff - fastAuthProtoToDataTypesGap in
      if protoEnd <=? protoStart then None
      else
        let auth1 := framePreAuthMsg (from_at auth1Off payload) in
        match parseAuthPhase1 auth1 with
        | Ok username =>
            if String.eqb username "" then None
            else Some ([framePreAuthMsg (span payload protoStart protoEnd); framePreAuthMsg (span payload dataTypesOff auth1Off)], auth1)
        | _ => None
        end.

(** ** Redirects *)

Inductive relay_error :=
| ErrDialUpstream
| ErrUpstreamIO
| ErrRedirectMissingHostPort
| ErrUnexpectedPacketType
| ErrUpstreamTooManyRedirects
| ErrClientGone.

Definition lower_ascii (c : ascii) : ascii := if (65 <=? code c) && (code c <=? 90) then chr (code c + 32) else c.

Fixpoint has_prefix_fold (s p : string) : bool :=
  match p, s with
  | EmptyString, _ => true
  | String a p, String c s => Ascii.eqb (lower_ascii c) (lower_ascii a) && has_prefix_fold s p
  | String _ _, EmptyString => false
  end.

(** What follows [key=] in a descriptor, up to a parenthesis or a space. *)
Fixpoint value_run (s : string) : string :=
  match s with String c r => if Ascii.eqb c ")" || Ascii.eqb c " " then "" else String c (value_run r) | EmptyString => "" end.

Fixpoint extractKVValue (desc key : string) : string :=
  if has_prefix_fold desc key then value_run (String.substring (String.length key) (String.length desc - String.length key) desc)
  else match desc with String _ r => extractKVValue r key | EmptyString => "" end.

(** The digits at the head, as an int. *)
Fixpoint port_number (s : string) (port : Z) : Z :=
  match s with
  | String c r => if (48 <=? code c) && (code c <=? 57) then port_number r (i64 (port * 10 + (code c - 48))) else port
  | EmptyString => port
  end.

Definition extractRedirectHostPort (desc : string) : string * Z :=
  (extractKVValue desc "HOST=", port_number (extractKVValue desc "PORT=") 0).

(** The raw bytes fill their buffer, so a slice beyond them stops the process. *)
Definition rebuildConnectForRedirect (original : TNSPacket) (newDesc : bytes) : res relay_error bytes :=
  if zlen (t_Raw original) <? 28 then Ok (t_Raw original)
  else if zlen (t_Payload original) <? 20 then Panic
  else
    let declared := be_get (take 2 (drop 18 (t_Payload original))) in
    let cdOffset := if (declared <? 8) || (zlen (t_Raw original) <? declared) then 34 else declared in
    if zlen (t_Raw original) <? cdOffset then Panic
    else
      let out := (upto cdOffset (t_Raw original) ++ newDesc)%list in
      Ok (if zlen out <=? 65535 then (be_put 2 (zlen out) ++ drop 2 out)%list else out).

(** The new address and the connect packet for it. *)
Definition parseRedirect (redirectPayload : bytes) (originalConnect : TNSPacket) : res relay_error (string * bytes) :=
  let declared := be_get (take 2 redirectPayload) in
  let descStart := if (2 <=? zlen redirectPayload) && (0 <? declared) && (declared <=? zlen redirectPayload - 2) then 2 else 0 in
  let desc := from_at descStart redirectPayload in
  let '(host, port) := extractRedirectHostPort (bytes_str desc) in
  guard! negb (String.eqb host "" || (port =? 0)) else ErrRedirectMissingHostPort in
  let! newConnect := rebuildConnectForRedirect originalConnect desc in
  Ok (JoinHostPort host (FormatInt port), newConnect).

(** A connection: the packet it answers to the [n]-th write of a connect packet. *)
Definition Listener : Type := bytes -> nat -> option TNSPacket.

(** The answer to a connect packet, sent again when the listener asks for it. *)
Definition connect_answer (conn : Listener) (connect : bytes) : res relay_error TNSPacket :=
  match conn connect 0%nat with
  | None => Err ErrUpstreamIO
  | Some pkt =>
      if t_Type pkt =? TNSPacketTypeResend
      then match conn connect 1%nat with Some pkt => Ok pkt | None => Err ErrUpstreamIO end
      else Ok pkt
  end.

(** [fuel]: the dials that are left.  Returns the addresses dialled, and the address and
    the packet of the listener that accepted. *)
Fixpoint follow_redirects (fuel : nat) (net : string -> option Listener) (addr : string) (connect : bytes) (connectPkt : TNSPacket) :
    list string * res relay_error (string * TNSPacket) :=
  match fuel with
  | O => ([], Err ErrUpstreamTooManyRedirects)
  | S fuel =>
      match net addr with
      | None => ([addr], Err ErrDialUpstream)
      | Some conn =>
          match connect_answer conn connect with
          | Err e => ([addr], Err e)
          | Panic => ([addr], Panic)
          | Ok pkt =>
              if t_Type pkt =? TNSPacketTypeAccept then ([addr], Ok (addr, pkt))
              else if t_Type pkt =? TNSPacketTypeRedirect then
                match parseRedirect (t_Payload pkt) connectPkt with
                | Ok (newAddr, newConnect) =>
                    let '(dialled, r) := follow_redirects fuel net newAddr newConnect connectPkt in (addr :: dialled, r)
                | Err e => ([addr], Err e)
                | Panic => ([addr], Panic)
                end
              else ([addr], Err ErrUnexpectedPacketType)
          end
      end
  end.

Definition maxRedirects : nat := 3.

Definition dialUpstreamWithRedirect (net : string -> option Listener) (addr : string) (connectPkt : TNSPacket) :
    list string * res relay_error (string * TNSPacket) :=
  follow_redirects (S maxRedirects) net addr (t_Raw connectPkt) connectPkt.

(** ** The relay

    The two directions run at the same time: [events] is the order in which packets
    were read.  The upstream packets that follow the client's phase 1 are the ones
    the drain period lets through. *)

Inductive relay_event := FromClient (pkt : TNSPacket) | FromUpstream (pkt : TNSPacket).

Record RelayState := {
  rs_upstream : list bytes;
  rs_client : list bytes;
  rs_customHash : bool;
  rs_bigClrChunks : bool
}.

Definition to_upstream (s : RelayState) (b : bytes) : RelayState :=
  {| rs_upstream := (rs_upstream s ++ [b])%list; rs_client := rs_client s; rs_customHash := rs_customHash s; rs_bigClrChunks := rs_bigClrChunks s |}.

(** One packet of the upstream's passes to the client and is looked at on the way. *)
Definition pumpPreAuthUpstream (s : RelayState) (pkt : TNSPacket) : RelayState :=
  {| rs_upstream := rs_upstream s; rs_client := (rs_client s ++ [t_Raw pkt])%list;
     rs_customHash := rs_customHash s || observeCustomHashFlag (t_Raw pkt);
     rs_bigClrChunks := rs_bigClrChunks s || observeBigClrChunksFlag (t_Raw pkt) |}.

Fixpoint drain (events : list relay_event) (s : RelayState) : RelayState :=
  match events with
  | FromUpstream pkt :: events => drain events (pumpPreAuthUpstream s pkt)
  | _ => s
  end.

(** [replies]: what the upstream answers to a message before it falls silent. *)
Definition replayDepipelinedPrefix (replies : bytes -> list TNSPacket) (s : RelayState) (prefixMsgs : list bytes) (auth1Payload : bytes) :
    RelayState * TNSPacket :=
  (fold_left (fun s msg => fold_left pumpPreAuthUpstream (replies msg) (to_upstream s (encodeTNSDataV315 msg))) prefixMsgs s,
   {| t_Type := TNSPacketTypeData; t_Flags := 0; t_Length := 0; t_Payload := auth1Payload; t_Raw := encodeTNSDataV315 auth1Payload |}).

(** Until the client's phase-1 message, which is kept; [None] when a side is gone. *)
Fixpoint relay_loop (replies : bytes -> list TNSPacket) (events : list relay_event) (s : RelayState) : RelayState * option TNSPacket :=
  match events with
  | [] => (s, None)
  | FromUpstream pkt :: events => relay_loop replies events (pumpPreAuthUpstream s pkt)
  | FromClient pkt :: events =>
      if isAuthPhase1 pkt then (drain events s, Some pkt)
      else
        match splitBundledAuthPhase1 (t_Payload pkt) with
        | Some (prefixMsgs, auth1Payload) =>
            let '(s, auth) := replayDepipelinedPrefix replies (drain events s) prefixMsgs auth1Payload in (s, Some auth)
        | None => relay_loop replies events (to_upstream s (t_Raw pkt))
        end
  end.

(** The name the upstream's listener knows. *)
Definition upstream_service (db : Server) : string :=
  match d_OracleServiceName db with
  | Some n => if String.eqb n "" then d_DatabaseName db else n
  | None => d_DatabaseName db
  end.

Definition upstream_connect (db : Server) (serviceName : string) (connectPkt : TNSPacket) : TNSPacket :=
  let name := upstream_service db in
  if negb (String.eqb name "") && negb (String.eqb name serviceName) then rewriteServiceName connectPkt serviceName name else connectPkt.

(** The addresses dialled, what was written, and the phase-1 packet. *)
Definition relayPreAuthNegotiation (net : string -> option Listener) (replies : bytes -> list TNSPacket) (db : Server) (serviceName : string)
    (connectPkt : TNSPacket) (events : list relay_event) : list string * RelayState * res relay_error TNSPacket :=
  let none := {| rs_upstream := []; rs_client := []; rs_customHash := false; rs_bigClrChunks := false |} in
  let '(dialled, r) := dialUpstreamWithRedirect net (server_addr db) (upstream_connect db serviceName connectPkt) in
  match r with
  | Err e => (dialled, none, Err e)
  | Panic => (dialled, none, Panic)
  | Ok (_, acceptPkt) =>
      let accepted := {| rs_upstream := []; rs_client := [(stripAcceptModernAuthFlags (t_Raw acceptPkt)).1]; rs_customHash := false; rs_bigClrChunks := false |} in
      let '(s, auth) := relay_loop replies events accepted in
      (dialled, s, match auth with Some pkt => Ok pkt | None => Err ErrClientGone end)
  end.

(** ** Authentication with the stored credentials *)

Definition logonModeNoNewPass : Z := 1.
Definition logonModeUserAndPass : Z := 256.
Definition maxProgramNameLen : Z := 48.

Inductive upstream_error :=
| ErrUpstreamConnNotSet
| ErrDecryptServerPassword (e : server_error)
| ErrReadUpstream
| ErrUpstreamAuthPhase1Rejected (code : Z) (text : string)
| ErrUpstreamAuthPhase2Rejected (code : Z) (text : string)
| ErrInterpretChallenge (e : auth_msg_error)
| ErrDeriveSecrets (e : o5_error).

(** What [readUpstreamAuthMessages] gathers. *)
Record AuthReading := {
  ra_resp : upstreamAuthResponse;
  ra_buf : bytes;
  ra_flags : option bytes;
  ra_lens : list Z;
  ra_markers : list bytes
}.

Definition no_reading : AuthReading := {| ra_resp := empty_response; ra_buf := []; ra_flags := None; ra_lens := []; ra_markers := [] |}.

Definition mark (r : AuthReading) : AuthReading :=
  {| ra_resp := ra_resp r; ra_buf := ra_buf r; ra_flags := ra_flags r; ra_lens := ra_lens r; ra_markers := (ra_markers r ++ [buildResetMarker])%list |}.

(** One data packet with its flags. *)
Definition add_fragment (r : AuthReading) (payload : bytes) (resp : upstreamAuthResponse) : AuthReading :=
  {| ra_resp := resp; ra_buf := (ra_buf r ++ drop 2 payload)%list;
     ra_flags := match ra_flags r with Some f => Some f | None => Some (take 2 payload) end;
     ra_lens := (ra_lens r ++ [zlen payload - 2])%list; ra_markers := ra_markers r |}.

(** Until the messages are complete; everything read so far is parsed anew each time.
    The markers written stay written when the reading fails. *)
Fixpoint read_auth (pkts : list TNSPacket) (wide sawBreak : bool) (r : AuthReading) : AuthReading * res upstream_error unit :=
  match pkts with
  | [] => (r, Err ErrReadUpstream)
  | pkt :: pkts =>
      if negb (t_Type pkt =? TNSPacketTypeData) then
        let sawBreak := sawBreak || isBreakMarker pkt in
        if isResetMarker pkt && sawBreak then read_auth pkts wide false (mark r) else read_auth pkts wide sawBreak r
      else if zlen (t_Payload pkt) <? ttcDataFlagsSize then read_auth pkts wide sawBreak r
      else
        let buf := (ra_buf r ++ drop 2 (t_Payload pkt))%list in
        match parseAuthMessageStream (length buf) buf (ra_resp r) wide with
        | Ok (resp, complete) =>
            let r := add_fragment r (t_Payload pkt) resp in
            if complete then (r, Ok tt) else read_auth pkts wide sawBreak r
        | _ => (r, Panic)
        end
  end.

Definition flags_of (r : AuthReading) : bytes := match ra_flags r with Some f => f | None => [] end.
Definition merged_packet (r : AuthReading) : bytes := encodeV315DataPacket (flags_of r ++ ra_buf r)%list.

Definition readUpstreamAuthMessages (pkts : list TNSPacket) (wide : bool) : AuthReading * res upstream_error unit :=
  read_auth pkts wide false no_reading.

Section Upstream.
Context {GCM : AEAD} {HS : Hashes} {UT : UUIDText} {HT : HostText} {B : BlockCipher}.

Definition oracleDbbatUsername (phase1 : option TNSPacket) (username : string) : string :=
  match phase1 with
  | Some pkt => match parseAuthPhase1 (t_Payload pkt) with Ok name => ToLower name | _ => username end
  | None => username
  end.

(** [None] is the slice of [BuildUpstreamName] out of range. *)
Definition buildUpstreamProgramName (version : string) (phase1 : option TNSPacket) (username : string) : option string :=
  BuildUpstreamName version (oracleDbbatUsername phase1 username) (clientDeclaredProgramName phase1) maxProgramNameLen.

Definition writeUpstreamPayload (payload : bytes) : bytes := encodeV315DataPacket payload.
Definition writeUpstreamData (body : bytes) : bytes := encodeV315DataPacket (0 :: 0 :: body)%list.

(** The client's own message with the user name and the program name replaced, or a
    message of the proxy's. *)
Definition sendUpstreamAuthPhase1 (phase1 : option TNSPacket) (username : string) (identity : driverIdentity) (mode : Z) : bytes :=
  let synthetic := writeUpstreamData (buildClientAuthPhase1 username identity mode) in
  match phase1 with
  | None => synthetic
  | Some pkt =>
      if zlen (t_Payload pkt) <=? ttcDataFlagsSize then synthetic
      else
        let body := drop 2 (t_Payload pkt) in
        match rewriteAuthPhase1Username body username with
        | Ok rewritten =>
            writeUpstreamPayload (take 2 (t_Payload pkt)
              ++ replaceAuthKVValue rewritten authKeyProgramNM (di_ProgramName identity) (payloadUsesWideKVEncoding body))%list
        | _ => synthetic
        end
  end.

Definition sendUpstreamAuthPhase2 (phase2 : option TNSPacket) (username : string) (identity : driverIdentity) (sec : clientSecrets)
    (mode zone : Z) (bigChunks : bool) : res upstream_error bytes :=
  let synthetic := Ok (writeUpstreamData (buildClientAuthPhase2 username identity sec mode zone)) in
  match phase2 with
  | None => synthetic
  | Some pkt =>
      if zlen (t_Payload pkt) <=? ttcDataFlagsSize then synthetic
      else
        let body := drop 2 (t_Payload pkt) in
        match rewriteAuthPhase2 body username sec bigChunks with
        | Ok rewritten =>
            Ok (writeUpstreamPayload (take 2 (t_Payload pkt)
                 ++ replaceAuthKVValue rewritten authKeyProgramNM (di_ProgramName identity) (payloadUsesWideKVEncoding body))%list)
        | Err _ => synthetic
        | Panic => Panic
        end
  end.

(** The upper-case name the upstream knows. *)
Definition upstream_username (db : Server) : string := ToUpper (d_Username db).

Definition named_identity (ident : driverIdentity) (name : string) : driverIdentity :=
  {| di_HostName := di_HostName ident; di_ProgramName := name; di_PID := di_PID ident; di_OSUser := di_OSUser ident; di_DriverName := di_DriverName ident |}.

(** What was written, and the server with its password in clear and the challenge read. *)
Definition beginUpstreamAuth (encryptionKey : bytes) (version : string) (ident : driverIdentity) (db : Server) (phase1 : option TNSPacket)
    (username : string) (wide : bool) (answer : bytes -> list TNSPacket) : list bytes * res upstream_error (Server * upstreamAuthResponse) :=
  match Servers.DecryptPassword db encryptionKey with
  | Panic => ([], Panic)
  | Err e => ([], Err (ErrDecryptServerPassword e))
  | Ok db =>
      match buildUpstreamProgramName version phase1 username with
      | None => ([], Panic)
      | Some name =>
          let packet := sendUpstreamAuthPhase1 phase1 (upstream_username db) (named_identity ident name) logonModeNoNewPass in
          let '(reading, r) := readUpstreamAuthMessages (answer packet) wide in
          (packet :: ra_markers reading,
           let! _ := r in
           let resp := ra_resp reading in
           guard! ar_OracleErr resp =? 0 else ErrUpstreamAuthPhase1Rejected (ar_OracleErr resp) (ar_OracleErrText resp) in
           Ok (db, resp))
      end
  end.

(** What the session draws and holds for phase 2. *)
Record Phase2Env := {
  pe_customHash : bool;
  pe_bigClrChunks : bool;
  pe_zone : Z;
  pe_draws : list bytes;
  pe_prefix : option bytes;
  pe_prefix' : option bytes
}.

(** The packet of phase 2. *)
Definition phase2_packet (p : Phase2Env) (version : string) (ident : driverIdentity) (db : Server) (resp : upstreamAuthResponse)
    (phase1 phase2 : option TNSPacket) (username : string) : res upstream_error bytes :=
  match buildUpstreamProgramName version phase1 username with
  | None => Panic
  | Some name =>
      match buildSecretsFromPhase1Response resp (pe_customHash p) with
      | Panic => Panic
      | Err e => Err (ErrInterpretChallenge e)
      | Ok sec =>
          match computeUpstreamAuthSecrets (pe_draws p) (pe_prefix p) (pe_prefix' p) (d_Password db) (ar_encServerSessKey resp) sec with
          | Panic => Panic
          | Err e => Err (ErrDeriveSecrets e)
          | Ok c =>
              sendUpstreamAuthPhase2 phase2 (upstream_username db) (named_identity ident name) c
                (Z.lor logonModeNoNewPass logonModeUserAndPass) (pe_zone p) (pe_bigClrChunks p)
          end
      end
  end.

(** What was written, and the AUTH OK read. *)
Definition finishUpstreamAuth (p : Phase2Env) (version : string) (ident : driverIdentity) (db : Server) (resp : upstreamAuthResponse)
    (phase1 phase2 : option TNSPacket) (username : string) (wide : bool) (answer : bytes -> list TNSPacket) :
    list bytes * res upstream_error AuthReading :=
  match phase2_packet p version ident db resp phase1 phase2 username with
  | Panic => ([], Panic)
  | Err e => ([], Err e)
  | Ok packet =>
      let '(reading, r) := readUpstreamAuthMessages (answer packet) wide in
      (packet :: ra_markers reading,
       let! _ := r in
       let final := ra_resp reading in
       guard! ar_OracleErr final =? 0 else ErrUpstreamAuthPhase2Rejected (ar_OracleErr final) (ar_OracleErrText final) in
       Ok reading)
  end.

(** The AUTH OK the client is sent: its confirmation made anew when there is a key,
    then cut at the upstream's boundaries. *)
Definition auth_ok (reading : AuthReading) (clientCombinedKey : bytes) (prefix : option bytes) : bytes :=
  let authOK := merged_packet reading in
  let authOK :=
    if 0 <? zlen clientCombinedKey
    then match patchAuthSvrResponse prefix authOK clientCombinedKey with Ok patched => patched | _ => authOK end
    else authOK in
  reframeAuthOK authOK (flags_of reading) (ra_lens reading).
End Upstream.

(** ** A session, up to the relay of statements *)

Inductive action := Dial (addr : string) | ToUpstream (b : bytes) | ToClient (b : bytes).

Inductive run_error :=
| ErrExpectedConnectPacket
| ErrRelay (e : relay_error)
| ErrClientAuthFailed (e : logon_error)
| ErrUpstreamAuth (e : upstream_error)
| ErrResolve (e : logon_error).

(** The world of a session: store, network, peers, what is drawn, and the numbers the
    connection row gets. *)
Record RunEnv := {
  re_env : Env;
  re_net : string -> option Listener;
  re_replies : bytes -> list TNSPacket;
  re_events : list relay_event;
  re_client : bytes -> list TNSPacket;
  re_challenge : bytes -> list TNSPacket;
  re_authOK : bytes -> list TNSPacket;
  re_version : string;
  re_ident : driverIdentity;
  re_encryptionKey : bytes;
  re_session : option bytes;
  re_chk : option bytes;
  re_prefix : option bytes;
  re_prefix' : option bytes;
  re_svr : option bytes;
  re_draws : list bytes;
  re_zone : Z;
  re_source : string;
  re_uid : uuid
}.

Record OraOpen := {
  op_server : Server;
  op_login : OraLogin;
  op_connection : option Connection
}.

Section Run.
Context {A2 : Argon2} {GCM : AEAD} {HS : Hashes} {dig : Digest} {order : MapOrder} {UT : UUIDText} {HT : HostText} {B : BlockCipher} {C : Collation}.

Definition login_env (x : RunEnv) (rs : RelayState) (begun : option (Server * upstreamAuthResponse)) : OraEnv :=
  {| oe_encryptionKey := re_encryptionKey x; oe_customHash := rs_customHash rs; oe_upstream := option_map snd begun;
     oe_session := re_session x; oe_chk := re_chk x; oe_write := true |}.

Definition phase2_env (x : RunEnv) (rs : RelayState) : Phase2Env :=
  {| pe_customHash := rs_customHash rs; pe_bigClrChunks := rs_bigClrChunks rs; pe_zone := re_zone x; pe_draws := re_draws x;
     pe_prefix := re_prefix x; pe_prefix' := re_prefix' x |}.

Definition begin_auth (x : RunEnv) (db : Server) (phase1 : TNSPacket) (username : string) (wide : bool) :
    list bytes * res upstream_error (Server * upstreamAuthResponse) :=
  beginUpstreamAuth (re_encryptionKey x) (re_version x) (re_ident x) db (Some phase1) username wide (re_challenge x).

(** [runUpstreamClientAuth]: phase 1 unless it was done, then phase 2. *)
Definition runUpstreamClientAuth (x : RunEnv) (rs : RelayState) (phase1 : TNSPacket) (db : Server) (login : OraLogin)
    (begun : option (Server * upstreamAuthResponse)) : list bytes * res upstream_error (Server * AuthReading) :=
  let '(out1, r1) := match begun with
                     | Some now => ([], Ok now)
                     | None => begin_auth x db phase1 (ol_username login) (ol_wide login)
                     end in
  match r1 with
  | Panic => (out1, Panic)
  | Err e => (out1, Err e)
  | Ok (dbOpen, resp) =>
      let '(out2, r2) := finishUpstreamAuth (phase2_env x rs) (re_version x) (re_ident x) dbOpen resp (Some phase1) (Some (ol_phase2 login))
                           (ol_username login) (ol_wide login) (re_authOK x) in
      ((out1 ++ out2)%list, let! reading := r2 in Ok (dbOpen, reading))
  end.

(** The AUTH OK and the connection row, once both sides are authenticated. *)
Definition open_session (x : RunEnv) (b : Backend) (rs : RelayState) (phase1 : TNSPacket) (db : Server) (login : OraLogin)
    (begun : option (Server * upstreamAuthResponse)) : list action * Backend * res run_error OraOpen :=
  let '(out, r) := runUpstreamClientAuth x rs phase1 db login begun in
  match r with
  | Panic => (map ToUpstream out, b, Panic)
  | Err e => (map ToUpstream out, b, Err (ErrUpstreamAuth e))
  | Ok (dbOpen, reading) =>
      let '(grants, conn) := CreateConnection (e_sql (re_env x) 90) (b_grants b) (u_UID (ol_user login)) (d_UID db) (re_source x)
                               (re_uid x) (e_now (re_env x) 90) (e_now (re_env x) 91) in
      ((map ToUpstream out ++ [ToClient (auth_ok reading (ol_combinedKey login) (re_svr x))])%list,
       {| b_acct := b_acct b; b_servers := b_servers b; b_grants := grants; b_keyCache := b_keyCache b;
          b_authCache := b_authCache b; b_spawned := b_spawned b |},
       Ok {| op_server := dbOpen; op_login := login; op_connection := match conn with Ok c => Some c | _ => None end |})
  end.

(** The steps from the phase-1 packet on. *)
Definition authenticate_session (x : RunEnv) (b : Backend) (rs : RelayState) (phase1 : TNSPacket) (db : Server) (candidates : list Server) :
    list action * Backend * res run_error OraOpen :=
  match disambiguateDatabase (later 2 (re_env x)) b db candidates (t_Payload phase1) with
  | Panic => ([], b, Panic)
  | Err e => ([ToClient (auth_failed_frame e)], b, Err (ErrClientAuthFailed e))
  | Ok db =>
      let '(out1, begun) := if payloadUsesWideKVEncoding (t_Payload phase1)
                            then let '(out, r) := begin_auth x db phase1 "" true in (out, let! now := r in Ok (Some now))
                            else ([], Ok None) in
      match begun with
      | Panic => (map ToUpstream out1, b, Panic)
      | Err e => (map ToUpstream out1, b, Err (ErrUpstreamAuth e))
      | Ok begun =>
          match authenticateClient (later (4 + length candidates) (re_env x)) b (login_env x rs begun) db (Some phase1) [] (re_client x) with
          | (b, out, Panic) => ((map ToUpstream out1 ++ map ToClient out)%list, b, Panic)
          | (b, out, Err e) => ((map ToUpstream out1 ++ map ToClient out ++ [ToClient (auth_failed_frame e)])%list, b, Err (ErrClientAuthFailed e))
          | (b, out, Ok login) =>
              let '(acts, b, r) := open_session x b rs phase1 db login begun in ((map ToUpstream out1 ++ map ToClient out ++ acts)%list, b, r)
          end
      end
  end.

(** The writes in either direction are listed in their order. *)
Definition run (x : RunEnv) (b : Backend) (connectPkt : TNSPacket) : list action * Backend * res run_error OraOpen :=
  if negb (t_Type connectPkt =? TNSPacketTypeConnect)
  then ([ToClient (refuse ORA12520 "expected TNS Connect packet" ErrNoServiceName).1], b, Err ErrExpectedConnectPacket)
  else
    match resolveDatabase (re_env x) (b_servers b) (t_Payload connectPkt) with
    | Panic => ([], b, Panic)
    | Err (frame, e) => ([ToClient frame], b, Err (ErrResolve e))
    | Ok (db, candidates) =>
        let '(dialled, rs, relayed) :=
          relayPreAuthNegotiation (re_net x) (re_replies x) db (service_of (extractConnectString (t_Payload connectPkt))) connectPkt (re_events x) in
        let acts := (map Dial dialled ++ map ToUpstream (rs_upstream rs) ++ map ToClient (rs_client rs))%list in
        match relayed with
        | Panic => (acts, b, Panic)
        | Err e => (acts, b, Err (ErrRelay e))
        | Ok phase1 => let '(more, b, r) := authenticate_session x b rs phase1 db candidates in ((acts ++ more)%list, b, r)
        end
    end.
End Run.

(** * Theorems *)

(** ** AUTH_SVR_RESPONSE *)

Lemma hex_start_spec authOK : forall n i s, hex_start n authOK i = Some s -> i <= s /\ isHexRun authOK s authSvrResponseHexLen = true.
Proof.
  induction n as [|n IH]; intros i s; cbn [hex_start]; [done|]. destruct (isHexRun authOK i _) eqn:E; [intros [= <-]; split; [lia|done]|].
  intros H. apply IH in H as [H1 H2]. split; [lia|done].
Qed.

Section ResponseTheorems.
Context {B : BlockCipher}.

Lemma strip_pad data : stripPKCS5Padding (pkcs7Pad data 16) 16 = Ok (Some data).
Proof.
  pose proof (pad_bounds data) as Hb. pose proof (unpad_pad data) as H. unfold pkcs7Unpad in H. unfold stripPKCS5Padding.
  destruct (last (pkcs7Pad data 16)) as [p|]; [|done]. destruct ((p =? 0) || (16 <? p) || (zlen (pkcs7Pad data 16) <? p)) eqn:E; [done|].
  destruct (forallb (Z.eqb p) _) eqn:Ef; [|done]. injection H as H1 H2.
  assert (length (pkcs7Pad data 16) = (length data + Z.to_nat (16 - zlen data mod 16))%nat) as Hl
    by (unfold pkcs7Pad; by rewrite length_app, length_replicate).
  apply orb_false_iff in E as [[E1 E2]%orb_false_iff E3]. apply Z.eqb_neq in E1. rewrite E2, E3. destruct (p <=? 0) eqn:E0.
  - apply Z.leb_le in E0. replace (Z.to_nat p) with 0%nat in H2 by lia. rewrite Nat.sub_0_r, drop_all in H2.
    destruct (Z.to_nat (16 - zlen data mod 16)) eqn:En; [lia|done].
  - cbn [orb]. by rewrite H1.
Qed.

(** The confirmation that replaces the upstream's one verifies under the client's
    key: what stood around the field is kept, the packet keeps its length, and the field
    decrypts, padding removed, to the random prefix and the server's signature. *)
Theorem svr_response_verifies prefix authOK key patched :
  wf_bytes prefix -> patchAuthSvrResponse (Some prefix) authOK key = Ok patched ->
  exists a old fresh b cipher,
    authOK = (a ++ old ++ b)%list /\ patched = (a ++ fresh ++ b)%list /\ zlen old = 96 /\ zlen fresh = 96
    /\ forallb is_upper_hex old = true
    /\ hex_decode (bytes_str fresh) = Some cipher
    /\ aesCBCDecryptZeroIV key cipher true = Ok (prefix ++ str_bytes "SERVER_TO_CLIENT")%list.
Proof.
  intros Hw. unfold patchAuthSvrResponse, findAuthSvrResponseHexStart. destruct (zlen authOK =? 0); [done|].
  set (keyIdx := findBytes authOK authSvrResponseKey). destruct (keyIdx <? 0) eqn:Ek; [done|]. cbn [negb rbind].
  destruct (hex_start _ authOK _) as [s|] eqn:Es; [|done]. cbn [rbind]. apply hex_start_spec in Es as [Hs Hrun].
  destruct (s + authSvrResponseHexLen <=? zlen authOK) eqn:Eend; [|done].
  unfold buildAuthSvrResponseValue. destruct (key_ok key) eqn:Hk; [|done]. cbn [rbind].
  set (p := pkcs5Pad (prefix ++ authSvrResponseMarker) 16). set (c := cbc_encrypt (blocks p) key zero_iv p).
  destruct (zlen (str_bytes (upper_hex_string c)) =? authSvrResponseHexLen) eqn:El; [|done]. intros [= <-].
  assert (aesCBCEncryptZeroIV key (prefix ++ authSvrResponseMarker) true = Ok c) as Hc by (unfold aesCBCEncryptZeroIV; by rewrite Hk).
  assert (wf_bytes (prefix ++ authSvrResponseMarker)%list) as Hwp by (apply wf_app; split; [done|apply str_bytes_wf]).
  destruct (decrypt_encrypt _ _ _ Hwp Hc) as (Hwc & Hmod & Hd).
  change authSvrResponseHexLen with 96 in *.
  apply Z.ltb_ge in Ek. apply Z.leb_le in Eend. apply Z.eqb_eq in El. pose proof (zlen_nonneg authSvrResponseKey).
  destruct (split_at s authOK) as (a & r & -> & Ha); [lia|]. rewrite zlen_app in Eend.
  destruct (split_at 96 r) as (old & b & -> & Hold); [lia|].
  unfold isHexRun in Hrun. destruct (_ <? _); [done|]. unfold upto, from_at in *.
  rewrite (drop_app_length' a) in Hrun by (unfold zlen in Ha; lia). rewrite take_app_length' in Hrun by (unfold zlen in Hold; lia).
  exists a, old, (str_bytes (upper_hex_string c)), b, c.
  split_and!; [done| |done|done|done|by rewrite bytes_str_bytes, hex_upper_string|].
  - rewrite take_app_length' by (unfold zlen in Ha; lia). do 2 f_equal. rewrite app_assoc, drop_app_length'; [done|].
    rewrite length_app. unfold zlen in *. lia.
  - unfold aesCBCDecryptZeroIV in *. rewrite Hk in *. destruct (zlen c mod 16 =? 0); [|done]. injection Hd as ->.
    by rewrite strip_pad.
Qed.
End ResponseTheorems.

Definition TestAuthOK : bytes := (str_bytes "XX" ++ authSvrResponseKey ++ [1; 96; 96] ++ str_bytes (upper_hex_string (replicate 48 171)) ++ [0; 7])%list.

Lemma svr_response_verifies_witness : let key := replicate 24 7 in let prefix := replicate 16 9 in
  exists patched, patchAuthSvrResponse (B := SampleO5.toy_cipher) (Some prefix) TestAuthOK key = Ok patched /\
  exists a old fresh b cipher,
    TestAuthOK = (a ++ old ++ b)%list /\ patched = (a ++ fresh ++ b)%list /\ zlen old = 96 /\ zlen fresh = 96
    /\ forallb is_upper_hex old = true
    /\ hex_decode (bytes_str fresh) = Some cipher
    /\ aesCBCDecryptZeroIV (B := SampleO5.toy_cipher) key cipher true = Ok (prefix ++ str_bytes "SERVER_TO_CLIENT")%list.
Proof.
  eexists. split; [vm_compute; reflexivity|].
  apply (svr_response_verifies (B := SampleO5.toy_cipher)); [by apply wf_bytes_check|vm_compute; reflexivity].
Defined.

(** ** The relay *)

Definition client_raws (events : list relay_event) : list bytes :=
  flat_map (fun e => match e with FromClient pkt => [t_Raw pkt] | FromUpstream _ => [] end) events.
Definition upstream_raws (events : list relay_event) : list bytes :=
  flat_map (fun e => match e with FromUpstream pkt => [t_Raw pkt] | FromClient _ => [] end) events.

(** The packets of the upstream's at the head. *)
Fixpoint drained (events : list relay_event) : list bytes :=
  match events with FromUpstream pkt :: events => t_Raw pkt :: drained events | _ => [] end.

(** A client packet that holds no login. *)
Definition no_login (e : relay_event) : Prop :=
  match e with FromClient pkt => isAuthPhase1 pkt = false /\ splitBundledAuthPhase1 (t_Payload pkt) = None | FromUpstream _ => True end.

Lemma drain_spec events : forall s, rs_upstream (drain events s) = rs_upstream s /\ rs_client (drain events s) = (rs_client s ++ drained events)%list.
Proof.
  induction events as [|[pkt|pkt] events IH]; intros s; cbn [drain drained]; [by rewrite app_nil_r|by rewrite app_nil_r|].
  destruct (IH (pumpPreAuthUpstream s pkt)) as [-> ->]. cbn. by rewrite <- app_assoc.
Qed.

Lemma pump_all replies : forall s, rs_upstream (fold_left pumpPreAuthUpstream replies s) = rs_upstream s
  /\ rs_client (fold_left pumpPreAuthUpstream replies s) = (rs_client s ++ map t_Raw replies)%list.
Proof.
  induction replies as [|pkt replies IH]; intros s; cbn [fold_left map]; [by rewrite app_nil_r|].
  destruct (IH (pumpPreAuthUpstream s pkt)) as [-> ->]. cbn. by rewrite <- app_assoc.
Qed.

Lemma replay_spec replies msgs auth1 : forall s,
  let '(s', auth) := replayDepipelinedPrefix replies s msgs auth1 in
  rs_upstream s' = (rs_upstream s ++ map encodeTNSDataV315 msgs)%list
  /\ rs_client s' = (rs_client s ++ flat_map (fun m => map t_Raw (replies m)) msgs)%list
  /\ t_Payload auth = auth1 /\ t_Type auth = TNSPacketTypeData /\ t_Raw auth = encodeTNSDataV315 auth1.
Proof.
  unfold replayDepipelinedPrefix. induction msgs as [|m msgs IH]; intros s; cbn [fold_left map flat_map]; [by rewrite !app_nil_r|].
  specialize (IH (fold_left pumpPreAuthUpstream (replies m) (to_upstream s (encodeTNSDataV315 m)))).
  destruct (pump_all (replies m) (to_upstream s (encodeTNSDataV315 m))) as [E1 E2]. rewrite E1, E2 in IH. cbn [to_upstream rs_upstream rs_client] in IH.
  destruct IH as (-> & -> & H). rewrite <- !app_assoc. done.
Qed.

Lemma op_from_spec n payload op sub : forall i, let j := op_from n payload i op sub in
  j = -1 \/ i <= j < i + Z.of_nat n /\ byte_at j payload = op /\ byte_at (j + 1) payload = sub.
Proof.
  induction n as [|n IH]; intros i; cbn [op_from]; [by left|]. destruct (_ && _) eqn:E.
  - right. apply andb_true_iff in E as [E1%Z.eqb_eq E2%Z.eqb_eq]. split; [lia|done].
  - destruct (IH (i + 1)) as [->|(Hb & H)]; [by left|right]. split; [lia|done].
Qed.

(** The login cut out of a bundle is a phase-1 message with a user name. *)
Lemma split_is_phase1 payload msgs auth1 : splitBundledAuthPhase1 payload = Some (msgs, auth1) ->
  isAuthPhase1 {| t_Type := TNSPacketTypeData; t_Flags := 0; t_Length := 0; t_Payload := auth1; t_Raw := encodeTNSDataV315 auth1 |} = true
  /\ exists username, parseAuthPhase1 auth1 = Ok username /\ username <> "".
Proof.
  unfold splitBundledAuthPhase1. change (ttcDataFlagsSize + fastAuthHeaderLen) with 6. destruct (_ || _); [done|].
  unfold indexOfOp. set (n := Z.to_nat (zlen payload - 6 - 1)).
  destruct (op_from_spec n payload TTCFuncPiggyback PiggybackSubAuth1 6) as [E|(Hb & H1 & H2)]; [by rewrite E|].
  set (j := op_from n payload 6 TTCFuncPiggyback PiggybackSubAuth1) in *. destruct ((j <? 0) || _ || _); [done|]. destruct (_ || _); [done|].
  destruct (_ <=? _); [done|]. destruct (parseAuthPhase1 (framePreAuthMsg (from_at j payload))) as [username| |] eqn:Ep; [|done..].
  destruct (String.eqb username "") eqn:Eu; [done|]. intros [= <- <-]. apply String.eqb_neq in Eu. split; [|by exists username].
  unfold isAuthPhase1. cbn [t_Type t_Payload]. change (TNSPacketTypeData =? TNSPacketTypeData) with true. cbn [andb].
  assert (j + 2 <= zlen payload) as Hj by lia.
  assert (zlen (framePreAuthMsg (from_at j payload)) = 2 + (zlen payload - j)) as Hl
    by (unfold framePreAuthMsg, from_at; rewrite !zlen_cons; unfold zlen in *; rewrite length_drop; lia).
  rewrite (proj2 (Z.leb_le _ _)) by (rewrite Hl; change ttcDataFlagsSize with 2; lia). cbn [andb].
  assert (forall k, 0 <= k -> byte_at (2 + k) (framePreAuthMsg (from_at j payload)) = byte_at (j + k) payload) as Hbyte.
  { intros k Hk. unfold byte_at, framePreAuthMsg, from_at. replace (Z.to_nat (2 + k)) with (S (S (Z.to_nat k))) by lia. cbn [nth].
    rewrite nth_skipn. f_equal. lia. }
  change (byte_at 2) with (byte_at (2 + 0)). change (byte_at 3) with (byte_at (2 + 1)). rewrite !Hbyte by lia.
  rewrite Z.add_0_r, H1, H2. done.
Qed.

(** What the relay has passed on when it stops at a login: up to that packet every
    client packet, verbatim and in order, and nothing of the packet itself but the
    messages that go before the login in it. *)
Definition relayed (replies : bytes -> list TNSPacket) (before after : list relay_event) (login pkt : TNSPacket) (s0 s : RelayState) : Prop :=
  Forall no_login before
  /\ ((pkt = login /\ rs_upstream s = (rs_upstream s0 ++ client_raws before)%list
       /\ rs_client s = (rs_client s0 ++ upstream_raws before ++ drained after)%list)
      \/ (exists msgs auth1, isAuthPhase1 login = false /\ splitBundledAuthPhase1 (t_Payload login) = Some (msgs, auth1) /\ t_Payload pkt = auth1
          /\ rs_upstream s = (rs_upstream s0 ++ client_raws before ++ map encodeTNSDataV315 msgs)%list
          /\ rs_client s = (rs_client s0 ++ upstream_raws before ++ drained after ++ flat_map (fun m => map t_Raw (replies m)) msgs)%list)).

Lemma relayed_step replies before after login pkt s0 s1 s e :
  no_login e -> rs_upstream s1 = (rs_upstream s0 ++ client_raws [e])%list -> rs_client s1 = (rs_client s0 ++ upstream_raws [e])%list ->
  relayed replies before after login pkt s1 s -> relayed replies (e :: before) after login pkt s0 s.
Proof.
  intros He E1 E2 [Hn H]. split; [by constructor|].
  assert (client_raws (e :: before) = client_raws [e] ++ client_raws before)%list as -> by by destruct e.
  assert (upstream_raws (e :: before) = upstream_raws [e] ++ upstream_raws before)%list as -> by by destruct e.
  rewrite E1, E2 in H. destruct H as [(-> & H1 & H2)|(msgs & auth1 & H1 & H2 & H3 & H4 & H5)].
  - left. rewrite H1, H2, <- !app_assoc. done.
  - right. exists msgs, auth1. rewrite H4, H5, <- !app_assoc. done.
Qed.

(** The relay withholds the login.  When it ends, a client packet was read that is, or
    bundles, a phase-1 message, and that message is handed to the proxy; the client
    packets before it held no login and reached the upstream verbatim, in order, and
    of a bundle only the messages before the login did; the client was sent what the
    upstream sent. *)
Theorem relay_withholds_login replies events s0 s pkt :
  relay_loop replies events s0 = (s, Some pkt) ->
  isAuthPhase1 pkt = true /\
  exists before login after, events = (before ++ FromClient login :: after)%list /\ relayed replies before after login pkt s0 s.
Proof.
  revert s0. induction events as [|[c|u] events IH]; intros s0; cbn [relay_loop]; [done| |].
  - destruct (isAuthPhase1 c) eqn:E1.
    + intros [= <- <-]. split; [done|]. exists [], c, events. split; [done|]. split; [constructor|left]. rewrite !app_nil_r.
      destruct (drain_spec events s0) as [-> ->]. done.
    + destruct (splitBundledAuthPhase1 (t_Payload c)) as [[msgs auth1]|] eqn:E2.
      * pose proof (replay_spec replies msgs auth1 (drain events s0)) as H. pose proof (split_is_phase1 _ _ _ E2) as [Hp _].
        unfold replayDepipelinedPrefix in H. unfold replayDepipelinedPrefix. intros [= <- <-]. destruct H as (H1 & H2 & _). split; [done|].
        exists [], c, events. split; [done|]. split; [constructor|right]. exists msgs, auth1. cbn [client_raws upstream_raws flat_map app].
        destruct (drain_spec events s0) as [E3 E4]. rewrite H1, H2, E3, E4. by rewrite <- app_assoc.
      * intros H. apply IH in H as (Hp & before & login & after & -> & H). split; [done|].
        exists (FromClient c :: before), login, after. split; [done|].
        eapply relayed_step; [| | |exact H]; [done..|by rewrite app_nil_r].
  - intros H. apply IH in H as (Hp & before & login & after & -> & H). split; [done|].
    exists (FromUpstream u :: before), login, after. split; [done|].
    eapply relayed_step; [| | |exact H]; [done|by rewrite app_nil_r|done].
Qed.

Definition data_packet (payload : bytes) : TNSPacket :=
  {| t_Type := TNSPacketTypeData; t_Flags := 0; t_Length := 0; t_Payload := payload; t_Raw := encodeTNSDataV315 payload |}.
Definition phase1_message (name : bytes) : bytes := ([3; 118; 0; 1; 1; zlen name; 1; 1; 1; 1; 0; 1; 1] ++ name)%list.

(** Protocol and data types wrapped with the login in one packet. *)
Definition TestBundle : bytes :=
  ([0; 0; 34; 1; 0; 0] ++ [1; 6; 0; 74; 68; 66; 67; 0] ++ [0; 0; 0; 0; 0; 0] ++ [2; 105; 3; 178; 3; 2] ++ phase1_message (str_bytes "scott"))%list.

Lemma relay_withholds_login_witness :
  let s0 := {| rs_upstream := []; rs_client := []; rs_customHash := false; rs_bigClrChunks := false |} in
  let replies msg := [data_packet [0; 0; 1; 6]] in
  let events := [FromUpstream (data_packet [0; 0; 8]); FromClient (data_packet [0; 0; 222]); FromClient (data_packet TestBundle); FromUpstream (data_packet [0; 0; 9])] in
  exists s pkt, relay_loop replies events s0 = (s, Some pkt) /\ zlen (rs_upstream s) = 3 /\ zlen (rs_client s) = 4 /\
  isAuthPhase1 pkt = true /\
  exists before login after, events = (before ++ FromClient login :: after)%list /\ relayed replies before after login pkt s0 s.
Proof.
  eexists _, _. split; [vm_compute; reflexivity|]. split; [reflexivity|]. split; [reflexivity|].
  eapply relay_withholds_login. vm_compute. reflexivity.
Defined.

(** What a chain of at most [n] connections from an address gives. *)
Definition chain_ok (n : nat) (addr : string) (dialled : list string) (r : res relay_error (string * TNSPacket)) : Prop :=
  (length dialled <= n)%nat /\ (n <> O -> head dialled = Some addr)
  /\ (forall a pkt, r = Ok (a, pkt) -> t_Type pkt = TNSPacketTypeAccept /\ last dialled = Some a).

Lemma chain_one n addr r : (forall a pkt, r = Ok (a, pkt) -> t_Type pkt = TNSPacketTypeAccept /\ a = addr) -> chain_ok (S n) addr [addr] r.
Proof. intros H. split_and!; [cbn; lia|done|]. intros a pkt E. by apply H in E as [H1 ->]. Qed.

Lemma follow_redirects_spec net pkt0 : forall n addr connect,
  let '(dialled, r) := follow_redirects n net addr connect pkt0 in chain_ok n addr dialled r.
Proof.
  induction n as [|n IH]; intros addr connect; cbn [follow_redirects]; [by split_and!|].
  destruct (net addr) as [conn|]; [|by apply chain_one].
  destruct (connect_answer conn connect) as [pkt|e|]; [|by apply chain_one..].
  destruct (t_Type pkt =? TNSPacketTypeAccept) eqn:Ea.
  { apply chain_one. intros a p [= <- <-]. by apply Z.eqb_eq in Ea. }
  destruct (t_Type pkt =? TNSPacketTypeRedirect); [|by apply chain_one].
  destruct (parseRedirect (t_Payload pkt) pkt0) as [[newAddr newConnect]|e|]; [|by apply chain_one..].
  specialize (IH newAddr newConnect). destruct (follow_redirects n net newAddr newConnect pkt0) as [d q]. destruct IH as (H1 & H2 & H3).
  split_and!; [cbn; lia|done|]. intros a p E. apply H3 in E as [E1 E2]. split; [done|]. destruct d; [done|exact E2].
Qed.

(** A chain of redirects is followed for at most four connections, the first to the
    address of the server, and the listener whose packet is relayed accepted. *)
Theorem redirects_bounded net db serviceName connectPkt :
  let '(dialled, r) := dialUpstreamWithRedirect net (server_addr db) (upstream_connect db serviceName connectPkt) in
  (length dialled <= 4)%nat /\ head dialled = Some (server_addr db)
  /\ (forall addr pkt, r = Ok (addr, pkt) -> t_Type pkt = TNSPacketTypeAccept /\ last dialled = Some addr).
Proof.
  unfold dialUpstreamWithRedirect.
  pose proof (follow_redirects_spec net (upstream_connect db serviceName connectPkt) (S maxRedirects) (server_addr db)
    (t_Raw (upstream_connect db serviceName connectPkt))) as H.
  destruct (follow_redirects _ _ _ _ _) as [dialled r]. destruct H as (H1 & H2 & H3). split_and!; [exact H1|by apply H2|done].
Qed.

Lemma ldiff_below a b : 0 <= a -> Z.ldiff a b <= a.
Proof.
  intros Ha. assert (0 <= Z.land a b) by (apply Z.land_nonneg; lia).
  assert (Z.ldiff a b = a - Z.land a b) as ->; [|lia].
  rewrite Z.sub_nocarry_ldiff; apply Z.bits_inj'; intros n Hn; rewrite ?Z.ldiff_spec, ?Z.land_spec, ?Z.bits_0;
    destruct (Z.testbit a n), (Z.testbit b n); done.
Qed.

(** Only the two flags are taken from the Accept packet: its length, every other byte
    and every other bit of the field are the upstream's. *)
Theorem strip_clears_two_flags raw : wf_bytes raw ->
  let '(out, changed) := stripAcceptModernAuthFlags raw in
  zlen out = zlen raw
  /\ (changed = false -> out = raw)
  /\ (changed = true ->
       take 41 out = take 41 raw /\ drop 45 out = drop 45 raw
       /\ be_get (take 4 (drop 41 out)) = Z.ldiff (be_get (take 4 (drop 41 raw))) (Z.lor tnsAcceptFlagFastAuth tnsAcceptFlagHasEndOfResponse)).
Proof.
  intros Hw. unfold stripAcceptModernAuthFlags. destruct (_ || _ || _) eqn:E; [done|]. destruct (_ =? 0); [done|].
  assert (45 <= zlen raw) as Hl by (apply orb_false_iff in E as [[E%Z.ltb_ge _]%orb_false_iff _]; exact E).
  set (flags := be_get (take 4 (drop 41 raw))). set (mask := Z.lor _ _).
  assert (0 <= Z.ldiff flags mask < 256 ^ 4) as Hb.
  { assert (0 <= flags < 256 ^ zlen (take 4 (drop 41 raw))) as Hf by (apply be_get_bound; apply Forall_take, Forall_drop, Hw).
    replace (zlen (take 4 (drop 41 raw))) with 4 in Hf by (unfold zlen in *; rewrite length_take, length_drop; lia).
    split; [apply Z.ldiff_nonneg; lia|]. apply Z.le_lt_trans with flags; [by apply ldiff_below; lia|lia]. }
  assert (length (take 41 raw) = 41%nat) as H41 by (rewrite length_take; unfold zlen in *; lia).
  split_and!; [|done|].
  - unfold zlen in *. rewrite !length_app, length_be_put, length_drop, H41. lia.
  - intros _. split_and!; [by rewrite take_app_length'| |].
    + rewrite app_assoc, drop_app_length'; [done|]. by rewrite length_app, length_be_put, H41.
    + rewrite drop_app_length' by done. rewrite take_app_length' by (by rewrite length_be_put). rewrite be_get_put. by apply Z.mod_small.
Qed.

Definition test_accept : bytes := (be_put 2 47 ++ [0; 0; 2; 0; 0; 0] ++ be_put 2 319 ++ replicate 31 3 ++ be_put 4 (268435456 + 33554432 + 5) ++ [8; 9])%list.

Lemma strip_clears_two_flags_witness :
  wf_bytes test_accept /\ (stripAcceptModernAuthFlags test_accept).2 = true /\ take 4 (drop 41 (stripAcceptModernAuthFlags test_accept).1) = [0; 0; 0; 5] /\
  let '(out, changed) := stripAcceptModernAuthFlags test_accept in
  zlen out = zlen test_accept
  /\ (changed = false -> out = test_accept)
  /\ (changed = true ->
       take 41 out = take 41 test_accept /\ drop 45 out = drop 45 test_accept
       /\ be_get (take 4 (drop 41 out)) = Z.ldiff (be_get (take 4 (drop 41 test_accept))) (Z.lor tnsAcceptFlagFastAuth tnsAcceptFlagHasEndOfResponse)).
Proof. split; [by apply wf_bytes_check|]. split; [reflexivity|]. split; [reflexivity|]. apply strip_clears_two_flags. by apply wf_bytes_check. Defined.

(** ** The AUTH OK *)

(** The bodies of the data packets. *)
Definition data_bodies (pkts : list TNSPacket) : list bytes :=
  map (fun pkt => drop 2 (t_Payload pkt)) (List.filter (fun pkt => (t_Type pkt =? TNSPacketTypeData) && negb (zlen (t_Payload pkt) <? ttcDataFlagsSize)) pkts).

(** The reading holds these bodies, and flags once there is one. *)
Definition holds_bodies (r : AuthReading) (bodies : list bytes) : Prop :=
  ra_buf r = List.concat bodies /\ ra_lens r = map zlen bodies
  /\ match ra_flags r with Some f => zlen f = 2 | None => bodies = [] end.

Lemma add_fragment_holds r bodies payload resp : 2 <= zlen payload -> holds_bodies r bodies -> holds_bodies (add_fragment r payload resp) (bodies ++ [drop 2 payload]).
Proof.
  intros Hl (H1 & H2 & H3). unfold holds_bodies, add_fragment. cbn [ra_buf ra_lens ra_flags].
  rewrite concat_app, map_app, H1, H2. cbn [List.concat map]. rewrite app_nil_r. split_and!; [done| |].
  - do 2 f_equal. unfold zlen in *. rewrite length_drop. lia.
  - destruct (ra_flags r); [done|]. unfold zlen in *. rewrite length_take. lia.
Qed.

Lemma read_auth_holds wide : forall pkts sawBreak r bodies r', holds_bodies r bodies -> read_auth pkts wide sawBreak r = (r', Ok tt) ->
  exists n, holds_bodies r' (bodies ++ data_bodies (take n pkts)) /\ data_bodies (take n pkts) <> [].
Proof.
  induction pkts as [|pkt pkts IH]; intros sawBreak r bodies r' Hr; cbn [read_auth]; [done|].
  assert (forall s q, holds_bodies q bodies -> (t_Type pkt =? TNSPacketTypeData) && negb (zlen (t_Payload pkt) <? ttcDataFlagsSize) = false ->
    read_auth pkts wide s q = (r', Ok tt) ->
    exists n, holds_bodies r' (bodies ++ data_bodies (take n (pkt :: pkts))) /\ data_bodies (take n (pkt :: pkts)) <> []) as Hskip.
  { intros s q Hq Hd H. destruct (IH _ _ _ _ Hq H) as (n & H1 & H2). exists (S n). cbn [take]. unfold data_bodies in *. cbn [List.filter]. by rewrite Hd. }
  destruct (t_Type pkt =? TNSPacketTypeData) eqn:Et; cbn [negb].
  - destruct (zlen (t_Payload pkt) <? ttcDataFlagsSize) eqn:El; [by apply Hskip|]. apply Z.ltb_ge in El as Hl. change ttcDataFlagsSize with 2 in Hl.
    destruct (parseAuthMessageStream _ _ _ _) as [[resp complete]| |]; [|done..].
    pose proof (add_fragment_holds r bodies (t_Payload pkt) resp Hl Hr) as Hf.
    assert (forall n, data_bodies (take (S n) (pkt :: pkts)) = drop 2 (t_Payload pkt) :: data_bodies (take n pkts)) as Hcons
      by (intros n; unfold data_bodies; cbn [take List.filter]; rewrite Et, El; done).
    destruct complete.
    + intros [= <-]. exists 1%nat. rewrite Hcons. split; [exact Hf|done].
    + intros H. destruct (IH _ _ _ _ Hf H) as (n & H1 & _). exists (S n). rewrite Hcons, cons_middle, app_assoc. split; [exact H1|done].
  - destruct (isResetMarker pkt && _); by apply Hskip.
Qed.

Section AuthOKTheorems.
Context {B : BlockCipher}.

(** A patched message keeps its length and its first 17 bytes at least. *)
Lemma patch_keeps prefix authOK key patched : patchAuthSvrResponse prefix authOK key = Ok patched ->
  zlen patched = zlen authOK /\ take 17 patched = take 17 authOK.
Proof.
  unfold patchAuthSvrResponse, findAuthSvrResponseHexStart. destruct (zlen authOK =? 0); [done|].
  set (keyIdx := findBytes authOK authSvrResponseKey). destruct (keyIdx <? 0) eqn:Ek; [done|]. cbn [negb rbind].
  destruct (hex_start _ authOK _) as [s|] eqn:Es; [|done]. cbn [rbind]. apply hex_start_spec in Es as [Hs _].
  destruct (s + authSvrResponseHexLen <=? zlen authOK) eqn:Eend; [|done].
  destruct (buildAuthSvrResponseValue prefix key) as [fresh| |]; [|done..]. cbn [rbind].
  destruct (zlen fresh =? authSvrResponseHexLen) eqn:El; [|done]. intros [= <-].
  change authSvrResponseHexLen with 96 in *. change (zlen authSvrResponseKey) with 17 in Hs.
  apply Z.ltb_ge in Ek. apply Z.leb_le in Eend. apply Z.eqb_eq in El. unfold upto, from_at, zlen in *. split.
  - rewrite !length_app, length_take, length_drop. lia.
  - rewrite take_app_le by (rewrite length_take; lia). rewrite take_take. f_equal. lia.
Qed.

Lemma zlen_concat (ls : list bytes) : zlen (List.concat ls) = foldr Z.add 0 (map zlen ls).
Proof. induction ls as [|l ls IH]; [done|]. cbn [List.concat map foldr]. by rewrite zlen_app, IH. Qed.

Lemma concat_same_cuts (ls ls' : list bytes) : map zlen ls = map zlen ls' -> List.concat ls = List.concat ls' -> ls = ls'.
Proof.
  revert ls'. induction ls as [|l ls IH]; intros [|l' ls'] H1 H2; [done..|]. cbn [map List.concat] in *. injection H1 as Hl Hls.
  apply app_inj_1 in H2 as [-> H2]; [|unfold zlen in *; lia]. f_equal. by apply IH.
Qed.

Definition v315_header (n : Z) : bytes := (be_put 4 (u32 (8 + n)) ++ [TNSPacketTypeData; 0; 0; 0])%list.
Lemma v315_header_length n : zlen (v315_header n) = 8.
Proof. unfold v315_header. by rewrite zlen_app, zlen_be_put. Qed.
Lemma data_packet_header payload : encodeV315DataPacket payload = (v315_header (zlen payload) ++ payload)%list.
Proof. unfold encodeV315DataPacket, v315_header. by rewrite <- app_assoc. Qed.

(** The message of a reading, confirmed anew or not: its header, its flags and a text of
    the same length. *)
Lemma auth_ok_shape reading clientKey prefix f bodies :
  ra_flags reading = Some f -> zlen f = 2 -> ra_buf reading = List.concat bodies ->
  exists ttc, zlen ttc = zlen (List.concat bodies) /\ (clientKey = [] -> ttc = List.concat bodies)
    /\ auth_ok reading clientKey prefix = reframeAuthOK (encodeV315DataPacket (f ++ ttc)) f (ra_lens reading).
Proof.
  intros Hf Hl Hb. unfold auth_ok, merged_packet, flags_of. rewrite Hf, Hb. set (c := List.concat bodies).
  assert (0 < zlen clientKey -> forall patched, patchAuthSvrResponse prefix (encodeV315DataPacket (f ++ c)) clientKey = Ok patched ->
    exists ttc, zlen ttc = zlen c /\ patched = encodeV315DataPacket (f ++ ttc)) as Hpatch.
  { intros _ patched Hp. apply patch_keeps in Hp as [Hlen H17]. exists (drop 10 patched). rewrite data_packet_header in *.
    assert (zlen (drop 10 patched) = zlen c) as Hd
      by (rewrite !zlen_app, v315_header_length in Hlen; unfold zlen in *; rewrite length_drop; lia).
    split; [done|]. rewrite (zlen_app f (drop 10 patched)), Hd, <- zlen_app.
    apply (f_equal (take 10)) in H17. rewrite !take_take in H17. change (10 `min` 17)%nat with 10%nat in H17.
    rewrite <- (take_drop 10 patched) at 1. rewrite H17, !app_assoc. f_equal.
    apply take_app_length'. pose proof (v315_header_length (zlen (f ++ c))). rewrite length_app. unfold zlen in *. lia. }
  destruct (0 <? zlen clientKey) eqn:Ek.
  - apply Z.ltb_lt in Ek. destruct (patchAuthSvrResponse prefix _ clientKey) as [patched| |] eqn:Ep.
    + destruct (Hpatch Ek _ eq_refl) as (ttc & H1 & ->). exists ttc. split_and!; [done| |done]. intros ->. by cbn in Ek.
    + by exists c.
    + by exists c.
  - by exists c.
Qed.

(** The AUTH OK that the client is sent is the upstream's, packet for packet: as many
    packets as the upstream sent, of the same lengths, and the same bodies when there
    is no key of the client's to confirm under. *)
Theorem auth_ok_delivered pkts wide reading clientKey prefix :
  readUpstreamAuthMessages pkts wide = (reading, Ok tt) ->
  exists n flags parts,
    zlen flags = 2 /\ auth_ok reading clientKey prefix = List.concat (map (fun p => encodeV315DataPacket (flags ++ p)%list) parts)
    /\ map zlen parts = map zlen (data_bodies (take n pkts))
    /\ (clientKey = [] -> parts = data_bodies (take n pkts)).
Proof.
  intros H. apply (read_auth_holds _ _ _ _ []) in H as (n & (Hbuf & Hlens & Hflags) & Hne); [|by split_and!].
  cbn [app] in *. remember (data_bodies (take n pkts)) as D eqn:ED. destruct (ra_flags reading) as [f|] eqn:Ef; [|done].
  destruct (auth_ok_shape reading clientKey prefix f D Ef Hflags Hbuf) as (ttc & Hl & Hsame & ->). exists n, f. rewrite <- ED. clear ED.
  rewrite zlen_concat in Hl. assert (Forall (fun z => 0 <= z) (map zlen D)) as Hpos by (apply Forall_map, Forall_true; intros; apply zlen_nonneg).
  rewrite Hlens. destruct (zlen (map zlen D) <=? 1) eqn:E1.
  - unfold reframeAuthOK. rewrite E1. cbn [orb]. exists [ttc]. cbn [map List.concat]. rewrite app_nil_r.
    destruct D as [|d [|d' D']]; [done| |apply Z.leb_le in E1; rewrite !map_cons, !zlen_cons in E1; pose proof (zlen_nonneg (map zlen D')); lia].
    cbn in Hl. rewrite Z.add_0_r in Hl. split_and!; [done..|cbn; by rewrite Hl|]. intros Hk. rewrite Hsame by done. cbn. by rewrite app_nil_r.
  - apply Z.leb_gt in E1. destruct (fragments_split f (map zlen D) ttc Hpos Hl) as (parts & Hp & Hz & Hc). exists parts.
    split_and!; [done| |done|].
    + rewrite <- Hp, data_packet_header. unfold reframeAuthOK. rewrite (proj2 (Z.leb_gt _ _)), Hflags, !zlen_app, v315_header_length, Hflags by lia.
      cbn [orb negb Z.eqb Pos.eqb]. pose proof (zlen_nonneg ttc). rewrite (proj2 (Z.ltb_ge _ _)), (proj2 (Z.eqb_eq _ _)) by lia. cbn [orb negb].
      pose proof (v315_header_length (2 + zlen ttc)). rewrite app_assoc, drop_app_length' by (rewrite length_app; unfold zlen in *; lia). done.
    + intros Hk. rewrite (Hsame Hk) in Hc. by apply concat_same_cuts.
Qed.
End AuthOKTheorems.

Lemma auth_ok_delivered_witness :
  let pkts := [data_packet [0; 0; 15; 0; 0; 0; 0; 0]; data_packet [0; 0; 0; 4; 1; 1]] in
  exists reading, readUpstreamAuthMessages pkts false = (reading, Ok tt) /\ ra_lens reading = [6; 4] /\
  exists n flags parts,
    zlen flags = 2 /\ auth_ok (B := SampleO5.toy_cipher) reading [] None = List.concat (map (fun p => encodeV315DataPacket (flags ++ p)%list) parts)
    /\ map zlen parts = map zlen (data_bodies (take n pkts))
    /\ (@nil Z = [] -> parts = data_bodies (take n pkts)).
Proof.
  eexists. split; [vm_compute; reflexivity|]. split; [vm_compute; reflexivity|].
  eapply (auth_ok_delivered (B := SampleO5.toy_cipher) _ false). vm_compute. reflexivity.
Defined.

(** ** A session *)

Lemma read_auth_markers wide : forall pkts sawBreak r, Forall (eq buildResetMarker) (ra_markers r) ->
  Forall (eq buildResetMarker) (ra_markers (read_auth pkts wide sawBreak r).1).
Proof.
  induction pkts as [|pkt pkts IH]; intros sawBreak r Hr; cbn [read_auth]; [done|]. destruct (negb _).
  - destruct (isResetMarker pkt && _); apply IH; [|done]. cbn [mark ra_markers]. by apply Forall_app_2; [|repeat constructor].
  - destruct (_ <? _); [by apply IH|]. destruct (parseAuthMessageStream _ _ _ _) as [[resp [|]]| |]; [exact Hr|apply IH; exact Hr|exact Hr..].
Qed.

Section RunTheorems.
Context {A2 : Argon2} {GCM : AEAD} {HS : Hashes} {dig : Digest} {order : MapOrder} {UT : UUIDText} {HT : HostText} {B : BlockCipher} {C : Collation}.

(** A phase-1 message for the server's user, or a reset marker: nothing of the password. *)
Definition opening (x : RunEnv) (db : Server) (phase1 : TNSPacket) (p : bytes) : Prop :=
  p = buildResetMarker
  \/ exists name, p = sendUpstreamAuthPhase1 (Some phase1) (upstream_username db) (named_identity (re_ident x) name) logonModeNoNewPass.

Lemma begin_auth_opening x db phase1 username wide : Forall (opening x db phase1) (begin_auth x db phase1 username wide).1.
Proof.
  unfold begin_auth, beginUpstreamAuth. destruct (Servers.DecryptPassword db _) as [db'| |] eqn:Ed; [|constructor..].
  assert (upstream_username db' = upstream_username db) as ->.
  { unfold Servers.DecryptPassword in Ed. destruct (lift_srv _); cbn [rbind] in Ed; [|done..]. by injection Ed as <-. }
  destruct (buildUpstreamProgramName _ _ _) as [name|]; [|constructor].
  pose proof (read_auth_markers wide (re_challenge x (sendUpstreamAuthPhase1 (Some phase1) (upstream_username db) (named_identity (re_ident x) name) logonModeNoNewPass))
    false no_reading ltac:(constructor)) as Hm.
  unfold readUpstreamAuthMessages. destruct (read_auth _ _ _ _) as [reading r]. cbn [fst] in *. constructor; [right; by exists name|].
  eapply Forall_impl; [exact Hm|]. intros ? <-. by left.
Qed.
(** The upstream packets of a list of actions. *)
Definition upstream_sent (acts : list action) : list bytes :=
  flat_map (fun a => match a with ToUpstream p => [p] | Dial _ | ToClient _ => [] end) acts.

Lemma upstream_sent_app a b : upstream_sent (a ++ b) = (upstream_sent a ++ upstream_sent b)%list.
Proof. apply flat_map_app. Qed.
Lemma upstream_sent_up l : upstream_sent (map ToUpstream l) = l.
Proof. unfold upstream_sent. induction l as [|p l IH]; [done|]. cbn [map flat_map app]. by rewrite IH. Qed.
Lemma upstream_sent_client l : upstream_sent (map ToClient l) = [].
Proof. unfold upstream_sent. induction l as [|p l IH]; [done|]. exact IH. Qed.
Lemma upstream_sent_dial l : upstream_sent (map Dial l) = [].
Proof. unfold upstream_sent. induction l as [|p l IH]; [done|]. exact IH. Qed.

(** The proxy let the client in as [login]. *)
Definition client_admitted (x : RunEnv) (b : Backend) (rs : RelayState) (phase1 : TNSPacket) (db : Server) (candidates : list Server) (login : OraLogin) : Prop :=
  exists begun b1 out, authenticateClient (later (4 + length candidates) (re_env x)) b (login_env x rs begun) db (Some phase1) [] (re_client x)
                       = (b1, out, Ok login).

(** What the client answered to the challenge made from the newest of the user's
    Oracle keys: a password that proves the key of the login, or none at all. *)
Definition client_answer (x : RunEnv) (b : Backend) (rs : RelayState) (db : Server) (candidates : list Server) (login : OraLogin) : Prop :=
  let e := later (4 + length candidates) (re_env x) in
  exists begun primary vs o5 encSess vfr sess enc,
    let o := login_env x rs begun in
    loadO5LogonVerifiers (later 6 e) b (oe_encryptionKey o) (u_UID (ol_user login)) = Ok (primary :: vs)
    /\ GenerateChallenge (primary_server o primary) (oe_session o) (oe_chk o) = Ok (o5, encSess, vfr)
    /\ parseAuthPhase2 (t_Payload (ol_phase2 login)) = Ok (sess, enc)
    /\ k_UserID (ol_key login) = u_UID (ol_user login)
    /\ (enc = "" \/ password_proves (later 8 e) b o5 (primary :: vs) sess enc encSess (ol_key login)).

Lemma admitted_answer x b rs phase1 db candidates login :
  client_admitted x b rs phase1 db candidates login -> client_answer x b rs db candidates login.
Proof.
  intros (begun & b1 & out & H).
  destruct (authenticateClient_Ok _ _ _ _ _ _ _ _ _ _ H)
    as (p1 & primary & vs & o5 & encSess & vfr & markers & sess & enc & _ & _ & _ & _ & _ & Hl & Hg & _ & Hp & Hk & Hc).
  exists begun, primary, vs, o5, encSess, vfr, sess, enc. do 4 (split; [done|]).
  destruct (String.eqb_spec enc ""); [by left|by right].
Qed.

(** What follows the negotiation upstream: an opening, then phase 2 for an admitted client. *)
Definition gated (x : RunEnv) (b : Backend) (rs : RelayState) (phase1 : TNSPacket) (db : Server) (candidates : list Server) (sent : list bytes) : Prop :=
  exists first rest, sent = (first ++ rest)%list /\ Forall (opening x db phase1) first
    /\ (rest <> [] -> exists login, client_admitted x b rs phase1 db candidates login /\ client_answer x b rs db candidates login).

Lemma client_auth_gated x b rs phase1 db candidates login begun : client_admitted x b rs phase1 db candidates login ->
  gated x b rs phase1 db candidates (runUpstreamClientAuth x rs phase1 db login begun).1.
Proof.
  intros Ha. pose proof (admitted_answer _ _ _ _ _ _ _ Ha) as Hr. unfold runUpstreamClientAuth.
  assert (Hx : forall rest : list bytes, rest <> [] -> exists login, client_admitted x b rs phase1 db candidates login /\ client_answer x b rs db candidates login)
    by (intros; by exists login).
  destruct begun as [[dbOpen resp]|].
  - destruct (finishUpstreamAuth _ _ _ _ _ _ _ _ _ _) as [out2 r2]. cbn [fst]. exists [], out2. split_and!; [done|constructor|exact (Hx out2)].
  - pose proof (begin_auth_opening x db phase1 (ol_username login) (ol_wide login)) as Hb.
    destruct (begin_auth _ _ _ _ _) as [out1 [[dbOpen resp]|e|]]; cbn [fst] in *.
    + destruct (finishUpstreamAuth _ _ _ _ _ _ _ _ _ _) as [out2 r2]. exists out1, out2. split_and!; [done..|exact (Hx out2)].
    + exists out1, []. rewrite app_nil_r. by split_and!.
    + exists out1, []. rewrite app_nil_r. by split_and!.
Qed.

Lemma gated_after x b rs phase1 db candidates first sent : Forall (opening x db phase1) first ->
  gated x b rs phase1 db candidates sent -> gated x b rs phase1 db candidates (first ++ sent).
Proof.
  intros Hf (f & rest & -> & Hf' & Hr). exists (first ++ f)%list, rest. rewrite app_assoc. split_and!; [done|by apply Forall_app_2|done].
Qed.

Lemma gated_opening x b rs phase1 db candidates first : Forall (opening x db phase1) first -> gated x b rs phase1 db candidates first.
Proof. intros Hf. exists first, []. by rewrite app_nil_r. Qed.

Lemma open_session_sent x b rs phase1 db login begun :
  upstream_sent (open_session x b rs phase1 db login begun).1.1 = (runUpstreamClientAuth x rs phase1 db login begun).1.
Proof.
  unfold open_session. destruct (runUpstreamClientAuth _ _ _ _ _ _) as [out [[dbOpen reading]|e|]]; [|cbn [fst]; apply upstream_sent_up..].
  destruct (CreateConnection _ _ _ _ _ _ _ _) as [grants conn]. cbn [fst]. rewrite upstream_sent_app, upstream_sent_up. cbn. by rewrite app_nil_r.
Qed.

Lemma authenticate_session_gated x b rs phase1 db0 candidates : let '(acts, _, _) := authenticate_session x b rs phase1 db0 candidates in
  upstream_sent acts = [] \/
  exists db, disambiguateDatabase (later 2 (re_env x)) b db0 candidates (t_Payload phase1) = Ok db
    /\ gated x b rs phase1 db candidates (upstream_sent acts).
Proof.
  unfold authenticate_session. destruct (disambiguateDatabase _ _ _ _ _) as [db|e|]; [|by left..].
  set (start := if payloadUsesWideKVEncoding _ then _ else _).
  assert (Forall (opening x db phase1) start.1) as Hs.
  { unfold start. destruct (payloadUsesWideKVEncoding _); [|constructor]. pose proof (begin_auth_opening x db phase1 "" true) as Hb.
    by destruct (begin_auth _ _ _ _ _). }
  destruct start as [out1 [begun|e|]]; cbn [fst] in Hs;
    [|right; exists db; split; [done|]; rewrite upstream_sent_up; by apply gated_opening..].
  destruct (authenticateClient _ _ _ _ _ _ _) as [[b1 out] [login|e|]] eqn:Ea.
  - pose proof (open_session_sent x b1 rs phase1 db login begun) as Ho.
    destruct (open_session _ _ _ _ _ _ _) as [[acts b2] r]. cbn [fst] in Ho. right. exists db. split; [done|].
    rewrite !upstream_sent_app, upstream_sent_up, upstream_sent_client, Ho. cbn [app].
    apply gated_after; [done|]. apply client_auth_gated. by exists begun, b1, out.
  - right. exists db. split; [done|]. rewrite !upstream_sent_app, upstream_sent_up, upstream_sent_client. cbn. rewrite app_nil_r. by apply gated_opening.
  - right. exists db. split; [done|]. rewrite !upstream_sent_app, upstream_sent_up, upstream_sent_client, app_nil_r. by apply gated_opening.
Qed.

(** C12. The stored credentials are spent for an admitted client only.  Whatever a
    session does, what it writes upstream is what the relay passed on, then phase-1
    messages for the server's user and reset markers, in which the password has no
    part, and anything further only when the proxy's own login let the client in:
    the client answered the challenge with a password that proves an Oracle-enabled
    key of the user it named, or it sent no password at all, which the login lets
    pass as well (see [passwordless_login]). *)
Theorem upstream_credentials_gated x b connectPkt acts b' r :
  run x b connectPkt = (acts, b', r) ->
  upstream_sent acts = [] \/
  exists db0 candidates dialled rs relayed,
    resolveDatabase (re_env x) (b_servers b) (t_Payload connectPkt) = Ok (db0, candidates)
    /\ relayPreAuthNegotiation (re_net x) (re_replies x) db0 (service_of (extractConnectString (t_Payload connectPkt))) connectPkt (re_events x)
       = (dialled, rs, relayed)
    /\ (upstream_sent acts = rs_upstream rs
        \/ exists phase1 db sent,
             relayed = Ok phase1 /\ disambiguateDatabase (later 2 (re_env x)) b db0 candidates (t_Payload phase1) = Ok db
             /\ upstream_sent acts = (rs_upstream rs ++ sent)%list /\ gated x b rs phase1 db candidates sent).
Proof.
  unfold run. destruct (negb _); [intros [= <- <- <-]; by left|].
  destruct (resolveDatabase _ _ _) as [[db0 candidates]|[frame e]|]; [|intros [= <- <- <-]; by left..].
  destruct (relayPreAuthNegotiation _ _ _ _ _ _) as [[dialled rs] relayed] eqn:Er.
  assert (upstream_sent (map Dial dialled ++ map ToUpstream (rs_upstream rs) ++ map ToClient (rs_client rs)) = rs_upstream rs) as Hsent
    by (rewrite !upstream_sent_app, upstream_sent_dial, upstream_sent_up, upstream_sent_client; apply app_nil_r).
  destruct relayed as [phase1|e|].
  - pose proof (authenticate_session_gated x b rs phase1 db0 candidates) as H.
    destruct (authenticate_session _ _ _ _ _ _) as [[more b1] r1]. intros [= <- _ _]. right. exists db0, candidates, dialled, rs, (Ok phase1). split_and!; [done..|].
    rewrite upstream_sent_app, Hsent. destruct H as [->|(db & Hd & Hg)]; [left; apply app_nil_r|right]. by exists phase1, db, (upstream_sent more).
  - intros [= <- _ _]. right. exists db0, candidates, dialled, rs, (Err e). split_and!; [done..|by left].
  - intros [= <- _ _]. right. exists db0, candidates, dialled, rs, Panic. split_and!; [done..|by left].
Qed.
End RunTheorems.

(** ** A login end to end *)

Module SampleRun.
Import SampleServers SampleO5 SampleLogon.

Definition world_server : Server :=
  match rows (CreateServer dsn all_ok all_ok ∅ (sample_server "orcl" "10.0.0.9" ProtocolOracle None) master 2%N
                (Some (replicate 12 1)) (None, None) 5 5).1 with s :: _ => s | [] => sample_server "" "" "" None end.
Definition world : Backend :=
  {| b_acct := acct; b_servers := {[2%N := world_server]}; b_grants := b_grants backend; b_keyCache := None; b_authCache := None; b_spawned := [] |}.

Definition packet (type : Z) (payload : bytes) : TNSPacket :=
  {| t_Type := type; t_Flags := 0; t_Length := 8 + zlen payload; t_Payload := payload;
     t_Raw := (be_put 2 (8 + zlen payload) ++ [0; 0; type; 0; 0; 0] ++ payload)%list |}.

Definition upstream_challenge : TNSPacket :=
  match GenerateChallenge (NewO5LogonServer SampleO5.salt (DeriveO5LogonVerifierKey "pw" SampleO5.salt)) (Some key48) None with
  | Ok (s, encSess, vfr) =>
      packet TNSPacketTypeData (buildAuthChallenge encSess vfr "" 0 0 VerifierType6949 false ++ buildAuthChallengeEndMarker VerifierType6949 false)%list
  | _ => packet TNSPacketTypeData []
  end.
Definition upstream_ok : TNSPacket :=
  packet TNSPacketTypeData ([0; 0; TTCFuncResponse; 1; 1] ++ ttcKeyVal "AUTH_SVR_RESPONSE" (upper_hex_string (replicate 48 171)) 0 ++ [4; 1; 1; 0])%list.

Definition x (answers : list TNSPacket) : RunEnv :=
  {| re_env := env;
     re_net addr := if String.eqb addr "10.0.0.9:5432" then Some (fun _ _ => Some (packet TNSPacketTypeAccept (replicate 37 1))) else None;
     re_replies _ := []; re_events := [FromClient (packet TNSPacketTypeData [0; 0; 1; 6; 0]); FromUpstream (packet TNSPacketTypeData [0; 0; 1; 6]); FromClient phase1];
     re_client _ := answers; re_challenge _ := [upstream_challenge]; re_authOK _ := [upstream_ok];
     re_version := "1.0"; re_ident := ident; re_encryptionKey := master; re_session := Some key48; re_chk := None;
     re_prefix := Some prefix; re_prefix' := None; re_svr := Some prefix; re_draws := [client48]; re_zone := 0; re_source := "10.1.1.1"; re_uid := 77%N |}.

Definition connect : TNSPacket := packet TNSPacketTypeConnect (replicate 50 0 ++ str_bytes "(SERVICE_NAME=orcl)")%list.
End SampleRun.

Import SampleServers SampleO5 SampleLogon.

(** With the right answer: one dial, the relayed packet and the two authentication
    messages upstream, and a connection row; without one, nothing after the relay. *)
Example session_opens :
  match run (SampleRun.x [phase2 secrets]) SampleRun.world SampleRun.connect with
  | (acts, _, Ok o) => (length (upstream_sent acts), option_map c_UID (op_connection o), ol_username (op_login o))
  | _ => (0%nat, None, "")
  end = (3%nat, Some 77%N, "alice").
Proof. vm_compute. reflexivity. Qed.

(** The third packet of that session is written for a client whose password was right. *)
Lemma upstream_credentials_gated_witness :
  exists acts b' r, run (SampleRun.x [phase2 secrets]) SampleRun.world SampleRun.connect = (acts, b', r) /\ length (upstream_sent acts) = 3%nat /\
  exists rs phase1 db sent, upstream_sent acts = (rs_upstream rs ++ sent)%list /\ gated (SampleRun.x [phase2 secrets]) SampleRun.world rs phase1 db [] sent.
Proof.
  destruct (run (SampleRun.x [phase2 secrets]) SampleRun.world SampleRun.connect) as [[acts b'] r] eqn:E.
  assert (Hn : length (upstream_sent acts) = 3%nat)
    by (change acts with (acts, b', r).1.1; rewrite <- E; vm_compute; reflexivity).
  exists acts, b', r. split; [reflexivity|]. split; [exact Hn|].
  destruct (upstream_credentials_gated _ _ _ _ _ _ E) as [H|(db0 & cands & dialled & rs & relayed & H1 & H2 & H3)]; [rewrite H in Hn; discriminate Hn|].
  assert (Hc : cands = []) by (vm_compute in H1; injection H1 as _ <-; reflexivity). subst cands.
  destruct H3 as [H3|(phase1 & db & sent & _ & _ & H4 & H5)]; [|exists rs, phase1, db, sent; exact (conj H4 H5)].
  assert (Hr : length (rs_upstream rs) = 1%nat) by (clear -H1 H2; vm_compute in H1; injection H1 as <-; vm_compute in H2; injection H2 as _ <- _; reflexivity).
  rewrite H3, Hr in Hn. discriminate Hn.
Defined.

Example refused_stays_out :
  match run (SampleRun.x []) SampleRun.world SampleRun.connect with
  | (acts, _, Err (ErrClientAuthFailed _)) => length (upstream_sent acts)
  | _ => 0%nat
  end = 1%nat.
Proof. vm_compute. reflexivity. Qed.
