(* ===== verification/PgScram.v ===== *)
(** * The SCRAM-SHA-256 client and TLS towards PostgreSQL
    ([internal/proxy/postgresql/upstream_scram.go], [upstream_tls.go], the MD5
    answer of [upstream.go])

    The proxy authenticates to the real server with the stored password.  SHA-256,
    HMAC, PBKDF2 and MD5 are parameters; messages, fields, proof and signature are
    the code's.  [SERVER] below is a server after RFC 5802, written from the
    standard and not from the code: the client is proved against it. *)

From Stdlib Require Import ZArith Lia List Bool String Ascii.
From stdpp Require Import base list gmap strings.
From S2P Require Import Prelude GoStrings Encoding OracleValues.

Open Scope string_scope.
Open Scope Z_scope.

(** ** [base64.StdEncoding.DecodeString] *)

Fixpoint remove_breaks (s : string) : string :=
  match s with
  | String c s => if (code c =? 10) || (code c =? 13) then remove_breaks s else String c (remove_breaks s)
  | EmptyString => ""
  end.

(** Up to the first padding character, and the padding. *)
Fixpoint cut_padding (s : string) : string * string :=
  match s with
  | String c r => if Ascii.eqb c "=" then ("", s) else let '(a, p) := cut_padding r in (String c a, p)
  | EmptyString => ("", "")
  end.

Definition std_b64_decode (s : string) : option bytes :=
  let s := remove_breaks s in
  let '(body, pad) := cut_padding s in
  if (slen s mod 4 =? 0) && (String.eqb pad "" || String.eqb pad "=" || String.eqb pad "==") then raw_b64_decode body else None.

(** ** Hashes *)

Class PgHashes := {
  sha256 : bytes -> bytes;
  hmac_sha256 : bytes -> bytes -> bytes;                      (* key, message *)
  pbkdf2_sha256 : bytes -> bytes -> Z -> bytes;               (* password, salt, iterations: 32 bytes *)
  md5_sum : bytes -> bytes;
  hmac256_out : forall k m, wf_bytes (hmac_sha256 k m) /\ length (hmac_sha256 k m) = 32%nat;
  md5_out : forall m, length (md5_sum m) = 16%nat
}.

Inductive scram_error :=
| ErrSCRAMNoSupportedMechanism
| ErrSCRAMServerNonceMismatch
| ErrSCRAMServerSignature
| ErrSCRAMUnexpectedMessage
| ErrSCRAMMalformedMessage
| ErrSCRAMNonce.

Definition scramMechanism : string := "SCRAM-SHA-256".
Definition scramGS2HeaderNoBinding : string := "n,,".
Definition scramCBindB64 : string := "biws".

Record scramClient := {
  sc_password : string;
  sc_clientNonce : string;
  sc_clientFirstBare : string;
  sc_serverFirstMessage : string;
  sc_clientFinalNoProof : string;
  sc_saltedPassword : bytes
}.

(** [nonce]: the 18 bytes drawn. *)
Definition newSCRAMClient (nonce : option bytes) (password : string) : res scram_error scramClient :=
  match nonce with
  | None => Err ErrSCRAMNonce
  | Some nonce => Ok {| sc_password := password; sc_clientNonce := b64 nonce; sc_clientFirstBare := ""; sc_serverFirstMessage := "";
                        sc_clientFinalNoProof := ""; sc_saltedPassword := [] |}
  end.

Definition firstMessage (c : scramClient) : scramClient * bytes :=
  let bare := "n=,r=" ++ sc_clientNonce c in
  ({| sc_password := sc_password c; sc_clientNonce := sc_clientNonce c; sc_clientFirstBare := bare; sc_serverFirstMessage := sc_serverFirstMessage c;
      sc_clientFinalNoProof := sc_clientFinalNoProof c; sc_saltedPassword := sc_saltedPassword c |},
   str_bytes (scramGS2HeaderNoBinding ++ bare)).

(** Before and after the first equals sign. *)
Fixpoint cut_eq (s : string) : option (string * string) :=
  match s with
  | String c r => if Ascii.eqb c "=" then Some ("", r) else match cut_eq r with Some (k, v) => Some (String c k, v) | None => None end
  | EmptyString => None
  end.

(** A part without a name is skipped; a later field of the same name wins. *)
Definition add_field (out : gmap string string) (part : string) : gmap string string :=
  match cut_eq part with
  | Some (k, v) => if String.eqb k "" then out else <[k := v]> out
  | None => out
  end.
Definition splitSCRAMFields (s : string) : gmap string string := fold_left add_field (Split s ",") ∅.

Definition parseSCRAMServerFirst (s : string) : res scram_error (string * bytes * Z) :=
  let fields := splitSCRAMFields s in
  match fields !! "r", fields !! "s", fields !! "i" with
  | Some r, Some saltB64, Some iStr =>
      match std_b64_decode saltB64, ParseInt iStr with
      | Some salt, Some iter => Ok (r, salt, iter)
      | _, _ => Err ErrSCRAMMalformedMessage
      end
  | _, _, _ => Err ErrSCRAMMalformedMessage
  end.

Definition parseSCRAMServerFinal (s : string) : res scram_error string :=
  let fields := splitSCRAMFields s in
  match fields !! "e", fields !! "v" with
  | Some _, _ => Err ErrSCRAMServerSignature
  | None, Some v => Ok v
  | None, None => Err ErrSCRAMMalformedMessage
  end.

Definition xorBytes (a b : bytes) : res scram_error bytes :=
  if (length b <? length a)%nat then Panic else Ok (zip_with Z.lxor a b).

Fixpoint pickSCRAMMechanism (offered : list string) : string :=
  match offered with
  | [] => ""
  | m :: offered => if String.eqb m scramMechanism then m else pickSCRAMMechanism offered
  end.

Section Scram.
Context {H : PgHashes}.

Definition hmacSHA256 (key msg : bytes) : bytes := hmac_sha256 key msg.
Definition sha256Sum (b : bytes) : bytes := sha256 b.

Definition auth_message (c : scramClient) : string := sc_clientFirstBare c ++ "," ++ sc_serverFirstMessage c ++ "," ++ sc_clientFinalNoProof c.

(** The client with what it keeps for the signature, and the message with the proof.
    On an error the client is not used again. *)
Definition finalMessage (c : scramClient) (serverFirst : bytes) : res scram_error (scramClient * bytes) :=
  let first := bytes_str serverFirst in
  let! ' (r, iter) := parseSCRAMServerFirst first in
  let '(combinedNonce, salt) := r in
  guard! HasPrefix combinedNonce (sc_clientNonce c) else ErrSCRAMServerNonceMismatch in
  let salted := pbkdf2_sha256 (str_bytes (sc_password c)) salt iter in
  let clientKey := hmacSHA256 salted (str_bytes "Client Key") in
  let storedKey := sha256Sum clientKey in
  let noProof := "c=" ++ scramCBindB64 ++ ",r=" ++ combinedNonce in
  let c := {| sc_password := sc_password c; sc_clientNonce := sc_clientNonce c; sc_clientFirstBare := sc_clientFirstBare c;
              sc_serverFirstMessage := first; sc_clientFinalNoProof := noProof; sc_saltedPassword := salted |} in
  let clientSignature := hmacSHA256 storedKey (str_bytes (auth_message c)) in
  let! clientProof := xorBytes clientKey clientSignature in
  Ok (c, str_bytes (noProof ++ ",p=" ++ b64 clientProof)).

Definition verifyServerFinal (c : scramClient) (serverFinal : bytes) : res scram_error unit :=
  let! v := parseSCRAMServerFinal (bytes_str serverFinal) in
  let serverKey := hmacSHA256 (sc_saltedPassword c) (str_bytes "Server Key") in
  let expected := hmacSHA256 serverKey (str_bytes (auth_message c)) in
  match std_b64_decode v with
  | None => Err ErrSCRAMMalformedMessage
  | Some got => guard! bool_decide (got = expected) else ErrSCRAMServerSignature in Ok tt
  end.

(** ** The MD5 answer *)

Definition computeMD5Password (password username : string) (salt : bytes) : string :=
  let sum1 := hex_string (md5_sum (str_bytes password ++ str_bytes username)%list) in
  "md5" ++ hex_string (md5_sum (str_bytes sum1 ++ salt)%list).
End Scram.

(** ** TLS *)

Inductive tls_error := ErrSSLIO | ErrTLSHandshake | ErrUpstreamTLSRequired | ErrUpstreamSSLResponse.

(** [Tls None] encrypts without checking the certificate, [Tls (Some host)] checks the
    chain and the name. *)
Inductive channel := Plain | Tls (verify : option string).

(** What the other end does: the byte it answers a probe with, and the handshakes that succeed. *)
Record Peer := { pr_answer : option Z; pr_handshake : option string -> bool }.

Definition upstreamSSLRequest : bytes := (be_put 4 8 ++ be_put 4 80877103)%list.

Definition upstreamTLSRequired (mode : string) : bool := existsb (String.eqb mode) ["require"; "verify-ca"; "verify-full"].

Definition upstreamTLSConfig (host mode : string) : option string :=
  if existsb (String.eqb mode) ["verify-ca"; "verify-full"] then Some host else None.

(** What was written, and the channel. *)
Definition negotiateUpstreamSSL (p : Peer) (host mode : string) : bytes * res tls_error channel :=
  if String.eqb mode "disable" then ([], Ok Plain)
  else
    (upstreamSSLRequest,
     match pr_answer p with
     | None => Err ErrSSLIO
     | Some b =>
         if b =? 83 then
           let cfg := upstreamTLSConfig host mode in if pr_handshake p cfg then Ok (Tls cfg) else Err ErrTLSHandshake
         else if b =? 78 then if upstreamTLSRequired mode then Err ErrUpstreamTLSRequired else Ok Plain
         else Err ErrUpstreamSSLResponse
     end).

(** ** The server's side, after RFC 5802 and RFC 7677 *)

Module Rfc5802.
Section Server.
Context {H : PgHashes}.

(** What a server keeps for a user instead of the password. *)
Record Stored := { st_salt : bytes; st_iter : Z; st_storedKey : bytes; st_serverKey : bytes }.

Definition store (password : string) (salt : bytes) (iter : Z) : Stored :=
  let salted := pbkdf2_sha256 (str_bytes password) salt iter in
  {| st_salt := salt; st_iter := iter; st_storedKey := sha256 (hmac_sha256 salted (str_bytes "Client Key"));
     st_serverKey := hmac_sha256 salted (str_bytes "Server Key") |}.

Definition server_first (st : Stored) (clientFirst nonce : string) : option string :=
  match scan_lit "n,,n=,r=" clientFirst with
  | Some clientNonce => Some ("r=" ++ clientNonce ++ nonce ++ ",s=" ++ b64 (st_salt st) ++ ",i=" ++ FormatInt (st_iter st))
  | None => None
  end.

(** The signature, when channel binding, nonce and proof are right. *)
Definition server_final (st : Stored) (clientFirst nonce serverFirst clientFinal : string) : option string :=
  match scan_lit "n,," clientFirst, scan_lit "n,,n=,r=" clientFirst, Split clientFinal "," with
  | Some bare, Some clientNonce, [c; r; p] =>
      match scan_lit "p=" p with
      | None => None
      | Some p =>
          match std_b64_decode p with
          | None => None
          | Some proof =>
              let auth := str_bytes (bare ++ "," ++ serverFirst ++ "," ++ c ++ "," ++ r) in
              let clientKey := zip_with Z.lxor proof (hmac_sha256 (st_storedKey st) auth) in
              if String.eqb c "c=biws" && String.eqb r ("r=" ++ clientNonce ++ nonce) && bool_decide (sha256 clientKey = st_storedKey st)
              then Some ("v=" ++ b64 (hmac_sha256 (st_serverKey st) auth)) else None
          end
      end
  | _, _, _ => None
  end.
End Server.
End Rfc5802.

(** * Theorems *)

(** ** Base64 with padding *)

Fixpoint b64_pad (b : bytes) : string :=
  match b with _ :: _ :: _ :: b => b64_pad b | [_; _] => "=" | [_] => "==" | [] => "" end.

Lemma b64_raw b : b64 b = raw_b64 b ++ b64_pad b.
Proof. induction b as [|x|x y|x y z b IH] using triple_ind; [done..|]. cbn [b64 raw_b64 b64_pad String.append]. by rewrite IH. Qed.

Lemma b64_quartets b : slen (b64 b) mod 4 = 0.
Proof.
  induction b as [|x|x y|x y z b IH] using triple_ind; [done..|]. cbn [b64]. unfold slen in *. cbn [String.length].
  rewrite !Nat2Z.inj_succ. rewrite <- (Z_mod_plus_full _ 1 4) in IH. rewrite <- IH. f_equal. lia.
Qed.

Lemma b64_pad_cases b : b64_pad b = "" \/ b64_pad b = "=" \/ b64_pad b = "==".
Proof. induction b as [|x|x y|x y z b IH] using triple_ind; cbn [b64_pad]; auto. Qed.

(** Neither a break nor a comma. *)
Definition no_comma (c : ascii) : bool := negb (Ascii.eqb c ",").

Lemma remove_breaks_plain s : all_chars (fun c => negb (code c =? 10) && negb (code c =? 13)) s = true -> remove_breaks s = s.
Proof.
  induction s as [|c s IH]; [done|]. cbn [all_chars remove_breaks]. intros [[H1 H2]%andb_true_iff H]%andb_true_iff.
  apply negb_true_iff in H1, H2. rewrite H1, H2. cbn [orb]. by rewrite IH.
Qed.

Lemma cut_padding_app a p : all_chars (fun c => negb (Ascii.eqb c "=")) a = true -> (p = "" \/ p = "=" \/ p = "==") -> cut_padding (a ++ p) = (a, p).
Proof.
  intros Ha Hp. induction a as [|c a IH]; [by destruct Hp as [->|[->| ->]]|].
  cbn [all_chars String.append cut_padding] in *. apply andb_true_iff in Ha as [Hc Ha]. apply negb_true_iff in Hc. by rewrite Hc, IH.
Qed.

Lemma b64_chars b : wf_bytes b -> all_chars (fun c => negb (code c =? 10) && negb (code c =? 13)) (b64 b) = true /\ all_chars no_comma (b64 b) = true.
Proof.
  intros Hb. rewrite b64_raw, !all_chars_app. pose proof (raw_b64_plain b Hb) as Hr.
  split; apply andb_true_iff; split; try (destruct (b64_pad_cases b) as [->|[->| ->]]; reflexivity);
    (eapply all_chars_imp; [|exact Hr]); intros c; unfold b64_plain, no_comma; rewrite !andb_true_iff; naive_solver.
Qed.

Lemma std_b64_back b : wf_bytes b -> std_b64_decode (b64 b) = Some b.
Proof.
  intros Hb. unfold std_b64_decode. rewrite remove_breaks_plain by (by apply b64_chars).
  rewrite b64_quartets. rewrite b64_raw, cut_padding_app; [|eapply all_chars_imp; [|by apply raw_b64_plain]|apply b64_pad_cases].
  - rewrite raw_b64_decode_encode by done. by destruct (b64_pad_cases b) as [->|[->| ->]].
  - intros c. unfold b64_plain. rewrite !andb_true_iff. naive_solver.
Qed.

(** ** Fields *)

Lemma split_cons a r : all_chars no_comma a = true -> Split (a ++ String "," r) "," = a :: Split r ",".
Proof. intros Ha. unfold Split. by rewrite split_on_app. Qed.
Lemma split_last a : all_chars no_comma a = true -> Split a "," = [a].
Proof. intros Ha. unfold Split. by rewrite split_on_end. Qed.

Lemma digit_no_comma s : all_chars is_digit s = true -> all_chars no_comma s = true.
Proof.
  apply all_chars_imp. intros c Hc. unfold no_comma. destruct (Ascii.eqb_spec c ",") as [->|]; [|done]. by vm_compute in Hc.
Qed.

(** ** The exchange *)

Section Exchange.
Context {H : PgHashes}.

(** What the client reads in the server's first message. *)
Lemma server_first_read r salt iter : all_chars no_comma r = true -> wf_bytes salt -> 0 <= iter < 2 ^ 63 ->
  parseSCRAMServerFirst ("r=" ++ r ++ ",s=" ++ b64 salt ++ ",i=" ++ FormatInt iter) = Ok (r, salt, iter).
Proof.
  intros Hr Hs Hi. unfold parseSCRAMServerFirst, splitSCRAMFields.
  assert (Split ("r=" ++ r ++ ",s=" ++ b64 salt ++ ",i=" ++ FormatInt iter) "," = ["r=" ++ r; "s=" ++ b64 salt; "i=" ++ FormatInt iter]) as ->.
  { change ("r=" ++ r ++ ",s=" ++ b64 salt ++ ",i=" ++ FormatInt iter)
      with ("r=" ++ r ++ String "," ("s=" ++ b64 salt ++ String "," ("i=" ++ FormatInt iter))).
    rewrite <- (sapp_assoc "r=" r), split_cons by (by rewrite all_chars_app, Hr).
    rewrite <- (sapp_assoc "s=" (b64 salt)), split_cons by (rewrite all_chars_app; apply b64_chars in Hs as [_ ->]; done).
    rewrite split_last; [done|]. rewrite all_chars_app. rewrite (digit_no_comma (FormatInt iter)); [done|]. apply FormatInt_digits; lia. }
  cbn [fold_left]. unfold add_field. cbn [cut_eq String.append Ascii.eqb Bool.eqb String.eqb].
  rewrite lookup_insert_ne, lookup_insert_ne, lookup_insert_eq by done. rewrite lookup_insert_ne, lookup_insert_eq by done. rewrite lookup_insert_eq.
  rewrite std_b64_back by done. unfold ParseInt.
  destruct (FormatInt_head iter) as (c & t & E & Hc); [lia|]. pose proof (parse_FormatInt iter ltac:(lia)) as Hp. rewrite E in *.
  assert (c <> "-"%char /\ c <> "+"%char) as [H1 H2] by (split; intros ->; by vm_compute in Hc).
  assert (match String c t with String "-" r0 => (true, r0) | String "+" r0 => (false, r0) | _ => (false, String c t) end = (false, String c t)) as ->
    by (destruct c as [[] [] [] [] [] [] [] []]; try done; by (exfalso; apply H1 || apply H2)).
  rewrite Hp. by replace ((- 2 ^ 63 <=? iter) && (iter <? 2 ^ 63)) with true by (symmetry; blia).
Qed.
(** What the final message of the client is made of. *)
Lemma finalMessage_Ok c serverFirst r salt iter :
  parseSCRAMServerFirst (bytes_str serverFirst) = Ok (r, salt, iter) -> HasPrefix r (sc_clientNonce c) = true ->
  let salted := pbkdf2_sha256 (str_bytes (sc_password c)) salt iter in
  let clientKey := hmac_sha256 salted (str_bytes "Client Key") in
  let c' := {| sc_password := sc_password c; sc_clientNonce := sc_clientNonce c; sc_clientFirstBare := sc_clientFirstBare c;
               sc_serverFirstMessage := bytes_str serverFirst; sc_clientFinalNoProof := "c=biws,r=" ++ r; sc_saltedPassword := salted |} in
  let proof := zip_with Z.lxor clientKey (hmac_sha256 (sha256 clientKey) (str_bytes (auth_message c'))) in
  finalMessage c serverFirst = Ok (c', str_bytes ("c=biws,r=" ++ r ++ ",p=" ++ b64 proof))
  /\ wf_bytes proof /\ zip_with Z.lxor proof (hmac_sha256 (sha256 clientKey) (str_bytes (auth_message c'))) = clientKey.
Proof.
  intros Hp Hn salted clientKey c' proof. destruct (hmac256_out salted (str_bytes "Client Key")) as [Hw Hl].
  destruct (hmac256_out (sha256 clientKey) (str_bytes (auth_message c'))) as [Hw' Hl'].
  split_and!; [|by apply wf_zip_lxor|apply zip_lxor_cancel; by rewrite Hl'].
  unfold finalMessage. rewrite Hp. cbn [rbind]. rewrite Hn. unfold xorBytes, hmacSHA256, sha256Sum, scramCBindB64.
  change ("c=" ++ "biws" ++ ",r=" ++ r) with ("c=biws,r=" ++ r). fold salted clientKey c'.
  rewrite (proj2 (Nat.ltb_ge _ _)) by (rewrite Hl'; unfold clientKey; rewrite Hl; lia). cbn [rbind]. fold proof. by rewrite sapp_assoc.
Qed.

Definition expected_signature (c : scramClient) : bytes :=
  hmac_sha256 (hmac_sha256 (sc_saltedPassword c) (str_bytes "Server Key")) (str_bytes (auth_message c)).

Lemma signature_verdict c signature :
  wf_bytes signature ->
  verifyServerFinal c (str_bytes ("v=" ++ b64 signature)) =
  if bool_decide (signature = expected_signature c) then Ok tt else Err ErrSCRAMServerSignature.
Proof.
  intros Hw. unfold verifyServerFinal, parseSCRAMServerFinal, splitSCRAMFields. rewrite bytes_str_bytes.
  rewrite split_last by (rewrite all_chars_app; apply b64_chars in Hw as [_ ->]; done). cbn [fold_left]. unfold add_field.
  cbn [cut_eq String.append Ascii.eqb Bool.eqb String.eqb]. rewrite lookup_insert_ne, lookup_empty, lookup_insert_eq by done. cbn [rbind].
  by rewrite std_b64_back by done.
Qed.

Lemma verify_signature c signature :
  wf_bytes signature -> signature = expected_signature c -> verifyServerFinal c (str_bytes ("v=" ++ b64 signature)) = Ok tt.
Proof. intros Hw E. rewrite signature_verdict by done. by rewrite bool_decide_eq_true_2. Qed.

(** What a server that keeps the stored form answers is a signature. *)
Lemma server_final_signature st clientFirst nonce serverFirst clientFinal sfinal :
  Rfc5802.server_final st clientFirst nonce serverFirst clientFinal = Some sfinal -> exists sig, wf_bytes sig /\ sfinal = "v=" ++ b64 sig.
Proof.
  unfold Rfc5802.server_final. intros Hf. repeat (case_match; try done). simplify_eq.
  eexists. split; [|done]. apply hmac256_out.
Qed.

(** Only one signature is accepted. *)
Lemma forged_signature c sfinal sig :
  (exists sig, wf_bytes sig /\ sfinal = "v=" ++ b64 sig) -> verifyServerFinal c (str_bytes sfinal) = Ok tt ->
  wf_bytes sig -> "v=" ++ b64 sig <> sfinal -> verifyServerFinal c (str_bytes ("v=" ++ b64 sig)) = Err ErrSCRAMServerSignature.
Proof.
  intros (good & Hw & ->) Hv Hs Hne. rewrite signature_verdict in Hv by done. rewrite signature_verdict by done.
  destruct (bool_decide (good = _)) eqn:E; [|done]. apply bool_decide_eq_true in E. rewrite bool_decide_eq_false_2; [done|congruence].
Qed.

(** The proxy and a server that keeps the stored form of the password accept each
    other: for any nonces, salt and iteration count the server finds the proof right and
    the proxy the signature. *)
Theorem scram_mutual password salt iter nonce serverNonce :
  wf_bytes nonce -> wf_bytes salt -> 0 <= iter < 2 ^ 63 -> all_chars no_comma serverNonce = true ->
  exists c, newSCRAMClient (Some nonce) password = Ok c /\
  let '(c1, first) := firstMessage c in
  let st := Rfc5802.store password salt iter in
  exists sfirst c2 final sfinal,
    Rfc5802.server_first st (bytes_str first) serverNonce = Some sfirst
    /\ finalMessage c1 (str_bytes sfirst) = Ok (c2, final)
    /\ Rfc5802.server_final st (bytes_str first) serverNonce sfirst (bytes_str final) = Some sfinal
    /\ verifyServerFinal c2 (str_bytes sfinal) = Ok tt.
Proof.
  intros Hn Hs Hi Hsn. eexists. split; [done|]. cbn [firstMessage sc_clientNonce]. rewrite bytes_str_bytes.
  set (c1 := {| sc_password := _ |}). set (combined := b64 nonce ++ serverNonce).
  set (sfirst := "r=" ++ combined ++ ",s=" ++ b64 salt ++ ",i=" ++ FormatInt iter).
  assert (all_chars no_comma combined = true) as Hc by (unfold combined; rewrite all_chars_app; apply b64_chars in Hn as [_ ->]; done).
  destruct (finalMessage_Ok c1 (str_bytes sfirst) combined salt iter) as (Hf & Hw & Hback);
    [rewrite bytes_str_bytes; by apply server_first_read|apply HasPrefix_self|].
  rewrite bytes_str_bytes in Hf, Hw, Hback.
  set (c2 := {| sc_password := sc_password c1 |}) in *. cbn [sc_password c1] in Hf, Hw, Hback.
  set (proof := zip_with Z.lxor _ _) in Hf, Hw, Hback.
  assert (Rfc5802.server_first (Rfc5802.store password salt iter) ("n,," ++ "n=,r=" ++ b64 nonce) serverNonce = Some sfirst) as H1.
  { unfold Rfc5802.server_first. change ("n,," ++ "n=,r=" ++ b64 nonce) with ("n,,n=,r=" ++ b64 nonce). rewrite scan_lit_app.
    unfold sfirst, combined. by rewrite !sapp_assoc. }
  eexists sfirst, c2, _, _. split_and!; [exact H1|exact Hf| |].
  - unfold Rfc5802.server_final. rewrite bytes_str_bytes. change (scramGS2HeaderNoBinding ++ "n=,r=" ++ b64 nonce) with ("n,," ++ ("n=,r=" ++ b64 nonce)).
    rewrite scan_lit_app. change ("n,," ++ "n=,r=" ++ b64 nonce) with ("n,,n=,r=" ++ b64 nonce). rewrite scan_lit_app.
    change ("c=biws,r=" ++ combined ++ ",p=" ++ b64 proof) with ("c=biws" ++ String "," ("r=" ++ combined ++ String "," ("p=" ++ b64 proof))).
    rewrite split_cons by done. rewrite <- (sapp_assoc "r=" combined), split_cons by (rewrite all_chars_app, Hc; done).
    rewrite split_last by (rewrite all_chars_app; apply b64_chars in Hw as [_ ->]; done).
    rewrite scan_lit_app, std_b64_back by done.
    change (str_bytes (("n=,r=" ++ b64 nonce) ++ "," ++ sfirst ++ "," ++ "c=biws" ++ "," ++ "r=" ++ combined)) with (str_bytes (auth_message c2)).
    cbn [Rfc5802.store Rfc5802.st_storedKey Rfc5802.st_serverKey]. rewrite Hback. rewrite bool_decide_eq_true_2 by done.
    rewrite !String.eqb_refl. reflexivity.
  - apply verify_signature; [apply hmac256_out|reflexivity].
Qed.
(** A server whose final message the proxy accepts, after the proxy's proof, has
    signed this exchange under the server key of the stored password: the signature
    covers the proxy's own nonce and the salt and count the proof was made with. *)
Theorem scram_server_proves c serverFirst serverFinal c' final :
  finalMessage c serverFirst = Ok (c', final) -> verifyServerFinal c' serverFinal = Ok tt ->
  exists nonce salt iter v,
    parseSCRAMServerFirst (bytes_str serverFirst) = Ok (nonce, salt, iter) /\ HasPrefix nonce (sc_clientNonce c) = true
    /\ parseSCRAMServerFinal (bytes_str serverFinal) = Ok v
    /\ std_b64_decode v = Some (hmac_sha256 (hmac_sha256 (pbkdf2_sha256 (str_bytes (sc_password c)) salt iter) (str_bytes "Server Key"))
                                 (str_bytes (sc_clientFirstBare c ++ "," ++ bytes_str serverFirst ++ ",c=biws,r=" ++ nonce))).
Proof.
  intros Hf Hv. destruct (parseSCRAMServerFirst (bytes_str serverFirst)) as [[[r salt] iter]| |] eqn:Hp;
    [|by (unfold finalMessage in Hf; rewrite Hp in Hf)..].
  destruct (HasPrefix r (sc_clientNonce c)) eqn:Hn; [|unfold finalMessage in Hf; rewrite Hp in Hf; cbn [rbind] in Hf; by rewrite Hn in Hf].
  destruct (finalMessage_Ok c serverFirst r salt iter Hp Hn) as [E _]. rewrite E in Hf. injection Hf as <- _.
  revert Hv. unfold verifyServerFinal. destruct (parseSCRAMServerFinal _) as [v| |] eqn:Ev; cbn [rbind]; [|done..].
  destruct (std_b64_decode v) as [got|] eqn:Ed; [|done]. case_bool_decide as Hg; [|done]. intros _.
  exists r, salt, iter, v. split_and!; [done..|]. rewrite Ed, Hg. reflexivity.
Qed.

(** Asked too early, the check proves nothing: between its first message and its
    proof the client holds no salted password, and a signature under the empty key
    passes that anybody who saw the first message can compute. *)
Theorem scram_signature_before_proof nonce password c :
  newSCRAMClient (Some nonce) password = Ok c ->
  let '(c1, first) := firstMessage c in
  let forged := "v=" ++ b64 (hmac_sha256 (hmac_sha256 [] (str_bytes "Server Key")) (drop 3 first ++ str_bytes ",,")) in
  verifyServerFinal c1 (str_bytes forged) = Ok tt.
Proof.
  intros [= <-]. cbn [firstMessage sc_clientNonce]. apply verify_signature; [apply hmac256_out|].
  change (drop 3 (str_bytes (scramGS2HeaderNoBinding ++ "n=,r=" ++ b64 nonce))) with (str_bytes ("n=,r=" ++ b64 nonce)).
  by rewrite <- str_bytes_app.
Qed.
End Exchange.

(** ** TLS *)

(** The channel the proxy goes on with is as strong as the configured mode asks: TLS
    for require, TLS with the certificate checked for the host for both verify modes,
    whatever the other end answers. *)
Theorem channel_respects_mode p host mode :
  match (negotiateUpstreamSSL p host mode).2 with
  | Ok Plain => upstreamTLSRequired mode = false
  | Ok (Tls verify) => mode <> "disable" /\ ((mode = "verify-ca" \/ mode = "verify-full") <-> verify = Some host) /\ pr_handshake p verify = true
  | Err _ => mode <> "disable"
  | Panic => False
  end.
Proof.
  unfold negotiateUpstreamSSL. destruct (String.eqb_spec mode "disable") as [->|Hd]; [done|]. cbn [snd].
  destruct (pr_answer p) as [b|]; [|done]. destruct (b =? 83).
  - destruct (pr_handshake p (upstreamTLSConfig host mode)) eqn:Eh; [|done]. split_and!; [done| |done].
    unfold upstreamTLSConfig. cbn [existsb]. destruct (String.eqb_spec mode "verify-ca") as [->|H1]; [by cbn; split; auto|].
    destruct (String.eqb_spec mode "verify-full") as [->|H2]; [by cbn; split; auto|]. cbn. split; [naive_solver|done].
  - destruct (b =? 78); [|done]. by destruct (upstreamTLSRequired mode) eqn:E.
Qed.

(** ** A run of the exchange *)

Module SampleScram.
Definition mix (k m : bytes) : bytes :=
  let digest := foldr (fun x a => (x * x + 7 * a + 13 * x * a + 1) mod 65521) (zlen k) (k ++ m)%list in
  map (fun i => (digest / (i + 1) + i * digest) mod 256) (seqZ 0 32).

Program Definition toy_pg : PgHashes :=
  {| sha256 m := mix [1] m; hmac_sha256 k m := mix k m; pbkdf2_sha256 p s i := mix (p ++ [i]) s; md5_sum m := take 16 (mix [2] m) |}.
Next Obligation.
  intros k m. split; [|unfold mix; by rewrite length_map]. unfold mix. apply Forall_forall. intros x Hx.
  apply list_elem_of_fmap in Hx as (i & -> & _). unfold is_byte. apply Z.mod_pos_bound. lia.
Qed.
Next Obligation. intros m. unfold mix. by rewrite length_take, length_map. Qed.
#[export] Existing Instance toy_pg.

Definition nonce : bytes := map Z.of_nat (seq 10 18).
Definition salt : bytes := [1; 2; 3; 4; 5; 6; 7; 8; 9; 10; 11; 12; 13; 14; 15; 16].
End SampleScram.

Import SampleScram.

Lemma scram_mutual_witness : exists c, newSCRAMClient (Some nonce) "secret" = Ok c /\
  let '(c1, first) := firstMessage c in
  let st := Rfc5802.store "secret" salt 4096 in
  exists sfirst c2 final sfinal,
    Rfc5802.server_first st (bytes_str first) "srv" = Some sfirst
    /\ finalMessage c1 (str_bytes sfirst) = Ok (c2, final)
    /\ Rfc5802.server_final st (bytes_str first) "srv" sfirst (bytes_str final) = Some sfinal
    /\ verifyServerFinal c2 (str_bytes sfinal) = Ok tt.
Proof. apply (scram_mutual "secret" salt 4096 nonce "srv"); [by apply wf_bytes_check..|lia|reflexivity]. Defined.

(** A server with another password refuses the proof. *)
Example wrong_password_refused :
  match newSCRAMClient (Some nonce) "secret" with
  | Ok c =>
      let '(c1, first) := firstMessage c in
      let st := Rfc5802.store "public" salt 4096 in
      match Rfc5802.server_first st (bytes_str first) "srv" with
      | Some sfirst => match finalMessage c1 (str_bytes sfirst) with
                       | Ok (_, final) => Rfc5802.server_final st (bytes_str first) "srv" sfirst (bytes_str final)
                       | _ => Some ""
                       end
      | None => Some ""
      end
  | _ => Some ""
  end = None.
Proof. vm_compute. reflexivity. Qed.

Definition sample_client : scramClient := match newSCRAMClient (Some nonce) "secret" with Ok c => (firstMessage c).1 | _ => {| sc_password := ""; sc_clientNonce := ""; sc_clientFirstBare := ""; sc_serverFirstMessage := ""; sc_clientFinalNoProof := ""; sc_saltedPassword := [] |} end.
Definition sample_first : bytes := str_bytes ("r=" ++ b64 nonce ++ "srv,s=" ++ b64 salt ++ ",i=4096").

Lemma scram_server_proves_witness : exists c' final serverFinal nonce' salt' iter v,
  finalMessage sample_client sample_first = Ok (c', final) /\ verifyServerFinal c' serverFinal = Ok tt
  /\ parseSCRAMServerFirst (bytes_str sample_first) = Ok (nonce', salt', iter) /\ parseSCRAMServerFinal (bytes_str serverFinal) = Ok v.
Proof.
  destruct (finalMessage sample_client sample_first) as [[c' final]| |] eqn:E; [|vm_compute in E; discriminate..].
  pose (serverFinal := str_bytes ("v=" ++ b64 (hmac_sha256 (hmac_sha256 (sc_saltedPassword c') (str_bytes "Server Key")) (str_bytes (auth_message c'))))).
  assert (verifyServerFinal c' serverFinal = Ok tt) as Hv by (apply verify_signature; [apply hmac256_out|reflexivity]).
  destruct (scram_server_proves sample_client sample_first serverFinal c' final E Hv) as (nonce' & salt' & iter & v & H1 & _ & H2 & _).
  by exists c', final, serverFinal, nonce', salt', iter, v.
Defined.

Lemma scram_signature_before_proof_witness : exists c, newSCRAMClient (Some nonce) "secret" = Ok c /\
  let '(c1, first) := firstMessage c in
  verifyServerFinal c1 (str_bytes ("v=" ++ b64 (hmac_sha256 (hmac_sha256 [] (str_bytes "Server Key")) (drop 3 first ++ str_bytes ",,")))) = Ok tt.
Proof. eexists. split; [reflexivity|]. apply (scram_signature_before_proof nonce "secret"). reflexivity. Defined.
