(* ===== verification/PgUpstream.v ===== *)
(** * The upstream connection of a PostgreSQL session
    ([internal/proxy/postgresql/upstream.go])

    The proxy decrypts the stored password, dials, negotiates TLS, sends its
    StartupMessage and answers what the server asks for until ReadyForQuery; only
    then is the client told that it is authenticated.  The messages of the server are
    an argument, in the order they arrive on the channel that was negotiated; so are
    the writes that succeed and what is drawn for the nonces.  The messages are those
    of [pgproto3]; the one it returns is overwritten by the next [Receive]. *)

From Stdlib Require Import ZArith Lia List Bool String Ascii.
From stdpp Require Import base list gmap strings.
From S2P Require Import Prelude GoStrings Encoding Models Limits AuthCache GrantStore Crypto Accounts ApiKeys Servers OracleValues PgScram.

Open Scope string_scope.
Open Scope Z_scope.

(** ** Messages *)

Inductive backend_msg :=
| AuthenticationOk
| AuthenticationCleartextPassword
| AuthenticationMD5Password (salt : bytes)
| AuthenticationSASL (mechanisms : list string)
| AuthenticationSASLContinue (data : bytes)
| AuthenticationSASLFinal (data : bytes)
| ParameterStatus (name value : string)
| BackendKeyData (processID : Z) (secretKey : bytes)
| ReadyForQuery (txStatus : Z)
| ErrorResponse (message : string)
| CommandComplete (tag : string)
| OtherMessage (tag : Z).

Inductive frontend_msg :=
| StartupMessage (parameters : list (string * string))
| PasswordMessage (password : string)
| SASLInitialResponse (mechanism : string) (data : bytes)
| SASLResponse (data : bytes)
| QueryMessage (sql : string).

Inductive act := ToUpstream (m : frontend_msg) | ToClient (m : backend_msg).

Inductive upstream_error :=
| UpDecrypt (e : server_error)
| UpDial
| UpTLS (e : tls_error)
| UpSend
| UpReceive
| UpSCRAM (e : scram_error)
| ErrUpstreamAuthFailed (message : string)
| ErrUpstreamReadOnlyMode.

(** The fields of the session the login uses, and what was written so far. *)
Record UpState := {
  up_scram : option scramClient;
  up_params : list (string * string);
  up_key : option (Z * bytes);
  up_log : list act
}.

Definition with_scram (s : UpState) (c : option scramClient) : UpState :=
  {| up_scram := c; up_params := up_params s; up_key := up_key s; up_log := up_log s |}.
Definition with_buffers (s : UpState) (ps : list (string * string)) (k : option (Z * bytes)) : UpState :=
  {| up_scram := up_scram s; up_params := ps; up_key := k; up_log := up_log s |}.
Definition logged (s : UpState) (a : act) : UpState :=
  {| up_scram := up_scram s; up_params := up_params s; up_key := up_key s; up_log := (up_log s ++ [a])%list |}.

Definition maxAppNameLen : Z := 63.
Definition buildApplicationName (version username clientAppName : string) : option string :=
  BuildUpstreamName version username clientAppName maxAppNameLen.

Definition read_only_sql : string := "SET SESSION default_transaction_read_only = on;".

(** [setSessionReadOnly] after its query: what is left, and the status of the last message. *)
Fixpoint read_only_reply (msgs : list backend_msg) : list backend_msg * res upstream_error Z :=
  match msgs with
  | [] => ([], Err UpReceive)
  | ReadyForQuery tx :: msgs => (msgs, Ok tx)
  | ErrorResponse _ :: msgs => (msgs, Err ErrUpstreamReadOnlyMode)
  | _ :: msgs => read_only_reply msgs
  end.

Section Upstream.
Context {H : PgHashes}.

(** [w n]: whether a write succeeds after [n] others; [rnd n]: what the random source gives then. *)
Variables (w : nat -> bool) (rnd : nat -> option bytes).
(** The stored login, and whether the grant is read-only. *)
Variables (password username : string) (readOnly : bool).

(** [sendToUpstream] and [sendToClient]. *)
Definition send (s : UpState) (a : act) : UpState * bool := if w (length (up_log s)) then (logged s a, true) else (s, false).

Fixpoint send_all (s : UpState) (l : list act) : UpState * bool :=
  match l with
  | [] => (s, true)
  | a :: l => let '(s, ok) := send s a in if ok then send_all s l else (s, false)
  end.

Definition answer (s : UpState) (m : frontend_msg) : UpState * res upstream_error unit :=
  let '(s, ok) := send s (ToUpstream m) in (s, if ok then Ok tt else Err UpSend).

Definition scram_result {A} (r : res scram_error A) : res upstream_error A :=
  match r with Ok a => Ok a | Err e => Err (UpSCRAM e) | Panic => Panic end.

Definition beginUpstreamSCRAM (s : UpState) (mechanisms : list string) : UpState * res upstream_error unit :=
  let mech := pickSCRAMMechanism mechanisms in
  if String.eqb mech "" then (s, Err (UpSCRAM ErrSCRAMNoSupportedMechanism))
  else
    match newSCRAMClient (rnd (length (up_log s))) password with
    | Ok client => let '(client, data) := firstMessage client in answer (with_scram s (Some client)) (SASLInitialResponse mech data)
    | Err e => (s, Err (UpSCRAM e))
    | Panic => (s, Panic)
    end.

Definition continueUpstreamSCRAM (s : UpState) (data : bytes) : UpState * res upstream_error unit :=
  match up_scram s with
  | None => (s, Err (UpSCRAM ErrSCRAMUnexpectedMessage))
  | Some client =>
      match finalMessage client data with
      | Ok (client, final) => answer (with_scram s (Some client)) (SASLResponse final)
      | Err e => (s, Err (UpSCRAM e))
      | Panic => (s, Panic)
      end
  end.

Definition finalizeUpstreamSCRAM (s : UpState) (data : bytes) : UpState * res upstream_error unit :=
  match up_scram s with
  | None => (s, Err (UpSCRAM ErrSCRAMUnexpectedMessage))
  | Some client =>
      match verifyServerFinal client data with
      | Ok _ => (with_scram s None, Ok tt)
      | Err e => (s, Err (UpSCRAM e))
      | Panic => (s, Panic)
      end
  end.

Definition setSessionReadOnly (s : UpState) (msgs : list backend_msg) : UpState * list backend_msg * res upstream_error Z :=
  let '(s, ok) := send s (ToUpstream (QueryMessage read_only_sql)) in
  if ok then let '(msgs, r) := read_only_reply msgs in (s, msgs, r) else (s, msgs, Err UpSend).

(** What the client is sent when the upstream is ready. *)
Definition greeting (s : UpState) (tx : Z) : list act :=
  (ToClient AuthenticationOk :: map (fun p => ToClient (ParameterStatus p.1 p.2)) (up_params s)
   ++ match up_key s with Some (pid, key) => [ToClient (BackendKeyData pid key)] | None => [] end
   ++ [ToClient (ReadyForQuery tx)])%list.

(** The buffers are empty once their messages are sent. *)
Definition greet (s : UpState) (tx : Z) : UpState * res upstream_error unit :=
  let '(s', ok) := send_all s (greeting s tx) in
  if ok then (with_buffers s' [] None, Ok tt) else (s', Err UpSend).

Definition on_ready (s : UpState) (tx : Z) (msgs : list backend_msg) : UpState * list backend_msg * res upstream_error unit :=
  if readOnly then
    let '(s, msgs, r) := setSessionReadOnly s msgs in
    match r with
    | Ok tx => let '(s, r) := greet s tx in (s, msgs, r)
    | Err e => (s, msgs, Err e)
    | Panic => (s, msgs, Panic)
    end
  else let '(s, r) := greet s tx in (s, msgs, r).

(** [processUpstreamAuthMessage] for a message that does not end the login. *)
Definition processUpstreamAuthMessage (s : UpState) (m : backend_msg) : UpState * res upstream_error unit :=
  match m with
  | AuthenticationCleartextPassword => answer s (PasswordMessage password)
  | AuthenticationMD5Password salt => answer s (PasswordMessage (computeMD5Password password username salt))
  | AuthenticationSASL mechanisms => beginUpstreamSCRAM s mechanisms
  | AuthenticationSASLContinue data => continueUpstreamSCRAM s data
  | AuthenticationSASLFinal data => finalizeUpstreamSCRAM s data
  | ParameterStatus name value => (with_buffers s (up_params s ++ [(name, value)])%list (up_key s), Ok tt)
  | BackendKeyData pid key => (with_buffers s (up_params s) (Some (pid, key)), Ok tt)
  | ErrorResponse message => ((send s (ToClient (ErrorResponse message))).1, Err (ErrUpstreamAuthFailed message))
  | AuthenticationOk | ReadyForQuery _ | CommandComplete _ | OtherMessage _ => (s, Ok tt)
  end.

(** Until ReadyForQuery; returns what was not read. *)
Fixpoint handleUpstreamAuth (msgs : list backend_msg) (s : UpState) : UpState * list backend_msg * res upstream_error unit :=
  match msgs with
  | [] => (s, [], Err UpReceive)
  | ReadyForQuery tx :: msgs => on_ready s tx msgs
  | m :: msgs =>
      let '(s, r) := processUpstreamAuthMessage s m in
      match r with
      | Ok _ => handleUpstreamAuth msgs s
      | Err e => (s, msgs, Err e)
      | Panic => (s, msgs, Panic)
      end
  end.

Definition sendStartupMessage (version databaseName sessionUser clientAppName : string) (s : UpState) : UpState * res upstream_error unit :=
  match buildApplicationName version sessionUser clientAppName with
  | None => (s, Panic)
  | Some app => answer s (StartupMessage [("user", username); ("database", databaseName); ("application_name", app)])
  end.
End Upstream.

(** ** Connecting *)

(** The server at the other end: the outcome of the dial, and its messages on a channel. *)
Record Net := { nt_peer : option Peer; nt_msgs : channel -> list backend_msg; nt_write : nat -> bool; nt_rnd : nat -> option bytes }.

Definition fresh_state : UpState := {| up_scram := None; up_params := []; up_key := None; up_log := [] |}.

Section Connect.
Context {H : PgHashes} {GCM : AEAD} {UT : UUIDText}.

(** The channel, what was written on it and to the client, the messages left to relay. *)
Definition connectUpstream (n : Net) (encryptionKey : bytes) (version : string) (db : Server) (grant : AccessGrant)
    (sessionUser clientAppName : string) : option channel * UpState * list backend_msg * res upstream_error Server :=
  match DecryptPassword db encryptionKey with
  | Panic => (None, fresh_state, [], Panic)
  | Err e => (None, fresh_state, [], Err (UpDecrypt e))
  | Ok db =>
      match nt_peer n with
      | None => (None, fresh_state, [], Err UpDial)
      | Some peer =>
          match (negotiateUpstreamSSL peer (d_Host db) (d_SSLMode db)).2 with
          | Panic => (None, fresh_state, [], Panic)
          | Err e => (None, fresh_state, [], Err (UpTLS e))
          | Ok ch =>
              let '(s, r) := sendStartupMessage (nt_write n) (d_Username db) version (d_DatabaseName db) sessionUser clientAppName fresh_state in
              match r with
              | Panic => (Some ch, s, nt_msgs n ch, Panic)
              | Err e => (Some ch, s, nt_msgs n ch, Err e)
              | Ok _ =>
                  let '(s, msgs, r) := handleUpstreamAuth (nt_write n) (nt_rnd n) (d_Password db) (d_Username db) (IsReadOnly grant) (nt_msgs n ch) s in
                  (Some ch, s, msgs, match r with Ok _ => Ok db | Err e => Err e | Panic => Panic end)
              end
          end
      end
  end.
End Connect.

(** * Theorems *)

(** ** What the client is told *)

Definition ends_login (m : backend_msg) : bool := match m with ReadyForQuery _ | ErrorResponse _ => true | _ => false end.
Definition params_of (msgs : list backend_msg) : list (string * string) :=
  flat_map (fun m => match m with ParameterStatus n v => [(n, v)] | _ => [] end) msgs.
(** The last key data, if any. *)
Definition key_of (msgs : list backend_msg) (k : option (Z * bytes)) : option (Z * bytes) :=
  fold_left (fun k m => match m with BackendKeyData pid key => Some (pid, key) | _ => k end) msgs k.

Definition key_message (k : option (Z * bytes)) : list backend_msg :=
  match k with Some (pid, key) => [BackendKeyData pid key] | None => [] end.

Section Greeting.
Context {H : PgHashes}.
Variables (w : nat -> bool) (rnd : nat -> option bytes) (password username : string) (readOnly : bool).

Lemma send_ok s a s' : send w s a = (s', true) -> s' = logged s a.
Proof. unfold send. destruct (w _); [by intros [= <-]|done]. Qed.

Lemma answer_ok s m s' : answer w s m = (s', Ok tt) -> s' = logged s (ToUpstream m).
Proof. unfold answer. destruct (send w s (ToUpstream m)) as [s1 [|]] eqn:E; [intros [= <-]; by apply send_ok|done]. Qed.

Lemma send_all_ok l : forall s s', send_all w s l = (s', true) ->
  up_log s' = (up_log s ++ l)%list /\ up_scram s' = up_scram s.
Proof.
  induction l as [|a l IH]; intros s s'; cbn [send_all]; [intros [= <-]; by rewrite app_nil_r|].
  destruct (send w s a) as [s1 [|]] eqn:E; [|done]. apply send_ok in E as ->. intros [-> ->]%IH. cbn. by rewrite <- app_assoc.
Qed.

(** A message that does not end the login is answered upstream or buffered. *)
Lemma process_ok s m s' : processUpstreamAuthMessage w rnd password username s m = (s', Ok tt) -> ends_login m = false ->
  (exists sent, up_log s' = (up_log s ++ map ToUpstream sent)%list)
  /\ up_params s' = (up_params s ++ params_of [m])%list /\ up_key s' = key_of [m] (up_key s).
Proof.
  assert (forall s0 m0 s1, answer w s0 m0 = (s1, Ok tt) -> up_log s0 = up_log s -> up_params s0 = up_params s -> up_key s0 = up_key s ->
    (exists sent, up_log s1 = (up_log s ++ map ToUpstream sent)%list) /\ up_params s1 = (up_params s ++ [])%list /\ up_key s1 = up_key s) as Ha.
  { intros s0 m0 s1 ->%answer_ok E1 E2 E3. cbn. rewrite E1, E2, E3, app_nil_r. split_and!; [by exists [m0]|done..]. }
  assert (forall s1, up_log s1 = up_log s -> up_params s1 = up_params s -> up_key s1 = up_key s ->
    (exists sent, up_log s1 = (up_log s ++ map ToUpstream sent)%list) /\ up_params s1 = (up_params s ++ [])%list /\ up_key s1 = up_key s) as Hq.
  { intros s1 -> -> ->. rewrite app_nil_r. split_and!; [exists []; by rewrite app_nil_r|done..]. }
  destruct m; cbn [processUpstreamAuthMessage ends_login]; intros E He; try done; cbn [params_of key_of flat_map fold_left app];
    try (by injection E as <-; apply Hq); try (by eapply Ha; [exact E|..]).
  - unfold beginUpstreamSCRAM in E. destruct (String.eqb _ ""); [done|]. destruct (newSCRAMClient _ _) as [c| |]; [|done..].
    destruct (firstMessage c) as [c' data]. eapply Ha; [exact E|done..].
  - unfold continueUpstreamSCRAM in E. destruct (up_scram s) as [c|]; [|done]. destruct (finalMessage c data) as [[c' final]| |]; [|done..].
    eapply Ha; [exact E|done..].
  - unfold finalizeUpstreamSCRAM in E. destruct (up_scram s) as [c|]; [|done]. destruct (verifyServerFinal c data); [|done..].
    injection E as <-. by apply Hq.
  - injection E as <-. cbn. split_and!; [exists []; by rewrite app_nil_r|done..].
  - injection E as <-. cbn. rewrite app_nil_r. split_and!; [exists []; by rewrite app_nil_r|done..].
Qed.

Lemma greet_ok s tx s' : greet w s tx = (s', Ok tt) ->
  up_log s' = (up_log s ++ map ToClient ([AuthenticationOk] ++ map (fun p => ParameterStatus p.1 p.2) (up_params s) ++ key_message (up_key s) ++ [ReadyForQuery tx]))%list.
Proof.
  unfold greet. destruct (send_all w s (greeting s tx)) as [s1 [|]] eqn:E; [|done]. intros [= <-]. apply send_all_ok in E as [E _]. cbn [with_buffers up_log]. rewrite E.
  unfold greeting. cbn [app map]. rewrite !map_app, map_map. by destruct (up_key s) as [[pid key]|].
Qed.

(** The messages before the next ReadyForQuery, none an error. *)
Lemma read_only_reply_ok msgs : forall rest tx, read_only_reply msgs = (rest, Ok tx) ->
  exists acks, msgs = (acks ++ ReadyForQuery tx :: rest)%list /\ Forall (fun m => ends_login m = false) acks.
Proof.
  induction msgs as [|m msgs IH]; intros rest tx; cbn [read_only_reply]; [done|].
  destruct m; try (intros [acks [-> Hf]]%IH; by eexists (_ :: acks); split; [|constructor]); [intros [= <- <-]; by exists []|done].
Qed.

(** What [setSessionReadOnly] adds, and where it stops reading. *)
Definition made_read_only (tx tx' : Z) (msgs rest : list backend_msg) (sent : list act) : Prop :=
  if readOnly then
    exists acks, msgs = (acks ++ ReadyForQuery tx' :: rest)%list /\ Forall (fun m => ends_login m = false) acks
      /\ sent = [ToUpstream (QueryMessage read_only_sql)]
  else msgs = rest /\ tx' = tx /\ sent = [].

(** The client is told exactly what the upstream said, once the upstream is ready: after
    the proxy's own answers, and for a read-only grant after the upstream has taken the
    statement that makes the session read-only without an error, the client gets the
    authentication, every parameter in order, the key data and the final status. *)
Theorem greeting_exact msgs s s' rest :
  handleUpstreamAuth w rnd password username readOnly msgs s = (s', rest, Ok tt) ->
  exists before tx after answers sent tx',
    msgs = (before ++ ReadyForQuery tx :: after)%list /\ Forall (fun m => ends_login m = false) before
    /\ made_read_only tx tx' after rest sent
    /\ up_log s' = (up_log s ++ map ToUpstream answers ++ sent
         ++ map ToClient ([AuthenticationOk] ++ map (fun p => ParameterStatus p.1 p.2) (up_params s ++ params_of before)
                          ++ key_message (key_of before (up_key s)) ++ [ReadyForQuery tx']))%list.
Proof.
  revert s. induction msgs as [|m msgs IH]; intros s; cbn [handleUpstreamAuth]; [done|].
  assert (ends_login m = false ->
    (let '(s1, r) := processUpstreamAuthMessage w rnd password username s m in
     match r with Ok _ => handleUpstreamAuth w rnd password username readOnly msgs s1 | Err e => (s1, msgs, Err e) | Panic => (s1, msgs, Panic) end)
      = (s', rest, Ok tt) ->
    exists before tx after answers sent tx',
      m :: msgs = (before ++ ReadyForQuery tx :: after)%list /\ Forall (fun m => ends_login m = false) before
      /\ made_read_only tx tx' after rest sent
      /\ up_log s' = (up_log s ++ map ToUpstream answers ++ sent
           ++ map ToClient ([AuthenticationOk] ++ map (fun p => ParameterStatus p.1 p.2) (up_params s ++ params_of before)
                            ++ key_message (key_of before (up_key s)) ++ [ReadyForQuery tx']))%list) as Hnext.
  { intros Hm. destruct (processUpstreamAuthMessage w rnd password username s m) as [s1 [[]| |]] eqn:Ep; [|done..].
    intros Hh. apply IH in Hh as (before & tx & after & answers & sent & tx' & -> & Hf & Hro & Hl).
    destruct (process_ok _ _ _ Ep Hm) as ((more & E1) & E2 & E3).
    exists (m :: before), tx, after, (more ++ answers)%list, sent, tx'. split_and!; [done|by constructor|done|].
    assert (params_of (m :: before) = params_of [m] ++ params_of before)%list as -> by (unfold params_of; cbn [flat_map]; by rewrite app_nil_r).
    rewrite Hl, E1, E2, E3, (map_app ToUpstream), <- !app_assoc. done. }
  destruct m; try (apply Hnext; done).
  - clear IH Hnext. unfold on_ready, made_read_only. intros Hr. exists [], txStatus, msgs, []. cbn [map app params_of key_of flat_map fold_left]. destruct readOnly.
    + unfold setSessionReadOnly in Hr. destruct (send w s _) as [s1 [|]] eqn:Es; [|done]. apply send_ok in Es as ->.
      destruct (read_only_reply msgs) as [left [tx'| |]] eqn:Er; [|done..]. apply read_only_reply_ok in Er as (acks & -> & Hf).
      destruct (greet w _ tx') as [s2 [[]| |]] eqn:Eg; [|done..]. injection Hr as <- <-. apply greet_ok in Eg.
      exists [ToUpstream (QueryMessage read_only_sql)], tx'. split_and!; [done|constructor|by exists acks|].
      rewrite Eg. cbn [logged up_log up_params up_key]. rewrite app_nil_r, <- !app_assoc. done.
    + destruct (greet w s txStatus) as [s2 [[]| |]] eqn:Eg; [|done..]. injection Hr as <- <-. apply greet_ok in Eg.
      exists [], txStatus. split_and!; [done|constructor|done..|]. rewrite Eg, app_nil_r. done.
  - cbn [processUpstreamAuthMessage]. done.
Qed.
End Greeting.

(** ** The channel *)

Section ChannelTheorems.
Context {H : PgHashes} {GCM : AEAD} {UT : UUIDText}.

Lemma decrypted_server db key db' : DecryptPassword db key = Ok db' -> d_Host db' = d_Host db /\ d_SSLMode db' = d_SSLMode db.
Proof. unfold DecryptPassword. destruct (lift_srv _); cbn [rbind]; [|done..]. by intros [= <-]. Qed.

(** As strong as the mode of the server's row asks. *)
Definition strong_enough (db : Server) (c : channel) : Prop :=
  match c with
  | Plain => upstreamTLSRequired (d_SSLMode db) = false
  | Tls verify => d_SSLMode db = "verify-ca" \/ d_SSLMode db = "verify-full" -> verify = Some (d_Host db)
  end.

(** C15. Nothing of a login, user name and password included, is written to a server on a
    channel weaker than the mode of its row asks, whatever the server answers and
    wherever the login fails. *)
Theorem credentials_need_channel n key version db grant sessionUser appName ch s rest r :
  connectUpstream n key version db grant sessionUser appName = (ch, s, rest, r) -> up_log s <> [] ->
  exists c, ch = Some c /\ strong_enough db c.
Proof.
  unfold connectUpstream. destruct (DecryptPassword db key) as [db'| |] eqn:Ed; [|by intros [= <- <- <- <-]..].
  apply decrypted_server in Ed as [Eh Em]. destruct (nt_peer n) as [peer|]; [|by intros [= <- <- <- <-]].
  rewrite Eh, Em. pose proof (channel_respects_mode peer (d_Host db) (d_SSLMode db)) as Hc.
  destruct (negotiateUpstreamSSL peer (d_Host db) (d_SSLMode db)).2 as [c| |]; [|by intros [= <- <- <- <-]..].
  assert (strong_enough db c) as Hs by (unfold strong_enough; destruct c; [done|by destruct Hc as (_ & Hi & _); intros Hm%Hi]).
  destruct (sendStartupMessage _ _ _ _ _ _ _) as [s1 [[]| |]]; [|intros [= <- <- <- <-] _; by exists c..].
  destruct (handleUpstreamAuth _ _ _ _ _ _ _) as [[s2 msgs] r2]. intros [= <- <- <- <-] _. by exists c.
Qed.
End ChannelTheorems.

(** ** Servers, honest and not *)

Section Servers.
Context {H : PgHashes}.
Variables (rnd : nat -> option bytes) (password username : string).
Definition all_writes : nat -> bool := fun _ => true.

Lemma answer_all s m : answer all_writes s m = (logged s (ToUpstream m), Ok tt).
Proof. reflexivity. Qed.

Lemma send_all_all l : forall s, (send_all all_writes s l).2 = true /\ up_scram (send_all all_writes s l).1 = up_scram s.
Proof. induction l as [|a l IH]; intros s; [done|]. cbn [send_all]. exact (IH (logged s a)). Qed.

Lemma greet_all s tx :
  exists s', greet all_writes s tx = (s', Ok tt) /\ up_scram s' = up_scram s /\ up_log s' = (up_log s ++ greeting s tx)%list.
Proof.
  unfold greet. destruct (send_all_all (greeting s tx) s) as [E1 E2]. destruct (send_all _ _ _) as [s' ok] eqn:E. cbn [fst snd] in *. subst ok.
  apply send_all_ok in E as [El _]. by eexists.
Qed.

Lemma offered_mechanism offered : In scramMechanism offered -> pickSCRAMMechanism offered = scramMechanism.
Proof.
  induction offered as [|m offered IH]; [done|]. cbn [In pickSCRAMMechanism]. destruct (String.eqb_spec m scramMechanism) as [->|Hne]; [done|].
  intros [->|Hin]; [done|by apply IH].
Qed.

(** The first two steps of SCRAM, and the ready message. *)
Lemma begin_scram s offered nonce c1 first : In scramMechanism offered -> rnd (length (up_log s)) = Some nonce ->
  (c ← match newSCRAMClient (Some nonce) password with Ok c => Some c | _ => None end; Some (firstMessage c)) = Some (c1, first) ->
  processUpstreamAuthMessage all_writes rnd password username s (AuthenticationSASL offered)
  = (logged (with_scram s (Some c1)) (ToUpstream (SASLInitialResponse scramMechanism first)), Ok tt).
Proof.
  intros Hin Hr Hf. cbn [processUpstreamAuthMessage]. unfold beginUpstreamSCRAM. rewrite (offered_mechanism _ Hin), Hr.
  change (String.eqb scramMechanism "") with false. cbv iota. cbn [newSCRAMClient mbind option_bind] in Hf |- *. injection Hf as <- <-. reflexivity.
Qed.

Lemma continue_scram s c1 c2 sfirst final : up_scram s = Some c1 -> finalMessage c1 sfirst = Ok (c2, final) ->
  processUpstreamAuthMessage all_writes rnd password username s (AuthenticationSASLContinue sfirst)
  = (logged (with_scram s (Some c2)) (ToUpstream (SASLResponse final)), Ok tt).
Proof. intros Hs Hf. cbn [processUpstreamAuthMessage]. unfold continueUpstreamSCRAM. by rewrite Hs, Hf. Qed.

Lemma ready s tx : exists s', handleUpstreamAuth all_writes rnd password username false [AuthenticationOk; ReadyForQuery tx] s = (s', [], Ok tt)
  /\ up_scram s' = up_scram s /\ up_log s' = (up_log s ++ greeting s tx)%list.
Proof.
  destruct (greet_all s tx) as (s' & Hg & E). exists s'. split; [|done].
  cbn [handleUpstreamAuth processUpstreamAuthMessage]. unfold on_ready. by rewrite Hg.
Qed.


(** Against the comment of [finalizeUpstreamSCRAM], the signature is not needed: an
    upstream that answers the proof with AuthenticationOk instead of its own final
    message is taken, with the check still to come, whoever it is. *)
Theorem upstream_skips_signature s nonce c1 first sfirst c2 final offered tx :
  In scramMechanism offered -> rnd (length (up_log s)) = Some nonce ->
  (c ← match newSCRAMClient (Some nonce) password with Ok c => Some c | _ => None end; Some (firstMessage c)) = Some (c1, first) ->
  finalMessage c1 sfirst = Ok (c2, final) ->
  exists s', handleUpstreamAuth all_writes rnd password username false
      [AuthenticationSASL offered; AuthenticationSASLContinue sfirst; AuthenticationOk; ReadyForQuery tx] s = (s', [], Ok tt)
    /\ up_scram s' = Some c2.
Proof.
  intros Hin Hr Hf H2.
  destruct (ready (logged (with_scram (logged (with_scram s (Some c1)) (ToUpstream (SASLInitialResponse scramMechanism first))) (Some c2))
                    (ToUpstream (SASLResponse final))) tx) as (s' & Hready & Es' & _).
  exists s'. split; [|exact Es']. cbn [handleUpstreamAuth]. rewrite (begin_scram s offered nonce c1 first), (continue_scram _ c1 c2 _ final) by done.
  exact Hready.
Qed.
End Servers.

Import SampleScram.

Definition sample_draw : nat -> option bytes := fun _ => Some nonce.

Lemma greeting_exact_witness :
  let msgs := [AuthenticationOk; ParameterStatus "server_version" "17"; BackendKeyData 7 [1; 2; 3; 4]; ReadyForQuery 73; CommandComplete "SET"; ReadyForQuery 73] in
  exists s' rest, handleUpstreamAuth all_writes sample_draw "pw" "u" true msgs fresh_state = (s', rest, Ok tt) /\ zlen (up_log s') = 5 /\
  exists before tx after answers sent tx',
    msgs = (before ++ ReadyForQuery tx :: after)%list /\ Forall (fun m => ends_login m = false) before
    /\ made_read_only true tx tx' after rest sent
    /\ up_log s' = (up_log fresh_state ++ map ToUpstream answers ++ sent
         ++ map ToClient ([AuthenticationOk] ++ map (fun p => ParameterStatus p.1 p.2) (up_params fresh_state ++ params_of before)
                          ++ key_message (key_of before (up_key fresh_state)) ++ [ReadyForQuery tx']))%list.
Proof.
  eexists _, _. split; [vm_compute; reflexivity|]. split; [reflexivity|].
  eapply (greeting_exact all_writes sample_draw "pw" "u" true). vm_compute. reflexivity.
Defined.


Lemma upstream_skips_signature_witness :
  exists c1 first c2 final s', finalMessage c1 sample_first = Ok (c2, final) /\
    handleUpstreamAuth all_writes sample_draw "secret" "u" false
      [AuthenticationSASL [scramMechanism]; AuthenticationSASLContinue sample_first; AuthenticationOk; ReadyForQuery 73] fresh_state = (s', [], Ok tt)
    /\ up_scram s' = Some c2 /\ first = (firstMessage c1).2.
Proof.
  destruct (finalMessage sample_client sample_first) as [[c2 final]| |] eqn:E; [|vm_compute in E; discriminate..].
  destruct (upstream_skips_signature sample_draw "secret" "u" fresh_state nonce sample_client (firstMessage sample_client).2 sample_first c2 final [scramMechanism] 73)
    as (s' & H1 & H2); [left; reflexivity|reflexivity|vm_compute; reflexivity|exact E|].
  exists sample_client, (firstMessage sample_client).2, c2, final, s'. split_and!; [exact E|exact H1|exact H2|reflexivity].
Defined.

Import SampleServers.

(** A stored server that asks for a checked certificate. *)
Definition stored_pg : Server :=
  match db2 !! 2%N with
  | Some s =>
      {| d_UID := d_UID s; d_Name := d_Name s; d_Description := ""; d_Host := d_Host s; d_Port := 5432; d_DatabaseName := "app";
         d_Username := "u"; d_Password := ""; d_PasswordEncrypted := d_PasswordEncrypted s; d_SSLMode := "verify-full"; d_Protocol := d_Protocol s;
         d_OracleServiceName := None; d_ViaUID := None; d_ProtocolData := None; d_Listable := true; d_CreatedBy := None;
         d_CreatedAt := 0; d_UpdatedAt := 0; d_DeletedAt := None |}
  | None => sample_server "" "" "" None
  end.
Definition pg_net : Net :=
  {| nt_peer := Some {| pr_answer := Some 83; pr_handshake v := bool_decide (v = Some "10.0.0.1") |};
     nt_msgs _ := [AuthenticationCleartextPassword; AuthenticationOk; ReadyForQuery 73]; nt_write _ := true; nt_rnd _ := None |}.

Lemma credentials_need_channel_witness : exists ch s rest r,
  connectUpstream pg_net SampleServers.key "1.0" stored_pg (sample_grant []) "alice" "psql" = (ch, s, rest, r) /\ up_log s <> []
  /\ nth_error (up_log s) 1 = Some (ToUpstream (PasswordMessage "pw")) /\ exists c, ch = Some c /\ strong_enough stored_pg c.
Proof.
  destruct (connectUpstream pg_net SampleServers.key "1.0" stored_pg (sample_grant []) "alice" "psql") as [[[ch s] rest] r] eqn:E.
  assert (up_log s <> [] /\ nth_error (up_log s) 1 = Some (ToUpstream (PasswordMessage "pw"))) as [Hne H1]
    by (vm_compute in E; injection E as _ <- _ _; split; [discriminate|reflexivity]).
  exists ch, s, rest, r. split; [reflexivity|]. split; [exact Hne|]. split; [exact H1|].
  exact (credentials_need_channel pg_net SampleServers.key "1.0" stored_pg (sample_grant []) "alice" "psql" ch s rest r E Hne).
Defined.
