(* ===== verification/Configuration.v ===== *)
(** * Configuration ([internal/config/config.go])

    Defaults, the names of the environment variables, the encryption key with the file
    it is kept in, redirects, the base URL and the hash parameters.  Layering the
    sources and decoding them into the record is a library ([koanf]): the class [Koanf].
    [ApiBase.Config] is what the handlers read of this record. *)

From Stdlib Require Import ZArith Lia List Bool String Ascii.
From stdpp Require Import base list gmap strings.
From S2P Require Import Prelude GoStrings Encoding Models RateLimit AuthCache Crypto Servers PgSession Endpoints PgScram.

Open Scope string_scope.
Open Scope Z_scope.

Definition RunModeDefault := "".
Definition RunModeTest := "test".
Definition RunModeDemo := "demo".

Record HashConfig := { hc_Preset : string; hc_MemoryMB : Z; hc_Time : Z; hc_Threads : Z }.
Record SlackAuthConfig := {
  sa_ClientID : string;
  sa_ClientSecret : string;
  sa_TeamID : string;
  sa_AutoCreateUsers : bool;
  sa_DefaultRole : string
}.
Record SlackNotifyConfig := { sn_BotToken : string; sn_Channel : string; sn_SigningSecret : string; sn_AppToken : string }.
Record DumpConfig := { dc_Dir : string; dc_MaxSize : Z; dc_Retention : string }.
Record TLSConfig := { tl_CertFile : string; tl_KeyFile : string; tl_Disable : bool }.
Record RedirectRule := { rr_PathPrefix : string; rr_TargetHost : string; rr_TargetPath : string }.

Record Config := {
  ListenPG : string;
  ListenOracle : string;
  ListenMySQL : string;
  ListenMongo : string;
  ListenAPI : string;
  DSN : string;
  Key : string;
  KeyFile : string;
  EncryptionKey : bytes;
  RunMode : string;
  DemoTargetDB : string;
  QueryStorage : QueryStorageConfig;
  RateLimit_ : RateLimitConfig;
  Hash : HashConfig;
  AuthCache_ : AuthCacheConfig;
  BaseURL : string;
  Redirects : list RedirectRule;
  LogLevel : string;
  SlackAuth : SlackAuthConfig;
  SlackNotify : SlackNotifyConfig;
  PublicURL : string;
  Dump_ : DumpConfig;
  MySQL_TLS : TLSConfig;
  Mongo_TLS : TLSConfig;
  PG_TLS : TLSConfig
}.

Definition SlackAuth_Enabled (c : SlackAuthConfig) : bool := negb (String.eqb (sa_ClientID c) "") && negb (String.eqb (sa_ClientSecret c) "").
Definition SlackNotify_Enabled (c : SlackNotifyConfig) : bool := negb (String.eqb (sn_BotToken c) "").
Definition SocketMode (c : SlackNotifyConfig) : bool := negb (String.eqb (sn_AppToken c) "") && negb (String.eqb (sn_BotToken c) "").
Definition Interactive (c : SlackNotifyConfig) : bool :=
  negb (String.eqb (sn_BotToken c) "") && (negb (String.eqb (sn_SigningSecret c) "") || negb (String.eqb (sn_AppToken c) "")).
(** [slackHTTPOnlyInteractivity] of the API. *)
Definition slackHTTPOnlyInteractivity (c : option Config) : bool :=
  match c with Some c => Interactive (SlackNotify c) && negb (SocketMode (SlackNotify c)) | None => false end.

(** ** Defaults *)

Definition DefaultMaxResultRows : Z := 100000.
Definition DefaultMaxResultBytes : Z := 100 * 1024 * 1024.
Definition DefaultDumpMaxSize : Z := 10 * 1024 * 1024.
Definition DefaultDumpRetention := "24h".
Definition DefaultBaseURL := "/app".
Definition DefaultLogLevel := "info".
Definition no_tls : TLSConfig := {| tl_CertFile := ""; tl_KeyFile := ""; tl_Disable := false |}.

Definition defaultConfig : Config :=
  {| ListenPG := ":5434"; ListenAPI := ":4200"; ListenOracle := ":1522"; ListenMySQL := ":3307"; ListenMongo := ":27018";
     DSN := ""; Key := ""; KeyFile := ""; EncryptionKey := []; RunMode := RunModeDefault; DemoTargetDB := "";
     QueryStorage := {| MaxResultRows := DefaultMaxResultRows; MaxResultBytes := DefaultMaxResultBytes; StoreResults := true |};
     RateLimit_ := {| rc_Enabled := true; rc_RequestsPerMinute := 60; rc_RequestsPerMinuteAnon := 10; rc_Burst := 10 |};
     Hash := {| hc_Preset := ""; hc_MemoryMB := 64; hc_Time := 1; hc_Threads := 4 |};
     AuthCache_ := {| cfg_Enabled := true; cfg_TTLSeconds := 300; cfg_MaxSize := 10000 |};
     BaseURL := DefaultBaseURL; Redirects := []; LogLevel := DefaultLogLevel;
     SlackAuth := {| sa_ClientID := ""; sa_ClientSecret := ""; sa_TeamID := ""; sa_AutoCreateUsers := true; sa_DefaultRole := "connector" |};
     SlackNotify := {| sn_BotToken := ""; sn_Channel := "#dbbat"; sn_SigningSecret := ""; sn_AppToken := "" |};
     PublicURL := "";
     Dump_ := {| dc_Dir := ""; dc_MaxSize := DefaultDumpMaxSize; dc_Retention := DefaultDumpRetention |};
     MySQL_TLS := no_tls; Mongo_TLS := no_tls; PG_TLS := no_tls |}.

(** ** The encryption key *)

Definition expectedKeySize : Z := 32.

Inductive cfg_error :=
| ErrLoadDefaults | ErrConfigFile | ErrEnvironment | ErrUnmarshal
| ErrDSNRequired | ErrDecodeKey | ErrInvalidKeySize (size : Z) | ErrReadKey | ErrHomeDir | ErrKeyDir | ErrKeyRand | ErrWriteKey.

(** The files of the machine; what the next calls to the system come to: the home
    directory, reading a file that is there, making the key directory and setting its
    mode, random bytes, and what a failed write leaves of the file. *)
Abbreviation files := (gmap string bytes).
Record System := {
  y_home : option string;
  y_readable : string -> bool;
  y_mkdir : bool;
  y_chmod : bool;
  y_rand : option bytes;
  y_write_fails : option (option bytes)
}.

Section Keys.
Variable y : System.

Definition DefaultKeyFilePath : res cfg_error string :=
  match y_home y with None => Err ErrHomeDir | Some home => Ok (home ++ "/.dbbat/key") end.

Definition sized (key : bytes) : res cfg_error bytes :=
  guard! zlen key =? expectedKeySize else ErrInvalidKeySize (zlen key) in Ok key.

Definition generateAndSaveDefaultKey (fs : files) (keyPath : string) : files * res cfg_error bytes :=
  if negb (y_mkdir y) then (fs, Err ErrKeyDir)
  else if negb (y_chmod y) then (fs, Err ErrKeyDir)
  else match y_rand y with
       | None => (fs, Err ErrKeyRand)
       | Some key =>
           match y_write_fails y with
           | None => (<[keyPath := str_bytes (b64 key ++ String (chr 10) "")]> fs, Ok key)
           | Some None => (fs, Err ErrWriteKey)
           | Some (Some left_) => (<[keyPath := left_]> fs, Err ErrWriteKey)
           end
       end.

Definition loadOrCreateDefaultKey (fs : files) : files * res cfg_error bytes :=
  match DefaultKeyFilePath with
  | Ok keyPath =>
      match fs !! keyPath with
      | Some content =>
          (fs, if negb (y_readable y keyPath) then Err ErrReadKey
               else match std_b64_decode (TrimSpace (bytes_str content)) with
                    | None => Err ErrDecodeKey
                    | Some key => sized key
                    end)
      | None => generateAndSaveDefaultKey fs keyPath
      end
  | Err e => (fs, Err e)
  | Panic => (fs, Panic)
  end.

Definition loadEncryptionKey (keyStr keyFile : string) (fs : files) : files * res cfg_error bytes :=
  if negb (String.eqb keyStr "") then
    (fs, match std_b64_decode keyStr with None => Err ErrDecodeKey | Some key => sized key end)
  else if negb (String.eqb keyFile "") then
    (fs, match fs !! keyFile with
         | Some key => if y_readable y keyFile then sized key else Err ErrReadKey
         | None => Err ErrReadKey
         end)
  else loadOrCreateDefaultKey fs.
End Keys.

(** ** Redirects *)

(** Format: /path:host:port/targetpath or /path:host:port *)
Definition parseRedirectRule (rule : string) : option RedirectRule :=
  if negb (HasPrefix rule "/") then None
  else
    match cut_first ":" rule with
    | None => None
    | Some (pathPrefix, target) =>
        if String.eqb target "" then None
        else
          let '(targetHost, targetPath) := match cut_first "/" target with
                                           | None => (target, "/")
                                           | Some (host, path) => (host, "/" ++ path)
                                           end in
          if String.eqb targetHost "" then None
          else Some {| rr_PathPrefix := pathPrefix; rr_TargetHost := targetHost; rr_TargetPath := targetPath |}
    end.

(** A rule that does not parse is skipped. *)
Definition parseRedirects (value : string) : list RedirectRule :=
  if String.eqb value "" then []
  else omap (fun part => let part := TrimSpace part in if String.eqb part "" then None else parseRedirectRule part) (Split value ",").

(** ** The base URL *)

(** [strings.TrimSuffix(s, "/")] *)
Fixpoint trim_slash (s : string) : string :=
  match s with
  | EmptyString => ""
  | String c EmptyString => if Ascii.eqb c "/" then "" else s
  | String c r => String c (trim_slash r)
  end.

Definition normalizeBaseURL (baseURL : string) : string :=
  if String.eqb baseURL "" || String.eqb baseURL "/" then ""
  else trim_slash (if HasPrefix baseURL "/" then baseURL else "/" ++ baseURL).

(** ** Hash parameters *)

(** [ResolvedHashParams]; the integers are unsigned of 32, 32 and 8 bits. *)
Definition hashPresets (name : string) : option HashParams :=
  if String.eqb name "default" then Some {| hp_MemoryKB := 64 * 1024; hp_Time := 1; hp_Threads := 4 |}
  else if String.eqb name "low" then Some {| hp_MemoryKB := 16 * 1024; hp_Time := 2; hp_Threads := 2 |}
  else if String.eqb name "minimal" then Some {| hp_MemoryKB := 4 * 1024; hp_Time := 3; hp_Threads := 1 |}
  else None.
Definition default_preset : HashParams := {| hp_MemoryKB := 64 * 1024; hp_Time := 1; hp_Threads := 4 |}.
Definition minimal_preset : HashParams := {| hp_MemoryKB := 4 * 1024; hp_Time := 3; hp_Threads := 1 |}.

Definition GetHashParams (c : Config) : HashParams :=
  let h := Hash c in
  let params := default_preset in
  let params := if String.eqb (RunMode c) RunModeTest && String.eqb (hc_Preset h) "" then minimal_preset else params in
  let params := if negb (String.eqb (hc_Preset h) "") then default params (hashPresets (hc_Preset h)) else params in
  {| hp_MemoryKB := if 0 <? hc_MemoryMB h then u32 (u32 (hc_MemoryMB h) * 1024) else hp_MemoryKB params;
     hp_Time := if 0 <? hc_Time h then u32 (hc_Time h) else hp_Time params;
     hp_Threads := if 0 <? hc_Threads h then u8 (hc_Threads h) else hp_Threads params |}.

(** ** Log levels *)

Inductive Level := LevelDebug | LevelInfo | LevelWarn | LevelError.

Section Text.
Context {HT : HostText}.

Definition ParseLogLevel (level : string) : Level :=
  let level := ToLower level in
  if String.eqb level "debug" then LevelDebug
  else if String.eqb level "info" then LevelInfo
  else if String.eqb level "warn" || String.eqb level "warning" then LevelWarn
  else if String.eqb level "error" then LevelError
  else LevelInfo.

(** ** The environment *)

(** The prefixes that become paths; the first that fits is taken. *)
Definition sections : list (string * string) :=
  [("query_storage_", "query_storage."); ("rate_limit_", "rate_limit."); ("hash_", "hash."); ("auth_cache_", "auth_cache.");
   ("slack_auth_", "slack_auth.")].
Definition later_sections : list (string * string) :=
  [("slack_notify_", "slack_notify."); ("dump_", "dump."); ("mysql_tls_", "mysql.tls."); ("mongo_tls_", "mongo.tls."); ("pg_tls_", "pg.tls.")].

Fixpoint in_section (l : list (string * string)) (key : string) : option string :=
  match l with
  | [] => None
  | (prefix, path) :: l => if HasPrefix key prefix then Some (path ++ TrimPrefix key prefix) else in_section l key
  end.

Definition envTransform (k : string) : string :=
  let key := ToLower (TrimPrefix k "DBB_") in
  match in_section sections key with
  | Some key => key
  | None =>
      if String.eqb key "slack_signing_secret" then "slack_notify.signing_secret"
      else default key (in_section later_sections key)
  end.

(** The variables of the process with the prefix. *)
Definition env_layer (env : list (string * string)) : list (string * string) :=
  map (fun '(k, v) => (envTransform k, v)) (List.filter (fun p => HasPrefix p.1 "DBB_") env).

Fixpoint Getenv (env : list (string * string)) (name : string) : string :=
  match env with [] => "" | (k, v) :: env => if String.eqb k name then v else Getenv env name end.

(** ** Loading *)

Inductive parser := Yaml | Json | Toml.
Definition HasSuffix (s suffix : string) : bool :=
  (slen suffix <=? slen s) && String.eqb (String.substring (String.length s - String.length suffix) (String.length suffix) s) suffix.
Definition parser_for (path : string) : parser :=
  if HasSuffix path ".yaml" || HasSuffix path ".yml" then Yaml
  else if HasSuffix path ".json" then Json
  else if HasSuffix path ".toml" then Toml
  else Yaml.

(** [koanf]: a value of the environment layer; and the layers, the later over the
    earlier, decoded into the record: defaults, a file, the environment, and a value
    set for the signing secret of Slack. *)
Class Koanf := {
  layer_String : list (string * string) -> string -> string;
  decode_layers : Config -> option (parser * bytes) -> list (string * string) -> option string -> res cfg_error Config
}.
Context {K : Koanf}.

Definition with_loaded (c : Config) (key : bytes) (redirects : list RedirectRule) (baseURL : string) : Config :=
  {| ListenPG := ListenPG c; ListenOracle := ListenOracle c; ListenMySQL := ListenMySQL c; ListenMongo := ListenMongo c;
     ListenAPI := ListenAPI c; DSN := DSN c; Key := Key c; KeyFile := KeyFile c; EncryptionKey := key; RunMode := RunMode c;
     DemoTargetDB := DemoTargetDB c; QueryStorage := QueryStorage c; RateLimit_ := RateLimit_ c; Hash := Hash c;
     AuthCache_ := AuthCache_ c; BaseURL := baseURL; Redirects := redirects; LogLevel := LogLevel c; SlackAuth := SlackAuth c;
     SlackNotify := SlackNotify c; PublicURL := PublicURL c; Dump_ := Dump_ c; MySQL_TLS := MySQL_TLS c; Mongo_TLS := Mongo_TLS c;
     PG_TLS := PG_TLS c |}.

Definition Load (y : System) (configFile : string) (env : list (string * string)) (cliOverrides : list (Config -> Config)) (fs : files) :
    files * res cfg_error Config :=
  let layer := env_layer env in
  let configPath := if String.eqb configFile "" then layer_String layer "config" else configFile in
  let file := if String.eqb configPath "" then Ok None
              else match fs !! configPath with
                   | Some content => if y_readable y configPath then Ok (Some (parser_for configPath, content)) else Err ErrConfigFile
                   | None => Err ErrConfigFile
                   end in
  let secret := Getenv env "DBB_SLACK_SIGNING_SECRET" in
  match (let! file := file in decode_layers defaultConfig file layer (if String.eqb secret "" then None else Some secret)) with
  | Ok cfg =>
      let cfg := fold_left (fun c f => f c) cliOverrides cfg in
      if String.eqb (DSN cfg) "" then (fs, Err ErrDSNRequired)
      else
        match loadEncryptionKey y (Key cfg) (KeyFile cfg) fs with
        | (fs, Ok key) => (fs, Ok (with_loaded cfg key (parseRedirects (Getenv env "DBB_REDIRECTS")) (normalizeBaseURL (BaseURL cfg))))
        | (fs, Err e) => (fs, Err e)
        | (fs, Panic) => (fs, Panic)
        end
  | Err e => (fs, Err e)
  | Panic => (fs, Panic)
  end.

(** The flags of the command line ([src/main.go]); an empty one says nothing. *)
Record cliFlags := {
  fl_listenAddr : string;
  fl_apiAddr : string;
  fl_dsn : string;
  fl_key : string;
  fl_keyFile : string;
  fl_configFile : string;
  fl_logLevel : string
}.

Definition buildCLIOverrides (flags : cliFlags) (c : Config) : Config :=
  let given flag old := if String.eqb flag "" then old else flag in
  {| ListenPG := given (fl_listenAddr flags) (ListenPG c); ListenOracle := ListenOracle c; ListenMySQL := ListenMySQL c;
     ListenMongo := ListenMongo c; ListenAPI := given (fl_apiAddr flags) (ListenAPI c); DSN := given (fl_dsn flags) (DSN c);
     Key := given (fl_key flags) (Key c); KeyFile := given (fl_keyFile flags) (KeyFile c); EncryptionKey := EncryptionKey c;
     RunMode := RunMode c; DemoTargetDB := DemoTargetDB c; QueryStorage := QueryStorage c; RateLimit_ := RateLimit_ c; Hash := Hash c;
     AuthCache_ := AuthCache_ c; BaseURL := BaseURL c; Redirects := Redirects c; LogLevel := given (fl_logLevel flags) (LogLevel c);
     SlackAuth := SlackAuth c; SlackNotify := SlackNotify c; PublicURL := PublicURL c; Dump_ := Dump_ c; MySQL_TLS := MySQL_TLS c;
     Mongo_TLS := Mongo_TLS c; PG_TLS := PG_TLS c |}.

Definition loadConfigWithCLI (y : System) (flags : cliFlags) (env : list (string * string)) (fs : files) : files * res cfg_error Config :=
  Load y (fl_configFile flags) env [buildCLIOverrides flags] fs.
End Text.

(** * Theorems *)

(** ** The key *)

Lemma sized_Ok key k : sized key = Ok k -> k = key /\ zlen k = expectedKeySize.
Proof. unfold sized. destruct (Z.eqb_spec (zlen key) expectedKeySize); [|done]. by intros [= <-]. Qed.

(** A key that is accepted has 32 bytes, wherever it comes from, if the random source
    gives what it is asked for. *)
Theorem key_size y keyStr keyFile fs fs' key :
  (forall r, y_rand y = Some r -> zlen r = expectedKeySize) ->
  loadEncryptionKey y keyStr keyFile fs = (fs', Ok key) -> zlen key = expectedKeySize.
Proof.
  intros Hr. unfold loadEncryptionKey. destruct (negb (String.eqb keyStr "")).
  { destruct (std_b64_decode keyStr) as [k|]; [|done]. intros [= _ H]. by apply sized_Ok in H as [-> ?]. }
  destruct (negb (String.eqb keyFile "")).
  { destruct (fs !! keyFile) as [k|]; [|done]. destruct (y_readable y keyFile); [|done]. intros [= _ H]. by apply sized_Ok in H as [-> ?]. }
  unfold loadOrCreateDefaultKey. destruct (DefaultKeyFilePath y) as [path|x|]; [|done..]. destruct (fs !! path) as [content|].
  { destruct (negb _); [done|]. destruct (std_b64_decode _) as [k|]; [|done]. intros [= _ H]. by apply sized_Ok in H as [-> ?]. }
  unfold generateAndSaveDefaultKey. destruct (negb _); [done|]. destruct (negb _); [done|]. destruct (y_rand y) as [k|]; [|done].
  destruct (y_write_fails y) as [[]|]; [done..|]. intros [= _ <-]. by apply Hr.
Qed.

Lemma b64_char_word v : 0 <= v -> is_word_char (b64_char v) = true.
Proof.
  intros Hv. destruct (Z.ltb_spec v 64) as [Hl|Hl].
  - assert (Hc : forallb (fun v => is_word_char (b64_char v)) (seqZ 0 64) = true) by reflexivity.
    rewrite forallb_forall in Hc. apply Hc, list_elem_of_In, elem_of_seqZ. lia.
  - unfold b64_char. rewrite !(proj2 (Z.ltb_ge _ _)) by lia. by rewrite (proj2 (Z.eqb_neq _ _)) by lia.
Qed.

Ltac nonneg := repeat first [lia | apply Z.shiftr_nonneg | apply Z.shiftl_nonneg | apply Z.lor_nonneg; split | apply Z.land_nonneg; left].

Lemma b64_word b : wf_bytes b -> all_chars is_word_char (b64 b) = true.
Proof.
  induction b as [|x|x y|x y z b IH] using triple_ind; intros Hw; [done| | |]; apply Forall_cons in Hw as [Hx Hw]; unfold is_byte in Hx.
  - cbn [b64 all_chars]. by rewrite !b64_char_word by nonneg.
  - apply Forall_cons in Hw as [Hy _]. unfold is_byte in Hy. cbn [b64 all_chars]. by rewrite !b64_char_word by nonneg.
  - apply Forall_cons in Hw as [Hy Hw]. apply Forall_cons in Hw as [Hz Hw]. unfold is_byte in Hy, Hz.
    cbn [b64 all_chars]. by rewrite !b64_char_word, IH by (done || nonneg).
Qed.

Lemma key_file_text key : wf_bytes key -> key <> [] -> TrimSpace (b64 key ++ String (chr 10) "") = b64 key.
Proof.
  intros Hw Hne. change (b64 key ++ String (chr 10) "") with ("" ++ b64 key ++ String (chr 10) "")%string.
  rewrite TrimSpace_word; [|done|by apply b64_word|by destruct key as [|? [|? [|? ?]]]].
  change (TrimRightSpace (String (chr 10) "")) with "". apply sapp_nil_r.
Qed.

(** The key survives a restart: the first start makes one and every later start that
    finds the file as it was left and can read it has the same key. *)
Theorem key_survives_restart y y' fs fs' key :
  (forall r, y_rand y = Some r -> wf_bytes r /\ zlen r = expectedKeySize) ->
  (forall path, DefaultKeyFilePath y = Ok path -> fs !! path = None) ->
  loadEncryptionKey y "" "" fs = (fs', Ok key) ->
  y_home y' = y_home y -> (forall path, y_readable y' path = true) ->
  loadEncryptionKey y' "" "" fs' = (fs', Ok key).
Proof.
  intros Hr Hnew. unfold loadEncryptionKey. cbn [String.eqb negb]. unfold loadOrCreateDefaultKey, DefaultKeyFilePath in *.
  destruct (y_home y) as [home|]; [|done]. specialize (Hnew _ eq_refl). rewrite Hnew. unfold generateAndSaveDefaultKey.
  destruct (negb _); [done|]. destruct (negb _); [done|]. destruct (y_rand y) as [k|] eqn:Ek; [|done].
  destruct (Hr k eq_refl) as [Hw Hl]. destruct (y_write_fails y) as [[]|]; [done..|]. intros [= <- <-] -> Hread. rewrite lookup_insert_eq, Hread. cbn [negb].
  rewrite bytes_str_bytes, key_file_text, std_b64_back by (done || (intros ->; done)). unfold sized. by rewrite Hl.
Qed.

(** The file a start has made is no key file for the flag or the variable that names
    one: those take raw bytes. *)
Theorem default_key_file_is_no_key_file y home key fs :
  wf_bytes key -> zlen key = expectedKeySize -> home <> "" ->
  fs !! home = Some (str_bytes (b64 key ++ String (chr 10) "")) -> y_readable y home = true ->
  exists n, loadEncryptionKey y "" home fs = (fs, Err (ErrInvalidKeySize n)) /\ n <> expectedKeySize.
Proof.
  intros Hw Hl Hne Hf Hread. unfold loadEncryptionKey. cbn [String.eqb negb]. rewrite (proj2 (String.eqb_neq _ _) Hne). cbn [negb].
  rewrite Hf, Hread. set (c := str_bytes _). assert (Hc : zlen c = 45).
  { unfold c, zlen, str_bytes. rewrite length_map.
    do 33 (destruct key as [|? key]; [unfold zlen, expectedKeySize in Hl; cbn in Hl; try lia; cbn; reflexivity|]).
    unfold zlen, expectedKeySize in Hl. cbn in Hl. lia. }
  exists 45. unfold sized. rewrite Hc. by split.
Qed.

(** ** Hash parameters *)

(** A preset is never heard when the single values are set, and [defaultConfig] sets
    all three: the preset chooses nothing unless a source sets them to zero. *)
Theorem presets_unheard c :
  0 < hc_MemoryMB (Hash c) -> 0 < hc_Time (Hash c) -> 0 < hc_Threads (Hash c) ->
  GetHashParams c = {| hp_MemoryKB := u32 (u32 (hc_MemoryMB (Hash c)) * 1024); hp_Time := u32 (hc_Time (Hash c)); hp_Threads := u8 (hc_Threads (Hash c)) |}.
Proof. intros H1 H2 H3. unfold GetHashParams. by rewrite !(proj2 (Z.ltb_lt _ _)) by done. Qed.

Definition with_hash (c : Config) (mode : string) (h : HashConfig) : Config :=
  {| ListenPG := ListenPG c; ListenOracle := ListenOracle c; ListenMySQL := ListenMySQL c; ListenMongo := ListenMongo c;
     ListenAPI := ListenAPI c; DSN := DSN c; Key := Key c; KeyFile := KeyFile c; EncryptionKey := EncryptionKey c; RunMode := mode;
     DemoTargetDB := DemoTargetDB c; QueryStorage := QueryStorage c; RateLimit_ := RateLimit_ c; Hash := h;
     AuthCache_ := AuthCache_ c; BaseURL := BaseURL c; Redirects := Redirects c; LogLevel := LogLevel c; SlackAuth := SlackAuth c;
     SlackNotify := SlackNotify c; PublicURL := PublicURL c; Dump_ := Dump_ c; MySQL_TLS := MySQL_TLS c; Mongo_TLS := Mongo_TLS c;
     PG_TLS := PG_TLS c |}.

(** The minimal preset in test mode comes out as the default one. *)
Example minimal_is_default :
  GetHashParams (with_hash defaultConfig RunModeTest {| hc_Preset := "minimal"; hc_MemoryMB := 64; hc_Time := 1; hc_Threads := 4 |}) = default_preset.
Proof. reflexivity. Qed.
(** 256 threads are none. *)
Example threads_wrap :
  hp_Threads (GetHashParams (with_hash defaultConfig "" {| hc_Preset := ""; hc_MemoryMB := 64; hc_Time := 1; hc_Threads := 256 |})) = 0.
Proof. reflexivity. Qed.

(** ** Base URL and redirects *)

Lemma HasPrefix_nil s : HasPrefix s "" = true.
Proof. by destruct s. Qed.

Lemma trim_slash_spec s : trim_slash s = s \/ s = trim_slash s ++ "/".
Proof.
  induction s as [|c s IH]; [by left|]. destruct s as [|d s].
  - cbn. destruct (Ascii.eqb_spec c "/") as [->|]; [by right|by left].
  - change (trim_slash (String c (String d s))) with (String c (trim_slash (String d s))).
    destruct IH as [IH|IH]; [left|right]; cbn [String.append]; by f_equal.
Qed.

(** A base URL is empty or starts with a slash; it is what was configured up to a slash
    in front and one at the end. *)
Theorem base_url_normal u :
  (normalizeBaseURL u = "" \/ HasPrefix (normalizeBaseURL u) "/" = true) /\
  exists front back, (front = "" \/ front = "/") /\ (back = "" \/ back = "/") /\ (front ++ u = normalizeBaseURL u ++ back)%string.
Proof.
  unfold normalizeBaseURL. destruct (String.eqb_spec u "") as [->|Hu]; [split; [by left|]; exists "", ""; auto|].
  destruct (String.eqb_spec u "/") as [->|Hs]; [split; [by left|]; exists "", "/"; auto|]. cbn [orb].
  assert (Hp : forall v, HasPrefix v "/" = true -> v <> "/" -> HasPrefix (trim_slash v) "/" = true).
  { intros [|c v]; [done|]. cbn [HasPrefix]. intros Hc Hv. destruct v as [|d v].
    - cbn in Hc. rewrite andb_true_r in Hc. apply Ascii.eqb_eq in Hc. by subst c.
    - change (trim_slash (String c (String d v))) with (String c (trim_slash (String d v))). cbn [HasPrefix].
      apply andb_true_iff in Hc as [-> _]. by destruct (trim_slash (String d v)). }
  assert (Hb : forall v, exists back, (back = "" \/ back = "/") /\ v = (trim_slash v ++ back)%string).
  { intros v. destruct (trim_slash_spec v) as [E|E]; [exists ""|exists "/"]; rewrite ?sapp_nil_r; auto. }
  destruct (HasPrefix u "/") eqn:Eh.
  - split; [right; by apply Hp|]. exists "". destruct (Hb u) as (back & H1 & H2). exists back. auto.
  - assert (Hsl : "/" ++ u <> "/") by (intros [= E]; done).
    split; [right; apply Hp; [by destruct u|done]|]. exists "/". destruct (Hb ("/" ++ u)) as (back & H1 & H2). exists back. auto.
Qed.

(** Only one slash is taken off. *)
Example slash_left : normalizeBaseURL "/app//" = "/app/".
Proof. reflexivity. Qed.

Lemma cut_first_at sep a b : all_chars (fun c => negb (Ascii.eqb c sep)) a = true -> cut_first sep (a ++ String sep b) = Some (a, b).
Proof.
  induction a as [|c a IH]; cbn [all_chars String.append cut_first]; intros H; [by rewrite Ascii.eqb_refl|].
  apply andb_true_iff in H as [Hc Ha]. apply negb_true_iff in Hc. by rewrite Hc, IH.
Qed.

(** A rule is read as it is written: prefix, colon, host with its port, path. *)
Theorem redirect_roundtrip prefix host path :
  all_chars (fun c => negb (Ascii.eqb c ":")) prefix = true -> all_chars (fun c => negb (Ascii.eqb c "/")) host = true -> host <> "" ->
  parseRedirectRule ("/" ++ prefix ++ String ":" (host ++ String "/" path)) =
    Some {| rr_PathPrefix := "/" ++ prefix; rr_TargetHost := host; rr_TargetPath := "/" ++ path |}.
Proof.
  intros Hp Hh Hne. unfold parseRedirectRule. cbn [String.append HasPrefix Ascii.eqb Bool.eqb andb negb].
  change (String "/" (prefix ++ String ":" (host ++ String "/" path))) with ((String "/" prefix) ++ String ":" (host ++ String "/" path))%string.
  rewrite cut_first_at by (cbn [all_chars]; exact Hp). destruct host as [|c host]; [done|]. cbn [String.append String.eqb].
  change (String c (host ++ String "/" path)) with ((String c host) ++ String "/" path)%string.
  rewrite (cut_first_at "/" (String c host) path Hh), HasPrefix_nil. reflexivity.
Qed.

Example redirects_ex : parseRedirects "/app:localhost:5173, nonsense,/x:h:1/y" =
  [{| rr_PathPrefix := "/app"; rr_TargetHost := "localhost:5173"; rr_TargetPath := "/" |};
   {| rr_PathPrefix := "/x"; rr_TargetHost := "h:1"; rr_TargetPath := "/y" |}].
Proof. vm_compute. reflexivity. Qed.

(** ** The environment and the command line *)

(** What the flags say wins, whatever the other sources said, the base URL and the
    redirects are normal, and there is a key and a storage. *)
Theorem loaded_config {HT : HostText} {K : Koanf} y flags env fs fs' c :
  loadConfigWithCLI y flags env fs = (fs', Ok c) ->
  DSN c <> "" /\ (fl_dsn flags <> "" -> DSN c = fl_dsn flags) /\ (fl_listenAddr flags <> "" -> ListenPG c = fl_listenAddr flags) /\
  (exists u, BaseURL c = normalizeBaseURL u) /\ Redirects c = parseRedirects (Getenv env "DBB_REDIRECTS") /\
  exists ks kf, loadEncryptionKey y ks kf fs = (fs', Ok (EncryptionKey c)) /\ (fl_key flags <> "" -> ks = fl_key flags).
Proof.
  unfold loadConfigWithCLI, Load. destruct (rbind _ _) as [d|x|]; [|done..]. cbn [fold_left].
  destruct (String.eqb_spec (DSN (buildCLIOverrides flags d)) "") as [|Hd]; [done|].
  destruct (loadEncryptionKey _ _ _ _) as [fs1 [key|x|]] eqn:Ek; [|done..]. intros [= <- <-].
  assert (Hg : forall flag old, flag <> "" -> (if String.eqb flag "" then old else flag) = flag)
    by (intros flag old H; by destruct (String.eqb_spec flag "")).
  split_and!; [exact Hd| | |by eexists|done|].
  - intros H. cbn. by apply Hg.
  - intros H. cbn. by apply Hg.
  - eexists _, _. split; [exact Ek|]. intros H. cbn. by apply Hg.
Qed.

(** ** Samples *)

Module SampleConfiguration.
Fixpoint lower (s : string) : string :=
  match s with
  | String c s => String (let n := code c in if (65 <=? n) && (n <=? 90) then chr (n + 32) else c) (lower s)
  | EmptyString => ""
  end.
#[export] Instance sc_text : HostText := {| parse_url _ := None; ToLower := lower |}.
Definition laptop : System :=
  {| y_home := Some "/home/me"; y_readable _ := true; y_mkdir := true; y_chmod := true; y_rand := Some (replicate 32 7); y_write_fails := None |}.

Example env_names :
  map envTransform ["DBB_LISTEN_PG"; "DBB_QUERY_STORAGE_MAX_RESULT_ROWS"; "DBB_HASH_MEMORY_MB"; "DBB_MYSQL_TLS_CERT_FILE";
                    "DBB_SLACK_SIGNING_SECRET"; "DBB_SLACK_NOTIFY_SIGNING_SECRET"] =
    ["listen_pg"; "query_storage.max_result_rows"; "hash.memory_mb"; "mysql.tls.cert_file"; "slack_notify.signing_secret"; "slack_notify.signing_secret"].
Proof. vm_compute. reflexivity. Qed.

Example levels : map ParseLogLevel ["DEBUG"; "warning"; "loud"] = [LevelDebug; LevelWarn; LevelInfo].
Proof. vm_compute. reflexivity. Qed.

Example restart : exists fs, loadEncryptionKey laptop "" "" ∅ = (fs, Ok (replicate 32 7)) /\ loadEncryptionKey laptop "" "" fs = (fs, Ok (replicate 32 7)).
Proof. eexists. split; vm_compute; reflexivity. Qed.
End SampleConfiguration.
