(* ===== verification/SlackNotify.v ===== *)
(** * Notifications of grant requests in Slack ([internal/notify/slack.go], the event
    half of [internal/api/grant_requests.go])

    A message is a list of blocks; Slack is a table of messages by channel and time
    stamp, with the threads below them.  What Slack answers to a call is an argument. *)

From Stdlib Require Import ZArith Lia List Bool String Ascii.
From stdpp Require Import base list gmap strings.
From S2P Require Import Configuration Prelude GoStrings Encoding Models Revocation RateLimit AuthCache GrantStore Crypto Accounts ApiKeys AccountSafety AccountTheorems Servers LoginTracker Endpoints ApiBase ApiAuth ApiUsers ApiDevice ApiGroups ApiGrants ApiRoutes ApiSafety ApiOAuth ApiSlack.

Open Scope string_scope.
Open Scope Z_scope.
Open Scope api_scope.

Record GrantRequestEvent := {
  ev_Action : notice_action;
  ev_Request : GrantRequest;
  ev_Definition : option GrantDefinition;
  ev_Server : option Server;
  ev_Requester : option User;
  ev_Decider : option User;
  ev_RequesterSlackID : string;
  ev_AdminSlackIDs : list string;
  ev_DeciderSlackID : string;
  ev_Interactive : bool
}.

Record SlackNotifier := {
  nt_channel : string;
  nt_publicURL : string;
  nt_signingSecret : string;
  nt_interactive : bool
}.

Inductive notify_error := ErrChannelMissing | ErrPublicURLMissing | ErrSigningSecretWithoutBotToken | ErrAppTokenWithoutBotToken.

(** [strings.TrimRight(s, "/")] *)
Fixpoint trim_slashes (s : string) : string :=
  match s with
  | EmptyString => ""
  | String c r => let r := trim_slashes r in if Ascii.eqb c "/" && String.eqb r "" then "" else String c r
  end.

(** [None] is the notifier that does nothing. *)
Definition NewSlackNotifier (cfg : Configuration.SlackNotifyConfig) (publicURL : string) : res notify_error (option SlackNotifier) :=
  if negb (Configuration.SlackNotify_Enabled cfg) then
    if negb (String.eqb (Configuration.sn_SigningSecret cfg) "") then Err ErrSigningSecretWithoutBotToken
    else if negb (String.eqb (Configuration.sn_AppToken cfg) "") then Err ErrAppTokenWithoutBotToken
    else Ok None
  else if String.eqb (Configuration.sn_Channel cfg) "" then Err ErrChannelMissing
  else if String.eqb publicURL "" then Err ErrPublicURLMissing
  else Ok (Some {| nt_channel := Configuration.sn_Channel cfg; nt_publicURL := trim_slashes publicURL;
                   nt_signingSecret := Configuration.sn_SigningSecret cfg; nt_interactive := Configuration.Interactive cfg |}).

Definition notifier_Interactive (n : option SlackNotifier) : bool := match n with Some n => nt_interactive n | None => false end.
Definition SigningSecret (n : option SlackNotifier) : string := match n with Some n => nt_signingSecret n | None => "" end.

(** ** Messages *)

(** A button is its action and its value. *)
Inductive Block :=
| HeaderBlock (text : string)
| SectionBlock (mrkdwn : string)
| ActionBlock (id : string) (buttons : list (string * string))
| ContextBlock (mrkdwn : string).

Definition slackMention (slackID fallback : string) : string := if String.eqb slackID "" then fallback else "<@" ++ slackID ++ ">".
Definition userLabel (u : option User) : string := match u with Some u => u_Username u | None => "(unknown)" end.

Definition is_created (a : notice_action) : bool := match a with GrantActionCreated => true | _ => false end.
Definition isAutoApproved (ev : GrantRequestEvent) : bool :=
  match ev_Action ev, ev_Decider ev with GrantActionApproved, None => true | _, _ => false end.

Definition statusEmoji (ev : GrantRequestEvent) : string :=
  if isAutoApproved ev then "⚡"
  else match ev_Action ev with
       | GrantActionCreated => "🔐"
       | GrantActionApproved => "✅"
       | GrantActionDenied => "❌"
       | GrantActionCancelled => "🚫"
       end.

Definition action_text (a : notice_action) : string :=
  match a with GrantActionCreated => "created" | GrantActionApproved => "approved" | GrantActionDenied => "denied" | GrantActionCancelled => "cancelled" end.
Definition statusLabel (ev : GrantRequestEvent) : string :=
  if isAutoApproved ev then "auto-approved"
  else match ev_Action ev with GrantActionCreated => "pending" | a => action_text a end.
(** [strings.Title] of the action. *)
Definition action_title (a : notice_action) : string :=
  match a with GrantActionCreated => "Created" | GrantActionApproved => "Approved" | GrantActionDenied => "Denied" | GrantActionCancelled => "Cancelled" end.

(** The remainder is Go's. *)
Definition formatDuration (seconds : Z) : string :=
  if Z.rem seconds 86400 =? 0 then FormatInt (Z.quot seconds 86400) ++ "d"
  else if Z.rem seconds 3600 =? 0 then FormatInt (Z.quot seconds 3600) ++ "h"
  else if Z.rem seconds 60 =? 0 then FormatInt (Z.quot seconds 60) ++ "m"
  else FormatInt seconds ++ "s".

Definition newline : string := String (chr 10) "".

Definition mainSectionText (ev : GrantRequestEvent) : string :=
  let dbName := match ev_Server ev with Some s => d_Name s | None => "—" end in
  let defName := match ev_Definition ev with Some d => gd_Name d | None => "—" end in
  let durationText := match ev_Definition ev with Some d => formatDuration (gd_DurationSeconds d) | None => "" end in
  let mainText := "*Server*: " ++ dbName ++ newline ++ "*Definition*: " ++ defName ++ newline ++ "*Duration*: " ++ durationText
                  ++ newline ++ "*Status*: " ++ statusLabel ev in
  let decided := match ev_Decider ev with
                 | Some u => if is_created (ev_Action ev) then "" else newline ++ "*" ++ action_title (ev_Action ev) ++ " by*: " ++ u_Username u
                 | None => ""
                 end in
  let justification := if String.eqb (gr_Justification (ev_Request ev)) "" then ""
                       else newline ++ "*Justification*: " ++ gr_Justification (ev_Request ev) in
  let reason := match gr_DecisionReason (ev_Request ev) with
                | Some r => if String.eqb r "" then "" else newline ++ "*Reason*: " ++ r
                | None => ""
                end in
  mainText ++ decided ++ justification ++ reason.

Definition mentionLine (ev : GrantRequestEvent) : string :=
  if negb (is_created (ev_Action ev)) then ""
  else
    let requester := slackMention (ev_RequesterSlackID ev) (userLabel (ev_Requester ev)) in
    let dbName := match ev_Server ev with Some s => d_Name s | None => "—" end in
    let defName := match ev_Definition ev with Some d => gd_Name d | None => "access" end in
    requester ++ " requested access on *" ++ dbName ++ "* with *" ++ defName ++ "*."
    ++ match ev_AdminSlackIDs ev with
       | [] => ""
       | ids => " " ++ String.concat ", " (map (fun id => slackMention id "") ids) ++ " — please approve or deny."
       end.

Definition actionsBlock (requestUID : string) : Block :=
  ActionBlock "grant_request_actions" [(ActionApprove, requestUID); (ActionDeny, requestUID)].

Definition buildBlocks {UT : UUIDText} (ev : GrantRequestEvent) (publicURL : string) : list Block :=
  ([HeaderBlock (statusEmoji ev ++ " Grant request — " ++ userLabel (ev_Requester ev))]
   ++ (let mention := mentionLine ev in if String.eqb mention "" then [] else [SectionBlock mention])
   ++ [SectionBlock (mainSectionText ev)]
   ++ (if is_created (ev_Action ev) && ev_Interactive ev then [actionsBlock (uuid_String (gr_UID (ev_Request ev)))] else [])
   ++ [ContextBlock ("<" ++ publicURL ++ "/app/grant-requests|Review in dbbat →>")])%list.

(** ** Slack *)

Record Workspace := { messages : gmap (string * string) (list Block); replies : list (string * string * string) }.

Definition put_message (w : Workspace) (at_ : string * string) (b : list Block) : Workspace :=
  {| messages := <[at_ := b]> (messages w); replies := replies w |}.

Section Notify.
Context {UT : UUIDText}.
(** The place a posted message gets, and whether an update is accepted. *)
Variables (posted : option (string * string)) (updated : bool) (sql : nat -> bool).

Definition NotifyGrantRequest (n : option SlackNotifier) (ev : GrantRequestEvent) (w : Workspace) (d : DB) : Workspace * DB :=
  match n with
  | None => (w, d)
  | Some n =>
      let blocks := buildBlocks ev (nt_publicURL n) in
      if is_created (ev_Action ev) then
        match posted with
        | None => (w, d)
        | Some (channel, ts) =>
            (put_message w (channel, ts) blocks, (SetGrantRequestSlackMessage sql d (gr_UID (ev_Request ev)) channel ts).1)
        end
      else
        let channel := default "" (gr_SlackChannel (ev_Request ev)) in
        let ts := default "" (gr_SlackMessageTS (ev_Request ev)) in
        if String.eqb channel "" || String.eqb ts "" then
          (match posted with None => w | Some at_ => put_message w at_ blocks end, d)
        else (if updated then put_message w (channel, ts) blocks else w, d)
  end.

Definition PostThreadReply (n : option SlackNotifier) (channel ts text : string) (w : Workspace) : Workspace :=
  match n with
  | None => w
  | Some _ =>
      if String.eqb channel "" || String.eqb ts "" then w
      else match posted with None => w | Some _ => {| messages := messages w; replies := (channel, ts, text) :: replies w |} end
  end.
End Notify.

(** ** Events *)

Section Events.
Context {C : Collation} {A2 : Argon2} {GCM : AEAD} {HS : Hashes} {dig : Digest} {order : MapOrder}
  {UT : UUIDText} {SK : ScramKeys} {TT : TimeText}.
Variables (e : ReqEnv) (notifier : option SlackNotifier).

Definition slackIDForUser (site : nat) (userID : uuid) : H string :=
  do! r := query (fun d => GetUserIdentities (rq_sql e site) d userID) in
  hret match r with
       | Ok identities => match List.find (fun i => String.eqb (i_Provider i) IdentityTypeSlack) identities with
                          | Some i => i_ProviderID i
                          | None => ""
                          end
       | _ => ""
       end.

Definition deciderSlackID (decider : option User) : H string :=
  match decider with None => hret "" | Some u => slackIDForUser 24 (u_UID u) end.

Definition ok_or_none {X A} (r : res X A) : option A := match r with Ok a => Some a | _ => None end.

(** The action is set by the caller. *)
Definition loadEventContext (action : notice_action) (req : GrantRequest) (decider : option User) : H GrantRequestEvent :=
  do! def := query_grants (fun d => GetGrantDefinition (rq_sql e 20) d (gr_GrantDefinitionID req)) in
  do! db := query_servers (fun d => GetServerByUID (rq_sql e 21 0%nat) d (gr_DatabaseID req)) in
  do! u := query (fun d => GetUserByUID (rq_sql e 22) d (gr_UserID req)) in
  do! ' (requester, decider_id, admins) :=
    (if notifier_Interactive notifier then
       do! requester := slackIDForUser 23 (gr_UserID req) in
       do! decider_id := deciderSlackID decider in
       do! admins := query (fun d => ListAdminSlackUserIDs (rq_sql e 25) d) in
       hret (requester, decider_id, default [] (ok_or_none admins))
     else hret ("", "", [])) in
  hret {| ev_Action := action; ev_Request := req; ev_Definition := ok_or_none def; ev_Server := ok_or_none db;
          ev_Requester := ok_or_none u; ev_Decider := decider; ev_RequesterSlackID := requester; ev_AdminSlackIDs := admins;
          ev_DeciderSlackID := decider_id; ev_Interactive := notifier_Interactive notifier |}.

(** The reply under the message of a request that was decided by a click. *)
Definition postThreadReply (posted : option (string * string)) (ev : GrantRequestEvent) (action : notice_action) (w : Workspace) : Workspace :=
  PostThreadReply posted notifier (default "" (gr_SlackChannel (ev_Request ev))) (default "" (gr_SlackMessageTS (ev_Request ev)))
    (threadReplyText action (ev_DeciderSlackID ev) (ev_Decider ev)) w.
End Events.

(** * Theorems *)

Section Buttons.
Context {UT : UUIDText} {SL : SlackLibrary}.
Hypothesis parse_String : forall u, uuid_Parse (uuid_String u) = Some u.

Definition clicked (id value by_ responseURL : string) : InteractionCallback :=
  {| cb_Type := InteractionTypeBlockActions; cb_UserID := by_; cb_ResponseURL := responseURL; cb_BlockActions := [Some (id, value)] |}.

Lemma action_block_shape ev url name buttons :
  In (ActionBlock name buttons) (buildBlocks ev url) ->
  ev_Action ev = GrantActionCreated /\ ev_Interactive ev = true /\
  buttons = [(ActionApprove, uuid_String (gr_UID (ev_Request ev))); (ActionDeny, uuid_String (gr_UID (ev_Request ev)))].
Proof.
  unfold buildBlocks. rewrite !in_app_iff. intros [H|[H|[H|[H|H]]]].
  - by destruct H.
  - cbv zeta in H. destruct (String.eqb _ _); [done|]. by destruct H.
  - by destruct H.
  - destruct (is_created (ev_Action ev)) eqn:Ea, (ev_Interactive ev); try done. destruct H as [[= <- <-]|[]]. split_and!; try done.
    by destruct (ev_Action ev).
  - by destruct H.
Qed.

(** What is rendered is what is decided.  A message carries buttons only for a
    request that has just been made, and a click on one of them is read back as the
    decision it names on exactly the request the message is about. *)
Theorem rendered_buttons_decide ev url name buttons id value by_ responseURL :
  In (ActionBlock name buttons) (buildBlocks ev url) -> In (id, value) buttons ->
  ev_Action ev = GrantActionCreated /\ ev_Interactive ev = true /\
  exists approve, slackDecisionFromCallback (clicked id value by_ responseURL) = Some (approve, gr_UID (ev_Request ev)) /\
    (approve = true <-> id = ActionApprove).
Proof.
  intros H Hb. apply action_block_shape in H as (H1 & H2 & ->). split; [done|]. split; [done|].
  destruct Hb as [[= <- <-]|[[= <- <-]|[]]]; [exists true|exists false]; unfold slackDecisionFromCallback, clicked; cbn [cb_Type cb_BlockActions first_action];
    rewrite String.eqb_refl; cbn [first_action]; [rewrite String.eqb_refl|rewrite (proj2 (String.eqb_neq ActionDeny ActionApprove)), String.eqb_refl by done];
    rewrite parse_String; by split.
Qed.

(** A decision takes the buttons off the message that is known for its request, and
    touches no other message and no table. *)
Theorem decision_clears_buttons posted sql n ev w d channel ts :
  ev_Action ev <> GrantActionCreated -> gr_SlackChannel (ev_Request ev) = Some channel -> gr_SlackMessageTS (ev_Request ev) = Some ts ->
  channel <> "" -> ts <> "" ->
  exists blocks, NotifyGrantRequest posted true sql (Some n) ev w d = (put_message w (channel, ts) blocks, d) /\
    Forall (fun b => forall name buttons, b <> ActionBlock name buttons) blocks.
Proof.
  intros Ha Hc Ht Hcn Htn. exists (buildBlocks ev (nt_publicURL n)). unfold NotifyGrantRequest. rewrite Hc, Ht. change (default "" (Some channel)) with channel. change (default "" (Some ts)) with ts.
  assert (is_created (ev_Action ev) = false) as -> by by destruct (ev_Action ev).
  rewrite (proj2 (String.eqb_neq _ _) Hcn), (proj2 (String.eqb_neq _ _) Htn). cbn [orb]. split; [done|].
  apply Forall_forall. intros b Hb name buttons ->. apply list_elem_of_In, action_block_shape in Hb as [? _]. done.
Qed.
End Buttons.

(** The duration says exactly the seconds, in the largest unit that divides them. *)
Theorem duration_exact seconds :
  exists n unit factor, formatDuration seconds = FormatInt n ++ unit /\ n * factor = seconds /\
    In (unit, factor) [("d", 86400); ("h", 3600); ("m", 60); ("s", 1)].
Proof.
  unfold formatDuration.
  destruct (Z.eqb_spec (Z.rem seconds 86400) 0) as [E|_]; [exists (Z.quot seconds 86400), "d", 86400; pose proof (Z.quot_rem' seconds 86400); split_and!; [done|lia|cbn; auto]|].
  destruct (Z.eqb_spec (Z.rem seconds 3600) 0) as [E|_]; [exists (Z.quot seconds 3600), "h", 3600; pose proof (Z.quot_rem' seconds 3600); split_and!; [done|lia|cbn; auto]|].
  destruct (Z.eqb_spec (Z.rem seconds 60) 0) as [E|_]; [exists (Z.quot seconds 60), "m", 60; pose proof (Z.quot_rem' seconds 60); split_and!; [done|lia|cbn; auto]|].
  exists seconds, "s", 1. split_and!; [done|lia|cbn; auto].
Qed.

(** A notifier is made exactly when there is a bot token with a channel and a public
    URL; without the token the settings that need one are refused. *)
Theorem notifier_made cfg url n :
  NewSlackNotifier cfg url = Ok n ->
  match n with
  | Some n => Configuration.sn_BotToken cfg <> "" /\ nt_channel n <> "" /\ url <> "" /\ nt_interactive n = Configuration.Interactive cfg
  | None => Configuration.sn_BotToken cfg = "" /\ Configuration.sn_SigningSecret cfg = "" /\ Configuration.sn_AppToken cfg = ""
  end.
Proof.
  unfold NewSlackNotifier, Configuration.SlackNotify_Enabled. destruct (String.eqb_spec (Configuration.sn_BotToken cfg) "") as [->|Hb]; cbn [negb].
  - destruct (String.eqb_spec (Configuration.sn_SigningSecret cfg) "") as [->|]; [|done]. cbn [negb].
    destruct (String.eqb_spec (Configuration.sn_AppToken cfg) "") as [->|]; [|done]. by intros [= <-].
  - destruct (String.eqb_spec (Configuration.sn_Channel cfg) ""); [done|]. destruct (String.eqb_spec url ""); [done|]. by intros [= <-].
Qed.

(** ** A channel *)

Module SampleChannel.
Import ApiSample SampleSlack.
Definition notifier : SlackNotifier := {| nt_channel := "#dbbat"; nt_publicURL := "https://d"; nt_signingSecret := "shh"; nt_interactive := true |}.
Definition asked : GrantRequest :=
  match grant_requests sample_db1 !! 20%N with Some r => r | None => sample_request end.
Definition event (a : notice_action) (r : GrantRequest) : GrantRequestEvent :=
  {| ev_Action := a; ev_Request := r; ev_Definition := Some sample_definition; ev_Server := None; ev_Requester := None; ev_Decider := None;
     ev_RequesterSlackID := "UBOB"; ev_AdminSlackIDs := ["UALICE"]; ev_DeciderSlackID := ""; ev_Interactive := true |}.
Definition empty : Workspace := {| messages := ∅; replies := [] |}.
Definition after_post := NotifyGrantRequest (Some ("C1", "1.0")) true all_ok (Some notifier) (event GrantActionCreated asked) empty sample_db1.
Definition has_buttons (w : Workspace) (at_ : string * string) : bool :=
  match messages w !! at_ with Some bs => existsb (fun b => match b with ActionBlock _ _ => true | _ => false end) bs | None => false end.
Definition now_asked : GrantRequest := match grant_requests after_post.2 !! 20%N with Some r => r | None => asked end.

Example posted_with_buttons : has_buttons after_post.1 ("C1", "1.0") = true.
Proof. vm_compute. reflexivity. Qed.
Example denied_without : has_buttons (NotifyGrantRequest (Some ("C1", "2.0")) true all_ok (Some notifier) (event GrantActionDenied now_asked) after_post.1 after_post.2).1 ("C1", "1.0") = false.
Proof. vm_compute. reflexivity. Qed.
(** A decision whose row was read before the place of the message was stored leaves the
    buttons standing and posts a message of its own. *)
Example race_leaves_buttons :
  let w := (NotifyGrantRequest (Some ("C1", "2.0")) true all_ok (Some notifier) (event GrantActionDenied asked) after_post.1 after_post.2).1 in
  has_buttons w ("C1", "1.0") = true /\ is_Some (messages w !! ("C1", "2.0")).
Proof. split; vm_compute; eauto. Qed.
(** Text of the requester stands in the message as it is. *)
Example forged_status :
  mainSectionText (event GrantActionCreated
    {| gr_UID := 1%N; gr_UserID := 2%N; gr_GrantDefinitionID := 3%N; gr_DatabaseID := 4%N; gr_Justification := "<!channel>"; gr_Status := GrantRequestPending;
       gr_RequestedAt := 0; gr_DecidedAt := None; gr_DecidedBy := None; gr_DecisionReason := None; gr_ResultingGrantID := None;
       gr_SlackChannel := None; gr_SlackMessageTS := None |}) =
  "*Server*: —" ++ newline ++ "*Definition*: read prod" ++ newline ++ "*Duration*: 1h" ++ newline ++ "*Status*: pending" ++ newline ++ "*Justification*: <!channel>".
Proof. vm_compute. reflexivity. Qed.
(** An expired request would be rendered like a new one, with buttons. *)
Example expired_has_buttons : actionForStatus GrantRequestExpired = GrantActionCreated.
Proof. reflexivity. Qed.
End SampleChannel.

(** With the identifiers of [SampleServers], which are as long as they are large. *)
Definition length_library : SlackLibrary :=
  {| NewSecretsVerifier _ _ := None; InteractionCallbackParse _ := None; uuid_Parse s := Some (N.of_nat (String.length s)) |}.

Lemma length_parse u : @uuid_Parse length_library (@uuid_String SampleServers.ss_uuid u) = Some u.
Proof.
  cbn. assert (Hl : forall n, String.length (string_of_list_ascii (replicate n "x"%char)) = n) by (induction n; cbn; congruence).
  by rewrite Hl, N2Nat.id.
Qed.

Lemma rendered_buttons_decide_witness :
  exists approve, @slackDecisionFromCallback length_library (clicked ActionDeny "xxxxxxxxxxxxxxxxxxxx" "UALICE" "") = Some (approve, 20%N).
Proof.
  destruct (@rendered_buttons_decide SampleServers.ss_uuid length_library length_parse
    (SampleChannel.event GrantActionCreated SampleChannel.asked) "https://d" "grant_request_actions"
    [(ActionApprove, "xxxxxxxxxxxxxxxxxxxx"); (ActionDeny, "xxxxxxxxxxxxxxxxxxxx")] ActionDeny "xxxxxxxxxxxxxxxxxxxx" "UALICE" "") as (_ & _ & approve & H & _).
  - vm_compute. auto 6.
  - cbn. auto.
  - exists approve. exact H.
Defined.
