(* ===== verification/Listeners.v ===== *)
(** * The listeners of the four proxies ([internal/proxy/*/server.go])

    The four servers share one shape: [Start] binds, publishes the listener and
    accepts; every connection is served by a goroutine counted in a wait group;
    [Shutdown] closes a channel, cancels the context, closes the listener and waits
    for the count to fall to zero.  The goroutines are program counters of one state
    and every event is one atomic action of one of them, so a schedule is a list of
    events.  The Oracle server also counts [Start] itself and recovers from the
    panics of its sessions. *)

From Stdlib Require Import ZArith Lia List Bool String.
From stdpp Require Import base list gmap relations.
From S2P Require Import Prelude Models Dump Configuration.

Open Scope string_scope.
Open Scope Z_scope.

Inductive Proxy := PostgreSQL | MySQL | MongoDB | Oracle.
#[global] Instance Proxy_eq : EqDecision Proxy.
Proof. solve_decision. Defined.

(** ** TLS for the clients

    Reading a key pair and making a certificate belong to Go's crypto library. *)

Section TLS.
Context {Cert RSAKey Der PemBlock : Type}.
(** [tls.LoadX509KeyPair] with the key of the pair when it is an RSA key; [os.ReadFile]
    cut into PEM blocks; the two formats of a private key, the second of which need not
    hold an RSA key; [rsa.GenerateKey], the random serial number,
    [x509.CreateCertificate] with the name of the proxy, and a certificate of its parts. *)
Variables (LoadX509KeyPair : string -> string -> option (Cert * option RSAKey))
  (ReadFile : string -> option (list PemBlock))
  (ParsePKCS1PrivateKey : PemBlock -> option RSAKey) (ParsePKCS8PrivateKey : PemBlock -> option (option RSAKey))
  (GenerateKey : option RSAKey) (serial : option Z) (CreateCertificate : string -> Z -> RSAKey -> option Der)
  (certificate : Der -> RSAKey -> Cert).

Inductive tls_error := ErrTLSConfigInvalid | LoadFailed | KeyFailed | SerialFailed | CertFailed.

Definition generateSelfSignedTLS (name : string) : res tls_error (Cert * RSAKey) :=
  match GenerateKey with
  | None => Err KeyFailed
  | Some priv =>
      match serial with
      | None => Err SerialFailed
      | Some n => match CreateCertificate name n priv with None => Err CertFailed | Some der => Ok (certificate der priv, priv) end
      end
  end.

Definition both_set (cfg : TLSConfig) : bool := negb (String.eqb (tl_CertFile cfg) "") && negb (String.eqb (tl_KeyFile cfg) "").
Definition both_empty (cfg : TLSConfig) : bool := String.eqb (tl_CertFile cfg) "" && String.eqb (tl_KeyFile cfg) "".

(** PostgreSQL; MongoDB has the same function under another name. *)
Definition loadTLSFromFiles (certFile keyFile : string) : res tls_error (option Cert) :=
  match LoadX509KeyPair certFile keyFile with Some (cert, _) => Ok (Some cert) | None => Err LoadFailed end.
Definition loadTLS (name : string) (cfg : TLSConfig) : res tls_error (option Cert) :=
  if tl_Disable cfg then Ok None
  else if both_set cfg then loadTLSFromFiles (tl_CertFile cfg) (tl_KeyFile cfg)
  else if both_empty cfg then let! ' (cert, _) := generateSelfSignedTLS name in Ok (Some cert)
  else Err ErrTLSConfigInvalid.
Definition postgresql_loadTLS : TLSConfig -> res tls_error (option Cert) := loadTLS "dbbat-pg-proxy".
Definition mongodb_loadTLSConfig : TLSConfig -> res tls_error (option Cert) := loadTLS "dbbat-mongodb-proxy".

(** MySQL also wants the RSA key, for clients without TLS. *)
Fixpoint parseRSAFromPEM (blocks : list PemBlock) : option RSAKey :=
  match blocks with
  | [] => None
  | b :: rest =>
      match ParsePKCS1PrivateKey b with
      | Some k => Some k
      | None => match ParsePKCS8PrivateKey b with Some (Some k) => Some k | _ => parseRSAFromPEM rest end
      end
  end.
Definition mysql_loadTLSFromFiles (certFile keyFile : string) : res tls_error (option Cert * option RSAKey) :=
  match LoadX509KeyPair certFile keyFile with
  | None => Err LoadFailed
  | Some (cert, Some key) => Ok (Some cert, Some key)
  | Some (cert, None) => Ok (Some cert, match ReadFile keyFile with Some raw => parseRSAFromPEM raw | None => None end)
  end.
Definition loadTLSAndRSA (cfg : TLSConfig) : res tls_error (option Cert * option RSAKey) :=
  if tl_Disable cfg then Ok (None, None)
  else if both_set cfg then mysql_loadTLSFromFiles (tl_CertFile cfg) (tl_KeyFile cfg)
  else if both_empty cfg then let! ' (cert, key) := generateSelfSignedTLS "dbbat-mysql-proxy" in Ok (Some cert, Some key)
  else Err ErrTLSConfigInvalid.

(** A server without a certificate exists only where TLS was switched off; a pair with
    one half missing, or one that does not load, stops the start. *)
Theorem listener_tls_fails_closed name cfg :
  (loadTLS name cfg = Ok None <-> tl_Disable cfg = true) /\
  ((exists key, loadTLSAndRSA cfg = Ok (None, key)) <-> tl_Disable cfg = true) /\
  (tl_Disable cfg = false -> String.eqb (tl_CertFile cfg) "" <> String.eqb (tl_KeyFile cfg) "" ->
   loadTLS name cfg = Err ErrTLSConfigInvalid /\ loadTLSAndRSA cfg = Err ErrTLSConfigInvalid).
Proof.
  unfold loadTLS, loadTLSAndRSA, mysql_loadTLSFromFiles, loadTLSFromFiles, generateSelfSignedTLS, both_set, both_empty.
  destruct (tl_Disable cfg); [naive_solver|]. destruct (String.eqb (tl_CertFile cfg) ""), (String.eqb (tl_KeyFile cfg) ""); cbn [andb negb].
  - destruct GenerateKey; [|naive_solver]. destruct serial; [|naive_solver]. cbn.
    destruct (CreateCertificate _ _ _), (CreateCertificate "dbbat-mysql-proxy" _ _); cbn; naive_solver.
  - naive_solver.
  - naive_solver.
  - destruct (LoadX509KeyPair (tl_CertFile cfg) (tl_KeyFile cfg)) as [[? [?|]]|]; naive_solver.
Qed.
End TLS.

(** ** The state *)

(** Where [Start] stands: [Binding] is before [net.Listen], [Bound] before the listener
    is published, [Accepted] between [Accept] and the count, [AcceptFailed] before the
    look at the shutdown channel. *)
Inductive start_point :=
| NotStarted | Binding | Bound | Accepting | Accepted (conn : nat) | AcceptFailed | Returned (err : bool).

(** Where [Shutdown] stands: after [close(s.shutdown)], after the cancellation, with the
    listener in hand, waiting for the group. *)
Inductive shutdown_point :=
| NotShut | Signalled | Cancelled | GotListener | Waiting | ShutReturned (err : bool).

Inductive os_listener := NotOpen | Open | Closed.
Inductive serving := Serving | Ended.

Record Server := {
  start : start_point;
  shut : shutdown_point;
  listening : os_listener;           (* the socket *)
  listener : bool;                   (* s.listener is set *)
  shutdown : bool;                   (* the channel is closed *)
  cancelled : bool;                  (* the context of the sessions *)
  wg : Z;
  waited : bool;                     (* wg.Wait has returned *)
  sessions : gmap nat serving;
  closed : gset nat;                 (* client connections closed by the proxy *)
  cleaning : bool;                   (* runDumpCleanup *)
  files : list dir_entry;
  crashed : bool                     (* the process has died *)
}.

Definition NewServer (dumps : list dir_entry) : Server :=
  {| start := NotStarted; shut := NotShut; listening := NotOpen; listener := false; shutdown := false; cancelled := false;
     wg := 0; waited := false; sessions := ∅; closed := ∅; cleaning := false; files := dumps; crashed := false |}.

Definition with_start p s := {| start := p; shut := shut s; listening := listening s; listener := listener s; shutdown := shutdown s; cancelled := cancelled s; wg := wg s; waited := waited s; sessions := sessions s; closed := closed s; cleaning := cleaning s; files := files s; crashed := crashed s |}.
Definition with_shut p s := {| start := start s; shut := p; listening := listening s; listener := listener s; shutdown := shutdown s; cancelled := cancelled s; wg := wg s; waited := waited s; sessions := sessions s; closed := closed s; cleaning := cleaning s; files := files s; crashed := crashed s |}.
Definition with_listening l st s := {| start := start s; shut := shut s; listening := l; listener := st; shutdown := shutdown s; cancelled := cancelled s; wg := wg s; waited := waited s; sessions := sessions s; closed := closed s; cleaning := cleaning s; files := files s; crashed := crashed s |}.
Definition with_signal a b s := {| start := start s; shut := shut s; listening := listening s; listener := listener s; shutdown := a; cancelled := b; wg := wg s; waited := waited s; sessions := sessions s; closed := closed s; cleaning := cleaning s; files := files s; crashed := crashed s |}.
Definition with_wg n w s := {| start := start s; shut := shut s; listening := listening s; listener := listener s; shutdown := shutdown s; cancelled := cancelled s; wg := n; waited := w; sessions := sessions s; closed := closed s; cleaning := cleaning s; files := files s; crashed := crashed s |}.
Definition with_sessions m c s := {| start := start s; shut := shut s; listening := listening s; listener := listener s; shutdown := shutdown s; cancelled := cancelled s; wg := wg s; waited := waited s; sessions := m; closed := c; cleaning := cleaning s; files := files s; crashed := crashed s |}.
Definition with_dumps c fs s := {| start := start s; shut := shut s; listening := listening s; listener := listener s; shutdown := shutdown s; cancelled := cancelled s; wg := wg s; waited := waited s; sessions := sessions s; closed := closed s; cleaning := c; files := fs; crashed := crashed s |}.
Definition crash s := {| start := start s; shut := shut s; listening := listening s; listener := listener s; shutdown := shutdown s; cancelled := cancelled s; wg := wg s; waited := waited s; sessions := sessions s; closed := closed s; cleaning := cleaning s; files := files s; crashed := true |}.

(** ** The events *)

Inductive event :=
| CallStart | Listen (ok : bool) | Publish (mkdir_ok : bool) | Accept (conn : nat) | AcceptError | LookAtShutdown | Spawn
| SessionReturns (conn : nat) | SessionPanics (conn : nat) | SessionDone (conn : nat)
| CallShutdown | CancelContext | GetListener | CloseListener | WaitReturns | SeeDone | Deadline
| CleanTick (now : time) | CleanStop.

(** The retention when the configured text does not parse. *)
Definition retention_or_default (parsed : option Z) : Z := default (24 * 3600 * 1000000000) parsed.

Section Server.
Variables (proxy : Proxy)
  (dump_dir : bool)                  (* a directory of dumps is configured *)
  (retention : option Z).            (* the configured retention, when it parses *)

(** The Oracle server holds a place in the group while [Start] runs. *)
Definition start_slot : Z := if decide (proxy = Oracle) then 1 else 0.
(** PostgreSQL and Oracle make the directory first. *)
Definition cleanup_starts (mkdir_ok : bool) : bool :=
  dump_dir && match proxy with PostgreSQL | Oracle => mkdir_ok | _ => true end.

Definition return_start (err : bool) (s : Server) : Server :=
  with_wg (wg s - start_slot) (waited s) (with_start (Returned err) s).

(** The goroutine of [Start]. *)
Definition start_step (e : event) (s : Server) : option Server :=
  match e, start s with
  | CallStart, NotStarted => Some (with_wg (wg s + start_slot) (waited s) (with_start Binding s))
  | Listen true, Binding => Some (with_listening Open (listener s) (with_start Bound s))
  | Listen false, Binding => Some (return_start true s)
  | Publish mkdir_ok, Bound =>
      Some (with_dumps (cleanup_starts mkdir_ok) (files s) (with_listening (listening s) true (with_start Accepting s)))
  | Accept conn, Accepting =>
      match listening s with
      | Open => if bool_decide (conn ∈ dom (sessions s) ∪ closed s) then None else Some (with_start (Accepted conn) s)
      | _ => None
      end
  | AcceptError, Accepting => Some (with_start AcceptFailed s)
  | LookAtShutdown, AcceptFailed => Some (if shutdown s then return_start false s else with_start Accepting s)
  | Spawn, Accepted conn =>
      Some (with_sessions (<[conn := Serving]> (sessions s)) (closed s) (with_wg (wg s + 1) (waited s) (with_start Accepting s)))
  | _, _ => None
  end.

(** [handleConnection]: the connection of the client is closed however the session ends. *)
Definition end_session (conn : nat) (s : Server) : Server :=
  with_sessions (<[conn := Ended]> (sessions s)) ({[conn]} ∪ closed s) s.

Definition session_step (e : event) (s : Server) : option Server :=
  match e with
  | SessionReturns conn => match sessions s !! conn with Some Serving => Some (end_session conn s) | _ => None end
  | SessionPanics conn =>
      match sessions s !! conn with
      | Some Serving => Some (if decide (proxy = Oracle) then end_session conn s else crash (end_session conn s))
      | _ => None
      end
  | SessionDone conn =>
      match sessions s !! conn with
      | Some Ended => Some (with_sessions (delete conn (sessions s)) (closed s) (with_wg (wg s - 1) (waited s) s))
      | _ => None
      end
  | _ => None
  end.

(** [Shutdown] and the goroutine that waits for it; closing a closed channel panics. *)
Definition shutdown_step (e : event) (s : Server) : option Server :=
  match e, shut s with
  | CallShutdown, NotShut => Some (with_signal true (cancelled s) (with_shut Signalled s))
  | CallShutdown, _ => Some (crash s)
  | CancelContext, Signalled => Some (with_signal (shutdown s) true (with_shut Cancelled s))
  | GetListener, Cancelled => Some (with_shut (if listener s then GotListener else Waiting) s)
  | CloseListener, GotListener => Some (with_listening Closed (listener s) (with_shut Waiting s))
  | WaitReturns, (Waiting | ShutReturned _) => if negb (waited s) && (wg s =? 0) then Some (with_wg (wg s) true s) else None
  | SeeDone, Waiting => if waited s then Some (with_shut (ShutReturned false) s) else None
  | Deadline, Waiting => Some (with_shut (ShutReturned true) s)
  | _, _ => None
  end.

Definition runDumpCleanup (e : event) (s : Server) : option Server :=
  match e with
  | CleanTick now => if cleaning s then Some (with_dumps true (CleanupOldFiles (files s) (now - retention_or_default retention)).1 s) else None
  | CleanStop => if cleaning s && shutdown s then Some (with_dumps false (files s) s) else None
  | _ => None
  end.

Definition step (e : event) (s : Server) : option Server :=
  if crashed s then None
  else match start_step e s with
       | Some s' => Some s'
       | None => match session_step e s with
                 | Some s' => Some s'
                 | None => match shutdown_step e s with Some s' => Some s' | None => runDumpCleanup e s end
                 end
       end.

Fixpoint run (es : list event) (s : Server) : option Server :=
  match es with [] => Some s | e :: es => match step e s with Some s' => run es s' | None => None end end.


(** ** Theorems *)

Definition start_runs (p : start_point) : bool := match p with NotStarted | Returned _ => false | _ => true end.
Definition published (p : start_point) : bool := match p with NotStarted | Binding | Bound | Returned true => false | _ => true end.
Definition bound (p : start_point) : bool := match p with NotStarted | Binding | Returned true => false | _ => true end.
Definition began (p : shutdown_point) : bool := match p with NotShut => false | _ => true end.
Definition in_hand (p : start_point) : option nat := match p with Accepted conn => Some conn | _ => None end.

Record well_formed (s : Server) : Prop := {
  wf_count : wg s = Z.of_nat (size (sessions s)) + (if start_runs (start s) then start_slot else 0);
  wf_published : listener s = published (start s);
  wf_bound : listening s = NotOpen <-> bound (start s) = false;
  wf_shutdown : shutdown s = began (shut s);
  wf_hand : forall conn, in_hand (start s) = Some conn -> sessions s !! conn = None /\ conn ∉ closed s;
  wf_sessions : forall conn v, sessions s !! conn = Some v -> conn ∈ closed s <-> v = Ended;
  wf_got : shut s = GotListener -> listener s = true
}.

(** One goal for every way the equation [H] can hold. *)
Ltac ways H :=
  repeat match type of H with
         | context [match ?x with _ => _ end] => let E := fresh "E" in destruct x eqn:E; simplify_eq/=
         end.
Ltac settle := unfold return_start, end_session, crash in *; cbn in *; simplify_eq/=; try done; try lia; try congruence; try (split; congruence).

Lemma new_well_formed dumps : well_formed (NewServer dumps).
Proof. by constructor. Qed.

Lemma size_update (m : gmap nat serving) conn v w : m !! conn = Some v -> size (<[conn := w]> m) = size m.
Proof. intros H. by apply map_size_insert_Some; rewrite H. Qed.
Lemma size_removed (m : gmap nat serving) conn v : m !! conn = Some v -> Z.of_nat (size (delete conn m)) = Z.of_nat (size m) - 1.
Proof. intros H. rewrite <- (insert_delete_id m conn v H) at 2. rewrite map_size_insert_None by apply lookup_delete_eq. lia. Qed.

Lemma start_step_wf e s s' : start_step e s = Some s' -> well_formed s -> well_formed s'.
Proof.
  intros H [W1 W2 W3 W4 W5 W6 W7]. unfold start_step in H.
  ways H; try match goal with |- context [if ?b then _ else _] => destruct b eqn:? end; constructor; settle.
  - intros ? [= <-]. apply bool_decide_eq_false in E1. rewrite elem_of_union, elem_of_dom in E1. split; [|set_solver].
    destruct (sessions s !! conn) eqn:Hc; [|done]. destruct E1. left. by eexists.
  - destruct (W5 conn eq_refl) as [Hn _]. rewrite map_size_insert_None by done. lia.
  - destruct (W5 conn eq_refl) as [_ Hn]. intros c v. destruct (decide (c = conn)) as [->|Hc].
    + rewrite lookup_insert_eq. intros [= <-]. split; done.
    + rewrite lookup_insert_ne by done. apply W6.
Qed.

Lemma end_session_wf conn s : sessions s !! conn = Some Serving -> well_formed s -> well_formed (end_session conn s).
Proof.
  intros H [W1 W2 W3 W4 W5 W6 W7]. constructor; settle.
  - by rewrite (size_update _ _ _ _ H).
  - intros c Hc. destruct (W5 c Hc) as [Hn Hm]. destruct (decide (c = conn)) as [->|Hne]; [congruence|].
    rewrite lookup_insert_ne by done. split; [done|set_solver].
  - intros c v. destruct (decide (c = conn)) as [->|Hc].
    + rewrite lookup_insert_eq. intros [= <-]. set_solver.
    + rewrite lookup_insert_ne by done. intros Hv. rewrite <- (W6 c v Hv). set_solver.
Qed.
Lemma crash_wf s : well_formed s -> well_formed (crash s).
Proof. intros [W1 W2 W3 W4 W5 W6 W7]. by constructor. Qed.

Lemma session_step_wf e s s' : session_step e s = Some s' -> well_formed s -> well_formed s'.
Proof.
  intros H W. unfold session_step in H. destruct e; try done; ways H.
  - by apply end_session_wf.
  - destruct (decide _); [|apply crash_wf]; by apply end_session_wf.
  - destruct W as [W1 W2 W3 W4 W5 W6 W7]. constructor; settle.
    + rewrite (size_removed _ _ _ E). lia.
    + intros c Hc. destruct (W5 c Hc) as [Hn Hm]. split; [|done]. by apply lookup_delete_None; right.
    + intros c v. rewrite lookup_delete_Some. intros [_ Hv]. by apply W6.
Qed.

Lemma shutdown_step_wf e s s' : shutdown_step e s = Some s' -> well_formed s -> well_formed s'.
Proof.
  intros H [W1 W2 W3 W4 W5 W6 W7]. unfold shutdown_step in H.
  ways H; try match goal with |- context [if ?b then _ else _] => destruct b eqn:? end; constructor; settle;
    try (rewrite E; done).
  split; [done|]. intros Hb. rewrite W7 in W2 by done. destruct (start s) as [| | | | | |[]]; done.
Qed.

Lemma cleanup_wf e s s' : runDumpCleanup e s = Some s' -> well_formed s -> well_formed s'.
Proof.
  intros H [W1 W2 W3 W4 W5 W6 W7]. unfold runDumpCleanup in H.
  destruct e; try done.
  - destruct (cleaning s); simplify_eq/=. by constructor.
  - destruct (cleaning s && shutdown s); simplify_eq/=. by constructor.
Qed.

(** The four goroutines of a step. *)
Lemma step_inv e s s' :
  step e s = Some s' ->
  crashed s = false /\ (start_step e s = Some s' \/ session_step e s = Some s' \/ shutdown_step e s = Some s' \/ runDumpCleanup e s = Some s').
Proof.
  unfold step. destruct (crashed s); [done|]. intros H. split; [done|].
  destruct (start_step e s); [by left|]. right. destruct (session_step e s); [by left|]. right.
  destruct (shutdown_step e s); [by left|by right].
Qed.

Lemma step_wf e s s' : step e s = Some s' -> well_formed s -> well_formed s'.
Proof.
  intros (_ & [H|[H|[H|H]]])%step_inv; eauto using start_step_wf, session_step_wf, shutdown_step_wf, cleanup_wf.
Qed.

Lemma run_wf es s s' : run es s = Some s' -> well_formed s -> well_formed s'.
Proof.
  revert s. induction es as [|e es IH]; intros s H W; [by simplify_eq/=|]. cbn in H.
  destruct (step e s) eqn:E; [|done]. eauto using step_wf.
Qed.

(** The wait group counts exactly the sessions that are still there, and for Oracle
    the accept loop as well, however the goroutines interleave; so it is never negative
    and falls to zero only when the last session is gone. *)
Theorem group_counts es dumps s :
  run es (NewServer dumps) = Some s ->
  wg s = Z.of_nat (size (sessions s)) + (if start_runs (start s) then start_slot else 0) /\
  0 <= wg s /\ (wg s = 0 -> sessions s = ∅ /\ (proxy = Oracle -> start_runs (start s) = false)).
Proof.
  intros H. apply run_wf in H; [|apply new_well_formed]. destruct H as [W _ _ _ _ _ _]. split; [done|].
  assert (0 <= start_slot) by (unfold start_slot; by destruct (decide _)).
  rewrite W. destruct (start_runs (start s)); split; try lia; intros Hz; (split; [apply map_size_empty_inv; lia|]); intros Ho; try done.
  unfold start_slot in *. rewrite decide_True in * by done. lia.
Qed.

(** *** After the listener is closed *)

(** What the goroutine of [Start] has still to do once the listener is closed. *)
Definition start_left (p : start_point) : nat :=
  match p with Accepted _ => 3 | Accepting => 2 | AcceptFailed => 1 | _ => 0 end.
Definition spawns (es : list event) : nat := length (List.filter (fun e => match e with Spawn => true | _ => false end) es).
Definition of_start (e : event) : bool :=
  match e with CallStart | Listen _ | Publish _ | Accept _ | AcceptError | LookAtShutdown | Spawn => true | _ => false end.

(** The listener is closed and was handed to [Shutdown], so [Start] is past [Publish]. *)
Definition draining (s : Server) : Prop := listening s = Closed /\ shutdown s = true /\ published (start s) = true.

Lemma draining_start e s s' :
  start_step e s = Some s' -> draining s -> draining s' /\ (start_left (start s') < start_left (start s))%nat /\
  (e = Spawn -> (3 <= start_left (start s))%nat).
Proof.
  intros H (D1 & D2 & D3). unfold start_step in H. ways H; unfold draining; try rewrite D2; cbn in *; try done; simplify_eq; split_and!; try done; lia.
Qed.
Lemma other_keeps e s s' :
  session_step e s = Some s' \/ shutdown_step e s = Some s' \/ runDumpCleanup e s = Some s' ->
  start s' = start s /\ (shutdown s = true -> shutdown s' = true) /\ (listening s = Closed -> listening s' = Closed).
Proof.
  unfold session_step, shutdown_step, runDumpCleanup, end_session, crash. intros [H|[H|H]].
  - destruct e; try done; ways H; try done; by destruct (decide _).
  - ways H; done.
  - destruct e; try done; ways H; done.
Qed.
Lemma start_step_of e s s' : start_step e s = Some s' -> of_start e = true.
Proof. unfold start_step. by destruct e. Qed.
Lemma other_of e s s' : session_step e s = Some s' \/ shutdown_step e s = Some s' \/ runDumpCleanup e s = Some s' -> of_start e = false.
Proof. destruct e; try done; cbn; intros [H|[H|H]]; try done; by destruct (shut s). Qed.

Lemma draining_run es s s' :
  run es s = Some s' -> draining s ->
  draining s' /\ (length (List.filter of_start es) + start_left (start s') <= start_left (start s))%nat /\
  (spawns es <= 1)%nat /\ ((start_left (start s) < 3)%nat -> spawns es = 0%nat).
Proof.
  revert s. induction es as [|e es IH]; intros s H D; [simplify_eq/=; split_and!; (done || unfold spawns; cbn; lia)|].
  cbn in H. destruct (step e s) as [s1|] eqn:E; [|done]. apply step_inv in E as (_ & [E|E]).
  - destruct (draining_start _ _ _ E D) as (D1 & Hl & Hs). destruct (IH _ H D1) as (D2 & Hle & Hn & Hz).
    cbn [List.filter]. rewrite (start_step_of _ _ _ E). cbn [length]. split; [done|]. split; [lia|].
    assert (start_left (start s) <= 3)%nat by (by destruct (start s); cbn; lia).
    unfold spawns in *. cbn [List.filter]. destruct e; try (split; [done|intros; apply Hz; lia]).
    cbn [length]. rewrite Hz by lia. split; [lia|]. intros. specialize (Hs eq_refl). lia.
  - pose proof (other_keeps _ _ _ E) as (Hs & Hd & Hl). pose proof (other_of _ _ _ E) as Ho. destruct D as (D1 & D2 & D3).
    destruct (IH _ H) as (D4 & Hle & Hn & Hz); [unfold draining; rewrite Hs; auto|]. rewrite Hs in *. cbn [List.filter]. rewrite Ho.
    unfold spawns in *. cbn [List.filter]. by destruct e.
Qed.

Lemma run_app es1 es2 s s' : run (es1 ++ es2)%list s = Some s' <-> exists s1, run es1 s = Some s1 /\ run es2 s1 = Some s'.
Proof.
  revert s. induction es1 as [|e es1 IH]; intros s; cbn; [naive_solver|].
  destruct (step e s); [apply IH|naive_solver].
Qed.

Lemma close_drains s s1 : well_formed s -> step CloseListener s = Some s1 -> draining s1.
Proof.
  intros W (_ & [H|[H|[H|H]]])%step_inv; try done. cbn in H. ways H.
  destruct W as [_ W2 _ W4 _ _ W7]. rewrite E in W4. unfold draining. cbn. split_and!; try done. rewrite <- W2. auto.
Qed.

(** Once [Shutdown] has closed the listener, the accept loop takes at most three more
    steps, whatever else happens in between, and none of them waits for a client: it can
    take the next one as long as it has not returned.  At most one session is started
    after that point, the one whose connection had been accepted already. *)
Theorem closed_listener_drains es0 es dumps s :
  run (es0 ++ CloseListener :: es)%list (NewServer dumps) = Some s ->
  (length (List.filter of_start es) <= 3)%nat /\ (spawns es <= 1)%nat /\
  (crashed s = true \/ start s = Returned false \/
   exists e s', In e [Spawn; AcceptError; LookAtShutdown] /\ step e s = Some s' /\ (start_left (start s') < start_left (start s))%nat).
Proof.
  intros (s0 & H0 & H)%run_app. cbn in H. destruct (step CloseListener s0) as [s1|] eqn:E; [|done].
  assert (draining s1) as D by eauto using close_drains, run_wf, new_well_formed.
  destruct (draining_run _ _ _ H D) as (D2 & Hl & Hn & _).
  assert (start_left (start s1) <= 3)%nat by (by destruct (start s1); cbn; lia).
  split; [lia|]. split; [done|]. destruct (crashed s) eqn:Ec; [by left|right].
  destruct D2 as (D3 & D4 & D5). destruct (start s) as [| | | |c| |[]] eqn:Es; try done.
  - right. eexists AcceptError, _. unfold step, start_step. rewrite Ec, Es. split_and!; [cbn; auto|done|cbn; lia].
  - right. eexists Spawn, _. unfold step, start_step. rewrite Ec, Es. split_and!; [cbn; auto|done|cbn; lia].
  - right. eexists LookAtShutdown, _. unfold step, start_step. rewrite Ec, Es, D4. split_and!; [cbn; auto|done|cbn; lia].
  - by left.
Qed.

(** *** A clean shutdown *)

(** [Shutdown] says that it went well only after the group was seen empty. *)
Definition waits (s : Server) : Prop :=
  (shut s = ShutReturned false -> waited s = true) /\ (waited s = true -> began (shut s) = true).

Lemma step_waits e s s' : step e s = Some s' -> waits s -> waits s'.
Proof.
  unfold waits. intros (_ & [H|[H|[H|H]]])%step_inv Hw.
  - unfold start_step in H. ways H; try done; by destruct (shutdown s).
  - unfold session_step, end_session, crash in H. destruct e; try done; ways H; try done. by destruct (decide _).
  - unfold shutdown_step, crash in H. ways H; try done; try (destruct (listener s)); cbn in *; rewrite ?E in *; split; auto; done.
  - unfold runDumpCleanup in H. destruct e; try done; ways H; done.
Qed.
Lemma run_waits es s s' : run es s = Some s' -> waits s -> waits s'.
Proof.
  revert s. induction es as [|e es IH]; intros s H W; [by simplify_eq/=|]. cbn in H.
  destruct (step e s) eqn:E; [|done]. eauto using step_waits.
Qed.

Definition over (s : Server) : Prop := start_runs (start s) = false /\ sessions s = ∅.

Lemma over_step e s s' :
  proxy = Oracle -> step e s = Some s' -> well_formed s -> start s <> NotStarted -> (waited s = true -> over s) ->
  start s' <> NotStarted /\ (waited s' = true -> over s').
Proof.
  intros Hp (_ & [H|[H|[H|H]]])%step_inv W Hs Ho.
  - assert (waited s = true -> False) as Hw.
    { intros [Hr _]%Ho. unfold start_step in H. destruct (start s); try done; by destruct e as [|[]|[]| | | | | | | | | | | | | | | |]. }
    unfold start_step in H. ways H; try done; (split; [by try destruct (shutdown s)|]); try (intros ?; by exfalso; apply Hw).
    destruct (shutdown s); intros ?; by exfalso; apply Hw.
  - assert (start s' = start s /\ waited s' = waited s /\ sessions s <> ∅) as (Hs' & Hw & Hne).
    { unfold session_step, end_session, crash in H. destruct e; try done; ways H; try destruct (decide _);
        (split_and!; [done|done|intros E'; by rewrite E' in E]). }
    rewrite Hs', Hw. split; [done|]. by intros [_ ?]%Ho.
  - assert (start s' = start s /\ sessions s' = sessions s /\ (waited s' = true -> waited s = true \/ wg s = 0)) as (Hs' & Hm & Hw).
    { unfold shutdown_step, crash in H. ways H; split_and!; try done; try (by destruct (listener s)); auto.
      all: intros _; right; bools; lia. }
    unfold over. rewrite Hs', Hm. split; [done|]. intros [?|Hz]%Hw; [by apply Ho|]. destruct W as [W1 _ _ _ _ _ _].
    unfold start_slot in W1. rewrite decide_True in W1 by done. destruct (start_runs (start s)); [lia|]. split; [done|].
    apply map_size_empty_inv. lia.
  - unfold runDumpCleanup in H. destruct e; try done; ways H; done.
Qed.

(** A clean shutdown of the Oracle server is final.  When [Start] had been called by
    then, a [Shutdown] that reports no error means that the accept loop has returned and
    that no session is left, now and however the process goes on. *)
Theorem oracle_shutdown_final es0 es dumps s0 s :
  proxy = Oracle -> run es0 (NewServer dumps) = Some s0 -> start s0 <> NotStarted -> shut s0 = NotShut ->
  run es s0 = Some s -> shut s = ShutReturned false ->
  (exists err, start s = Returned err) /\ sessions s = ∅ /\ wg s = 0.
Proof.
  intros Hp H0 Hs0 Hn H Hd.
  assert (well_formed s0) as W0 by eauto using run_wf, new_well_formed.
  assert (waits s0) as Hw0 by (eapply run_waits; [done|by split]).
  assert (waited s0 = true -> over s0) as Ho0 by (intros Hw; destruct Hw0 as [_ Hw0]; rewrite Hn in Hw0; by apply Hw0 in Hw).
  assert (well_formed s) as W by eauto using run_wf. assert (waits s) as [Hw _] by eauto using run_waits.
  assert (start s <> NotStarted /\ (waited s = true -> over s)) as [Hs Ho].
  { clear Hd W Hw Hn H0 Hw0. revert s0 W0 Hs0 Ho0 H. induction es as [|e es IH]; intros s0 W0 Hs0 Ho0 H; [by simplify_eq/=|].
    cbn in H. destruct (step e s0) eqn:E; [|done]. destruct (over_step _ _ _ Hp E W0 Hs0 Ho0). eauto using step_wf. }
  destruct (Ho (Hw Hd)) as [Hr Hm]. split; [|split; [done|]].
  - destruct (start s); try done. by eexists.
  - destruct W as [W1 _ _ _ _ _ _]. by rewrite W1, Hr, Hm.
Qed.

(** *** No connection is forgotten *)

Definition held (conn : nat) (s : Server) : Prop :=
  conn ∈ closed s \/ sessions s !! conn = Some Serving \/ start s = Accepted conn.

Lemma held_step conn e s s' : step e s = Some s' -> well_formed s -> held conn s -> held conn s'.
Proof.
  unfold held. intros (_ & [H|[H|[H|H]]])%step_inv W Hh.
  - unfold start_step, return_start in H. ways H; try naive_solver.
    + destruct (shutdown s); naive_solver.
    + destruct Hh as [?|[Hc|[= ->]]]; [by left| |right; left; apply lookup_insert_eq].
      right; left. destruct (decide (conn = conn0)) as [->|]; [apply lookup_insert_eq|by rewrite lookup_insert_ne].
  - assert (forall c, sessions s !! c = Some Serving -> conn ∈ closed (end_session c s) \/ sessions (end_session c s) !! conn = Some Serving \/ start (end_session c s) = Accepted conn) as Hend.
    { intros c Hc. unfold end_session. cbn. destruct (decide (conn = c)) as [->|]; [left; set_solver|]. rewrite lookup_insert_ne by done. set_solver. }
    unfold session_step in H. destruct e; try done; ways H.
    + by apply Hend.
    + destruct (decide _); by apply Hend.
    + destruct Hh as [?|[Hc|?]]; auto. right; left. apply lookup_delete_Some. split; [congruence|done].
  - unfold shutdown_step, crash in H. ways H; try done; by destruct (listener s).
  - unfold runDumpCleanup in H. destruct e; try done; ways H; done.
Qed.

(** Every connection that was accepted is closed by the proxy, or still served, or in
    the hand of the accept loop: whether its session returns or panics, no schedule
    leaves it open and forgotten. *)
Theorem accepted_held es dumps s conn :
  run es (NewServer dumps) = Some s -> In (Accept conn) es -> held conn s.
Proof.
  intros H Hin. apply in_split in Hin as (es1 & es2 & ->). apply run_app in H as (s1 & H1 & H). cbn in H.
  destruct (step (Accept conn) s1) as [s2|] eqn:E; [|done].
  assert (well_formed s2) as W by eauto using run_wf, new_well_formed, step_wf.
  assert (held conn s2) as Hh.
  { apply step_inv in E as (_ & [E|[E|[E|E]]]); [|done..]. unfold start_step in E. ways E. by right; right. }
  clear E H1. revert s2 H W Hh. induction es2 as [|e es2 IH]; intros s2 H W Hh; [by simplify_eq/=|].
  cbn in H. destruct (step e s2) eqn:E; [|done]. eauto using held_step, step_wf.
Qed.

(** *** What kills the process *)

Definition fatal (e : event) (s : Server) : Prop :=
  (exists conn, e = SessionPanics conn /\ proxy <> Oracle) \/ (e = CallShutdown /\ began (shut s) = true).

(** The process dies of a panic in a session that nothing recovers from, which the
    Oracle server does and the others do not, or of a second [Shutdown]; of nothing else. *)
Theorem crash_cause e s s' :
  step e s = Some s' -> crashed s' = true <-> fatal e s.
Proof.
  unfold fatal. intros (Hc & [H|[H|[H|H]]])%step_inv; (split; [intros Hd|intros [(conn & -> & Hp)|[-> Hb]]]).
  - exfalso. unfold start_step, return_start in H. ways H; try congruence. destruct (shutdown s); cbn in Hd; congruence.
  - done.
  - cbn in H. by destruct (shut s).
  - left. unfold session_step in H. destruct e; try done; ways H; try congruence. destruct (decide _); cbn in Hd; [congruence|eauto].
  - cbn in H. ways H; try done; by rewrite decide_False.
  - done.
  - right. unfold shutdown_step in H. ways H; try congruence; rewrite ?E; auto; destruct (listener s); cbn in Hd; congruence.
  - done.
  - cbn in H. by destruct (shut s); simplify_eq/=.
  - exfalso. unfold runDumpCleanup in H. destruct e; try done; ways H; cbn in Hd; congruence.
  - done.
  - done.
Qed.
End Server.

(** The four servers. *)
Definition postgresql_step := step PostgreSQL.
Definition mysql_step := step MySQL.
Definition mongodb_step := step MongoDB.
Definition oracle_step := step Oracle.

(** ** Schedules *)

Module Schedules.
Definition serving_one := [CallStart; Listen true; Publish true; Accept 1; Spawn].
Definition stop := [CallShutdown; CancelContext; GetListener; CloseListener; WaitReturns; SeeDone].
Definition after (p : Proxy) (es : list event) : option (shutdown_point * start_point * list (nat * serving) * bool) :=
  (fun s => (shut s, start s, map_to_list (sessions s), crashed s)) <$> run p false None es (NewServer []).

(** A connection that was accepted and not yet counted when the group was found empty is
    served after a shutdown that reports success; the Oracle server counts its accept
    loop and waits. *)
Example late_session :
  after PostgreSQL ([CallStart; Listen true; Publish true; Accept 1] ++ stop ++ [Spawn])%list = Some (ShutReturned false, Accepting, [(1%nat, Serving)], false).
Proof. vm_compute. reflexivity. Qed.
Example late_session_oracle : after Oracle ([CallStart; Listen true; Publish true; Accept 1] ++ stop ++ [Spawn])%list = None.
Proof. vm_compute. reflexivity. Qed.

(** [Shutdown] before the listener is published closes nothing, and the server goes on
    accepting after it has returned. *)
Example unpublished_listener :
  after MySQL [CallStart; Listen true; CallShutdown; CancelContext; GetListener; WaitReturns; SeeDone; Publish true; Accept 1; Spawn; Accept 2; Spawn]
  = Some (ShutReturned false, Accepting, [(2%nat, Serving); (1%nat, Serving)], false).
Proof. vm_compute. reflexivity. Qed.

(** One client whose session panics takes the other sessions with it. *)
Example panic_kills_the_others :
  after PostgreSQL (serving_one ++ [Accept 2; Spawn; SessionPanics 2])%list = Some (NotShut, Accepting, [(2%nat, Ended); (1%nat, Serving)], true) /\
  after PostgreSQL (serving_one ++ [Accept 2; Spawn; SessionPanics 2; SessionReturns 1])%list = None.
Proof. split; vm_compute; reflexivity. Qed.
Example panic_recovered :
  after Oracle (serving_one ++ [Accept 2; Spawn; SessionPanics 2; SessionDone 2])%list = Some (NotShut, Accepting, [(1%nat, Serving)], false).
Proof. vm_compute. reflexivity. Qed.

(** A persistent failure of [Accept] keeps the loop turning. *)
Example accept_error_spins :
  after MongoDB (serving_one ++ [AcceptError; LookAtShutdown; AcceptError; LookAtShutdown])%list = Some (NotShut, Accepting, [(1%nat, Serving)], false).
Proof. vm_compute. reflexivity. Qed.

Definition oracle_stop := [CallShutdown; CancelContext; GetListener; CloseListener; SessionReturns 1; SessionDone 1; AcceptError; LookAtShutdown; WaitReturns; SeeDone].
End Schedules.

Definition or_new (o : option Server) : Server := default (NewServer []) o.

Lemma oracle_shutdown_final_witness :
  exists s, run Oracle false None (Schedules.serving_one ++ Schedules.oracle_stop)%list (NewServer []) = Some s /\
    (exists err, start s = Returned err) /\ sessions s = ∅ /\ wg s = 0.
Proof.
  eexists. split; [vm_compute; reflexivity|].
  apply (oracle_shutdown_final Oracle false None Schedules.serving_one Schedules.oracle_stop [] (or_new (run Oracle false None Schedules.serving_one (NewServer []))));
    [reflexivity|vm_compute; reflexivity|vm_compute; discriminate|vm_compute; reflexivity|vm_compute; reflexivity|vm_compute; reflexivity].
Defined.

Lemma closed_listener_drains_witness :
  (spawns [Spawn; AcceptError; LookAtShutdown] <= 1)%nat.
Proof.
  eapply (closed_listener_drains PostgreSQL false None [CallStart; Listen true; Publish true; Accept 1; CallShutdown; CancelContext; GetListener]
            [Spawn; AcceptError; LookAtShutdown] []). vm_compute. reflexivity.
Defined.

Lemma group_counts_witness : exists s, run MongoDB false None Schedules.serving_one (NewServer []) = Some s /\ 0 <= wg s.
Proof.
  eexists. split; [vm_compute; reflexivity|].
  apply (group_counts MongoDB false None Schedules.serving_one []). vm_compute. reflexivity.
Defined.

Lemma accepted_held_witness :
  exists s, run PostgreSQL false None (Schedules.serving_one ++ [SessionPanics 1])%list (NewServer []) = Some s /\ held 1 s.
Proof.
  eexists. split; [vm_compute; reflexivity|].
  apply (accepted_held PostgreSQL false None (Schedules.serving_one ++ [SessionPanics 1])%list [] _ 1); [vm_compute; reflexivity|cbn; auto].
Defined.
