(* ===== verification/Lifecycle.v ===== *)
(** * The life of a session, from the accept to the last deferred call
    ([Run] of the four proxies, [cleanup], [establishSession])

    A session is a script: stages that may fail, and calls that are deferred.  The
    goroutine of the session takes one act at a time; in between the rest of the process
    goes on: grants are revoked, other sessions come and go, the server is shut down,
    the watchdog trips.  What each proxy authenticates, relays and records is in the
    files of the proxies; here only what a session holds is followed: the two
    connections, its row, its dump, its handle in the revocation registry and its
    watchdog. *)

From Stdlib Require Import ZArith Lia List Bool String.
From stdpp Require Import base list gmap strings.
From S2P Require Import Prelude GoStrings Models Revocation GrantStore Listeners.

Open Scope Z_scope.

(** ** The first byte of a MongoDB client

    One listener serves both kinds of client: the first byte is read and put back. *)

Definition tlsHandshakeFirstByte : Z := 22.

Inductive transport_error := PeekFailed | HandshakeFailed.

(** A connection with bytes that were read from it and are to be read again. *)
Record prefixConn := { pc_prefix : Prelude.bytes; pc_conn : Prelude.bytes }.

(** [Read] with a buffer of [n] bytes, of which the connection below fills at most [k]. *)
Definition prefix_Read (n k : nat) (p : prefixConn) : Prelude.bytes * prefixConn :=
  match pc_prefix p with
  | [] => (take (min n k) (pc_conn p), {| pc_prefix := []; pc_conn := drop (min n k) (pc_conn p) |})
  | _ => (take n (pc_prefix p), {| pc_prefix := drop n (pc_prefix p); pc_conn := pc_conn p |})
  end.

(** [handshake] is the answer of the TLS library to what it reads. *)
Definition setupTransport (tls : bool) (handshake : prefixConn -> bool) (conn : Prelude.bytes) : res transport_error (bool * prefixConn) :=
  match conn with
  | [] => Err PeekFailed
  | b :: rest =>
      let prefixed := {| pc_prefix := [b]; pc_conn := rest |} in
      if (b =? tlsHandshakeFirstByte) && tls then
        if handshake prefixed then Ok (true, prefixed) else Err HandshakeFailed
      else Ok (false, prefixed)
  end.

Fixpoint reads (sizes : list (nat * nat)) (p : prefixConn) : Prelude.bytes * prefixConn :=
  match sizes with
  | [] => ([], p)
  | (n, k) :: sizes => let '(b, p) := prefix_Read n k p in let '(bs, p) := reads sizes p in ((b ++ bs)%list, p)
  end.

(** Putting the byte back is invisible: whatever the sizes of the reads, what is read and
    what is left are the bytes the client sent. *)
Theorem unpeek_transparent tls handshake conn active p sizes :
  setupTransport tls handshake conn = Ok (active, p) ->
  (active = true -> tls = true) /\
  let '(read, p') := reads sizes p in (read ++ pc_prefix p' ++ pc_conn p')%list = conn.
Proof.
  intros H. assert ((active = true -> tls = true) /\ (pc_prefix p ++ pc_conn p)%list = conn) as [Ha Hc].
  { unfold setupTransport in H. destruct conn as [|b rest]; [done|]. destruct (_ && tls) eqn:E; [|by simplify_eq].
    apply andb_true_iff in E as [_ ->]. destruct (handshake _); by simplify_eq. }
  split; [done|]. clear H. rewrite <- Hc. clear Hc. revert p. induction sizes as [|[n k] sizes IH]; intros p; [done|].
  cbn [reads]. unfold prefix_Read. destruct (pc_prefix p) as [|x xs] eqn:E.
  - specialize (IH {| pc_prefix := []; pc_conn := drop (min n k) (pc_conn p) |}). destruct (reads _ _) as [bs l]. cbn in IH.
    by rewrite <- app_assoc, IH, take_drop.
  - specialize (IH {| pc_prefix := drop n (x :: xs); pc_conn := pc_conn p |}). destruct (reads _ _) as [bs l]. cbn [pc_prefix pc_conn] in IH.
    by rewrite <- app_assoc, IH, app_assoc, take_drop.
Qed.

(** ** Scripts *)

Inductive stage :=
| Negotiate          (* an exchange with the client that acquires nothing *)
| Admit              (* authentication: the grant of the session *)
| RegisterHandle
| Dial               (* the connection to the upstream server *)
| UpstreamLogin      (* an exchange on that connection *)
| RecordConnection
| StartDump
| StartWatch
| Relay.

Inductive cleanup :=
| DeregisterHandle | ForgetGrant | CloseDump | FlushBytes | CloseRow | CloseUpstream | CloseClient | CancelWatch.

(** A stage with what the code does itself when it fails, or a deferred call. *)
Inductive act :=
| Do (st : stage) (on_failure : list cleanup)
| Defer (cs : list cleanup).

(** [handleConnection] defers the close of the client around [Run]. *)
Definition postgresql_Run : list act :=
  [Defer [CloseClient]; Defer [DeregisterHandle; CloseDump; CloseRow; CloseUpstream];
   Do Negotiate []; Do Admit []; Do Dial []; Do UpstreamLogin []; Do RecordConnection []; Do StartDump [];
   Do RegisterHandle []; Defer [CancelWatch]; Do StartWatch []; Do Relay []].

Definition mysql_Run : list act :=
  [Defer [CloseClient]; Defer [DeregisterHandle];
   Do Negotiate []; Do Admit []; Do RegisterHandle []; Do Negotiate []; Do Dial []; Defer [CloseUpstream];
   Do RecordConnection []; Defer [FlushBytes; CloseRow]; Do StartDump []; Defer [CloseDump];
   Defer [CancelWatch]; Do StartWatch []; Do Relay []].

(** [establishSession] runs inside the loop before authentication; the answer to the
    client is the last stage of that loop. *)
Definition mongodb_establish : list act :=
  [Do Admit []; Do RegisterHandle []; Do Dial [DeregisterHandle; ForgetGrant]; Do RecordConnection []; Do Negotiate []].
Definition mongodb_Run : list act :=
  ([Defer [CloseClient]; Defer [DeregisterHandle]; Do Negotiate []] ++ mongodb_establish ++
   [Defer [CloseUpstream]; Defer [FlushBytes; CloseRow]; Do StartDump []; Defer [CloseDump];
    Defer [CancelWatch]; Do StartWatch []; Do Relay [CloseUpstream; CloseClient]])%list.

Definition oracle_run : list act :=
  [Defer [CloseClient]; Defer [DeregisterHandle; CloseDump; CloseRow; CloseUpstream];
   Do Negotiate []; Do Dial []; Do UpstreamLogin []; Do Admit []; Do UpstreamLogin []; Do Negotiate [];
   Do RecordConnection []; Do StartDump []; Do RegisterHandle []; Defer [CancelWatch]; Do StartWatch []; Do Relay []].

Definition Run (p : Proxy) : list act :=
  match p with PostgreSQL => postgresql_Run | MySQL => mysql_Run | MongoDB => mongodb_Run | Oracle => oracle_run end.

(** ** The state *)

Inductive held_state := Unopened | Opened | Shut.
#[global] Instance held_state_eq : EqDecision held_state.
Proof. solve_decision. Defined.

Record Session := {
  grant : option uuid;
  revocation : option handle;
  connection : option uuid;       (* the row of the session *)
  upstream : held_state;
  client : held_state;
  dump : held_state;
  watching : bool;
  bytes : Z;                      (* exchanged with the client *)
  snapshot : Z;                   (* of them, attributed to a query *)
  unclosed : bool                 (* the statement that closes the row failed *)
}.

Definition set_grant (x : option uuid) (s : Session) : Session :=
  {| grant := x; revocation := revocation s; connection := connection s; upstream := upstream s; client := client s;
     dump := dump s; watching := watching s; bytes := bytes s; snapshot := snapshot s; unclosed := unclosed s |}.
Definition set_revocation (x : option handle) (s : Session) : Session :=
  {| grant := grant s; revocation := x; connection := connection s; upstream := upstream s; client := client s;
     dump := dump s; watching := watching s; bytes := bytes s; snapshot := snapshot s; unclosed := unclosed s |}.
Definition set_connection (x : option uuid) (s : Session) : Session :=
  {| grant := grant s; revocation := revocation s; connection := x; upstream := upstream s; client := client s;
     dump := dump s; watching := watching s; bytes := bytes s; snapshot := snapshot s; unclosed := unclosed s |}.
Definition set_upstream (x : held_state) (s : Session) : Session :=
  {| grant := grant s; revocation := revocation s; connection := connection s; upstream := x; client := client s;
     dump := dump s; watching := watching s; bytes := bytes s; snapshot := snapshot s; unclosed := unclosed s |}.
Definition set_client (x : held_state) (s : Session) : Session :=
  {| grant := grant s; revocation := revocation s; connection := connection s; upstream := upstream s; client := x;
     dump := dump s; watching := watching s; bytes := bytes s; snapshot := snapshot s; unclosed := unclosed s |}.
Definition set_dump (x : held_state) (s : Session) : Session :=
  {| grant := grant s; revocation := revocation s; connection := connection s; upstream := upstream s; client := client s;
     dump := x; watching := watching s; bytes := bytes s; snapshot := snapshot s; unclosed := unclosed s |}.
Definition set_watching (x : bool) (s : Session) : Session :=
  {| grant := grant s; revocation := revocation s; connection := connection s; upstream := upstream s; client := client s;
     dump := dump s; watching := x; bytes := bytes s; snapshot := snapshot s; unclosed := unclosed s |}.
Definition set_unclosed (x : bool) (s : Session) : Session :=
  {| grant := grant s; revocation := revocation s; connection := connection s; upstream := upstream s; client := client s;
     dump := dump s; watching := watching s; bytes := bytes s; snapshot := snapshot s; unclosed := x |}.
Definition set_bytes (x y : Z) (s : Session) : Session :=
  {| grant := grant s; revocation := revocation s; connection := connection s; upstream := upstream s; client := client s;
     dump := dump s; watching := watching s; bytes := x; snapshot := y; unclosed := unclosed s |}.

Definition newSession : Session :=
  {| grant := None; revocation := None; connection := None; upstream := Unopened; client := Opened; dump := Unopened;
     watching := false; bytes := 0; snapshot := 0; unclosed := false |}.

(** [todo] and [deferred] are the program of the session's goroutine, the deferred calls
    in the order they will run; [cancelled] is the context of the server, on which every
    statement of the session runs. *)
Record World := {
  registry : Revocation.World;
  db : DB;
  cancelled : bool;
  todo : list act;
  deferred : list cleanup;
  session : Session
}.

Definition put (reg : Revocation.World) (d : DB) (s : Session) (w : World) : World :=
  {| registry := reg; db := d; cancelled := cancelled w; todo := todo w; deferred := deferred w; session := s |}.
Definition put_session (s : Session) (w : World) : World := put (registry w) (db w) s w.
Definition goes_on (t : list act) (ds : list cleanup) (w : World) : World :=
  {| registry := registry w; db := db w; cancelled := cancelled w; todo := t; deferred := ds; session := session w |}.

(** What the outside decides about an act. *)
Record outcome := {
  o_ok : bool;
  o_grant : option uuid;             (* the grant authentication found *)
  o_uid : uuid;                      (* the new row *)
  o_user : uuid;
  o_database : uuid;
  o_ip : string;
  o_sql : nat -> bool;               (* the fate of its statements *)
  o_now : time
}.

(** A statement on a cancelled context fails. *)
Definition statement (w : World) (o : outcome) (i : nat) : bool := o_sql o i && negb (cancelled w).

Definition may_fail (st : stage) : bool :=
  match st with Negotiate | Admit | Dial | UpstreamLogin | Relay => true | _ => false end.

(** The world after a stage, and whether the session goes on. *)
Definition perform (st : stage) (o : outcome) (w : World) : World * bool :=
  let s := session w in
  match st with
  | Negotiate | UpstreamLogin => (w, o_ok o)
  | Admit => (put_session (set_grant (o_grant o) s) w, o_ok o && bool_decide (is_Some (o_grant o)))
  | RegisterHandle =>
      let '(reg, h) := Register (registry w) (default Nil (grant s)) in (put reg (db w) (set_revocation (Some h) s) w, true)
  | Dial => if o_ok o then (put_session (set_upstream Opened s) w, true) else (w, false)
  | RecordConnection =>
      (match CreateConnection (fun i => statement w o i) (db w) (o_user o) (o_database o) (o_ip o) (o_uid o) (o_now o) (o_now o) with
       | (d, Ok conn) => put (registry w) d (set_connection (Some (c_UID conn)) s) w
       | _ => w
       end, true)
  | StartDump => (if o_ok o && bool_decide (is_Some (connection s)) then put_session (set_dump Opened s) w else w, true)
  | StartWatch => (put_session (set_watching true s) w, true)
  | Relay => (w, false)              (* it ends one way or another *)
  end.

Definition run_cleanup (c : cleanup) (o : outcome) (w : World) : World :=
  let s := session w in
  match c with
  | DeregisterHandle =>
      match grant s, revocation s with
      | Some g, Some h => put (Deregister (registry w) g (Some h)) (db w) s w
      | _, _ => w
      end
  | ForgetGrant => put_session (set_grant None s) w
  | CloseDump => match dump s with Opened => put_session (set_dump Shut s) w | _ => w end
  | FlushBytes =>
      match connection s with
      | Some conn =>
          if 0 <? bytes s - snapshot s
          then put (registry w) (IncrementConnectionBytes (statement w o) (db w) conn (bytes s - snapshot s) (o_now o)).1
                 (set_bytes (bytes s) (bytes s) s) w
          else w
      | None => w
      end
  | CloseRow =>
      match connection s with
      | Some conn =>
          put (registry w) (CloseConnection (statement w o) (db w) conn (o_now o)).1 (set_unclosed (negb (statement w o 0)) s) w
      | None => w
      end
  | CloseUpstream => match upstream s with Opened => put_session (set_upstream Shut s) w | _ => w end
  | CloseClient => put_session (set_client Shut s) w
  | CancelWatch => put_session (set_watching false s) w
  end.

(** One act of the session's goroutine; a failure leaves the rest of the script and runs
    what was deferred. *)
Definition advance (o : outcome) (w : World) : option World :=
  match todo w, deferred w with
  | Defer cs :: rest, ds => Some (goes_on rest (cs ++ ds)%list w)
  | Do st f :: rest, ds =>
      let '(w', ok) := perform st o w in Some (if ok then goes_on rest ds w' else goes_on [] (f ++ ds)%list w')
  | [], c :: ds => Some (goes_on [] ds (run_cleanup c o w))
  | [], [] => None
  end.

Inductive event :=
| Advance (o : outcome)
| Revokes (g by_ : uuid) (o : outcome)          (* an administrator revokes a grant *)
| Another (op : Revocation.op)                  (* another session *)
| CancelContext                                 (* the server shuts down *)
| LimitTrips                                    (* [onLimitViolation] *)
| Exchange (n : Z)                              (* bytes from or to the client *)
| RecordQuery (o : outcome).

(** [handleRevokeGrant] signals the sessions of a grant that it has revoked. *)
Definition revoke_grant (g by_ : uuid) (o : outcome) (w : World) : World :=
  match RevokeGrant (o_sql o) (db w) g by_ (o_now o) with
  | (d, Ok _) => put (Revoke (registry w) g).1 d (session w) w
  | (d, _) => put (registry w) d (session w) w
  end.

Definition step (e : event) (w : World) : option World :=
  let s := session w in
  match e with
  | Advance o => advance o w
  | Revokes g by_ o => Some (revoke_grant g by_ o w)
  | Another op =>
      match op with
      | OpDeregister _ h => if bool_decide (revocation s = Some h) then None else Some (put (Revocation.step (registry w) op).1 (db w) s w)
      | _ => Some (put (Revocation.step (registry w) op).1 (db w) s w)
      end
  | CancelContext => Some {| registry := registry w; db := db w; cancelled := true; todo := todo w; deferred := deferred w; session := s |}
  | LimitTrips =>
      if watching s
      then Some (put_session (set_client Shut (set_upstream (match upstream s with Opened => Shut | u => u end) s)) w) else None
  | Exchange n => if bool_decide (client s = Opened) && (0 <=? n) then Some (put_session (set_bytes (bytes s + n) (snapshot s) s) w) else None
  | RecordQuery o =>
      match connection s with
      | Some conn => Some (put (registry w) (IncrementConnectionStats (statement w o) (db w) conn (bytes s - snapshot s) (o_now o)).1
                             (set_bytes (bytes s) (bytes s) s) w)
      | None => None
      end
  end.

Fixpoint run (es : list event) (w : World) : option World :=
  match es with [] => Some w | e :: es => match step e w with Some w' => run es w' | None => None end end.

Definition start_world (reg : Revocation.World) (d : DB) (script : list act) : World :=
  {| registry := reg; db := d; cancelled := false; todo := script; deferred := []; session := newSession |}.

(** The goroutine has returned. *)
Definition finished (w : World) : bool := match todo w, deferred w with [], [] => true | _, _ => false end.

(** ** Scripts that give back what they take *)

Inductive resource := Client | Upstream | Row | DumpFile | Handle | Watchdog.
#[global] Instance resource_eq : EqDecision resource.
Proof. solve_decision. Defined.

Definition acquires (st : stage) : list resource :=
  match st with
  | Dial => [Upstream] | RecordConnection => [Row] | StartDump => [DumpFile] | RegisterHandle => [Handle] | StartWatch => [Watchdog]
  | _ => []
  end.
Definition gives_back (c : cleanup) : option resource :=
  match c with
  | DeregisterHandle => Some Handle | CloseDump => Some DumpFile | CloseRow => Some Row | CloseUpstream => Some Upstream
  | CloseClient => Some Client | CancelWatch => Some Watchdog | ForgetGrant | FlushBytes => None
  end.
(** A handle is found again under the grant, so it must be given back before that is forgotten. *)
Fixpoint covers (ds : list cleanup) (r : resource) : bool :=
  match ds with
  | [] => false
  | c :: ds => if bool_decide (gives_back c = Some r) then true
               else match c, r with ForgetGrant, Handle => false | _, _ => covers ds r end
  end.
Definition holds (r : resource) (held : list resource) : bool := bool_decide (r ∈ held).

(** At every point where the session can end, what it may hold is given back by what
    runs then; nothing is taken twice. *)
Fixpoint guarded (t : list act) (held : list resource) (ds : list cleanup) : bool :=
  match t with
  | [] => forallb (covers ds) held
  | Defer cs :: t => guarded t held (cs ++ ds)%list
  | Do st f :: t =>
      (negb (may_fail st) || forallb (covers (f ++ ds)%list) held)
      && forallb (fun r => negb (holds r held)) (acquires st)
      && negb (match st with Admit => holds Handle held | _ => false end)
      && guarded t (acquires st ++ held)%list ds
  end.

(** * Theorems *)

(** What a session really holds is in [held]. *)
Record holding (w : World) (held : list resource) : Prop := {
  h_client : client (session w) = Opened -> Client ∈ held;
  h_upstream : upstream (session w) = Opened -> Upstream ∈ held;
  h_dump : dump (session w) = Opened -> DumpFile ∈ held;
  h_watch : watching (session w) = true -> Watchdog ∈ held;
  h_handle : exists a, refines (registry w) a /\
    forall h, revocation (session w) = Some h ->
      (h < Abstract.issued a)%nat /\ (forall g, Abstract.live a !! h = Some g -> Handle ∈ held /\ grant (session w) = Some g);
  h_row : forall conn, connection (session w) = Some conn ->
    exists c, connections (db w) !! conn = Some c /\ (c_DisconnectedAt c = None -> Row ∈ held \/ unclosed (session w) = true)
}.

Lemma holding_weaken w held held' : (forall r, r ∈ held -> r ∈ held') -> holding w held -> holding w held'.
Proof.
  intros Hs [H1 H2 H3 H4 (a & Ha & H5) H6]. split; auto.
  - exists a. split; [done|]. intros h Hh. destruct (H5 h Hh). split; [done|]. naive_solver.
  - intros conn Hc. destruct (H6 conn Hc) as (c & ? & ?). exists c. naive_solver.
Qed.

(** A world that differs in fields of the session only. *)
Lemma holding_session w s held :
  holding w held ->
  (client s = Opened -> Client ∈ held) -> (upstream s = Opened -> Upstream ∈ held) -> (dump s = Opened -> DumpFile ∈ held) ->
  (watching s = true -> Watchdog ∈ held) -> revocation s = revocation (session w) ->
  (grant s = grant (session w) \/ Handle ∉ held) -> connection s = connection (session w) -> unclosed s = unclosed (session w) ->
  holding (put_session s w) held.
Proof.
  intros [_ _ _ _ (a & Ha & H5) H6] ? ? ? ? Er Eg Ec Eu. split; cbn; rewrite ?Er, ?Ec, ?Eu; auto.
  exists a. split; [done|]. intros h Hh. destruct (H5 h Hh) as [Hi Hl]. split; [done|]. intros g Hg. destruct (Hl g Hg) as [Hh' Hg'].
  split; [done|]. by destruct Eg as [->|?].
Qed.

Lemma holding_goes_on w held t ds : holding w held -> holding (goes_on t ds w) held.
Proof. by intros []. Qed.

(** *** The rest of the process *)

Lemma revoke_keeps_rows sql d g by_ now : connections (RevokeGrant sql d g by_ now).1 = connections d.
Proof. unfold RevokeGrant. destruct (sql 0%nat); [|done]. destruct (access_grants d !! g) as [x|]; [|done]. by destruct (g_RevokedAt x). Qed.

Lemma holding_db w held reg d s :
  holding w held ->
  (forall a, refines (registry w) a -> exists a', refines reg a' /\ (Abstract.issued a <= Abstract.issued a')%nat /\
     (forall h g, (h < Abstract.issued a)%nat -> revocation s = Some h -> Abstract.live a' !! h = Some g -> Abstract.live a !! h = Some g)) ->
  (forall conn c, connections (db w) !! conn = Some c -> exists c', connections d !! conn = Some c' /\ c_DisconnectedAt c' = c_DisconnectedAt c) ->
  s = session w \/ s = set_bytes (bytes s) (snapshot s) (session w) ->
  holding (put reg d s w) held.
Proof.
  intros [H1 H2 H3 H4 (a & Ha & H5) H6] Hr Hd Hs.
  assert (client s = client (session w) /\ upstream s = upstream (session w) /\ dump s = dump (session w) /\ watching s = watching (session w)
    /\ revocation s = revocation (session w) /\ grant s = grant (session w) /\ connection s = connection (session w) /\ unclosed s = unclosed (session w))
    as (E1 & E2 & E3 & E4 & E5 & E6 & E7 & E8) by (by destruct Hs as [->| ->]).
  split; cbn; rewrite ?E1, ?E2, ?E3, ?E4, ?E5, ?E6, ?E7, ?E8; auto.
  - destruct (Hr a Ha) as (a' & Ha' & Hi & Hl). exists a'. split; [done|]. intros h Hh. destruct (H5 h Hh) as [Hlt Hg]. split; [lia|].
    intros g Hg'. apply Hg. apply (Hl h g Hlt); congruence.
  - intros conn Hc. destruct (H6 conn Hc) as (c & Hcc & Hu). destruct (Hd conn c Hcc) as (c' & ? & E). exists c'. split; [done|]. by rewrite E.
Qed.

Lemma same_registry reg a (s : Session) :
  refines reg a -> exists a', refines reg a' /\ (Abstract.issued a <= Abstract.issued a')%nat /\
    (forall h g, (h < Abstract.issued a)%nat -> revocation s = Some h -> Abstract.live a' !! h = Some g -> Abstract.live a !! h = Some g).
Proof. intros. exists a. eauto. Qed.

(** Operations of other sessions and revocations leave the handle where it is. *)
Lemma other_registry reg a op (s : Session) :
  (forall g h, op = OpDeregister g h -> revocation s <> Some h) -> refines reg a ->
  exists a', refines (Revocation.step reg op).1 a' /\ (Abstract.issued a <= Abstract.issued a')%nat /\
    (forall h g, (h < Abstract.issued a)%nat -> revocation s = Some h -> Abstract.live a' !! h = Some g -> Abstract.live a !! h = Some g).
Proof.
  intros Ho Ha. exists (Abstract.step a op).1. split; [by apply step_refines|]. destruct op as [g'|g' h'|g']; cbn.
  - split; [lia|]. intros h g Hlt _. destruct (decide (g' = Nil)); [done|]. by rewrite lookup_insert_ne by lia.
  - split; [done|]. intros h g _ Hh. destruct (decide _); [|done]. rewrite lookup_delete_Some. by intros [_ ?].
  - split; [done|]. done.
Qed.

Lemma bumped sql d conn f :
  (forall c, c_DisconnectedAt (f c) = c_DisconnectedAt c) ->
  forall u c, connections d !! u = Some c -> exists c', connections (update_connection sql d conn f).1 !! u = Some c' /\ c_DisconnectedAt c' = c_DisconnectedAt c.
Proof.
  intros Hf u c Hc. unfold update_connection. destruct (sql 0%nat); [|by exists c]. cbn.
  destruct (decide (conn = u)) as [->|Hne]; [exists (f c); by rewrite lookup_alter_eq, Hc|]. exists c. by rewrite lookup_alter_ne.
Qed.

Lemma other_events e w w' held :
  step e w = Some w' -> (forall o, e <> Advance o) -> holding w held -> holding w' held /\ todo w' = todo w /\ deferred w' = deferred w.
Proof.
  intros H Hn Hh. destruct e as [o|g b o|op| | |n|o]; cbn in H; simplify_eq; [by destruct (Hn o)| | | | | |].
  - unfold revoke_grant. pose proof (revoke_keeps_rows (o_sql o) (db w) g b (o_now o)) as Er.
    destruct (RevokeGrant _ _ _ _ _) as [d r] eqn:E; cbn in Er. destruct r as [[]|?|]; (split; [|done]); apply holding_db; auto; rewrite ?Er; eauto using same_registry.
    intros a Ha. apply (other_registry (registry w) a (OpRevoke g) (session w)) in Ha; [|done]. cbn in Ha. by destruct (Revoke (registry w) g).
  - assert (w' = put (Revocation.step (registry w) op).1 (db w) (session w) w /\ forall g h, op = OpDeregister g h -> revocation (session w) <> Some h) as [-> Ho].
    { destruct op as [g|g h|g]; [by simplify_eq| |by simplify_eq]. destruct (bool_decide _) eqn:Eb; simplify_eq.
      apply bool_decide_eq_false in Eb. split; [done|]. by intros ? ? [= <- <-]. }
    split; [|done]. apply holding_db; eauto. intros a. by apply other_registry.
  - split; [|done]. by destruct Hh.
  - destruct (watching (session w)); simplify_eq. split; [|done]. destruct (Hh) as [H1 H2 H3 H4 H5 H6].
    apply holding_session; auto; cbn; [done|]. by destruct (upstream (session w)).
  - destruct (_ && _); simplify_eq. split; [|done]. destruct (Hh) as [H1 H2 H3 H4 H5 H6]. apply holding_session; auto.
  - destruct (connection (session w)) as [conn|] eqn:Ec; simplify_eq. split; [|done].
    apply holding_db; eauto using same_registry. by apply bumped.
Qed.

(** *** The stages *)

Lemma holds_false r held : holds r held = false -> r ∉ held.
Proof. apply bool_decide_eq_false. Qed.

Lemma register_holding w held :
  holding w held -> holding (perform RegisterHandle {| o_ok := true; o_grant := None; o_uid := Nil; o_user := Nil; o_database := Nil; o_ip := EmptyString; o_sql := fun _ => true; o_now := 0 |} w).1 (Handle :: held).
Proof.
  intros [H1 H2 H3 H4 (a & Ha & H5) H6]. cbn [perform]. set (g := default Nil (grant (session w))).
  pose proof (step_refines _ _ (OpRegister g) Ha) as [Ho Hr]. cbn [Revocation.step Abstract.step] in Ho, Hr.
  destruct (Register (registry w) g) as [reg h]. cbn [fst snd] in Ho, Hr. injection Ho as ->.
  split; cbn; try (intros; apply list_elem_of_further; auto; fail).
  - eexists. split; [exact Hr|]. intros h [= <-]. cbn. split; [lia|]. intros g' Hg. split; [apply list_elem_of_here|].
    destruct (decide (g = Nil)) as [E|Hne]; [destruct Ha as [_ _ _ _ Hf]; rewrite Hf in Hg by lia; done|].
    rewrite lookup_insert_eq in Hg. injection Hg as <-. unfold g in *. by destruct (grant (session w)).
  - intros conn Hc. destruct (H6 conn Hc) as (c & ? & ?). exists c. split; [done|]. intros. rewrite elem_of_cons. naive_solver.
Qed.

Lemma record_holding w held o : holding w held -> holding (perform RecordConnection o w).1 (Row :: held).
Proof.
  intros Hh. cbn [perform]. unfold CreateConnection. destruct (_ || _) eqn:E.
  { cbn. eapply holding_weaken; [|done]. intros. by apply list_elem_of_further. }
  apply orb_false_iff in E as [_ E]. apply bool_decide_eq_false in E.
  destruct Hh as [H1 H2 H3 H4 (a & Ha & H5) H6]. split; cbn; try (intros; apply list_elem_of_further; auto; fail).
  - exists a. split; [done|]. intros h Hhd. destruct (H5 h Hhd). split; [done|]. intros g Hg. rewrite elem_of_cons. naive_solver.
  - intros conn [= <-]. rewrite lookup_insert_eq. eexists. split; [done|]. intros _. left. apply list_elem_of_here.
Qed.

Lemma perform_holding st o w held :
  holding w held ->
  forallb (fun r => negb (holds r held)) (acquires st) = true ->
  (st = Admit -> Handle ∉ held) ->
  let '(w', ok) := perform st o w in
  todo w' = todo w /\ deferred w' = deferred w /\ holding w' (acquires st ++ held)%list /\ (ok = false -> may_fail st = true /\ holding w' held).
Proof.
  intros Hh Hf Ha. destruct (Hh) as [H1 H2 H3 H4 H5 H6].
  assert (forall s r, holding w held -> (client s = Opened -> Client ∈ r :: held) -> (upstream s = Opened -> Upstream ∈ r :: held) ->
            (dump s = Opened -> DumpFile ∈ r :: held) -> (watching s = true -> Watchdog ∈ r :: held) -> revocation s = revocation (session w) ->
            grant s = grant (session w) -> connection s = connection (session w) -> unclosed s = unclosed (session w) ->
            holding (put_session s w) (r :: held)) as Hone.
  { intros s r _ ? ? ? ? ? ? ? ?. apply holding_session; auto. eapply holding_weaken; [|done]. intros. by apply list_elem_of_further. }
  destruct st; cbn [perform acquires may_fail].
  - by split_and!.
  - split_and!; try done; try (apply holding_session; auto). intros _. split; [done|]. apply holding_session; auto.
  - pose proof (register_holding w held Hh) as Hr. cbn [perform] in Hr. destruct (Register _ _) as [reg h]. by split_and!.
  - destruct (o_ok o); [|split_and!; try done; eapply holding_weaken; [|done]; intros; by apply list_elem_of_further].
    split_and!; try done. apply Hone; auto; cbn; intros; try (apply list_elem_of_further; auto; fail). apply list_elem_of_here.
  - by split_and!.
  - pose proof (record_holding w held o Hh) as Hr. cbn [perform] in Hr. split_and!; try done.
    all: destruct (CreateConnection _ _ _ _ _ _ _ _) as [? []]; done.
  - destruct (o_ok o && _); (split_and!; try done).
    + apply Hone; auto; cbn; intros; try (apply list_elem_of_further; auto; fail). apply list_elem_of_here.
    + eapply holding_weaken; [|done]. intros. by apply list_elem_of_further.
  - split_and!; try done. apply Hone; auto; cbn; intros; try (apply list_elem_of_further; auto; fail). apply list_elem_of_here.
  - by split_and!.
Qed.

(** *** The deferred calls *)

Definition without (c : cleanup) (held : list resource) : list resource :=
  List.filter (fun r => negb (bool_decide (gives_back c = Some r))) held.

Lemma elem_of_without c held r : r ∈ without c held <-> r ∈ held /\ gives_back c <> Some r.
Proof. unfold without. rewrite !list_elem_of_In, filter_In, negb_true_iff, bool_decide_eq_false. done. Qed.

Lemma covers_without c ds held : forallb (covers (c :: ds)) held = true -> forallb (covers ds) (without c held) = true.
Proof.
  rewrite !forallb_forall. intros H r Hr. apply list_elem_of_In, elem_of_without in Hr as [Hr Hg]. apply list_elem_of_In in Hr. specialize (H r Hr).
  cbn [covers] in H. rewrite bool_decide_false in H by done. by destruct c, r.
Qed.
Lemma forget_without ds held : forallb (covers (ForgetGrant :: ds)) held = true -> Handle ∉ held.
Proof. rewrite forallb_forall. intros H Hr%list_elem_of_In. by apply H in Hr. Qed.

Lemma put_session_id w : put_session (session w) w = w.
Proof. by destruct w. Qed.

Lemma deregister_holding o w held :
  holding w held ->
  holding (run_cleanup DeregisterHandle o w) (without DeregisterHandle held) /\ todo (run_cleanup DeregisterHandle o w) = todo w.
Proof.
  intros [H1 H2 H3 H4 (a & Ha & H5) H6].
  assert (forall r, r ∈ held -> r <> Handle -> r ∈ without DeregisterHandle held) as Hin by (intros r ? Hr; apply elem_of_without; cbn; naive_solver).
  assert (forall conn, connection (session w) = Some conn -> exists c, connections (db w) !! conn = Some c /\
    (c_DisconnectedAt c = None -> Row ∈ without DeregisterHandle held \/ unclosed (session w) = true)) as Hrow.
  { intros conn Hc. destruct (H6 conn Hc) as (c & ? & ?). exists c. naive_solver. }
  cbn [run_cleanup]. destruct (revocation (session w)) as [h|] eqn:Er; [destruct (grant (session w)) as [g|] eqn:Eg|].
  - split; [|done]. split; cbn; auto. pose proof (step_refines _ _ (OpDeregister g h) Ha) as [_ Hr]. cbn [Revocation.step Abstract.step fst] in Hr.
    eexists. split; [exact Hr|]. cbn. intros h' Hh'. rewrite Er in Hh'. injection Hh' as <-. destruct (H5 h eq_refl) as [Hi Hl]. split; [done|].
    intros g' Hg'. exfalso. destruct (decide _) as [E|E]; [by rewrite lookup_delete_eq in Hg'|]. destruct (Hl g' Hg') as [_ [= ->]]. done.
  - split; [|done]. split; auto. exists a. split; [done|]. intros h' Hh'. rewrite Er in Hh'. injection Hh' as <-. destruct (H5 h eq_refl) as [Hi Hl].
    split; [done|]. intros g' Hg'. by destruct (Hl g' Hg').
  - destruct (grant (session w)); (split; [|done]; split; auto; exists a; split; [done|]; intros h' Hh'; by rewrite Er in Hh').
Qed.

Lemma close_row_holding o w held :
  holding w held -> holding (run_cleanup CloseRow o w) (without CloseRow held) /\ todo (run_cleanup CloseRow o w) = todo w.
Proof.
  intros [H1 H2 H3 H4 (a & Ha & H5) H6].
  assert (forall r, r ∈ held -> r <> Row -> r ∈ without CloseRow held) as Hin by (intros r ? Hr; apply elem_of_without; cbn; naive_solver).
  assert (exists a, refines (registry w) a /\ forall h, revocation (session w) = Some h -> (h < Abstract.issued a)%nat /\
    (forall g, Abstract.live a !! h = Some g -> Handle ∈ without CloseRow held /\ grant (session w) = Some g)) as Hhd.
  { exists a. split; [done|]. intros h Hh. destruct (H5 h Hh) as [? Hl]. split; [done|]. intros g Hg. destruct (Hl g Hg). auto. }
  cbn [run_cleanup]. destruct (connection (session w)) as [conn|] eqn:Ec; [|split; [|done]; split; auto; intros conn Hc; by rewrite Ec in Hc].
  split; [|done]. split; cbn; auto. intros conn' Hc. rewrite Ec in Hc. injection Hc as <-. destruct (H6 conn eq_refl) as (c & Hc & _).
  unfold CloseConnection. destruct (statement w o 0); cbn; [|eauto]. rewrite Hc. destruct (c_DisconnectedAt c) eqn:Ed; cbn.
  - exists c. split; [done|]. congruence.
  - rewrite lookup_insert_eq. eexists. split; [done|]. done.
Qed.

Lemma cleanup_holding c o w held ds :
  holding w held -> forallb (covers (c :: ds)) held = true ->
  holding (run_cleanup c o w) (without c held) /\ todo (run_cleanup c o w) = todo w.
Proof.
  intros Hh Hc. destruct (Hh) as [H1 H2 H3 H4 (a & Ha & H5) H6].
  assert (forall s, (client s = Opened -> Client ∈ without c held) -> (upstream s = Opened -> Upstream ∈ without c held) ->
            (dump s = Opened -> DumpFile ∈ without c held) -> (watching s = true -> Watchdog ∈ without c held) ->
            revocation s = revocation (session w) -> (grant s = grant (session w) \/ Handle ∉ held) -> connection s = connection (session w) ->
            unclosed s = unclosed (session w) -> gives_back c <> Some Handle -> gives_back c <> Some Row -> holding (put_session s w) (without c held)) as Hs.
  { intros s ? ? ? ? Er Eg Ec Eu Hh' Hr'. split; cbn; rewrite ?Er, ?Ec, ?Eu; auto.
    - exists a. split; [done|]. intros h Hhd. destruct (H5 h Hhd) as [Hi Hl]. split; [done|]. intros g Hg. destruct (Hl g Hg).
      rewrite elem_of_without. destruct Eg as [->|?]; done.
    - intros conn Hconn. destruct (H6 conn Hconn) as (c' & ? & ?). exists c'. split; [done|]. rewrite elem_of_without. naive_solver. }
  assert (forall r, r ∈ held -> gives_back c <> Some r -> r ∈ without c held) as Hin by (intros; by apply elem_of_without).
  destruct c; cbn [run_cleanup].
  - exact (deregister_holding o w held Hh).
  - split; [|done]. apply Hs; auto. right. by eapply forget_without.
  - destruct (dump (session w)) eqn:Ed; (split; [|done]);
      [rewrite <- (put_session_id w); apply Hs; auto; congruence|apply Hs; cbn; auto; done|rewrite <- (put_session_id w); apply Hs; auto; congruence].
  - assert (forall w', holding w' held -> holding w' (without FlushBytes held)) as Hw by (intros w'; apply holding_weaken; auto).
    destruct (connection (session w)); [|by split; auto]. destruct (_ <? _); [|by split; auto]. split; [|done].
    apply Hw, holding_db; eauto using same_registry. by apply bumped.
  - exact (close_row_holding o w held Hh).
  - destruct (upstream (session w)) eqn:Ed; (split; [|done]);
      [rewrite <- (put_session_id w); apply Hs; auto; congruence|apply Hs; cbn; auto; done|rewrite <- (put_session_id w); apply Hs; auto; congruence].
  - split; [|done]. apply Hs; cbn; auto; done.
  - split; [|done]. apply Hs; cbn; auto; done.
Qed.

(** *** The whole session *)

Definition safe (w : World) : Prop := exists held, guarded (todo w) held (deferred w) = true /\ holding w held.

Lemma advance_safe o w w' : advance o w = Some w' -> safe w -> safe w'.
Proof.
  unfold advance. intros H (held & Hg & Hh). destruct (todo w) as [|[st f|cs] rest] eqn:Et.
  - destruct (deferred w) as [|c ds] eqn:Ed; simplify_eq. cbn [guarded] in Hg.
    destruct (cleanup_holding c o w held ds Hh Hg) as [Hh' _]. exists (without c held). split; [by apply covers_without|]. by apply holding_goes_on.
  - cbn [guarded] in Hg. rewrite !andb_true_iff in Hg. destruct Hg as [[[Hf Ha] Hadm] Hg].
    pose proof (perform_holding st o w held Hh Ha) as Hp. destruct (perform st o w) as [w1 ok].
    destruct Hp as (_ & _ & Hh1 & Hno); [by intros ->; apply negb_true_iff, holds_false in Hadm|]. destruct ok; simplify_eq.
    + exists (acquires st ++ held)%list. split; [done|]. by apply holding_goes_on.
    + destruct (Hno eq_refl) as [Hm Hh2]. rewrite Hm in Hf. exists held. split; [done|]. by apply holding_goes_on.
  - simplify_eq. exists held. split; [done|]. by apply holding_goes_on.
Qed.

Lemma step_safe e w w' : step e w = Some w' -> safe w -> safe w'.
Proof.
  intros H (held & Hg & Hh). assert ((exists o, e = Advance o) \/ forall o, e <> Advance o) as [[o ->]|Hn] by (destruct e; eauto; by right).
  - cbn in H. apply advance_safe in H; [done|]. by exists held.
  - destruct (other_events e w w' held H) as (Hh' & Et & Ed); [done|done|]. exists held. by rewrite Et, Ed.
Qed.

Lemma run_safe es w w' : run es w = Some w' -> safe w -> safe w'.
Proof.
  revert w. induction es as [|e es IH]; intros w H S; [by simplify_eq/=|]. cbn in H.
  destruct (step e w) eqn:E; [|done]. eauto using step_safe.
Qed.

Lemma start_safe os d script : guarded script [Client] [] = true -> safe (start_world (Revocation.run NewRevocationRegistry os) d script).
Proof.
  intros Hg. exists [Client]. split; [done|]. split; cbn; try done; [by intros _; apply list_elem_of_here|].
  eexists. split; [apply run_refines, init_refines|]. done.
Qed.

(** Nothing is left of a session: both connections, the dump and the watchdog are shut,
    no set of the registry has its handle, and its row, if it has one, is closed unless
    the statement that closes it failed. *)
Definition released (w : World) : Prop :=
  client (session w) <> Opened /\ upstream (session w) <> Opened /\ dump (session w) <> Opened /\ watching (session w) = false /\
  (forall h m g, revocation (session w) = Some h -> w_sessions (registry w) = Some m -> h ∉ members m g) /\
  (forall conn, connection (session w) = Some conn ->
     exists c, connections (db w) !! conn = Some c /\ (c_DisconnectedAt c <> None \/ unclosed (session w) = true)).

Lemma safe_released w : safe w -> finished w = true -> released w.
Proof.
  unfold finished. intros (held & Hg & [H1 H2 H3 H4 (a & Ha & H5) H6]) Hf.
  destruct (todo w); [|done]. destruct (deferred w); [|done]. destruct held as [|r held]; [|done].
  assert (forall r : resource, r ∉ []) as Hno by (intros ?; apply not_elem_of_nil).
  split_and!; try (intros ?; by eapply Hno; eauto).
  - destruct (watching (session w)); [|done]. exfalso. by eapply Hno, H4.
  - intros h m g Hh Hm Hin. destruct Ha as [(m' & Hm' & Hmem & _) _ _ _ _]. rewrite Hm in Hm'. injection Hm' as <-.
    apply Hmem in Hin. destruct (H5 h Hh) as [_ Hl]. destruct (Hl g Hin) as [Hx _]. by eapply Hno.
  - intros conn Hc. destruct (H6 conn Hc) as (c & Hcc & Hu). exists c. split; [done|]. destruct (c_DisconnectedAt c); [by left|right].
    destruct (Hu eq_refl) as [Hx|?]; [exfalso; by eapply Hno|done].
Qed.

(** *** Statements that go through *)

Definition healthy (e : event) : Prop :=
  match e with CancelContext => False | Advance o => forall i, o_sql o i = true | _ => True end.

Lemma healthy_step e w w' :
  step e w = Some w' -> healthy e -> cancelled w = false /\ unclosed (session w) = false -> cancelled w' = false /\ unclosed (session w') = false.
Proof.
  intros H He [Hc Hu]. destruct e as [o|g b o|op| | |n|o]; cbn in H; try done.
  - unfold advance in H. destruct (todo w) as [|[st f|cs] rest]; [destruct (deferred w) as [|c ds]; [done|]| |]; simplify_eq.
    + cbn. destruct c; cbn [run_cleanup]; repeat case_match; cbn; try done. unfold statement. rewrite He, Hc. done.
    + destruct (perform st o w) as [w1 ok] eqn:Ep. assert (cancelled w1 = false /\ unclosed (session w1) = false) as [??]
        by (destruct st; cbn [perform] in Ep; repeat case_match; simplify_eq; done).
      by destruct ok; simplify_eq.
    + done.
  - unfold revoke_grant in H. repeat case_match; simplify_eq; done.
  - repeat case_match; simplify_eq; done.
  - repeat case_match; simplify_eq; done.
  - repeat case_match; simplify_eq; done.
  - repeat case_match; simplify_eq; done.
Qed.

Lemma healthy_run es w w' :
  run es w = Some w' -> Forall healthy es -> cancelled w = false /\ unclosed (session w) = false -> cancelled w' = false /\ unclosed (session w') = false.
Proof.
  revert w. induction es as [|e es IH]; intros w H Hh H0; [by simplify_eq/=|]. cbn in H. apply Forall_cons in Hh as [He Hh].
  destruct (step e w) eqn:E; [|done]. eauto using healthy_step.
Qed.

(** Nothing leaks from a PostgreSQL, MySQL or Oracle session.  Whatever stage fails,
    whatever the rest of the process does in between, when its goroutine has returned it
    holds no connection, no dump, no watchdog and no place in the registry; and if every
    statement went through on a live context, the row of the connection is closed. *)
Theorem session_releases p os d es w :
  p <> MongoDB ->
  run es (start_world (Revocation.run NewRevocationRegistry os) d (Run p)) = Some w -> finished w = true ->
  released w /\
  (Forall healthy es -> forall conn, connection (session w) = Some conn ->
     exists c, connections (db w) !! conn = Some c /\ c_DisconnectedAt c <> None).
Proof.
  intros Hp H Hf. assert (guarded (Run p) [Client] [] = true) as Hg by by destruct p.
  assert (released w) as Hr by eauto using safe_released, run_safe, start_safe. split; [done|]. intros Hh conn Hc.
  assert (cancelled w = false /\ unclosed (session w) = false) as [_ Hu].
  { by eapply healthy_run; [exact H|exact Hh|split]. }
  destruct Hr as (_ & _ & _ & _ & _ & Hrow). destruct (Hrow conn Hc) as (c & ? & [?|?]); [by exists c|congruence].
Qed.

(** *** Shutting down *)

Definition row_open (conn : uuid) (n : Z) (w : World) : Prop :=
  cancelled w = true /\ connection (session w) = Some conn /\
  exists c, connections (db w) !! conn = Some c /\ c_DisconnectedAt c = None /\ c_BytesTransferred c = n.

Lemma cancelled_statement w o i : cancelled w = true -> statement w o i = false.
Proof. unfold statement. intros ->. apply andb_false_r. Qed.

Lemma row_open_step conn n e w w' : step e w = Some w' -> row_open conn n w -> row_open conn n w'.
Proof.
  intros H (Hc & Hs & Hrow). unfold row_open. destruct e as [o|g b o|op| | |k|o]; cbn in H.
  - unfold advance in H. destruct (todo w) as [|[st f|cs] rest]; [destruct (deferred w) as [|c ds]; [done|]| |]; simplify_eq; cbn.
    + destruct c; cbn [run_cleanup]; rewrite ?Hs; repeat case_match; cbn;
        unfold IncrementConnectionBytes, update_connection, CloseConnection; rewrite ?cancelled_statement by done; by split_and!.
    + destruct (perform st o w) as [w1 ok] eqn:Ep. assert (row_open conn n w1) as (? & ? & ?).
      { unfold row_open. destruct st; cbn [perform] in Ep; unfold CreateConnection in Ep; rewrite ?cancelled_statement in Ep by done; cbn in Ep;
          repeat case_match; simplify_eq; by split_and!. }
      by destruct ok; simplify_eq.
    + by split_and!.
  - unfold revoke_grant in H. pose proof (revoke_keeps_rows (o_sql o) (db w) g b (o_now o)) as Er.
    destruct (RevokeGrant _ _ _ _ _) as [d r] eqn:E; cbn in Er. destruct r; simplify_eq; cbn; rewrite Er; by split_and!.
  - repeat case_match; simplify_eq; cbn; by split_and!.
  - simplify_eq; cbn. by split_and!.
  - repeat case_match; simplify_eq; cbn; by split_and!.
  - repeat case_match; simplify_eq; cbn; by split_and!.
  - rewrite Hs in H. simplify_eq. cbn. unfold IncrementConnectionStats, update_connection. rewrite cancelled_statement by done. by split_and!.
Qed.

(** A shutdown leaves the rows of the live sessions open.  The context that is
    cancelled first is the one their tear-down writes on: from then on no schedule closes
    the row of a session or adds its last bytes to it. *)
Theorem shutdown_leaves_rows es w w' conn c :
  cancelled w = true -> connection (session w) = Some conn -> connections (db w) !! conn = Some c -> c_DisconnectedAt c = None ->
  run es w = Some w' ->
  exists c', connections (db w') !! conn = Some c' /\ c_DisconnectedAt c' = None /\ c_BytesTransferred c' = c_BytesTransferred c.
Proof.
  intros Hc Hs Hrow Hd H. assert (row_open conn (c_BytesTransferred c) w) as Ho by (split_and!; eauto). clear Hc Hs Hrow Hd.
  revert w H Ho. induction es as [|e es IH]; intros w H Ho; [simplify_eq/=; by destruct Ho as (_ & _ & ?)|]. cbn in H.
  destruct (step e w) eqn:E; [|done]. eauto using row_open_step.
Qed.

(** ** Sessions *)

Module SampleLives.
Definition fine : outcome :=
  {| o_ok := true; o_grant := Some 10%N; o_uid := 40%N; o_user := 1%N; o_database := 2%N; o_ip := "10.0.0.1"; o_sql := fun _ => true; o_now := 5 |}.
Definition fails : outcome :=
  {| o_ok := false; o_grant := None; o_uid := 40%N; o_user := 1%N; o_database := 2%N; o_ip := "10.0.0.1"; o_sql := fun _ => true; o_now := 6 |}.
Definition the_grant : AccessGrant :=
  {| g_UID := 10%N; g_UserID := 1%N; g_DatabaseID := 2%N; g_Controls := []; g_GrantedBy := 3%N; g_StartsAt := 0; g_ExpiresAt := 100; g_RevokedAt := None;
     g_RevokedBy := None; g_MaxQueryCounts := None; g_MaxBytesTransferred := None; g_CreatedAt := 0; g_QueryCount := 0; g_BytesTransferred := 0 |}.
Definition tables : DB := {| access_grants := {[ 10%N := the_grant ]}; grant_definitions := ∅; grant_requests := ∅; connections := ∅; queries := ∅ |}.
Definition begin (p : Proxy) : World := start_world (Revocation.run NewRevocationRegistry []) tables (Run p).
Definition acts (n : nat) : list event := repeat (Advance fine) n.
Definition after (p : Proxy) (es : list event) : World := default (begin p) (run es (begin p)).
Definition row_closed (w : World) : option bool := (fun c => bool_decide (is_Some (c_DisconnectedAt c))) <$> connections (db w) !! 40%N.
Definition told (w : World) : bool := Revoked (registry w) (revocation (session w)).

(** A MySQL session from the accept to the end. *)
Example whole_life :
  let w := after MySQL (acts 14 ++ [Exchange 70] ++ acts 8)%list in
  finished w = true /\ row_closed w = Some true /\ (c_BytesTransferred <$> connections (db w) !! 40%N) = Some 70 /\ upstream (session w) = Shut.
Proof. vm_compute. split_and!; reflexivity. Qed.

(** A MongoDB client that is gone when its login is answered leaves the upstream
    connection and its row behind, for good. *)
Example mongodb_reply_leak :
  let w := after MongoDB (acts 7 ++ [Advance fails] ++ acts 2)%list in
  finished w = true /\ upstream (session w) = Opened /\ row_closed w = Some false.
Proof. vm_compute. split_and!; reflexivity. Qed.
(** With the two deferred calls before the answer nothing would be left. *)
Example mongodb_repaired :
  guarded ([Defer [CloseClient]; Defer [DeregisterHandle]; Do Negotiate []; Do Admit []; Do RegisterHandle []; Do Dial [DeregisterHandle; ForgetGrant];
    Do RecordConnection []; Defer [CloseUpstream]; Defer [FlushBytes; CloseRow]; Do Negotiate []; Do StartDump []; Defer [CloseDump];
    Defer [CancelWatch]; Do StartWatch []; Do Relay [CloseUpstream; CloseClient]])%list [Client] [] = true.
Proof. reflexivity. Qed.

(** A shutdown during a session: everything is given back but the row and the bytes. *)
Example shutdown_during :
  let w := after MySQL (acts 14 ++ [Exchange 70; CancelContext] ++ acts 8)%list in
  finished w = true /\ row_closed w = Some false /\ (c_BytesTransferred <$> connections (db w) !! 40%N) = Some 0.
Proof. vm_compute. split_and!; reflexivity. Qed.

(** A grant that is revoked while a PostgreSQL session opens its upstream connection is
    not noticed: the handle is registered later and nothing signals it.  MySQL registers
    before it dials. *)
Example revoked_while_dialling :
  told (after PostgreSQL (acts 4 ++ [Revokes 10%N 3%N fine] ++ acts 7)%list) = false /\
  todo (after PostgreSQL (acts 4 ++ [Revokes 10%N 3%N fine] ++ acts 7)%list) = [Do Relay []] /\
  told (after MySQL (acts 5 ++ [Revokes 10%N 3%N fine] ++ acts 9)%list) = true.
Proof. vm_compute. split_and!; reflexivity. Qed.
End SampleLives.

Lemma session_releases_witness :
  released (SampleLives.after MySQL (SampleLives.acts 14 ++ [Exchange 70] ++ SampleLives.acts 8)%list).
Proof.
  apply (session_releases MySQL [] SampleLives.tables (SampleLives.acts 14 ++ [Exchange 70] ++ SampleLives.acts 8)%list); [discriminate| |];
    vm_compute; reflexivity.
Defined.

Lemma shutdown_leaves_rows_witness :
  exists c', connections (db (SampleLives.after MySQL (SampleLives.acts 14 ++ [CancelContext] ++ SampleLives.acts 8)%list)) !! 40%N = Some c' /\
    c_DisconnectedAt c' = None.
Proof.
  set (w0 := SampleLives.after MySQL (SampleLives.acts 14 ++ [CancelContext])%list).
  set (c0 := default {| c_UID := 0%N; c_UserID := 0%N; c_DatabaseID := 0%N; c_SourceIP := EmptyString; c_ConnectedAt := 0; c_LastActivityAt := 0;
                        c_DisconnectedAt := None; c_Queries := 0; c_BytesTransferred := 0 |} (connections (db w0) !! 40%N)).
  destruct (shutdown_leaves_rows (SampleLives.acts 8) w0 (SampleLives.after MySQL (SampleLives.acts 14 ++ [CancelContext] ++ SampleLives.acts 8)%list) 40%N c0)
    as (c' & Hc & Hd & _); [vm_compute; reflexivity..|]. exists c'. split; [exact Hc|exact Hd].
Defined.
